(* ===== verification/_CoqProject ===== *)
-Q . S2P
Prelude.v
Word.v
Savestate.v
ArmState.v
ArmFlags.v
ArmMode.v
ArmShift.v
ArmData.v
ArmTransfer.v
ArmExec.v
ArmInv.v
ArmInvExec.v
ArmDataSpec.v
ArmBanks.v
ArmUser.v
ArmControl.v
ArmLoop.v
ArmMul.v
ArmStack.v
ArmWord.v
ArmFlat.v
ArmTheorems.v
MemState.v
MemPhys.v
Cp15.v
MemVirt.v
MemSpec.v
MmuSpec.v
MemCoherent.v
MemTlb.v
MemRefine.v
MemAccess.v
MemTransparent.v
MemFlush.v
Cp15Spec.v
MemSafe.v
MemBoard.v
MemDebug.v
SavestateSpec.v
MemSave.v
MemMachine.v
MemTheorems.v
ArmSave.v
SnapshotTheorems.v
DynOps.v
DynSpec.v
DynAbort.v
DynLoop.v
DynPc.v
DynTheorems.v
Rv32.v
Rv32Isa.v
Rv32Alu.v
Rv32Step.v
Rv32Run.v
Rv32Hook.v
CoproBus.v
Rv32Lift.v
CoproBusSpec.v
CoproLog.v
CoproHook.v
CoproFlat.v
OpenBus.v
CoproCard.v
CoproCardSpec.v
CoproProgram.v
CoproTheorems.v
Cmos.v
IomdState.v
Keyboard.v
Iomd.v
CmosSpec.v
CmosSafe.v
CmosContents.v
IomdTimer.v
IomdLines.v
IomdBus.v
KeyboardSpec.v
IoMachine.v
IoTheorems.v
