(* ===== verification/Prelude.v ===== *)
(** RPCEmu Extended: a verification library.

    RPCEmu Extended emulates the Acorn Risc PC: an ARM processor with its MMU, the
    memory and the I/O of the machine, and cards, one of which carries a second
    processor. This library models its core logic, function by function, as
    computations on explicit states, and proves what they promise.

    ** Conventions

    C unsigned integers are [Z] with their wrap-around written out ([u8], [u32],
    [add32], ..., Word.v); arrays are finite maps (registers, tables) or lists of
    bytes (buffers). A function that works on global state is a value of
    [M S A] below, from the state to its result and the next state. [None] is the
    end of the process: [fatal()], or, where a file says so, an access outside an
    array. A definition has the name of its C function where there is one, and a
    piece of a long function the name of what it does; the definitions of a loop
    body or of a case of a [switch] are composed as the C code has them.

    ** The processor of the machine (src/src/arm.c, arm.h, arm_common.c, arm_common.h)

    - ArmState.v: [ARMState], the globals of arm.c, and the interfaces [MemSys]
      (memory) and [HostSys] (FPA, SWIs the host answers, debugger) the core is
      written against. ArmFlags.v also
      has the hooks and services of [HostSys].
    - ArmFlags.v, ArmMode.v, ArmShift.v, ArmData.v, ArmTransfer.v, ArmExec.v: flags and conditions, modes and exceptions, the shifter, every case
      of the instruction switch, and [arm_exec].
    - ArmInv.v, ArmInvExec.v (invariant of the state), ArmDataSpec.v, ArmMul.v (ALU
      and multiplies as arithmetic), ArmBanks.v (banked registers as one file per
      mode), ArmUser.v (User mode is closed), ArmControl.v, ArmLoop.v (conditions,
      branches, events, the loop), ArmWord.v, ArmStack.v (transfers over an
      abstract view of memory), ArmFlat.v (a concrete machine), ArmTheorems.v.

    ** Memory (mem.c, mem.h, cp15.c)

    - MemState.v: the globals, host memory as one array of bytes, and the devices as
      an interface [IoDev]. MemPhys.v: physical accesses. Cp15.v: the MMU: table
      walk, permissions, TLB, fast maps, registers, fetch. MemVirt.v: the virtual
      accesses, and the instance of [MemSys] they make up.
    - MmuSpec.v: the MMU of the architecture as a function of the tables.
      MemSpec.v, MemCoherent.v, MemTlb.v, MemRefine.v, MemAccess.v,
      MemTransparent.v: physical memory is an array; the caches cohere with the
      tables, and so every access through any level of them is the reference's.
      MemFlush.v, Cp15Spec.v: flushing, register writes, fetching.
    - MemBoard.v (the heap, what is allocated and fitted, and that no access leaves
      the blocks that were allocated), MemDebug.v (the
      debugger's accesses), MemSafe.v (the instance meets what the core asks),
      MemMachine.v (a concrete memory), MemTheorems.v.

    ** Snapshots (savestate.c, and the chunks of arm_common.c, cp15.c, mem.c)

    - Savestate.v: fields, run-length coding, CRC. MemSave.v, ArmSave.v: the chunks.
      SavestateSpec.v, SnapshotTheorems.v: what is saved is what is loaded, and the
      reader survives any file.

    ** The recompiler build of the core (arm_dynarec.c, arm_dynarec_ops.h)

    - DynOps.v: the operations of the build and their table; DynLoop.v: [arm_exec]
      where it interprets blocks, a block is a run of steps, and a block without an
      end. DynSpec.v: the two builds do the same; DynAbort.v, DynPc.v: what an
      operation reports, when R15 may be stale. DynTheorems.v.

    ** The second processor slot and the co-processor card (openbus.c, openbus_stub.c, copro/)

    - Rv32.v: the RV32IM processor (copro/cpu_rv32i.c) over an interface [CpuMem] to
      its array or its hook. Rv32Isa.v: the instruction set of the manual, with its
      encoding. Rv32Alu.v, Rv32Step.v, Rv32Run.v: the one
      steps and runs as the other, but for a jump to a misaligned target, which traps
      in the manual and retires here ([late_step]). Rv32Hook.v, Rv32Lift.v: the
      processor behind any hook that leaves the processor alone, what a stalled access
      or fetch leaves, and the processor over any memory that holds its own.
    - CoproBus.v: the address decode (copro/copro_bus.c): regions, the log of writes,
      stalls. CoproBusSpec.v, CoproLog.v: it stays in its arrays, and the log is a
      queue. CoproHook.v, CoproFlat.v: the processor on the decode, where accesses
      stall and where they do not; without a region map it is the processor on the
      first 64K of the card's RAM.
    - OpenBus.v: the slot and the test card. CoproCard.v: the card
      (copro/openbus_coproc.c) over any row of the table of cores ([CoreOps]), and the
      row of the RV32IM. CoproCardSpec.v, CoproProgram.v: the interrupt
      line, the slices of time, a program from loading to its result.
      CoproTheorems.v.

    ** The clock chip, the I/O controller, the keyboard and the mouse (cmos.c, iomd.c, keyboard.c)

    - Cmos.v: the battery-backed memory, the two chips on the two-wire bus, and its
      state machine [cmosi2cchange]. IomdState.v: the structures of iomd.h and of
      keyboard.c in one state [Sys], and the rest of the machine as an interface
      [IomdDev], with the choice of a build with assertions or without ([ndebug]).
      Keyboard.v: the PS/2 devices and the mouse SWIs.
      Iomd.v: interrupts, timers, registers, reset.
    - CmosSpec.v: the bus from its master, whose transactions are calls of the chips.
      CmosSafe.v (any movement of the pins), CmosContents.v (bytes, checksum,
      snapshot). IomdTimer.v (the timers as arithmetic), IomdLines.v (the interrupt
      lines), IomdBus.v (the bus through the I/O control register, and the controller
      behind the memory system), KeyboardSpec.v (the queue as a list, keys as what the
      guest reads, snapshots), IoMachine.v (a concrete machine), IoTheorems.v.

    ** How they fit

    The core calls memory and the host through [MemSys] and [HostSys]; MemVirt.v
    and MemSafe.v give the first and prove its laws, so the theorems on the core hold
    of the core on this memory system. Memory calls the devices through [IoDev]. The
    two builds of the core share everything but the instruction bodies and the loop.
    The processor on the card calls the decode through [CpuMem]; the card calls the
    processor through [CoreOps] and the host through [OpenBusHost]; the host calls
    the card through [openbus_master]. The I/O controller drives the bus of the clock
    chip and the PS/2 devices, which raise its interrupts; all of them set
    [arm.event], the lines the core looks at. IomdBus.v makes the controller one of the
    devices of [IoDev], so that an access of the processor to a physical address of it
    is the access to its register.

    ** Theorems

    ArmTheorems.v: the invariant, confinement of User mode, results of data
    processing, modes and registers, exceptions and returns.
    MemTheorems.v: reads, writes, faults and fetches are those of the tables;
    stores of User mode are confined; register writes keep coherence; accesses stay
    in the blocks that were allocated, through any sequence of resets. SnapshotTheorems.v: round
    trips and the safety of the reader. DynTheorems.v: equality of the two builds.
    CoproTheorems.v: refinement of the manual, end to end through the registers of
    the card; safety of the decode, the queue, stalls, RUNFOR and the interrupt
    line. IoTheorems.v: transactions on the bus, the memory and its checksum, the
    timers in slices, the interrupt lines, keys from the press to the guest, the
    snapshots. The places where the code does not keep its promise are theorems too.
    Each theorem with hypotheses has a witness that applies it to a concrete state.

    ** Bounds and fuel

    [arm_exec] makes at most 200 turns, the bound of its source. A block of the
    recompiler build is interpreted with a fuel that the theorems quantify over, with
    enough for a result where they state one. The run-length decoder has the length
    of its buffer, which each record shortens; [rv32i_run] its budget of cycles, of
    which each turn that goes on uses one; DMA its budget or its words.
    The reload loop of a timer has one turn for each latch the counter is below zero,
    and one more ([timer_fuel]), which the closed form shows to be enough.

    ** Not modelled

    The generators of host code and running what they emit (codegen_*.c): the
    meaning of host machine code is outside the repository. [blockend], which the
    interpreter build only writes, and [resetcodeblocks]. The devices behind the I/O
    addresses, the FPA and the services of the host are interfaces: VIDC20, the i8042
    of the Phoebe, the Super I/O, discs, sound, USB, HostFS and the network are host
    I/O, or carried by it. The other processors of the card (copro/cpu_z80.c and others) are
    rows the model of the card is parametric in; where the union they share puts the
    ports of one over the state of another is a parameter, since the compiler
    chooses it. The allocator of the host is a parameter, of which [malloc_sound] asks
    that a block it gives is apart from the others. Log lines, names shown to the user and the GUI. *)

From Stdlib Require Export ZArith Lia Bool Btauto.
From stdpp Require Export base tactics option list numbers gmap functions.

#[global] Open Scope Z_scope.

(** * The state monad of the C code

    A C function that works on global state [S] and returns an [A] is a
    function from the state to its result and the new state; [None] is the
    end of the process ([fatal()], [exit()]). *)

Definition M (S A : Type) : Type := S → option (A * S).

#[export] Instance M_ret S : MRet (M S) := λ A a s, Some (a, s).
#[export] Instance M_bind S : MBind (M S) := λ A B f m s,
  match m s with
  | Some (a, s') => f a s'
  | None => None
  end.

Definition gets {S A} (f : S → A) : M S A := λ s, Some (f s, s).
Definition modify {S} (f : S → S) : M S unit := λ s, Some (tt, f s).
Definition fatal {S A} : M S A := λ _, None.
Definition when {S} (b : bool) (m : M S unit) : M S unit :=
  if b then m else mret tt.

(** Runs a computation on a part of the state, as a C function that only
    touches one global structure. *)
Definition zoom {S T A} (get : S → T) (put : T → S → S) (m : M T A) : M S A :=
  λ s, match m (get s) with
       | Some (a, t) => Some (a, put t s)
       | None => None
       end.

(** [for c in l: body c] with no early exit. *)
Fixpoint mfor {S A} (l : list A) (body : A → M S unit) : M S unit :=
  match l with
  | [] => mret tt
  | x :: l' => body x;; mfor l' body
  end.

(** [for c in l: body c], left as soon as [body] answers [true] (a [break] or
    a [goto]); the result says whether it did. *)
Fixpoint mfor_until {S A} (l : list A) (body : A → M S bool) : M S bool :=
  match l with
  | [] => mret false
  | x :: l' => stop ← body x; if (stop : bool) then mret true else mfor_until l' body
  end.

(** A C [switch] whose cases do not fall through: the body of the first case one
    of whose labels is [x]. *)
Fixpoint switch {A} (x : Z) (cases : list (list Z * A)) (dflt : A) : A :=
  match cases with
  | [] => dflt
  | (labels, body) :: rest =>
      if existsb (Z.eqb x) labels then body else switch x rest dflt
  end.

Section monad_laws.
Context {S : Type}.

Lemma bind_ret_l {A B} (a : A) (f : A → M S B) : (mret a ≫= f) = f a.
Proof. reflexivity. Qed.

Lemma bind_run {A B} (m : M S A) (f : A → M S B) s :
  (m ≫= f) s = match m s with Some (a, s') => f a s' | None => None end.
Proof. reflexivity. Qed.

Lemma bind_Some {A B} (m : M S A) (f : A → M S B) s b s'' :
  (m ≫= f) s = Some (b, s'') ↔ ∃ a s', m s = Some (a, s') ∧ f a s' = Some (b, s'').
Proof.
  rewrite bind_run. split.
  - destruct (m s) as [[a s']|]; [eauto | discriminate].
  - by intros (a & s' & -> & Hf).
Qed.

Lemma bind_eq {A B} (m : M S A) (f : A → M S B) s a s' :
  m s = Some (a, s') → (m ≫= f) s = f a s'.
Proof. rewrite bind_run. by intros ->. Qed.

Lemma bind_assoc {A B C} (m : M S A) (f : A → M S B) (g : B → M S C) s :
  ((m ≫= f) ≫= g) s = (m ≫= λ a, f a ≫= g) s.
Proof. rewrite !bind_run. by destruct (m s) as [[a s']|]. Qed.
End monad_laws.

(** * A Hoare logic for it

    Partial correctness: nothing is said of a run that ends the process. *)

Definition hoare {S A} (P : S → Prop) (m : M S A) (Q : A → S → Prop) : Prop :=
  ∀ s, P s → match m s with Some (a, s') => Q a s' | None => True end.

(** What a value of a type that computations exchange has to satisfy: a word is
    a word, and so on through the type. *)
Class Val (A : Type) := val : A → Prop.
#[export] Instance val_unit : Val unit := λ _, True.
#[export] Instance val_bool : Val bool := λ _, True.
#[export] Instance val_option A `{Val A} : Val (option A) := λ o,
  match o with Some a => val a | None => True end.
#[export] Instance val_prod A B `{Val A, Val B} : Val (A * B) := λ p,
  val (fst p) ∧ val (snd p).

(** [m] keeps the invariant [I] and answers a well-formed value. *)
Definition ok {S A} `{!Val A} (I : S → Prop) (m : M S A) : Prop :=
  hoare I m (λ a s, val a ∧ I s).

(** [m] may end in a state where only [E] holds, if nothing follows it. *)
Definition fin {S A} `{!Val A} (I E : S → Prop) (m : M S A) : Prop :=
  hoare I m (λ a s, val a ∧ E s).

Section hoare_rules.
Context {S : Type}.
Implicit Types P I : S → Prop.

Lemma hoare_run {A} P (m : M S A) Q s a s' :
  hoare P m Q → P s → m s = Some (a, s') → Q a s'.
Proof. intros Hm HP Hr. specialize (Hm s HP). by rewrite Hr in Hm. Qed.

Lemma hoare_bind {A B} P (m : M S A) (f : A → M S B) Q R :
  hoare P m Q → (∀ a, hoare (Q a) (f a) R) → hoare P (m ≫= f) R.
Proof.
  intros Hm Hf s HP. rewrite bind_run. specialize (Hm s HP).
  destruct (m s) as [[a s']|]; [by apply Hf | done].
Qed.

Lemma hoare_ret {A} P (a : A) : hoare P (mret a) (λ b s, b = a ∧ P s).
Proof. done. Qed.

Lemma hoare_gets {A} P (f : S → A) : hoare P (gets f) (λ a s, a = f s ∧ P s).
Proof. done. Qed.

Lemma hoare_conseq {A} P P' (m : M S A) Q Q' :
  hoare P' m Q' → (∀ s, P s → P' s) → (∀ a s, Q' a s → Q a s) → hoare P m Q.
Proof.
  intros Hm HP HQ s Hs. specialize (Hm s (HP s Hs)).
  destruct (m s) as [[a s']|]; auto.
Qed.

Lemma ok_ret {A} `{!Val A} I (a : A) : val a → ok I (mret a).
Proof. by intros Ha s Hs. Qed.

Lemma ok_bind {A B} `{!Val A, !Val B} I (m : M S A) (f : A → M S B) :
  ok I m → (∀ a, val a → ok I (f a)) → ok I (m ≫= f).
Proof.
  intros Hm Hf. eapply hoare_bind; [exact Hm|]. intros a s [Ha Hs]. by apply Hf.
Qed.

Lemma ok_gets {A} `{!Val A} I (f : S → A) : (∀ s, I s → val (f s)) → ok I (gets f).
Proof. intros Hf s Hs. split; [by apply Hf | done]. Qed.

(** A value of the state that need not be well formed, or of which more is
    known. *)
Lemma ok_bind_gets {A B} `{!Val B} I (f : S → A) (R : A → Prop) (k : A → M S B) :
  (∀ s, I s → R (f s)) → (∀ a, R a → ok I (k a)) → ok I (gets f ≫= k).
Proof. intros HR Hk s Hs. by apply (Hk (f s)); [apply HR|]. Qed.

Lemma ok_bind_any {A B} `{!Val B} I (f : S → A) (k : A → M S B) :
  (∀ a, ok I (k a)) → ok I (gets f ≫= k).
Proof. intros Hk. by apply (ok_bind_gets _ _ (λ _, True)). Qed.

(** The value is remembered together with the state it was read from. *)
Lemma ok_bind_state {A B} `{!Val B} I (f : S → A) (k : A → M S B) :
  (∀ v, hoare (λ s, I s ∧ f s = v) (k v) (λ b s, val b ∧ I s)) → ok I (gets f ≫= k).
Proof. intros Hk s Hs. by apply (Hk (f s)). Qed.

Lemma hoare_unit P I (m : M S unit) :
  hoare P m (λ _, I) → hoare P m (λ a s, val a ∧ I s).
Proof. intros H. eapply hoare_conseq; [exact H|done|by intros]. Qed.

Lemma ok_hoare {A} `{!Val A} I (m : M S A) : ok I m → hoare I m (λ _, I).
Proof. intros H. eapply hoare_conseq; [exact H|done|]. by intros a s []. Qed.

(** An assignment, then the rest. *)
Lemma hoare_modify_bind {A} P P' (f : S → S) (k : unit → M S A) Q :
  (∀ s, P s → P' (f s)) → hoare P' (k tt) Q → hoare P (modify f ≫= k) Q.
Proof. intros Hf Hk s Hs. by apply Hk, Hf. Qed.

Lemma hoare_gets_bind {A B} P (f : S → A) (k : A → M S B) Q :
  (∀ v, hoare (λ s, P s ∧ f s = v) (k v) Q) → hoare P (gets f ≫= k) Q.
Proof. intros Hk s Hs. by apply (Hk (f s)). Qed.

Lemma ok_modify I (f : S → S) : (∀ s, I s → I (f s)) → ok I (modify f).
Proof. intros Hf s Hs. split; [done | by apply Hf]. Qed.

Lemma ok_fatal {A} `{!Val A} I : ok I (@fatal S A).
Proof. by intros s Hs. Qed.

Lemma ok_when I b (m : M S unit) : (b = true → ok I m) → ok I (when b m).
Proof. intros Hm. destruct b; [by apply Hm | by apply ok_ret]. Qed.

Lemma ok_if {A} `{!Val A} I (b : bool) (m1 m2 : M S A) :
  ok I m1 → ok I m2 → ok I (if b then m1 else m2).
Proof. by destruct b. Qed.

Lemma fin_ok {A} `{!Val A} I (E : S → Prop) (m : M S A) :
  (∀ s, I s → E s) → ok I m → fin I E m.
Proof.
  intros HE Hm. eapply hoare_conseq; [exact Hm|done|]. intros a s [Ha Hs]. auto.
Qed.

Lemma fin_bind {A B} `{!Val A, !Val B} I E (m : M S A) (f : A → M S B) :
  ok I m → (∀ a, val a → fin I E (f a)) → fin I E (m ≫= f).
Proof.
  intros Hm Hf. eapply hoare_bind; [exact Hm|]. intros a s [Ha Hs]. by apply Hf.
Qed.

Lemma fin_bind_any {A B} `{!Val B} I E (f : S → A) (k : A → M S B) :
  (∀ a, fin I E (k a)) → fin I E (gets f ≫= k).
Proof. intros Hk s Hs. by apply (Hk (f s)). Qed.

Lemma fin_if {A} `{!Val A} I E (b : bool) (m1 m2 : M S A) :
  fin I E m1 → fin I E m2 → fin I E (if b then m1 else m2).
Proof. by destruct b. Qed.

Lemma ok_run {A} `{!Val A} I (m : M S A) s a s' :
  ok I m → I s → m s = Some (a, s') → I s'.
Proof. intros Hm HI Hr. specialize (Hm s HI). rewrite Hr in Hm. apply Hm. Qed.

Lemma switch_ind {A} (Φ : A → Prop) x cases dflt :
  List.Forall (λ c, Φ (snd c)) cases → Φ dflt → Φ (switch x cases dflt).
Proof.
  intros Hc Hd. induction Hc as [|[labels body] rest Hb _ IH]; cbn; [done|].
  by destruct (existsb _ _).
Qed.

Lemma switch_none {A} x (cases : list (list Z * A)) d :
  List.Forall (λ c, existsb (Z.eqb x) (fst c) = false) cases → switch x cases d = d.
Proof.
  intros H. induction H as [|[labels body] rest Hb _ IH]; cbn in *; [done|]. by rewrite Hb.
Qed.

Lemma switch_app {A} x (l1 l2 : list (list Z * A)) d :
  switch x (l1 ++ l2) d = switch x l1 (switch x l2 d).
Proof.
  induction l1 as [|[labels body] l1 IH]; cbn; [done|]. by rewrite IH.
Qed.
End hoare_rules.

(** * Computations that return *)

Definition runs {S A} (P : S → Prop) (m : M S A) (Q : A → S → Prop) : Prop :=
  ∀ s, P s → ∃ a s', m s = Some (a, s') ∧ Q a s'.

Section runs.
Context {S : Type}.
Implicit Types P : S → Prop.

Lemma runs_ret {A} P (Q : A → S → Prop) a : (∀ s, P s → Q a s) → runs P (mret a) Q.
Proof. intros H s Hs. exists a, s. auto. Qed.
Lemma runs_bind {A B} P (m : M S A) (k : A → M S B) R Q :
  runs P m R → (∀ a, runs (R a) (k a) Q) → runs P (m ≫= k) Q.
Proof.
  intros Hm Hk s Hs. destruct (Hm s Hs) as (a & s1 & E & HR). destruct (Hk a s1 HR) as (c & s2 & E2 & HQ).
  exists c, s2. by rewrite (bind_eq _ _ _ _ _ E).
Qed.
Lemma runs_gets {A B} P (f : S → A) (k : A → M S B) Q :
  (∀ a, runs (λ s, P s ∧ f s = a) (k a) Q) → runs P (gets f ≫= k) Q.
Proof. intros Hk s Hs. by apply (Hk (f s) s). Qed.
Lemma runs_modify P (f : S → S) Q : (∀ s, P s → Q tt (f s)) → runs P (modify f) Q.
Proof. intros H s Hs. exists tt, (f s). auto. Qed.
Lemma runs_conseq {A} P P' (m : M S A) Q Q' :
  runs P' m Q' → (∀ s, P s → P' s) → (∀ a s, Q' a s → Q a s) → runs P m Q.
Proof. intros Hm HP HQ s Hs. destruct (Hm s (HP s Hs)) as (a & s' & E & H). exists a, s'. auto. Qed.
End runs.

(** [ok_walk tac] follows the structure of a computation; [ok] holds the facts
    about the computations it meets, [tac] proves the values well formed. *)
Create HintDb ok discriminated.

Ltac ok_walk tac :=
  repeat (cbv beta zeta;
  match goal with
  | |- ∀ _, _ => intro
  | |- ok _ (mret _) => apply ok_ret; solve [tac]
  | |- ok _ fatal => apply ok_fatal
  | |- ok _ (gets _ ≫= _) =>
      first [ eapply ok_bind; [apply ok_gets; solve [intros; tac] | intro; intro]
            | apply ok_bind_any; intro ]
  | |- ok _ (gets _) => apply ok_gets; solve [intros; tac]
  | |- ok _ (_ ≫= _) => eapply ok_bind; [|intro; intro]
  | |- ok _ (when _ _) => apply ok_when; intro
  | |- ok _ (if ?b then _ else _) => destruct b eqn:?
  | |- ok _ (match ?x with _ => _ end) => destruct x
  | |- ok _ _ => solve [eauto 3 with ok nocore]
  end).

(** [each_value j lo hi tac]: [lo ≤ j < hi], one goal for each value. *)
Ltac each_value j lo hi tac :=
  lazymatch lo with
  | hi => exfalso; lia
  | _ => destruct (Z.eq_dec j lo) as [->|?];
         [ tac | let n := eval vm_compute in (lo + 1) in each_value j n hi tac ]
  end.

(** * Arrays

    A C array of a fixed length is a total map from its index: the code masks
    or bounds every index before it uses it, and a read of an index that was
    never written gives the zero of static storage. *)

#[global] Instance Z_zero_inhabited : Inhabited Z | 0 := populate 0.

Create Rewrite HintDb arr.

Section arrays.
Context {A : Type} `{!Inhabited A}.
Implicit Types m : gmap Z A.

Lemma arr_get_set m i j x :
  <[i := x]> m !!! j = if decide (i = j) then x else m !!! j.
Proof.
  case_decide; subst; [apply lookup_total_insert_eq | by apply lookup_total_insert_ne].
Qed.

Lemma arr_same m i x : <[i := x]> m !!! i = x.
Proof. apply lookup_total_insert_eq. Qed.

Lemma arr_other m i j x : i ≠ j → <[i := x]> m !!! j = m !!! j.
Proof. apply lookup_total_insert_ne. Qed.

(** [for (c = lo; c < lo + n; c++) dst[c] = f(c);] *)
Definition arr_fill (lo : Z) (n : nat) (f : Z → A) (dst : gmap Z A) : gmap Z A :=
  foldl (λ d c, <[c := f c]> d) dst (seqZ lo (Z.of_nat n)).

Lemma foldl_insert_lookup (l : list Z) f m j :
  foldl (λ d c, <[c := f c]> d) m l !!! j = if decide (j ∈ l) then f j else m !!! j.
Proof.
  revert m. induction l as [|c l IH]; intros m; cbn.
  - by rewrite decide_False by apply not_elem_of_nil.
  - rewrite IH. destruct (decide (j ∈ l)) as [Hj|Hj].
    + by rewrite decide_True by by apply list_elem_of_further.
    + rewrite arr_get_set. destruct (decide (c = j)) as [->|Hn].
      * by rewrite decide_True by apply list_elem_of_here.
      * rewrite decide_False; [done|]. rewrite elem_of_cons. by intros [->|?].
Qed.

Lemma arr_fill_lookup lo n f m j :
  arr_fill lo n f m !!! j =
    if decide (lo ≤ j < lo + Z.of_nat n) then f j else m !!! j.
Proof.
  unfold arr_fill. rewrite foldl_insert_lookup.
  repeat case_decide; rewrite ?elem_of_seqZ in *; done || lia.
Qed.
End arrays.
#[export] Hint Rewrite @arr_same : arr.
#[export] Hint Rewrite @arr_other using (solve [lia | congruence | auto]) : arr.
