(* ===== verification/Word.v ===== *)
(** Machine words: the unsigned and signed integers of the C code as [Z] with
    their wrap-around written out, the bit operations on them, and the lemmas
    the components share. *)

From S2P Require Export Prelude.

(** * Wrap-around *)

Definition u8 (x : Z) : Z := x mod 0x100.
Definition u32 (x : Z) : Z := x mod 0x100000000.
Definition u64 (x : Z) : Z := x mod 0x10000000000000000.

(** The value of an [int32_t], [int16_t], [int8_t], [int64_t] with these bits. *)
Definition s8 (x : Z) : Z := if u8 x <? 0x80 then u8 x else u8 x - 0x100.
Definition s16 (x : Z) : Z :=
  if x mod 0x10000 <? 0x8000 then x mod 0x10000 else x mod 0x10000 - 0x10000.
Definition s32 (x : Z) : Z :=
  if u32 x <? 0x80000000 then u32 x else u32 x - 0x100000000.
Definition s64 (x : Z) : Z :=
  if u64 x <? 0x8000000000000000 then u64 x else u64 x - 0x10000000000000000.

Definition add32 (a b : Z) : Z := u32 (a + b).
Definition sub32 (a b : Z) : Z := u32 (a - b).
Definition neg32 (a : Z) : Z := u32 (- a).
Definition mul32 (a b : Z) : Z := u32 (a * b).
Definition not32 (a : Z) : Z := u32 (Z.lnot a).
Definition shl32 (a n : Z) : Z := u32 (Z.shiftl a n).
(** [(uint32_t) ((int32_t) a >> n)] *)
Definition asr32 (a n : Z) : Z := u32 (Z.shiftr (s32 a) n).

(** The truth value of a C integer. *)
Definition nz (x : Z) : bool := negb (x =? 0).

(** The C operators, in a scope of their own; [a .&~ b] is [a & ~b]. *)
Declare Scope c_scope.
Delimit Scope c_scope with c.
Notation "a '.&~' b" := (Z.ldiff a b) (at level 40, left associativity) : c_scope.
Notation "a '.&' b" := (Z.land a b) (at level 40, left associativity) : c_scope.
Notation "a '.|' b" := (Z.lor a b) (at level 50, left associativity) : c_scope.
Notation "a '.^' b" := (Z.lxor a b) (at level 50, left associativity) : c_scope.
Notation "a '.>>' n" := (Z.shiftr a n) (at level 40, left associativity) : c_scope.
#[global] Open Scope c_scope.

(** A [uint32_t] value. *)
Definition w32 (x : Z) : Prop := 0 ≤ x < 0x100000000.
#[export] Instance w32_dec x : Decision (w32 x) := ltac:(unfold w32; apply _).

#[export] Instance val_Z : Val Z := w32.

Create HintDb w32 discriminated.

Lemma u32_w32 x : w32 (u32 x).
Proof. unfold w32, u32. by apply Z.mod_pos_bound. Qed.

Lemma u32_id x : w32 x → u32 x = x.
Proof. intros H. by apply Z.mod_small. Qed.

Lemma u32_u32 x : u32 (u32 x) = u32 x.
Proof. apply u32_id, u32_w32. Qed.

Lemma w32_nonneg x : w32 x → 0 ≤ x.
Proof. unfold w32. lia. Qed.

Lemma u8_range x : 0 ≤ u8 x < 256.
Proof. unfold u8. by apply Z.mod_pos_bound. Qed.

Lemma w32_u8 x : w32 (u8 x).
Proof. pose proof (u8_range x). unfold w32. lia. Qed.

(** * Bits *)

Lemma testbit_high x n i : 0 ≤ x < 2 ^ n → 0 ≤ n ≤ i → Z.testbit x i = false.
Proof.
  intros Hx Hi. rewrite <- (Z.mod_small x (2 ^ n)) by done.
  apply Z.mod_pow2_bits_high. lia.
Qed.

Lemma w32_high x i : w32 x → 32 ≤ i → Z.testbit x i = false.
Proof. intros Hx Hi. apply (testbit_high x 32); [done | lia]. Qed.

Lemma w32_of_bits x : 0 ≤ x → (∀ i, 32 ≤ i → Z.testbit x i = false) → w32 x.
Proof.
  intros Hx Hb. split; [done|].
  destruct (Z.eq_dec x 0) as [->|Hn]; [done|].
  change 0x100000000 with (2 ^ 32). apply Z.log2_lt_pow2; [lia|].
  destruct (Z.lt_ge_cases (Z.log2 x) 32) as [|Hge]; [done|].
  specialize (Hb _ Hge). rewrite Z.bit_log2 in Hb by lia. done.
Qed.

Lemma w32_land_l x y : w32 x → w32 (x .& y).
Proof.
  intros Hx. pose proof (w32_nonneg _ Hx). apply w32_of_bits.
  - apply Z.land_nonneg. by left.
  - intros i Hi. by rewrite Z.land_spec, (w32_high x) by done.
Qed.

Lemma w32_land_r x y : w32 y → w32 (x .& y).
Proof. rewrite Z.land_comm. apply w32_land_l. Qed.

Lemma w32_lor x y : w32 x → w32 y → w32 (x .| y).
Proof.
  intros Hx Hy. apply w32_of_bits.
  - apply Z.lor_nonneg. unfold w32 in *; lia.
  - intros i Hi. by rewrite Z.lor_spec, !w32_high by done.
Qed.

Lemma w32_lxor x y : w32 x → w32 y → w32 (x .^ y).
Proof.
  intros Hx Hy. apply w32_of_bits.
  - apply Z.lxor_nonneg. unfold w32 in *; lia.
  - intros i Hi. by rewrite Z.lxor_spec, !w32_high by done.
Qed.

Lemma w32_ldiff x y : w32 x → w32 (x .&~ y).
Proof.
  intros Hx. pose proof (w32_nonneg _ Hx). apply w32_of_bits.
  - apply Z.ldiff_nonneg. by left.
  - intros i Hi. by rewrite Z.ldiff_spec, (w32_high x) by done.
Qed.

Lemma w32_shiftr x n : w32 x → 0 ≤ n → w32 (x .>> n).
Proof.
  intros Hx Hn. pose proof (w32_nonneg _ Hx). apply w32_of_bits.
  - by apply Z.shiftr_nonneg.
  - intros i Hi. rewrite Z.shiftr_spec, (w32_high x) by (done || lia). done.
Qed.

Lemma w32_if (b : bool) x y : w32 x → w32 y → w32 (if b then x else y).
Proof. by destruct b. Qed.

#[export] Hint Resolve u32_w32 w32_land_l w32_land_r w32_lor w32_lxor w32_ldiff
  w32_shiftr w32_u8 w32_if : w32.
#[export] Hint Extern 1 (w32 _) => solve [unfold w32; lia] : w32.
#[export] Hint Extern 1 (w32 (add32 _ _)) => apply u32_w32 : w32.
#[export] Hint Extern 1 (w32 (sub32 _ _)) => apply u32_w32 : w32.
#[export] Hint Extern 1 (w32 (neg32 _)) => apply u32_w32 : w32.
#[export] Hint Extern 1 (w32 (mul32 _ _)) => apply u32_w32 : w32.
#[export] Hint Extern 1 (w32 (not32 _)) => apply u32_w32 : w32.
#[export] Hint Extern 1 (w32 (shl32 _ _)) => apply u32_w32 : w32.
#[export] Hint Extern 1 (w32 (asr32 _ _)) => apply u32_w32 : w32.
#[export] Hint Extern 1 (0 ≤ _) => lia : w32.

Lemma u32_spec x i : 0 ≤ i → Z.testbit (u32 x) i = (i <? 32) && Z.testbit x i.
Proof.
  intros Hi. unfold u32. change 0x100000000 with (2 ^ 32).
  destruct (Z.ltb_spec i 32); [by rewrite Z.mod_pow2_bits_low by lia|].
  by rewrite Z.mod_pow2_bits_high by lia.
Qed.

Lemma not32_spec x i : 0 ≤ i → Z.testbit (not32 x) i = (i <? 32) && negb (Z.testbit x i).
Proof. intros Hi. unfold not32. rewrite u32_spec, Z.lnot_spec by done. done. Qed.

Lemma shl32_spec x n i :
  0 ≤ i → 0 ≤ n → Z.testbit (shl32 x n) i = (i <? 32) && Z.testbit x (i - n).
Proof. intros Hi Hn. unfold shl32. rewrite u32_spec, Z.shiftl_spec by done. done. Qed.

Lemma w32_eq a b :
  w32 a → w32 b → (∀ i, 0 ≤ i < 32 → Z.testbit a i = Z.testbit b i) → a = b.
Proof.
  intros Ha Hb H. apply Z.bits_inj'. intros i Hi.
  destruct (Z.lt_ge_cases i 32) as [|Hge]; [auto|].
  by rewrite !w32_high by done.
Qed.

(** All bit positions of a word, one by one. *)
Lemma forall_below_32 (P : Z → Prop) :
  Forall P ltac:(let l := eval vm_compute in (seqZ 0 32) in exact l) →
  ∀ i, 0 ≤ i < 32 → P i.
Proof.
  rewrite Forall_forall. intros H i Hi. apply H, list_elem_of_In.
  change (i ∈ seqZ 0 32). apply elem_of_seqZ. lia.
Qed.

Create Rewrite HintDb bits.
#[export] Hint Rewrite Z.land_spec Z.lor_spec Z.lxor_spec Z.ldiff_spec : bits.
#[export] Hint Rewrite u32_spec not32_spec Z.shiftr_spec shl32_spec Z.shiftl_spec
  using lia : bits.

Ltac fold_consts :=
  repeat match goal with
  | |- context [Z.testbit (Zpos ?p) ?i] =>
      let b := eval vm_compute in (Z.testbit (Zpos p) i) in
      lazymatch b with true => idtac | false => idtac end;
      change (Z.testbit (Zpos p) i) with b
  | |- context [Z.testbit 0 ?i] => rewrite (Z.bits_0 i)
  | |- context [Z.add (Zpos ?p) (Zpos ?q)] =>
      let b := eval vm_compute in (Z.add (Zpos p) (Zpos q)) in
      change (Z.add (Zpos p) (Zpos q)) with b
  | |- context [Z.sub (Zpos ?p) (Zpos ?q)] =>
      let b := eval vm_compute in (Z.sub (Zpos p) (Zpos q)) in
      change (Z.sub (Zpos p) (Zpos q)) with b
  | |- context [Z.add 0 ?q] => change (Z.add 0 q) with q
  | |- context [Z.ltb (Zpos ?p) (Zpos ?q)] =>
      let b := eval vm_compute in (Z.ltb (Zpos p) (Zpos q)) in
      change (Z.ltb (Zpos p) (Zpos q)) with b
  | |- context [Z.ltb 0 (Zpos ?q)] => change (Z.ltb 0 (Zpos q)) with true
  end.

(** Equality of two words built from masks and shifts by constants: compares
    the thirty-two bits. *)
Ltac bit32 :=
  apply w32_eq; [auto 12 with w32 .. |];
  let i := fresh "i" in let Hi := fresh "Hi" in intros i Hi;
  autorewrite with bits;
  revert i Hi; apply forall_below_32;
  repeat (apply List.Forall_cons; [cbv beta; fold_consts; cbn [andb orb negb xorb]; btauto|]);
  apply List.Forall_nil.

(** * The sign bit *)

Lemma land_pow2 x n : 0 ≤ n → x .& 2 ^ n = if Z.testbit x n then 2 ^ n else 0.
Proof.
  intros Hn. destruct (Z.testbit x n) eqn:E; apply Z.bits_inj'; intros i Hi;
    rewrite Z.land_spec, ?Z.pow2_bits_eqb, ?Z.bits_0 by done;
    destruct (Z.eqb_spec n i) as [->|H]; by rewrite ?E, ?andb_false_r.
Qed.

Lemma nz_mask_bit x n : 0 ≤ n → nz (x .& 2 ^ n) = Z.testbit x n.
Proof.
  intros Hn. unfold nz. destruct (Z.testbit x n) eqn:E.
  - apply negb_true_iff, Z.eqb_neq. intros H0.
    apply (f_equal (λ y, Z.testbit y n)) in H0. cbv beta in H0.
    by rewrite Z.land_spec, E, Z.pow2_bits_true, Z.bits_0 in H0 by done.
  - apply negb_false_iff, Z.eqb_eq. apply Z.bits_inj'. intros i Hi.
    rewrite Z.land_spec, Z.bits_0. destruct (Z.eq_dec n i) as [<-|Hne].
    + by rewrite E.
    + by rewrite Z.pow2_bits_false, andb_false_r by done.
Qed.

Lemma nz_bit31 x : nz (x .& 0x80000000) = Z.testbit x 31.
Proof. apply (nz_mask_bit x 31). done. Qed.

Lemma w32_bit31 x : w32 x → Z.testbit x 31 = (0x80000000 <=? x).
Proof.
  intros Hx. rewrite Z.testbit_eqb by done. change (2 ^ 31) with 0x80000000.
  unfold w32 in Hx. destruct (Z.leb_spec 0x80000000 x).
  - replace (x / 0x80000000) with 1; [done|]. apply (Z.div_unique _ _ _ (x - 0x80000000)); lia.
  - by rewrite Z.div_small by lia.
Qed.

Lemma s32_w32 x : w32 x → s32 x = if 0x80000000 <=? x then x - 0x100000000 else x.
Proof.
  intros Hx. unfold s32. rewrite u32_id by done.
  destruct (Z.leb_spec 0x80000000 x), (Z.ltb_spec x 0x80000000); lia.
Qed.

Lemma s32_neg x : w32 x → (s32 x <? 0) = Z.testbit x 31.
Proof.
  intros Hx. rewrite w32_bit31, s32_w32 by done. unfold w32 in Hx.
  destruct (Z.leb_spec 0x80000000 x); [apply Z.ltb_lt | apply Z.ltb_ge]; lia.
Qed.

(** Arithmetic on booleans of words: gives [lia] the wrapped values and the
    sign bits as comparisons. *)
Lemma u32_cases x : ∃ q, u32 x = x - q * 0x100000000 ∧ w32 (u32 x).
Proof.
  exists (x / 0x100000000). split; [|apply u32_w32].
  unfold u32. pose proof (Z.div_mod x 0x100000000). lia.
Qed.

Lemma u32_s32 x : u32 (s32 x) = u32 x.
Proof.
  unfold s32. destruct (u32 x <? 0x80000000); [apply u32_u32|].
  unfold u32. rewrite Zminus_mod_idemp_l, <- (Z.mod_add (x - 0x100000000) 1) by done.
  f_equal. lia.
Qed.

Lemma u32_add_r x y : u32 (x + u32 y) = u32 (x + y).
Proof. unfold u32. apply Zplus_mod_idemp_r. Qed.

(** * Fields that do not overlap *)

Lemma lor_add_high x y k : 0 ≤ k → x mod 2 ^ k = 0 → 0 ≤ y < 2 ^ k → x .| y = x + y.
Proof.
  intros Hk Hx Hy. symmetry. rewrite Z.add_nocarry_lxor, Z.lxor_lor; try done;
    apply Z.bits_inj'; intros i Hi; rewrite Z.land_spec, Z.bits_0.
  all: destruct (Z.lt_ge_cases i k) as [H|H];
    [ assert (Z.testbit x i = false) as -> by
        (rewrite <- (Z.mod_pow2_bits_low x k i) by lia; rewrite Hx; apply Z.bits_0); done
    | rewrite (testbit_high y k) by lia; apply andb_false_r ].
Qed.

Lemma land_shiftl_mask y m n : 0 ≤ n → y .& Z.shiftl m n = Z.shiftl ((y .>> n) .& m) n.
Proof.
  intros Hn. apply Z.bits_inj'. intros i Hi. rewrite Z.land_spec. destruct (Z.lt_ge_cases i n).
  - rewrite !Z.shiftl_spec_low by lia. by rewrite andb_false_r.
  - rewrite !Z.shiftl_spec_high, Z.land_spec, Z.shiftr_spec by lia. by replace (i - n + n) with i by lia.
Qed.
