(* ===== verification/Savestate.v ===== *)
(** The byte stream of a suspend snapshot (savestate.c): little-endian integers,
    the run-length coding of the large payloads, and the CRC that identifies a
    ROM image. A file being written is the list of the bytes written so far; a
    file being read is the bytes that are left and the latched error flag.
    A write that the host refuses is not modelled. *)

From S2P Require Export Word.

Record File := mkFile { file_data : list Z; savestate_error : bool }.

(** * Writing *)

Definition savestate_write_u8 (v : Z) : list Z := [u8 v].
Definition savestate_write_u16 (v : Z) : list Z := [u8 v; u8 (v .>> 8)].
Definition savestate_write_u32 (v : Z) : list Z := [u8 v; u8 (v .>> 8); u8 (v .>> 16); u8 (v .>> 24)].
Definition savestate_write_i32 (v : Z) : list Z := savestate_write_u32 (u32 v).
Definition savestate_write_u64 (v : Z) : list Z :=
  savestate_write_u32 (u32 v) ++ savestate_write_u32 (u32 (v .>> 32)).

(** * Reading *)

(** [fread]: all the bytes or, with the error latched, none; what was left of a
    short file is consumed. *)
Definition savestate_read (len : nat) : M File (list Z) := λ f,
  if (len =? 0)%nat || (len <=? length (file_data f))%nat
  then Some (take len (file_data f), mkFile (drop len (file_data f)) (savestate_error f))
  else Some (replicate len 0, mkFile [] true).

Definition byte_at (b : list Z) (i : nat) : Z := default 0 (b !! i).

Definition savestate_read_u8 : M File Z := b ← savestate_read 1; mret (byte_at b 0).
Definition savestate_read_u16 : M File Z :=
  b ← savestate_read 2; mret (byte_at b 0 .| shl32 (byte_at b 1) 8).
Definition savestate_read_u32 : M File Z :=
  b ← savestate_read 4;
  mret (byte_at b 0 .| shl32 (byte_at b 1) 8 .| shl32 (byte_at b 2) 16 .| shl32 (byte_at b 3) 24).
Definition savestate_read_i32 : M File Z := v ← savestate_read_u32; mret (s32 v).
Definition savestate_read_u64 : M File Z :=
  lo ← savestate_read_u32; hi ← savestate_read_u32; mret (lo .| u64 (Z.shiftl hi 32)).

(** * Run-length coding *)

Definition RLE_MIN_RUN : Z := 16.

(** The inner loop: the length of the run that starts with [b], before [tl]. *)
Fixpoint run_tail (b : Z) (tl : list Z) (run : Z) : Z :=
  match tl with
  | c :: tl' => if (c =? b) && (run <? 0x7fffffff) then run_tail b tl' (run + 1) else run
  | [] => run
  end.

(** A literal record, if there is anything in it. *)
Definition literals (lit : list Z) : list Z :=
  match lit with
  | [] => []
  | _ => savestate_write_u32 (u32 (Z.of_nat (length lit))) ++ lit
  end.

(** The outer loop: [lit] is [p[lit_start..i)], [rest] is [p[i..len)]. Every turn
    consumes a byte at least, so that the length of [rest] is fuel enough. *)
Fixpoint rle_loop (fuel : nat) (lit rest : list Z) : list Z :=
  match fuel, rest with
  | Datatypes.S fuel', b :: tl =>
      let run := run_tail b tl 1 in
      let n := Z.to_nat run in
      if RLE_MIN_RUN <=? run then
        literals lit ++ savestate_write_u32 (u32 run .| 0x80000000) ++ savestate_write_u8 b ++
        rle_loop fuel' [] (drop n rest)
      else rle_loop fuel' (lit ++ take n rest) (drop n rest)
  | _, _ => literals lit
  end.

Definition savestate_write_rle (data : list Z) : list Z :=
  savestate_write_u32 (u32 (Z.of_nat (length data))) ++ rle_loop (length data) [] data.

(** [dst[pos .. pos + length src) = src] in a buffer *)
Definition buf_write (pos : nat) (src dst : list Z) : list Z :=
  take pos dst ++ src ++ drop (pos + length src) dst.

(** The loop of the decoder; [None] would be the loop not ending in [fuel]
    turns. *)
Fixpoint unrle_loop (fuel : nat) (pos : nat) (buf : list Z) (f : File) : option (list Z * File) :=
  if negb ((pos <? length buf)%nat && negb (savestate_error f)) then Some (buf, f) else
  match fuel with
  | O => None
  | Datatypes.S fuel' =>
      match savestate_read_u32 f with
      | None => None
      | Some (c, f) =>
          let n := c .& 0x7fffffff in
          if (n =? 0) || (Z.of_nat (length buf - pos) <? n) then Some (buf, mkFile (file_data f) true) else
          let n := Z.to_nat n in
          if nz (c .& 0x80000000) then
            match savestate_read_u8 f with
            | None => None
            | Some (b, f) => unrle_loop fuel' (pos + n) (buf_write pos (replicate n b) buf) f
            end
          else
            match savestate_read n f with
            | None => None
            | Some (b, f) => unrle_loop fuel' (pos + n) (buf_write pos b buf) f
            end
      end
  end.

Definition savestate_read_rle (buf : list Z) : M File (list Z) :=
  len ← savestate_read_u32;
  if negb (len =? u32 (Z.of_nat (length buf)))
  then modify (λ f, mkFile (file_data f) true);; mret buf
  else unrle_loop (length buf) 0 buf.

(** * CRC-32 *)

(** One turn of the loop that builds the table. *)
Definition crc_bit (c : Z) : Z := if nz (c .& 1) then 0xedb88320 .^ (c .>> 1) else c .>> 1.
Definition crc_table (n : Z) : Z := Nat.iter 8 crc_bit n.
Definition crc_byte (crc b : Z) : Z := crc_table ((crc .^ b) .& 0xff) .^ (crc .>> 8).
Definition crc32_buf (data : list Z) : Z := foldl crc_byte 0xffffffff data .^ 0xffffffff.
