(* ===== verification/ArmState.v ===== *)
(** The state of the ARM core: the [ARMState] structure of [arm.h], the static
    globals of [arm.c], and the interface of the memory system and of the rest
    of the emulator that the core is written against. *)

From S2P Require Export Word.

(** * [ARMState] (arm.h) *)

Record ARMState := mkARM {
  reg : gmap Z Z;               (** uint32_t reg[17] *)
  mode : Z;
  mmask : Z;
  r15_mask : Z;
  event : Z;
  user_reg : gmap Z Z;          (** uint32_t user_reg[15] *)
  fiq_reg : gmap Z Z;           (** uint32_t fiq_reg[15] *)
  irq_reg : gmap Z Z;           (** uint32_t irq_reg[2], as the next three *)
  super_reg : gmap Z Z;
  abort_reg : gmap Z Z;
  undef_reg : gmap Z Z;
  spsr : gmap Z Z;              (** uint32_t spsr[16] *)
  r15_diff : Z;
  abort_base_restored : Z;
  stm_writeback_at_end : Z;
  arch_v4 : Z
}.

(** [memset(&arm, 0, sizeof(arm))] *)
Definition arm_zero : ARMState :=
  mkARM ∅ 0 0 0 0 ∅ ∅ ∅ ∅ ∅ ∅ ∅ 0 0 0 0.

Definition set_reg v (a : ARMState) : ARMState :=
  mkARM v (mode a) (mmask a) (r15_mask a) (event a) (user_reg a) (fiq_reg a) (irq_reg a)
    (super_reg a) (abort_reg a) (undef_reg a) (spsr a) (r15_diff a) (abort_base_restored
    a) (stm_writeback_at_end a) (arch_v4 a).
Definition set_mode v (a : ARMState) : ARMState :=
  mkARM (reg a) v (mmask a) (r15_mask a) (event a) (user_reg a) (fiq_reg a) (irq_reg a)
    (super_reg a) (abort_reg a) (undef_reg a) (spsr a) (r15_diff a) (abort_base_restored
    a) (stm_writeback_at_end a) (arch_v4 a).
Definition set_mmask v (a : ARMState) : ARMState :=
  mkARM (reg a) (mode a) v (r15_mask a) (event a) (user_reg a) (fiq_reg a) (irq_reg a)
    (super_reg a) (abort_reg a) (undef_reg a) (spsr a) (r15_diff a) (abort_base_restored
    a) (stm_writeback_at_end a) (arch_v4 a).
Definition set_r15_mask v (a : ARMState) : ARMState :=
  mkARM (reg a) (mode a) (mmask a) v (event a) (user_reg a) (fiq_reg a) (irq_reg a)
    (super_reg a) (abort_reg a) (undef_reg a) (spsr a) (r15_diff a) (abort_base_restored
    a) (stm_writeback_at_end a) (arch_v4 a).
Definition set_event v (a : ARMState) : ARMState :=
  mkARM (reg a) (mode a) (mmask a) (r15_mask a) v (user_reg a) (fiq_reg a) (irq_reg a)
    (super_reg a) (abort_reg a) (undef_reg a) (spsr a) (r15_diff a) (abort_base_restored
    a) (stm_writeback_at_end a) (arch_v4 a).
Definition set_user_reg v (a : ARMState) : ARMState :=
  mkARM (reg a) (mode a) (mmask a) (r15_mask a) (event a) v (fiq_reg a) (irq_reg a)
    (super_reg a) (abort_reg a) (undef_reg a) (spsr a) (r15_diff a) (abort_base_restored
    a) (stm_writeback_at_end a) (arch_v4 a).
Definition set_fiq_reg v (a : ARMState) : ARMState :=
  mkARM (reg a) (mode a) (mmask a) (r15_mask a) (event a) (user_reg a) v (irq_reg a)
    (super_reg a) (abort_reg a) (undef_reg a) (spsr a) (r15_diff a) (abort_base_restored
    a) (stm_writeback_at_end a) (arch_v4 a).
Definition set_irq_reg v (a : ARMState) : ARMState :=
  mkARM (reg a) (mode a) (mmask a) (r15_mask a) (event a) (user_reg a) (fiq_reg a) v
    (super_reg a) (abort_reg a) (undef_reg a) (spsr a) (r15_diff a) (abort_base_restored
    a) (stm_writeback_at_end a) (arch_v4 a).
Definition set_super_reg v (a : ARMState) : ARMState :=
  mkARM (reg a) (mode a) (mmask a) (r15_mask a) (event a) (user_reg a) (fiq_reg a)
    (irq_reg a) v (abort_reg a) (undef_reg a) (spsr a) (r15_diff a) (abort_base_restored
    a) (stm_writeback_at_end a) (arch_v4 a).
Definition set_abort_reg v (a : ARMState) : ARMState :=
  mkARM (reg a) (mode a) (mmask a) (r15_mask a) (event a) (user_reg a) (fiq_reg a)
    (irq_reg a) (super_reg a) v (undef_reg a) (spsr a) (r15_diff a) (abort_base_restored
    a) (stm_writeback_at_end a) (arch_v4 a).
Definition set_undef_reg v (a : ARMState) : ARMState :=
  mkARM (reg a) (mode a) (mmask a) (r15_mask a) (event a) (user_reg a) (fiq_reg a)
    (irq_reg a) (super_reg a) (abort_reg a) v (spsr a) (r15_diff a) (abort_base_restored
    a) (stm_writeback_at_end a) (arch_v4 a).
Definition set_spsr v (a : ARMState) : ARMState :=
  mkARM (reg a) (mode a) (mmask a) (r15_mask a) (event a) (user_reg a) (fiq_reg a)
    (irq_reg a) (super_reg a) (abort_reg a) (undef_reg a) v (r15_diff a)
    (abort_base_restored a) (stm_writeback_at_end a) (arch_v4 a).
Definition set_r15_diff v (a : ARMState) : ARMState :=
  mkARM (reg a) (mode a) (mmask a) (r15_mask a) (event a) (user_reg a) (fiq_reg a)
    (irq_reg a) (super_reg a) (abort_reg a) (undef_reg a) (spsr a) v
    (abort_base_restored a) (stm_writeback_at_end a) (arch_v4 a).
Definition set_abort_base_restored v (a : ARMState) : ARMState :=
  mkARM (reg a) (mode a) (mmask a) (r15_mask a) (event a) (user_reg a) (fiq_reg a)
    (irq_reg a) (super_reg a) (abort_reg a) (undef_reg a) (spsr a) (r15_diff a) v
    (stm_writeback_at_end a) (arch_v4 a).
Definition set_stm_writeback_at_end v (a : ARMState) : ARMState :=
  mkARM (reg a) (mode a) (mmask a) (r15_mask a) (event a) (user_reg a) (fiq_reg a)
    (irq_reg a) (super_reg a) (abort_reg a) (undef_reg a) (spsr a) (r15_diff a)
    (abort_base_restored a) v (arch_v4 a).
Definition set_arch_v4 v (a : ARMState) : ARMState :=
  mkARM (reg a) (mode a) (mmask a) (r15_mask a) (event a) (user_reg a) (fiq_reg a)
    (irq_reg a) (super_reg a) (abort_reg a) (undef_reg a) (spsr a) (r15_diff a)
    (abort_base_restored a) (stm_writeback_at_end a) v.

(** * The globals of arm.c

    [usrregs[c]] is a pointer to register [c] of User mode: into the current
    bank or into the banked copy. [cpsr] and [pcpsr] are the index into
    [arm.reg] of the status register, 15 in a 26-bit mode and 16 in a 32-bit
    one. [pccache2] is the pointer [getpccache] answered for the page being
    executed. *)

Inductive usrref := InReg (c : Z) | InUser (c : Z).
#[export] Instance usrref_eq_dec : EqDecision usrref.
Proof. solve_decision. Defined.
#[export] Instance usrref_inhabited : Inhabited usrref := populate (InReg 0).

Record Mach (S P : Type) := mkMach {
  arm : ARMState;
  cpsr : Z;
  pcpsr : Z;
  usrregs : gmap Z usrref;      (** uint32_t *usrregs[16] *)
  pccache : Z;
  pccache2 : option P;
  unpredictable_count : Z;
  inscount : Z;
  sys : S                       (** everything outside arm.c *)
}.
Arguments mkMach {S P}.
Arguments arm {S P}. Arguments cpsr {S P}. Arguments pcpsr {S P}.
Arguments usrregs {S P}. Arguments pccache {S P}. Arguments pccache2 {S P}.
Arguments unpredictable_count {S P}. Arguments inscount {S P}. Arguments sys {S P}.

Definition set_arm {S P} v (m : Mach S P) : Mach S P :=
  mkMach v (cpsr m) (pcpsr m) (usrregs m) (pccache m) (pccache2 m) (unpredictable_count
    m) (inscount m) (sys m).
Definition set_cpsr {S P} v (m : Mach S P) : Mach S P :=
  mkMach (arm m) v (pcpsr m) (usrregs m) (pccache m) (pccache2 m) (unpredictable_count
    m) (inscount m) (sys m).
Definition set_pcpsr {S P} v (m : Mach S P) : Mach S P :=
  mkMach (arm m) (cpsr m) v (usrregs m) (pccache m) (pccache2 m) (unpredictable_count m)
    (inscount m) (sys m).
Definition set_usrregs {S P} v (m : Mach S P) : Mach S P :=
  mkMach (arm m) (cpsr m) (pcpsr m) v (pccache m) (pccache2 m) (unpredictable_count m)
    (inscount m) (sys m).
Definition set_pccache {S P} v (m : Mach S P) : Mach S P :=
  mkMach (arm m) (cpsr m) (pcpsr m) (usrregs m) v (pccache2 m) (unpredictable_count m)
    (inscount m) (sys m).
Definition set_pccache2 {S P} v (m : Mach S P) : Mach S P :=
  mkMach (arm m) (cpsr m) (pcpsr m) (usrregs m) (pccache m) v (unpredictable_count m)
    (inscount m) (sys m).
Definition set_unpredictable_count {S P} v (m : Mach S P) : Mach S P :=
  mkMach (arm m) (cpsr m) (pcpsr m) (usrregs m) (pccache m) (pccache2 m) v (inscount m)
    (sys m).
Definition set_inscount {S P} v (m : Mach S P) : Mach S P :=
  mkMach (arm m) (cpsr m) (pcpsr m) (usrregs m) (pccache m) (pccache2 m)
    (unpredictable_count m) v (sys m).
Definition set_sys {S P} v (m : Mach S P) : Mach S P :=
  mkMach (arm m) (cpsr m) (pcpsr m) (usrregs m) (pccache m) (pccache2 m)
    (unpredictable_count m) (inscount m) v.

(** * Constants and instruction fields (arm.h, arm_common.h) *)

Definition NFLAG : Z := 0x80000000.
Definition ZFLAG : Z := 0x40000000.
Definition CFLAG : Z := 0x20000000.
Definition VFLAG : Z := 0x10000000.

Definition USER : Z := 0.
Definition FIQ : Z := 1.
Definition IRQ : Z := 2.
Definition SUPERVISOR : Z := 3.
Definition ABORT : Z := 7.
Definition UNDEFINED : Z := 11.
Definition SYSTEM : Z := 15.

Definition RD (opcode : Z) : Z := (opcode .>> 12) .& 0xf.
Definition RN (opcode : Z) : Z := (opcode .>> 16) .& 0xf.
Definition RM (opcode : Z) : Z := opcode .& 0xf.
Definition MULRD (opcode : Z) : Z := (opcode .>> 16) .& 0xf.
Definition MULRN (opcode : Z) : Z := (opcode .>> 12) .& 0xf.
Definition MULRS (opcode : Z) : Z := (opcode .>> 8) .& 0xf.
Definition MULRM (opcode : Z) : Z := opcode .& 0xf.

Definition ARM_MODE_32 (m : Z) : bool := nz (m .& 0x10).
Definition ARM_MODE_PRIV (m : Z) : bool := nz (m .& 0xf).
Definition ARM_MODE_HAS_SPSR (m : Z) : bool := ARM_MODE_PRIV m && negb (m =? 0x1f).

(** * What the core asks of the memory system

    The memory accessors of mem.h and the coprocessor 15 entry points, as the
    core calls them. They work on [arm.event] (where a data abort is raised)
    and on the rest of the emulator's state [S]; [P] is the type of the host
    pointers [getpccache] returns. [cp15_write] can also make the core change
    mode or refetch, which it reports as an effect. *)

Inductive cp15_effect := Cp15None | Cp15Mode (m : Z) | Cp15Refetch.

Class MemSys (S P : Type) := {
  ms_read32 : Z → M (Z * S) Z;
  ms_read8 : Z → M (Z * S) Z;
  ms_write32 : Z → Z → M (Z * S) unit;
  ms_write8 : Z → Z → M (Z * S) unit;
  ms_memmode : S → Z;
  ms_set_privilege : Z → S → S;
  ms_prog32 : S → Z;
  ms_getpccache : Z → M (Z * S) (option P);
  ms_fetch : P → Z → S → Z;
  ms_cp15_read : Z → M S Z;
  ms_cp15_write : Z → Z → Z → M S cp15_effect
}.

(** A computation of the memory system, as the core sees it. *)
Definition mem_zoom {S P A} (op : M (Z * S) A) : M (Mach S P) A :=
  zoom (λ m, (event (arm m), sys m))
       (λ es m, set_sys (snd es) (set_arm (set_event (fst es) (arm m)) m)) op.
Definition sys_zoom {S P A} (op : M S A) : M (Mach S P) A :=
  zoom sys set_sys op.

Section accessors.
Context {S P : Type} `{!MemSys S P}.
Local Abbreviation ARM := (M (Mach S P)).

(** * Register access *)

Definition upd_arm (f : ARMState → ARMState) (m : Mach S P) : Mach S P :=
  set_arm (f (arm m)) m.
Definition put_reg (r v : Z) (a : ARMState) : ARMState :=
  set_reg (<[r := v]> (reg a)) a.
Definition rreg (r : Z) (m : Mach S P) : Z := reg (arm m) !!! r.
Definition wreg (r v : Z) : ARM unit := modify (upd_arm (put_reg r v)).
(** [arm.reg[cpsr]] *)
Definition psr (m : Mach S P) : Z := rreg (cpsr m) m.
Definition wpsr (v : Z) : ARM unit :=
  modify (λ m, upd_arm (put_reg (cpsr m) v) m).

Definition PC (m : Mach S P) : Z := sub32 (rreg 15 m) 8 .& r15_mask (arm m).
Definition GETADDR (r : Z) (m : Mach S P) : Z :=
  if r =? 15 then rreg 15 m .& r15_mask (arm m) else rreg r m.
Definition GETREG (r : Z) (m : Mach S P) : Z :=
  if r =? 15 then add32 (rreg 15 m) (r15_diff (arm m)) else rreg r m.

Definition NFSET (m : Mach S P) : Z := if nz (psr m .& NFLAG) then 1 else 0.
Definition ZFSET (m : Mach S P) : Z := if nz (psr m .& ZFLAG) then 1 else 0.
Definition CFSET (m : Mach S P) : Z := if nz (psr m .& CFLAG) then 1 else 0.
Definition VFSET (m : Mach S P) : Z := if nz (psr m .& VFLAG) then 1 else 0.

(** [LOADREG(r, v)] as the interpreter builds it (no pipeline to refill) *)
Definition LOADREG (r v : Z) : ARM unit :=
  if r =? 15 then
    mask ← gets (λ m, r15_mask (arm m));
    r15 ← gets (rreg 15);
    wreg 15 ((r15 .&~ mask) .| (add32 v 4 .& mask))
  else wreg r v.

(** * Memory access (mem.h) *)

Definition mem_read32 (addr : Z) : ARM Z := mem_zoom (ms_read32 addr).
Definition mem_read8 (addr : Z) : ARM Z := mem_zoom (ms_read8 addr).
Definition mem_write32 (addr val : Z) : ARM unit := mem_zoom (ms_write32 addr val).
Definition mem_write8 (addr val : Z) : ARM unit := mem_zoom (ms_write8 addr (u8 val)).
Definition mem_set_privilege (p : Z) : ARM unit :=
  modify (λ m, set_sys (ms_set_privilege p (sys m)) m).

Definition with_user_privilege {A} (op : ARM A) : ARM A :=
  prev ← gets (λ m, ms_memmode (sys m));
  mem_set_privilege 0;;
  data ← op;
  mem_set_privilege prev;;
  mret data.
Definition mem_user_read32 (addr : Z) : ARM Z := with_user_privilege (mem_read32 addr).
Definition mem_user_read8 (addr : Z) : ARM Z := with_user_privilege (mem_read8 addr).
Definition mem_user_write32 (addr val : Z) : ARM unit :=
  with_user_privilege (mem_write32 addr val).
Definition mem_user_write8 (addr val : Z) : ARM unit :=
  with_user_privilege (mem_write8 addr val).

(** [arm.event & 0x40]: a data abort is pending *)
Definition aborted (m : Mach S P) : bool := nz (event (arm m) .& 0x40).
End accessors.

Arguments rreg {S P} r m /.
