(* ===== verification/ArmFlags.v ===== *)
(** The condition flags: how the interpreter computes N, Z, C and V
    (arm_common.h), the condition table [arm_init] builds, and what they mean.

    The meaning is given on the integers: carry is an unsigned result that
    does not fit, overflow a signed one.

    And what the core asks of the rest of the emulator besides memory. *)

From S2P Require Export ArmState.

(** * The code *)

Definition rotate_right32 (x n : Z) : Z :=
  (x .>> (n .& 31)) .| shl32 x (sub32 32 n .& 31).

Definition arm_imm (opcode : Z) : Z :=
  rotate_right32 (opcode .& 0xff) (shl32 ((opcode .>> 8) .& 0xf) 1).

(** The flag words of [arm_flags_add], [_sub], [_adc], [_sbc]: the part of each
    function before it is merged into the status register. *)
Definition flags_nz (result : Z) : Z :=
  (if result =? 0 then ZFLAG else 0) .| (result .& NFLAG).

Definition flags_add (op1 op2 result : Z) : Z :=
  let flags := flags_nz result in
  let flags := if result <? op1 then flags .| CFLAG else flags in
  if nz ((op1 .^ result) .& (op2 .^ result) .& 0x80000000)
  then flags .| VFLAG else flags.

Definition flags_sub (op1 op2 result : Z) : Z :=
  let flags := flags_nz result in
  let flags := if result <=? op1 then flags .| CFLAG else flags in
  if nz ((op1 .^ op2) .& (op1 .^ result) .& 0x80000000)
  then flags .| VFLAG else flags.

Definition flags_adc (op1 op2 result : Z) : Z :=
  let flags := flags_nz result in
  let flags :=
    if nz (((op1 .& op2) .| ((op1 .| op2) .& not32 result)) .& 0x80000000)
    then flags .| CFLAG else flags in
  if nz (((op1 .^ result) .& (op2 .^ result)) .& 0x80000000)
  then flags .| VFLAG else flags.

Definition flags_sbc (op1 op2 result : Z) : Z :=
  let flags := flags_nz result in
  let flags :=
    if nz (((op1 .& not32 op2) .| ((op1 .| not32 op2) .& not32 result)) .& 0x80000000)
    then flags .| CFLAG else flags in
  if nz (((op1 .^ op2) .& (op1 .^ result)) .& 0x80000000)
  then flags .| VFLAG else flags.

(** [exec] for a condition field and the top four bits of the status register,
    the body of the two loops of [arm_init]. *)
Definition flaglookup (c d : Z) : bool :=
  let r15 := shl32 d 28 in
  let n := nz (r15 .& NFLAG) in let z := nz (r15 .& ZFLAG) in
  let cf := nz (r15 .& CFLAG) in let v := nz (r15 .& VFLAG) in
  match c with
  | 0 => z
  | 1 => negb z
  | 2 => cf
  | 3 => negb cf
  | 4 => n
  | 5 => negb n
  | 6 => v
  | 7 => negb v
  | 8 => cf && negb z
  | 9 => negb cf || z
  | 10 => eqb n v
  | 11 => negb (eqb n v)
  | 12 => negb z && eqb n v
  | 13 => z || negb (eqb n v)
  | 14 => true
  | _ => false
  end.

(** [countbitstable[c]]: four for each bit set, as [arm_init] fills it. *)
Definition countbitstable (c : Z) : Z :=
  foldl (λ t d, if nz (c .& Z.shiftl 1 d) then t + 4 else t) 0 (seqZ 0 16).

Definition arm_ldr_rotate (value addr : Z) : Z :=
  rotate_right32 value (mul32 (addr .& 3) 8).

Definition arm_ldm_stm_offset (opcode : Z) : Z := countbitstable (opcode .& 0xffff).

Section flags.
Context {S P : Type}.
Local Abbreviation ARM := (M (Mach S P)).

(** [arm.reg[cpsr] = (arm.reg[cpsr] & keep) | flags] *)
Definition merge_flags (keep flags : Z) : ARM unit :=
  p ← gets psr; wpsr ((p .& keep) .| flags).

Definition arm_flags_add (op1 op2 result : Z) : ARM unit :=
  merge_flags 0x0fffffff (flags_add op1 op2 result).
Definition arm_flags_sub (op1 op2 result : Z) : ARM unit :=
  merge_flags 0x0fffffff (flags_sub op1 op2 result).
Definition arm_flags_adc (op1 op2 result : Z) : ARM unit :=
  merge_flags 0x0fffffff (flags_adc op1 op2 result).
Definition arm_flags_sbc (op1 op2 result : Z) : ARM unit :=
  merge_flags 0x0fffffff (flags_sbc op1 op2 result).
Definition arm_flags_logical (result : Z) : ARM unit :=
  merge_flags 0x3fffffff (flags_nz result).
Definition arm_flags_long_multiply (result : Z) : ARM unit :=
  merge_flags 0x3fffffff
    ((if result =? 0 then ZFLAG else 0) .| (u32 (result .>> 32) .& NFLAG)).

(** [arm.reg[cpsr] |= CFLAG] or [&= ~CFLAG] *)
Definition set_cflag (c : bool) : ARM unit :=
  p ← gets psr; wpsr (if c then p .| CFLAG else p .&~ CFLAG).

Definition arm_imm_cflag (opcode : Z) : ARM Z :=
  let result := arm_imm opcode in
  when (nz (opcode .& 0xf00)) (set_cflag (nz (result .& 0x80000000)));;
  mret result.

Definition arm_write_dest (opcode dest : Z) : ARM unit :=
  let rd := RD opcode in
  if rd =? 15 then
    mask ← gets (λ m, r15_mask (arm m));
    r15 ← gets (rreg 15);
    wreg rd ((add32 dest 4 .& mask) .| (r15 .&~ mask))
  else wreg rd dest.
End flags.

(** * What the flags mean *)

Definition nzcv (n z c v : bool) : Z :=
  (if n then NFLAG else 0) .| (if z then ZFLAG else 0) .|
  (if c then CFLAG else 0) .| (if v then VFLAG else 0).

(** The flag word of an addition [a + b + c] of two words and a carry: N and Z
    of the wrapped result, carry out of 32 bits, signed overflow. *)
Definition add_nzcv (a b c : Z) : Z :=
  let r := u32 (a + b + c) in
  let sr := s32 a + s32 b + c in
  nzcv (s32 r <? 0) (r =? 0) (0x100000000 <=? a + b + c)
       ((sr <? -0x80000000) || (0x7fffffff <? sr)).

(** The flag word of [a - b - (1 - c)]: carry is "no borrow". *)
Definition sub_nzcv (a b c : Z) : Z :=
  let r := u32 (a - b - (1 - c)) in
  let sr := s32 a - s32 b - (1 - c) in
  nzcv (s32 r <? 0) (r =? 0) (0 <=? a - b - (1 - c))
       ((sr <? -0x80000000) || (0x7fffffff <? sr)).

(** * The code computes them *)

Lemma flags_nz_spec r : w32 r → flags_nz r = nzcv (s32 r <? 0) (r =? 0) false false.
Proof.
  intros Hr. unfold flags_nz, nzcv. rewrite s32_neg by done.
  replace (r .& NFLAG) with (if Z.testbit r 31 then NFLAG else 0).
  { by destruct (Z.testbit r 31), (r =? 0). }
  unfold NFLAG. rewrite <- nz_bit31. unfold nz.
  destruct (r .& 0x80000000 =? 0) eqn:E; cbn [negb]; [symmetry; by apply Z.eqb_eq|].
  apply w32_eq; [auto with w32 .. |]. intros i Hi.
  apply Z.eqb_neq in E. rewrite Z.land_spec.
  destruct (Z.eq_dec i 31) as [->|Hne].
  - destruct (Z.testbit r 31) eqn:E31; [done|]. exfalso.
    pose proof (nz_bit31 r) as H31. rewrite E31 in H31. unfold nz in H31.
    apply negb_false_iff, Z.eqb_eq in H31. done.
  - change 0x80000000 with (2 ^ 31). by rewrite Z.pow2_bits_false, andb_false_r by lia.
Qed.

Lemma nzcv_w32 n z c v : w32 (nzcv n z c v).
Proof. destruct n, z, c, v; by vm_compute. Qed.

Lemma nzcv_or_c n z c : nzcv n z false false .| (if (c : bool) then CFLAG else 0) = nzcv n z c false.
Proof. by destruct n, z, c. Qed.

Lemma flags_cv (n z c v : bool) :
  (let f := if c then nzcv n z false false .| CFLAG else nzcv n z false false in
   if v then f .| VFLAG else f) = nzcv n z c v.
Proof. by destruct n, z, c, v. Qed.

Ltac sign_bits :=
  rewrite ?nz_bit31; autorewrite with bits; cbn [andb];
  rewrite ?w32_bit31 by auto with w32.

Ltac bool_lia :=
  apply eq_true_iff_eq;
  rewrite ?andb_true_iff, ?orb_true_iff, ?negb_true_iff,
    ?Z.leb_le, ?Z.ltb_lt, ?Z.eqb_eq, ?Z.leb_gt, ?Z.ltb_ge;
  unfold w32 in *; lia.

(** Case analysis on the sign bits of both operands and of the result. *)
Ltac flag_cases a b r :=
  sign_bits; rewrite !(s32_w32 a), !(s32_w32 b) by done; unfold w32 in *;
  f_equal; destruct (Z.leb_spec 0x80000000 a), (Z.leb_spec 0x80000000 b),
    (Z.leb_spec 0x80000000 r); cbn [andb orb negb xorb]; bool_lia.

Section flag_specs.
Context (a b : Z) (Ha : w32 a) (Hb : w32 b).

Lemma flags_adc_spec c :
  0 ≤ c ≤ 1 → flags_adc a b (u32 (a + b + c)) = add_nzcv a b c.
Proof using Ha Hb.
  intros Hc. unfold flags_adc, add_nzcv. cbv zeta.
  rewrite flags_nz_spec by apply u32_w32. rewrite flags_cv.
  destruct (u32_cases (a + b + c)) as (q & Hq & Hr).
  revert Hq Hr. generalize (u32 (a + b + c)) as r. intros r Hq Hr.
  flag_cases a b r.
Qed.

Lemma flags_add_spec : flags_add a b (add32 a b) = add_nzcv a b 0.
Proof using Ha Hb.
  unfold flags_add, add_nzcv, add32. cbv zeta. rewrite !Z.add_0_r.
  rewrite flags_nz_spec by apply u32_w32. rewrite flags_cv.
  destruct (u32_cases (a + b)) as (q & Hq & Hr).
  revert Hq Hr. generalize (u32 (a + b)) as r. intros r Hq Hr.
  flag_cases a b r.
Qed.

Lemma flags_sbc_spec c :
  0 ≤ c ≤ 1 → flags_sbc a b (u32 (a - b - (1 - c))) = sub_nzcv a b c.
Proof using Ha Hb.
  intros Hc. unfold flags_sbc, sub_nzcv. cbv zeta.
  rewrite flags_nz_spec by apply u32_w32. rewrite flags_cv.
  destruct (u32_cases (a - b - (1 - c))) as (q & Hq & Hr).
  revert Hq Hr. generalize (u32 (a - b - (1 - c))) as r. intros r Hq Hr.
  flag_cases a b r.
Qed.

Lemma flags_sub_spec : flags_sub a b (sub32 a b) = sub_nzcv a b 1.
Proof using Ha Hb.
  unfold flags_sub, sub_nzcv, sub32. cbv zeta.
  replace (a - b - (1 - 1)) with (a - b) by lia.
  replace (s32 a - s32 b - (1 - 1)) with (s32 a - s32 b) by lia.
  rewrite flags_nz_spec by apply u32_w32. rewrite flags_cv.
  destruct (u32_cases (a - b)) as (q & Hq & Hr).
  revert Hq Hr. generalize (u32 (a - b)) as r. intros r Hq Hr.
  flag_cases a b r.
Qed.
End flag_specs.

(** * The host

    The debugger hooks of rpcemu.c, the FPA, and the host services reached from [opSWI].
    The hooks only see the core (a [Mach] argument) and change their own state; the
    services are given the registers and the memory system to work on. *)

Inductive CPUModel :=
  CPUModel_ARM610 | CPUModel_ARM710 | CPUModel_SA110
| CPUModel_ARM7500 | CPUModel_ARM7500FE | CPUModel_ARM810.
#[export] Instance cpumodel_eq_dec : EqDecision CPUModel.
Proof. solve_decision. Defined.

Class HostSys (S P : Type) := {
  (** debugger hooks (rpcemu.c) *)
  debugger_exception_hook : Z → Z → Z → S → S;
  debugger_hook_active : S → bool;
  debugger_instruction_hook : Z → Z → S → bool * S;
  debugger_after_instruction : Z → Z → S → S;
  debugger_bad_mode : Z → Z → S → bool * S;
  debugger_break_swi : Z → S → S;
  debugger_swi_trace_active : S → bool;
  debugger_swi_hook : Z → Z → Mach S P → S;
  (** accelerators.c, rpcemu.c *)
  accel_swi : Z → Mach S P → bool * S;
  rpcemu_request_poweroff : S → S;
  rpcemu_idle : S → S;
  hostfs_activity_increment : S → S;
  network_activity_increment : S → S;
  (** config *)
  config_cpu_idle : S → bool;
  config_network : S → bool;
  config_clipboard_enabled : S → bool;
  config_hostcmd_enabled : S → bool;
  mousehack : S → bool;
  (** fpa.c, keyboard.c, hostfs.c, network.c, hostclipboard.c, hostcmd.c *)
  fpaopcode : Z → M (Mach S P) unit;
  mouse_hack_osword_21_0 : Z → M (Mach S P) unit;
  mouse_hack_osword_21_1 : Z → M (Mach S P) unit;
  mouse_hack_osword_21_3 : Z → M (Mach S P) unit;
  mouse_hack_osword_21_4 : Z → M (Mach S P) unit;
  mouse_hack_osmouse : M (Mach S P) unit;
  mouse_hack_osbyte_106 : Z → M (Mach S P) unit;
  hostfs : M (Mach S P) unit;
  hostcmd : M (Mach S P) unit;
  (** the two result words, stored to R0 and R1 by the caller's pointers *)
  network_swi : list Z → M (Mach S P) (Z * Z);
  clipboard_swi : list Z → M (Mach S P) (Z * Z)
}.

Section host.
Context {S P : Type} `{!MemSys S P} `{!HostSys S P}.
Local Abbreviation ARM := (M (Mach S P)).

(** A hook: a computation on the emulator's own state that is shown [m]. *)
Definition hook (f : Mach S P → S) : ARM unit := modify (λ m, set_sys (f m) m).
Definition hook_ask (f : Mach S P → bool * S) : ARM bool :=
  λ m, let '(b, s) := f m in Some (b, set_sys s m).
End host.
