(* ===== verification/ArmMode.v ===== *)
(** Processor modes: the register banks, exceptions, and the writes to the
    status registers that can change mode (arm.c [updatemode], [exception],
    [arm_reset]; arm_common.h). *)

From S2P Require Export ArmFlags.

(** * Register banks *)

(** [for (c = lo; c < lo + n; c++) dst[c] = src[c];] *)
Definition arr_copy (lo : Z) (n : nat) (src dst : gmap Z Z) : gmap Z Z :=
  arr_fill lo n (λ c, src !!! c) dst.

(** [dst[0] = src[13]; dst[1] = src[14];] and back *)
Definition save_13_14 (src dst : gmap Z Z) : gmap Z Z :=
  <[1 := src !!! 14]> (<[0 := src !!! 13]> dst).
Definition load_13_14 (src dst : gmap Z Z) : gmap Z Z :=
  <[14 := src !!! 1]> (<[13 := src !!! 0]> dst).

Definition save_user_8_12 (a : ARMState) : ARMState :=
  set_user_reg (arr_copy 8 5 (reg a) (user_reg a)) a.
Definition save_user_8_14 (a : ARMState) : ARMState :=
  set_user_reg (arr_copy 8 7 (reg a) (user_reg a)) a.
Definition load_user_8_12 (a : ARMState) : ARMState :=
  set_reg (arr_copy 8 5 (user_reg a) (reg a)) a.
Definition load_user_8_14 (a : ARMState) : ARMState :=
  set_reg (arr_copy 8 7 (user_reg a) (reg a)) a.

(** "Store back registers" *)
Definition store_back (a : ARMState) : ARMState :=
  match mode a .& 0xf with
  | 0 (* USER *) | 15 (* SYSTEM *) => save_user_8_14 a
  | 2 (* IRQ *) =>
      let a := save_user_8_12 a in set_irq_reg (save_13_14 (reg a) (irq_reg a)) a
  | 1 (* FIQ *) => set_fiq_reg (arr_copy 8 7 (reg a) (fiq_reg a)) a
  | 3 (* SUPERVISOR *) =>
      let a := save_user_8_12 a in set_super_reg (save_13_14 (reg a) (super_reg a)) a
  | 7 (* ABORT *) =>
      let a := save_user_8_12 a in set_abort_reg (save_13_14 (reg a) (abort_reg a)) a
  | 11 (* UNDEFINED *) =>
      let a := save_user_8_12 a in set_undef_reg (save_13_14 (reg a) (undef_reg a)) a
  | _ => a
  end.

(** The register half of the second switch of [updatemode_at]; [None] is its
    default branch, a reserved mode. *)
Definition load_bank (m : Z) (a : ARMState) : option ARMState :=
  match m .& 15 with
  | 0 | 15 => Some (load_user_8_14 a)
  | 2 => let a := load_user_8_12 a in Some (set_reg (load_13_14 (irq_reg a) (reg a)) a)
  | 1 => Some (set_reg (arr_copy 8 7 (fiq_reg a) (reg a)) a)
  | 3 => let a := load_user_8_12 a in Some (set_reg (load_13_14 (super_reg a) (reg a)) a)
  | 7 => let a := load_user_8_12 a in Some (set_reg (load_13_14 (abort_reg a) (reg a)) a)
  | 11 => let a := load_user_8_12 a in Some (set_reg (load_13_14 (undef_reg a) (reg a)) a)
  | _ => None
  end.

(** The pointer half. *)
Definition usr_pointers (m : Z) (u : gmap Z usrref) : gmap Z usrref :=
  match m .& 15 with
  | 2 | 3 | 7 | 11 => arr_fill 13 2 InUser (arr_fill 0 13 InReg u)
  | 1 => arr_fill 8 7 InUser (arr_fill 0 8 InReg u)
  | _ => arr_fill 0 15 InReg u
  end.

(** The end of [updatemode_at], entering a 32-bit mode or a 26-bit one. *)
Definition enter_32 (om : Z) (a : ARMState) : ARMState :=
  let a := set_r15_mask 0xfffffffc (set_mmask 0x1f a) in
  if ARM_MODE_32 om then a
  else
    let r15 := reg a !!! 15 in
    let a := put_reg 16 ((r15 .& 0xf0000000) .| mode a) a in
    let a := put_reg 16 ((reg a !!! 16) .| ((r15 .& 0xc000000) .>> 20)) a in
    put_reg 15 (r15 .& 0x3fffffc) a.

Definition enter_26 (om : Z) (a : ARMState) : ARMState :=
  let a := set_r15_mask 0x3fffffc (set_mmask 3 a) in
  let a := put_reg 16 ((reg a !!! 16 .& 0xffffffe0) .| mode a) a in
  if ARM_MODE_32 om then
    let r15 := reg a !!! 15 .& r15_mask a in
    let r15 := r15 .| (mode a .& 3) in
    let r15 := r15 .| (reg a !!! 16 .& 0xf0000000) in
    let r15 := r15 .| shl32 (reg a !!! 16 .& 0xc0) 20 in
    put_reg 15 r15 a
  else a.

Definition msrlookup (i : Z) : Z :=
  nth (Z.to_nat i)
    [ 0x00000000; 0x000000ff; 0x0000ff00; 0x0000ffff;
      0x00ff0000; 0x00ff00ff; 0x00ffff00; 0x00ffffff;
      0xff000000; 0xff0000ff; 0xff00ff00; 0xff00ffff;
      0xffff0000; 0xffff00ff; 0xffffff00; 0xffffffff ] 0.
Definition PSR_BITS_VALID : Z := 0xf00000df.

Section mode.
Context {S P : Type} `{!MemSys S P} `{!HostSys S P}.
Local Abbreviation ARM := (M (Mach S P)).

Definition updatemode_at (m pc : Z) : ARM unit :=
  om ← gets (λ s, mode (arm s));
  modify (λ s, set_usrregs (<[15 := InReg 15]> (usrregs s)) s);;
  modify (upd_arm store_back);;
  modify (upd_arm (set_mode m));;
  loaded ← gets (λ s, load_bank m (arm s));
  match loaded with
  | Some a => modify (set_arm a)
  | None =>
      halted ← hook_ask (λ s, debugger_bad_mode (mode (arm s)) pc (sys s));
      if (halted : bool) then modify (upd_arm load_user_8_14) else fatal
  end;;
  modify (λ s, set_usrregs (usr_pointers m (usrregs s)) s);;
  md ← gets (λ s, mode (arm s));
  (if ARM_MODE_32 md then
     modify (λ s, set_pcpsr 16 (set_cpsr 16 s));; modify (upd_arm (enter_32 om))
   else
     modify (λ s, set_pcpsr 15 (set_cpsr 15 s));; modify (upd_arm (enter_26 om)));;
  mem_set_privilege (if ARM_MODE_PRIV md then 1 else 0).

Definition updatemode (m : Z) : ARM unit :=
  pc ← gets PC; updatemode_at m pc.

Definition arm_reset (cpu_model : CPUModel) : ARM unit :=
  modify (set_arm arm_zero);;
  modify (upd_arm (set_r15_mask 0x3fffffc));;
  modify (set_pccache 0xffffffff);;
  updatemode SUPERVISOR;;
  modify (set_cpsr 15);;
  wreg 15 (0x0c000008 .| 3);;
  wreg 16 (SUPERVISOR .| 0xd0);;
  modify (upd_arm (set_mode SUPERVISOR));;
  modify (set_pccache 0xffffffff);;
  match cpu_model with
  | CPUModel_SA110 | CPUModel_ARM810 =>
      modify (upd_arm (λ a, set_arch_v4 1 (set_stm_writeback_at_end 1
        (set_abort_base_restored 1 (set_r15_diff 0 a)))))
  | _ =>
      modify (upd_arm (λ a, set_arch_v4 0 (set_stm_writeback_at_end 0
        (set_abort_base_restored 0 (set_r15_diff 4 a)))))
  end.

(** * Exceptions *)

Definition wspsr (i v : Z) : ARM unit :=
  modify (upd_arm (λ a, set_spsr (<[i := v]> (spsr a)) a)).
Definition rspsr (i : Z) (m : Mach S P) : Z := spsr (arm m) !!! i.

Definition exception (mmode address diff : Z) : ARM unit :=
  hook (λ s, debugger_exception_hook mmode address (rreg 15 s) (sys s));;
  let irq_disable := if mmode =? FIQ then 0x80 .| 0x40 else 0x80 in
  r15 ← gets (rreg 15);
  let link := sub32 r15 diff in
  md ← gets (λ s, mode (arm s));
  p32 ← gets (λ s, ms_prog32 (sys s));
  if ARM_MODE_32 md then
    r16 ← gets (rreg 16);
    wspsr mmode r16;;
    updatemode (0x10 .| mmode);;
    wreg 14 link;;
    r16 ← gets (rreg 16); wreg 16 (r16 .&~ 0x1f);;
    r16 ← gets (rreg 16); wreg 16 (r16 .| (0x10 .| mmode .| irq_disable));;
    wreg 15 address
  else if nz p32 then
    updatemode (0x10 .| mmode);;
    wreg 14 (link .& 0x3fffffc);;
    r16 ← gets (rreg 16); wspsr mmode ((r16 .&~ 0x1f) .| (link .& 3));;
    sp ← gets (rspsr mmode); wspsr mmode (sp .&~ 0x10);;
    r16 ← gets (rreg 16); wreg 16 (r16 .| irq_disable);;
    wreg 15 address
  else
    let new_mode := if SUPERVISOR <=? mmode then SUPERVISOR else mmode in
    updatemode new_mode;;
    wreg 14 link;;
    r15 ← gets (rreg 15); wreg 15 (r15 .& 0xfc000000);;
    r15 ← gets (rreg 15); wreg 15 (r15 .| (shl32 irq_disable 20 .| address .| new_mode)).

Definition arm_exception_undefined : ARM unit := exception UNDEFINED 8 4.

(** [arm_unpredictable]: the log line is not modelled, the limit is. *)
Definition arm_unpredictable (opcode : Z) : ARM unit :=
  modify (λ s, if unpredictable_count s =? 0 then s
               else set_unpredictable_count (unpredictable_count s - 1) s).

(** * Writes to the program counter and the status registers *)

Definition arm_write_r15 (opcode dest : Z) : ARM unit :=
  md ← gets (λ s, mode (arm s));
  instruction_pc ← gets PC;
  let mask := if ARM_MODE_32 md then 0xfffffffc
              else if ARM_MODE_PRIV md then 0xffffffff else 0xf3fffffc in
  r15 ← gets (rreg 15);
  wreg 15 ((r15 .&~ mask) .| (add32 dest 4 .& mask));;
  when (ARM_MODE_PRIV md)
    (when (ARM_MODE_32 md) (sp ← gets (rspsr (md .& 0xf)); wreg 16 sp);;
     p ← gets psr;
     mm ← gets (λ s, mmask (arm s));
     when (negb (p .& mm =? md)) (updatemode_at (p .& mm) instruction_pc)).

Definition arm_compare_rd15 (opcode dest : Z) : ARM unit :=
  md ← gets (λ s, mode (arm s));
  (if ARM_MODE_32 md then
     when (ARM_MODE_PRIV md) (sp ← gets (rspsr (md .& 0xf)); wreg 16 sp)
   else
     let mask := if ARM_MODE_PRIV md then 0xfc000003 else 0xf0000000 in
     r15 ← gets (rreg 15);
     wreg 15 ((r15 .&~ mask) .| (dest .& mask)));;
  p ← gets psr;
  mm ← gets (λ s, mmask (arm s));
  when (negb (p .& mm =? md)) (updatemode (p .& mm)).

Definition arm_write_cpsr (opcode value : Z) : ARM unit :=
  md ← gets (λ s, mode (arm s));
  let opcode := if ARM_MODE_PRIV md then opcode else opcode .&~ 0x70000 in
  let field_mask := msrlookup ((opcode .>> 16) .& 0xf) .& PSR_BITS_VALID in
  r16 ← gets (rreg 16);
  wreg 16 ((r16 .&~ field_mask) .| (value .& field_mask));;
  when (negb (ARM_MODE_32 md))
    (when (nz (opcode .& 0x80000))
       (r15 ← gets (rreg 15);
        wreg 15 ((r15 .&~ 0xf0000000) .| (value .& 0xf0000000)));;
     when (nz (opcode .& 0x10000))
       (r15 ← gets (rreg 15);
        wreg 15 ((r15 .&~ 0x0c000003) .| (value .& 0x3) .| shl32 (value .& 0xc0) 20)));;
  r16 ← gets (rreg 16);
  when (negb (r16 .& 0x1f =? md)) (updatemode (r16 .& 0x1f)).

Definition arm_read_spsr (m : Mach S P) : Z :=
  let md := mode (arm m) in
  if ARM_MODE_HAS_SPSR md then rspsr (md .& 0xf) m
  else if ARM_MODE_32 md then rreg 16 m
  else (rreg 15 m .& 0xf0000000) .| ((rreg 15 m .>> 20) .& 0xc0) .| (rreg 15 m .& 3).

Definition arm_write_spsr (opcode value : Z) : ARM unit :=
  md ← gets (λ s, mode (arm s));
  when (ARM_MODE_HAS_SPSR md)
    (let field_mask := msrlookup ((opcode .>> 16) .& 0xf) .& PSR_BITS_VALID in
     sp ← gets (rspsr (md .& 0xf));
     wspsr (md .& 0xf) ((sp .&~ field_mask) .| (value .& field_mask))).
End mode.
