(* ===== verification/ArmShift.v ===== *)
(** The barrel shifter of the interpreter (arm.c [shift3], [shift4], [shift5]):
    [shift3] also computes the carry flag, [shift4] does not and leaves the
    shift amounts of zero and of thirty-two and above to [shift5]. *)

From S2P Require Export ArmMode.

(** The shift amount field: an immediate, or the bottom byte of a register. *)
Definition shiftamount {S P} (opcode : Z) (m : Mach S P) : Z :=
  if nz (opcode .& 0x10) then rreg ((opcode .>> 8) .& 0xf) m .& 0xff
  else (opcode .>> 7) .& 0x1f.

(** The value and what becomes of the C flag in [shift3]: [Some c] is a C flag
    written (cleared by [&= ~CFLAG], set by [|= CFLAG]), [None] one left alone.
    [amount], [temp] and [cflag] are the locals of the C function. *)
Definition shift3_lsl (amount temp : Z) : Z * option bool :=
  if amount =? 0 then (temp, None)
  else if amount =? 32 then (0, Some (nz (temp .& 1)))
  else if 32 <? amount then (0, Some false)
  else (shl32 temp amount, Some (nz (shl32 temp (amount - 1) .& 0x80000000))).

Definition shift3_lsr (opcode amount temp : Z) : Z * option bool :=
  let amount := if (amount =? 0) && negb (nz (opcode .& 0x10)) then 32 else amount in
  if amount =? 0 then (temp, None)
  else if amount =? 32 then (0, Some (nz (temp .& 0x80000000)))
  else if 32 <? amount then (0, Some false)
  else (temp .>> amount, Some (nz ((temp .>> (amount - 1)) .& 1))).

Definition shift3_asr (opcode amount temp : Z) : Z * option bool :=
  if (amount =? 0) && nz (opcode .& 0x10) then (temp, None)
  else if (32 <=? amount) || (amount =? 0) then
    (if nz (temp .& 0x80000000) then 0xffffffff else 0, Some (nz (temp .& 0x80000000)))
  else (asr32 temp amount, Some (nz (Z.shiftr (s32 temp) (amount - 1) .& 1))).

Definition shift3_ror (opcode amount temp cflag : Z) : Z * option bool :=
  if (amount =? 0) && negb (nz (opcode .& 0x10)) then
    (shl32 cflag 31 .| (temp .>> 1), Some (nz (temp .& 1)))
  else if amount =? 0 then (temp, Some (nz cflag))
  else if amount .& 0x1f =? 0 then (temp, Some (nz (temp .& 0x80000000)))
  else
    let r := rotate_right32 temp (amount .& 0x1f) in
    (r, Some (nz (r .& 0x80000000))).

Definition shift5 (opcode shiftmode shiftamount rm cfset : Z) : Z :=
  if shiftmode =? 0 then
    if shiftamount =? 0 then rm else 0
  else if shiftmode =? 0x20 then
    if (shiftamount =? 0) && nz (opcode .& 0x10) then rm else 0
  else if shiftmode =? 0x40 then
    let shiftamount :=
      if (shiftamount =? 0) && negb (nz (opcode .& 0x10)) then 32 else shiftamount in
    if 32 <=? shiftamount then if nz (rm .& 0x80000000) then 0xffffffff else 0
    else asr32 rm shiftamount
  else
    if negb (nz (opcode .& 0x10)) then shl32 cfset 31 .| (rm .>> 1)
    else rotate_right32 rm (shiftamount .& 0x1f).

Section shift.
Context {S P : Type}.
Local Abbreviation ARM := (M (Mach S P)).
Implicit Types m : Mach S P.

Definition shift3 (opcode : Z) : ARM Z :=
  let shiftmode := opcode .& 0x60 in
  cflag ← gets CFSET;
  amount ← gets (shiftamount opcode);
  temp ← gets (rreg (RM opcode));
  let '(value, c) :=
    if shiftmode =? 0 then shift3_lsl amount temp
    else if shiftmode =? 0x20 then shift3_lsr opcode amount temp
    else if shiftmode =? 0x40 then shift3_asr opcode amount temp
    else shift3_ror opcode amount temp cflag in
  match c with Some b => set_cflag b | None => mret tt end;;
  mret value.

Definition shift4 (opcode : Z) m : Z :=
  let shiftmode := opcode .& 0x60 in
  let rm := rreg (RM opcode) m in
  let shiftamount := shiftamount opcode m in
  if 31 <=? sub32 shiftamount 1 then shift5 opcode shiftmode shiftamount rm (CFSET m)
  else if shiftmode =? 0 then shl32 rm shiftamount
  else if shiftmode =? 0x20 then rm .>> shiftamount
  else if shiftmode =? 0x40 then asr32 rm shiftamount
  else rotate_right32 rm shiftamount.

(** [shift(o)] and [shift2(o)] *)
Definition shift (opcode : Z) : ARM Z :=
  if nz (opcode .& 0xff0) then shift3 opcode else gets (rreg (RM opcode)).
Definition shift2 (opcode : Z) m : Z :=
  if nz (opcode .& 0xff0) then shift4 opcode m else rreg (RM opcode) m.
End shift.

(** * The shifter the architecture describes

    [shifter type by_reg n rm c] is the shifter operand and carry-out of a
    shift of [rm] by [n], where [c] is the carry flag; a shift by an immediate
    zero means LSL #0, LSR #32, ASR #32 and RRX. *)
Definition shifter (type : Z) (by_reg : bool) (n rm : Z) (c : bool) : Z * bool :=
  let n := if (n =? 0) && negb by_reg && ((type =? 1) || (type =? 2)) then 32 else n in
  if (n =? 0) && negb by_reg && (type =? 3) then
    ((if c then 0x80000000 else 0) + rm / 2, Z.testbit rm 0)
  else if n =? 0 then (rm, c)
  else if type =? 0 then (u32 (rm * 2 ^ n), Z.testbit rm (32 - n))
  else if type =? 1 then (rm / 2 ^ n, Z.testbit rm (n - 1))
  else if type =? 2 then (u32 (s32 rm / 2 ^ n), Z.testbit (s32 rm) (n - 1))
  else
    let k := n mod 32 in
    ((rm * 2 ^ (32 - k)) mod 2 ^ 32 + rm / 2 ^ k, Z.testbit rm ((n - 1) mod 32)).

(** * The code computes it *)

Lemma lor_add a b : a .& b = 0 → a .| b = a + b.
Proof. intros H. by rewrite Z.add_nocarry_lxor, Z.lxor_lor by done. Qed.

Lemma nz_bit0 x : nz (x .& 1) = Z.testbit x 0.
Proof. apply (nz_mask_bit x 0). done. Qed.

Lemma shr_small x n : w32 x → 32 ≤ n → x / 2 ^ n = 0.
Proof.
  intros Hx Hn. apply Z.div_small. unfold w32 in Hx. split; [lia|].
  assert (2 ^ 32 ≤ 2 ^ n) by (apply Z.pow_le_mono_r; lia). lia.
Qed.

Lemma shl_big x n : 32 ≤ n → u32 (x * 2 ^ n) = 0.
Proof.
  intros Hn. unfold u32. replace n with (n - 32 + 32) by lia.
  rewrite Z.pow_add_r by lia. rewrite Z.mul_assoc. by apply Z.mod_mul.
Qed.

Lemma rotate_right32_spec x k :
  w32 x → 0 ≤ k < 32 →
  rotate_right32 x k = (x * 2 ^ (32 - k)) mod 2 ^ 32 + x / 2 ^ k.
Proof.
  intros Hx Hk. unfold rotate_right32. change 31 with (Z.ones 5).
  rewrite !Z.land_ones by done. rewrite (Z.mod_small k) by (change (2^5) with 32; lia).
  destruct (Z.eq_dec k 0) as [->|Hk0].
  - change (sub32 32 0 mod 2 ^ 5) with 0. unfold shl32.
    rewrite Z.shiftr_0_r, Z.shiftl_0_r, u32_id, Z.lor_diag by done.
    change (2 ^ (32 - 0)) with (2 ^ 32). rewrite Z.mod_mul by done.
    by rewrite Z.div_1_r.
  - replace (sub32 32 k mod 2 ^ 5) with (32 - k).
    2:{ unfold sub32. rewrite u32_id by (unfold w32; lia).
        rewrite Z.mod_small; [done | change (2^5) with 32; lia]. }
    rewrite lor_add.
    + unfold shl32, u32. rewrite Z.shiftl_mul_pow2, Z.shiftr_div_pow2 by lia. by rewrite Z.add_comm.
    + apply Z.bits_inj'. intros i Hi. rewrite Z.land_spec, Z.bits_0, Z.shiftr_spec by done.
      rewrite shl32_spec by lia.
      destruct (Z.lt_ge_cases i (32 - k)).
      * by rewrite (Z.testbit_neg_r x (i - _)), !andb_false_r by lia.
      * by rewrite (w32_high x (i + k)) by (done || lia).
Qed.

Lemma rotate_right32_0 x : w32 x → rotate_right32 x 0 = x.
Proof.
  intros Hx. rewrite rotate_right32_spec by done. change (2 ^ (32 - 0)) with (2 ^ 32).
  by rewrite Z.mod_mul, Z.div_1_r.
Qed.

Lemma rotate_right32_bit31 x k :
  w32 x → 0 < k < 32 → Z.testbit (rotate_right32 x k) 31 = Z.testbit x (k - 1).
Proof.
  intros Hx Hk. unfold rotate_right32. change 31 with (Z.ones 5) at 1 2.
  rewrite !Z.land_ones by done. rewrite (Z.mod_small k) by (change (2^5) with 32; lia).
  replace (sub32 32 k mod 2 ^ 5) with (32 - k).
  2:{ unfold sub32. rewrite u32_id by (unfold w32; lia).
      rewrite Z.mod_small; [done | change (2^5) with 32; lia]. }
  rewrite Z.lor_spec, Z.shiftr_spec, shl32_spec by lia.
  rewrite (w32_high x (31 + k)) by (done || lia).
  change (31 <? 32) with true. cbn [orb andb]. f_equal. lia.
Qed.

Lemma w32_rotate x k : w32 x → w32 (rotate_right32 x k).
Proof.
  intros Hx. unfold rotate_right32. apply w32_lor; [|apply u32_w32].
  apply w32_shiftr; [done|]. apply Z.land_nonneg. by right.
Qed.
#[export] Hint Resolve w32_rotate : w32.

(** Carry out as the C code leaves it: the flag written, or the old one. *)
Definition carry_of (c : bool) (r : Z * option bool) : Z * bool :=
  (fst r, match snd r with Some b => b | None => c end).

Section shifter_correct.
Context (opcode n rm : Z) (c : bool) (Hrm : w32 rm) (Hn : 0 ≤ n).
Let byreg := nz (opcode .& 0x10).

Lemma shift3_lsl_spec : carry_of c (shift3_lsl n rm) = shifter 0 byreg n rm c.
Proof using Hrm Hn.
  unfold shift3_lsl, shifter, carry_of. cbn [Z.eqb orb]. rewrite !andb_false_r.
  destruct (Z.eqb_spec n 0) as [->|H0]; [done|].
  destruct (Z.eqb_spec n 32) as [->|H32]; cbn [fst snd].
  { rewrite shl_big, nz_bit0 by done. done. }
  destruct (Z.ltb_spec 32 n); cbn [fst snd].
  { by rewrite shl_big, Z.testbit_neg_r by lia. }
  rewrite nz_bit31, shl32_spec by lia. unfold shl32. rewrite Z.shiftl_mul_pow2 by lia.
  change (31 <? 32) with true. cbn [andb]. do 2 f_equal. lia.
Qed.

Lemma shift3_lsr_spec : carry_of c (shift3_lsr opcode n rm) = shifter 1 byreg n rm c.
Proof using Hrm Hn.
  unfold shift3_lsr, shifter, carry_of. fold byreg.
  change ((1 =? 1) || (1 =? 2)) with true. change (1 =? 3) with false.
  rewrite !andb_false_r, !andb_true_r.
  set (k := if (n =? 0) && negb byreg then 32 else n).
  assert (0 ≤ k) by (subst k; destruct (_ && _); lia). clearbody k. cbn [Z.eqb].
  destruct (Z.eqb_spec k 0) as [->|H0]; [done|].
  destruct (Z.eqb_spec k 32) as [->|H32]; cbn [fst snd].
  { by rewrite nz_bit31, shr_small. }
  destruct (Z.ltb_spec 32 k); cbn [fst snd].
  { by rewrite shr_small, w32_high by (done || lia). }
  by rewrite nz_bit0, Z.shiftr_spec, Z.shiftr_div_pow2 by lia.
Qed.

Lemma s32_div_big k : 32 ≤ k → s32 rm / 2 ^ k = if Z.testbit rm 31 then -1 else 0.
Proof using Hrm.
  intros Hk. assert (2 ^ 32 ≤ 2 ^ k) by (apply Z.pow_le_mono_r; lia).
  rewrite s32_w32, w32_bit31 by done. unfold w32 in Hrm. change (2 ^ 32) with 0x100000000 in *.
  destruct (Z.leb_spec 0x80000000 rm).
  - symmetry. apply (Z.div_unique _ _ _ (rm - 0x100000000 + 2 ^ k)); lia.
  - apply Z.div_small. lia.
Qed.

Lemma s32_bit_high k : 31 ≤ k → Z.testbit (s32 rm) k = Z.testbit rm 31.
Proof using Hrm.
  intros Hk. rewrite Z.testbit_odd, Z.shiftr_div_pow2 by lia.
  rewrite s32_w32, w32_bit31 by done. unfold w32 in Hrm.
  assert (2 ^ 31 ≤ 2 ^ k) by (apply Z.pow_le_mono_r; lia). change (2 ^ 31) with 0x80000000 in *.
  destruct (Z.leb_spec 0x80000000 rm).
  - replace ((rm - 0x100000000) / 2 ^ k) with (-1); [done|].
    apply (Z.div_unique _ _ _ (rm - 0x100000000 + 2 ^ k)); lia.
  - by rewrite Z.div_small by lia.
Qed.

Lemma asr_value_big k :
  32 ≤ k → u32 (s32 rm / 2 ^ k) = if nz (rm .& 0x80000000) then 0xffffffff else 0.
Proof using Hrm. intros Hk. rewrite s32_div_big, nz_bit31 by done. by destruct (Z.testbit rm 31). Qed.

Lemma shift3_asr_spec : carry_of c (shift3_asr opcode n rm) = shifter 2 byreg n rm c.
Proof using Hrm Hn.
  unfold shift3_asr, shifter, carry_of. fold byreg.
  change ((2 =? 1) || (2 =? 2)) with true. change (2 =? 3) with false.
  rewrite !andb_false_r, !andb_true_r.
  destruct (Z.eqb_spec n 0) as [->|H0]; cbn [andb].
  - destruct byreg; [done|].
    cbn [orb negb fst snd]. change (32 <=? 0) with false. cbn [orb fst snd].
    change (32 =? 0) with false. cbn [Z.eqb].
    by rewrite asr_value_big, s32_bit_high, nz_bit31 by lia.
  - rewrite orb_false_r. replace (n =? 0) with false by (symmetry; by apply Z.eqb_neq).
    cbn [Z.eqb]. destruct (Z.leb_spec 32 n); cbn [fst snd].
    + by rewrite asr_value_big, s32_bit_high, nz_bit31 by lia.
    + rewrite nz_bit0, Z.shiftr_spec by lia. unfold asr32.
      by rewrite Z.shiftr_div_pow2 by lia.
Qed.

Lemma land31_mod : n .& 0x1f = n mod 32.
Proof using. apply (Z.land_ones n 5). done. Qed.

Lemma shift3_ror_spec :
  carry_of c (shift3_ror opcode n rm (if c then 1 else 0)) = shifter 3 byreg n rm c.
Proof using Hrm Hn.
  unfold shift3_ror, shifter, carry_of. fold byreg. rewrite land31_mod.
  change ((3 =? 1) || (3 =? 2)) with false. change (3 =? 3) with true.
  rewrite !andb_false_r, !andb_true_r.
  destruct (Z.eqb_spec n 0) as [->|H0]; cbn [andb].
  - destruct byreg; cbn [negb fst snd]; [by destruct c|].
    rewrite nz_bit0. f_equal. rewrite lor_add.
    + rewrite (Z.shiftr_div_pow2 rm 1) by done. by destruct c.
    + apply Z.bits_inj'. intros i Hi. rewrite Z.land_spec, Z.bits_0, Z.shiftr_spec by done.
      destruct (Z.eq_dec i 31) as [->|Hne].
      * by rewrite (w32_high rm) by (done || lia); rewrite andb_false_r.
      * replace (shl32 (if c then 1 else 0) 31) with (if c then 2 ^ 31 else 0) by by destruct c.
        destruct c; [by rewrite Z.pow2_bits_false by lia | by rewrite Z.bits_0].
  - cbn [Z.eqb fst snd]. pose proof (Z.mod_pos_bound n 32).
    destruct (Z.eqb_spec (n mod 32) 0) as [Hm|Hm]; cbn [fst snd].
    + rewrite Hm. change (2 ^ (32 - 0)) with (2 ^ 32). rewrite Z.mod_mul, Z.div_1_r by done.
      rewrite nz_bit31. do 2 f_equal. apply (Z.mod_unique _ _ (n / 32 - 1)); [lia|].
      pose proof (Z.div_mod n 32). lia.
    + rewrite nz_bit31, rotate_right32_bit31, rotate_right32_spec by (done || lia).
      do 2 f_equal. apply (Z.mod_unique _ _ (n / 32)); [lia|].
      pose proof (Z.div_mod n 32). lia.
Qed.
End shifter_correct.

(** * The shifter operand of an instruction *)

Definition shift_type (opcode : Z) : Z := (opcode .>> 5) .& 3.

Section operand.
Context {S P : Type}.
Implicit Types m : Mach S P.

Definition cf m : bool := nz (psr m .& CFLAG).

(** Shifter operand and carry-out of a register operand. *)
Definition operand2 (opcode : Z) m : Z * bool :=
  shifter (shift_type opcode) (nz (opcode .& 0x10)) (shiftamount opcode m)
    (rreg (RM opcode) m) (cf m).

(** The state after a write to C, if there is one. *)
Definition carry_upd (oc : option bool) m : Mach S P :=
  match oc with
  | Some c => upd_arm (put_reg (cpsr m) (if c then psr m .| CFLAG else psr m .&~ CFLAG)) m
  | None => m
  end.

Lemma CFSET_cf m : CFSET m = if cf m then 1 else 0.
Proof. reflexivity. Qed.

Lemma shiftamount_range opcode m : 0 ≤ shiftamount opcode m < 256.
Proof.
  unfold shiftamount. destruct (nz _).
  - change 0xff with (Z.ones 8). rewrite Z.land_ones by done. by apply Z.mod_pos_bound.
  - change 0x1f with (Z.ones 5). rewrite Z.land_ones by done.
    pose proof (Z.mod_pos_bound (opcode .>> 7) (2 ^ 5)). lia.
Qed.

Lemma shift_mode_type opcode : opcode .& 0x60 = 32 * shift_type opcode.
Proof.
  unfold shift_type. apply Z.bits_inj'. intros i Hi.
  rewrite (Z.mul_comm 32). change 32 with (2 ^ 5). rewrite <- Z.shiftl_mul_pow2 by done.
  rewrite Z.shiftl_spec, !Z.land_spec by done.
  destruct (Z.lt_ge_cases i 5).
  - rewrite (Z.testbit_neg_r 3) by lia. rewrite andb_false_r.
    assert (Z.testbit 0x60 i = false) as ->; [|apply andb_false_r].
    assert (i = 0 ∨ i = 1 ∨ i = 2 ∨ i = 3 ∨ i = 4) as [->|[->|[->|[->| ->]]]] by lia; done.
  - rewrite Z.shiftr_spec by lia. replace (i - 5 + 5) with i by lia.
    change 0x60 with (Z.shiftl 3 5). by rewrite (Z.shiftl_spec 3 5 i) by lia.
Qed.

Lemma shift_type_cases opcode :
  shift_type opcode = 0 ∨ shift_type opcode = 1 ∨ shift_type opcode = 2 ∨ shift_type opcode = 3.
Proof.
  unfold shift_type. set (x := opcode .>> 5). change (x .& 3) with (x .& Z.ones 2).
  rewrite Z.land_ones by done. pose proof (Z.mod_pos_bound x (2 ^ 2) eq_refl). lia.
Qed.

Lemma carry_of_inv c r v c' : carry_of c r = (v, c') →
  r = (v, snd r) ∧ default c (snd r) = c'.
Proof. destruct r as [v' []]; cbn; by intros [= -> ->]. Qed.

(** [shift3] computes the shifter operand, and leaves the carry-out in C. *)
Lemma shift3_eq opcode m :
  w32 (rreg (RM opcode) m) →
  ∃ oc, shift3 opcode m = Some (fst (operand2 opcode m), carry_upd oc m) ∧
        default (cf m) oc = snd (operand2 opcode m).
Proof.
  intros Hw. pose proof (shiftamount_range opcode m) as [Hn _].
  assert (∃ r, (if opcode .& 0x60 =? 0 then shift3_lsl (shiftamount opcode m) (rreg (RM opcode) m)
    else if opcode .& 0x60 =? 0x20 then shift3_lsr opcode (shiftamount opcode m) (rreg (RM opcode) m)
    else if opcode .& 0x60 =? 0x40 then shift3_asr opcode (shiftamount opcode m) (rreg (RM opcode) m)
    else shift3_ror opcode (shiftamount opcode m) (rreg (RM opcode) m) (CFSET m)) = r ∧
    carry_of (cf m) r = operand2 opcode m) as (r & Hr & Hc).
  { eexists; split; [reflexivity|]. rewrite shift_mode_type, CFSET_cf. unfold operand2.
    destruct (shift_type_cases opcode) as [->|[->|[->| ->]]]; cbn [Z.mul Z.eqb Pos.mul Pos.eqb].
    - by apply shift3_lsl_spec.
    - by apply shift3_lsr_spec.
    - by apply shift3_asr_spec.
    - by apply shift3_ror_spec. }
  destruct r as [v oc]. exists oc.
  assert (Hv : fst (operand2 opcode m) = v) by by rewrite <- Hc.
  assert (Hs : snd (operand2 opcode m) = default (cf m) oc) by (rewrite <- Hc; by destruct oc).
  rewrite Hv, Hs. split; [|done].
  unfold shift3. unfold mbind, M_bind, gets. cbv beta iota zeta. rewrite Hr. by destruct oc as [[]|].
Qed.

Lemma shift_plain opcode m :
  nz (opcode .& 0xff0) = false → operand2 opcode m = (rreg (RM opcode) m, cf m).
Proof.
  intros H. apply negb_false_iff, Z.eqb_eq in H.
  assert (Hb : ∀ i, 4 ≤ i < 12 → Z.testbit opcode i = false).
  { intros i Hi. apply (f_equal (λ x, Z.testbit x i)) in H.
    rewrite Z.land_spec, Z.bits_0 in H. change 0xff0 with (Z.shiftl (Z.ones 8) 4) in H.
    rewrite Z.shiftl_spec, Z.ones_spec_low, andb_true_r in H by lia. done. }
  assert (H10 : nz (opcode .& 0x10) = false) by (etransitivity; [by apply (nz_mask_bit opcode 4) | apply Hb; lia]).
  unfold operand2. rewrite H10. unfold shiftamount. rewrite H10.
  replace (shift_type opcode) with 0; [replace ((opcode .>> 7) .& 0x1f) with 0; [done|]|].
  - symmetry. apply Z.bits_inj'. intros i Hi. rewrite Z.land_spec, Z.shiftr_spec, Z.bits_0 by done.
    destruct (Z.lt_ge_cases i 5); [by rewrite Hb by lia|].
    change 0x1f with (Z.ones 5). by rewrite Z.ones_spec_high, andb_false_r by lia.
  - symmetry. unfold shift_type. apply Z.bits_inj'. intros i Hi.
    rewrite Z.land_spec, Z.shiftr_spec, Z.bits_0 by done.
    destruct (Z.lt_ge_cases i 2); [by rewrite Hb by lia|].
    change 3 with (Z.ones 2). by rewrite Z.ones_spec_high, andb_false_r by lia.
Qed.

Lemma shift_eq opcode m :
  w32 (rreg (RM opcode) m) →
  ∃ oc, shift opcode m = Some (fst (operand2 opcode m), carry_upd oc m) ∧
        default (cf m) oc = snd (operand2 opcode m).
Proof.
  intros Hw. unfold shift. destruct (nz (opcode .& 0xff0)) eqn:E; [by apply shift3_eq|].
  exists None. by rewrite shift_plain by done.
Qed.

Lemma shiftamount_imm opcode m : nz (opcode .& 0x10) = false → shiftamount opcode m < 32.
Proof.
  intros H. unfold shiftamount. rewrite H. set (x := opcode .>> 7).
  change (x .& 0x1f) with (x .& Z.ones 5). rewrite Z.land_ones by done.
  pose proof (Z.mod_pos_bound x (2 ^ 5) eq_refl). lia.
Qed.

Local Ltac shift_cbn :=
  change (32 * 0) with 0 in *; change (32 * 1) with 32 in *;
  change (32 * 2) with 64 in *; change (32 * 3) with 96 in *; cbn [Z.eqb Pos.eqb].

(** [shift4] and [shift5] compute the same operand as [shift3]. *)
Lemma shift4_eq opcode m :
  w32 (rreg (RM opcode) m) → shift4 opcode m = fst (operand2 opcode m).
Proof.
  intros Hw. pose proof (shiftamount_range opcode m) as Hn.
  set (n := shiftamount opcode m) in *. set (rm := rreg (RM opcode) m) in *.
  pose proof (shiftamount_imm opcode m) as Himm. fold n in Himm.
  assert (Hrange : (31 <=? sub32 n 1) = (n =? 0) || (32 <=? n)).
  { unfold sub32. destruct (Z.eqb_spec n 0) as [->|]; [done|].
    rewrite u32_id by (unfold w32; lia). apply eq_true_iff_eq.
    rewrite !Z.leb_le. cbn [orb]. rewrite Z.leb_le. lia. }
  transitivity (fst (carry_of (cf m)
    (if shift_type opcode =? 0 then shift3_lsl n rm
     else if shift_type opcode =? 1 then shift3_lsr opcode n rm
     else if shift_type opcode =? 2 then shift3_asr opcode n rm
     else shift3_ror opcode n rm (CFSET m)))).
  2:{ unfold operand2. fold n rm. rewrite CFSET_cf. f_equal.
      destruct (shift_type_cases opcode) as [->|[->|[->| ->]]]; cbn [Z.eqb Pos.eqb];
        [apply shift3_lsl_spec | apply shift3_lsr_spec | apply shift3_asr_spec
        | apply shift3_ror_spec]; done || lia. }
  unfold shift4, shift5, shift3_lsl, shift3_lsr, shift3_asr, shift3_ror, carry_of.
  fold n rm. rewrite shift_mode_type, Hrange. clearbody n rm. rewrite land31_mod.
  clear Hrange. pose proof (rotate_right32_0 rm Hw) as Hrot.
  assert (Hmod : n < 32 → n mod 32 = n) by (intros; apply Z.mod_small; lia).
  destruct (Z.leb_spec 32 n) as [Hge|Hlt]; [|rewrite (Hmod Hlt)]; clear Hmod;
    (destruct (Z.eqb_spec n 0) as [H0|H0]; [rewrite H0|]);
    destruct (shift_type_cases opcode) as [->|[->|[->| ->]]]; shift_cbn;
    destruct (nz (opcode .& 0x10)); cbn [andb orb negb fst];
    repeat case_match; cbn [fst] in *;
    rewrite ?Z.eqb_eq, ?Z.eqb_neq, ?Z.leb_le, ?Z.leb_gt, ?Z.ltb_lt, ?Z.ltb_ge in *;
    try reflexivity; try exact Hrot; try congruence; try (exfalso; lia).
  unfold asr32. by rewrite Z.shiftr_0_r, u32_s32, u32_id.
Qed.

Lemma shift2_eq opcode m :
  w32 (rreg (RM opcode) m) → shift2 opcode m = fst (operand2 opcode m).
Proof.
  intros Hw. unfold shift2. destruct (nz (opcode .& 0xff0)) eqn:E; [by apply shift4_eq|].
  by rewrite shift_plain by done.
Qed.
End operand.
