(* ===== verification/ArmData.v ===== *)
(** The data-processing half of the instruction switch of [arm_exec] (arm.c):
    opcodes whose bits 20-27 are 0x00 to 0x3f, which are the sixteen ALU
    operations in their register and immediate forms, and among them the
    multiplies, the PSR transfers and the swaps. Each [cases_*] is a run of
    [case] labels with their bodies, in the order of the source. *)

From S2P Require Export ArmShift.

Section data.
Context {S P : Type} `{!MemSys S P} `{!HostSys S P}.
Local Abbreviation ARM := (M (Mach S P)).
Local Abbreviation cases := (list (list Z * ARM unit)).

(** * The shapes the cases share *)

(** [dest = f(GETADDR(RN), rhs, CFSET); arm_write_dest(opcode, dest);] *)
Definition dp_dest (opcode : Z) (rhs : Mach S P → Z) (f : Z → Z → Z → Z) : ARM unit :=
  dest ← gets (λ s, f (GETADDR (RN opcode) s) (rhs s) (CFSET s));
  arm_write_dest opcode dest.

(** An arithmetic operation with the S bit set. *)
Definition dp_arith_s (opcode : Z) (rhs : Mach S P → Z) (f : Z → Z → Z → Z)
    (flags : Z → Z → Z → ARM unit) : ARM unit :=
  l ← gets (GETADDR (RN opcode));
  r ← gets rhs;
  dest ← gets (λ s, f l r (CFSET s));
  if RD opcode =? 15 then arm_write_r15 opcode dest
  else flags l r dest;; wreg (RD opcode) dest.

(** A logical one: the operand that updates C only when Rd is not R15. *)
Definition dp_logical_s (opcode : Z) (rhs : Mach S P → Z) (rhs_c : ARM Z)
    (f : Z → Z → Z) : ARM unit :=
  l ← gets (GETADDR (RN opcode));
  if RD opcode =? 15 then
    r ← gets rhs; arm_write_r15 opcode (f l r)
  else
    r ← rhs_c;
    let dest := f l r in
    wreg (RD opcode) dest;;
    arm_flags_logical dest.

(** MOVS and MVNS, which read no Rn. *)
Definition dp_move_s (opcode : Z) (rhs : Mach S P → Z) (rhs_c : ARM Z)
    (f : Z → Z) : ARM unit :=
  if RD opcode =? 15 then
    r ← gets rhs; arm_write_r15 opcode (f r)
  else
    r ← rhs_c;
    wreg (RD opcode) (f r);;
    d ← gets (rreg (RD opcode)); arm_flags_logical d.

(** CMP and CMN; TST and TEQ. *)
Definition dp_compare (opcode : Z) (rhs : Mach S P → Z) (f : Z → Z → Z)
    (flags : Z → Z → Z → ARM unit) : ARM unit :=
  l ← gets (GETADDR (RN opcode));
  r ← gets rhs;
  let dest := f l r in
  if RD opcode =? 15 then arm_compare_rd15 opcode dest else flags l r dest.

Definition dp_test (opcode : Z) (rhs : Mach S P → Z) (rhs_c : ARM Z)
    (f : Z → Z → Z) : ARM unit :=
  l ← gets (GETADDR (RN opcode));
  if RD opcode =? 15 then
    r ← gets rhs; arm_compare_rd15 opcode (f l r)
  else
    r ← rhs_c; arm_flags_logical (f l r).

Definition adc32 (l r c : Z) : Z := u32 (l + r + c).
Definition sbc32 (l r c : Z) : Z := u32 (l - r - (if nz c then 0 else 1)).

(** * Multiplies *)

Definition mul_result (opcode : Z) (s : Mach S P) : Z :=
  if MULRD opcode =? MULRM opcode then 0
  else mul32 (rreg (MULRM opcode) s) (rreg (MULRS opcode) s).
Definition mla_result (opcode : Z) (s : Mach S P) : Z :=
  if MULRD opcode =? MULRM opcode then 0
  else u32 (rreg (MULRM opcode) s * rreg (MULRS opcode) s + rreg (MULRN opcode) s).

Definition mul (opcode : Z) : ARM unit :=
  v ← gets (mul_result opcode); wreg (MULRD opcode) v.
Definition muls (opcode : Z) : ARM unit :=
  v ← gets (mul_result opcode); wreg (MULRD opcode) v;;
  d ← gets (rreg (MULRD opcode)); arm_flags_logical d.
Definition mla (opcode : Z) : ARM unit :=
  v ← gets (mla_result opcode); wreg (MULRD opcode) v.
Definition mlas (opcode : Z) : ARM unit :=
  v ← gets (mla_result opcode); wreg (MULRD opcode) v;;
  d ← gets (rreg (MULRD opcode)); arm_flags_logical d.

(** The 64-bit products; [mula] and [mulb] are Rs and Rm. *)
Definition umull_result (opcode : Z) (s : Mach S P) : Z :=
  u64 (rreg (MULRS opcode) s * rreg (MULRM opcode) s).
Definition umlal_result (opcode : Z) (s : Mach S P) : Z :=
  let current := u64 (Z.shiftl (rreg (MULRD opcode) s) 32) .| rreg (MULRN opcode) s in
  u64 (u64 (rreg (MULRS opcode) s * rreg (MULRM opcode) s) + current).
Definition smull_result (opcode : Z) (s : Mach S P) : Z :=
  s64 (s32 (rreg (MULRS opcode) s) * s32 (rreg (MULRM opcode) s)).
Definition smlal_result (opcode : Z) (s : Mach S P) : Z :=
  let current := s64 (Z.shiftl (rreg (MULRD opcode) s) 32) .| rreg (MULRN opcode) s in
  s64 (s64 (s32 (rreg (MULRS opcode) s) * s32 (rreg (MULRM opcode) s)) + current).

Definition mul_long (opcode : Z) (result : Z → Mach S P → Z) : ARM unit :=
  mulres ← gets (result opcode);
  wreg (MULRN opcode) (u32 mulres);;
  wreg (MULRD opcode) (u32 (mulres .>> 32)).
Definition mul_long_s (opcode : Z) (result : Z → Mach S P → Z) : ARM unit :=
  mulres ← gets (result opcode);
  wreg (MULRN opcode) (u32 mulres);;
  wreg (MULRD opcode) (u32 (mulres .>> 32));;
  arm_flags_long_multiply (u64 mulres).

Definition is_mul (opcode : Z) : bool := (opcode .& 0xf0) =? 0x90.
(** [arm.arch_v4 && (opcode & 0xf0) == 0x90] *)
Definition or_mul_long (opcode : Z) (long other : ARM unit) : ARM unit :=
  v4 ← gets (λ s, arch_v4 (arm s));
  if nz v4 && is_mul opcode then long else other.

(** * Register forms: AND to RSB *)
Definition cases_reg_00 (opcode : Z) : cases := [
  (* AND reg, MUL *)
  ([0x00], if is_mul opcode then mul opcode
           else dp_dest opcode (shift2 opcode) (λ l r _, l .& r));
  (* ANDS reg, MULS *)
  ([0x01], if is_mul opcode then muls opcode
           else dp_logical_s opcode (shift2 opcode) (shift opcode) Z.land);
  (* EOR reg, MLA *)
  ([0x02], if is_mul opcode then mla opcode
           else dp_dest opcode (shift2 opcode) (λ l r _, l .^ r));
  (* EORS reg, MLAS *)
  ([0x03], if is_mul opcode then mlas opcode
           else dp_logical_s opcode (shift2 opcode) (shift opcode) Z.lxor);
  (* SUB reg *)
  ([0x04], dp_dest opcode (shift2 opcode) (λ l r _, sub32 l r));
  (* SUBS reg *)
  ([0x05], dp_arith_s opcode (shift2 opcode) (λ l r _, sub32 l r) arm_flags_sub);
  (* RSB reg *)
  ([0x06], dp_dest opcode (shift2 opcode) (λ l r _, sub32 r l));
  (* RSBS reg *)
  ([0x07], dp_arith_s opcode (shift2 opcode) (λ l r _, sub32 r l)
             (λ l r dest, arm_flags_sub r l dest)) ].

(** ADD to ADCS *)
Definition cases_reg_08 (opcode : Z) : cases := [
  (* ADD reg, UMULL *)
  ([0x08], or_mul_long opcode (mul_long opcode umull_result)
             (dp_dest opcode (shift2 opcode) (λ l r _, add32 l r)));
  (* ADDS reg, UMULLS *)
  ([0x09], or_mul_long opcode (mul_long_s opcode umull_result)
             (dp_arith_s opcode (shift2 opcode) (λ l r _, add32 l r) arm_flags_add));
  (* ADC reg, UMLAL *)
  ([0x0a], or_mul_long opcode (mul_long opcode umlal_result)
             (dp_dest opcode (shift2 opcode) adc32));
  (* ADCS reg, UMLALS *)
  ([0x0b], or_mul_long opcode (mul_long_s opcode umlal_result)
             (dp_arith_s opcode (shift2 opcode) adc32 arm_flags_adc)) ].

(** SBC to RSCS *)
Definition cases_reg_0c (opcode : Z) : cases := [
  (* SBC reg, SMULL *)
  ([0x0c], or_mul_long opcode (mul_long opcode smull_result)
             (dp_dest opcode (shift2 opcode) sbc32));
  (* SBCS reg, SMULLS *)
  ([0x0d], or_mul_long opcode (mul_long_s opcode smull_result)
             (dp_arith_s opcode (shift2 opcode) sbc32 arm_flags_sbc));
  (* RSC reg, SMLAL *)
  ([0x0e], or_mul_long opcode (mul_long opcode smlal_result)
             (dp_dest opcode (shift2 opcode) (λ l r c, sbc32 r l c)));
  (* RSCS reg, SMLALS *)
  ([0x0f], or_mul_long opcode (mul_long_s opcode smlal_result)
             (dp_arith_s opcode (shift2 opcode) (λ l r c, sbc32 r l c)
                (λ l r dest, arm_flags_sbc r l dest))) ].

(** * MRS, MSR, SWP and the compares *)

(** [else if (arm.arch_v4) arm_exception_undefined(); else arm_unpredictable(opcode);] *)
Definition undefined_or_unpredictable (opcode : Z) : ARM unit :=
  v4 ← gets (λ s, arch_v4 (arm s));
  if nz v4 then arm_exception_undefined else arm_unpredictable opcode.

Definition swp (opcode : Z) : ARM unit :=
  when (negb (RD opcode =? 15))
    (addr ← gets (GETADDR (RN opcode));
     data ← gets (GETREG (RM opcode));
     dest ← mem_read32 (addr .&~ 3);
     ab ← gets aborted;
     if (ab : bool) then mret tt else
     let dest := arm_ldr_rotate dest addr in
     mem_write32 (addr .&~ 3) data;;
     ab ← gets aborted;
     if (ab : bool) then mret tt else LOADREG (RD opcode) dest).

Definition swpb (opcode : Z) : ARM unit :=
  when (negb (RD opcode =? 15))
    (addr ← gets (GETADDR (RN opcode));
     data ← gets (GETREG (RM opcode));
     dest ← mem_read8 addr;
     ab ← gets aborted;
     if (ab : bool) then mret tt else
     mem_write8 addr data;;
     ab ← gets aborted;
     if (ab : bool) then mret tt else LOADREG (RD opcode) dest).

Definition mrs_cpsr (opcode : Z) : ARM unit :=
  md ← gets (λ s, mode (arm s));
  when (negb (ARM_MODE_32 md))
    (r15 ← gets (rreg 15);
     wreg 16 ((r15 .& 0xf0000000) .| (r15 .& 3));;
     r16 ← gets (rreg 16);
     wreg 16 (r16 .| ((r15 .& 0xc000000) .>> 20)));;
  r16 ← gets (rreg 16); wreg (RD opcode) r16.

Definition cases_reg_10 (opcode : Z) : cases := [
  (* MRS reg,CPSR and SWP *)
  ([0x10], if opcode .& 0xff0 =? 0x90 then swp opcode
           else if opcode .& 0xf0fff =? 0xf0000 then mrs_cpsr opcode
           else undefined_or_unpredictable opcode);
  (* TST reg *)
  ([0x11], dp_test opcode (shift2 opcode) (shift opcode) Z.land);
  (* MSR CPSR,reg *)
  ([0x12], if opcode .& 0xf010 =? 0xf000
           then v ← gets (rreg (RM opcode)); arm_write_cpsr opcode v
           else undefined_or_unpredictable opcode);
  (* TEQ reg *)
  ([0x13], dp_test opcode (shift2 opcode) (shift opcode) Z.lxor);
  (* MRS reg,SPSR and SWPB *)
  ([0x14], if opcode .& 0xff0 =? 0x90 then swpb opcode
           else if opcode .& 0xf0fff =? 0xf0000
           then v ← gets arm_read_spsr; wreg (RD opcode) v
           else undefined_or_unpredictable opcode);
  (* CMP reg *)
  ([0x15], dp_compare opcode (shift2 opcode) sub32 arm_flags_sub);
  (* MSR SPSR,reg *)
  ([0x16], if opcode .& 0xf010 =? 0xf000
           then v ← gets (rreg (RM opcode)); arm_write_spsr opcode v
           else undefined_or_unpredictable opcode);
  (* CMN reg *)
  ([0x17], dp_compare opcode (shift2 opcode) add32 arm_flags_add) ].

(** ORR to MVNS *)
Definition cases_reg_18 (opcode : Z) : cases := [
  ([0x18], dp_dest opcode (shift2 opcode) (λ l r _, l .| r));
  ([0x19], dp_logical_s opcode (shift2 opcode) (shift opcode) Z.lor);
  ([0x1a], dest ← gets (shift2 opcode); arm_write_dest opcode dest);
  ([0x1b], dp_move_s opcode (shift2 opcode) (shift opcode) (λ r, r));
  ([0x1c], dp_dest opcode (shift2 opcode) (λ l r _, l .&~ r));
  ([0x1d], dp_logical_s opcode (shift2 opcode) (shift opcode) Z.ldiff);
  ([0x1e], dest ← gets (shift2 opcode); arm_write_dest opcode (not32 dest));
  ([0x1f], dp_move_s opcode (shift2 opcode) (shift opcode) not32) ].

(** * Immediate forms *)

Definition imm (opcode : Z) (_ : Mach S P) : Z := arm_imm opcode.

(** AND to RSBS *)
Definition cases_imm_20 (opcode : Z) : cases := [
  ([0x20], dp_dest opcode (imm opcode) (λ l r _, l .& r));
  ([0x21], dp_logical_s opcode (imm opcode) (arm_imm_cflag opcode) Z.land);
  ([0x22], dp_dest opcode (imm opcode) (λ l r _, l .^ r));
  ([0x23], dp_logical_s opcode (imm opcode) (arm_imm_cflag opcode) Z.lxor);
  ([0x24], dp_dest opcode (imm opcode) (λ l r _, sub32 l r));
  (* SUBS imm: writes Rd before the flags *)
  ([0x25], l ← gets (GETADDR (RN opcode));
           let r := arm_imm opcode in
           let dest := sub32 l r in
           if RD opcode =? 15 then arm_write_r15 opcode dest
           else wreg (RD opcode) dest;; arm_flags_sub l r dest);
  ([0x26], dp_dest opcode (imm opcode) (λ l r _, sub32 r l));
  ([0x27], dp_arith_s opcode (imm opcode) (λ l r _, sub32 r l)
             (λ l r dest, arm_flags_sub r l dest)) ].

(** ADD to RSCS *)
Definition cases_imm_28 (opcode : Z) : cases := [
  ([0x28], dp_dest opcode (imm opcode) (λ l r _, add32 l r));
  ([0x29], dp_arith_s opcode (imm opcode) (λ l r _, add32 l r) arm_flags_add);
  ([0x2a], dp_dest opcode (imm opcode) adc32);
  ([0x2b], dp_arith_s opcode (imm opcode) adc32 arm_flags_adc);
  ([0x2c], dp_dest opcode (imm opcode) sbc32);
  ([0x2d], dp_arith_s opcode (imm opcode) sbc32 arm_flags_sbc);
  ([0x2e], dp_dest opcode (imm opcode) (λ l r c, sbc32 r l c));
  ([0x2f], dp_arith_s opcode (imm opcode) (λ l r c, sbc32 r l c)
             (λ l r dest, arm_flags_sbc r l dest)) ].

(** TST to CMN, MSR *)
Definition cases_imm_31 (opcode : Z) : cases := [
  ([0x31], dp_test opcode (imm opcode) (arm_imm_cflag opcode) Z.land);
  ([0x32], if RD opcode =? 15 then arm_write_cpsr opcode (arm_imm opcode)
           else undefined_or_unpredictable opcode);
  ([0x33], dp_test opcode (imm opcode) (arm_imm_cflag opcode) Z.lxor);
  ([0x35], dp_compare opcode (imm opcode) sub32 arm_flags_sub);
  ([0x36], if RD opcode =? 15 then arm_write_spsr opcode (arm_imm opcode)
           else undefined_or_unpredictable opcode);
  ([0x37], dp_compare opcode (imm opcode) add32 arm_flags_add) ].

(** ORR to MVNS *)
Definition cases_imm_38 (opcode : Z) : cases := [
  ([0x38], dp_dest opcode (imm opcode) (λ l r _, l .| r));
  ([0x39], dp_logical_s opcode (imm opcode) (arm_imm_cflag opcode) Z.lor);
  ([0x3a], arm_write_dest opcode (arm_imm opcode));
  ([0x3b], dp_move_s opcode (imm opcode) (arm_imm_cflag opcode) (λ r, r));
  ([0x3c], dp_dest opcode (imm opcode) (λ l r _, l .&~ r));
  ([0x3d], dp_logical_s opcode (imm opcode) (arm_imm_cflag opcode) Z.ldiff);
  ([0x3e], arm_write_dest opcode (not32 (arm_imm opcode)));
  ([0x3f], dp_move_s opcode (imm opcode) (arm_imm_cflag opcode) not32) ].
End data.
