(* ===== verification/ArmTransfer.v ===== *)
(** Single data transfers: LDR, STR and their byte and User-mode forms (the
    cases 0x40 to 0x7f of [arm_exec], arm.c) and the ARMv4 halfword and signed
    transfers (arm_common.c). Block data transfers:
    [arm_store_multiple], [arm_load_multiple] and their S-bit forms (arm_common.c), and
    the STM and LDM cases of [arm_exec]. *)

From S2P Require Export ArmData.

Section transfer.
Context {S P : Type} `{!MemSys S P} `{!HostSys S P}.
Local Abbreviation ARM := (M (Mach S P)).
Local Abbreviation cases := (list (list Z * ARM unit)).

(** The tests the code writes out each time. *)
Definition flag_U (opcode : Z) : bool := nz (opcode .& 0x800000).
Definition flag_P (opcode : Z) : bool := nz (opcode .& 0x1000000).
Definition flag_W (opcode : Z) : bool := nz (opcode .& 0x200000).

(** [arm.abort_base_restored && (arm.event & 0x40)] *)
Definition abort_restored (s : Mach S P) : bool :=
  nz (abort_base_restored (arm s)) && aborted s.

(** [offset] of LDR and STR: a shifted register or twelve bits, negated when
    the U bit is clear *)
Definition ldrstr_offset (opcode : Z) (s : Mach S P) : Z :=
  let offset := if nz (opcode .& 0x2000000) then shift2 opcode s else opcode .& 0xfff in
  if flag_U opcode then offset else neg32 offset.

(** The writeback of the plain forms. *)
Definition ldrstr_writeback (opcode addr offset : Z) : ARM unit :=
  if negb (flag_P opcode) then wreg (RN opcode) (add32 addr offset)
  else when (flag_W opcode) (wreg (RN opcode) addr).

(** Labels that fall through to the next ones after the test of bit 4. *)
Definition or_undefined (opcode : Z) (body : ARM unit) : ARM unit :=
  if nz (opcode .& 0x10) then arm_exception_undefined else body.

(** * User-mode forms *)

Definition strt (opcode : Z) (store : Z → Z → ARM unit) : ARM unit :=
  addr ← gets (GETADDR (RN opcode));
  data ← gets (GETREG (RD opcode));
  store addr data;;
  ab ← gets abort_restored;
  if (ab : bool) then mret tt else
  offset ← gets (ldrstr_offset opcode);
  wreg (RN opcode) (add32 addr offset).

Definition ldrt (opcode : Z) (load : Z → ARM Z) (rotate : Z → Z → Z) : ARM unit :=
  addr ← gets (GETADDR (RN opcode));
  data ← load addr;
  ab ← gets abort_restored;
  if (ab : bool) then mret tt else
  let data := rotate data addr in
  offset ← gets (ldrstr_offset opcode);
  wreg (RN opcode) (add32 addr offset);;
  ab ← gets aborted;
  if (ab : bool) then mret tt else LOADREG (RD opcode) data.

Definition STRT opcode := strt opcode (λ addr data, mem_user_write32 (addr .&~ 3) data).
Definition LDRT opcode := ldrt opcode (λ addr, mem_user_read32 (addr .&~ 3)) arm_ldr_rotate.
Definition STRBT opcode := strt opcode (λ addr data, mem_user_write8 addr data).
Definition LDRBT opcode := ldrt opcode mem_user_read8 (λ data _, data).

Definition cases_user (opcode : Z) : cases := [
  ([0x62; 0x6a], or_undefined opcode (STRT opcode));
  ([0x42; 0x4a], STRT opcode);
  ([0x63; 0x6b], or_undefined opcode (LDRT opcode));
  ([0x43; 0x4b], LDRT opcode);
  ([0x66; 0x6e], or_undefined opcode (STRBT opcode));
  ([0x46; 0x4e], STRBT opcode);
  ([0x67; 0x6f], or_undefined opcode (LDRBT opcode));
  ([0x47; 0x4f], LDRBT opcode) ].

(** * Plain forms *)

Definition str (opcode : Z) (store : Z → Z → ARM unit) : ARM unit :=
  addr ← gets (GETADDR (RN opcode));
  offset ← gets (ldrstr_offset opcode);
  let addr := if flag_P opcode then add32 addr offset else addr in
  data ← gets (GETREG (RD opcode));
  store addr data;;
  ab ← gets abort_restored;
  if (ab : bool) then mret tt else ldrstr_writeback opcode addr offset.

Definition ldr (opcode : Z) (load : Z → ARM Z) (rotate : Z → Z → Z) : ARM unit :=
  addr ← gets (GETADDR (RN opcode));
  offset ← gets (ldrstr_offset opcode);
  let addr := if flag_P opcode then add32 addr offset else addr in
  data ← load addr;
  ab ← gets abort_restored;
  if (ab : bool) then mret tt else
  let data := rotate data addr in
  ldrstr_writeback opcode addr offset;;
  ab ← gets aborted;
  if (ab : bool) then mret tt else LOADREG (RD opcode) data.

Definition STR opcode := str opcode (λ addr data, mem_write32 (addr .&~ 3) data).
Definition LDR opcode := ldr opcode (λ addr, mem_read32 (addr .&~ 3)) arm_ldr_rotate.
Definition STRB opcode := str opcode (λ addr data, mem_write8 addr data).
Definition LDRB opcode := ldr opcode mem_read8 (λ data _, data).

Definition cases_word (opcode : Z) : cases := [
  ([0x60; 0x68; 0x70; 0x72; 0x78; 0x7a], or_undefined opcode (STR opcode));
  ([0x40; 0x48; 0x50; 0x52; 0x58; 0x5a], STR opcode);
  ([0x61; 0x69; 0x71; 0x73; 0x79; 0x7b], or_undefined opcode (LDR opcode));
  ([0x41; 0x49; 0x51; 0x53; 0x59; 0x5b], LDR opcode) ].

Definition cases_byte (opcode : Z) : cases := [
  ([0x64; 0x6c; 0x74; 0x76; 0x7c; 0x7e], or_undefined opcode (STRB opcode));
  ([0x44; 0x4c; 0x54; 0x56; 0x5c; 0x5e], STRB opcode);
  ([0x65; 0x6d; 0x75; 0x77; 0x7d; 0x7f], or_undefined opcode (LDRB opcode));
  ([0x45; 0x4d; 0x55; 0x57; 0x5d; 0x5f], LDRB opcode) ].

(** * Halfword and signed transfers *)

Definition half_offset (opcode : Z) (s : Mach S P) : Z :=
  let offset :=
    if nz (opcode .& Z.shiftl 1 22) then ((opcode .>> 4) .& 0xf0) .| (opcode .& 0xf)
    else rreg (RM opcode) s in
  if flag_U opcode then offset else neg32 offset.

Definition arm_strh (opcode : Z) : ARM unit :=
  addr ← gets (GETADDR (RN opcode));
  offset ← gets (half_offset opcode);
  let addr := if flag_P opcode then add32 addr offset else addr in
  data ← gets (GETREG (RD opcode));
  mem_write8 (addr .&~ 1) (u8 data);;
  mem_write8 (addr .| 1) (u8 (data .>> 8));;
  ab ← gets aborted;
  if (ab : bool) then mret tt else ldrstr_writeback opcode addr offset.

(** The body of the three loads. *)
Definition ldr_half (opcode : Z) (load : Z → ARM Z) : ARM unit :=
  addr ← gets (GETADDR (RN opcode));
  offset ← gets (half_offset opcode);
  let addr := if flag_P opcode then add32 addr offset else addr in
  data ← load addr;
  ab ← gets aborted;
  if (ab : bool) then mret tt else
  ldrstr_writeback opcode addr offset;;
  LOADREG (RD opcode) data.

Definition arm_ldrh (opcode : Z) : ARM unit :=
  ldr_half opcode (λ addr,
    data ← mem_read32 (addr .&~ 3);
    mret (if nz (addr .& 2) then data .>> 16 else data .& 0xffff)).
Definition arm_ldrsh (opcode : Z) : ARM unit :=
  ldr_half opcode (λ addr,
    data ← mem_read32 (addr .&~ 3);
    mret (if nz (addr .& 2) then asr32 data 16 else u32 (s16 data))).
Definition arm_ldrsb (opcode : Z) : ARM unit :=
  ldr_half opcode (λ addr, data ← mem_read8 addr; mret (u32 (s8 data))).
End transfer.

(** * Block data transfers *)

Section block.
Context {S P : Type} `{!MemSys S P} `{!HostSys S P}.
Local Abbreviation ARM := (M (Mach S P)).
Local Abbreviation cases := (list (list Z * ARM unit)).

(** [*usrregs[c]] *)
Definition ruser (c : Z) (s : Mach S P) : Z :=
  match usrregs s !!! c with
  | InReg r => rreg r s
  | InUser r => user_reg (arm s) !!! r
  end.
Definition wuser (c v : Z) : ARM unit :=
  u ← gets (λ s, usrregs s !!! c);
  match u with
  | InReg r => wreg r v
  | InUser r => modify (upd_arm (λ a, set_user_reg (<[r := v]> (user_reg a)) a))
  end.

(** [opcode & (1 << c)] *)
Definition in_list (opcode c : Z) : bool := nz (opcode .& Z.shiftl 1 c).
(** [(opcode & (1 << 21)) && (RN != 15)] *)
Definition writes_back (opcode : Z) : bool := flag_W opcode && negb (RN opcode =? 15).

(** The end of the first loop of a store: the register it stored, or 15, and
    the address after it. [read c] is the register as the form reads it. *)
Fixpoint stm_first (opcode addr : Z) (read : Z → Mach S P → Z) (l : list Z)
    : ARM (Z * Z) :=
  match l with
  | [] => mret (15, addr)
  | c :: l' =>
      if in_list opcode c then
        v ← gets (read c); mem_write32 addr v;; mret (c, add32 addr 4)
      else stm_first opcode addr read l'
  end.

(** "Store remaining registers up to R14": [None] is the [goto data_abort]. *)
Fixpoint stm_rest (opcode addr : Z) (read : Z → Mach S P → Z) (l : list Z)
    : ARM (option Z) :=
  match l with
  | [] => mret (Some addr)
  | c :: l' =>
      if in_list opcode c then
        v ← gets (read c);
        mem_write32 addr v;;
        ab ← gets aborted;
        if (ab : bool) then mret None else stm_rest opcode (add32 addr 4) read l'
      else stm_rest opcode addr read l'
  end.

Definition stm_data_abort (opcode orig_base : Z) : ARM unit :=
  restored ← gets (λ s, abort_base_restored (arm s));
  when (nz restored && writes_back opcode) (wreg (RN opcode) orig_base).

Definition store_multiple (read : Z → Mach S P → Z) (opcode address writeback : Z)
    : ARM unit :=
  orig_base ← gets (rreg (RN opcode));
  first ← stm_first opcode (address .&~ 3) read (seqZ 0 15);
  let '(c, addr) := (first : Z * Z) in
  at_end ← gets (λ s, stm_writeback_at_end (arm s));
  when (negb (nz at_end) && writes_back opcode) (wreg (RN opcode) writeback);;
  ab ← gets aborted;
  if (ab : bool) then stm_data_abort opcode orig_base else
  rest ← stm_rest opcode addr read (seqZ (c + 1) (14 - c));
  match (rest : option Z) with
  | None => stm_data_abort opcode orig_base
  | Some addr =>
      when (in_list opcode 15)
        (v ← gets (λ s, add32 (rreg 15 s) (r15_diff (arm s))); mem_write32 addr v);;
      ab ← gets (λ s, in_list opcode 15 && aborted s);
      if (ab : bool) then stm_data_abort opcode orig_base else
      at_end ← gets (λ s, stm_writeback_at_end (arm s));
      when (nz at_end && writes_back opcode) (wreg (RN opcode) writeback)
  end.

Definition arm_store_multiple (opcode address writeback : Z) : ARM unit :=
  store_multiple rreg opcode address writeback.
Definition arm_store_multiple_s (opcode address writeback : Z) : ARM unit :=
  store_multiple ruser opcode address writeback.

(** "Load registers up to R14" *)
Fixpoint ldm_regs (opcode addr : Z) (write : Z → Z → ARM unit) (l : list Z)
    : ARM (option Z) :=
  match l with
  | [] => mret (Some addr)
  | c :: l' =>
      if in_list opcode c then
        temp ← mem_read32 addr;
        ab ← gets aborted;
        if (ab : bool) then mret None else
        write c temp;;
        ldm_regs opcode (add32 addr 4) write l'
      else ldm_regs opcode addr write l'
  end.

Definition ldm_data_abort (opcode orig_base writeback : Z) : ARM unit :=
  restored ← gets (λ s, abort_base_restored (arm s));
  if negb (nz restored) && writes_back opcode then wreg (RN opcode) writeback
  else wreg (RN opcode) orig_base.

(** [None] is a [goto data_abort] *)
Definition ldm_end (opcode orig_base writeback : Z) (ok : ARM (option unit)) : ARM unit :=
  r ← ok;
  match (r : option unit) with
  | Some _ => mret tt
  | None => ldm_data_abort opcode orig_base writeback
  end.

Definition arm_load_multiple (opcode address writeback : Z) : ARM unit :=
  orig_base ← gets (rreg (RN opcode));
  when (writes_back opcode) (wreg (RN opcode) writeback);;
  ldm_end opcode orig_base writeback
    (r ← ldm_regs opcode (address .&~ 3) wreg (seqZ 0 15);
     match (r : option Z) with
     | None => mret None
     | Some addr =>
         if in_list opcode 15 then
           temp ← mem_read32 addr;
           ab ← gets aborted;
           if (ab : bool) then mret None else
           mask ← gets (λ s, r15_mask (arm s));
           r15 ← gets (rreg 15);
           wreg 15 ((r15 .&~ mask) .| (add32 temp 4 .& mask));;
           mret (Some tt)
         else mret (Some tt)
     end).

Definition arm_load_multiple_s (opcode address writeback : Z) : ARM unit :=
  orig_base ← gets (rreg (RN opcode));
  when (writes_back opcode) (wreg (RN opcode) writeback);;
  ldm_end opcode orig_base writeback
    (if in_list opcode 15 then
       r ← ldm_regs opcode (address .&~ 3) wreg (seqZ 0 15);
       match (r : option Z) with
       | None => mret None
       | Some addr =>
           temp ← mem_read32 addr;
           ab ← gets aborted;
           if (ab : bool) then mret None else
           arm_write_r15 opcode temp;; mret (Some tt)
       end
     else
       r ← ldm_regs opcode (address .&~ 3) wuser (seqZ 0 15);
       match (r : option Z) with None => mret None | Some _ => mret (Some tt) end).

(** * The cases of [arm_exec] *)

(** The two address computations; bit 24 is "before". *)
Definition block_down (opcode : Z) (op : Z → Z → Z → ARM unit) : ARM unit :=
  base ← gets (rreg (RN opcode));
  let offset := arm_ldm_stm_offset opcode in
  let addr := sub32 base offset in
  let writeback := addr in
  let addr := if negb (flag_P opcode) then add32 addr 4 else addr in
  op opcode addr writeback.

Definition block_up (opcode : Z) (op : Z → Z → Z → ARM unit) : ARM unit :=
  base ← gets (rreg (RN opcode));
  let offset := arm_ldm_stm_offset opcode in
  let addr := base in
  let writeback := add32 addr offset in
  let addr := if flag_P opcode then add32 addr 4 else addr in
  op opcode addr writeback.

Definition cases_stm (opcode : Z) : cases := [
  ([0x80; 0x82; 0x90; 0x92], block_down opcode arm_store_multiple);
  ([0x88; 0x8a; 0x98; 0x9a], block_up opcode arm_store_multiple);
  ([0x84; 0x86; 0x94; 0x96], block_down opcode arm_store_multiple_s);
  ([0x8c; 0x8e; 0x9c; 0x9e], block_up opcode arm_store_multiple_s) ].

Definition cases_ldm (opcode : Z) : cases := [
  ([0x81; 0x83; 0x91; 0x93], block_down opcode arm_load_multiple);
  ([0x89; 0x8b; 0x99; 0x9b], block_up opcode arm_load_multiple);
  ([0x85; 0x87; 0x95; 0x97], block_down opcode arm_load_multiple_s);
  ([0x8d; 0x8f; 0x9d; 0x9f], block_up opcode arm_load_multiple_s) ].
End block.
