(* ===== verification/ArmExec.v ===== *)
(** The interpreter loop: SWIs ([opSWI], arm_common.c), branches and the
    coprocessor instructions, the whole instruction switch, and [arm_exec]
    (arm.c) with its fetch, condition test and interrupt checks. *)

From S2P Require Export ArmTransfer.

Definition SWI_OS_Byte : Z := 0x6.
Definition SWI_OS_Word : Z := 0x7.
Definition SWI_OS_Mouse : Z := 0x1c.
Definition SWI_OS_CallASWI : Z := 0x6f.
Definition SWI_OS_CallASWIR12 : Z := 0x71.
Definition SWI_OS_Reset : Z := 0x6a.
Definition OS_RESET_POWEROFF_MAGIC : Z := 0x46464f26.
Definition SWI_Portable_ReadFeatures : Z := 0x42fc5.
Definition SWI_Portable_Idle : Z := 0x42fc6.
Definition RPCEMU_SWI_BREAKPOINT : Z := 0x00ffffff.
Definition ARCEM_SWI_CHUNK : Z := 0x56ac0.
Definition ARCEM_SWI_HOSTFS : Z := ARCEM_SWI_CHUNK + 1.
Definition ARCEM_SWI_NETWORK : Z := ARCEM_SWI_CHUNK + 4.
Definition ARCEM_SWI_HOSTCMD : Z := ARCEM_SWI_CHUNK + 5.
Definition ARCEM_SWI_CLIPBOARD : Z := ARCEM_SWI_CHUNK + 0x10.

Section exec.
Context {S P : Type} `{!MemSys S P} `{!HostSys S P}.
Local Abbreviation ARM := (M (Mach S P)).
Local Abbreviation cases := (list (list Z * ARM unit)).

(** * SWIs *)

Definition clear_v : ARM unit := p ← gets psr; wpsr (p .&~ VFLAG).

Definition swi_number (opcode : Z) (s : Mach S P) : Z :=
  let swinum := opcode .& 0xdffff in
  if swinum =? SWI_OS_CallASWI then rreg 10 s .& 0xdffff
  else if swinum =? SWI_OS_CallASWIR12 then rreg 12 s .& 0xdffff
  else swinum.

(** [arm.reg[0] .. arm.reg[5]], and the two results *)
Definition swi_args (s : Mach S P) : list Z := (λ r, rreg r s) <$> seqZ 0 6.
Definition put_results (op : list Z → ARM (Z * Z)) : ARM unit :=
  args ← gets swi_args;
  r ← op args;
  let '(r0, r1) := (r : Z * Z) in wreg 0 r0;; wreg 1 r1.

(** [swinum == SWI_OS_Word && arm.reg[0] == 21 && mem_read8(arm.reg[1]) == n]:
    the byte is only read when the tests before it pass *)
Definition osword_21_byte (swinum n : Z) : ARM bool :=
  r0 ← gets (rreg 0);
  if (swinum =? SWI_OS_Word) && (r0 =? 21) then
    r1 ← gets (rreg 1); b ← mem_read8 r1; mret (b =? n)
  else mret false.

(** the label [realswi] *)
Definition realswi (swinum : Z) : ARM unit :=
  mh ← gets (λ s, mousehack (sys s));
  (if (mh : bool) then
     b ← osword_21_byte swinum 0;
     when (b : bool) (r1 ← gets (rreg 1); mouse_hack_osword_21_0 r1)
   else mret tt);;
  r0 ← gets (rreg 0);
  mh ← gets (λ s, mousehack (sys s));
  when (mh && (swinum =? SWI_OS_Byte) && (r0 =? 106))
    (r1 ← gets (rreg 1); mouse_hack_osbyte_106 r1);;
  exception SUPERVISOR 0xc 4.

(** From the mousehack tests to the end. *)
Definition swi_dispatch (swinum : Z) : ARM unit :=
  b ← osword_21_byte swinum 1;
  if (b : bool) then r1 ← gets (rreg 1); mouse_hack_osword_21_1 r1 else
  mh ← gets (λ s, mousehack (sys s));
  r0 ← gets (rreg 0);
  if mh && (swinum =? SWI_OS_Word) && (r0 =? 21) then
    r1 ← gets (rreg 1);
    b4 ← mem_read8 r1;
    if b4 =? 4 then r1 ← gets (rreg 1); mouse_hack_osword_21_4 r1 else
    r1 ← gets (rreg 1);
    b3 ← mem_read8 r1;
    if b3 =? 3 then r1 ← gets (rreg 1); mouse_hack_osword_21_3 r1 else
    realswi swinum
  else if mh && (swinum =? SWI_OS_Mouse) then
    mouse_hack_osmouse;; clear_v
  else if swinum =? ARCEM_SWI_HOSTFS then
    hostfs;; hook (λ s, hostfs_activity_increment (sys s))
  else if swinum =? ARCEM_SWI_NETWORK then
    on ← gets (λ s, config_network (sys s));
    when (on : bool)
      (put_results network_swi;; hook (λ s, network_activity_increment (sys s)))
  else if swinum =? ARCEM_SWI_CLIPBOARD then
    on ← gets (λ s, config_clipboard_enabled (sys s));
    if (on : bool) then put_results clipboard_swi;; clear_v else realswi swinum
  else if swinum =? ARCEM_SWI_HOSTCMD then
    on ← gets (λ s, config_hostcmd_enabled (sys s));
    if (on : bool) then hostcmd;; clear_v else realswi swinum
  else realswi swinum.

Definition opSWI (opcode : Z) : ARM unit :=
  swinum ← gets (swi_number opcode);
  if opcode .& 0x00ffffff =? RPCEMU_SWI_BREAKPOINT then
    hook (λ s, debugger_break_swi (PC s) (sys s));; clear_v
  else
  trace ← gets (λ s, debugger_swi_trace_active (sys s));
  when (trace : bool) (hook (debugger_swi_hook swinum opcode));;
  done ← hook_ask (accel_swi swinum);
  if (done : bool) then clear_v else
  r0 ← gets (rreg 0);
  if (swinum =? SWI_OS_Reset) && (r0 =? OS_RESET_POWEROFF_MAGIC) then
    hook (λ s, rpcemu_request_poweroff (sys s));; clear_v
  else
  idle ← gets (λ s, config_cpu_idle (sys s));
  if idle && (swinum =? SWI_Portable_ReadFeatures) then
    wreg 1 (Z.shiftl 1 4);; clear_v
  else if idle && (swinum =? SWI_Portable_Idle) then
    hook (λ s, rpcemu_idle (sys s));; clear_v
  else swi_dispatch swinum.

(** * Branches *)

Definition branch_offset (opcode : Z) : Z := asr32 (shl32 opcode 8) 6.

Definition branch (opcode : Z) : ARM unit :=
  mask ← gets (λ s, r15_mask (arm s));
  r15 ← gets (rreg 15);
  wreg 15 ((u32 (r15 + branch_offset opcode + 4) .& mask) .| (r15 .&~ mask)).

Definition branch_link (opcode : Z) : ARM unit :=
  r15 ← gets (rreg 15);
  wreg 14 (sub32 r15 4);;
  branch opcode.

Definition labels (lo : Z) (n : Z) : list Z := seqZ lo n.

Definition cases_branch (opcode : Z) : cases := [
  (labels 0xa0 16, branch opcode);
  (labels 0xb0 16, branch_link opcode) ].

(** * Coprocessors *)

(** The effects a write to the MMU has on the core itself. *)
Definition cp15_write (opcode val : Z) : ARM unit :=
  md ← gets (λ s, mode (arm s));
  eff ← sys_zoom (ms_cp15_write opcode val md);
  match eff with
  | Cp15None => mret tt
  | Cp15Mode m => updatemode m
  | Cp15Refetch => modify (set_pccache 0xffffffff)
  end.
Definition cp15_read (opcode : Z) : ARM Z := sys_zoom (ms_cp15_read opcode).

Definition copro (opcode : Z) : ARM unit :=
  if (opcode .& 0xf00 =? 0x100) || (opcode .& 0xf00 =? 0x200) then fpaopcode opcode
  else arm_exception_undefined.

Definition mcr (opcode : Z) : ARM unit :=
  if opcode .& 0xf00 =? 0x100 then fpaopcode opcode else
  md ← gets (λ s, mode (arm s));
  if (opcode .& 0xf10 =? 0xf10) && ARM_MODE_PRIV md then
    v ← gets (rreg (RD opcode)); cp15_write opcode v
  else arm_exception_undefined.

Definition mrc (opcode : Z) : ARM unit :=
  if opcode .& 0xf00 =? 0x100 then fpaopcode opcode else
  md ← gets (λ s, mode (arm s));
  if (opcode .& 0xf10 =? 0xf10) && ARM_MODE_PRIV md then
    if RD opcode =? 15 then
      v ← cp15_read opcode;
      mask ← gets (λ s, r15_mask (arm s));
      r15 ← gets (rreg 15);
      wreg 15 ((r15 .& mask) .| (v .&~ mask))
    else v ← cp15_read opcode; wreg (RD opcode) v
  else arm_exception_undefined.

Definition cases_copro (opcode : Z) : cases := [
  (labels 0xc0 32, copro opcode);
  ([0xe0; 0xe2; 0xe4; 0xe6; 0xe8; 0xea; 0xec; 0xee], mcr opcode);
  ([0xe1; 0xe3; 0xe5; 0xe7; 0xe9; 0xeb; 0xed; 0xef], mrc opcode);
  (labels 0xf0 16, opSWI opcode) ].

(** * One instruction *)

(** [switch ((opcode >> 20) & 0xff)] *)
Definition all_cases (opcode : Z) : cases :=
  cases_reg_00 opcode ++ cases_reg_08 opcode ++ cases_reg_0c opcode ++
  cases_reg_10 opcode ++ cases_reg_18 opcode ++
  cases_imm_20 opcode ++ cases_imm_28 opcode ++ cases_imm_31 opcode ++
  cases_imm_38 opcode ++
  cases_user opcode ++ cases_word opcode ++ cases_byte opcode ++
  cases_stm opcode ++ cases_ldm opcode ++
  cases_branch opcode ++ cases_copro opcode.

Definition execute_switch (opcode : Z) : ARM unit :=
  switch ((opcode .>> 20) .& 0xff) (all_cases opcode)
    (undefined_or_unpredictable opcode).

(** The ARMv4 halfword transfers are decoded before the switch. *)
Definition execute (opcode : Z) : ARM unit :=
  v4 ← gets (λ s, arch_v4 (arm s));
  if nz v4 && (opcode .& 0xe0000f0 =? 0xb0) then
    if nz (opcode .& 0x100000) then arm_ldrh opcode else arm_strh opcode
  else if nz v4 && (opcode .& 0xe1000d0 =? 0x1000d0) then
    if opcode .& 0xf0 =? 0xd0 then arm_ldrsb opcode else arm_ldrsh opcode
  else execute_switch opcode.

(** [flaglookup[opcode >> 28][( *pcpsr) >> 28]] *)
Definition condition (opcode : Z) (s : Mach S P) : bool :=
  flaglookup (opcode .>> 28) (rreg (pcpsr s) s .>> 28).

(** * The loop *)

(** The tests after an instruction: aborts and interrupts. *)
Definition check_events : ARM unit :=
  ev ← gets (λ s, event (arm s));
  when (nz ev)
    (md ← gets (λ s, mode (arm s));
     when (negb (ARM_MODE_32 md))
       (r16 ← gets (rreg 16); wreg 16 (r16 .&~ 0xc0);;
        r16 ← gets (rreg 16); r15 ← gets (rreg 15);
        wreg 16 (r16 .| ((r15 .& 0xc000000) .>> 20)));;
     r16 ← gets (rreg 16);
     if nz (ev .& 0x40) then
       exception ABORT 0x14 0;;
       modify (upd_arm (λ a, set_event (event a .&~ 0x40) a))
     else if nz (ev .& 2) && negb (nz (r16 .& 0x40)) then exception FIQ 0x20 0
     else if nz (ev .& 1) && negb (nz (r16 .& 0x80)) then exception IRQ 0x1c 0
     else mret tt).

Definition advance : ARM unit :=
  r15 ← gets (rreg 15); wreg 15 (add32 r15 4).

(** The fetch: [None] is a prefetch abort. *)
Definition fetch : ARM (option Z) :=
  pc ← gets PC;
  pcc ← gets pccache;
  (if negb (pc .>> 12 =? pcc) then
     modify (set_pccache (pc .>> 12));;
     page ← mem_zoom (ms_getpccache pc);
     modify (set_pccache2 page)
   else mret tt);;
  page ← gets pccache2;
  match page with
  | None => mret None
  | Some p => gets (λ s, Some (ms_fetch p (pc .>> 2) (sys s)))
  end.

(** One turn of the loop; [true] is the debugger's [return linecyc]. *)
Definition step : ARM bool :=
  o ← fetch;
  match (o : option Z) with
  | None =>
      modify (set_pccache 0xffffffff);;
      exception ABORT 0x10 4;;
      advance;; mret false
  | Some opcode =>
      active ← gets (λ s, debugger_hook_active (sys s));
      stop ← (if (active : bool)
              then hook_ask (λ s, debugger_instruction_hook (PC s) opcode (sys s))
              else mret false);
      if (stop : bool) then mret true else
      go ← gets (condition opcode);
      when (go : bool) (execute opcode);;
      active ← gets (λ s, debugger_hook_active (sys s));
      when (active : bool) (hook (λ s, debugger_after_instruction (PC s) opcode (sys s)));;
      check_events;;
      advance;; mret false
  end.

(** The loop from [linecyc] with [n] turns left, and its result. *)
Fixpoint arm_exec_from (n : nat) (linecyc : Z) : ARM Z :=
  match n with
  | O => modify (λ s, set_inscount (u32 (inscount s + 200)) s);; mret 200
  | Datatypes.S n' =>
      stop ← step;
      if (stop : bool) then mret linecyc else arm_exec_from n' (linecyc + 1)
  end.
Definition arm_exec : ARM Z := arm_exec_from 200 0.
End exec.
