(* ===== verification/ArmInv.v ===== *)
(** The invariant of the core, the laws it asks of its surroundings, and the
    lemmas that every operation of the ArmMode file keeps it. *)

From S2P Require Export ArmExec.

(** * The invariant *)

(** Every register of every bank holds a 32-bit value. *)
Record words (a : ARMState) : Prop := mkWords {
  w_reg : ∀ r, w32 (reg a !!! r);
  w_user : ∀ r, w32 (user_reg a !!! r);
  w_fiq : ∀ r, w32 (fiq_reg a !!! r);
  w_irq : ∀ r, w32 (irq_reg a !!! r);
  w_super : ∀ r, w32 (super_reg a !!! r);
  w_abort : ∀ r, w32 (abort_reg a !!! r);
  w_undef : ∀ r, w32 (undef_reg a !!! r);
  w_spsr : ∀ r, w32 (spsr a !!! r);
  w_diff : w32 (r15_diff a);
  w_event : w32 (event a)
}.

(** Where User mode's register [c] is found in a mode. *)
Definition usr_ref (md c : Z) : usrref :=
  if c =? 15 then InReg 15 else
  match md .& 15 with
  | 2 | 3 | 7 | 11 => if 13 <=? c then InUser c else InReg c
  | 1 => if 8 <=? c then InUser c else InReg c
  | _ => InReg c
  end.

Definition psr_index (md : Z) : Z := if ARM_MODE_32 md then 16 else 15.
Definition pc_mask (md : Z) : Z := if ARM_MODE_32 md then 0xfffffffc else 0x3fffffc.
Definition mode_mask (md : Z) : Z := if ARM_MODE_32 md then 0x1f else 3.
Definition priv_of (md : Z) : Z := if ARM_MODE_PRIV md then 1 else 0.

Section invariant.
Context {S P : Type} `{!MemSys S P}.

(** The mode-derived globals agree with [arm.mode], and memory is accessed
    with the privilege of the mode. *)
Record base_inv (m : Mach S P) : Prop := mkBase {
  bi_words : words (arm m);
  bi_mode : 0 ≤ mode (arm m) < 32;
  bi_mmask : mmask (arm m) = mode_mask (mode (arm m));
  bi_pcmask : r15_mask (arm m) = pc_mask (mode (arm m));
  bi_cpsr : cpsr m = psr_index (mode (arm m));
  bi_pcpsr : pcpsr m = psr_index (mode (arm m));
  bi_usr : ∀ c, 0 ≤ c < 16 → usrregs m !!! c = usr_ref (mode (arm m)) c;
  bi_priv : ms_memmode (sys m) = priv_of (mode (arm m))
}.

(** In a 32-bit mode the CPSR names the mode. *)
Definition psr_inv (m : Mach S P) : Prop :=
  ARM_MODE_32 (mode (arm m)) = true → rreg 16 m .& 0x1f = mode (arm m).

Definition core_inv (m : Mach S P) : Prop := base_inv m ∧ psr_inv m.
End invariant.

(** * What is asked of the memory system and of the host *)

(** A memory operation neither moves the privilege level nor leaves 32 bits. *)
Definition mem_ok {S P A} `{!MemSys S P, !Val A} (op : M (Z * S) A) : Prop :=
  ∀ e s a e' s', w32 e → op (e, s) = Some (a, (e', s')) →
    val a ∧ w32 e' ∧ ms_memmode s' = ms_memmode s.

#[local] Instance val_any_ptr P : Val P | 100 := λ _, True.

Class MemSysOk (S P : Type) `{!MemSys S P} : Prop := {
  ms_read32_ok a : w32 a → mem_ok (P:=P) (ms_read32 (P:=P) a);
  ms_read8_ok a : w32 a → mem_ok (P:=P) (ms_read8 (P:=P) a);
  ms_write32_ok a v : w32 a → w32 v → mem_ok (P:=P) (ms_write32 (P:=P) a v);
  ms_write8_ok a v : w32 a → 0 ≤ v < 256 → mem_ok (P:=P) (ms_write8 (P:=P) a v);
  ms_getpccache_ok a : w32 a → mem_ok (P:=P) (ms_getpccache (P:=P) a);
  ms_set_privilege_ok p s : ms_memmode (P:=P) (ms_set_privilege p s) = p;
  ms_cp15_read_ok op s v s' :
    ms_cp15_read (P:=P) op s = Some (v, s') → w32 v ∧ ms_memmode s' = ms_memmode s;
  ms_cp15_write_ok op v md s eff s' :
    w32 v → ms_cp15_write (P:=P) op v md s = Some (eff, s') →
    ms_memmode s' = ms_memmode s ∧
    match eff with Cp15Mode m => m = md .& 0xf | _ => True end
}.

Class HostSysOk (S P : Type) `{!MemSys S P, !HostSys S P} : Prop := {
  exception_hook_ok x y z s :
    ms_memmode (P:=P) (debugger_exception_hook x y z s) = ms_memmode s;
  instruction_hook_ok x y s :
    ms_memmode (P:=P) (snd (debugger_instruction_hook x y s)) = ms_memmode s;
  after_instruction_ok x y s :
    ms_memmode (P:=P) (debugger_after_instruction x y s) = ms_memmode s;
  bad_mode_ok x y s :
    ms_memmode (P:=P) (snd (debugger_bad_mode x y s)) = ms_memmode s;
  break_swi_ok x s : ms_memmode (P:=P) (debugger_break_swi x s) = ms_memmode s;
  swi_hook_ok x y (m : Mach S P) :
    ms_memmode (P:=P) (debugger_swi_hook x y m) = ms_memmode (sys m);
  accel_swi_ok x (m : Mach S P) :
    ms_memmode (P:=P) (snd (accel_swi x m)) = ms_memmode (sys m);
  poweroff_ok s : ms_memmode (P:=P) (rpcemu_request_poweroff s) = ms_memmode s;
  idle_ok s : ms_memmode (P:=P) (rpcemu_idle s) = ms_memmode s;
  hostfs_activity_ok s : ms_memmode (P:=P) (hostfs_activity_increment s) = ms_memmode s;
  network_activity_ok s : ms_memmode (P:=P) (network_activity_increment s) = ms_memmode s;
  fpaopcode_ok x : ok (core_inv (S:=S) (P:=P)) (fpaopcode x);
  osword_21_0_ok x : ok (core_inv (S:=S) (P:=P)) (mouse_hack_osword_21_0 x);
  osword_21_1_ok x : ok (core_inv (S:=S) (P:=P)) (mouse_hack_osword_21_1 x);
  osword_21_3_ok x : ok (core_inv (S:=S) (P:=P)) (mouse_hack_osword_21_3 x);
  osword_21_4_ok x : ok (core_inv (S:=S) (P:=P)) (mouse_hack_osword_21_4 x);
  osmouse_ok : ok (core_inv (S:=S) (P:=P)) mouse_hack_osmouse;
  osbyte_106_ok x : ok (core_inv (S:=S) (P:=P)) (mouse_hack_osbyte_106 x);
  hostfs_ok : ok (core_inv (S:=S) (P:=P)) hostfs;
  hostcmd_ok : ok (core_inv (S:=S) (P:=P)) hostcmd;
  network_swi_ok args : ok (core_inv (S:=S) (P:=P)) (network_swi args);
  clipboard_swi_ok args : ok (core_inv (S:=S) (P:=P)) (clipboard_swi args)
}.

(** * Bits of the status register *)

Lemma mode32_range md : 0 ≤ md < 32 → ARM_MODE_32 md = (16 <=? md).
Proof.
  intros H. apply (forall_below_32 (λ md, ARM_MODE_32 md = (16 <=? md))); [|done].
  repeat constructor.
Qed.

Lemma RD_range o : 0 ≤ RD o < 16.
Proof. unfold RD. change 0xf with (Z.ones 4). rewrite Z.land_ones by done. by apply Z.mod_pos_bound. Qed.
Lemma RN_range o : 0 ≤ RN o < 16.
Proof. unfold RN. change 0xf with (Z.ones 4). rewrite Z.land_ones by done. by apply Z.mod_pos_bound. Qed.
Lemma RM_range o : 0 ≤ RM o < 16.
Proof. unfold RM. change 0xf with (Z.ones 4). rewrite Z.land_ones by done. by apply Z.mod_pos_bound. Qed.
Lemma MULRD_range o : 0 ≤ MULRD o < 16.
Proof. apply RN_range. Qed.
Lemma MULRN_range o : 0 ≤ MULRN o < 16.
Proof. apply RD_range. Qed.

(** Words that only differ above the mode field. *)
Lemma low5_eq x y : (∀ i, 0 ≤ i < 5 → Z.testbit x i = Z.testbit y i) → x .& 0x1f = y .& 0x1f.
Proof.
  intros H. change 0x1f with (Z.ones 5). apply Z.bits_inj'. intros i Hi.
  rewrite !Z.land_spec. destruct (Z.lt_ge_cases i 5).
  - by rewrite H.
  - by rewrite Z.ones_spec_high, !andb_false_r by lia.
Qed.

Lemma forall_below_5 (P : Z → Prop) :
  P 0 → P 1 → P 2 → P 3 → P 4 → ∀ i, 0 ≤ i < 5 → P i.
Proof.
  intros ????? i Hi.
  assert (i = 0 ∨ i = 1 ∨ i = 2 ∨ i = 3 ∨ i = 4) as [->|[->|[->|[->| ->]]]] by lia; done.
Qed.

(** [x & 0x1f = y & 0x1f] by looking at the five bits. *)
Ltac low5 :=
  apply low5_eq; let i := fresh "i" in let Hi := fresh "Hi" in intros i Hi;
  autorewrite with bits; revert i Hi;
  apply forall_below_5; cbv beta; fold_consts; cbn [andb orb negb xorb]; btauto.

Lemma low5_small md : 0 ≤ md < 32 → md .& 0x1f = md.
Proof.
  intros H. change 0x1f with (Z.ones 5). rewrite Z.land_ones by done. by apply Z.mod_small.
Qed.

Create HintDb regs discriminated.
#[export] Hint Resolve RD_range RN_range RM_range MULRD_range MULRN_range : regs.
#[export] Hint Extern 1 (0 ≤ _ < _) => lia : regs.

(** * Words *)

Lemma w32_insert (g : gmap Z Z) i v r :
  (∀ r, w32 (g !!! r)) → w32 v → w32 (<[i := v]> g !!! r).
Proof. intros Hg Hv. rewrite arr_get_set. by case_decide. Qed.

Lemma w32_fill lo n f (g : gmap Z Z) r :
  (∀ r, w32 (f r)) → (∀ r, w32 (g !!! r)) → w32 (arr_fill lo n f g !!! r).
Proof. intros Hf Hg. rewrite arr_fill_lookup. by case_decide. Qed.
#[export] Hint Resolve w32_insert w32_fill : w32.
#[export] Hint Resolve w_reg w_user w_fiq w_irq w_super w_abort w_undef w_spsr w_diff
  w_event : w32.

Section words_lemmas.
Implicit Types a : ARMState.

Lemma words_put_reg r v a : words a → w32 v → words (put_reg r v a).
Proof. intros [] Hv. split; cbn; auto. intros r'. by apply w32_insert. Qed.

Lemma words_set_spsr i v a : words a → w32 v → words (set_spsr (<[i := v]> (spsr a)) a).
Proof. intros [] Hv. split; cbn; auto. intros r'. by apply w32_insert. Qed.

Lemma words_set_user r v a : words a → w32 v → words (set_user_reg (<[r := v]> (user_reg a)) a).
Proof. intros [] Hv. split; cbn; auto. intros r'. by apply w32_insert. Qed.

Lemma words_set_event e a : words a → w32 e → words (set_event e a).
Proof. intros [] He. by split. Qed.

Lemma words_zero : words arm_zero.
Proof. split; cbn; intros; rewrite ?lookup_total_empty; unfold w32; cbn; lia. Qed.

Lemma words_store_back a : words a → words (store_back a).
Proof.
  intros []. unfold store_back, save_user_8_14, save_user_8_12, save_13_14, arr_copy.
  repeat case_match; split; cbn; intros; auto with w32.
Qed.

Lemma words_set_reg g a : words a → (∀ r, w32 (g !!! r)) → words (set_reg g a).
Proof. by intros []; split. Qed.

Lemma words_load_8_14 a : words a → words (load_user_8_14 a).
Proof. intros H. apply words_set_reg; [done|]. intros. destruct H. apply w32_fill; auto. Qed.
Lemma words_load_8_12 a : words a → words (load_user_8_12 a).
Proof. intros H. apply words_set_reg; [done|]. intros. destruct H. apply w32_fill; auto. Qed.

Lemma words_load_13_14 src a :
  words a → (∀ r, w32 (src !!! r)) → words (set_reg (load_13_14 src (reg a)) a).
Proof.
  intros H Hs. apply words_set_reg; [done|]. intros. destruct H. unfold load_13_14. auto with w32.
Qed.

Lemma words_load_bank m a a' : words a → load_bank m a = Some a' → words a'.
Proof.
  intros H. pose proof (words_load_8_14 _ H) as Hl. pose proof (words_load_8_12 _ H) as H2.
  assert (words (set_reg (arr_copy 8 7 (fiq_reg a) (reg a)) a)) as Hf.
  { apply words_set_reg; [done|]. intros. destruct H. apply w32_fill; auto. }
  unfold load_bank. intros He. repeat case_match; try discriminate; injection He as <-;
    try assumption; apply (words_load_13_14 _ (load_user_8_12 a)); try assumption; apply H.
Qed.
End words_lemmas.
#[export] Hint Resolve words_put_reg words_set_spsr words_set_user words_set_event : w32.

(** The fields that a bank switch leaves alone. *)
Lemma store_back_fields a :
  mode (store_back a) = mode a ∧ mmask (store_back a) = mmask a ∧
  r15_mask (store_back a) = r15_mask a ∧ reg (store_back a) = reg a.
Proof. unfold store_back. repeat case_match; done. Qed.

Lemma load_bank_fields m a a' :
  load_bank m a = Some a' →
  mode a' = mode a ∧ reg a' !!! 15 = reg a !!! 15 ∧ reg a' !!! 16 = reg a !!! 16.
Proof.
  unfold load_bank. intros H. repeat case_match; try discriminate; injection H as <-;
    unfold load_user_8_14, load_user_8_12, load_13_14, arr_copy; cbn;
    rewrite ?arr_other by lia; rewrite !arr_fill_lookup; done.
Qed.

Lemma usr_pointers_spec m u c :
  0 ≤ c < 16 → u !!! 15 = InReg 15 → usr_pointers m u !!! c = usr_ref m c.
Proof.
  intros Hc H15. unfold usr_pointers, usr_ref.
  destruct (Z.eqb_spec c 15) as [->|Hne].
  - repeat case_match; rewrite !arr_fill_lookup; repeat case_decide; done || lia.
  - repeat case_match; rewrite !arr_fill_lookup; repeat case_decide; try done;
      rewrite ?Z.leb_le, ?Z.leb_gt in *; lia.
Qed.

Lemma words_enter_32 om a : words a → w32 (mode a) → words (enter_32 om a).
Proof.
  intros H Hm. pose proof (w_reg _ H). unfold enter_32.
  assert (words (set_r15_mask 0xfffffffc (set_mmask 0x1f a))) by (destruct H; by split).
  destruct (ARM_MODE_32 om); [done|].
  repeat apply words_put_reg; try done; cbn; autorewrite with arr; auto 8 with w32.
Qed.

Lemma words_enter_26 om a : words a → w32 (mode a) → words (enter_26 om a).
Proof.
  intros H Hm. pose proof (w_reg _ H). unfold enter_26.
  assert (words (set_r15_mask 0x3fffffc (set_mmask 3 a))) by (destruct H; by split).
  destruct (ARM_MODE_32 om); repeat apply words_put_reg; try done; cbn;
    autorewrite with arr; auto 12 with w32.
Qed.

(** Entering a 32-bit mode from a 26-bit one, the CPSR names the new mode. *)
Lemma enter_32_psr om a :
  ARM_MODE_32 om = false → 0 ≤ mode a < 32 → reg (enter_32 om a) !!! 16 .& 0x1f = mode a.
Proof.
  intros Ho Hm. unfold enter_32. rewrite Ho. cbn. autorewrite with arr.
  rewrite <- (low5_small (mode a)) at 2 by done. low5.
Qed.

Lemma enter_32_same om a : ARM_MODE_32 om = true → reg (enter_32 om a) = reg a.
Proof. intros Ho. unfold enter_32. by rewrite Ho. Qed.

Lemma enter_32_fields om a :
  mode (enter_32 om a) = mode a ∧ mmask (enter_32 om a) = 0x1f ∧
  r15_mask (enter_32 om a) = 0xfffffffc.
Proof. unfold enter_32. by destruct (ARM_MODE_32 om). Qed.

Lemma enter_26_fields om a :
  mode (enter_26 om a) = mode a ∧ mmask (enter_26 om a) = 3 ∧
  r15_mask (enter_26 om a) = 0x3fffffc.
Proof. unfold enter_26. by destruct (ARM_MODE_32 om). Qed.

Section preservation.
Context {S P : Type} `{!MemSys S P, !HostSys S P, !MemSysOk S P, !HostSysOk S P}.
Implicit Types m : Mach S P.
Local Abbreviation BI := (base_inv (S:=S) (P:=P)).
Local Abbreviation CI := (core_inv (S:=S) (P:=P)).

(** * State updates *)

Lemma base_set_arm a m :
  BI m → words a → mode a = mode (arm m) → mmask a = mmask (arm m) →
  r15_mask a = r15_mask (arm m) → BI (set_arm a m).
Proof. intros [] Hw Hm Hmm Hr. split; cbn; rewrite ?Hm, ?Hmm, ?Hr; done. Qed.

Lemma base_set_sys s m : BI m → ms_memmode (P:=P) s = ms_memmode (sys m) → BI (set_sys s m).
Proof. intros [] Hs. split; cbn; try done. by rewrite Hs. Qed.

Lemma base_put_reg r v m : BI m → w32 v → BI (upd_arm (put_reg r v) m).
Proof.
  intros H Hv. apply base_set_arm; [done| |done..]. apply words_put_reg; [apply H | done].
Qed.

Lemma psr_put_reg r v m :
  psr_inv m → r ≠ 16 → psr_inv (upd_arm (put_reg r v) m).
Proof. intros H Hr. unfold psr_inv. cbn. by rewrite arr_other. Qed.

Lemma core_set_sys s m : CI m → ms_memmode (P:=P) s = ms_memmode (sys m) → CI (set_sys s m).
Proof. intros [Hb Hp] Hs. split; [by apply base_set_sys | exact Hp]. Qed.

Lemma core_set_arm a m :
  CI m → words a → mode a = mode (arm m) → mmask a = mmask (arm m) →
  r15_mask a = r15_mask (arm m) → reg a !!! 16 = reg (arm m) !!! 16 → CI (set_arm a m).
Proof.
  intros [Hb Hp] Hw Hm Hmm Hr H16. split; [by apply base_set_arm|].
  unfold psr_inv in *. cbn in *. by rewrite Hm, H16.
Qed.

(** * Values read from the state are words *)

Lemma rreg_w32 r m : BI m → w32 (rreg r m).
Proof. intros H. apply w_reg, H. Qed.
Lemma psr_w32 m : BI m → w32 (psr m).
Proof. apply rreg_w32. Qed.
Lemma rspsr_w32 r m : BI m → w32 (rspsr r m).
Proof. intros H. apply w_spsr, H. Qed.
Lemma mode_w32 m : BI m → w32 (mode (arm m)).
Proof. intros H. destruct (bi_mode _ H). unfold w32. lia. Qed.
Lemma pcmask_w32 m : BI m → w32 (r15_mask (arm m)).
Proof. intros H. rewrite (bi_pcmask _ H). unfold pc_mask. destruct (ARM_MODE_32 _); unfold w32; lia. Qed.
Lemma mmask_w32 m : BI m → w32 (mmask (arm m)).
Proof. intros H. rewrite (bi_mmask _ H). unfold mode_mask. destruct (ARM_MODE_32 _); unfold w32; lia. Qed.
Lemma event_w32 m : BI m → w32 (event (arm m)).
Proof. intros H. apply w_event, H. Qed.
Lemma PC_w32 m : BI m → w32 (PC m).
Proof. intros H. unfold PC. auto with w32. Qed.
Lemma GETADDR_w32 r m : BI m → w32 (GETADDR r m).
Proof.
  intros H. unfold GETADDR. destruct (r =? 15); [apply w32_land_l|]; by apply rreg_w32.
Qed.
Lemma GETREG_w32 r m : BI m → w32 (GETREG r m).
Proof.
  intros H. unfold GETREG. destruct (r =? 15); [apply u32_w32 | by apply rreg_w32].
Qed.
Lemma CFSET_w32 m : w32 (CFSET m).
Proof. unfold CFSET. destruct (nz _); unfold w32; lia. Qed.
End preservation.

Lemma core_base {S P} `{!MemSys S P} (m : Mach S P) : core_inv m → base_inv m.
Proof. by intros []. Qed.

#[export] Hint Resolve core_base rreg_w32 psr_w32 rspsr_w32 mode_w32 pcmask_w32 mmask_w32
  event_w32 PC_w32 GETADDR_w32 GETREG_w32 CFSET_w32 : w32.
#[export] Hint Extern 1 (val _) => progress unfold val, val_Z, val_unit, val_bool : w32.

(** * Changing mode *)

Section updatemode.
Context {S P : Type} `{!MemSys S P, !HostSys S P}.
Implicit Types s : Mach S P.

(** The state [updatemode_at] leaves, given the register file [a] of the new
    bank. *)
Definition mode_entered (om m : Z) (a : ARMState) s : Mach S P :=
  let s := set_usrregs (usr_pointers m (<[15 := InReg 15]> (usrregs s))) s in
  let s := if ARM_MODE_32 m then set_arm (enter_32 om a) (set_pcpsr 16 (set_cpsr 16 s))
           else set_arm (enter_26 om a) (set_pcpsr 15 (set_cpsr 15 s)) in
  set_sys (ms_set_privilege (P:=P) (priv_of m) (sys s)) s.

Lemma updatemode_at_run m pc s :
  updatemode_at m pc s =
    let a := set_mode m (store_back (arm s)) in
    match load_bank m a with
    | Some a' => Some (tt, mode_entered (mode (arm s)) m a' s)
    | None =>
        let '(b, y) := debugger_bad_mode (P:=P) m pc (sys s) in
        if b then Some (tt, mode_entered (mode (arm s)) m (load_user_8_14 a) (set_sys y s))
        else None
    end.
Proof.
  unfold updatemode_at, mem_set_privilege, hook_ask, gets, modify, mbind, M_bind. cbv beta iota zeta.
  unfold upd_arm at 1. cbn [arm set_arm set_usrregs].
  cbn -[load_bank store_back usr_pointers enter_32 enter_26 set_mode ARM_MODE_32 ARM_MODE_PRIV
    load_user_8_14].
  destruct (load_bank m (set_mode m (store_back (arm s)))) as [a'|] eqn:El; cbv beta iota.
  - assert (mode a' = m) as Hm by (destruct (load_bank_fields _ _ _ El) as [-> _]; reflexivity).
    cbn -[load_bank store_back usr_pointers enter_32 enter_26 set_mode ARM_MODE_32 ARM_MODE_PRIV].
    rewrite Hm. unfold mode_entered, priv_of. by destruct (ARM_MODE_32 m).
  - match goal with |- context [debugger_bad_mode ?a pc ?b] =>
      change (debugger_bad_mode a pc b) with (debugger_bad_mode m pc (sys s)) end.
    destruct (debugger_bad_mode m pc (sys s)) as [[] y]; [|reflexivity].
    unfold mode_entered, priv_of. cbn -[usr_pointers enter_32 enter_26 ARM_MODE_32 ARM_MODE_PRIV].
    by destruct (ARM_MODE_32 m).
Qed.

Context `{!MemSysOk S P, !HostSysOk S P}.
Local Abbreviation BI := (base_inv (S:=S) (P:=P)).
Local Abbreviation CI := (core_inv (S:=S) (P:=P)).

Lemma mode_entered_base om m a s :
  words a → mode a = m → 0 ≤ m < 32 → BI (mode_entered om m a s).
Proof.
  intros Hw Hm Hr. unfold mode_entered.
  assert (w32 (mode a)) by (rewrite Hm; unfold w32; lia).
  destruct (enter_32_fields om a) as (H1 & H2 & H3).
  destruct (enter_26_fields om a) as (H1' & H2' & H3').
  destruct (ARM_MODE_32 m) eqn:E; split; cbn; rewrite ?H1, ?H2, ?H3, ?H1', ?H2', ?H3', ?Hm;
    unfold mode_mask, pc_mask, psr_index; rewrite ?E; try done.
  - by apply words_enter_32.
  - intros c Hc. apply usr_pointers_spec; [done | apply arr_same].
  - apply ms_set_privilege_ok.
  - by apply words_enter_26.
  - intros c Hc. apply usr_pointers_spec; [done | apply arr_same].
  - apply ms_set_privilege_ok.
Qed.

Lemma mode_entered_mode om m a s : mode a = m → mode (arm (mode_entered om m a s)) = m.
Proof.
  intros Hm. unfold mode_entered. destruct (ARM_MODE_32 m); cbn;
    [destruct (enter_32_fields om a) as [-> _] | destruct (enter_26_fields om a) as [-> _]]; done.
Qed.

Lemma mode_entered_psr om m a s :
  mode a = m → 0 ≤ m < 32 →
  (ARM_MODE_32 om = true → ARM_MODE_32 m = true → reg a !!! 16 .& 0x1f = m) →
  psr_inv (mode_entered om m a s).
Proof.
  intros Hm Hr Hp. unfold psr_inv. rewrite mode_entered_mode by done. intros E.
  unfold mode_entered. rewrite E. cbn. destruct (ARM_MODE_32 om) eqn:Eo.
  - rewrite enter_32_same by done. auto.
  - rewrite enter_32_psr by (done || by rewrite Hm). done.
Qed.

(** A mode change establishes everything the mode determines; the CPSR agrees
    with the mode unless both modes are 32-bit ones, where the caller has
    just written it. *)
Lemma updatemode_at_inv m pc s s' :
  BI s → 0 ≤ m < 32 → updatemode_at m pc s = Some (tt, s') →
  BI s' ∧ mode (arm s') = m ∧
  ((ARM_MODE_32 (mode (arm s)) = true → ARM_MODE_32 m = true → rreg 16 s .& 0x1f = m) →
   psr_inv s').
Proof.
  intros Hs Hm. rewrite updatemode_at_run. cbv zeta.
  set (a := set_mode m (store_back (arm s))).
  assert (words a) as Ha.
  { pose proof (words_store_back _ (bi_words _ Hs)) as Hw. destruct Hw; by split. }
  assert (reg a = reg (arm s)) as Hreg by apply store_back_fields.
  destruct (load_bank m a) as [a'|] eqn:El.
  - intros [= <-]. destruct (load_bank_fields _ _ _ El) as (Hma & H15 & H16).
    assert (mode a' = m) as Hm' by by rewrite Hma.
    pose proof (words_load_bank _ _ _ Ha El).
    split; [by apply mode_entered_base|]. split; [by apply mode_entered_mode|].
    intros Hp. apply mode_entered_psr; [done..|]. by rewrite H16, Hreg.
  - destruct (debugger_bad_mode m pc (sys s)) as [[] y]; [|done]. intros [= <-].
    pose proof (words_load_8_14 _ Ha).
    split; [by apply mode_entered_base|]. split; [by apply mode_entered_mode|].
    intros Hp. apply mode_entered_psr; [done..|].
    unfold load_user_8_14, arr_copy. cbn -[store_back].
    rewrite arr_fill_lookup, decide_False by lia.
    destruct (store_back_fields (arm s)) as (_ & _ & _ & ->). exact Hp.
Qed.

Lemma updatemode_inv m s s' :
  BI s → 0 ≤ m < 32 → updatemode m s = Some (tt, s') →
  BI s' ∧ mode (arm s') = m ∧
  ((ARM_MODE_32 (mode (arm s)) = true → ARM_MODE_32 m = true → rreg 16 s .& 0x1f = m) →
   psr_inv s').
Proof. intros Hs Hm. unfold updatemode. apply updatemode_at_inv; done. Qed.
End updatemode.

(** * The flags stay out of the mode field *)

Definition top (x : Z) : Prop := w32 x ∧ x .& 0x1f = 0.

Lemma top_lor x y : top x → top y → top (x .| y).
Proof.
  intros [Hx H0] [Hy H1]. split; [by apply w32_lor|].
  by rewrite Z.land_lor_distr_l, H0, H1.
Qed.

Lemma top_if (b : bool) x y : top x → top y → top (if b then x else y).
Proof. by destruct b. Qed.

Lemma top_nflag r : top (r .& NFLAG).
Proof.
  split; [apply w32_land_r; unfold w32, NFLAG; lia|].
  by rewrite <- Z.land_assoc, Z.land_0_r.
Qed.

Create HintDb top discriminated.
#[export] Hint Resolve top_lor top_if top_nflag : top.

Lemma top_consts : top 0 ∧ top ZFLAG ∧ top CFLAG ∧ top VFLAG.
Proof. repeat split; unfold w32, ZFLAG, CFLAG, VFLAG; cbn; lia. Qed.
#[export] Hint Extern 1 (top 0) => apply top_consts : top.
#[export] Hint Extern 1 (top ZFLAG) => apply top_consts : top.
#[export] Hint Extern 1 (top CFLAG) => apply top_consts : top.
#[export] Hint Extern 1 (top VFLAG) => apply top_consts : top.

Lemma top_flags_nz r : top (flags_nz r).
Proof. unfold flags_nz. auto with top. Qed.
Lemma top_flags_add a b r : top (flags_add a b r).
Proof. pose proof (top_flags_nz r). unfold flags_add. auto 6 with top. Qed.
Lemma top_flags_sub a b r : top (flags_sub a b r).
Proof. pose proof (top_flags_nz r). unfold flags_sub. auto 6 with top. Qed.
Lemma top_flags_adc a b r : top (flags_adc a b r).
Proof. pose proof (top_flags_nz r). unfold flags_adc. auto 6 with top. Qed.
Lemma top_flags_sbc a b r : top (flags_sbc a b r).
Proof. pose proof (top_flags_nz r). unfold flags_sbc. auto 6 with top. Qed.

(** * The primitives keep the invariant *)

Section primitives.
Context {S P : Type} `{!MemSys S P, !HostSys S P, !MemSysOk S P, !HostSysOk S P}.
Local Abbreviation BI := (base_inv (S:=S) (P:=P)).
Local Abbreviation CI := (core_inv (S:=S) (P:=P)).

Lemma ok_wreg r v : 0 ≤ r < 16 → w32 v → ok CI (wreg r v).
Proof.
  intros Hr Hv. apply ok_modify. intros s [Hb Hp].
  split; [by apply base_put_reg | apply psr_put_reg; [done | lia]].
Qed.

Lemma ok_wpsr (f : Z → Z) :
  (∀ p, w32 p → w32 (f p) ∧ f p .& 0x1f = p .& 0x1f) →
  ok CI (p ← gets psr; wpsr (f p)).
Proof.
  intros Hf s [Hb Hp]. cbn. destruct (Hf (psr s)) as [Hw H5]; [by apply psr_w32|].
  split; [done|]. split; [by apply base_put_reg|].
  unfold psr_inv. cbn. intros E. rewrite (bi_cpsr _ Hb). unfold psr_index.
  cbn in E. rewrite E. rewrite arr_same. unfold psr in H5.
  rewrite (bi_cpsr _ Hb) in H5. unfold psr_index in H5. rewrite E in H5.
  rewrite <- (Hp E), <- H5. unfold psr. rewrite (bi_cpsr _ Hb). unfold psr_index. by rewrite E.
Qed.

Lemma ok_wspsr i v : w32 v → ok CI (wspsr i v).
Proof.
  intros Hv. apply ok_modify. intros s H. apply core_set_arm; try done.
  apply words_set_spsr; [apply H | done].
Qed.

Lemma ok_zoom {A} `{!Val A} (op : M (Z * S) A) : mem_ok (P:=P) op → ok CI (mem_zoom op).
Proof.
  intros Hop s H. unfold mem_zoom, zoom.
  destruct (op _) as [[a [e' s']]|] eqn:E; [|done].
  apply Hop in E as (Ha & He & Hs); [|eapply event_w32; apply H]. split; [done|].
  apply core_set_sys; [|exact Hs]. apply core_set_arm; try done.
  apply words_set_event; [apply H | done].
Qed.

Lemma ok_hook f : (∀ s, ms_memmode (P:=P) (f s) = ms_memmode (sys s)) → ok CI (hook f).
Proof. intros Hf. apply ok_modify. intros s H. by apply core_set_sys. Qed.

Lemma ok_hook_ask f :
  (∀ s, ms_memmode (P:=P) (snd (f s)) = ms_memmode (sys s)) → ok CI (hook_ask f).
Proof.
  intros Hf s H. unfold hook_ask. specialize (Hf s). destruct (f s) as [b y].
  split; [done|]. by apply core_set_sys.
Qed.

(** Memory accessed as User mode: the privilege in between is not the mode's,
    the one afterwards is. *)
Lemma ok_user_privilege {A} `{!Val A} (op : M (Z * S) A) :
  mem_ok (P:=P) op → ok CI (with_user_privilege (mem_zoom op)).
Proof.
  intros Hop s H. unfold with_user_privilege, mem_set_privilege, mem_zoom, zoom, gets, modify,
    mbind, M_bind. cbn.
  destruct (op _) as [[a [e' s']]|] eqn:E; [|done].
  apply Hop in E as (Ha & He & Hs); [|eapply event_w32; apply H]. split; [done|].
  destruct H as [Hb Hp]. split; [|exact Hp].
  destruct Hb. split; cbn; try done; [by apply words_set_event|].
  by rewrite ms_set_privilege_ok.
Qed.

End primitives.


(** * Operations that change mode *)

(** Runs straight-line register code. *)
Ltac run_simpl :=
  unfold mbind, M_bind, mret, M_ret, gets, modify, when, wreg, wpsr, wspsr, rreg, rspsr; cbn.

Ltac wf :=
  unfold val, val_Z, val_unit, val_bool, val_option in *; first [exact I | eauto 12 with w32 regs nocore].
Ltac ok_auto := ok_walk ltac:(wf).

Section mode_changes.
Context {S P : Type} `{!MemSys S P, !HostSys S P, !MemSysOk S P, !HostSysOk S P}.
Local Abbreviation BI := (base_inv (S:=S) (P:=P)).
Local Abbreviation CI := (core_inv (S:=S) (P:=P)).
Implicit Types s : Mach S P.

(** [BI] in mode [m]. *)
Definition in_mode (m : Z) s : Prop := BI s ∧ mode (arm s) = m.

Lemma hoare_updatemode_base m :
  0 ≤ m < 32 → hoare BI (updatemode m) (λ _, in_mode m).
Proof.
  intros Hm s Hs. destruct (updatemode m s) as [[[] s']|] eqn:E; [|done].
  apply updatemode_inv in E as (? & ? & ?); done.
Qed.

Lemma hoare_updatemode_at m pc :
  0 ≤ m < 32 →
  hoare (λ s, BI s ∧ (ARM_MODE_32 (mode (arm s)) = true → ARM_MODE_32 m = true →
                      rreg 16 s .& 0x1f = m))
        (updatemode_at m pc) (λ _, CI).
Proof.
  intros Hm s [Hs Hp]. destruct (updatemode_at m pc s) as [[[] s']|] eqn:E; [|done].
  apply updatemode_at_inv in E as (? & ? & Hpsr); [|done..]. split; auto.
Qed.

Lemma hoare_updatemode m :
  0 ≤ m < 32 →
  hoare (λ s, BI s ∧ (ARM_MODE_32 (mode (arm s)) = true → ARM_MODE_32 m = true →
                      rreg 16 s .& 0x1f = m))
        (updatemode m) (λ _, CI).
Proof. intros Hm s. apply hoare_updatemode_at, Hm. Qed.

Lemma ok_updatemode_26 m : 0 ≤ m < 16 → ok CI (updatemode m).
Proof.
  intros Hm. eapply hoare_conseq; [apply (hoare_updatemode m); lia | | by intros [] s].
  intros s [Hb _]. split; [done|]. intros _. rewrite mode32_range by lia.
  intros E. apply Z.leb_le in E. lia.
Qed.

Lemma in_mode_put_reg m r v s : in_mode m s → w32 v → in_mode m (upd_arm (put_reg r v) s).
Proof. intros [Hb Hm] Hv. split; [by apply base_put_reg | done]. Qed.

Lemma hoare_wreg_in_mode m r v : w32 v → hoare (in_mode m) (wreg r v) (λ _, in_mode m).
Proof. intros Hv s Hs. by apply in_mode_put_reg. Qed.

(** A read-modify-write of the CPSR that keeps the mode field, from any mode. *)
Lemma ok_upd16 (f : Z → Z) :
  (∀ p, w32 p → w32 (f p) ∧ f p .& 0x1f = p .& 0x1f) →
  ok CI (p ← gets (rreg 16); wreg 16 (f p)).
Proof.
  intros Hf s [Hb Hp]. cbn. destruct (Hf (rreg 16 s)) as [Hw H5]; [by apply rreg_w32|].
  split; [done|]. split; [by apply base_put_reg|].
  unfold psr_inv. cbn. intros E. rewrite arr_same. etransitivity; [exact H5 | by apply Hp].
Qed.

Lemma ok_upd16_seq {A} `{!Val A} (f : Z → Z) (k : M (Mach S P) A) :
  (∀ p, w32 p → w32 (f p) ∧ f p .& 0x1f = p .& 0x1f) → ok CI k →
  ok CI (p ← gets (rreg 16); wreg 16 (f p);; k).
Proof.
  intros Hf Hk s Hs. pose proof (ok_upd16 f Hf s Hs) as H. cbn in *.
  apply Hk, H.
Qed.

Lemma exception_mode mmode : 0 ≤ mmode < 16 → 0 ≤ 0x10 .| mmode < 32 ∧ ARM_MODE_32 (0x10 .| mmode) = true.
Proof.
  intros H. assert (0 ≤ 0x10 .| mmode < 32) as Hr.
  { assert (mmode ∈ seqZ 0 16) as Hi by (apply elem_of_seqZ; lia). revert mmode H Hi.
    assert (Forall (λ m, 0 ≤ 0x10 .| m < 32) (seqZ 0 16)) as HF
      by (vm_compute; repeat constructor; discriminate).
    intros mm _ Hi. by apply (proj1 (Forall_forall _ _) HF mm), list_elem_of_In. }
  split; [done|]. unfold ARM_MODE_32. change 0x10 with (2 ^ 4) at 2.
  rewrite nz_mask_bit, Z.lor_spec by done. done.
Qed.

(** Exception entry from a 32-bit mode, after the SPSR is saved. *)
Lemma exception_tail_32 mmode irq link address :
  0 ≤ mmode < 16 → w32 link → w32 address → top irq →
  hoare BI
    (updatemode (0x10 .| mmode);;
     wreg 14 link;;
     r16 ← gets (rreg 16); wreg 16 (r16 .&~ 0x1f);;
     r16 ← gets (rreg 16); wreg 16 (r16 .| (0x10 .| mmode .| irq));;
     wreg 15 address)
    (λ _, CI).
Proof.
  intros Hm Hl Ha [Hi Hi5]. destruct (exception_mode mmode Hm) as [Hr _].
  revert Hr. generalize (0x10 .| mmode) as md. intros md Hr.
  eapply hoare_bind; [by apply hoare_updatemode_base|]. intros [].
  eapply hoare_bind; [by apply hoare_wreg_in_mode|]. intros [].
  intros s Hs. run_simpl. rewrite arr_same.
  pose proof (rreg_w32 16 _ (proj1 Hs)) as H16. cbn in H16.
  assert (w32 md) by (unfold w32; lia).
  assert (in_mode md (upd_arm (put_reg 15 address)
    (upd_arm (put_reg 16 ((reg (arm s) !!! 16 .&~ 31) .| (md .| irq)))
    (upd_arm (put_reg 16 (reg (arm s) !!! 16 .&~ 31)) s)))) as [Hb Hmode].
  { repeat (apply in_mode_put_reg; [|auto 8 with w32]). done. }
  split; [exact Hb|]. intros []. rewrite Hmode. cbn. autorewrite with arr.
  rewrite !Z.land_lor_distr_l, Hi5, (low5_small md), Z.lor_0_r by done.
  replace ((reg (arm s) !!! 16 .&~ 31) .& 31) with 0; [done|].
  symmetry. apply Z.bits_inj'. intros i ?. rewrite Z.land_spec, Z.ldiff_spec, Z.bits_0.
  btauto.
Qed.

(** Entry to a 32-bit mode from a 26-bit one. *)
Lemma exception_tail_p32 mmode irq link address md :
  0 ≤ mmode < 16 → w32 link → w32 address → top irq → ARM_MODE_32 md = false →
  hoare (in_mode md)
    (updatemode (0x10 .| mmode);;
     wreg 14 (link .& 0x3fffffc);;
     r16 ← gets (rreg 16); wspsr mmode ((r16 .&~ 0x1f) .| (link .& 3));;
     sp ← gets (rspsr mmode); wspsr mmode (sp .&~ 0x10);;
     r16 ← gets (rreg 16); wreg 16 (r16 .| irq);;
     wreg 15 address)
    (λ _, CI).
Proof.
  intros Hm Hl Ha [Hi Hi5] E26. destruct (exception_mode mmode Hm) as [Hr _].
  eapply hoare_bind; [eapply hoare_conseq; [by apply hoare_updatemode| |by intros]|].
  { intros s [Hs Hmd]. split; [done|]. by rewrite Hmd, E26. }
  intros []. cbv beta.
  apply ok_hoare.
  eapply (ok_bind CI); [by apply ok_wreg; wf|]. intros _ _.
  eapply ok_bind; [apply ok_gets; wf|]. intros r16 H16.
  eapply ok_bind; [apply ok_wspsr; wf|]. intros _ _.
  eapply ok_bind; [apply ok_gets; wf|]. intros sp Hsp.
  eapply ok_bind; [apply ok_wspsr; wf|]. intros _ _.
  apply ok_upd16_seq; [|by apply ok_wreg; wf].
  intros p Hp. split; [auto with w32|]. by rewrite Z.land_lor_distr_l, Hi5, Z.lor_0_r.
Qed.

Lemma irq_mask_top (b : bool) : top (if b then 0x80 .| 0x40 else 0x80).
Proof.
  change (0x80 .| 0x40) with 0xc0. destruct b; (split; [unfold w32; lia | done]).
Qed.

(** Entry on a 26-bit CPU. *)
Lemma exception_tail_26 m link x :
  0 ≤ m < 16 → w32 link → w32 x →
  hoare BI
    (updatemode m;;
     wreg 14 link;;
     r15 ← gets (rreg 15); wreg 15 (r15 .& 0xfc000000);;
     r15 ← gets (rreg 15); wreg 15 (r15 .| x))
    (λ _, CI).
Proof.
  intros Hm Hl Hx. eapply hoare_bind; [eapply hoare_conseq; [apply (hoare_updatemode m); lia| |by intros]|].
  { intros s Hs. split; [done|]. intros _ E. rewrite (mode32_range m) in E by lia.
    apply Z.leb_le in E. lia. }
  intros []. apply ok_hoare. ok_auto; apply ok_wreg; wf.
Qed.

Lemma w32_psr_bits (b : bool) : w32 (if b then 0x80 .| 0x40 else 0x80).
Proof. apply irq_mask_top. Qed.

Lemma ok_exception mmode address diff :
  0 ≤ mmode < 16 → w32 address → ok CI (exception mmode address diff).
Proof.
  intros Hm Ha. unfold exception.
  eapply ok_bind; [apply ok_hook; intros; apply exception_hook_ok|]. intros _ _. cbv zeta.
  pose proof (irq_mask_top (mmode =? FIQ)) as Hirq. revert Hirq.
  generalize (if mmode =? FIQ then 0x80 .| 0x40 else 0x80) as irq. intros irq Hirq.
  eapply ok_bind; [apply ok_gets; wf|]. intros r15 H15.
  assert (w32 (sub32 r15 diff)) as Hl by wf. revert Hl. generalize (sub32 r15 diff) as link.
  intros link Hl. apply ok_bind_state. intros md. apply hoare_gets_bind. intros p32.
  apply hoare_unit. destruct (ARM_MODE_32 md) eqn:E32; [|destruct (nz p32)].
  - apply hoare_gets_bind. intros r16.
    eapply (hoare_modify_bind _ BI); [|by apply exception_tail_32].
    intros s [[[[Hb _] _] _] <-]. apply base_set_arm; [done| |done..].
    apply words_set_spsr; [apply Hb | by apply rreg_w32].
  - eapply hoare_conseq; [by apply (exception_tail_p32 mmode irq link address md)| |done].
    by intros s [[[Hb _] ?] _].
  - eapply hoare_conseq; [apply exception_tail_26| |done].
    + destruct (SUPERVISOR <=? mmode); unfold SUPERVISOR; lia.
    + done.
    + apply w32_lor; [apply w32_lor; [apply u32_w32 | done]|].
      destruct (SUPERVISOR <=? mmode); unfold w32, SUPERVISOR; lia.
    + by intros s [[[Hb _] ?] _].
Qed.

Lemma ok_undefined : ok CI arm_exception_undefined.
Proof. apply ok_exception; unfold UNDEFINED; [lia | wf]. Qed.

(** * Writes to the status registers *)

Lemma in_mode_base m s : in_mode m s → BI s.
Proof. by intros []. Qed.
Lemma core_in_mode s : CI s → in_mode (mode (arm s)) s.
Proof. by intros []. Qed.

Lemma ok_wreg_in_mode m r v : w32 v → ok (in_mode m) (wreg r v).
Proof. intros Hv. by apply hoare_unit, hoare_wreg_in_mode. Qed.

Lemma mode_mask_range p md : 0 ≤ p .& mode_mask md < 32.
Proof.
  unfold mode_mask. destruct (ARM_MODE_32 md).
  - change 0x1f with (Z.ones 5). rewrite Z.land_ones by done. by apply Z.mod_pos_bound.
  - change 3 with (Z.ones 2). rewrite Z.land_ones by done.
    pose proof (Z.mod_pos_bound p (2 ^ 2) eq_refl). lia.
Qed.

(** "Have we changed processor mode?", for either spelling of the change. *)
Lemma mode_sync md (um : Z → M (Mach S P) unit) :
  (∀ m, 0 ≤ m < 32 →
    hoare (λ s, BI s ∧ (ARM_MODE_32 (mode (arm s)) = true → ARM_MODE_32 m = true →
                        rreg 16 s .& 0x1f = m)) (um m) (λ _, CI)) →
  hoare (in_mode md)
    (p ← gets psr; mm ← gets (λ s, mmask (arm s)); when (negb (p .& mm =? md)) (um (p .& mm)))
    (λ _, CI).
Proof.
  intros Hum. apply hoare_gets_bind. intros p. apply hoare_gets_bind. intros mm.
  intros s [[[Hb Hmd] Hp] Hmm]. rewrite (bi_mmask _ Hb), Hmd in Hmm. subst mm.
  assert (ARM_MODE_32 md = true → rreg 16 s .& 0x1f = p .& mode_mask md) as H16.
  { intros E. rewrite <- Hp. unfold psr. rewrite (bi_cpsr _ Hb), Hmd.
    unfold psr_index, mode_mask. by rewrite E. }
  destruct (Z.eqb_spec (p .& mode_mask md) md) as [He|_]; cbn [negb when].
  - cbn. split; [done|]. intros E. rewrite Hmd in *. by rewrite <- He, H16.
  - apply Hum; [apply mode_mask_range|]. split; [done|]. intros E _. rewrite Hmd in E. auto.
Qed.

Lemma w32_r15_bits md x r15 : w32 x → w32 r15 → w32 ((r15 .&~ md) .| (x .& md)).
Proof. auto with w32. Qed.

Lemma ok_restore_spsr md :
  hoare (in_mode md)
    (when (ARM_MODE_32 md) (sp ← gets (rspsr (md .& 0xf)); wreg 16 sp)) (λ _, in_mode md).
Proof.
  apply ok_hoare. apply ok_when. intros _.
  eapply ok_bind; [apply ok_gets; intros; eapply rspsr_w32, in_mode_base; eauto|].
  intros sp Hsp. by apply ok_wreg_in_mode.
Qed.

Lemma ok_arm_write_r15 opcode dest : w32 dest → ok CI (arm_write_r15 opcode dest).
Proof.
  intros Hd. unfold arm_write_r15. apply ok_bind_state. intros md.
  apply hoare_gets_bind. intros pc. apply hoare_gets_bind. intros r15. cbv zeta.
  set (v := (_ .&~ _) .| _).
  eapply (hoare_modify_bind _ (λ s, CI s ∧ mode (arm s) = md)).
  { intros s [[[[Hb Hp] <-] _] <-]. split; [|done]. split.
    - apply base_put_reg; [done|]. apply w32_r15_bits; [apply u32_w32 | by apply rreg_w32].
    - by apply psr_put_reg. }
  apply hoare_unit. destruct (ARM_MODE_PRIV md); cbn [when]; [|by intros s [? _]].
  eapply hoare_bind; [eapply hoare_conseq; [apply (ok_restore_spsr md)| |intros ? ? H; exact H]|].
  { by intros s [[] <-]. }
  intros []. apply (mode_sync md (λ m, updatemode_at m pc)). intros m Hm.
  by apply hoare_updatemode_at.
Qed.

Lemma ok_arm_compare_rd15 opcode dest : w32 dest → ok CI (arm_compare_rd15 opcode dest).
Proof.
  intros Hd. unfold arm_compare_rd15. apply ok_bind_state. intros md. apply hoare_unit.
  apply (hoare_bind _ _ _ (λ _, in_mode md));
    [|intros []; apply (mode_sync md updatemode); intros; by apply hoare_updatemode].
  eapply (hoare_conseq _ (in_mode md)); [|by intros s [[] ?]|intros ? ? H; exact H].
  destruct (ARM_MODE_32 md) eqn:E.
  - destruct (ARM_MODE_PRIV md); cbn [when]; [|by intros s Hs].
    pose proof (ok_restore_spsr md) as H. by rewrite E in H.
  - cbv zeta. apply ok_hoare.
    eapply ok_bind; [apply ok_gets; intros; eapply rreg_w32, in_mode_base; eauto|].
    intros r15 H15. apply ok_wreg_in_mode. by apply w32_r15_bits.
Qed.

Lemma ok_arm_write_cpsr opcode value : w32 value → ok CI (arm_write_cpsr opcode value).
Proof.
  intros Hv. unfold arm_write_cpsr. apply ok_bind_state. intros md. cbv zeta. apply hoare_unit.
  set (op := if ARM_MODE_PRIV md then _ else _). set (fm := _ .& PSR_BITS_VALID).
  apply hoare_gets_bind. intros r16.
  eapply (hoare_modify_bind _ (in_mode md)).
  { intros s [[[Hb _] Hmd] <-]. apply in_mode_put_reg; [done|].
    apply w32_r15_bits; [done | by apply rreg_w32]. }
  apply (hoare_bind _ _ _ (λ _, in_mode md)).
  - apply ok_hoare, ok_when. intros _. eapply ok_bind.
    + apply ok_when. intros _.
      eapply ok_bind; [apply ok_gets; intros; eapply rreg_w32, in_mode_base; eauto|].
      intros r15 H15. apply ok_wreg_in_mode. by apply w32_r15_bits.
    + intros _ _. apply ok_when. intros _.
      eapply ok_bind; [apply ok_gets; intros; eapply rreg_w32, in_mode_base; eauto|].
      intros r15 H15. apply ok_wreg_in_mode. wf.
  - intros []. apply hoare_gets_bind. intros r16'.
    intros s [[Hb Hmd] <-].
    destruct (Z.eqb_spec (rreg 16 s .& 0x1f) md) as [He|_]; cbn [negb when].
    + split; [done|]. intros _. by rewrite Hmd.
    + apply (hoare_updatemode (rreg 16 s .& 0x1f)).
      * change 0x1f with (Z.ones 5). rewrite Z.land_ones by done. by apply Z.mod_pos_bound.
      * by split.
Qed.

Lemma ok_arm_write_spsr opcode value : w32 value → ok CI (arm_write_spsr opcode value).
Proof.
  intros Hv. unfold arm_write_spsr. apply ok_bind_any. intros md. cbv zeta.
  apply ok_when. intros _. eapply ok_bind; [apply ok_gets; wf|]. intros sp Hsp.
  apply ok_wspsr. by apply w32_r15_bits.
Qed.

Lemma arm_read_spsr_w32 s : BI s → w32 (arm_read_spsr s).
Proof.
  intros H. unfold arm_read_spsr. pose proof (rreg_w32 15 s H). pose proof (rreg_w32 16 s H).
  apply w32_if; [by apply rspsr_w32|]. apply w32_if; auto 8 with w32.
Qed.
End mode_changes.
#[export] Hint Resolve ok_exception ok_undefined ok_updatemode_26 : ok.
#[export] Hint Resolve arm_read_spsr_w32 : w32.

(** * What the instruction proofs use

    The lemmas about the instructions are proved for any invariant that the
    primitives keep, so that they serve for more than one. [Ends I E]: an
    Undefined Instruction exception may lead from [I] to [E]; it is always the
    last thing an instruction does. *)

Class Keeps {S P : Type} `{!MemSys S P, !HostSys S P} (I : Mach S P → Prop) : Prop := {
  k_base s : I s → base_inv s;
  k_wreg r v : 0 ≤ r < 16 → w32 v → ok I (wreg r v);
  k_wpsr (f : Z → Z) :
    (∀ p, w32 p → w32 (f p) ∧ f p .& 0x1f = p .& 0x1f) →
    ok I (p ← gets psr; wpsr (f p));
  k_wspsr o v : w32 v → ok I (arm_write_spsr o v);
  k_wuser c v : 0 ≤ c < 15 → w32 v → ok I (wuser c v);
  k_zoom {A} `{!Val A} (op : M (Z * S) A) : mem_ok (P:=P) op → ok I (mem_zoom op);
  k_user {A} `{!Val A} (op : M (Z * S) A) :
    mem_ok (P:=P) op → ok I (with_user_privilege (mem_zoom op));
  k_write_r15 o v : w32 v → ok I (arm_write_r15 o v);
  k_compare_rd15 o v : w32 v → ok I (arm_compare_rd15 o v);
  k_write_cpsr o v : w32 v → ok I (arm_write_cpsr o v);
  k_mrs_cpsr o : ok I (mrs_cpsr o);
  k_unpredictable o : ok I (arm_unpredictable o)
}.

Class Ends {S P : Type} `{!MemSys S P, !HostSys S P} (I E : Mach S P → Prop) : Prop := {
  k_end s : I s → E s;
  k_undefined : fin I E arm_exception_undefined
}.

Section keeps.
Context {S P : Type} `{!MemSys S P, !HostSys S P, !MemSysOk S P, !HostSysOk S P}.
Context (I : Mach S P → Prop) `{!Keeps I}.

Lemma ok_merge_flags keep flags :
  w32 keep → keep .& 0x1f = 0x1f → top flags → ok I (merge_flags keep flags).
Proof.
  intros Hk Hk5 [Hf Hf5]. apply (k_wpsr (λ p, (p .& keep) .| flags)). intros p Hp.
  split; [auto with w32|].
  by rewrite Z.land_lor_distr_l, Hf5, Z.lor_0_r, <- Z.land_assoc, Hk5.
Qed.

Lemma ok_set_cflag c : ok I (set_cflag c).
Proof.
  apply (k_wpsr (λ p, if c then p .| CFLAG else p .&~ CFLAG)). intros p Hp.
  unfold CFLAG. destruct c; (split; [auto with w32 | low5]).
Qed.

Lemma ok_clear_v : ok I clear_v.
Proof.
  apply (k_wpsr (λ p, p .&~ VFLAG)). intros p Hp. split; [auto with w32 | unfold VFLAG; low5].
Qed.

Lemma ok_mem_read32 a : w32 a → ok I (mem_read32 a).
Proof. intros Ha. by apply k_zoom, ms_read32_ok. Qed.
Lemma ok_mem_read8 a : w32 a → ok I (mem_read8 a).
Proof. intros Ha. by apply k_zoom, ms_read8_ok. Qed.
Lemma ok_mem_write32 a v : w32 a → w32 v → ok I (mem_write32 a v).
Proof. intros Ha Hv. by apply k_zoom, ms_write32_ok. Qed.
Lemma ok_mem_write8 a v : w32 a → ok I (mem_write8 a v).
Proof. intros Ha. apply k_zoom, ms_write8_ok; [done | apply u8_range]. Qed.
Lemma ok_mem_user_read32 a : w32 a → ok I (mem_user_read32 a).
Proof. intros Ha. by apply k_user, ms_read32_ok. Qed.
Lemma ok_mem_user_read8 a : w32 a → ok I (mem_user_read8 a).
Proof. intros Ha. by apply k_user, ms_read8_ok. Qed.
Lemma ok_mem_user_write32 a v : w32 a → w32 v → ok I (mem_user_write32 a v).
Proof. intros Ha Hv. by apply k_user, ms_write32_ok. Qed.
Lemma ok_mem_user_write8 a v : w32 a → ok I (mem_user_write8 a v).
Proof. intros Ha. apply k_user, ms_write8_ok; [done | apply u8_range]. Qed.
End keeps.

#[export] Hint Resolve ok_set_cflag ok_clear_v k_wspsr ok_mem_read32 ok_mem_read8 ok_mem_write32
  ok_mem_write8 ok_mem_user_read32 ok_mem_user_read8 ok_mem_user_write32 ok_mem_user_write8
  k_mrs_cpsr k_unpredictable : ok.
(** The invariant of a hint's conclusion is only known after unification. *)
#[export] Hint Extern 0 (Keeps _) => typeclasses eauto : ok w32.
