(* ===== verification/ArmInvExec.v ===== *)
(** Every instruction, and the interpreter loop, keeps the invariant of
    ArmInv.v. *)

From S2P Require Export ArmInv.

(** * Shifter operands and immediates are words *)

Lemma w32_arm_imm o : w32 (arm_imm o).
Proof. unfold arm_imm. auto with w32. Qed.
#[export] Hint Resolve w32_arm_imm : w32.

Lemma w32_ldr_rotate v a : w32 v → w32 (arm_ldr_rotate v a).
Proof. apply w32_rotate. Qed.
#[export] Hint Resolve w32_ldr_rotate : w32.

Lemma w32_shift5 o md n rm c : w32 rm → 0 ≤ n → w32 (shift5 o md n rm c).
Proof.
  intros Hr Hn. unfold shift5. repeat (apply w32_if; auto 6 with w32).
Qed.

Lemma w32_ones_if (b : bool) : w32 (if b then 0xffffffff else 0).
Proof. destruct b; unfold w32; lia. Qed.
#[export] Hint Resolve w32_ones_if : w32.

Section values.
Context {S P : Type} `{!MemSys S P, !HostSys S P, !MemSysOk S P, !HostSysOk S P}.
Local Abbreviation BI := (base_inv (S:=S) (P:=P)).
Context (I : Mach S P → Prop) `{!Keeps I}.
Local Hint Extern 1 (base_inv _) => apply (k_base (I:=I)); assumption : w32.
Implicit Types s : Mach S P.

Lemma shift2_w32 o s : BI s → w32 (shift2 o s).
Proof.
  intros H. unfold shift2, shift4. pose proof (rreg_w32 (RM o) s H) as Hr.
  destruct (shiftamount_range o s) as [Hn _].
  pose proof (w32_shift5 o (o .& 0x60) (shiftamount o s) _ (CFSET s) Hr Hn).
  apply w32_if; [|done]. repeat (apply w32_if; auto with w32).
Qed.

Lemma ok_shift o : ok I (shift o).
Proof.
  intros s Hs. pose proof (rreg_w32 (RM o) s (k_base _ Hs)) as Hr.
  destruct (shift_eq o s Hr) as (oc & -> & _). split.
  - unfold val, val_Z. rewrite <- shift2_eq by done. by apply shift2_w32, k_base.
  - destruct oc as [c|]; [|done].
    pose proof (ok_set_cflag I c s Hs) as Hc. cbn in Hc. apply Hc.
Qed.

Lemma ok_arm_imm_cflag o : ok I (arm_imm_cflag o).
Proof.
  unfold arm_imm_cflag. cbv zeta. eapply ok_bind; [apply ok_when; eauto with ok|].
  intros _ _. apply ok_ret, w32_arm_imm.
Qed.

Lemma imm_w32 o s : w32 (imm o s).
Proof. apply w32_arm_imm. Qed.

Lemma ldrstr_offset_w32 o s : BI s → w32 (ldrstr_offset o s).
Proof.
  intros H. unfold ldrstr_offset. pose proof (shift2_w32 o s H).
  assert (w32 (if nz (o .& 0x2000000) then shift2 o s else o .& 0xfff)) by auto with w32.
  auto with w32.
Qed.

Lemma half_offset_w32 o s : BI s → w32 (half_offset o s).
Proof.
  intros H. unfold half_offset. pose proof (rreg_w32 (RM o) s H).
  apply w32_if; apply w32_if || apply u32_w32; auto with w32.
Qed.

(** * Flags *)

Lemma ok_arm_flags_add a b r : ok I (arm_flags_add a b r).
Proof. apply (ok_merge_flags I); [wf | done | apply top_flags_add]. Qed.
Lemma ok_arm_flags_sub a b r : ok I (arm_flags_sub a b r).
Proof. apply (ok_merge_flags I); [wf | done | apply top_flags_sub]. Qed.
Lemma ok_arm_flags_adc a b r : ok I (arm_flags_adc a b r).
Proof. apply (ok_merge_flags I); [wf | done | apply top_flags_adc]. Qed.
Lemma ok_arm_flags_sbc a b r : ok I (arm_flags_sbc a b r).
Proof. apply (ok_merge_flags I); [wf | done | apply top_flags_sbc]. Qed.
Lemma ok_arm_flags_logical r : ok I (arm_flags_logical r).
Proof. apply (ok_merge_flags I); [wf | done | apply top_flags_nz]. Qed.
Lemma ok_arm_flags_long_multiply r : ok I (arm_flags_long_multiply r).
Proof. apply (ok_merge_flags I); [wf | done | auto with top]. Qed.
End values.

#[export] Hint Resolve ok_shift ok_arm_imm_cflag ok_arm_flags_add ok_arm_flags_sub
  ok_arm_flags_adc ok_arm_flags_sbc ok_arm_flags_logical ok_arm_flags_long_multiply : ok.
#[export] Hint Resolve shift2_w32 imm_w32 ldrstr_offset_w32 half_offset_w32 : w32.
(** Accesses whose operands are words. *)
#[export] Hint Extern 1 (ok _ (mem_read32 _)) => apply ok_mem_read32; solve [wf] : ok.
#[export] Hint Extern 1 (ok _ (mem_read8 _)) => apply ok_mem_read8; solve [wf] : ok.
#[export] Hint Extern 1 (ok _ (mem_write32 _ _)) => apply ok_mem_write32; solve [wf] : ok.
#[export] Hint Extern 1 (ok _ (mem_write8 _ _)) => apply ok_mem_write8; solve [wf] : ok.
#[export] Hint Extern 1 (ok _ (arm_write_cpsr _ _)) => apply k_write_cpsr; solve [wf] : ok.
#[export] Hint Extern 1 (ok _ (arm_write_spsr _ _)) => apply k_wspsr; solve [wf] : ok.
#[export] Hint Extern 1 (ok _ (arm_write_r15 _ _)) => apply k_write_r15; solve [wf] : ok.
#[export] Hint Extern 1 (ok _ (wreg _ _)) => apply k_wreg; solve [wf] : ok.

Section data.
Context {S P : Type} `{!MemSys S P, !HostSys S P, !MemSysOk S P, !HostSysOk S P}.
Local Abbreviation BI := (base_inv (S:=S) (P:=P)).
Context (I : Mach S P → Prop) `{!Keeps I}.
Local Hint Extern 1 (base_inv _) => apply (k_base (I:=I)); assumption : w32.
Implicit Types s : Mach S P.

Lemma ok_arm_write_dest o d : w32 d → ok I (arm_write_dest o d).
Proof. intros Hd. unfold arm_write_dest. ok_auto. Qed.

Lemma ok_LOADREG r v : 0 ≤ r < 16 → w32 v → ok I (LOADREG r v).
Proof. intros Hr Hv. unfold LOADREG. ok_auto. Qed.

Section shapes.
Context (o : Z) (rhs : Mach S P → Z) (rhs_c : M (Mach S P) Z).
Context (Hrhs : ∀ s, BI s → w32 (rhs s)) (Hrhs_c : ok I rhs_c).

Lemma rhs_core s : I s → w32 (rhs s).
Proof. intros Hs. by apply Hrhs, k_base. Qed.
Local Hint Resolve rhs_core Hrhs : w32.
Local Hint Resolve Hrhs_c ok_arm_write_dest : ok.

Lemma ok_dp_dest f :
  (∀ l r c, w32 l → w32 r → w32 (f l r c)) → ok I (dp_dest o rhs f).
Proof.
  intros Hf. unfold dp_dest. eapply ok_bind; [apply ok_gets; intros; apply Hf; wf|].
  intros d Hd. by apply ok_arm_write_dest.
Qed.

Lemma ok_dp_arith_s f flags :
  (∀ l r c, w32 l → w32 r → w32 (f l r c)) → (∀ l r d, ok I (flags l r d)) →
  ok I (dp_arith_s o rhs f flags).
Proof.
  intros Hf Hfl. unfold dp_arith_s.
  eapply ok_bind; [apply ok_gets; wf|]. intros l Hl.
  eapply ok_bind; [apply ok_gets; wf|]. intros r Hr.
  eapply ok_bind; [apply ok_gets; intros; by apply Hf|]. intros d Hd.
  destruct (RD o =? 15); [eauto with ok|].
  eapply ok_bind; [apply Hfl|]. intros _ _. apply k_wreg; wf.
Qed.

Lemma ok_dp_logical_s f :
  (∀ l r, w32 l → w32 r → w32 (f l r)) → ok I (dp_logical_s o rhs rhs_c f).
Proof.
  intros Hf. unfold dp_logical_s. eapply ok_bind; [apply ok_gets; wf|]. intros l Hl.
  destruct (RD o =? 15); [eapply ok_bind; [apply ok_gets; wf|] | eapply ok_bind; [done|]];
    intros r Hr; [by apply k_write_r15, Hf|].
  assert (w32 (f l r)) by by apply Hf. cbv zeta. ok_auto.
Qed.

Lemma ok_dp_move_s f :
  (∀ r, w32 r → w32 (f r)) → ok I (dp_move_s o rhs rhs_c f).
Proof.
  intros Hf. unfold dp_move_s.
  destruct (RD o =? 15); [eapply ok_bind; [apply ok_gets; wf|] | eapply ok_bind; [done|]];
    intros r Hr; [by apply k_write_r15, Hf|].
  assert (w32 (f r)) by by apply Hf. ok_auto.
Qed.

Lemma ok_dp_compare f flags :
  (∀ l r, w32 l → w32 r → w32 (f l r)) → (∀ l r d, ok I (flags l r d)) →
  ok I (dp_compare o rhs f flags).
Proof.
  intros Hf Hfl. unfold dp_compare.
  eapply ok_bind; [apply ok_gets; wf|]. intros l Hl.
  eapply ok_bind; [apply ok_gets; wf|]. intros r Hr. cbv zeta.
  destruct (RD o =? 15); [by apply k_compare_rd15, Hf | apply Hfl].
Qed.

Lemma ok_dp_test f :
  (∀ l r, w32 l → w32 r → w32 (f l r)) → ok I (dp_test o rhs rhs_c f).
Proof.
  intros Hf. unfold dp_test. eapply ok_bind; [apply ok_gets; wf|]. intros l Hl.
  destruct (RD o =? 15); [eapply ok_bind; [apply ok_gets; wf|] | eapply ok_bind; [done|]];
    intros r Hr; [by apply k_compare_rd15, Hf | eauto with ok].
Qed.
End shapes.

(** * Multiplies, PSR transfers, swaps *)

Lemma mul_result_w32 o s : w32 (mul_result o s).
Proof. unfold mul_result. auto with w32. Qed.
Lemma mla_result_w32 o s : w32 (mla_result o s).
Proof. unfold mla_result. auto with w32. Qed.
Local Hint Resolve mul_result_w32 mla_result_w32 : w32.

Lemma ok_mul o : ok I (mul o). Proof. unfold mul. ok_auto. Qed.
Lemma ok_muls o : ok I (muls o). Proof. unfold muls. ok_auto. Qed.
Lemma ok_mla o : ok I (mla o). Proof. unfold mla. ok_auto. Qed.
Lemma ok_mlas o : ok I (mlas o). Proof. unfold mlas. ok_auto. Qed.

Lemma ok_mul_long o f : ok I (mul_long o f).
Proof. unfold mul_long. apply ok_bind_any. intros r. ok_auto. Qed.
Lemma ok_mul_long_s o f : ok I (mul_long_s o f).
Proof. unfold mul_long_s. apply ok_bind_any. intros r. ok_auto. Qed.

Lemma ok_or_mul_long o a b : ok I a → ok I b → ok I (or_mul_long o a b).
Proof. intros Ha Hb. unfold or_mul_long. apply ok_bind_any. intros v4. by destruct (_ && _). Qed.

Local Hint Resolve ok_LOADREG : ok.
Local Hint Extern 1 (ok _ (LOADREG _ _)) => apply ok_LOADREG; solve [wf] : ok.


Lemma ok_swp o : ok I (swp o).
Proof. unfold swp. ok_auto. Qed.

Lemma ok_swpb o : ok I (swpb o).
Proof. unfold swpb. ok_auto. Qed.

Lemma ok_mrs_spsr o : ok I (v ← gets arm_read_spsr; wreg (RD o) v).
Proof. ok_auto. Qed.
End data.

#[export] Hint Resolve ok_LOADREG ok_mul ok_muls ok_mla ok_mlas ok_mul_long ok_mul_long_s ok_or_mul_long
  ok_swp ok_swpb ok_mrs_spsr ok_arm_write_dest : ok.
#[export] Hint Extern 1 (ok _ (LOADREG _ _)) => apply ok_LOADREG; solve [wf] : ok.
#[export] Hint Extern 1 (ok _ (arm_write_dest _ _)) => apply ok_arm_write_dest; solve [wf] : ok.

Ltac dp_case :=
  match goal with
  | |- ok _ (dp_dest _ _ _) => apply ok_dp_dest
  | |- ok _ (dp_arith_s _ _ _ _) => apply ok_dp_arith_s
  | |- ok _ (dp_logical_s _ _ _ _) => apply ok_dp_logical_s
  | |- ok _ (dp_move_s _ _ _ _) => apply ok_dp_move_s
  | |- ok _ (dp_compare _ _ _ _) => apply ok_dp_compare
  | |- ok _ (dp_test _ _ _ _) => apply ok_dp_test
  end;
  intros;
  match goal with
  | |- Keeps _ => typeclasses eauto
  | |- w32 _ => unfold adc32, sbc32; wf
  | |- ok _ _ => eauto 3 with ok nocore
  end.
Ltac each_case tac := repeat (apply List.Forall_cons; [cbn [snd]; tac|]); apply List.Forall_nil.

Section data_cases.
Context {S P : Type} `{!MemSys S P, !HostSys S P, !MemSysOk S P, !HostSysOk S P}.
Local Abbreviation BI := (base_inv (S:=S) (P:=P)).
Context (I : Mach S P → Prop) `{!Keeps I}.
Local Hint Extern 1 (base_inv _) => apply (k_base (I:=I)); assumption : w32.
Context (E : Mach S P → Prop) `{!Ends I E}.
Local Abbreviation cases_ok l := (List.Forall (λ c, fin I E (snd c)) l).

Lemma fin_undef_unpred o : fin I E (undefined_or_unpredictable o).
Proof.
  unfold undefined_or_unpredictable. apply fin_bind_any. intros v4.
  apply fin_if; [apply k_undefined | apply fin_ok; [apply k_end | apply k_unpredictable]].
Qed.

Lemma fin_or_mul_long o a b : fin I E a → fin I E b → fin I E (or_mul_long o a b).
Proof. intros Ha Hb. unfold or_mul_long. apply fin_bind_any. intros v4. by apply fin_if. Qed.

Ltac data_case :=
  repeat (match goal with
  | |- fin _ _ (if _ then _ else _) => apply fin_if
  | |- fin _ _ (or_mul_long _ _ _) => apply fin_or_mul_long
  end);
  first [ apply fin_undef_unpred
        | apply fin_ok; [apply k_end | solve [dp_case | eauto 3 with ok nocore | ok_auto]] ].

Lemma cases_reg_00_ok o : cases_ok (cases_reg_00 o).
Proof. unfold cases_reg_00. each_case data_case. Qed.
Lemma cases_reg_08_ok o : cases_ok (cases_reg_08 o).
Proof. unfold cases_reg_08. each_case data_case. Qed.
Lemma cases_reg_0c_ok o : cases_ok (cases_reg_0c o).
Proof. unfold cases_reg_0c. each_case data_case. Qed.
Lemma cases_reg_10_ok o : cases_ok (cases_reg_10 o).
Proof. unfold cases_reg_10. each_case data_case. Qed.
Lemma cases_reg_18_ok o : cases_ok (cases_reg_18 o).
Proof. unfold cases_reg_18. each_case data_case. Qed.
Lemma cases_imm_20_ok o : cases_ok (cases_imm_20 o).
Proof. unfold cases_imm_20. each_case data_case. Qed.
Lemma cases_imm_28_ok o : cases_ok (cases_imm_28 o).
Proof. unfold cases_imm_28. each_case data_case. Qed.
Lemma cases_imm_31_ok o : cases_ok (cases_imm_31 o).
Proof. unfold cases_imm_31. each_case data_case. Qed.
Lemma cases_imm_38_ok o : cases_ok (cases_imm_38 o).
Proof. unfold cases_imm_38. each_case data_case. Qed.
End data_cases.

(** * Transfers *)

Section transfers.
Context {S P : Type} `{!MemSys S P, !HostSys S P, !MemSysOk S P, !HostSysOk S P}.
Local Abbreviation BI := (base_inv (S:=S) (P:=P)).
Context (I : Mach S P → Prop) `{!Keeps I}.
Local Hint Extern 1 (base_inv _) => apply (k_base (I:=I)); assumption : w32.
Context (E : Mach S P → Prop) `{!Ends I E}.
Local Abbreviation cases_ok l := (List.Forall (λ c, fin I E (snd c)) l).
Implicit Types s : Mach S P.

Lemma ok_writeback o addr offset :
  w32 addr → ok I (ldrstr_writeback o addr offset).
Proof. intros Ha. unfold ldrstr_writeback. ok_auto. Qed.
Local Hint Extern 1 (ok _ (ldrstr_writeback _ _ _)) => apply ok_writeback; solve [wf] : ok.

Lemma w32_pre o addr offset : w32 addr → w32 (if flag_P o then add32 addr offset else addr).
Proof. auto with w32. Qed.
Local Hint Resolve w32_pre : w32.

Section stores.
Context (store : Z → Z → M (Mach S P) unit).
Context (Hstore : ∀ a v, w32 a → w32 v → ok I (store a v)).
Local Hint Extern 1 (ok _ (store _ _)) => apply Hstore; solve [wf] : ok.
Lemma ok_strt o : ok I (strt o store).
Proof. unfold strt. ok_auto. Qed.
Lemma ok_str o : ok I (str o store).
Proof. unfold str. ok_auto. Qed.
End stores.

Section loads.
Context (load : Z → M (Mach S P) Z) (rot : Z → Z → Z).
Context (Hload : ∀ a, w32 a → ok I (load a)).
Context (Hrot : ∀ d a, w32 d → w32 (rot d a)).
Local Hint Extern 1 (ok _ (load _)) => apply Hload; solve [wf] : ok.
Local Hint Resolve Hrot : w32.
Lemma ok_ldrt o : ok I (ldrt o load rot).
Proof. unfold ldrt. ok_auto. Qed.
Lemma ok_ldr o : ok I (ldr o load rot).
Proof. unfold ldr. ok_auto. Qed.
Lemma ok_ldr_half o : ok I (ldr_half o load).
Proof. unfold ldr_half. ok_auto. Qed.
End loads.

Ltac transfer := intros; ok_auto; wf.

Lemma ok_STRT o : ok I (STRT o). Proof. apply ok_strt. intros. apply ok_mem_user_write32; wf. Qed.
Lemma ok_STRBT o : ok I (STRBT o). Proof. apply ok_strt. intros. apply ok_mem_user_write8; wf. Qed.
Lemma ok_STR o : ok I (STR o). Proof. apply ok_str. intros. apply ok_mem_write32; wf. Qed.
Lemma ok_STRB o : ok I (STRB o). Proof. apply ok_str. intros. apply ok_mem_write8; wf. Qed.
Lemma ok_LDRT o : ok I (LDRT o).
Proof. apply ok_ldrt; intros; [apply ok_mem_user_read32; wf | wf]. Qed.
Lemma ok_LDRBT o : ok I (LDRBT o).
Proof. apply ok_ldrt; intros; [apply ok_mem_user_read8; wf | wf]. Qed.
Lemma ok_LDR o : ok I (LDR o).
Proof. apply ok_ldr; intros; [apply ok_mem_read32; wf | wf]. Qed.
Lemma ok_LDRB o : ok I (LDRB o).
Proof. apply ok_ldr; intros; [apply ok_mem_read8; wf | wf]. Qed.

Lemma fin_or_undefined o body : ok I body → fin I E (or_undefined o body).
Proof.
  intros H. unfold or_undefined.
  apply fin_if; [apply k_undefined | by apply fin_ok; [apply k_end|]].
Qed.

Local Hint Resolve ok_STRT ok_STRBT ok_STR ok_STRB ok_LDRT ok_LDRBT ok_LDR ok_LDRB : ok.
Ltac transfer_case :=
  first [ apply fin_or_undefined | apply fin_ok; [apply k_end|] ]; eauto 3 with ok nocore.

Lemma cases_user_ok o : cases_ok (cases_user o).
Proof. unfold cases_user. each_case transfer_case. Qed.
Lemma cases_word_ok o : cases_ok (cases_word o).
Proof. unfold cases_word. each_case transfer_case. Qed.
Lemma cases_byte_ok o : cases_ok (cases_byte o).
Proof. unfold cases_byte. each_case transfer_case. Qed.

Lemma ok_arm_strh o : ok I (arm_strh o).
Proof. unfold arm_strh. ok_auto. Qed.
Lemma ok_arm_ldrh o : ok I (arm_ldrh o).
Proof. apply ok_ldr_half. intros. ok_auto. Qed.
Lemma ok_arm_ldrsh o : ok I (arm_ldrsh o).
Proof. apply ok_ldr_half. intros. ok_auto. Qed.
Lemma ok_arm_ldrsb o : ok I (arm_ldrsb o).
Proof. apply ok_ldr_half. intros. ok_auto. Qed.

(** * Block transfers *)

Lemma ruser_w32 c s : BI s → w32 (ruser c s).
Proof.
  intros H. unfold ruser. destruct (usrregs s !!! c); [by apply rreg_w32 | apply w_user, H].
Qed.

Section store_multiple.
Context (read : Z → Mach S P → Z) (Hread : ∀ c s, BI s → w32 (read c s)).
Local Hint Resolve Hread : w32.

(** the register number and the address *)
Lemma ok_stm_first o l addr :
  w32 addr → Forall (λ c, 0 ≤ c < 15) l →
  hoare I (stm_first o addr read l) (λ r s, (0 ≤ fst r < 16 ∧ w32 (snd r)) ∧ I s).
Proof.
  intros Ha Hl. induction Hl as [|c l Hc Hl IH]; cbn; [by intros s Hs; cbn; repeat split; try lia; apply Ha || apply Hs|].
  destruct (in_list o c); [|done].
  apply hoare_gets_bind. intros v.
  eapply (hoare_bind _ _ _ (λ _, I)).
  - intros s [Hs <-]. apply (ok_hoare I); [|done]. apply (ok_mem_write32 I); [done|wf].
  - intros [] s Hs. cbn. split; [|done]. split; [lia | apply u32_w32].
Qed.

Lemma ok_stm_rest o l addr :
  w32 addr → ok I (stm_rest o addr read l).
Proof.
  revert addr. induction l as [|c l IH]; intros addr Ha; cbn; [by apply ok_ret|].
  assert (ok I (stm_rest o (add32 addr 4) read l)) by (apply IH; wf).
  pose proof (IH addr Ha). ok_auto.
Qed.

Lemma ok_store_multiple o address wb :
  w32 address → w32 wb → ok I (store_multiple read o address wb).
Proof.
  intros Ha Hw. unfold store_multiple, stm_data_abort. eapply ok_bind; [apply ok_gets; wf|].
  intros base Hbase. unfold val, val_Z in Hbase.
  apply hoare_unit. eapply hoare_bind; [apply ok_stm_first; [wf | by repeat constructor]|].
  intros [c addr]. cbn.
  intros s [[Hc Haddr] Hs]. revert s Hs. apply ok_hoare.
  pose proof (λ l, ok_stm_rest o l addr Haddr) as Hrest.
  ok_auto.
Qed.
End store_multiple.

Lemma ok_ldm_regs o write l addr :
  (∀ c v, 0 ≤ c < 15 → w32 v → ok I (write c v)) →
  w32 addr → Forall (λ c, 0 ≤ c < 15) l → ok I (ldm_regs o addr write l).
Proof.
  intros Hw Ha Hl. revert addr Ha.
  induction Hl as [|c l Hc Hl IH]; intros addr Ha; cbn; [by apply ok_ret|].
  assert (ok I (ldm_regs o (add32 addr 4) write l)) by (apply IH; wf).
  pose proof (IH addr Ha). pose proof (λ v, Hw c v Hc). ok_auto.
Qed.

Lemma ok_ldm_end o base wb m :
  w32 base → w32 wb → ok I m → ok I (ldm_end o base wb m).
Proof.
  intros Hb Hw Hm. unfold ldm_end, ldm_data_abort.
  eapply ok_bind; [exact Hm|]. intros [u|] _; ok_auto.
Qed.

Lemma regs_below_15 : Forall (λ c, 0 ≤ c < 15) (seqZ 0 15).
Proof. by repeat constructor. Qed.

Lemma ok_ldm_wreg o addr : w32 addr → ok I (ldm_regs o addr wreg (seqZ 0 15)).
Proof. intros Ha. apply ok_ldm_regs; [|done|apply regs_below_15]. intros. apply k_wreg; wf. Qed.
Lemma ok_ldm_wuser o addr : w32 addr → ok I (ldm_regs o addr wuser (seqZ 0 15)).
Proof. intros Ha. apply ok_ldm_regs; [|done|apply regs_below_15]. intros. by apply k_wuser. Qed.

Lemma ok_arm_load_multiple o address wb :
  w32 address → w32 wb → ok I (arm_load_multiple o address wb).
Proof.
  intros Ha Hw. unfold arm_load_multiple. eapply ok_bind; [apply ok_gets; wf|].
  intros base Hbase. eapply ok_bind; [ok_auto|]. intros _ _.
  apply ok_ldm_end; [done|done|].
  assert (w32 (address .&~ 3)) as Ha' by wf. pose proof (ok_ldm_wreg o _ Ha'). ok_auto.
Qed.

Lemma ok_arm_load_multiple_s o address wb :
  w32 address → w32 wb → ok I (arm_load_multiple_s o address wb).
Proof.
  intros Ha Hw. unfold arm_load_multiple_s. eapply ok_bind; [apply ok_gets; wf|].
  intros base Hbase. eapply ok_bind; [ok_auto|]. intros _ _.
  apply ok_ldm_end; [done|done|].
  assert (w32 (address .&~ 3)) as Ha' by wf. pose proof (ok_ldm_wreg o _ Ha').
  pose proof (ok_ldm_wuser o _ Ha'). ok_auto.
Qed.

Section block_address.
Context (op : Z → Z → Z → M (Mach S P) unit).
Context (Hop : ∀ o a w, w32 a → w32 w → ok I (op o a w)).

Lemma ok_block_down o : ok I (block_down o op).
Proof.
  unfold block_down. eapply ok_bind; [apply ok_gets; wf|]. intros base Hb. cbv zeta.
  apply Hop; wf.
Qed.
Lemma ok_block_up o : ok I (block_up o op).
Proof.
  unfold block_up. eapply ok_bind; [apply ok_gets; wf|]. intros base Hb. cbv zeta.
  apply Hop; wf.
Qed.
End block_address.

Lemma ok_arm_store_multiple o a w : w32 a → w32 w → ok I (arm_store_multiple o a w).
Proof. apply ok_store_multiple. intros. wf. Qed.
Lemma ok_arm_store_multiple_s o a w : w32 a → w32 w → ok I (arm_store_multiple_s o a w).
Proof. apply ok_store_multiple. intros. by apply ruser_w32. Qed.

Local Hint Resolve ok_block_down ok_block_up ok_arm_store_multiple ok_arm_store_multiple_s
  ok_arm_load_multiple ok_arm_load_multiple_s : ok.

Lemma cases_stm_ok o : cases_ok (cases_stm o).
Proof. unfold cases_stm. each_case transfer_case. Qed.
Lemma cases_ldm_ok o : cases_ok (cases_ldm o).
Proof. unfold cases_ldm. each_case transfer_case. Qed.
End transfers.
#[export] Hint Resolve ok_arm_strh ok_arm_ldrh ok_arm_ldrsh ok_arm_ldrsb : ok.

(** * The switch, coprocessors and SWIs apart *)

(** [case 0x00] to [case 0xbf] *)
Definition core_cases {S P} `{!MemSys S P, !HostSys S P} (opcode : Z)
    : list (list Z * M (Mach S P) unit) :=
  cases_reg_00 opcode ++ cases_reg_08 opcode ++ cases_reg_0c opcode ++
  cases_reg_10 opcode ++ cases_reg_18 opcode ++
  cases_imm_20 opcode ++ cases_imm_28 opcode ++ cases_imm_31 opcode ++
  cases_imm_38 opcode ++
  cases_user opcode ++ cases_word opcode ++ cases_byte opcode ++
  cases_stm opcode ++ cases_ldm opcode ++ cases_branch opcode.

Lemma all_cases_split {S P} `{!MemSys S P, !HostSys S P} o :
  all_cases (S:=S) (P:=P) o = core_cases o ++ cases_copro o.
Proof. unfold all_cases, core_cases. by rewrite <- !app_assoc. Qed.

Lemma labels_above n (l : list Z) x : x < n → forallb (Z.leb n) l = true → ¬ List.In x l.
Proof.
  intros Hx Hl Hi. rewrite forallb_forall in Hl. specialize (Hl x Hi). apply Z.leb_le in Hl. lia.
Qed.

Section common.
Context {S P : Type} `{!MemSys S P, !HostSys S P, !MemSysOk S P, !HostSysOk S P}.
Context (I : Mach S P → Prop) `{!Keeps I}.
Local Hint Extern 1 (base_inv _) => apply (k_base (I:=I)); assumption : w32.
Context (E : Mach S P → Prop) `{!Ends I E}.
Local Abbreviation cases_ok l := (List.Forall (λ c, fin I E (snd c)) l).

Lemma ok_branch o : ok I (branch o).
Proof. unfold branch. ok_auto. Qed.
Lemma ok_branch_link o : ok I (branch_link o).
Proof. pose proof (ok_branch o). unfold branch_link. ok_auto. Qed.
Local Hint Resolve ok_branch ok_branch_link : ok.

Lemma cases_branch_ok o : cases_ok (cases_branch o).
Proof. unfold cases_branch. each_case ltac:(apply fin_ok; [apply k_end|eauto 3 with ok nocore]). Qed.

Lemma core_cases_ok o : cases_ok (core_cases o).
Proof.
  unfold core_cases. repeat (apply List.Forall_app; split);
    [ apply cases_reg_00_ok | apply cases_reg_08_ok | apply cases_reg_0c_ok | apply cases_reg_10_ok
    | apply cases_reg_18_ok | apply cases_imm_20_ok | apply cases_imm_28_ok | apply cases_imm_31_ok
    | apply cases_imm_38_ok | apply cases_user_ok | apply cases_word_ok | apply cases_byte_ok
    | apply cases_stm_ok | apply cases_ldm_ok | apply cases_branch_ok ]; typeclasses eauto.
Qed.

(** An instruction whose bits 20-27 are below 0xc0. *)
Lemma fin_execute_core o : (o .>> 20) .& 0xff < 0xc0 → fin I E (execute o).
Proof.
  intros Hk. unfold execute. apply fin_bind_any. intros v4.
  repeat (match goal with |- fin _ _ (if _ then _ else _) => apply fin_if end);
    try (apply fin_ok; [apply k_end | solve [eauto 3 with ok nocore]]).
  unfold execute_switch. rewrite (all_cases_split (S:=S) (P:=P)), switch_app.
  apply (switch_ind (fin I E)); [apply core_cases_ok|].
  rewrite switch_none; [apply fin_undef_unpred; typeclasses eauto|].
  unfold cases_copro. repeat (apply List.Forall_cons; [cbn [fst]|]); [.. | apply List.Forall_nil].
  all: apply not_true_iff_false; rewrite existsb_exists; intros (x & Hx & Heq%Z.eqb_eq); subst x.
  all: revert Hx; apply (labels_above 0xc0); [done | by vm_compute].
Qed.
End common.

(** * The core's invariant is kept *)

Section core.
Context {S P : Type} `{!MemSys S P, !HostSys S P, !MemSysOk S P, !HostSysOk S P}.
Local Abbreviation CI := (core_inv (S:=S) (P:=P)).
Implicit Types s : Mach S P.

Lemma ok_unpredictable o : ok CI (arm_unpredictable o).
Proof.
  apply ok_modify. intros s H. destruct (_ =? _); [done|].
  destruct H as [[] Hp]. by split; [split|].
Qed.

Lemma ok_wuser c v : 0 ≤ c < 15 → w32 v → ok CI (wuser c v).
Proof.
  intros Hc Hv. unfold wuser.
  eapply (ok_bind_gets _ _ (λ u, u = InReg c ∨ u = InUser c)).
  - intros s [Hb _]. rewrite (bi_usr _ Hb) by lia. unfold usr_ref.
    repeat case_match; auto.
    all: apply Z.eqb_eq in H; lia.
  - intros u [-> | ->]; [apply ok_wreg; wf|].
    apply ok_modify. intros s H. apply core_set_arm; try done.
    apply words_set_user; [apply H | done].
Qed.

Lemma ok_mrs_cpsr o : ok CI (mrs_cpsr o).
Proof.
  unfold mrs_cpsr. apply ok_bind_state. intros md.
  apply (hoare_bind _ _ _ (λ _, CI)).
  - destruct (ARM_MODE_32 md) eqn:E; cbn [negb when]; [by intros s []|].
    apply hoare_gets_bind. intros r15 s [[[Hb Hp] <-] <-]. run_simpl.
    assert (base_inv (upd_arm (put_reg 16 ((reg (arm s) !!! 15 .& 0xf0000000) .| (reg (arm s) !!! 15 .& 3)))
      s)) as Hb1 by (apply base_put_reg; [done|]; pose proof (rreg_w32 15 s Hb); auto with w32).
    rewrite arr_same. split.
    + apply base_put_reg; [done|]. pose proof (rreg_w32 15 s Hb) as H15. cbn in H15.
      auto 8 with w32.
    + intros E'. cbn in E'. by rewrite E in E'.
  - intros []. change (ok CI (r16 ← gets (rreg 16); wreg (RD o) r16)). eapply ok_bind; [apply ok_gets; wf|]. intros r16 H16.
    apply ok_wreg; wf.
Qed.

#[export] Instance keeps_core : Keeps CI.
Proof.
  split.
  - apply core_base.
  - intros. by apply ok_wreg.
  - apply ok_wpsr.
  - apply ok_arm_write_spsr.
  - apply ok_wuser.
  - intros. by apply ok_zoom.
  - intros. by apply ok_user_privilege.
  - apply ok_arm_write_r15.
  - apply ok_arm_compare_rd15.
  - apply ok_arm_write_cpsr.
  - apply ok_mrs_cpsr.
  - apply ok_unpredictable.
Qed.

#[export] Instance ends_core : Ends CI CI.
Proof. split; [done | apply ok_undefined]. Qed.
End core.

(** * SWIs, branches, coprocessors, and the loop *)

Section exec.
Context {S P : Type} `{!MemSys S P, !HostSys S P, !MemSysOk S P, !HostSysOk S P}.
Local Abbreviation BI := (base_inv (S:=S) (P:=P)).
Local Abbreviation CI := (core_inv (S:=S) (P:=P)).
Local Abbreviation cases_ok l := (List.Forall (λ c, fin CI CI (snd c)) l).
Implicit Types s : Mach S P.

Local Hint Resolve fpaopcode_ok osword_21_0_ok osword_21_1_ok osword_21_3_ok osword_21_4_ok
  osmouse_ok osbyte_106_ok hostfs_ok hostcmd_ok network_swi_ok clipboard_swi_ok : ok.
Local Hint Extern 1 (ok _ (hook _)) =>
  apply ok_hook; intros; first [ apply break_swi_ok | apply swi_hook_ok | apply poweroff_ok
    | apply idle_ok | apply hostfs_activity_ok | apply network_activity_ok
    | apply after_instruction_ok ] : ok.
Local Hint Extern 1 (ok _ (hook_ask _)) =>
  apply ok_hook_ask; intros; first [ apply accel_swi_ok | apply instruction_hook_ok ] : ok.
Local Hint Extern 1 (ok _ (exception _ _ _)) =>
  apply ok_exception; [vm_compute; intuition discriminate | unfold w32; lia] : ok.

Lemma ok_osword_21_byte n k : ok CI (osword_21_byte n k).
Proof. unfold osword_21_byte. ok_auto. Qed.
Local Hint Resolve ok_osword_21_byte : ok.

Lemma ok_put_results op :
  (∀ args, ok CI (op args)) → ok CI (put_results op).
Proof.
  intros Hop. unfold put_results. apply ok_bind_any. intros args.
  eapply ok_bind; [apply Hop|]. intros [r0 r1] [H0 H1]. cbn in H0, H1.
  eapply ok_bind; [apply ok_wreg; wf|]. intros _ _. apply ok_wreg; wf.
Qed.
Local Hint Resolve ok_put_results : ok.

Lemma ok_realswi n : ok CI (realswi n).
Proof. unfold realswi. ok_auto. Qed.
Local Hint Resolve ok_realswi : ok.

Lemma ok_swi_dispatch n : ok CI (swi_dispatch n).
Proof. unfold swi_dispatch. ok_auto. Qed.
Local Hint Resolve ok_swi_dispatch : ok.

Lemma ok_opSWI o : ok CI (opSWI o).
Proof.
  assert (w32 (Z.shiftl 1 4)) by by vm_compute.
  unfold opSWI. apply ok_bind_any. intros n. ok_auto.
Qed.

Lemma ok_cp15_read o : ok CI (cp15_read o).
Proof.
  intros s Hs. unfold cp15_read, sys_zoom, zoom.
  destruct (ms_cp15_read o (sys s)) as [[v s']|] eqn:E; [|done].
  apply ms_cp15_read_ok in E as [Hv Hp]. split; [done | by apply core_set_sys].
Qed.

Lemma ok_cp15_write o v : w32 v → ok CI (cp15_write o v).
Proof.
  intros Hv s Hs. unfold cp15_write, sys_zoom, zoom, gets, mbind, M_bind. cbv beta iota.
  destruct (ms_cp15_write o v (mode (arm s)) (sys s)) as [[eff s']|] eqn:E; [|done].
  apply ms_cp15_write_ok in E as [Hp He]; [|done].
  assert (CI (set_sys s' s)) as Hc by by apply core_set_sys.
  destruct eff as [|m|]; [by split| |].
  - apply ok_updatemode_26; [|done]. subst m.
    change 0xf with (Z.ones 4). rewrite Z.land_ones by done. by apply Z.mod_pos_bound.
  - split; [done|]. destruct Hc as [[] ?]. by split; [split|].
Qed.
Local Hint Resolve ok_cp15_read ok_opSWI : ok.
Local Hint Extern 1 (ok _ (cp15_write _ _)) => apply ok_cp15_write; solve [wf] : ok.

Lemma ok_copro o : ok CI (copro o).
Proof. unfold copro. ok_auto. Qed.
Lemma ok_mcr o : ok CI (mcr o).
Proof. unfold mcr. ok_auto. Qed.
Lemma ok_mrc o : ok CI (mrc o).
Proof. unfold mrc. ok_auto. Qed.
Local Hint Resolve ok_copro ok_mcr ok_mrc : ok.

Lemma cases_copro_ok o : cases_ok (cases_copro o).
Proof. unfold cases_copro. each_case ltac:(apply fin_ok; [done|eauto 3 with ok nocore]). Qed.

Lemma ok_execute_switch o : ok CI (execute_switch o).
Proof.
  unfold execute_switch. rewrite (all_cases_split (S:=S) (P:=P)).
  apply (switch_ind (fin CI CI)); [|apply fin_undef_unpred; typeclasses eauto].
  apply List.Forall_app; split; [apply core_cases_ok; typeclasses eauto | apply cases_copro_ok].
Qed.

Lemma ok_execute o : ok CI (execute o).
Proof. pose proof (ok_execute_switch o). unfold execute. ok_auto. Qed.

Lemma ok_advance : ok CI advance.
Proof. unfold advance. ok_auto. Qed.

Lemma ok_check_events : ok CI check_events.
Proof.
  unfold check_events. eapply ok_bind; [apply ok_gets; wf|]. intros ev Hev.
  apply ok_when. intros _. apply ok_bind_state. intros md.
  apply (hoare_bind _ _ _ (λ _, CI)).
  - destruct (ARM_MODE_32 md) eqn:E; cbn [negb when]; [by intros s []|].
    intros s [[Hb Hp] <-]. run_simpl. rewrite arr_same, arr_other by done.
    pose proof (rreg_w32 15 s Hb) as H15. pose proof (rreg_w32 16 s Hb) as H16. cbn in H15, H16.
    split; [|intros E'; cbn in E'; by rewrite E in E'].
    do 2 (apply base_put_reg; [|auto 8 with w32]). done.
  - intros []. change (ok CI (r16 ← gets (rreg 16);
     if nz (ev .& 0x40) then
       exception ABORT 0x14 0;;
       modify (upd_arm (λ a, set_event (event a .&~ 0x40) a))
     else if nz (ev .& 2) && negb (nz (r16 .& 0x40)) then exception FIQ 0x20 0
     else if nz (ev .& 1) && negb (nz (r16 .& 0x80)) then exception IRQ 0x1c 0
     else mret tt)).
    ok_auto. apply ok_modify. intros s Hs. apply core_set_arm; try done.
    apply words_set_event; [apply Hs|]. apply w32_ldiff, event_w32, Hs.
Qed.

Lemma core_set_pccache v s : CI s → CI (set_pccache v s).
Proof. intros [[] ?]. by split; [split|]. Qed.
Lemma core_set_pccache2 v s : CI s → CI (set_pccache2 v s).
Proof. intros [[] ?]. by split; [split|]. Qed.

Lemma ok_fetch :
  hoare CI fetch (λ _, CI).
Proof.
  unfold fetch. apply hoare_gets_bind. intros pc. apply hoare_gets_bind. intros pcc.
  apply (hoare_bind _ _ _ (λ _, CI)).
  - destruct (negb _); [|by intros s [[? _] _]].
    intros s [[Hs <-] _]. pose proof (core_set_pccache (PC s .>> 12) s Hs) as Hs1.
    unfold mem_zoom, zoom, modify, mbind, M_bind. cbv beta iota.
    destruct (ms_getpccache _ _) as [[p [e' s']]|] eqn:E; [|done].
    apply ms_getpccache_ok in E as (_ & He & Hp); [|apply PC_w32, Hs|eapply event_w32, Hs1].
    cbv beta iota. apply core_set_pccache2, core_set_sys; [|exact Hp].
    apply core_set_arm; try done. apply words_set_event; [apply Hs1 | done].
  - intros _. apply hoare_gets_bind. intros [p|] s [Hs _]; exact Hs.
Qed.

Lemma ok_step : ok CI step.
Proof.
  unfold step. eapply hoare_bind; [apply ok_fetch|]. intros [o|].
  - pose proof (ok_execute o). pose proof ok_check_events. pose proof ok_advance.
    change (ok CI (active ← gets (λ s, debugger_hook_active (P:=P) (sys s));
      stop ← (if (active : bool)
              then hook_ask (λ s, debugger_instruction_hook (P:=P) (PC s) o (sys s))
              else mret false);
      if (stop : bool) then mret true else
      go ← gets (condition o);
      when (go : bool) (execute o);;
      active ← gets (λ s, debugger_hook_active (P:=P) (sys s));
      when (active : bool) (hook (λ s, debugger_after_instruction (P:=P) (PC s) o (sys s)));;
      check_events;;
      advance;; mret false)).
    ok_auto.
  - pose proof ok_advance.
    apply (hoare_modify_bind _ CI); [intros s Hs; by apply core_set_pccache|].
    change (ok CI (exception ABORT 0x10 4;; advance;; mret false)). ok_auto.
Qed.

Lemma ok_arm_exec_from n c : hoare CI (arm_exec_from n c) (λ _, CI).
Proof.
  revert c. induction n as [|n IH]; intros c; cbn.
  - intros s [[] ?]. by split; [split|].
  - eapply hoare_bind; [apply ok_hoare, ok_step|]. intros [].
    + by intros s Hs.
    + apply IH.
Qed.
End exec.
