(* ===== verification/ArmDataSpec.v ===== *)
(** What the data-processing instructions compute: the sixteen ALU operations
    and their flags as the architecture describes them, on integers, and the
    proof that the cases of [arm_exec] do exactly that. *)

From S2P Require Export ArmInvExec.

(** * The architecture's description *)

(** Operation [op] of the opcode field on two operands and the carry. *)
Definition alu (op l r : Z) (c : bool) : Z :=
  match op with
  | 0 | 8 => l .& r                       (* AND, TST *)
  | 1 | 9 => l .^ r                       (* EOR, TEQ *)
  | 2 | 10 => u32 (l - r)                 (* SUB, CMP *)
  | 3 => u32 (r - l)                      (* RSB *)
  | 4 | 11 => u32 (l + r)                 (* ADD, CMN *)
  | 5 => u32 (l + r + Z.b2z c)            (* ADC *)
  | 6 => u32 (l - r - (1 - Z.b2z c))      (* SBC *)
  | 7 => u32 (r - l - (1 - Z.b2z c))      (* RSC *)
  | 12 => l .| r                          (* ORR *)
  | 13 => r                               (* MOV *)
  | 14 => l .&~ r                         (* BIC *)
  | _ => not32 r                          (* MVN *)
  end.

(** The flags it sets, given the shifter's carry-out and the old V. *)
Definition alu_nzcv (op l r : Z) (c shc v : bool) : Z :=
  match op with
  | 2 | 10 => sub_nzcv l r 1
  | 3 => sub_nzcv r l 1
  | 4 | 11 => add_nzcv l r 0
  | 5 => add_nzcv l r (Z.b2z c)
  | 6 => sub_nzcv l r (Z.b2z c)
  | 7 => sub_nzcv r l (Z.b2z c)
  | _ => let res := alu op l r c in nzcv (s32 res <? 0) (res =? 0) shc v
  end.

(** TST, TEQ, CMP and CMN write no register. *)
Definition alu_writes (op : Z) : bool := negb ((8 <=? op) && (op <=? 11)).

(** An immediate operand and its carry-out. *)
Definition imm_operand (o : Z) (c : bool) : Z * bool :=
  let rot := 2 * ((o .>> 8) .& 0xf) in
  let v := rotate_right32 (o .& 0xff) rot in
  (v, if rot =? 0 then c else Z.testbit v 31).

Section spec.
Context {S P : Type}.
Implicit Types m : Mach S P.

Definition vf m : bool := nz (psr m .& VFLAG).
Definition put_psr (p : Z) m : Mach S P := upd_arm (put_reg (cpsr m) p) m.

(** The state after the instruction whose bits 20 to 27 are [k], for a
    destination other than R15. *)
Definition dp_result (k o : Z) m : Mach S P :=
  let op := (k .>> 1) .& 0xf in
  let '(r, shc) := if Z.testbit k 5 then imm_operand o (cf m) else operand2 o m in
  let l := GETADDR (RN o) m in
  let m1 := if Z.testbit k 0
            then put_psr ((psr m .& 0x0fffffff) .| alu_nzcv op l r (cf m) shc (vf m)) m
            else m in
  if alu_writes op then upd_arm (put_reg (RD o) (alu op l r (cf m))) m1 else m1.

(** The encodings: an ALU operation, neither a multiply or halfword transfer
    nor a PSR transfer. *)
Definition is_dp (k o : Z) : bool :=
  (0 <=? k) && (k <? 0x40) &&
  (Z.testbit k 5 || negb (o .& 0x90 =? 0x90)) &&
  (alu_writes ((k .>> 1) .& 0xf) || Z.testbit k 0).
End spec.

(** * Helper lemmas *)

Section states.
Context {S P : Type}.
Implicit Types m : Mach S P.

Lemma put_reg_comm i j x y m :
  i ≠ j →
  upd_arm (put_reg i x) (upd_arm (put_reg j y) m) =
  upd_arm (put_reg j y) (upd_arm (put_reg i x) m).
Proof. intros H. unfold upd_arm, put_reg. cbn. by rewrite insert_insert_ne. Qed.

Lemma put_reg_twice i x y m :
  upd_arm (put_reg i x) (upd_arm (put_reg i y) m) = upd_arm (put_reg i x) m.
Proof. unfold upd_arm, put_reg. cbn. by rewrite insert_insert_eq. Qed.

Lemma psr_put_psr p m : psr (put_psr p m) = p.
Proof. unfold psr, put_psr. cbn. apply arr_same. Qed.

Lemma psr_put_reg_ne r v m : r ≠ cpsr m → psr (upd_arm (put_reg r v) m) = psr m.
Proof. intros H. unfold psr. cbn. by apply arr_other. Qed.

Lemma put_psr_reg p r v m :
  r ≠ cpsr m → put_psr p (upd_arm (put_reg r v) m) = upd_arm (put_reg r v) (put_psr p m).
Proof. intros H. unfold put_psr. cbn [cpsr upd_arm set_arm]. by rewrite put_reg_comm. Qed.

Lemma carry_upd_psr oc m :
  carry_upd oc m = match oc with
                   | Some c => put_psr (if c then psr m .| CFLAG else psr m .&~ CFLAG) m
                   | None => m
                   end.
Proof. by destruct oc. Qed.

Lemma put_psr_carry p oc m : put_psr p (carry_upd oc m) = put_psr p m.
Proof. destruct oc as [c|]; [|done]. unfold carry_upd, put_psr. cbn. apply put_reg_twice. Qed.

Lemma cpsr_carry oc m : cpsr (carry_upd oc m) = cpsr m.
Proof. by destruct oc. Qed.

Lemma merge_flags_run keep flags m :
  merge_flags keep flags m = Some (tt, put_psr ((psr m .& keep) .| flags) m).
Proof. reflexivity. Qed.
End states.

Lemma flag_bit p n : 0 ≤ n → p .& 2 ^ n = if Z.testbit p n then 2 ^ n else 0.
Proof.
  intros Hn. pose proof (nz_mask_bit p n Hn) as H. unfold nz in H.
  destruct (Z.testbit p n) eqn:E; [|by apply negb_false_iff, Z.eqb_eq in H].
  apply Z.bits_inj'. intros i Hi. rewrite Z.land_spec.
  destruct (Z.eq_dec n i) as [<-|Hne].
  - by rewrite E, Z.pow2_bits_true.
  - by rewrite Z.pow2_bits_false, andb_false_r.
Qed.

(** The two merges of a logical operation, seen as one write of N, Z, C, V. *)
Lemma logical_merge p n z oc :
  w32 p →
  let p' := match oc with Some c => if (c : bool) then p .| CFLAG else p .&~ CFLAG | None => p end in
  (p' .& 0x3fffffff) .| nzcv n z false false =
  (p .& 0x0fffffff) .| nzcv n z (default (nz (p .& CFLAG)) oc) (nz (p .& VFLAG)).
Proof.
  intros Hp p'.
  assert (∀ b, nzcv n z b (nz (p .& VFLAG)) =
    nzcv n z false false .| (if b then CFLAG else 0) .| (p .& VFLAG)) as Hv.
  { intros b. change VFLAG with (2 ^ 28). rewrite (nz_mask_bit p 28), flag_bit by done.
    by destruct n, z, b, (Z.testbit p 28). }
  rewrite Hv. generalize (nzcv_w32 n z false false). generalize (nzcv n z false false) as x.
  intros x Hx. subst p'. unfold CFLAG, VFLAG. destruct oc as [[]|]; cbn [default from_option id].
  - bit32.
  - bit32.
  - replace (if nz (p .& 0x20000000) then 0x20000000 else 0) with (p .& 0x20000000); [bit32|].
    change 0x20000000 with (2 ^ 29). rewrite (nz_mask_bit p 29) by done. by apply flag_bit.
Qed.

Lemma imm_rot o : shl32 ((o .>> 8) .& 0xf) 1 = 2 * ((o .>> 8) .& 0xf).
Proof.
  change 0xf with (Z.ones 4). rewrite Z.land_ones by done.
  pose proof (Z.mod_pos_bound (o .>> 8) (2 ^ 4) eq_refl).
  unfold shl32. rewrite Z.shiftl_mul_pow2 by done. rewrite u32_id; [lia|].
  unfold w32. change (2 ^ 4) with 16 in *. lia.
Qed.

Lemma arm_imm_operand o c : fst (imm_operand o c) = arm_imm o.
Proof. unfold imm_operand, arm_imm. by rewrite imm_rot. Qed.

Lemma imm_rot_zero o : nz (o .& 0xf00) = negb (2 * ((o .>> 8) .& 0xf) =? 0).
Proof.
  unfold nz. f_equal.
  replace (o .& 0xf00) with (Z.shiftl ((o .>> 8) .& 0xf) 8).
  - rewrite Z.shiftl_mul_pow2 by done. apply eq_true_iff_eq. rewrite !Z.eqb_eq. lia.
  - apply Z.bits_inj'. intros i Hi. rewrite Z.shiftl_spec by done.
    change 0xf00 with (Z.shiftl 0xf 8). rewrite !Z.land_spec, (Z.shiftl_spec 0xf) by done.
    destruct (Z.lt_ge_cases i 8).
    + rewrite !(Z.testbit_neg_r _ (i - 8)) by lia. btauto.
    + rewrite Z.shiftr_spec by lia. do 2 f_equal. lia.
Qed.

(** * The shapes of ArmData.v, run *)

Section shapes.
Context {S P : Type} `{!MemSys S P, !HostSys S P}.
Context (o : Z) (m : Mach S P) (Hinv : core_inv m) (Hrd : RD o ≠ 15).

Let l := GETADDR (RN o) m.

Lemma rd_ne_cpsr : RD o ≠ cpsr m.
Proof.
  rewrite (bi_cpsr _ (proj1 Hinv)). unfold psr_index. pose proof (RD_range o).
  destruct (ARM_MODE_32 _); lia.
Qed.

Lemma arm_write_dest_run d : arm_write_dest o d m = Some (tt, upd_arm (put_reg (RD o) d) m).
Proof. unfold arm_write_dest. cbv zeta. by rewrite (proj2 (Z.eqb_neq _ _) Hrd). Qed.

Lemma dp_dest_run rhs f :
  dp_dest o rhs f m = Some (tt, upd_arm (put_reg (RD o) (f l (rhs m) (CFSET m))) m).
Proof. unfold dp_dest, gets, mbind, M_bind. apply arm_write_dest_run. Qed.

Lemma dp_arith_s_run rhs f flags F :
  (flags l (rhs m) (f l (rhs m) (CFSET m)) m =
    Some (tt, put_psr ((psr m .& 0x0fffffff) .| F) m)) →
  dp_arith_s o rhs f flags m =
    Some (tt, upd_arm (put_reg (RD o) (f l (rhs m) (CFSET m)))
                (put_psr ((psr m .& 0x0fffffff) .| F) m)).
Proof.
  intros Hf. unfold dp_arith_s, gets, mbind, M_bind. cbv beta iota.
  rewrite (proj2 (Z.eqb_neq _ _) Hrd). fold l. by rewrite Hf.
Qed.

Lemma dp_compare_run rhs f flags F :
  (flags l (rhs m) (f l (rhs m)) m = Some (tt, put_psr ((psr m .& 0x0fffffff) .| F) m)) →
  dp_compare o rhs f flags m = Some (tt, put_psr ((psr m .& 0x0fffffff) .| F) m).
Proof.
  intros Hf. unfold dp_compare, gets, mbind, M_bind. cbv beta iota zeta.
  rewrite (proj2 (Z.eqb_neq _ _) Hrd). fold l. exact Hf.
Qed.

(** The logical operations, given what the operand leaves in C. *)
Section logical.
Context (rhs : Mach S P → Z) (rhs_c : M (Mach S P) Z) (oc : option bool).
Context (Hc : rhs_c m = Some (rhs m, carry_upd oc m)).
Let shc := default (cf m) oc.

Lemma logical_flags_state res :
  w32 res →
  put_psr ((psr (carry_upd oc m) .& 0x3fffffff) .| flags_nz res) (carry_upd oc m) =
  put_psr ((psr m .& 0x0fffffff) .| nzcv (s32 res <? 0) (res =? 0) shc (vf m)) m.
Proof.
  intros Hres. rewrite put_psr_carry, flags_nz_spec by done. f_equal.
  assert (w32 (psr m)) as Hp by (apply psr_w32; apply Hinv).
  rewrite <- (logical_merge (psr m) _ _ oc Hp).
  by destruct oc; rewrite carry_upd_psr, ?psr_put_psr.
Qed.

Lemma logical_flags_run res :
  w32 res →
  arm_flags_logical res (carry_upd oc m) =
  Some (tt, put_psr ((psr m .& 0x0fffffff) .|
              nzcv (s32 res <? 0) (res =? 0) shc (vf m)) m).
Proof.
  intros Hres. unfold arm_flags_logical. by rewrite merge_flags_run, logical_flags_state.
Qed.

Lemma logical_flags_after res :
  w32 res →
  arm_flags_logical res (upd_arm (put_reg (RD o) res) (carry_upd oc m)) =
  Some (tt, upd_arm (put_reg (RD o) res) (put_psr ((psr m .& 0x0fffffff) .|
              nzcv (s32 res <? 0) (res =? 0) shc (vf m)) m)).
Proof.
  intros Hres. unfold arm_flags_logical. rewrite merge_flags_run.
  rewrite psr_put_reg_ne, put_psr_reg by (rewrite cpsr_carry; apply rd_ne_cpsr).
  by rewrite logical_flags_state.
Qed.

Lemma dp_test_run f :
  w32 (f l (rhs m)) →
  dp_test o rhs rhs_c f m =
  Some (tt, put_psr ((psr m .& 0x0fffffff) .|
    nzcv (s32 (f l (rhs m)) <? 0) (f l (rhs m) =? 0) shc (vf m)) m).
Proof.
  intros Hw. unfold dp_test, gets, mbind, M_bind. cbv beta iota.
  rewrite (proj2 (Z.eqb_neq _ _) Hrd), Hc. fold l. by apply logical_flags_run.
Qed.

Lemma dp_logical_s_run f :
  w32 (f l (rhs m)) →
  dp_logical_s o rhs rhs_c f m =
  Some (tt, upd_arm (put_reg (RD o) (f l (rhs m))) (put_psr ((psr m .& 0x0fffffff) .|
    nzcv (s32 (f l (rhs m)) <? 0) (f l (rhs m) =? 0) shc (vf m)) m)).
Proof.
  intros Hw. unfold dp_logical_s, gets, mbind, M_bind. cbv beta iota zeta.
  rewrite (proj2 (Z.eqb_neq _ _) Hrd), Hc. fold l. by apply logical_flags_after.
Qed.

Lemma dp_move_s_run f :
  w32 (f (rhs m)) →
  dp_move_s o rhs rhs_c f m =
  Some (tt, upd_arm (put_reg (RD o) (f (rhs m))) (put_psr ((psr m .& 0x0fffffff) .|
    nzcv (s32 (f (rhs m)) <? 0) (f (rhs m) =? 0) shc (vf m)) m)).
Proof.
  intros Hw. unfold dp_move_s, mbind, M_bind. cbv beta iota zeta.
  rewrite (proj2 (Z.eqb_neq _ _) Hrd), Hc. cbv beta iota.
  unfold wreg, modify, gets. cbv beta iota. unfold rreg.
  cbn [arm upd_arm set_arm reg put_reg set_reg]. rewrite arr_same.
  by apply logical_flags_after.
Qed.
End logical.

Lemma arm_imm_cflag_run :
  ∃ oc, arm_imm_cflag o m = Some (imm o m, carry_upd oc m) ∧
        default (cf m) oc = snd (imm_operand o (cf m)).
Proof.
  unfold arm_imm_cflag, imm_operand. cbv zeta. rewrite imm_rot_zero, <- imm_rot.
  change (rotate_right32 (o .& 0xff) _) with (arm_imm o). rewrite <- nz_bit31.
  destruct (shl32 ((o .>> 8) .& 0xf) 1 =? 0); cbn [negb when snd].
  - by exists None.
  - by exists (Some (nz (arm_imm o .& 0x80000000))).
Qed.
End shapes.

(** * The sixteen operations *)

Section operations.
Context {S P : Type} `{!MemSys S P, !HostSys S P}.
Context (o : Z) (m : Mach S P) (Hinv : core_inv m) (Hrd : RD o ≠ 15).
Context (rhs : Mach S P → Z) (rhs_c : M (Mach S P) Z) (oc : option bool).
Context (Hc : rhs_c m = Some (rhs m, carry_upd oc m)) (Hr : w32 (rhs m)).

Let l := GETADDR (RN o) m.
Let r := rhs m.
Let c := cf m.
Let shc := default c oc.

(** [dp_result] for this operand. *)
Definition dp_operand_result (k : Z) : Mach S P :=
  let op := (k .>> 1) .& 0xf in
  let m1 := if Z.testbit k 0
            then put_psr ((psr m .& 0x0fffffff) .| alu_nzcv op l r c shc (vf m)) m
            else m in
  if alu_writes op then upd_arm (put_reg (RD o) (alu op l r c)) m1 else m1.

Lemma l_w32 : w32 l.
Proof. by apply GETADDR_w32, Hinv. Qed.
Lemma c_range : 0 ≤ Z.b2z c ≤ 1.
Proof. by destruct c. Qed.
Lemma sbc32_b2z x y : sbc32 x y (CFSET m) = u32 (x - y - (1 - Z.b2z c)).
Proof. unfold sbc32. rewrite CFSET_cf. fold c. by destruct c. Qed.

Local Hint Resolve l_w32 Hr c_range : core.

Lemma add_flags_run : arm_flags_add l r (add32 l r) m =
  Some (tt, put_psr ((psr m .& 0x0fffffff) .| add_nzcv l r 0) m).
Proof. unfold arm_flags_add. by rewrite merge_flags_run, flags_add_spec. Qed.
Lemma adc_flags_run : arm_flags_adc l r (adc32 l r (CFSET m)) m =
  Some (tt, put_psr ((psr m .& 0x0fffffff) .| add_nzcv l r (Z.b2z c)) m).
Proof.
  unfold arm_flags_adc. rewrite merge_flags_run. unfold adc32.
  change (CFSET m) with (Z.b2z c). by rewrite flags_adc_spec.
Qed.
Lemma sub_flags_run x y : w32 x → w32 y → arm_flags_sub x y (sub32 x y) m =
  Some (tt, put_psr ((psr m .& 0x0fffffff) .| sub_nzcv x y 1) m).
Proof. intros Hx Hy. unfold arm_flags_sub. by rewrite merge_flags_run, flags_sub_spec. Qed.
Lemma sbc_flags_run x y : w32 x → w32 y → arm_flags_sbc x y (sbc32 x y (CFSET m)) m =
  Some (tt, put_psr ((psr m .& 0x0fffffff) .| sub_nzcv x y (Z.b2z c)) m).
Proof.
  intros Hx Hy. unfold arm_flags_sbc. rewrite merge_flags_run, sbc32_b2z.
  by rewrite flags_sbc_spec.
Qed.

Ltac logical := unfold alu; wf.

Lemma op_dest k f :
  Z.testbit k 0 = false → alu_writes ((k .>> 1) .& 0xf) = true →
  f l r (CFSET m) = alu ((k .>> 1) .& 0xf) l r c →
  dp_dest o rhs f m = Some (tt, dp_operand_result k).
Proof.
  intros H0 Hw Hf. rewrite dp_dest_run by done. unfold dp_operand_result.
  rewrite H0, Hw. fold l r. by rewrite Hf.
Qed.

Lemma op_arith_s k f flags F :
  Z.testbit k 0 = true → alu_writes ((k .>> 1) .& 0xf) = true →
  f l r (CFSET m) = alu ((k .>> 1) .& 0xf) l r c →
  flags l r (f l r (CFSET m)) m = Some (tt, put_psr ((psr m .& 0x0fffffff) .| F) m) →
  alu_nzcv ((k .>> 1) .& 0xf) l r c shc (vf m) = F →
  dp_arith_s o rhs f flags m = Some (tt, dp_operand_result k).
Proof.
  intros H0 Hw Hf Hfl HF. rewrite (dp_arith_s_run o m Hrd _ _ _ F) by exact Hfl.
  unfold dp_operand_result. rewrite H0, Hw, HF. fold l r. by rewrite Hf.
Qed.

Lemma op_compare k f flags F :
  Z.testbit k 0 = true → alu_writes ((k .>> 1) .& 0xf) = false →
  flags l r (f l r) m = Some (tt, put_psr ((psr m .& 0x0fffffff) .| F) m) →
  alu_nzcv ((k .>> 1) .& 0xf) l r c shc (vf m) = F →
  dp_compare o rhs f flags m = Some (tt, dp_operand_result k).
Proof.
  intros H0 Hw Hfl HF. rewrite (dp_compare_run o m Hrd _ _ _ F) by exact Hfl.
  unfold dp_operand_result. by rewrite H0, Hw, HF.
Qed.

Lemma op_logical_s k f :
  Z.testbit k 0 = true → alu_writes ((k .>> 1) .& 0xf) = true → w32 (f l r) →
  alu_nzcv ((k .>> 1) .& 0xf) l r c shc (vf m) =
    nzcv (s32 (f l r) <? 0) (f l r =? 0) shc (vf m) →
  alu ((k .>> 1) .& 0xf) l r c = f l r →
  dp_logical_s o rhs rhs_c f m = Some (tt, dp_operand_result k).
Proof.
  intros H0 Hw Hf Hn Ha. rewrite (dp_logical_s_run o m Hinv Hrd _ _ oc Hc) by exact Hf.
  unfold dp_operand_result. by rewrite H0, Hw, Hn, Ha.
Qed.

Lemma op_move_s k f :
  Z.testbit k 0 = true → alu_writes ((k .>> 1) .& 0xf) = true → w32 (f r) →
  alu_nzcv ((k .>> 1) .& 0xf) l r c shc (vf m) =
    nzcv (s32 (f r) <? 0) (f r =? 0) shc (vf m) →
  alu ((k .>> 1) .& 0xf) l r c = f r →
  dp_move_s o rhs rhs_c f m = Some (tt, dp_operand_result k).
Proof.
  intros H0 Hw Hf Hn Ha. rewrite (dp_move_s_run o m Hinv Hrd _ _ oc Hc) by exact Hf.
  unfold dp_operand_result. by rewrite H0, Hw, Hn, Ha.
Qed.

Lemma op_test k f :
  Z.testbit k 0 = true → alu_writes ((k .>> 1) .& 0xf) = false → w32 (f l r) →
  alu_nzcv ((k .>> 1) .& 0xf) l r c shc (vf m) =
    nzcv (s32 (f l r) <? 0) (f l r =? 0) shc (vf m) →
  dp_test o rhs rhs_c f m = Some (tt, dp_operand_result k).
Proof.
  intros H0 Hw Hf Hn. rewrite (dp_test_run o m Hinv Hrd _ _ oc Hc) by exact Hf.
  unfold dp_operand_result. by rewrite H0, Hw, Hn.
Qed.

Lemma op_write k d :
  Z.testbit k 0 = false → alu_writes ((k .>> 1) .& 0xf) = true →
  d = alu ((k .>> 1) .& 0xf) l r c →
  arm_write_dest o d m = Some (tt, dp_operand_result k).
Proof.
  intros H0 Hw Hf. rewrite arm_write_dest_run by done. unfold dp_operand_result.
  by rewrite H0, Hw, Hf.
Qed.

(** The body of the case of each opcode, whichever operand it takes. *)
Definition dp_body (k : Z) : M (Mach S P) unit :=
  match (k .>> 1) .& 0xf, Z.testbit k 0 with
  | 0, false => dp_dest o rhs (λ l r _, l .& r)
  | 0, true => dp_logical_s o rhs rhs_c Z.land
  | 1, false => dp_dest o rhs (λ l r _, l .^ r)
  | 1, true => dp_logical_s o rhs rhs_c Z.lxor
  | 2, false => dp_dest o rhs (λ l r _, sub32 l r)
  | 2, true => dp_arith_s o rhs (λ l r _, sub32 l r) arm_flags_sub
  | 3, false => dp_dest o rhs (λ l r _, sub32 r l)
  | 3, true => dp_arith_s o rhs (λ l r _, sub32 r l) (λ l r dest, arm_flags_sub r l dest)
  | 4, false => dp_dest o rhs (λ l r _, add32 l r)
  | 4, true => dp_arith_s o rhs (λ l r _, add32 l r) arm_flags_add
  | 5, false => dp_dest o rhs adc32
  | 5, true => dp_arith_s o rhs adc32 arm_flags_adc
  | 6, false => dp_dest o rhs sbc32
  | 6, true => dp_arith_s o rhs sbc32 arm_flags_sbc
  | 7, false => dp_dest o rhs (λ l r c, sbc32 r l c)
  | 7, true => dp_arith_s o rhs (λ l r c, sbc32 r l c) (λ l r dest, arm_flags_sbc r l dest)
  | 8, true => dp_test o rhs rhs_c Z.land
  | 9, true => dp_test o rhs rhs_c Z.lxor
  | 10, true => dp_compare o rhs sub32 arm_flags_sub
  | 11, true => dp_compare o rhs add32 arm_flags_add
  | 12, false => dp_dest o rhs (λ l r _, l .| r)
  | 12, true => dp_logical_s o rhs rhs_c Z.lor
  | 13, false => arm_write_dest o (rhs m)
  | 13, true => dp_move_s o rhs rhs_c (λ r, r)
  | 14, false => dp_dest o rhs (λ l r _, l .&~ r)
  | 14, true => dp_logical_s o rhs rhs_c Z.ldiff
  | 15, false => arm_write_dest o (not32 (rhs m))
  | 15, true => dp_move_s o rhs rhs_c not32
  | _, _ => fatal
  end.

Ltac dp_op :=
  lazymatch goal with
  | |- dp_dest _ _ _ _ = _ => eapply op_dest
  | |- dp_logical_s _ _ _ _ _ = _ => eapply op_logical_s
  | |- dp_arith_s _ _ _ _ _ = _ => eapply op_arith_s
  | |- dp_compare _ _ _ _ _ = _ => eapply op_compare
  | |- dp_test _ _ _ _ _ = _ => eapply op_test
  | |- dp_move_s _ _ _ _ _ = _ => eapply op_move_s
  | |- arm_write_dest _ _ _ = _ => eapply op_write
  end.

Lemma dp_body_spec k :
  0 ≤ k < 64 → alu_writes ((k .>> 1) .& 0xf) || Z.testbit k 0 = true →
  dp_body k m = Some (tt, dp_operand_result k).
Proof.
  intros Hk. revert k Hk.
  assert (∀ j b, 0 ≤ j < 16 → alu_writes j || b = true →
    ∀ k, (k .>> 1) .& 0xf = j → Z.testbit k 0 = b → dp_body k m = Some (tt, dp_operand_result k)) as H.
  2:{ intros k Hk Hw. eapply H; [|exact Hw|done|done].
      change 0xf with (Z.ones 4). rewrite Z.land_ones by done. by apply Z.mod_pos_bound. }
  intros j b Hj Hw k Hjk Hb. unfold dp_body. rewrite Hjk, Hb.
  pose proof l_w32 as Hl. pose proof (sub_flags_run l r Hl Hr) as Hsub.
  pose proof (sub_flags_run r l Hr Hl) as Hrsb. pose proof (sbc_flags_run l r Hl Hr) as Hsbc.
  pose proof (sbc_flags_run r l Hr Hl) as Hrsc. pose proof add_flags_run. pose proof adc_flags_run.
  each_value j 0 16 ltac:(destruct b; cbn in Hw; try discriminate; dp_op; rewrite ?Hjk, ?Hb;
    cbv beta;
    first [ eassumption | reflexivity | apply sbc32_b2z | solve [wf] ]).
Qed.
End operations.

(** * The instruction *)

Lemma land_mask_eq o M v x : o .& M = v → x .& M = x → o .& x = v .& x.
Proof. intros <- Hx. by rewrite <- Z.land_assoc, (Z.land_comm M), Hx. Qed.

Section decode.
Context {S P : Type} `{!MemSys S P, !HostSys S P}.
Context (o : Z) (m : Mach S P).

Lemma bit25 k : (o .>> 20) .& 0xff = k → Z.testbit o 25 = Z.testbit k 5.
Proof. intros <-. by rewrite Z.land_spec, Z.shiftr_spec, andb_true_r. Qed.

Lemma is_dp_no_half k :
  (o .>> 20) .& 0xff = k → is_dp k o = true →
  (o .& 0xe0000f0 =? 0xb0) = false ∧ (o .& 0xe1000d0 =? 0x1000d0) = false ∧
  (Z.testbit k 5 = false → is_mul o = false).
Proof.
  intros Hk Hdp. unfold is_dp in Hdp. rewrite !andb_true_iff, orb_true_iff in Hdp.
  destruct Hdp as [[_ Hd] _]. apply bit25 in Hk.
  assert (∀ M v, o .& M = v → 0x90 .& M = 0x90 → v .& 0x90 = 0x90 →
    Z.testbit M 25 = true → Z.testbit v 25 = false → False) as Hno.
  { intros M v He H9 Hv HM Hvb. destruct Hd as [Hd|Hd].
    - apply (f_equal (λ x, Z.testbit x 25)) in He. rewrite Z.land_spec, HM, Hvb, Hk, Hd in He. done.
    - apply negb_true_iff, Z.eqb_neq in Hd. apply Hd.
      rewrite (land_mask_eq _ _ _ 0x90 He H9). done. }
  split_and!.
  - apply Z.eqb_neq. intros He. by eapply Hno.
  - apply Z.eqb_neq. intros He. by eapply Hno.
  - intros H5. rewrite H5 in Hd. destruct Hd as [?|Hd]; [done|].
    apply negb_true_iff, Z.eqb_neq in Hd. apply Z.eqb_neq. intros He. apply Hd.
    by rewrite (land_mask_eq _ _ _ 0x90 He).
Qed.

(** SUBS with an immediate writes Rd first, the others the flags first. *)
Lemma subs_order l r d :
  RD o ≠ 15 → core_inv m →
  (wreg (RD o) d;; arm_flags_sub l r d) m = (arm_flags_sub l r d;; wreg (RD o) d) m.
Proof.
  intros Hrd Hinv. pose proof (rd_ne_cpsr o m Hinv Hrd).
  unfold arm_flags_sub. unfold mbind, M_bind at 1 2. unfold wreg, modify.
  rewrite !merge_flags_run. by rewrite psr_put_reg_ne, put_psr_reg.
Qed.

(** What the switch selects. *)
Lemma execute_dp k :
  (o .>> 20) .& 0xff = k → is_dp k o = true → RD o ≠ 15 → core_inv m →
  execute o m =
    if Z.testbit k 5 then dp_body o m (imm o) (arm_imm_cflag o) k m
    else dp_body o m (shift2 o) (shift o) k m.
Proof.
  intros Hk Hdp Hrd Hinv. destruct (is_dp_no_half k Hk Hdp) as (H1 & H2 & Hmul).
  unfold execute, gets, mbind, M_bind. rewrite H1, H2, !andb_false_r.
  unfold execute_switch. rewrite Hk.
  unfold is_dp in Hdp. rewrite !andb_true_iff, Z.leb_le, Z.ltb_lt in Hdp.
  destruct Hdp as [[[Hlo Hhi] _] Hw].
  unfold all_cases, cases_reg_00, cases_reg_08, cases_reg_0c, cases_reg_10, cases_reg_18,
    cases_imm_20, cases_imm_28, cases_imm_31, cases_imm_38.
  clear H1 H2 Hk.
  each_value k 0 64 ltac:(try (exfalso; vm_compute in Hw; discriminate Hw);
    cbn [switch app existsb Z.eqb Pos.eqb orb]; rewrite ?Hmul by reflexivity;
    unfold or_mul_long, gets, mbind, M_bind; rewrite ?Hmul, ?andb_false_r by reflexivity;
    try reflexivity).
  pose proof (subs_order (GETADDR (RN o) m) (arm_imm o) (sub32 (GETADDR (RN o) m) (arm_imm o)) Hrd Hinv)
    as Ho.
  unfold dp_body. cbn [Z.testbit Z.odd]. rewrite (proj2 (Z.eqb_neq _ _) Hrd).
  etransitivity; [exact Ho|].
  change (Z.testbit 37 5) with true. cbv beta iota. change (37 .>> 1 .& 15) with 2.
  change (Z.testbit 37 0) with true. cbv beta iota.
  unfold dp_arith_s, gets, mbind, M_bind. by rewrite (proj2 (Z.eqb_neq _ _) Hrd).
Qed.

(** Every data-processing instruction with a destination other than R15. *)
Lemma execute_dp_result k :
  (o .>> 20) .& 0xff = k → is_dp k o = true → RD o ≠ 15 → core_inv m →
  execute o m = Some (tt, dp_result k o m).
Proof.
  intros Hk Hdp Hrd Hinv. rewrite (execute_dp k) by done.
  unfold is_dp in Hdp. rewrite !andb_true_iff, Z.leb_le, Z.ltb_lt in Hdp.
  destruct Hdp as [[[Hlo Hhi] _] Hw]. unfold dp_result.
  destruct (Z.testbit k 5).
  - destruct (arm_imm_cflag_run o m) as (oc & Hc & Hoc).
    rewrite (dp_body_spec o m Hinv Hrd (imm o) _ oc Hc) by (done || apply w32_arm_imm).
    unfold dp_operand_result. change (imm o m) with (arm_imm o).
    rewrite Hoc, <- (arm_imm_operand o (cf m)).
    by destruct (imm_operand o (cf m)).
  - assert (w32 (rreg (RM o) m)) as Hrm by apply rreg_w32, Hinv.
    destruct (shift_eq o m Hrm) as (oc & Hc & Hoc). rewrite <- shift2_eq in Hc by done.
    rewrite (dp_body_spec o m Hinv Hrd (shift2 o) _ oc Hc)
      by (done || by apply shift2_w32, Hinv).
    unfold dp_operand_result. rewrite Hoc, shift2_eq by done.
    by destruct (operand2 o m).
Qed.
End decode.
