(* ===== verification/ArmBanks.v ===== *)
(** The register file as the architecture sees it, one value per mode and
    register, wherever the banking of [updatemode_at] currently keeps it; and
    what exceptions and returns do to it. *)

From S2P Require Export ArmInvExec.

(** The modes the architecture defines, 26-bit and 32-bit. *)
Definition valid_mode (md : Z) : Prop :=
  0 ≤ md < 32 ∧
  (md .& 15 = 0 ∨ md .& 15 = 1 ∨ md .& 15 = 2 ∨ md .& 15 = 3 ∨ md .& 15 = 7 ∨
   md .& 15 = 11 ∨ md .& 15 = 15).

(** Which of its copies a mode uses of a register from R8 to R14. *)
Definition bank_id (md r : Z) : Z :=
  let b := if md .& 15 =? 15 then 0 else md .& 15 in
  if r <? 13 then (if b =? 1 then 1 else 0) else b.

(** That copy when it is not in [arm.reg]. *)
Definition banked (a : ARMState) (md r : Z) : Z :=
  match bank_id md r with
  | 0 => user_reg a !!! r
  | 1 => fiq_reg a !!! r
  | 2 => irq_reg a !!! (r - 13)
  | 3 => super_reg a !!! (r - 13)
  | 7 => abort_reg a !!! (r - 13)
  | _ => undef_reg a !!! (r - 13)
  end.

(** Register [r] (R0 to R14) of mode [md]. *)
Definition arch_reg (a : ARMState) (md r : Z) : Z :=
  if r <? 8 then reg a !!! r
  else if bank_id md r =? bank_id (mode a) r then reg a !!! r
  else banked a md r.

Ltac valid_cases H := destruct H as [? [?H|[?H|[?H|[?H|[?H|[?H|?H]]]]]]].

(** Array reads at known or bounded indices. *)
Ltac arrays :=
  unfold save_user_8_14, save_user_8_12, load_user_8_14, load_user_8_12, save_13_14, load_13_14,
    arr_copy; cbn -[Z.sub];
  rewrite ?arr_get_set, ?arr_fill_lookup; repeat case_decide; subst; try lia; try reflexivity.

Lemma store_back_banked a md r :
  valid_mode (mode a) → valid_mode md → 8 ≤ r < 15 →
  banked (store_back a) md r = arch_reg a md r.
Proof.
  intros Ha Hm Hr. unfold arch_reg, banked, bank_id, store_back.
  rewrite (proj2 (Z.ltb_ge r 8)) by lia.
  assert (r < 13 ∨ r = 13 ∨ r = 14) as Hc by lia.
  valid_cases Ha; valid_cases Hm; repeat match goal with H : _ .& 15 = _ |- _ => rewrite !H; clear H end;
    cbn [Z.eqb Pos.eqb];
    (destruct Hc as [Hc|[->| ->]]; [rewrite (proj2 (Z.ltb_lt r 13) Hc)| |]; cbn [Z.ltb Z.compare Pos.compare Pos.compare_cont Z.eqb Pos.eqb]; arrays).
Qed.

Lemma load_bank_banked m a a' r :
  valid_mode m → load_bank m a = Some a' → 8 ≤ r < 15 → reg a' !!! r = banked a m r.
Proof.
  intros Hm Hl Hr. unfold load_bank in Hl. unfold banked, bank_id.
  assert (r < 13 ∨ r = 13 ∨ r = 14) as Hc by lia.
  valid_cases Hm; repeat match goal with H : _ .& 15 = _ |- _ => rewrite !H in *; clear H end;
    injection Hl as <-; cbn [Z.eqb Pos.eqb];
    (destruct Hc as [Hc|[->| ->]]; [rewrite (proj2 (Z.ltb_lt r 13) Hc)| |]; cbn [Z.ltb Z.compare Pos.compare Pos.compare_cont Z.eqb Pos.eqb]; arrays).
Qed.

Lemma load_bank_others m a a' md r :
  load_bank m a = Some a' → banked a' md r = banked a md r ∧
  (r < 8 → reg a' !!! r = reg a !!! r).
Proof.
  intros Hl. unfold load_bank in Hl.
  repeat case_match; try discriminate; injection Hl as <-; split; try reflexivity; intros; arrays.
Qed.

Lemma banked_same_id a md m r : bank_id md r = bank_id m r → banked a md r = banked a m r.
Proof. unfold banked. by intros ->. Qed.

Lemma enter_32_regs om a r : r < 15 → reg (enter_32 om a) !!! r = reg a !!! r.
Proof. intros Hr. unfold enter_32. destruct (ARM_MODE_32 om); cbn; rewrite ?arr_other by lia; done. Qed.
Lemma enter_26_regs om a r : r < 15 → reg (enter_26 om a) !!! r = reg a !!! r.
Proof. intros Hr. unfold enter_26. destruct (ARM_MODE_32 om); cbn; rewrite ?arr_other by lia; done. Qed.

Lemma enter_32_banked om a md r : banked (enter_32 om a) md r = banked a md r.
Proof. unfold enter_32. by destruct (ARM_MODE_32 om). Qed.
Lemma enter_26_banked om a md r : banked (enter_26 om a) md r = banked a md r.
Proof. unfold enter_26. by destruct (ARM_MODE_32 om). Qed.

Lemma valid_loads m a : valid_mode m → ∃ a', load_bank m a = Some a'.
Proof. intros Hm. unfold load_bank. valid_cases Hm;
  match goal with H : _ .& 15 = _ |- _ => rewrite H end; eauto. Qed.

Section banks.
Context {S P : Type} `{!MemSys S P, !HostSys S P}.
Implicit Types s : Mach S P.

(** A change of mode between valid modes is a change of view only. *)
Lemma updatemode_at_arch m pc s :
  valid_mode (mode (arm s)) → valid_mode m →
  ∃ s', updatemode_at m pc s = Some (tt, s') ∧ mode (arm s') = m ∧
    (∀ md r, valid_mode md → 0 ≤ r < 15 → arch_reg (arm s') md r = arch_reg (arm s) md r).
Proof.
  intros Hs Hm. rewrite updatemode_at_run. cbv zeta.
  destruct (valid_loads m (set_mode m (store_back (arm s))) Hm) as (a' & El). rewrite El.
  destruct (load_bank_fields _ _ _ El) as (Hmode & _).
  eexists. split; [done|]. split; [by apply mode_entered_mode|].
  intros md r Hmd Hr.
  assert (∀ b, mode b = m → (∀ r, r < 15 → reg b !!! r = reg a' !!! r) →
    (∀ md r, banked b md r = banked a' md r) → arch_reg b md r = arch_reg (arm s) md r) as Hgen.
  { intros b Hb Hreg Hbank. unfold arch_reg at 1. rewrite Hb, Hreg, Hbank by lia.
    destruct (load_bank_others _ _ _ md r El) as [Ho Hlow].
    destruct (Z.ltb_spec r 8).
    - rewrite Hlow by done. unfold arch_reg. rewrite (proj2 (Z.ltb_lt r 8)) by done.
      by destruct (store_back_fields (arm s)) as (_ & _ & _ & <-).
    - rewrite <- (store_back_banked (arm s) md r) by (done || lia).
      destruct (Z.eqb_spec (bank_id md r) (bank_id m r)) as [He|_].
      + rewrite (load_bank_banked _ _ _ _ Hm El) by lia.
        change (banked (set_mode m (store_back (arm s))) m r)
          with (banked (store_back (arm s)) m r). symmetry. by apply banked_same_id.
      + by rewrite Ho. }
  unfold mode_entered. destruct (ARM_MODE_32 m); cbn; apply Hgen.
  - by destruct (enter_32_fields (mode (arm s)) a') as [-> _].
  - intros. by apply enter_32_regs.
  - intros. apply enter_32_banked.
  - by destruct (enter_26_fields (mode (arm s)) a') as [-> _].
  - intros. by apply enter_26_regs.
  - intros. apply enter_26_banked.
Qed.

Lemma load_bank_spsr m a a' : load_bank m a = Some a' → spsr a' = spsr a.
Proof. unfold load_bank. intros Hl. repeat case_match; try discriminate; by injection Hl as <-. Qed.
Lemma store_back_spsr a : spsr (store_back a) = spsr a.
Proof. unfold store_back. repeat case_match; done. Qed.

(** Between 32-bit modes the status registers and R15 stay as they are. *)
Lemma updatemode_at_32 m pc s s' :
  valid_mode m → ARM_MODE_32 (mode (arm s)) = true → ARM_MODE_32 m = true →
  updatemode_at m pc s = Some (tt, s') →
  spsr (arm s') = spsr (arm s) ∧ rreg 15 s' = rreg 15 s ∧ rreg 16 s' = rreg 16 s.
Proof.
  intros Hm H32 Hm32. rewrite updatemode_at_run. cbv zeta.
  destruct (valid_loads m (set_mode m (store_back (arm s))) Hm) as (a' & El). rewrite El.
  intros [= <-]. destruct (load_bank_fields _ _ _ El) as (_ & H15 & H16).
  destruct (store_back_fields (arm s)) as (_ & _ & _ & Hr). cbn in H15, H16. rewrite Hr in *.
  unfold mode_entered. rewrite Hm32. cbn. rewrite enter_32_same by done.
  split_and!; try done. unfold enter_32. rewrite H32. cbn.
  rewrite (load_bank_spsr _ _ _ El). apply store_back_spsr.
Qed.

(** Register writes seen through [arch_reg]. *)
Lemma arch_put_low a md r r' v :
  15 ≤ r' → r < 15 → arch_reg (put_reg r' v a) md r = arch_reg a md r.
Proof. intros H Hr. unfold arch_reg, banked. cbn. by rewrite arr_other by lia. Qed.

Lemma arch_put_14 a md r v :
  r < 15 → ¬ (r = 14 ∧ bank_id md 14 = bank_id (mode a) 14) →
  arch_reg (put_reg 14 v a) md r = arch_reg a md r.
Proof.
  intros Hr Hn. unfold arch_reg. cbn. destruct (Z.eq_dec r 14) as [->|Hne].
  - change (14 <? 8) with false. cbn iota.
    rewrite (proj2 (Z.eqb_neq _ _)) by tauto. done.
  - by rewrite arr_other by lia.
Qed.

Lemma arch_spsr i v a md r :
  arch_reg (set_spsr (<[i := v]> (spsr a)) a) md r = arch_reg a md r.
Proof. reflexivity. Qed.
End banks.

(** * Exceptions *)

(** The modes exceptions enter. *)
Definition exception_modes : list Z := [FIQ; IRQ; SUPERVISOR; ABORT; UNDEFINED].
Definition irq_bits (mmode : Z) : Z := if mmode =? FIQ then 0xc0 else 0x80.

Lemma exception_mode_valid mmode :
  mmode ∈ exception_modes →
  0 ≤ mmode < 16 ∧ valid_mode (0x10 .| mmode) ∧ ARM_MODE_32 (0x10 .| mmode) = true ∧
  mode (set_mode (0x10 .| mmode) arm_zero) .& 0xf = mmode.
Proof.
  unfold exception_modes. rewrite !elem_of_cons, elem_of_nil.
  intros [->|[->|[->|[->|[->|[]]]]]]; (split; [vm_compute; intuition discriminate|]);
    (split; [|by split]); (split; [vm_compute; intuition discriminate | vm_compute; auto 10]).
Qed.

Section exceptions.
Context {S P : Type} `{!MemSys S P, !HostSys S P, !MemSysOk S P, !HostSysOk S P}.
Implicit Types s : Mach S P.

(** Exception entry from a 32-bit mode. *)
Record exception_entered (mmode address link : Z) s s' : Prop := {
  ee_mode : mode (arm s') = 0x10 .| mmode;
  ee_link : rreg 14 s' = link;
  ee_pc : rreg 15 s' = address;
  ee_cpsr : rreg 16 s' = (rreg 16 s .&~ 0x1f) .| (0x10 .| mmode .| irq_bits mmode);
  ee_spsr : rspsr mmode s' = rreg 16 s;
  ee_spsr_other : ∀ i, i ≠ mmode → rspsr i s' = rspsr i s;
  ee_regs : ∀ md r, valid_mode md → 0 ≤ r < 15 →
    ¬ (r = 14 ∧ bank_id md 14 = bank_id (0x10 .| mmode) 14) →
    arch_reg (arm s') md r = arch_reg (arm s) md r
}.

Lemma exception_32 mmode address diff s :
  core_inv s → valid_mode (mode (arm s)) → ARM_MODE_32 (mode (arm s)) = true →
  mmode ∈ exception_modes →
  ∃ s', exception mmode address diff s = Some (tt, s') ∧
        exception_entered mmode address (sub32 (rreg 15 s) diff) s s'.
Proof.
  intros Hs Hv H32 Hm. destruct (exception_mode_valid mmode Hm) as (Hr & Hvm & Hm32 & _).
  set (s0 := set_sys (debugger_exception_hook (P:=P) mmode address (rreg 15 s) (sys s)) s).
  set (s1 := upd_arm (λ a, set_spsr (<[mmode := rreg 16 s]> (spsr a)) a) s0).
  destruct (updatemode_at_arch (0x10 .| mmode) (PC s1) s1 Hv Hvm) as (s2 & Hu & Hmode & Harch).
  destruct (updatemode_at_32 _ _ s1 s2 Hvm H32 Hm32 Hu) as (Hspsr & _ & H16).
  eexists. split.
  { unfold exception, hook. unfold modify, gets, mbind, M_bind. cbv beta iota zeta.
    change (mode (arm (set_sys _ s))) with (mode (arm s)). rewrite H32.
    unfold updatemode, wspsr, modify, gets, mbind, M_bind. cbv beta iota.
    change (upd_arm _ (set_sys _ s)) with s1. rewrite Hu. cbv beta iota.
    unfold wreg, modify, gets. cbv beta iota. reflexivity. }
  assert (arr_irq : (if mmode =? FIQ then 0x80 .| 0x40 else 0x80) = irq_bits mmode)
    by (unfold irq_bits; by destruct (mmode =? FIQ)).
  split; unfold rreg, rspsr; cbn; autorewrite with arr.
  - done.
  - done.
  - done.
  - rewrite arr_irq. unfold rreg in H16. rewrite H16. done.
  - rewrite Hspsr. cbn. by rewrite arr_same.
  - intros i Hi. rewrite Hspsr. cbn. by rewrite arr_other.
  - intros md r Hmd Hr' Hn. unfold upd_arm. cbn.
    rewrite !arch_put_low, arch_put_14 by (lia || by rewrite Hmode).
    by rewrite Harch.
Qed.

(** Return to a 32-bit mode by a write to R15 with the S bit. *)
Record returned (dest : Z) s s' : Prop := {
  rt_mode : mode (arm s') = rspsr (mode (arm s) .& 0xf) s .& 0x1f;
  rt_cpsr : rreg 16 s' = rspsr (mode (arm s) .& 0xf) s;
  rt_pc : rreg 15 s' = (rreg 15 s .&~ 0xfffffffc) .| (add32 dest 4 .& 0xfffffffc);
  rt_regs : ∀ md r, valid_mode md → 0 ≤ r < 15 →
    arch_reg (arm s') md r = arch_reg (arm s) md r
}.

Lemma arm_write_r15_return o dest s :
  core_inv s → valid_mode (mode (arm s)) → ARM_MODE_32 (mode (arm s)) = true →
  ARM_MODE_PRIV (mode (arm s)) = true →
  valid_mode (rspsr (mode (arm s) .& 0xf) s .& 0x1f) →
  ARM_MODE_32 (rspsr (mode (arm s) .& 0xf) s .& 0x1f) = true →
  ∃ s', arm_write_r15 o dest s = Some (tt, s') ∧ returned dest s s'.
Proof.
  intros [Hb Hp] Hv H32 Hpr HvM HM32.
  set (sp := rspsr (mode (arm s) .& 0xf) s) in *.
  set (s1 := upd_arm (put_reg 16 sp) (upd_arm (put_reg 15
    ((rreg 15 s .&~ 0xfffffffc) .| (add32 dest 4 .& 0xfffffffc))) s)).
  assert (psr s1 .& mmask (arm s1) = sp .& 0x1f) as Hpsr.
  { unfold psr. change (cpsr s1) with (cpsr s). rewrite (bi_cpsr _ Hb).
    change (mmask (arm s1)) with (mmask (arm s)). rewrite (bi_mmask _ Hb).
    unfold psr_index, mode_mask. rewrite H32. cbn. by rewrite arr_same. }
  assert (∀ s', (if negb (sp .& 0x1f =? mode (arm s)) then updatemode_at (sp .& 0x1f) (PC s) s1
                 else Some (tt, s1)) = Some (tt, s') → arm_write_r15 o dest s = Some (tt, s')) as Hrun.
  { intros s'. unfold arm_write_r15, gets, mbind, M_bind. cbv beta iota zeta.
    rewrite H32, Hpr. cbn [when]. unfold wreg, modify, gets, mbind, M_bind. cbv beta iota.
    change (rspsr (mode (arm s) .& 15) (upd_arm _ s)) with sp.
    change (upd_arm (put_reg 16 sp) (upd_arm (put_reg 15 _) s)) with s1.
    rewrite Hpsr. by destruct (negb _). }
  assert (∀ md r, 0 ≤ r < 15 → arch_reg (arm s1) md r = arch_reg (arm s) md r) as Ha.
  { intros md r Hr. subst s1. cbn. by rewrite !arch_put_low by lia. }
  destruct (Z.eqb_spec (sp .& 0x1f) (mode (arm s))) as [He|Hne]; cbn [negb] in Hrun.
  - exists s1. split; [by apply Hrun|]. split; cbn; autorewrite with arr; try done. auto.
  - destruct (updatemode_at_arch (sp .& 0x1f) (PC s) s1 Hv HvM) as (s2 & Hu & Hmode & Harch).
    destruct (updatemode_at_32 _ _ s1 s2 HvM H32 HM32 Hu) as (_ & H15 & H16).
    exists s2. split; [by apply Hrun|]. split.
    + done.
    + rewrite H16. cbn. by rewrite arr_same.
    + rewrite H15. cbn. by autorewrite with arr.
    + intros md r Hmd Hr. rewrite Harch by done. by apply Ha.
Qed.

Lemma aligned_pc pc r15 : w32 r15 → r15 .& 3 = 0 → (pc .& 3 = 0) → w32 pc →
  (pc .&~ 0xfffffffc) .| (r15 .& 0xfffffffc) = r15.
Proof.
  intros Hr Hr3 Hp3 Hp.
  assert (∀ x i, x .& 3 = 0 → 0 ≤ i < 2 → Z.testbit x i = false) as Hlow.
  { intros x i Hx Hi. apply (f_equal (λ y, Z.testbit y i)) in Hx.
    rewrite Z.land_spec, Z.bits_0 in Hx. change 3 with (Z.ones 2) in Hx.
    by rewrite Z.ones_spec_low, andb_true_r in Hx by lia. }
  apply w32_eq; [auto with w32|done|]. intros i Hi.
  rewrite Z.lor_spec, Z.ldiff_spec, Z.land_spec.
  destruct (Z.lt_ge_cases i 2).
  - by rewrite (Hlow pc i), (Hlow r15 i) by (done || lia).
  - change 0xfffffffc with (Z.shiftl (Z.ones 30) 2). rewrite Z.shiftl_spec by lia.
    rewrite Z.ones_spec_low by lia. btauto.
Qed.
End exceptions.
