(* ===== verification/ArmUser.v ===== *)
(** User mode: an instruction run in the 32-bit User mode leaves the processor
    there, or in Undefined mode at its vector. The invariant [user_inv] is a
    second instance of the interface the instruction proofs use. *)

From S2P Require Export ArmBanks.

(** USR32 *)
Definition USER32 : Z := 0x10.

Section user.
Context {S P : Type} `{!MemSys S P, !HostSys S P, !MemSysOk S P, !HostSysOk S P}.
Local Abbreviation CI := (core_inv (S:=S) (P:=P)).
Implicit Types s : Mach S P.

Definition user_inv s : Prop := CI s ∧ mode (arm s) = USER32.

(** Undefined mode has been entered from USR32 at its vector. *)
Definition undefined_entered s : Prop :=
  mode (arm s) = 0x1b ∧ rreg 15 s = 8 ∧ rspsr UNDEFINED s .& 0x1f = USER32.
Definition user_end s : Prop :=
  CI s ∧ (mode (arm s) = USER32 ∨ undefined_entered s).

(** A computation that keeps the core's invariant and does not change mode. *)
Definition same_mode {A} (m : M (Mach S P) A) : Prop :=
  ∀ md, hoare (λ s, CI s ∧ mode (arm s) = md) m (λ _ s, mode (arm s) = md).

Lemma user_keeps {A} `{!Val A} (m : M (Mach S P) A) :
  ok CI m → same_mode m → ok user_inv m.
Proof.
  intros Hm Hs s Hu. specialize (Hm s (proj1 Hu)). specialize (Hs _ s Hu).
  destruct (m s) as [[a s']|]; [|done]. destruct Hm as [? ?]. split; [done | by split].
Qed.

Lemma same_gets {A B} (f : Mach S P → A) (k : A → M (Mach S P) B) :
  (∀ a, same_mode (k a)) → same_mode (gets f ≫= k).
Proof. intros Hk md s Hs. apply (Hk (f s) md s Hs). Qed.

Lemma same_modify f :
  (∀ s, mode (arm (f s)) = mode (arm s)) → same_mode (modify f).
Proof. intros Hf md s [_ <-]. apply Hf. Qed.

Lemma same_when b m : same_mode m → same_mode (when b m).
Proof. destruct b; [done|]. by intros _ md s []. Qed.

Lemma same_zoom {A} (op : M (Z * S) A) : same_mode (mem_zoom op).
Proof. intros md s [_ <-]. unfold mem_zoom, zoom. by destruct (op _) as [[a [e s']]|]. Qed.

Lemma same_user {A} (op : M (Z * S) A) : same_mode (with_user_privilege (mem_zoom op)).
Proof.
  intros md s [_ <-]. unfold with_user_privilege, mem_set_privilege, mem_zoom, zoom, gets, modify,
    mbind, M_bind. cbn. by destruct (op _) as [[a [e s']]|].
Qed.

Lemma same_mrs o : same_mode (mrs_cpsr o).
Proof.
  unfold mrs_cpsr. apply same_gets. intros md0 md s [_ <-].
  by destruct (ARM_MODE_32 md0).
Qed.

(** The status register of a 32-bit mode, and its mode field. *)
Lemma psr_32 s : CI s → ARM_MODE_32 (mode (arm s)) = true → psr s = rreg 16 s.
Proof. intros [Hb _] E. unfold psr. rewrite (bi_cpsr _ Hb). unfold psr_index. by rewrite E. Qed.

Lemma user_psr s : user_inv s → psr s = rreg 16 s ∧ rreg 16 s .& 0x1f = USER32.
Proof.
  intros [Hc Hm]. split; [apply psr_32; [done | by rewrite Hm]|].
  destruct Hc as [_ Hp]. rewrite <- Hm. apply Hp. by rewrite Hm.
Qed.

Lemma user_mmask s : user_inv s → mmask (arm s) = 0x1f.
Proof. intros [[Hb _] Hm]. rewrite (bi_mmask _ Hb), Hm. done. Qed.

(** In User mode a write to R15 with the S bit changes no mode. *)
Lemma user_write_r15 o v : w32 v → ok user_inv (arm_write_r15 o v).
Proof.
  intros Hv s [Hc Hm]. pose proof (ok_arm_write_r15 o v Hv s Hc) as Hok.
  unfold arm_write_r15, gets, modify, wreg, mbind, M_bind in *. cbv beta iota zeta in *.
  rewrite Hm in *. change (ARM_MODE_PRIV USER32) with false in *. cbn [when] in *.
  destruct Hok as [? ?]. split; [done | by split].
Qed.

(** CMP and its like with Rd = R15 find the mode as it was. *)
Lemma user_compare_rd15 o v : w32 v → ok user_inv (arm_compare_rd15 o v).
Proof.
  intros Hv s Hu. destruct (user_psr s Hu) as [Hp H5]. pose proof (user_mmask s Hu) as Hmm.
  pose proof Hu as [Hc Hm].
  unfold arm_compare_rd15, gets, modify, wreg, mbind, M_bind. cbv beta iota zeta.
  rewrite Hm. change (ARM_MODE_32 USER32) with true. change (ARM_MODE_PRIV USER32) with false.
  cbn [when mret M_ret]. unfold mret, M_ret. cbv beta iota. rewrite Hp, Hmm, H5. by split.
Qed.

Lemma user_fields o : msrlookup (((o .&~ 0x70000) .>> 16) .& 0xf) .& PSR_BITS_VALID .& 0x1f = 0.
Proof.
  replace (((o .&~ 0x70000) .>> 16) .& 0xf) with (if Z.testbit o 19 then 8 else 0).
  - by destruct (Z.testbit o 19).
  - apply Z.bits_inj'. intros i Hi. rewrite Z.land_spec, Z.shiftr_spec, Z.ldiff_spec by done.
    assert (i = 0 ∨ i = 1 ∨ i = 2 ∨ i = 3 ∨ 4 ≤ i) as [->|[->|[->|[->|H4]]]] by lia.
    + change (negb (Z.testbit 0x70000 (0 + 16))) with false. rewrite andb_false_r. by destruct (Z.testbit o 19).
    + change (negb (Z.testbit 0x70000 (1 + 16))) with false. rewrite andb_false_r. by destruct (Z.testbit o 19).
    + change (negb (Z.testbit 0x70000 (2 + 16))) with false. rewrite andb_false_r. by destruct (Z.testbit o 19).
    + change (3 + 16) with 19. by destruct (Z.testbit o 19).
    + change 0xf with (Z.ones 4). rewrite Z.ones_spec_high by lia. rewrite andb_false_r.
      destruct (Z.testbit o 19); [|apply Z.bits_0].
      change 8 with (2 ^ 3). rewrite Z.pow2_bits_eqb by done. apply Z.eqb_neq. lia.
Qed.

Lemma user_write_cpsr o v : w32 v → ok user_inv (arm_write_cpsr o v).
Proof.
  intros Hv s Hu. destruct (user_psr s Hu) as [_ H5]. pose proof Hu as [Hc Hm].
  pose proof (ok_arm_write_cpsr o v Hv s Hc) as Hok.
  unfold arm_write_cpsr, gets, modify, wreg, mbind, M_bind in *. cbv beta iota zeta in *.
  rewrite Hm in *. change (ARM_MODE_32 USER32) with true in *.
  change (ARM_MODE_PRIV USER32) with false in *. cbv iota in *. cbn [when negb] in *.
  unfold mret, M_ret in *. cbv beta iota in *.
  assert (∀ f, f .& 0x1f = 0 →
    rreg 16 (upd_arm (put_reg 16 ((rreg 16 s .&~ f) .| (v .& f))) s) .& 0x1f = USER32) as H16.
  { intros f Hf. cbn. rewrite arr_same, <- H5. cbn. apply Z.bits_inj'. intros i Hi.
    rewrite !Z.land_spec, Z.lor_spec, Z.ldiff_spec, !Z.land_spec.
    apply (f_equal (λ x, Z.testbit x i)) in Hf. rewrite Z.land_spec, Z.bits_0 in Hf.
    destruct (Z.testbit f i), (Z.testbit 31 i); cbn in *; try done; btauto. }
  unfold modify in *. cbv beta iota in *.
  rewrite (H16 _ (user_fields o)) in Hok |- *. cbn [when negb Z.eqb Pos.eqb] in *.
  destruct Hok as [? ?]. split; [done | by split].
Qed.

#[export] Instance keeps_user : Keeps user_inv.
Proof.
  split.
  - intros s [Hc _]. by apply core_base.
  - intros. apply user_keeps; [by apply k_wreg | by apply same_modify].
  - intros. apply user_keeps; [by apply k_wpsr | apply same_gets; intros; by apply same_modify].
  - intros. apply user_keeps; [by apply k_wspsr|]. unfold arm_write_spsr.
    apply same_gets. intros. apply same_when, same_gets. intros. by apply same_modify.
  - intros. apply user_keeps; [by apply k_wuser|]. unfold wuser. apply same_gets. intros u.
    destruct u; by apply same_modify.
  - intros. apply user_keeps; [by apply k_zoom | apply same_zoom].
  - intros. apply user_keeps; [by apply k_user | apply same_user].
  - apply user_write_r15.
  - apply user_compare_rd15.
  - apply user_write_cpsr.
  - intros. apply user_keeps; [by apply k_mrs_cpsr | apply same_mrs].
  - intros. apply user_keeps; [by apply k_unpredictable|]. apply same_modify. intros s.
    by destruct (_ =? _).
Qed.

Lemma user_valid : valid_mode USER32.
Proof. vm_compute. intuition discriminate. Qed.

#[export] Instance ends_user : Ends user_inv user_end.
Proof.
  split; [intros s []; by split; [|left]|].
  intros s Hu. destruct (user_psr s Hu) as [_ H5]. destruct Hu as [Hc Hm].
  pose proof (ok_undefined s Hc) as Hok.
  destruct (exception_32 UNDEFINED 8 4 s Hc) as (s' & Hrun & He).
  - rewrite Hm. apply user_valid.
  - by rewrite Hm.
  - unfold exception_modes. repeat (constructor || apply list_elem_of_further).
  - unfold arm_exception_undefined in *. rewrite Hrun in *. destruct Hok as [_ Hc'].
    split; [exact I|]. split; [exact Hc'|]. right.
    split_and!; [apply He | apply He | by rewrite (ee_spsr _ _ _ _ _ He)].
Qed.

(** The opcodes whose execution leaves the core: FPA instructions and SWIs. *)
Definition calls_host (o : Z) : bool :=
  (0xf0 <=? (o .>> 20) .& 0xff) ||
  ((0xc0 <=? (o .>> 20) .& 0xff) && ((o .& 0xf00 =? 0x100) || (o .& 0xf00 =? 0x200))).

Lemma fpa_below o : calls_host o = false →
  ((o .>> 20) .& 0xff < 0xc0) ∨
  ((0xc0 ≤ (o .>> 20) .& 0xff < 0xf0) ∧ o .& 0xf00 ≠ 0x100 ∧ o .& 0xf00 ≠ 0x200).
Proof.
  unfold calls_host. rewrite orb_false_iff, andb_false_iff, orb_false_iff, !Z.leb_gt, !Z.eqb_neq. lia.
Qed.

Lemma user_mcr o : o .& 0xf00 ≠ 0x100 → fin user_inv user_end (mcr o).
Proof.
  intros Hf s Hu. unfold mcr. rewrite (proj2 (Z.eqb_neq _ _) Hf).
  unfold gets, mbind, M_bind. cbv beta iota. rewrite (proj2 Hu), andb_false_r. by apply k_undefined.
Qed.
Lemma user_mrc o : o .& 0xf00 ≠ 0x100 → fin user_inv user_end (mrc o).
Proof.
  intros Hf s Hu. unfold mrc. rewrite (proj2 (Z.eqb_neq _ _) Hf).
  unfold gets, mbind, M_bind. cbv beta iota. rewrite (proj2 Hu), andb_false_r. by apply k_undefined.
Qed.
Lemma user_copro o : o .& 0xf00 ≠ 0x100 → o .& 0xf00 ≠ 0x200 → fin user_inv user_end (copro o).
Proof.
  intros H1 H2. unfold copro.
  rewrite (proj2 (Z.eqb_neq _ _) H1), (proj2 (Z.eqb_neq _ _) H2). apply k_undefined.
Qed.

(** No instruction of a program in USR32 gives it another mode than Undefined,
    which it enters at the vector. *)
Lemma user_execute o : calls_host o = false → fin user_inv user_end (execute o).
Proof.
  intros Ho. apply fpa_below in Ho as [Hk|(Hk & H1 & H2)].
  { apply fin_execute_core; [typeclasses eauto..|done]. }
  unfold execute. apply fin_bind_any. intros v4.
  repeat (match goal with |- fin _ _ (if _ then _ else _) => apply fin_if end);
    try (apply fin_ok; [apply k_end | solve [eauto 3 with ok nocore]]).
  unfold execute_switch. rewrite (all_cases_split (S:=S) (P:=P)), switch_app.
  apply (switch_ind (fin user_inv user_end)); [apply core_cases_ok; typeclasses eauto|].
  unfold cases_copro. cbn [switch].
  repeat (lazymatch goal with |- fin _ _ (if ?b then _ else _) => destruct b eqn:? end);
    [by apply user_copro | by apply user_mcr | by apply user_mrc | |
     apply fin_undef_unpred; typeclasses eauto].
  exfalso. match goal with H : existsb _ _ = true |- _ =>
    apply existsb_exists in H as (x & Hx & <-%Z.eqb_eq) end.
  apply (labels_above 0xf0) in Hx; [done|apply Hk|by vm_compute].
Qed.
End user.
