(* ===== verification/ArmControl.v ===== *)
(** Control flow: what the condition codes mean after a comparison, where the
    branches go, which event the interpreter takes, what a turn of the loop
    does, and the state [arm_reset] leaves. *)

From S2P Require Export ArmDataSpec ArmBanks.

(** * Conditions *)

(** A condition field on the four flags. *)
Definition cond_holds (cnd : Z) (n z c v : bool) : bool :=
  match cnd with
  | 0 => z | 1 => negb z | 2 => c | 3 => negb c
  | 4 => n | 5 => negb n | 6 => v | 7 => negb v
  | 8 => c && negb z | 9 => negb c || z
  | 10 => eqb n v | 11 => negb (eqb n v)
  | 12 => negb z && eqb n v | 13 => z || negb (eqb n v)
  | 14 => true | _ => false
  end.

(** What it says of [l] and [r] when the flags are those of [CMP l, r]. *)
Definition cmp_holds (cnd l r : Z) : bool :=
  let d := s32 l - s32 r in
  match cnd with
  | 0 => l =? r | 1 => negb (l =? r)
  | 2 => r <=? l | 3 => l <? r
  | 4 => s32 (u32 (l - r)) <? 0 | 5 => 0 <=? s32 (u32 (l - r))
  | 6 => (d <? -0x80000000) || (0x7fffffff <? d)
  | 7 => (-0x80000000 <=? d) && (d <=? 0x7fffffff)
  | 8 => r <? l | 9 => l <=? r
  | 10 => s32 r <=? s32 l | 11 => s32 l <? s32 r
  | 12 => s32 r <? s32 l | 13 => s32 l <=? s32 r
  | 14 => true | _ => false
  end.

Lemma flaglookup_nzcv cnd n z c v : flaglookup cnd (nzcv n z c v .>> 28) = cond_holds cnd n z c v.
Proof. by destruct n, z, c, v. Qed.

Lemma merged_flags p f : (p .& 0x0fffffff .| f) .>> 28 = f .>> 28.
Proof.
  rewrite Z.shiftr_lor, Z.shiftr_land. change (0x0fffffff .>> 28) with 0.
  by rewrite Z.land_0_r, Z.lor_0_l.
Qed.

(** Decides an equation of boolean tests on integers. *)
Ltac bool_cases :=
  repeat match goal with
  | |- context [?a <? ?b] => destruct (Z.ltb_spec a b)
  | |- context [?a <=? ?b] => destruct (Z.leb_spec a b)
  | |- context [?a =? ?b] => destruct (Z.eqb_spec a b)
  end; cbn; reflexivity || (exfalso; lia).

Lemma cmp_flags cnd l r :
  w32 l → w32 r → flaglookup cnd (sub_nzcv l r 1 .>> 28) = cmp_holds cnd l r.
Proof.
  intros Hl Hr. unfold sub_nzcv. cbv zeta. rewrite flaglookup_nzcv.
  replace (l - r - (1 - 1)) with (l - r) by lia.
  replace (s32 l - s32 r - (1 - 1)) with (s32 l - s32 r) by lia.
  unfold cmp_holds. cbv zeta. destruct (u32_cases (l - r)) as (q & Hq & Hw).
  pose proof (s32_w32 l Hl) as El. pose proof (s32_w32 r Hr) as Er.
  pose proof (s32_w32 _ Hw) as Ed. unfold w32 in *.
  revert El Er Ed. unfold cond_holds.
  destruct (Z.leb_spec 0x80000000 l), (Z.leb_spec 0x80000000 r),
    (Z.leb_spec 0x80000000 (u32 (l - r))); intros El Er Ed; destruct cnd;
    repeat match goal with |- context [match ?p with xI _ => _ | _ => _ end] => is_var p; destruct p end;
    try reflexivity; rewrite ?El, ?Er, ?Ed; bool_cases.
Qed.

Section compare.
Context {S P : Type} `{!MemSys S P, !HostSys S P, !MemSysOk S P, !HostSysOk S P}.
Implicit Types m : Mach S P.

(** The second operand of a data-processing instruction. *)
Definition dp_operand (k o : Z) m : Z :=
  fst (if Z.testbit k 5 then imm_operand o (cf m) else operand2 o m).

Lemma dp_operand_w32 k o m : base_inv m → w32 (dp_operand k o m).
Proof.
  intros Hm. unfold dp_operand. destruct (Z.testbit k 5).
  - rewrite arm_imm_operand. apply w32_arm_imm.
  - rewrite <- shift2_eq by (by apply rreg_w32). by apply shift2_w32.
Qed.


(** After [CMP], every condition is the comparison it is named for. *)
Lemma compare_then_condition k o m :
  k = 0x15 ∨ k = 0x35 → (o .>> 20) .& 0xff = k → is_dp k o = true → RD o ≠ 15 → core_inv m →
  ∃ m', execute o m = Some (tt, m') ∧
    ∀ o2, condition o2 m' = cmp_holds (o2 .>> 28) (GETADDR (RN o) m) (dp_operand k o m).
Proof.
  intros Hk He Hd Hr Hm. eexists. split; [by apply execute_dp_result with (k := k)|].
  intros o2. pose proof (core_base _ Hm) as Hb.
  assert (dp_result k o m = put_psr ((psr m .& 0x0fffffff) .|
    sub_nzcv (GETADDR (RN o) m) (dp_operand k o m) 1) m) as ->.
  { unfold dp_result, dp_operand. destruct Hk as [-> | ->]; cbn [Z.testbit Pos.testbit].
    - by destruct (operand2 o m).
    - by destruct (imm_operand o (cf m)). }
  unfold condition, put_psr. cbn. rewrite (bi_pcpsr _ Hb), (bi_cpsr _ Hb), arr_same, merged_flags.
  apply cmp_flags; [by apply GETADDR_w32 | by apply dp_operand_w32].
Qed.
End compare.

(** * Branches *)

(** The 24-bit offset field of a branch, signed. *)
Definition s24 (x : Z) : Z :=
  let y := x mod 0x1000000 in if y <? 0x800000 then y else y - 0x1000000.

Definition pc_bits (md : Z) : Z := if ARM_MODE_32 md then 0x100000000 else 0x4000000.

Lemma land_pc_mask md x : x .& pc_mask md = x mod pc_bits md - x mod 4.
Proof.
  assert (∀ k, 2 ≤ k → x .& (Z.ldiff (Z.ones k) 3) = x mod 2 ^ k - x mod 4) as H.
  { intros k Hk. replace (x .& Z.ldiff (Z.ones k) 3) with (Z.ldiff (x .& Z.ones k) (Z.ones 2)).
    - rewrite Z.ldiff_ones_r, Z.shiftl_mul_pow2, Z.shiftr_div_pow2, Z.land_ones by lia.
      assert (x mod 4 = (x mod 2 ^ k) mod 4) as ->.
      { symmetry. apply Z.mod_mod_divide. exists (2 ^ (k - 2)).
        change 4 with (2 ^ 2). rewrite <- Z.pow_add_r by lia. f_equal. lia. }
      change (2 ^ 2) with 4. pose proof (Z.div_mod (x mod 2 ^ k) 4). lia.
    - apply Z.bits_inj'. intros i Hi. by rewrite !Z.land_spec, !Z.ldiff_spec, Z.land_spec, andb_assoc. }
  unfold pc_mask, pc_bits. destruct (ARM_MODE_32 md); [apply (H 32) | apply (H 26)]; lia.
Qed.

Lemma u32_add_l x y : u32 (u32 x + y) = u32 (x + y).
Proof. apply Z.add_mod_idemp_l. done. Qed.

(** Only the address part of R15 matters to the address it leads to. *)
Lemma pc_add md x d : u32 ((x .& pc_mask md) + 4 * d) .& pc_mask md = u32 (x + 4 * d) .& pc_mask md.
Proof.
  rewrite !land_pc_mask. unfold u32.
  assert (∃ p, pc_bits md = 4 * p ∧ 0 < p) as (p & Hp & Hp0)
    by (unfold pc_bits; destruct (ARM_MODE_32 md); [exists 0x40000000 | exists 0x1000000]; lia).
  assert (Z.divide (pc_bits md) 0x100000000) as Hd
    by (unfold pc_bits; destruct (ARM_MODE_32 md); [exists 1 | exists 64]; lia).
  assert (Z.divide 4 (pc_bits md)) as H4 by (exists p; lia).
  rewrite !Z.mod_mod_divide by (done || by exists 0x40000000).
  assert (((x mod pc_bits md - x mod 4) + 4 * d) mod pc_bits md - 
          ((x mod pc_bits md - x mod 4) + 4 * d) mod 4 =
          (x + 4 * d) mod pc_bits md - (x + 4 * d) mod 4) as ->; [|done].
  assert ((x mod pc_bits md - x mod 4 + 4 * d) mod 4 = 0) as ->.
  { rewrite <- (Z.mod_mod_divide x (pc_bits md) 4) by done.
    pose proof (Z.div_mod (x mod pc_bits md) 4). 
    replace (x mod pc_bits md - (x mod pc_bits md) mod 4 + 4 * d)
      with ((x mod pc_bits md / 4 + d) * 4) by lia. apply Z.mod_mul. lia. }
  replace ((x + 4 * d) mod 4) with (x mod 4)
    by (rewrite (Z.mul_comm 4), Z.mod_add by lia; done).
  replace (x mod pc_bits md - x mod 4 + 4 * d) with (x mod pc_bits md + (4 * d - x mod 4)) by lia.
  rewrite Z.add_mod_idemp_l by lia.
  replace (x + (4 * d - x mod 4)) with ((x + 4 * d) - x mod 4) by lia.
  set (y := x + 4 * d).
  assert (x mod 4 = (y mod pc_bits md) mod 4) as Hy.
  { rewrite (Z.mod_mod_divide y (pc_bits md) 4) by done.
    unfold y. by rewrite (Z.mul_comm 4), Z.mod_add by lia. }
  rewrite Zminus_mod, (Z.mod_small (x mod 4) (pc_bits md))
    by (pose proof (Z.mod_pos_bound x 4); lia).
  rewrite Z.sub_0_r, Z.mod_small; [done|]. rewrite Hy.
  pose proof (Z.mod_pos_bound y (pc_bits md)). pose proof (Z.mod_le (y mod pc_bits md) 4).
  pose proof (Z.mod_pos_bound (y mod pc_bits md) 4). lia.
Qed.

Lemma branch_offset_spec o : branch_offset o = u32 (4 * s24 o).
Proof.
  unfold branch_offset, asr32. f_equal. unfold shl32. rewrite Z.shiftl_mul_pow2, Z.shiftr_div_pow2 by lia.
  change (2 ^ 8) with 256. change (2 ^ 6) with 64.
  assert (u32 (o * 256) = 256 * (o mod 0x1000000)) as E.
  { unfold u32. change 0x100000000 with (0x1000000 * 256). rewrite Z.mul_mod_distr_r by lia. lia. }
  pose proof (Z.mod_pos_bound o 0x1000000 eq_refl). rewrite E.
  rewrite s32_w32 by (unfold w32; lia). unfold s24. cbv zeta.
  destruct (Z.leb_spec 0x80000000 (256 * (o mod 0x1000000))),
    (Z.ltb_spec (o mod 0x1000000) 0x800000); try lia.
  - replace (256 * (o mod 0x1000000) - 0x100000000) with ((4 * (o mod 0x1000000 - 0x1000000)) * 64) by lia.
    rewrite Z.div_mul; lia.
  - replace (256 * (o mod 0x1000000)) with ((4 * (o mod 0x1000000)) * 64) by lia. rewrite Z.div_mul; lia.
Qed.

Lemma u32_add_mid x y z : u32 (x + u32 y + z) = u32 (x + y + z).
Proof. unfold u32. rewrite <- Z.add_mod_idemp_l, Z.add_mod_idemp_r, Z.add_mod_idemp_l; done. Qed.

Section branches.
Context {S P : Type} `{!MemSys S P, !HostSys S P, !MemSysOk S P, !HostSysOk S P}.
Implicit Types m : Mach S P.

Lemma land_mask_lor x y k : ((x .& k) .| (y .&~ k)) .& k = x .& k.
Proof.
  apply Z.bits_inj'. intros i Hi. rewrite !Z.land_spec, Z.lor_spec, Z.land_spec, Z.ldiff_spec. btauto.
Qed.

(** The address of the next instruction after the branch at [PC m], eight
    bytes of pipeline counted. *)
Definition branch_target o m : Z := u32 (PC m + 8 + 4 * s24 o) .& pc_mask (mode (arm m)).

(** A branch, and the loop's step past it, lead to the target; the PSR bits of
    a 26-bit R15 stay with it. *)
Lemma branch_spec o m :
  core_inv m →
  ∃ m', branch o m = Some (tt, m') ∧
    m' = upd_arm (put_reg 15 (rreg 15 m')) m ∧
    rreg 15 m' .&~ pc_mask (mode (arm m)) = rreg 15 m .&~ pc_mask (mode (arm m)) ∧
    (∀ m'', advance m' = Some (tt, m'') → PC m'' = branch_target o m).
Proof.
  intros Hm. pose proof (core_base _ Hm) as Hb. eexists. split; [reflexivity|].
  cbn. autorewrite with arr. rewrite (bi_pcmask _ Hb). set (md := mode (arm m)).
  split_and!.
  - unfold upd_arm. cbn. done.
  - apply Z.bits_inj'. intros i Hi.
    rewrite !Z.ldiff_spec, Z.lor_spec, Z.land_spec, Z.ldiff_spec. btauto.
  - intros m'' [= <-]. unfold PC. cbn. rewrite (bi_pcmask _ Hb). fold md. autorewrite with arr.
    unfold sub32, add32. rewrite branch_offset_spec. set (d := s24 o). set (r := reg (arm m) !!! 15).
    set (x := _ .| _).
    assert (x .& pc_mask md = u32 (r + 4 * (d + 1)) .& pc_mask md) as Hx.
    { unfold x. rewrite land_mask_lor. rewrite u32_add_mid. do 2 f_equal. lia. }
    replace (u32 (x + 4) - 8) with (u32 (x + 4) + -8) by lia. rewrite u32_add_l.
    replace (x + 4 + -8) with (x + 4 * -1) by lia. rewrite <- pc_add, Hx, pc_add, u32_add_l.
    unfold branch_target, PC. fold md d. rewrite (bi_pcmask _ Hb). unfold sub32. cbn. fold r md.
    replace (u32 (r - 8) .& pc_mask md) with (u32 (r + 4 * -2) .& pc_mask md)
      by (do 2 f_equal; lia).
    replace ((u32 (r + 4 * -2) .& pc_mask md) + 8 + 4 * d)
      with ((u32 (r + 4 * -2) .& pc_mask md) + 4 * (d + 2)) by lia.
    rewrite pc_add, u32_add_l. do 2 f_equal. lia.
Qed.

(** BL leaves the address of the next instruction in R14, with the PSR bits of
    a 26-bit R15, and branches. *)
Lemma branch_link_spec o m :
  branch_link o m = branch o (upd_arm (put_reg 14 (sub32 (rreg 15 m) 4)) m).
Proof. reflexivity. Qed.
End branches.

(** * Decoding *)

Lemma low_decode o : o .& 0xe000000 = 0 → (o .>> 20) .& 0xff < 0x20.
Proof.
  intros H. replace ((o .>> 20) .& 0xff) with ((o .>> 20) .& 0x1f).
  - change 0x1f with (Z.ones 5). rewrite Z.land_ones by done. by apply Z.mod_pos_bound.
  - assert ((o .>> 20) .& 0xe0 = 0) as H0.
    { rewrite <- (Z.shiftr_0_l 20), <- H, Z.shiftr_land. done. }
    change 0xff with (0x1f .| 0xe0). by rewrite Z.land_lor_distr_r, H0, Z.lor_0_r.
Qed.

Section decode.
Context {S P : Type} `{!MemSys S P, !HostSys S P}.
Implicit Types m : Mach S P.

(** Only opcodes below 0x20 can be halfword transfers. *)
Lemma execute_switch_eq o m :
  0x20 ≤ (o .>> 20) .& 0xff → execute o m = execute_switch o m.
Proof.
  intros Hk. unfold execute, gets, mbind, M_bind. cbv beta iota.
  assert (o .& 0xe000000 ≠ 0) as Hn by (intros H%low_decode; lia).
  rewrite (proj2 (Z.eqb_neq (o .& 0xe0000f0) 0xb0)), (proj2 (Z.eqb_neq (o .& 0xe1000d0) 0x1000d0)).
  - by rewrite !andb_false_r.
  - intros H. apply Hn. by rewrite (land_mask_eq o 0xe1000d0 0x1000d0).
  - intros H. apply Hn. by rewrite (land_mask_eq o 0xe0000f0 0xb0).
Qed.

Lemma execute_branch o m :
  0xa0 ≤ (o .>> 20) .& 0xff < 0xb0 → execute o m = branch o m.
Proof.
  intros Hk. rewrite execute_switch_eq by lia. unfold execute_switch.
  revert Hk. generalize ((o .>> 20) .& 0xff) as k. intros k Hk.
  each_value k 0xa0 0xb0 ltac:(reflexivity).
Qed.

Lemma execute_branch_link o m :
  0xb0 ≤ (o .>> 20) .& 0xff < 0xc0 → execute o m = branch_link o m.
Proof.
  intros Hk. rewrite execute_switch_eq by lia. unfold execute_switch.
  revert Hk. generalize ((o .>> 20) .& 0xff) as k. intros k Hk.
  each_value k 0xb0 0xc0 ltac:(reflexivity).
Qed.
End decode.

(** B and BL as the instruction switch runs them. *)
Section branch_instruction.
Context {S P : Type} `{!MemSys S P, !HostSys S P, !MemSysOk S P, !HostSysOk S P}.
Implicit Types m : Mach S P.

Lemma core_link m : core_inv m → core_inv (upd_arm (put_reg 14 (sub32 (rreg 15 m) 4)) m).
Proof.
  intros [Hb Hp]. split; [apply base_put_reg; [done | apply u32_w32] | by apply psr_put_reg].
Qed.

Lemma branch_execute o m :
  core_inv m → 0xa0 ≤ (o .>> 20) .& 0xff < 0xc0 →
  let m0 := if Z.testbit o 24 then upd_arm (put_reg 14 (sub32 (rreg 15 m) 4)) m else m in
  ∃ m', execute o m = Some (tt, m') ∧
    m' = upd_arm (put_reg 15 (rreg 15 m')) m0 ∧
    rreg 15 m' .&~ pc_mask (mode (arm m)) = rreg 15 m .&~ pc_mask (mode (arm m)) ∧
    (∀ m'', advance m' = Some (tt, m'') → PC m'' = branch_target o m).
Proof.
  intros Hm Hk m0.
  assert (Z.testbit o 24 = Z.testbit ((o .>> 20) .& 0xff) 4) as H24
    by (by rewrite Z.land_spec, Z.shiftr_spec, andb_true_r).
  assert ((Z.testbit o 24 = false ∧ (o .>> 20) .& 0xff < 0xb0) ∨
          (Z.testbit o 24 = true ∧ 0xb0 ≤ (o .>> 20) .& 0xff)) as [[H Hl]|[H Hl]].
  { rewrite H24. revert Hk. generalize ((o .>> 20) .& 0xff) as k. intros k Hk. clear m0 H24.
    each_value k 0xa0 0xc0 ltac:(by (left + right)). }
  - unfold m0. rewrite H, execute_branch by lia. by apply branch_spec.
  - unfold m0. rewrite H, execute_branch_link, branch_link_spec by lia.
    destruct (branch_spec o _ (core_link m Hm)) as (m' & Hr & He & Hb & Ht).
    exists m'. split; [exact Hr|]. split; [exact He|]. split.
    + etransitivity; [exact Hb|]. cbn. by rewrite arr_other.
    + intros m'' Ha. rewrite (Ht m'' Ha). unfold branch_target, PC. cbn. by rewrite arr_other.
Qed.
End branch_instruction.
