(* ===== verification/ArmLoop.v ===== *)
(** The interpreter loop: events, instructions whose condition fails, the count
    of turns, the User bank pointers and the reset. *)

From S2P Require Export ArmControl.

(** * The pointers to User mode's registers *)

Section user_bank.
Context {S P : Type} `{!MemSys S P, !HostSys S P, !MemSysOk S P, !HostSysOk S P}.
Implicit Types m : Mach S P.

(** LDM and STM with the S bit see User mode's registers from every mode. *)
Lemma ruser_arch c m :
  core_inv m → valid_mode (mode (arm m)) → 0 ≤ c < 15 → ruser c m = arch_reg (arm m) USER c.
Proof.
  intros [Hb _] Hv Hc. unfold ruser. rewrite (bi_usr _ Hb) by lia. unfold usr_ref, arch_reg, banked, bank_id.
  change USER with 0. rewrite (proj2 (Z.eqb_neq c 15)) by lia.
  assert (c < 8 ∨ 8 ≤ c < 13 ∨ c = 13 ∨ c = 14) as Hcases by lia.
  valid_cases Hv; match goal with H : _ .& 15 = _ |- _ => rewrite !H end;
    destruct Hcases as [Hcs|[Hcs|[->| ->]]]; cbn;
    try (rewrite (proj2 (Z.ltb_lt c 8)) by lia);
    try (rewrite (proj2 (Z.ltb_ge c 8)), (proj2 (Z.ltb_lt c 13)) by lia); cbn;
    repeat case_match; rewrite ?Z.leb_le, ?Z.leb_gt in *; try lia;
    simplify_eq/=; try discriminate; reflexivity.
Qed.
Lemma usr_ref_bank md c :
  valid_mode md → 0 ≤ c < 15 →
  usr_ref md c = if (c <? 8) || (bank_id md c =? 0) then InReg c else InUser c.
Proof.
  intros Hv Hc. unfold usr_ref, bank_id. rewrite (proj2 (Z.eqb_neq c 15)) by lia.
  valid_cases Hv; match goal with H : _ .& 15 = _ |- _ => rewrite !H end; cbn;
    destruct (Z.ltb_spec c 8), (Z.ltb_spec c 13); cbn; repeat case_match;
    rewrite ?Z.leb_le, ?Z.leb_gt in *; done || lia.
Qed.

(** A store through the pointers is seen as User mode's register, and as no
    other register of any mode. *)
Lemma wuser_arch c v m :
  core_inv m → valid_mode (mode (arm m)) → 0 ≤ c < 15 →
  ∃ m', wuser c v m = Some (tt, m') ∧ arch_reg (arm m') USER c = v ∧
    ∀ md r, valid_mode md → 0 ≤ r < 15 →
      (r ≠ c ∨ (8 ≤ c ∧ bank_id md c ≠ bank_id USER c)) →
      arch_reg (arm m') md r = arch_reg (arm m) md r.
Proof.
  intros [Hb _] Hv Hc. assert (bank_id USER c = 0) as H0 by (unfold bank_id; by destruct (c <? 13)).
  unfold wuser, gets, modify, wreg, mbind, M_bind. cbv beta iota.
  rewrite (bi_usr _ Hb), usr_ref_bank by (done || lia). unfold arch_reg. rewrite H0.
  destruct (Z.ltb_spec c 8), (Z.eqb_spec (bank_id (mode (arm m)) c) 0); cbn [orb];
    (eexists; split; [reflexivity|]; split; cbn; [|intros md r Hm Hr Hne]).
  all: repeat match goal with
    | |- context [?a <? ?b] => destruct (Z.ltb_spec a b); try lia
    | |- context [if ?a =? ?b then _ else _] => destruct (Z.eqb_spec a b); try lia
    end; unfold banked; cbn; rewrite ?arr_get_set, ?H0; repeat case_match; try done; subst; try congruence; lia.
Qed.
End user_bank.

(** * A turn of the loop *)

Section loop.
Context {S P : Type} `{!MemSys S P, !HostSys S P, !MemSysOk S P, !HostSysOk S P}.
Implicit Types m : Mach S P.

(** An instruction whose condition fails only moves on. *)
Lemma step_not_executed o m m1 :
  fetch m = Some (Some o, m1) → condition o m1 = false →
  debugger_hook_active (P:=P) (sys m1) = false → event (arm m1) = 0 →
  step m = Some (false, upd_arm (put_reg 15 (add32 (rreg 15 m1) 4)) m1).
Proof.
  intros Hf Hc Hd He. unfold step. rewrite bind_run, Hf. unfold gets, mret, M_ret, mbind, M_bind.
  cbv beta iota. rewrite Hd. cbv beta iota. rewrite Hc. cbn [when].
  unfold mret, M_ret. cbv beta iota. rewrite Hd. cbn [when]. unfold mret, M_ret. cbv beta iota.
  unfold check_events, gets, mbind, M_bind. cbv beta iota. by rewrite He.
Qed.

(** ** Events *)

(** The exception that is due in a 32-bit mode: its mode, its vector as the
    core stores it, and the event word afterwards. *)
Definition due (ev psr : Z) : option (Z * Z) :=
  if Z.testbit ev 6 then Some (ABORT, 0x14)
  else if Z.testbit ev 1 && negb (Z.testbit psr 6) then Some (FIQ, 0x20)
  else if Z.testbit ev 0 && negb (Z.testbit psr 7) then Some (IRQ, 0x1c)
  else None.

Lemma due_modes ev p md a : due ev p = Some (md, a) → md ∈ exception_modes.
Proof.
  unfold due, exception_modes. intros H. repeat case_match; simplify_eq; set_solver.
Qed.

Lemma entered_set_event md a l e m m' :
  exception_entered md a l m m' → exception_entered md a l m (upd_arm (set_event e) m').
Proof. intros []. by split. Qed.

(** In a 32-bit mode the highest pending event that is not masked, and no
    other, is taken: an abort before a FIQ before an IRQ. *)
Lemma check_events_32 m :
  core_inv m → valid_mode (mode (arm m)) → ARM_MODE_32 (mode (arm m)) = true →
  match due (event (arm m)) (rreg 16 m) with
  | None => check_events m = Some (tt, m)
  | Some (md, a) =>
      ∃ m', check_events m = Some (tt, m') ∧ exception_entered md a (rreg 15 m) m m' ∧
            (md = ABORT → aborted m' = false)
  end.
Proof.
  intros Hm Hv H32. pose proof (rreg_w32 15 m (core_base _ Hm)) as H15.
  assert (∀ md a, due (event (arm m)) (rreg 16 m) = Some (md, a) →
    ∃ m', exception md a 0 m = Some (tt, m') ∧ exception_entered md a (rreg 15 m) m m') as Hex.
  { intros md a Hd%due_modes. destruct (exception_32 md a 0 m Hm Hv H32 Hd) as (m' & ? & He).
    exists m'. split; [done|]. unfold sub32 in He. rewrite Z.sub_0_r, u32_id in He by done. done. }
  revert Hex. unfold check_events, due, gets, mbind, M_bind. cbv beta iota.
  destruct (nz (event (arm m))) eqn:Ez; cbn [when].
  2:{ apply negb_false_iff, Z.eqb_eq in Ez. rewrite Ez, !Z.bits_0. by intros _. }
  rewrite H32. cbn [negb when]. unfold mret, M_ret. cbv beta iota.
  rewrite (nz_mask_bit _ 6), (nz_mask_bit _ 1), (nz_mask_bit _ 0), (nz_mask_bit _ 6),
    (nz_mask_bit _ 7) by done.
  destruct (Z.testbit (event (arm m)) 6); [|repeat (destruct (_ && _); [|])].
  - intros Hex. destruct (Hex _ _ eq_refl) as (m' & Hr & He). rewrite Hr.
    eexists. split; [reflexivity|]. split; [by apply entered_set_event|].
    intros _. unfold aborted. cbn. rewrite Z.ldiff_land, <- Z.land_assoc.
    by rewrite (Z.land_comm (Z.lnot _)), Z.land_lnot_diag, Z.land_0_r.
  - intros Hex. destruct (Hex _ _ eq_refl) as (m' & Hr & He). by exists m'.
  - intros Hex. destruct (Hex _ _ eq_refl) as (m' & Hr & He). by exists m'.
  - done.
Qed.

(** ** The number of turns *)

Lemma step_goes_on m b m' :
  (∀ s, debugger_hook_active (P:=P) s = false) → step m = Some (b, m') → b = false.
Proof.
  intros Hd. unfold step. rewrite bind_run. destruct (fetch m) as [[[o|] m1]|]; [..|done].
  - rewrite bind_run. unfold gets at 1. rewrite Hd, bind_Some. intros (st & m2 & Hs & H).
    unfold mret, M_ret in Hs. injection Hs as <- <-.
    repeat (apply bind_Some in H as (? & ? & _ & H)). by injection H as <- _.
  - intros H. repeat (apply bind_Some in H as (? & ? & _ & H)). by injection H as <- _.
Qed.

Lemma arm_exec_from_count n c m k m' :
  c + Z.of_nat n = 200 → arm_exec_from n c m = Some (k, m') →
  c ≤ k ≤ 200 ∧ ((∀ s, debugger_hook_active (P:=P) s = false) → k = 200).
Proof.
  revert c m. induction n as [|n IH]; intros c m Hc Hr; cbn [arm_exec_from] in Hr.
  - injection Hr as <- _. split; [lia | done].
  - apply bind_Some in Hr as (stop & m1 & Hs & Hr). destruct stop.
    + injection Hr as <- _. split; [lia|]. intros Hd. by apply step_goes_on in Hs.
    + apply IH in Hr as [? ?]; [|lia]. split; [lia | done].
Qed.
End loop.

(** * Reset *)

Section reset.
Context {S P : Type} `{!MemSys S P, !HostSys S P, !MemSysOk S P, !HostSysOk S P}.
Implicit Types m : Mach S P.

(** The last step of [arm_reset], the parameters of the CPU model. *)
Definition is_v4 (cpu_model : CPUModel) : bool :=
  match cpu_model with CPUModel_SA110 | CPUModel_ARM810 => true | _ => false end.

Record reset_state (cpu_model : CPUModel) m m' : Prop := {
  rs_mode : mode (arm m') = SUPERVISOR;
  rs_r15 : rreg 15 m' = 0x0c00000b;
  rs_psr : psr m' = rreg 15 m';
  rs_pc : PC m' = 0;
  rs_v4 : arch_v4 (arm m') = Z.b2z (is_v4 cpu_model);
  rs_diff : r15_diff (arm m') = if is_v4 cpu_model then 0 else 4;
  rs_event : event (arm m') = 0;
  rs_cache : pccache m' = 0xffffffff;
  rs_sys : sys m' = ms_set_privilege (P:=P) 1 (sys m)
}.

Lemma core_set_model m v4 wb ab d :
  core_inv m → w32 d →
  core_inv (upd_arm (λ a, set_arch_v4 v4 (set_stm_writeback_at_end wb
    (set_abort_base_restored ab (set_r15_diff d a)))) m).
Proof. intros [[[]] ?] Hd. split; [split|]; try done. Qed.

(** From any state at all, [arm_reset] gives a well-formed one at the reset
    vector in SVC mode with both interrupts masked. *)
Lemma arm_reset_run cpu_model m :
  ∃ m', arm_reset cpu_model m = Some (tt, m') ∧ core_inv m' ∧ reset_state cpu_model m m'.
Proof.
  set (s1 := set_pccache 0xffffffff (upd_arm (set_r15_mask 0x3fffffc) (set_arm arm_zero m))).
  assert (valid_mode SUPERVISOR) as Hv by (vm_compute; intuition discriminate).
  destruct (valid_loads SUPERVISOR (set_mode SUPERVISOR (store_back (arm s1))) Hv) as (a' & El).
  assert (words a') as Hw.
  { eapply words_load_bank; [|exact El].
    assert (words (arm s1)) as H by (pose proof words_zero as []; by split).
    pose proof (words_store_back _ H) as []; by split. }
  assert (mode a' = SUPERVISOR) as Hmd by by destruct (load_bank_fields _ _ _ El) as [-> _].
  assert (event a' = 0) as Hev by (vm_compute in El; by injection El as <-).
  set (s2 := mode_entered 0 SUPERVISOR a' s1).
  assert (base_inv s2) as Hb by (apply mode_entered_base; [done..|unfold SUPERVISOR; lia]).
  assert (core_inv s2) as Hc.
  { split; [done|]. intros E. unfold s2 in E. by rewrite mode_entered_mode in E. }
  set (s3 := set_pccache 0xffffffff (upd_arm (set_mode SUPERVISOR) (upd_arm (put_reg 16 (SUPERVISOR .| 0xd0))
    (upd_arm (put_reg 15 (0x0c000008 .| 3)) (set_cpsr 15 s2))))).
  assert (core_inv s3) as Hc3.
  { assert (mode (arm s2) = SUPERVISOR) as Hm2 by by apply mode_entered_mode.
    assert (base_inv (upd_arm (put_reg 16 (SUPERVISOR .| 0xd0)) (upd_arm (put_reg 15 (0x0c000008 .| 3)) s2)))
      as [[] ? ? ? Hcp ? ? ?]
      by (do 2 (apply base_put_reg; [|by vm_compute]); done).
    cbn in *. split; [|intros E; done].
    split; cbn; rewrite ?Hm2 in *; try done. }
  assert (updatemode SUPERVISOR s1 = Some (tt, s2)) as Hu.
  { unfold updatemode, gets, mbind, M_bind. cbv beta iota.
    rewrite updatemode_at_run. cbv zeta. by rewrite El. }
  exists (upd_arm (λ a, set_arch_v4 (Z.b2z (is_v4 cpu_model)) (set_stm_writeback_at_end
    (Z.b2z (is_v4 cpu_model)) (set_abort_base_restored (Z.b2z (is_v4 cpu_model))
    (set_r15_diff (if is_v4 cpu_model then 0 else 4) a)))) s3).
  split; [|split; [apply core_set_model; [done|by destruct (is_v4 _)]|]].
  - unfold arm_reset, modify, wreg, mbind, M_bind. cbv beta iota. fold s1. rewrite Hu.
    cbv beta iota. fold s3. by destruct cpu_model.
  - assert (event (arm s2) = 0) as Hev2 by (unfold s2, mode_entered; cbn; exact Hev).
    split; try done; cbn; autorewrite with arr; try done.
    unfold PC. cbn. by autorewrite with arr.
Qed.
End reset.

(** * Exceptions return to where they were taken *)

Lemma exception_priv mmode : mmode ∈ exception_modes → ARM_MODE_PRIV (0x10 .| mmode) = true.
Proof.
  unfold exception_modes. rewrite !elem_of_cons, elem_of_nil. by intros [->|[->|[->|[->|[->|[]]]]]].
Qed.

Lemma pc_clear a : w32 a → a .& 3 = 0 → a .&~ 0xfffffffc = 0.
Proof.
  intros Hw Ha. apply Z.bits_inj'. intros i Hi. rewrite Z.ldiff_spec, Z.bits_0.
  apply (f_equal (λ x, Z.testbit x i)) in Ha. rewrite Z.land_spec, Z.bits_0 in Ha.
  change 0xfffffffc with (Z.ldiff (Z.ones 32) 3). rewrite Z.ldiff_spec.
  destruct (Z.lt_ge_cases i 32).
  - rewrite Z.ones_spec_low by lia. destruct (Z.testbit a i), (Z.testbit 3 i); done.
  - by rewrite w32_high.
Qed.

Section round_trip.
Context {S P : Type} `{!MemSys S P, !HostSys S P, !MemSysOk S P, !HostSysOk S P}.
Implicit Types m : Mach S P.

(** [exception] from a 32-bit mode, then [MOVS pc, r14] or [SUBS pc, r14, #4]
    (a write to R15 with the S bit) and the loop's step: execution resumes at
    [R14 - back], in the interrupted mode with its status, and with every
    register of every mode but the R14 of the exception's. *)
Lemma exception_return mmode address diff back o m :
  core_inv m → valid_mode (mode (arm m)) → ARM_MODE_32 (mode (arm m)) = true →
  mmode ∈ exception_modes → w32 address → address .& 3 = 0 →
  ∃ m1 m2, exception mmode address diff m = Some (tt, m1) ∧ mode (arm m1) = 0x10 .| mmode ∧
    arm_write_r15 o (sub32 (rreg 14 m1) back) m1 = Some (tt, m2) ∧
    mode (arm m2) = mode (arm m) ∧ rreg 16 m2 = rreg 16 m ∧
    rreg 15 m2 = u32 (rreg 15 m - diff - back + 4) .& 0xfffffffc ∧
    ∀ md r, valid_mode md → 0 ≤ r < 15 →
      ¬ (r = 14 ∧ bank_id md 14 = bank_id (0x10 .| mmode) 14) →
      arch_reg (arm m2) md r = arch_reg (arm m) md r.
Proof.
  intros Hm Hv H32 Hmm Hwa Ha. destruct (exception_mode_valid mmode Hmm) as (Hr & Hvm & Hm32 & Hlow).
  destruct (exception_32 mmode address diff m Hm Hv H32 Hmm) as (m1 & Hrun & [Emd Elk Epc _ Esp _ Ereg]).
  pose proof (ok_run _ _ _ _ _ (ok_exception mmode address diff Hr Hwa) Hm Hrun) as Hm1.
  change ((0x10 .| mmode) .& 0xf = mmode) in Hlow.
  assert (rspsr (mode (arm m1) .& 0xf) m1 .& 0x1f = mode (arm m)) as Hsp.
  { rewrite Emd, Hlow, Esp. by apply (proj2 Hm). }
  destruct (arm_write_r15_return o (sub32 (rreg 14 m1) back) m1 Hm1) as (m2 & Hrun2 & [Rmd R16 R15 Rreg]);
    rewrite ?Hsp, ?Emd; try done.
  { by apply exception_priv. }
  exists m1, m2. split_and!; [done|done|done| | | |].
  - by rewrite Rmd, Hsp.
  - by rewrite R16, Emd, Hlow, Esp.
  - rewrite R15, Epc, Elk, pc_clear by done. unfold add32, sub32. rewrite Z.lor_0_l.
    f_equal. rewrite u32_add_l. unfold u32. rewrite <- (Z.add_mod_idemp_l (_ - back)), Zminus_mod_idemp_l,
      Z.add_mod_idemp_l by done. done.
  - intros md r Hmd Hr' Hn. rewrite Rreg by done. by apply Ereg.
Qed.
End round_trip.

(** * Changes of mode that involve a 26-bit one *)
Section from_26.
Context {S P : Type} `{!MemSys S P, !HostSys S P, !MemSysOk S P, !HostSysOk S P}.
Implicit Types s : Mach S P.

(** What a change of mode to or from a 26-bit mode does to the status. *)
Lemma updatemode_at_fields m pc s s' :
  valid_mode m → updatemode_at m pc s = Some (tt, s') →
  ∃ a, s' = mode_entered (mode (arm s)) m a s ∧ mode a = m ∧ spsr a = spsr (arm s) ∧
    reg a !!! 15 = rreg 15 s ∧ reg a !!! 16 = rreg 16 s.
Proof.
  intros Hm. rewrite updatemode_at_run. cbv zeta.
  destruct (valid_loads m (set_mode m (store_back (arm s))) Hm) as (a & El). rewrite El.
  intros [= <-]. exists a. destruct (load_bank_fields _ _ _ El) as (Hmode & H15 & H16).
  destruct (store_back_fields (arm s)) as (_ & _ & _ & Hr). cbn in H15, H16. rewrite Hr in *.
  split_and!; try done. rewrite (load_bank_spsr _ _ _ El). apply store_back_spsr.
Qed.

Lemma updatemode_at_up m pc s s' :
  valid_mode m → ARM_MODE_32 (mode (arm s)) = false → ARM_MODE_32 m = true →
  updatemode_at m pc s = Some (tt, s') →
  spsr (arm s') = spsr (arm s) ∧ rreg 15 s' = rreg 15 s .& 0x3fffffc ∧
  rreg 16 s' = ((rreg 15 s .& 0xf0000000) .| m) .| ((rreg 15 s .& 0xc000000) .>> 20).
Proof.
  intros Hm Ho Hn Hu. destruct (updatemode_at_fields m pc s s' Hm Hu) as (a & -> & Hma & Hsp & H15 & H16).
  unfold mode_entered, enter_32. rewrite Hn, Ho. unfold rreg. cbn. autorewrite with arr. by rewrite H15, Hma.
Qed.

Lemma updatemode_at_down m pc s s' :
  valid_mode m → ARM_MODE_32 (mode (arm s)) = true → ARM_MODE_32 m = false →
  updatemode_at m pc s = Some (tt, s') →
  let p := (rreg 16 s .& 0xffffffe0) .| m in
  rreg 16 s' = p ∧
  rreg 15 s' = (((rreg 15 s .& 0x3fffffc) .| (m .& 3)) .| (p .& 0xf0000000)) .| shl32 (p .& 0xc0) 20.
Proof.
  intros Hm Ho Hn Hu. destruct (updatemode_at_fields m pc s s' Hm Hu) as (a & -> & Hma & Hsp & H15 & H16).
  unfold mode_entered, enter_26. rewrite Hn, Ho. unfold rreg. cbn. autorewrite with arr. by rewrite H15, H16, Hma.
Qed.

Lemma updatemode_at_26 m pc s s' :
  valid_mode m → ARM_MODE_32 (mode (arm s)) = false → ARM_MODE_32 m = false →
  updatemode_at m pc s = Some (tt, s') → rreg 15 s' = rreg 15 s.
Proof.
  intros Hm Ho Hn Hu. destruct (updatemode_at_fields m pc s s' Hm Hu) as (a & -> & Hma & Hsp & H15 & H16).
  unfold mode_entered, enter_26. rewrite Hn, Ho. unfold rreg. cbn. by autorewrite with arr.
Qed.
End from_26.

(** ** Exceptions from a 26-bit mode *)

(** A 26-bit mode is named by the low bits of R15. *)
Definition mode_26 (md : Z) : Prop := 0 ≤ md < 4.

Lemma mode_26_valid md : mode_26 md → valid_mode md ∧ ARM_MODE_32 md = false ∧ md .& 3 = md.
Proof.
  intros H. assert (md = 0 ∨ md = 1 ∨ md = 2 ∨ md = 3) as Hc by (unfold mode_26 in H; lia).
  destruct Hc as [->|[->|[->| ->]]]; (split; [|by split]); (split; [done | auto 10]).
Qed.

(** The CPSR that R15 stands for, entering mode [m]; and R15 from a CPSR. *)
Definition cpsr_of_r15 (r15 m : Z) : Z := ((r15 .& 0xf0000000) .| m) .| ((r15 .& 0xc000000) .>> 20).
Definition r15_of_cpsr (r15 p m : Z) : Z :=
  (((r15 .& 0x3fffffc) .| (m .& 3)) .| (p .& 0xf0000000)) .| shl32 (p .& 0xc0) 20.
(** The mode an exception enters on a CPU that has only 26-bit modes. *)
Definition entry_26 (mmode : Z) : Z := if SUPERVISOR <=? mmode then SUPERVISOR else mmode.

Lemma entry_26_mode mmode : mmode ∈ exception_modes →
  mode_26 (entry_26 mmode) ∧ ARM_MODE_PRIV (entry_26 mmode) = true.
Proof.
  unfold exception_modes. rewrite !elem_of_cons, elem_of_nil. by intros [->|[->|[->|[->|[->|[]]]]]].
Qed.

Section from_26.
Context {S P : Type} `{!MemSys S P, !HostSys S P, !MemSysOk S P, !HostSysOk S P}.
Implicit Types s : Mach S P.

Lemma arch_set_spsr v a md r : arch_reg (set_spsr v a) md r = arch_reg a md r.
Proof. reflexivity. Qed.

(** [prog32], as it is after the debugger has been told of the exception. *)
Definition prog32_at (mmode address : Z) s : bool :=
  nz (ms_prog32 (debugger_exception_hook (P:=P) mmode address (rreg 15 s) (sys s))).

(** Exception entry from a 26-bit mode, into a 32-bit mode... *)
Lemma exception_up mmode address diff s :
  core_inv s → mode_26 (mode (arm s)) → prog32_at mmode address s = true → mmode ∈ exception_modes →
  let link := sub32 (rreg 15 s) diff in
  ∃ s', exception mmode address diff s = Some (tt, s') ∧
    mode (arm s') = 0x10 .| mmode ∧ rreg 14 s' = link .& 0x3fffffc ∧ rreg 15 s' = address ∧
    rspsr mmode s' = ((cpsr_of_r15 (rreg 15 s) (0x10 .| mmode) .&~ 0x1f) .| (link .& 3)) .&~ 0x10 ∧
    ∀ md r, valid_mode md → 0 ≤ r < 15 → ¬ (r = 14 ∧ bank_id md 14 = bank_id (0x10 .| mmode) 14) →
      arch_reg (arm s') md r = arch_reg (arm s) md r.
Proof.
  intros Hs Hmd Hp Hm link. destruct (mode_26_valid _ Hmd) as (Hv & H26 & _).
  destruct (exception_mode_valid mmode Hm) as (_ & Hvm & Hm32 & _).
  set (s1 := set_sys (debugger_exception_hook (P:=P) mmode address (rreg 15 s) (sys s)) s).
  destruct (updatemode_at_arch (0x10 .| mmode) (PC s1) s1 Hv Hvm) as (s2 & Hu & Hmode & Harch).
  destruct (updatemode_at_up _ _ s1 s2 Hvm H26 Hm32 Hu) as (_ & _ & H16).
  eexists. split.
  { unfold exception, hook. unfold modify, gets, mbind, M_bind. cbv beta iota zeta.
    change (mode (arm (set_sys _ s))) with (mode (arm s)). rewrite H26.
    unfold prog32_at in Hp. cbn [sys set_sys]. rewrite Hp.
    unfold updatemode, wspsr, modify, gets, mbind, M_bind. cbv beta iota. fold s1. rewrite Hu. cbv beta iota.
    unfold wreg, modify, gets. cbv beta iota. reflexivity. }
  unfold rreg, rspsr in *; cbn; autorewrite with arr. cbn in H16. rewrite H16. split_and!; try done.
  intros md r Hmd' Hr' Hn. unfold upd_arm. cbn.
  repeat first [rewrite arch_put_low by lia | rewrite arch_set_spsr].
  rewrite arch_put_14 by (lia || by rewrite Hmode). by rewrite Harch.
Qed.

(** ... or into a 26-bit mode. *)
Lemma exception_26 mmode address diff s :
  core_inv s → mode_26 (mode (arm s)) → prog32_at mmode address s = false → mmode ∈ exception_modes →
  ∃ s', exception mmode address diff s = Some (tt, s') ∧
    mode (arm s') = entry_26 mmode ∧ rreg 14 s' = sub32 (rreg 15 s) diff ∧
    rreg 15 s' = (rreg 15 s .& 0xfc000000) .| ((shl32 (irq_bits mmode) 20 .| address) .| entry_26 mmode) ∧
    ∀ md r, valid_mode md → 0 ≤ r < 15 → ¬ (r = 14 ∧ bank_id md 14 = bank_id (entry_26 mmode) 14) →
      arch_reg (arm s') md r = arch_reg (arm s) md r.
Proof.
  intros Hs Hmd Hp Hm. destruct (mode_26_valid _ Hmd) as (Hv & H26 & _).
  destruct (entry_26_mode mmode Hm) as [He _]. destruct (mode_26_valid _ He) as (Hve & He26 & _).
  set (s1 := set_sys (debugger_exception_hook (P:=P) mmode address (rreg 15 s) (sys s)) s).
  destruct (updatemode_at_arch (entry_26 mmode) (PC s1) s1 Hv Hve) as (s2 & Hu & Hmode & Harch).
  pose proof (updatemode_at_26 _ _ s1 s2 Hve H26 He26 Hu) as H15.
  eexists. split.
  { unfold exception, hook. unfold modify, gets, mbind, M_bind. cbv beta iota zeta.
    change (mode (arm (set_sys _ s))) with (mode (arm s)). rewrite H26.
    unfold prog32_at in Hp. cbn [sys set_sys]. rewrite Hp. fold (entry_26 mmode).
    unfold updatemode, gets, mbind, M_bind. cbv beta iota. fold s1. rewrite Hu. cbv beta iota.
    unfold wreg, modify, gets. cbv beta iota. reflexivity. }
  assert (arr_irq : (if mmode =? FIQ then 0x80 .| 0x40 else 0x80) = irq_bits mmode)
    by (unfold irq_bits; by destruct (mmode =? FIQ)).
  unfold rreg in *; cbn; autorewrite with arr. cbn in H15. rewrite H15, arr_irq. split_and!; try done.
  intros md r Hmd' Hr' Hn. rewrite !arch_put_low, arch_put_14 by (lia || by rewrite Hmode). by rewrite Harch.
Qed.

(** A write of R15 with the S bit from a 32-bit mode whose SPSR names a 26-bit
    mode... *)
Lemma write_r15_down o dest s :
  core_inv s → valid_mode (mode (arm s)) → ARM_MODE_32 (mode (arm s)) = true →
  ARM_MODE_PRIV (mode (arm s)) = true →
  let sp := rspsr (mode (arm s) .& 0xf) s in mode_26 (sp .& 0x1f) →
  ∃ s', arm_write_r15 o dest s = Some (tt, s') ∧ mode (arm s') = sp .& 0x1f ∧
    rreg 15 s' = r15_of_cpsr ((rreg 15 s .&~ 0xfffffffc) .| (add32 dest 4 .& 0xfffffffc))
      ((sp .& 0xffffffe0) .| (sp .& 0x1f)) (sp .& 0x1f) ∧
    ∀ md r, valid_mode md → 0 ≤ r < 15 → arch_reg (arm s') md r = arch_reg (arm s) md r.
Proof.
  intros [Hb Hp] Hv H32 Hpr sp Hm26. destruct (mode_26_valid _ Hm26) as (HvM & H26 & _).
  set (s1 := upd_arm (put_reg 16 sp) (upd_arm (put_reg 15
    ((rreg 15 s .&~ 0xfffffffc) .| (add32 dest 4 .& 0xfffffffc))) s)).
  assert (psr s1 .& mmask (arm s1) = sp .& 0x1f) as Hpsr.
  { unfold psr. change (cpsr s1) with (cpsr s). rewrite (bi_cpsr _ Hb).
    change (mmask (arm s1)) with (mmask (arm s)). rewrite (bi_mmask _ Hb).
    unfold psr_index, mode_mask. rewrite H32. cbn. by rewrite arr_same. }
  destruct (updatemode_at_arch (sp .& 0x1f) (PC s) s1 Hv HvM) as (s2 & Hu & Hmode & Harch).
  destruct (updatemode_at_down _ _ s1 s2 HvM H32 H26 Hu) as (_ & H15).
  exists s2. split.
  { unfold arm_write_r15, gets, mbind, M_bind. cbv beta iota zeta.
    rewrite H32, Hpr. cbn [when]. unfold wreg, modify, gets, mbind, M_bind. cbv beta iota.
    change (rspsr (mode (arm s) .& 15) (upd_arm _ s)) with sp.
    change (upd_arm (put_reg 16 sp) (upd_arm (put_reg 15 _) s)) with s1. rewrite Hpsr.
    destruct (Z.eqb_spec (sp .& 0x1f) (mode (arm s))) as [E|]; [|exact Hu]. by rewrite E, H32 in H26. }
  split_and!; [done | |].
  - rewrite H15. unfold rreg. cbn. by autorewrite with arr.
  - intros md r Hmd Hr. rewrite Harch by done. cbn. by rewrite !arch_put_low by lia.
Qed.

(** ... and from a privileged 26-bit mode. *)
Lemma write_r15_26 o dest s :
  core_inv s → mode_26 (mode (arm s)) → ARM_MODE_PRIV (mode (arm s)) = true → w32 (rreg 15 s) →
  ∃ s', arm_write_r15 o dest s = Some (tt, s') ∧ mode (arm s') = add32 dest 4 .& 3 ∧
    rreg 15 s' = add32 dest 4 ∧
    ∀ md r, valid_mode md → 0 ≤ r < 15 → arch_reg (arm s') md r = arch_reg (arm s) md r.
Proof.
  intros [Hb Hp] Hm26 Hpr Hw. destruct (mode_26_valid _ Hm26) as (Hv & H26 & _).
  set (s1 := upd_arm (put_reg 15 (add32 dest 4)) s).
  assert ((rreg 15 s .&~ 0xffffffff) .| (add32 dest 4 .& 0xffffffff) = add32 dest 4) as E15.
  { assert (w32 (add32 dest 4)) by apply u32_w32. revert H. generalize (add32 dest 4). intros x Hx. bit32. }
  assert (psr s1 .& mmask (arm s1) = add32 dest 4 .& 3) as Hpsr.
  { unfold psr. change (cpsr s1) with (cpsr s). rewrite (bi_cpsr _ Hb).
    change (mmask (arm s1)) with (mmask (arm s)). rewrite (bi_mmask _ Hb).
    unfold psr_index, mode_mask. rewrite H26. unfold rreg. cbn. by rewrite arr_same. }
  assert (mode_26 (add32 dest 4 .& 3)) as Hn.
  { unfold mode_26. change 3 with (Z.ones 2). rewrite Z.land_ones by lia. by apply Z.mod_pos_bound. }
  destruct (mode_26_valid _ Hn) as (HvM & HM26 & _).
  assert (∀ s', (if negb (add32 dest 4 .& 3 =? mode (arm s)) then updatemode_at (add32 dest 4 .& 3) (PC s) s1
                 else Some (tt, s1)) = Some (tt, s') → arm_write_r15 o dest s = Some (tt, s')) as Hrun.
  { intros s'. unfold arm_write_r15, gets, mbind, M_bind. cbv beta iota zeta.
    rewrite H26, Hpr. cbn [when]. unfold wreg, modify, gets, mbind, M_bind, mret, M_ret. cbv beta iota.
    rewrite E15. fold s1. rewrite Hpsr. by destruct (negb _). }
  assert (∀ md r, 0 ≤ r < 15 → arch_reg (arm s1) md r = arch_reg (arm s) md r) as Ha.
  { intros md r Hr. subst s1. cbn. by rewrite !arch_put_low by lia. }
  destruct (Z.eqb_spec (add32 dest 4 .& 3) (mode (arm s))) as [He|Hne]; cbn [negb] in Hrun.
  - exists s1. split; [by apply Hrun|]. split_and!; [done | | auto]. unfold rreg. cbn. by autorewrite with arr.
  - destruct (updatemode_at_arch _ (PC s) s1 Hv HvM) as (s2 & Hu & Hmode & Harch).
    pose proof (updatemode_at_26 _ _ s1 s2 HvM H26 HM26 Hu) as H15.
    exists s2. split; [by apply Hrun|]. split_and!; [done | |].
    + rewrite H15. unfold rreg. cbn. by autorewrite with arr.
    + intros md r Hmd Hr. rewrite Harch by done. by apply Ha.
Qed.
End from_26.

(** ** The PC field of R15 *)

Lemma pc_field x : x .& 0x3fffffc = 4 * ((x / 4) mod 2 ^ 24).
Proof.
  rewrite <- Z.land_ones by lia. change 4 with (2 ^ 2). rewrite <- (Z.shiftr_div_pow2 x 2), Z.mul_comm by lia.
  rewrite <- Z.shiftl_mul_pow2 by lia. apply Z.bits_inj'. intros i Hi.
  rewrite Z.land_spec, Z.shiftl_spec, Z.land_spec by lia. change 0x3fffffc with (Z.shiftl (Z.ones 24) 2).
  rewrite Z.shiftl_spec by lia. destruct (Z.lt_ge_cases i 2).
  - by rewrite !(Z.testbit_neg_r _ (i - 2)), !andb_false_r by lia.
  - rewrite Z.shiftr_spec by lia. by replace (i - 2 + 2) with i by lia.
Qed.

Lemma u32_pc_field x : u32 x .& 0x3fffffc = x .& 0x3fffffc.
Proof.
  apply Z.bits_inj'. intros i Hi. rewrite !Z.land_spec, u32_spec by done. destruct (Z.ltb_spec i 32); [done|].
  change 0x3fffffc with (Z.shiftl (Z.ones 24) 2). rewrite Z.shiftl_spec, Z.ones_spec_high by lia. by rewrite !andb_false_r.
Qed.

Lemma aligned_4 x : x .& 3 = 0 → x = 4 * (x / 4).
Proof.
  change 3 with (Z.ones 2). rewrite Z.land_ones by lia. change (2 ^ 2) with 4. intros H.
  pose proof (Z.div_mod x 4 ltac:(lia)). lia.
Qed.

Lemma u32_next x y : u32 (u32 x - y + 4) = u32 (x - y + 4).
Proof. replace (u32 x - y + 4) with (u32 x + (4 - y)) by lia. rewrite u32_add_l. f_equal. lia. Qed.

(** R14 holds the PC field only: what is taken from it wraps within the field. *)
Lemma link_pc_field x back : back .& 3 = 0 →
  add32 (sub32 (x .& 0x3fffffc) back) 4 .& 0x3fffffc = (x - back + 4) .& 0x3fffffc.
Proof.
  intros Hb%aligned_4. unfold add32. rewrite u32_pc_field.
  assert (∀ y, (u32 y + 4) .& 0x3fffffc = (y + 4) .& 0x3fffffc) as E.
  { intros y. rewrite <- (u32_pc_field (u32 y + 4)), <- (u32_pc_field (y + 4)). by rewrite u32_add_l. }
  unfold sub32. rewrite E, !pc_field. f_equal. set (k := x / 4). set (b := back / 4) in *.
  replace ((4 * (k mod 2 ^ 24) - back + 4) / 4) with (k mod 2 ^ 24 - b + 1)
    by (apply (Z.div_unique _ _ _ 0); lia).
  pose proof (Z.div_mod x 4 ltac:(lia)) as Hx. pose proof (Z.mod_pos_bound x 4 ltac:(lia)). fold k in Hx.
  replace ((x - back + 4) / 4) with (k - b + 1) by (apply (Z.div_unique _ _ _ (x mod 4)); lia).
  rewrite <- Z.add_mod_idemp_l, Zminus_mod_idemp_l, Z.add_mod_idemp_l by done. done.
Qed.

Lemma irq_field r15 : w32 r15 → shl32 ((r15 .& 0xc000000) .>> 20) 20 = r15 .& 0xc000000.
Proof.
  intros Hr. apply w32_eq; [auto with w32..|]. intros i Hi. rewrite shl32_spec by lia.
  rewrite (proj2 (Z.ltb_lt _ _)) by lia. cbn [andb]. destruct (Z.lt_ge_cases i 20).
  - rewrite Z.testbit_neg_r, Z.land_spec by lia. change 0xc000000 with (Z.shiftl 3 26).
    by rewrite Z.shiftl_spec, (Z.testbit_neg_r 3), andb_false_r by lia.
  - rewrite Z.shiftr_spec by lia. by replace (i - 20 + 20) with i by lia.
Qed.

(** The status saved on the way into a 32-bit mode is restored on the way out. *)
Lemma status_returned r15 d mmode :
  w32 r15 → w32 d → mmode ∈ exception_modes →
  let sp := ((cpsr_of_r15 r15 (0x10 .| mmode) .&~ 0x1f) .| (r15 .& 3)) .&~ 0x10 in
  sp .& 0x1f = r15 .& 3 ∧
  r15_of_cpsr (0 .| (d .& 0xfffffffc)) ((sp .& 0xffffffe0) .| (r15 .& 3)) (r15 .& 3) =
    (r15 .& 0xfc000003) .| (d .& 0x3fffffc).
Proof.
  intros Hr Hd Hm sp. subst sp. unfold cpsr_of_r15, r15_of_cpsr. unfold exception_modes in Hm.
  rewrite !elem_of_cons, elem_of_nil in Hm.
  assert (∀ m, m ∈ [17; 18; 19; 23; 27] →
    let sp := ((((r15 .& 0xf0000000) .| m) .| ((r15 .& 0xc000000) .>> 20)) .&~ 0x1f .| (r15 .& 3)) .&~ 0x10 in
    let p := (sp .& 0xffffffe0) .| (r15 .& 3) in
    sp .& 0x1f = r15 .& 3 ∧ p .& 0xf0000000 = r15 .& 0xf0000000 ∧ p .& 0xc0 = (r15 .& 0xc000000) .>> 20) as H.
  { intros m Hin. repeat (apply elem_of_cons in Hin as [->|Hin]; [cbv zeta; split_and!; bit32|]). by apply not_elem_of_nil in Hin. }
  assert (0x10 .| mmode ∈ [17; 18; 19; 23; 27]) as Hin by (destruct Hm as [->|[->|[->|[->|[->|[]]]]]]; repeat first [apply list_elem_of_here | apply list_elem_of_further]).
  destruct (H _ Hin) as (E1 & E2 & E3). split; [exact E1|]. rewrite E2, E3, irq_field by done. bit32.
Qed.

Section round_trip_26.
Context {S P : Type} `{!MemSys S P, !HostSys S P, !MemSysOk S P, !HostSysOk S P}.
Implicit Types m : Mach S P.

(** The mode an exception enters. *)
Definition entered_mode (mmode address : Z) m : Z :=
  if ARM_MODE_32 (mode (arm m)) || prog32_at mmode address m then 0x10 .| mmode else entry_26 mmode.

(** The same from a 26-bit mode; on a CPU with only 26-bit modes R14 holds the
    status as well, and [diff] and [back] are taken from all of it. *)
Lemma exception_return_26 mmode address diff back o m :
  core_inv m → mode (arm m) = rreg 15 m .& 3 → ARM_MODE_32 (mode (arm m)) = false →
  mmode ∈ exception_modes → w32 address → address .& 3 = 0 → diff .& 3 = 0 → back .& 3 = 0 →
  let next := rreg 15 m - diff - back + 4 in
  ∃ m1 m2, exception mmode address diff m = Some (tt, m1) ∧ mode (arm m1) = entered_mode mmode address m ∧
    arm_write_r15 o (sub32 (rreg 14 m1) back) m1 = Some (tt, m2) ∧
    mode (arm m2) = mode (arm m) ∧
    rreg 15 m2 = (if prog32_at mmode address m then (rreg 15 m .& 0xfc000003) .| (next .& 0x3fffffc) else u32 next) ∧
    ∀ md r, valid_mode md → 0 ≤ r < 15 →
      ¬ (r = 14 ∧ bank_id md 14 = bank_id (entered_mode mmode address m) 14) →
      arch_reg (arm m2) md r = arch_reg (arm m) md r.
Proof.
  intros Hm Emd H26 Hmm Hwa Ha Hd Hb next.
  assert (mode_26 (mode (arm m))) as Hmd.
  { rewrite Emd. unfold mode_26. change 3 with (Z.ones 2). rewrite Z.land_ones by lia. by apply Z.mod_pos_bound. }
  assert (w32 (rreg 15 m)) as Hw by apply Hm.
  destruct (exception_mode_valid mmode Hmm) as (Hr & Hvm & Hm32 & Hlow). change ((0x10 .| mmode) .& 0xf = mmode) in Hlow.
  unfold entered_mode. rewrite H26. cbn [orb]. destruct (prog32_at mmode address m) eqn:Hp.
  - destruct (exception_up mmode address diff m Hm Hmd Hp Hmm) as (m1 & Hrun & Em1 & Elk & Epc & Esp & Ereg).
    assert (core_inv m1) as Hm1 by exact (ok_run _ _ _ _ _ (ok_exception mmode address diff Hr Hwa) Hm Hrun).
    assert (sub32 (rreg 15 m) diff .& 3 = rreg 15 m .& 3) as El3.
    { unfold sub32. apply aligned_4 in Hd. rewrite Hd. change 3 with (Z.ones 2). rewrite !Z.land_ones by lia.
      change (2 ^ 2) with 4. unfold u32. rewrite Z.mod_mod_divide by by exists 0x40000000.
      rewrite Zminus_mod, (Z.mul_comm 4), Z.mod_mul, Z.sub_0_r by lia. by apply Z.mod_mod. }
    rewrite El3 in Esp.
    set (d := add32 (sub32 (rreg 14 m1) back) 4).
    destruct (status_returned (rreg 15 m) d mmode Hw ltac:(apply u32_w32) Hmm) as [Es E15]. rewrite <- Esp in Es, E15.
    destruct (write_r15_down o (sub32 (rreg 14 m1) back) m1 Hm1) as (m2 & Hrun2 & Em2 & R15 & Rreg);
      rewrite ?Em1, ?Hlow, ?Es, <- ?Emd; try done; [by apply exception_priv|].
    exists m1, m2. rewrite Em1, Hlow, Es in Em2, R15. fold d in R15. rewrite Epc, pc_clear in R15 by done.
    split_and!; [done | done | done | by rewrite Em2 | | intros md r Hmd' Hr' Hn; rewrite Rreg by done; by apply Ereg].
    rewrite R15, E15. f_equal. unfold d, next. rewrite Elk, link_pc_field by done.
    rewrite <- u32_pc_field, <- (u32_pc_field (rreg 15 m - diff - back + 4)). f_equal. unfold sub32.
    apply u32_next.
  - destruct (exception_26 mmode address diff m Hm Hmd Hp Hmm) as (m1 & Hrun & Em1 & Elk & Epc & Ereg).
    assert (core_inv m1) as Hm1 by exact (ok_run _ _ _ _ _ (ok_exception mmode address diff Hr Hwa) Hm Hrun).
    destruct (entry_26_mode mmode Hmm) as [He Hep].
    destruct (write_r15_26 o (sub32 (rreg 14 m1) back) m1 Hm1) as (m2 & Hrun2 & Em2 & R15 & Rreg);
      [by rewrite Em1 | by rewrite Em1 | apply Hm1 |].
    assert (add32 (sub32 (rreg 14 m1) back) 4 = u32 next) as En.
    { rewrite Elk. unfold add32, sub32, next. rewrite u32_add_l. apply u32_next. }
    rewrite En in Em2, R15.
    exists m1, m2. split_and!; [done | done | done | | done | intros md r Hmd' Hr' Hn; rewrite Rreg by done; by apply Ereg].
    rewrite Em2, Emd. change 3 with (Z.ones 2). rewrite !Z.land_ones by lia. change (2 ^ 2) with 4.
    unfold u32. rewrite Z.mod_mod_divide by by exists 0x40000000. unfold next.
    apply aligned_4 in Hd, Hb. rewrite Hd, Hb.
    replace (rreg 15 m - 4 * (diff / 4) - 4 * (back / 4) + 4) with (rreg 15 m + (1 - diff / 4 - back / 4) * 4) by lia.
    by apply Z.mod_add.
Qed.
End round_trip_26.
