(* ===== verification/ArmMul.v ===== *)
(** The multiplies: 32-bit products with and without accumulation, and the
    64-bit ones of ARMv4, as arithmetic modulo 2^32 and 2^64. *)

From S2P Require Export ArmControl.

Section mul.
Context {S P : Type} `{!MemSys S P, !HostSys S P, !MemSysOk S P, !HostSysOk S P}.
Implicit Types m : Mach S P.

(** RdHi:RdLo as one value. *)
Definition hilo o m : Z := rreg (MULRD o) m * 0x100000000 + rreg (MULRN o) m.

(** Bit 22 of the opcode makes the product signed, bit 21 accumulates. *)
Definition long_product (k o : Z) m : Z :=
  let a := rreg (MULRM o) m in let b := rreg (MULRS o) m in
  u64 ((if Z.testbit k 2 then s32 a * s32 b else a * b) +
       (if Z.testbit k 1 then hilo o m else 0)).

Definition short_product (k o : Z) m : Z :=
  u32 (rreg (MULRM o) m * rreg (MULRS o) m + (if Z.testbit k 1 then rreg (MULRN o) m else 0)).

(** Exactly the registers of [l] and the status register may differ. *)
Definition only_regs (l : list Z) m m' : Prop :=
  ∀ r, r ∉ l → r ≠ cpsr m → rreg r m' = rreg r m.

Lemma lor_hi_lo h l : w32 l → Z.shiftl h 32 .| l = h * 0x100000000 + l.
Proof.
  intros Hl. rewrite Z.shiftl_mul_pow2 by done. change (2 ^ 32) with 0x100000000.
  rewrite <- Z.lxor_lor, Z.add_nocarry_lxor; [done|..];
    apply Z.bits_inj'; intros i Hi; rewrite Z.land_spec, Z.bits_0;
    change 0x100000000 with (2 ^ 32); (destruct (Z.lt_ge_cases i 32);
      [by rewrite Z.mul_pow2_bits_low by lia | by rewrite (w32_high l), andb_false_r by done]).
Qed.

Lemma u64_s64 x : u64 (s64 x) = u64 x.
Proof. unfold s64. destruct (_ <? _); unfold u64; [apply Z.mod_mod; lia|].
  replace (x mod 0x10000000000000000 - 0x10000000000000000)
    with (x mod 0x10000000000000000 + -1 * 0x10000000000000000) by lia.
  rewrite Z.mod_add, Z.mod_mod by lia. done. Qed.
Lemma u64_add_l x y : u64 (u64 x + y) = u64 (x + y).
Proof. by apply Z.add_mod_idemp_l. Qed.
Lemma u64_add_r x y : u64 (x + u64 y) = u64 (x + y).
Proof. by apply Z.add_mod_idemp_r. Qed.

Lemma u64_u64 x : u64 (u64 x) = u64 x.
Proof. by apply Z.mod_mod. Qed.

(** The two halves the code stores. *)
Lemma halves r : u32 (r .>> 32) * 0x100000000 + u32 r = u64 r.
Proof.
  rewrite Z.shiftr_div_pow2 by done. unfold u32, u64. change (2 ^ 32) with 0x100000000.
  change 0x10000000000000000 with (0x100000000 * 0x100000000).
  rewrite Z.rem_mul_r by lia. lia.
Qed.

Lemma u64_hi h : w32 h → u64 (Z.shiftl h 32) = Z.shiftl h 32.
Proof.
  intros Hh. rewrite Z.shiftl_mul_pow2 by done. change (2 ^ 32) with 0x100000000.
  unfold u64, w32 in *. apply Z.mod_small. lia.
Qed.
Lemma s64_hi h : w32 h → s64 (Z.shiftl h 32) = Z.shiftl (s32 h) 32.
Proof.
  intros Hh. unfold s64. rewrite u64_hi, s32_w32 by done.
  rewrite !Z.shiftl_mul_pow2 by done. change (2 ^ 32) with 0x100000000. unfold w32 in *.
  destruct (Z.ltb_spec (h * 0x100000000) 0x8000000000000000), (Z.leb_spec 0x80000000 h); lia.
Qed.
Lemma s32_mod h : w32 h → ∃ q, s32 h = h + q * 0x100000000.
Proof. intros Hh. rewrite s32_w32 by done. destruct (_ <=? _); [exists (-1) | exists 0]; lia. Qed.

Definition long_result (k : Z) : Z → Mach S P → Z :=
  if Z.testbit k 2 then (if Z.testbit k 1 then smlal_result else smull_result)
  else (if Z.testbit k 1 then umlal_result else umull_result).

Lemma long_result_spec k o m : core_inv m → u64 (long_result k o m) = long_product k o m.
Proof.
  intros [Hb _]. pose proof (rreg_w32 (MULRD o) m Hb) as Hh. pose proof (rreg_w32 (MULRN o) m Hb) as Hl.
  unfold long_result, long_product, hilo. rewrite (Z.mul_comm (rreg (MULRM o) m)).
  rewrite (Z.mul_comm (s32 (rreg (MULRM o) m))).
  destruct (Z.testbit k 2), (Z.testbit k 1).
  - unfold smlal_result. cbv zeta. rewrite s64_hi, lor_hi_lo by done.
    destruct (s32_mod _ Hh) as (q & ->). rewrite u64_s64, <- u64_add_l, u64_s64, u64_add_l.
    unfold u64. rewrite <- (Z.mod_add _ (- q) 0x10000000000000000) by done. f_equal. lia.
  - unfold smull_result. by rewrite u64_s64, Z.add_0_r.
  - unfold umlal_result. cbv zeta. rewrite u64_hi, lor_hi_lo by done.
    by rewrite u64_u64, u64_add_l.
  - unfold umull_result. by rewrite Z.add_0_r, u64_u64.
Qed.

(** N and Z of a 64-bit result; C and V are left alone. *)
Definition long_nz (x : Z) : Z := nzcv (0x8000000000000000 <=? x) (x =? 0) false false.

Lemma long_flags x : 0 ≤ x < 0x10000000000000000 →
  (if x =? 0 then ZFLAG else 0) .| (u32 (x .>> 32) .& NFLAG) = long_nz x.
Proof.
  intros Hx. unfold long_nz, nzcv. change NFLAG with (2 ^ 31). rewrite flag_bit by done.
  rewrite Z.shiftr_div_pow2 by done. change (2 ^ 32) with 0x100000000.
  pose proof (Z.div_mod x 0x100000000) as Hdm. pose proof (Z.mod_pos_bound x 0x100000000) as Hmb.
  assert (w32 (x / 0x100000000)) as Hw
    by (split; [apply Z.div_pos | apply Z.div_lt_upper_bound]; lia).
  rewrite u32_id, w32_bit31 by done.
  assert ((0x80000000 <=? x / 0x100000000) = (0x8000000000000000 <=? x)) as -> by bool_lia.
  by destruct (_ <=? _), (_ =? _).
Qed.

Section run.
Context (o : Z) (m : Mach S P) (Hinv : core_inv m).
Context (Hne : MULRD o ≠ MULRN o) (Hd : MULRD o ≠ 15) (Hn : MULRN o ≠ 15).

Let put_hilo x : Mach S P :=
  upd_arm (put_reg (MULRD o) (u32 (x .>> 32))) (upd_arm (put_reg (MULRN o) (u32 x)) m).

Lemma mul_ne_cpsr : MULRD o ≠ cpsr m ∧ MULRN o ≠ cpsr m.
Proof.
  rewrite (bi_cpsr _ (proj1 Hinv)). unfold psr_index. pose proof (MULRD_range o).
  pose proof (MULRN_range o). destruct (ARM_MODE_32 _); lia.
Qed.

Lemma put_hilo_spec x :
  hilo o (put_hilo x) = u64 x ∧ psr (put_hilo x) = psr m ∧
  only_regs [MULRD o; MULRN o] m (put_hilo x).
Proof.
  destruct mul_ne_cpsr as [Hcd Hcn]. unfold put_hilo. split_and!.
  - unfold hilo. cbn. autorewrite with arr. apply halves.
  - unfold psr. cbn. by autorewrite with arr.
  - intros r Hr _. rewrite !not_elem_of_cons in Hr. cbn.
    rewrite !arr_other by (intros Heq; symmetry in Heq; tauto). done.
Qed.

Lemma mul_long_run k s :
  (s = false ∧ mul_long o (long_result k) m = Some (tt, put_hilo (long_result k o m))) ∨
  (s = true ∧ mul_long_s o (long_result k) m =
    let m1 := put_hilo (long_result k o m) in
    Some (tt, put_psr ((psr m .& 0x3fffffff) .| long_nz (long_product k o m)) m1)).
Proof.
  destruct s; [right | left]; (split; [done|]); [|reflexivity].
  unfold mul_long_s, gets, mbind, M_bind. unfold wreg, modify. cbv beta iota zeta.
  fold (put_hilo (long_result k o m)). unfold arm_flags_long_multiply.
  destruct (put_hilo_spec (long_result k o m)) as (_ & Hp & _).
  rewrite merge_flags_run, Hp, long_result_spec by done. rewrite long_flags; [done|].
  unfold long_product, u64. by apply Z.mod_pos_bound.
Qed.
End run.

Lemma execute_mul_case o m :
  is_mul o = true → execute o m = execute_switch o m.
Proof.
  intros Hm%Z.eqb_eq. unfold execute, gets, mbind, M_bind. cbv beta iota.
  rewrite (proj2 (Z.eqb_neq (o .& 0xe0000f0) 0xb0)), (proj2 (Z.eqb_neq (o .& 0xe1000d0) 0x1000d0)).
  - by rewrite !andb_false_r.
  - intros H. apply (land_mask_eq _ _ _ 0xd0) in H; [|done].
    apply (land_mask_eq _ _ _ 0xd0) in Hm; [|done]. by rewrite Hm in H.
  - intros H. apply (land_mask_eq _ _ _ 0xf0) in H; [|done]. by rewrite Hm in H.
Qed.

Lemma execute_mul_long o m k :
  nz (arch_v4 (arm m)) = true → is_mul o = true → (o .>> 20) .& 0xff = k → 8 ≤ k < 16 →
  execute o m = if Z.testbit k 0 then mul_long_s o (long_result k) m else mul_long o (long_result k) m.
Proof.
  intros H4 Hm Hk Hr. rewrite execute_mul_case by done. unfold execute_switch. rewrite Hk. clear Hk.
  each_value k 8 16 ltac:(unfold all_cases, cases_reg_00, cases_reg_08, cases_reg_0c; cbn [switch app existsb Z.eqb Pos.eqb orb];
    unfold or_mul_long, gets, mbind, M_bind; rewrite H4, Hm; reflexivity).
Qed.

(** UMULL, UMLAL, SMULL, SMLAL and their S forms. *)
Lemma long_multiply_spec k o m :
  core_inv m → nz (arch_v4 (arm m)) = true → is_mul o = true → (o .>> 20) .& 0xff = k → 8 ≤ k < 16 →
  MULRD o ≠ MULRN o → MULRD o ≠ 15 → MULRN o ≠ 15 →
  ∃ m', execute o m = Some (tt, m') ∧ hilo o m' = long_product k o m ∧
    only_regs [MULRD o; MULRN o] m m' ∧
    psr m' = if Z.testbit k 0 then (psr m .& 0x3fffffff) .| long_nz (long_product k o m)
             else psr m.
Proof.
  intros Hm H4 Hmul Hk Hr Hne Hd Hn. rewrite (execute_mul_long o m k) by done.
  destruct (put_hilo_spec o m Hm Hne Hd Hn (long_result k o m)) as (Hv & Hp & Ho).
  rewrite long_result_spec in Hv by done.
  destruct (mul_long_run o m Hm Hne Hd Hn k (Z.testbit k 0)) as [[-> ->]|[-> ->]].
  - eexists. split; [reflexivity|]. done.
  - cbv zeta. eexists. split; [reflexivity|].
    destruct (mul_ne_cpsr o m Hm Hne Hd Hn) as [Hcd Hcn].
    set (m1 := upd_arm _ _) in *. split_and!.
    + transitivity (hilo o m1); [|exact Hv]. unfold hilo, put_psr.
      change (cpsr m1) with (cpsr m). clearbody m1. cbn. by rewrite !arr_other by congruence.
    + intros r Hr1 Hr2. rewrite <- Ho by done. unfold put_psr. cbn.
      change (cpsr m1) with (cpsr m). by rewrite arr_other by congruence.
    + apply psr_put_psr.
Qed.

(** MUL, MLA and their S forms; the ARM2's answer of zero when Rd is Rm. *)
Lemma short_multiply_spec k o m :
  core_inv m → is_mul o = true → (o .>> 20) .& 0xff = k → 0 ≤ k < 4 → MULRD o ≠ 15 →
  ∃ m', execute o m = Some (tt, m') ∧
    rreg (MULRD o) m' = (if MULRD o =? MULRM o then 0 else short_product k o m) ∧
    only_regs [MULRD o] m m' ∧
    psr m' = if Z.testbit k 0 then (psr m .& 0x3fffffff) .| flags_nz (rreg (MULRD o) m')
             else psr m.
Proof.
  intros Hm Hmul Hk Hr Hd. rewrite execute_mul_case by done. unfold execute_switch. rewrite Hk. clear Hk.
  assert (MULRD o ≠ cpsr m) as Hc.
  { rewrite (bi_cpsr _ (proj1 Hm)). unfold psr_index. pose proof (MULRD_range o).
    destruct (ARM_MODE_32 _); lia. }
  assert (∀ v, only_regs [MULRD o] m (upd_arm (put_reg (MULRD o) v) m)) as Ho.
  { intros v r Hr1 _. rewrite not_elem_of_cons in Hr1. cbn. by rewrite arr_other by (intros Heq; symmetry in Heq; tauto). }
  assert (∀ v, psr (upd_arm (put_reg (MULRD o) v) m) = psr m) as Hp
    by (intros; unfold psr; cbn; by rewrite arr_other).
  assert (∀ v, ∃ m', (wreg (MULRD o) v;; d ← gets (rreg (MULRD o)); arm_flags_logical d) m = Some (tt, m') ∧
    rreg (MULRD o) m' = v ∧ only_regs [MULRD o] m m' ∧
    psr m' = (psr m .& 0x3fffffff) .| flags_nz v) as Hs.
  { intros v. eexists. split; [reflexivity|]. split_and!.
    - cbn. rewrite arr_other by done. apply arr_same.
    - intros r Hr1 Hr2. rewrite not_elem_of_cons in Hr1. cbn.
      rewrite !arr_other by (congruence || (intros Heq; symmetry in Heq; tauto)). done.
    - unfold psr. cbn. rewrite !arr_same. by rewrite arr_other. }
  unfold short_product, mul_result.
  each_value k 0 4 ltac:(unfold all_cases, cases_reg_00; cbn [switch app existsb Z.eqb Pos.eqb orb];
    rewrite Hmul; change (Z.testbit 0 0) with false; change (Z.testbit 1 0) with true;
    change (Z.testbit 2 0) with false; change (Z.testbit 3 0) with true).
  - exists (upd_arm (put_reg (MULRD o) (mul_result o m)) m). split; [reflexivity|]. split_and!; auto.
    cbn. rewrite arr_same. unfold mul_result, mul32. by rewrite Z.add_0_r.
  - destruct (Hs (mul_result o m)) as (m' & He & Hv & Hor & Hps). exists m'.
    rewrite Hv, Hps. split; [exact He|]. split_and!; auto.
    unfold mul_result, mul32. by rewrite Z.add_0_r.
  - exists (upd_arm (put_reg (MULRD o) (mla_result o m)) m). split; [reflexivity|]. split_and!; auto.
    cbn. by rewrite arr_same.
  - destruct (Hs (mla_result o m)) as (m' & He & Hv & Hor & Hps). exists m'.
    rewrite Hv, Hps. by split_and!.
Qed.
End mul.
