(* ===== verification/ArmStack.v ===== *)
(** Block transfers against a view of memory: what STM leaves in memory, what
    LDM takes from it, and the push and pop built from the two. The view is an
    interface that a memory system offers for the addresses at which it behaves
    as memory. *)

From S2P Require Export ArmControl.

(** * Memory as the core can use it *)

Class MemView (S P : Type) `{!MemSys S P} := {
  (** an aligned address where words can be read and written *)
  mv_ok : S → Z → Prop;
  mv_word : S → Z → Z;
  mv_read s e a : mv_ok s a →
    ∃ s', ms_read32 (P:=P) a (e, s) = Some (mv_word s a, (e, s')) ∧
      ∀ b, (mv_ok s' b ↔ mv_ok s b) ∧ (mv_ok s b → mv_word s' b = mv_word s b);
  mv_write s e a v : mv_ok s a → w32 v →
    ∃ s', ms_write32 (P:=P) a v (e, s) = Some (tt, (e, s')) ∧
      ∀ b, (mv_ok s' b ↔ mv_ok s b) ∧
           (mv_ok s b → mv_word s' b = if b =? a then v else mv_word s b);
  mv_w32 s a : mv_ok s a → w32 (mv_word s a)
}.

(** * The addresses of a register list *)

(** The registers of the list [l] that [o] names, each with its address. *)
Fixpoint block (o addr : Z) (l : list Z) : list (Z * Z) :=
  match l with
  | [] => []
  | c :: l' => if in_list o c then (c, addr) :: block o (add32 addr 4) l' else block o addr l'
  end.

(** Memory after the values [val c] are stored at the addresses. *)
Fixpoint view_put (ps : list (Z * Z)) (val f : Z → Z) (b : Z) : Z :=
  match ps with
  | [] => f b
  | (c, a) :: ps' => view_put ps' val (λ x, if x =? a then val c else f x) b
  end.

(** The register file after they are loaded. *)
Definition regs_put (ps : list (Z * Z)) (word : Z → Z) (g : gmap Z Z) : gmap Z Z :=
  foldl (λ g p, <[p.1 := word p.2]> g) g ps.

Lemma block_bounds o l addr c a :
  0 ≤ addr → addr + 4 * Z.of_nat (length l) ≤ 0x100000000 →
  (c, a) ∈ block o addr l → c ∈ l ∧ in_list o c = true ∧ addr ≤ a < 0x100000000.
Proof.
  revert addr. induction l as [|d l IH]; intros addr Ha Hb; cbn [block length] in *;
    [by intros ?%not_elem_of_nil|].
  destruct (in_list o d) eqn:E.
  - rewrite elem_of_cons. intros [[= -> ->]|Hi].
    + split_and!; [by left|done|lia|lia].
    + assert (0 < length l)%nat by (destruct l; cbn in *; [by apply not_elem_of_nil in Hi|lia]).
      unfold add32 in Hi. rewrite u32_id in Hi by (unfold w32; lia).
      apply IH in Hi; [|lia..]. split_and!; [right; apply Hi | apply Hi | lia | lia].
  - intros Hi. apply IH in Hi; [|lia..]. split_and!; [right; apply Hi | apply Hi | lia | lia].
Qed.

Lemma view_put_other ps val f b : b ∉ ps.*2 → view_put ps val f b = f b.
Proof.
  revert f. induction ps as [|[c a] ps IH]; intros f Hb; cbn in *; [done|].
  rewrite not_elem_of_cons in Hb. rewrite IH by tauto. by rewrite (proj2 (Z.eqb_neq _ _)) by tauto.
Qed.

Lemma view_put_in ps val f c a : NoDup ps.*2 → (c, a) ∈ ps → view_put ps val f a = val c.
Proof.
  revert f. induction ps as [|[d b] ps IH]; intros f; cbn; [by intros _ ?%not_elem_of_nil|].
  intros [Hn Hd]%list.NoDup_cons [Heq|Hi]%elem_of_cons; [simplify_eq|].
  - by rewrite view_put_other, Z.eqb_refl.
  - by apply IH.
Qed.

Lemma view_put_ext ps val val' f b :
  (∀ c a, (c, a) ∈ ps → val c = val' c) → view_put ps val f b = view_put ps val' f b.
Proof.
  revert f. induction ps as [|[d a] ps IH]; intros f H; cbn; [done|].
  assert (val d = val' d) as -> by (eapply H; by left). apply IH. intros. eapply H. by right.
Qed.

Lemma block_nodup o l addr :
  0 ≤ addr → addr + 4 * Z.of_nat (length l) ≤ 0x100000000 → NoDup (block o addr l).*2.
Proof.
  revert addr. induction l as [|d l IH]; intros addr Ha Hb; cbn [block length] in *; [constructor|].
  destruct (in_list o d); [|apply IH; lia]. cbn.
  destruct (decide (l = [])) as [->|Hl]; [by apply list.NoDup_singleton|].
  assert (0 < length l)%nat by (destruct l; cbn; [done|lia]).
  unfold add32. rewrite u32_id by (unfold w32; lia). constructor; [|apply IH; lia].
  rewrite list_elem_of_fmap. intros ([c a] & -> & Hi). apply block_bounds in Hi; cbn in *; lia.
Qed.

Lemma regs_put_other ps word g r : r ∉ ps.*1 → regs_put ps word g !!! r = g !!! r.
Proof.
  revert g. induction ps as [|[c a] ps IH]; intros g Hr; cbn in *; [done|].
  rewrite not_elem_of_cons in Hr. unfold regs_put in IH. rewrite IH by tauto.
  apply arr_other. cbn. intros ->. tauto.
Qed.

Lemma regs_put_in ps word g c a :
  NoDup ps.*1 → (c, a) ∈ ps → regs_put ps word g !!! c = word a.
Proof.
  revert g. induction ps as [|[d b] ps IH]; intros g; cbn; [by intros _ ?%not_elem_of_nil|].
  intros [Hn Hd]%list.NoDup_cons [Heq|Hi]%elem_of_cons; [simplify_eq|].
  - etransitivity; [exact (regs_put_other ps word _ _ Hn) | apply arr_same].
  - by apply IH.
Qed.

Lemma regs_put_ext ps w w' g :
  (∀ c a, (c, a) ∈ ps → w a = w' a) → regs_put ps w g = regs_put ps w' g.
Proof.
  revert g. induction ps as [|[c a] ps IH]; intros g H; [done|]. unfold regs_put. cbn.
  assert (w a = w' a) as -> by (eapply H; by left). apply IH. intros. eapply H. by right.
Qed.

Lemma block_fst o l addr c : c ∈ (block o addr l).*1 ↔ c ∈ l ∧ in_list o c = true.
Proof.
  revert addr. induction l as [|d l IH]; intros addr; cbn [block].
  - rewrite !elem_of_nil. tauto.
  - destruct (in_list o d) eqn:E; cbn [fmap list_fmap fst]; rewrite !elem_of_cons, IH.
    + split; [intros [->|?]; tauto | tauto].
    + split; [tauto|]. intros [[->|?] ?]; [congruence | tauto].
Qed.

Lemma block_fst_nodup o l addr : NoDup l → NoDup (block o addr l).*1.
Proof.
  revert addr. induction l as [|d l IH]; intros addr; cbn [block]; [constructor|].
  intros [Hn Hd]%list.NoDup_cons. destruct (in_list o d); [|by apply IH].
  constructor; [|by apply IH]. cbn. by intros [? _]%block_fst.
Qed.

Section stack.
Context {S P : Type} `{!MemSys S P, !HostSys S P, !MemView S P}.
Implicit Types m : Mach S P.

Definition okm m a : Prop := mv_ok (sys m) a.
Definition word m a : Z := mv_word (sys m) a.

(** [m'] is [m] but for its memory, where the words are now [f]. *)
Definition mem_now (f : Z → Z) m m' : Prop :=
  m' = set_sys (sys m') m ∧ ∀ b, (okm m' b ↔ okm m b) ∧ (okm m b → word m' b = f b).

Lemma mem_now_refl m : mem_now (word m) m m.
Proof. split; [by destruct m|]. by intros b. Qed.

Lemma mem_now_trans f g m m1 m2 :
  mem_now f m m1 → mem_now g m1 m2 → (∀ b, okm m b → word m1 b = f b → g b = f b) →
  mem_now f m m2.
Proof.
  intros [E1 H1] [E2 H2] Hg. split; [by rewrite E2, E1|]. intros b.
  destruct (H1 b) as [Ho1 Hw1], (H2 b) as [Ho2 Hw2]. split; [by rewrite Ho2|].
  intros Hb. rewrite Hw2 by by apply Ho1. by apply Hg; [|apply Hw1].
Qed.

Lemma set_sys_event m s :
  set_sys s (set_arm (set_event (event (arm m)) (arm m)) m) = set_sys s m.
Proof. destruct m as [[] ? ? ? ? ? ? ? ?]. done. Qed.

Lemma mem_read32_run a m :
  okm m a → ∃ m', mem_read32 a m = Some (word m a, m') ∧ mem_now (word m) m m'.
Proof.
  intros Ha. destruct (mv_read (P:=P) (sys m) (event (arm m)) a Ha) as (s' & Hr & Hv).
  exists (set_sys s' m). split; [|split; [done | exact Hv]].
  unfold mem_read32, mem_zoom, zoom. cbv beta. rewrite Hr. cbn [fst snd]. by rewrite set_sys_event.
Qed.

Lemma mem_write32_run a v m :
  okm m a → w32 v →
  ∃ m', mem_write32 a v m = Some (tt, m') ∧ mem_now (λ b, if b =? a then v else word m b) m m'.
Proof.
  intros Ha Hv. destruct (mv_write (P:=P) (sys m) (event (arm m)) a v Ha Hv) as (s' & Hr & Hw).
  exists (set_sys s' m). split; [|split; [done | exact Hw]].
  unfold mem_write32, mem_zoom, zoom. cbv beta. rewrite Hr. cbn [fst snd]. by rewrite set_sys_event.
Qed.

(** ** Loads *)

Lemma ldm_regs_run o l addr m :
  aborted m = false → (∀ c a, (c, a) ∈ block o addr l → okm m a) →
  ∃ addr' m', ldm_regs o addr wreg l m = Some (Some addr', m') ∧
    mem_now (word m) (upd_arm (set_reg (regs_put (block o addr l) (word m) (reg (arm m)))) m) m'.
Proof.
  revert addr m. induction l as [|c l IH]; intros addr m Hab Hok; cbn [ldm_regs block].
  - exists addr, m. split; [done|]. cbn.
    replace (upd_arm (set_reg (reg (arm m))) m) with m by (by destruct m as [[] ? ? ? ? ? ? ? ?]).
    apply mem_now_refl.
  - destruct (in_list o c) eqn:E.
    + cbn [block] in Hok. rewrite E in Hok.
      destruct (mem_read32_run addr m) as (m1 & Hr & Hm1); [eapply Hok; by left|].
      set (m2 := upd_arm (put_reg c (word m addr)) m1).
      destruct Hm1 as [E1 H1].
      destruct (IH (add32 addr 4) m2) as (addr' & m' & Hl & Em & Hm).
      { unfold m2. rewrite E1. exact Hab. }
      { intros d a Hi. apply H1. eapply Hok. by right. }
      exists addr', m'. split.
      { rewrite bind_run, Hr. rewrite bind_run. unfold gets at 1.
        replace (aborted m1) with false by (by rewrite E1). rewrite bind_run. exact Hl. }
      assert (∀ d a, (d, a) ∈ block o (add32 addr 4) l → word m2 a = word m a) as Hw
        by (intros d a Hi; apply H1; eapply Hok; by right).
      split.
      { rewrite Em, (regs_put_ext _ (word m2) (word m)) by exact Hw. unfold m2. by rewrite E1. }
      intros b. destruct (Hm b) as [Ho Hv], (H1 b) as [Ho1 Hv1]. split; [by rewrite Ho|].
      intros Hb. rewrite Hv by by apply Ho1. by apply Hv1.
    + cbn [block] in Hok. rewrite E in Hok. by apply IH.
Qed.

(** ** Stores *)

Lemma mem_now_regs f m m' r : mem_now f m m' → rreg r m' = rreg r m.
Proof. intros [-> _]. done. Qed.
Lemma mem_now_aborted f m m' : mem_now f m m' → aborted m' = aborted m.
Proof. intros [-> _]. done. Qed.

(** [f] and [g] agree where memory is. *)
Lemma mem_now_ext f g m m' : (∀ b, okm m b → f b = g b) → mem_now f m m' → mem_now g m m'.
Proof.
  intros Hfg [E H]. split; [done|]. intros b. destruct (H b) as [Ho Hw]. split; [done|].
  intros Hb. by rewrite Hw, Hfg.
Qed.

Lemma view_put_agree ps val f g b :
  f b = g b → view_put ps val f b = view_put ps val g b.
Proof.
  revert f g. induction ps as [|[c a] ps IH]; intros f g H; cbn; [done|].
  apply IH. by destruct (b =? a).
Qed.

Lemma stm_rest_run o l addr m :
  aborted m = false → (∀ c, w32 (rreg c m)) → (∀ c a, (c, a) ∈ block o addr l → okm m a) →
  ∃ addr' m', stm_rest o addr rreg l m = Some (Some addr', m') ∧
    mem_now (view_put (block o addr l) (λ c, rreg c m) (word m)) m m'.
Proof.
  revert addr m. induction l as [|c l IH]; intros addr m Hab Hw Hok; cbn [stm_rest block].
  - exists addr, m. split; [done|]. apply mem_now_refl.
  - cbn [block] in Hok. destruct (in_list o c) eqn:E; [|by apply IH].
    destruct (mem_write32_run addr (rreg c m) m) as (m1 & Hr & Hm1); [eapply Hok; by left|done|].
    pose proof (mem_now_aborted _ _ _ Hm1) as Hab1.
    destruct (IH (add32 addr 4) m1) as (addr' & m' & Hl & Hm').
    + by rewrite Hab1.
    + intros d. by rewrite (mem_now_regs _ _ _ _ Hm1).
    + intros d a Hi. apply Hm1. eapply Hok. by right.
    + exists addr', m'. split.
      { rewrite bind_run. unfold gets at 1. rewrite bind_run, Hr. rewrite bind_run. unfold gets.
        by rewrite Hab1, Hab. }
      destruct Hm1 as [E1 H1], Hm' as [E' H']. split; [by rewrite E', E1|].
      intros b. destruct (H1 b) as [Ho1 Hw1], (H' b) as [Ho Hv]. split; [by rewrite Ho|].
      intros Hb. rewrite Hv by by apply Ho1. cbn [view_put].
      rewrite (view_put_ext _ _ (λ c, rreg c m)) by (intros; by rewrite E1).
      by apply view_put_agree, Hw1.
Qed.

(** The first register of the list is stored before the write-back. *)
Lemma stm_first_run o n lo addr m :
  lo + Z.of_nat n = 15 → (∀ c, w32 (rreg c m)) →
  (∀ c a, (c, a) ∈ block o addr (seqZ lo (Z.of_nat n)) → okm m a) →
  ∃ c addr' m' ps, stm_first o addr rreg (seqZ lo (Z.of_nat n)) m = Some ((c, addr'), m') ∧
    block o addr (seqZ lo (Z.of_nat n)) = ps ++ block o addr' (seqZ (c + 1) (14 - c)) ∧
    mem_now (view_put ps (λ c, rreg c m) (word m)) m m'.
Proof.
  revert lo. induction n as [|n IH]; intros lo Hlo Hw Hok.
  - exists 15, addr, m, []. split; [done|]. split; [done|]. apply mem_now_refl.
  - rewrite seqZ_cons in * by lia.
    replace (Z.succ lo) with (lo + 1) in * by lia.
    replace (Z.pred (Z.of_nat (Datatypes.S n))) with (Z.of_nat n) in * by lia.
    cbn [stm_first block] in *. destruct (in_list o lo) eqn:E; [|apply IH; [lia|done|done]].
    destruct (mem_write32_run addr (rreg lo m) m) as (m1 & Hr & Hm1); [eapply Hok; by left|done|].
    exists lo, (add32 addr 4), m1, [(lo, addr)]. split; [|split; [|exact Hm1]].
    + rewrite bind_run. unfold gets at 1. by rewrite bind_run, Hr.
    + cbn. by replace (14 - lo) with (Z.of_nat n) by lia.
Qed.

Lemma view_put_app ps qs val f b :
  view_put (ps ++ qs) val f b = view_put qs val (view_put ps val f) b.
Proof.
  revert f. induction ps as [|[c a] ps IH]; intros f; cbn; [by apply view_put_agree|]. apply IH.
Qed.

Lemma mem_now_upd h f m m' : mem_now f m m' → mem_now f (upd_arm h m) (upd_arm h m').
Proof. intros [E H]. split; [by rewrite E | exact H]. Qed.

Lemma mem_now_fields f m m' :
  mem_now f m m' →
  stm_writeback_at_end (arm m') = stm_writeback_at_end (arm m) ∧ arm m' = arm m.
Proof. by intros [-> _]. Qed.

(** Two transfers, one after the other. *)
Lemma mem_now_seq ps qs val m m1 m2 :
  mem_now (view_put ps val (word m)) m m1 → mem_now (view_put qs val (word m1)) m1 m2 →
  mem_now (view_put (ps ++ qs) val (word m)) m m2.
Proof.
  intros [E1 H1] [E2 H2]. split; [by rewrite E2, E1|]. intros b.
  destruct (H1 b) as [Ho1 Hw1], (H2 b) as [Ho2 Hw2]. split; [by rewrite Ho2|].
  intros Hb. rewrite Hw2, view_put_app by by apply Ho1. by apply view_put_agree, Hw1.
Qed.

Section store.
Context (o address wb : Z) (m : Mach S P).
Let blk := block o address (seqZ 0 15).
Context (Hw : ∀ c, w32 (rreg c m)) (Hwb : w32 wb) (Hab : aborted m = false).
Context (H15 : in_list o 15 = false) (Hrn : in_list o (RN o) = false).
Context (Hal : address .&~ 3 = address) (Hback : writes_back o = true).
Context (Hok : ∀ c a, (c, a) ∈ blk → okm m a).

Lemma stm_tail c addr' m1 ps :
  blk = ps ++ block o addr' (seqZ (c + 1) (14 - c)) →
  arm m1 = arm m ∨ arm m1 = put_reg (RN o) wb (arm m) → (∀ b, okm m1 b ↔ okm m b) →
  ∃ a2 m2, stm_rest o addr' rreg (seqZ (c + 1) (14 - c)) m1 = Some (Some a2, m2) ∧
    mem_now (view_put (block o addr' (seqZ (c + 1) (14 - c))) (λ c, rreg c m) (word m1)) m1 m2.
Proof.
  intros Hb Ha Ho.
  assert (∀ d, in_list o d = true → rreg d m1 = rreg d m) as Hr.
  { intros d Hd. unfold rreg. destruct Ha as [-> | ->]; [done|]. cbn. rewrite arr_other; [done|].
    congruence. }
  destruct (stm_rest_run o (seqZ (c + 1) (14 - c)) addr' m1) as (a2 & m2 & Hs & Hm).
  - unfold aborted in *. by destruct Ha as [-> | ->].
  - intros d. unfold rreg. destruct Ha as [-> | ->]; [apply Hw|]. apply w32_insert; [exact Hw | done].
  - intros d a Hi. apply Ho. eapply (Hok d). rewrite Hb. apply elem_of_app. by right.
  - exists a2, m2. split; [done|]. eapply mem_now_ext; [|exact Hm]. intros b _.
    apply view_put_ext. intros d a Hi. apply Hr.
    apply (block_fst o (seqZ (c + 1) (14 - c)) addr' d), list_elem_of_fmap.
    exists (d, a). split; [done | exact Hi].
Qed.

(** STM with write-back: the registers are in memory and the base is moved,
    on either kind of CPU. *)
Lemma arm_store_multiple_run :
  ∃ m', arm_store_multiple o address wb m = Some (tt, m') ∧
    mem_now (view_put blk (λ c, rreg c m) (word m)) (upd_arm (put_reg (RN o) wb) m) m'.
Proof.
  unfold arm_store_multiple, store_multiple. rewrite Hal, Hback, H15.
  destruct (stm_first_run o 15 0 address m eq_refl Hw Hok) as (c & addr' & m1 & ps & Hf & Hb & Hm1).
  change (Z.of_nat 15) with 15 in *. fold blk in Hb.
  destruct (mem_now_fields _ _ _ Hm1) as [Hat Harm]. pose proof (mem_now_aborted _ _ _ Hm1) as Hab1.
  rewrite Hab in Hab1.
  rewrite bind_run. unfold gets at 1. rewrite bind_run, Hf. cbv beta iota.
  rewrite bind_run. unfold gets at 1. rewrite Hat, andb_true_r.
  destruct (nz (stm_writeback_at_end (arm m))) eqn:Eat; cbn [negb when].
  - destruct (stm_tail c addr' m1 ps Hb) as (a2 & m2 & Hs & Hm2); [by left|apply Hm1|].
    destruct (mem_now_fields _ _ _ Hm2) as [Hat2 _].
    pose proof (mem_now_aborted _ _ _ Hm2) as Hab2. rewrite Hab1 in Hab2.
    exists (upd_arm (put_reg (RN o) wb) m2). split.
    + unfold mret, M_ret, gets, mbind, M_bind. cbn [when]. cbv beta iota. rewrite Hab1, Hs.
      cbn [when andb]. unfold mret, M_ret. cbv beta iota. by rewrite Hat2, Hat, Eat.
    + apply mem_now_upd. rewrite Hb. by eapply mem_now_seq.
  - set (m1' := upd_arm (put_reg (RN o) wb) m1).
    destruct (stm_tail c addr' m1' ps Hb) as (a2 & m2 & Hs & Hm2).
    { right. unfold m1'. cbn. by rewrite Harm. }
    { apply Hm1. }
    destruct (mem_now_fields _ _ _ Hm2) as [Hat2 _].
    exists m2. split.
    + unfold mret, M_ret, gets, mbind, M_bind. unfold wreg at 1, modify at 1. cbv beta iota.
      fold m1'. change (aborted m1') with (aborted m1). rewrite Hab1, Hs.
      cbn [when andb]. unfold mret, M_ret. cbv beta iota. rewrite Hat2.
      change (stm_writeback_at_end (arm m1')) with (stm_writeback_at_end (arm m1)).
      by rewrite Hat, Eat.
    + rewrite Hb. exact (mem_now_seq ps _ (λ c, rreg c m) (upd_arm (put_reg (RN o) wb) m) m1' m2
        (mem_now_upd (put_reg (RN o) wb) _ _ _ Hm1) Hm2).
Qed.
End store.

(** ** LDM *)

Section load.
Context (o address wb : Z) (m : Mach S P).
Let blk := block o address (seqZ 0 15).
Context (Hab : aborted m = false).
Context (H15 : in_list o 15 = false) (Hal : address .&~ 3 = address) (Hback : writes_back o = true).
Context (Hok : ∀ c a, (c, a) ∈ blk → okm m a).

(** LDM with write-back: the base is moved, then the registers are loaded. *)
Lemma arm_load_multiple_run :
  ∃ m', arm_load_multiple o address wb m = Some (tt, m') ∧
    mem_now (word m) (upd_arm (set_reg (regs_put blk (word m) (<[RN o := wb]> (reg (arm m))))) m) m'.
Proof.
  set (m1 := upd_arm (put_reg (RN o) wb) m).
  destruct (ldm_regs_run o (seqZ 0 15) address m1 Hab Hok) as (a2 & m2 & Hl & Hm).
  exists m2. split; [|exact Hm].
  unfold arm_load_multiple, ldm_end. rewrite Hal, Hback, H15.
  unfold mret, M_ret, gets, mbind, M_bind. cbn [when]. unfold wreg at 1, modify at 1. cbv beta iota.
  fold m1. by rewrite Hl.
Qed.
End load.
End stack.

(** * Push and pop *)

Lemma countbits_range n l c :
  n ≤ foldl (λ t d, if nz (c .& Z.shiftl 1 d) then t + 4 else t) n l ≤ n + 4 * Z.of_nat (length l).
Proof.
  revert n. induction l as [|d l IH]; intros n; cbn [foldl length]; [lia|].
  destruct (nz _); [specialize (IH (n + 4)) | specialize (IH n)]; lia.
Qed.

Lemma block_offset_range o : 0 ≤ arm_ldm_stm_offset o ≤ 64.
Proof. unfold arm_ldm_stm_offset, countbitstable. apply (countbits_range 0 (seqZ 0 16)). Qed.

Lemma opcode_bit k o i : (o .>> 20) .& 0xff = k → 0 ≤ i < 8 → Z.testbit o (i + 20) = Z.testbit k i.
Proof.
  intros <- Hi. rewrite Z.land_spec, Z.shiftr_spec by lia. change 0xff with (Z.ones 8).
  by rewrite Z.ones_spec_low, andb_true_r by lia.
Qed.

Section push_pop.
Context {S P : Type} `{!MemSys S P, !HostSys S P, !MemView S P}.
Implicit Types m : Mach S P.

Lemma execute_stmdb o m :
  (o .>> 20) .& 0xff = 0x92 → execute o m = block_down o arm_store_multiple m.
Proof.
  intros Hk. rewrite execute_switch_eq by lia. unfold execute_switch. by rewrite Hk.
Qed.
Lemma execute_ldmia o m :
  (o .>> 20) .& 0xff = 0x8b → execute o m = block_up o arm_load_multiple m.
Proof.
  intros Hk. rewrite execute_switch_eq by lia. unfold execute_switch. by rewrite Hk.
Qed.

(** The stack frame of [STMDB Rn!, {list}] and where it lies. *)
Definition frame o base : list (Z * Z) := block o (base - arm_ldm_stm_offset o) (seqZ 0 15).

(** The list and the base of a push or pop of the registers below R15. *)
Record stack_op o : Prop := {
  so_15 : in_list o 15 = false;
  so_base : in_list o (RN o) = false;
  so_rn : RN o ≠ 15
}.
Definition stack_pointer base : Prop := base .& 3 = 0 ∧ 64 ≤ base ≤ 0xffffffc0.

Lemma aligned_base base k : base .& 3 = 0 → k .& 3 = 0 → (base - k) .&~ 3 = base - k.
Proof.
  intros Hb Hk. change 3 with (Z.ones 2) in *. rewrite Z.land_ones in * by done.
  rewrite Z.ldiff_ones_r, Z.shiftl_mul_pow2, Z.shiftr_div_pow2 by done.
  change (2 ^ 2) with 4 in *. pose proof (Z.div_mod (base - k) 4).
  rewrite Zminus_mod, Hb, Hk in H. change ((0 - 0) mod 4) with 0 in H. lia.
Qed.

Lemma offset_aligned o : arm_ldm_stm_offset o .& 3 = 0.
Proof.
  unfold arm_ldm_stm_offset, countbitstable.
  assert (∀ l n, n .& 3 = 0 →
    foldl (λ t d, if nz (o .& 0xffff .& Z.shiftl 1 d) then t + 4 else t) n l .& 3 = 0) as H.
  { induction l as [|d l IH]; intros n Hn; cbn [foldl]; [done|]. apply IH.
    destruct (nz _); [|done]. change 3 with (Z.ones 2) in *. rewrite Z.land_ones in * by done.
    change (2 ^ 2) with 4 in *. by rewrite <- (Z.add_mod_idemp_l n), Hn. }
  by apply H.
Qed.

Lemma flags_of o k : (o .>> 20) .& 0xff = k → RN o ≠ 15 →
  flag_P o = Z.testbit k 4 ∧ writes_back o = Z.testbit k 1.
Proof.
  intros Hk Hr. unfold writes_back, flag_P, flag_W. rewrite (proj2 (Z.eqb_neq _ _) Hr), andb_true_r.
  change 0x1000000 with (2 ^ 24). change 0x200000 with (2 ^ 21). rewrite !nz_mask_bit by done.
  by rewrite <- (opcode_bit k o 4), <- (opcode_bit k o 1) by (done || lia).
Qed.

(** STMDB with write-back. *)
Lemma push_run o m :
  let base := rreg (RN o) m in
  (o .>> 20) .& 0xff = 0x92 → stack_op o → stack_pointer base →
  (∀ c, w32 (rreg c m)) → aborted m = false → (∀ c a, (c, a) ∈ frame o base → okm m a) →
  ∃ m', execute o m = Some (tt, m') ∧
    mem_now (view_put (frame o base) (λ c, rreg c m) (word m))
            (upd_arm (put_reg (RN o) (base - arm_ldm_stm_offset o)) m) m'.
Proof.
  intros base Hk [H15 Hb Hr] [Hal Hbase] Hw Hab Hok. destruct (flags_of o _ Hk Hr) as [HP HW].
  pose proof (block_offset_range o) as Hoff.
  assert (sub32 base (arm_ldm_stm_offset o) = base - arm_ldm_stm_offset o) as Hsub
    by (unfold sub32; apply u32_id; unfold w32; lia).
  destruct (arm_store_multiple_run o (base - arm_ldm_stm_offset o) (base - arm_ldm_stm_offset o) m)
    as (m' & Hrun & Hm); try done.
  - unfold w32; lia.
  - apply aligned_base; [done | apply offset_aligned].
  - exists m'. split; [|exact Hm]. rewrite execute_stmdb by done.
    unfold block_down, gets, mbind, M_bind. cbv beta iota zeta. fold base. by rewrite Hsub, HP.
Qed.

(** LDMIA with write-back. *)
Lemma pop_run o m :
  let base := rreg (RN o) m + arm_ldm_stm_offset o in
  (o .>> 20) .& 0xff = 0x8b → stack_op o → stack_pointer base →
  aborted m = false → (∀ c a, (c, a) ∈ frame o base → okm m a) →
  ∃ m', execute o m = Some (tt, m') ∧
    mem_now (word m) (upd_arm (set_reg (regs_put (frame o base) (word m)
      (<[RN o := base]> (reg (arm m))))) m) m'.
Proof.
  intros base Hk [H15 Hb Hr] [Hal Hbase] Hab Hok. destruct (flags_of o _ Hk Hr) as [HP HW].
  pose proof (block_offset_range o) as Hoff.
  assert (rreg (RN o) m = base - arm_ldm_stm_offset o) as Ea by (unfold base; lia).
  assert (add32 (rreg (RN o) m) (arm_ldm_stm_offset o) = base) as Hadd
    by (unfold add32; fold base; apply u32_id; unfold w32; lia).
  destruct (arm_load_multiple_run o (base - arm_ldm_stm_offset o) base m Hab H15)
    as (m' & Hrun & Hm); try done.
  - apply aligned_base; [done | apply offset_aligned].
  - exists m'. split; [|exact Hm]. rewrite execute_ldmia by done.
    unfold block_up, gets, mbind, M_bind. cbv beta iota zeta. by rewrite Hadd, Ea, HP.
Qed.

Lemma frame_same o1 o2 base :
  o1 .& 0xfffff = o2 .& 0xfffff → frame o1 base = frame o2 base ∧ RN o1 = RN o2 ∧
    (∀ c, 0 ≤ c < 16 → in_list o1 c = in_list o2 c) ∧ arm_ldm_stm_offset o1 = arm_ldm_stm_offset o2.
Proof.
  intros H.
  assert (∀ i, 0 ≤ i < 20 → Z.testbit o1 i = Z.testbit o2 i) as Hb.
  { intros i Hi. apply (f_equal (λ x, Z.testbit x i)) in H. rewrite !Z.land_spec in H.
    change 0xfffff with (Z.ones 20) in H. by rewrite Z.ones_spec_low, !andb_true_r in H by lia. }
  assert (∀ c, 0 ≤ c < 16 → in_list o1 c = in_list o2 c) as Hl.
  { intros c Hc. unfold in_list. rewrite Z.shiftl_1_l, !nz_mask_bit by lia. apply Hb. lia. }
  assert (arm_ldm_stm_offset o1 = arm_ldm_stm_offset o2) as Ho.
  { unfold arm_ldm_stm_offset. f_equal. apply Z.bits_inj'. intros i Hi. rewrite !Z.land_spec.
    change 0xffff with (Z.ones 16). destruct (Z.lt_ge_cases i 16).
    - by rewrite Hb by lia.
    - by rewrite Z.ones_spec_high, !andb_false_r by lia. }
  assert (RN o1 = RN o2) as Hr.
  { unfold RN. apply Z.bits_inj'. intros i Hi. rewrite !Z.land_spec, !Z.shiftr_spec by done.
    change 0xf with (Z.ones 4). destruct (Z.lt_ge_cases i 4).
    - by rewrite Hb by lia.
    - by rewrite Z.ones_spec_high, !andb_false_r by lia. }
  split_and!; try done. unfold frame. rewrite Ho.
  assert (Forall (λ c, 0 ≤ c < 16) (seqZ 0 15)) as HF by (apply Forall_seqZ; lia).
  revert HF. generalize (base - arm_ldm_stm_offset o2) as a. induction (seqZ 0 15) as [|c l IH];
    intros a HF; cbn [block]; [done|]. apply list.Forall_cons in HF as [Hc HF].
  rewrite Hl by done. destruct (in_list o2 c); [f_equal|]; by apply IH.
Qed.

Lemma frame_in o base c a :
  64 ≤ base ≤ 0xffffffc0 → (c, a) ∈ frame o base →
  (0 ≤ c < 15 ∧ in_list o c = true) ∧ NoDup (frame o base).*1 ∧ NoDup (frame o base).*2.
Proof.
  intros Hb Hi. pose proof (block_offset_range o) as Hoff.
  assert (length (seqZ 0 15) = 15%nat) as Hlen by done.
  split; [|split].
  - apply block_bounds in Hi as (Hc & ? & _); [|lia|rewrite Hlen; lia].
    rewrite elem_of_seqZ in Hc. split; [lia | done].
  - apply block_fst_nodup, NoDup_seqZ.
  - apply block_nodup; [lia|rewrite Hlen; lia].
Qed.

(** A push, whatever happens to the registers in between, and the pop. *)
Lemma push_pop_run o1 o2 m :
  let base := rreg (RN o1) m in
  (o1 .>> 20) .& 0xff = 0x92 → (o2 .>> 20) .& 0xff = 0x8b → o1 .& 0xfffff = o2 .& 0xfffff →
  stack_op o1 → stack_pointer base → (∀ c, w32 (rreg c m)) → aborted m = false →
  (∀ c a, (c, a) ∈ frame o1 base → okm m a) →
  ∃ m1, execute o1 m = Some (tt, m1) ∧ arm m1 = put_reg (RN o1) (base - arm_ldm_stm_offset o1) (arm m) ∧
    (∀ b, okm m b → b ∉ (frame o1 base).*2 → word m1 b = word m b) ∧
    ∀ m2, aborted m2 = false → rreg (RN o1) m2 = rreg (RN o1) m1 →
      (∀ c a, (c, a) ∈ frame o1 base → okm m2 a ∧ word m2 a = word m1 a) →
      ∃ m3, execute o2 m2 = Some (tt, m3) ∧
        ∀ r, 0 ≤ r < 16 → rreg r m3 =
          if in_list o1 r || (r =? RN o1) then rreg r m else rreg r m2.
Proof.
  intros base Hk1 Hk2 Hsame Hop Hsp Hw Hab Hok.
  destruct (frame_same o1 o2 base Hsame) as (Hfr & Hrn & Hlist & Hoff).
  destruct (push_run o1 m Hk1 Hop Hsp Hw Hab Hok) as (m1 & Hrun & E1 & H1). fold base in E1, H1.
  exists m1. split; [done|]. split; [by rewrite E1|]. split.
  { intros b Hb Hn. rewrite (proj2 (H1 b)) by done. by apply view_put_other. }
  intros m2 Hab2 Hr2 Hm2.
  assert (rreg (RN o1) m2 + arm_ldm_stm_offset o2 = base) as Hb.
  { rewrite Hr2, E1, <- Hoff. cbn. rewrite arr_same. lia. }
  assert (stack_op o2) as Hop2.
  { destruct Hop as [H15 Hin Hne]. pose proof (RN_range o1).
    split; [by rewrite <- Hlist by lia | by rewrite <- Hrn, <- Hlist by lia | by rewrite <- Hrn]. }
  destruct (pop_run o2 m2) as (m3 & Hrun3 & E3 & _); rewrite <- ?Hrn, ?Hb; try rewrite <- Hfr.
  - done.
  - done.
  - done.
  - done.
  - intros c a Hi. by apply (Hm2 c a).
  - exists m3. split; [done|]. intros r Hr.
    transitivity (regs_put (frame o1 base) (word m2) (<[RN o1 := base]> (reg (arm m2))) !!! r).
    { rewrite Hfr, Hrn, <- Hb, Hrn. by rewrite E3. }
    destruct (in_list o1 r) eqn:Ein; cbn [orb].
    + assert (∃ a, (r, a) ∈ frame o1 base) as [a Ha].
      { assert (r ∈ (frame o1 base).*1) as Hi.
        { apply block_fst. split; [|done]. apply elem_of_seqZ. destruct Hop as [H15 _ _].
          assert (r ≠ 15) by (intros ->; congruence). lia. }
        apply list_elem_of_fmap in Hi as ([? a] & -> & Hi). by exists a. }
      destruct (frame_in _ _ _ _ (proj2 Hsp) Ha) as (_ & Hn1 & Hn2).
      rewrite (regs_put_in _ _ _ r a Hn1 Ha). rewrite (proj2 (Hm2 r a Ha)).
      rewrite (proj2 (H1 a)) by by apply (Hok r). by rewrite (view_put_in _ _ _ r a).
    + rewrite regs_put_other by (by intros [_ ?]%block_fst; congruence).
      destruct (Z.eqb_spec r (RN o1)) as [->|Hne]; [apply arr_same | by rewrite arr_other].
Qed.
End push_pop.
