(* ===== verification/ArmWord.v ===== *)
(** Single transfers: what LDR and STR of a word do against a view of memory,
    and that an aborted transfer leaves the registers as they were, so that the
    instruction can be run again. *)

From S2P Require Export ArmStack.

Section word.
Context {S P : Type} `{!MemSys S P, !HostSys S P, !MemView S P}.
Implicit Types m : Mach S P.

(** The effective address, and the write-back if there is one. *)
Definition transfer_address o m : Z :=
  let base := GETADDR (RN o) m in
  if flag_P o then add32 base (ldrstr_offset o m) else base.
Definition transfer_writeback o m (a : ARMState) : ARMState :=
  if negb (flag_P o) then put_reg (RN o) (add32 (GETADDR (RN o) m) (ldrstr_offset o m)) a
  else if flag_W o then put_reg (RN o) (transfer_address o m) a
  else a.

Definition is_ldr k : bool := existsb (Z.eqb k)
  [0x41; 0x49; 0x51; 0x53; 0x59; 0x5b; 0x61; 0x69; 0x71; 0x73; 0x79; 0x7b].
Definition is_str k : bool := existsb (Z.eqb k)
  [0x40; 0x48; 0x50; 0x52; 0x58; 0x5a; 0x60; 0x68; 0x70; 0x72; 0x78; 0x7a].

(** Bit 4 must be clear in the register forms. *)
Definition plain_form o : Prop := nz (o .& 0x2000000) = true → nz (o .& 0x10) = false.

Lemma plain_or_undefined k o body m :
  (o .>> 20) .& 0xff = k → 0x60 ≤ k < 0x80 → plain_form o → or_undefined o body m = body m.
Proof.
  intros Hk Hr Hp. unfold or_undefined. rewrite Hp; [done|].
  change 0x2000000 with (2 ^ 25). rewrite nz_mask_bit by done. rewrite (bit25 o k Hk).
  clear Hk Hp. each_value k 0x60 0x80 ltac:(reflexivity).
Qed.

Lemma execute_ldr k o m :
  (o .>> 20) .& 0xff = k → is_ldr k = true → plain_form o → execute o m = LDR o m.
Proof.
  intros Hk Hl Hp. assert (0x40 ≤ k < 0x80) as Hr.
  { unfold is_ldr in Hl. apply existsb_exists in Hl as (x & Hx & ->%Z.eqb_eq).
    rewrite <- list_elem_of_In in Hx. revert Hx. clear. rewrite !elem_of_cons, elem_of_nil. lia. }
  rewrite execute_switch_eq by lia. unfold execute_switch. rewrite Hk.
  pose proof (plain_or_undefined k o (LDR o) m Hk) as Hu.
  clear Hk. each_value k 0x40 0x80
    ltac:(first [discriminate Hl | reflexivity | apply Hu; [lia | assumption]]).
Qed.

Lemma execute_str k o m :
  (o .>> 20) .& 0xff = k → is_str k = true → plain_form o → execute o m = STR o m.
Proof.
  intros Hk Hl Hp. assert (0x40 ≤ k < 0x80) as Hr.
  { unfold is_str in Hl. apply existsb_exists in Hl as (x & Hx & ->%Z.eqb_eq).
    rewrite <- list_elem_of_In in Hx. revert Hx. clear. rewrite !elem_of_cons, elem_of_nil. lia. }
  rewrite execute_switch_eq by lia. unfold execute_switch. rewrite Hk.
  pose proof (plain_or_undefined k o (STR o) m Hk) as Hu.
  clear Hk. each_value k 0x40 0x80
    ltac:(first [discriminate Hl | reflexivity | apply Hu; [lia | assumption]]).
Qed.

Lemma writeback_run o m m1 :
  ldrstr_writeback o (transfer_address o m) (ldrstr_offset o m) m1 =
    Some (tt, upd_arm (transfer_writeback o m) m1).
Proof.
  unfold ldrstr_writeback, transfer_writeback, transfer_address.
  destruct (flag_P o); cbn [negb]; [|reflexivity].
  destruct (flag_W o); [reflexivity|]. by destruct m1 as [[] ? ? ? ? ? ? ? ?].
Qed.

(** LDR: the word at the effective address, rotated when the address is not
    aligned, and the base moved first. *)
Lemma ldr_run k o m :
  let a := transfer_address o m in
  (o .>> 20) .& 0xff = k → is_ldr k = true → plain_form o → RD o ≠ 15 →
  aborted m = false → okm m (a .&~ 3) →
  ∃ m', execute o m = Some (tt, m') ∧
    mem_now (word m) (upd_arm (λ r, put_reg (RD o) (arm_ldr_rotate (word m (a .&~ 3)) a)
                                      (transfer_writeback o m r)) m) m'.
Proof.
  intros a Hk Hl Hp Hrd Hab Hok. rewrite (execute_ldr k) by done.
  destruct (mem_read32_run (a .&~ 3) m Hok) as (m1 & Hr & Hm1).
  exists (upd_arm (put_reg (RD o) (arm_ldr_rotate (word m (a .&~ 3)) a))
            (upd_arm (transfer_writeback o m) m1)).
  split; [|exact (mem_now_upd (λ r, put_reg (RD o) _ (transfer_writeback o m r)) _ _ _ Hm1)].
  unfold LDR, ldr, gets, mbind, M_bind. cbv beta iota zeta.
  change (if flag_P o then add32 (GETADDR (RN o) m) (ldrstr_offset o m) else GETADDR (RN o) m) with a.
  rewrite Hr. unfold abort_restored. rewrite (mem_now_aborted _ _ _ Hm1), Hab, andb_false_r.
  unfold a. rewrite writeback_run.
  assert (aborted (upd_arm (transfer_writeback o m) m1) = false) as ->.
  { rewrite <- Hab, <- (mem_now_aborted _ _ _ Hm1). unfold transfer_writeback.
    by destruct (flag_P o), (flag_W o). }
  unfold LOADREG. by rewrite (proj2 (Z.eqb_neq _ _) Hrd).
Qed.

(** STR: the register at the effective address. *)
Lemma str_run k o m :
  let a := transfer_address o m in
  (o .>> 20) .& 0xff = k → is_str k = true → plain_form o → w32 (GETREG (RD o) m) →
  aborted m = false → okm m (a .&~ 3) →
  ∃ m', execute o m = Some (tt, m') ∧
    mem_now (λ b, if b =? a .&~ 3 then GETREG (RD o) m else word m b)
            (upd_arm (transfer_writeback o m) m) m'.
Proof.
  intros a Hk Hl Hp Hv Hab Hok. rewrite (execute_str k) by done.
  destruct (mem_write32_run (a .&~ 3) (GETREG (RD o) m) m Hok Hv) as (m1 & Hr & Hm1).
  exists (upd_arm (transfer_writeback o m) m1).
  split; [|by apply (mem_now_upd (transfer_writeback o m))].
  unfold STR, str, gets, mbind, M_bind. cbv beta iota zeta.
  change (if flag_P o then add32 (GETADDR (RN o) m) (ldrstr_offset o m) else GETADDR (RN o) m) with a.
  rewrite Hr. unfold abort_restored. rewrite (mem_now_aborted _ _ _ Hm1), Hab, andb_false_r.
  unfold a. apply writeback_run.
Qed.
End word.

(** * Aborted transfers *)

Section aborts.
Context {S P : Type} `{!MemSys S P, !HostSys S P}.
Context (a0 : ARMState).
Implicit Types m : Mach S P.

(** The core is [a0] but for the event word, where memory raises aborts. *)
Definition regs_at m : Prop := set_event 0 (arm m) = set_event 0 a0.
(** If an abort is pending the core has not changed. *)
Definition restartable m : Prop := aborted m = true → regs_at m.

Lemma regs_at_restartable m : regs_at m → restartable m.
Proof. by intros H _. Qed.
Lemma not_aborted_restartable m : aborted m = false → restartable m.
Proof. intros H H'. congruence. Qed.

Definition silent {A} (c : M (Mach S P) A) : Prop :=
  hoare (λ m, aborted m = false) c (λ _ m, aborted m = false).
Definition memory_only {A} (c : M (Mach S P) A) : Prop := hoare regs_at c (λ _, regs_at).

Lemma zoom_memory_only {A} (op : M (Z * S) A) : memory_only (mem_zoom op).
Proof.
  intros m Hm. unfold mem_zoom, zoom. destruct (op _) as [[a [e s]]|]; [|done].
  unfold regs_at in *. cbn. rewrite <- Hm. by destruct (arm m).
Qed.
Lemma user_memory_only {A} (op : M (Z * S) A) : memory_only (with_user_privilege (mem_zoom op)).
Proof.
  intros m Hm. unfold with_user_privilege, mem_set_privilege, mem_zoom, zoom, gets, modify, mbind, M_bind.
  cbn. destruct (op _) as [[a [e s]]|]; [|done].
  unfold regs_at in *. cbn. rewrite <- Hm. by destruct (arm m).
Qed.

Lemma silent_modify f : (∀ m, event (arm (f m)) = event (arm m)) → silent (modify f).
Proof. intros Hf m Hm. unfold modify, aborted in *. by rewrite Hf. Qed.
Lemma silent_LOADREG r v : silent (LOADREG r v).
Proof. intros m Hm. unfold LOADREG, gets, mbind, M_bind. by destruct (r =? 15). Qed.
Lemma silent_writeback o a off : silent (ldrstr_writeback o a off).
Proof. intros m Hm. unfold ldrstr_writeback. by destruct (negb _); [|destruct (flag_W o)]. Qed.

(** The test after a memory access, on a CPU that restores the base. *)
Lemma abort_test (k : M (Mach S P) unit) :
  nz (abort_base_restored a0) = true → silent k →
  hoare regs_at (ab ← gets abort_restored; if (ab : bool) then mret tt else k) (λ _, restartable).
Proof.
  intros Hr Hk m Hm. unfold gets, mbind, M_bind. cbv beta iota.
  assert (abort_base_restored (arm m) = abort_base_restored a0) as Ha
    by exact (f_equal abort_base_restored Hm).
  unfold abort_restored. rewrite Ha, Hr. cbn [andb]. destruct (aborted m) eqn:E.
  - by apply regs_at_restartable.
  - specialize (Hk m E). destruct (k m) as [[[] m']|]; [|done]. by apply not_aborted_restartable.
Qed.
Lemma abort_test_half (k : M (Mach S P) unit) :
  silent k →
  hoare regs_at (ab ← gets aborted; if (ab : bool) then mret tt else k) (λ _, restartable).
Proof.
  intros Hk m Hm. unfold gets, mbind, M_bind. cbv beta iota. destruct (aborted m) eqn:E.
  - by apply regs_at_restartable.
  - specialize (Hk m E). destruct (k m) as [[[] m']|]; [|done]. by apply not_aborted_restartable.
Qed.

Lemma silent_bind {A B} (c : M (Mach S P) A) (k : A → M (Mach S P) B) :
  silent c → (∀ a, silent (k a)) → silent (c ≫= k).
Proof. intros Hc Hk. eapply hoare_bind; [exact Hc | exact Hk]. Qed.
Lemma silent_gets {A B} (f : Mach S P → A) (k : A → M (Mach S P) B) :
  (∀ a, silent (k a)) → silent (gets f ≫= k).
Proof. intros Hk m Hm. by apply (Hk (f m)). Qed.
Lemma silent_ret {A} (a : A) : silent (mret a).
Proof. by intros m Hm. Qed.

Lemma at_gets {A B} (f : Mach S P → A) (k : A → M (Mach S P) B) Q :
  (∀ a, hoare regs_at (k a) Q) → hoare regs_at (gets f ≫= k) Q.
Proof. intros Hk m Hm. by apply (Hk (f m)). Qed.
Lemma at_memory {A B} (c : M (Mach S P) A) (k : A → M (Mach S P) B) Q :
  memory_only c → (∀ a, hoare regs_at (k a) Q) → hoare regs_at (c ≫= k) Q.
Proof. intros Hc Hk. eapply hoare_bind; [exact Hc | exact Hk]. Qed.

Section forms.
Context (Hr : nz (abort_base_restored a0) = true).

Lemma ldr_restartable o load rot :
  (∀ a, memory_only (load a)) → hoare regs_at (ldr o load rot) (λ _, restartable).
Proof.
  intros Hl. unfold ldr. apply at_gets. intros base. apply at_gets. intros off. cbv zeta.
  apply at_memory; [apply Hl|]. intros data. apply abort_test; [done|].
  apply silent_bind; [apply silent_writeback|]. intros []. apply silent_gets. intros [];
    [apply silent_ret | apply silent_LOADREG].
Qed.
Lemma str_restartable o store :
  (∀ a v, memory_only (store a v)) → hoare regs_at (str o store) (λ _, restartable).
Proof.
  intros Hs. unfold str. apply at_gets. intros base. apply at_gets. intros off. cbv zeta.
  apply at_gets. intros data. apply at_memory; [apply Hs|]. intros [].
  apply abort_test; [done|]. apply silent_writeback.
Qed.
Lemma ldrt_restartable o load rot :
  (∀ a, memory_only (load a)) → hoare regs_at (ldrt o load rot) (λ _, restartable).
Proof.
  intros Hl. unfold ldrt. apply at_gets. intros base.
  apply at_memory; [apply Hl|]. intros data. apply abort_test; [done|]. cbv zeta.
  apply silent_gets. intros off. apply silent_bind; [by apply silent_modify|]. intros [].
  apply silent_gets. intros []; [apply silent_ret | apply silent_LOADREG].
Qed.
Lemma strt_restartable o store :
  (∀ a v, memory_only (store a v)) → hoare regs_at (strt o store) (λ _, restartable).
Proof.
  intros Hs. unfold strt. apply at_gets. intros base. apply at_gets. intros data.
  apply at_memory; [apply Hs|]. intros []. apply abort_test; [done|].
  apply silent_gets. intros off. by apply silent_modify.
Qed.
End forms.

Lemma ldr_half_restartable o load :
  (∀ a, memory_only (load a)) → hoare regs_at (ldr_half o load) (λ _, restartable).
Proof.
  intros Hl. unfold ldr_half. apply at_gets. intros base. apply at_gets. intros off. cbv zeta.
  apply at_memory; [apply Hl|]. intros data. apply abort_test_half.
  apply silent_bind; [apply silent_writeback|]. intros []. apply silent_LOADREG.
Qed.
Lemma strh_restartable o : hoare regs_at (arm_strh o) (λ _, restartable).
Proof.
  unfold arm_strh. apply at_gets. intros base. apply at_gets. intros off. cbv zeta.
  apply at_gets. intros data. apply at_memory; [apply zoom_memory_only|]. intros [].
  apply at_memory; [apply zoom_memory_only|]. intros []. apply abort_test_half, silent_writeback.
Qed.
End aborts.

(** One of the eight routines of word and byte transfers. *)
Ltac restart_routine H :=
  lazymatch goal with
  | |- hoare _ (LDR _) _ => apply (ldr_restartable _ H)
  | |- hoare _ (LDRB _) _ => apply (ldr_restartable _ H)
  | |- hoare _ (STR _) _ => apply (str_restartable _ H)
  | |- hoare _ (STRB _) _ => apply (str_restartable _ H)
  | |- hoare _ (LDRT _) _ => apply (ldrt_restartable _ H)
  | |- hoare _ (LDRBT _) _ => apply (ldrt_restartable _ H)
  | |- hoare _ (STRT _) _ => apply (strt_restartable _ H)
  | |- hoare _ (STRBT _) _ => apply (strt_restartable _ H)
  end; intros; apply zoom_memory_only || apply user_memory_only.

Section restart.
Context {S P : Type} `{!MemSys S P, !HostSys S P}.
Implicit Types m : Mach S P.

(** The two tests before the instruction switch. *)
Definition half_decode o : bool :=
  (o .& 0xe0000f0 =? 0xb0) || (o .& 0xe1000d0 =? 0x1000d0).

(** A single transfer: a word or a byte, or with ARMv4 a halfword or a signed one. *)
Definition single_transfer o m : Prop :=
  0x40 ≤ (o .>> 20) .& 0xff < 0x80 ∧ plain_form o ∨
  nz (arch_v4 (arm m)) = true ∧ half_decode o = true.

(** The routine of the opcode whose bits 20 to 27 are [k]. *)
Definition single_body (k o : Z) : M (Mach S P) unit :=
  let byte := Z.testbit k 2 in let load := Z.testbit k 0 in
  if negb (Z.testbit k 4) && Z.testbit k 1
  then if byte then (if load then LDRBT o else STRBT o) else (if load then LDRT o else STRT o)
  else if byte then (if load then LDRB o else STRB o) else (if load then LDR o else STR o).

Lemma execute_single k o m :
  (o .>> 20) .& 0xff = k → 0x40 ≤ k < 0x80 → plain_form o → execute o m = single_body k o m.
Proof.
  intros Hk Hr Hp. rewrite execute_switch_eq by lia. unfold execute_switch. rewrite Hk.
  assert (∀ body, 0x60 ≤ k → or_undefined o body m = body m) as Hu.
  { intros body H6. unfold or_undefined. rewrite Hp; [done|].
    change 0x2000000 with (2 ^ 25). rewrite nz_mask_bit, (bit25 o k Hk) by done.
    clear Hk Hp. each_value k 0x60 0x80 ltac:(reflexivity). }
  clear Hk. each_value k 0x40 0x80 ltac:(first [reflexivity | apply Hu; lia]).
Qed.

Lemma execute_half o m :
  nz (arch_v4 (arm m)) = true → half_decode o = true →
  execute o m =
    (if o .& 0xe0000f0 =? 0xb0 then (if nz (o .& 0x100000) then arm_ldrh o else arm_strh o)
     else if o .& 0xf0 =? 0xd0 then arm_ldrsb o else arm_ldrsh o) m.
Proof.
  intros H4 Hh. unfold execute, gets, mbind, M_bind. cbv beta iota. rewrite H4. cbn [andb].
  unfold half_decode in Hh. destruct (o .& 0xe0000f0 =? 0xb0); [done|]. cbn [orb] in Hh. by rewrite Hh.
Qed.

(** On a CPU that restores the base, a transfer whose access aborts leaves the
    whole core as it was. *)
Lemma restartable_execute o m :
  single_transfer o m → nz (abort_base_restored (arm m)) = true →
  match execute o m with Some (_, m') => restartable (arm m) m' | None => True end.
Proof.
  intros Ht Hr. assert (regs_at (arm m) m) as Hm by done.
  destruct Ht as [[Hk Hp]|[H4 Hh]].
  - rewrite (execute_single _ o m eq_refl) by done.
    assert (hoare (regs_at (arm m)) (single_body ((o .>> 20) .& 0xff) o) (λ _, restartable (arm m))) as Hb;
      [|exact (Hb m Hm)].
    unfold single_body. cbv zeta.
    destruct (negb _ && _), (Z.testbit _ 2), (Z.testbit _ 0); restart_routine Hr.
  - rewrite execute_half by done.
    assert (∀ c : M (Mach S P) unit, hoare (regs_at (arm m)) c (λ _, restartable (arm m)) →
      match c m with Some (_, m') => restartable (arm m) m' | None => True end) as Hc
      by (intros c Hc; exact (Hc m Hm)).
    assert (∀ a f, memory_only (arm m) (v ← mem_read32 a; mret (f v : Z))) as Hl.
    { intros a f. eapply hoare_bind; [apply zoom_memory_only | intros v s Hs; exact Hs]. }
    assert (∀ a f, memory_only (arm m) (v ← mem_read8 a; mret (f v : Z))) as Hl8.
    { intros a f. eapply hoare_bind; [apply zoom_memory_only | intros v s Hs; exact Hs]. }
    apply Hc. repeat (match goal with |- hoare _ (if ?b then _ else _) _ => destruct b end);
      [apply ldr_half_restartable; intros a; apply (Hl _ (λ v, if nz (a .& 2) then v .>> 16 else v .& 0xffff))
      | apply strh_restartable
      | apply ldr_half_restartable; intros a; apply (Hl8 a (λ v, u32 (s8 v)))
      | apply ldr_half_restartable; intros a;
        apply (Hl _ (λ v, if nz (a .& 2) then asr32 v 16 else u32 (s16 v)))].
Qed.
End restart.
