(* ===== verification/ArmFlat.v ===== *)
(** A small machine to evaluate the core on: a flat memory in the place of the
    memory system and no host services. It instantiates the interfaces of the
    core, so that the theorems stated over them are applied to concrete states. *)

From S2P Require Export ArmUser ArmLoop ArmMul ArmWord.

(** Words of memory by address; an access at [fm_limit] and above, or in User
    mode at [fm_user_limit] and above, is a data abort. *)
Record flat := mkFlat {
  fm_words : gmap Z Z;
  fm_priv : Z;
  fm_prog32 : Z;
  fm_limit : Z;
  fm_user_limit : Z
}.

Definition fm_allowed (a : Z) (s : flat) : bool :=
  a <? (if nz (fm_priv s) then fm_limit s else fm_user_limit s).
Definition fm_get (a : Z) (s : flat) : Z := u32 (fm_words s !!! (a .&~ 3)).
Definition fm_put (a v : Z) (s : flat) : flat :=
  mkFlat (<[a .&~ 3 := v]> (fm_words s)) (fm_priv s) (fm_prog32 s) (fm_limit s)
    (fm_user_limit s).
Definition fm_set_priv (p : Z) (s : flat) : flat :=
  mkFlat (fm_words s) p (fm_prog32 s) (fm_limit s) (fm_user_limit s).

(** An access guarded by the limits. *)
Definition fm_access {A} (a : Z) (dflt : A) (f : flat → A * flat) : M (Z * flat) A :=
  λ '(e, s), if fm_allowed a s then let '(x, s') := f s in Some (x, (e, s'))
             else Some (dflt, (e .| 0x40, s)).
Definition fm_byte (a : Z) (s : flat) : Z := (fm_get a s .>> (8 * (a .& 3))) .& 0xff.
Definition fm_put_byte (a v : Z) (s : flat) : flat :=
  let sh := 8 * (a .& 3) in
  fm_put a ((fm_get a s .&~ shl32 0xff sh) .| shl32 v sh) s.

#[export] Instance flat_mem : MemSys flat unit := {
  ms_read32 a := fm_access a 0 (λ s, (fm_get a s, s));
  ms_read8 a := fm_access a 0 (λ s, (fm_byte a s, s));
  ms_write32 a v := fm_access a tt (λ s, (tt, fm_put a v s));
  ms_write8 a v := fm_access a tt (λ s, (tt, fm_put_byte a v s));
  ms_memmode := fm_priv;
  ms_set_privilege := fm_set_priv;
  ms_prog32 := fm_prog32;
  ms_getpccache a := λ '(e, s), Some (if fm_allowed a s then Some tt else None, (e, s));
  ms_fetch _ i s := fm_get (4 * i) s;
  ms_cp15_read _ := λ s, Some (0, s);
  ms_cp15_write _ _ _ := λ s, Some (Cp15None, s)
}.

#[export] Instance flat_host : HostSys flat unit := {
  debugger_exception_hook _ _ _ s := s;
  debugger_hook_active _ := false;
  debugger_instruction_hook _ _ s := (false, s);
  debugger_after_instruction _ _ s := s;
  debugger_bad_mode _ _ s := (false, s);
  debugger_break_swi _ s := s;
  debugger_swi_trace_active _ := false;
  debugger_swi_hook _ _ m := sys m;
  accel_swi _ m := (false, sys m);
  rpcemu_request_poweroff s := s;
  rpcemu_idle s := s;
  hostfs_activity_increment s := s;
  network_activity_increment s := s;
  config_cpu_idle _ := false;
  config_network _ := false;
  config_clipboard_enabled _ := false;
  config_hostcmd_enabled _ := false;
  mousehack _ := false;
  fpaopcode _ := mret tt;
  mouse_hack_osword_21_0 _ := mret tt;
  mouse_hack_osword_21_1 _ := mret tt;
  mouse_hack_osword_21_3 _ := mret tt;
  mouse_hack_osword_21_4 _ := mret tt;
  mouse_hack_osmouse := mret tt;
  mouse_hack_osbyte_106 _ := mret tt;
  hostfs := mret tt;
  hostcmd := mret tt;
  network_swi _ := mret (0, 0);
  clipboard_swi _ := mret (0, 0)
}.

(** A machine in mode [md] with registers [regs] and memory [words], its
    mode-derived state as [updatemode] would leave it. *)
Definition flat_machine (md : Z) (v4 : Z) (regs words : gmap Z Z) : Mach flat unit :=
  mkMach (mkARM regs md (mode_mask md) (pc_mask md) 0 ∅ ∅ ∅ ∅ ∅ ∅ ∅ 4 0 0 v4)
    (psr_index md) (psr_index md)
    (arr_fill 0 16 (usr_ref md) ∅) 0xffffffff None 1000 0
    (mkFlat words (priv_of md) 1 0x10000 0x8000).

(** A list of values as consecutive array elements. *)
Definition array (lo : Z) (vs : list Z) : gmap Z Z :=
  list_to_map (zip (seqZ lo (Z.of_nat (length vs))) vs).
Definition program (base : Z) (os : list Z) : gmap Z Z :=
  list_to_map (imap (λ i o, (base + 4 * Z.of_nat i, o)) os).

(** * The laws hold *)

Lemma fm_access_ok {A} `{!Val A} a (d : A) f :
  val d → (∀ s, val (fst (f s)) ∧ fm_priv (snd (f s)) = fm_priv s) →
  mem_ok (P:=unit) (fm_access a d f).
Proof.
  intros Hd Hf e s x e' s' He. unfold fm_access. specialize (Hf s).
  destruct (fm_allowed a s).
  - destruct (f s) as [y s'']. intros [= <- <- <-]. cbn in Hf. by destruct Hf.
  - intros [= <- <- <-]. split_and!; [done | | done]. apply w32_lor; [done | unfold w32; lia].
Qed.

#[export] Instance flat_mem_ok : MemSysOk flat unit.
Proof.
  split; intros; cbn.
  - apply fm_access_ok; [unfold val, val_Z, w32; lia|]. intros s. split; [apply u32_w32 | done].
  - apply fm_access_ok; [unfold val, val_Z, w32; lia|]. intros s. split; [|done].
    cbn. unfold val, val_Z, fm_byte. apply w32_land_r. unfold w32; lia.
  - apply fm_access_ok; [exact I|]. intros s. by split; [exact I|].
  - apply fm_access_ok; [exact I|]. intros s. by split; [exact I|].
  - intros e s x e' s' He [= <- <- <-]. split_and!; [|done|done]. by destruct (fm_allowed a s).
  - done.
  - cbn in *. simplify_eq. split; [unfold w32; lia | done].
  - cbn in *. by simplify_eq.
Qed.

#[export] Instance flat_host_ok : HostSysOk flat unit.
Proof.
  split; intros; cbn; try reflexivity; intros s Hs; cbn; (split; [|exact Hs]); try exact I.
  all: split; cbn; unfold val, val_Z, w32; lia.
Qed.

(** A decidable form of the invariant on these machines. *)
Lemma flat_machine_inv md v4 regs words :
  0 ≤ md < 32 →
  map_Forall (λ _ v, w32 v) regs →
  (16 <=? md) = true → regs !!! 16 .& 0x1f = md →
  core_inv (flat_machine md v4 regs words).
Proof.
  intros Hmd Hw H32 Hp.
  assert (∀ r, w32 (regs !!! r)) as Hr.
  { intros r. rewrite lookup_total_alt. destruct (regs !! r) eqn:E; [by eapply Hw|].
    cbn. unfold w32; lia. }
  assert (∀ r : Z, w32 ((∅ : gmap Z Z) !!! r)) as He
    by (intros; rewrite lookup_total_empty; cbn; unfold w32; lia).
  split; [|by intros _]. split; cbn; try reflexivity; [|done|].
  - split; cbn; try assumption; unfold w32; lia.
  - intros c Hc. rewrite arr_fill_lookup. by rewrite decide_True by lia.
Qed.

Lemma flat_machine_inv_26 md v4 regs words :
  0 ≤ md < 16 → map_Forall (λ _ v, w32 v) regs → core_inv (flat_machine md v4 regs words).
Proof.
  intros Hmd Hw.
  assert (∀ r, w32 (regs !!! r)) as Hr.
  { intros r. rewrite lookup_total_alt. destruct (regs !! r) eqn:E; [by eapply Hw|].
    cbn. unfold w32; lia. }
  assert (∀ r : Z, w32 ((∅ : gmap Z Z) !!! r)) as He
    by (intros; rewrite lookup_total_empty; cbn; unfold w32; lia).
  split; [split; cbn; try reflexivity|].
  - split; cbn; try assumption; unfold w32; lia.
  - lia.
  - intros c Hc. rewrite arr_fill_lookup. by rewrite decide_True by lia.
  - intros E. cbn in E. rewrite mode32_range in E by lia. apply Z.leb_le in E. lia.
Qed.

(** It is memory wherever the current privilege reaches. *)
Definition flat_ok (s : flat) (a : Z) : Prop := fm_allowed a s = true ∧ a .&~ 3 = a.
#[export] Instance flat_ok_dec s a : Decision (flat_ok s a) := ltac:(unfold flat_ok; apply _).

#[export, refine] Instance flat_view : MemView flat unit := {
  mv_ok := flat_ok;
  mv_word s a := fm_get a s
}.
Proof.
  - intros s e a [Ha _]. exists s. cbn. unfold fm_access. rewrite Ha. split; [done|]. by intros b.
  - intros s e a v [Ha H3] Hv. exists (fm_put a v s). cbn. unfold fm_access. rewrite Ha.
    split; [done|]. intros b. split; [done|]. intros [_ Hb3]. unfold fm_get, fm_put. cbn.
    rewrite H3, Hb3, arr_get_set. destruct (decide (a = b)) as [->|Hne].
    + by rewrite Z.eqb_refl, u32_id.
    + by rewrite (proj2 (Z.eqb_neq _ _)).
  - intros s a _. apply u32_w32.
Defined.

(** * Checks that evaluate *)

Definition flat_check (md : Z) (regs : gmap Z Z) : bool :=
  bool_decide (map_Forall (λ _ v, w32 v) regs) && (0 <=? md) && (md <? 32) &&
  ((md <? 16) || (regs !!! 16 .& 0x1f =? md)).

Lemma flat_checked md v4 regs words :
  flat_check md regs = true → core_inv (flat_machine md v4 regs words).
Proof.
  unfold flat_check. rewrite !andb_true_iff, bool_decide_eq_true, orb_true_iff, Z.leb_le, !Z.ltb_lt, Z.eqb_eq.
  intros [[[Hw H0] H1] [H|H]].
  - apply flat_machine_inv_26; [lia | done].
  - destruct (Z.lt_ge_cases md 16); [apply flat_machine_inv_26; [lia | done]|].
    apply flat_machine_inv; [lia | done | by apply Z.leb_le | done].
Qed.

(** The registers R0 to R16 in order; [r15] is eight past the instruction. *)
Definition regs_of (rs : list Z) : gmap Z Z := array 0 rs.
