(* ===== verification/ArmTheorems.v ===== *)
(** What is proved of the ARM core, each theorem with an instance of it on the
    concrete machine of ArmFlat.v. *)

From S2P Require Import ArmFlat.

(** * The loop *)

Section statements.
Context {S P : Type} `{!MemSys S P, !HostSys S P, !MemSysOk S P, !HostSysOk S P}.
Implicit Types m : Mach S P.

(** C1: [arm_exec] keeps the core's invariant: every register is a 32-bit
    word, the masks, the status register index and the User bank pointers are
    those of the current mode, the CPSR of a 32-bit mode names it, and memory
    is accessed with the mode's privilege. *)
Theorem arm_exec_keeps_invariant m :
  core_inv m → match arm_exec m with Some (_, m') => core_inv m' | None => True end.
Proof. intros Hm. exact (ok_arm_exec_from 200 0 m Hm). Qed.

(** [arm_exec] runs at most the 200 instructions of its time slice, and
    exactly 200 when no debugger is active. *)
Theorem arm_exec_time_slice m k m' :
  arm_exec m = Some (k, m') →
  0 ≤ k ≤ 200 ∧ ((∀ s, debugger_hook_active (P:=P) s = false) → k = 200).
Proof. by apply arm_exec_from_count. Qed.
End statements.

(** R0 = 10, and R1 = 10 + 9 + ... + 1 by a loop. *)
Definition sum_program : gmap Z Z :=
  program 0x8000 [0xe3a0000a; 0xe3a01000; 0xe0811000; 0xe2500001; 0x1afffffc; 0xeafffffe].
Definition sum_machine : Mach flat unit :=
  flat_machine 0x13 1 (regs_of [0; 0; 0; 0; 0; 0; 0; 0; 0; 0; 0; 0; 0; 0; 0; 0x8008; 0x600000d3]) sum_program.

Theorem arm_exec_keeps_invariant_witness :
  ∃ k m', arm_exec sum_machine = Some (k, m') ∧ rreg 1 m' = 55 ∧ core_inv m'.
Proof.
  assert (core_inv sum_machine) as H by (apply flat_checked; by vm_compute).
  pose proof (arm_exec_keeps_invariant sum_machine H) as Hm.
  destruct (arm_exec sum_machine) as [[k m']|] eqn:E; [|by vm_compute in E].
  exists k, m'. split; [done|]. split; [|done].
  assert ((λ r, match r with Some (_, m') => rreg 1 m' | None => 0 end) (arm_exec sum_machine) = 55)
    as Hr by by vm_compute.
  by rewrite E in Hr.
Defined.

Theorem arm_exec_time_slice_witness :
  ∃ k m', arm_exec sum_machine = Some (k, m') ∧ k = 200.
Proof.
  destruct (arm_exec sum_machine) as [[k m']|] eqn:E; [|by vm_compute in E].
  exists k, m'. split; [done|]. by apply (arm_exec_time_slice sum_machine k m' E).
Defined.

(** * Data processing *)

Section data.
Context {S P : Type} `{!MemSys S P, !HostSys S P, !MemSysOk S P, !HostSysOk S P}.
Implicit Types m : Mach S P.

(** C11: each of the sixteen ALU operations, with a register or an immediate
    operand, with or without the S bit and with any Rd but R15, computes the result and the four
    flags the architecture defines on integers. *)
Theorem data_processing_result k o m :
  (o .>> 20) .& 0xff = k → is_dp k o = true → RD o ≠ 15 → core_inv m →
  execute o m = Some (tt, dp_result k o m).
Proof. apply execute_dp_result. Qed.

(** The operand of a data-processing instruction. The routine that also
    sets C ([shift]) and the one that does not ([shift2]) agree with each
    other and with the shifter the architecture defines, for every shift type
    and amount. *)
Theorem shifter_operand o m :
  core_inv m →
  shift2 o m = fst (operand2 o m) ∧
  ∃ oc, shift o m = Some (fst (operand2 o m), carry_upd oc m) ∧
        default (cf m) oc = snd (operand2 o m).
Proof.
  intros [Hb _]. assert (w32 (rreg (RM o) m)) as Hw by by apply rreg_w32.
  split; [by apply shift2_eq|]. by apply shift_eq.
Qed.

(** After [CMP] each condition field holds exactly when the comparison of
    the operands it is named for does, signed or unsigned. *)
Theorem compare_sets_conditions k o m :
  k = 0x15 ∨ k = 0x35 → (o .>> 20) .& 0xff = k → is_dp k o = true → RD o ≠ 15 → core_inv m →
  ∃ m', execute o m = Some (tt, m') ∧
    ∀ o2, condition o2 m' = cmp_holds (o2 .>> 28) (GETADDR (RN o) m) (dp_operand k o m).
Proof. apply compare_then_condition. Qed.

(** UMULL, UMLAL, SMULL and SMLAL leave in RdHi:RdLo the product of the
    operands, signed or not, and the sum with the old value, modulo 2^64;
    with the S bit N and Z describe all 64 bits, and C and V stay. *)
Theorem long_multiply k o m :
  core_inv m → nz (arch_v4 (arm m)) = true → is_mul o = true → (o .>> 20) .& 0xff = k → 8 ≤ k < 16 →
  MULRD o ≠ MULRN o → MULRD o ≠ 15 → MULRN o ≠ 15 →
  ∃ m', execute o m = Some (tt, m') ∧ hilo o m' = long_product k o m ∧
    only_regs [MULRD o; MULRN o] m m' ∧
    psr m' = if Z.testbit k 0 then (psr m .& 0x3fffffff) .| long_nz (long_product k o m)
             else psr m.
Proof. apply long_multiply_spec. Qed.

(** MUL and MLA compute modulo 2^32, and give zero when Rd is Rm. *)
Theorem short_multiply k o m :
  core_inv m → is_mul o = true → (o .>> 20) .& 0xff = k → 0 ≤ k < 4 → MULRD o ≠ 15 →
  ∃ m', execute o m = Some (tt, m') ∧
    rreg (MULRD o) m' = (if MULRD o =? MULRM o then 0 else short_product k o m) ∧
    only_regs [MULRD o] m m' ∧
    psr m' = if Z.testbit k 0 then (psr m .& 0x3fffffff) .| flags_nz (rreg (MULRD o) m')
             else psr m.
Proof. apply short_multiply_spec. Qed.
End data.

(** A machine in SVC32 mode for one instruction. *)
Definition one (v4 : Z) (rs : list Z) : Mach flat unit :=
  flat_machine 0x13 v4 (regs_of rs) ∅.
Definition sample : Mach flat unit :=
  one 1 [5; 0x80000001; 0xffffffff; 3; 0x1000; 0; 0; 0; 0; 0; 0; 0; 0; 0x4000; 0; 0x8008; 0x200000d3].

Lemma sample_inv : core_inv sample.
Proof. apply flat_checked. by vm_compute. Qed.

(** [ADCS r0, r1, r2, LSL #1] *)
Theorem data_processing_result_witness :
  execute 0xe0b10082 sample = Some (tt, dp_result 0x0b 0xe0b10082 sample) ∧
  rreg 0 (dp_result 0x0b 0xe0b10082 sample) = 0x80000000.
Proof.
  split; [|by vm_compute].
  apply (data_processing_result 0x0b 0xe0b10082 sample); [done|done|by vm_compute|apply sample_inv].
Defined.

(** [r2, ROR r3] *)
Theorem shifter_operand_witness :
  shift2 0xe0b10372 sample = fst (operand2 0xe0b10372 sample) ∧
  ∃ oc, shift 0xe0b10372 sample = Some (fst (operand2 0xe0b10372 sample), carry_upd oc sample) ∧
        default (cf sample) oc = snd (operand2 0xe0b10372 sample).
Proof. apply (shifter_operand 0xe0b10372 sample), sample_inv. Defined.

(** [CMP r1, r0] then [LT] and [HI] *)
Theorem compare_sets_conditions_witness :
  ∃ m', execute 0xe1510000 sample = Some (tt, m') ∧
    condition 0xb0000000 m' = true ∧ condition 0x80000000 m' = true.
Proof.
  destruct (compare_sets_conditions 0x15 0xe1510000 sample) as (m' & Hr & Hc);
    [by left|done|done|by vm_compute|apply sample_inv|].
  exists m'. split; [done|]. rewrite !Hc. by vm_compute.
Defined.

(** [SMLALS r5, r6, r1, r2] *)
Theorem long_multiply_witness :
  ∃ m', execute 0xe0f65291 sample = Some (tt, m') ∧ hilo 0xe0f65291 m' = 0x7fffffff.
Proof.
  destruct (long_multiply 0x0f 0xe0f65291 sample) as (m' & Hr & Hh & _);
    [apply sample_inv|done|done|done|lia|by vm_compute..|].
  exists m'. split; [done|]. rewrite Hh. by vm_compute.
Defined.

(** [MLAS r5, r1, r2, r3] *)
Theorem short_multiply_witness :
  ∃ m', execute 0xe0353291 sample = Some (tt, m') ∧ rreg 5 m' = 0x80000002.
Proof.
  destruct (short_multiply 0x03 0xe0353291 sample) as (m' & Hr & Hh & _);
    [apply sample_inv|done|done|lia|by vm_compute|].
  exists m'. split; [done|]. change 5 with (MULRD 0xe0353291). rewrite Hh. by vm_compute.
Defined.

(** * Modes and exceptions *)

Section modes.
Context {S P : Type} `{!MemSys S P, !HostSys S P, !MemSysOk S P, !HostSysOk S P}.
Implicit Types m : Mach S P.

(** C12: a change of mode copies registers between the current file and the
    banks, and loses none: every register R0 to R14 of every mode has the
    value it had, wherever it is now kept. *)
Theorem mode_change_keeps_registers md pc m :
  valid_mode (mode (arm m)) → valid_mode md →
  ∃ m', updatemode_at md pc m = Some (tt, m') ∧ mode (arm m') = md ∧
    (∀ b r, valid_mode b → 0 ≤ r < 15 → arch_reg (arm m') b r = arch_reg (arm m) b r).
Proof. apply updatemode_at_arch. Qed.

(** LDM and STM with the S bit reach, through the User bank pointers,
    exactly User mode's registers, from every mode. *)
Theorem user_bank_pointers c v m :
  core_inv m → valid_mode (mode (arm m)) → 0 ≤ c < 15 →
  ruser c m = arch_reg (arm m) USER c ∧
  ∃ m', wuser c v m = Some (tt, m') ∧ arch_reg (arm m') USER c = v ∧
    ∀ md r, valid_mode md → 0 ≤ r < 15 → (r ≠ c ∨ (8 ≤ c ∧ bank_id md c ≠ bank_id USER c)) →
      arch_reg (arm m') md r = arch_reg (arm m) md r.
Proof. intros. split; [by apply ruser_arch | by apply wuser_arch]. Qed.

(** An exception taken in a 32-bit mode enters its mode at the vector
    with the interrupts masked, the return address in that mode's R14 and the
    old CPSR in its SPSR; no other register of any mode changes. *)
Theorem exception_entry mmode address diff m :
  core_inv m → valid_mode (mode (arm m)) → ARM_MODE_32 (mode (arm m)) = true →
  mmode ∈ exception_modes →
  ∃ m', exception mmode address diff m = Some (tt, m') ∧
        exception_entered mmode address (sub32 (rreg 15 m) diff) m m'.
Proof. apply exception_32. Qed.

(** C13: after an exception taken in any mode, a write of R14 less [back] to R15
    with the S bit resumes the interrupted program, at the address it was
    interrupted at corrected by [diff + back], in its mode, with its status and
    with every register of every mode but R14 of the mode the exception entered.
    The address is the whole of R15 in a 32-bit mode, where the CPSR is restored
    from the SPSR; the PC field of R15 in a 26-bit mode interrupted on a CPU that
    enters a 32-bit one, whose flags and mode come back from the SPSR; and R15
    with flags and mode in it on a CPU with 26-bit modes only. A 26-bit mode is
    taken to be the one R15 names. *)
Theorem exception_then_return mmode address diff back o m :
  core_inv m → valid_mode (mode (arm m)) →
  (ARM_MODE_32 (mode (arm m)) = false → mode (arm m) = rreg 15 m .& 3) →
  mmode ∈ exception_modes → w32 address → address .& 3 = 0 → diff .& 3 = 0 → back .& 3 = 0 →
  let next := rreg 15 m - diff - back + 4 in
  ∃ m1 m2, exception mmode address diff m = Some (tt, m1) ∧ mode (arm m1) = entered_mode mmode address m ∧
    arm_write_r15 o (sub32 (rreg 14 m1) back) m1 = Some (tt, m2) ∧
    mode (arm m2) = mode (arm m) ∧
    (if ARM_MODE_32 (mode (arm m)) then rreg 16 m2 = rreg 16 m ∧ rreg 15 m2 = u32 next .& 0xfffffffc
     else if prog32_at mmode address m then rreg 15 m2 = (rreg 15 m .& 0xfc000003) .| (next .& 0x3fffffc)
     else rreg 15 m2 = u32 next) ∧
    ∀ md r, valid_mode md → 0 ≤ r < 15 →
      ¬ (r = 14 ∧ bank_id md 14 = bank_id (entered_mode mmode address m) 14) →
      arch_reg (arm m2) md r = arch_reg (arm m) md r.
Proof.
  intros Hm Hv H15 Hmm Hwa Ha Hd Hb next. destruct (ARM_MODE_32 (mode (arm m))) eqn:E.
  - unfold entered_mode. rewrite E. cbn [orb].
    destruct (exception_return mmode address diff back o m) as (m1 & m2 & H1 & H2 & H3 & H4 & H5 & H6 & H7); [done..|].
    by exists m1, m2.
  - destruct (exception_return_26 mmode address diff back o m) as (m1 & m2 & H1 & H2 & H3 & H4 & H5 & H6); [auto..|].
    exists m1, m2. split_and!; [done..| |done]. by destruct (prog32_at mmode address m).
Qed.

(** C2: no instruction a program runs in the 32-bit User mode gives it
    another mode: it is still in User mode afterwards, or Undefined mode has
    been entered at its vector. Only SWIs and FPA instructions, which the host
    answers, are left out. *)
Theorem user_mode_is_closed o m :
  calls_host o = false → core_inv m → mode (arm m) = USER32 →
  match execute o m with
  | Some (_, m') => core_inv m' ∧ (mode (arm m') = USER32 ∨ undefined_entered m')
  | None => True
  end.
Proof.
  intros Ho Hc Hm. pose proof (user_execute o Ho m (conj Hc Hm)) as H.
  destruct (execute o m) as [[u m']|]; [|done]. exact (proj2 H).
Qed.

(** After an instruction in a 32-bit mode, of the pending events that are
    not masked the first of data abort, FIQ and IRQ is taken, with R15 as the
    return address; an abort is no longer pending then; with no such event
    nothing happens. *)
Theorem events_by_priority m :
  core_inv m → valid_mode (mode (arm m)) → ARM_MODE_32 (mode (arm m)) = true →
  match due (event (arm m)) (rreg 16 m) with
  | None => check_events m = Some (tt, m)
  | Some (md, a) =>
      ∃ m', check_events m = Some (tt, m') ∧ exception_entered md a (rreg 15 m) m m' ∧
            (md = ABORT → aborted m' = false)
  end.
Proof. apply check_events_32. Qed.

(** [arm_reset], from any state at all, succeeds and leaves a well-formed
    core in SVC26 at address 0, with the features of the CPU model. *)
Theorem reset_is_well_formed cpu_model m :
  ∃ m', arm_reset cpu_model m = Some (tt, m') ∧ core_inv m' ∧ reset_state cpu_model m m'.
Proof. apply arm_reset_run. Qed.

(** A branch and the step after it lead to the address of the branch plus
    8 plus the signed offset in words; only R15 changes, and in a 26-bit mode
    it keeps its PSR bits. BL also leaves the address after it in R14. *)
Theorem branch_target_reached o m :
  core_inv m → 0xa0 ≤ (o .>> 20) .& 0xff < 0xc0 →
  let m0 := if Z.testbit o 24 then upd_arm (put_reg 14 (sub32 (rreg 15 m) 4)) m else m in
  ∃ m', execute o m = Some (tt, m') ∧
    m' = upd_arm (put_reg 15 (rreg 15 m')) m0 ∧
    rreg 15 m' .&~ pc_mask (mode (arm m)) = rreg 15 m .&~ pc_mask (mode (arm m)) ∧
    (∀ m'', advance m' = Some (tt, m'') → PC m'' = branch_target o m).
Proof. apply branch_execute. Qed.

(** An instruction whose condition fails only moves R15 on. *)
Theorem failed_condition_advances o m m1 :
  fetch m = Some (Some o, m1) → condition o m1 = false →
  debugger_hook_active (P:=P) (sys m1) = false → event (arm m1) = 0 →
  step m = Some (false, upd_arm (put_reg 15 (add32 (rreg 15 m1) 4)) m1).
Proof. apply step_not_executed. Qed.
End modes.

Lemma sample_valid : valid_mode (mode (arm sample)).
Proof. vm_compute. intuition discriminate. Qed.

(** From SVC to FIQ and back to view R8. *)
Theorem mode_change_keeps_registers_witness :
  ∃ m', updatemode_at 0x11 0 sample = Some (tt, m') ∧ mode (arm m') = 0x11 ∧
    arch_reg (arm m') 0x13 13 = 0x4000 ∧ rreg 13 m' = 0.
Proof.
  assert (valid_mode 0x11) as Hv by (vm_compute; intuition discriminate).
  destruct (mode_change_keeps_registers 0x11 0 sample sample_valid Hv) as (m' & Hr & Hm & Ha).
  exists m'. split; [done|]. split; [done|]. split.
  - rewrite Ha; [by vm_compute | apply sample_valid | lia].
  - transitivity (match updatemode_at 0x11 0 sample with Some (_, s) => rreg 13 s | None => 1 end);
      [by rewrite Hr | by vm_compute].
Defined.

Theorem user_bank_pointers_witness :
  ruser 13 sample = 0 ∧ ∃ m', wuser 13 7 sample = Some (tt, m') ∧ arch_reg (arm m') USER 13 = 7.
Proof.
  destruct (user_bank_pointers 13 7 sample sample_inv sample_valid) as [Hr (m' & Hw & Ha & _)]; [lia|].
  split; [rewrite Hr; by vm_compute|]. by exists m'.
Defined.

Theorem exception_entry_witness :
  ∃ m', exception IRQ 0x1c 0 sample = Some (tt, m') ∧ rreg 14 m' = 0x8008 ∧ mode (arm m') = 0x12.
Proof.
  destruct (exception_entry IRQ 0x1c 0 sample sample_inv sample_valid) as (m' & Hr & He);
    [done | unfold exception_modes; set_solver|].
  exists m'. split; [done|]. split; [rewrite (ee_link _ _ _ _ _ He); by vm_compute | apply He].
Defined.

(** An IRQ, then [SUBS pc, r14, #4], in Supervisor mode and in the 26-bit User
    mode with the carry set. *)
Definition sample_26 : Mach flat unit :=
  flat_machine 0 1 (regs_of [0; 0; 0; 0; 0; 0; 0; 0; 0; 0; 0; 0; 0; 0; 0; 0x20008008; 0]) ∅.
Theorem exception_then_return_witness :
  (∃ m1 m2, exception IRQ 0x1c 0 sample = Some (tt, m1) ∧
    arm_write_r15 0 (sub32 (rreg 14 m1) 4) m1 = Some (tt, m2) ∧
    mode (arm m2) = 0x13 ∧ rreg 15 m2 = 0x8008) ∧
  (∃ m1 m2, exception IRQ 0x1c 0 sample_26 = Some (tt, m1) ∧ mode (arm m1) = entered_mode IRQ 0x1c sample_26 ∧
    arm_write_r15 0 (sub32 (rreg 14 m1) 4) m1 = Some (tt, m2) ∧
    mode (arm m2) = 0 ∧ rreg 15 m2 = 0x20008008).
Proof.
  assert (IRQ ∈ exception_modes) as Hirq by (unfold exception_modes; set_solver). split.
  - destruct (exception_then_return IRQ 0x1c 0 4 0 sample sample_inv sample_valid)
      as (m1 & m2 & H1 & _ & H2 & H3 & [_ H5] & _); [done | done | by vm_compute | done..|].
    exists m1, m2. split; [done|]. split; [done|]. split; [done|]. rewrite H5. by vm_compute.
  - destruct (exception_then_return IRQ 0x1c 0 4 0 sample_26)
      as (m1 & m2 & H1 & H1' & H2 & H3 & H5 & _);
      [apply flat_checked; by vm_compute | vm_compute; intuition discriminate | done | done | by vm_compute | done..|].
    exists m1, m2. split; [done|]. split; [done|]. split; [done|]. split; [done|].
    change (ARM_MODE_32 (mode (arm sample_26))) with false in H5. cbv iota in H5.
    destruct (prog32_at IRQ 0x1c sample_26); rewrite H5; by vm_compute.
Defined.

(** [MSR CPSR_c, r0] in User mode. *)
Definition user_sample : Mach flat unit :=
  flat_machine 0x10 1 (regs_of [0x13; 0; 0; 0; 0; 0; 0; 0; 0; 0; 0; 0; 0; 0; 0; 0x4008; 0x60000010]) ∅.
Theorem user_mode_is_closed_witness :
  match execute 0xe121f000 user_sample with
  | Some (_, m') => core_inv m' ∧ (mode (arm m') = USER32 ∨ undefined_entered m')
  | None => False
  end.
Proof.
  assert (core_inv user_sample) as H by (apply flat_checked; by vm_compute).
  pose proof (user_mode_is_closed 0xe121f000 user_sample) as Hu.
  destruct (execute 0xe121f000 user_sample) as [[u m']|] eqn:E; [|by vm_compute in E].
  by apply Hu.
Defined.

(** A FIQ and an IRQ pending, FIQs masked. *)
Theorem events_by_priority_witness :
  let m := upd_arm (set_event 3)
    (flat_machine 0x13 1 (regs_of [0; 0; 0; 0; 0; 0; 0; 0; 0; 0; 0; 0; 0; 0; 0; 0x8008; 0x60000053]) ∅) in
  ∃ m', check_events m = Some (tt, m') ∧ exception_entered IRQ 0x1c (rreg 15 m) m m'.
Proof.
  intros m. assert (core_inv m) as H.
  { apply core_set_arm; try done; [apply flat_checked; by vm_compute|].
    apply words_set_event; [|by vm_compute].
    assert (core_inv (flat_machine 0x13 1 (regs_of [0; 0; 0; 0; 0; 0; 0; 0; 0; 0; 0; 0; 0; 0; 0; 0x8008; 0x60000053]) ∅))
      as [Hb _] by (apply flat_checked; by vm_compute). apply Hb. }
  assert (valid_mode (mode (arm m))) as Hv by (vm_compute; intuition discriminate).
  pose proof (events_by_priority m H Hv eq_refl) as He.
  change (due (event (arm m)) (rreg 16 m)) with (Some (IRQ, 0x1c)) in He.
  destruct He as (m' & Hr & He & _). by exists m'.
Defined.

Theorem reset_is_well_formed_witness :
  ∃ m', arm_reset CPUModel_SA110 sample = Some (tt, m') ∧ core_inv m' ∧ PC m' = 0.
Proof.
  destruct (reset_is_well_formed CPUModel_SA110 sample) as (m' & Hr & Hc & Hs).
  exists m'. split; [done|]. split; [done | apply Hs].
Defined.

(** [BL] 16 bytes back. *)
Theorem branch_target_reached_witness :
  ∃ m', execute 0xebfffffa sample = Some (tt, m') ∧
    (∀ m'', advance m' = Some (tt, m'') → PC m'' = 0x7ff0).
Proof.
  destruct (branch_target_reached 0xebfffffa sample sample_inv) as (m' & Hr & _ & _ & Ht);
    [by vm_compute|].
  exists m'. split; [done|]. intros m'' H. rewrite (Ht m'' H). by vm_compute.
Defined.

(** The [BNE] of the program, not taken. *)
Theorem failed_condition_advances_witness :
  let m := flat_machine 0x13 1 (regs_of [0; 0; 0; 0; 0; 0; 0; 0; 0; 0; 0; 0; 0; 0; 0; 0x8018; 0x600000d3]) sum_program in
  ∃ m', step m = Some (false, m') ∧ rreg 15 m' = 0x801c.
Proof.
  intros m. assert (∃ m1, fetch m = Some (Some 0x1afffffc, m1) ∧ condition 0x1afffffc m1 = false ∧
    rreg 15 m1 = 0x8018 ∧ event (arm m1) = 0) as (m1 & Hf & Hc & H15 & He)
    by (eexists; split; [vm_compute; reflexivity | by vm_compute]).
  exists (upd_arm (put_reg 15 (add32 (rreg 15 m1) 4)) m1).
  split; [by apply (failed_condition_advances 0x1afffffc m m1)|].
  rewrite H15. unfold rreg. cbn. by rewrite arr_same.
Defined.

(** * Memory transfers *)

Section transfers.
Context {S P : Type} `{!MemSys S P, !HostSys S P, !MemView S P}.
Implicit Types m : Mach S P.

(** A push, [STMDB Rn!, {list}], stores the registers in a frame below the
    base, moves the base and touches no other memory; the matching pop,
    [LDMIA Rn!, {list}], run from any later state with the same base and the
    frame intact, restores exactly those registers and the base. *)
Theorem push_then_pop o1 o2 m :
  let base := rreg (RN o1) m in
  (o1 .>> 20) .& 0xff = 0x92 → (o2 .>> 20) .& 0xff = 0x8b → o1 .& 0xfffff = o2 .& 0xfffff →
  stack_op o1 → stack_pointer base → (∀ c, w32 (rreg c m)) → aborted m = false →
  (∀ c a, (c, a) ∈ frame o1 base → okm m a) →
  ∃ m1, execute o1 m = Some (tt, m1) ∧ arm m1 = put_reg (RN o1) (base - arm_ldm_stm_offset o1) (arm m) ∧
    (∀ b, okm m b → b ∉ (frame o1 base).*2 → word m1 b = word m b) ∧
    ∀ m2, aborted m2 = false → rreg (RN o1) m2 = rreg (RN o1) m1 →
      (∀ c a, (c, a) ∈ frame o1 base → okm m2 a ∧ word m2 a = word m1 a) →
      ∃ m3, execute o2 m2 = Some (tt, m3) ∧
        ∀ r, 0 ≤ r < 16 → rreg r m3 =
          if in_list o1 r || (r =? RN o1) then rreg r m else rreg r m2.
Proof. apply push_pop_run. Qed.

(** LDR, for each addressing mode: the word at the effective address,
    rotated by its misalignment, goes to Rd; the base is written back before
    that; memory does not change. *)
Theorem load_word k o m :
  let a := transfer_address o m in
  (o .>> 20) .& 0xff = k → is_ldr k = true → plain_form o → RD o ≠ 15 →
  aborted m = false → okm m (a .&~ 3) →
  ∃ m', execute o m = Some (tt, m') ∧
    mem_now (word m) (upd_arm (λ r, put_reg (RD o) (arm_ldr_rotate (word m (a .&~ 3)) a)
                                      (transfer_writeback o m r)) m) m'.
Proof. apply ldr_run. Qed.

(** STR, for each addressing mode: Rd goes to the word at the effective
    address, rounded down, and to no other; the base is written back. *)
Theorem store_word k o m :
  let a := transfer_address o m in
  (o .>> 20) .& 0xff = k → is_str k = true → plain_form o → w32 (GETREG (RD o) m) →
  aborted m = false → okm m (a .&~ 3) →
  ∃ m', execute o m = Some (tt, m') ∧
    mem_now (λ b, if b =? a .&~ 3 then GETREG (RD o) m else word m b)
            (upd_arm (transfer_writeback o m) m) m'.
Proof. apply str_run. Qed.
End transfers.

(** On the CPUs that restore the base register, a word, byte, halfword or
    signed transfer whose access aborts changes nothing in the core but the
    event word, so that the instruction can be run again. *)
Theorem aborted_transfer_restarts {S P} `{!MemSys S P, !HostSys S P} o (m : Mach S P) :
  single_transfer o m → nz (abort_base_restored (arm m)) = true →
  match execute o m with
  | Some (_, m') => aborted m' = true → set_event 0 (arm m') = set_event 0 (arm m)
  | None => True
  end.
Proof. apply restartable_execute. Qed.

(** [STMDB sp!, {r0-r3}], the registers cleared, [LDMIA sp!, {r0-r3}] *)
Theorem push_then_pop_witness :
  ∃ m1, execute 0xe92d000f sample = Some (tt, m1) ∧
    ∃ m3, execute 0xe8bd000f (upd_arm (put_reg 1 0) m1) = Some (tt, m3) ∧
      rreg 1 m3 = 0x80000001 ∧ rreg 13 m3 = 0x4000.
Proof.
  destruct (push_then_pop 0xe92d000f 0xe8bd000f sample) as (m1 & H1 & Ha & _ & Hpop).
  - done.
  - done.
  - done.
  - by split.
  - by vm_compute.
  - intros c. apply rreg_w32, sample_inv.
  - done.
  - intros c a Hi. change (frame 0xe92d000f (rreg (RN 0xe92d000f) sample)) with
      [(0, 0x3ff0); (1, 0x3ff4); (2, 0x3ff8); (3, 0x3ffc)] in Hi.
    rewrite !elem_of_cons, elem_of_nil in Hi. by intuition simplify_eq.
  - exists m1. split; [done|]. destruct (Hpop (upd_arm (put_reg 1 0) m1)) as (m3 & H3 & Hr).
    + assert (m1 = match execute 0xe92d000f sample with Some (_, s) => s | None => m1 end) as -> by by rewrite H1.
      by vm_compute.
    + cbn. by rewrite arr_other.
    + assert (sys m1 = match execute 0xe92d000f sample with Some (_, s) => sys s | None => sys m1 end) as Hs by by rewrite H1.
      intros c a Hi. change (frame 0xe92d000f (rreg (RN 0xe92d000f) sample)) with
        [(0, 0x3ff0); (1, 0x3ff4); (2, 0x3ff8); (3, 0x3ffc)] in Hi.
      split; [|done]. unfold okm. cbn [sys upd_arm set_arm]. rewrite Hs.
      rewrite !elem_of_cons, elem_of_nil in Hi. by intuition simplify_eq.
    + exists m3. split; [done|]. rewrite !Hr by lia. by vm_compute.
Defined.

(** [LDR r0, [r4, #5]!] from the program's second word. *)
Definition load_sample : Mach flat unit :=
  flat_machine 0x13 1 (regs_of [0; 0; 0; 0; 0x8000; 0; 0; 0; 0; 0; 0; 0; 0; 0; 0; 0x9008; 0x600000d3]) sum_program.
Theorem load_word_witness :
  ∃ m', execute 0xe5b40005 load_sample = Some (tt, m') ∧ rreg 0 m' = 0x00e3a010 ∧ rreg 4 m' = 0x8005.
Proof.
  destruct (load_word 0x5b 0xe5b40005 load_sample) as (m' & Hr & He & _);
    [done|done|done|by vm_compute|done|by vm_compute|].
  exists m'. split; [done|]. rewrite He. by vm_compute.
Defined.

Theorem store_word_witness :
  ∃ m', execute 0xe5a40008 load_sample = Some (tt, m') ∧ word m' 0x8008 = 0 ∧ word m' 0x8004 = 0xe3a01000.
Proof.
  destruct (store_word 0x5a 0xe5a40008 load_sample) as (m' & Hr & _ & Hw);
    [done|done|done|by vm_compute|done|by vm_compute|].
  exists m'. split; [done|]. rewrite !(proj2 (Hw _)) by by vm_compute. by vm_compute.
Defined.

(** [LDR r0, [r4], #8] from an address that aborts. *)
Theorem aborted_transfer_restarts_witness :
  let m := upd_arm (set_abort_base_restored 1) (upd_arm (put_reg 4 0x10000) load_sample) in
  match execute 0xe4940008 m with
  | Some (_, m') => aborted m' = true ∧ set_event 0 (arm m') = set_event 0 (arm m)
  | None => False
  end.
Proof.
  intros m. assert (single_transfer 0xe4940008 m) as Hs by (left; by vm_compute).
  pose proof (aborted_transfer_restarts 0xe4940008 m Hs eq_refl) as H.
  assert (match execute 0xe4940008 m with Some (_, m') => aborted m' | None => false end = true) as Ha
    by by vm_compute.
  destruct (execute 0xe4940008 m) as [[u m']|]; [|done]. split; [done | by apply H].
Defined.

(** * Privilege in the 26-bit modes *)

(** The 26-bit User mode is not closed in the same way: a multiply into R15
    stores its mode bits unmasked, and the mode comparison of the TEQP after it
    enters SVC mode at the program's next instruction, without an exception. *)
Theorem user26_reaches_svc :
  let m := flat_machine 0 1
    (regs_of [0; 0x400b; 1; 0; 0; 0; 0; 0; 0; 0; 0; 0; 0; 0; 0; 0x4008; 0]) (program 0x4000 [0xe00f0291; 0xe33ff000]) in
  core_inv m ∧ mode (arm m) = USER ∧
  match (step;; step) m with
  | Some (_, m2) => mode (arm m2) = SUPERVISOR ∧ PC m2 = 0x4008
  | None => False
  end.
Proof.
  intros m. split; [apply flat_checked; by vm_compute|]. split; [done|]. by vm_compute.
Qed.
