(* ===== verification/MemState.v ===== *)
(** The state of the memory system: the globals of mem.c and cp15.c.

    Host memory is one array of bytes, [host], and the C pointers into it
    ([rom], [ram00], ...) are addresses of it; zero is [NULL]. A biased host
    pointer, which the fast maps hold, is an address minus the virtual address
    of its page, computed modulo 2^64 as [uintptr_t] arithmetic is. The devices
    behind the I/O addresses are an interface, [IoDev]: an operation of a
    device may change the whole memory system (a device can be a bus master)
    and the pending events. *)

From S2P Require Export ArmFlags.

Inductive Model :=
  Model_RPCARM610 | Model_RPCARM710 | Model_RPCSA110 | Model_A7000 | Model_A7000plus
| Model_RPCARM810 | Model_Phoebe | Model_Kinetic.
#[export] Instance model_eq_dec : EqDecision Model.
Proof. solve_decision. Defined.
Inductive IOMDType := IOMDType_IOMD | IOMDType_ARM7500 | IOMDType_ARM7500FE | IOMDType_IOMD2.
#[export] Instance iomdtype_eq_dec : EqDecision IOMDType.
Proof. solve_decision. Defined.

(** A C array that code sets as a whole with [memset]: the value every element
    got, and the elements written since. *)
Record carray := mkCarray { ca_fill : Z; ca_elems : gmap Z Z }.
Definition memset (v : Z) : carray := mkCarray v ∅.
#[export] Instance carray_lookup : LookupTotal Z Z carray := λ i a, default (ca_fill a) (ca_elems a !! i).
#[export] Instance carray_insert : Insert Z Z carray := λ i v a,
  mkCarray (ca_fill a) (<[i := v]> (ca_elems a)).

Lemma carray_get_set (a : carray) (i j v : Z) :
  <[i := v]> a !!! j = if decide (i = j) then v else a !!! j.
Proof.
  unfold lookup_total, carray_lookup, insert, carray_insert. cbn.
  case_decide; subst; [by rewrite lookup_insert_eq | by rewrite lookup_insert_ne].
Qed.

Lemma carray_same (a : carray) i v : <[i := v]> a !!! i = v.
Proof. rewrite carray_get_set. by rewrite decide_True. Qed.

Lemma carray_other (a : carray) i j v : i ≠ j → <[i := v]> a !!! j = a !!! j.
Proof. intros H. rewrite carray_get_set. by rewrite decide_False. Qed.

Lemma memset_get v i : memset v !!! i = v.
Proof. done. Qed.
#[export] Hint Rewrite carray_same memset_get : arr.
#[export] Hint Rewrite carray_other using (solve [lia | congruence | auto]) : arr.

(** What [mem_init], [mem_reset] and the configuration set up: the memory that
    is fitted and the masks that make the address space repeat. *)
Record Board := mkBoard {
  rom : Z; vram : Z;
  ram00 : Z; ram01 : Z; ram1 : Z;       (** SIMM 0 bank 0 and 1, SIMM 1 *)
  sdram0 : Z; sdram1 : Z;               (** Kinetic SDRAM *)
  gfxcard_fb : Z; gfxcard_fb_phys : Z;  (** the graphics card's framestore *)
  mem_rammask : Z; mem_vrammask : Z; phys_space_mask : Z;
  machine_model : Model; machine_iomd_type : IOMDType
}.

(** [struct cp15] and the values cached from it. *)
Record CP15 := mkCP15 {
  ctrl : Z; translation_table : Z; domain_access_control : Z;
  fault_status : Z; fault_address : Z; cpu_model : CPUModel;
  dcache : Z; icache : Z; mmu : Z; prog32 : Z;
  tlbram : Z; tlbrammask : Z
}.

(** [tlbcache] and [tlbperm], by page, and the ring of the pages in them. *)
Record TLB := mkTLB {
  tlbcache : carray; tlbperm : carray; tlbcache2 : carray; tlbcachepos : Z
}.

(** One of the two fast maps: [vraddrl_mode], [vraddrls], [vraddrphys] and
    [vraddrlpos], or their [w] counterparts. The arrays of two dimensions are
    indexed by [page_of] and [slot_of]. *)
Record FastMap := mkFastMap {
  vaddrl : carray; vaddrls : carray; vaddrphys : carray; vaddrlpos : gmap Z Z
}.
Definition page_of (privileged page : Z) : Z := privileged * 0x100000 + page.
Definition slot_of (privileged pos : Z) : Z := privileged * 16384 + pos.

(** The single-entry caches of the last page translated. *)
Record PageCache := mkPageCache {
  readmemcache : Z; readmemcache2 : Z; writememcache : Z; writememcache2 : Z;
  writemembcache : Z; writemembcache2 : Z; memcache_memmode : Z
}.

Record Mem (D : Type) := mkMem {
  board : Board; cp15 : CP15; tlb : TLB; rmap : FastMap; wmap : FastMap;
  pages : PageCache; memmode : Z;
  host : gmap Z Z;
  dirtybuffer : gmap Z Z;
  dev : D
}.
Arguments mkMem {D}. Arguments board {D}. Arguments cp15 {D}. Arguments tlb {D}.
Arguments rmap {D}. Arguments wmap {D}. Arguments pages {D}. Arguments memmode {D}.
Arguments host {D}. Arguments dirtybuffer {D}. Arguments dev {D}.

Definition set_ctrl v (c : CP15) : CP15 :=
  mkCP15 v (translation_table c) (domain_access_control c) (fault_status c)
    (fault_address c) (cpu_model c) (dcache c) (icache c) (mmu c) (prog32 c) (tlbram c)
    (tlbrammask c).
Definition set_translation_table v (c : CP15) : CP15 :=
  mkCP15 (ctrl c) v (domain_access_control c) (fault_status c) (fault_address c)
    (cpu_model c) (dcache c) (icache c) (mmu c) (prog32 c) (tlbram c) (tlbrammask c).
Definition set_domain_access_control v (c : CP15) : CP15 :=
  mkCP15 (ctrl c) (translation_table c) v (fault_status c) (fault_address c) (cpu_model
    c) (dcache c) (icache c) (mmu c) (prog32 c) (tlbram c) (tlbrammask c).
Definition set_fault_status v (c : CP15) : CP15 :=
  mkCP15 (ctrl c) (translation_table c) (domain_access_control c) v (fault_address c)
    (cpu_model c) (dcache c) (icache c) (mmu c) (prog32 c) (tlbram c) (tlbrammask c).
Definition set_fault_address v (c : CP15) : CP15 :=
  mkCP15 (ctrl c) (translation_table c) (domain_access_control c) (fault_status c) v
    (cpu_model c) (dcache c) (icache c) (mmu c) (prog32 c) (tlbram c) (tlbrammask c).
Definition set_cpu_model v (c : CP15) : CP15 :=
  mkCP15 (ctrl c) (translation_table c) (domain_access_control c) (fault_status c)
    (fault_address c) v (dcache c) (icache c) (mmu c) (prog32 c) (tlbram c) (tlbrammask
    c).
Definition set_dcache v (c : CP15) : CP15 :=
  mkCP15 (ctrl c) (translation_table c) (domain_access_control c) (fault_status c)
    (fault_address c) (cpu_model c) v (icache c) (mmu c) (prog32 c) (tlbram c)
    (tlbrammask c).
Definition set_icache v (c : CP15) : CP15 :=
  mkCP15 (ctrl c) (translation_table c) (domain_access_control c) (fault_status c)
    (fault_address c) (cpu_model c) (dcache c) v (mmu c) (prog32 c) (tlbram c)
    (tlbrammask c).
Definition set_mmu v (c : CP15) : CP15 :=
  mkCP15 (ctrl c) (translation_table c) (domain_access_control c) (fault_status c)
    (fault_address c) (cpu_model c) (dcache c) (icache c) v (prog32 c) (tlbram c)
    (tlbrammask c).
Definition set_prog32 v (c : CP15) : CP15 :=
  mkCP15 (ctrl c) (translation_table c) (domain_access_control c) (fault_status c)
    (fault_address c) (cpu_model c) (dcache c) (icache c) (mmu c) v (tlbram c)
    (tlbrammask c).
Definition set_tlbram v (c : CP15) : CP15 :=
  mkCP15 (ctrl c) (translation_table c) (domain_access_control c) (fault_status c)
    (fault_address c) (cpu_model c) (dcache c) (icache c) (mmu c) (prog32 c) v
    (tlbrammask c).
Definition set_tlbrammask v (c : CP15) : CP15 :=
  mkCP15 (ctrl c) (translation_table c) (domain_access_control c) (fault_status c)
    (fault_address c) (cpu_model c) (dcache c) (icache c) (mmu c) (prog32 c) (tlbram c)
    v.
Definition set_tlbcache v (t : TLB) : TLB :=
  mkTLB v (tlbperm t) (tlbcache2 t) (tlbcachepos t).
Definition set_tlbperm v (t : TLB) : TLB :=
  mkTLB (tlbcache t) v (tlbcache2 t) (tlbcachepos t).
Definition set_tlbcache2 v (t : TLB) : TLB :=
  mkTLB (tlbcache t) (tlbperm t) v (tlbcachepos t).
Definition set_tlbcachepos v (t : TLB) : TLB :=
  mkTLB (tlbcache t) (tlbperm t) (tlbcache2 t) v.
Definition set_vaddrl v (f : FastMap) : FastMap :=
  mkFastMap v (vaddrls f) (vaddrphys f) (vaddrlpos f).
Definition set_vaddrls v (f : FastMap) : FastMap :=
  mkFastMap (vaddrl f) v (vaddrphys f) (vaddrlpos f).
Definition set_vaddrphys v (f : FastMap) : FastMap :=
  mkFastMap (vaddrl f) (vaddrls f) v (vaddrlpos f).
Definition set_vaddrlpos v (f : FastMap) : FastMap :=
  mkFastMap (vaddrl f) (vaddrls f) (vaddrphys f) v.
Definition set_readmemcache v (p : PageCache) : PageCache :=
  mkPageCache v (readmemcache2 p) (writememcache p) (writememcache2 p) (writemembcache
    p) (writemembcache2 p) (memcache_memmode p).
Definition set_readmemcache2 v (p : PageCache) : PageCache :=
  mkPageCache (readmemcache p) v (writememcache p) (writememcache2 p) (writemembcache p)
    (writemembcache2 p) (memcache_memmode p).
Definition set_writememcache v (p : PageCache) : PageCache :=
  mkPageCache (readmemcache p) (readmemcache2 p) v (writememcache2 p) (writemembcache p)
    (writemembcache2 p) (memcache_memmode p).
Definition set_writememcache2 v (p : PageCache) : PageCache :=
  mkPageCache (readmemcache p) (readmemcache2 p) (writememcache p) v (writemembcache p)
    (writemembcache2 p) (memcache_memmode p).
Definition set_writemembcache v (p : PageCache) : PageCache :=
  mkPageCache (readmemcache p) (readmemcache2 p) (writememcache p) (writememcache2 p) v
    (writemembcache2 p) (memcache_memmode p).
Definition set_writemembcache2 v (p : PageCache) : PageCache :=
  mkPageCache (readmemcache p) (readmemcache2 p) (writememcache p) (writememcache2 p)
    (writemembcache p) v (memcache_memmode p).
Definition set_memcache_memmode v (p : PageCache) : PageCache :=
  mkPageCache (readmemcache p) (readmemcache2 p) (writememcache p) (writememcache2 p)
    (writemembcache p) (writemembcache2 p) v.
Definition set_board {D} v (m : Mem D) : Mem D :=
  mkMem v (cp15 m) (tlb m) (rmap m) (wmap m) (pages m) (memmode m) (host m) (dirtybuffer
    m) (dev m).
Definition set_cp15 {D} v (m : Mem D) : Mem D :=
  mkMem (board m) v (tlb m) (rmap m) (wmap m) (pages m) (memmode m) (host m)
    (dirtybuffer m) (dev m).
Definition set_tlb {D} v (m : Mem D) : Mem D :=
  mkMem (board m) (cp15 m) v (rmap m) (wmap m) (pages m) (memmode m) (host m)
    (dirtybuffer m) (dev m).
Definition set_rmap {D} v (m : Mem D) : Mem D :=
  mkMem (board m) (cp15 m) (tlb m) v (wmap m) (pages m) (memmode m) (host m)
    (dirtybuffer m) (dev m).
Definition set_wmap {D} v (m : Mem D) : Mem D :=
  mkMem (board m) (cp15 m) (tlb m) (rmap m) v (pages m) (memmode m) (host m)
    (dirtybuffer m) (dev m).
Definition set_pages {D} v (m : Mem D) : Mem D :=
  mkMem (board m) (cp15 m) (tlb m) (rmap m) (wmap m) v (memmode m) (host m) (dirtybuffer
    m) (dev m).
Definition set_memmode {D} v (m : Mem D) : Mem D :=
  mkMem (board m) (cp15 m) (tlb m) (rmap m) (wmap m) (pages m) v (host m) (dirtybuffer
    m) (dev m).
Definition set_host {D} v (m : Mem D) : Mem D :=
  mkMem (board m) (cp15 m) (tlb m) (rmap m) (wmap m) (pages m) (memmode m) v
    (dirtybuffer m) (dev m).
Definition set_dirtybuffer {D} v (m : Mem D) : Mem D :=
  mkMem (board m) (cp15 m) (tlb m) (rmap m) (wmap m) (pages m) (memmode m) (host m) v
    (dev m).
Definition set_dev {D} v (m : Mem D) : Mem D :=
  mkMem (board m) (cp15 m) (tlb m) (rmap m) (wmap m) (pages m) (memmode m) (host m)
    (dirtybuffer m) v.

(** * Host memory *)

Definition get8 (p : Z) (h : gmap Z Z) : Z := u8 (h !!! p).
Definition get32 (p : Z) (h : gmap Z Z) : Z :=
  get8 p h .| Z.shiftl (get8 (p + 1) h) 8 .| Z.shiftl (get8 (p + 2) h) 16
    .| Z.shiftl (get8 (p + 3) h) 24.
Definition put8 (p v : Z) (h : gmap Z Z) : gmap Z Z := <[p := u8 v]> h.
Definition put32 (p v : Z) (h : gmap Z Z) : gmap Z Z :=
  put8 (p + 3) (v .>> 24) (put8 (p + 2) (v .>> 16) (put8 (p + 1) (v .>> 8) (put8 p v h))).

(** * The devices *)

Definition PODULE_IO_TYPE_IOC : Z := 0.
Definition PODULE_IO_TYPE_EASI : Z := 2.
Definition OPENBUS_SIZE_8 : Z := 1.
Definition OPENBUS_SIZE_32 : Z := 4.

Class IoDev (D : Type) := {
  openbus_present : D → bool;
  openbus_reg_read : Z → Z → M (Z * Mem D) Z;
  openbus_reg_write : Z → Z → Z → M (Z * Mem D) unit;
  iomd_read : Z → M (Z * Mem D) Z;
  iomd_write : Z → Z → M (Z * Mem D) unit;
  iomd_mouse_buttons_read : M (Z * Mem D) Z;
  iomd_vidstart : D → Z;
  readidew : M (Z * Mem D) Z;
  writeidew : Z → M (Z * Mem D) unit;
  readide : Z → M (Z * Mem D) Z;
  writeide : Z → Z → M (Z * Mem D) unit;
  superio_read : Z → M (Z * Mem D) Z;
  superio_write : Z → Z → M (Z * Mem D) unit;
  superio_write_byte : Z → Z → M (Z * Mem D) unit;
  fdc_dma_read : Z → M (Z * Mem D) Z;
  fdc_dma_write : Z → Z → M (Z * Mem D) unit;
  podules_read8 : Z → Z → Z → M (Z * Mem D) Z;
  podules_read16 : Z → Z → Z → M (Z * Mem D) Z;
  podules_read32 : Z → Z → Z → M (Z * Mem D) Z;
  podules_write8 : Z → Z → Z → Z → M (Z * Mem D) unit;
  podules_write16 : Z → Z → Z → Z → M (Z * Mem D) unit;
  podules_write32 : Z → Z → Z → Z → M (Z * Mem D) unit;
  writevidc20 : Z → M (Z * Mem D) unit;
  gfxcard_mark_dirty : Z → D → D;
  debugger_memory_access : Z → Z → bool → Z → D → D
}.

Section access.
Context {D : Type}.
Local Abbreviation MEM := (M (Z * Mem D)).

Definition ask {A} (f : Mem D → A) : MEM A := gets (λ es, f (snd es)).
Definition alter_mem (f : Mem D → Mem D) : MEM unit := modify (λ es, (fst es, f (snd es))).

(** [base[index]] of a word array, and the bytes of a byte array *)
Definition word_at (base index : Z) (m : Mem D) : Z := get32 (base + 4 * index) (host m).
Definition byte_of (base index : Z) (m : Mem D) : Z := get8 (base + index) (host m).
Definition set_word (base index v : Z) (m : Mem D) : Mem D :=
  set_host (put32 (base + 4 * index) v (host m)) m.
Definition set_byte (base index v : Z) (m : Mem D) : Mem D :=
  set_host (put8 (base + index) v (host m)) m.
End access.
