(* ===== verification/MemPhys.v ===== *)
(** Physical accesses of mem.c: [mem_phys_read32], [mem_phys_read8],
    [mem_phys_write32] and [mem_phys_write8], each with its switch over the
    16 MB chunks of the physical address space. *)

From S2P Require Export MemState.

Definition SDRAM_BANK_MASK : Z := 0x7ffffff.
Definition GFXCARD_FB_SIZE : Z := 0x00f00000.
Definition OPENBUS_REG_BASE : Z := 0x03600000.
Definition OPENBUS_REG_END : Z := 0x03800000.

(** The [case] labels of [n] chunks of 16 MB from [first << 24]. *)
Definition chunks (first n : Z) : list Z := (λ c, Z.shiftl c 24) <$> seqZ first n.
Definition ROM_chunk : list Z := [0x00000000].
Definition VRAM_chunk : list Z := [0x02000000].
Definition IO_chunk : list Z := [0x03000000].
Definition EASI_chunks : list Z := chunks 0x08 8.
Definition SIMM0_0_chunks : list Z := chunks 0x10 4.
Definition SIMM0_1_chunks : list Z := chunks 0x14 4.
Definition SIMM1_chunks : list Z := chunks 0x18 8.
Definition SDRAM0_chunks : list Z := chunks 0x20 16.
Definition SDRAM1_chunks : list Z := chunks 0x30 16.

Definition openbus_addr_in_window (addr : Z) : bool :=
  (OPENBUS_REG_BASE <=? addr) && (addr <? OPENBUS_REG_END).
Definition mem_io_byte_to_word (val : Z) : Z := mul32 val 0x01010101.

(** [gfxcard_fb != NULL && (addr - gfxcard_fb_phys) < GFXCARD_FB_SIZE] *)
Definition in_framestore (addr : Z) (b : Board) : bool :=
  nz (gfxcard_fb b) && (sub32 addr (gfxcard_fb_phys b) <? GFXCARD_FB_SIZE).

Section phys.
Context {D : Type} `{!IoDev D}.
Local Abbreviation MEM := (M (Z * Mem D)).

(** [switch (addr & (phys_space_mask & 0xff000000))] *)
Definition chunk (addr : Z) (b : Board) : Z := addr .& (phys_space_mask b .& 0xff000000).

(** The I/O space of a word read; [None] is a [break] out of the switch. *)
Definition io_read32 (addr : Z) : MEM (option Z) :=
  b ← ask board;
  let phoebe :=
    if bool_decide (machine_model b = Model_Phoebe) && (addr .& 0xcffffc =? 0x8007c0)
    then v ← readidew; mret (Some v) else mret None in
  ob ← ask (λ m, openbus_present (dev m));
  if (ob : bool) && openbus_addr_in_window addr then
    v ← openbus_reg_read addr OPENBUS_SIZE_32; mret (Some v)
  else if addr .& 0xc00000 =? 0 then
    let bank := (addr .>> 16) .& 7 in
    if bank =? 0 then v ← iomd_read addr; mret (Some v)
    else if (bank =? 1) || (bank =? 2) then
      if (addr =? 0x3310000) && bool_decide (machine_iomd_type b = IOMDType_IOMD) then
        v ← iomd_mouse_buttons_read; mret (Some v)
      else if (0x3010000 <=? addr) && (addr <? 0x3012000) then
        if addr .& 0xffc =? 0x7c0 then v ← readidew; mret (Some v)
        else byte ← superio_read addr; mret (Some (mem_io_byte_to_word (u8 byte)))
      else phoebe
    else if bank =? 4 then
      v ← podules_read16 ((addr .>> 14) .& 3) PODULE_IO_TYPE_IOC (addr .& 0x3fff); mret (Some v)
    else if bank =? 7 then
      v ← podules_read16 (((addr .>> 14) .& 3) + 4) PODULE_IO_TYPE_IOC (addr .& 0x3fff);
      mret (Some v)
    else phoebe
  else phoebe.

Definition mem_phys_read32 (addr : Z) : MEM Z :=
  b ← ask board;
  let addr := addr .& phys_space_mask b in
  switch (chunk addr b) [
    (ROM_chunk, ask (word_at (rom b) ((addr .& 0x7fffff) .>> 2)));
    (VRAM_chunk, if mem_vrammask b =? 0 then mret 0xffffffff
                 else ask (word_at (vram b) ((addr .& mem_vrammask b) .>> 2)));
    (IO_chunk, v ← io_read32 addr; mret (default 0 v));
    (EASI_chunks,
      if in_framestore addr b then
        ask (λ m, get32 (gfxcard_fb b + sub32 addr (gfxcard_fb_phys b)) (host m))
      else podules_read32 ((addr .>> 24) .& 7) PODULE_IO_TYPE_EASI (addr .& 0xffffff));
    (SIMM0_0_chunks, ask (word_at (ram00 b) ((addr .& mem_rammask b) .>> 2)));
    (SIMM0_1_chunks, ask (word_at (ram01 b) ((addr .& mem_rammask b) .>> 2)));
    (SIMM1_chunks, if nz (ram1 b) then ask (word_at (ram1 b) ((addr .& 0x7ffffff) .>> 2))
                   else mret 0);
    (SDRAM0_chunks, if nz (sdram0 b) then ask (word_at (sdram0 b) ((addr .& SDRAM_BANK_MASK) .>> 2))
                    else mret 0);
    (SDRAM1_chunks, if nz (sdram1 b) then ask (word_at (sdram1 b) ((addr .& SDRAM_BANK_MASK) .>> 2))
                    else mret 0)
  ] (mret 0).

Definition io_read8 (addr : Z) : MEM (option Z) :=
  b ← ask board;
  let phoebe :=
    if bool_decide (machine_model b = Model_Phoebe) && (addr .& 0xcff000 =? 0x800000)
    then v ← readide ((addr .>> 2) .& 0x3ff); mret (Some v) else mret None in
  ob ← ask (λ m, openbus_present (dev m));
  if (ob : bool) && openbus_addr_in_window addr then
    v ← openbus_reg_read addr OPENBUS_SIZE_8; mret (Some v)
  else if addr .& 0xc00000 =? 0 then
    let bank := (addr .>> 16) .& 7 in
    if bank =? 0 then v ← iomd_read addr; mret (Some v)
    else if (bank =? 1) || (bank =? 2) then
      if (addr =? 0x3310000) && bool_decide (machine_iomd_type b = IOMDType_IOMD) then
        v ← iomd_mouse_buttons_read; mret (Some v)
      else if (0x3012000 <=? addr) && (addr <=? 0x302a000) then
        v ← fdc_dma_read addr; mret (Some v)
      else if addr .& 0xfff400 =? 0x02b000 then mret (Some 0xffffffff)
      else if (0x3010000 <=? addr) && (addr <? 0x3012000) then
        v ← superio_read addr; mret (Some v)
      else phoebe
    else if bank =? 4 then
      v ← podules_read8 ((addr .>> 14) .& 3) PODULE_IO_TYPE_IOC (addr .& 0x3fff); mret (Some v)
    else if bank =? 7 then
      v ← podules_read8 (((addr .>> 14) .& 3) + 4) PODULE_IO_TYPE_IOC (addr .& 0x3fff);
      mret (Some v)
    else phoebe
  else phoebe.

Definition mem_phys_read8 (addr : Z) : MEM Z :=
  b ← ask board;
  let addr := addr .& phys_space_mask b in
  switch (chunk addr b) [
    (ROM_chunk, ask (byte_of (rom b) (addr .& 0x7fffff)));
    (VRAM_chunk, if mem_vrammask b =? 0 then mret 0xff
                 else ask (byte_of (vram b) (addr .& mem_vrammask b)));
    (IO_chunk, v ← io_read8 addr; mret (default 0xff v));
    (EASI_chunks,
      if in_framestore addr b then ask (byte_of (gfxcard_fb b) (sub32 addr (gfxcard_fb_phys b)))
      else podules_read8 ((addr .>> 24) .& 7) PODULE_IO_TYPE_EASI (addr .& 0xffffff));
    (SIMM0_0_chunks, ask (byte_of (ram00 b) (addr .& mem_rammask b)));
    (SIMM0_1_chunks, ask (byte_of (ram01 b) (addr .& mem_rammask b)));
    (SIMM1_chunks, if nz (ram1 b) then ask (byte_of (ram1 b) (addr .& 0x7ffffff)) else mret 0xff);
    (SDRAM0_chunks, if nz (sdram0 b) then ask (byte_of (sdram0 b) (addr .& SDRAM_BANK_MASK))
                    else mret 0xff);
    (SDRAM1_chunks, if nz (sdram1 b) then ask (byte_of (sdram1 b) (addr .& SDRAM_BANK_MASK))
                    else mret 0xff)
  ] (mret 0xff).

Definition mark_dirty (page : Z) (m : Mem D) : Mem D :=
  set_dirtybuffer (<[page := 1]> (dirtybuffer m)) m.
(** Writes to DRAM video data update the dirty buffer when there is no VRAM. *)
Definition mark_dram_dirty (addr : Z) (m : Mem D) : Mem D :=
  let b := board m in
  if (mem_vrammask b =? 0) &&
     (addr .& 0xffc00000 =? iomd_vidstart (dev m) .& 0xffc00000)
  then mark_dirty ((addr .& mem_rammask b) .>> 12) m else m.
Definition mark_gfx_dirty (addr : Z) (m : Mem D) : Mem D :=
  set_dev (gfxcard_mark_dirty (sub32 addr (gfxcard_fb_phys (board m))) (dev m)) m.

(** The I/O space of a word write; [true] is a [return]. After the podule
    cases, which [break], the tests below them are made as well. *)
Definition io_write32 (addr val : Z) : MEM unit :=
  b ← ask board;
  let rest :=
    if addr .& 0xc00000 =? 0x400000 then writevidc20 val
    else when (bool_decide (machine_model b = Model_Phoebe) && (addr .& 0xcffffc =? 0x8007c0))
           (writeidew val) in
  ob ← ask (λ m, openbus_present (dev m));
  if (ob : bool) && openbus_addr_in_window addr then openbus_reg_write addr OPENBUS_SIZE_32 val
  else if addr .& 0xc00000 =? 0 then
    let bank := (addr .>> 16) .& 7 in
    if bank =? 0 then iomd_write addr val
    else if (bank =? 1) || (bank =? 2) then
      if (0x3010000 <=? addr) && (addr <? 0x3012000) then
        if addr .& 0xffc =? 0x7c0 then writeidew val else superio_write addr val
      else if addr .& 0xfff0000 =? 0x33a0000 then mret tt
      else rest
    else if bank =? 4 then
      podules_write16 ((addr .>> 14) .& 3) PODULE_IO_TYPE_IOC (addr .& 0x3fff) (val .>> 16);; rest
    else if bank =? 7 then
      podules_write16 (((addr .>> 14) .& 3) + 4) PODULE_IO_TYPE_IOC (addr .& 0x3fff) (val .>> 16);;
      rest
    else rest
  else rest.

Definition mem_phys_write32 (addr val : Z) : MEM unit :=
  b ← ask board;
  let addr := addr .& phys_space_mask b in
  switch (chunk addr b) [
    (VRAM_chunk, if mem_vrammask b =? 0 then mret tt else
       alter_mem (set_word (vram b) ((addr .& mem_vrammask b) .>> 2) val);;
       alter_mem (mark_dirty ((addr .& mem_vrammask b) .>> 12)));
    (IO_chunk, io_write32 addr val);
    (EASI_chunks,
      if in_framestore addr b then
        alter_mem (λ m, set_host (put32 (gfxcard_fb b + sub32 addr (gfxcard_fb_phys b)) val (host m)) m);;
        alter_mem (mark_gfx_dirty addr)
      else podules_write32 ((addr .>> 24) .& 7) PODULE_IO_TYPE_EASI (addr .& 0xffffff) val);
    (SIMM0_0_chunks, alter_mem (set_word (ram00 b) ((addr .& mem_rammask b) .>> 2) val);;
                     alter_mem (mark_dram_dirty addr));
    (SIMM0_1_chunks, alter_mem (set_word (ram01 b) ((addr .& mem_rammask b) .>> 2) val));
    (SIMM1_chunks, when (nz (ram1 b)) (alter_mem (set_word (ram1 b) ((addr .& 0x7ffffff) .>> 2) val)));
    (SDRAM0_chunks, when (nz (sdram0 b))
                      (alter_mem (set_word (sdram0 b) ((addr .& SDRAM_BANK_MASK) .>> 2) val)));
    (SDRAM1_chunks, when (nz (sdram1 b))
                      (alter_mem (set_word (sdram1 b) ((addr .& SDRAM_BANK_MASK) .>> 2) val)))
  ] (mret tt).

Definition io_write8 (addr val : Z) : MEM unit :=
  b ← ask board;
  let rest :=
    when (bool_decide (machine_model b = Model_Phoebe) && (addr .& 0xcff000 =? 0x800000))
      (writeide ((addr .>> 2) .& 0x3ff) val) in
  ob ← ask (λ m, openbus_present (dev m));
  if (ob : bool) && openbus_addr_in_window addr then openbus_reg_write addr OPENBUS_SIZE_8 val
  else if addr .& 0xc00000 =? 0 then
    let bank := (addr .>> 16) .& 7 in
    if bank =? 0 then iomd_write addr val
    else if (bank =? 1) || (bank =? 2) then
      if addr =? 0x3310000 then mret tt
      else if addr .& 0xfc0000 =? 0x240000 then mret tt
      else if (0x3012000 <=? addr) && (addr <=? 0x302a000) then fdc_dma_write addr val
      else if (0x3010000 <=? addr) && (addr <? 0x3012000) then superio_write_byte addr val
      else if addr .& 0xfff0000 =? 0x33a0000 then mret tt
      else rest
    else if bank =? 4 then
      podules_write8 ((addr .>> 14) .& 3) PODULE_IO_TYPE_IOC (addr .& 0x3fff) val;; rest
    else if bank =? 7 then
      podules_write8 (((addr .>> 14) .& 3) + 4) PODULE_IO_TYPE_IOC (addr .& 0x3fff) val;; rest
    else rest
  else rest.

Definition mem_phys_write8 (addr val : Z) : MEM unit :=
  b ← ask board;
  let addr := addr .& phys_space_mask b in
  switch (chunk addr b) [
    (VRAM_chunk, if mem_vrammask b =? 0 then mret tt else
       alter_mem (set_byte (vram b) (addr .& mem_vrammask b) val);;
       alter_mem (mark_dirty ((addr .& mem_vrammask b) .>> 12)));
    (IO_chunk, io_write8 addr val);
    (EASI_chunks,
      if in_framestore addr b then
        alter_mem (set_byte (gfxcard_fb b) (sub32 addr (gfxcard_fb_phys b)) val);;
        alter_mem (mark_gfx_dirty addr)
      else podules_write8 ((addr .>> 24) .& 7) PODULE_IO_TYPE_EASI (addr .& 0xffffff) val);
    (SIMM0_0_chunks, alter_mem (set_byte (ram00 b) (addr .& mem_rammask b) val);;
                     alter_mem (mark_dram_dirty addr));
    (SIMM0_1_chunks, alter_mem (set_byte (ram01 b) (addr .& mem_rammask b) val));
    (SIMM1_chunks, when (nz (ram1 b)) (alter_mem (set_byte (ram1 b) (addr .& 0x7ffffff) val)));
    (SDRAM0_chunks, when (nz (sdram0 b))
                      (alter_mem (set_byte (sdram0 b) (addr .& SDRAM_BANK_MASK) val)));
    (SDRAM1_chunks, when (nz (sdram1 b))
                      (alter_mem (set_byte (sdram1 b) (addr .& SDRAM_BANK_MASK) val)))
  ] (mret tt).
End phys.
