(* ===== verification/Cp15.v ===== *)
(** cp15.c: the MMU coprocessor. Translation, permissions and faults, the TLB,
    the fast maps of host pointers and their invalidation, the coprocessor
    registers, and [getpccache]; with the pieces of mem.h and mem.c they share
    ([translateaddress], [mem_set_privilege], [clearmemcache]). The hooks of the
    recompiler ([resetcodeblocks], [cacheclearpage]) are empty in the
    interpreter's build, and the counters [tlbs] and [flushes], which nothing
    reads, are left out. *)

From S2P Require Export MemPhys.

Definition TLBCACHESIZE : Z := 256.
Definition VADDR_RING_SIZE : Z := 16384.

Definition CP15_CTRL_MMU : Z := 0x1.
Definition CP15_CTRL_CACHE : Z := 0x4.
Definition CP15_CTRL_PROG32 : Z := 0x10.
Definition CP15_CTRL_DATA32 : Z := 0x20.
Definition CP15_CTRL_ABORT_TIMING : Z := 0x40.
Definition CP15_CTRL_SYSTEM : Z := 0x100.
Definition CP15_CTRL_ROM : Z := 0x200.
Definition CP15_CTRL_ICACHE : Z := 0x1000.

Definition CP15_FAULT_TRANSLATION_SECTION : Z := 0x5.
Definition CP15_FAULT_TRANSLATION_PAGE : Z := 0x7.
Definition CP15_FAULT_DOMAIN_SECTION : Z := 0x9.
Definition CP15_FAULT_DOMAIN_PAGE : Z := 0xb.
Definition CP15_FAULT_PERMISSION_SECTION : Z := 0xd.
Definition CP15_FAULT_PERMISSION_PAGE : Z := 0xf.

Definition TLB_PERM_USER_R : Z := 1.
Definition TLB_PERM_USER_W : Z := 2.
Definition TLB_PERM_PRIV_R : Z := 4.
Definition TLB_PERM_PRIV_W : Z := 8.

(** * Permissions *)

(** Non-zero (here [true]) if the access should be faulted; [privileged] is
    [memmode]. *)
Definition cp15_check_permissions (control ap : Z) (privileged is_write : bool) : bool :=
  if ap =? 0 then
    let sr := control .& 0x300 in
    if (sr =? 0) || (sr =? 0x300) then true
    else if sr =? 0x100 then negb privileged || is_write
    else is_write
  else if ap =? 1 then negb privileged
  else if ap =? 2 then negb privileged && is_write
  else false.

Definition cp15_domain_access (dac domain : Z) : Z := (dac .>> Z.shiftl domain 1) .& 3.

(** The bit of [tlbperm] for an access. *)
Definition perm_bit (privileged is_write : bool) : Z :=
  (if privileged then 2 else 0) .| (if is_write then 1 else 0).

Definition cp15_perm_mask (control domain_access ap : Z) : Z :=
  if domain_access =? 3 then
    TLB_PERM_PRIV_R .| TLB_PERM_PRIV_W .| TLB_PERM_USER_R .| TLB_PERM_USER_W
  else
    foldl (λ mask '(privileged, is_write),
      if cp15_check_permissions control ap privileged is_write then mask
      else mask .| Z.shiftl 1 (perm_bit privileged is_write))
    0 [(false, false); (false, true); (true, false); (true, true)].

(** * The TLB and the fast maps *)

Definition tlb_set (page paddr perm : Z) (t : TLB) : TLB :=
  set_tlbperm (<[page := perm]> (tlbperm t)) (set_tlbcache (<[page := paddr]> (tlbcache t)) t).

(** One turn of the loop of [cp15_tlb_flush]. *)
Definition tlb_flush_slot (t : TLB) (c : Z) : TLB :=
  let page := tlbcache2 t !!! c in
  if page =? 0xffffffff then t
  else set_tlbcache2 (<[c := 0xffffffff]> (tlbcache2 t)) (tlb_set page 0xffffffff 0 t).
Definition cp15_tlb_flush (t : TLB) : TLB :=
  foldl tlb_flush_slot t (seqZ 0 TLBCACHESIZE).

Definition cp15_tlb_add_entry (vaddr paddr perm : Z) (t : TLB) : TLB :=
  let old := tlbcache2 t !!! tlbcachepos t in
  let t := if old =? 0xffffffff then t else tlb_set old 0xffffffff 0 t in
  let t := set_tlbcache2 (<[tlbcachepos t := vaddr .>> 12]> (tlbcache2 t)) t in
  let t := tlb_set (vaddr .>> 12) (paddr .& 0xfffff000) perm t in
  set_tlbcachepos ((tlbcachepos t + 1) .& (TLBCACHESIZE - 1)) t.

(** Clears the entry in the ring slot [c] of privilege level [m]. *)
Definition vaddr_drop (m c : Z) (f : FastMap) : FastMap :=
  mkFastMap (<[page_of m (vaddrls f !!! slot_of m c) := 0xffffffff]> (vaddrl f))
    (<[slot_of m c := 0xffffffff]> (vaddrls f))
    (<[slot_of m c := 0xffffffff]> (vaddrphys f)) (vaddrlpos f).
Definition vaddr_reset_slot (f : FastMap) (mc : Z * Z) : FastMap :=
  let '(m, c) := mc in
  if vaddrls f !!! slot_of m c =? 0xffffffff then f else vaddr_drop m c f.
Definition invalidate_slot (addr : Z) (f : FastMap) (mc : Z * Z) : FastMap :=
  let '(m, c) := mc in
  if negb (vaddrls f !!! slot_of m c =? 0xffffffff) &&
     (vaddrphys f !!! slot_of m c .& 0x1f000000 =? addr)
  then vaddr_drop m c f else f.

(** [for (m = 0; m < 2; m++) for (c = 0; c < VADDR_RING_SIZE; c++)] *)
Definition ring_slots : list (Z * Z) :=
  m ← [0; 1]; c ← seqZ 0 VADDR_RING_SIZE; [(m, c)].
Definition vaddr_reset (f : FastMap) : FastMap := foldl vaddr_reset_slot f ring_slots.
Definition vaddr_invalidate (addr : Z) (f : FastMap) : FastMap :=
  foldl (invalidate_slot addr) f ring_slots.

(** Installs a page in the map of each privilege level [perm] lets through:
    the loop of [vradd] and [vwadd], with the pair of permission bits. *)
Definition vadd_level (v a p perm user_bit priv_bit : Z) (f : FastMap) (m : Z) : FastMap :=
  let bit := if nz m then priv_bit else user_bit in
  if negb (nz (perm .& bit)) then f
  else
    let pos := vaddrlpos f !!! m in
    let old := vaddrls f !!! slot_of m pos in
    let map := if old =? 0xffffffff then vaddrl f
               else <[page_of m old := 0xffffffff]> (vaddrl f) in
    mkFastMap (<[page_of m (a .>> 12) := v]> map)
      (<[slot_of m pos := a .>> 12]> (vaddrls f))
      (<[slot_of m pos := p]> (vaddrphys f))
      (<[m := (pos + 1) .& (VADDR_RING_SIZE - 1)]> (vaddrlpos f)).
Definition vadd (v a p perm user_bit priv_bit : Z) (f : FastMap) : FastMap :=
  foldl (vadd_level v a p perm user_bit priv_bit) f [0; 1].

Definition clearmemcache (p : PageCache) : PageCache :=
  set_memcache_memmode (-1) (set_writemembcache 0xffffffff
    (set_writememcache 0xffffffff (set_readmemcache 0xffffffff p))).

Section cp15.
Context {D : Type} `{!IoDev D}.
Local Abbreviation MEM := (M (Z * Mem D)).

Definition upd_cp15 (f : CP15 → CP15) (m : Mem D) : Mem D := set_cp15 (f (cp15 m)) m.
Definition upd_tlb (f : TLB → TLB) (m : Mem D) : Mem D := set_tlb (f (tlb m)) m.

Definition cp15_vaddr_reset (m : Mem D) : Mem D :=
  set_wmap (vaddr_reset (wmap m)) (set_rmap (vaddr_reset (rmap m)) m).
Definition cp15_tlb_invalidate_physical (addr : Z) (m : Mem D) : Mem D :=
  set_wmap (vaddr_invalidate addr (wmap m)) (set_rmap (vaddr_invalidate addr (rmap m)) m).
Definition cp15_tlb_flush_all (m : Mem D) : Mem D :=
  cp15_vaddr_reset (upd_tlb cp15_tlb_flush (set_pages (clearmemcache (pages m)) m)).

Definition mem_set_privilege (privileged : Z) (m : Mem D) : Mem D := set_memmode privileged m.

(** * Translation *)

(** [do_fault] *)
Definition do_fault (addr domain fault_code : Z) (prefetch : bool) : MEM Z :=
  modify (λ '(ev, m), (ev .| 0x40,
    if prefetch then m
    else upd_cp15 (λ c, set_fault_status (Z.shiftl domain 4 .| fault_code)
                          (set_fault_address addr c)) m));;
  mret 0.

(** The domain and permission checks, and the entry in the TLB. *)
Definition check_and_add (addr phys_addr domain ap : Z) (rw prefetch : bool)
    (domain_fault permission_fault : Z) : MEM Z :=
  c ← ask cp15;
  md ← ask memmode;
  let domain_access := cp15_domain_access (domain_access_control c) domain in
  if (domain_access =? 0) || (domain_access =? 2) then do_fault addr domain domain_fault prefetch
  else if (domain_access =? 1) && cp15_check_permissions (ctrl c) ap (nz md) rw then
    do_fault addr domain permission_fault prefetch
  else
    let ap := if domain_access =? 1 then ap else 3 in
    alter_mem (upd_tlb (cp15_tlb_add_entry addr phys_addr
                          (cp15_perm_mask (ctrl c) domain_access ap)));;
    mret phys_addr.

Definition translateaddress2 (addr : Z) (rw prefetch : bool) : MEM Z :=
  c ← ask cp15;
  let fld_addr := translation_table c .| ((addr .>> 18) .&~ 3) in
  (if tlbram c =? 0 then fatal else mret tt);;
  fld ← ask (word_at (tlbram c) ((fld_addr .>> 2) .& tlbrammask c));
  let domain := (fld .>> 5) .& 0xf in
  let type := fld .& 3 in
  if type =? 0 then do_fault addr domain CP15_FAULT_TRANSLATION_SECTION prefetch
  else if type =? 1 then
    let sld_addr := (fld .& 0xfffffc00) .| ((addr .>> 10) .& 0x3fc) in
    sld ← mem_phys_read32 sld_addr;
    let page temp phys_addr :=
      check_and_add addr phys_addr domain ((sld .>> (temp + 4)) .& 3) rw prefetch
        CP15_FAULT_DOMAIN_PAGE CP15_FAULT_PERMISSION_PAGE in
    if sld .& 3 =? 1 then
      page ((addr .& 0xc000) .>> 13) ((sld .& 0xffff0000) .| (addr .& 0xffff))
    else if sld .& 3 =? 2 then
      page ((addr .& 0xc00) .>> 9) ((sld .& 0xfffff000) .| (addr .& 0xfff))
    else do_fault addr domain CP15_FAULT_TRANSLATION_PAGE prefetch
  else if type =? 2 then
    check_and_add addr ((fld .& 0xfff00000) .| (addr .& 0xfffff)) domain ((fld .>> 10) .& 3)
      rw prefetch CP15_FAULT_DOMAIN_SECTION CP15_FAULT_PERMISSION_SECTION
  else fatal.

(** mem.h: the cached translation where there is one that allows the access. *)
Definition translateaddress (addr : Z) (rw prefetch : bool) : MEM Z :=
  t ← ask tlb;
  md ← ask memmode;
  let page := addr .>> 12 in
  if negb (nz (tlbcache t !!! page .& 0xfff)) &&
     nz (tlbperm t !!! page .& Z.shiftl 1 (perm_bit (nz md) rw))
  then mret (tlbcache t !!! page .| (addr .& 0xfff))
  else translateaddress2 addr rw prefetch.

(** * The registers *)

Definition cp15_reset (model : CPUModel) (m : Mem D) : Mem D :=
  let control :=
    match model with
    | CPUModel_ARM610 => 0
    | CPUModel_ARM710 | CPUModel_ARM7500 | CPUModel_ARM7500FE => CP15_CTRL_ABORT_TIMING
    | CPUModel_SA110 | CPUModel_ARM810 =>
        CP15_CTRL_ABORT_TIMING .| CP15_CTRL_DATA32 .| CP15_CTRL_PROG32
    end in
  let m := upd_cp15 (λ c, set_prog32 (if nz (control .& CP15_CTRL_PROG32) then 1 else 0)
    (set_mmu 0 (set_icache 0 (set_dcache 0 (set_ctrl control (set_cpu_model model c)))))) m in
  let m := upd_tlb (λ t, mkTLB (memset 0xffffffff) (tlbperm t) (memset 0xffffffff) 0) m in
  let clear f := mkFastMap (memset 0xffffffff) (memset 0xffffffff) (vaddrphys f) (vaddrlpos f) in
  set_wmap (clear (wmap m)) (set_rmap (clear (rmap m)) m).

(** [tlbram] and [tlbrammask] for the bank that holds the translation table;
    other banks leave them as they are. *)
Definition table_bank (b : Board) (c : CP15) : CP15 :=
  let use ram mask := set_tlbrammask (mask .>> 2) (set_tlbram ram c) in
  switch (translation_table c .& 0x3f000000) [
    (VRAM_chunk, use (vram b) (mem_vrammask b));
    (SIMM0_0_chunks, use (ram00 b) (mem_rammask b));
    (SIMM0_1_chunks, use (ram01 b) (mem_rammask b));
    (SIMM1_chunks, use (ram1 b) 0x7ffffff);
    (SDRAM0_chunks, use (sdram0 b) 0x7ffffff);
    (SDRAM1_chunks, use (sdram1 b) 0x7ffffff)
  ] c.

Definition is_armv4 (model : CPUModel) : bool :=
  bool_decide (model = CPUModel_SA110) || bool_decide (model = CPUModel_ARM810).

(** [md] is [arm.mode]; the result is what the core has to do. *)
Definition cp15_write (opcode val md : Z) : M (Mem D) cp15_effect :=
  let crn := RN opcode in
  let crm := RM opcode in
  let opc2 := (opcode .>> 5) .& 7 in
  if crn =? 1 then
    c ← gets cp15;
    when (nz ((ctrl c .^ val) .& (CP15_CTRL_MMU .| CP15_CTRL_ROM .| CP15_CTRL_SYSTEM)))
      (modify cp15_tlb_flush_all);;
    modify (upd_cp15 (λ c,
      set_prog32 (val .& CP15_CTRL_PROG32) (set_mmu (val .& CP15_CTRL_MMU)
        (set_icache (val .& CP15_CTRL_ICACHE) (set_dcache (val .& CP15_CTRL_CACHE)
          (set_ctrl val c))))));;
    mret (if negb (nz (val .& CP15_CTRL_PROG32)) && nz (md .& 0x10)
          then Cp15Mode (md .& 0xf) else Cp15None)
  else if crn =? 2 then
    modify (λ m, upd_cp15 (λ c, table_bank (board m) (set_translation_table (val .&~ 0x3fff) c)) m);;
    modify cp15_tlb_flush_all;;
    mret Cp15None
  else if crn =? 3 then
    c ← gets cp15;
    when (negb (val =? domain_access_control c))
      (modify (upd_cp15 (set_domain_access_control val));; modify cp15_tlb_flush_all);;
    mret Cp15None
  else if (crn =? 5) || (crn =? 6) then
    c ← gets cp15;
    (if is_armv4 (cpu_model c) then
       if crn =? 5 then modify (upd_cp15 (set_fault_status val))
       else modify (upd_cp15 (set_fault_address val))
     else modify cp15_tlb_flush_all);;
    mret Cp15None
  else if crn =? 7 then mret Cp15Refetch
  else if crn =? 8 then
    c ← gets cp15;
    when (is_armv4 (cpu_model c)) (modify cp15_tlb_flush_all);;
    mret Cp15None
  else mret Cp15None.

(** The registers are [uint32_t]s. *)
Definition cp15_read (opcode : Z) : M (Mem D) Z :=
  c ← gets cp15;
  let crn := RN opcode in
  if crn =? 0 then
    mret (match cpu_model c with
          | CPUModel_ARM7500 => 0x41027100
          | CPUModel_ARM7500FE => 0x41077100
          | CPUModel_ARM610 => 0x41560610
          | CPUModel_ARM710 => 0x41007100
          | CPUModel_ARM810 => 0x41018100
          | CPUModel_SA110 => 0x4401a102
          end)
  else if crn =? 1 then mret (u32 (ctrl c))
  else if crn =? 2 then mret (u32 (translation_table c))
  else if crn =? 3 then mret (u32 (domain_access_control c))
  else if crn =? 5 then mret (u32 (fault_status c))
  else if crn =? 6 then mret (u32 (fault_address c))
  else fatal.

Definition cp15_get_fault (c : CP15) : Z * Z := (fault_address c, fault_status c).

(** * Instruction fetch *)

(** The pointer the fetch of a page goes through: an array of words and the
    index of the page in it, minus the word index of its virtual address. *)
Definition fetch_ptr (phys_addr addr : Z) (b : Board) : option (Z * Z) :=
  let at_ ram mask := Some (ram, ((phys_addr .& mask) - addr) .>> 2) in
  switch (phys_addr .& 0x3f000000) [
    (ROM_chunk, at_ (rom b) 0x7ff000);
    (VRAM_chunk, at_ (vram b) (mem_vrammask b));
    (SIMM0_0_chunks, at_ (ram00 b) (mem_rammask b));
    (SIMM0_1_chunks, at_ (ram01 b) (mem_rammask b));
    (SIMM1_chunks, if nz (ram1 b) then at_ (ram1 b) 0x7ffffff else None);
    (SDRAM0_chunks, if nz (sdram0 b) then at_ (sdram0 b) 0x7ffffff else None);
    (SDRAM1_chunks, if nz (sdram1 b) then at_ (sdram1 b) 0x7ffffff else None)
  ] None.

(** [mem_write_map(0)[page]] and [mem_write_map(1)[page]] cleared *)
Definition drop_write_entries (page : Z) (m : Mem D) : Mem D :=
  set_wmap (set_vaddrl (<[page_of 1 page := 0xffffffff]>
    (<[page_of 0 page := 0xffffffff]> (vaddrl (wmap m)))) (wmap m)) m.

Definition getpccache (addr : Z) : MEM (option (Z * Z)) :=
  let addr := addr .&~ 0xfff in
  c ← ask cp15;
  phys ← (if nz (mmu c) then
            p ← translateaddress addr false true;
            ev ← gets fst;
            if nz ((ev : Z) .& 0x40) then
              modify (λ '(ev, m), (ev .&~ 0x40, m));; mret None
            else mret (Some p)
          else mret (Some addr));
  match (phys : option Z) with
  | None => mret None
  | Some phys_addr =>
      alter_mem (drop_write_entries (addr .>> 12));;
      b ← ask board;
      mret (fetch_ptr phys_addr addr b)
  end.
(** [pccache2[i]] *)
Definition fetch_word (p : Z * Z) (i : Z) (m : Mem D) : Z := word_at (fst p) (snd p + i) m.
End cp15.
