(* ===== verification/MemVirt.v ===== *)
(** Virtual accesses: the slow paths of mem.c ([readmemfl], [readmemfb],
    [writememfl], [writememfb]), which fill the single-entry caches and the
    fast maps, the inline accessors of mem.h, which use the fast maps, and the
    memory system put together as the interface of the core. *)

From S2P Require Export Cp15.

(** [memcache_check_mode] *)
Definition memcache_check_mode (md : Z) (p : PageCache) : PageCache :=
  if memcache_memmode p =? md then p
  else set_writemembcache 0xffffffff (set_writememcache 0xffffffff
         (set_readmemcache 0xffffffff (set_memcache_memmode md p))).

(** The three pairs of variables. *)
Inductive access_kind := ReadAny | WriteWord | WriteByte.
#[export] Instance access_kind_eq_dec : EqDecision access_kind.
Proof. solve_decision. Defined.
Definition is_write (k : access_kind) : bool := match k with ReadAny => false | _ => true end.
Definition cache_of (k : access_kind) (p : PageCache) : Z :=
  match k with
  | ReadAny => readmemcache p | WriteWord => writememcache p | WriteByte => writemembcache p
  end.
Definition cache2_of (k : access_kind) (p : PageCache) : Z :=
  match k with
  | ReadAny => readmemcache2 p | WriteWord => writememcache2 p | WriteByte => writemembcache2 p
  end.
Definition set_cache (k : access_kind) (v : Z) (p : PageCache) : PageCache :=
  match k with
  | ReadAny => set_readmemcache v p | WriteWord => set_writememcache v p
  | WriteByte => set_writemembcache v p
  end.
Definition set_cache2 (k : access_kind) (v : Z) (p : PageCache) : PageCache :=
  match k with
  | ReadAny => set_readmemcache2 v p | WriteWord => set_writememcache2 v p
  | WriteByte => set_writemembcache2 v p
  end.

(** [&base[(offset - (uintptr_t) (addr & ~0xfff)) >> 2]], a word pointer *)
Definition biased_ptr (base offset addr : Z) : Z :=
  u64 (base + 4 * (u64 (offset - (addr .&~ 0xfff)) .>> 2)).
(** the framestore's, computed on bytes *)
Definition biased_fb_ptr (page addr : Z) (b : Board) : Z :=
  u64 (gfxcard_fb b + sub32 page (gfxcard_fb_phys b) - (addr .&~ 0xfff)).

(** The biased pointer of RAM and VRAM at a page, by the switch over its chunk;
    [None] is a [break]. *)
Definition ram_ptr (page addr : Z) (b : Board) : option Z :=
  switch (chunk page b) [
    (VRAM_chunk, if mem_vrammask b =? 0 then None
                 else Some (biased_ptr (vram b) (page .& mem_vrammask b) addr));
    (SIMM0_0_chunks, Some (biased_ptr (ram00 b) (page .& mem_rammask b) addr));
    (SIMM0_1_chunks, Some (biased_ptr (ram01 b) (page .& mem_rammask b) addr));
    (SIMM1_chunks, if nz (ram1 b) then Some (biased_ptr (ram1 b) (page .& 0x7ffffff) addr) else None);
    (SDRAM0_chunks, if nz (sdram0 b) then Some (biased_ptr (sdram0 b) (page .& SDRAM_BANK_MASK) addr)
                    else None);
    (SDRAM1_chunks, if nz (sdram1 b) then Some (biased_ptr (sdram1 b) (page .& SDRAM_BANK_MASK) addr)
                    else None)
  ] None.

(** [case]s a read has in addition: ROM, and the framestore. *)
Definition read_ptr (page addr : Z) (b : Board) : option Z :=
  if existsb (Z.eqb (chunk page b)) ROM_chunk then
    Some (biased_ptr (rom b) (page .& 0x7ff000) addr)
  else if existsb (Z.eqb (chunk page b)) EASI_chunks then
    if in_framestore page b then Some (biased_fb_ptr page addr b) else None
  else ram_ptr page addr b.

(** A write of page [page]: the pointer and the physical page noted with it.
    [fb_page] is the page the framestore case looks at. *)
Definition write_ptr (page fb_page addr : Z) (b : Board) : option (Z * Z) :=
  if existsb (Z.eqb (chunk page b)) EASI_chunks then
    if in_framestore fb_page b then Some (biased_fb_ptr fb_page addr b, fb_page) else None
  else v ← ram_ptr page addr b; Some (v, page).

Section virt.
Context {D : Type} `{!IoDev D}.
Local Abbreviation MEM := (M (Z * Mem D)).

Definition upd_pages (f : PageCache → PageCache) (m : Mem D) : Mem D := set_pages (f (pages m)) m.

(** * Filling the fast maps *)

Definition vradd (a v p : Z) : MEM Z :=
  alter_mem (λ m, set_rmap (vadd v a p (tlbperm (tlb m) !!! (a .>> 12))
                              TLB_PERM_USER_R TLB_PERM_PRIV_R (rmap m)) m);;
  mret v.
Definition vwadd (a v p : Z) : MEM unit :=
  alter_mem (λ m, set_wmap (vadd v a p (tlbperm (tlb m) !!! (a .>> 12))
                              TLB_PERM_USER_W TLB_PERM_PRIV_W (wmap m)) m).

Definition note_access (addr size : Z) (is_write : bool) (value : Z) : MEM unit :=
  alter_mem (λ m, set_dev (debugger_memory_access addr size is_write value (dev m)) m).

(** The translation at the head of each slow path, through the single-entry
    cache of its kind of access; [on_fault] is done when an abort is pending. *)
Definition cached_page (k : access_kind) (addr : Z) (on_fault : MEM unit) : MEM (option Z) :=
  md ← ask memmode;
  alter_mem (upd_pages (memcache_check_mode md));;
  p ← ask pages;
  if addr .>> 12 =? cache_of k p then mret (Some (u32 (cache2_of k p + (addr .& 0xfff))))
  else
    alter_mem (upd_pages (set_cache k (addr .>> 12)));;
    phys_addr ← translateaddress addr (is_write k) false;
    ev ← gets fst;
    if nz ((ev : Z) .& 0x40) then
      on_fault;; alter_mem (upd_pages (set_cache k 0xffffffff));; mret None
    else
      alter_mem (upd_pages (set_cache2 k (phys_addr .& 0xfffff000)));;
      mret (Some phys_addr).

(** [vraddrl[addr >> 12] = 0xffffffff], in the map of the current privilege *)
Definition drop_read_entry (addr : Z) : MEM unit :=
  alter_mem (λ m, set_rmap (set_vaddrl
    (<[page_of (memmode m) (addr .>> 12) := 0xffffffff]> (vaddrl (rmap m))) (rmap m)) m).

(** A read of [len] bytes: [get] reads host memory, [phys] is the physical
    access when there is no pointer, [align] what the word access does to the
    address, [unmapped] the part of [readmemfl] for when the MMU is off. *)
Definition readmem (len : Z) (get : Z → gmap Z Z → Z) (phys : Z → MEM Z) (align : Z → Z)
    (on_fault unmapped : MEM unit) (addr : Z) : MEM Z :=
  c ← ask cp15;
  value ← (if nz (mmu c) then
      o ← cached_page ReadAny addr on_fault;
      match (o : option Z) with
      | None => mret 0
      | Some phys_addr =>
          b ← ask board;
          page ← ask (λ m, readmemcache2 (pages m));
          match read_ptr page addr b with
          | Some v =>
              hp ← vradd addr v page;
              let hp := if existsb (Z.eqb (chunk page b)) ROM_chunk then hp .&~ 3 else hp in
              ask (λ m, get (u64 (hp + align addr)) (host m))
          | None => phys phys_addr
          end
      end
    else unmapped;; phys addr);
  note_access addr len false value;;
  mret value.

(** With the MMU off [readmemfl] still installs the page, where the stale
    permissions of [tlbperm] let it. *)
Definition unmapped_fill (addr : Z) : MEM unit :=
  b ← ask board;
  match ram_ptr (addr .&~ 0xfff) addr b with
  | Some v => vradd addr v addr;; mret tt
  | None => mret tt
  end.

Definition readmemfl (addr : Z) : MEM Z :=
  readmem 4 get32 mem_phys_read32 (λ a, a .&~ 3) (drop_read_entry addr) (unmapped_fill addr) addr.
Definition readmemfb (addr : Z) : MEM Z :=
  readmem 1 get8 mem_phys_read8 (λ a, a) (mret tt) (mret tt) addr.

(** The framestore case of both writes looks at [writememcache2], the page of
    the word writes. *)
Definition writemem (k : access_kind) (len : Z) (phys : Z → Z → MEM unit) (addr val : Z) : MEM unit :=
  c ← ask cp15;
  o ← (if nz (mmu c) then
      o ← cached_page k addr (mret tt);
      match (o : option Z) with
      | None => mret None
      | Some phys_addr =>
          b ← ask board;
          p ← ask pages;
          match write_ptr (cache2_of k p) (writememcache2 p) addr b with
          | Some (v, noted) => vwadd addr v noted
          | None => mret tt
          end;;
          mret (Some phys_addr)
      end
    else mret (Some addr));
  match (o : option Z) with
  | None => mret tt
  | Some phys_addr => phys phys_addr val;; note_access addr len true val
  end.

Definition writememfl (addr val : Z) : MEM unit := writemem WriteWord 4 mem_phys_write32 addr val.
Definition writememfb (addr val : Z) : MEM unit := writemem WriteByte 1 mem_phys_write8 addr val.

(** * The accessors of mem.h *)

Definition mem_read32 (addr : Z) : MEM Z :=
  v ← ask (λ m, vaddrl (rmap m) !!! page_of (memmode m) (addr .>> 12));
  if nz (v .& 1) then readmemfl addr
  else
    value ← ask (λ m, get32 (u64 (addr + v)) (host m));
    note_access addr 4 false value;; mret value.
Definition mem_read8 (addr : Z) : MEM Z :=
  v ← ask (λ m, vaddrl (rmap m) !!! page_of (memmode m) (addr .>> 12));
  if nz (v .& 1) then readmemfb addr
  else
    value ← ask (λ m, get8 (u64 (addr + v)) (host m));
    note_access addr 1 false value;; mret value.
Definition mem_write32 (addr val : Z) : MEM unit :=
  v ← ask (λ m, vaddrl (wmap m) !!! page_of (memmode m) (addr .>> 12));
  if nz (v .& 3) then writememfl addr val
  else
    alter_mem (λ m, set_host (put32 (u64 (addr + v)) val (host m)) m);;
    note_access addr 4 true val.
Definition mem_write8 (addr val : Z) : MEM unit :=
  v ← ask (λ m, vaddrl (wmap m) !!! page_of (memmode m) (addr .>> 12));
  if nz (v .& 3) then writememfb addr val
  else
    alter_mem (λ m, set_host (put8 (u64 (addr + v)) val (host m)) m);;
    note_access addr 1 true val.

(** * The memory system of the core *)

#[export] Instance rpcemu_mem : MemSys (Mem D) (Z * Z) := {
  ms_read32 := mem_read32;
  ms_read8 := mem_read8;
  ms_write32 := mem_write32;
  ms_write8 := mem_write8;
  ms_memmode := memmode;
  ms_set_privilege := mem_set_privilege;
  ms_prog32 m := prog32 (cp15 m);
  ms_getpccache := getpccache;
  ms_fetch := fetch_word;
  ms_cp15_read := cp15_read;
  ms_cp15_write := cp15_write
}.
End virt.
