(* ===== verification/MemSpec.v ===== *)
(** Physical memory as an array: host bytes and words, the host address of a
    physical address, and that the accesses of mem.c read and write there. *)

From S2P Require Export MemVirt.

(** * Bytes and words of host memory *)

Lemma get8_range p h : 0 ≤ get8 p h < 256.
Proof. apply u8_range. Qed.

Lemma byte_high p h i : 8 ≤ i → Z.testbit (get8 p h) i = false.
Proof. intros Hi. apply (testbit_high _ 8); [exact (get8_range p h) | lia]. Qed.

(** Bit [i] of a word is bit [i mod 8] of its byte [i / 8]. *)
Lemma get32_bit p h i :
  0 ≤ i → Z.testbit (get32 p h) i =
    (i <? 32) && Z.testbit (get8 (p + i / 8) h) (i mod 8).
Proof.
  intros Hi. unfold get32. rewrite !Z.lor_spec, !Z.shiftl_spec by done.
  assert (i < 8 ∨ 8 ≤ i < 16 ∨ 16 ≤ i < 24 ∨ 24 ≤ i < 32 ∨ 32 ≤ i) as [H|[H|[H|[H|H]]]] by lia.
  - rewrite (Z.testbit_neg_r _ (i - 8)), (Z.testbit_neg_r _ (i - 16)), (Z.testbit_neg_r _ (i - 24)) by lia.
    rewrite (proj2 (Z.ltb_lt _ _)), Z.div_small, Z.mod_small, Z.add_0_r by lia. by rewrite !orb_false_r.
  - rewrite (byte_high p), (Z.testbit_neg_r _ (i - 16)), (Z.testbit_neg_r _ (i - 24)) by lia.
    rewrite (proj2 (Z.ltb_lt _ _)) by lia.
    replace (i / 8) with 1 by (apply (Z.div_unique _ _ _ (i - 8)); lia).
    replace (i mod 8) with (i - 8) by (apply (Z.mod_unique _ _ 1); lia). by rewrite !orb_false_r.
  - rewrite (byte_high p), (byte_high (p + 1)), (Z.testbit_neg_r _ (i - 24)) by lia.
    rewrite (proj2 (Z.ltb_lt _ _)) by lia.
    replace (i / 8) with 2 by (apply (Z.div_unique _ _ _ (i - 16)); lia).
    replace (i mod 8) with (i - 16) by (apply (Z.mod_unique _ _ 2); lia). by rewrite !orb_false_r.
  - rewrite (byte_high p), (byte_high (p + 1)), (byte_high (p + 2)) by lia.
    rewrite (proj2 (Z.ltb_lt _ _)) by lia.
    replace (i / 8) with 3 by (apply (Z.div_unique _ _ _ (i - 24)); lia).
    by replace (i mod 8) with (i - 24) by (apply (Z.mod_unique _ _ 3); lia).
  - rewrite !byte_high by lia. by rewrite (proj2 (Z.ltb_ge _ _)) by lia.
Qed.

Lemma get32_w32 p h : w32 (get32 p h).
Proof.
  apply w32_of_bits.
  - unfold get32. pose proof (get8_range p h). pose proof (get8_range (p + 1) h).
    pose proof (get8_range (p + 2) h). pose proof (get8_range (p + 3) h).
    rewrite !Z.lor_nonneg, !Z.shiftl_nonneg. lia.
  - intros i Hi. rewrite get32_bit by lia. by rewrite (proj2 (Z.ltb_ge _ _)).
Qed.

(** A word is its bytes. *)
Lemma get32_ext p q h h' :
  (∀ i, 0 ≤ i < 4 → get8 (p + i) h = get8 (q + i) h') → get32 p h = get32 q h'.
Proof.
  intros H. unfold get32. pose proof (H 0 ltac:(lia)) as H0. rewrite !Z.add_0_r in H0.
  by rewrite H0, !H by lia.
Qed.

Lemma get8_put8 p q v h : get8 q (put8 p v h) = if decide (p = q) then u8 v else get8 q h.
Proof.
  unfold get8, put8. rewrite arr_get_set. case_decide; [|done].
  unfold u8. by rewrite Zmod_mod.
Qed.

Lemma get8_put32 p q v h :
  get8 q (put32 p v h) =
    if decide (p ≤ q < p + 4) then u8 (v .>> (8 * (q - p))) else get8 q h.
Proof.
  unfold put32. rewrite !get8_put8.
  repeat case_decide; subst; try lia; try done.
  - by replace (8 * (p + 3 - p)) with 24 by lia.
  - by replace (8 * (p + 2 - p)) with 16 by lia.
  - by replace (8 * (p + 1 - p)) with 8 by lia.
  - by rewrite Z.sub_diag.
Qed.

Lemma u8_bit x i : 0 ≤ i → Z.testbit (u8 x) i = (i <? 8) && Z.testbit x i.
Proof.
  intros Hi. unfold u8. change 0x100 with (2 ^ 8).
  destruct (Z.ltb_spec i 8); [by rewrite Z.mod_pow2_bits_low | by rewrite Z.mod_pow2_bits_high by lia].
Qed.

Lemma get32_put32 p v h : get32 p (put32 p v h) = u32 v.
Proof.
  apply Z.bits_inj'. intros i Hi. rewrite get32_bit, u32_spec by done.
  destruct (Z.ltb_spec i 32); [|done]. cbn [andb]. rewrite get8_put32.
  pose proof (Z.div_pos i 8 Hi ltac:(lia)).
  assert (i / 8 < 4) by (apply Z.div_lt_upper_bound; lia).
  pose proof (Z.mod_pos_bound i 8 ltac:(lia)) as Hm.
  rewrite decide_True by lia. rewrite u8_bit by lia. rewrite (proj2 (Z.ltb_lt _ _)) by lia.
  cbn [andb]. rewrite Z.shiftr_spec by lia. f_equal. pose proof (Z.div_mod i 8 ltac:(lia)). lia.
Qed.

Lemma get32_put32_other p q v h :
  q + 4 ≤ p ∨ p + 4 ≤ q → get32 q (put32 p v h) = get32 q h.
Proof. intros H. apply get32_ext. intros i Hi. rewrite get8_put32. by rewrite decide_False by lia. Qed.

(** Aligned words are equal or apart. *)
Lemma get32_put32_aligned p q v h :
  p mod 4 = 0 → q mod 4 = 0 →
  get32 q (put32 p v h) = if decide (p = q) then u32 v else get32 q h.
Proof.
  intros Hp Hq. case_decide as E; [subst; apply get32_put32|].
  apply get32_put32_other. pose proof (Z.div_mod p 4 ltac:(lia)). pose proof (Z.div_mod q 4 ltac:(lia)). lia.
Qed.

(** A byte of a word. *)
Lemma get32_byte p h k : 0 ≤ k < 4 → get8 (p + k) h = (get32 p h .>> (8 * k)) .& 0xff.
Proof.
  intros Hk. apply Z.bits_inj'. intros i Hi. rewrite Z.land_spec, Z.shiftr_spec by done.
  rewrite get32_bit by lia. change 0xff with (Z.ones 8).
  rewrite Z.testbit_ones_nonneg by lia. destruct (Z.ltb_spec i 8).
  - rewrite (proj2 (Z.ltb_lt _ _)) by lia. cbn [andb]. rewrite andb_true_r.
    replace (i + 8 * k) with (i + k * 8) by lia.
    rewrite Z.div_add, Z.mod_add, Z.div_small, Z.mod_small by lia. done.
  - rewrite andb_false_r. by apply byte_high.
Qed.

(** * The board *)

(** What [mem_reset] sets up and [malloc] guarantees: masks of whole pages, and
    pointers that are word aligned, of a user address space of 48 bits. *)
Record board_ok (b : Board) : Prop := {
  bo_ram : ∃ k, 12 ≤ k ≤ 26 ∧ mem_rammask b = Z.ones k;
  bo_vram : mem_vrammask b = 0 ∨ ∃ k, 12 ≤ k ≤ 24 ∧ mem_vrammask b = Z.ones k;
  bo_space : phys_space_mask b = 0x1fffffff ∨ phys_space_mask b = 0x3fffffff;
  bo_ptr : ∀ p, p ∈ [rom b; vram b; ram00 b; ram01 b; ram1 b; sdram0 b; sdram1 b; gfxcard_fb b] →
           0 ≤ p < 2 ^ 48 ∧ p mod 4 = 0;
  bo_fb : 0 ≤ gfxcard_fb_phys b ≤ 0x10000000 - GFXCARD_FB_SIZE ∧ gfxcard_fb_phys b mod 0x1000 = 0
}.

(** The host address of a physical address, if it is memory; the ROM is, for
    reads. *)
Definition phys_at (write : bool) (b : Board) (a : Z) : option Z :=
  let a := a .& phys_space_mask b in
  switch (chunk a b) [
    (ROM_chunk, if write then None else Some (rom b + (a .& 0x7fffff)));
    (VRAM_chunk, if mem_vrammask b =? 0 then None else Some (vram b + (a .& mem_vrammask b)));
    (IO_chunk, None);
    (EASI_chunks, if in_framestore a b then Some (gfxcard_fb b + sub32 a (gfxcard_fb_phys b)) else None);
    (SIMM0_0_chunks, Some (ram00 b + (a .& mem_rammask b)));
    (SIMM0_1_chunks, Some (ram01 b + (a .& mem_rammask b)));
    (SIMM1_chunks, if nz (ram1 b) then Some (ram1 b + (a .& 0x7ffffff)) else None);
    (SDRAM0_chunks, if nz (sdram0 b) then Some (sdram0 b + (a .& SDRAM_BANK_MASK)) else None);
    (SDRAM1_chunks, if nz (sdram1 b) then Some (sdram1 b + (a .& SDRAM_BANK_MASK)) else None)
  ] None.

(** All but the contents of memory, and what records that they changed. *)
Record same_mmu {D} (m m' : Mem D) : Prop := {
  sm_board : board m' = board m;
  sm_cp15 : cp15 m' = cp15 m;
  sm_tlb : tlb m' = tlb m;
  sm_rmap : rmap m' = rmap m;
  sm_wmap : wmap m' = wmap m;
  sm_pages : pages m' = pages m;
  sm_memmode : memmode m' = memmode m
}.

(** * Masks *)

Lemma mod4_land x : x .& 3 = x mod 4.
Proof. change 3 with (Z.ones 2). by rewrite Z.land_ones. Qed.

Lemma land_shiftr_2 x : x mod 4 = 0 → 4 * (x .>> 2) = x.
Proof.
  intros H. rewrite Z.shiftr_div_pow2 by done. change (2 ^ 2) with 4.
  pose proof (Z.div_mod x 4). lia.
Qed.

Lemma land_aligned x y : x mod 4 = 0 → (x .& y) mod 4 = 0.
Proof.
  rewrite <- !mod4_land. intros H. rewrite (Z.land_comm x), <- Z.land_assoc, H. apply Z.land_0_r.
Qed.

Section phys_spec.
Context {D : Type} `{!IoDev D}.
Implicit Types m : Mem D.

Lemma ptr_aligned b p : board_ok b →
  p ∈ [rom b; vram b; ram00 b; ram01 b; ram1 b; sdram0 b; sdram1 b; gfxcard_fb b] → p mod 4 = 0.
Proof. intros Hb Hp. apply (bo_ptr b Hb p Hp). Qed.

(** [each_chunk]: the cases of the switches of the goal and of [phys_at]. *)
Ltac each_chunk :=
  repeat match goal with
  | |- context [existsb (Z.eqb ?x) ?l] => destruct (existsb (Z.eqb x) l)
  end; try discriminate.

Lemma phys_at_aligned w b a p :
  board_ok b → phys_at w b a = Some p → a mod 4 = 0 → p mod 4 = 0.
Proof.
  intros Hb Hp Ha. pose proof (land_aligned a (phys_space_mask b) Ha) as H.
  revert Hp. unfold phys_at. set (x := a .& phys_space_mask b) in *. cbn [switch].
  assert (∀ q mask, q ∈ [rom b; vram b; ram00 b; ram01 b; ram1 b; sdram0 b; sdram1 b; gfxcard_fb b] →
    Some (q + (x .& mask)) = Some p → p mod 4 = 0) as Hq.
  { intros q mask Hq [= <-]. pose proof (ptr_aligned b q Hb Hq).
    pose proof (land_aligned x mask H). by rewrite Z.add_mod, H0, H1. }
  assert (∀ y, y ∈ [rom b; vram b; ram00 b; ram01 b; ram1 b; sdram0 b; sdram1 b; gfxcard_fb b] → y mod 4 = 0)
    as Hy by (intros; by apply (ptr_aligned b)).
  each_chunk; try (apply Hq; set_solver).
  - destruct w; [done|]. apply Hq. set_solver.
  - destruct (_ =? _); [done|]. apply Hq. set_solver.
  - destruct (in_framestore x b); [|done]. intros [= <-].
    unfold sub32, u32. destruct (bo_fb b Hb) as [_ Hf].
    pose proof (Hy (gfxcard_fb b) ltac:(set_solver)).
    change 0x100000000 with (4 * 0x40000000). rewrite Z.rem_mul_r by lia.
    rewrite Z.add_mod, (Z.add_mod ((_ - _) mod 4)), (Z.mul_comm 4 _), Z.mod_mul, Z.add_0_r by lia.
    rewrite Zminus_mod, H. change 0x1000 with (4 * 0x400) in Hf. rewrite Z.rem_mul_r in Hf by lia.
    pose proof (Z.mod_pos_bound (gfxcard_fb_phys b) 4 ltac:(lia)).
    pose proof (Z.mod_pos_bound (gfxcard_fb_phys b / 4) 0x400 ltac:(lia)).
    replace (gfxcard_fb_phys b mod 4) with 0 by lia. by rewrite H0.
  - destruct (nz _); [|done]. apply Hq. set_solver.
  - destruct (nz _); [|done]. apply Hq. set_solver.
  - destruct (nz _); [|done]. apply Hq. set_solver.
Qed.

Lemma word_index x mask base : x mod 4 = 0 → base + 4 * ((x .& mask) .>> 2) = base + (x .& mask).
Proof. intros H. by rewrite land_shiftr_2 by by apply land_aligned. Qed.

Lemma mem_phys_read32_at a p e m :
  phys_at false (board m) a = Some p → a mod 4 = 0 →
  mem_phys_read32 a (e, m) = Some (get32 p (host m), (e, m)).
Proof.
  intros Hp Ha. pose proof (land_aligned a (phys_space_mask (board m)) Ha) as H. revert Hp.
  unfold phys_at, mem_phys_read32, ask, gets, mbind, M_bind, mret, M_ret, word_at. cbn beta iota.
  cbn [snd]. set (x := a .& phys_space_mask (board m)) in *. cbn [switch].
  each_chunk; cbn [fst snd]; rewrite ?(word_index x) by done;
    repeat match goal with |- context [if ?c then _ else _] => destruct c eqn:? end;
    try discriminate; intros [= <-]; by rewrite ?(word_index x) by done.
Qed.

Lemma mem_phys_read8_at a p e m :
  phys_at false (board m) a = Some p →
  mem_phys_read8 a (e, m) = Some (get8 p (host m), (e, m)).
Proof.
  unfold phys_at, mem_phys_read8, ask, gets, mbind, M_bind, mret, M_ret, byte_of. cbn beta iota.
  cbn [snd]. set (x := a .& phys_space_mask (board m)) in *. cbn [switch].
  each_chunk; cbn [fst snd];
    repeat match goal with |- context [if ?c then _ else _] => destruct c eqn:? end;
    try discriminate; by intros [= <-].
Qed.

Lemma mark_dram_dirty_same k h m :
  same_mmu m (mark_dram_dirty k (set_host h m)) ∧ host (mark_dram_dirty k (set_host h m)) = h.
Proof. unfold mark_dram_dirty. by destruct (_ && _). Qed.

Lemma mem_phys_write32_at a p v e m :
  phys_at true (board m) a = Some p → a mod 4 = 0 →
  ∃ m', mem_phys_write32 a v (e, m) = Some (tt, (e, m')) ∧ same_mmu m m' ∧ host m' = put32 p v (host m).
Proof.
  intros Hp Ha. pose proof (land_aligned a (phys_space_mask (board m)) Ha) as H. revert Hp.
  unfold phys_at, mem_phys_write32, ask, alter_mem, modify, gets, mbind, M_bind, mret, M_ret, set_word.
  cbn beta iota. cbn [snd fst]. set (x := a .& phys_space_mask (board m)) in *. cbn [switch].
  each_chunk; cbn [fst snd];
    repeat match goal with |- (if ?c then _ else _) = Some _ → _ => destruct c eqn:? end;
    try discriminate; intros [= <-]; cbn [when];
    rewrite ?(word_index x) by done;
    try (eexists; split_and!; [reflexivity | done | done]).
  eexists; split_and!; [reflexivity| |]; apply mark_dram_dirty_same.
Qed.

Lemma mem_phys_write8_at a p v e m :
  phys_at true (board m) a = Some p →
  ∃ m', mem_phys_write8 a v (e, m) = Some (tt, (e, m')) ∧ same_mmu m m' ∧ host m' = put8 p v (host m).
Proof.
  unfold phys_at, mem_phys_write8, ask, alter_mem, modify, gets, mbind, M_bind, mret, M_ret, set_byte.
  cbn beta iota. cbn [snd fst]. set (x := a .& phys_space_mask (board m)) in *. cbn [switch].
  each_chunk; cbn [fst snd];
    repeat match goal with |- (if ?c then _ else _) = Some _ → _ => destruct c eqn:? end;
    try discriminate; intros [= <-]; cbn [when];
    try (eexists; split_and!; [reflexivity | done | done]).
  eexists; split_and!; [reflexivity| |]; apply mark_dram_dirty_same.
Qed.

(** What can be written can be read, at the same place. *)
Lemma phys_at_write b a p : phys_at true b a = Some p → phys_at false b a = Some p.
Proof. unfold phys_at. cbn [switch]. by destruct (existsb _ ROM_chunk). Qed.
End phys_spec.
