(* ===== verification/MmuSpec.v ===== *)
(** The MMU the architecture describes, as a function of the tables in memory,
    and that [translateaddress2] is it: the addresses and fields of the
    descriptors are written here with arithmetic. *)

From S2P Require Export MemSpec.

(** * The reference *)

(** What the tables say of an address: a translation fault, or a physical
    address with the domain and access permissions that guard it. *)
Inductive walked :=
  | WalkFault (domain code : Z)
  | WalkPage (phys domain ap : Z) (section : bool).

Definition field (x lo width : Z) : Z := x / 2 ^ lo mod 2 ^ width.
(** the [n]-byte block that [base] is in, with the offset of [va] *)
Definition in_block (base va n : Z) : Z := base / n * n + va mod n.

Section mmu.
Context {D : Type} `{!IoDev D}.
Implicit Types m : Mem D.

Definition phys_word m (a : Z) : option Z :=
  p ← phys_at false (board m) a; Some (get32 p (host m)).

Definition level1 m (va : Z) : Z :=
  let c := cp15 m in
  word_at (tlbram c) ((translation_table c / 4 + va / 0x100000) .& tlbrammask c) m.

(** [None]: the code ends the process, or the second-level table is not in
    memory. *)
Definition walk m (va : Z) : option walked :=
  if tlbram (cp15 m) =? 0 then None else
  let fld := level1 m va in
  let domain := field fld 5 4 in
  if fld mod 4 =? 0 then Some (WalkFault domain CP15_FAULT_TRANSLATION_SECTION)
  else if fld mod 4 =? 1 then
    sld ← phys_word m (in_block fld (4 * (va / 0x1000)) 0x400);
    Some (if sld mod 4 =? 1 then
            WalkPage (in_block sld va 0x10000) domain (field sld (4 + 2 * field va 14 2) 2) false
          else if sld mod 4 =? 2 then
            WalkPage (in_block sld va 0x1000) domain (field sld (4 + 2 * field va 10 2) 2) false
          else WalkFault domain CP15_FAULT_TRANSLATION_PAGE)
  else if fld mod 4 =? 2 then
    Some (WalkPage (in_block fld va 0x100000) domain (field fld 10 2) true)
  else None.

(** The physical address, with the permission bits that go with it, or the
    fault. *)
Definition mmu_access m (priv rw : bool) (va : Z) : option (Z * Z + Z * Z) :=
  w ← walk m va;
  Some match w with
  | WalkFault d code => inr (d, code)
  | WalkPage phys d ap section =>
      let da := field (domain_access_control (cp15 m)) (2 * d) 2 in
      let perm := cp15_perm_mask (ctrl (cp15 m)) da (if da =? 1 then ap else 3) in
      if (da =? 0) || (da =? 2) then
        inr (d, if section then CP15_FAULT_DOMAIN_SECTION else CP15_FAULT_DOMAIN_PAGE)
      else if (da =? 1) && cp15_check_permissions (ctrl (cp15 m)) ap priv rw then
        inr (d, if section then CP15_FAULT_PERMISSION_SECTION else CP15_FAULT_PERMISSION_PAGE)
      else inl (phys, perm)
  end.

(** The fault registers after a fault at [va]. *)
Definition with_fault (va d code : Z) (prefetch : bool) m : Mem D :=
  if prefetch then m
  else upd_cp15 (λ c, set_fault_status (16 * d + code) (set_fault_address va c)) m.

(** * Fields of words *)

Lemma shiftr_land_field x lo width : 0 ≤ lo → 0 ≤ width → (x .>> lo) .& Z.ones width = field x lo width.
Proof. intros. by rewrite Z.land_ones, Z.shiftr_div_pow2. Qed.

Lemma shiftr_mod4 x lo : 0 ≤ lo → (x .>> lo) mod 4 = field x lo 2.
Proof. intros. by rewrite Z.shiftr_div_pow2. Qed.

(** [(base & ~(2^k - 1)) | (va & (2^k - 1))] of words *)
Lemma block_lor base va k :
  w32 base → 0 ≤ k → (base .& (0xffffffff .&~ Z.ones k)) .| (va .& Z.ones k) = in_block base va (2 ^ k).
Proof.
  intros Hb Hk. unfold in_block.
  assert (0 < 2 ^ k) by (apply Z.pow_pos_nonneg; lia).
  assert (base .& (0xffffffff .&~ Z.ones k) = base / 2 ^ k * 2 ^ k) as ->.
  { rewrite <- Z.shiftr_div_pow2, <- Z.shiftl_mul_pow2, <- Z.ldiff_ones_r by done.
    apply Z.bits_inj'. intros i Hi. rewrite Z.land_spec, !Z.ldiff_spec.
    destruct (Z.lt_ge_cases i 32) as [Hl|Hl].
    - change 0xffffffff with (Z.ones 32). rewrite (Z.testbit_ones_nonneg 32) by lia.
      by rewrite (proj2 (Z.ltb_lt _ _)).
    - by rewrite (w32_high base) by done. }
  rewrite Z.land_ones by done. apply (lor_add_high _ _ k); [done | | by apply Z.mod_pos_bound].
  by rewrite Z.mod_mul by lia.
Qed.

Lemma perm_mask_bit control da ap priv rw :
  Z.testbit (cp15_perm_mask control da ap) (perm_bit priv rw) =
    (da =? 3) || negb (cp15_check_permissions control ap priv rw).
Proof.
  unfold cp15_perm_mask. destruct (da =? 3); [by destruct priv, rw|]. cbn [foldl orb].
  destruct (cp15_check_permissions control ap false false) eqn:E0,
    (cp15_check_permissions control ap false true) eqn:E1,
    (cp15_check_permissions control ap true false) eqn:E2,
    (cp15_check_permissions control ap true true) eqn:E3;
    destruct priv, rw; by rewrite ?E0, ?E1, ?E2, ?E3.
Qed.

(** * The walk of the code *)

Lemma walk_section fld va :
  w32 fld → (fld .& 0xfff00000) .| (va .& 0xfffff) = in_block fld va 0x100000.
Proof. intros H. exact (block_lor fld va 20 H ltac:(lia)). Qed.
Lemma walk_large sld va :
  w32 sld → (sld .& 0xffff0000) .| (va .& 0xffff) = in_block sld va 0x10000.
Proof. intros H. exact (block_lor sld va 16 H ltac:(lia)). Qed.
Lemma walk_small sld va :
  w32 sld → (sld .& 0xfffff000) .| (va .& 0xfff) = in_block sld va 0x1000.
Proof. intros H. exact (block_lor sld va 12 H ltac:(lia)). Qed.

Lemma level2_addr fld va :
  w32 fld → 0 ≤ va →
  (fld .& 0xfffffc00) .| ((va .>> 10) .& 0x3fc) = in_block fld (4 * (va / 0x1000)) 0x400.
Proof.
  intros Hf Hv. rewrite <- (block_lor fld _ 10 Hf ltac:(lia) : _ = in_block _ _ 0x400).
  change (0xffffffff .&~ Z.ones 10) with 0xfffffc00. f_equal.
  change (va / 0x1000) with (va / 2 ^ 12). rewrite <- Z.shiftr_div_pow2 by done.
  replace (4 * (va .>> 12)) with (Z.shiftl (va .>> 12) 2) by (rewrite Z.shiftl_mul_pow2 by done; lia).
  apply Z.bits_inj'. intros i Hi. rewrite !Z.land_spec, Z.shiftr_spec by done.
  rewrite Z.testbit_ones_nonneg by lia.
  destruct (Z.ltb_spec i 10) as [H|H].
  - assert (Z.testbit 0x3fc i = (2 <=? i)) as ->.
    { assert (i = 0 ∨ i = 1 ∨ i = 2 ∨ i = 3 ∨ i = 4 ∨ i = 5 ∨ i = 6 ∨ i = 7 ∨ i = 8 ∨ i = 9)
        as [->|[->|[->|[->|[->|[->|[->|[->|[->| ->]]]]]]]]] by lia; reflexivity. }
    rewrite Z.shiftl_spec, andb_true_r by done. destruct (Z.leb_spec 2 i).
    + rewrite andb_true_r, Z.shiftr_spec by lia. f_equal. lia.
    + rewrite andb_false_r. symmetry. apply Z.testbit_neg_r. lia.
  - rewrite (testbit_high 0x3fc 10) by lia. by rewrite !andb_false_r.
Qed.

Lemma level1_index ttb va :
  ttb .&~ 0x3fff = ttb → w32 va → (ttb .| ((va .>> 18) .&~ 3)) .>> 2 = ttb / 4 + va / 0x100000.
Proof.
  intros Ht Hv. change 4 with (2 ^ 2) at 1. change 0x100000 with (2 ^ 20).
  rewrite <- !Z.shiftr_div_pow2, Z.shiftr_lor by done. change 3 with (Z.ones 2).
  rewrite Z.ldiff_ones_r, Z.shiftr_shiftl_l, Z.sub_diag, Z.shiftl_0_r, Z.shiftr_shiftr by done.
  change (18 + 2) with 20. apply (lor_add_high _ _ 12); [done | |].
  - rewrite <- Z.land_ones by done. apply Z.bits_inj'. intros i Hi.
    rewrite Z.land_spec, Z.shiftr_spec, Z.bits_0, Z.testbit_ones_nonneg by lia.
    destruct (Z.ltb_spec i 12); [|apply andb_false_r]. rewrite andb_true_r.
    rewrite <- Ht, Z.ldiff_spec. change 0x3fff with (Z.ones 14).
    rewrite Z.testbit_ones_nonneg, (proj2 (Z.ltb_lt _ _)) by lia. apply andb_false_r.
  - rewrite Z.shiftr_div_pow2 by done. unfold w32 in Hv. change (2 ^ 20) with 0x100000.
    split; [apply Z.div_pos; lia | apply Z.div_lt_upper_bound; lia].
Qed.

(** the shift by which the permissions of a subpage are selected *)
Lemma subpage_shift va lo : 0 < lo →
  (va .& Z.shiftl 3 lo) .>> (lo - 1) = 2 * field va lo 2.
Proof.
  intros Hlo. unfold field.
  rewrite <- Z.shiftr_div_pow2 by lia. rewrite <- Z.land_ones by done.
  replace (2 * (va .>> lo .& Z.ones 2)) with (Z.shiftl (va .>> lo .& Z.ones 2) 1)
    by (rewrite Z.shiftl_mul_pow2 by done; lia).
  apply Z.bits_inj'. intros i Hi. rewrite Z.shiftr_spec, Z.land_spec, !Z.shiftl_spec by lia.
  destruct (Z.eq_dec i 0) as [->|Hi0].
  - rewrite (Z.testbit_neg_r 3 (0 + (lo - 1) - lo)) by lia. rewrite andb_false_r.
    symmetry. apply Z.testbit_neg_r. lia.
  - rewrite Z.land_spec, Z.shiftr_spec by lia. change 3 with (Z.ones 2). f_equal; f_equal; lia.
Qed.
End mmu.

Section translate.
Context {D : Type} `{!IoDev D}.
Implicit Types m : Mem D.

(** What [cp15_write] keeps of the registers. *)
Record cp15_ok (c : CP15) : Prop := {
  co_ctrl : w32 (ctrl c);
  co_ttb : w32 (translation_table c);
  co_ttb_base : translation_table c .&~ 0x3fff = translation_table c;
  co_dac : w32 (domain_access_control c);
  co_fsr : w32 (fault_status c);
  co_far : w32 (fault_address c)
}.

(** The state and value of a translation with this outcome. *)
Definition translated (va : Z) (prefetch : bool) (e : Z) m (r : Z * Z + Z * Z) : Z * (Z * Mem D) :=
  match r with
  | inl (phys, perm) => (phys, (e, upd_tlb (cp15_tlb_add_entry va phys perm) m))
  | inr (d, code) => (0, (e .| 0x40, with_fault va d code prefetch m))
  end.

Lemma do_fault_run va d code prefetch e m :
  0 ≤ d → 0 ≤ code < 16 →
  do_fault va d code prefetch (e, m) = Some (translated va prefetch e m (inr (d, code))).
Proof.
  intros Hd Hc. unfold do_fault, translated, with_fault, modify, mbind, M_bind, mret, M_ret. cbv beta iota.
  replace (Z.shiftl d 4 .| code) with (16 * d + code); [by destruct prefetch|].
  symmetry. rewrite Z.shiftl_mul_pow2 by done. change (2 ^ 4) with 16. rewrite Z.mul_comm.
  apply (lor_add_high _ _ 4); [done | | done]. change (2 ^ 4) with 16. rewrite Z.mul_comm. by apply Z.mod_mul.
Qed.

Lemma domain_access_field dac d : 0 ≤ d → cp15_domain_access dac d = field dac (2 * d) 2.
Proof.
  intros Hd. unfold cp15_domain_access. rewrite Z.shiftl_mul_pow2 by done. change 3 with (Z.ones 2).
  rewrite shiftr_land_field by lia. f_equal. lia.
Qed.

Lemma check_and_add_run va phys d ap (section : bool) rw prefetch e m :
  0 ≤ d →
  check_and_add va phys d ap rw prefetch
    (if section then CP15_FAULT_DOMAIN_SECTION else CP15_FAULT_DOMAIN_PAGE)
    (if section then CP15_FAULT_PERMISSION_SECTION else CP15_FAULT_PERMISSION_PAGE) (e, m) =
  Some (translated va prefetch e m
    (let da := field (domain_access_control (cp15 m)) (2 * d) 2 in
     if (da =? 0) || (da =? 2) then
       inr (d, if section then CP15_FAULT_DOMAIN_SECTION else CP15_FAULT_DOMAIN_PAGE)
     else if (da =? 1) && cp15_check_permissions (ctrl (cp15 m)) ap (nz (memmode m)) rw then
       inr (d, if section then CP15_FAULT_PERMISSION_SECTION else CP15_FAULT_PERMISSION_PAGE)
     else inl (phys, cp15_perm_mask (ctrl (cp15 m)) da (if da =? 1 then ap else 3)))).
Proof.
  intros Hd. unfold check_and_add, ask, gets, mbind, M_bind. cbv beta iota. cbn [snd].
  rewrite domain_access_field by done. cbv zeta.
  destruct (_ || _); [apply do_fault_run; [done | by destruct section; cbv; split] |].
  destruct (_ && _) eqn:E; [apply do_fault_run; [done | by destruct section; cbv; split] |]. done.
Qed.

Lemma field_nonneg x lo width : 0 ≤ lo → 0 ≤ width → 0 ≤ field x lo width.
Proof. intros. unfold field. apply Z.mod_pos_bound, Z.pow_pos_nonneg; lia. Qed.

Lemma in_block_aligned base va n :
  (4 | n) → va mod 4 = 0 → in_block base va n mod 4 = 0.
Proof.
  intros [q ->] Hv. unfold in_block.
  rewrite Z.mul_assoc, Z.add_comm, Z.mod_add by done.
  by rewrite Z.mod_mod_divide by by exists q.
Qed.

(** The translation of the code is the reference's. *)
Lemma translateaddress2_access m va rw prefetch e r :
  cp15_ok (cp15 m) → w32 va → mmu_access m (nz (memmode m)) rw va = Some r →
  translateaddress2 va rw prefetch (e, m) = Some (translated va prefetch e m r).
Proof.
  intros Hc Hv. unfold mmu_access. destruct (walk m va) as [w|] eqn:Ew; [|done]. intros [= <-].
  revert Ew. unfold walk, translateaddress2, ask, gets, mbind, M_bind. cbv beta iota zeta. cbn [snd].
  destruct (tlbram (cp15 m) =? 0); [done|]. unfold mret, M_ret. cbv beta iota. cbn [snd].
  rewrite level1_index by (done || by apply Hc). fold (level1 m va). set (fld := level1 m va).
  assert (w32 fld) as Hf by apply get32_w32. change 0xf with (Z.ones 4).
  rewrite (shiftr_land_field fld 5 4), !mod4_land by done. set (d := field fld 5 4).
  assert (0 ≤ d) as Hd by by apply field_nonneg.
  destruct (fld mod 4 =? 0); [intros [= <-]; by apply do_fault_run|].
  destruct (fld mod 4 =? 1).
  - rewrite level2_addr by (unfold w32 in Hv; lia || done). unfold phys_word.
    destruct (phys_at false (board m) _) as [p|] eqn:Ep; [|done]. cbn. intros Hw.
    rewrite (mem_phys_read32_at _ p) by
      (done || (apply in_block_aligned; [by exists 0x100 | rewrite Z.mul_comm; by apply Z.mod_mul])).
    set (sld := get32 p (host m)) in *. assert (w32 sld) as Hs by apply get32_w32.
    rewrite !mod4_land.
    change 0xc000 with (Z.shiftl 3 14). change 0xc00 with (Z.shiftl 3 10).
    change 13 with (14 - 1). change 9 with (10 - 1). rewrite !subpage_shift by done.
    assert (∀ lo, 0 ≤ 2 * field va lo 2 + 4 ∨ lo < 0) as Hlo
      by (intros lo; destruct (Z.lt_ge_cases lo 0); [by right | left; pose proof (field_nonneg va lo 2); lia]).
    destruct (sld mod 4 =? 1); [|destruct (sld mod 4 =? 2)]; injection Hw as <-.
    + rewrite shiftr_mod4, walk_large by (destruct (Hlo 14); lia || done).
      rewrite (Z.add_comm _ 4). exact (check_and_add_run va _ d _ false rw prefetch e m Hd).
    + rewrite shiftr_mod4, walk_small by (destruct (Hlo 10); lia || done).
      rewrite (Z.add_comm _ 4). exact (check_and_add_run va _ d _ false rw prefetch e m Hd).
    + by apply do_fault_run.
  - destruct (fld mod 4 =? 2); [|done]. intros [= <-].
    rewrite shiftr_mod4, walk_section by done.
    exact (check_and_add_run va _ d _ true rw prefetch e m Hd).
Qed.
End translate.
