(* ===== verification/MemCoherent.v ===== *)
(** The caches of the memory system hold what the tables say: the coherence
    invariant, what makes it hold (flushes, reset), and what the fast maps and
    the TLB keep of it. *)

From S2P Require Export MmuSpec.

Lemma page_of_va va : va .>> 12 = va / 0x1000.
Proof. by rewrite Z.shiftr_div_pow2. Qed.
Lemma offset_of_va va : va .& 0xfff = va mod 0x1000.
Proof. change 0xfff with (Z.ones 12). by rewrite Z.land_ones. Qed.

Lemma page_range va : w32 va → 0 ≤ va / 0x1000 < 0x100000.
Proof. unfold w32. intros H. split; [apply Z.div_pos; lia | apply Z.div_lt_upper_bound; lia]. Qed.

(** A block seen from another address of the same page. *)
Lemma in_block_page base va va' n :
  (0x1000 | n) → 0 < n → 0 ≤ va → 0 ≤ va' → va / 0x1000 = va' / 0x1000 →
  in_block base va' n = in_block (in_block base va n) va' 0x1000.
Proof.
  intros [q ->] Hq Hv Hv' Hp. assert (0 < q) by lia. unfold in_block.
  assert (∀ x, 0 ≤ x → x mod (q * 0x1000) = 0x1000 * (x / 0x1000 mod q) + x mod 0x1000) as E.
  { intros x Hx. rewrite (Z.mul_comm q), Z.rem_mul_r by lia. lia. }
  rewrite !E, Hp by done.
  replace (base / (q * 4096) * (q * 4096) + (4096 * (va' / 4096 mod q) + va mod 4096))
    with ((base / (q * 4096) * q + va' / 4096 mod q) * 4096 + va mod 4096) by ring.
  rewrite Z.div_add_l, (Z.div_small (va mod 4096))
    by (try apply Z.mod_pos_bound; lia). ring.
Qed.

Lemma in_block_self va n : 0 < n → in_block va va n = va.
Proof. intros. unfold in_block. pose proof (Z.div_mod va n). lia. Qed.

Lemma in_block_same base va n : 0 < n → in_block (in_block base va n) va n = in_block base va n.
Proof.
  intros. unfold in_block. rewrite Z.div_add_l, (Z.div_small (va mod n))
    by (try apply Z.mod_pos_bound; lia). lia.
Qed.

Lemma div_coarser va va' q : 0 < q → va / 0x1000 = va' / 0x1000 → va / (0x1000 * q) = va' / (0x1000 * q).
Proof. intros Hq H. by rewrite <- !Z.div_div, H by lia. Qed.

Section coherent.
Context {D : Type} `{!IoDev D}.
Implicit Types m : Mem D.

(** * Pages *)

Definition walked_ap (w : option walked) : Z :=
  match w with Some (WalkPage _ _ ap _) => ap | _ => 0 end.

(** The caches hold one set of permissions for a page of 4 KB. A small page
    has four, one for each kilobyte; here they are the same. *)
Definition uniform m : Prop :=
  ∀ va va', w32 va → w32 va' → va / 0x1000 = va' / 0x1000 →
    walked_ap (walk m va') = walked_ap (walk m va).

Lemma walk_same_page m va va' :
  w32 va → w32 va' → va / 0x1000 = va' / 0x1000 →
  match walk m va with
  | Some (WalkPage phys d _ s) =>
      ∃ ap', walk m va' = Some (WalkPage (in_block phys va' 0x1000) d ap' s)
  | r => walk m va' = r
  end.
Proof.
  intros Hv Hv' Hp. unfold walk, level1. destruct (_ =? 0); [done|].
  pose proof (div_coarser va va' 0x100 ltac:(lia) Hp) as E. change (0x1000 * 0x100) with 0x100000 in E.
  rewrite <- E.
  unfold w32 in Hv, Hv'. set (fld := word_at _ _ _).
  destruct (fld mod 4 =? 0); [done|]. destruct (fld mod 4 =? 1).
  - rewrite <- Hp. destruct (phys_word m _) as [sld|]; cbn; [|done].
    destruct (sld mod 4 =? 1); [|destruct (sld mod 4 =? 2); [|done]]; eexists.
    + rewrite (in_block_page sld va va' 0x10000); [done | by exists 16 | lia..].
    + rewrite (in_block_page sld va va' 0x1000); [done | by exists 1 | lia..].
  - destruct (fld mod 4 =? 2); [|done]. eexists.
    rewrite (in_block_page fld va va' 0x100000); [done | by exists 256 | lia..].
Qed.

Lemma access_same_page m priv rw va va' phys perm :
  uniform m → w32 va → w32 va' → va / 0x1000 = va' / 0x1000 →
  mmu_access m priv rw va = Some (inl (phys, perm)) →
  mmu_access m priv rw va' = Some (inl (in_block phys va' 0x1000, perm)).
Proof.
  intros Hu Hv Hv' Hp. unfold mmu_access.
  pose proof (walk_same_page m va va' Hv Hv' Hp) as Hw. pose proof (Hu va va' Hv Hv' Hp) as Ha.
  destruct (walk m va) as [[d c|x d ap s]|]; cbn; [done| |done].
  destruct Hw as [ap' Hw]. rewrite Hw in Ha |- *. cbn in Ha |- *. subst ap'.
  destruct (_ || _); [done|]. destruct (_ && _); [done|]. by intros [= <- <-].
Qed.

(** The permission bits of an entry are those of the walk, for every access. *)
Lemma access_perm m priv rw va phys perm :
  mmu_access m priv rw va = Some (inl (phys, perm)) →
  ∀ p w, Z.testbit perm (perm_bit p w) = true ↔ mmu_access m p w va = Some (inl (phys, perm)).
Proof.
  unfold mmu_access. destruct (walk m va) as [[d c|x d ap s]|]; [done| |done].
  cbn [option_bind mbind option_map]. set (da := field _ _ _) in *. intros H p w. revert H. cbn.
  destruct ((da =? 0) || (da =? 2)) eqn:E02; [done|].
  destruct ((da =? 1) && _); [done|]. intros [= <- <-]. rewrite perm_mask_bit.
  destruct (Z.eqb_spec da 1) as [E1|E1]; cbn [andb].
  - rewrite E1. change (1 =? 3) with false. cbn [orb].
    destruct (cp15_check_permissions _ ap p w); by split.
  - assert (cp15_check_permissions (ctrl (cp15 m)) 3 p w = false) as -> by done.
    rewrite orb_true_r. by split.
Qed.

(** * What an access may do *)

(** The access is allowed and goes to [phys]. *)
Definition permitted m (priv rw : bool) (va phys : Z) : Prop :=
  if nz (mmu (cp15 m)) then ∃ perm, mmu_access m priv rw va = Some (inl (phys, perm))
  else phys = va.

Lemma permitted_phys m p w p' w' va x y :
  permitted m p w va x → permitted m p' w' va y → x = y.
Proof.
  unfold permitted. destruct (nz _); [|by intros -> ->]. intros [px H] [py H']. revert H H'. unfold mmu_access.
  destruct (walk m va) as [[d c|ph d ap s]|]; cbn; [by intros | | by intros].
  destruct (_ || _); [by intros|]. by repeat case_match; intros; simplify_eq.
Qed.

Lemma permitted_same_page m priv rw va va' phys :
  uniform m → w32 va → w32 va' → va / 0x1000 = va' / 0x1000 →
  permitted m priv rw va phys → permitted m priv rw va' (in_block phys va' 0x1000).
Proof.
  intros Hu Hv Hv' Hp. unfold permitted. destruct (nz _).
  - intros [perm H]. exists perm. by apply (access_same_page m priv rw va va').
  - intros ->. unfold in_block. rewrite Hp. pose proof (Z.div_mod va' 0x1000). lia.
Qed.

(** * The invariant *)

Definition priv_index (priv : bool) : Z := if priv then 1 else 0.
Definition tlb_valid (t : TLB) (page : Z) : bool := tlbcache t !!! page mod 0x1000 =? 0.
Definition tlb_allows (t : TLB) (page : Z) (priv rw : bool) : bool :=
  Z.testbit (tlbperm t !!! page) (perm_bit priv rw).
Definition fast_entry (f : FastMap) (priv : bool) (page : Z) : Z :=
  vaddrl f !!! page_of (priv_index priv) page.

(** The rings of pages know every page cached: each valid page of the TLB is in
    a slot of [tlbcache2], and each pointer of a fast map in a slot of its
    ring, with a physical address that satisfies [R]. *)
Record tlb_ring (t : TLB) : Prop := {
  tr_pos : 0 ≤ tlbcachepos t < TLBCACHESIZE;
  tr_cover page : 0 ≤ page < 0x100000 → tlb_valid t page = true →
    ∃ c, 0 ≤ c < TLBCACHESIZE ∧ tlbcache2 t !!! c = page
}.
Record fast_ring (R : bool → Z → Z → Prop) (f : FastMap) : Prop := {
  fr_pos priv : 0 ≤ vaddrlpos f !!! priv_index priv < VADDR_RING_SIZE;
  fr_cover priv page : 0 ≤ page < 0x100000 → fast_entry f priv page ≠ 0xffffffff →
    ∃ c, 0 ≤ c < VADDR_RING_SIZE ∧ vaddrls f !!! slot_of (priv_index priv) c = page ∧
         R priv page (vaddrphys f !!! slot_of (priv_index priv) c)
}.

(** The physical addresses in the rings say the 16 MB region of the page. *)
Definition region (x : Z) : Z := x .& 0x1f000000.
Definition noted m (rw priv : bool) (page ph : Z) : Prop := ∀ va phys,
  w32 va → va / 0x1000 = page → permitted m priv rw va phys → region ph = region phys.

(** A TLB entry allows what the tables allow, at the address they give. *)
Definition tlb_ok m : Prop := ∀ va priv rw,
  w32 va → nz (mmu (cp15 m)) = true →
  tlb_valid (tlb m) (va / 0x1000) = true → tlb_allows (tlb m) (va / 0x1000) priv rw = true →
  permitted m priv rw va (in_block (tlbcache (tlb m) !!! (va / 0x1000)) va 0x1000).

(** A host pointer [v] for the page of [va] leads where the tables do. *)
Definition ptr_ok m (priv rw : bool) (va v : Z) : Prop :=
  ∃ phys p, permitted m priv rw va phys ∧ phys_at rw (board m) phys = Some p ∧ u64 (va + v) = p.

Record coherent m : Prop := {
  ch_tlb : tlb_ok m;
  ch_read va priv : w32 va → fast_entry (rmap m) priv (va / 0x1000) mod 2 = 0 →
    ptr_ok m priv false va (fast_entry (rmap m) priv (va / 0x1000));
  ch_write va priv : w32 va → fast_entry (wmap m) priv (va / 0x1000) mod 4 = 0 →
    ptr_ok m priv true va (fast_entry (wmap m) priv (va / 0x1000));
  ch_page va priv k : w32 va → nz (mmu (cp15 m)) = true → cache_of k (pages m) = va / 0x1000 →
    memcache_memmode (pages m) = priv_index priv →
    permitted m priv (is_write k) va (in_block (cache2_of k (pages m)) va 0x1000) ∧
    cache2_of k (pages m) mod 0x1000 = 0;
  ch_perm va k : w32 va → nz (mmu (cp15 m)) = true → cache_of k (pages m) = va / 0x1000 →
    tlb_valid (tlb m) (va / 0x1000) = false → tlbperm (tlb m) !!! (va / 0x1000) = 0;
  ch_tlb_ring : tlb_ring (tlb m);
  ch_read_ring : fast_ring (noted m false) (rmap m);
  ch_write_ring : fast_ring (noted m true) (wmap m)
}.

(** What the invariant depends on besides the caches. *)
Record same_view m m' : Prop := {
  sv_board : board m' = board m;
  sv_mmu : mmu (cp15 m') = mmu (cp15 m);
  sv_access p w va : w32 va → mmu_access m' p w va = mmu_access m p w va
}.

Lemma same_view_refl m : same_view m m.
Proof. done. Qed.

Lemma same_view_trans m1 m2 m3 : same_view m1 m2 → same_view m2 m3 → same_view m1 m3.
Proof.
  intros [B M A] [B' M' A']. split; [congruence | congruence |]. intros p w va Hv.
  by rewrite A', A.
Qed.

(** The tables are the same if memory is, and the registers the walk reads. *)
Lemma same_view_registers m m' :
  board m' = board m → host m' = host m →
  ctrl (cp15 m') = ctrl (cp15 m) → translation_table (cp15 m') = translation_table (cp15 m) →
  domain_access_control (cp15 m') = domain_access_control (cp15 m) →
  mmu (cp15 m') = mmu (cp15 m) →
  tlbram (cp15 m') = tlbram (cp15 m) → tlbrammask (cp15 m') = tlbrammask (cp15 m) →
  same_view m m'.
Proof.
  intros Hb Hh H1 H2 H3 H4 H5 H6. split; [done|done|]. intros p w va _.
  unfold mmu_access, walk, level1, phys_word, word_at. by rewrite Hb, Hh, H1, H2, H3, H5, H6.
Qed.

Lemma permitted_view m m' p w va phys :
  same_view m m' → w32 va → permitted m p w va phys → permitted m' p w va phys.
Proof.
  intros [B M A] Hv. unfold permitted. rewrite M. destruct (nz _); [|done]. by rewrite A.
Qed.

Lemma uniform_view m m' :
  board m' = board m → host m' = host m →
  translation_table (cp15 m') = translation_table (cp15 m) →
  tlbram (cp15 m') = tlbram (cp15 m) → tlbrammask (cp15 m') = tlbrammask (cp15 m) →
  uniform m → uniform m'.
Proof.
  intros Hb Hh H1 H2 H3 Hu va va' Hv Hv' Hp. pose proof (Hu va va' Hv Hv' Hp) as H. revert H.
  unfold walk, level1, phys_word, word_at. by rewrite Hb, Hh, H1, H2, H3.
Qed.

Lemma ptr_ok_view m m' p w va v : same_view m m' → w32 va → ptr_ok m p w va v → ptr_ok m' p w va v.
Proof.
  intros Hs Hv (phys & x & Hp & Hx & Hu). exists phys, x. rewrite (sv_board _ _ Hs).
  split_and!; [by eapply permitted_view | done | done].
Qed.

Lemma tlb_ok_view m m' : same_view m m' → tlb m' = tlb m → tlb_ok m → tlb_ok m'.
Proof.
  intros Hs Ht H va p w Hv. rewrite (sv_mmu _ _ Hs), Ht. intros. apply (permitted_view m); [done|done|]. by apply H.
Qed.

Lemma same_view_sym m m' : same_view m m' → same_view m' m.
Proof. intros [B M A]. split; [done | done |]. intros p w va Hv. by rewrite A. Qed.

Lemma fast_ring_impl (R R' : bool → Z → Z → Prop) f :
  (∀ priv page ph, R priv page ph → R' priv page ph) → fast_ring R f → fast_ring R' f.
Proof.
  intros HR [Hp Hc]. split; [done|]. intros priv page Hpg He.
  destruct (Hc priv page Hpg He) as (c & ? & ? & ?). exists c. split_and!; [lia | lia | done | by apply HR].
Qed.

Lemma fast_ring_view m m' rw f :
  same_view m m' → fast_ring (noted m rw) f → fast_ring (noted m' rw) f.
Proof.
  intros Hs. apply fast_ring_impl. intros priv page ph H va phys Hv Hpg Hp.
  apply (H va phys Hv Hpg). by apply (permitted_view m'); [apply same_view_sym | |].
Qed.

Lemma coherent_view m m' :
  same_view m m' → tlb m' = tlb m → rmap m' = rmap m → wmap m' = wmap m → pages m' = pages m →
  coherent m → coherent m'.
Proof.
  intros Hs Ht Hr Hw Hp [H1 H2 H3 H4 H5 H6 H7 H8].
  split; [by eapply tlb_ok_view | .. | by rewrite Ht | rewrite Hr; by apply (fast_ring_view m)
    | rewrite Hw; by apply (fast_ring_view m)]; intros va; rewrite ?Ht, ?Hr, ?Hw, ?Hp, ?(sv_mmu _ _ Hs).
  - intros. apply (ptr_ok_view m); [done|done|]. by apply H2.
  - intros. apply (ptr_ok_view m); [done|done|]. by apply H3.
  - intros priv k Hv Hon Hc Hm. destruct (H4 va priv k Hv Hon Hc Hm). split; [|done]. by apply (permitted_view m).
  - apply H5.
Qed.

(** Single-entry caches may be dropped. *)
Lemma coherent_forget m p :
  (∀ k, cache_of k p = 0xffffffff ∨
     (cache_of k p = cache_of k (pages m) ∧ cache2_of k p = cache2_of k (pages m) ∧
      memcache_memmode p = memcache_memmode (pages m))) →
  coherent m → coherent (set_pages p m).
Proof.
  intros Hk [H1 H2 H3 H4 H5 H6 H7 H8].
  split; [exact H1 | exact H2 | exact H3 | | | exact H6 | exact H7 | exact H8]; cbn [pages set_pages].
  - intros va priv k Hv Hon Hc Hm. destruct (Hk k) as [E|(E & -> & E')]; [rewrite E in Hc|].
    + pose proof (page_range va Hv). lia.
    + apply (H4 va priv k); [done|done|congruence|congruence].
  - intros va k Hv Hon Hc. destruct (Hk k) as [E|(E & _)]; [rewrite E in Hc|].
    + pose proof (page_range va Hv). lia.
    + apply (H5 va k); [done|done|congruence].
Qed.
End coherent.
