(* ===== verification/MemTlb.v ===== *)
(** What the operations on the TLB and the fast maps do to their entries, and
    that translation through the TLB is the walk. *)

From S2P Require Export MemCoherent.

(** * The fast maps *)

Lemma page_of_inj p p' x y :
  0 ≤ x < 0x100000 → 0 ≤ y < 0x100000 →
  page_of (priv_index p) x = page_of (priv_index p') y → p = p' ∧ x = y.
Proof. unfold page_of. destruct p, p'; cbn; intros; split; (done || lia). Qed.

Definition level_bit (user_bit priv_bit : Z) (priv : bool) : Z := if priv then priv_bit else user_bit.

Lemma vadd_level_cases v a p perm ub pb f m priv page :
  0 ≤ page < 0x100000 → 0 ≤ a .>> 12 < 0x100000 →
  let f' := vadd_level v a p perm ub pb f (priv_index m) in
  fast_entry f' priv page = fast_entry f priv page ∨ fast_entry f' priv page = 0xffffffff ∨
  (page = a .>> 12 ∧ priv = m ∧ fast_entry f' priv page = v ∧ nz (perm .& level_bit ub pb m) = true).
Proof.
  intros Hpg Ha. unfold vadd_level, fast_entry, level_bit.
  assert ((if nz (priv_index m) then pb else ub) = if m then pb else ub) as -> by by destruct m.
  destruct (nz (perm .& _)) eqn:E; cbn [negb]; [|by left]. cbn [vaddrl].
  rewrite carray_get_set. case_decide as Hd.
  - apply page_of_inj in Hd; [|done|done]. destruct Hd as [-> ->]. right. right. by split_and!.
  - destruct (_ =? 0xffffffff); [by left|]. rewrite carray_get_set. case_decide; [right; by left | by left].
Qed.

(** Every entry of the new map is an old one, none, or the new page's. *)
Lemma vadd_cases v a p perm ub pb f priv page :
  0 ≤ page < 0x100000 → 0 ≤ a .>> 12 < 0x100000 →
  let f' := vadd v a p perm ub pb f in
  fast_entry f' priv page = fast_entry f priv page ∨ fast_entry f' priv page = 0xffffffff ∨
  (page = a .>> 12 ∧ fast_entry f' priv page = v ∧ nz (perm .& level_bit ub pb priv) = true).
Proof.
  intros Hpg Ha. unfold vadd. cbn [foldl].
  set (f1 := vadd_level v a p perm ub pb f 0).
  pose proof (vadd_level_cases v a p perm ub pb f false priv page Hpg Ha) as H0.
  pose proof (vadd_level_cases v a p perm ub pb f1 true priv page Hpg Ha) as H1.
  cbn [priv_index] in H0, H1. fold f1 in H0. cbv zeta in H0, H1.
  destruct H1 as [-> | [-> | (-> & -> & -> & ?)]]; [|by right; left | by right; right].
  destruct H0 as [-> | [-> | (-> & -> & -> & ?)]]; [by left | by right; left | by right; right].
Qed.

(** The rings stay complete. *)
Lemma ring_index x k : 0 ≤ k → 0 ≤ x .& Z.ones k < 2 ^ k.
Proof. intros Hk. rewrite Z.land_ones by done. apply Z.mod_pos_bound. by apply Z.pow_pos_nonneg. Qed.

Lemma slot_of_inj p p' c c' :
  0 ≤ c < VADDR_RING_SIZE → 0 ≤ c' < VADDR_RING_SIZE →
  slot_of (priv_index p) c = slot_of (priv_index p') c' → p = p' ∧ c = c'.
Proof. unfold slot_of, VADDR_RING_SIZE. destruct p, p'; cbn; intros; split; (done || lia). Qed.

Lemma vadd_level_ring R v a p perm ub pb f m :
  0 ≤ a .>> 12 < 0x100000 → (∀ priv, R priv (a .>> 12) p) → fast_ring R f →
  fast_ring R (vadd_level v a p perm ub pb f (priv_index m)).
Proof.
  intros Ha HR [Hpos Hcov]. unfold vadd_level.
  destruct (negb _); [done|]. split; cbn [vaddrl vaddrls vaddrphys vaddrlpos].
  - intros priv. destruct (decide (priv = m)) as [->|Hne].
    + rewrite lookup_total_insert_eq. exact (ring_index _ 14 ltac:(lia)).
    + rewrite lookup_total_insert_ne by by destruct priv, m. apply Hpos.
  - intros priv page Hpg. unfold fast_entry. cbn [vaddrl vaddrls vaddrphys]. rewrite carray_get_set.
    case_decide as Hd.
    + apply page_of_inj in Hd; [|done|done]. destruct Hd as [<- <-]. intros _. exists (vaddrlpos f !!! priv_index m).
      split_and!; [apply Hpos | apply Hpos | by rewrite carray_same | rewrite carray_same; apply HR].
    + intros He.
      assert (vaddrl f !!! page_of (priv_index priv) page ≠ 0xffffffff ∧
              page_of (priv_index m) (vaddrls f !!! slot_of (priv_index m) (vaddrlpos f !!! priv_index m))
                ≠ page_of (priv_index priv) page ∨ vaddrl f !!! page_of (priv_index priv) page ≠ 0xffffffff ∧
              vaddrls f !!! slot_of (priv_index m) (vaddrlpos f !!! priv_index m) = 0xffffffff) as Hold.
      { destruct (Z.eqb_spec (vaddrls f !!! slot_of (priv_index m) (vaddrlpos f !!! priv_index m)) 0xffffffff) as [E|E];
          [by right|]. left. rewrite carray_get_set in He. by case_decide. }
      assert (fast_entry f priv page ≠ 0xffffffff) as He' by by destruct Hold as [[? _]|[? _]].
      destruct (Hcov priv page Hpg He') as (c & Hc & Hs & Hr). exists c.
      assert (slot_of (priv_index m) (vaddrlpos f !!! priv_index m) ≠ slot_of (priv_index priv) c) as Hns.
      { intros E. destruct Hold as [[_ Hn]|[_ Hn]].
        - rewrite E, Hs in Hn. apply slot_of_inj in E as [-> _]; [done | apply Hpos | done].
        - rewrite E, Hs in Hn. lia. }
      by rewrite !carray_other.
Qed.

Lemma vadd_ring R v a p perm ub pb f :
  0 ≤ a .>> 12 < 0x100000 → (∀ priv, R priv (a .>> 12) p) → fast_ring R f →
  fast_ring R (vadd v a p perm ub pb f).
Proof.
  intros Ha HR Hf. unfold vadd. cbn [foldl].
  apply (vadd_level_ring R v a p perm ub pb _ true); [done|done|].
  by apply (vadd_level_ring R v a p perm ub pb _ false).
Qed.

(** Entries may be dropped. *)
Lemma fast_ring_drop R i f :
  fast_ring R f → fast_ring R (set_vaddrl (<[i := 0xffffffff]> (vaddrl f)) f).
Proof.
  intros [Hpos Hcov]. split; [exact Hpos|]. intros priv page Hpg. unfold fast_entry.
  cbn [vaddrl set_vaddrl]. rewrite carray_get_set. case_decide; [done|]. by apply Hcov.
Qed.

(** * The TLB *)

Lemma add_entry_ring va phys perm t :
  0 ≤ va .>> 12 < 0x100000 → tlb_ring t → tlb_ring (cp15_tlb_add_entry va phys perm t).
Proof.
  intros Hva [Hpos Hcov]. set (pos := tlbcachepos t) in *.
  assert (tlbcache2 (cp15_tlb_add_entry va phys perm t) = <[pos := va .>> 12]> (tlbcache2 t)) as E2
    by (unfold cp15_tlb_add_entry, tlb_set; by destruct (_ =? _)).
  assert (tlbcachepos (cp15_tlb_add_entry va phys perm t) = (pos + 1) .& (TLBCACHESIZE - 1)) as Ep
    by (unfold cp15_tlb_add_entry, tlb_set; by destruct (_ =? _)).
  split; [rewrite Ep; exact (ring_index _ 8 ltac:(lia))|]. intros page Hpg Hv. rewrite E2.
  destruct (Z.eq_dec page (va .>> 12)) as [->|Hne]; [exists pos; by rewrite carray_same|].
  revert Hv. unfold tlb_valid, cp15_tlb_add_entry, tlb_set. cbn. fold pos.
  rewrite carray_other by done. intros Hv.
  assert (tlb_valid t page = true ∧ tlbcache2 t !!! pos ≠ page) as [Hv' Hne'].
  { destruct (Z.eqb_spec (tlbcache2 t !!! pos) 0xffffffff) as [E|E]; [split; [done | lia]|]. cbn in Hv.
    rewrite carray_get_set in Hv. case_decide as Hd; [done|]. by split. }
  destruct (Hcov page Hpg Hv') as (c & Hc & <-). exists c. split; [done|].
  rewrite carray_other; [done|]. intros ->. done.
Qed.

Lemma add_entry_same va phys perm t :
  tlbcache (cp15_tlb_add_entry va phys perm t) !!! (va .>> 12) = phys .& 0xfffff000 ∧
  tlbperm (cp15_tlb_add_entry va phys perm t) !!! (va .>> 12) = perm.
Proof. unfold cp15_tlb_add_entry, tlb_set. cbn. by rewrite !carray_same. Qed.

Lemma add_entry_other va phys perm t page :
  page ≠ va .>> 12 →
  let t' := cp15_tlb_add_entry va phys perm t in
  (tlbcache t' !!! page = tlbcache t !!! page ∧ tlbperm t' !!! page = tlbperm t !!! page) ∨
  (tlbcache t' !!! page = 0xffffffff ∧ tlbperm t' !!! page = 0).
Proof.
  intros Hne. unfold cp15_tlb_add_entry, tlb_set. cbn.
  rewrite !(carray_other _ (va .>> 12)) by done.
  destruct (_ =? 0xffffffff); cbn; [by left|]. rewrite !carray_get_set.
  case_decide; [by right | by left].
Qed.

Lemma perm_bit_range p w : 0 ≤ perm_bit p w < 4.
Proof. by destruct p, w. Qed.

Lemma tlb_test_valid x : negb (nz (x .& 0xfff)) = (x mod 0x1000 =? 0).
Proof. unfold nz. by rewrite negb_involutive, offset_of_va. Qed.

Lemma tlb_test_allows x p w : nz (x .& Z.shiftl 1 (perm_bit p w)) = Z.testbit x (perm_bit p w).
Proof. rewrite Z.shiftl_1_l. apply nz_mask_bit, perm_bit_range. Qed.

Lemma page_mask x : w32 x → x .& 0xfffff000 = x / 0x1000 * 0x1000.
Proof.
  intros Hx. pose proof (block_lor x 0 12 Hx ltac:(lia)) as H. rewrite Z.land_0_l, Z.lor_0_r in H.
  change (0xffffffff .&~ Z.ones 12) with 0xfffff000 in H. rewrite H. unfold in_block.
  change (2 ^ 12) with 0x1000. rewrite Z.mod_0_l by done. lia.
Qed.

Lemma in_block_mask x va : w32 x → in_block (x .& 0xfffff000) va 0x1000 = in_block x va 0x1000.
Proof. intros Hx. rewrite page_mask by done. unfold in_block. by rewrite Z.div_mul. Qed.

Lemma in_block_w32 base va n k : n * k = 0x100000000 → 0 < n → w32 base → w32 (in_block base va n).
Proof.
  intros Hk Hn [H0 H1]. unfold in_block, w32.
  pose proof (Z.mod_pos_bound va n Hn). pose proof (Z.div_pos base n H0 Hn).
  assert (base / n < k) by (apply Z.div_lt_upper_bound; lia). nia.
Qed.

Section tlb.
Context {D : Type} `{!IoDev D}.
Implicit Types m : Mem D.

Lemma phys_word_w32 m a x : phys_word m a = Some x → w32 x.
Proof. unfold phys_word. destruct (phys_at _ _ _); cbn; [|done]. intros [= <-]. apply get32_w32. Qed.

Lemma walk_w32 m va phys d ap s : walk m va = Some (WalkPage phys d ap s) → w32 phys.
Proof.
  unfold walk. destruct (_ =? 0); [done|]. assert (w32 (level1 m va)) as Hf by apply get32_w32.
  destruct (level1 m va mod 4 =? 0); [done|]. destruct (level1 m va mod 4 =? 1).
  - destruct (phys_word m _) as [sld|] eqn:E; cbn; [|done]. apply phys_word_w32 in E.
    destruct (sld mod 4 =? 1); [|destruct (sld mod 4 =? 2); [|done]]; intros [= <- _ _ _].
    + by apply (in_block_w32 _ _ _ 0x10000).
    + by apply (in_block_w32 _ _ _ 0x100000).
  - destruct (_ =? 2); [|done]. intros [= <- _ _ _]. by apply (in_block_w32 _ _ _ 0x1000).
Qed.

Lemma access_w32 m p w va phys perm : mmu_access m p w va = Some (inl (phys, perm)) → w32 phys.
Proof.
  unfold mmu_access. destruct (walk m va) as [[|x d ap s]|] eqn:E; cbn; [done| |done].
  destruct (_ || _); [done|]. destruct (_ && _); [done|]. intros [= <- _]. by eapply walk_w32.
Qed.

Lemma permitted_w32 m p w va phys : w32 va → permitted m p w va phys → w32 phys.
Proof.
  intros Hv. unfold permitted. destruct (nz _); [|by intros ->]. intros [perm H]. by eapply access_w32.
Qed.

Lemma access_in_page m p w va phys perm :
  uniform m → w32 va → mmu_access m p w va = Some (inl (phys, perm)) → in_block phys va 0x1000 = phys.
Proof.
  intros Hu Hv H. pose proof (access_same_page m p w va va phys perm Hu Hv Hv eq_refl H) as H'. congruence.
Qed.

(** A walk that succeeded goes into the TLB. *)
Lemma tlb_ok_add m priv rw va phys perm :
  tlb_ok m → uniform m → w32 va → mmu_access m priv rw va = Some (inl (phys, perm)) →
  tlb_ok (upd_tlb (cp15_tlb_add_entry va phys perm) m).
Proof.
  intros H1 Hu Hv Ha va' p w Hv' Hon. pose proof (access_w32 _ _ _ _ _ _ Ha) as Hw.
  intros Hvalid Hallow. apply (permitted_view m); [done|done|]. revert Hvalid Hallow.
  cbn [tlb upd_tlb set_tlb]. unfold tlb_valid, tlb_allows.
  destruct (Z.eq_dec (va' / 0x1000) (va / 0x1000)) as [E|E].
  - rewrite E, <- (page_of_va va). destruct (add_entry_same va phys perm (tlb m)) as [-> ->].
    intros _ Hb. rewrite in_block_mask by done. unfold permitted. cbn in Hon. rewrite Hon. exists perm.
    apply (access_same_page m p w va va'); [done..|]. by apply (access_perm m priv rw).
  - rewrite <- (page_of_va va) in E.
    destruct (add_entry_other va phys perm (tlb m) _ E) as [[-> ->]|[-> ->]]; [|by intros].
    intros ? ?. by apply H1.
Qed.

(** What a translation of page [page0] does to the TLB. *)
Definition tlb_step (t t' : TLB) (page0 : Z) : Prop :=
  (tlb_ring t → tlb_ring t') ∧
  tlb_valid t' page0 = true ∧
  ∀ page, page ≠ page0 →
    (tlbcache t' !!! page = tlbcache t !!! page ∧ tlbperm t' !!! page = tlbperm t !!! page) ∨
    tlbperm t' !!! page = 0.

(** * Translation through the TLB *)

Lemma translateaddress_allowed m va rw prefetch e phys :
  tlb_ok m → uniform m → cp15_ok (cp15 m) → w32 va → nz (mmu (cp15 m)) = true →
  permitted m (nz (memmode m)) rw va phys →
  ∃ t, translateaddress va rw prefetch (e, m) = Some (phys, (e, set_tlb t m)) ∧
       tlb_ok (set_tlb t m) ∧ tlb_step (tlb m) t (va / 0x1000).
Proof.
  intros Hc Hu Hok Hv Hon Hp. unfold translateaddress, ask, gets, mbind, M_bind. cbv beta iota. cbn [snd].
  rewrite tlb_test_valid, tlb_test_allows, page_of_va.
  fold (tlb_valid (tlb m) (va / 0x1000)). fold (tlb_allows (tlb m) (va / 0x1000) (nz (memmode m)) rw).
  destruct (tlb_valid _ _ && _) eqn:E.
  - apply andb_true_iff in E as [E1 E2]. pose proof (Hc va _ rw Hv Hon E1 E2) as Hp'.
    rewrite (permitted_phys _ _ _ _ _ _ _ _ Hp Hp'). exists (tlb m).
    assert (set_tlb (tlb m) m = m) as -> by by destruct m. split_and!; [|done|split_and!; [done | done | by left]].
    unfold mret, M_ret. do 2 f_equal. rewrite offset_of_va. unfold in_block.
    unfold tlb_valid in E1. apply Z.eqb_eq in E1.
    rewrite (lor_add_high _ _ 12) by (done || by apply Z.mod_pos_bound). f_equal.
    pose proof (Z.div_mod (tlbcache (tlb m) !!! (va / 0x1000)) 0x1000). lia.
  - unfold permitted in Hp. rewrite Hon in Hp. destruct Hp as [perm Hp].
    exists (cp15_tlb_add_entry va phys perm (tlb m)). split_and!.
    + by rewrite (translateaddress2_access m va rw prefetch e (inl (phys, perm))).
    + by eapply tlb_ok_add.
    + unfold tlb_step. rewrite <- page_of_va. split_and!.
      * apply add_entry_ring. rewrite page_of_va. by apply page_range.
      * unfold tlb_valid. destruct (add_entry_same va phys perm (tlb m)) as [-> _].
        apply Z.eqb_eq. rewrite page_mask by by eapply access_w32. by apply Z.mod_mul.
      * intros page Hne. destruct (add_entry_other va phys perm (tlb m) page Hne) as [?|[_ ?]];
          [by left | by right].
Qed.

Lemma translateaddress_fault m va rw prefetch e d code :
  tlb_ok m → cp15_ok (cp15 m) → w32 va → nz (mmu (cp15 m)) = true →
  mmu_access m (nz (memmode m)) rw va = Some (inr (d, code)) →
  translateaddress va rw prefetch (e, m) = Some (0, (e .| 0x40, with_fault va d code prefetch m)).
Proof.
  intros Hc Hok Hv Hon Hp. unfold translateaddress, ask, gets, mbind, M_bind. cbv beta iota. cbn [snd].
  rewrite tlb_test_valid, tlb_test_allows, page_of_va.
  fold (tlb_valid (tlb m) (va / 0x1000)). fold (tlb_allows (tlb m) (va / 0x1000) (nz (memmode m)) rw).
  destruct (tlb_valid _ _ && _) eqn:E.
  - apply andb_true_iff in E as [E1 E2]. pose proof (Hc va _ rw Hv Hon E1 E2) as Hp'.
    unfold permitted in Hp'. rewrite Hon in Hp'. destruct Hp' as [perm Hp']. congruence.
  - by rewrite (translateaddress2_access m va rw prefetch e (inr (d, code))).
Qed.
End tlb.
