(* ===== verification/MemRefine.v ===== *)
(** The slow and the fast accesses implement the reference: whatever the three
    levels of caches hold, a read, a write or a fault is the one the tables
    give. *)

From S2P Require Export MemTlb.

(** * Host pointers *)

Lemma u64_add_u64 x y : u64 (x + u64 y) = u64 (x + y).
Proof. unfold u64. by rewrite Zplus_mod_idemp_r. Qed.

Lemma u64_small x : 0 ≤ x < 0x10000000000000000 → u64 x = x.
Proof. apply Z.mod_small. Qed.

Lemma page_bias va : va .&~ 0xfff = va - va mod 0x1000.
Proof.
  change 0xfff with (Z.ones 12). rewrite Z.ldiff_ones_r, Z.shiftl_mul_pow2, Z.shiftr_div_pow2 by done.
  change (2 ^ 12) with 0x1000. pose proof (Z.div_mod va 0x1000). lia.
Qed.

Lemma mod_page_4 x : x mod 0x1000 = 0 → x mod 4 = 0.
Proof.
  intros H. assert ((x mod 0x1000) mod 4 = x mod 4) as E by (apply Z.mod_mod_divide; by exists 0x400).
  by rewrite <- E, H.
Qed.

(** The pointer, with the address added back. *)
Lemma biased_ptr_at base off va :
  0 ≤ base < 2 ^ 48 → 0 ≤ off < 0x100000000 → off mod 4 = 0 → w32 va →
  u64 (va + biased_ptr base off va) = base + off + va mod 0x1000.
Proof.
  intros Hb Ho H4 Hv. unfold biased_ptr. rewrite page_bias. set (x := off - (va - va mod 0x1000)).
  assert (x mod 4 = 0) as Hx.
  { unfold x. rewrite Zminus_mod, H4.
    rewrite (mod_page_4 (va - va mod 0x1000)); [done|].
    rewrite Zminus_mod, Zmod_mod, Z.sub_diag. done. }
  rewrite land_shiftr_2.
  2: { unfold u64. by rewrite Z.mod_mod_divide by (exists 0x4000000000000000; done). }
  rewrite u64_add_u64. replace (va + (base + u64 x)) with (va + base + u64 x) by ring.
  rewrite u64_add_u64. unfold x, w32 in *. pose proof (Z.mod_pos_bound va 0x1000 ltac:(lia)).
  rewrite u64_small by lia. lia.
Qed.

(** Masks of whole pages. *)
Definition page_mask_ok (mask : Z) : Prop := ∃ k, 12 ≤ k ≤ 32 ∧ mask = Z.ones k.

Lemma mask_page mask phys : page_mask_ok mask →
  phys .& mask = (phys / 0x1000 * 0x1000 .& mask) + phys mod 0x1000.
Proof.
  intros (k & Hk & ->). rewrite !Z.land_ones by lia.
  replace (2 ^ k) with (0x1000 * 2 ^ (k - 12)).
  2: { change 0x1000 with (2 ^ 12). rewrite <- Z.pow_add_r by lia. f_equal. lia. }
  assert (0 < 2 ^ (k - 12)) by (apply Z.pow_pos_nonneg; lia).
  rewrite !Z.rem_mul_r, Z.div_mul, Z.mod_mul by lia. lia.
Qed.

Lemma mask_range mask x : page_mask_ok mask → 0 ≤ x .& mask < 0x100000000.
Proof.
  intros (k & Hk & ->). rewrite Z.land_ones by lia.
  assert (0 < 2 ^ k) by (apply Z.pow_pos_nonneg; lia). pose proof (Z.mod_pos_bound x (2 ^ k) ltac:(done)).
  assert (2 ^ k ≤ 2 ^ 32) by (apply Z.pow_le_mono_r; lia). change (2 ^ 32) with 0x100000000 in *. lia.
Qed.

Lemma mask_page_aligned mask page : page_mask_ok mask → page mod 0x1000 = 0 → (page .& mask) mod 4 = 0.
Proof. intros _ H. by apply land_aligned, mod_page_4. Qed.

(** The chunk does not depend on the offset, nor on the address bits the
    machine does not decode. *)
Lemma chunk_page phys b :
  board_ok b → w32 phys → chunk (phys / 0x1000 * 0x1000) b = chunk (phys .& phys_space_mask b) b.
Proof.
  intros Hb Hp. unfold chunk. rewrite <- page_mask by done.
  set (s := phys_space_mask b). rewrite <- !Z.land_assoc. f_equal.
  rewrite (Z.land_assoc s s), Z.land_diag, (Z.land_comm s 0xff000000), Z.land_assoc. done.
Qed.

Lemma space_mask_ok b : board_ok b → page_mask_ok (phys_space_mask b).
Proof. intros Hb. destruct (bo_space b Hb) as [->| ->]; [exists 29 | exists 30]; split; done. Qed.

(** An address after the space mask, masked again by a bank's mask. *)
Lemma land_mask_sub x k s : 0 ≤ k → s .& Z.ones k = Z.ones k → (x .& s) .& Z.ones k = x .& Z.ones k.
Proof. intros _ H. by rewrite <- Z.land_assoc, H. Qed.

Lemma existsb_disjoint (l l' : list Z) x :
  forallb (λ y, negb (existsb (Z.eqb y) l')) l = true →
  existsb (Z.eqb x) l = true → existsb (Z.eqb x) l' = false.
Proof.
  rewrite forallb_forall, existsb_exists. intros H (y & Hy & ->%Z.eqb_eq).
  apply negb_true_iff. by apply H.
Qed.

(** In the branch of a chunk, the other chunks' tests are false. *)
Ltac other_chunks :=
  match goal with
  | H : existsb (Z.eqb ?x) ?l = true |- _ =>
      repeat match goal with
      | |- context [existsb (Z.eqb x) ?l'] =>
          first [ rewrite H
                | rewrite (existsb_disjoint l l' x) by (exact H || (vm_compute; reflexivity)) ]
      end
  end.

Definition bank_mask (b : Board) (mask : Z) : Prop :=
  page_mask_ok mask ∧ phys_space_mask b .& mask = mask.

Lemma bank_mask_ones b k : board_ok b → 12 ≤ k ≤ 27 → bank_mask b (Z.ones k).
Proof.
  intros Hb Hk. split; [exists k; split; [lia | done]|].
  assert (∃ j, k ≤ j ∧ phys_space_mask b = Z.ones j) as (j & Hj & ->).
  { destruct (bo_space b Hb) as [->| ->]; [exists 29 | exists 30]; (split; [lia | done]). }
  apply Z.bits_inj'. intros i Hi. rewrite Z.land_spec, !Z.testbit_ones_nonneg by lia.
  destruct (Z.ltb_spec i k); [|by rewrite andb_false_r]. by rewrite (proj2 (Z.ltb_lt _ _)) by lia.
Qed.

Lemma rammask_ok b : board_ok b → bank_mask b (mem_rammask b).
Proof. intros Hb. destruct (bo_ram b Hb) as (k & Hk & ->). apply bank_mask_ones; [done | lia]. Qed.
Lemma vrammask_ok b : board_ok b → (mem_vrammask b =? 0) = false → bank_mask b (mem_vrammask b).
Proof.
  intros Hb Hz. destruct (bo_vram b Hb) as [E|(k & Hk & ->)]; [by rewrite E in Hz|].
  apply bank_mask_ones; [done | lia].
Qed.

(** One bank. *)
Lemma bank_ptr b base mask phys va :
  bank_mask b mask → 0 ≤ base < 2 ^ 48 → w32 va → w32 phys → phys mod 0x1000 = va mod 0x1000 →
  u64 (va + biased_ptr base (phys / 0x1000 * 0x1000 .& mask) va) =
    base + ((phys .& phys_space_mask b) .& mask).
Proof.
  intros [Hm Hs] Hb Hv Hp Hoff. rewrite <- Z.land_assoc, Hs, (mask_page mask phys Hm), Hoff.
  rewrite biased_ptr_at; [lia | done | by apply mask_range | | done].
  apply mask_page_aligned; [done|]. by rewrite Z.mod_mul.
Qed.

Lemma board_ptr b p : board_ok b →
  p ∈ [rom b; vram b; ram00 b; ram01 b; ram1 b; sdram0 b; sdram1 b; gfxcard_fb b] → 0 ≤ p < 2 ^ 48.
Proof. intros Hb Hp. apply (bo_ptr b Hb p Hp). Qed.

Lemma ram_ptr_at w b phys va v :
  board_ok b → w32 va → w32 phys → phys mod 0x1000 = va mod 0x1000 →
  ram_ptr (phys / 0x1000 * 0x1000) va b = Some v → phys_at w b phys = Some (u64 (va + v)).
Proof.
  intros Hb Hv Hp Hoff. unfold ram_ptr, phys_at. cbv zeta. rewrite chunk_page by done.
  set (x := chunk (phys .& phys_space_mask b) b).
  assert (bank_mask b 0x7ffffff) as H27 by (apply (bank_mask_ones b 27); [done | lia]).
  pose proof (rammask_ok b Hb) as Hram. pose proof (vrammask_ok b Hb) as Hvram.
  cbn [switch].
  destruct (existsb (Z.eqb x) VRAM_chunk) eqn:E1.
  { other_chunks. destruct (mem_vrammask b =? 0) eqn:E; [done|]. intros [= <-].
    rewrite (bank_ptr b) by (auto || (apply (board_ptr b); [done | set_solver])). done. }
  destruct (existsb (Z.eqb x) SIMM0_0_chunks) eqn:E2.
  { other_chunks. intros [= <-].
    rewrite (bank_ptr b) by (auto || (apply (board_ptr b); [done | set_solver])). done. }
  destruct (existsb (Z.eqb x) SIMM0_1_chunks) eqn:E3.
  { other_chunks. intros [= <-].
    rewrite (bank_ptr b) by (auto || (apply (board_ptr b); [done | set_solver])). done. }
  destruct (existsb (Z.eqb x) SIMM1_chunks) eqn:E4.
  { other_chunks. destruct (nz _); [|done]. intros [= <-].
    rewrite (bank_ptr b) by (auto || (apply (board_ptr b); [done | set_solver])). done. }
  destruct (existsb (Z.eqb x) SDRAM0_chunks) eqn:E5.
  { other_chunks. destruct (nz _); [|done]. intros [= <-].
    rewrite (bank_ptr b) by (auto || (apply (board_ptr b); [done | set_solver])). done. }
  destruct (existsb (Z.eqb x) SDRAM1_chunks) eqn:E6; [|done].
  other_chunks. destruct (nz _); [|done]. intros [= <-].
  rewrite (bank_ptr b) by (auto || (apply (board_ptr b); [done | set_solver])). done.
Qed.

(** The framestore. *)
Lemma framestore_ptr w b phys va :
  board_ok b → w32 va → w32 phys → phys mod 0x1000 = va mod 0x1000 →
  in_framestore (phys / 0x1000 * 0x1000) b = true →
  existsb (Z.eqb (chunk (phys .& phys_space_mask b) b)) EASI_chunks = true →
  phys_at w b phys = Some (u64 (va + biased_fb_ptr (phys / 0x1000 * 0x1000) va b)).
Proof.
  intros Hb Hv Hp Hoff Hin He. unfold in_framestore in Hin. apply andb_true_iff in Hin as [Hfb Hin].
  apply Z.ltb_lt in Hin. destruct (bo_fb b Hb) as [Hr Ha]. unfold GFXCARD_FB_SIZE in *.
  pose proof (Z.mod_pos_bound phys 0x1000 ltac:(lia)) as Hlo.
  pose proof (Z.div_mod phys 0x1000 ltac:(lia)) as Hdm. pose proof (Z.div_mod (gfxcard_fb_phys b) 0x1000 ltac:(lia)) as Hfm.
  unfold w32 in *. set (page := phys / 0x1000 * 0x1000) in *.
  assert (gfxcard_fb_phys b ≤ page ∧ sub32 page (gfxcard_fb_phys b) = page - gfxcard_fb_phys b) as [Hge Hsub].
  { unfold sub32, u32 in *. destruct (Z.le_gt_cases (gfxcard_fb_phys b) page).
    - split; [done|]. rewrite Z.mod_small; lia.
    - replace (page - gfxcard_fb_phys b) with (page - gfxcard_fb_phys b + 0x100000000 + (-1) * 0x100000000) in Hin by ring.
      rewrite Z.mod_add, Z.mod_small in Hin by lia. lia. }
  rewrite Hsub in Hin.
  assert (phys - gfxcard_fb_phys b < 0xf00000) as Hphys.
  { assert (page - gfxcard_fb_phys b ≤ 0xf00000 - 0x1000); [|unfold page in *; lia].
    unfold page in *. lia. }
  assert (phys .& phys_space_mask b = phys) as Hs.
  { destruct (bo_space b Hb) as [->| ->];
      [change 0x1fffffff with (Z.ones 29) | change 0x3fffffff with (Z.ones 30)];
      rewrite Z.land_ones by done; apply Z.mod_small; cbn; lia. }
  unfold phys_at. cbv zeta. rewrite Hs in He |- *. cbn [switch]. other_chunks.
  assert (sub32 phys (gfxcard_fb_phys b) = phys - gfxcard_fb_phys b) as Hsub'
    by (unfold sub32, u32; rewrite Z.mod_small; lia).
  unfold in_framestore. rewrite Hfb, Hsub'. unfold GFXCARD_FB_SIZE. rewrite (proj2 (Z.ltb_lt _ _)) by lia.
  cbn [andb]. f_equal. unfold biased_fb_ptr. rewrite Hsub, page_bias, u64_add_u64.
  pose proof (board_ptr b (gfxcard_fb b) Hb ltac:(set_solver)). change (2 ^ 48) with 0x1000000000000 in *.
  rewrite u64_small; unfold page; lia.
Qed.

Lemma biased_ptr_aligned base off va : base mod 4 = 0 → biased_ptr base off va mod 4 = 0.
Proof.
  intros Hb. unfold biased_ptr, u64. rewrite Z.mod_mod_divide by (exists 0x4000000000000000; done).
  by rewrite (Z.mul_comm 4), Z.mod_add.
Qed.

Lemma ldiff_3 x : x mod 4 = 0 → x .&~ 3 = x.
Proof.
  intros H. change 3 with (Z.ones 2). rewrite Z.ldiff_ones_r, Z.shiftl_mul_pow2, Z.shiftr_div_pow2 by done.
  change (2 ^ 2) with 4. pose proof (Z.div_mod x 4). lia.
Qed.

(** The pointer of a read; the ROM's is a word pointer. *)
Lemma read_ptr_at b phys va v :
  board_ok b → w32 va → w32 phys → phys mod 0x1000 = va mod 0x1000 →
  read_ptr (phys / 0x1000 * 0x1000) va b = Some v →
  phys_at false b phys = Some (u64 (va + v)) ∧
  (existsb (Z.eqb (chunk (phys / 0x1000 * 0x1000) b)) ROM_chunk = true → v .&~ 3 = v).
Proof.
  intros Hb Hv Hp Hoff. unfold read_ptr. pose proof (chunk_page phys b Hb Hp) as Hc.
  destruct (existsb _ ROM_chunk) eqn:E.
  - intros [= <-]. split.
    2: { intros _. apply ldiff_3, biased_ptr_aligned, (bo_ptr b Hb). set_solver. }
    unfold phys_at. cbv zeta. rewrite Hc in E. cbn [switch]. rewrite E.
    assert (phys / 0x1000 * 0x1000 .& 0x7ff000 = phys / 0x1000 * 0x1000 .& 0x7fffff) as ->.
    { assert (w32 (phys / 0x1000 * 0x1000)) by (rewrite <- page_mask by done; by apply w32_land_l).
      rewrite <- (page_mask phys) by done. by rewrite <- !Z.land_assoc. }
    rewrite (bank_ptr b) by
      (first [done | apply (bank_mask_ones b 23); [done | lia] | apply (board_ptr b); [done | set_solver]]). done.
  - destruct (existsb _ EASI_chunks) eqn:E'.
    + destruct (in_framestore _ b) eqn:Ef; [|done]. intros [= <-]. split; [|done].
      rewrite Hc in E'. by apply framestore_ptr.
    + intros Hr. split; [|done]. by apply ram_ptr_at.
Qed.

Lemma write_ptr_at b phys fb va v noted :
  board_ok b → w32 va → w32 phys → phys mod 0x1000 = va mod 0x1000 →
  (existsb (Z.eqb (chunk (phys / 0x1000 * 0x1000) b)) EASI_chunks = true → fb = phys / 0x1000 * 0x1000) →
  write_ptr (phys / 0x1000 * 0x1000) fb va b = Some (v, noted) →
  phys_at true b phys = Some (u64 (va + v)).
Proof.
  intros Hb Hv Hp Hoff Hfb. unfold write_ptr. destruct (existsb _ EASI_chunks) eqn:E.
  - rewrite Hfb by done. destruct (in_framestore _ b) eqn:Ef; [|done]. intros [= <- <-].
    rewrite chunk_page in E by done. by apply framestore_ptr.
  - destruct (ram_ptr _ va b) eqn:Er; [|done]. intros [= <- <-]. by apply ram_ptr_at.
Qed.
