(* ===== verification/MemAccess.v ===== *)
(** The virtual accesses keep the caches coherent and give what the tables
    say. *)

From S2P Require Export MemRefine.

(** ** Pointers and pages *)

Lemma biased_ptr_page base off va va' :
  va / 0x1000 = va' / 0x1000 → biased_ptr base off va = biased_ptr base off va'.
Proof.
  intros H. unfold biased_ptr. rewrite !page_bias.
  assert (∀ x, x - x mod 0x1000 = x / 0x1000 * 0x1000) as E
    by (intros; pose proof (Z.div_mod x 0x1000); lia).
  by rewrite !E, H.
Qed.

Lemma ram_ptr_page page b va va' :
  va / 0x1000 = va' / 0x1000 → ram_ptr page va b = ram_ptr page va' b.
Proof. intros H. unfold ram_ptr. by rewrite !(biased_ptr_page _ _ va va' H). Qed.

Lemma biased_fb_ptr_page page b va va' :
  va / 0x1000 = va' / 0x1000 → biased_fb_ptr page va b = biased_fb_ptr page va' b.
Proof.
  intros H. unfold biased_fb_ptr. rewrite !page_bias.
  assert (∀ x, x - x mod 0x1000 = x / 0x1000 * 0x1000) as E
    by (intros; pose proof (Z.div_mod x 0x1000); lia).
  by rewrite !E, H.
Qed.

Lemma read_ptr_page page b va va' :
  va / 0x1000 = va' / 0x1000 → read_ptr page va b = read_ptr page va' b.
Proof.
  intros H. unfold read_ptr. by rewrite (biased_ptr_page _ _ va va' H), (biased_fb_ptr_page _ _ va va' H),
    (ram_ptr_page _ _ va va' H).
Qed.

Lemma write_ptr_page page fb b va va' :
  va / 0x1000 = va' / 0x1000 → write_ptr page fb va b = write_ptr page fb va' b.
Proof.
  intros H. unfold write_ptr. by rewrite (biased_fb_ptr_page _ _ va va' H), (ram_ptr_page _ _ va va' H).
Qed.

Lemma level_bit_allows perm priv :
  nz (perm .& level_bit TLB_PERM_USER_R TLB_PERM_PRIV_R priv) = Z.testbit perm (perm_bit priv false) ∧
  nz (perm .& level_bit TLB_PERM_USER_W TLB_PERM_PRIV_W priv) = Z.testbit perm (perm_bit priv true).
Proof.
  destruct priv; split.
  - exact (nz_mask_bit perm 2 ltac:(lia)).
  - exact (nz_mask_bit perm 3 ltac:(lia)).
  - exact (nz_mask_bit perm 0 ltac:(lia)).
  - exact (nz_mask_bit perm 1 ltac:(lia)).
Qed.

Lemma in_block_div phys va : in_block phys va 0x1000 / 0x1000 = phys / 0x1000.
Proof. unfold in_block. rewrite Z.div_add_l by done. rewrite (Z.div_small (va mod _)); [lia | by apply Z.mod_pos_bound]. Qed.
Lemma in_block_mod phys va : in_block phys va 0x1000 mod 0x1000 = va mod 0x1000.
Proof. unfold in_block. by rewrite Z.add_comm, Z.mod_add, Zmod_mod. Qed.

Section access.
Context {D : Type} `{!IoDev D}.
Implicit Types m : Mem D.

(** What a read does not change. *)
Record quiet m m' : Prop := {
  qt_board : board m' = board m;
  qt_cp15 : cp15 m' = cp15 m;
  qt_memmode : memmode m' = memmode m;
  qt_host : host m' = host m
}.

Lemma quiet_refl m : quiet m m.
Proof. done. Qed.
Lemma quiet_trans m1 m2 m3 : quiet m1 m2 → quiet m2 m3 → quiet m1 m3.
Proof. intros [] []. split; congruence. Qed.

Lemma quiet_view m m' : quiet m m' → same_view m m'.
Proof. intros [B C _ H]. by apply same_view_registers; rewrite ?C. Qed.

Lemma quiet_uniform m m' : quiet m m' → uniform m → uniform m'.
Proof. intros [B C _ H]. by apply uniform_view; rewrite ?C. Qed.

Lemma nz_priv m priv : memmode m = priv_index priv → nz (memmode m) = priv.
Proof. intros ->. by destruct priv. Qed.

Lemma priv_index_inj p q : priv_index p = priv_index q → p = q.
Proof. by destruct p, q. Qed.

Lemma permitted_in_page m p w va phys :
  uniform m → w32 va → permitted m p w va phys → in_block phys va 0x1000 = phys.
Proof.
  intros Hu Hv H. eapply permitted_phys; [|exact H]. by apply (permitted_same_page m p w va).
Qed.

Lemma permitted_offset m p w va phys :
  uniform m → w32 va → permitted m p w va phys → phys mod 0x1000 = va mod 0x1000.
Proof. intros Hu Hv H. rewrite <- (permitted_in_page m p w va phys Hu Hv H) at 1. apply in_block_mod. Qed.

(** * Filling the fast maps *)

Lemma coherent_fill_read m va v ph :
  coherent m → w32 va →
  (∀ priv va', w32 va' → va' / 0x1000 = va / 0x1000 →
     tlb_allows (tlb m) (va / 0x1000) priv false = true → ptr_ok m priv false va' v) →
  (∀ priv, noted m false priv (va / 0x1000) ph) →
  coherent (set_rmap (vadd v va ph (tlbperm (tlb m) !!! (va .>> 12))
                        TLB_PERM_USER_R TLB_PERM_PRIV_R (rmap m)) m).
Proof.
  intros [H1 H2 H3 H4 H5 H6 H7 H8] Hv Hp Hn.
  split; [exact H1 | | exact H3 | exact H4 | exact H5 | exact H6
    | apply vadd_ring; rewrite ?page_of_va; [by apply page_range | done | done] | exact H8].
  intros va' priv Hv'. cbn [rmap set_rmap].
  destruct (vadd_cases v va ph (tlbperm (tlb m) !!! (va .>> 12)) TLB_PERM_USER_R TLB_PERM_PRIV_R
              (rmap m) priv (va' / 0x1000)) as [-> | [-> | (Hpg & -> & Hb)]];
    [by apply page_range | rewrite page_of_va; by apply page_range | by apply H2 | done |].
  intros _. rewrite page_of_va in Hpg, Hb. apply (Hp priv va' Hv' Hpg).
  unfold tlb_allows. by rewrite <- (proj1 (level_bit_allows _ _)).
Qed.

Lemma coherent_fill_write m va v ph :
  coherent m → w32 va →
  (∀ priv va', w32 va' → va' / 0x1000 = va / 0x1000 →
     tlb_allows (tlb m) (va / 0x1000) priv true = true → ptr_ok m priv true va' v) →
  (∀ priv, noted m true priv (va / 0x1000) ph) →
  coherent (set_wmap (vadd v va ph (tlbperm (tlb m) !!! (va .>> 12))
                        TLB_PERM_USER_W TLB_PERM_PRIV_W (wmap m)) m).
Proof.
  intros [H1 H2 H3 H4 H5 H6 H7 H8] Hv Hp Hn.
  split; [exact H1 | exact H2 | | exact H4 | exact H5 | exact H6 | exact H7
    | apply vadd_ring; rewrite ?page_of_va; [by apply page_range | done | done]].
  intros va' priv Hv'. cbn [wmap set_wmap].
  destruct (vadd_cases v va ph (tlbperm (tlb m) !!! (va .>> 12)) TLB_PERM_USER_W TLB_PERM_PRIV_W
              (wmap m) priv (va' / 0x1000)) as [-> | [-> | (Hpg & -> & Hb)]];
    [by apply page_range | rewrite page_of_va; by apply page_range | by apply H3 | done |].
  intros _. rewrite page_of_va in Hpg, Hb. apply (Hp priv va' Hv' Hpg).
  unfold tlb_allows. by rewrite <- (proj2 (level_bit_allows _ _)).
Qed.

(** The page of a single-entry cache: what the TLB allows of it is at the
    address the access was given. *)
Lemma cached_page_tlb m k va va' phys priv priv' rw :
  coherent m → uniform m → w32 va → w32 va' → va' / 0x1000 = va / 0x1000 → nz (mmu (cp15 m)) = true →
  cache_of k (pages m) = va / 0x1000 → permitted m priv (is_write k) va phys →
  tlb_allows (tlb m) (va / 0x1000) priv' rw = true →
  permitted m priv' rw va' (in_block phys va' 0x1000).
Proof.
  intros Hc Hu Hv Hv' Hpg Hon Hk Hp Ha.
  destruct (tlb_valid (tlb m) (va / 0x1000)) eqn:E.
  - assert (permitted m priv' rw va' (in_block (tlbcache (tlb m) !!! (va' / 0x1000)) va' 0x1000)) as H
      by (apply (ch_tlb m Hc); rewrite ?Hpg; done).
    pose proof (permitted_same_page m priv _ va va' phys Hu Hv Hv' (eq_sym Hpg) Hp) as H'.
    by rewrite (permitted_phys _ _ _ _ _ _ _ _ H' H).
  - pose proof (ch_perm m Hc va k Hv Hon Hk E) as H0. unfold tlb_allows in Ha.
    by rewrite H0, Z.bits_0 in Ha.
Qed.

Lemma region_page x y : x / 0x1000 = y / 0x1000 → region x = region y.
Proof.
  change 0x1000 with (2 ^ 12). rewrite <- !Z.shiftr_div_pow2 by done. intros H. unfold region.
  apply Z.bits_inj'. intros i Hi. rewrite !Z.land_spec. destruct (Z.lt_ge_cases i 12) as [Hl|Hl].
  - change 0x1f000000 with (Z.shiftl 0x1f000 12). rewrite Z.shiftl_spec, (Z.testbit_neg_r 0x1f000) by lia.
    by rewrite !andb_false_r.
  - assert (∀ z, Z.testbit z i = Z.testbit (z .>> 12) (i - 12)) as E
      by (intros; rewrite Z.shiftr_spec by lia; f_equal; lia).
    by rewrite (E x), (E y), H.
Qed.

Lemma permitted_noted m rw p w priv va phys :
  uniform m → w32 va → permitted m p w va phys → noted m rw priv (va / 0x1000) (phys / 0x1000 * 0x1000).
Proof.
  intros Hu Hv Hp va' phys' Hv' Hpg Hp'. apply region_page. rewrite Z.div_mul by done.
  pose proof (permitted_same_page m priv rw va' va phys' Hu Hv' Hv Hpg Hp') as H.
  by rewrite (permitted_phys _ _ _ _ _ _ _ _ Hp H), in_block_div.
Qed.

Lemma write_ptr_noted page fb va b v ph :
  (existsb (Z.eqb (chunk page b)) EASI_chunks = true → fb = page) →
  write_ptr page fb va b = Some (v, ph) → ph = page.
Proof.
  intros Hfb. unfold write_ptr. destruct (existsb _ _).
  - destruct (in_framestore fb b); [|done]. intros [= _ <-]. by apply Hfb.
  - destruct (ram_ptr page va b); cbn; [|done]. by intros [= _ <-].
Qed.

Lemma coherent_vradd m va phys priv v :
  coherent m → uniform m → board_ok (board m) → w32 va → nz (mmu (cp15 m)) = true →
  cache_of ReadAny (pages m) = va / 0x1000 → permitted m priv false va phys →
  read_ptr (phys / 0x1000 * 0x1000) va (board m) = Some v →
  coherent (set_rmap (vadd v va (phys / 0x1000 * 0x1000) (tlbperm (tlb m) !!! (va .>> 12))
                        TLB_PERM_USER_R TLB_PERM_PRIV_R (rmap m)) m).
Proof.
  intros Hc Hu Hb Hv Hon Hk Hp Hr. apply coherent_fill_read; [done|done| |by intros priv'; eapply permitted_noted].
  intros priv' va' Hv' Hpg Ha.
  pose proof (cached_page_tlb m ReadAny va va' phys priv priv' false Hc Hu Hv Hv' Hpg Hon Hk Hp Ha) as H.
  exists (in_block phys va' 0x1000), (u64 (va' + v)). split_and!; [done | | done].
  apply read_ptr_at; [done | done | by eapply permitted_w32 | apply in_block_mod |].
  rewrite in_block_div. by rewrite (read_ptr_page _ _ va' va).
Qed.

Lemma coherent_vwadd m k va phys priv fb v ph :
  coherent m → uniform m → board_ok (board m) → w32 va → nz (mmu (cp15 m)) = true →
  is_write k = true → cache_of k (pages m) = va / 0x1000 → permitted m priv true va phys →
  (existsb (Z.eqb (chunk (phys / 0x1000 * 0x1000) (board m))) EASI_chunks = true →
     fb = phys / 0x1000 * 0x1000) →
  write_ptr (phys / 0x1000 * 0x1000) fb va (board m) = Some (v, ph) →
  coherent (set_wmap (vadd v va ph (tlbperm (tlb m) !!! (va .>> 12))
                        TLB_PERM_USER_W TLB_PERM_PRIV_W (wmap m)) m).
Proof.
  intros Hc Hu Hb Hv Hon Hkw Hk Hp Hfb Hr. apply coherent_fill_write; [done|done| |
    intros priv'; rewrite (write_ptr_noted _ _ _ _ _ _ Hfb Hr); by eapply permitted_noted].
  intros priv' va' Hv' Hpg Ha.
  assert (permitted m priv (is_write k) va phys) as Hp' by by rewrite Hkw.
  pose proof (cached_page_tlb m k va va' phys priv priv' true Hc Hu Hv Hv' Hpg Hon Hk Hp' Ha) as H.
  exists (in_block phys va' 0x1000), (u64 (va' + v)). split_and!; [done | | done].
  apply (write_ptr_at _ _ fb _ _ ph); [done | done | by eapply permitted_w32 | apply in_block_mod | |];
    rewrite in_block_div; [done|]. by rewrite (write_ptr_page _ _ _ va' va).
Qed.

(** * The single-entry caches *)

Lemma check_mode_memmode md p : memcache_memmode (memcache_check_mode md p) = md.
Proof. unfold memcache_check_mode. by destruct (Z.eqb_spec (memcache_memmode p) md). Qed.

Lemma coherent_check_mode m :
  coherent m → coherent (upd_pages (memcache_check_mode (memmode m)) m).
Proof.
  intros Hc. apply coherent_forget; [|done]. intros k. unfold memcache_check_mode.
  destruct (_ =? _); [by right|]. left. by destruct k.
Qed.

Lemma cache_set_same k v p :
  cache_of k (set_cache k v p) = v ∧ cache2_of k (set_cache2 k v p) = v ∧
  cache_of k (set_cache2 k v p) = cache_of k p ∧
  memcache_memmode (set_cache k v p) = memcache_memmode p ∧
  memcache_memmode (set_cache2 k v p) = memcache_memmode p.
Proof. by destruct k. Qed.

Lemma cache_set_other k k' v p : k' ≠ k →
  cache_of k' (set_cache k v p) = cache_of k' p ∧ cache2_of k' (set_cache k v p) = cache2_of k' p ∧
  cache_of k' (set_cache2 k v p) = cache_of k' p ∧ cache2_of k' (set_cache2 k v p) = cache2_of k' p.
Proof. by destruct k, k'. Qed.

(** A translation through the single-entry cache [k], then remembered in it. *)
Definition remember k va phys t m : Mem D :=
  upd_pages (set_cache2 k (phys .& 0xfffff000)) (set_tlb t (upd_pages (set_cache k (va .>> 12)) m)).

Lemma remember_pages k va phys t m :
  pages (remember k va phys t m) =
    set_cache2 k (phys .& 0xfffff000) (set_cache k (va .>> 12) (pages m)).
Proof. done. Qed.

Lemma coherent_remember m k va phys t priv :
  coherent m → uniform m → w32 va → memcache_memmode (pages m) = priv_index priv →
  permitted m priv (is_write k) va phys → tlb_ok (set_tlb t m) → tlb_step (tlb m) t (va / 0x1000) →
  coherent (remember k va phys t m).
Proof.
  intros [H1 H2 H3 H4 H5 H6 H7 H8] Hu Hv Hmd Hp Ht (Hring & Hvalid & Hstep). pose proof (permitted_w32 _ _ _ _ _ Hv Hp) as Hw.
  split; [exact Ht | exact H2 | exact H3 | | | by apply Hring | exact H7 | exact H8].
  - intros va' priv' k' Hv' Hon. rewrite remember_pages.
    destruct (decide (k' = k)) as [->|Hne].
    + destruct (cache_set_same k (va .>> 12) (pages m)) as (E1 & _ & _ & E4 & _).
      destruct (cache_set_same k (phys .& 0xfffff000) (set_cache k (va .>> 12) (pages m)))
        as (_ & E2 & E3 & _ & E5).
      rewrite E2, E3, E1, E5, E4, page_of_va. intros Hpg Hmd'. rewrite in_block_mask by done.
      assert (priv' = priv) as -> by (apply priv_index_inj; congruence).
      split; [by apply (permitted_same_page m priv _ va va')|].
      rewrite page_mask by done. by apply Z.mod_mul.
    + destruct (cache_set_other k k' (va .>> 12) (pages m) Hne) as (E1 & E2 & _).
      destruct (cache_set_other k k' (phys .& 0xfffff000) (set_cache k (va .>> 12) (pages m)) Hne)
        as (_ & _ & E3 & E4).
      destruct (cache_set_same k (va .>> 12) (pages m)) as (_ & _ & _ & E5 & _).
      destruct (cache_set_same k (phys .& 0xfffff000) (set_cache k (va .>> 12) (pages m))) as (_ & _ & _ & _ & E6).
      rewrite E3, E4, E1, E2, E6, E5. by apply H4.
  - intros va' k' Hv' Hon. rewrite remember_pages.
    destruct (Z.eq_dec (va' / 0x1000) (va / 0x1000)) as [E|E].
    { intros _ Hinv. rewrite E in Hinv. change (tlb_valid t (va / 0x1000) = false) in Hinv. congruence. }
    destruct (decide (k' = k)) as [->|Hne].
    + destruct (cache_set_same k (va .>> 12) (pages m)) as (E1 & _).
      destruct (cache_set_same k (phys .& 0xfffff000) (set_cache k (va .>> 12) (pages m))) as (_ & _ & E3 & _).
      rewrite E3, E1, page_of_va. intros E'. by rewrite E' in E.
    + destruct (cache_set_other k k' (va .>> 12) (pages m) Hne) as (E1 & _).
      destruct (cache_set_other k k' (phys .& 0xfffff000) (set_cache k (va .>> 12) (pages m)) Hne)
        as (_ & _ & E3 & _).
      rewrite E3, E1. intros Hk Hinv. change (tlb_valid t (va' / 0x1000) = false) in Hinv.
      change (tlbperm t !!! (va' / 0x1000) = 0).
      destruct (Hstep _ E) as [[Ec ->]| ->]; [|done]. apply (H5 va' k'); [done|done|done|].
      unfold tlb_valid in *. by rewrite <- Ec.
Qed.

Lemma cached_page_allowed k m va e on_fault phys priv :
  coherent m → uniform m → cp15_ok (cp15 m) → w32 va → nz (mmu (cp15 m)) = true →
  nz (e .& 0x40) = false → memmode m = priv_index priv → permitted m priv (is_write k) va phys →
  ∃ m', cached_page k va on_fault (e, m) = Some (Some phys, (e, m')) ∧ coherent m' ∧ quiet m m' ∧
        rmap m' = rmap m ∧ wmap m' = wmap m ∧
        cache_of k (pages m') = va / 0x1000 ∧ cache2_of k (pages m') = phys / 0x1000 * 0x1000 ∧
        (∀ k', k' ≠ k → cache2_of k' (pages m') = cache2_of k' (pages m)).
Proof.
  intros Hc Hu Hok Hv Hon He Hmd Hp. pose proof (permitted_w32 _ _ _ _ _ Hv Hp) as Hw.
  set (m1 := upd_pages (memcache_check_mode (memmode m)) m).
  assert (coherent m1) as Hc1 by by apply coherent_check_mode.
  assert (memcache_memmode (pages m1) = priv_index priv) as Hmd1 by (rewrite <- Hmd; apply check_mode_memmode).
  assert (∀ k', cache2_of k' (pages m1) = cache2_of k' (pages m)) as H2
    by (intros k'; cbn; unfold memcache_check_mode; by destruct (_ =? _), k').
  assert (permitted m1 priv (is_write k) va phys) as Hp1 by done.
  unfold cached_page, ask, alter_mem, modify, gets, mbind, M_bind, mret, M_ret. cbv beta iota. cbn [fst snd].
  fold m1. rewrite page_of_va. destruct (Z.eqb_spec (va / 0x1000) (cache_of k (pages m1))) as [E|E].
  - exists m1. destruct (ch_page m1 Hc1 va priv k Hv Hon (eq_sym E) Hmd1) as [Hp' H0].
    split_and!; try done.
    + do 2 f_equal. rewrite (permitted_phys _ _ _ _ _ _ _ _ Hp1 Hp'), offset_of_va. f_equal.
      rewrite u32_id.
      * unfold in_block. pose proof (Z.div_mod (cache2_of k (pages m1)) 0x1000). lia.
      * pose proof (permitted_phys _ _ _ _ _ _ _ _ Hp1 Hp') as Eq. unfold in_block in Eq.
        pose proof (Z.div_mod (cache2_of k (pages m1)) 0x1000). replace (_ + _) with phys by lia. done.
    + rewrite (permitted_phys _ _ _ _ _ _ _ _ Hp1 Hp'), in_block_div.
      pose proof (Z.div_mod (cache2_of k (pages m1)) 0x1000). lia.
  - set (m2 := upd_pages (set_cache k (va / 0x1000)) m1).
    destruct (translateaddress_allowed m2 va (is_write k) false e phys) as (t & Ht & Htok & Hstep);
      [by apply (tlb_ok_view m1); [|done|apply Hc1] | done | done | done | done
      | by (change (memmode m2) with (memmode m); rewrite (nz_priv _ _ Hmd)) |].
    match goal with |- context [translateaddress _ _ _ ?s] => change s with (e, m2) end.
    rewrite Ht. cbn [fst]. rewrite He.
    eexists. split; [reflexivity|].
    assert (coherent (remember k va phys t m1)) as Hfin by by eapply coherent_remember.
    unfold remember in Hfin. rewrite page_of_va in Hfin. split_and!; try done.
    + cbn [pages upd_pages set_pages]. by destruct k.
    + cbn [pages upd_pages set_pages]. rewrite page_mask by done. by destruct k.
    + intros k' Hne. rewrite <- H2. by destruct k, k'.
Qed.

Lemma abort_pending e : nz ((e .| 0x40) .& 0x40) = true.
Proof.
  change 0x40 with (2 ^ 6). rewrite nz_mask_bit by done. rewrite Z.lor_spec, Z.pow2_bits_true by done.
  apply orb_true_r.
Qed.

Lemma cached_page_fault k m va e on_fault g priv d code :
  coherent m → cp15_ok (cp15 m) → w32 va → nz (mmu (cp15 m)) = true → memmode m = priv_index priv →
  mmu_access m priv (is_write k) va = Some (inr (d, code)) →
  (∀ e m, on_fault (e, m) = Some (tt, (e, g m))) →
  cached_page k va on_fault (e, m) = Some (None, (e .| 0x40,
    upd_pages (set_cache k 0xffffffff) (g (with_fault va d code false
      (upd_pages (set_cache k (va .>> 12)) (upd_pages (memcache_check_mode (memmode m)) m)))))).
Proof.
  intros Hc Hok Hv Hon Hmd Ha Hg. set (m1 := upd_pages (memcache_check_mode (memmode m)) m).
  assert (coherent m1) as Hc1 by by apply coherent_check_mode.
  assert (memcache_memmode (pages m1) = priv_index priv) as Hmd1 by (rewrite <- Hmd; apply check_mode_memmode).
  unfold cached_page, ask, alter_mem, modify, gets, mbind, M_bind, mret, M_ret. cbv beta iota. cbn [fst snd].
  fold m1. destruct (Z.eqb_spec (va .>> 12) (cache_of k (pages m1))) as [E|E].
  - rewrite page_of_va in E. destruct (ch_page m1 Hc1 va priv k Hv Hon (eq_sym E) Hmd1) as [Hp' _].
    unfold permitted in Hp'. change (nz (mmu (cp15 m1))) with (nz (mmu (cp15 m))) in Hp'. rewrite Hon in Hp'.
    destruct Hp' as [perm Hp']. change (mmu_access m1 priv (is_write k) va) with (mmu_access m priv (is_write k) va) in Hp'.
    congruence.
  - set (m2 := upd_pages (set_cache k (va .>> 12)) m1).
    match goal with |- context [translateaddress _ _ _ ?s] => change s with (e, m2) end.
    rewrite (translateaddress_fault m2 va (is_write k) false e d code);
      [|by apply (tlb_ok_view m1); [|done|apply Hc1] | done | done | done | by (change (memmode m2) with (memmode m); rewrite (nz_priv _ _ Hmd))].
    cbn [fst]. by rewrite abort_pending, Hg.
Qed.
End access.
