(* ===== verification/MemTransparent.v ===== *)
(** The accessors of mem.h, from whichever level of cache they are served:
    values, faults and stores are those of the reference. *)

From S2P Require Export MemAccess.

Section accessors.
Context {D : Type} `{!IoDev D}.
Implicit Types m : Mem D.

(** What the accesses assume of the state. *)
Record mem_inv m : Prop := {
  mo_coherent : coherent m;
  mo_uniform : uniform m;
  mo_board : board_ok (board m);
  mo_cp15 : cp15_ok (cp15 m);
  mo_memmode : ∃ priv, memmode m = priv_index priv
}.

Definition privileged m : bool := nz (memmode m).

Lemma mo_priv m : mem_inv m → memmode m = priv_index (privileged m).
Proof. intros H. unfold privileged. destruct (mo_memmode m H) as [[] ->]; done. Qed.

Lemma mem_inv_quiet m m' : mem_inv m → quiet m m' → coherent m' → mem_inv m'.
Proof.
  intros [_ Hu Hb Hc Hm] Hq Hc'. split; [done | by eapply quiet_uniform | | |].
  - by rewrite (qt_board _ _ Hq).
  - by rewrite (qt_cp15 _ _ Hq).
  - by rewrite (qt_memmode _ _ Hq).
Qed.

Lemma note_access_run a n w v e m :
  ∃ m', note_access a n w v (e, m) = Some (tt, (e, m')) ∧ quiet m m' ∧ (coherent m → coherent m') ∧
        same_mmu m m'.
Proof.
  eexists. split; [reflexivity|]. split_and!; [done | | done]. by apply coherent_view.
Qed.

(** A read, then the debugger is told. *)
Lemma noted_read a n (op : M (Z * Mem D) Z) e m v m1 :
  op (e, m) = Some (v, (e, m1)) → coherent m1 → quiet m m1 →
  ∃ m', (value ← op; note_access a n false value;; mret value) (e, m) = Some (v, (e, m')) ∧
        coherent m' ∧ quiet m m'.
Proof.
  intros Hop Hc Hq. destruct (note_access_run a n false v e m1) as (m' & Hn & Hq' & Hc' & _).
  exists m'. split; [|split; [by apply Hc' | by eapply quiet_trans]].
  rewrite (bind_eq _ _ _ _ _ Hop), (bind_eq _ _ _ _ _ Hn). done.
Qed.

(** * Reads *)

(** The slow path of a read of [get], for an address whose alignment [align]
    keeps. *)
Lemma readmem_allowed n get phys_read align on_fault unmapped va e m phys p :
  mem_inv m → w32 va → align va = va → nz (e .& 0x40) = false →
  permitted m (privileged m) false va phys → phys_at false (board m) phys = Some p →
  (∀ m', board m' = board m → phys_read phys (e, m') = Some (get p (host m'), (e, m'))) →
  (nz (mmu (cp15 m)) = false →
     ∃ m', unmapped (e, m) = Some (tt, (e, m')) ∧ coherent m' ∧ quiet m m') →
  ∃ m', readmem n get phys_read align on_fault unmapped va (e, m) = Some (get p (host m), (e, m')) ∧
        coherent m' ∧ quiet m m'.
Proof.
  intros Hok Hv Hal He Hp Hat Hphys Hun. unfold readmem. rewrite bind_run. unfold ask at 1, gets. cbn beta iota.
  cbn [snd]. destruct (nz (mmu (cp15 m))) eqn:Hon.
  - destruct (cached_page_allowed ReadAny m va e on_fault phys (privileged m))
      as (m1 & Hrun & Hc1 & Hq1 & _ & _ & Hk & Hk2 & _);
      [apply Hok | apply Hok | apply Hok | done | done | done | by apply mo_priv | done |].
    pose proof (permitted_w32 _ _ _ _ _ Hv Hp) as Hw.
    pose proof (permitted_offset _ _ _ _ _ (mo_uniform m Hok) Hv Hp) as Hoff.
    pose proof (mo_board m Hok) as Hb.
    destruct (read_ptr (phys / 0x1000 * 0x1000) va (board m)) as [v|] eqn:Er.
    + apply noted_read with (m1 := set_rmap (vadd v va (phys / 0x1000 * 0x1000)
        (tlbperm (tlb m1) !!! (va .>> 12)) TLB_PERM_USER_R TLB_PERM_PRIV_R (rmap m1)) m1).
      * rewrite (bind_eq _ _ _ _ _ Hrun). unfold ask, gets, mbind, M_bind. cbn beta iota. cbn [snd].
        change (readmemcache2 (pages m1)) with (cache2_of ReadAny (pages m1)).
        rewrite Hk2, (qt_board _ _ Hq1), Er. unfold vradd, alter_mem, modify, mbind, M_bind, mret, M_ret.
        cbn beta iota. cbn [fst snd].
        destruct (read_ptr_at _ _ _ _ Hb Hv Hw Hoff Er) as [Hat' Hrom]. rewrite Hat in Hat'. injection Hat' as ->.
        rewrite Hal, (Z.add_comm va). cbn [host set_rmap]. rewrite <- (qt_host _ _ Hq1).
        destruct (existsb _ ROM_chunk) eqn:E; [rewrite Hrom by done | ]; done.
      * assert (uniform m1) as Hu1 by (eapply quiet_uniform; [exact Hq1 | apply Hok]).
        assert (board_ok (board m1)) as Hb1 by by rewrite (qt_board _ _ Hq1).
        assert (nz (mmu (cp15 m1)) = true) as Hon1 by by rewrite (qt_cp15 _ _ Hq1).
        assert (permitted m1 (privileged m) false va phys) as Hp1
          by (eapply permitted_view; [apply quiet_view; exact Hq1 | done | exact Hp]).
        apply (coherent_vradd m1 va phys (privileged m)); try done. by rewrite (qt_board _ _ Hq1).
      * by eapply quiet_trans.
    + apply noted_read with (m1 := m1); [|done|done].
      rewrite (bind_eq _ _ _ _ _ Hrun). unfold ask, gets, mbind, M_bind. cbn beta iota. cbn [snd].
      change (readmemcache2 (pages m1)) with (cache2_of ReadAny (pages m1)).
      rewrite Hk2, (qt_board _ _ Hq1), Er, Hphys, (qt_host _ _ Hq1) by apply Hq1. done.
  - destruct Hun as (m1 & Hrun & Hc1 & Hq1); [done|]. apply noted_read with (m1 := m1); [|done|done].
    rewrite (bind_eq _ _ _ _ _ Hrun). unfold permitted in Hp. rewrite Hon in Hp. subst phys.
    rewrite Hphys, (qt_host _ _ Hq1) by apply Hq1. done.
Qed.

(** With the MMU off a word read may still install its page. *)
Lemma unmapped_fill_run va e m :
  mem_inv m → w32 va → nz (mmu (cp15 m)) = false →
  ∃ m', unmapped_fill va (e, m) = Some (tt, (e, m')) ∧ coherent m' ∧ quiet m m'.
Proof.
  intros Hok Hv Hoff. unfold unmapped_fill, ask, gets, mbind, M_bind, mret, M_ret. cbn beta iota. cbn [snd].
  destruct (ram_ptr _ va (board m)) as [v|] eqn:Er; [|exists m; split_and!; [done | apply Hok | done]].
  eexists. split; [reflexivity|]. split; [|done].
  apply coherent_fill_read; [apply Hok | done| |].
  2: { intros priv va' phys Hv' Hpg Hp. unfold permitted in Hp. cbn [snd] in Hp. rewrite Hoff in Hp. subst phys.
       by apply region_page. }
  intros priv va' Hv' Hpg _.
  exists va', (u64 (va' + v)). split_and!; [unfold permitted; cbn [snd]; by rewrite Hoff | | done].
  apply ram_ptr_at; [apply Hok | done | done | done|].
  rewrite (ram_ptr_page _ _ va' va) by done. rewrite page_bias in Er.
  rewrite Hpg. replace (va / 0x1000 * 0x1000) with (va - va mod 0x1000); [done|].
  pose proof (Z.div_mod va 0x1000). lia.
Qed.

Lemma fast_entry_at m va priv :
  memmode m = priv_index priv →
  vaddrl (rmap m) !!! page_of (memmode m) (va .>> 12) = fast_entry (rmap m) priv (va / 0x1000) ∧
  vaddrl (wmap m) !!! page_of (memmode m) (va .>> 12) = fast_entry (wmap m) priv (va / 0x1000).
Proof. intros Hm. rewrite page_of_va. unfold fast_entry. by rewrite Hm. Qed.

Lemma nz_land_1 v : nz (v .& 1) = negb (v mod 2 =? 0).
Proof. unfold nz. change 1 with (Z.ones 1). by rewrite Z.land_ones. Qed.
Lemma nz_land_3 v : nz (v .& 3) = negb (v mod 4 =? 0).
Proof. unfold nz. by rewrite mod4_land. Qed.

Lemma mem_read32_allowed va e m phys p :
  mem_inv m → w32 va → va mod 4 = 0 → nz (e .& 0x40) = false →
  permitted m (privileged m) false va phys → phys_at false (board m) phys = Some p →
  ∃ m', mem_read32 va (e, m) = Some (get32 p (host m), (e, m')) ∧ coherent m' ∧ quiet m m'.
Proof.
  intros Hok Hv H4 He Hp Hat. unfold mem_read32. rewrite bind_run. unfold ask at 1, gets. cbn beta iota. cbn [snd].
  destruct (fast_entry_at m va _ (mo_priv m Hok)) as [-> _]. rewrite nz_land_1.
  destruct (Z.eqb_spec (fast_entry (rmap m) (privileged m) (va / 0x1000) mod 2) 0) as [E|E]; cbn [negb].
  - apply noted_read with (m1 := m); [|apply Hok|done].
    destruct (ch_read m (mo_coherent m Hok) va _ Hv E) as (phys' & p' & Hp' & Hat' & Hu).
    rewrite <- (permitted_phys _ _ _ _ _ _ _ _ Hp Hp'), Hat in Hat'. injection Hat' as <-.
    unfold ask, gets. cbn [snd]. by rewrite Hu.
  - unfold readmemfl. apply (readmem_allowed _ _ _ _ _ _ _ _ _ phys); try done.
    + by apply ldiff_3.
    + intros m' Hb. apply mem_phys_read32_at; [by rewrite Hb|].
      pose proof (permitted_offset _ _ _ _ _ (mo_uniform m Hok) Hv Hp) as Ho.
      rewrite <- (Z.mod_mod_divide phys 0x1000 4), Ho, Z.mod_mod_divide by (by exists 0x400). done.
    + intros Hoff. by apply unmapped_fill_run.
Qed.

Lemma mem_read8_allowed va e m phys p :
  mem_inv m → w32 va → nz (e .& 0x40) = false →
  permitted m (privileged m) false va phys → phys_at false (board m) phys = Some p →
  ∃ m', mem_read8 va (e, m) = Some (get8 p (host m), (e, m')) ∧ coherent m' ∧ quiet m m'.
Proof.
  intros Hok Hv He Hp Hat. unfold mem_read8. rewrite bind_run. unfold ask at 1, gets. cbn beta iota. cbn [snd].
  destruct (fast_entry_at m va _ (mo_priv m Hok)) as [-> _]. rewrite nz_land_1.
  destruct (Z.eqb_spec (fast_entry (rmap m) (privileged m) (va / 0x1000) mod 2) 0) as [E|E]; cbn [negb].
  - apply noted_read with (m1 := m); [|apply Hok|done].
    destruct (ch_read m (mo_coherent m Hok) va _ Hv E) as (phys' & p' & Hp' & Hat' & Hu).
    rewrite <- (permitted_phys _ _ _ _ _ _ _ _ Hp Hp'), Hat in Hat'. injection Hat' as <-.
    unfold ask, gets. cbn [snd]. by rewrite Hu.
  - unfold readmemfb. apply (readmem_allowed _ _ _ _ _ _ _ _ _ phys); try done.
    + intros m' Hb. apply mem_phys_read8_at. by rewrite Hb.
    + intros _. exists m. split_and!; [done | apply Hok | done].
Qed.

(** * Faults *)

(** A data abort: the fault registers tell, memory is as it was. *)
Record faulted (va d code : Z) m m' : Prop := {
  fa_board : board m' = board m;
  fa_memmode : memmode m' = memmode m;
  fa_host : host m' = host m;
  fa_cp15 : cp15 m' = set_fault_status (16 * d + code) (set_fault_address va (cp15 m))
}.

Lemma faulted_view va d code m m' : faulted va d code m m' → same_view m m'.
Proof. intros [B _ H C]. by apply same_view_registers; rewrite ?C. Qed.

Lemma coherent_fault va d code m : coherent m → coherent (with_fault va d code false m).
Proof. apply coherent_view; [|done..]. by apply (faulted_view va d code). Qed.

Lemma coherent_drop_read i m :
  coherent m → coherent (set_rmap (set_vaddrl (<[i := 0xffffffff]> (vaddrl (rmap m))) (rmap m)) m).
Proof.
  intros [H1 H2 H3 H4 H5 H6 H7 H8].
  split; [exact H1 | | exact H3 | exact H4 | exact H5 | exact H6 | by apply fast_ring_drop | exact H8].
  intros va priv Hv. unfold fast_entry. cbn [rmap set_rmap vaddrl set_vaddrl]. rewrite carray_get_set.
  case_decide; [done|]. by apply H2.
Qed.

(** The head of a slow path that faults: nothing stays cached. *)
Lemma coherent_page_fault k m va d code :
  coherent m → coherent (upd_pages (set_cache k 0xffffffff) (with_fault va d code false
    (upd_pages (set_cache k (va .>> 12)) (upd_pages (memcache_check_mode (memmode m)) m)))).
Proof.
  intros Hc. set (m1 := upd_pages (memcache_check_mode (memmode m)) m).
  assert (coherent (with_fault va d code false m1)) as H by by apply coherent_fault, coherent_check_mode.
  apply (coherent_forget _ (set_cache k 0xffffffff (set_cache k (va .>> 12) (pages m1)))) in H; [done|].
  intros k'. destruct (decide (k' = k)) as [->|Hne]; [left; apply cache_set_same|right].
  destruct (cache_set_other k k' 0xffffffff (set_cache k (va .>> 12) (pages m1)) Hne) as (-> & -> & _).
  destruct (cache_set_other k k' (va .>> 12) (pages m1) Hne) as (-> & -> & _).
  split_and!; [done | done|]. by destruct k.
Qed.

Lemma access_not_permitted m p w va r phys :
  nz (mmu (cp15 m)) = true → mmu_access m p w va = Some (inr r) → ¬ permitted m p w va phys.
Proof. unfold permitted. intros -> H [perm H']. congruence. Qed.

Section fault.
Variables (va e d code : Z) (m : Mem D).
Hypothesis Hok : mem_inv m.
Hypothesis Hv : w32 va.
Hypothesis Hon : nz (mmu (cp15 m)) = true.

Lemma readmem_fault n get phys_read align on_fault unmapped g :
  mmu_access m (privileged m) false va = Some (inr (d, code)) →
  (∀ e m, on_fault (e, m) = Some (tt, (e, g m))) → (∀ m, coherent m → coherent (g m)) →
  (∀ m f, upd_pages f (g m) = g (upd_pages f m)) → (∀ m1 m2, faulted va d code m1 m2 → faulted va d code m1 (g m2)) →
  ∃ m', readmem n get phys_read align on_fault unmapped va (e, m) = Some (0, (e .| 0x40, m')) ∧
        coherent m' ∧ faulted va d code m m'.
Proof.
  intros Ha Hg Hgc Hgp Hgf.
  assert (cached_page ReadAny va on_fault (e, m) = Some (None, (e .| 0x40,
    upd_pages (set_cache ReadAny 0xffffffff) (g (with_fault va d code false
      (upd_pages (set_cache ReadAny (va .>> 12)) (upd_pages (memcache_check_mode (memmode m)) m))))))) as Hrun.
  { by apply (cached_page_fault ReadAny m va e on_fault g (privileged m));
      [apply Hok | apply Hok | | | apply mo_priv | ..]. }
  eexists. split; [|split].
  - unfold readmem. rewrite bind_run. unfold ask at 1, gets. cbn beta iota. cbn [snd]. rewrite Hon.
    rewrite !bind_assoc, (bind_eq _ _ _ _ _ Hrun). reflexivity.
  - apply coherent_view with (m := upd_pages (set_cache ReadAny 0xffffffff) (g (with_fault va d code false
      (upd_pages (set_cache ReadAny (va .>> 12)) (upd_pages (memcache_check_mode (memmode m)) m))))); try done.
    rewrite Hgp. by apply Hgc, coherent_page_fault, Hok.
  - assert (faulted va d code m (upd_pages (set_cache ReadAny 0xffffffff) (g (with_fault va d code false
      (upd_pages (set_cache ReadAny (va .>> 12)) (upd_pages (memcache_check_mode (memmode m)) m)))))) as [] by by rewrite Hgp; apply Hgf.
    done.
Qed.

Lemma mem_read32_fault :
  mmu_access m (privileged m) false va = Some (inr (d, code)) →
  ∃ m', mem_read32 va (e, m) = Some (0, (e .| 0x40, m')) ∧ coherent m' ∧ faulted va d code m m'.
Proof.
  intros Ha. unfold mem_read32. rewrite bind_run. unfold ask at 1, gets. cbn beta iota. cbn [snd].
  destruct (fast_entry_at m va _ (mo_priv m Hok)) as [-> _]. rewrite nz_land_1.
  destruct (Z.eqb_spec (fast_entry (rmap m) (privileged m) (va / 0x1000) mod 2) 0) as [E|E]; cbn [negb].
  - destruct (ch_read m (mo_coherent m Hok) va _ Hv E) as (phys & _ & Hp & _).
    by destruct (access_not_permitted m _ _ _ _ phys Hon Ha).
  - apply (readmem_fault _ _ _ _ _ _ (λ m, set_rmap (set_vaddrl
      (<[page_of (memmode m) (va .>> 12) := 0xffffffff]> (vaddrl (rmap m))) (rmap m)) m)); try done.
    + intros m'. apply coherent_drop_read.
    + by intros m1 m2 [].
Qed.

Lemma mem_read8_fault :
  mmu_access m (privileged m) false va = Some (inr (d, code)) →
  ∃ m', mem_read8 va (e, m) = Some (0, (e .| 0x40, m')) ∧ coherent m' ∧ faulted va d code m m'.
Proof.
  intros Ha. unfold mem_read8. rewrite bind_run. unfold ask at 1, gets. cbn beta iota. cbn [snd].
  destruct (fast_entry_at m va _ (mo_priv m Hok)) as [-> _]. rewrite nz_land_1.
  destruct (Z.eqb_spec (fast_entry (rmap m) (privileged m) (va / 0x1000) mod 2) 0) as [E|E]; cbn [negb].
  - destruct (ch_read m (mo_coherent m Hok) va _ Hv E) as (phys & _ & Hp & _).
    by destruct (access_not_permitted m _ _ _ _ phys Hon Ha).
  - by apply (readmem_fault _ _ _ _ _ _ (λ m, m)).
Qed.
End fault.

(** * Writes *)

(** A store of [h]: nothing changes but the contents of memory and the caches,
    which stay coherent as long as what the tables say does not change. *)
Record stored (h : gmap Z Z) m m' : Prop := {
  st_board : board m' = board m;
  st_cp15 : cp15 m' = cp15 m;
  st_memmode : memmode m' = memmode m;
  st_host : host m' = h;
  st_coherent : same_view m m' → coherent m'
}.

(** From a coherent state that differs from [m] in its caches, to one that
    differs from it in the contents of memory. *)
Lemma stored_intro h m m1 m' :
  coherent m1 → quiet m m1 → board m' = board m1 → cp15 m' = cp15 m1 → memmode m' = memmode m1 → host m' = h →
  tlb m' = tlb m1 → rmap m' = rmap m1 → wmap m' = wmap m1 → pages m' = pages m1 → stored h m m'.
Proof.
  intros Hc Hq Hb Hcp Hmd Hh Ht Hr Hw Hp. destruct Hq as [B C M H].
  split; [congruence | congruence | congruence | done |]. intros [B' M' A'].
  apply (coherent_view m1); [|done..]. split; [done | by rewrite Hcp |]. intros p w va Hv.
  rewrite A' by done. unfold mmu_access, walk, level1, phys_word, word_at. by rewrite B, C, H.
Qed.

(** The physical write at the end of the slow path. *)
Lemma noted_write n (op : M (Z * Mem D) unit) va val e m m1 h :
  coherent m1 → quiet m m1 →
  (∃ m2, op (e, m1) = Some (tt, (e, m2)) ∧ same_mmu m1 m2 ∧ host m2 = h) →
  ∃ m', (op;; note_access va n true val) (e, m1) = Some (tt, (e, m')) ∧ stored h m m'.
Proof.
  intros Hc Hq (m2 & Hop & Hs & Hh). eexists. split; [rewrite (bind_eq _ _ _ _ _ Hop); reflexivity|].
  destruct Hs. by apply (stored_intro _ m m1).
Qed.

Lemma writemem_allowed k n phys_write va val e m phys p put :
  is_write k = true → mem_inv m → w32 va → nz (e .& 0x40) = false →
  permitted m (privileged m) true va phys → phys_at true (board m) phys = Some p →
  (k = WriteByte → existsb (Z.eqb (chunk (phys / 0x1000 * 0x1000) (board m))) EASI_chunks = true →
     writememcache2 (pages m) = phys / 0x1000 * 0x1000) →
  (∀ m', board m' = board m → ∃ m2,
     phys_write phys val (e, m') = Some (tt, (e, m2)) ∧ same_mmu m' m2 ∧ host m2 = put p val (host m')) →
  ∃ m', writemem k n phys_write va val (e, m) = Some (tt, (e, m')) ∧ stored (put p val (host m)) m m'.
Proof.
  intros Hk Hok Hv He Hp Hat Hfb Hphys. unfold writemem. rewrite bind_run. unfold ask at 1, gets. cbn beta iota.
  cbn [snd]. destruct (nz (mmu (cp15 m))) eqn:Hon.
  - destruct (cached_page_allowed k m va e (mret tt) phys (privileged m))
      as (m1 & Hrun & Hc1 & Hq1 & Er & Ew & Hk1 & Hk2 & Hk3);
      [apply Hok | apply Hok | apply Hok | done | done | done | by apply mo_priv | by rewrite Hk |].
    assert (uniform m1) as Hu1 by (eapply quiet_uniform; [exact Hq1 | apply Hok]).
    assert (board_ok (board m1)) as Hb1 by (rewrite (qt_board _ _ Hq1); apply Hok).
    assert (nz (mmu (cp15 m1)) = true) as Hon1 by by rewrite (qt_cp15 _ _ Hq1).
    assert (permitted m1 (privileged m) true va phys) as Hp1
      by (eapply permitted_view; [apply quiet_view; exact Hq1 | done | exact Hp]).
    assert (∃ m2, (match write_ptr (cache2_of k (pages m1)) (writememcache2 (pages m1)) va (board m1) with
        | Some (v, noted) => vwadd va v noted | None => mret tt end) (e, m1) = Some (tt, (e, m2)) ∧
        coherent m2 ∧ quiet m m2) as (m2 & Hrun2 & Hc2 & Hq2).
    { rewrite Hk2. destruct (write_ptr _ _ _ _) as [[v noted]|] eqn:Ep; [|by exists m1].
      eexists. split; [reflexivity|]. split; [|by eapply quiet_trans].
      eapply (coherent_vwadd m1 k va phys); [done..| |exact Ep]. intros Hea.
      destruct k; [done | by rewrite <- Hk2 |].
      change (writememcache2 (pages m1)) with (cache2_of WriteWord (pages m1)). rewrite Hk3 by done.
      apply Hfb; [done|]. by rewrite <- (qt_board _ _ Hq1). }
    rewrite !bind_assoc, (bind_eq _ _ _ _ _ Hrun). cbn beta iota. rewrite bind_assoc, bind_run.
    unfold ask at 1, gets. cbn beta iota. cbn [snd]. rewrite bind_assoc, bind_run. unfold ask at 1, gets.
    cbn beta iota. cbn [snd]. rewrite bind_assoc, (bind_eq _ _ _ _ _ Hrun2). cbn beta iota.
    rewrite bind_ret_l. apply (noted_write _ _ _ _ _ m m2); [done|done|].
    rewrite <- (qt_host _ _ Hq2). by apply Hphys, Hq2.
  - unfold permitted in Hp. rewrite Hon in Hp. subst phys.
    rewrite bind_ret_l. apply (noted_write _ _ _ _ _ m m); [apply Hok|done|]. by apply Hphys.
Qed.

(** The fast path. *)
Lemma fast_write n va val e m phys p put :
  mem_inv m → w32 va → permitted m (privileged m) true va phys → phys_at true (board m) phys = Some p →
  fast_entry (wmap m) (privileged m) (va / 0x1000) mod 4 = 0 →
  ∃ m', (alter_mem (λ m, set_host (put (u64 (va + fast_entry (wmap m) (privileged m) (va / 0x1000))) val (host m)) m);;
         note_access va n true val) (e, m) = Some (tt, (e, m')) ∧ stored (put p val (host m)) m m'.
Proof.
  intros Hok Hv Hp Hat E. apply (noted_write _ _ _ _ _ m m); [apply Hok|done|].
  destruct (ch_write m (mo_coherent m Hok) va _ Hv E) as (phys' & p' & Hp' & Hat' & Hu).
  rewrite <- (permitted_phys _ _ _ _ _ _ _ _ Hp Hp'), Hat in Hat'. injection Hat' as <-.
  eexists. split; [reflexivity|]. split; [done|]. cbn [host set_host snd fst]. by rewrite Hu.
Qed.

Lemma mem_write32_allowed va val e m phys p :
  mem_inv m → w32 va → va mod 4 = 0 → nz (e .& 0x40) = false →
  permitted m (privileged m) true va phys → phys_at true (board m) phys = Some p →
  ∃ m', mem_write32 va val (e, m) = Some (tt, (e, m')) ∧ stored (put32 p val (host m)) m m'.
Proof.
  intros Hok Hv H4 He Hp Hat. unfold mem_write32. rewrite bind_run. unfold ask at 1, gets. cbn beta iota. cbn [snd].
  destruct (fast_entry_at m va _ (mo_priv m Hok)) as [_ Hf]. rewrite Hf, nz_land_3.
  destruct (Z.eqb_spec (fast_entry (wmap m) (privileged m) (va / 0x1000) mod 4) 0) as [E|E]; cbn [negb].
  - by apply (fast_write 4 va val e m phys p put32).
  - unfold writememfl. apply (writemem_allowed WriteWord _ _ _ _ _ _ phys); try done.
    intros m' Hb. apply mem_phys_write32_at; [by rewrite Hb|].
    pose proof (permitted_offset _ _ _ _ _ (mo_uniform m Hok) Hv Hp) as Ho.
    rewrite <- (Z.mod_mod_divide phys 0x1000 4), Ho, Z.mod_mod_divide by (by exists 0x400). done.
Qed.

Lemma mem_write8_allowed va val e m phys p :
  mem_inv m → w32 va → nz (e .& 0x40) = false →
  permitted m (privileged m) true va phys → phys_at true (board m) phys = Some p →
  (existsb (Z.eqb (chunk (phys / 0x1000 * 0x1000) (board m))) EASI_chunks = true →
     writememcache2 (pages m) = phys / 0x1000 * 0x1000) →
  ∃ m', mem_write8 va val (e, m) = Some (tt, (e, m')) ∧ stored (put8 p val (host m)) m m'.
Proof.
  intros Hok Hv He Hp Hat Hfb. unfold mem_write8. rewrite bind_run. unfold ask at 1, gets. cbn beta iota. cbn [snd].
  destruct (fast_entry_at m va _ (mo_priv m Hok)) as [_ Hf]. rewrite Hf, nz_land_3.
  destruct (Z.eqb_spec (fast_entry (wmap m) (privileged m) (va / 0x1000) mod 4) 0) as [E|E]; cbn [negb].
  - by apply (fast_write 1 va val e m phys p put8).
  - unfold writememfb. apply (writemem_allowed WriteByte _ _ _ _ _ _ phys); try done.
    intros m' Hb. apply mem_phys_write8_at. by rewrite Hb.
Qed.

Section write_fault.
Variables (va val e d code : Z) (m : Mem D).
Hypothesis Hok : mem_inv m.
Hypothesis Hv : w32 va.
Hypothesis Hon : nz (mmu (cp15 m)) = true.
Hypothesis Ha : mmu_access m (privileged m) true va = Some (inr (d, code)).

Lemma writemem_fault k n phys_write :
  is_write k = true →
  ∃ m', writemem k n phys_write va val (e, m) = Some (tt, (e .| 0x40, m')) ∧ coherent m' ∧ faulted va d code m m'.
Proof.
  intros Hk. eexists. split; [|split].
  - unfold writemem. rewrite bind_run. unfold ask at 1, gets. cbn beta iota. cbn [snd]. rewrite Hon.
    rewrite !bind_assoc.
    rewrite (bind_eq _ _ _ _ _ (cached_page_fault k m va e (mret tt : M (Z * Mem D) unit) (λ m, m) (privileged m) d code
      (mo_coherent m Hok) (mo_cp15 m Hok) Hv Hon (mo_priv m Hok) ltac:(by rewrite Hk) ltac:(done))).
    reflexivity.
  - by apply coherent_page_fault, Hok.
  - done.
Qed.

Lemma slow_write_entry :
  nz (fast_entry (wmap m) (privileged m) (va / 0x1000) .& 3) = true.
Proof.
  rewrite nz_land_3. destruct (Z.eqb_spec (fast_entry (wmap m) (privileged m) (va / 0x1000) mod 4) 0) as [E|]; [|done].
  destruct (ch_write m (mo_coherent m Hok) va _ Hv E) as (phys & _ & Hp & _).
  by destruct (access_not_permitted m _ _ _ _ phys Hon Ha).
Qed.

Lemma mem_write32_fault :
  ∃ m', mem_write32 va val (e, m) = Some (tt, (e .| 0x40, m')) ∧ coherent m' ∧ faulted va d code m m'.
Proof.
  unfold mem_write32. rewrite bind_run. unfold ask at 1, gets. cbn beta iota. cbn [snd].
  destruct (fast_entry_at m va _ (mo_priv m Hok)) as [_ ->]. rewrite slow_write_entry. by apply writemem_fault.
Qed.

Lemma mem_write8_fault :
  ∃ m', mem_write8 va val (e, m) = Some (tt, (e .| 0x40, m')) ∧ coherent m' ∧ faulted va d code m m'.
Proof.
  unfold mem_write8. rewrite bind_run. unfold ask at 1, gets. cbn beta iota. cbn [snd].
  destruct (fast_entry_at m va _ (mo_priv m Hok)) as [_ ->]. rewrite slow_write_entry. by apply writemem_fault.
Qed.
End write_fault.
End accessors.
