(* ===== verification/MemFlush.v ===== *)
(** What empties the caches: the loops over the rings are complete, so after a
    flush nothing is cached, whatever the tables now say, and the writes to the
    registers of the coprocessor keep the caches coherent. *)

From S2P Require Export MemTransparent.

(** * The TLB *)

Lemma flush_slot_same t c page :
  0 ≤ page < 0x100000 → tlb_valid (tlb_flush_slot t c) page = true →
  tlb_valid t page = true ∧ tlbcache2 t !!! c ≠ page.
Proof.
  intros Hpg. unfold tlb_flush_slot. destruct (Z.eqb_spec (tlbcache2 t !!! c) 0xffffffff) as [E|E].
  - intros H. split; [done|]. lia.
  - unfold tlb_valid, tlb_set. cbn. rewrite carray_get_set. by case_decide.
Qed.

Lemma flush_slot_ring t c c' :
  tlbcache2 (tlb_flush_slot t c) !!! c' = tlbcache2 t !!! c' ∨ c' = c.
Proof.
  unfold tlb_flush_slot. destruct (_ =? _); [by left|]. cbn. rewrite carray_get_set.
  case_decide; [by right | by left].
Qed.

Lemma flush_loop l t page :
  0 ≤ page < 0x100000 → tlb_valid (foldl tlb_flush_slot t l) page = true →
  tlb_valid t page = true ∧ ∀ c, c ∈ l → tlbcache2 t !!! c ≠ page.
Proof.
  intros Hpg. revert t. induction l as [|c l IH]; intros t; cbn [foldl].
  { intros H. split; [done|]. intros c Hc. by apply not_elem_of_nil in Hc. }
  intros H. apply IH in H as [Hv Hr]. destruct (flush_slot_same t c page Hpg Hv) as [Hv' Hc].
  split; [done|]. intros c' [->|Hin]%elem_of_cons; [done|].
  destruct (flush_slot_ring t c c') as [<-| ->]; [by apply Hr | done].
Qed.

Lemma flush_pos l t : tlbcachepos (foldl tlb_flush_slot t l) = tlbcachepos t.
Proof.
  revert t. induction l as [|c l IH]; intros t; [done|]. cbn [foldl]. rewrite IH. unfold tlb_flush_slot.
  by destruct (_ =? _).
Qed.

(** Every entry is in a slot of the ring, so none is left. *)
Lemma tlb_flush_loop t : cp15_tlb_flush t = foldl tlb_flush_slot t (seqZ 0 TLBCACHESIZE).
Proof. reflexivity. Qed.

Lemma flush_none t page : tlb_ring t → 0 ≤ page < 0x100000 → tlb_valid (cp15_tlb_flush t) page = false.
Proof.
  intros [Hpos Hcov] Hpg. destruct (tlb_valid (cp15_tlb_flush t) page) eqn:E; [|done].
  rewrite tlb_flush_loop in E. apply (flush_loop _ _ _ Hpg) in E as [Hv Hr]. destruct (Hcov page Hpg Hv) as (c & Hc & Heq).
  destruct (Hr c); [apply elem_of_seqZ; lia | done].
Qed.

Lemma flush_ring t : tlb_ring t → tlb_ring (cp15_tlb_flush t).
Proof.
  intros H. split; [rewrite tlb_flush_loop, flush_pos; apply H|].
  intros page Hpg Hv. by rewrite flush_none in Hv.
Qed.

(** * The fast maps *)

(** The two loops over the rings: what [P] says of the physical address in a
    slot decides if its page is dropped. *)
Definition drop_if (P : Z → bool) (f : FastMap) (mc : Z * Z) : FastMap :=
  let '(m, c) := mc in
  if negb (vaddrls f !!! slot_of m c =? 0xffffffff) && P (vaddrphys f !!! slot_of m c)
  then vaddr_drop m c f else f.

Lemma vaddr_reset_drop f : vaddr_reset f = foldl (drop_if (λ _, true)) f ring_slots.
Proof.
  unfold vaddr_reset. generalize ring_slots as l. intros l. revert f.
  induction l as [|[m c] l IH]; intros f; [done|]. cbn [foldl]. rewrite IH. f_equal.
  unfold vaddr_reset_slot, drop_if. by destruct (_ =? _).
Qed.

Lemma vaddr_invalidate_drop addr f :
  vaddr_invalidate addr f = foldl (drop_if (λ ph, region ph =? addr)) f ring_slots.
Proof. reflexivity. Qed.

Definition in_ring (mc : bool * Z) : Prop := 0 ≤ snd mc < VADDR_RING_SIZE.
Definition slot (mc : bool * Z) : Z * Z := (priv_index (fst mc), snd mc).

(** The loops visit every slot. *)
Lemma loop_slots (l : list Z) :
  (m ← [0; 1]; c ← l; [(m, c)]) = slot <$> (p ← [false; true]; c ← l; [(p, c)]).
Proof.
  cbn [mbind list_bind]. rewrite !app_nil_r, fmap_app. f_equal.
  all: induction l as [|c l IH]; [done|]; cbn; by f_equal.
Qed.

Lemma elem_of_loop (l : list Z) (p : bool) (c : Z) :
  (p, c) ∈ (p ← [false; true]; c ← l; [(p, c)]) ↔ c ∈ l.
Proof.
  rewrite list_elem_of_bind. split.
  - intros (q & Hin & _). apply list_elem_of_bind in Hin as (c' & Hin & Hc).
    apply list_elem_of_singleton in Hin. by injection Hin as _ ->.
  - intros Hc. exists p. split; [|destruct p; [by right; left | by left]].
    apply list_elem_of_bind. exists c. split; [by left | done].
Qed.

Lemma ring_slots_eq :
  ∃ l, ring_slots = slot <$> l ∧ Forall in_ring l ∧ ∀ mc, in_ring mc → mc ∈ l.
Proof.
  unfold ring_slots. rewrite loop_slots. eexists. split; [reflexivity|].
  assert (∀ c, c ∈ seqZ 0 VADDR_RING_SIZE ↔ 0 ≤ c < VADDR_RING_SIZE) as H
    by (intros c; rewrite elem_of_seqZ; lia).
  revert H. generalize (seqZ 0 VADDR_RING_SIZE). intros l H. split.
  - apply list.Forall_forall. intros [p c] Hin. by apply elem_of_loop, H in Hin.
  - intros [p c] Hc. by apply elem_of_loop, H.
Qed.

Lemma drop_if_keeps P f mc mc' :
  in_ring mc → in_ring mc' → mc' ≠ mc →
  let f' := drop_if P f (slot mc) in
  let i := slot_of (priv_index (fst mc')) (snd mc') in
  vaddrls f' !!! i = vaddrls f !!! i ∧ vaddrphys f' !!! i = vaddrphys f !!! i.
Proof.
  destruct mc as [p c], mc' as [p' c']. unfold in_ring, drop_if, slot. cbn [fst snd]. intros Hc Hc' Hne.
  destruct (_ && _); [|done]. unfold vaddr_drop. cbn.
  assert (slot_of (priv_index p) c ≠ slot_of (priv_index p') c') as Hi
    by (intros E; apply slot_of_inj in E as [-> ->]; done).
  by rewrite !carray_other.
Qed.

(** What is left was there before, and no slot of it satisfied [P]. *)
Lemma drop_if_entry P f mc priv page :
  0 ≤ page < 0x100000 → fast_entry (drop_if P f (slot mc)) priv page ≠ 0xffffffff →
  fast_entry (drop_if P f (slot mc)) priv page = fast_entry f priv page ∧
  (fst mc = priv → vaddrls f !!! slot_of (priv_index priv) (snd mc) = page →
   P (vaddrphys f !!! slot_of (priv_index priv) (snd mc)) = false).
Proof.
  destruct mc as [p c]. unfold drop_if, slot. cbn [fst snd]. intros Hpg.
  destruct (Z.eqb_spec (vaddrls f !!! slot_of (priv_index p) c) 0xffffffff) as [E|E]; cbn [negb andb].
  { intros _. split; [done|]. intros <- Hs. lia. }
  destruct (P _) eqn:EP; [|intros _; split; [done|]; by intros <- _].
  unfold fast_entry, vaddr_drop. cbn [vaddrl]. rewrite carray_get_set. case_decide as Hd; [done|].
  intros _. split; [done|]. intros -> Hs. by rewrite Hs in Hd.
Qed.

Lemma drop_loop P l f priv page :
  Forall in_ring l → 0 ≤ page < 0x100000 →
  fast_entry (foldl (drop_if P) f (slot <$> l)) priv page ≠ 0xffffffff →
  fast_entry (foldl (drop_if P) f (slot <$> l)) priv page = fast_entry f priv page ∧
  ∀ c, (priv, c) ∈ l → vaddrls f !!! slot_of (priv_index priv) c = page →
       P (vaddrphys f !!! slot_of (priv_index priv) c) = false.
Proof.
  intros Hl Hpg. revert f. induction Hl as [|mc l Hmc Hl IH]; intros f; cbn [fmap list_fmap foldl].
  { intros H. split; [done|]. intros c Hc. by apply not_elem_of_nil in Hc. }
  intros H. destruct (IH _ H) as [He Hr]. rewrite He in H.
  destruct (drop_if_entry P f mc priv page Hpg H) as [He' Hr']. split; [by rewrite He, He'|].
  intros c Hin. destruct (decide ((priv, c) = mc)) as [<-|Hne]; [by apply Hr'|].
  apply elem_of_cons in Hin as [?|Hin]; [done|]. pose proof (proj1 (list.Forall_forall _ _) Hl _ Hin) as Hc.
  destruct (drop_if_keeps P f mc (priv, c) Hmc Hc Hne) as [E1 E2]. cbn [fst snd] in E1, E2.
  rewrite <- E1, <- E2. by apply Hr.
Qed.

Lemma drop_pos P l f : vaddrlpos (foldl (drop_if P) f l) = vaddrlpos f.
Proof.
  revert f. induction l as [|[m c] l IH]; intros f; [done|]. cbn [foldl]. rewrite IH. unfold drop_if.
  by destruct (_ && _).
Qed.

(** The slots of the pages that stay are untouched. *)
Lemma drop_loop_slot P l f priv c :
  Forall in_ring l → 0 ≤ c < VADDR_RING_SIZE →
  P (vaddrphys f !!! slot_of (priv_index priv) c) = false →
  let f' := foldl (drop_if P) f (slot <$> l) in
  vaddrls f' !!! slot_of (priv_index priv) c = vaddrls f !!! slot_of (priv_index priv) c ∧
  vaddrphys f' !!! slot_of (priv_index priv) c = vaddrphys f !!! slot_of (priv_index priv) c.
Proof.
  intros Hl Hc. revert f. induction Hl as [|mc l Hmc Hl IH]; intros f HP; [done|]. cbn [fmap list_fmap foldl].
  assert (vaddrls (drop_if P f (slot mc)) !!! slot_of (priv_index priv) c = vaddrls f !!! slot_of (priv_index priv) c ∧
    vaddrphys (drop_if P f (slot mc)) !!! slot_of (priv_index priv) c = vaddrphys f !!! slot_of (priv_index priv) c) as [E1 E2].
  { destruct (decide ((priv, c) = mc)) as [<-|Hne].
    - unfold drop_if, slot. cbn [fst snd]. by rewrite HP, andb_false_r.
    - exact (drop_if_keeps P f mc (priv, c) Hmc Hc Hne). }
  rewrite <- E1, <- E2. apply IH. by rewrite E2.
Qed.

Lemma drop_entry P f priv page :
  0 ≤ page < 0x100000 → fast_entry (foldl (drop_if P) f ring_slots) priv page ≠ 0xffffffff →
  fast_entry (foldl (drop_if P) f ring_slots) priv page = fast_entry f priv page ∧
  ∀ c, 0 ≤ c < VADDR_RING_SIZE → vaddrls f !!! slot_of (priv_index priv) c = page →
       P (vaddrphys f !!! slot_of (priv_index priv) c) = false.
Proof.
  destruct ring_slots_eq as (l & -> & Hl & Hall). intros Hpg He.
  destruct (drop_loop P l f priv page Hl Hpg He) as [E Hr]. split; [done|].
  intros c Hc. by apply Hr, Hall.
Qed.

Lemma drop_ring R P f :
  fast_ring R f → fast_ring (λ priv page ph, R priv page ph ∧ P ph = false) (foldl (drop_if P) f ring_slots).
Proof.
  intros [Hpos Hcov]. split; [by rewrite drop_pos|]. intros priv page Hpg He.
  destruct (drop_entry P f priv page Hpg He) as [E Hr]. rewrite E in He.
  destruct (Hcov priv page Hpg He) as (c & Hc & Hs & HR). exists c. split; [done|].
  destruct ring_slots_eq as (l & -> & Hl & _).
  destruct (drop_loop_slot P l f priv c Hl Hc (Hr c Hc Hs)) as [-> ->]. split_and!; [done | done |]. by apply Hr.
Qed.

(** * The flushes *)

Lemma reset_entry R f priv page :
  fast_ring R f → 0 ≤ page < 0x100000 → fast_entry (vaddr_reset f) priv page = 0xffffffff.
Proof.
  intros [_ Hcov] Hpg. rewrite vaddr_reset_drop.
  destruct (decide (fast_entry (foldl (drop_if (λ _, true)) f ring_slots) priv page = 0xffffffff)) as [?|He]; [done|].
  destruct (drop_entry _ _ _ _ Hpg He) as [E Hr]. rewrite E in He.
  destruct (Hcov priv page Hpg He) as (c & Hc & Hs & _). by specialize (Hr c Hc Hs).
Qed.

Lemma reset_ring R R' f : fast_ring R f → fast_ring R' (vaddr_reset f).
Proof.
  intros H. split; [rewrite vaddr_reset_drop, drop_pos; apply H|]. intros priv page Hpg He.
  by rewrite (reset_entry R) in He.
Qed.

Section flush.
Context {D : Type} `{!IoDev D}.
Implicit Types m : Mem D.

(** That the rings are complete, which is all a flush needs. *)
Definition rings m : Prop :=
  tlb_ring (tlb m) ∧ fast_ring (λ _ _ _, True) (rmap m) ∧ fast_ring (λ _ _ _, True) (wmap m).

Lemma coherent_rings m : coherent m → rings m.
Proof.
  intros H. split_and!; [apply H | |]; (eapply fast_ring_impl; [|apply H]); done.
Qed.

(** After [cp15_tlb_flush_all] no translation is cached. *)
Record flushed m : Prop := {
  fl_tlb page : 0 ≤ page < 0x100000 → tlb_valid (tlb m) page = false;
  fl_read priv page : 0 ≤ page < 0x100000 → fast_entry (rmap m) priv page = 0xffffffff;
  fl_write priv page : 0 ≤ page < 0x100000 → fast_entry (wmap m) priv page = 0xffffffff;
  fl_page k : cache_of k (pages m) = 0xffffffff
}.

Lemma flush_all_flushed m : rings m → flushed (cp15_tlb_flush_all m) ∧ rings (cp15_tlb_flush_all m).
Proof.
  intros (Ht & Hr & Hw). unfold cp15_tlb_flush_all, cp15_vaddr_reset, upd_tlb. split.
  - split; cbn [tlb rmap wmap pages set_tlb set_rmap set_wmap set_pages].
    + intros page Hpg. by apply flush_none.
    + intros priv page Hpg. by eapply reset_entry.
    + intros priv page Hpg. by eapply reset_entry.
    + by intros [].
  - unfold rings. cbn [tlb rmap wmap pages set_tlb set_rmap set_wmap set_pages].
    split_and!; [by apply flush_ring | by eapply reset_ring | by eapply reset_ring].
Qed.

(** With nothing cached the caches agree with any tables. *)
Lemma flushed_coherent m : flushed m → rings m → coherent m.
Proof.
  intros [Ft Fr Fw Fp] (Ht & Hr & Hw). split.
  - intros va p w Hv _. by rewrite Ft by by apply page_range.
  - intros va p Hv. by rewrite Fr by by apply page_range.
  - intros va p Hv. by rewrite Fw by by apply page_range.
  - intros va p k Hv _ E. rewrite Fp in E. pose proof (page_range va Hv). lia.
  - intros va k Hv _ E. rewrite Fp in E. pose proof (page_range va Hv). lia.
  - done.
  - split; [apply Hr|]. intros p page Hpg. by rewrite Fr.
  - split; [apply Hw|]. intros p page Hpg. by rewrite Fw.
Qed.

Lemma flush_all_coherent m : rings m → coherent (cp15_tlb_flush_all m).
Proof. intros H. destruct (flush_all_flushed m H). by apply flushed_coherent. Qed.
End flush.
