(* ===== verification/Cp15Spec.v ===== *)
(** The operations of cp15.c on a coherent state: reset, the writes to the
    registers, the invalidation of a region of physical memory, and the
    pointer instructions are fetched through. *)

From S2P Require Export MemFlush.

(** Steps a write to a register to its result. *)
Ltac run_write H :=
  unfold mret, M_ret, when, modify, mbind, M_bind in H; cbv beta iota in H; injection H as <- <-.

Section cp15_spec.
Context {D : Type} `{!IoDev D}.
Implicit Types m : Mem D.

(** The registers, and that [mmu] is the bit of the control register. *)
Record cp15_inv (c : CP15) : Prop := {
  ci_ok : cp15_ok c;
  ci_mmu : mmu c = ctrl c .& CP15_CTRL_MMU
}.

(** * Reset *)

Lemma reset_mmu model m : mmu (cp15 (cp15_reset model m)) = 0.
Proof. done. Qed.

Lemma reset_coherent model m : rings m → coherent (cp15_reset model m).
Proof.
  intros (_ & Hr & Hw).
  assert (∀ R f, (∀ priv, 0 ≤ vaddrlpos f !!! priv_index priv < VADDR_RING_SIZE) →
    fast_ring R (mkFastMap (memset 0xffffffff) (memset 0xffffffff) (vaddrphys f) (vaddrlpos f))) as Hf.
  { intros R f Hp. by split. }
  split.
  - intros va p w _. by rewrite reset_mmu.
  - done.
  - done.
  - intros va p k _. by rewrite reset_mmu.
  - intros va k _. by rewrite reset_mmu.
  - by split.
  - apply Hf, Hr.
  - apply Hf, Hw.
Qed.

Lemma reset_inv model m : cp15_ok (cp15 m) → cp15_inv (cp15 (cp15_reset model m)).
Proof. intros [H1 H2 H3 H4 H5 H6]. destruct model; (split; [by split; cbn | done]). Qed.

(** * Writes to the registers *)

(** The bits of the control register that the tables are read with. *)
Lemma control_access m m' p w va :
  ctrl (cp15 m') .& 0x300 = ctrl (cp15 m) .& 0x300 →
  board m' = board m → host m' = host m →
  translation_table (cp15 m') = translation_table (cp15 m) →
  domain_access_control (cp15 m') = domain_access_control (cp15 m) →
  tlbram (cp15 m') = tlbram (cp15 m) → tlbrammask (cp15 m') = tlbrammask (cp15 m) →
  mmu_access m' p w va = mmu_access m p w va.
Proof.
  intros Hc Hb Hh Ht Hd Hr Hm.
  assert (∀ ap p w, cp15_check_permissions (ctrl (cp15 m')) ap p w =
                    cp15_check_permissions (ctrl (cp15 m)) ap p w) as Ec
    by (intros; unfold cp15_check_permissions; by rewrite Hc).
  assert (walk m' va = walk m va) as Ew.
  { unfold walk, level1, phys_word, word_at. by rewrite Hb, Hh, Ht, Hr, Hm. }
  unfold mmu_access. rewrite Ew, Hd. destruct (walk m va) as [[|x d ap s]|]; cbn; [done| |done].
  unfold cp15_perm_mask. cbn [foldl]. by rewrite !Ec.
Qed.

Lemma xor_mask a b x y : (a .^ b) .& x = 0 → y .& x = y → a .& y = b .& y.
Proof.
  intros H Hy. apply Z.bits_inj'. intros i Hi. rewrite !Z.land_spec.
  assert (Z.testbit ((a .^ b) .& x) i = false) as Hb by (rewrite H; apply Z.bits_0).
  rewrite Z.land_spec, Z.lxor_spec in Hb. rewrite <- Hy, Z.land_spec.
  destruct (Z.testbit a i), (Z.testbit b i), (Z.testbit x i), (Z.testbit y i); done.
Qed.

Lemma control_write_view m v :
  cp15_inv (cp15 m) → nz ((ctrl (cp15 m) .^ v) .& 0x301) = false →
  same_view m (upd_cp15 (λ c, set_prog32 (v .& CP15_CTRL_PROG32) (set_mmu (v .& CP15_CTRL_MMU)
    (set_icache (v .& CP15_CTRL_ICACHE) (set_dcache (v .& CP15_CTRL_CACHE) (set_ctrl v c))))) m).
Proof.
  intros [_ Hm] Hx. apply negb_false_iff, Z.eqb_eq in Hx. split; [done | |].
  - cbn. rewrite Hm. symmetry. by apply (xor_mask _ _ 0x301).
  - intros p w va _. apply control_access; try done. cbn. symmetry. by apply (xor_mask _ _ 0x301).
Qed.

Lemma flushed_upd m (f : CP15 → CP15) : flushed m ∧ rings m → coherent (upd_cp15 f m).
Proof. intros [[F1 F2 F3 F4] Hr]. apply flushed_coherent; [by split | exact Hr]. Qed.

Lemma flush_coherent_upd m (f : CP15 → CP15) : rings m → coherent (upd_cp15 f (cp15_tlb_flush_all m)).
Proof. intros H. by apply flushed_upd, flush_all_flushed. Qed.

Lemma flush_registers m : cp15 (cp15_tlb_flush_all m) = cp15 m.
Proof. reflexivity. Qed.

Lemma flush_frame m :
  cp15 (cp15_tlb_flush_all m) = cp15 m ∧ board (cp15_tlb_flush_all m) = board m ∧
  host (cp15_tlb_flush_all m) = host m ∧ memmode (cp15_tlb_flush_all m) = memmode m.
Proof. split_and!; reflexivity. Qed.

Lemma cp15_upd m (f : CP15 → CP15) : cp15 (upd_cp15 f m) = f (cp15 m).
Proof. reflexivity. Qed.

Lemma write_table_ok b v c : cp15_inv c → w32 v → cp15_inv (table_bank b (set_translation_table (v .&~ 0x3fff) c)).
Proof.
  intros [[H1 H2 H3 H4 H5 H6] Hm] Hv.
  assert (cp15_inv (set_translation_table (v .&~ 0x3fff) c)) as H.
  { split; [|done]. split; cbn; try done; [by apply w32_ldiff|].
    apply Z.bits_inj'. intros i Hi. rewrite !Z.ldiff_spec. by destruct (Z.testbit v i), (Z.testbit 0x3fff i). }
  unfold table_bank. cbn [switch].
  repeat match goal with |- cp15_inv (if ?c then _ else _) => destruct c; [destruct H as [[] ?]; by split; [split|] | ] end.
  exact H.
Qed.

Lemma cp15_write_ok op v md m eff m' :
  coherent m → cp15_inv (cp15 m) → w32 v → cp15_write op v md m = Some (eff, m') →
  coherent m' ∧ cp15_inv (cp15 m').
Proof.
  intros Hc Hi Hv. pose proof (coherent_rings m Hc) as Hr.
  pose proof (flush_all_coherent m Hr) as Hf. destruct (ci_ok _ Hi) as [H1 H2 H3 H4 H5 H6].
  unfold cp15_write. cbv zeta.
  destruct (RN op =? 1); [|destruct (RN op =? 2); [|destruct (RN op =? 3);
    [|destruct (_ || _) eqn:E56; [|destruct (RN op =? 7); [|destruct (RN op =? 8)]]]]];
    unfold gets, mbind, M_bind; cbv beta iota; intros Hrun.
  - destruct (nz ((ctrl (cp15 m) .^ v) .& _)) eqn:Ex; run_write Hrun; (split; [|by split]).
    + by apply flush_coherent_upd.
    + apply (coherent_view m); try done. by apply control_write_view.
  - run_write Hrun. rewrite flush_registers. split; [apply flush_all_coherent; exact Hr | by apply write_table_ok].
  - destruct (negb _); run_write Hrun; [|by split]. rewrite flush_registers.
    split; [apply flush_all_coherent; exact Hr | split; [by split | exact (ci_mmu _ Hi)]].
  - destruct (is_armv4 _); [destruct (RN op =? 5)|]; run_write Hrun.
    + split; [|split; [by split | exact (ci_mmu _ Hi)]].
      by apply (coherent_view m).
    + split; [|split; [by split | exact (ci_mmu _ Hi)]].
      by apply (coherent_view m).
    + by rewrite flush_registers.
  - run_write Hrun. by split.
  - destruct (is_armv4 _); run_write Hrun; by rewrite ?flush_registers.
  - run_write Hrun. by split.
Qed.

(** * Invalidating a region *)

(** No pointer is left to a page of the region, in either map. *)
Lemma invalidate_coherent addr m : coherent m → coherent (cp15_tlb_invalidate_physical addr m).
Proof.
  intros [H1 H2 H3 H4 H5 H6 H7 H8]. unfold cp15_tlb_invalidate_physical.
  rewrite !vaddr_invalidate_drop. set (P := λ ph, region ph =? addr).
  pose proof (λ priv page Hpg, drop_entry P (rmap m) priv page Hpg) as Er.
  pose proof (λ priv page Hpg, drop_entry P (wmap m) priv page Hpg) as Ew.
  pose proof (drop_ring _ P _ H7) as Hr. pose proof (drop_ring _ P _ H8) as Hw.
  revert Er Ew Hr Hw.
  generalize (foldl (drop_if P) (rmap m) ring_slots), (foldl (drop_if P) (wmap m) ring_slots).
  intros fr fw Er Ew Hr Hw.
  assert (∀ f f' priv page, (fast_entry f' priv page ≠ 0xffffffff → fast_entry f' priv page = fast_entry f priv page ∧
    ∀ c, 0 ≤ c < VADDR_RING_SIZE → vaddrls f !!! slot_of (priv_index priv) c = page →
       P (vaddrphys f !!! slot_of (priv_index priv) c) = false) →
    fast_entry f' priv page = 0xffffffff ∨ fast_entry f' priv page = fast_entry f priv page) as Hcase.
  { intros f f' priv page H. destruct (decide (fast_entry f' priv page = 0xffffffff)); [by left | by right; apply H]. }
  split; [exact H1 | | | exact H4 | exact H5 | exact H6 | |]; cbn [rmap wmap set_rmap set_wmap].
  - intros va priv Hv. destruct (Hcase _ _ _ _ (Er priv _ (page_range va Hv))) as [-> | ->]; [done | by apply H2].
  - intros va priv Hv. destruct (Hcase _ _ _ _ (Ew priv _ (page_range va Hv))) as [-> | ->]; [done | by apply H3].
  - eapply fast_ring_impl; [|exact Hr]. by intros ??? [? _].
  - eapply fast_ring_impl; [|exact Hw]. by intros ??? [? _].
Qed.

Lemma invalidate_region addr m va priv rw phys :
  coherent m → w32 va → permitted m priv rw va phys → region phys = addr →
  let m' := cp15_tlb_invalidate_physical addr m in
  fast_entry (if rw then wmap m' else rmap m') priv (va / 0x1000) = 0xffffffff.
Proof.
  intros Hc Hv Hp Ha. set (P := λ ph, region ph =? addr).
  assert (∀ f, fast_ring (noted m rw) f → fast_entry (vaddr_invalidate addr f) priv (va / 0x1000) = 0xffffffff) as H.
  { intros f Hf. rewrite vaddr_invalidate_drop. fold P. pose proof (drop_ring _ P _ Hf) as [_ Hr]. revert Hr.
    generalize (foldl (drop_if P) f ring_slots). intros f' Hr.
    destruct (decide (fast_entry f' priv (va / 0x1000) = 0xffffffff)) as [|He]; [done|].
    destruct (Hr _ _ (page_range va Hv) He) as (c & _ & _ & Hn & HP).
    unfold P in HP. apply Z.eqb_neq in HP. by rewrite (Hn va phys Hv eq_refl Hp) in HP. }
  cbv zeta. unfold cp15_tlb_invalidate_physical. cbn [rmap wmap set_rmap set_wmap].
  destruct rw; apply H; apply Hc.
Qed.
End cp15_spec.

(** * Instruction fetch

    [getpccache] gives a pointer to the words the tables give, stores through the fast
    map are switched off for the page it gives, and a prefetch that the tables refuse
    leaves the fault registers alone. *)

(** One bank of [fetch_ptr]. *)
Lemma fetch_bank ram mask phys pg va :
  phys mod 0x1000 = 0 → pg mod 0x1000 = 0 → va mod 4 = 0 → va / 0x1000 * 0x1000 = pg →
  ram + 4 * (((phys .& mask) - pg) .>> 2 + (va .>> 2)) = ram + ((phys .& mask) + va mod 0x1000).
Proof.
  intros Hp Hpg H4 Hv. pose proof (mod_page_4 _ Hpg) as Hpg4. pose proof (mod_page_4 _ Hp) as Hp4.
  pose proof (land_aligned phys mask Hp4) as Hm.
  rewrite Z.mul_add_distr_l, !land_shiftr_2; [|done|].
  - pose proof (Z.div_mod va 0x1000). lia.
  - by rewrite Zminus_mod, Hpg4, Hm.
Qed.

Lemma fetch_ptr_at b phys pg va p hp :
  board_ok b → w32 phys → phys mod 0x1000 = 0 → pg mod 0x1000 = 0 → va mod 4 = 0 →
  va / 0x1000 * 0x1000 = pg → phys .& 0x3f000000 = chunk phys b →
  fetch_ptr phys pg b = Some p → phys_at false b (in_block phys va 0x1000) = Some hp →
  fst p + 4 * (snd p + (va .>> 2)) = hp.
Proof.
  intros Hb Hw Hp Hpg H4 Hv Hc.
  assert (in_block phys va 0x1000 / 0x1000 * 0x1000 = phys) as Hblk
    by (rewrite in_block_div; pose proof (Z.div_mod phys 0x1000); lia).
  assert (∀ ram mask, bank_mask b mask →
    ram + 4 * (((phys .& mask) - pg) .>> 2 + (va .>> 2)) =
    ram + ((in_block phys va 0x1000 .& phys_space_mask b) .& mask)) as Hbank.
  { intros ram mask [Hm Hs]. rewrite <- Z.land_assoc, Hs, (mask_page mask (in_block phys va 0x1000) Hm), Hblk, in_block_mod.
    by apply fetch_bank. }
  unfold fetch_ptr, phys_at. cbv zeta.
  pose proof (chunk_page (in_block phys va 0x1000) b Hb (in_block_w32 phys va 0x1000 0x100000 eq_refl eq_refl Hw)) as Hch.
  rewrite Hblk in Hch. rewrite <- Hch, Hc.
  pose proof (rammask_ok b Hb) as Hram. pose proof (vrammask_ok b Hb) as Hvram.
  assert (bank_mask b 0x7ffffff) as H27 by (apply (bank_mask_ones b 27); [done | lia]).
  assert (bank_mask b 0x7fffff) as H23 by (apply (bank_mask_ones b 23); [done | lia]).
  set (x := chunk phys b). cbn [switch].
  destruct (existsb (Z.eqb x) ROM_chunk) eqn:E0.
  { intros [= <-] [= <-]. cbn [fst snd]. rewrite <- (Hbank (rom b) 0x7fffff H23).
    assert (phys .& 0x7ff000 = phys .& 0x7fffff) as ->; [|done].
    assert (phys = phys .& 0xfffff000) as E.
    { rewrite page_mask by done. pose proof (Z.div_mod phys 0x1000). lia. }
    rewrite E. by rewrite <- !Z.land_assoc. }
  destruct (existsb (Z.eqb x) VRAM_chunk) eqn:E1.
  { other_chunks. destruct (mem_vrammask b =? 0) eqn:E; [done|]. intros [= <-] [= <-]. by apply Hbank, Hvram. }
  destruct (existsb (Z.eqb x) SIMM0_0_chunks) eqn:E2.
  { other_chunks. intros [= <-] [= <-]. by apply Hbank. }
  destruct (existsb (Z.eqb x) SIMM0_1_chunks) eqn:E3.
  { other_chunks. intros [= <-] [= <-]. by apply Hbank. }
  destruct (existsb (Z.eqb x) SIMM1_chunks) eqn:E4.
  { other_chunks. destruct (nz _); [|done]. intros [= <-] [= <-]. by apply Hbank. }
  destruct (existsb (Z.eqb x) SDRAM0_chunks) eqn:E5.
  { other_chunks. destruct (nz _); [|done]. intros [= <-] [= <-]. by apply Hbank. }
  destruct (existsb (Z.eqb x) SDRAM1_chunks) eqn:E6; [|done].
  other_chunks. destruct (nz _); [|done]. intros [= <-] [= <-]. by apply Hbank.
Qed.

Section fetch.
Context {D : Type} `{!IoDev D}.
Implicit Types m : Mem D.

Lemma coherent_drop_write i m :
  coherent m → coherent (set_wmap (set_vaddrl (<[i := 0xffffffff]> (vaddrl (wmap m))) (wmap m)) m).
Proof.
  intros [H1 H2 H3 H4 H5 H6 H7 H8].
  split; [exact H1 | exact H2 | | exact H4 | exact H5 | exact H6 | exact H7 | by apply fast_ring_drop].
  intros va priv Hv. unfold fast_entry. cbn [wmap set_wmap vaddrl set_vaddrl]. rewrite carray_get_set.
  case_decide; [done|]. by apply H3.
Qed.

Lemma coherent_drop_writes page m : coherent m → coherent (drop_write_entries page m).
Proof.
  intros H. exact (coherent_drop_write (page_of 1 page) _ (coherent_drop_write (page_of 0 page) _ H)).
Qed.

Lemma drop_writes_entry page m priv :
  fast_entry (wmap (drop_write_entries page m)) priv page = 0xffffffff.
Proof.
  unfold drop_write_entries, fast_entry. cbn [wmap set_wmap vaddrl set_vaddrl]. destruct priv; cbn [priv_index].
  - by rewrite carray_same.
  - rewrite carray_other; [by rewrite carray_same|]. unfold page_of. lia.
Qed.

Lemma page_base va : w32 va → w32 (va .&~ 0xfff) ∧ (va .&~ 0xfff) / 0x1000 = va / 0x1000 ∧
  va .&~ 0xfff = va / 0x1000 * 0x1000.
Proof.
  intros Hv. assert (va .&~ 0xfff = va / 0x1000 * 0x1000) as E
    by (rewrite page_bias; pose proof (Z.div_mod va 0x1000); lia).
  split_and!; [by apply w32_ldiff | by rewrite E, Z.div_mul | done].
Qed.

(** What [getpccache] does before it looks for the pointer. *)
Lemma getpccache_run va e m phys :
  mem_inv m → w32 va → nz (e .& 0x40) = false →
  permitted m (privileged m) false (va .&~ 0xfff) phys →
  ∃ m', getpccache va (e, m) = Some (fetch_ptr phys (va .&~ 0xfff) (board m), (e, m')) ∧
        coherent m' ∧ quiet m m' ∧ ∀ priv, fast_entry (wmap m') priv (va / 0x1000) = 0xffffffff.
Proof.
  intros Hok Hv He Hp. destruct (page_base va Hv) as (Hw & Hpg & _).
  assert (∃ m1, (if nz (mmu (cp15 m)) then
            p ← translateaddress (va .&~ 0xfff) false true;
            ev ← gets fst;
            if nz ((ev : Z) .& 0x40) then
              modify (λ '(ev, m), (ev .&~ 0x40, m));; mret None
            else mret (Some p)
          else mret (Some (va .&~ 0xfff))) (e, m) = Some (Some phys, (e, m1)) ∧ coherent m1 ∧ quiet m m1)
    as (m1 & Hrun & Hc1 & Hq1).
  { destruct (nz (mmu (cp15 m))) eqn:Hon.
    - destruct (translateaddress_allowed m (va .&~ 0xfff) false true e phys) as (t & Ht & Htok & Hring & Hvalid & Hstep);
        [apply Hok | apply Hok | apply Hok | done | done | done |].
      exists (set_tlb t m). split; [|split; [|done]].
      + rewrite (bind_eq _ _ _ _ _ Ht). unfold gets, mbind, M_bind. cbv beta iota. cbn [fst]. by rewrite He.
      + destruct (mo_coherent m Hok) as [H1 H2 H3 H4 H5 H6 H7 H8].
        split; [exact Htok | exact H2 | exact H3 | exact H4 | | by apply Hring | exact H7 | exact H8].
        intros va' k Hv' _ Hk Hinv. cbn [tlb set_tlb] in *.
        destruct (Z.eq_dec (va' / 0x1000) ((va .&~ 0xfff) / 0x1000)) as [E|E]; [by rewrite E, Hvalid in Hinv|].
        destruct (Hstep _ E) as [[Ec ->]| ->]; [|done]. apply (H5 va' k); [done|done|done|].
        unfold tlb_valid in *. by rewrite <- Ec.
    - exists m. unfold permitted in Hp. rewrite Hon in Hp. subst phys. split_and!; [done | apply Hok | done]. }
  exists (drop_write_entries (va / 0x1000) m1). split_and!.
  - unfold getpccache. rewrite bind_run. unfold ask at 1, gets. cbv beta iota. cbn [snd].
    rewrite (bind_eq _ _ _ _ _ Hrun). cbv beta iota. unfold alter_mem, modify, mbind, M_bind, ask, gets.
    cbv beta iota. cbn [fst snd]. rewrite page_of_va, Hpg.
    change (board (drop_write_entries (va / 0x1000) m1)) with (board m1). by rewrite (qt_board _ _ Hq1).
  - by apply coherent_drop_writes.
  - by eapply quiet_trans.
  - apply drop_writes_entry.
Qed.

(** The words fetched are the words of the page. *)
Lemma getpccache_fetches va e m phys p :
  mem_inv m → w32 va → nz (e .& 0x40) = false →
  permitted m (privileged m) false (va .&~ 0xfff) phys → phys .& 0x3f000000 = chunk phys (board m) →
  fetch_ptr phys (va .&~ 0xfff) (board m) = Some p →
  ∃ m', getpccache va (e, m) = Some (Some p, (e, m')) ∧ coherent m' ∧ quiet m m' ∧
    (∀ priv, fast_entry (wmap m') priv (va / 0x1000) = 0xffffffff) ∧
    ∀ pc hp, w32 pc → pc mod 4 = 0 → pc / 0x1000 = va / 0x1000 →
      phys_at false (board m) (in_block phys pc 0x1000) = Some hp →
      fetch_word p (pc .>> 2) m' = get32 hp (host m).
Proof.
  intros Hok Hv He Hp Hc Hf. destruct (getpccache_run va e m phys Hok Hv He Hp) as (m' & Hrun & Hc' & Hq & Hw).
  exists m'. split_and!; [by rewrite Hrun, Hf | done | done | done |].
  intros pc hp Hpc H4 Hpg Hat. destruct (page_base va Hv) as (Hb & Hbpg & Hbase).
  unfold fetch_word, word_at. rewrite (qt_host _ _ Hq). f_equal.
  assert ((va .&~ 0xfff) mod 0x1000 = 0) as H0 by (rewrite Hbase; by apply Z.mod_mul).
  eapply (fetch_ptr_at (board m) phys (va .&~ 0xfff)); try done.
  - apply Hok.
  - by eapply permitted_w32.
  - by rewrite (permitted_offset _ _ _ _ _ (mo_uniform m Hok) Hb Hp).
  - by rewrite Hpg, Hbase.
Qed.

(** A refused prefetch leaves no trace but in the result. *)
Lemma getpccache_refused va e m d code :
  mem_inv m → w32 va → Z.testbit e 6 = false → nz (mmu (cp15 m)) = true →
  mmu_access m (privileged m) false (va .&~ 0xfff) = Some (inr (d, code)) →
  getpccache va (e, m) = Some (None, (e, m)).
Proof.
  intros Hok Hv He Hon Ha. destruct (page_base va Hv) as (Hw & _).
  unfold getpccache. rewrite bind_run. unfold ask at 1, gets. cbv beta iota. cbn [snd]. rewrite Hon.
  rewrite !bind_assoc.
  rewrite (bind_eq _ _ _ _ _ (translateaddress_fault m (va .&~ 0xfff) false true e d code
    (ch_tlb m (mo_coherent m Hok)) (mo_cp15 m Hok) Hw Hon Ha)).
  unfold gets, modify, mbind, M_bind, mret, M_ret. cbv beta iota. cbn [fst snd]. rewrite abort_pending. cbn [with_fault].
  do 3 f_equal. apply Z.bits_inj'. intros i Hi. rewrite Z.ldiff_spec, Z.lor_spec. change 0x40 with (2 ^ 6).
  rewrite (Z.pow2_bits_eqb 6 i) by done. destruct (Z.eqb_spec 6 i) as [<-|]; [by rewrite He|].
  by rewrite orb_false_r, andb_true_r.
Qed.
End fetch.
