(* ===== verification/MemSafe.v ===== *)
(** The memory system meets what the core asks of it ([MemSysOk]), given the
    same of the devices: values are words, and no access moves the privilege
    level. *)

From S2P Require Export ArmInv Cp15Spec.

Section ops.
Context {D : Type} `{!IoDev D}.

(** The value satisfies [Q], events stay words, and the privilege level is
    where it was. *)
Definition safe {A} (Q : A → Prop) (op : M (Z * Mem D) A) : Prop := ∀ e m a e' m',
  w32 e → op (e, m) = Some (a, (e', m')) → Q a ∧ w32 e' ∧ memmode m' = memmode m.

Lemma safe_mem_ok {A} `{!Val A} (op : M (Z * Mem D) A) : safe val op → mem_ok (P:=Z * Z) op.
Proof. done. Qed.

Lemma safe_weaken {A} (Q Q' : A → Prop) op : safe Q op → (∀ a, Q a → Q' a) → safe Q' op.
Proof. intros H HQ e m a e' m' He Hop. destruct (H e m a e' m' He Hop) as (? & ? & ?). auto. Qed.

Lemma safe_ret {A} (Q : A → Prop) a : Q a → safe Q (mret a).
Proof. by intros Ha e m a' e' m' He [= <- <- <-]. Qed.

Lemma safe_bind {A B} (Q1 : A → Prop) (Q : B → Prop) op f :
  safe Q1 op → (∀ a, Q1 a → safe Q (f a)) → safe Q (op ≫= f).
Proof.
  intros H1 H2 e m b e' m' He (a & [e1 m1] & Ha & Hb)%bind_Some.
  destruct (H1 e m a e1 m1 He Ha) as (Hv & He1 & Hm1).
  destruct (H2 a Hv e1 m1 b e' m' He1 Hb) as (Hv' & He' & Hm'). split_and!; [done | done | congruence].
Qed.

Lemma safe_ask {A} (Q : A → Prop) (f : Mem D → A) : (∀ m, Q (f m)) → safe Q (ask f).
Proof. by intros Hf e m a e' m' He [= <- <- <-]. Qed.

Lemma safe_event : safe w32 (gets fst).
Proof. by intros e m a e' m' He [= <- <- <-]. Qed.

Lemma safe_alter (Q : unit → Prop) (f : Mem D → Mem D) :
  Q tt → (∀ m, memmode (f m) = memmode m) → safe Q (alter_mem f).
Proof. by intros HQ Hf e m [] e' m' He [= <- <-]. Qed.

Lemma safe_modify (Q : unit → Prop) (f : Z * Mem D → Z * Mem D) :
  Q tt → (∀ e m, w32 e → w32 (fst (f (e, m))) ∧ memmode (snd (f (e, m))) = memmode m) → safe Q (modify f).
Proof.
  intros HQ Hf e m [] e' m' He [= Hes]. pose proof (Hf e m He) as H. rewrite Hes in H. by split.
Qed.

Lemma safe_fatal {A} (Q : A → Prop) : safe Q fatal.
Proof. by intros e m a e' m' He. Qed.

Lemma safe_when (Q : unit → Prop) b op : Q tt → (b = true → safe Q op) → safe Q (when b op).
Proof. intros HQ H. destruct b; [by apply H | by apply safe_ret]. Qed.

Lemma safe_switch {A} (Q : A → Prop) x cs dflt :
  Forall (λ c : list Z * M _ A, safe Q (snd c)) cs → safe Q dflt → safe Q (switch x cs dflt).
Proof.
  intros Hc Hd. induction Hc as [|[l op] cs Hop Hc IH]; cbn [switch]; [done|]. by destruct (existsb _ l).
Qed.
End ops.

(** What the devices promise. *)
Definition word_option (v : option Z) : Prop := ∀ x, v = Some x → w32 x.
Abbreviation any := (λ _, True).

Class IoDevOk (D : Type) `{!IoDev D} : Prop := {
  openbus_reg_read_ok a n : safe w32 (openbus_reg_read a n);
  openbus_reg_write_ok a n v : safe any (openbus_reg_write a n v);
  iomd_read_ok a : safe w32 (iomd_read a);
  iomd_write_ok a v : safe any (iomd_write a v);
  iomd_mouse_buttons_read_ok : safe w32 iomd_mouse_buttons_read;
  readidew_ok : safe w32 readidew;
  writeidew_ok v : safe any (writeidew v);
  readide_ok a : safe w32 (readide a);
  writeide_ok a v : safe any (writeide a v);
  superio_read_ok a : safe w32 (superio_read a);
  superio_write_ok a v : safe any (superio_write a v);
  superio_write_byte_ok a v : safe any (superio_write_byte a v);
  fdc_dma_read_ok a : safe w32 (fdc_dma_read a);
  fdc_dma_write_ok a v : safe any (fdc_dma_write a v);
  podules_read8_ok i t a : safe w32 (podules_read8 i t a);
  podules_read16_ok i t a : safe w32 (podules_read16 i t a);
  podules_read32_ok i t a : safe w32 (podules_read32 i t a);
  podules_write8_ok i t a v : safe any (podules_write8 i t a v);
  podules_write16_ok i t a v : safe any (podules_write16 i t a v);
  podules_write32_ok i t a v : safe any (podules_write32 i t a v);
  writevidc20_ok v : safe any (writevidc20 v)
}.

Create HintDb safe.
#[export] Hint Resolve openbus_reg_read_ok openbus_reg_write_ok iomd_read_ok iomd_write_ok
  iomd_mouse_buttons_read_ok readidew_ok writeidew_ok readide_ok writeide_ok superio_read_ok
  superio_write_ok superio_write_byte_ok fdc_dma_read_ok fdc_dma_write_ok podules_read8_ok
  podules_read16_ok podules_read32_ok podules_write8_ok podules_write16_ok podules_write32_ok
  writevidc20_ok safe_event get32_w32 : safe.

(** One step of a proof that an operation is safe: the value of a computation
    that is bound is only asked to be a word if it comes from a device. *)
Ltac safe_step :=
  lazymatch goal with
  | |- safe _ (mret _) => apply safe_ret
  | |- safe _ fatal => apply safe_fatal
  | |- safe _ (if ?c then _ else _) => destruct c
  | |- safe _ (match ?o with Some _ => _ | None => _ end) => destruct o
  | |- safe _ (when _ _) => apply safe_when; [done | intros _]
  | |- safe _ (alter_mem _) => apply safe_alter; [done|]
  | |- safe _ (ask _) => apply safe_ask; intros ?
  | |- safe _ (switch _ _ _) => apply safe_switch; [repeat (apply list.Forall_cons; split; cbn [snd]); [..| apply list.Forall_nil; exact I] |]
  | |- safe _ (ask _ ≫= _) => apply (safe_bind any); [by apply safe_ask | intros ? _]
  | |- safe _ (alter_mem _ ≫= _) => apply (safe_bind any); [apply safe_alter; [done|] | intros [] _]
  end.

Section phys_safe.
Context {D : Type} `{!IoDev D, !IoDevOk D}.

Lemma some_word v : w32 v → word_option (Some v).
Proof. by intros H x [= <-]. Qed.
Lemma none_word : word_option None.
Proof. done. Qed.

Lemma device_read {A} (Q : A → Prop) (op : M (Z * Mem D) Z) f :
  safe w32 op → (∀ v, w32 v → safe Q (f v)) → safe Q (op ≫= f).
Proof. apply safe_bind. Qed.
Lemma device_write {A} (Q : A → Prop) (op : M (Z * Mem D) unit) f :
  safe any op → safe Q (f tt) → safe Q (op ≫= f).
Proof. intros H Hf. apply (safe_bind any); [done|]. by intros [] _. Qed.

Lemma byte_to_word_w32 v : w32 (mem_io_byte_to_word v).
Proof. apply u32_w32. Qed.

Lemma byte_w32 p h : w32 (get8 p h).
Proof. pose proof (get8_range p h). unfold w32. lia. Qed.

Hint Resolve some_word none_word byte_to_word_w32 byte_w32 : safe.

Ltac io := repeat first
  [ safe_step | apply device_read; [solve [eauto with safe]|intros ? ?]
  | apply device_write; [solve [eauto with safe]|] | solve [eauto with safe w32] ].

Lemma io_read32_safe a : safe word_option (io_read32 a).
Proof. unfold io_read32. io. Qed.
Lemma io_read8_safe a : safe word_option (io_read8 a).
Proof. unfold io_read8. io; try by apply some_word. Qed.
Lemma io_write32_safe a v : safe any (io_write32 a v).
Proof. unfold io_write32. io. Qed.
Lemma io_write8_safe a v : safe any (io_write8 a v).
Proof. unfold io_write8. io. Qed.

Lemma default_word d v : w32 d → word_option v → w32 (default d v).
Proof. intros Hd Hv. destruct v; [by apply Hv | done]. Qed.

Lemma mem_phys_read32_safe a : safe w32 (mem_phys_read32 a).
Proof.
  unfold mem_phys_read32. safe_step. cbv zeta. safe_step; io; try by apply get32_w32.
  apply (safe_bind word_option); [apply io_read32_safe | intros v Hv]. safe_step. by apply default_word.
Qed.
Lemma mem_phys_read8_safe a : safe w32 (mem_phys_read8 a).
Proof.
  unfold mem_phys_read8. safe_step. cbv zeta. safe_step; io; try by apply byte_w32.
  apply (safe_bind word_option); [apply io_read8_safe | intros v Hv]. safe_step. by apply default_word.
Qed.

Lemma mark_dram_dirty_memmode a m : memmode (mark_dram_dirty a m) = memmode m.
Proof. unfold mark_dram_dirty. by destruct (_ && _). Qed.
Hint Resolve io_write32_safe io_write8_safe mark_dram_dirty_memmode : safe.

Lemma mem_phys_write32_safe a v : safe any (mem_phys_write32 a v).
Proof. unfold mem_phys_write32. safe_step. cbv zeta. safe_step; io. Qed.
Lemma mem_phys_write8_safe a v : safe any (mem_phys_write8 a v).
Proof. unfold mem_phys_write8. safe_step. cbv zeta. safe_step; io. Qed.
Hint Resolve mem_phys_read32_safe mem_phys_read8_safe mem_phys_write32_safe mem_phys_write8_safe : safe.

(** * Translation *)

Lemma do_fault_safe a d code p : safe any (do_fault a d code p : M (Z * Mem D) Z).
Proof.
  unfold do_fault. apply (safe_bind any); [|intros [] _; by safe_step].
  apply safe_modify; [done|]. intros e m He. split; [apply w32_lor; done | by destruct p].
Qed.
Hint Resolve do_fault_safe : safe.

Lemma check_and_add_safe a ph d ap rw p df pf : safe any (check_and_add a ph d ap rw p df pf : M (Z * Mem D) Z).
Proof. unfold check_and_add. cbv zeta. io. Qed.
Hint Resolve check_and_add_safe : safe.

Lemma translateaddress_safe a rw p : safe any (translateaddress a rw p).
Proof.
  unfold translateaddress. io. unfold translateaddress2. safe_step. cbv zeta.
  apply (safe_bind any); [io|intros [] _]. io.
Qed.
Hint Resolve translateaddress_safe : safe.

Lemma clear_abort_safe Q : Q tt → safe Q (modify (λ '(ev, m), (ev .&~ 0x40, m) : Z * Mem D)).
Proof. intros HQ. apply safe_modify; [done|]. intros e m He. split; [by apply w32_ldiff | done]. Qed.

Lemma getpccache_safe a : safe any (getpccache a).
Proof.
  unfold getpccache. cbv zeta. safe_step. apply (safe_bind any).
  - io. apply (safe_bind any); [apply translateaddress_safe|intros ? _].
    apply (safe_bind w32); [apply safe_event|intros ? _]. safe_step; [|by safe_step].
    apply (safe_bind any); [by apply clear_abort_safe | intros ? _; by safe_step].
  - intros o _. destruct o; [|by safe_step]. io.
Qed.

(** * Accesses *)

Lemma cached_page_safe k a f : safe any f → safe any (cached_page k a f).
Proof.
  intros Hf. unfold cached_page. io. apply (safe_bind any); [apply translateaddress_safe|intros ? _].
  apply (safe_bind w32); [apply safe_event|intros ? _]. safe_step; [|io].
  apply (safe_bind any); [done|intros ? _]. io.
Qed.

Lemma note_access_safe a n w v : safe any (note_access a n w v : M (Z * Mem D) unit).
Proof. unfold note_access. io. Qed.

Lemma drop_read_entry_safe a : safe any (drop_read_entry a : M (Z * Mem D) unit).
Proof. unfold drop_read_entry. io. Qed.
Lemma unmapped_fill_safe a : safe any (unmapped_fill a : M (Z * Mem D) unit).
Proof.
  unfold unmapped_fill. io. apply (safe_bind any); [unfold vradd; io | intros ? _; io].
Qed.
Hint Resolve drop_read_entry_safe unmapped_fill_safe note_access_safe : safe.

Lemma readmem_safe n get phys align f un a :
  (∀ p h, w32 (get p h)) → (∀ a, safe w32 (phys a)) → safe any f → safe any un →
  safe w32 (readmem n get phys align f un a).
Proof.
  intros Hget Hphys Hf Hun. unfold readmem. safe_step. apply (safe_bind w32).
  - safe_step.
    + apply (safe_bind any); [by apply cached_page_safe|intros o _]. destruct o; [|by safe_step].
      do 2 safe_step. destruct (read_ptr _ _ _); [|apply Hphys].
      apply (safe_bind any); [unfold vradd; io | intros ? _]. cbv zeta. by safe_step.
    + apply (safe_bind any); [done | intros ? _; apply Hphys].
  - intros v Hv. apply (safe_bind any); [apply note_access_safe | intros ? _; by safe_step].
Qed.

Lemma writemem_safe k n phys a v : (∀ a v, safe any (phys a v)) → safe any (writemem k n phys a v).
Proof.
  intros Hphys. unfold writemem. safe_step. apply (safe_bind any).
  - safe_step; [|by safe_step]. apply (safe_bind any); [apply cached_page_safe; by safe_step|intros o _].
    destruct o; [|by safe_step]. do 2 safe_step. apply (safe_bind any); [|intros ? _; by safe_step].
    destruct (write_ptr _ _ _ _) as [[? ?]|]; [unfold vwadd; io | by safe_step].
  - intros o _. destruct o; [|by safe_step]. apply (safe_bind any); [done | intros ? _; apply note_access_safe].
Qed.

Lemma mem_read32_safe a : safe w32 (mem_read32 a).
Proof.
  unfold mem_read32. do 2 safe_step.
  - apply readmem_safe; eauto with safe.
  - apply (safe_bind w32); [apply safe_ask; intros m; apply get32_w32|intros v Hv].
    apply (safe_bind any); [apply note_access_safe | intros ? _; by safe_step].
Qed.
Lemma mem_read8_safe a : safe w32 (mem_read8 a).
Proof.
  unfold mem_read8. do 2 safe_step.
  - apply readmem_safe; eauto with safe; by safe_step.
  - apply (safe_bind w32); [apply safe_ask; intros m; apply byte_w32|intros v Hv].
    apply (safe_bind any); [apply note_access_safe | intros ? _; by safe_step].
Qed.
Lemma mem_write32_safe a v : safe any (mem_write32 a v).
Proof.
  unfold mem_write32. do 2 safe_step; [apply writemem_safe; eauto with safe|].
  safe_step; [done | apply note_access_safe].
Qed.
Lemma mem_write8_safe a v : safe any (mem_write8 a v).
Proof.
  unfold mem_write8. do 2 safe_step; [apply writemem_safe; eauto with safe|].
  safe_step; [done | apply note_access_safe].
Qed.

(** * The coprocessor *)

Lemma flush_memmode (m : Mem D) : memmode (cp15_tlb_flush_all m) = memmode m.
Proof. reflexivity. Qed.

Lemma cp15_read_words op (m : Mem D) v m' : cp15_read op m = Some (v, m') → w32 v ∧ memmode m' = memmode m.
Proof.
  unfold cp15_read, gets, mbind, M_bind, mret, M_ret. cbv beta iota zeta.
  destruct (RN op =? 0); [intros [= <- <-]; split; [by destruct (cpu_model _) | done]|].
  repeat (destruct (RN op =? _); [intros [= <- <-]; split; [apply u32_w32 | done]|]). done.
Qed.

Lemma cp15_write_mode op v md (m : Mem D) eff m' :
  cp15_write op v md m = Some (eff, m') →
  memmode m' = memmode m ∧ match eff with Cp15Mode x => x = md .& 0xf | _ => True end.
Proof.
  unfold cp15_write. cbv zeta.
  destruct (RN op =? 1); [|destruct (RN op =? 2); [|destruct (RN op =? 3);
    [|destruct (_ || _); [|destruct (RN op =? 7); [|destruct (RN op =? 8)]]]]];
    unfold gets, mbind, M_bind; cbv beta iota; intros Hrun.
  - destruct (nz ((ctrl (cp15 m) .^ v) .& _)); run_write Hrun; (split; [done|]); by destruct (_ && _).
  - by run_write Hrun.
  - destruct (negb _); by run_write Hrun.
  - destruct (is_armv4 _); [destruct (RN op =? 5)|]; by run_write Hrun.
  - by run_write Hrun.
  - destruct (is_armv4 _); by run_write Hrun.
  - by run_write Hrun.
Qed.

#[export] Instance rpcemu_mem_ok : MemSysOk (Mem D) (Z * Z).
Proof.
  split.
  - intros a _. apply safe_mem_ok, mem_read32_safe.
  - intros a _. apply safe_mem_ok, mem_read8_safe.
  - intros a v _ _. apply safe_mem_ok, mem_write32_safe.
  - intros a v _ _. apply safe_mem_ok, mem_write8_safe.
  - intros a _. apply safe_mem_ok. eapply safe_weaken; [apply getpccache_safe | by intros []].
  - done.
  - apply cp15_read_words.
  - intros op v md s eff s' _. apply cp15_write_mode.
Qed.
End phys_safe.
