(* ===== verification/MemBoard.v ===== *)
(** What memory is fitted, and where the host keeps it: the heap of the process,
    [mem_init], [mem_reset] and the framestore of [gfxcard_init] with the sizes
    they ask the allocator for, [mem_dma_region], and that the physical
    accesses of mem.c stay inside the blocks that were allocated. *)

From S2P Require Export Cp15Spec.

Definition MB : Z := 1024 * 1024.
Definition ROMSIZE : Z := 8 * MB.
Definition SDRAM_BANK_SIZE : Z := 128 * MB.
Definition SIMM1_SIZE : Z := 128 * MB.
Definition SIMM1_MASK : Z := 0x7ffffff.
Definition GFXCARD_FB_OFFSET : Z := 0x00100000.

(** [memset(p, 0, n)] on host memory, where what is not written is zero *)
Definition clear (p n : Z) (h : gmap Z Z) : gmap Z Z :=
  filter (λ kv, ¬ (p ≤ fst kv < p + n)) h.

(** The blocks of the heap that are allocated, by their address, with the size
    they were asked for; and [gfxcard_store], the pointer to the framestore
    that gfxcard.c keeps while the card is not fitted. *)
Record Heap := mkHeap { blocks : gmap Z Z; gfxcard_store : Z }.
Definition set_blocks (bl : gmap Z Z) (h : Heap) : Heap := mkHeap bl (gfxcard_store h).

Definition set_rom_vram (r v : Z) (b : Board) : Board :=
  mkBoard r v (ram00 b) (ram01 b) (ram1 b) (sdram0 b) (sdram1 b) (gfxcard_fb b) (gfxcard_fb_phys b)
    (mem_rammask b) (mem_vrammask b) (phys_space_mask b) (machine_model b) (machine_iomd_type b).
Definition set_sdram (s0 s1 : Z) (b : Board) : Board :=
  mkBoard (rom b) (vram b) (ram00 b) (ram01 b) (ram1 b) s0 s1 (gfxcard_fb b) (gfxcard_fb_phys b)
    (mem_rammask b) (mem_vrammask b) (phys_space_mask b) (machine_model b) (machine_iomd_type b).
Definition set_ram1 (r1 : Z) (b : Board) : Board :=
  mkBoard (rom b) (vram b) (ram00 b) (ram01 b) r1 (sdram0 b) (sdram1 b) (gfxcard_fb b) (gfxcard_fb_phys b)
    (mem_rammask b) (mem_vrammask b) (phys_space_mask b) (machine_model b) (machine_iomd_type b).
Definition set_masks (rmask vmask : Z) (b : Board) : Board :=
  mkBoard (rom b) (vram b) (ram00 b) (ram01 b) (ram1 b) (sdram0 b) (sdram1 b) (gfxcard_fb b)
    (gfxcard_fb_phys b) rmask vmask (phys_space_mask b) (machine_model b) (machine_iomd_type b).
Definition set_simm0 (r00 r01 : Z) (b : Board) : Board :=
  mkBoard (rom b) (vram b) r00 r01 (ram1 b) (sdram0 b) (sdram1 b) (gfxcard_fb b) (gfxcard_fb_phys b)
    (mem_rammask b) (mem_vrammask b) (phys_space_mask b) (machine_model b) (machine_iomd_type b).
Definition set_space (mask : Z) (b : Board) : Board :=
  mkBoard (rom b) (vram b) (ram00 b) (ram01 b) (ram1 b) (sdram0 b) (sdram1 b) (gfxcard_fb b)
    (gfxcard_fb_phys b) (mem_rammask b) (mem_vrammask b) mask (machine_model b) (machine_iomd_type b).
Definition set_fb (fb phys : Z) (b : Board) : Board :=
  mkBoard (rom b) (vram b) (ram00 b) (ram01 b) (ram1 b) (sdram0 b) (sdram1 b) fb phys
    (mem_rammask b) (mem_vrammask b) (phys_space_mask b) (machine_model b) (machine_iomd_type b).

Section board.
Context {D : Type}.
(** What [malloc] answers to a request of [n] bytes when these blocks are
    allocated; zero is [NULL]. *)
Variable alloc : gmap Z Z → Z → Z.
Local Abbreviation HOST := (M (Heap * (Z * Mem D))).

Definition on_mem {A} (f : M (Z * Mem D) A) : HOST A := λ s,
  match f (snd s) with Some (x, s') => Some (x, (fst s, s')) | None => None end.
Definition on_board (f : Board → Board) : HOST unit :=
  on_mem (alter_mem (λ m, set_board (f (board m)) m)).
Definition zero (p n : Z) : HOST unit := on_mem (alter_mem (λ m, set_host (clear p n (host m)) m)).

Definition malloc (n : Z) : HOST Z := λ s,
  let p := alloc (blocks (fst s)) n in
  Some (p, (if p =? 0 then fst s else set_blocks (<[p := n]> (blocks (fst s))) (fst s), snd s)).
(** Freeing what is neither a block nor [NULL] has no behaviour. *)
Definition freeable (p : Z) (s : Heap * (Z * Mem D)) : bool :=
  (p =? 0) || bool_decide (is_Some (blocks (fst s) !! p)).
Definition free (p : Z) : HOST unit := λ s,
  if freeable p s then Some (tt, (set_blocks (delete p (blocks (fst s))) (fst s), snd s)) else None.
(** The new block may be where the old one was; what is copied into it is
    overwritten by the [memset] that follows every call. *)
Definition realloc (p n : Z) : HOST Z := λ s,
  if freeable p s then
    let bl := delete p (blocks (fst s)) in
    let q := alloc bl n in
    Some (q, (if q =? 0 then fst s else set_blocks (<[q := n]> bl) (fst s), snd s))
  else None.

Definition mem_init : HOST unit :=
  r ← malloc ROMSIZE;
  v ← malloc (16 * 1024 * 1024);
  if (r =? 0) || (v =? 0) then fatal else on_board (set_rom_vram r v).

Definition reset_ring (f : FastMap) : FastMap :=
  mkFastMap (vaddrl f) (vaddrls f) (vaddrphys f) (<[0 := 0]> (<[1 := 0]> (vaddrlpos f))).

(** Sizes are given in megabytes; the [assert]s are its precondition. *)
Definition mem_reset (ramsize vram_size : Z) : HOST unit :=
  b ← on_mem (ask board);
  let kinetic := bool_decide (machine_model b = Model_Kinetic) in
  let ramsize := if negb kinetic && (256 <? ramsize) then 256 else ramsize in
  let have_sdram := 256 <? ramsize in
  let ramsize := mul32 ramsize (1024 * 1024) in
  let ramsize := if have_sdram then 256 * 1024 * 1024 else ramsize in
  (if have_sdram then
     s0 ← realloc (sdram0 b) SDRAM_BANK_SIZE;
     s1 ← realloc (sdram1 b) SDRAM_BANK_SIZE;
     if (s0 =? 0) || (s1 =? 0) then fatal else
       on_board (set_sdram s0 s1);; zero s0 SDRAM_BANK_SIZE;; zero s1 SDRAM_BANK_SIZE
   else free (sdram0 b);; free (sdram1 b);; on_board (set_sdram 0 0));;
  let big := ramsize =? 256 * 1024 * 1024 in
  let ramsize := if big then 128 * 1024 * 1024 else ramsize in
  (if big then
     r1 ← realloc (ram1 b) (128 * 1024 * 1024);
     if r1 =? 0 then fatal else on_board (set_ram1 r1);; zero r1 (128 * 1024 * 1024)
   else free (ram1 b);; on_board (set_ram1 0));;
  on_board (set_masks (sub32 (ramsize / 2) 1)
    (if nz vram_size then sub32 (mul32 (mul32 vram_size 1024) 1024) 1 else 0));;
  r00 ← realloc (ram00 b) (ramsize / 2);
  r01 ← realloc (ram01 b) (ramsize / 2);
  (if (r00 =? 0) || (r01 =? 0) then fatal else
     on_board (set_simm0 r00 r01);; zero r00 (ramsize / 2);; zero r01 (ramsize / 2));;
  on_mem (alter_mem (λ m, set_wmap (reset_ring (wmap m)) (set_rmap (reset_ring (rmap m)) m)));;
  on_board (set_space
    (if bool_decide (machine_model b = Model_Phoebe) || kinetic then 0x3fffffff else 0x1fffffff)).

(** The framestore in [gfxcard_init]: [slot] is the slot the card gets when it
    has its ROM and there is a free one. *)
Definition gfxcard_init_fb (enabled : bool) (slot : option Z) : HOST unit :=
  on_board (set_fb 0 0);;
  when enabled (
    h ← gets fst;
    when (gfxcard_store h =? 0) (
      s ← malloc GFXCARD_FB_SIZE;
      when (nz s) (zero s GFXCARD_FB_SIZE);;
      modify (λ st, (mkHeap (blocks (fst st)) s, snd st)));;
    h ← gets fst;
    when (nz (gfxcard_store h)) (
      match slot with
      | None => mret tt
      | Some n =>
          let easi_phys := add32 0x08000000 (mul32 n 0x01000000) in
          on_board (set_fb (gfxcard_store h) (add32 easi_phys GFXCARD_FB_OFFSET))
      end)).

(** The region and its mask; [None] is [NULL]. *)
Definition mem_dma_region (phys_addr : Z) (b : Board) : option Z * Z :=
  let fitted p := if nz p then Some p else None in
  switch (phys_addr .& 0x3f000000) [
    (SIMM0_0_chunks, (fitted (ram00 b), mem_rammask b));
    (SIMM0_1_chunks, (fitted (ram01 b), mem_rammask b));
    (SIMM1_chunks, (fitted (ram1 b), SIMM1_MASK));
    (SDRAM0_chunks, (fitted (sdram0 b), SDRAM_BANK_MASK));
    (SDRAM1_chunks, (fitted (sdram1 b), SDRAM_BANK_MASK))
  ] (None, mem_rammask b).
End board.

(** * In bounds *)

(** Finds an element of a list that is written out. *)
Ltac listed := repeat first [apply list_elem_of_here | apply list_elem_of_further].

(** A byte, or an aligned word, at [off] of [n] bytes. *)
Definition in_bounds (a off n : Z) : Prop := 0 ≤ off < n ∧ (a mod 4 = 0 → off + 4 ≤ n).

Lemma aligned_in_bounds a off n :
  0 ≤ off < n → n mod 4 = 0 → (a mod 4 = 0 → off mod 4 = 0) → in_bounds a off n.
Proof.
  intros Ho Hn Ha. split; [done|]. intros H. specialize (Ha H).
  pose proof (Z.div_mod off 4). pose proof (Z.div_mod n 4). lia.
Qed.

Lemma mask_in_bounds a x k : 2 ≤ k → (a mod 4 = 0 → x mod 4 = 0) → in_bounds a (x .& Z.ones k) (2 ^ k).
Proof.
  intros Hk Hx. apply aligned_in_bounds.
  - apply ring_index. lia.
  - replace k with (2 + (k - 2)) by lia. rewrite Z.pow_add_r, Z.mul_comm by lia. by apply Z.mod_mul.
  - intros H. by apply land_aligned, Hx.
Qed.

Lemma in_bounds_le a off n n' : n ≤ n' → in_bounds a off n → in_bounds a off n'.
Proof. intros Hn [Ho Ha]. split; [lia|]. intros H. specialize (Ha H). lia. Qed.

Lemma sub32_aligned x y : x mod 4 = 0 → y mod 4 = 0 → sub32 x y mod 4 = 0.
Proof.
  intros Hx Hy. unfold sub32, u32. rewrite Z.mod_mod_divide by by exists 0x40000000.
  by rewrite Zminus_mod, Hx, Hy.
Qed.

Lemma nz_true x : nz x = true → x ≠ 0.
Proof. unfold nz. by destruct (Z.eqb_spec x 0). Qed.

(** The region of a DMA address is where the accesses go. *)
Lemma dma_region_at b a base mask :
  board_ok b → a .& 0x3f000000 = chunk (a .& phys_space_mask b) b →
  mem_dma_region a b = (Some base, mask) → phys_at false b a = Some (base + (a .& mask)).
Proof.
  intros Hb Hc. unfold mem_dma_region, phys_at. cbv zeta. rewrite Hc. set (x := chunk _ b).
  assert (∀ mask, bank_mask b mask → (a .& phys_space_mask b) .& mask = a .& mask) as Hm
    by (intros mk [_ H]; by rewrite <- Z.land_assoc, H).
  pose proof (rammask_ok b Hb) as Hram.
  assert (bank_mask b 0x7ffffff) as H27 by (apply (bank_mask_ones b 27); [done | lia]).
  cbn [switch].
  destruct (existsb (Z.eqb x) SIMM0_0_chunks) eqn:E2.
  { other_chunks. destruct (nz _); [|done]. intros [= <- <-]. by rewrite Hm. }
  destruct (existsb (Z.eqb x) SIMM0_1_chunks) eqn:E3.
  { other_chunks. destruct (nz _); [|done]. intros [= <- <-]. by rewrite Hm. }
  destruct (existsb (Z.eqb x) SIMM1_chunks) eqn:E4.
  { other_chunks. destruct (nz _); [|done]. intros [= <- <-]. unfold SIMM1_MASK. by rewrite Hm. }
  destruct (existsb (Z.eqb x) SDRAM0_chunks) eqn:E5.
  { other_chunks. destruct (nz _); [|done]. intros [= <- <-]. unfold SDRAM_BANK_MASK. by rewrite Hm. }
  destruct (existsb (Z.eqb x) SDRAM1_chunks) eqn:E6; [|done].
  other_chunks. destruct (nz _); [|done]. intros [= <- <-]. unfold SDRAM_BANK_MASK. by rewrite Hm.
Qed.

(** * The heap *)

Definition host_ptr (p : Z) : Prop := 0 < p < 2 ^ 48 ∧ p mod 4 = 0.
Definition apart (p n q k : Z) : Prop := p + n ≤ q ∨ q + k ≤ p.
Record blocks_ok (bl : gmap Z Z) : Prop := {
  bk_block : ∀ p n, bl !! p = Some n → host_ptr p ∧ 0 < n;
  bk_apart : ∀ p q n k, bl !! p = Some n → bl !! q = Some k → p ≠ q → apart p n q k
}.
(** What the C standard says of [malloc]: a block that is not [NULL] is aligned
    and apart from every other. *)
Definition malloc_sound (alloc : gmap Z Z → Z → Z) : Prop := ∀ bl n, blocks_ok bl → 0 < n → alloc bl n ≠ 0 →
  host_ptr (alloc bl n) ∧ ∀ q k, bl !! q = Some k → apart (alloc bl n) n q k.
Definition malloc_failed (alloc : gmap Z Z → Z → Z) : Prop := ∃ bl n, 0 < n ∧ alloc bl n = 0.

(** The pointers of [l] that are not [NULL] are blocks of the sizes given, no
    two of them the same. *)
Record owned (bl : gmap Z Z) (l : list (Z * Z)) : Prop := {
  ow_block : ∀ i p n, l !! i = Some (p, n) → p ≠ 0 → bl !! p = Some n;
  ow_once : ∀ i j p n k, l !! i = Some (p, n) → l !! j = Some (p, k) → p ≠ 0 → i = j
}.

Lemma blocks_delete bl p : blocks_ok bl → blocks_ok (delete p bl).
Proof.
  intros [H1 H2]. split.
  - intros q n [_ H]%lookup_delete_Some. eauto.
  - intros q q' n k [_ Hq]%lookup_delete_Some [_ Hq']%lookup_delete_Some. eauto.
Qed.

Lemma blocks_insert bl p n : blocks_ok bl → host_ptr p → 0 < n →
  (∀ q k, bl !! q = Some k → apart p n q k) → blocks_ok (<[p := n]> bl).
Proof.
  intros [H1 H2] Hp Hn Ha. split.
  - intros q k [[-> ->]|[_ H]]%lookup_insert_Some; eauto.
  - intros q q' k k' [[<- <-]|[Hq Hk]]%lookup_insert_Some [[<- <-]|[Hq' Hk']]%lookup_insert_Some Hne; [done | eauto | | eauto].
    destruct (Ha _ _ Hk); [by right | by left].
Qed.

(** A pointer of the list is freed, or gets another block. *)
Lemma owned_free bl l i p n0 n : owned bl l → l !! i = Some (p, n0) → owned (delete p bl) (<[i := (0, n)]> l).
Proof.
  intros [H1 H2] Hi. split.
  - intros j q k Hj Hq. apply list_lookup_insert_Some in Hj as [(_ & [= <- _] & _)|[Hij Hj]]; [done|].
    rewrite lookup_delete_ne; [by apply (H1 j)|]. intros ->. apply Hij. by apply (H2 i j q n0 k).
  - intros j j' q k k' Hj Hj' Hq. apply list_lookup_insert_Some in Hj as [(_ & [= <- _] & _)|[Hij Hj]]; [done|].
    apply list_lookup_insert_Some in Hj' as [(_ & [= <- _] & _)|[Hij' Hj']]; [done|]. by apply (H2 j j' q k k').
Qed.

Lemma owned_alloc bl l i k q n : owned bl (<[i := (0, k)]> l) → bl !! q = None →
  owned (<[q := n]> bl) (<[i := (q, n)]> l).
Proof.
  intros [H1 H2] Hq.
  assert (∀ j p k', i ≠ j → l !! j = Some (p, k') → p ≠ 0 → bl !! p = Some k') as H1'.
  { intros j p k' Hij Hj. apply (H1 j). by rewrite list_lookup_insert_ne. }
  assert (∀ j k', i ≠ j → l !! j = Some (q, k') → q ≠ 0 → False) as Hnew.
  { intros j k' Hij Hj Hz. by rewrite (H1' j q k' Hij Hj Hz) in Hq. }
  split.
  - intros j p k' Hj Hp. apply list_lookup_insert_Some in Hj as [(_ & [= <- <-] & _)|[Hij Hj]]; [apply lookup_insert_eq|].
    rewrite lookup_insert_ne; [by apply (H1' j)|]. intros ->. by apply (Hnew j k').
  - intros j j' p m m' Hj Hj' Hp.
    apply list_lookup_insert_Some in Hj as [(<- & [= <- <-] & _)|[Hij Hj]];
      apply list_lookup_insert_Some in Hj' as [(E & Ek & _)|[Hij' Hj']]; [done | | |].
    + by destruct (Hnew j' m').
    + injection Ek as -> ->. by destruct (Hnew j m).
    + apply (H2 j j' p m m'); [| |done]; by rewrite list_lookup_insert_ne.
Qed.

(** ** Programs that allocate *)

Section programs.
Context {D : Type}.
Variable alloc : gmap Z Z → Z → Z.
Local Abbreviation HOST := (M (Heap * (Z * Mem D))).

(** [f] ends with what [Φ] says, or a request has been refused; never because
    it frees what it does not own. *)
Definition wp {A} (f : HOST A) (Φ : A → Heap * (Z * Mem D) → Prop) (s : Heap * (Z * Mem D)) : Prop :=
  match f s with Some (x, s') => Φ x s' | None => malloc_failed alloc end.

Lemma wp_bind {A B} (f : HOST A) (k : A → HOST B) Φ s : wp f (λ x, wp (k x) Φ) s → wp (f ≫= k) Φ s.
Proof. unfold wp, mbind, M_bind. by destruct (f s) as [[x s']|]. Qed.

Lemma wp_run {A} (f : HOST A) Φ s x s' : f s = Some (x, s') → Φ x s' → wp f Φ s.
Proof. unfold wp. by intros ->. Qed.

Lemma wp_refused {A} (c : bool) (f : HOST A) Φ s : malloc_failed alloc → c = true → wp (if c then fatal else f) Φ s.
Proof. by intros H ->. Qed.

Lemma freeable_owned l i p n (s : Heap * (Z * Mem D)) : owned (blocks (fst s)) l → l !! i = Some (p, n) → freeable p s = true.
Proof.
  intros Ho Hi. unfold freeable. destruct (Z.eqb_spec p 0) as [|Hp]; [done|]. cbn [orb].
  apply bool_decide_eq_true. exists n. by apply (ow_block _ _ Ho i).
Qed.

Lemma wp_free l i p n s (Φ : unit → _ → Prop) :
  blocks_ok (blocks (fst s)) → owned (blocks (fst s)) l → l !! i = Some (p, n) →
  (∀ bl, blocks_ok bl → owned bl (<[i := (0, n)]> l) → Φ tt (set_blocks bl (fst s), snd s)) → wp (free p) Φ s.
Proof.
  intros Hb Ho Hi H. unfold wp, free. rewrite (freeable_owned l i p n) by done.
  apply H; [by apply blocks_delete | by apply (owned_free _ _ _ p n)].
Qed.

Hypothesis sound : malloc_sound alloc.

Lemma alloc_new bl n : blocks_ok bl → 0 < n → alloc bl n ≠ 0 →
  bl !! alloc bl n = None ∧ blocks_ok (<[alloc bl n := n]> bl).
Proof.
  intros Hb Hn Hq. destruct (sound bl n Hb Hn Hq) as [Hp Ha]. split; [|by apply blocks_insert].
  destruct (bl !! alloc bl n) as [k|] eqn:E; [|done].
  destruct (bk_block _ Hb _ _ E) as [_ Hk]. destruct (Ha _ _ E); lia.
Qed.

Lemma wp_malloc l i n0 n s Φ :
  blocks_ok (blocks (fst s)) → owned (blocks (fst s)) l → l !! i = Some (0, n0) → 0 < n →
  (∀ q bl, q ≠ 0 → blocks_ok bl → owned bl (<[i := (q, n)]> l) → Φ q (set_blocks bl (fst s), snd s)) →
  (malloc_failed alloc → Φ 0 s) → wp (malloc alloc n) Φ s.
Proof.
  intros Hb Ho Hi Hn Hok Hno. unfold wp, malloc. destruct (Z.eqb_spec (alloc (blocks (fst s)) n) 0) as [E|Hq].
  - destruct s. rewrite E. apply Hno. eexists _, _. eauto.
  - destruct (alloc_new _ _ Hb Hn Hq) as [Hnew Hok']. apply (Hok _ _ Hq Hok').
    apply (owned_alloc _ l i n0); [|exact Hnew]. by rewrite list_insert_id.
Qed.

Lemma wp_realloc l i p n0 n s Φ :
  blocks_ok (blocks (fst s)) → owned (blocks (fst s)) l → l !! i = Some (p, n0) → 0 < n →
  (∀ q bl, q ≠ 0 → blocks_ok bl → owned bl (<[i := (q, n)]> l) → Φ q (set_blocks bl (fst s), snd s)) →
  (malloc_failed alloc → Φ 0 s) → wp (realloc alloc p n) Φ s.
Proof.
  intros Hb Ho Hi Hn Hok Hno. unfold wp, realloc. rewrite (freeable_owned l i p n0) by done.
  set (bl := delete p (blocks (fst s))). destruct (Z.eqb_spec (alloc bl n) 0) as [E|Hq].
  - destruct s. rewrite E. apply Hno. eexists _, _. eauto.
  - destruct (alloc_new bl n (blocks_delete _ p Hb) Hn Hq) as [Hnew Hok']. apply (Hok _ _ Hq Hok').
    apply (owned_alloc _ l i n); [|exact Hnew]. by apply (owned_free _ l i p n0).
Qed.

(** Two buffers of one size, checked after both are asked for. *)
Lemma wp_realloc_pair {A} l i j p p' n0 n0' n (k : Z → Z → HOST A) s Φ :
  blocks_ok (blocks (fst s)) → owned (blocks (fst s)) l →
  l !! i = Some (p, n0) → l !! j = Some (p', n0') → i ≠ j → 0 < n →
  (∀ q q' bl, q ≠ 0 → q' ≠ 0 → blocks_ok bl → owned bl (<[j := (q', n)]> (<[i := (q, n)]> l)) →
     wp (k q q') Φ (set_blocks bl (fst s), snd s)) →
  (∀ q q' s, malloc_failed alloc → (q =? 0) || (q' =? 0) = true → wp (k q q') Φ s) →
  wp (q ← realloc alloc p n; q' ← realloc alloc p' n; k q q') Φ s.
Proof.
  intros Hb Ho Hi Hj Hij Hn Hok Hno. apply wp_bind, (wp_realloc l i p n0); [done..| |].
  - intros q bl Hq Hb1 Ho1. apply wp_bind, (wp_realloc (<[i := (q, n)]> l) j p' n0'); [done | done | | done | |].
    + by rewrite list_lookup_insert_ne.
    + intros q' bl' Hq' Hb2 Ho2. by apply (Hok q q' bl').
    + intros Hf. apply Hno; [done | by rewrite orb_true_r].
  - intros Hf. apply wp_bind, (wp_realloc l j p' n0'); [done..| |].
    + intros q' bl' _ _ _. by apply Hno.
    + intros _. by apply Hno.
Qed.
End programs.

(** * The machine's memory *)

(** The buffers, with the sizes they are taken to have; the ROM is the first. *)
Definition slots (store : Z) (b : Board) : list (Z * Z) :=
  [ (rom b, ROMSIZE); (vram b, 2 ^ 24); (ram00 b, mem_rammask b + 1); (ram01 b, mem_rammask b + 1);
    (ram1 b, SIMM1_MASK + 1); (sdram0 b, SDRAM_BANK_MASK + 1); (sdram1 b, SDRAM_BANK_MASK + 1);
    (store, GFXCARD_FB_SIZE) ].

(** Every buffer is a block of the heap; after the first reset the RAM is there
    and the masks are those of its banks. *)
Record memory_ok (up : bool) (h : Heap) (b : Board) : Prop := {
  mk_blocks : blocks_ok (blocks h);
  mk_owned : owned (blocks h) (slots (gfxcard_store h) b);
  mk_rom : rom b ≠ 0 ∧ vram b ≠ 0;
  mk_fb : gfxcard_fb b = 0 ∨ gfxcard_fb b = gfxcard_store h;
  mk_phys : 0 ≤ gfxcard_fb_phys b ≤ 0x10000000 - GFXCARD_FB_SIZE ∧ gfxcard_fb_phys b mod 0x1000 = 0;
  mk_ram : up = true → ram00 b ≠ 0 ∧ ram01 b ≠ 0;
  mk_mask : up = true → ∃ k, 12 ≤ k ≤ 26 ∧ mem_rammask b = Z.ones k;
  mk_vmask : up = true → mem_vrammask b = 0 ∨ ∃ k, 12 ≤ k ≤ 24 ∧ mem_vrammask b = Z.ones k;
  mk_space : up = true → phys_space_mask b = 0x1fffffff ∨ phys_space_mask b = 0x3fffffff
}.

(** The sizes a machine can be configured with. *)
Definition ram_sizes : list Z := [4; 8; 16; 32; 64; 128; 256; 512].
Definition vram_sizes : list Z := [0; 2; 4; 8; 16].

Lemma vram_mask_ok v : v ∈ vram_sizes →
  let mask := if nz v then sub32 (mul32 (mul32 v 1024) 1024) 1 else 0 in
  mask = 0 ∨ ∃ k, 12 ≤ k ≤ 24 ∧ mask = Z.ones k.
Proof.
  intros H. repeat (apply elem_of_cons in H as [->|H]; [|]); [by left | right.. | by apply not_elem_of_nil in H].
  - by exists 21.
  - by exists 22.
  - by exists 23.
  - by exists 24.
Qed.

(** The size of a bank of SIMM 0, as [mem_reset] comes by it. *)
Definition bank_bytes (kinetic : bool) (r : Z) : Z :=
  let r := if negb kinetic && (256 <? r) then 256 else r in
  let r := if 256 <? r then 256 * 1024 * 1024 else mul32 r (1024 * 1024) in
  (if r =? 256 * 1024 * 1024 then 128 * 1024 * 1024 else r) / 2.

Lemma bank_bytes_ok kinetic r : r ∈ ram_sizes → ∃ k, 12 ≤ k ≤ 26 ∧ bank_bytes kinetic r = 2 ^ k.
Proof.
  intros H. repeat (apply elem_of_cons in H as [->|H]; [|]); [..| by apply not_elem_of_nil in H].
  - by exists 21; destruct kinetic.
  - by exists 22; destruct kinetic.
  - by exists 23; destruct kinetic.
  - by exists 24; destruct kinetic.
  - by exists 25; destruct kinetic.
  - by exists 26; destruct kinetic.
  - by exists 26; destruct kinetic.
  - by exists 26; destruct kinetic.
Qed.

Lemma mask_of_size k : 12 ≤ k ≤ 26 → sub32 (2 ^ k) 1 = Z.ones k.
Proof.
  intros Hk. unfold sub32. rewrite u32_id, Z.ones_equiv; [lia|].
  pose proof (Z.pow_pos_nonneg 2 k ltac:(lia) ltac:(lia)). pose proof (Z.pow_le_mono_r 2 k 26 ltac:(lia) ltac:(lia)).
  change (2 ^ 26) with 0x4000000 in *. unfold w32. lia.
Qed.

Section reset.
Context {D : Type}.
Implicit Types m : Mem D.
Implicit Types s : Heap * (Z * Mem D).
Variable alloc : gmap Z Z → Z → Z.
Hypothesis sound : malloc_sound alloc.

(** In the course of [mem_init], [mem_reset] or [gfxcard_init]: the blocks that
    are owned, and the board so far. *)
Record under_way (store : Z) (l : list (Z * Z)) (b : Board) s : Prop := {
  uw_blocks : blocks_ok (blocks (fst s));
  uw_owned : owned (blocks (fst s)) l;
  uw_store : gfxcard_store (fst s) = store;
  uw_board : board (snd (snd s)) = b
}.

Lemma wp_mono {A} (f : M (Heap * (Z * Mem D)) A) (Φ Ψ : A → _ → Prop) s :
  (∀ x s', Φ x s' → Ψ x s') → wp alloc f Φ s → wp alloc f Ψ s.
Proof. unfold wp. intros H. destruct (f s) as [[x s']|]; [apply H | done]. Qed.

Lemma wp_on_board f store l b s (Φ : unit → _ → Prop) :
  under_way store l b s → (∀ s', under_way store l (f b) s' → Φ tt s') → wp alloc (on_board f) Φ s.
Proof. intros [H1 H2 H3 <-] H. apply H. by split. Qed.

Lemma wp_zero p n store l b s (Φ : unit → _ → Prop) :
  under_way store l b s → (∀ s', under_way store l b s' → Φ tt s') → wp alloc (zero p n) Φ s.
Proof. intros [H1 H2 H3 <-] H. apply H. by split. Qed.

Lemma under_way_blocks store l l' b bl s :
  under_way store l b s → blocks_ok bl → owned bl l' → under_way store l' b (set_blocks bl (fst s), snd s).
Proof. intros [_ _ H3 H4] Hb Ho. by split. Qed.

(** Two buffers are checked, noted and cleared. *)
Lemma wp_noted q q' n f store l b s (Φ : unit → _ → Prop) :
  under_way store l b s → q ≠ 0 → q' ≠ 0 → (∀ s', under_way store l (f b) s' → Φ tt s') →
  wp alloc (if (q =? 0) || (q' =? 0) then fatal else on_board f;; zero q n;; zero q' n) Φ s.
Proof.
  intros Hs Hq Hq' H. rewrite (proj2 (Z.eqb_neq _ _) Hq), (proj2 (Z.eqb_neq _ _) Hq'). cbn [orb].
  apply wp_bind, (wp_on_board _ _ _ _ _ _ Hs). intros s1 H1.
  apply wp_bind, (wp_zero _ _ _ _ _ _ _ H1). intros s2 H2. by apply (wp_zero _ _ _ _ _ _ _ H2).
Qed.

(** Which pieces of Kinetic SDRAM and whether SIMM 1 is fitted. *)
Lemma wp_sdram (have : bool) up b s h Φ :
  memory_ok up h b → under_way (gfxcard_store h) (slots (gfxcard_store h) b) b s →
  (∀ (s0 s1 : Z) s', under_way (gfxcard_store h)
     (slots (gfxcard_store h) (set_sdram s0 s1 b)) (set_sdram s0 s1 b) s' → Φ tt s') →
  wp alloc (if have then
     q ← realloc alloc (sdram0 b) SDRAM_BANK_SIZE; q' ← realloc alloc (sdram1 b) SDRAM_BANK_SIZE;
     if (q =? 0) || (q' =? 0) then fatal else
       on_board (set_sdram q q');; zero q SDRAM_BANK_SIZE;; zero q' SDRAM_BANK_SIZE
   else free (sdram0 b);; free (sdram1 b);; on_board (set_sdram 0 0)) Φ s.
Proof.
  intros Hm Hs H. destruct have.
  - pose proof (uw_blocks _ _ _ _ Hs) as Hb. pose proof (uw_owned _ _ _ _ Hs) as Ho.
    apply (wp_realloc_pair _ sound _ 5 6 _ _ (SDRAM_BANK_MASK + 1) (SDRAM_BANK_MASK + 1) _ _ _ _ Hb Ho); [done..| |].
    + intros q q' bl Hq Hq' Hb1 Ho1. eapply wp_noted; [by apply (under_way_blocks _ _ _ _ _ _ Hs Hb1 Ho1) | done..|].
      intros s'. apply H.
    + intros q q' s' Hf E. by apply wp_refused.
  - pose proof (uw_blocks _ _ _ _ Hs) as Hb. pose proof (uw_owned _ _ _ _ Hs) as Ho.
    apply wp_bind, (wp_free _ _ 5 _ (SDRAM_BANK_MASK + 1) _ _ Hb Ho); [done|]. intros bl Hb1 Ho1.
    pose proof (under_way_blocks _ _ _ _ _ _ Hs Hb1 Ho1) as H1.
    apply wp_bind, (wp_free _ _ 6 _ (SDRAM_BANK_MASK + 1) (set_blocks bl s.1, s.2) _ Hb1 Ho1); [done|]. intros bl' Hb2 Ho2.
    pose proof (under_way_blocks _ _ _ _ _ _ H1 Hb2 Ho2) as H2.
    apply (wp_on_board _ _ _ _ _ _ H2). intros s'. apply (H 0 0).
Qed.

Lemma wp_simm1 (big : bool) store b s Φ :
  under_way store (slots store b) b s →
  (∀ r1 s', under_way store (slots store (set_ram1 r1 b)) (set_ram1 r1 b) s' → Φ tt s') →
  wp alloc (if big then
     r1 ← realloc alloc (ram1 b) (128 * 1024 * 1024);
     if r1 =? 0 then fatal else on_board (set_ram1 r1);; zero r1 (128 * 1024 * 1024)
   else free (ram1 b);; on_board (set_ram1 0)) Φ s.
Proof.
  intros Hs H. pose proof (uw_blocks _ _ _ _ Hs) as Hb. pose proof (uw_owned _ _ _ _ Hs) as Ho. destruct big.
  - apply wp_bind, (wp_realloc _ sound _ 4 _ (SIMM1_MASK + 1) _ _ _ Hb Ho); [done..| |].
    + intros q bl Hq Hb1 Ho1. rewrite (proj2 (Z.eqb_neq _ _) Hq).
      apply wp_bind. eapply wp_on_board; [exact (under_way_blocks _ _ _ _ _ _ Hs Hb1 Ho1)|]. intros s1 H1.
      eapply wp_zero; [exact H1|]. intros s2 H2. by apply (H q).
    + intros Hf. by apply wp_refused.
  - apply wp_bind, (wp_free _ _ 4 _ (SIMM1_MASK + 1) _ _ Hb Ho); [done|]. intros bl Hb1 Ho1.
    eapply wp_on_board; [exact (under_way_blocks _ _ _ _ _ _ Hs Hb1 Ho1)|]. intros s1. apply (H 0).
Qed.

(** A reset leaves the machine with its memory, whatever it had before. *)
Lemma mem_reset_ok up r v h e m :
  memory_ok up h (board m) → r ∈ ram_sizes → v ∈ vram_sizes →
  wp alloc (mem_reset alloc r v) (λ _ s, memory_ok true (fst s) (board (snd (snd s)))) (h, (e, m)).
Proof.
  intros Hm Hr Hv. set (b := board m) in *. pose proof Hm as [Hb Ho Hrom Hfb Hph _ _ _ _].
  assert (under_way (gfxcard_store h) (slots (gfxcard_store h) b) b (h, (e, m))) as H0 by by split.
  unfold mem_reset. apply wp_bind. eapply wp_run; [reflexivity|]. cbv beta zeta. fold b.
  set (kin := bool_decide (machine_model b = Model_Kinetic)).
  destruct (bank_bytes_ok kin r Hr) as (k & Hk & Ek). unfold bank_bytes in Ek. cbv zeta in Ek.
  set (half := _ / 2) in Ek |- *. pose proof (Z.pow_pos_nonneg 2 k ltac:(lia) ltac:(lia)) as Hpos.
  apply wp_bind, (wp_sdram _ up b _ h); [done..|]. intros p0 p1 st1 H1.
  apply wp_bind, (wp_simm1 _ _ _ _ _ H1). intros r1 st2 H2.
  apply wp_bind, (wp_on_board _ _ _ _ _ _ H2). intros st3 H3.
  set (b2 := set_ram1 r1 _) in *. set (b3 := set_masks _ _ b2) in *.
  pose proof (uw_blocks _ _ _ _ H3) as Hb3. pose proof (uw_owned _ _ _ _ H3) as Ho3.
  apply (wp_realloc_pair _ sound _ 2 3 _ _ (mem_rammask b + 1) (mem_rammask b + 1) _ _ _ _ Hb3 Ho3); [done..|lia| |].
  2: { intros q q' s' Hf E. by apply wp_bind, wp_refused. }
  intros q q' bl Hq Hq' Hb4 Ho4. apply wp_bind.
  eapply wp_noted; [by apply (under_way_blocks _ _ _ _ _ _ H3 Hb4 Ho4) | done..|]. intros st4 H4.
  apply wp_bind. eapply wp_run; [reflexivity|].
  eapply (wp_on_board _ (gfxcard_store h)); [split; [exact (uw_blocks _ _ _ _ H4) | exact (uw_owned _ _ _ _ H4) |
    exact (uw_store _ _ _ _ H4) | exact (uw_board _ _ _ _ H4)]|].
  intros st5 [Hb5 Ho5 Hst Hbd]. rewrite Hbd. 
  assert (mem_rammask b3 = Z.ones k) as Emask by (change (mem_rammask b3) with (sub32 half 1); rewrite Ek; by apply mask_of_size).
  split.
  - exact Hb5.
  - rewrite Hst. assert (mem_rammask b3 + 1 = half) as E1 by (rewrite Emask, Ek, Z.ones_equiv; lia).
    unfold slots. change (mem_rammask (set_space _ _)) with (mem_rammask b3). rewrite E1. exact Ho5.
  - exact Hrom.
  - rewrite Hst. exact Hfb.
  - exact Hph.
  - intros _. by split.
  - intros _. exists k. split; [lia|]. exact Emask.
  - intros _. by apply vram_mask_ok.
  - intros _. cbn. destruct (_ || _); [by right | by left].
Qed.
End reset.

(** * A session *)

(** The process starts with no memory for the machine. *)
Definition null_board (model : Model) (iomd : IOMDType) : Board := mkBoard 0 0 0 0 0 0 0 0 0 0 0 0 model iomd.
Definition set_machine (model : Model) (iomd : IOMDType) (b : Board) : Board :=
  mkBoard (rom b) (vram b) (ram00 b) (ram01 b) (ram1 b) (sdram0 b) (sdram1 b) (gfxcard_fb b)
    (gfxcard_fb_phys b) (mem_rammask b) (mem_vrammask b) (phys_space_mask b) model iomd.

Section session.
Context {D : Type}.
Implicit Types m : Mem D.
Variable alloc : gmap Z Z → Z → Z.

(** What has happened to the memory of the machine since the process started:
    [mem_init], then resets with sizes of the configuration, the graphics card
    fitted or taken out, and in between anything that leaves the buffers
    allocated: the machine runs, another model is chosen, other parts of the
    program allocate and free. [true] is after the first reset. *)
Inductive session : bool → Heap → Mem D → Prop :=
| session_start bl model iomd e m h' e' m' :
    blocks_ok bl → board m = null_board model iomd →
    mem_init alloc (mkHeap bl 0, (e, m)) = Some (tt, (h', (e', m'))) → session false h' m'
| session_reset up h e m r v h' e' m' :
    session up h m → r ∈ ram_sizes → v ∈ vram_sizes →
    mem_reset alloc r v (h, (e, m)) = Some (tt, (h', (e', m'))) → session true h' m'
| session_card up h e m on slot h' e' m' :
    session up h m → (∀ n, slot = Some n → 0 ≤ n < 8) →
    gfxcard_init_fb alloc on slot (h, (e, m)) = Some (tt, (h', (e', m'))) → session up h' m'
| session_run up h m h' m' model iomd :
    session up h m → board m' = set_machine model iomd (board m) →
    gfxcard_store h' = gfxcard_store h → blocks_ok (blocks h') →
    (∀ p n, (p, n) ∈ slots (gfxcard_store h) (board m) → blocks h' !! p = blocks h !! p) →
    session up h' m'.

Hypothesis sound : malloc_sound alloc.

Lemma mem_init_ok bl model iomd e m :
  blocks_ok bl → board m = null_board model iomd →
  wp alloc (mem_init alloc) (λ _ s, memory_ok false (fst s) (board (snd (snd s)))) (mkHeap bl 0, (e, m)).
Proof.
  intros Hb Em. set (l := slots 0 (board m)).
  assert (owned bl l) as Ho.
  { unfold l. rewrite Em. split.
    - intros i p n Hi Hp. do 8 (destruct i as [|i]; [by injection Hi as <-|]). discriminate Hi.
    - intros i j p n k Hi _ Hp. do 8 (destruct i as [|i]; [by injection Hi as <-|]). discriminate Hi. }
  assert (under_way 0 l (board m) (mkHeap bl 0, (e, m))) as H0 by by split.
  unfold mem_init. apply wp_bind, (wp_malloc alloc sound l 0 ROMSIZE); [done | done | by (unfold l; rewrite Em) | done | |].
  2: { intros Hf. apply wp_bind. unfold wp. destruct (malloc alloc _ _) as [[x s']|]; [|done]. by cbn. }
  intros q bl1 Hq Hb1 Ho1. pose proof (under_way_blocks _ _ _ _ _ _ H0 Hb1 Ho1) as H1.
  apply wp_bind, (wp_malloc alloc sound (<[0%nat := (q, ROMSIZE)]> l) 1 (2 ^ 24));
    [done | done | by (unfold l; rewrite Em) | done | |].
  2: { intros Hf. apply wp_refused; [done | by rewrite orb_true_r]. }
  intros q' bl2 Hq' Hb2 Ho2. pose proof (under_way_blocks _ _ _ _ _ _ H1 Hb2 Ho2) as H2.
  rewrite (proj2 (Z.eqb_neq _ _) Hq), (proj2 (Z.eqb_neq _ _) Hq'). cbn [orb].
  apply (wp_on_board _ _ _ _ _ _ _ H2). intros s' [Hb3 Ho3 Hst Hbd]. rewrite Hbd.
  split; [done | | | | | done..].
  - rewrite Hst. exact Ho3.
  - by split.
  - left. by rewrite Em.
  - by rewrite Em.
Qed.

Lemma memory_fb up h b fb phys :
  memory_ok up h b → fb = 0 ∨ fb = gfxcard_store h →
  0 ≤ phys ≤ 0x10000000 - GFXCARD_FB_SIZE ∧ phys mod 0x1000 = 0 → memory_ok up h (set_fb fb phys b).
Proof. intros []. by split. Qed.

(** The framestore has its own block. *)
Lemma wp_store up h b s :
  memory_ok up h b → gfxcard_fb b = 0 → gfxcard_store h = 0 → fst s = h → board (snd (snd s)) = b →
  wp alloc (q ← malloc alloc GFXCARD_FB_SIZE; when (nz q) (zero q GFXCARD_FB_SIZE);;
    modify (λ st : Heap * (Z * Mem D), (mkHeap (blocks (fst st)) q, snd st)))
    (λ _ s', memory_ok up (fst s') b ∧ board (snd (snd s')) = b) s.
Proof.
  intros [Hb Ho Hrom Hfb Hph Hram Hmk Hvm Hsp] Efb Est <- Eb. rewrite Est in Ho.
  assert (∀ bl q, blocks_ok bl → owned bl (slots q b) → memory_ok up (mkHeap bl q) b) as Hmem.
  { intros bl q Hbl Hol. split; try done. by left. }
  apply wp_bind, (wp_malloc alloc sound _ 7 GFXCARD_FB_SIZE _ _ _ Hb Ho); [done..| |].
  - intros q bl Hq Hb1 Ho1. unfold nz. rewrite (proj2 (Z.eqb_neq _ _) Hq). cbn [negb when].
    apply wp_bind. eapply wp_run; [reflexivity|]. eapply wp_run; [reflexivity|]. cbn [fst snd].
    split; [|exact Eb]. by apply Hmem.
  - intros _. apply wp_bind. eapply wp_run; [reflexivity|]. eapply wp_run; [reflexivity|]. cbn [fst snd].
    split; [|exact Eb]. by apply Hmem.
Qed.

Lemma gfxcard_init_ok up on slot h e m :
  memory_ok up h (board m) → (∀ n, slot = Some n → 0 ≤ n < 8) →
  wp alloc (gfxcard_init_fb alloc on slot) (λ _ s, memory_ok up (fst s) (board (snd (snd s)))) (h, (e, m)).
Proof.
  intros Hm Hslot. unfold gfxcard_init_fb. apply wp_bind. eapply wp_run; [reflexivity|].
  set (b := set_fb 0 0 (board m)).
  assert (memory_ok up h b) as Hb by (apply memory_fb; [done | by left | done]).
  destruct on; [|by eapply wp_run; [reflexivity|]]. cbn [when].
  apply wp_bind. eapply wp_run; [reflexivity|]. cbn [fst].
  apply wp_bind, (wp_mono _ _ (λ _ s, memory_ok up (fst s) b ∧ board (snd (snd s)) = b)).
  - intros _ s [H1 E1]. apply wp_bind. eapply wp_run; [reflexivity|].
    destruct (nz _) eqn:Est; [|by eapply wp_run; [reflexivity|]; cbn [fst snd]; rewrite E1].
    cbn [when]. destruct slot as [n|]; [|by eapply wp_run; [reflexivity|]; cbn [fst snd]; rewrite E1].
    eapply wp_run; [reflexivity|]. cbn [fst snd on_mem]. cbn. rewrite E1.
    apply memory_fb; [done | by right |]. specialize (Hslot n eq_refl).
    assert (n = 0 ∨ n = 1 ∨ n = 2 ∨ n = 3 ∨ n = 4 ∨ n = 5 ∨ n = 6 ∨ n = 7) as Hn by lia.
    by repeat (destruct Hn as [->|Hn]; [by vm_compute|]); subst.
  - destruct (Z.eqb_spec (gfxcard_store h) 0) as [E|]; [|by eapply wp_run; [reflexivity|]].
    cbn [when]. by apply (wp_store up h b).
Qed.

Lemma session_ok up h m : session up h m → memory_ok up h (board m).
Proof.
  induction 1 as [bl model iomd e m h' e' m' Hb Em Hrun | up h e m r v h' e' m' _ IH Hr Hv Hrun
    | up h e m on slot h' e' m' _ IH Hs Hrun | up h m h' m' model iomd _ IH Em Est Hb Hkept].
  - pose proof (mem_init_ok bl model iomd e m Hb Em) as H. unfold wp in H. by rewrite Hrun in H.
  - pose proof (mem_reset_ok alloc sound up r v h e m IH Hr Hv) as H. unfold wp in H. by rewrite Hrun in H.
  - pose proof (gfxcard_init_ok up on slot h e m IH Hs) as H. unfold wp in H. by rewrite Hrun in H.
  - destruct IH as [_ [H1 H2] Hrom Hfb Hph Hram Hmk Hvm Hsp]. rewrite Em.
    split; [done | | done | by rewrite Est | done..]. rewrite Est. split; [|exact H2].
    intros i p n Hi Hp. rewrite (Hkept p n); [by apply (H1 i)|]. by apply (list_elem_of_lookup_2 _ i).
Qed.
End session.

(** * Accesses *)

Definition live (bl : gmap Z Z) (q : Z) : Prop := ∃ p n, bl !! p = Some n ∧ p ≤ q < p + n.
(** A device answers at [a]: the I/O space, or an expansion card. *)
Definition at_device (b : Board) (a : Z) : bool :=
  let x := a .& phys_space_mask b in
  existsb (Z.eqb (chunk x b)) IO_chunk || (existsb (Z.eqb (chunk x b)) EASI_chunks && negb (in_framestore x b)).

Section access_bounds.
Context {D : Type} `{!IoDev D}.
Implicit Types m : Mem D.

(** Reading changes nothing, and does not depend on bytes outside the blocks. *)
Definition reads_live (bl : gmap Z Z) (f : M (Z * Mem D) Z) (e : Z) (m : Mem D) : Prop :=
  ∃ v, f (e, m) = Some (v, (e, m)) ∧
    ∀ h', (∀ q, live bl q → get8 q h' = get8 q (host m)) → f (e, set_host h' m) = Some (v, (e, set_host h' m)).
(** Writing changes no byte outside the blocks, and none of the ROM. *)
Definition writes_live (bl : gmap Z Z) (f : M (Z * Mem D) unit) (e : Z) (m : Mem D) : Prop :=
  ∃ m', f (e, m) = Some (tt, (e, m')) ∧ same_mmu m m' ∧
    ∀ q, (live bl q → rom (board m) ≤ q < rom (board m) + ROMSIZE) → get8 q (host m') = get8 q (host m).

Lemma memory_board_ok h b : memory_ok true h b → board_ok b.
Proof.
  intros [Hb [Ho _] _ Hfb Hph _ Hmk Hvm Hsp].
  assert (∀ i p n, slots (gfxcard_store h) b !! i = Some (p, n) → 0 ≤ p < 2 ^ 48 ∧ p mod 4 = 0) as Hp.
  { intros i p n Hi. destruct (decide (p = 0)) as [->|Hp]; [done|].
    destruct (bk_block _ Hb _ _ (Ho i p n Hi Hp)) as [[H1 H2] _]. split; [lia | exact H2]. }
  split; [by apply Hmk | by apply Hvm | by apply Hsp | | exact Hph].
  apply list.Forall_forall. repeat (apply list.Forall_cons; split); [..|done].
  - by apply (Hp 0%nat _ ROMSIZE).
  - by apply (Hp 1%nat _ (2 ^ 24)).
  - by apply (Hp 2%nat _ (mem_rammask b + 1)).
  - by apply (Hp 3%nat _ (mem_rammask b + 1)).
  - by apply (Hp 4%nat _ (SIMM1_MASK + 1)).
  - by apply (Hp 5%nat _ (SDRAM_BANK_MASK + 1)).
  - by apply (Hp 6%nat _ (SDRAM_BANK_MASK + 1)).
  - destruct Hfb as [->| ->]; [done|]. by apply (Hp 7%nat _ GFXCARD_FB_SIZE).
Qed.

(** What an address decodes to lies in one of the blocks, which is the ROM's
    only for a read. *)
Lemma phys_at_in_bounds w h b a p :
  memory_ok true h b → phys_at w b a = Some p →
  ∃ i base n, slots (gfxcard_store h) b !! i = Some (base, n) ∧ base ≠ 0 ∧ (w = true → i ≠ 0%nat) ∧
    in_bounds a (p - base) n.
Proof.
  intros Hm. pose proof (memory_board_ok h b Hm) as Hb. destruct Hm as [_ _ [Hrom Hvram] Hfb Hph Hram _ _ _].
  destruct (Hram eq_refl) as [H00 H01]. unfold phys_at. cbv zeta. set (x := a .& phys_space_mask b).
  assert (a mod 4 = 0 → x mod 4 = 0) as Hx by apply land_aligned.
  assert (∀ i base n k, slots (gfxcard_store h) b !! i = Some (base, n) → base ≠ 0 → (w = true → i ≠ 0%nat) →
    2 ≤ k → 2 ^ k ≤ n → Some (base + (x .& Z.ones k)) = Some p →
    ∃ i base n, slots (gfxcard_store h) b !! i = Some (base, n) ∧ base ≠ 0 ∧ (w = true → i ≠ 0%nat) ∧
      in_bounds a (p - base) n) as H.
  { intros i base n k Hi Hz Hw Hk Hn [= <-]. exists i, base, n. split_and!; [done..|].
    rewrite Z.add_simpl_l. by apply (in_bounds_le _ _ _ _ Hn), mask_in_bounds. }
  destruct (bo_ram b Hb) as (kr & Hkr & Er). pose proof (Z.ones_equiv kr) as Hr.
  cbn [switch]. repeat match goal with |- context [existsb (Z.eqb ?x) ?l] => destruct (existsb (Z.eqb x) l) end; try done.
  - destruct w; [done|]. by apply (H 0%nat (rom b) ROMSIZE 23).
  - destruct (bo_vram b Hb) as [->|(kv & Hkv & Ev)]; [done|]. destruct (_ =? 0); [done|]. rewrite Ev.
    apply (H 1%nat (vram b) (2 ^ 24) kv); [done..| lia |]. apply Z.pow_le_mono_r; lia.
  - destruct (in_framestore x b) eqn:E; [|done]. intros [= <-]. unfold in_framestore in E.
    apply andb_true_iff in E as [E1 E2]. apply Z.ltb_lt in E2. apply nz_true in E1. destruct Hfb as [|Hfb]; [done|].
    exists 7%nat, (gfxcard_fb b), GFXCARD_FB_SIZE. split; [by rewrite Hfb|]. split_and!; [done..|]. rewrite Z.add_simpl_l.
    apply aligned_in_bounds; [split; [apply u32_w32 | done] | done |]. intros Ha.
    apply sub32_aligned; [by apply Hx|]. apply mod_page_4, Hph.
  - rewrite Er. apply (H 2%nat (ram00 b) (mem_rammask b + 1) kr); [done..| lia |]. rewrite Er, Hr. lia.
  - rewrite Er. apply (H 3%nat (ram01 b) (mem_rammask b + 1) kr); [done..| lia |]. rewrite Er, Hr. lia.
  - destruct (nz (ram1 b)) eqn:E; [|done]. apply (H 4%nat (ram1 b) (SIMM1_MASK + 1) 27); [done | by apply nz_true | done..].
  - destruct (nz (sdram0 b)) eqn:E; [|done]. apply (H 5%nat (sdram0 b) (SDRAM_BANK_MASK + 1) 27); [done | by apply nz_true | done..].
  - destruct (nz (sdram1 b)) eqn:E; [|done]. apply (H 6%nat (sdram1 b) (SDRAM_BANK_MASK + 1) 27); [done | by apply nz_true | done..].
Qed.

(** The bytes of an access, seen from the heap. *)
Lemma phys_at_live w h b a p i :
  memory_ok true h b → phys_at w b a = Some p → 0 ≤ i < 4 → i = 0 ∨ a mod 4 = 0 → live (blocks h) (p + i).
Proof.
  intros Hm Hp Hi Ha. destruct (phys_at_in_bounds w h b a p Hm Hp) as (j & base & n & Hj & Hz & _ & Ho & Hal).
  exists base, n. split; [by apply (ow_block _ _ (mk_owned _ _ _ Hm) j)|].
  destruct Ha as [->|Ha]; [lia|]. specialize (Hal Ha). lia.
Qed.

Lemma phys_at_not_rom h b a p i q :
  memory_ok true h b → phys_at true b a = Some p → 0 ≤ i < 4 → i = 0 ∨ a mod 4 = 0 →
  rom b ≤ q < rom b + ROMSIZE → p + i ≠ q.
Proof.
  intros Hm Hp Hi Ha Hq. destruct (phys_at_in_bounds true h b a p Hm Hp) as (j & base & n & Hj & Hz & Hw & Ho & Hal).
  pose proof (ow_block _ _ (mk_owned _ _ _ Hm) j _ _ Hj Hz) as Hbase.
  pose proof (proj1 (mk_rom _ _ _ Hm)) as Hrom.
  pose proof (ow_block _ _ (mk_owned _ _ _ Hm) 0%nat _ _ eq_refl Hrom) as Hblk.
  assert (base ≠ rom b) as Hne.
  { intros ->. apply (Hw eq_refl). by apply (ow_once _ _ (mk_owned _ _ _ Hm) j 0%nat (rom b) n ROMSIZE Hj). }
  pose proof (bk_apart _ (mk_blocks _ _ _ Hm) _ _ _ _ Hbase Hblk Hne) as [H|H];
    (destruct Ha as [->|Ha]; [lia | specialize (Hal Ha); lia]).
Qed.

(** Where nothing answers, reads give a constant and writes do nothing. *)
Ltac unfitted Hm :=
  unfold at_device, phys_at, mem_phys_read32, mem_phys_read8, mem_phys_write32, mem_phys_write8, ask, gets,
    alter_mem, modify, when, mbind, M_bind, mret, M_ret;
  cbn beta iota; cbn [fst snd];
  rewrite !Hm;
  match goal with |- context [chunk ?x ?b] => generalize (chunk x b); intros c end; cbn [switch]; cbv iota;
  let E := fresh in destruct (existsb (Z.eqb _) ROM_chunk) eqn:E; [other_chunks | clear E];
  repeat match goal with
  | |- context [existsb (Z.eqb ?x) ?l] => destruct (existsb (Z.eqb x) l)
  end; cbn [orb andb negb]; try discriminate;
  let H1 := fresh in let H2 := fresh in intros H1 H2; try discriminate H1; try discriminate H2; revert H1 H2;
  repeat match goal with
  | |- context [if ?c then _ else _] => destruct c
  end; cbn [negb]; intros; try discriminate; done.

Lemma unfitted_read32 b a : phys_at false b a = None → at_device b a = false →
  ∃ v, ∀ e m, board m = b → mem_phys_read32 a (e, m) = Some (v, (e, m)).
Proof.
  intros Hp Hd. exists (if existsb (Z.eqb (chunk (a .& phys_space_mask b) b)) VRAM_chunk then 0xffffffff else 0).
  intros e m Hm. revert Hp Hd. unfitted Hm.
Qed.

Lemma unfitted_read8 b a : phys_at false b a = None → at_device b a = false →
  ∀ e m, board m = b → mem_phys_read8 a (e, m) = Some (0xff, (e, m)).
Proof. intros Hp Hd e m Hm. revert Hp Hd. unfitted Hm. Qed.

Lemma unfitted_write32 b a v : phys_at true b a = None → at_device b a = false →
  ∀ e m, board m = b → mem_phys_write32 a v (e, m) = Some (tt, (e, m)).
Proof. intros Hp Hd e m Hm. revert Hp Hd. unfitted Hm. Qed.

Lemma unfitted_write8 b a v : phys_at true b a = None → at_device b a = false →
  ∀ e m, board m = b → mem_phys_write8 a v (e, m) = Some (tt, (e, m)).
Proof. intros Hp Hd e m Hm. revert Hp Hd. unfitted Hm. Qed.

Lemma reads32_live h a e m :
  memory_ok true h (board m) → at_device (board m) a = false → a mod 4 = 0 →
  reads_live (blocks h) (mem_phys_read32 a) e m.
Proof.
  intros Hm Hd Ha. destruct (phys_at false (board m) a) as [p|] eqn:Hp.
  - exists (get32 p (host m)). split; [by apply mem_phys_read32_at|]. intros h' Hh.
    rewrite (mem_phys_read32_at a p e (set_host h' m)) by done. cbn [host set_host].
    rewrite (get32_ext p p h' (host m)); [done|]. intros i Hi. apply Hh.
    apply (phys_at_live false h (board m) a); [done..| by right].
  - destruct (unfitted_read32 (board m) a Hp Hd) as [v Hv]. exists v. split; [by apply Hv|]. intros h' _. by apply Hv.
Qed.

Lemma reads8_live h a e m :
  memory_ok true h (board m) → at_device (board m) a = false → reads_live (blocks h) (mem_phys_read8 a) e m.
Proof.
  intros Hm Hd. destruct (phys_at false (board m) a) as [p|] eqn:Hp.
  - exists (get8 p (host m)). split; [by apply mem_phys_read8_at|]. intros h' Hh.
    rewrite (mem_phys_read8_at a p e (set_host h' m)) by done. cbn [host set_host]. rewrite Hh; [done|].
    rewrite <- (Z.add_0_r p). apply (phys_at_live false h (board m) a); [done..| by left].
  - exists 0xff. split; [by apply (unfitted_read8 (board m))|]. intros h' _. by apply (unfitted_read8 (board m)).
Qed.

Lemma same_mmu_refl m : same_mmu m m.
Proof. by split. Qed.

Lemma writes32_live h a v e m :
  memory_ok true h (board m) → at_device (board m) a = false → a mod 4 = 0 →
  writes_live (blocks h) (mem_phys_write32 a v) e m.
Proof.
  intros Hm Hd Ha. destruct (phys_at true (board m) a) as [p|] eqn:Hp.
  - destruct (mem_phys_write32_at a p v e m Hp Ha) as (m' & Hrun & Hs & Hh). exists m'. split_and!; [done..|].
    intros q Hq. rewrite Hh, get8_put32. case_decide as Hin; [|done].
    assert (live (blocks h) q) as Hl.
    { replace q with (p + (q - p)) by lia. apply (phys_at_live true h (board m) a); [done..| lia | by right]. }
    destruct (phys_at_not_rom h (board m) a p (q - p) q); [done..| lia | by right | by apply Hq | lia].
  - exists m. split_and!; [by apply (unfitted_write32 (board m)) | apply same_mmu_refl | done].
Qed.

Lemma writes8_live h a v e m :
  memory_ok true h (board m) → at_device (board m) a = false → writes_live (blocks h) (mem_phys_write8 a v) e m.
Proof.
  intros Hm Hd. destruct (phys_at true (board m) a) as [p|] eqn:Hp.
  - destruct (mem_phys_write8_at a p v e m Hp) as (m' & Hrun & Hs & Hh). exists m'. split_and!; [done..|].
    intros q Hq. rewrite Hh, get8_put8. case_decide as Hin; [|done]. subst q.
    assert (live (blocks h) (p + 0)) as Hl by (apply (phys_at_live true h (board m) a); [done..| by left]).
    rewrite Z.add_0_r in Hl.
    destruct (phys_at_not_rom h (board m) a p 0 p); [done..| by left | by apply Hq | lia].
  - exists m. split_and!; [by apply (unfitted_write8 (board m)) | apply same_mmu_refl | done].
Qed.
End access_bounds.
