(* ===== verification/MemDebug.v ===== *)
(** The debugger's view of memory: [mem_phys_read8_debug], its counterpart for
    writing, and the accesses by virtual address, with how far they agree with
    the guest's and what they disturb. *)

From S2P Require Export MemBoard.

Section debug.
Context {D : Type} `{!IoDev D}.
Local Abbreviation MEM := (M (Z * Mem D)).

Definition mem_phys_read8_debug (addr : Z) : MEM Z :=
  b ← ask board;
  let addr := addr .& phys_space_mask b in
  switch (chunk addr b) [
    (ROM_chunk, ask (byte_of (rom b) (addr .& 0x7fffff)));
    (VRAM_chunk, if mem_vrammask b =? 0 then mret 0
                 else ask (byte_of (vram b) (addr .& mem_vrammask b)));
    (SIMM0_0_chunks, ask (byte_of (ram00 b) (addr .& mem_rammask b)));
    (SIMM0_1_chunks, ask (byte_of (ram01 b) (addr .& mem_rammask b)));
    (SIMM1_chunks, if nz (ram1 b) then ask (byte_of (ram1 b) (addr .& 0x7ffffff)) else mret 0);
    (SDRAM0_chunks, if nz (sdram0 b) then ask (byte_of (sdram0 b) (addr .& SDRAM_BANK_MASK))
                    else mret 0);
    (SDRAM1_chunks, if nz (sdram1 b) then ask (byte_of (sdram1 b) (addr .& SDRAM_BANK_MASK))
                    else mret 0)
  ] (mret 0).

(** [true] if the byte was written *)
Definition mem_phys_write8_debug (addr val : Z) : MEM bool :=
  b ← ask board;
  let addr := addr .& phys_space_mask b in
  let poke base off := alter_mem (set_byte base off val);; mret true in
  switch (chunk addr b) [
    (ROM_chunk, mret false);
    (VRAM_chunk, if mem_vrammask b =? 0 then mret false else poke (vram b) (addr .& mem_vrammask b));
    (SIMM0_0_chunks, poke (ram00 b) (addr .& mem_rammask b));
    (SIMM0_1_chunks, poke (ram01 b) (addr .& mem_rammask b));
    (SIMM1_chunks, if nz (ram1 b) then poke (ram1 b) (addr .& 0x7ffffff) else mret false);
    (SDRAM0_chunks, if nz (sdram0 b) then poke (sdram0 b) (addr .& SDRAM_BANK_MASK) else mret false);
    (SDRAM1_chunks, if nz (sdram1 b) then poke (sdram1 b) (addr .& SDRAM_BANK_MASK) else mret false)
  ] (mret false).

(** The event is put back, so that a miss injects no abort. *)
Definition mem_debug_translate (vaddr : Z) : MEM (option Z) :=
  c ← ask cp15;
  if nz (mmu c) then
    saved_event ← gets fst;
    p ← translateaddress2 vaddr false false;
    ev ← gets fst;
    let fault := nz ((ev : Z) .& 0x40) in
    modify (λ '(_, m), (saved_event, m));;
    mret (if fault then None else Some p)
  else mret (Some vaddr).

(** The loop over the bytes, from byte [i], with what is read so far. *)
Fixpoint debug_read_loop (vaddr : Z) (n : nat) (i value : Z) : MEM (option Z) :=
  match n with
  | O => mret (Some value)
  | Datatypes.S n' =>
      o ← mem_debug_translate (add32 vaddr i);
      match (o : option Z) with
      | None => mret None
      | Some phys =>
          v ← mem_phys_read8_debug phys;
          debug_read_loop vaddr n' (i + 1) (value .| Z.shiftl (v .& 0xff) (i * 8))
      end
  end.
Definition mem_debug_read (vaddr size : Z) : MEM (option Z) :=
  if (size =? 1) || (size =? 2) || (size =? 4) then debug_read_loop vaddr (Z.to_nat size) 0 0
  else mret None.

(** The pointer of [mem_debug_host_ptr] at a physical address; zero is [NULL]. *)
Definition host_base (phys : Z) (b : Board) : Z * Z :=
  if in_framestore phys b then (gfxcard_fb b, sub32 phys (gfxcard_fb_phys b)) else
  let masked := phys .& phys_space_mask b in
  switch (chunk masked b) [
    (ROM_chunk, (rom b, masked .& 0x7fffff));
    (VRAM_chunk, if mem_vrammask b =? 0 then (0, 0) else (vram b, masked .& mem_vrammask b));
    (SIMM0_0_chunks, (ram00 b, masked .& mem_rammask b));
    (SIMM0_1_chunks, (ram01 b, masked .& mem_rammask b));
    (SIMM1_chunks, (ram1 b, masked .& 0x7ffffff));
    (SDRAM0_chunks, (sdram0 b, masked .& SDRAM_BANK_MASK));
    (SDRAM1_chunks, (sdram1 b, masked .& SDRAM_BANK_MASK))
  ] (0, 0).

(** The pointer, and the bytes readable from it. *)
Definition mem_debug_host_ptr (vaddr : Z) : MEM (option Z * Z) :=
  o ← mem_debug_translate vaddr;
  match (o : option Z) with
  | None => mret (None, 0)
  | Some phys =>
      b ← ask board;
      let '(base, offset) := host_base phys b in
      if base =? 0 then mret (None, 0)
      else mret (Some (base + offset), 0x1000 - (vaddr .& 0xfff))
  end.
End debug.

(** * Agreement with the guest *)

Section debug_spec.
Context {D : Type} `{!IoDev D}.
Implicit Types m : Mem D.

Definition in_easi (a : Z) (b : Board) : bool :=
  existsb (Z.eqb (chunk (a .& phys_space_mask b) b)) EASI_chunks.

(** The debugger reads the byte the guest would, the framestore aside. *)
Lemma read8_debug_at a p e m :
  phys_at false (board m) a = Some p → in_easi a (board m) = false →
  mem_phys_read8_debug a (e, m) = Some (get8 p (host m), (e, m)).
Proof.
  unfold phys_at, in_easi, mem_phys_read8_debug, ask, gets, mbind, M_bind, mret, M_ret, byte_of. cbn beta iota.
  cbn [snd]. set (x := a .& phys_space_mask (board m)) in *. cbn [switch].
  repeat match goal with |- context [existsb (Z.eqb ?x) ?l] => destruct (existsb (Z.eqb x) l) end; cbn [fst snd];
    repeat match goal with |- context [if ?c then _ else _] => destruct c eqn:? end;
    try discriminate; by intros [= <-].
Qed.

(** It writes where the guest would, the framestore aside, and otherwise says so
    and does nothing. *)
Lemma write8_debug_at a v e m :
  in_easi a (board m) = false →
  mem_phys_write8_debug a v (e, m) =
    match phys_at true (board m) a with
    | Some p => Some (true, (e, set_host (put8 p v (host m)) m))
    | None => Some (false, (e, m))
    end.
Proof.
  unfold phys_at, in_easi, mem_phys_write8_debug, ask, gets, alter_mem, modify, mbind, M_bind, mret, M_ret, set_byte.
  cbn beta iota. cbn [snd]. set (x := a .& phys_space_mask (board m)) in *. cbn [switch].
  destruct (existsb (Z.eqb (chunk x (board m))) IO_chunk) eqn:Eio.
  { intros _. rewrite !(existsb_disjoint IO_chunk _ _) by (exact Eio || (vm_compute; reflexivity)). done. }
  repeat match goal with |- context [existsb (Z.eqb ?x) ?l] => destruct (existsb (Z.eqb x) l) end; cbn [fst snd];
    repeat match goal with |- context [if ?c then _ else _] => destruct c eqn:? end; done.
Qed.

(** * Translation *)

Lemma debug_translate_run va e m r :
  cp15_ok (cp15 m) → w32 va → Z.testbit e 6 = false → nz (mmu (cp15 m)) = true →
  mmu_access m (nz (memmode m)) false va = Some r →
  mem_debug_translate va (e, m) = Some (
    match r with
    | inl (phys, perm) => (Some phys, (e, upd_tlb (cp15_tlb_add_entry va phys perm) m))
    | inr (d, code) => (None, (e, with_fault va d code false m))
    end).
Proof.
  intros Hc Hv He Hon Ha. unfold mem_debug_translate, ask, gets, mbind, M_bind. cbv beta iota. cbn [snd fst]. rewrite Hon.
  rewrite (translateaddress2_access m va false false e r Hc Hv Ha).
  destruct r as [[phys perm]|[d code]]; unfold translated, modify, mret, M_ret; cbv beta iota; cbn [fst snd].
  - assert (nz (e .& 0x40) = false) as ->; [|done]. change 0x40 with (2 ^ 6). by rewrite nz_mask_bit.
  - by rewrite abort_pending.
Qed.

(** A successful translation is permitted to the guest, and keeps the invariant. *)
Lemma debug_translate_allowed va e m phys :
  mem_inv m → w32 va → Z.testbit e 6 = false → permitted m (privileged m) false va phys →
  ∃ m', mem_debug_translate va (e, m) = Some (Some phys, (e, m')) ∧ quiet m m' ∧ mem_inv m'.
Proof.
  intros Hok Hv He Hp. destruct (nz (mmu (cp15 m))) eqn:Hon.
  - pose proof Hp as Hp'. unfold permitted in Hp'. rewrite Hon in Hp'. destruct Hp' as [perm Ha].
    eexists. split; [exact (debug_translate_run va e m (inl (phys, perm)) (mo_cp15 m Hok) Hv He Hon Ha)|].
    split; [done|]. apply (mem_inv_quiet m); [done | done |].
    destruct (mo_coherent m Hok) as [H1 H2 H3 H4 H5 H6 H7 H8].
    pose proof (tlb_ok_add m (privileged m) false va phys perm H1 (mo_uniform m Hok) Hv Ha) as Ht.
    split; [exact Ht | exact H2 | exact H3 | exact H4 | | | exact H7 | exact H8].
    + intros va' k Hv' _ Hk Hinv. cbn [tlb upd_tlb set_tlb] in *.
      destruct (Z.eq_dec (va' / 0x1000) (va / 0x1000)) as [E|E].
      * rewrite E, <- (page_of_va va) in Hinv. unfold tlb_valid in Hinv.
        destruct (add_entry_same va phys perm (tlb m)) as [Es _]. rewrite Es in Hinv.
        rewrite page_mask in Hinv by (exact (permitted_w32 _ _ _ _ _ Hv Hp)). by rewrite Z.mod_mul in Hinv.
      * rewrite <- (page_of_va va) in E.
        destruct (add_entry_other va phys perm (tlb m) _ E) as [[Ec ->]|[_ ->]]; [|done].
        apply (H5 va' k); [done | done | done |]. unfold tlb_valid in *. by rewrite <- Ec.
    + apply add_entry_ring; [|done]. rewrite page_of_va. by apply page_range.
  - exists m. unfold permitted in Hp. rewrite Hon in Hp. subst phys. split; [|done].
    unfold mem_debug_translate, ask, gets, mbind, M_bind. cbv beta iota. cbn [snd fst]. by rewrite Hon.
Qed.

(** * Reads *)

Lemma debug_read_loop_run va n i value e m (f : Z → Z) :
  mem_inv m → Z.testbit e 6 = false →
  (∀ j, i ≤ j < i + Z.of_nat n → ∃ phys p, permitted m (privileged m) false (add32 va j) phys ∧
     phys_at false (board m) phys = Some p ∧ in_easi phys (board m) = false ∧ get8 p (host m) = f j) →
  ∃ m', debug_read_loop va n i value (e, m) =
          Some (Some (foldl (λ v j, v .| Z.shiftl (f j .& 0xff) (j * 8)) value (seqZ i (Z.of_nat n))), (e, m')) ∧
        quiet m m' ∧ mem_inv m'.
Proof.
  revert i value m. induction n as [|n IH]; intros i value m Hok He Hf; cbn [debug_read_loop].
  { exists m. done. }
  destruct (Hf i ltac:(lia)) as (phys & p & Hp & Hat & Hea & Hg).
  destruct (debug_translate_allowed (add32 va i) e m phys Hok (u32_w32 _) He Hp) as (m1 & Hrun & Hq & Hok1).
  rewrite (bind_eq _ _ _ _ _ Hrun). cbv beta iota.
  rewrite <- (qt_board _ _ Hq) in Hat, Hea.
  rewrite (bind_eq _ _ _ _ _ (read8_debug_at phys p e m1 Hat Hea)), (qt_host _ _ Hq), Hg.
  destruct (IH (i + 1) (value .| Z.shiftl (f i .& 0xff) (i * 8)) m1 Hok1 He) as (m2 & Hrun2 & Hq2 & Hok2).
  { intros j Hj. destruct (Hf j ltac:(lia)) as (phys' & p' & Hp' & Hat' & Hea' & Hg'). exists phys', p'.
    rewrite (qt_board _ _ Hq), (qt_host _ _ Hq). split_and!; try done.
    replace (privileged m1) with (privileged m) by (unfold privileged; by rewrite (qt_memmode _ _ Hq)).
    by eapply permitted_view; [apply quiet_view | apply u32_w32 |]. }
  exists m2. rewrite Hrun2. split_and!; [|by eapply quiet_trans | done].
  rewrite (seqZ_cons i) by lia. cbn [foldl].
  replace (Z.succ i) with (i + 1) by lia. replace (Z.pred (Z.of_nat (S n))) with (Z.of_nat n) by lia. done.
Qed.

(** ** The bytes of a word *)

Lemma add_byte_mod a k n : 2 ≤ n → a mod 4 = 0 → 0 ≤ k < 4 → (a + k) mod 2 ^ n = a mod 2 ^ n + k.
Proof.
  intros Hn Ha Hk. replace (2 ^ n) with (4 * 2 ^ (n - 2)).
  2: { change 4 with (2 ^ 2). rewrite <- Z.pow_add_r by lia. f_equal. lia. }
  assert (0 < 2 ^ (n - 2)) by (apply Z.pow_pos_nonneg; lia).
  rewrite !Z.rem_mul_r by lia. rewrite Ha.
  assert ((a + k) mod 4 = k) as -> by (rewrite Z.add_mod, Ha, Z.add_0_l, Zmod_mod by lia; apply Z.mod_small; lia).
  replace ((a + k) / 4) with (a / 4); [lia|].
  pose proof (Z.div_mod a 4 ltac:(lia)). apply (Z.div_unique _ _ _ k); lia.
Qed.

Lemma add_byte_ones a k n : 2 ≤ n → a mod 4 = 0 → 0 ≤ k < 4 → (a + k) .& Z.ones n = (a .& Z.ones n) + k.
Proof. intros. rewrite !Z.land_ones by lia. by apply add_byte_mod. Qed.

Lemma add_byte_page a k : a mod 4 = 0 → 0 ≤ k < 4 → (a + k) / 0x1000 = a / 0x1000.
Proof.
  intros Ha Hk. pose proof (add_byte_mod a k 12 ltac:(lia) Ha Hk) as H. change (2 ^ 12) with 0x1000 in H.
  pose proof (Z.div_mod (a + k) 0x1000 ltac:(lia)). pose proof (Z.div_mod a 0x1000 ltac:(lia)). lia.
Qed.

Lemma space_mask_ones b : board_ok b → ∃ n, 29 ≤ n ∧ phys_space_mask b = Z.ones n.
Proof. intros Hb. destruct (bo_space b Hb) as [->| ->]; [by exists 29 | by exists 30]. Qed.

Lemma add_byte_space a b k : board_ok b → a mod 4 = 0 → 0 ≤ k < 4 →
  (a + k) .& phys_space_mask b = (a .& phys_space_mask b) + k.
Proof. intros Hb Ha Hk. destruct (space_mask_ones b Hb) as (n & Hn & ->). apply add_byte_ones; [lia | done | done]. Qed.

Lemma add_byte_chunk x b k : x mod 4 = 0 → 0 ≤ k < 4 → chunk (x + k) b = chunk x b.
Proof.
  intros Hx Hk. unfold chunk. set (msk := phys_space_mask b .& 0xff000000).
  assert (∀ y, y .& msk = Z.shiftl (y .>> 12 .& (msk .>> 12)) 12) as E.
  { intros y. rewrite <- Z.shiftr_land. apply Z.bits_inj'. intros i Hi.
    rewrite Z.shiftl_spec by done. destruct (Z.lt_ge_cases i 12) as [Hl|Hl].
    - rewrite (Z.testbit_neg_r _ (i - 12)), Z.land_spec by lia. unfold msk. rewrite Z.land_spec.
      assert (Z.testbit 0xff000000 i = false) as ->; [|by rewrite !andb_false_r].
      change 0xff000000 with (Z.shiftl 0xff000 12). rewrite Z.shiftl_spec by done. apply Z.testbit_neg_r. lia.
    - rewrite Z.shiftr_spec by lia. f_equal. lia. }
  rewrite (E (x + k)), (E x), !page_of_va. by rewrite add_byte_page.
Qed.

Lemma phys_at_byte w b a p k :
  board_ok b → a mod 4 = 0 → 0 ≤ k < 4 → phys_at w b a = Some p → phys_at w b (a + k) = Some (p + k).
Proof.
  intros Hb Ha Hk. unfold phys_at. cbv zeta. rewrite add_byte_space by done.
  pose proof (land_aligned a (phys_space_mask b) Ha) as Hx. set (x := a .& phys_space_mask b) in *.
  rewrite add_byte_chunk by done.
  assert (∀ base n, 2 ≤ n → Some (base + (x .& Z.ones n)) = Some p → Some (base + ((x + k) .& Z.ones n)) = Some (p + k)) as H.
  { intros base n Hn [= <-]. f_equal. rewrite add_byte_ones by done. lia. }
  destruct (bo_ram b Hb) as (kr & Hkr & Er).
  cbn [switch]. repeat match goal with |- context [existsb (Z.eqb ?x) ?l] => destruct (existsb (Z.eqb x) l) end; try done.
  - destruct w; [done|]. by apply (H _ 23).
  - destruct (bo_vram b Hb) as [->|(kv & Hkv & Ev)]; [done|]. destruct (_ =? 0); [done|]. rewrite Ev. apply H. lia.
  - unfold in_framestore. destruct (bo_fb b Hb) as [Hf Hfa]. apply mod_page_4 in Hfa.
    assert (sub32 (x + k) (gfxcard_fb_phys b) = sub32 x (gfxcard_fb_phys b) + k) as ->.
    { unfold sub32, u32. replace (x + k - gfxcard_fb_phys b) with (x - gfxcard_fb_phys b + k) by ring.
      apply (add_byte_mod _ _ 32); [done | | done]. by rewrite Zminus_mod, Hx, Hfa. }
    pose proof (sub32_aligned x (gfxcard_fb_phys b) Hx Hfa) as Hal. set (o := sub32 x (gfxcard_fb_phys b)) in *.
    destruct (nz (gfxcard_fb b)); cbn [andb]; [|done].
    destruct (Z.ltb_spec o GFXCARD_FB_SIZE) as [Hlt|]; [|done]. intros [= <-].
    assert (o + k < GFXCARD_FB_SIZE) as Hlt'.
    { pose proof (Z.div_mod o 4 ltac:(lia)). unfold GFXCARD_FB_SIZE in *. lia. }
    rewrite (proj2 (Z.ltb_lt _ _) Hlt'). f_equal. lia.
  - rewrite Er. apply H. lia.
  - rewrite Er. apply H. lia.
  - destruct (nz _); [|done]. by apply (H _ 27).
  - destruct (nz _); [|done]. by apply (H _ 27).
  - destruct (nz _); [|done]. by apply (H _ 27).
Qed.

Lemma get32_bytes p h :
  foldl (λ v j, v .| Z.shiftl (get8 (p + j) h .& 0xff) (j * 8)) 0 (seqZ 0 4) = get32 p h.
Proof.
  assert (∀ q, get8 q h .& 0xff = get8 q h) as E.
  { intros q. change 0xff with (Z.ones 8). rewrite Z.land_ones by done. apply Z.mod_small. exact (get8_range q h). }
  change (seqZ 0 4) with [0; 1; 2; 3]. cbn [foldl]. rewrite !E. unfold get32.
  by rewrite Z.lor_0_l, Z.mul_0_l, Z.shiftl_0_r, Z.add_0_r.
Qed.

(** The debugger reads the word the guest reads there, the framestore aside. *)
Lemma debug_read_word va e m phys p :
  mem_inv m → w32 va → va mod 4 = 0 → Z.testbit e 6 = false →
  permitted m (privileged m) false va phys → phys_at false (board m) phys = Some p →
  in_easi phys (board m) = false →
  ∃ m', mem_debug_read va 4 (e, m) = Some (Some (get32 p (host m)), (e, m')) ∧ quiet m m' ∧ mem_inv m'.
Proof.
  intros Hok Hv H4 He Hp Hat Hea. pose proof (mo_board m Hok) as Hb.
  pose proof (permitted_offset _ _ _ _ _ (mo_uniform m Hok) Hv Hp) as Hoff.
  assert (phys mod 4 = 0) as Hp4.
  { rewrite <- (Z.mod_mod_divide phys 0x1000 4), Hoff, Z.mod_mod_divide by (by exists 0x400). done. }
  destruct (debug_read_loop_run va 4 0 0 e m (λ j, get8 (p + j) (host m)) Hok He) as (m' & Hrun & Hq & Hok').
  - intros j Hj. change (Z.of_nat 4) with 4 in Hj. exists (phys + j), (p + j).
    assert (va + j < 0x100000000) as Hlt.
    { pose proof (Z.div_mod va 4 ltac:(lia)). unfold w32 in Hv. lia. }
    assert (add32 va j = va + j) as -> by (unfold add32; apply u32_id; unfold w32 in *; lia).
    assert (w32 (va + j)) as Hv' by (unfold w32 in *; lia).
    assert (in_block phys (va + j) 0x1000 = phys + j) as Hblk.
    { unfold in_block. rewrite (add_byte_mod va j 12 ltac:(lia) H4 ltac:(lia) : (va + j) mod 0x1000 = _).
      change (2 ^ 12) with 0x1000. rewrite <- Hoff. pose proof (Z.div_mod phys 0x1000). lia. }
    split_and!; [|by apply phys_at_byte | | done].
    + rewrite <- Hblk. apply (permitted_same_page m _ _ va); [apply Hok | done | done | | done].
      symmetry. apply add_byte_page; [done | lia].
    + unfold in_easi in *. rewrite add_byte_space by (done || lia).
      by rewrite add_byte_chunk by (by apply land_aligned || lia).
  - exists m'. unfold mem_debug_read. cbn [orb]. change (Z.to_nat 4) with 4%nat.
    change (4 =? 1) with false. change (4 =? 2) with false. change (4 =? 4) with true. cbn [orb].
    rewrite Hrun. change (Z.of_nat 4) with 4. by rewrite get32_bytes.
Qed.

End debug_spec.
