(* ===== verification/SavestateSpec.v ===== *)
(** The encodings of the snapshot file are read back as they were written, and
    the reader survives any file. *)

From S2P Require Export Savestate.

Definition byte (x : Z) : Prop := 0 ≤ x < 0x100.
#[export] Instance byte_dec x : Decision (byte x) := ltac:(unfold byte; apply _).

(** A file with [b] ahead of [rest]. *)
Definition file_of (b rest : list Z) (err : bool) : File := mkFile (b ++ rest) err.

Lemma read_ahead n b rest err :
  length b = n → savestate_read n (file_of b rest err) = Some (b, mkFile rest err).
Proof.
  intros <-. unfold savestate_read, file_of. cbn [file_data savestate_error].
  rewrite length_app, (proj2 (Nat.leb_le _ _)), orb_true_r by lia.
  by rewrite take_app_length, drop_app_length.
Qed.

(** ** Integers *)

Lemma u8_byte v : byte (u8 v).
Proof. unfold byte, u8. by apply Z.mod_pos_bound. Qed.

Lemma u8_id v : byte v → u8 v = v.
Proof. apply Z.mod_small. Qed.

Lemma shl_byte v n : byte v → 0 ≤ n ≤ 24 → shl32 v n = Z.shiftl v n.
Proof.
  intros Hv Hn. unfold shl32. apply u32_id. unfold w32. rewrite Z.shiftl_mul_pow2 by lia. unfold byte in Hv.
  assert (2 ^ n ≤ 2 ^ 24) by (apply Z.pow_le_mono_r; lia). assert (0 < 2 ^ n) by (apply Z.pow_pos_nonneg; lia).
  change (2 ^ 24) with 0x1000000 in *. nia.
Qed.

Lemma u8_testbit v i : 0 ≤ i → Z.testbit (u8 v) i = (i <? 8) && Z.testbit v i.
Proof.
  intros Hi. unfold u8. change 0x100 with (2 ^ 8). destruct (Z.ltb_spec i 8).
  - by rewrite Z.mod_pow2_bits_low.
  - by rewrite Z.mod_pow2_bits_high by lia.
Qed.

(** The bytes of a value, put together again. *)
Lemma join_bytes v :
  u8 v .| shl32 (u8 (v .>> 8)) 8 .| shl32 (u8 (v .>> 16)) 16 .| shl32 (u8 (v .>> 24)) 24 = u32 v.
Proof.
  rewrite !shl_byte by (try apply u8_byte; lia). apply Z.bits_inj'. intros i Hi.
  rewrite !Z.lor_spec, !Z.shiftl_spec, u32_spec, u8_testbit by done.
  assert (∀ k, 0 ≤ k → Z.testbit (u8 (v .>> k)) (i - k) = (k <=? i) && (i - k <? 8) && Z.testbit v i) as E.
  { intros k Hk. destruct (Z.leb_spec k i); [|by rewrite Z.testbit_neg_r by lia]. cbn [andb].
    rewrite u8_testbit, Z.shiftr_spec by lia. do 2 f_equal. lia. }
  rewrite !E by lia.
  destruct (Z.testbit v i); rewrite ?andb_true_r, ?andb_false_r; [|done].
  destruct (Z.ltb_spec i 8), (Z.leb_spec 8 i), (Z.ltb_spec (i - 8) 8), (Z.leb_spec 16 i), (Z.ltb_spec (i - 16) 8),
    (Z.leb_spec 24 i), (Z.ltb_spec (i - 24) 8), (Z.ltb_spec i 32); done || lia.
Qed.

Lemma join_16 v : u8 v .| shl32 (u8 (v .>> 8)) 8 = v mod 0x10000.
Proof.
  rewrite shl_byte by (try apply u8_byte; lia). apply Z.bits_inj'. intros i Hi.
  change 0x10000 with (2 ^ 16). rewrite Z.lor_spec, Z.shiftl_spec, u8_testbit by done.
  destruct (Z.lt_ge_cases i 8).
  - rewrite Z.mod_pow2_bits_low, (Z.testbit_neg_r _ (i - 8)) by lia.
    rewrite (proj2 (Z.ltb_lt _ _)), orb_false_r by lia. done.
  - rewrite u8_testbit, Z.shiftr_spec, (proj2 (Z.ltb_ge i 8)) by lia. cbn [andb orb].
    replace (i - 8 + 8) with i by lia. destruct (Z.lt_ge_cases i 16).
    + rewrite Z.mod_pow2_bits_low, (proj2 (Z.ltb_lt _ _)) by lia. done.
    + rewrite Z.mod_pow2_bits_high, (proj2 (Z.ltb_ge _ _)) by lia. done.
Qed.

Section integers.
Variables (v : Z) (rest : list Z) (err : bool).

Lemma read_u8 : savestate_read_u8 (file_of (savestate_write_u8 v) rest err) = Some (u8 v, mkFile rest err).
Proof. unfold savestate_read_u8. by rewrite (bind_eq _ _ _ _ _ (read_ahead 1 (savestate_write_u8 v) rest err eq_refl)). Qed.

Lemma read_u16 : savestate_read_u16 (file_of (savestate_write_u16 v) rest err) = Some (v mod 0x10000, mkFile rest err).
Proof.
  unfold savestate_read_u16. rewrite (bind_eq _ _ _ _ _ (read_ahead 2 (savestate_write_u16 v) rest err eq_refl)).
  unfold byte_at. cbn. by rewrite join_16.
Qed.

Lemma read_u32 : savestate_read_u32 (file_of (savestate_write_u32 v) rest err) = Some (u32 v, mkFile rest err).
Proof.
  unfold savestate_read_u32. rewrite (bind_eq _ _ _ _ _ (read_ahead 4 (savestate_write_u32 v) rest err eq_refl)).
  unfold byte_at. cbn. by rewrite join_bytes.
Qed.
End integers.

Lemma file_of_app a b rest err : file_of (a ++ b) rest err = file_of a (b ++ rest) err.
Proof. unfold file_of. by rewrite app_assoc. Qed.

Lemma read_i32 v rest err :
  savestate_read_i32 (file_of (savestate_write_i32 v) rest err) = Some (s32 v, mkFile rest err).
Proof.
  unfold savestate_read_i32, savestate_write_i32. rewrite (bind_eq _ _ _ _ _ (read_u32 _ rest err)), u32_u32.
  unfold s32. by rewrite u32_u32.
Qed.

Lemma u32_shiftr_bit v i : 0 ≤ i → Z.testbit (u32 (v .>> 32)) i = (i <? 32) && Z.testbit v (i + 32).
Proof. intros Hi. by rewrite u32_spec, Z.shiftr_spec by lia. Qed.

Lemma join_64 v : u32 v .| u64 (Z.shiftl (u32 (v .>> 32)) 32) = u64 v.
Proof.
  assert (u64 (Z.shiftl (u32 (v .>> 32)) 32) = Z.shiftl (u32 (v .>> 32)) 32) as ->.
  { apply Z.mod_small. pose proof (u32_w32 (v .>> 32)) as H. unfold w32 in H.
    rewrite Z.shiftl_mul_pow2 by done. change (2 ^ 32) with 0x100000000. lia. }
  apply Z.bits_inj'. intros i Hi. unfold u64. change 0x10000000000000000 with (2 ^ 64).
  rewrite Z.lor_spec, Z.shiftl_spec, u32_spec by done. destruct (Z.lt_ge_cases i 32).
  - rewrite Z.mod_pow2_bits_low, (Z.testbit_neg_r _ (i - 32)), (proj2 (Z.ltb_lt _ _)), orb_false_r by lia. done.
  - rewrite u32_shiftr_bit, (proj2 (Z.ltb_ge i 32)) by lia. cbn [andb orb].
    replace (i - 32 + 32) with i by lia. destruct (Z.lt_ge_cases i 64).
    + rewrite Z.mod_pow2_bits_low, (proj2 (Z.ltb_lt _ _)) by lia. done.
    + rewrite Z.mod_pow2_bits_high, (proj2 (Z.ltb_ge _ _)) by lia. done.
Qed.

Lemma read_u64 v rest err :
  savestate_read_u64 (file_of (savestate_write_u64 v) rest err) = Some (u64 v, mkFile rest err).
Proof.
  unfold savestate_read_u64, savestate_write_u64. rewrite file_of_app.
  rewrite (bind_eq _ _ _ _ _ (read_u32 _ _ err)).
  change (mkFile (savestate_write_u32 (u32 (v .>> 32)) ++ rest) err) with
    (file_of (savestate_write_u32 (u32 (v .>> 32))) rest err).
  rewrite (bind_eq _ _ _ _ _ (read_u32 _ rest err)), !u32_u32. unfold mret, M_ret. by rewrite join_64.
Qed.

(** * Run-length coding *)

Lemma run_tail_spec b tl run :
  0 < run → ∃ k, run_tail b tl run = run + Z.of_nat k ∧ (k ≤ length tl)%nat ∧
    take k tl = replicate k b ∧ (run ≤ 0x7fffffff → run + Z.of_nat k ≤ 0x7fffffff).
Proof.
  revert run. induction tl as [|c tl IH]; intros run Hr; cbn [run_tail].
  { exists 0%nat. cbn. split_and!; lia || done. }
  destruct ((c =? b) && (run <? 0x7fffffff)) eqn:E; [|exists 0%nat; cbn; split_and!; lia || done].
  apply andb_true_iff in E as [->%Z.eqb_eq Hlt%Z.ltb_lt].
  destruct (IH (run + 1) ltac:(lia)) as (k & -> & Hk & Ht & Hle). exists (S k). cbn. rewrite Ht.
  split_and!; [lia | lia | done | lia].
Qed.

Section buffer.
Implicit Types buf src : list Z.

Lemma buf_write_length pos src buf :
  (pos + length src ≤ length buf)%nat → length (buf_write pos src buf) = length buf.
Proof. intros H. unfold buf_write. rewrite !length_app, length_take, length_drop. lia. Qed.

Lemma buf_write_take pos src buf :
  (pos + length src ≤ length buf)%nat → take (pos + length src) (buf_write pos src buf) = take pos buf ++ src.
Proof.
  intros H. unfold buf_write. rewrite app_assoc, take_app_length'; [done|].
  rewrite length_app, length_take. lia.
Qed.
End buffer.

(** One record of the stream, read back: [n] bytes [src] go to [pos]. *)
Lemma count_bits n : 0 < n < 0x80000000 →
  n .& 0x7fffffff = n ∧ nz (n .& 0x80000000) = false ∧
  (u32 n .| 0x80000000) .& 0x7fffffff = n ∧ nz ((u32 n .| 0x80000000) .& 0x80000000) = true ∧
  u32 (u32 n .| 0x80000000) = u32 n .| 0x80000000.
Proof.
  intros Hn. assert (u32 n = n) as Hu by (apply u32_id; unfold w32; lia).
  assert (n .& 0x7fffffff = n) as H1 by (change 0x7fffffff with (Z.ones 31); rewrite Z.land_ones by done; apply Z.mod_small; change (2 ^ 31) with 0x80000000; lia).
  rewrite Hu. change 0x80000000 with (2 ^ 31). rewrite !nz_mask_bit by done. split_and!.
  - done.
  - apply (testbit_high n 31 31); change (2 ^ 31) with 0x80000000; lia.
  - rewrite Z.land_lor_distr_l, H1. change (2 ^ 31 .& 0x7fffffff) with 0. apply Z.lor_0_r.
  - rewrite Z.lor_spec, Z.pow2_bits_true by done. apply orb_true_r.
  - apply u32_id, w32_lor; [unfold w32; lia | done].
Qed.

Lemma unrle_step F pos buf rest c n :
  (pos < length buf)%nat → c .& 0x7fffffff = n → 0 < n → Z.of_nat pos + n ≤ Z.of_nat (length buf) → u32 c = c →
  unrle_loop (S F) pos buf (file_of (savestate_write_u32 c) rest false) =
    if nz (c .& 0x80000000) then
      match savestate_read_u8 (mkFile rest false) with
      | None => None
      | Some (b, f) => unrle_loop F (pos + Z.to_nat n) (buf_write pos (replicate (Z.to_nat n) b) buf) f
      end
    else
      match savestate_read (Z.to_nat n) (mkFile rest false) with
      | None => None
      | Some (b, f) => unrle_loop F (pos + Z.to_nat n) (buf_write pos b buf) f
      end.
Proof.
  intros Hpos Hc Hn Hle Hu. cbn [unrle_loop]. change (savestate_error (file_of _ _ _)) with false.
  rewrite (proj2 (Nat.ltb_lt _ _) Hpos). cbn [andb negb]. rewrite read_u32, Hu, Hc.
  rewrite (proj2 (Z.eqb_neq _ _)), (proj2 (Z.ltb_ge _ _)) by lia. done.
Qed.

(** The loop ends at the end of the buffer, whatever the fuel. *)
Lemma unrle_end F buf f pos : (length buf ≤ pos)%nat → unrle_loop F pos buf f = Some (buf, f).
Proof.
  intros H. assert ((pos <? length buf)%nat = false) as E by by apply Nat.ltb_ge.
  destruct F; cbn [unrle_loop]; by rewrite E.
Qed.

Lemma unrle_literals F pos buf lit rest :
  lit ≠ [] → (pos + length lit ≤ length buf)%nat → Z.of_nat (length buf) < 0x80000000 →
  unrle_loop (S F) pos buf (mkFile (literals lit ++ rest) false) =
    unrle_loop F (pos + length lit) (buf_write pos lit buf) (mkFile rest false).
Proof.
  intros Hl Hle Hlen. assert (0 < length lit)%nat as H0 by (destruct lit; cbn; [done | lia]).
  assert (literals lit = savestate_write_u32 (u32 (Z.of_nat (length lit))) ++ lit) as -> by by destruct lit.
  assert (u32 (Z.of_nat (length lit)) = Z.of_nat (length lit)) as Hu by (apply u32_id; unfold w32; lia).
  destruct (count_bits (Z.of_nat (length lit)) ltac:(lia)) as (H1 & H2 & _). rewrite Hu.
  change (mkFile ((savestate_write_u32 (Z.of_nat (length lit)) ++ lit) ++ rest) false)
    with (file_of (savestate_write_u32 (Z.of_nat (length lit)) ++ lit) rest false).
  rewrite file_of_app, (unrle_step F pos buf (lit ++ rest) _ (Z.of_nat (length lit))) by (lia || done).
  rewrite H2, Nat2Z.id. change (mkFile (lit ++ rest) false) with (file_of lit rest false).
  by rewrite read_ahead.
Qed.

Lemma unrle_run F pos buf b n rest :
  byte b → 0 < n → Z.of_nat pos + n ≤ Z.of_nat (length buf) → Z.of_nat (length buf) < 0x80000000 →
  unrle_loop (S F) pos buf (mkFile ((savestate_write_u32 (u32 n .| 0x80000000) ++ savestate_write_u8 b) ++ rest) false) =
    unrle_loop F (pos + Z.to_nat n) (buf_write pos (replicate (Z.to_nat n) b) buf) (mkFile rest false).
Proof.
  intros Hb Hn Hle Hlen. destruct (count_bits n ltac:(lia)) as (_ & _ & H3 & H4 & H5).
  change (mkFile ((savestate_write_u32 (u32 n .| 0x80000000) ++ savestate_write_u8 b) ++ rest) false)
    with (file_of (savestate_write_u32 (u32 n .| 0x80000000) ++ savestate_write_u8 b) rest false).
  rewrite file_of_app, (unrle_step F pos buf _ _ n) by (lia || done). rewrite H4.
  change (mkFile (savestate_write_u8 b ++ rest) false) with (file_of (savestate_write_u8 b) rest false).
  rewrite read_u8. unfold u8. by rewrite Z.mod_small.
Qed.

(** The decoder on what the encoder's loop writes. *)
Lemma unrle_rle fuel : ∀ F lit rest pos buf tl,
  (length rest ≤ fuel)%nat → (length buf - pos ≤ F)%nat → (pos + length lit + length rest = length buf)%nat →
  Z.of_nat (length buf) < 0x80000000 → Forall byte rest →
  unrle_loop F pos buf (mkFile (rle_loop fuel lit rest ++ tl) false) =
    Some (take pos buf ++ lit ++ rest, mkFile tl false).
Proof.
  assert (∀ F lit pos buf tl, (length buf - pos ≤ F)%nat → (pos + length lit = length buf)%nat →
    Z.of_nat (length buf) < 0x80000000 →
    unrle_loop F pos buf (mkFile (literals lit ++ tl) false) = Some (take pos buf ++ lit, mkFile tl false)) as Hlit.
  { intros F lit pos buf tl HF Hpos Hlen. destruct (decide (lit = [])) as [->|Hne].
    - cbn in Hpos |- *. rewrite unrle_end by lia. by rewrite app_nil_r, take_ge by lia.
    - assert (0 < length lit)%nat by (destruct lit; cbn; [done | lia]). destruct F as [|F]; [lia|].
      rewrite unrle_literals by (done || lia). rewrite unrle_end by (rewrite buf_write_length; lia).
      do 2 f_equal. rewrite <- buf_write_take by lia. rewrite take_ge; [done|]. rewrite buf_write_length; lia. }
  induction fuel as [|fuel IH]; intros F lit rest pos buf tl Hfuel HF Hpos Hlen Hb.
  { destruct rest; cbn in Hfuel; [|lia]. cbn [rle_loop]. rewrite app_nil_r. apply Hlit; cbn in Hpos; lia. }
  destruct rest as [|b rest]; [cbn [rle_loop]; rewrite app_nil_r; apply Hlit; cbn in Hpos; lia|].
  cbn [rle_loop]. destruct (run_tail_spec b rest 1 ltac:(lia)) as (k & Ek & Hk & Ht & Hmax). rewrite Ek.
  apply list.Forall_cons in Hb as [Hb0 Hb]. cbn [length] in *. specialize (Hmax ltac:(lia)).
  replace (Z.to_nat (1 + Z.of_nat k)) with (S k) by lia.
  assert (b :: rest = replicate (S k) b ++ drop (S k) (b :: rest)) as Hsplit.
  { cbn. rewrite <- Ht. by rewrite take_drop. }
  assert (Forall byte (drop (S k) (b :: rest))) as Hbd by (cbn; by apply Forall_drop).
  assert (length (drop (S k) (b :: rest)) = length rest - k)%nat as Hdl by (cbn; apply length_drop).
  destruct (Z.leb_spec RLE_MIN_RUN (1 + Z.of_nat k)) as [Hrun|Hrun].
  - set (more := rle_loop fuel [] (drop (S k) (b :: rest))).
    assert (∀ F pos buf, (length buf - pos ≤ F)%nat → (pos + S (length rest) = length buf)%nat →
      Z.of_nat (length buf) < 0x80000000 →
      unrle_loop F pos buf (mkFile ((savestate_write_u32 (u32 (1 + Z.of_nat k) .| 0x80000000) ++ savestate_write_u8 b) ++ more ++ tl) false) =
        Some (take pos buf ++ b :: rest, mkFile tl false)) as Hgo.
    { intros F' pos' buf' HF' Hpos' Hlen'. destruct F' as [|F']; [lia|].
      rewrite unrle_run by (done || lia). replace (Z.to_nat (1 + Z.of_nat k)) with (S k) by lia.
      assert (pos' + length (replicate (S k) b) ≤ length buf')%nat as Hw by (rewrite length_replicate; lia).
      pose proof (buf_write_length _ _ _ Hw) as Hwl. pose proof (buf_write_take _ _ _ Hw) as Hwt.
      rewrite length_replicate in Hwt.
      unfold more. rewrite IH; rewrite ?Hwl, ?Hdl; cbn [length]; try lia; [|done].
      rewrite Hwt, <- app_assoc, app_nil_l. by rewrite <- Hsplit. }
    destruct (decide (lit = [])) as [->|Hne].
    + cbn [literals app length] in *. rewrite <- !app_assoc. rewrite !(app_assoc (savestate_write_u32 _)). apply Hgo; lia.
    + assert (0 < length lit)%nat by (destruct lit; cbn; [done | lia]). destruct F as [|F]; [lia|].
      rewrite <- !app_assoc. rewrite unrle_literals by (done || lia).
      rewrite (app_assoc (savestate_write_u32 _)), Hgo by (rewrite ?buf_write_length; lia).
      rewrite buf_write_take by lia. by rewrite <- app_assoc.
  - rewrite IH; [|rewrite Hdl; lia | lia | | done | done].
    + by rewrite <- app_assoc, take_drop.
    + rewrite length_app, length_take, Hdl. cbn [length]. lia.
Qed.

Lemma rle_round_trip data buf rest :
  length buf = length data → Z.of_nat (length data) < 0x80000000 → Forall byte data →
  savestate_read_rle buf (file_of (savestate_write_rle data) rest false) = Some (data, mkFile rest false).
Proof.
  intros Hl Hlen Hb. unfold savestate_read_rle, savestate_write_rle. rewrite file_of_app.
  rewrite (bind_eq _ _ _ _ _ (read_u32 _ _ false)), u32_u32, Hl, Z.eqb_refl. cbn [negb].
  rewrite <- Hl at 1. apply (unrle_rle (length data) (length buf) [] data 0 buf rest); cbn; (lia || done).
Qed.

(** ** Any file *)

Lemma read_total n f : ∃ b f', savestate_read n f = Some (b, f') ∧ length b = n.
Proof.
  unfold savestate_read. destruct (_ || _) eqn:E; eexists _, _; (split; [reflexivity|]).
  - rewrite length_take. apply orb_true_iff in E as [->%Nat.eqb_eq|H%Nat.leb_le]; lia.
  - apply length_replicate.
Qed.

Lemma read_u32_total f : ∃ v f', savestate_read_u32 f = Some (v, f').
Proof.
  unfold savestate_read_u32. destruct (read_total 4 f) as (b & f' & Hr & _). rewrite (bind_eq _ _ _ _ _ Hr). eauto.
Qed.
Lemma read_u8_total f : ∃ v f', savestate_read_u8 f = Some (v, f').
Proof.
  unfold savestate_read_u8. destruct (read_total 1 f) as (b & f' & Hr & _). rewrite (bind_eq _ _ _ _ _ Hr). eauto.
Qed.

(** The loop ends within as many turns as there are bytes to fill, and stores
    inside the buffer only. *)
Lemma unrle_total F : ∀ pos buf f, (pos ≤ length buf)%nat → (length buf - pos ≤ F)%nat →
  ∃ buf' f', unrle_loop F pos buf f = Some (buf', f') ∧ length buf' = length buf ∧ take pos buf' = take pos buf.
Proof.
  induction F as [|F IH]; intros pos buf f Hpos HF.
  { exists buf, f. rewrite unrle_end by lia. done. }
  cbn [unrle_loop]. destruct (negb _) eqn:E; [by exists buf, f|].
  destruct (read_u32_total f) as (c & f1 & ->).
  destruct ((c .& 0x7fffffff =? 0) || (Z.of_nat (length buf - pos) <? c .& 0x7fffffff)) eqn:En; [by eexists _, _|].
  apply orb_false_iff in En as [En%Z.eqb_neq Ele%Z.ltb_ge].
  assert (0 ≤ c .& 0x7fffffff) as H0 by (apply Z.land_nonneg; by right).
  set (n := Z.to_nat (c .& 0x7fffffff)). assert (0 < n ∧ pos + n ≤ length buf)%nat as [Hn Hle] by (unfold n; lia).
  assert (∀ src f, length src = n → ∃ buf' f', unrle_loop F (pos + n) (buf_write pos src buf) f = Some (buf', f') ∧
    length buf' = length buf ∧ take pos buf' = take pos buf) as Hgo.
  { intros src f' Hs. assert (pos + length src ≤ length buf)%nat as Hw by lia.
    destruct (IH (pos + n)%nat (buf_write pos src buf) f') as (buf' & f'' & Hr & Hl & Ht);
      [rewrite buf_write_length; lia | rewrite buf_write_length; lia |].
    exists buf', f''. rewrite buf_write_length in Hl by done. split_and!; [done | done |].
    replace pos with (pos `min` (pos + n))%nat at 1 by lia. rewrite <- take_take, Ht. rewrite take_take.
    replace (pos `min` (pos + n))%nat with pos by lia. unfold buf_write.
    rewrite take_app_le by (rewrite length_take; lia). rewrite take_take. f_equal. lia. }
  destruct (nz _).
  - destruct (read_u8_total f1) as (b & f2 & ->). apply Hgo, length_replicate.
  - destruct (read_total n f1) as (b & f2 & -> & Hl). by apply Hgo.
Qed.

Lemma read_rle_total buf f :
  ∃ buf' f', savestate_read_rle buf f = Some (buf', f') ∧ length buf' = length buf.
Proof.
  unfold savestate_read_rle. destruct (read_u32_total f) as (c & f1 & Hr). rewrite (bind_eq _ _ _ _ _ Hr).
  destruct (negb _); [by eexists _, _|].
  destruct (unrle_total (length buf) 0 buf f1) as (buf' & f' & -> & Hl & _); [lia | lia |]. eauto.
Qed.

(** * CRC-32 *)

(** The polynomial division, bit by bit, without the table. *)
Definition crc_reference (data : list Z) : Z :=
  foldl (λ crc b, Nat.iter 8 crc_bit (crc .^ b)) 0xffffffff data .^ 0xffffffff.

Lemma crc_bit_alt x : crc_bit x = (if Z.testbit x 0 then 0xedb88320 else 0) .^ (x .>> 1).
Proof.
  unfold crc_bit. rewrite <- (nz_mask_bit x 0) by done. change (2 ^ 0) with 1.
  destruct (nz (x .& 1)); [done|]. by rewrite Z.lxor_0_l.
Qed.

Lemma crc_bit_xor x y : crc_bit (x .^ y) = crc_bit x .^ crc_bit y.
Proof.
  rewrite !crc_bit_alt, Z.lxor_spec, Z.shiftr_lxor.
  apply Z.bits_inj'. intros i Hi. rewrite !Z.lxor_spec.
  destruct (Z.testbit x 0), (Z.testbit y 0); cbn [xorb]; rewrite ?Z.bits_0;
    destruct (Z.testbit (x .>> 1) i), (Z.testbit (y .>> 1) i), (Z.testbit 0xedb88320 i); done.
Qed.

Lemma crc_bits_xor n x y : Nat.iter n crc_bit (x .^ y) = Nat.iter n crc_bit x .^ Nat.iter n crc_bit y.
Proof. induction n as [|n IH]; [done|]. by rewrite !Nat.iter_succ, IH, crc_bit_xor. Qed.

(** No term of the polynomial enters while the low bits are zero. *)
Lemma crc_bits_shift n x : Nat.iter n crc_bit (Z.shiftl x (Z.of_nat n)) = x.
Proof.
  revert x. induction n as [|n IH]; intros x; [apply Z.shiftl_0_r|].
  rewrite Nat.iter_succ_r.
  assert (crc_bit (Z.shiftl x (Z.of_nat (S n))) = Z.shiftl x (Z.of_nat n)) as ->; [|apply IH].
  rewrite crc_bit_alt, Z.shiftl_spec, Z.testbit_neg_r, Z.lxor_0_l by lia.
  rewrite Z.shiftr_shiftl_l by lia. f_equal. lia.
Qed.

Lemma crc_byte_reference crc b : 0 ≤ crc → byte b → crc_byte crc b = Nat.iter 8 crc_bit (crc .^ b).
Proof.
  intros Hc Hb. unfold crc_byte, crc_table.
  assert (crc .^ b = ((crc .^ b) .& 0xff) .^ Z.shiftl (crc .>> 8) 8) as E.
  { apply Z.bits_inj'. intros i Hi. rewrite !Z.lxor_spec, Z.land_spec, Z.lxor_spec, Z.shiftl_spec by done.
    change 0xff with (Z.ones 8). rewrite Z.testbit_ones_nonneg by lia. destruct (Z.ltb_spec i 8).
    - rewrite (Z.testbit_neg_r _ (i - 8)) by lia. by rewrite andb_true_r, xorb_false_r.
    - rewrite andb_false_r, Z.shiftr_spec by lia. replace (i - 8 + 8) with i by lia.
      assert (Z.testbit b i = false) as ->; [|by destruct (Z.testbit crc i)].
      apply (testbit_high b 8 i); [exact Hb | lia]. }
  rewrite E at 2. rewrite crc_bits_xor, (crc_bits_shift 8 (crc .>> 8) : Nat.iter 8 crc_bit (Z.shiftl (crc .>> 8) 8) = _).
  done.
Qed.

Lemma crc_bit_w32 c : w32 c → w32 (crc_bit c).
Proof. intros H. unfold crc_bit. destruct (nz _); auto with w32. Qed.

Lemma crc_bits_w32 n c : w32 c → w32 (Nat.iter n crc_bit c).
Proof. intros H. induction n as [|n IH]; [done|]. rewrite Nat.iter_succ. by apply crc_bit_w32. Qed.

Lemma crc32_is_reference data : Forall byte data → crc32_buf data = crc_reference data.
Proof.
  unfold crc32_buf, crc_reference. intros Hd. f_equal.
  assert (∀ crc, w32 crc → foldl crc_byte crc data = foldl (λ crc b, Nat.iter 8 crc_bit (crc .^ b)) crc data) as H;
    [|by apply H; vm_compute].
  induction Hd as [|b data Hb Hd IH]; intros crc Hc; cbn [foldl]; [done|].
  rewrite crc_byte_reference by (done || apply Hc). apply IH.
  assert (w32 (crc .^ b)) as Hx by (apply w32_lxor; [done|]; unfold byte in Hb; unfold w32; lia).
  by apply crc_bits_w32.
Qed.
