(* ===== verification/MemSave.v ===== *)
(** The snapshot chunks of the MMU and of memory: [cp15_savestate] and
    [cp15_loadstate] (cp15.c), [mem_savestate] and [mem_loadstate] (mem.c). *)

From S2P Require Export SavestateSpec MemBoard.

Section chunks.
Context {D : Type} `{!IoDev D}.
Local Abbreviation LOAD := (M (File * Mem D)).

Definition file_op {A} (op : M File A) : LOAD A := zoom fst (λ f fm, (f, snd fm)) op.
Definition mem_op (f : Mem D → Mem D) : LOAD unit := modify (λ fm, (fst fm, f (snd fm))).
Definition see {A} (f : Mem D → A) : LOAD A := gets (λ fm, f (snd fm)).
Definition load_error : LOAD unit := modify (λ fm, (mkFile (file_data (fst fm)) true, snd fm)).

(** * The MMU *)

Definition cp15_savestate (c : CP15) : list Z :=
  savestate_write_u32 (ctrl c) ++ savestate_write_u32 (translation_table c) ++
  savestate_write_u32 (domain_access_control c) ++ savestate_write_u32 (fault_status c) ++
  savestate_write_u32 (fault_address c).

(** The bank of the table, by the comparisons of [cp15_loadstate]. *)
Definition load_table_bank (b : Board) (c : CP15) : CP15 :=
  let ttb_bank := translation_table c .& 0x3f000000 in
  let use ram mask := set_tlbrammask (mask .>> 2) (set_tlbram ram c) in
  if ttb_bank =? 0x02000000 then use (vram b) (mem_vrammask b)
  else if (0x10000000 <=? ttb_bank) && (ttb_bank <=? 0x13000000) then use (ram00 b) (mem_rammask b)
  else if (0x14000000 <=? ttb_bank) && (ttb_bank <=? 0x17000000) then use (ram01 b) (mem_rammask b)
  else if (0x18000000 <=? ttb_bank) && (ttb_bank <=? 0x1f000000) then use (ram1 b) 0x7ffffff
  else if (0x20000000 <=? ttb_bank) && (ttb_bank <=? 0x2f000000) then use (sdram0 b) 0x7ffffff
  else if (0x30000000 <=? ttb_bank) && (ttb_bank <=? 0x3f000000) then use (sdram1 b) 0x7ffffff
  else c.

Definition cp15_loadstate : LOAD unit :=
  v ← file_op savestate_read_u32; mem_op (upd_cp15 (set_ctrl v));;
  v ← file_op savestate_read_u32; mem_op (upd_cp15 (set_translation_table v));;
  v ← file_op savestate_read_u32; mem_op (upd_cp15 (set_domain_access_control v));;
  v ← file_op savestate_read_u32; mem_op (upd_cp15 (set_fault_status v));;
  v ← file_op savestate_read_u32; mem_op (upd_cp15 (set_fault_address v));;
  mem_op (upd_cp15 (λ c,
    set_prog32 (ctrl c .& CP15_CTRL_PROG32) (set_mmu (ctrl c .& CP15_CTRL_MMU)
      (set_icache (ctrl c .& CP15_CTRL_ICACHE) (set_dcache (ctrl c .& CP15_CTRL_CACHE) c)))));;
  mem_op (λ m, upd_cp15 (load_table_bank (board m)) m);;
  mem_op cp15_tlb_flush_all.

(** * Memory *)

(** [n] bytes at a host address *)
Definition host_bytes (base n : Z) (h : gmap Z Z) : list Z := (λ i, get8 (base + i) h) <$> seqZ 0 n.
Fixpoint put_bytes (base : Z) (bs : list Z) (h : gmap Z Z) : gmap Z Z :=
  match bs with
  | [] => h
  | b :: bs' => put_bytes (base + 1) bs' (put8 base b h)
  end.

Definition bank_size (b : Board) : Z := add32 (mem_rammask b) 1.
Definition ram1_size (b : Board) : Z := if nz (ram1 b) then SIMM1_SIZE else 0.
Definition sdram_size (b : Board) : Z := if nz (sdram0 b) then SDRAM_BANK_SIZE else 0.
Definition vram_bytes (b : Board) : Z := if nz (mem_vrammask b) then add32 (mem_vrammask b) 1 else 0.

Definition save_region (base n : Z) (h : gmap Z Z) : list Z := savestate_write_rle (host_bytes base n h).
Definition save_if (size : Z) (l : list Z) : list Z := if nz size then l else [].

Definition mem_savestate (m : Mem D) : list Z :=
  let b := board m in let h := host m in
  savestate_write_u32 (bank_size b) ++
  save_region (ram00 b) (bank_size b) h ++ save_region (ram01 b) (bank_size b) h ++
  savestate_write_u32 (ram1_size b) ++ save_if (ram1_size b) (save_region (ram1 b) (ram1_size b) h) ++
  savestate_write_u32 (sdram_size b) ++
  save_if (sdram_size b) (save_region (sdram0 b) (sdram_size b) h ++ save_region (sdram1 b) (sdram_size b) h) ++
  savestate_write_u32 (vram_bytes b) ++ save_if (vram_bytes b) (save_region (vram b) (vram_bytes b) h).

(** [savestate_read_rle(f, base, n)]: in place *)
Definition load_region (base n : Z) : LOAD unit :=
  old ← see (λ m, host_bytes base n (host m));
  new ← file_op (savestate_read_rle old);
  mem_op (λ m, set_host (put_bytes base new (host m)) m).

(** A size word that has to be [expected]; otherwise the load ends there. *)
Definition load_size (expected : Board → Z) (rest : Z → LOAD unit) : LOAD unit :=
  size ← file_op savestate_read_u32;
  e ← see (λ m, expected (board m));
  if negb (size =? e) then load_error else rest size.

Definition mem_loadstate : LOAD unit :=
  load_size bank_size (λ size,
    b ← see board;
    load_region (ram00 b) size;; load_region (ram01 b) size;;
    load_size ram1_size (λ size,
      when (nz size) (load_region (ram1 b) size);;
      load_size sdram_size (λ size,
        when (nz size) (load_region (sdram0 b) size;; load_region (sdram1 b) size);;
        load_size vram_bytes (λ size,
          when (nz size) (load_region (vram b) size);;
          mem_op (λ m, set_pages (clearmemcache (pages m)) m))))).
End chunks.

(** * Bytes *)

Lemma host_bytes_length base n h : 0 ≤ n → Z.of_nat (length (host_bytes base n h)) = n.
Proof. intros Hn. unfold host_bytes. rewrite length_fmap, length_seqZ. lia. Qed.

Lemma host_bytes_byte base n h : Forall byte (host_bytes base n h).
Proof. unfold host_bytes. apply Forall_fmap, list.Forall_forall. intros i _. exact (get8_range _ h). Qed.

Lemma get8_put_bytes bs : ∀ base h q,
  get8 q (put_bytes base bs h) =
    if decide (base ≤ q < base + Z.of_nat (length bs)) then u8 (default 0 (bs !! Z.to_nat (q - base))) else get8 q h.
Proof.
  induction bs as [|b bs IH]; intros base h q; cbn [put_bytes length].
  { rewrite decide_False by lia. done. }
  rewrite IH, get8_put8. destruct (Z.eq_dec base q) as [->|Hne].
  - rewrite (decide_False (P := q + 1 ≤ _ < _)), (decide_True (P := q = q)), decide_True by lia.
    by rewrite Z.sub_diag.
  - rewrite (decide_False (P := base = q)) by done.
    destruct (decide (base + 1 ≤ q < base + 1 + Z.of_nat (length bs))).
    + rewrite decide_True by lia. by replace (Z.to_nat (q - base)) with (S (Z.to_nat (q - (base + 1)))) by lia.
    + rewrite decide_False by lia. done.
Qed.

Lemma get8_copy from to n h0 h q :
  0 ≤ n → get8 q (put_bytes to (host_bytes from n h0) h) =
    if decide (to ≤ q < to + n) then get8 (from + (q - to)) h0 else get8 q h.
Proof.
  intros Hn. rewrite get8_put_bytes, host_bytes_length by done. case_decide as Hq; [|done].
  unfold host_bytes. rewrite list_lookup_fmap, lookup_seqZ_lt by lia. cbn.
  rewrite Z2Nat.id by lia. apply u8_id. exact (get8_range _ h0).
Qed.

(** ** Regions copied from one host memory to another *)

Definition copy_regions (l : list (Z * Z * Z)) (h0 h : gmap Z Z) : gmap Z Z :=
  foldl (λ h '(from, to, n), put_bytes to (host_bytes from n h0) h) h l.

Definition apart (r r' : Z * Z * Z) : Prop :=
  let '(_, to, n) := r in let '(_, to', n') := r' in to + n ≤ to' ∨ to' + n' ≤ to.

Lemma copy_regions_other l h0 h q :
  Forall (λ '(_, to, n), 0 ≤ n ∧ ¬ (to ≤ q < to + n)) l → get8 q (copy_regions l h0 h) = get8 q h.
Proof.
  revert h. induction l as [|[[from to] n] l IH]; intros h Hl; [done|]. unfold copy_regions. cbn [foldl].
  apply list.Forall_cons in Hl as [[Hn Hq] Hl]. fold (copy_regions l h0 (put_bytes to (host_bytes from n h0) h)).
  rewrite IH, get8_copy by done. by rewrite decide_False.
Qed.

Lemma copy_regions_at l h0 h from to n i :
  ForallOrdPairs apart l → Forall (λ '(_, _, n), 0 ≤ n) l → (from, to, n) ∈ l → 0 ≤ i < n →
  get8 (to + i) (copy_regions l h0 h) = get8 (from + i) h0.
Proof.
  intros Ha Hn Hin Hi. revert h. induction l as [|[[from' to'] n'] l IH]; intros h; [by apply not_elem_of_nil in Hin|].
  inversion Ha as [|? ? Hap Ha']; subst. apply list.Forall_cons in Hn as [Hn0 Hn].
  unfold copy_regions. cbn [foldl]. fold (copy_regions l h0 (put_bytes to' (host_bytes from' n' h0) h)).
  apply elem_of_cons in Hin as [E|Hin]; [|by apply IH]. injection E as <- <- <-.
  rewrite copy_regions_other.
  - rewrite get8_copy by done. rewrite decide_True by lia. f_equal. lia.
  - apply list.Forall_forall. intros [[f t] k] Hk.
    pose proof (proj1 (list.Forall_forall _ _) Hap _ Hk) as H. pose proof (proj1 (list.Forall_forall _ _) Hn _ Hk) as H'.
    cbn in H, H'. split; [done | lia].
Qed.

Section load.
Context {D : Type} `{!IoDev D}.
Implicit Types m : Mem D.

(** * The MMU's chunk *)

(** The comparisons select the bank that the [switch] of [cp15_write] does. *)
Lemma load_table_bank_eq b c : load_table_bank b c = table_bank b c.
Proof.
  unfold load_table_bank, table_bank. set (x := translation_table c .& 0x3f000000).
  assert (∃ n, x = Z.shiftl n 24 ∧ 0 ≤ n < 64) as (n & Hx & Hn).
  { exists ((translation_table c .>> 24) .& 0x3f). split.
    - unfold x. change 0x3f000000 with (Z.shiftl 0x3f 24). apply Z.bits_inj'. intros i Hi.
      rewrite Z.land_spec, !Z.shiftl_spec, Z.land_spec by done. destruct (Z.lt_ge_cases i 24).
      + rewrite !(Z.testbit_neg_r _ (i - 24)) by lia. apply andb_false_r.
      + rewrite Z.shiftr_spec by lia. do 2 f_equal. lia.
    - apply (ring_index _ 6). lia. }
  assert (∀ n, n ∈ seqZ 0 64 →
    (∀ A (f : Z → A) d,
      (if Z.shiftl n 24 =? 0x02000000 then f 0
       else if (0x10000000 <=? Z.shiftl n 24) && (Z.shiftl n 24 <=? 0x13000000) then f 1
       else if (0x14000000 <=? Z.shiftl n 24) && (Z.shiftl n 24 <=? 0x17000000) then f 2
       else if (0x18000000 <=? Z.shiftl n 24) && (Z.shiftl n 24 <=? 0x1f000000) then f 3
       else if (0x20000000 <=? Z.shiftl n 24) && (Z.shiftl n 24 <=? 0x2f000000) then f 4
       else if (0x30000000 <=? Z.shiftl n 24) && (Z.shiftl n 24 <=? 0x3f000000) then f 5 else d) =
      switch (Z.shiftl n 24) [(VRAM_chunk, f 0); (SIMM0_0_chunks, f 1); (SIMM0_1_chunks, f 2);
        (SIMM1_chunks, f 3); (SDRAM0_chunks, f 4); (SDRAM1_chunks, f 5)] d)) as H.
  { intros k Hk. let l := eval vm_compute in (seqZ 0 64) in change (seqZ 0 64) with l in Hk.
    repeat (apply elem_of_cons in Hk as [->|Hk]; [intros; reflexivity|]). by apply not_elem_of_nil in Hk. }
  specialize (H n ltac:(apply elem_of_seqZ; lia) CP15 (λ k,
    if k =? 0 then set_tlbrammask (mem_vrammask b .>> 2) (set_tlbram (vram b) c)
    else if k =? 1 then set_tlbrammask (mem_rammask b .>> 2) (set_tlbram (ram00 b) c)
    else if k =? 2 then set_tlbrammask (mem_rammask b .>> 2) (set_tlbram (ram01 b) c)
    else if k =? 3 then set_tlbrammask (0x7ffffff .>> 2) (set_tlbram (ram1 b) c)
    else if k =? 4 then set_tlbrammask (0x7ffffff .>> 2) (set_tlbram (sdram0 b) c)
    else set_tlbrammask (0x7ffffff .>> 2) (set_tlbram (sdram1 b) c)) c).
  rewrite Hx. exact H.
Qed.

Lemma file_u32_run {A} v rest err m (f : Z → M (File * Mem D) A) :
  (file_op savestate_read_u32 ≫= f) (file_of (savestate_write_u32 v) rest err, m) = f (u32 v) (mkFile rest err, m).
Proof. unfold file_op, zoom, mbind, M_bind. cbn [fst snd]. by rewrite read_u32. Qed.

(** The registers loaded, with what is cached of them. *)
Definition loaded_cp15 (c old : CP15) (b : Board) : CP15 :=
  table_bank b (mkCP15 (ctrl c) (translation_table c) (domain_access_control c) (fault_status c)
    (fault_address c) (cpu_model old) (ctrl c .& CP15_CTRL_CACHE) (ctrl c .& CP15_CTRL_ICACHE)
    (ctrl c .& CP15_CTRL_MMU) (ctrl c .& CP15_CTRL_PROG32) (tlbram old) (tlbrammask old)).

Lemma cp15_loadstate_run c rest err m :
  cp15_ok c →
  cp15_loadstate (file_of (cp15_savestate c) rest err, m) =
    Some (tt, (mkFile rest err, cp15_tlb_flush_all (set_cp15 (loaded_cp15 c (cp15 m) (board m)) m))).
Proof.
  intros [H1 H2 _ H3 H4 H5]. unfold cp15_loadstate, cp15_savestate.
  do 4 (rewrite file_of_app, file_u32_run; rewrite bind_run; unfold mem_op at 1, modify; cbv beta iota;
    cbn [fst snd]; match goal with |- context [mkFile (?b ++ ?r) ?e] => change (mkFile (b ++ r) e) with (file_of b r e) end).
  rewrite file_u32_run. rewrite !u32_id by done. unfold mem_op, modify, mbind, M_bind. cbv beta iota. cbn [fst snd].
  match goal with |- Some (_, (_, cp15_tlb_flush_all ?a)) = Some (_, (_, cp15_tlb_flush_all ?b)) =>
    assert (a = b) as E; [|by rewrite E] end.
  unfold upd_cp15. rewrite load_table_bank_eq. reflexivity.
Qed.

(** [c]'s table pointer is the one its translation table has on this board. *)
Definition table_known (b : Board) (c : CP15) : Prop :=
  ∀ r k, table_bank b (set_tlbrammask k (set_tlbram r c)) = c.

Lemma table_bank_registers b c :
  (ctrl (table_bank b c) = ctrl c ∧ translation_table (table_bank b c) = translation_table c ∧
   domain_access_control (table_bank b c) = domain_access_control c ∧
   fault_status (table_bank b c) = fault_status c) ∧
  (fault_address (table_bank b c) = fault_address c ∧ cpu_model (table_bank b c) = cpu_model c ∧
   mmu (table_bank b c) = mmu c ∧ prog32 (table_bank b c) = prog32 c).
Proof. unfold table_bank. cbn [switch]. by repeat match goal with |- context [if ?c then _ else _] => destruct c end. Qed.

Lemma table_bank_pointer b c c' :
  translation_table c' = translation_table c → tlbram c' = tlbram c → tlbrammask c' = tlbrammask c →
  tlbram (table_bank b c') = tlbram (table_bank b c) ∧ tlbrammask (table_bank b c') = tlbrammask (table_bank b c).
Proof.
  intros Ht Hr Hm. unfold table_bank. rewrite Ht. cbn [switch].
  by repeat match goal with |- context [if ?c then _ else _] => destruct c end.
Qed.

Lemma cp15_snapshot c rest err m :
  cp15_inv c → table_known (board m) c → rings m →
  ∃ m', cp15_loadstate (file_of (cp15_savestate c) rest err, m) = Some (tt, (mkFile rest err, m')) ∧
    coherent m' ∧ cp15_inv (cp15 m') ∧ board m' = board m ∧ host m' = host m ∧ memmode m' = memmode m ∧
    ctrl (cp15 m') = ctrl c ∧ translation_table (cp15 m') = translation_table c ∧
    domain_access_control (cp15 m') = domain_access_control c ∧ fault_status (cp15 m') = fault_status c ∧
    fault_address (cp15 m') = fault_address c ∧ mmu (cp15 m') = mmu c ∧
    tlbram (cp15 m') = tlbram c ∧ tlbrammask (cp15 m') = tlbrammask c.
Proof.
  intros [Hok Hmmu] Hk Hr. set (c0 := mkCP15 (ctrl c) (translation_table c) (domain_access_control c) (fault_status c)
    (fault_address c) (cpu_model (cp15 m)) (ctrl c .& CP15_CTRL_CACHE) (ctrl c .& CP15_CTRL_ICACHE)
    (ctrl c .& CP15_CTRL_MMU) (ctrl c .& CP15_CTRL_PROG32) (tlbram (cp15 m)) (tlbrammask (cp15 m))).
  destruct (table_bank_registers (board m) c0) as [(E1 & E2 & E3 & E4) (E5 & _ & E7 & _)].
  destruct (table_bank_pointer (board m) (set_tlbrammask (tlbrammask (cp15 m)) (set_tlbram (tlbram (cp15 m)) c)) c0
    eq_refl eq_refl eq_refl) as [T1 T2].
  rewrite Hk in T1, T2. change (table_bank (board m) c0) with (loaded_cp15 c (cp15 m) (board m)) in *.
  pose proof (cp15_loadstate_run c rest err m Hok) as Hrun.
  set (l := loaded_cp15 c (cp15 m) (board m)) in *. clearbody l.
  unfold c0 in E1, E2, E3, E4, E5, E7. cbn [ctrl translation_table domain_access_control fault_status fault_address mmu] in E1, E2, E3, E4, E5, E7.
  pose proof (flush_all_coherent (set_cp15 l m) Hr) as Hcoh.
  destruct (flush_frame (set_cp15 l m)) as (F1 & F2 & F3 & F4).
  revert Hrun Hcoh F1 F2 F3 F4. generalize (cp15_tlb_flush_all (set_cp15 l m)). intros m' Hrun Hcoh F1 F2 F3 F4.
  exists m'. rewrite F1. cbn [cp15 set_cp15 board host memmode] in *.
  split_and!; try done.
  - destruct Hok. split; [split; by rewrite ?E1, ?E2, ?E3, ?E4, ?E5|]. by rewrite E7, E1.
  - by rewrite E7, Hmmu.
Qed.

(** * Memory's chunk *)

Lemma load_region_run base base0 n h0 rest m :
  0 ≤ n < 0x80000000 →
  load_region base n (file_of (save_region base0 n h0) rest false, m) =
    Some (tt, (mkFile rest false, set_host (put_bytes base (host_bytes base0 n h0) (host m)) m)).
Proof.
  intros Hn. unfold load_region, see, file_op, mem_op, zoom, gets, modify, mbind, M_bind. cbv beta iota. cbn [fst snd].
  unfold save_region. pose proof (host_bytes_length base0 n h0 ltac:(lia)).
  rewrite rle_round_trip; [done | | lia | apply host_bytes_byte].
  pose proof (host_bytes_length base n (host m) ltac:(lia)). lia.
Qed.

Lemma load_size_run expected k v rest m :
  expected (board m) = v → w32 v →
  load_size expected k (file_of (savestate_write_u32 v) rest false, m) = k v (mkFile rest false, m).
Proof.
  intros He Hv. unfold load_size. rewrite file_u32_run, u32_id by done.
  unfold see, gets, mbind, M_bind. cbv beta iota. cbn [snd]. by rewrite He, Z.eqb_refl.
Qed.

(** The same memory is fitted, wherever the host put it. *)
Record same_sizes (b b' : Board) : Prop := {
  ss_bank : bank_size b' = bank_size b;
  ss_ram1 : ram1_size b' = ram1_size b;
  ss_sdram : sdram_size b' = sdram_size b;
  ss_vram : vram_bytes b' = vram_bytes b
}.

Definition regions (b b' : Board) : list (Z * Z * Z) :=
  [(ram00 b, ram00 b', bank_size b); (ram01 b, ram01 b', bank_size b)] ++
  (if nz (ram1_size b) then [(ram1 b, ram1 b', ram1_size b)] else []) ++
  (if nz (sdram_size b) then [(sdram0 b, sdram0 b', sdram_size b); (sdram1 b, sdram1 b', sdram_size b)] else []) ++
  (if nz (vram_bytes b) then [(vram b, vram b', vram_bytes b)] else []).

Definition small (n : Z) : Prop := 0 ≤ n < 0x80000000.

Lemma small_w32 n : small n → w32 n.
Proof. unfold small, w32. lia. Qed.

Lemma ram1_small b : small (ram1_size b).
Proof. unfold ram1_size. by destruct (nz _). Qed.
Lemma sdram_small b : small (sdram_size b).
Proof. unfold sdram_size. by destruct (nz _). Qed.

(** One region, then what follows. *)
Lemma load_region_then {A} base base0 n h0 more rest m (f : M (File * Mem D) A) :
  small n →
  (load_region base n;; f) (file_of (save_region base0 n h0 ++ more) rest false, m) =
    f (file_of more rest false, set_host (put_bytes base (host_bytes base0 n h0) (host m)) m).
Proof.
  intros Hn. rewrite file_of_app. erewrite bind_eq by by apply load_region_run. done.
Qed.

Lemma load_size_then expected k v more rest m :
  expected (board m) = v → w32 v →
  load_size expected k (file_of (savestate_write_u32 v ++ more) rest false, m) = k v (file_of more rest false, m).
Proof. intros He Hv. by rewrite file_of_app, load_size_run. Qed.

(** An optional part: a region, two, or nothing. *)
Lemma load_if_one {A} base base0 n h0 more rest m (f : M (File * Mem D) A) :
  small n →
  (when (nz n) (load_region base n);; f) (file_of (save_if n (save_region base0 n h0) ++ more) rest false, m) =
    f (file_of more rest false,
       set_host (copy_regions (if nz n then [(base0, base, n)] else []) h0 (host m)) m).
Proof.
  intros Hn. unfold save_if. destruct (nz n); cbn [when app].
  - rewrite load_region_then by done. done.
  - rewrite bind_ret_l. by destruct m.
Qed.

Lemma load_if_two {A} base base0 base' base0' n h0 more rest m (f : M (File * Mem D) A) :
  small n →
  (when (nz n) (load_region base n;; load_region base' n);; f)
    (file_of (save_if n (save_region base0 n h0 ++ save_region base0' n h0) ++ more) rest false, m) =
    f (file_of more rest false,
       set_host (copy_regions (if nz n then [(base0, base, n); (base0', base', n)] else []) h0 (host m)) m).
Proof.
  intros Hn. unfold save_if. destruct (nz n); cbn [when app].
  - rewrite bind_assoc, <- app_assoc, load_region_then, load_region_then by done. done.
  - rewrite bind_ret_l. by destruct m.
Qed.

Lemma copy_regions_app l l' h0 h : copy_regions (l ++ l') h0 h = copy_regions l' h0 (copy_regions l h0 h).
Proof. unfold copy_regions. by rewrite foldl_app. Qed.

Lemma mem_loadstate_run m0 m rest :
  same_sizes (board m0) (board m) → small (bank_size (board m0)) → small (vram_bytes (board m0)) →
  mem_loadstate (file_of (mem_savestate m0) rest false, m) = Some (tt, (mkFile rest false,
    set_pages (clearmemcache (pages m))
      (set_host (copy_regions (regions (board m0) (board m)) (host m0) (host m)) m))).
Proof.
  intros [S1 S2 S3 S4] Hb Hv. pose proof (ram1_small (board m0)) as Hr1. pose proof (sdram_small (board m0)) as Hsd.
  unfold mem_savestate, mem_loadstate. cbv zeta.
  rewrite load_size_then by (done || by apply small_w32).
  rewrite bind_run. unfold see at 1, gets. cbv beta iota. cbn [snd].
  rewrite load_region_then, load_region_then by done.
  rewrite load_size_then by (done || by apply small_w32). rewrite load_if_one by done.
  rewrite load_size_then by (done || by apply small_w32). rewrite load_if_two by done.
  rewrite load_size_then by (done || by apply small_w32).
  rewrite <- (app_nil_r (save_if (vram_bytes _) _)), load_if_one by done.
  unfold mem_op, modify. cbn [fst snd]. unfold regions. rewrite !copy_regions_app. reflexivity.
Qed.

(** Every byte of the memory saved is in the memory loaded, and the caches of
    an empty machine agree with it. *)
Lemma mem_snapshot m0 m rest :
  same_sizes (board m0) (board m) → small (bank_size (board m0)) → small (vram_bytes (board m0)) →
  ForallOrdPairs apart (regions (board m0) (board m)) →
  ∃ m', mem_loadstate (file_of (mem_savestate m0) rest false, m) = Some (tt, (mkFile rest false, m')) ∧
    (∀ from to n i, (from, to, n) ∈ regions (board m0) (board m) → 0 ≤ i < n →
       get8 (to + i) (host m') = get8 (from + i) (host m0)) ∧
    (flushed m → rings m → coherent m').
Proof.
  intros Hs Hb Hv Ha. eexists. split; [by apply mem_loadstate_run|]. split.
  - intros from to n i Hin Hi. cbn [host set_host set_pages]. apply (copy_regions_at _ _ _ _ _ n); [done| |done|done].
    assert (0 ≤ bank_size (board m0) ∧ 0 ≤ ram1_size (board m0) ∧ 0 ≤ sdram_size (board m0) ∧ 0 ≤ vram_bytes (board m0))
      as (G1 & G2 & G3 & G4).
    { pose proof (ram1_small (board m0)). pose proof (sdram_small (board m0)). unfold small in *. lia. }
    unfold regions. repeat apply Forall_app_2.
    + by repeat constructor.
    + destruct (nz (ram1_size _)); by repeat constructor.
    + destruct (nz (sdram_size _)); by repeat constructor.
    + destruct (nz (vram_bytes _)); by repeat constructor.
  - intros [F1 F2 F3 F4] Hr. apply flushed_coherent; [|exact Hr]. split; [exact F1 | exact F2 | exact F3 |].
    by intros [].
Qed.
End load.
