(* ===== verification/MemMachine.v ===== *)
(** A concrete memory system to evaluate the model on: no devices, ROM, 4 MB of
    RAM in each bank of SIMM 0 and a framestore, and a table of sections. *)

From S2P Require Export MemSafe MemDebug MemSave.

Definition dev_read {D} : M (Z * Mem D) Z := mret 0.
Definition dev_write {D} : M (Z * Mem D) unit := mret tt.

Definition silent (D : Type) : IoDev D := {|
  openbus_present _ := false;
  openbus_reg_read _ _ := dev_read;
  openbus_reg_write _ _ _ := dev_write;
  iomd_read _ := dev_read;
  iomd_write _ _ := dev_write;
  iomd_mouse_buttons_read := dev_read;
  iomd_vidstart _ := 0;
  readidew := dev_read;
  writeidew _ := dev_write;
  readide _ := dev_read;
  writeide _ _ := dev_write;
  superio_read _ := dev_read;
  superio_write _ _ := dev_write;
  superio_write_byte _ _ := dev_write;
  fdc_dma_read _ := dev_read;
  fdc_dma_write _ _ := dev_write;
  podules_read8 _ _ _ := dev_read;
  podules_read16 _ _ _ := dev_read;
  podules_read32 _ _ _ := dev_read;
  podules_write8 _ _ _ _ := dev_write;
  podules_write16 _ _ _ _ := dev_write;
  podules_write32 _ _ _ _ := dev_write;
  writevidc20 _ := dev_write;
  gfxcard_mark_dirty _ d := d;
  debugger_memory_access _ _ _ _ d := d
|}.
#[export] Instance no_devices : IoDev unit := silent unit.

#[export] Instance no_devices_ok : IoDevOk unit.
Proof. split; intros; apply safe_ret; done. Qed.

Definition test_board : Board :=
  mkBoard 0x100000000 0 0x200000000 0x300000000 0 0 0 0x400000000 0x08000000
    0x3fffff 0 0x1fffffff Model_RPCSA110 IOMDType_IOMD.

(** ** The table *)

(** [section phys ap]: a section of domain 0 *)
Definition section_entry (phys ap : Z) : Z := phys + Z.shiftl ap 10 + 2.
Definition coarse_entry (table : Z) : Z := table + 1.
Definition small_entry (phys ap0 ap1 ap2 ap3 : Z) : Z :=
  phys + Z.shiftl ap0 4 + Z.shiftl ap1 6 + Z.shiftl ap2 8 + Z.shiftl ap3 10 + 2.

(** At 0x4000 of SIMM 0 bank 0: by megabyte, RAM for everyone, for privileged
    modes only, read-only for User mode, and the framestore. *)
Definition table_base : Z := 0x10004000.
Definition level1_words : list (Z * Z) :=
  [ (0, section_entry 0x10000000 3); (1, section_entry 0x10100000 1);
    (2, section_entry 0x10200000 2); (4, section_entry 0x08000000 3);
    (0x800, section_entry 0x00000000 2) ].
Definition put_words (base : Z) (ws : list (Z * Z)) (h : gmap Z Z) : gmap Z Z :=
  foldl (λ h '(i, w), put32 (base + 4 * i) w h) h ws.

Definition empty_map : FastMap :=
  mkFastMap (memset 0xffffffff) (memset 0xffffffff) (memset 0) ∅.
Definition test_cp15 (on : bool) : CP15 :=
  mkCP15 (if on then 0x71 else 0x70) table_base 1 0 0 CPUModel_SA110 0 0 (if on then 1 else 0) 1
    0x200000000 (0x3fffff .>> 2).
Definition test_memory (on priv : bool) (h : gmap Z Z) : Mem unit :=
  mkMem test_board (test_cp15 on) (mkTLB (memset 0xffffffff) (memset 0) (memset 0xffffffff) 0)
    empty_map empty_map (clearmemcache (mkPageCache 0 0 0 0 0 0 0)) (priv_index priv) h ∅ tt.
Definition test_host (more : list (Z * Z)) : gmap Z Z :=
  put_words 0x200000000 more (put_words 0x200004000 level1_words ∅).

(** ** It meets the hypotheses *)

Lemma test_board_ok : board_ok test_board.
Proof.
  split.
  - exists 22. split; [lia | done].
  - by left.
  - by left.
  - intros p Hp. repeat (apply elem_of_cons in Hp as [->|Hp]; [by vm_compute|]). by apply not_elem_of_nil in Hp.
  - by vm_compute.
Qed.

Lemma test_cp15_inv on : cp15_inv (test_cp15 on).
Proof. destruct on; (split; [split; by vm_compute | done]). Qed.

Lemma test_rings on priv h : rings (test_memory on priv h).
Proof.
  split_and!; split; try done; by intros [].
Qed.

Lemma test_flushed on priv h : flushed (test_memory on priv h).
Proof. split; try done. by intros []. Qed.

(** Sections have one set of permissions. *)
Lemma sections_uniform {D} (m : Mem D) :
  (∀ va, w32 va → level1 m va mod 4 ≠ 1) → uniform m.
Proof.
  intros H va va' Hv Hv' Hp.
  pose proof (div_coarser va va' 0x100 ltac:(lia) Hp) as E. change (0x1000 * 0x100) with 0x100000 in E.
  assert (level1 m va' = level1 m va) as El by (unfold level1; by rewrite E).
  unfold walk. destruct (_ =? 0); [done|]. rewrite El.
  destruct (level1 m va mod 4 =? 0); [done|]. destruct (Z.eqb_spec (level1 m va mod 4) 1) as [E1|]; [by destruct (H va Hv)|].
  by destruct (_ =? 2).
Qed.

Definition sections_only (m : Mem unit) : bool :=
  forallb (λ i, negb (word_at (tlbram (cp15 m)) ((translation_table (cp15 m) / 4 + i) .& tlbrammask (cp15 m)) m mod 4 =? 1))
    (seqZ 0 4096).

Lemma sections_checked m : sections_only m = true → uniform m.
Proof.
  intros H. apply sections_uniform. intros va Hv E. unfold sections_only in H. rewrite forallb_forall in H.
  specialize (H (va / 0x100000)). rewrite (proj2 (Z.eqb_eq _ _)) in H; [|exact E]. discriminate H.
  apply list_elem_of_In, elem_of_seqZ. unfold w32 in Hv. change 4096 with 0x1000.
  split; [apply Z.div_pos; lia | apply Z.div_lt_upper_bound; lia].
Qed.

Lemma test_mem_inv on priv h : sections_only (test_memory on priv h) = true → mem_inv (test_memory on priv h).
Proof.
  intros H. split.
  - apply flushed_coherent; [apply test_flushed | apply test_rings].
  - by apply sections_checked.
  - exact test_board_ok.
  - exact (ci_ok _ (test_cp15_inv on)).
  - by exists priv.
Qed.

(** RAM at 0x8000 holds a word; nothing is cached. *)
Definition test_words : list (Z * Z) := [(0x2000, 0xcafef00d); (0x2001, 0x12345678)].
Definition test_mem (priv : bool) : Mem unit := test_memory true priv (test_host test_words).

Lemma test_mem_ok priv : mem_inv (test_mem priv).
Proof. apply test_mem_inv. destruct priv; by vm_compute. Qed.
