(* ===== verification/MemTheorems.v ===== *)
(** What the memory system promises: the accesses of mem.h, through three levels
    of caches, are those of the tables in memory; the caches can be emptied; and
    the places where the code does not keep its promise. *)

From S2P Require Export MemMachine.

(** States of the witnesses: the test machine, and it after an access. *)
Definition after {A} (r : option (A * (Z * Mem unit))) : Mem unit :=
  match r with Some (_, (_, m)) => m | None => test_mem true end.
Definition value_of {A} (r : option (A * (Z * Mem unit))) : option (A * Z) :=
  match r with Some (a, (e, _)) => Some (a, e) | None => None end.

Section memory.
Context {D : Type} `{!IoDev D}.
Implicit Types m : Mem D.

(** C3: in a state whose caches are coherent with its tables (and whose small
    pages have one set of permissions, [uniform]), a read that the tables allow gives the bytes at the physical address
    they say, whichever of the fast map, the single-entry cache, the TLB and the
    table walk serves it, raises no event, and leaves the caches coherent with
    the tables and memory as it was. *)
Theorem reads_follow_tables va e m phys p :
  mem_inv m → w32 va → nz (e .& 0x40) = false →
  permitted m (privileged m) false va phys → phys_at false (board m) phys = Some p →
  (va mod 4 = 0 → ∃ m', mem_read32 va (e, m) = Some (get32 p (host m), (e, m')) ∧
     mem_inv m' ∧ host m' = host m ∧ privileged m' = privileged m) ∧
  ∃ m', mem_read8 va (e, m) = Some (get8 p (host m), (e, m')) ∧
     mem_inv m' ∧ host m' = host m ∧ privileged m' = privileged m.
Proof.
  intros Hok Hv He Hp Hat.
  assert (∀ m', coherent m' → quiet m m' →
    mem_inv m' ∧ host m' = host m ∧ privileged m' = privileged m) as H.
  { intros m' Hc Hq. split_and!; [by apply (mem_inv_quiet m) | apply Hq|].
    unfold privileged. by rewrite (qt_memmode _ _ Hq). }
  split.
  - intros H4. destruct (mem_read32_allowed va e m phys p) as (m' & ? & ? & ?); [done..|]. exists m'. split; auto.
  - destruct (mem_read8_allowed va e m phys p) as (m' & ? & ? & ?); [done..|]. exists m'. split; auto.
Qed.

(** C4: a write that the tables allow changes exactly the bytes at the physical
    address they say; the caches stay coherent if what the tables say does not
    change. A byte write to the framestore is included only when the word
    writes were last to the same page. *)
Theorem writes_follow_tables va v e m phys p :
  mem_inv m → w32 va → nz (e .& 0x40) = false →
  permitted m (privileged m) true va phys → phys_at true (board m) phys = Some p →
  (va mod 4 = 0 → ∃ m', mem_write32 va v (e, m) = Some (tt, (e, m')) ∧
     stored (put32 p v (host m)) m m') ∧
  ((existsb (Z.eqb (chunk (phys / 0x1000 * 0x1000) (board m))) EASI_chunks = true →
      writememcache2 (pages m) = phys / 0x1000 * 0x1000) →
   ∃ m', mem_write8 va v (e, m) = Some (tt, (e, m')) ∧ stored (put8 p v (host m)) m m').
Proof.
  intros Hok Hv He Hp Hat. split.
  - intros H4. by apply (mem_write32_allowed va v e m phys p).
  - intros Hfb. by apply (mem_write8_allowed va v e m phys p).
Qed.

(** C5: an access that the tables refuse reads zero or writes nothing, makes the
    data abort pending, and tells the domain, the status code and the address in
    the fault registers; memory, the mode and the coherence of the caches are
    kept. *)
Theorem refused_accesses_abort va v e m d code :
  mem_inv m → w32 va → nz (mmu (cp15 m)) = true →
  (mmu_access m (privileged m) false va = Some (inr (d, code)) →
   (∃ m', mem_read32 va (e, m) = Some (0, (e .| 0x40, m')) ∧ coherent m' ∧ faulted va d code m m') ∧
   (∃ m', mem_read8 va (e, m) = Some (0, (e .| 0x40, m')) ∧ coherent m' ∧ faulted va d code m m')) ∧
  (mmu_access m (privileged m) true va = Some (inr (d, code)) →
   (∃ m', mem_write32 va v (e, m) = Some (tt, (e .| 0x40, m')) ∧ coherent m' ∧ faulted va d code m m') ∧
   (∃ m', mem_write8 va v (e, m) = Some (tt, (e .| 0x40, m')) ∧ coherent m' ∧ faulted va d code m m')).
Proof.
  intros Hok Hv Hon. split; intros Ha; split.
  - by apply mem_read32_fault.
  - by apply mem_read8_fault.
  - by apply mem_write32_fault.
  - by apply mem_write8_fault.
Qed.

(** C7: [translateaddress2] is the reference walk: the physical address and the
    permission bits of the section or page, entered in the TLB, or the fault the
    architecture names. *)
Theorem translation_is_the_walk m va rw prefetch e r :
  cp15_ok (cp15 m) → w32 va → mmu_access m (nz (memmode m)) rw va = Some r →
  translateaddress2 va rw prefetch (e, m) = Some (translated va prefetch e m r).
Proof. apply translateaddress2_access. Qed.

(** The permission bits kept with a TLB entry say for every kind of access
    what checking the access would say. *)
Theorem permission_bits_are_the_check m priv rw va phys perm :
  mmu_access m priv rw va = Some (inl (phys, perm)) →
  ∀ p w, Z.testbit perm (perm_bit p w) = true ↔ mmu_access m p w va = Some (inl (phys, perm)).
Proof. apply access_perm. Qed.

(** After [cp15_tlb_flush_all] no translation is left in the TLB, the fast
    maps or the single-entry caches, and so the caches agree with any tables,
    even if these were written since the entries were made. *)
Theorem flush_empties_the_caches m :
  rings m → flushed (cp15_tlb_flush_all m) ∧ coherent (cp15_tlb_flush_all m).
Proof. intros H. split; [by apply flush_all_flushed | by apply flush_all_coherent]. Qed.

(** C14: a write to any register of the coprocessor leaves the caches coherent
    with the tables that the new registers select. *)
Theorem register_writes_keep_coherence op v md m eff m' :
  coherent m → cp15_inv (cp15 m) → w32 v → cp15_write op v md m = Some (eff, m') →
  coherent m' ∧ cp15_inv (cp15 m').
Proof. apply cp15_write_ok. Qed.

(** After [cp15_tlb_invalidate_physical] no pointer of either fast map leads
    to the 16 MB region, so that the next write to it is seen. *)
Theorem invalidated_region_is_slow addr m va priv rw phys :
  coherent m → w32 va → permitted m priv rw va phys → region phys = addr →
  let m' := cp15_tlb_invalidate_physical addr m in
  coherent m' ∧ fast_entry (if rw then wmap m' else rmap m') priv (va / 0x1000) = 0xffffffff.
Proof. intros Hc Hv Hp Ha. split; [by apply invalidate_coherent | by eapply invalidate_region]. Qed.

(** C16: the pointer [getpccache] gives leads to the words the tables give for
    the whole page, and stores to the page no longer go through the fast map. *)
Theorem fetch_follows_tables va e m phys p :
  mem_inv m → w32 va → nz (e .& 0x40) = false →
  permitted m (privileged m) false (va .&~ 0xfff) phys → phys .& 0x3f000000 = chunk phys (board m) →
  fetch_ptr phys (va .&~ 0xfff) (board m) = Some p →
  ∃ m', getpccache va (e, m) = Some (Some p, (e, m')) ∧ coherent m' ∧ quiet m m' ∧
    (∀ priv, fast_entry (wmap m') priv (va / 0x1000) = 0xffffffff) ∧
    ∀ pc hp, w32 pc → pc mod 4 = 0 → pc / 0x1000 = va / 0x1000 →
      phys_at false (board m) (in_block phys pc 0x1000) = Some hp →
      fetch_word p (pc .>> 2) m' = get32 hp (host m).
Proof. apply getpccache_fetches. Qed.

(** A prefetch that the tables refuse gives no pointer, leaves no event
    pending and does not touch the fault registers. *)
Theorem refused_prefetch_is_silent va e m d code :
  mem_inv m → w32 va → Z.testbit e 6 = false → nz (mmu (cp15 m)) = true →
  mmu_access m (privileged m) false (va .&~ 0xfff) = Some (inr (d, code)) →
  getpccache va (e, m) = Some (None, (e, m)).
Proof. apply getpccache_refused. Qed.

(** Physical memory is an array: a word written at an address that has
    memory is read back from every address that is the same place, and no other
    aligned word changes. *)
Theorem physical_write_then_read a b v e m p q :
  board_ok (board m) → a mod 4 = 0 → b mod 4 = 0 → w32 v →
  phys_at true (board m) a = Some p → phys_at false (board m) b = Some q →
  ∃ m', mem_phys_write32 a v (e, m) = Some (tt, (e, m')) ∧
    mem_phys_read32 b (e, m') = Some (if p =? q then v else get32 q (host m), (e, m')).
Proof.
  intros Hb Ha Hb4 Hv Hp Hq. destruct (mem_phys_write32_at a p v e m Hp Ha) as (m' & Hrun & Hs & Hh).
  exists m'. split; [done|]. rewrite (mem_phys_read32_at b q) by (rewrite ?(sm_board _ _ Hs); done).
  do 2 f_equal. rewrite Hh, get32_put32_aligned;
    [|by apply (phys_at_aligned _ _ _ _ Hb Hp) | by apply (phys_at_aligned _ _ _ _ Hb Hq)].
  case_decide as E; [by rewrite E, Z.eqb_refl, u32_id|].
  by rewrite (proj2 (Z.eqb_neq _ _)) by done.
Qed.

(** C6: User mode is confined: whatever word store it attempts, a byte of
    memory that changes is one that the tables let User mode write. *)
Theorem user_stores_are_confined va v e m r e' m' q :
  mem_inv m → w32 va → va mod 4 = 0 → nz (e .& 0x40) = false → nz (mmu (cp15 m)) = true →
  privileged m = false → mmu_access m false true va = Some r →
  (∀ phys perm, r = inl (phys, perm) → phys_at true (board m) phys ≠ None) →
  mem_write32 va v (e, m) = Some (tt, (e', m')) →
  get8 q (host m') ≠ get8 q (host m) →
  ∃ phys p, permitted m false true va phys ∧ phys_at true (board m) phys = Some p ∧ p ≤ q < p + 4.
Proof.
  intros Hok Hv H4 He Hon Hu Ha Hmem Hrun Hq. destruct r as [[phys perm]|[d code]].
  - assert (permitted m false true va phys) as Hp by (unfold permitted; rewrite Hon; by exists perm).
    destruct (phys_at true (board m) phys) as [p|] eqn:Hat; [|by destruct (Hmem phys perm)].
    destruct (mem_write32_allowed va v e m phys p) as (m1 & Hrun' & Hs); rewrite ?Hu; try done.
    rewrite Hrun' in Hrun. injection Hrun as <- <-. rewrite (st_host _ _ _ Hs), get8_put32 in Hq.
    case_decide as Hr; [|done]. by exists phys, p.
  - rewrite <- Hu in Ha. destruct (mem_write32_fault va v e d code m Hok Hv Hon Ha) as (m1 & Hrun' & _ & Hf).
    rewrite Hrun' in Hrun. injection Hrun as <- <-. by rewrite (fa_host _ _ _ _ _ Hf) in Hq.
Qed.

(** The debugger's word read gives the word the guest would read at that
    address (the graphics card's framestore aside), raises no event and keeps
    the invariant. *)
Theorem debugger_reads_guest_memory va e m phys p :
  mem_inv m → w32 va → va mod 4 = 0 → Z.testbit e 6 = false →
  permitted m (privileged m) false va phys → phys_at false (board m) phys = Some p →
  in_easi phys (board m) = false →
  ∃ m', mem_debug_read va 4 (e, m) = Some (Some (get32 p (host m)), (e, m')) ∧ host m' = host m ∧ mem_inv m'.
Proof.
  intros Hok Hv H4 He Hp Hat Hea.
  destruct (debug_read_word va e m phys p) as (m' & Hrun & Hq & Hok'); [done..|].
  exists m'. split_and!; [done | apply Hq | done].
Qed.

(** C15: From the start of the process on ([mem_init], resets with any of the
    sizes a machine can be configured with, the graphics card fitted or not,
    anything run in between that leaves the buffers allocated), the physical
    accesses stay inside blocks of the sizes that were asked of the allocator:
    where no device answers, a read of a byte or of an aligned word depends on
    no byte outside them, a write changes no byte outside them and none of the
    ROM. A reset ends the process only if the allocator refuses a request, and
    what [cp15_reset] leaves in the caches is nothing of the memory freed. *)
Theorem physical_accesses_stay_in_buffers alloc h m :
  malloc_sound alloc → session alloc true h m →
  (∀ a e, at_device (board m) a = false →
     reads_live (blocks h) (mem_phys_read8 a) e m ∧ (∀ v, writes_live (blocks h) (mem_phys_write8 a v) e m) ∧
     (a mod 4 = 0 →
        reads_live (blocks h) (mem_phys_read32 a) e m ∧ ∀ v, writes_live (blocks h) (mem_phys_write32 a v) e m)) ∧
  (∀ r v e, r ∈ ram_sizes → v ∈ vram_sizes → mem_reset alloc r v (h, (e, m)) = None → malloc_failed alloc) ∧
  (∀ model, rings m → coherent (cp15_reset model m)).
Proof.
  intros Hs Hm%session_ok; [|done]. split_and!.
  - intros a e Hd. split; [by apply reads8_live|]. split; [intros v; by apply writes8_live|].
    intros Ha. split; [by apply reads32_live | intros v; by apply writes32_live].
  - intros r v e Hr Hv E. pose proof (mem_reset_ok alloc Hs true r v h e m Hm Hr Hv) as H. unfold wp in H. by rewrite E in H.
  - intros model. apply reset_coherent.
Qed.
End memory.

(** * Where the code differs *)

(** A small page at 0x00300000 whose first kilobyte anyone may read, the other
    three only privileged modes. *)
Definition subpage_host : gmap Z Z :=
  put_words 0x200008000 [(0, small_entry 0x10300000 3 1 1 1)]
    (put_words 0x200004000 [(3, coarse_entry 0x10008000)] (test_host test_words)).
Definition subpage_mem : Mem unit := test_memory true false subpage_host.

(** The caches hold one set of permissions for four kilobytes: after User
    mode has read the first kilobyte of a small page, it can read a kilobyte
    that the tables deny it. *)
Theorem subpage_permissions_are_lost :
  mmu_access subpage_mem false false 0x300400 = Some (inr (0, CP15_FAULT_PERMISSION_PAGE)) ∧
  value_of (mem_read32 0x300400 (0, subpage_mem)) = Some (0, 0x40) ∧
  value_of ((mem_read32 0x300000;; mem_read32 0x300400) (0, subpage_mem)) = Some (0, 0).
Proof. split_and!; by vm_compute. Qed.

(** A byte store to a page of the framestore notes the page of the last
    word store instead: the next byte stored there goes to the other page. *)
Theorem framestore_byte_store_misplaced :
  let m := test_mem true in
  permitted m true true 0x401004 0x08001004 ∧ phys_at true (board m) 0x08001004 = Some 0x400001004 ∧
  let m' := after ((mem_write32 0x400000 0;; mem_write8 0x401000 1;; mem_write8 0x401004 2) (0, m)) in
  get8 0x400001000 (host m') = 1 ∧ get8 0x400001004 (host m') = 0 ∧ get8 0x400000004 (host m') = 2.
Proof. split_and!; [by eexists; vm_compute | by vm_compute ..]. Qed.

(** Looking up an address for the debugger is not without effect: where
    nothing is mapped, the fault registers the guest's abort handler will read
    are overwritten. *)
Theorem debug_lookup_overwrites_fault :
  let m := after (mem_write32 0x200000 7 (0, test_mem false)) in
  let m' := match mem_debug_translate 0x300000 (0x40, m) with Some (_, (_, m')) => m' | None => m end in
  cp15_get_fault (cp15 m) = (0x200000, CP15_FAULT_PERMISSION_SECTION) ∧
  cp15_get_fault (cp15 m') = (0x300000, CP15_FAULT_TRANSLATION_SECTION).
Proof. split; by vm_compute. Qed.

(** * Witnesses *)

Lemma debugger_reads_guest_memory_witness :
  ∃ m', mem_debug_read 0x8000 4 (0, test_mem false) = Some (Some 0xcafef00d, (0, m')) ∧
    host m' = host (test_mem false) ∧ mem_inv m'.
Proof.
  destruct (debugger_reads_guest_memory (D:=unit) 0x8000 0 (test_mem false) 0x10008000 0x200008000)
    as (m' & Hr & Hrest).
  - apply test_mem_ok.
  - by vm_compute.
  - done.
  - done.
  - exists 15. by vm_compute.
  - by vm_compute.
  - by vm_compute.
  - exists m'. split; [|exact Hrest]. rewrite Hr. by vm_compute.
Defined.

(** An allocator that gives out the addresses above every block. *)
Definition heap_end (bl : gmap Z Z) : Z := foldr (λ b e, Z.max e (fst b + snd b)) 0x10000 (map_to_list bl).
Definition bump (bl : gmap Z Z) (n : Z) : Z :=
  let p := 4 * ((heap_end bl + 3) / 4) in if p <? 2 ^ 48 then p else 0.

Lemma heap_end_above bl p n : bl !! p = Some n → p + n ≤ heap_end bl.
Proof.
  intros H%elem_of_map_to_list. unfold heap_end. induction (map_to_list bl) as [|b l IH].
  - by apply not_elem_of_nil in H.
  - cbn. apply elem_of_cons in H as [<-|H]; [cbn; lia | specialize (IH H); lia].
Qed.

Lemma heap_end_ge bl : 0x10000 ≤ heap_end bl.
Proof. unfold heap_end. induction (map_to_list bl) as [|b l IH]; cbn; lia. Qed.

Lemma bump_sound : malloc_sound bump.
Proof.
  intros bl n Hb Hn. unfold bump. set (p := 4 * _). destruct (Z.ltb_spec p (2 ^ 48)); [|done]. intros _.
  pose proof (Z.div_mod (heap_end bl + 3) 4 ltac:(lia)) as Hd. pose proof (Z.mod_pos_bound (heap_end bl + 3) 4 ltac:(lia)).
  pose proof (heap_end_ge bl). fold p in Hd. split; [split; [lia|]|].
  - unfold p. rewrite Z.mul_comm. by apply Z.mod_mul.
  - intros q k Hq%heap_end_above. right. lia.
Qed.

(** A Kinetic machine with 512 MB is switched on. *)
Definition state_after {A} (f : M (Heap * (Z * Mem unit)) A) (s : Heap * (Z * Mem unit)) : Heap * (Z * Mem unit) :=
  match f s with Some (_, s') => s' | None => s end.
Definition start_state : Heap * (Z * Mem unit) :=
  (mkHeap ∅ 0, (0, set_board (null_board Model_Kinetic IOMDType_IOMD) (test_mem true))).
Definition init_state : Heap * (Z * Mem unit) := state_after (mem_init bump) start_state.
Definition reset_state : Heap * (Z * Mem unit) := state_after (mem_reset bump 512 2) init_state.
Definition card_state : Heap * (Z * Mem unit) := state_after (gfxcard_init_fb bump true (Some 2)) reset_state.

Lemma card_session : session bump true (fst card_state) (snd (snd card_state)).
Proof.
  apply (session_card bump true (fst reset_state) 0 (snd (snd reset_state)) true (Some 2) _ 0);
    [| by intros n [= <-] | by vm_compute].
  apply (session_reset bump false (fst init_state) 0 (snd (snd init_state)) 512 2 _ 0); [| listed | listed | by vm_compute].
  apply (session_start bump ∅ Model_Kinetic IOMDType_IOMD 0 (snd (snd start_state)) _ 0); [| done | by vm_compute].
  by split.
Qed.

Lemma physical_accesses_stay_in_buffers_witness :
  let m := snd (snd card_state) in
  map_size (blocks (fst card_state)) = 8%nat ∧
  reads_live (blocks (fst card_state)) (mem_phys_read32 0x3ffffffc) 0 m ∧
  writes_live (blocks (fst card_state)) (mem_phys_write32 0x0afffffc 7) 0 m.
Proof.
  intros m. destruct (physical_accesses_stay_in_buffers bump (fst card_state) m bump_sound card_session) as [H _].
  split; [by vm_compute|]. split.
  - apply (H 0x3ffffffc 0); by vm_compute.
  - apply (H 0x0afffffc 0); by vm_compute.
Defined.

Lemma test_permitted priv rw va phys perm :
  mmu_access (test_mem priv) priv rw va = Some (inl (phys, perm)) → permitted (test_mem priv) priv rw va phys.
Proof. intros H. by exists perm. Qed.

Lemma reads_follow_tables_witness :
  ∃ m', mem_read32 0x8000 (0, test_mem false) = Some (0xcafef00d, (0, m')) ∧
    mem_inv m' ∧ host m' = host (test_mem false) ∧ privileged m' = privileged (test_mem false).
Proof.
  destruct (reads_follow_tables (D:=unit) 0x8000 0 (test_mem false) 0x10008000 0x200008000) as [H _].
  - apply test_mem_ok.
  - by vm_compute.
  - done.
  - apply (test_permitted false false _ _ 15). by vm_compute.
  - by vm_compute.
  - destruct (H eq_refl) as (m' & Hr & Hrest). exists m'. split; [|exact Hrest]. rewrite Hr. by vm_compute.
Defined.

Lemma writes_follow_tables_witness :
  ∃ m', mem_write32 0x8000 7 (0, test_mem false) = Some (tt, (0, m')) ∧
    stored (put32 0x200008000 7 (host (test_mem false))) (test_mem false) m'.
Proof.
  destruct (writes_follow_tables (D:=unit) 0x8000 7 0 (test_mem false) 0x10008000 0x200008000) as [H _].
  - apply test_mem_ok.
  - by vm_compute.
  - done.
  - apply (test_permitted false true _ _ 15). by vm_compute.
  - by vm_compute.
  - exact (H eq_refl).
Defined.

Lemma refused_accesses_abort_witness :
  ∃ m', mem_write32 0x200000 7 (0, test_mem false) = Some (tt, (0x40, m')) ∧ coherent m' ∧
    faulted 0x200000 0 CP15_FAULT_PERMISSION_SECTION (test_mem false) m'.
Proof.
  destruct (refused_accesses_abort (D:=unit) 0x200000 7 0 (test_mem false) 0 CP15_FAULT_PERMISSION_SECTION)
    as [_ H].
  - apply test_mem_ok.
  - by vm_compute.
  - done.
  - destruct H as [H _]; [by vm_compute|]. exact H.
Defined.

Lemma translation_is_the_walk_witness :
  translateaddress2 0x101234 false false (0, test_mem true) =
    Some (0x10101234, (0, upd_tlb (cp15_tlb_add_entry 0x101234 0x10101234 12) (test_mem true))).
Proof.
  apply (translation_is_the_walk (D:=unit) (test_mem true) 0x101234 false false 0 (inl (0x10101234, 12))).
  - apply test_mem_ok.
  - by vm_compute.
  - by vm_compute.
Defined.

Lemma permission_bits_are_the_check_witness :
  Z.testbit 13 (perm_bit false false) = true ↔
    mmu_access (test_mem true) false false 0x200000 = Some (inl (0x10200000, 13)).
Proof.
  apply (permission_bits_are_the_check (D:=unit) (test_mem true) true true 0x200000). by vm_compute.
Defined.

Lemma flush_empties_the_caches_witness :
  rings (after (mem_read32 0x8000 (0, test_mem true))) ∧
  flushed (cp15_tlb_flush_all (after (mem_read32 0x8000 (0, test_mem true)))).
Proof.
  assert (rings (after (mem_read32 0x8000 (0, test_mem true)))) as H.
  { destruct (mem_read32_allowed (D:=unit) 0x8000 0 (test_mem true) 0x10008000 0x200008000) as (m' & Hr & Hc & _);
      [apply test_mem_ok | by vm_compute | done | done
      | apply (test_permitted true false _ _ 15); by vm_compute | by vm_compute |].
    rewrite Hr. by apply coherent_rings. }
  split; [exact H|]. by apply (flush_empties_the_caches (D:=unit)).
Defined.

Lemma register_writes_keep_coherence_witness :
  ∃ m', cp15_write 0x00020000 0x10010000 0 (test_mem true) = Some (Cp15None, m') ∧
    translation_table (cp15 m') = 0x10010000 ∧ coherent m'.
Proof.
  eexists. split; [reflexivity|]. split; [by vm_compute|].
  eapply (register_writes_keep_coherence (D:=unit) 0x00020000 0x10010000 0 (test_mem true) Cp15None).
  - apply test_mem_ok.
  - apply test_cp15_inv.
  - by vm_compute.
  - reflexivity.
Defined.

Lemma invalidated_region_is_slow_witness :
  let m' := cp15_tlb_invalidate_physical 0x10000000 (test_mem true) in
  coherent m' ∧ fast_entry (wmap m') true (0x8000 / 0x1000) = 0xffffffff.
Proof.
  apply (invalidated_region_is_slow (D:=unit) 0x10000000 (test_mem true) 0x8000 true true 0x10008000).
  - apply test_mem_ok.
  - by vm_compute.
  - apply (test_permitted true true _ _ 15). by vm_compute.
  - by vm_compute.
Defined.

Lemma fetch_follows_tables_witness :
  ∃ m', getpccache 0x8004 (0, test_mem false) = Some (Some (0x200000000, 0), (0, m')) ∧
    fetch_word (0x200000000, 0) (0x8004 .>> 2) m' = 0x12345678.
Proof.
  destruct (fetch_follows_tables (D:=unit) 0x8004 0 (test_mem false) 0x10008000 (0x200000000, 0))
    as (m' & Hr & _ & _ & _ & Hw).
  - apply test_mem_ok.
  - by vm_compute.
  - done.
  - apply (test_permitted false false _ _ 15). by vm_compute.
  - by vm_compute.
  - by vm_compute.
  - exists m'. split; [exact Hr|]. rewrite (Hw 0x8004 0x200008004); by vm_compute.
Defined.

Lemma refused_prefetch_is_silent_witness :
  getpccache 0x100010 (0, test_mem false) = Some (None, (0, test_mem false)).
Proof.
  apply (refused_prefetch_is_silent (D:=unit) 0x100010 0 (test_mem false) 0 CP15_FAULT_PERMISSION_SECTION).
  - apply test_mem_ok.
  - by vm_compute.
  - done.
  - done.
  - by vm_compute.
Defined.

Lemma physical_write_then_read_witness :
  ∃ m', mem_phys_write32 0x10008000 7 (0, test_mem true) = Some (tt, (0, m')) ∧
    mem_phys_read32 0x13c08000 (0, m') = Some (7, (0, m')).
Proof.
  apply (physical_write_then_read (D:=unit) 0x10008000 0x13c08000 7 0 (test_mem true) 0x200008000 0x200008000);
    try by vm_compute. apply test_board_ok.
Defined.

Lemma user_stores_are_confined_witness :
  get8 0x200008000 (host (after (mem_write32 0x8000 7 (0, test_mem false)))) = 7 ∧
  ∃ phys p, permitted (test_mem false) false true 0x8000 phys ∧
    phys_at true (board (test_mem false)) phys = Some p ∧ p ≤ 0x200008000 < p + 4.
Proof.
  split; [by vm_compute|].
  apply (user_stores_are_confined (D:=unit) 0x8000 7 0 (test_mem false) (inl (0x10008000, 15)) 0
    (after (mem_write32 0x8000 7 (0, test_mem false))) 0x200008000).
  - apply test_mem_ok.
  - by vm_compute.
  - done.
  - done.
  - done.
  - done.
  - by vm_compute.
  - intros phys perm [= <- _]. by vm_compute.
  - by vm_compute.
  - by vm_compute.
Defined.
