(* ===== verification/ArmSave.v ===== *)
(** [arm_savestate] and [arm_loadstate] (arm_common.c): the core's chunk of a
    snapshot, and that loading it gives the core that was saved. *)

From S2P Require Export SavestateSpec ArmBanks.

(** * The chunk *)

Definition save_words (n : nat) (a : gmap Z Z) : list Z :=
  flat_map (λ c, savestate_write_u32 (a !!! c)) (seqZ 0 (Z.of_nat n)).

Definition arm_savestate (a : ARMState) : list Z :=
  save_words 17 (reg a) ++ savestate_write_u32 (mode a) ++ savestate_write_u32 (event a) ++
  save_words 15 (user_reg a) ++ save_words 15 (fiq_reg a) ++ save_words 2 (irq_reg a) ++
  save_words 2 (super_reg a) ++ save_words 2 (abort_reg a) ++ save_words 2 (undef_reg a) ++
  save_words 16 (spsr a) ++ savestate_write_u32 (r15_diff a) ++
  savestate_write_u8 (abort_base_restored a) ++ savestate_write_u8 (stm_writeback_at_end a) ++
  savestate_write_u8 (arch_v4 a).

(** [for (c = c0; c < c0 + n; c++) arr[c] = savestate_read_u32(f);] *)
Fixpoint load_words (c : Z) (n : nat) (arr : gmap Z Z) : M File (gmap Z Z) :=
  match n with
  | O => mret arr
  | Datatypes.S n' => v ← savestate_read_u32; load_words (c + 1) n' (<[c := v]> arr)
  end.

Section save.
Context {S P : Type} `{!MemSys S P} `{!HostSys S P}.
Local Abbreviation LOAD := (M (File * Mach S P)).

Definition reading {A} (op : M File A) : LOAD A := zoom fst (λ f fm, (f, snd fm)) op.
Definition on_core {A} (op : M (Mach S P) A) : LOAD A := zoom snd (λ m fm, (fst fm, m)) op.
Definition load_array (n : nat) (get : ARMState → gmap Z Z) (set : gmap Z Z → ARMState → ARMState) : LOAD unit :=
  a ← gets (λ fm, get (arm (snd fm)));
  a ← reading (load_words 0 n a);
  on_core (modify (upd_arm (set a))).
Definition load_field (read : M File Z) (set : Z → ARMState → ARMState) : LOAD unit :=
  v ← reading read; on_core (modify (upd_arm (set v))).

Definition restore_banks (saved : ARMState) (a : ARMState) : ARMState :=
  set_undef_reg (undef_reg saved) (set_abort_reg (abort_reg saved) (set_super_reg (super_reg saved)
    (set_irq_reg (irq_reg saved) (set_fiq_reg (fiq_reg saved) (set_user_reg (user_reg saved) a))))).

Definition arm_loadstate : LOAD unit :=
  load_array 17 reg set_reg;;
  load_field savestate_read_u32 set_mode;;
  load_field savestate_read_u32 set_event;;
  load_array 15 user_reg set_user_reg;;
  load_array 15 fiq_reg set_fiq_reg;;
  load_array 2 irq_reg set_irq_reg;;
  load_array 2 super_reg set_super_reg;;
  load_array 2 abort_reg set_abort_reg;;
  load_array 2 undef_reg set_undef_reg;;
  load_array 16 spsr set_spsr;;
  load_field savestate_read_u32 set_r15_diff;;
  load_field savestate_read_u8 set_abort_base_restored;;
  load_field savestate_read_u8 set_stm_writeback_at_end;;
  load_field savestate_read_u8 set_arch_v4;;
  saved ← gets (λ fm, arm (snd fm));
  on_core (updatemode (mode saved));;
  on_core (modify (upd_arm (restore_banks saved)));;
  on_core (modify (set_pccache 0xffffffff)).
End save.

(** * Reading it back *)

Definition loaded (n : nat) (b old : gmap Z Z) : gmap Z Z := arr_fill 0 n (λ c, u32 (b !!! c)) old.

Lemma load_words_run n : ∀ (c : Z) (b arr : gmap Z Z) (rest : list Z) (err : bool),
  load_words c n arr (file_of (flat_map (λ c, savestate_write_u32 (b !!! c)) (seqZ c (Z.of_nat n))) rest err) =
    Some (arr_fill c n (λ c, u32 (b !!! c)) arr, mkFile rest err).
Proof.
  induction n as [|n IH]; intros c b arr rest err; [done|].
  unfold arr_fill. rewrite seqZ_cons by lia. cbn [flat_map foldl load_words].
  replace (Z.succ c) with (c + 1) by lia. replace (Z.pred (Z.of_nat (Datatypes.S n))) with (Z.of_nat n) by lia.
  rewrite file_of_app, (bind_eq _ _ _ _ _ (read_u32 (b !!! c) _ err)). apply IH.
Qed.

Lemma loaded_lookup n b old c : 0 ≤ c < Z.of_nat n → (∀ r, w32 (b !!! r)) → loaded n b old !!! c = b !!! c.
Proof. intros Hc Hb. unfold loaded. rewrite arr_fill_lookup, decide_True by lia. by apply u32_id. Qed.

Lemma loaded_w32 n b old : (∀ r, w32 (old !!! r)) → ∀ r, w32 (loaded n b old !!! r).
Proof. intros Ho r. unfold loaded. rewrite arr_fill_lookup. case_decide; [apply u32_w32 | apply Ho]. Qed.

Section load.
Context {S P : Type} `{!MemSys S P} `{!HostSys S P}.
Implicit Types m : Mach S P.

Lemma load_array_run n get set b rest err m :
  load_array n get set (file_of (save_words n b) rest err, m) =
    Some (tt, (mkFile rest err, upd_arm (set (loaded n b (get (arm m)))) m)).
Proof.
  unfold load_array, reading, on_core, zoom, gets, modify, mbind, M_bind. cbv beta iota. cbn [fst snd].
  unfold save_words. by rewrite load_words_run.
Qed.

Lemma load_u32_run set v rest err m :
  load_field savestate_read_u32 set (file_of (savestate_write_u32 v) rest err, m) =
    Some (tt, (mkFile rest err, upd_arm (set (u32 v)) m)).
Proof.
  unfold load_field, reading, on_core, zoom, modify, mbind, M_bind. cbv beta iota. cbn [fst snd]. by rewrite read_u32.
Qed.

Lemma load_u8_run set v rest err m :
  load_field savestate_read_u8 set (file_of (savestate_write_u8 v) rest err, m) =
    Some (tt, (mkFile rest err, upd_arm (set (u8 v)) m)).
Proof.
  unfold load_field, reading, on_core, zoom, modify, mbind, M_bind. cbv beta iota. cbn [fst snd]. by rewrite read_u8.
Qed.

(** The registers read, before [updatemode]. *)
Definition loaded_arm (a old : ARMState) : ARMState :=
  mkARM (loaded 17 (reg a) (reg old)) (u32 (mode a)) (mmask old) (r15_mask old) (u32 (event a))
    (loaded 15 (user_reg a) (user_reg old)) (loaded 15 (fiq_reg a) (fiq_reg old))
    (loaded 2 (irq_reg a) (irq_reg old)) (loaded 2 (super_reg a) (super_reg old))
    (loaded 2 (abort_reg a) (abort_reg old)) (loaded 2 (undef_reg a) (undef_reg old))
    (loaded 16 (spsr a) (spsr old)) (u32 (r15_diff a)) (u8 (abort_base_restored a))
    (u8 (stm_writeback_at_end a)) (u8 (arch_v4 a)).

Ltac next_field :=
  rewrite file_of_app; first [erewrite bind_eq by apply load_array_run | erewrite bind_eq by apply load_u32_run
    | erewrite bind_eq by apply load_u8_run];
  match goal with |- context [mkFile (?b ++ ?r) ?e] => change (mkFile (b ++ r) e) with (file_of b r e) end.

Lemma arm_loadstate_run a rest err m :
  arm_loadstate (file_of (arm_savestate a) rest err, m) =
    let s := set_arm (loaded_arm a (arm m)) m in
    match updatemode (u32 (mode a)) s with
    | Some (_, s') => Some (tt, (mkFile rest err,
        set_pccache 0xffffffff (upd_arm (restore_banks (loaded_arm a (arm m))) s')))
    | None => None
    end.
Proof.
  unfold arm_loadstate, arm_savestate.
  do 13 next_field. erewrite bind_eq by apply load_u8_run.
  unfold on_core, zoom, gets, modify, mbind, M_bind. cbv beta iota. cbn [fst snd].
  match goal with |- context [updatemode _ ?s] => change s with (set_arm (loaded_arm a (arm m)) m) end.
  change (mode _) with (u32 (mode a)) at 1.
  by destruct (updatemode (u32 (mode a)) _) as [[[] s']|].
Qed.
End load.

(** * The same core *)

(** What the program can tell two cores apart by. *)
Record same_core {S P} `{!MemSys S P} (m m' : Mach S P) : Prop := {
  sc_reg c : 0 ≤ c < 17 → reg (arm m') !!! c = reg (arm m) !!! c;
  sc_user c : 0 ≤ c < 15 → user_reg (arm m') !!! c = user_reg (arm m) !!! c;
  sc_fiq c : 0 ≤ c < 15 → fiq_reg (arm m') !!! c = fiq_reg (arm m) !!! c;
  sc_irq c : 0 ≤ c < 2 → irq_reg (arm m') !!! c = irq_reg (arm m) !!! c;
  sc_super c : 0 ≤ c < 2 → super_reg (arm m') !!! c = super_reg (arm m) !!! c;
  sc_abort c : 0 ≤ c < 2 → abort_reg (arm m') !!! c = abort_reg (arm m) !!! c;
  sc_undef c : 0 ≤ c < 2 → undef_reg (arm m') !!! c = undef_reg (arm m) !!! c;
  sc_spsr c : 0 ≤ c < 16 → spsr (arm m') !!! c = spsr (arm m) !!! c;
  sc_mode : mode (arm m') = mode (arm m);
  sc_mmask : mmask (arm m') = mmask (arm m);
  sc_r15_mask : r15_mask (arm m') = r15_mask (arm m);
  sc_event : event (arm m') = event (arm m);
  sc_r15_diff : r15_diff (arm m') = r15_diff (arm m);
  sc_abr : abort_base_restored (arm m') = abort_base_restored (arm m);
  sc_stm : stm_writeback_at_end (arm m') = stm_writeback_at_end (arm m);
  sc_v4 : arch_v4 (arm m') = arch_v4 (arm m);
  sc_cpsr : cpsr m' = cpsr m;
  sc_pcpsr : pcpsr m' = pcpsr m;
  sc_usr c : 0 ≤ c < 16 → usrregs m' !!! c = usrregs m !!! c;
  sc_priv : ms_memmode (sys m') = ms_memmode (sys m)
}.

(** The fields that are neither registers nor derived from the mode. *)
Definition extras (a : ARMState) : gmap Z Z * Z * Z * Z * Z * Z :=
  (spsr a, event a, r15_diff a, abort_base_restored a, stm_writeback_at_end a, arch_v4 a).

Lemma store_back_extras a : extras (store_back a) = extras a.
Proof. unfold store_back. repeat case_match; done. Qed.
Lemma load_bank_extras m a a' : load_bank m a = Some a' → extras a' = extras a.
Proof. unfold load_bank. intros Hl. repeat case_match; try discriminate; by injection Hl as <-. Qed.
Lemma enter_32_extras om a : extras (enter_32 om a) = extras a.
Proof. unfold enter_32. by destruct (ARM_MODE_32 om). Qed.
Lemma enter_26_extras om a : extras (enter_26 om a) = extras a.
Proof. unfold enter_26. by destruct (ARM_MODE_32 om). Qed.

Section restore.
Context {S P : Type} `{!MemSys S P, !HostSys S P, !MemSysOk S P, !HostSysOk S P}.
Implicit Types s : Mach S P.

Definition mode_arm (om m : Z) (a : ARMState) : ARMState :=
  if ARM_MODE_32 m then enter_32 om a else enter_26 om a.

Lemma mode_entered_arm om m a s : arm (mode_entered om m a s) = mode_arm om m a.
Proof. unfold mode_entered, mode_arm. by destruct (ARM_MODE_32 m). Qed.

Lemma mode_arm_extras om m a : extras (mode_arm om m a) = extras a.
Proof. unfold mode_arm. destruct (ARM_MODE_32 m); [apply enter_32_extras | apply enter_26_extras]. Qed.

(** The mode the core is in entered again: the registers are as they were. *)
Lemma reenter s :
  valid_mode (mode (arm s)) → (ARM_MODE_32 (mode (arm s)) = false → reg (arm s) !!! 16 .& 0x1f = mode (arm s)) →
  w32 (reg (arm s) !!! 16) →
  ∃ a', updatemode (mode (arm s)) s = Some (tt, mode_entered (mode (arm s)) (mode (arm s)) a' s) ∧
    (words (arm s) → words a') ∧ mode a' = mode (arm s) ∧
    (∀ c, 0 ≤ c < 17 → reg (mode_arm (mode (arm s)) (mode (arm s)) a') !!! c = reg (arm s) !!! c) ∧
    extras (mode_arm (mode (arm s)) (mode (arm s)) a') = extras (arm s).
Proof.
  intros Hv Hpsr Hw. set (md := mode (arm s)) in *.
  destruct (valid_loads md (set_mode md (store_back (arm s))) Hv) as (a' & El). exists a'.
  destruct (load_bank_fields _ _ _ El) as (Hmode & H15 & H16).
  assert (updatemode md s = Some (tt, mode_entered md md a' s)) as Hrun.
  { unfold updatemode. rewrite bind_run. unfold gets at 1. rewrite updatemode_at_run. cbv zeta. by rewrite El. }
  split_and!.
  - done.
  - intros Hwords. apply (words_load_bank _ _ _) with (2 := El).
    pose proof (words_store_back _ Hwords) as H. destruct H; by split.
  - by rewrite Hmode.
  - assert (reg (set_mode md (store_back (arm s))) = reg (arm s)) as Hreg by apply store_back_fields.
    rewrite Hreg in H15, H16. intros c Hc. rewrite <- (mode_entered_arm _ _ a' s).
    destruct (Z.lt_ge_cases c 15) as [Hlt|Hge].
    + destruct (updatemode_at_arch md (PC s) s Hv Hv) as (s' & Hrun' & Hm' & Harch).
      assert (s' = mode_entered md md a' s) as ->.
      { unfold updatemode in Hrun. rewrite bind_run in Hrun. unfold gets at 1 in Hrun. congruence. }
      pose proof (Harch md c Hv ltac:(lia)) as E. unfold arch_reg in E. rewrite Hm', Z.eqb_refl in E.
      fold md in E. rewrite Z.eqb_refl in E. by destruct (c <? 8).
    + rewrite mode_entered_arm. unfold mode_arm. destruct (ARM_MODE_32 md) eqn:E32.
      * rewrite enter_32_same by done. assert (c = 15 ∨ c = 16) as [->| ->] by lia; done.
      * unfold enter_26. rewrite E32. cbn. assert (c = 15 ∨ c = 16) as [->| ->] by lia.
        -- by rewrite arr_other.
        -- rewrite arr_same, H16, Hmode. cbn. specialize (Hpsr eq_refl). rewrite <- Hpsr.
           apply Z.bits_inj'. intros i Hi. rewrite Z.lor_spec, !Z.land_spec.
           change 0xffffffe0 with (Z.ldiff (Z.ones 32) (Z.ones 5)). change 0x1f with (Z.ones 5).
           rewrite Z.ldiff_spec, !Z.testbit_ones_nonneg by lia.
           destruct (Z.ltb_spec i 5), (Z.ltb_spec i 32); try lia.
           ++ by destruct (Z.testbit _ i).
           ++ by destruct (Z.testbit _ i).
           ++ rewrite (w32_high (reg (arm s) !!! 16) i Hw) by lia. done.
  - rewrite mode_arm_extras, (load_bank_extras _ _ _ El).
    change (extras (set_mode md (store_back (arm s)))) with (extras (store_back (arm s))). apply store_back_extras.
Qed.

Definition flags_are_bytes (a : ARMState) : Prop :=
  byte (abort_base_restored a) ∧ byte (stm_writeback_at_end a) ∧ byte (arch_v4 a).

Lemma loaded_arm_words a old : words a → words old → words (loaded_arm a old).
Proof.
  intros [] []. split; cbn; auto using loaded_w32, u32_w32.
Qed.

Lemma restore_banks_words saved a : words saved → words a → words (restore_banks saved a).
Proof. intros [] []. by split. Qed.

Lemma snapshot_core a (m : Mach S P) rest err s :
  core_inv s → arm s = a → valid_mode (mode a) → (ARM_MODE_32 (mode a) = false → reg a !!! 16 .& 0x1f = mode a) →
  flags_are_bytes a → words (arm m) →
  ∃ m', arm_loadstate (file_of (arm_savestate a) rest err, m) = Some (tt, (mkFile rest err, m')) ∧
        same_core s m' ∧ core_inv m'.
Proof.
  intros [Hb Hpsr] Ha Hv H26 (F1 & F2 & F3) Hm. pose proof (bi_words _ Hb) as Hw. rewrite Ha in Hw.
  destruct Hw as [W1 W2 W3 W4 W5 W6 W7 W8 W9 W10].
  assert (u32 (mode a) = mode a) as Emode by (apply u32_id; destruct Hv as [? _]; unfold w32; lia).
  set (la := loaded_arm a (arm m)). set (s0 := set_arm la m).
  assert (mode (arm s0) = mode a) as Em0 by exact Emode.
  assert (∀ c, 0 ≤ c < 17 → reg (arm s0) !!! c = reg a !!! c) as Ereg by (intros; by apply loaded_lookup).
  destruct (reenter s0) as (a' & Hrun & Hwords & Hmode & Hregs & Hex);
    [by rewrite Em0 | rewrite Em0, Ereg by lia; exact H26 | rewrite Ereg by lia; apply W1|].
  rewrite Em0 in *. rewrite arm_loadstate_run. cbv zeta. fold la s0. rewrite Emode, Hrun.
  eexists. split; [reflexivity|].
  assert (words la) as Hla by (apply loaded_arm_words; [by split | done]).
  specialize (Hwords Hla).
  pose proof (mode_entered_base (mode a) (mode a) a' s0 Hwords Hmode ltac:(by destruct Hv)) as Hbase.
  injection Hex as X1 X2 X3 X4 X5 X6. rewrite <- (mode_entered_arm _ _ a' s0) in Hregs.
  rewrite <- (mode_entered_arm _ _ a' s0) in X1, X2, X3, X4, X5, X6.
  set (s1 := mode_entered (mode a) (mode a) a' s0) in *.
  assert (mode (arm s1) = mode a) as Em1 by by apply mode_entered_mode.
  destruct Hbase as [B1 B2 B3 B4 B5 B6 B7 B8]. destruct Hb as [C1 C2 C3 C4 C5 C6 C7 C8].
  rewrite Ha in C2, C3, C4, C5, C6, C7, C8. rewrite Em1 in B2, B3, B4, B5, B6, B7, B8.
  split; split; unfold restore_banks, upd_arm; cbn -[s1]; rewrite ?Ha; try (intros c Hc; by apply loaded_lookup).
  - intros c Hc. rewrite Hregs, Ereg by lia. done.
  - intros c Hc. rewrite X1. by apply loaded_lookup.
  - done.
  - congruence.
  - congruence.
  - rewrite X2. by apply u32_id.
  - rewrite X3. by apply u32_id.
  - rewrite X4. by apply u8_id.
  - rewrite X5. by apply u8_id.
  - rewrite X6. by apply u8_id.
  - congruence.
  - congruence.
  - intros c Hc. by rewrite B7, C7.
  - congruence.
  - split; cbn -[s1]; rewrite ?Em1; try done.
    exact (restore_banks_words la (arm s1) Hla B1).
  - intros E. change (ARM_MODE_32 (mode (arm s1)) = true) in E.
    change (reg (arm s1) !!! 16 .& 0x1f = mode (arm s1)). rewrite Em1 in E |- *. rewrite Hregs, Ereg by lia.
    unfold psr_inv, rreg in Hpsr. rewrite Ha in Hpsr. by apply Hpsr.
Qed.
End restore.
