(* ===== verification/SnapshotTheorems.v ===== *)
(** What the snapshot code promises: what is written is read back, no file makes
    the reader leave its buffer, and loading a machine's chunks gives that
    machine. *)

From S2P Require Export ArmSave MemTheorems ArmFlat.

(** Every integer field is read back as the value of its width, and the rest
    of the file is left as it was. *)
Theorem integers_round_trip v rest err :
  savestate_read_u8 (file_of (savestate_write_u8 v) rest err) = Some (u8 v, mkFile rest err) ∧
  savestate_read_u16 (file_of (savestate_write_u16 v) rest err) = Some (v mod 0x10000, mkFile rest err) ∧
  savestate_read_u32 (file_of (savestate_write_u32 v) rest err) = Some (u32 v, mkFile rest err) ∧
  savestate_read_i32 (file_of (savestate_write_i32 v) rest err) = Some (s32 v, mkFile rest err) ∧
  savestate_read_u64 (file_of (savestate_write_u64 v) rest err) = Some (u64 v, mkFile rest err).
Proof. split_and!; [apply read_u8 | apply read_u16 | apply read_u32 | apply read_i32 | apply read_u64]. Qed.

(** A payload of less than 2 GB that is run-length encoded decodes to itself,
    in a buffer of its length, and to the last byte of its encoding. *)
Theorem runs_round_trip data buf rest :
  length buf = length data → Z.of_nat (length data) < 0x80000000 → Forall byte data →
  savestate_read_rle buf (file_of (savestate_write_rle data) rest false) = Some (data, mkFile rest false).
Proof. apply rle_round_trip. Qed.

(** C10: whatever the file holds, the decoder ends within as many records as the
    buffer has bytes, and never stores outside the buffer. *)
Theorem any_file_is_survived buf f :
  ∃ buf' f', savestate_read_rle buf f = Some (buf', f') ∧ length buf' = length buf.
Proof. apply read_rle_total. Qed.

(** The CRC computed with the table is the division by the polynomial, bit
    by bit. *)
Theorem crc_is_the_division data : Forall byte data → crc32_buf data = crc_reference data.
Proof. apply crc32_is_reference. Qed.

(** C8: loading the core's chunk into any machine gives the core that was saved:
    every register of every bank, the mode and what is derived from it, and the
    invariant. In a 26-bit mode the low bits of register 16 have to agree with
    the mode. *)
Theorem core_snapshot_round_trip {S P : Type} `{!MemSys S P, !HostSys S P, !MemSysOk S P, !HostSysOk S P}
    (s m : Mach S P) rest err :
  core_inv s → valid_mode (mode (arm s)) →
  (ARM_MODE_32 (mode (arm s)) = false → reg (arm s) !!! 16 .& 0x1f = mode (arm s)) →
  flags_are_bytes (arm s) → words (arm m) →
  ∃ m', arm_loadstate (file_of (arm_savestate (arm s)) rest err, m) = Some (tt, (mkFile rest err, m')) ∧
        same_core s m' ∧ core_inv m'.
Proof. intros Hs Hv H26 Hf Hm. by apply (snapshot_core (arm s) m rest err s). Qed.

(** C17: loading the MMU's chunk gives its registers, finds the table in the bank
    it was in, and leaves the caches coherent with that table. *)
Theorem mmu_snapshot_round_trip {D : Type} `{!IoDev D} c rest err (m : Mem D) :
  cp15_inv c → table_known (board m) c → rings m →
  ∃ m', cp15_loadstate (file_of (cp15_savestate c) rest err, m) = Some (tt, (mkFile rest err, m')) ∧
    coherent m' ∧ cp15_inv (cp15 m') ∧ board m' = board m ∧ host m' = host m ∧ memmode m' = memmode m ∧
    ctrl (cp15 m') = ctrl c ∧ translation_table (cp15 m') = translation_table c ∧
    domain_access_control (cp15 m') = domain_access_control c ∧ fault_status (cp15 m') = fault_status c ∧
    fault_address (cp15 m') = fault_address c ∧ mmu (cp15 m') = mmu c ∧
    tlbram (cp15 m') = tlbram c ∧ tlbrammask (cp15 m') = tlbrammask c.
Proof. apply cp15_snapshot. Qed.

(** C9: loading memory's chunk into a machine with the same memory fitted gives
    every byte of every bank, wherever the host has put the banks; and if the
    caches were empty they agree with the memory loaded. *)
Theorem memory_snapshot_round_trip {D : Type} `{!IoDev D} (m0 m : Mem D) rest :
  same_sizes (board m0) (board m) → small (bank_size (board m0)) → small (vram_bytes (board m0)) →
  ForallOrdPairs apart (regions (board m0) (board m)) →
  ∃ m', mem_loadstate (file_of (mem_savestate m0) rest false, m) = Some (tt, (mkFile rest false, m')) ∧
    (∀ from to n i, (from, to, n) ∈ regions (board m0) (board m) → 0 ≤ i < n →
       get8 (to + i) (host m') = get8 (from + i) (host m0)) ∧
    (flushed m → rings m → coherent m').
Proof. apply mem_snapshot. Qed.

(** The core just after a reset, and after a snapshot of it is loaded. *)
Definition reset_core : Mach flat unit :=
  match arm_reset CPUModel_SA110 (flat_machine 0 1 ∅ ∅) with Some (_, m) => m | None => flat_machine 0x10 1 ∅ ∅ end.
Definition resumed_core : Mach flat unit :=
  match arm_loadstate (file_of (arm_savestate (arm reset_core)) [] false, flat_machine 0 1 ∅ ∅) with
  | Some (_, (_, m)) => m | None => reset_core end.

(** Of one core the snapshot is not exact: after a reset register 16 names a
    32-bit mode while the core is in a 26-bit one, and loading clears that bit. *)
Theorem reset_snapshot_differs :
  mode (arm reset_core) = 3 ∧ mode (arm resumed_core) = 3 ∧
  reg (arm reset_core) !!! 16 = 0xd3 ∧ reg (arm resumed_core) !!! 16 = 0xc3.
Proof. split_and!; by vm_compute. Qed.

(** * Witnesses *)

Lemma runs_round_trip_witness :
  savestate_read_rle (replicate 40 7) (file_of (savestate_write_rle ([1; 2] ++ replicate 37 0 ++ [9])) [5] false) =
    Some ([1; 2] ++ replicate 37 0 ++ [9], mkFile [5] false).
Proof. apply runs_round_trip; [done | by vm_compute |]. apply (bool_decide_eq_true_1 _). by vm_compute. Defined.

Lemma crc_is_the_division_witness :
  crc32_buf [49; 50; 51; 52; 53; 54; 55; 56; 57] = 0xcbf43926 ∧
  crc32_buf [49; 50; 51; 52; 53; 54; 55; 56; 57] = crc_reference [49; 50; 51; 52; 53; 54; 55; 56; 57].
Proof. split; [by vm_compute|]. apply crc_is_the_division. apply (bool_decide_eq_true_1 _). by vm_compute. Defined.

Lemma core_snapshot_round_trip_witness :
  let s := flat_machine 0x12 1 (array 0 [1; 2; 3; 4; 5; 6; 7; 8; 9; 10; 11; 12; 13; 14; 15; 0x8000; 0x92]) ∅ in
  ∃ m', arm_loadstate (file_of (arm_savestate (arm s)) [] false, flat_machine 0 1 ∅ ∅) =
          Some (tt, (mkFile [] false, m')) ∧ same_core s m' ∧ core_inv m'.
Proof.
  apply (core_snapshot_round_trip (S:=flat) (P:=unit)).
  - apply flat_checked. by vm_compute.
  - split; [by vm_compute|]. right. right. left. by vm_compute.
  - by vm_compute.
  - split_and!; by vm_compute.
  - apply (bi_words (flat_machine 0 1 ∅ ∅)). apply flat_checked. by vm_compute.
Defined.

Lemma mmu_snapshot_round_trip_witness :
  ∃ m', cp15_loadstate (file_of (cp15_savestate (test_cp15 true)) [] false, test_mem false) =
      Some (tt, (mkFile [] false, m')) ∧ coherent m' ∧ tlbram (cp15 m') = 0x200000000.
Proof.
  destruct (mmu_snapshot_round_trip (D:=unit) (test_cp15 true) [] false (test_mem false))
    as (m' & Hr & Hc & _ & _ & _ & _ & _ & _ & _ & _ & _ & _ & Ht & _).
  - exact (test_cp15_inv true).
  - intros r k. by vm_compute.
  - exact (test_rings true false (test_host test_words)).
  - exists m'. split_and!; [exact Hr | exact Hc | exact Ht].
Defined.

(** A machine with 4 KB in each bank, before and after. *)
Definition tiny_board (r00 r01 : Z) : Board :=
  mkBoard 0 0 r00 r01 0 0 0 0 0 0xfff 0 0x1fffffff Model_RPCSA110 IOMDType_IOMD.
Definition tiny_mem (r00 r01 : Z) (h : gmap Z Z) : Mem unit := set_board (tiny_board r00 r01) (test_memory false true h).

Lemma memory_snapshot_round_trip_witness :
  ∃ m', mem_loadstate (file_of (mem_savestate (tiny_mem 0x10000 0x20000 {[ 0x10123 := 5 ]})) [] false,
          tiny_mem 0x50000 0x40000 ∅) = Some (tt, (mkFile [] false, m')) ∧
    get8 0x50123 (host m') = 5 ∧ coherent m'.
Proof.
  assert (regions (board (tiny_mem 0x10000 0x20000 {[ 0x10123 := 5 ]})) (board (tiny_mem 0x50000 0x40000 ∅)) =
    [(0x10000, 0x50000, 0x1000); (0x20000, 0x40000, 0x1000)]) as E by by vm_compute.
  destruct (memory_snapshot_round_trip (D:=unit) (tiny_mem 0x10000 0x20000 {[ 0x10123 := 5 ]}) (tiny_mem 0x50000 0x40000 ∅) [])
    as (m' & Hr & Hb & Hc).
  - split; by vm_compute.
  - by vm_compute.
  - by vm_compute.
  - rewrite E. apply FOP_cons; [|by repeat constructor]. apply list.Forall_cons; split; [by right | by apply list.Forall_nil].
  - exists m'. split_and!; [exact Hr | |].
    + clear Hr Hc. rewrite E in Hb. specialize (Hb 0x10000 0x50000 0x1000 0x123 (list_elem_of_here _ _) ltac:(by vm_compute)).
      transitivity (get8 (0x10000 + 0x123) {[ 0x10123 := 5 ]}); [exact Hb | by vm_compute].
    + clear Hr. apply Hc; [destruct (test_flushed false true ∅); by split | exact (test_rings false true ∅)].
Defined.
