(* ===== verification/DynOps.v ===== *)
(** The operations of the recompiler build of the core (arm_dynarec_ops.h),
    which the blocks it compiles call and which it interprets when it does not
    compile: one function per class of opcode, the table of them, and the
    predicates on opcodes that the compilation of a block relies on
    (arm_dynarec.c). They are written anew in the source, beside the switch of
    the interpreter build, and so they are here; what both builds share
    (arm_common.h, arm_common.c) is shared. *)

From S2P Require Export ArmExec.

(** What the recompiler build keeps beside the core: [blockend], and the count
    of instructions. *)
Record Block := mkBlock { blockend : Z; block_inscount : Z }.
Definition set_blockend v (b : Block) : Block := mkBlock v (block_inscount b).
Definition set_block_inscount v (b : Block) : Block := mkBlock (blockend b) v.

Section dynarec.
Context {S P : Type} `{!MemSys S P} `{!HostSys S P}.
Local Abbreviation ARM := (M (Mach S P)).
Local Abbreviation DYN := (M (Mach S P * Block)).

Definition on_mach {A} (m : ARM A) : DYN A := zoom fst (λ c s, (c, snd s)) m.
Definition upd_block (f : Block → Block) : DYN unit := modify (λ s, (fst s, f (snd s))).
Definition refillpipeline : DYN unit := upd_block (set_blockend 1).

(** [exception], [arm_exception_undefined] and [LOADREG] of this build *)
Definition dyn_exception (mmode address diff : Z) : DYN unit :=
  on_mach (exception mmode address diff);; refillpipeline.
Definition dyn_undefined : DYN unit := dyn_exception UNDEFINED 8 4.
Definition dyn_LOADREG (r v : Z) : DYN unit := on_mach (LOADREG r v);; when (r =? 15) refillpipeline.

(** [return 0;] and [return (arm.event & 0x40);] *)
Definition done (m : ARM unit) : DYN Z := on_mach m;; mret 0.
Definition pending : DYN Z := gets (λ s, event (arm (fst s)) .& 0x40).

Definition opUNALLOC (opcode : Z) : DYN Z :=
  v4 ← on_mach (gets (λ s, arch_v4 (arm s)));
  if nz v4 then dyn_undefined;; mret 0 else done (arm_unpredictable opcode).


(** * Register forms *)

Definition opANDreg (opcode : Z) : DYN Z :=
  done (if opcode .& 0xf0 =? 0x90 then
    v ← gets (λ s, if MULRD opcode =? MULRM opcode then 0 else mul32 (rreg (MULRM opcode) s) (rreg (MULRS opcode) s));
    wreg (MULRD opcode) v
  else
    dest ← gets (λ s, (GETADDR (RN opcode) s) .& (shift2 opcode s)); arm_write_dest opcode dest).

Definition opANDregS (opcode : Z) : DYN Z :=
  done (if opcode .& 0xf0 =? 0x90 then
    v ← gets (λ s, if MULRD opcode =? MULRM opcode then 0 else mul32 (rreg (MULRM opcode) s) (rreg (MULRS opcode) s));
    wreg (MULRD opcode) v;;
    d ← gets (rreg (MULRD opcode)); arm_flags_logical d
  else
    lhs ← gets (GETADDR (RN opcode));
    if RD opcode =? 15 then rhs ← gets (shift2 opcode); arm_write_r15 opcode (lhs .& rhs)
    else
      rhs ← shift opcode;
      let dest := lhs .& rhs in
      wreg (RD opcode) dest;; arm_flags_logical dest).

Definition opEORreg (opcode : Z) : DYN Z :=
  done (if opcode .& 0xf0 =? 0x90 then
    v ← gets (λ s, if MULRD opcode =? MULRM opcode then 0
      else u32 (mul32 (rreg (MULRM opcode) s) (rreg (MULRS opcode) s) + rreg (MULRN opcode) s));
    wreg (MULRD opcode) v
  else
    dest ← gets (λ s, (GETADDR (RN opcode) s) .^ (shift2 opcode s)); arm_write_dest opcode dest).

Definition opEORregS (opcode : Z) : DYN Z :=
  done (if opcode .& 0xf0 =? 0x90 then
    v ← gets (λ s, if MULRD opcode =? MULRM opcode then 0
      else u32 (mul32 (rreg (MULRM opcode) s) (rreg (MULRS opcode) s) + rreg (MULRN opcode) s));
    wreg (MULRD opcode) v;;
    d ← gets (rreg (MULRD opcode)); arm_flags_logical d
  else
    lhs ← gets (GETADDR (RN opcode));
    if RD opcode =? 15 then rhs ← gets (shift2 opcode); arm_write_r15 opcode (lhs .^ rhs)
    else
      rhs ← shift opcode;
      let dest := lhs .^ rhs in
      wreg (RD opcode) dest;; arm_flags_logical dest).

Definition opSUBreg (opcode : Z) : DYN Z :=
  done (
    dest ← gets (λ s, sub32 (GETADDR (RN opcode) s) (shift2 opcode s)); arm_write_dest opcode dest).

Definition opSUBregS (opcode : Z) : DYN Z :=
  done (
    lhs ← gets (GETADDR (RN opcode));
    rhs ← gets (shift2 opcode);
    let dest := sub32 lhs rhs in
    if RD opcode =? 15 then arm_write_r15 opcode dest else arm_flags_sub lhs rhs dest;; wreg (RD opcode) dest).

Definition opRSBreg (opcode : Z) : DYN Z :=
  done (
    dest ← gets (λ s, sub32 (shift2 opcode s) (GETADDR (RN opcode) s)); arm_write_dest opcode dest).

Definition opRSBregS (opcode : Z) : DYN Z :=
  done (
    lhs ← gets (GETADDR (RN opcode));
    rhs ← gets (shift2 opcode);
    let dest := sub32 rhs lhs in
    if RD opcode =? 15 then arm_write_r15 opcode dest else arm_flags_sub rhs lhs dest;; wreg (RD opcode) dest).

Definition opADDreg (opcode : Z) : DYN Z :=
  done (v4 ← gets (λ s, arch_v4 (arm s));
  if nz v4 && (opcode .& 0xf0 =? 0x90) then
    mulres ← gets (λ s, u64 (rreg (MULRS opcode) s * rreg (MULRM opcode) s));
    wreg (MULRN opcode) (u32 mulres);; wreg (MULRD opcode) (u32 (mulres .>> 32))
  else
    dest ← gets (λ s, add32 (GETADDR (RN opcode) s) (shift2 opcode s)); arm_write_dest opcode dest).

Definition opADDregS (opcode : Z) : DYN Z :=
  done (v4 ← gets (λ s, arch_v4 (arm s));
  if nz v4 && (opcode .& 0xf0 =? 0x90) then
    mulres ← gets (λ s, u64 (rreg (MULRS opcode) s * rreg (MULRM opcode) s));
    wreg (MULRN opcode) (u32 mulres);; wreg (MULRD opcode) (u32 (mulres .>> 32));;
    arm_flags_long_multiply (u64 mulres)
  else
    lhs ← gets (GETADDR (RN opcode));
    rhs ← gets (shift2 opcode);
    let dest := add32 lhs rhs in
    if RD opcode =? 15 then arm_write_r15 opcode dest else arm_flags_add lhs rhs dest;; wreg (RD opcode) dest).

Definition opADCreg (opcode : Z) : DYN Z :=
  done (v4 ← gets (λ s, arch_v4 (arm s));
  if nz v4 && (opcode .& 0xf0 =? 0x90) then
    mulres ← gets (λ s, let current := u64 (Z.shiftl (rreg (MULRD opcode) s) 32) .| rreg (MULRN opcode) s in
      u64 (u64 (rreg (MULRS opcode) s * rreg (MULRM opcode) s) + current));
    wreg (MULRN opcode) (u32 mulres);; wreg (MULRD opcode) (u32 (mulres .>> 32))
  else
    dest ← gets (λ s, u32 ((GETADDR (RN opcode) s) + (shift2 opcode s) + CFSET s)); arm_write_dest opcode dest).

Definition opADCregS (opcode : Z) : DYN Z :=
  done (v4 ← gets (λ s, arch_v4 (arm s));
  if nz v4 && (opcode .& 0xf0 =? 0x90) then
    mulres ← gets (λ s, let current := u64 (Z.shiftl (rreg (MULRD opcode) s) 32) .| rreg (MULRN opcode) s in
      u64 (u64 (rreg (MULRS opcode) s * rreg (MULRM opcode) s) + current));
    wreg (MULRN opcode) (u32 mulres);; wreg (MULRD opcode) (u32 (mulres .>> 32));;
    arm_flags_long_multiply (u64 mulres)
  else
    lhs ← gets (GETADDR (RN opcode));
    rhs ← gets (shift2 opcode);
    dest ← gets (λ s, u32 (lhs + rhs + CFSET s));
    if RD opcode =? 15 then arm_write_r15 opcode dest else arm_flags_adc lhs rhs dest;; wreg (RD opcode) dest).

Definition opSBCreg (opcode : Z) : DYN Z :=
  done (v4 ← gets (λ s, arch_v4 (arm s));
  if nz v4 && (opcode .& 0xf0 =? 0x90) then
    mulres ← gets (λ s, s64 (s32 (rreg (MULRS opcode) s) * s32 (rreg (MULRM opcode) s)));
    wreg (MULRN opcode) (u32 mulres);; wreg (MULRD opcode) (u32 (mulres .>> 32))
  else
    dest ← gets (λ s, u32 ((GETADDR (RN opcode) s) - (shift2 opcode s) - (if nz (CFSET s) then 0 else 1))); arm_write_dest opcode dest).

Definition opSBCregS (opcode : Z) : DYN Z :=
  done (v4 ← gets (λ s, arch_v4 (arm s));
  if nz v4 && (opcode .& 0xf0 =? 0x90) then
    mulres ← gets (λ s, s64 (s32 (rreg (MULRS opcode) s) * s32 (rreg (MULRM opcode) s)));
    wreg (MULRN opcode) (u32 mulres);; wreg (MULRD opcode) (u32 (mulres .>> 32));;
    arm_flags_long_multiply (u64 mulres)
  else
    lhs ← gets (GETADDR (RN opcode));
    rhs ← gets (shift2 opcode);
    dest ← gets (λ s, u32 (lhs - rhs - (if nz (CFSET s) then 0 else 1)));
    if RD opcode =? 15 then arm_write_r15 opcode dest else arm_flags_sbc lhs rhs dest;; wreg (RD opcode) dest).

Definition opRSCreg (opcode : Z) : DYN Z :=
  done (v4 ← gets (λ s, arch_v4 (arm s));
  if nz v4 && (opcode .& 0xf0 =? 0x90) then
    mulres ← gets (λ s, let current := s64 (Z.shiftl (rreg (MULRD opcode) s) 32) .| rreg (MULRN opcode) s in
      s64 (s64 (s32 (rreg (MULRS opcode) s) * s32 (rreg (MULRM opcode) s)) + current));
    wreg (MULRN opcode) (u32 mulres);; wreg (MULRD opcode) (u32 (mulres .>> 32))
  else
    dest ← gets (λ s, u32 ((shift2 opcode s) - (GETADDR (RN opcode) s) - (if nz (CFSET s) then 0 else 1))); arm_write_dest opcode dest).

Definition opRSCregS (opcode : Z) : DYN Z :=
  done (v4 ← gets (λ s, arch_v4 (arm s));
  if nz v4 && (opcode .& 0xf0 =? 0x90) then
    mulres ← gets (λ s, let current := s64 (Z.shiftl (rreg (MULRD opcode) s) 32) .| rreg (MULRN opcode) s in
      s64 (s64 (s32 (rreg (MULRS opcode) s) * s32 (rreg (MULRM opcode) s)) + current));
    wreg (MULRN opcode) (u32 mulres);; wreg (MULRD opcode) (u32 (mulres .>> 32));;
    arm_flags_long_multiply (u64 mulres)
  else
    lhs ← gets (GETADDR (RN opcode));
    rhs ← gets (shift2 opcode);
    dest ← gets (λ s, u32 (rhs - lhs - (if nz (CFSET s) then 0 else 1)));
    if RD opcode =? 15 then arm_write_r15 opcode dest else arm_flags_sbc rhs lhs dest;; wreg (RD opcode) dest).

Definition opSWPword (opcode : Z) : DYN Z :=
  if opcode .& 0xff0 =? 0x90 then
    if RD opcode =? 15 then mret 0 else
    addr ← on_mach (gets (GETADDR (RN opcode)));
    data ← on_mach (gets (GETREG (RM opcode)));
    dest ← on_mach (mem_read32 (addr .&~ 3));
    ab ← on_mach (gets aborted);
    if (ab : bool) then mret 1 else
    let dest := arm_ldr_rotate dest addr in on_mach (mem_write32 (addr .&~ 3) data);;
    ab ← on_mach (gets aborted);
    if (ab : bool) then mret 1 else dyn_LOADREG (RD opcode) dest;; mret 0
  else if opcode .& 0xf0fff =? 0xf0000 then
    done (md ← gets (λ s, mode (arm s));
    when (negb (ARM_MODE_32 md))
      (r15 ← gets (rreg 15);
       wreg 16 ((r15 .& 0xf0000000) .| (r15 .& 3));;
       r16 ← gets (rreg 16);
       wreg 16 (r16 .| ((r15 .& 0xc000000) .>> 20)));;
    r16 ← gets (rreg 16); wreg (RD opcode) r16)
  else opUNALLOC opcode.

Definition opSWPbyte (opcode : Z) : DYN Z :=
  if opcode .& 0xff0 =? 0x90 then
    if RD opcode =? 15 then mret 0 else
    addr ← on_mach (gets (GETADDR (RN opcode)));
    data ← on_mach (gets (GETREG (RM opcode)));
    dest ← on_mach (mem_read8 addr);
    ab ← on_mach (gets aborted);
    if (ab : bool) then mret 1 else
    on_mach (mem_write8 addr data);;
    ab ← on_mach (gets aborted);
    if (ab : bool) then mret 1 else dyn_LOADREG (RD opcode) dest;; mret 0
  else if opcode .& 0xf0fff =? 0xf0000 then
    done (v ← gets arm_read_spsr; wreg (RD opcode) v)
  else opUNALLOC opcode.

Definition opTSTreg (opcode : Z) : DYN Z :=
  done (
    lhs ← gets (GETADDR (RN opcode));
    if RD opcode =? 15 then rhs ← gets (shift2 opcode); arm_compare_rd15 opcode (lhs .& rhs)
    else rhs ← shift opcode; arm_flags_logical (lhs .& rhs)).

Definition opMSRcreg (opcode : Z) : DYN Z :=
  if opcode .& 0xf010 =? 0xf000 then done (v ← gets (rreg (RM opcode)); arm_write_cpsr opcode v)
  else opUNALLOC opcode.

Definition opTEQreg (opcode : Z) : DYN Z :=
  done (
    lhs ← gets (GETADDR (RN opcode));
    if RD opcode =? 15 then rhs ← gets (shift2 opcode); arm_compare_rd15 opcode (lhs .^ rhs)
    else rhs ← shift opcode; arm_flags_logical (lhs .^ rhs)).

Definition opCMPreg (opcode : Z) : DYN Z :=
  done (
    lhs ← gets (GETADDR (RN opcode));
    rhs ← gets (shift2 opcode);
    let dest := sub32 lhs rhs in
    if RD opcode =? 15 then arm_compare_rd15 opcode dest else arm_flags_sub lhs rhs dest).

Definition opMSRsreg (opcode : Z) : DYN Z :=
  if opcode .& 0xf010 =? 0xf000 then done (v ← gets (rreg (RM opcode)); arm_write_spsr opcode v)
  else opUNALLOC opcode.

Definition opCMNreg (opcode : Z) : DYN Z :=
  done (
    lhs ← gets (GETADDR (RN opcode));
    rhs ← gets (shift2 opcode);
    let dest := add32 lhs rhs in
    if RD opcode =? 15 then arm_compare_rd15 opcode dest else arm_flags_add lhs rhs dest).

Definition opORRreg (opcode : Z) : DYN Z :=
  done (
    dest ← gets (λ s, (GETADDR (RN opcode) s) .| (shift2 opcode s)); arm_write_dest opcode dest).

Definition opORRregS (opcode : Z) : DYN Z :=
  done (
    lhs ← gets (GETADDR (RN opcode));
    if RD opcode =? 15 then rhs ← gets (shift2 opcode); arm_write_r15 opcode (lhs .| rhs)
    else
      rhs ← shift opcode;
      let dest := lhs .| rhs in
      wreg (RD opcode) dest;; arm_flags_logical dest).

Definition opMOVreg (opcode : Z) : DYN Z :=
  done (
    dest ← gets (λ s, shift2 opcode s); arm_write_dest opcode dest).

Definition opMOVregS (opcode : Z) : DYN Z :=
  done (
    if RD opcode =? 15 then v ← gets (shift2 opcode); arm_write_r15 opcode v
    else
      v ← shift opcode; wreg (RD opcode) v;;
      d ← gets (rreg (RD opcode)); arm_flags_logical d).

Definition opBICreg (opcode : Z) : DYN Z :=
  done (
    dest ← gets (λ s, (GETADDR (RN opcode) s) .&~ (shift2 opcode s)); arm_write_dest opcode dest).

Definition opBICregS (opcode : Z) : DYN Z :=
  done (
    lhs ← gets (GETADDR (RN opcode));
    if RD opcode =? 15 then rhs ← gets (shift2 opcode); arm_write_r15 opcode (lhs .&~ rhs)
    else
      rhs ← shift opcode;
      let dest := lhs .&~ rhs in
      wreg (RD opcode) dest;; arm_flags_logical dest).

Definition opMVNreg (opcode : Z) : DYN Z :=
  done (
    dest ← gets (λ s, not32 (shift2 opcode s)); arm_write_dest opcode dest).

Definition opMVNregS (opcode : Z) : DYN Z :=
  done (
    if RD opcode =? 15 then v ← gets (shift2 opcode); arm_write_r15 opcode (not32 v)
    else
      v ← shift opcode; wreg (RD opcode) (not32 v);;
      d ← gets (rreg (RD opcode)); arm_flags_logical d).

(** * Immediate forms *)

Definition opANDimm (opcode : Z) : DYN Z :=
  done (
    dest ← gets (λ s, (GETADDR (RN opcode) s) .& (arm_imm opcode)); arm_write_dest opcode dest).

Definition opANDimmS (opcode : Z) : DYN Z :=
  done (
    lhs ← gets (GETADDR (RN opcode));
    if RD opcode =? 15 then arm_write_r15 opcode (lhs .& arm_imm opcode)
    else
      rhs ← arm_imm_cflag opcode;
      let dest := lhs .& rhs in
      wreg (RD opcode) dest;; arm_flags_logical dest).

Definition opEORimm (opcode : Z) : DYN Z :=
  done (
    dest ← gets (λ s, (GETADDR (RN opcode) s) .^ (arm_imm opcode)); arm_write_dest opcode dest).

Definition opEORimmS (opcode : Z) : DYN Z :=
  done (
    lhs ← gets (GETADDR (RN opcode));
    if RD opcode =? 15 then arm_write_r15 opcode (lhs .^ arm_imm opcode)
    else
      rhs ← arm_imm_cflag opcode;
      let dest := lhs .^ rhs in
      wreg (RD opcode) dest;; arm_flags_logical dest).

Definition opSUBimm (opcode : Z) : DYN Z :=
  done (
    dest ← gets (λ s, sub32 (GETADDR (RN opcode) s) (arm_imm opcode)); arm_write_dest opcode dest).

Definition opSUBimmS (opcode : Z) : DYN Z :=
  done (
    lhs ← gets (GETADDR (RN opcode));
    let rhs := arm_imm opcode in
    let dest := sub32 lhs rhs in
    if RD opcode =? 15 then arm_write_r15 opcode dest else wreg (RD opcode) dest;; arm_flags_sub lhs rhs dest).

Definition opRSBimm (opcode : Z) : DYN Z :=
  done (
    dest ← gets (λ s, sub32 (arm_imm opcode) (GETADDR (RN opcode) s)); arm_write_dest opcode dest).

Definition opRSBimmS (opcode : Z) : DYN Z :=
  done (
    lhs ← gets (GETADDR (RN opcode));
    let rhs := arm_imm opcode in
    let dest := sub32 rhs lhs in
    if RD opcode =? 15 then arm_write_r15 opcode dest else arm_flags_sub rhs lhs dest;; wreg (RD opcode) dest).

Definition opADDimm (opcode : Z) : DYN Z :=
  done (
    dest ← gets (λ s, add32 (GETADDR (RN opcode) s) (arm_imm opcode)); arm_write_dest opcode dest).

Definition opADDimmS (opcode : Z) : DYN Z :=
  done (
    lhs ← gets (GETADDR (RN opcode));
    let rhs := arm_imm opcode in
    let dest := add32 lhs rhs in
    if RD opcode =? 15 then arm_write_r15 opcode dest else arm_flags_add lhs rhs dest;; wreg (RD opcode) dest).

Definition opADCimm (opcode : Z) : DYN Z :=
  done (
    dest ← gets (λ s, u32 ((GETADDR (RN opcode) s) + (arm_imm opcode) + CFSET s)); arm_write_dest opcode dest).

Definition opADCimmS (opcode : Z) : DYN Z :=
  done (
    lhs ← gets (GETADDR (RN opcode));
    let rhs := arm_imm opcode in
    dest ← gets (λ s, u32 (lhs + rhs + CFSET s));
    if RD opcode =? 15 then arm_write_r15 opcode dest else arm_flags_adc lhs rhs dest;; wreg (RD opcode) dest).

Definition opSBCimm (opcode : Z) : DYN Z :=
  done (
    dest ← gets (λ s, u32 ((GETADDR (RN opcode) s) - (arm_imm opcode) - (if nz (CFSET s) then 0 else 1))); arm_write_dest opcode dest).

Definition opSBCimmS (opcode : Z) : DYN Z :=
  done (
    lhs ← gets (GETADDR (RN opcode));
    let rhs := arm_imm opcode in
    dest ← gets (λ s, u32 (lhs - rhs - (if nz (CFSET s) then 0 else 1)));
    if RD opcode =? 15 then arm_write_r15 opcode dest else arm_flags_sbc lhs rhs dest;; wreg (RD opcode) dest).

Definition opRSCimm (opcode : Z) : DYN Z :=
  done (
    dest ← gets (λ s, u32 ((arm_imm opcode) - (GETADDR (RN opcode) s) - (if nz (CFSET s) then 0 else 1))); arm_write_dest opcode dest).

Definition opRSCimmS (opcode : Z) : DYN Z :=
  done (
    lhs ← gets (GETADDR (RN opcode));
    let rhs := arm_imm opcode in
    dest ← gets (λ s, u32 (rhs - lhs - (if nz (CFSET s) then 0 else 1)));
    if RD opcode =? 15 then arm_write_r15 opcode dest else arm_flags_sbc rhs lhs dest;; wreg (RD opcode) dest).

Definition opTSTimm (opcode : Z) : DYN Z :=
  done (
    lhs ← gets (GETADDR (RN opcode));
    if RD opcode =? 15 then arm_compare_rd15 opcode (lhs .& arm_imm opcode)
    else rhs ← arm_imm_cflag opcode; arm_flags_logical (lhs .& rhs)).

Definition opMSRcimm (opcode : Z) : DYN Z :=
  if RD opcode =? 15 then done (arm_write_cpsr opcode (arm_imm opcode)) else opUNALLOC opcode.

Definition opTEQimm (opcode : Z) : DYN Z :=
  done (
    lhs ← gets (GETADDR (RN opcode));
    if RD opcode =? 15 then arm_compare_rd15 opcode (lhs .^ arm_imm opcode)
    else rhs ← arm_imm_cflag opcode; arm_flags_logical (lhs .^ rhs)).

Definition opCMPimm (opcode : Z) : DYN Z :=
  done (
    lhs ← gets (GETADDR (RN opcode));
    let rhs := arm_imm opcode in
    let dest := sub32 lhs rhs in
    if RD opcode =? 15 then arm_compare_rd15 opcode dest else arm_flags_sub lhs rhs dest).

Definition opMSRsimm (opcode : Z) : DYN Z :=
  if RD opcode =? 15 then done (arm_write_spsr opcode (arm_imm opcode)) else opUNALLOC opcode.

Definition opCMNimm (opcode : Z) : DYN Z :=
  done (
    lhs ← gets (GETADDR (RN opcode));
    let rhs := arm_imm opcode in
    let dest := add32 lhs rhs in
    if RD opcode =? 15 then arm_compare_rd15 opcode dest else arm_flags_add lhs rhs dest).

Definition opORRimm (opcode : Z) : DYN Z :=
  done (
    dest ← gets (λ s, (GETADDR (RN opcode) s) .| (arm_imm opcode)); arm_write_dest opcode dest).

Definition opORRimmS (opcode : Z) : DYN Z :=
  done (
    lhs ← gets (GETADDR (RN opcode));
    if RD opcode =? 15 then arm_write_r15 opcode (lhs .| arm_imm opcode)
    else
      rhs ← arm_imm_cflag opcode;
      let dest := lhs .| rhs in
      wreg (RD opcode) dest;; arm_flags_logical dest).

Definition opMOVimm (opcode : Z) : DYN Z :=
  done (
    let dest := arm_imm opcode in arm_write_dest opcode dest).

Definition opMOVimmS (opcode : Z) : DYN Z :=
  done (
    if RD opcode =? 15 then arm_write_r15 opcode (arm_imm opcode)
    else
      v ← arm_imm_cflag opcode; wreg (RD opcode) v;;
      d ← gets (rreg (RD opcode)); arm_flags_logical d).

Definition opBICimm (opcode : Z) : DYN Z :=
  done (
    dest ← gets (λ s, (GETADDR (RN opcode) s) .&~ (arm_imm opcode)); arm_write_dest opcode dest).

Definition opBICimmS (opcode : Z) : DYN Z :=
  done (
    lhs ← gets (GETADDR (RN opcode));
    if RD opcode =? 15 then arm_write_r15 opcode (lhs .&~ arm_imm opcode)
    else
      rhs ← arm_imm_cflag opcode;
      let dest := lhs .&~ rhs in
      wreg (RD opcode) dest;; arm_flags_logical dest).

Definition opMVNimm (opcode : Z) : DYN Z :=
  done (
    let dest := not32 (arm_imm opcode) in arm_write_dest opcode dest).

Definition opMVNimmS (opcode : Z) : DYN Z :=
  done (
    if RD opcode =? 15 then arm_write_r15 opcode (not32 (arm_imm opcode))
    else
      v ← arm_imm_cflag opcode; wreg (RD opcode) (not32 v);;
      d ← gets (rreg (RD opcode)); arm_flags_logical d).

(** * Transfers *)

(** [(opcode & 0x2000010) == 0x2000010], and [offset] *)
Definition media (opcode : Z) : bool := opcode .& 0x2000010 =? 0x2000010.
Definition dyn_offset (opcode : Z) : DYN Z :=
  offset ← on_mach (gets (λ s, if nz (opcode .& 0x2000000) then shift2 opcode s else opcode .& 0xfff));
  mret (if nz (opcode .& 0x800000) then offset else neg32 offset).

Definition opSTRT (opcode : Z) : DYN Z :=
  if media opcode then dyn_undefined;; mret 0 else
  addr ← on_mach (gets (GETADDR (RN opcode)));
  data ← on_mach (gets (GETREG (RD opcode)));
  on_mach (mem_user_write32 (addr .&~ 3) data);;
  ab ← on_mach (gets abort_restored);
  if (ab : bool) then mret 1 else
  offset ← dyn_offset opcode;
  on_mach (wreg (RN opcode) (add32 addr offset));;
  pending.

Definition opLDRT (opcode : Z) : DYN Z :=
  if media opcode then dyn_undefined;; mret 0 else
  addr ← on_mach (gets (GETADDR (RN opcode)));
  data ← on_mach (mem_user_read32 (addr .&~ 3));
  ab ← on_mach (gets abort_restored);
  if (ab : bool) then mret 1 else
  let data := arm_ldr_rotate data addr in
  offset ← dyn_offset opcode;
  on_mach (wreg (RN opcode) (add32 addr offset));;
  ab ← on_mach (gets aborted);
  if (ab : bool) then mret 1 else dyn_LOADREG (RD opcode) data;; mret 0.

Definition opSTRBT (opcode : Z) : DYN Z :=
  if media opcode then dyn_undefined;; mret 0 else
  addr ← on_mach (gets (GETADDR (RN opcode)));
  data ← on_mach (gets (GETREG (RD opcode)));
  on_mach (mem_user_write8 addr data);;
  ab ← on_mach (gets abort_restored);
  if (ab : bool) then mret 1 else
  offset ← dyn_offset opcode;
  on_mach (wreg (RN opcode) (add32 addr offset));;
  pending.

Definition opLDRBT (opcode : Z) : DYN Z :=
  if media opcode then dyn_undefined;; mret 0 else
  addr ← on_mach (gets (GETADDR (RN opcode)));
  data ← on_mach (mem_user_read8 addr);
  ab ← on_mach (gets abort_restored);
  if (ab : bool) then mret 1 else
  offset ← dyn_offset opcode;
  on_mach (wreg (RN opcode) (add32 addr offset));;
  ab ← on_mach (gets aborted);
  if (ab : bool) then mret 1 else dyn_LOADREG (RD opcode) data;; mret 0.

Definition opSTR (opcode : Z) : DYN Z :=
  if media opcode then dyn_undefined;; mret 0 else
  addr ← on_mach (gets (GETADDR (RN opcode)));
  offset ← dyn_offset opcode;
  let addr := if nz (opcode .& 0x1000000) then add32 addr offset else addr in
  data ← on_mach (gets (GETREG (RD opcode)));
  on_mach (mem_write32 (addr .&~ 3) data);;
  ab ← on_mach (gets abort_restored);
  if (ab : bool) then mret 1 else
  on_mach (if negb (nz (opcode .& 0x1000000)) then wreg (RN opcode) (add32 addr offset)
           else when (nz (opcode .& 0x200000)) (wreg (RN opcode) addr));;
  pending.

Definition opLDR (opcode : Z) : DYN Z :=
  if media opcode then dyn_undefined;; mret 0 else
  addr ← on_mach (gets (GETADDR (RN opcode)));
  offset ← dyn_offset opcode;
  let addr := if nz (opcode .& 0x1000000) then add32 addr offset else addr in
  data ← on_mach (mem_read32 (addr .&~ 3));
  ab ← on_mach (gets abort_restored);
  if (ab : bool) then mret 1 else
  let data := arm_ldr_rotate data addr in
  on_mach (if negb (nz (opcode .& 0x1000000)) then wreg (RN opcode) (add32 addr offset)
           else when (nz (opcode .& 0x200000)) (wreg (RN opcode) addr));;
  ab ← on_mach (gets aborted);
  if (ab : bool) then mret 1 else dyn_LOADREG (RD opcode) data;; mret 0.

Definition opSTRB (opcode : Z) : DYN Z :=
  if media opcode then dyn_undefined;; mret 0 else
  addr ← on_mach (gets (GETADDR (RN opcode)));
  offset ← dyn_offset opcode;
  let addr := if nz (opcode .& 0x1000000) then add32 addr offset else addr in
  data ← on_mach (gets (GETREG (RD opcode)));
  on_mach (mem_write8 addr data);;
  ab ← on_mach (gets abort_restored);
  if (ab : bool) then mret 1 else
  on_mach (if negb (nz (opcode .& 0x1000000)) then wreg (RN opcode) (add32 addr offset)
           else when (nz (opcode .& 0x200000)) (wreg (RN opcode) addr));;
  pending.

Definition opLDRB (opcode : Z) : DYN Z :=
  if media opcode then dyn_undefined;; mret 0 else
  addr ← on_mach (gets (GETADDR (RN opcode)));
  offset ← dyn_offset opcode;
  let addr := if nz (opcode .& 0x1000000) then add32 addr offset else addr in
  data ← on_mach (mem_read8 addr);
  ab ← on_mach (gets abort_restored);
  if (ab : bool) then mret 1 else
  on_mach (if negb (nz (opcode .& 0x1000000)) then wreg (RN opcode) (add32 addr offset)
           else when (nz (opcode .& 0x200000)) (wreg (RN opcode) addr));;
  ab ← on_mach (gets aborted);
  if (ab : bool) then mret 1 else dyn_LOADREG (RD opcode) data;; mret 0.

Definition opSTMD (opcode : Z) : DYN Z :=
  on_mach (rn ← gets (rreg (RN opcode));
    let offset := arm_ldm_stm_offset opcode in
    let addr := sub32 rn offset in
    let writeback := addr in
    let addr := if negb (nz (opcode .& Z.shiftl 1 24)) then add32 addr 4 else addr in
    arm_store_multiple opcode addr writeback);;
  pending.

Definition opSTMI (opcode : Z) : DYN Z :=
  on_mach (rn ← gets (rreg (RN opcode));
    let offset := arm_ldm_stm_offset opcode in
    let addr := rn in
    let writeback := add32 addr offset in
    let addr := if nz (opcode .& Z.shiftl 1 24) then add32 addr 4 else addr in
    arm_store_multiple opcode addr writeback);;
  pending.

Definition opSTMDS (opcode : Z) : DYN Z :=
  on_mach (rn ← gets (rreg (RN opcode));
    let offset := arm_ldm_stm_offset opcode in
    let addr := sub32 rn offset in
    let writeback := addr in
    let addr := if negb (nz (opcode .& Z.shiftl 1 24)) then add32 addr 4 else addr in
    arm_store_multiple_s opcode addr writeback);;
  pending.

Definition opSTMIS (opcode : Z) : DYN Z :=
  on_mach (rn ← gets (rreg (RN opcode));
    let offset := arm_ldm_stm_offset opcode in
    let addr := rn in
    let writeback := add32 addr offset in
    let addr := if nz (opcode .& Z.shiftl 1 24) then add32 addr 4 else addr in
    arm_store_multiple_s opcode addr writeback);;
  pending.

Definition opLDMD (opcode : Z) : DYN Z :=
  on_mach (rn ← gets (rreg (RN opcode));
    let offset := arm_ldm_stm_offset opcode in
    let addr := sub32 rn offset in
    let writeback := addr in
    let addr := if negb (nz (opcode .& Z.shiftl 1 24)) then add32 addr 4 else addr in
    arm_load_multiple opcode addr writeback);;
  pending.

Definition opLDMI (opcode : Z) : DYN Z :=
  on_mach (rn ← gets (rreg (RN opcode));
    let offset := arm_ldm_stm_offset opcode in
    let addr := rn in
    let writeback := add32 addr offset in
    let addr := if nz (opcode .& Z.shiftl 1 24) then add32 addr 4 else addr in
    arm_load_multiple opcode addr writeback);;
  pending.

Definition opLDMDS (opcode : Z) : DYN Z :=
  on_mach (rn ← gets (rreg (RN opcode));
    let offset := arm_ldm_stm_offset opcode in
    let addr := sub32 rn offset in
    let writeback := addr in
    let addr := if negb (nz (opcode .& Z.shiftl 1 24)) then add32 addr 4 else addr in
    arm_load_multiple_s opcode addr writeback);;
  pending.

Definition opLDMIS (opcode : Z) : DYN Z :=
  on_mach (rn ← gets (rreg (RN opcode));
    let offset := arm_ldm_stm_offset opcode in
    let addr := rn in
    let writeback := add32 addr offset in
    let addr := if nz (opcode .& Z.shiftl 1 24) then add32 addr 4 else addr in
    arm_load_multiple_s opcode addr writeback);;
  pending.

Definition opB (opcode : Z) : DYN Z :=
  on_mach (let offset := asr32 (shl32 opcode 8) 6 in
    r15 ← gets (rreg 15);
    mask ← gets (λ s, r15_mask (arm s));
    wreg 15 ((u32 (r15 + offset + 4) .& mask) .| (r15 .&~ mask)));;
  upd_block (set_blockend 1);; mret 0.

Definition opBL (opcode : Z) : DYN Z :=
  on_mach (let offset := asr32 (shl32 opcode 8) 6 in
    r15 ← gets (rreg 15); wreg 14 (sub32 r15 4);;
    r15 ← gets (rreg 15);
    mask ← gets (λ s, r15_mask (arm s));
    wreg 15 ((u32 (r15 + offset + 4) .& mask) .| (r15 .&~ mask)));;
  refillpipeline;; mret 0.

Definition opcopro (opcode : Z) : DYN Z :=
  if (opcode .& 0xf00 =? 0x100) || (opcode .& 0xf00 =? 0x200) then done (fpaopcode opcode)
  else dyn_undefined;; mret 0.

Definition opMCR (opcode : Z) : DYN Z :=
  if opcode .& 0xf00 =? 0x100 then done (fpaopcode opcode) else
  md ← on_mach (gets (λ s, mode (arm s)));
  if (opcode .& 0xf10 =? 0xf10) && ARM_MODE_PRIV md then
    done (v ← gets (rreg (RD opcode)); cp15_write opcode v)
  else dyn_undefined;; mret 0.

Definition opMRC (opcode : Z) : DYN Z :=
  if opcode .& 0xf00 =? 0x100 then done (fpaopcode opcode) else
  md ← on_mach (gets (λ s, mode (arm s)));
  if (opcode .& 0xf10 =? 0xf10) && ARM_MODE_PRIV md then
    done (if RD opcode =? 15 then
      v ← cp15_read opcode;
      mask ← gets (λ s, r15_mask (arm s));
      r15 ← gets (rreg (RD opcode));
      wreg (RD opcode) ((r15 .& mask) .| (v .&~ mask))
    else v ← cp15_read opcode; wreg (RD opcode) v)
  else dyn_undefined;; mret 0.

(** The loads of arm_common.c end in a [LOADREG] when they do not abort. *)
Definition half_load (opcode : Z) (load : ARM unit) : DYN Z :=
  on_mach load;;
  ab ← on_mach (gets aborted);
  when (negb ab && (RD opcode =? 15)) refillpipeline;;
  pending.

Definition opLDRH (opcode : Z) : DYN Z :=
  half_load opcode (arm_ldrh opcode).

Definition opLDRSB (opcode : Z) : DYN Z :=
  half_load opcode (arm_ldrsb opcode).

Definition opLDRSH (opcode : Z) : DYN Z :=
  half_load opcode (arm_ldrsh opcode).

Definition opSTRH (opcode : Z) : DYN Z :=
  on_mach (arm_strh opcode);; pending.

(** [opSWI] of arm_common.c: it comes with [blockend] set, so that what its
    exception does to [blockend] changes nothing. *)
Definition dyn_SWI (opcode : Z) : DYN Z := done (opSWI opcode).

(** * Decoding *)

Definition OpFn : Type := Z → DYN Z.
Definition opcodes : list OpFn := [
  opANDreg; opANDregS; opEORreg; opEORregS; opSUBreg; opSUBregS; opRSBreg; opRSBregS (* 00 *);
  opADDreg; opADDregS; opADCreg; opADCregS; opSBCreg; opSBCregS; opRSCreg; opRSCregS (* 08 *);
  opSWPword; opTSTreg; opMSRcreg; opTEQreg; opSWPbyte; opCMPreg; opMSRsreg; opCMNreg (* 10 *);
  opORRreg; opORRregS; opMOVreg; opMOVregS; opBICreg; opBICregS; opMVNreg; opMVNregS (* 18 *);
  opANDimm; opANDimmS; opEORimm; opEORimmS; opSUBimm; opSUBimmS; opRSBimm; opRSBimmS (* 20 *);
  opADDimm; opADDimmS; opADCimm; opADCimmS; opSBCimm; opSBCimmS; opRSCimm; opRSCimmS (* 28 *);
  opUNALLOC; opTSTimm; opMSRcimm; opTEQimm; opUNALLOC; opCMPimm; opMSRsimm; opCMNimm (* 30 *);
  opORRimm; opORRimmS; opMOVimm; opMOVimmS; opBICimm; opBICimmS; opMVNimm; opMVNimmS (* 38 *);
  opSTR; opLDR; opSTRT; opLDRT; opSTRB; opLDRB; opSTRBT; opLDRBT (* 40 *);
  opSTR; opLDR; opSTRT; opLDRT; opSTRB; opLDRB; opSTRBT; opLDRBT (* 48 *);
  opSTR; opLDR; opSTR; opLDR; opSTRB; opLDRB; opSTRB; opLDRB (* 50 *);
  opSTR; opLDR; opSTR; opLDR; opSTRB; opLDRB; opSTRB; opLDRB (* 58 *);
  opSTR; opLDR; opSTRT; opLDRT; opSTRB; opLDRB; opSTRBT; opLDRBT (* 60 *);
  opSTR; opLDR; opSTRT; opLDRT; opSTRB; opLDRB; opSTRBT; opLDRBT (* 68 *);
  opSTR; opLDR; opSTR; opLDR; opSTRB; opLDRB; opSTRB; opLDRB (* 70 *);
  opSTR; opLDR; opSTR; opLDR; opSTRB; opLDRB; opSTRB; opLDRB (* 78 *);
  opSTMD; opLDMD; opSTMD; opLDMD; opSTMDS; opLDMDS; opSTMDS; opLDMDS (* 80 *);
  opSTMI; opLDMI; opSTMI; opLDMI; opSTMIS; opLDMIS; opSTMIS; opLDMIS (* 88 *);
  opSTMD; opLDMD; opSTMD; opLDMD; opSTMDS; opLDMDS; opSTMDS; opLDMDS (* 90 *);
  opSTMI; opLDMI; opSTMI; opLDMI; opSTMIS; opLDMIS; opSTMIS; opLDMIS (* 98 *);
  opB; opB; opB; opB; opB; opB; opB; opB (* a0 *);
  opB; opB; opB; opB; opB; opB; opB; opB (* a8 *);
  opBL; opBL; opBL; opBL; opBL; opBL; opBL; opBL (* b0 *);
  opBL; opBL; opBL; opBL; opBL; opBL; opBL; opBL (* b8 *);
  opcopro; opcopro; opcopro; opcopro; opcopro; opcopro; opcopro; opcopro (* c0 *);
  opcopro; opcopro; opcopro; opcopro; opcopro; opcopro; opcopro; opcopro (* c8 *);
  opcopro; opcopro; opcopro; opcopro; opcopro; opcopro; opcopro; opcopro (* d0 *);
  opcopro; opcopro; opcopro; opcopro; opcopro; opcopro; opcopro; opcopro (* d8 *);
  opMCR; opMRC; opMCR; opMRC; opMCR; opMRC; opMCR; opMRC (* e0 *);
  opMCR; opMRC; opMCR; opMRC; opMCR; opMRC; opMCR; opMRC (* e8 *);
  dyn_SWI; dyn_SWI; dyn_SWI; dyn_SWI; dyn_SWI; dyn_SWI; dyn_SWI; dyn_SWI (* f0 *);
  dyn_SWI; dyn_SWI; dyn_SWI; dyn_SWI; dyn_SWI; dyn_SWI; dyn_SWI; dyn_SWI (* f8 *) ].

Definition arm_opcode_fn (v4 opcode : Z) : OpFn :=
  let table := default opUNALLOC (opcodes !! Z.to_nat ((opcode .>> 20) .& 0xff)) in
  if nz v4 then
    if opcode .& 0xe0000f0 =? 0xb0 then
      if nz (opcode .& 0x100000) then opLDRH else opSTRH
    else if opcode .& 0xe1000d0 =? 0x1000d0 then
      if opcode .& 0xf0 =? 0xd0 then opLDRSB else opLDRSH
    else table
  else table.

(** [fn = arm_opcode_fn(opcode); fn(opcode);] *)
Definition run_opcode (opcode : Z) : DYN Z :=
  v4 ← on_mach (gets (λ s, arch_v4 (arm s)));
  arm_opcode_fn v4 opcode opcode.

(** The predicates the compilation of a block asks. *)
Definition arm_opcode_needs_pc (v4 opcode : Z) : bool :=
  if nz (opcode .& 0xc000000) then true
  else if opcode .& 0xd900000 =? 0x1000000 then true
  else if (RN opcode =? 15) || (RD opcode =? 15) ||
          ((opcode .& 0x2000000 =? 0) && (RM opcode =? 15)) then true
  else nz v4 && ((opcode .& 0xe0000f0 =? 0xb0) || (opcode .& 0xe1000d0 =? 0x1000d0)).

Definition arm_opcode_may_abort (v4 opcode : Z) : bool :=
  if 0xa000000 <=? add32 opcode 0x6000000 .& 0xf000000 then true
  else if opcode .& 0x0fb000f0 =? 0x01000090 then true
  else nz v4 && ((opcode .& 0xe0000f0 =? 0xb0) || (opcode .& 0xe1000d0 =? 0x1000d0)).
End dynarec.
