(* ===== verification/DynSpec.v ===== *)
(** The recompiler build's operations do to the core what the interpreter
    build's switch does: opcode by opcode the two run the same computations. *)

From S2P Require Export DynOps ArmControl.

Section agree.
Context {S P : Type} `{!MemSys S P} `{!HostSys S P}.
Local Abbreviation ARM := (M (Mach S P)).
Local Abbreviation DYN := (M (Mach S P * Block)).

(** [d] does to the core what [m] does, whatever the block. *)
Definition same_run {A B} (d : DYN A) (m : ARM B) : Prop := ∀ s b,
  match m s with
  | Some (_, s') => ∃ r b', d (s, b) = Some (r, (s', b'))
  | None => d (s, b) = None
  end.
(** [d] leaves the core as it is. *)
Definition off_core {A} (d : DYN A) : Prop := ∀ s b, ∃ r b', d (s, b) = Some (r, (s, b')).

Lemma same_on_mach {A} (m : ARM A) : same_run (on_mach m) m.
Proof.
  intros s b. unfold on_mach, zoom. cbn [fst snd].
  destruct (m s) as [[a s']|]; [by do 2 eexists | done].
Qed.

Lemma same_ret {A B} (a : A) (b : B) : same_run (mret a) (mret b).
Proof. intros s b'. by do 2 eexists. Qed.

Lemma same_bind {A B C} (m : ARM A) (kd : A → DYN B) (km : A → ARM C) :
  (∀ a, same_run (kd a) (km a)) → same_run (on_mach m ≫= kd) (m ≫= km).
Proof.
  intros H s b. rewrite !bind_run. unfold on_mach, zoom. cbn [fst snd].
  destruct (m s) as [[a s']|]; [apply H | done].
Qed.

(** A value that the recompiler build computes in some other way. *)
Lemma same_value {A B C} (d : DYN A) (f : Mach S P → A) (kd : A → DYN B) (km : A → ARM C) :
  (∀ s b, d (s, b) = Some (f s, (s, b))) → (∀ a, same_run (kd a) (km a)) →
  same_run (d ≫= kd) (gets f ≫= km).
Proof. intros Hd H s b. rewrite !bind_run, Hd. apply H. Qed.

Lemma same_then {A B C} (d : DYN A) (k : A → DYN B) (m : ARM C) :
  same_run d m → (∀ a, off_core (k a)) → same_run (d ≫= k) m.
Proof.
  intros H Hk s b. rewrite bind_run. specialize (H s b). destruct (m s) as [[c s']|].
  - destruct H as (r & b' & ->). apply Hk.
  - by rewrite H.
Qed.

Lemma same_if {A B} (c : bool) (d d' : DYN A) (m m' : ARM B) :
  same_run d m → same_run d' m' → same_run (if c then d else d') (if c then m else m').
Proof. by destruct c. Qed.

Lemma off_ret {A} (a : A) : off_core (mret a).
Proof. intros s b. by do 2 eexists. Qed.
Lemma off_gets {A} (f : Mach S P * Block → A) : off_core (gets f).
Proof. intros s b. by do 2 eexists. Qed.
Lemma off_on_mach {A} (f : Mach S P → A) : off_core (on_mach (gets f)).
Proof. intros s b. by do 2 eexists. Qed.
Lemma off_block f : off_core (upd_block f).
Proof. intros s b. by do 2 eexists. Qed.
Lemma off_refill : off_core refillpipeline.
Proof. apply off_block. Qed.
Lemma off_bind {A B} (d : DYN A) (k : A → DYN B) : off_core d → (∀ a, off_core (k a)) → off_core (d ≫= k).
Proof. intros H Hk s b. rewrite bind_run. destruct (H s b) as (r & b' & ->). apply Hk. Qed.
Lemma off_when c (d : DYN unit) : off_core d → off_core (when c d).
Proof. intros H. destruct c; [done | apply off_ret]. Qed.

Lemma dyn_offset_run o (s : Mach S P) b :
  dyn_offset o (s, b) = Some (ldrstr_offset o s, (s, b)).
Proof. reflexivity. Qed.

Lemma same_undefined : same_run dyn_undefined arm_exception_undefined.
Proof. apply same_then; [apply same_on_mach | intros; apply off_block]. Qed.
Lemma same_LOADREG r v : same_run (dyn_LOADREG r v) (LOADREG r v).
Proof. apply same_then; [apply same_on_mach | intros; apply off_when, off_block]. Qed.
Lemma same_done m : same_run (done m) m.
Proof. apply same_then; [apply same_on_mach | intros; apply off_ret]. Qed.
End agree.

Create HintDb dyn discriminated.
#[export] Hint Resolve same_on_mach same_ret same_undefined same_LOADREG same_done
  off_ret off_gets off_on_mach off_block off_refill off_when off_bind : dyn.

(** Follows both computations. *)
Ltac same_walk :=
  repeat (cbv beta zeta;
  match goal with
  | |- ∀ _, _ => intro
  | |- same_run (on_mach _ ≫= _) (_ ≫= _) => apply same_bind; intro
  | |- same_run (dyn_offset _ ≫= _) (gets _ ≫= _) => apply same_value; [apply dyn_offset_run | intro]
  | |- same_run (if ?c then _ else _) (if ?c then _ else _) => apply same_if
  | |- same_run _ _ => solve [eauto with dyn nocore]
  | |- same_run (_ ≫= _) _ => apply same_then
  | |- off_core _ => solve [eauto with dyn nocore]
  end).

Section operations.
Context {S P : Type} `{!MemSys S P} `{!HostSys S P}.
Local Abbreviation same := (same_run (S:=S) (P:=P) (B:=unit)).

Lemma same_unalloc o : same (opUNALLOC o) (undefined_or_unpredictable o).
Proof. unfold opUNALLOC, undefined_or_unpredictable. same_walk. Qed.
#[local] Hint Resolve same_unalloc : dyn.

Lemma same_SWPword o :
  same (opSWPword o) (if o .& 0xff0 =? 0x90 then swp o
    else if o .& 0xf0fff =? 0xf0000 then mrs_cpsr o else undefined_or_unpredictable o).
Proof. unfold opSWPword, swp, when. destruct (RD o =? 15); cbn [negb]; same_walk. Qed.
Lemma same_SWPbyte o :
  same (opSWPbyte o) (if o .& 0xff0 =? 0x90 then swpb o
    else if o .& 0xf0fff =? 0xf0000 then v ← gets arm_read_spsr; wreg (RD o) v
    else undefined_or_unpredictable o).
Proof. unfold opSWPbyte, swpb, when. destruct (RD o =? 15); cbn [negb]; same_walk. Qed.

Section plain.
Context (o : Z) (Hm : media o = false).
Local Ltac plain := rewrite Hm; cbv delta [flag_P flag_W]; same_walk.
Lemma same_STR : same (opSTR o) (STR o).
Proof. unfold opSTR, STR, str, ldrstr_writeback. plain. Qed.
Lemma same_LDR : same (opLDR o) (LDR o).
Proof. unfold opLDR, LDR, ldr, ldrstr_writeback. plain. Qed.
Lemma same_STRB : same (opSTRB o) (STRB o).
Proof. unfold opSTRB, STRB, str, ldrstr_writeback. plain. Qed.
Lemma same_LDRB : same (opLDRB o) (LDRB o).
Proof. unfold opLDRB, LDRB, ldr, ldrstr_writeback. plain. Qed.
Lemma same_STRT : same (opSTRT o) (STRT o).
Proof. unfold opSTRT, STRT, strt. plain. Qed.
Lemma same_LDRT : same (opLDRT o) (LDRT o).
Proof. unfold opLDRT, LDRT, ldrt. plain. Qed.
Lemma same_STRBT : same (opSTRBT o) (STRBT o).
Proof. unfold opSTRBT, STRBT, strt. plain. Qed.
Lemma same_LDRBT : same (opLDRBT o) (LDRBT o).
Proof. unfold opLDRBT, LDRBT, ldrt. plain. Qed.
End plain.

(** The test of bit 4 that the interpreter build makes by label. *)
Lemma media_spec o : media o = Z.testbit ((o .>> 20) .& 0xff) 5 && nz (o .& 0x10).
Proof.
  change 0x10 with (2 ^ 4). rewrite nz_mask_bit, Z.land_spec, Z.shiftr_spec, andb_true_r by done. change (5 + 20) with 25.
  unfold media. change 0x2000010 with (2 ^ 25 .| 2 ^ 4). rewrite Z.land_lor_distr_r, !land_pow2 by done.
  by destruct (Z.testbit o 25), (Z.testbit o 4).
Qed.

Lemma same_media o (op : Z → M (Mach S P * Block) Z) (body : M (Mach S P) unit) :
  (media o = false → same (op o) body) → (media o = true → op o = (dyn_undefined;; mret 0)) →
  same (op o) (if Z.testbit ((o .>> 20) .& 0xff) 5 then or_undefined o body else body).
Proof.
  unfold or_undefined. rewrite media_spec. destruct (Z.testbit _ 5); cbn [andb]; [|auto].
  intros Hp Hu. destruct (nz (o .& 0x10)); [|auto]. rewrite Hu by done. same_walk.
Qed.

(** The remaining operations, as the switch has them. *)
Lemma same_ext {A} (d : M (Mach S P * Block) A) (m m' : M (Mach S P) unit) :
  (∀ s, m s = m' s) → same_run d m → same_run d m'.
Proof. intros E H s b. rewrite <- E. apply H. Qed.
Lemma same_pending (d : M (Mach S P * Block) unit) (m : M (Mach S P) unit) : same_run d m → same (d;; pending) m.
Proof. intros H. apply same_then; [done | intros; apply off_gets]. Qed.

Lemma same_B o : same (opB o) (branch o).
Proof. eapply same_ext; [|apply same_then; [apply same_on_mach | intros; apply off_bind; auto with dyn]]. reflexivity. Qed.
Lemma same_BL o : same (opBL o) (branch_link o).
Proof. eapply same_ext; [|apply same_then; [apply same_on_mach | intros; apply off_bind; auto with dyn]]. reflexivity. Qed.
Lemma same_copro o : same (opcopro o) (copro o).
Proof. unfold opcopro, copro. same_walk. Qed.
Lemma same_MCR o : same (opMCR o) (mcr o).
Proof. unfold opMCR, mcr. same_walk. Qed.
Lemma same_MRC o : same (opMRC o) (mrc o).
Proof.
  unfold opMRC, mrc. apply same_if; [same_walk|]. apply same_bind. intros md. apply same_if; [|same_walk].
  destruct (Z.eqb_spec (RD o) 15) as [->|]; apply same_done.
Qed.
Lemma same_half_load o (m : M (Mach S P) unit) : same (half_load o m) m.
Proof.
  apply same_then; [apply same_on_mach|]. intros _. apply off_bind; [apply off_on_mach|]. intros ab.
  apply off_bind; [apply off_when, off_block | intros; apply off_gets].
Qed.

Lemma mla_word o (s : Mach S P) :
  (if MULRD o =? MULRM o then 0
   else u32 (mul32 (rreg (MULRM o) s) (rreg (MULRS o) s) + rreg (MULRN o) s)) = mla_result o s.
Proof. unfold mla_result, mul32. destruct (_ =? _); [done|]. apply u32_add_l. Qed.
Lemma same_EORreg o :
  same (opEORreg o) (if is_mul o then mla o else dp_dest o (shift2 o) (λ l r _, l .^ r)).
Proof.
  eapply same_ext; [|apply same_done]. intros s. unfold is_mul. destruct (_ =? _); [|reflexivity].
  unfold mla. rewrite !bind_run. unfold gets. by rewrite mla_word.
Qed.
Lemma same_EORregS o :
  same (opEORregS o) (if is_mul o then mlas o else dp_logical_s o (shift2 o) (shift o) Z.lxor).
Proof.
  eapply same_ext; [|apply same_done]. intros s. unfold is_mul. destruct (_ =? _); [|reflexivity].
  unfold mlas. rewrite !bind_run. unfold gets at 1 3. by rewrite mla_word.
Qed.

(** The loads and stores, under a label [j]. *)
Section label.
Context (o j : Z) (E : (o .>> 20) .& 0xff = j).
Local Abbreviation by_label body := (if Z.testbit j 5 then or_undefined o body else body).
Lemma label_STR : same (opSTR o) (by_label (STR o)).
Proof. rewrite <- E. apply same_media; [apply same_STR | unfold opSTR; by intros ->]. Qed.
Lemma label_LDR : same (opLDR o) (by_label (LDR o)).
Proof. rewrite <- E. apply same_media; [apply same_LDR | unfold opLDR; by intros ->]. Qed.
Lemma label_STRB : same (opSTRB o) (by_label (STRB o)).
Proof. rewrite <- E. apply same_media; [apply same_STRB | unfold opSTRB; by intros ->]. Qed.
Lemma label_LDRB : same (opLDRB o) (by_label (LDRB o)).
Proof. rewrite <- E. apply same_media; [apply same_LDRB | unfold opLDRB; by intros ->]. Qed.
Lemma label_STRT : same (opSTRT o) (by_label (STRT o)).
Proof. rewrite <- E. apply same_media; [apply same_STRT | unfold opSTRT; by intros ->]. Qed.
Lemma label_LDRT : same (opLDRT o) (by_label (LDRT o)).
Proof. rewrite <- E. apply same_media; [apply same_LDRT | unfold opLDRT; by intros ->]. Qed.
Lemma label_STRBT : same (opSTRBT o) (by_label (STRBT o)).
Proof. rewrite <- E. apply same_media; [apply same_STRBT | unfold opSTRBT; by intros ->]. Qed.
Lemma label_LDRBT : same (opLDRBT o) (by_label (LDRBT o)).
Proof. rewrite <- E. apply same_media; [apply same_LDRBT | unfold opLDRBT; by intros ->]. Qed.
End label.

(** * Decoding *)

Lemma same_table o j : 0 ≤ j < 256 → (o .>> 20) .& 0xff = j →
  same (default opUNALLOC (opcodes !! Z.to_nat j) o) (switch j (all_cases o) (undefined_or_unpredictable o)).
Proof.
  intros Hj E.
  each_value j 0 256 ltac:(clear Hj;
    match goal with |- context [opcodes !! ?n] =>
      let f := eval hnf in (opcodes (S:=S) (P:=P) !! n) in change (opcodes !! n) with f end;
    cbv beta iota delta [from_option id];
    lazymatch goal with
    | |- same_run (opSTR _) _ => exact (label_STR o _ E)
    | |- same_run (opLDR _) _ => exact (label_LDR o _ E)
    | |- same_run (opSTRB _) _ => exact (label_STRB o _ E)
    | |- same_run (opLDRB _) _ => exact (label_LDRB o _ E)
    | |- same_run (opSTRT _) _ => exact (label_STRT o _ E)
    | |- same_run (opLDRT _) _ => exact (label_LDRT o _ E)
    | |- same_run (opSTRBT _) _ => exact (label_STRBT o _ E)
    | |- same_run (opLDRBT _) _ => exact (label_LDRBT o _ E)
    | |- same_run (opEORreg _) _ => apply same_EORreg
    | |- same_run (opEORregS _) _ => apply same_EORregS
    | |- same_run (opSWPword _) _ => apply same_SWPword
    | |- same_run (opSWPbyte _) _ => apply same_SWPbyte
    | |- same_run (opMSRcreg _) _ => apply same_if; [apply same_done | apply same_unalloc]
    | |- same_run (opMSRsreg _) _ => apply same_if; [apply same_done | apply same_unalloc]
    | |- same_run (opMSRcimm _) _ => apply same_if; [apply same_done | apply same_unalloc]
    | |- same_run (opMSRsimm _) _ => apply same_if; [apply same_done | apply same_unalloc]
    | |- same_run (opUNALLOC _) _ => apply same_unalloc
    | |- same_run (opB _) _ => apply same_B
    | |- same_run (opBL _) _ => apply same_BL
    | |- same_run (opcopro _) _ => apply same_copro
    | |- same_run (opMCR _) _ => apply same_MCR
    | |- same_run (opMRC _) _ => apply same_MRC
    | |- _ => first [apply same_done | apply same_pending, same_on_mach]
    end).
Qed.

(** [arm_opcode_fn] picks the operation that does what [execute] does. *)
Lemma same_execute o : same (run_opcode o) (execute o).
Proof.
  unfold run_opcode, execute, arm_opcode_fn. apply same_bind. intros v4.
  assert (same (default opUNALLOC (opcodes !! Z.to_nat ((o .>> 20) .& 0xff)) o) (execute_switch o)) as Ht.
  { apply same_table; [|done]. split; [apply Z.land_nonneg; by right|].
    change 0xff with (Z.ones 8). rewrite Z.land_ones by done. by apply Z.mod_pos_bound. }
  destruct (nz v4); cbn [andb]; [|done].
  destruct (_ =? 0xb0); [destruct (nz _); [apply same_half_load | apply same_pending, same_on_mach]|].
  destruct (_ =? 0x1000d0); [|done]. destruct (_ =? 0xd0); apply same_half_load.
Qed.
End operations.
