(* ===== verification/DynAbort.v ===== *)
(** What an operation of the recompiler build tells the block that called it:
    whether a data abort is pending. *)

From S2P Require Export DynSpec.

(** * Operations that do not touch memory keep the pending events *)

Section silent.
Context {S P : Type} `{!MemSys S P} `{!HostSys S P} (e : Z).
Definition events (s : Mach S P) : Prop := event (arm s) = e.
Definition kept {A} (m : M (Mach S P) A) : Prop := hoare events m (λ _, events).

Lemma kept_gets {A} (f : Mach S P → A) : kept (gets f).
Proof. by intros s H. Qed.
Lemma kept_ret {A} (a : A) : kept (mret a).
Proof. by intros s H. Qed.
Lemma kept_bind {A B} (m : M (Mach S P) A) (k : A → M (Mach S P) B) :
  kept m → (∀ a, kept (k a)) → kept (m ≫= k).
Proof. intros H Hk. by eapply hoare_bind. Qed.
Lemma kept_modify f : (∀ s, event (arm (f s)) = event (arm s)) → kept (modify f).
Proof. intros H s Hs. unfold modify, events. by rewrite H. Qed.
Lemma kept_when c (m : M (Mach S P) unit) : kept m → kept (when c m).
Proof. destruct c; [done | intros _; apply kept_ret]. Qed.

Lemma store_back_event a : event (store_back a) = event a.
Proof. unfold store_back. by repeat case_match. Qed.
Lemma load_bank_event m a a' : load_bank m a = Some a' → event a' = event a.
Proof. unfold load_bank. intros H. repeat case_match; by simplify_eq. Qed.
Lemma mode_entered_event om m a (s : Mach S P) : event (arm (mode_entered om m a s)) = event a.
Proof.
  unfold mode_entered. destruct (ARM_MODE_32 m); cbn -[enter_32 enter_26];
    unfold enter_32, enter_26; by destruct (ARM_MODE_32 om).
Qed.

Lemma kept_updatemode_at m pc : kept (updatemode_at m pc).
Proof.
  intros s Hs. rewrite updatemode_at_run. cbv zeta. unfold events in *.
  destruct (load_bank _ _) as [a|] eqn:E.
  - rewrite mode_entered_event, (load_bank_event _ _ _ E). cbn. by rewrite store_back_event.
  - destruct (debugger_bad_mode _ _ _) as [[] y]; [|done].
    rewrite mode_entered_event. cbn. by rewrite store_back_event.
Qed.
Lemma kept_updatemode m : kept (updatemode m).
Proof. apply kept_bind; [apply kept_gets | intros; apply kept_updatemode_at]. Qed.

End silent.

Ltac head_of t := lazymatch t with ?f _ => head_of f | _ => t end.
Ltac kept_walk :=
  repeat (cbv beta zeta;
  match goal with
  | |- ∀ _, _ => intro
  | |- kept _ (mret _) => apply kept_ret
  | |- kept _ (gets _) => apply kept_gets
  | |- kept _ (modify _) => by apply kept_modify
  | |- kept _ (updatemode _) => apply kept_updatemode
  | |- kept _ (updatemode_at _ _) => apply kept_updatemode_at
  | |- kept _ (when _ _) => apply kept_when
  | |- kept _ (if ?b then _ else _) => destruct b
  | |- kept _ (match ?x with _ => _ end) => destruct x
  | |- kept _ (_ ≫= _) => apply kept_bind
  | |- kept _ ?m => let h := head_of m in unfold h
  end).

Section primitives.
Context {S P : Type} `{!MemSys S P} `{!HostSys S P} (e : Z).
Local Abbreviation kept := (kept (S:=S) (P:=P) e).

Lemma kept_exception md a d : kept (exception md a d).
Proof. kept_walk. Qed.
Lemma kept_unpredictable o : kept (arm_unpredictable o).
Proof.
  apply kept_modify. intros s. by destruct (unpredictable_count s =? 0).
Qed.
Lemma kept_write_r15 o v : kept (arm_write_r15 o v).
Proof. kept_walk. Qed.
Lemma kept_compare_rd15 o v : kept (arm_compare_rd15 o v).
Proof. kept_walk. Qed.
Lemma kept_write_cpsr o v : kept (arm_write_cpsr o v).
Proof. kept_walk. Qed.
Lemma kept_write_spsr o v : kept (arm_write_spsr o v).
Proof. kept_walk. Qed.
Lemma kept_shift o : kept (shift o).
Proof. kept_walk. Qed.
Lemma kept_LOADREG r v : kept (LOADREG r v).
Proof. kept_walk. Qed.
End primitives.

(** * The result of an operation *)

Section reports.
Context {S P : Type} `{!MemSys S P} `{!HostSys S P}.
Local Abbreviation ARM := (M (Mach S P)).
Local Abbreviation DYN := (M (Mach S P * Block)).

Definition no_abort (sb : Mach S P * Block) : Prop := aborted (fst sb) = false.
Definition told (r : Z) (sb : Mach S P * Block) : Prop := nz r = aborted (fst sb).
(** [d] answers whether an abort is pending; it answers that none is. *)
Definition reports (d : DYN Z) : Prop := hoare no_abort d told.
Definition quiet_op (d : DYN Z) : Prop := hoare no_abort d (λ r sb, r = 0 ∧ no_abort sb).

Lemma quiet_reports d : quiet_op d → reports d.
Proof.
  intros H sb Hs. specialize (H sb Hs). destruct (d sb) as [[r sb']|]; [|done].
  destruct H as [-> Hn]. unfold told. by rewrite Hn.
Qed.

Lemma kept_on_mach {A} (m : ARM A) (k : A → DYN Z) Q :
  (∀ e, kept e m) → (∀ a, hoare no_abort (k a) Q) → hoare no_abort (on_mach m ≫= k) Q.
Proof.
  intros Hm Hk [s b] Hs. rewrite bind_run. unfold on_mach, zoom. cbn [fst snd].
  specialize (Hm (event (arm s)) s eq_refl). destruct (m s) as [[a s']|]; [|done].
  apply Hk. unfold no_abort, aborted in *. cbn [fst] in *. by rewrite Hm.
Qed.

Lemma quiet_ret : quiet_op (mret 0).
Proof. intros sb Hs. by split. Qed.
Lemma quiet_done m : (∀ e, kept e m) → quiet_op (done m).
Proof. intros H. apply kept_on_mach; [done|]. intros _. apply quiet_ret. Qed.
Lemma quiet_block f : quiet_op (upd_block f;; mret 0).
Proof. by intros sb Hs. Qed.
Lemma quiet_undefined : quiet_op (dyn_undefined;; mret 0).
Proof.
  intros sb Hs. unfold dyn_undefined, dyn_exception. rewrite bind_assoc. revert sb Hs.
  apply kept_on_mach; [intros; apply kept_exception|]. intros _. apply quiet_block.
Qed.
Lemma quiet_unalloc o : quiet_op (opUNALLOC o).
Proof.
  apply kept_on_mach; [intros; apply kept_gets|]. intros v4. destruct (nz v4); [apply quiet_undefined|].
  apply quiet_done. intros. apply kept_unpredictable.
Qed.

(** Whatever went before, the end of a transfer reports. *)
Definition any (_ : Mach S P * Block) : Prop := True.
Lemma any_bind {A} (d : DYN A) (k : A → DYN Z) : (∀ a, hoare any (k a) told) → hoare any (d ≫= k) told.
Proof. intros Hk. by eapply hoare_bind; [|exact Hk]; intros sb _; destruct (d sb) as [[]|]. Qed.
Lemma any_pending : hoare any pending told.
Proof. by intros sb _. Qed.
Lemma any_abort_test (f : Mach S P → bool) (k : DYN Z) :
  (∀ s, f s = true → aborted s = true) → hoare any k told →
  hoare any (ab ← on_mach (gets f); if (ab : bool) then mret 1 else k) told.
Proof.
  intros Hf Hk [s b] _. rewrite bind_run. cbn. destruct (f s) eqn:E; [|by apply Hk].
  unfold told. cbn. by rewrite Hf.
Qed.
Lemma quiet_LOADREG r v : quiet_op (dyn_LOADREG r v;; mret 0).
Proof.
  intros sb Hs. unfold dyn_LOADREG. rewrite bind_assoc. revert sb Hs.
  apply kept_on_mach; [intros; apply kept_LOADREG|]. intros _ sb Hs. by destruct (r =? 15).
Qed.
Lemma any_load r v :
  hoare any (ab ← on_mach (gets aborted); if (ab : bool) then mret 1 else dyn_LOADREG r v;; mret 0) told.
Proof.
  intros [s b] _. rewrite bind_run. cbn. destruct (aborted s) eqn:E; [by unfold told; cbn; rewrite E|].
  by apply (quiet_reports _ (quiet_LOADREG r v) (s, b)).
Qed.
Lemma any_reports d : hoare any d told → reports d.
Proof. intros H sb _. by apply H. Qed.
Lemma abort_restored_aborted (s : Mach S P) : abort_restored s = true → aborted s = true.
Proof. unfold abort_restored. by intros [_ H]%andb_true_iff. Qed.

Ltac any_walk :=
  repeat (cbv beta zeta;
  match goal with
  | |- ∀ _, _ => intro
  | |- hoare any pending _ => apply any_pending
  | |- hoare any (on_mach (gets aborted) ≫= _) _ => apply any_load
  | |- hoare any (on_mach (gets abort_restored) ≫= _) _ =>
      apply any_abort_test; [apply abort_restored_aborted|]
  | |- hoare any (_ ≫= _) _ => apply any_bind
  end).

(** A load or store, or the undefined instruction. *)
Ltac transfer := match goal with
  |- reports (if ?c then _ else _) => destruct c; [apply quiet_reports, quiet_undefined | apply any_reports; any_walk] end.
Lemma reports_STR o : reports (opSTR o).  Proof. unfold opSTR. transfer. Qed.
Lemma reports_LDR o : reports (opLDR o).  Proof. unfold opLDR. transfer. Qed.
Lemma reports_STRB o : reports (opSTRB o).  Proof. unfold opSTRB. transfer. Qed.
Lemma reports_LDRB o : reports (opLDRB o).  Proof. unfold opLDRB. transfer. Qed.
Lemma reports_STRT o : reports (opSTRT o).  Proof. unfold opSTRT. transfer. Qed.
Lemma reports_LDRT o : reports (opLDRT o).  Proof. unfold opLDRT. transfer. Qed.
Lemma reports_STRBT o : reports (opSTRBT o).  Proof. unfold opSTRBT. transfer. Qed.
Lemma reports_LDRBT o : reports (opLDRBT o).  Proof. unfold opLDRBT. transfer. Qed.
Lemma reports_block (d : DYN unit) : reports (d;; pending).
Proof. apply any_reports. any_walk. Qed.
Lemma reports_half o (m : ARM unit) : reports (half_load o m).
Proof. apply any_reports. unfold half_load. apply any_bind. intros _. do 2 (apply any_bind; intros ?). apply any_pending. Qed.

Lemma quiet_B o : quiet_op (opB o).
Proof. apply kept_on_mach; [intros; kept_walk | intros _; apply quiet_block]. Qed.
Lemma quiet_BL o : quiet_op (opBL o).
Proof. apply kept_on_mach; [intros; kept_walk | intros _; apply quiet_block]. Qed.

Lemma quiet_SWPword o : o .& 0xff0 ≠ 0x90 → quiet_op (opSWPword o).
Proof.
  intros H%Z.eqb_neq. unfold opSWPword. rewrite H. clear H.
  destruct (_ =? 0xf0000); [apply quiet_done; intros; kept_walk | apply quiet_unalloc].
Qed.
Lemma quiet_SWPbyte o : o .& 0xff0 ≠ 0x90 → quiet_op (opSWPbyte o).
Proof.
  intros H%Z.eqb_neq. unfold opSWPbyte. rewrite H. clear H.
  destruct (_ =? 0xf0000); [apply quiet_done; intros; kept_walk | apply quiet_unalloc].
Qed.
Lemma reports_SWPword o : reports (opSWPword o).
Proof.
  destruct (Z.eqb_spec (o .& 0xff0) 0x90) as [E%Z.eqb_eq|E]; [|by apply quiet_reports, quiet_SWPword].
  unfold opSWPword. rewrite E. destruct (RD o =? 15); [apply quiet_reports, quiet_ret | apply any_reports].
  do 3 (apply any_bind; intros ?). apply any_abort_test; [done|]. any_walk.
Qed.
Lemma reports_SWPbyte o : reports (opSWPbyte o).
Proof.
  destruct (Z.eqb_spec (o .& 0xff0) 0x90) as [E%Z.eqb_eq|E]; [|by apply quiet_reports, quiet_SWPbyte].
  unfold opSWPbyte. rewrite E. destruct (RD o =? 15); [apply quiet_reports, quiet_ret | apply any_reports].
  do 3 (apply any_bind; intros ?). apply any_abort_test; [done|]. any_walk.
Qed.

Local Ltac entry := match goal with |- context [opcodes !! ?n] =>
  let f := eval hnf in (opcodes (S:=S) (P:=P) !! n) in change (opcodes !! n) with f end;
  cbv beta iota delta [from_option id].

(** Below the loads and stores, and the branches. *)
Lemma quiet_table o j : 0 ≤ j < 0x40 ∨ 0xa0 ≤ j < 0xc0 → (j = 0x10 ∨ j = 0x14 → o .& 0xff0 ≠ 0x90) →
  quiet_op (default opUNALLOC (opcodes !! Z.to_nat j) o).
Proof.
  intros [Hj|Hj] Hs.
  - each_value j 0 0x40 ltac:(clear Hj; entry; lazymatch goal with
      | |- quiet_op (opSWPword _) => apply quiet_SWPword, Hs; auto
      | |- quiet_op (opSWPbyte _) => apply quiet_SWPbyte, Hs; auto
      | |- quiet_op (opUNALLOC _) => apply quiet_unalloc
      | |- _ => clear Hs; first [ apply quiet_done; intros ?; kept_walk
                     | match goal with |- quiet_op ?d => let h := head_of d in unfold h end;
                       destruct (_ =? _); [apply quiet_done; intros; kept_walk | apply quiet_unalloc] ]
      end).
  - each_value j 0xa0 0xc0 ltac:(clear Hj Hs; entry; lazymatch goal with
      | |- quiet_op (opB _) => apply quiet_B | |- _ => apply quiet_BL end).
Qed.

(** Below the coprocessors and the SWIs. *)
Lemma reports_table o j : 0 ≤ j < 0xc0 → reports (default opUNALLOC (opcodes !! Z.to_nat j) o).
Proof.
  intros Hj. destruct (decide (0x40 ≤ j < 0xa0)) as [H|H].
  - clear Hj. each_value j 0x40 0xa0 ltac:(clear H; entry; lazymatch goal with
      | |- reports (opSTR _) => apply reports_STR
      | |- reports (opLDR _) => apply reports_LDR
      | |- reports (opSTRB _) => apply reports_STRB
      | |- reports (opLDRB _) => apply reports_LDRB
      | |- reports (opSTRT _) => apply reports_STRT
      | |- reports (opLDRT _) => apply reports_LDRT
      | |- reports (opSTRBT _) => apply reports_STRBT
      | |- reports (opLDRBT _) => apply reports_LDRBT
      | |- _ => apply reports_block
      end).
  - destruct (Z.eq_dec j 0x10) as [->|H1]; [apply reports_SWPword|].
    destruct (Z.eq_dec j 0x14) as [->|H2]; [apply reports_SWPbyte|].
    apply quiet_reports, quiet_table; lia.
Qed.

(** * Opcodes *)

Lemma label_range o : 0 ≤ (o .>> 20) .& 0xff < 256.
Proof.
  split; [apply Z.land_nonneg; by right|].
  change 0xff with (Z.ones 8). rewrite Z.land_ones by done. by apply Z.mod_pos_bound.
Qed.

(** Loads and stores of words, bytes and blocks may abort. *)
Lemma class_may_abort v4 o : 0x40 ≤ (o .>> 20) .& 0xff < 0xa0 → arm_opcode_may_abort v4 o = true.
Proof.
  intros H. unfold arm_opcode_may_abort. replace (0xa000000 <=? _) with true; [done|]. symmetry.
  apply Z.leb_le. change 0xf000000 with (Z.shiftl (Z.ones 4) 24). rewrite land_shiftl_mask by done.
  revert H. change 0xff with (Z.ones 8). rewrite !Z.land_ones, !Z.shiftr_div_pow2, Z.shiftl_mul_pow2 by done.
  change (2 ^ 20) with 0x100000. change (2 ^ 24) with 0x1000000. change (2 ^ 8) with 0x100. change (2 ^ 4) with 16.
  unfold add32, u32. intros H.
  pose proof (Z.mod_pos_bound (o + 0x6000000) 0x100000000).
  pose proof (Z.div_mod (o + 0x6000000) 0x100000000). 
  Z.to_euclidean_division_equations. lia.
Qed.

Lemma swap_may_abort v4 o j : (o .>> 20) .& 0xff = j → j = 0x10 ∨ j = 0x14 → o .& 0xff0 = 0x90 →
  arm_opcode_may_abort v4 o = true.
Proof.
  intros Hl Hj H. unfold arm_opcode_may_abort. destruct (_ <=? _); [done|].
  replace (o .& 0x0fb000f0 =? 0x01000090) with true; [done|]. symmetry. apply Z.eqb_eq.
  change 0x0fb000f0 with (Z.shiftl (0xff .& 0xfb) 20 .| (0xff0 .& 0xf0)).
  rewrite Z.land_lor_distr_r, land_shiftl_mask, !Z.land_assoc, Hl, H by done. by destruct Hj as [-> | ->].
Qed.

(** What the block is told: an operation that may abort says whether it did, the
    others have not, the coprocessors and the SWIs aside. *)
Lemma opcode_fn_reports v4 o : (o .>> 20) .& 0xff < 0xc0 →
  reports (arm_opcode_fn v4 o o) ∧ (arm_opcode_may_abort v4 o = false → quiet_op (arm_opcode_fn v4 o o)).
Proof.
  intros Hl. pose proof (label_range o) as [Hp _].
  assert (reports (default opUNALLOC (opcodes !! Z.to_nat ((o .>> 20) .& 0xff)) o) ∧
    (arm_opcode_may_abort v4 o = false →
     quiet_op (default opUNALLOC (opcodes !! Z.to_nat ((o .>> 20) .& 0xff)) o))) as Ht.
  { split; [by apply reports_table|]. intros Hm. apply quiet_table.
    - destruct (decide (0x40 ≤ (o .>> 20) .& 0xff < 0xa0)); [by rewrite class_may_abort in Hm | lia].
    - intros Hj E. by rewrite (swap_may_abort v4 o _ eq_refl Hj E) in Hm. }
  assert (nz v4 && ((o .& 0xe0000f0 =? 0xb0) || (o .& 0xe1000d0 =? 0x1000d0)) = true →
    arm_opcode_may_abort v4 o = true) as Hh.
  { intros E. unfold arm_opcode_may_abort. destruct (_ <=? _); [done|]. by destruct (_ =? 0x01000090). }
  unfold arm_opcode_fn. destruct (nz v4); [|exact Ht].
  destruct (o .& 0xe0000f0 =? 0xb0); [|destruct (o .& 0xe1000d0 =? 0x1000d0); [|exact Ht]];
    (split; [|by rewrite Hh]).
  - destruct (nz _); [apply reports_half | apply reports_block].
  - destruct (_ =? 0xd0); apply reports_half.
Qed.

Lemma run_opcode_at o s b : run_opcode o (s, b) = arm_opcode_fn (arch_v4 (arm s)) o o (s, b).
Proof. reflexivity. Qed.
End reports.
