(* ===== verification/DynLoop.v ===== *)
(** [arm_exec] of the recompiler build (arm_dynarec.c) where it interprets: the
    loop over the instructions of a block, which tests for events only at the
    end of the block, and the loop over blocks. *)

From S2P Require Export DynAbort ArmLoop.

Section loop.
Context {S P : Type} `{!MemSys S P} `{!HostSys S P}.
Local Abbreviation ARM := (M (Mach S P)).
Local Abbreviation DYN := (M (Mach S P * Block)).

(** The opcodes that end a block: branches, SWIs and coprocessors, and what
    these tests see of the instructions that can write R15. *)
Definition ends_block (opcode : Z) : bool :=
  (opcode .& 0x0e000000 =? 0x0a000000) ||
  (opcode .& 0x0c000000 =? 0x0c000000) ||
  (negb (nz (opcode .& 0x0c000000)) && (RD opcode =? 15)) ||
  (opcode .& 0x0e108000 =? 0x08108000) ||
  ((opcode .& 0x0c100000 =? 0x04100000) && (RD opcode =? 15)).

(** One turn of the [do ... while]; [true] is the debugger's [return 1000]. *)
Definition block_turn (page : P) : DYN bool :=
  opcode ← on_mach (gets (λ s, ms_fetch page (PC s .>> 2) (sys s)));
  active ← on_mach (gets (λ s, debugger_hook_active (sys s)));
  stop ← (if (active : bool)
          then on_mach (hook_ask (λ s, debugger_instruction_hook (PC s) opcode (sys s)))
          else mret false);
  if (stop : bool) then mret true else
  when (ends_block opcode) (upd_block (set_blockend 1));;
  go ← on_mach (gets (condition opcode));
  when (go : bool) (run_opcode opcode;; mret tt);;
  when (active : bool) (on_mach (hook (λ s, debugger_after_instruction (PC s) opcode (sys s))));;
  on_mach advance;;
  pc ← on_mach (gets PC);
  when (pc .& 0xffc =? 0) (upd_block (set_blockend 1));;
  upd_block (λ b, set_block_inscount (u32 (block_inscount b + 1)) b);;
  mret false.

(** The block: [None] is a loop that goes on after [n] turns. *)
Fixpoint block_loop (n : nat) (page : P) : DYN (option bool) :=
  match n with
  | O => mret None
  | Datatypes.S n' =>
      stop ← block_turn page;
      if (stop : bool) then mret (Some true) else
      ended ← gets (λ sb, nz (blockend (snd sb)));
      ab ← on_mach (gets aborted);
      if (ended : bool) || (ab : bool) then mret (Some false) else block_loop n' page
  end.

(** The tests after a block; R15 is moved back for the exception and on again. *)
Definition block_events : DYN unit :=
  ev ← on_mach (gets (λ s, event (arm s)));
  when (nz ev)
    (md ← on_mach (gets (λ s, mode (arm s)));
     when (negb (ARM_MODE_32 md))
       (on_mach (r16 ← gets (rreg 16); wreg 16 (r16 .&~ 0xc0);;
        r16 ← gets (rreg 16); r15 ← gets (rreg 15);
        wreg 16 (r16 .| ((r15 .& 0xc000000) .>> 20))));;
     r16 ← on_mach (gets (rreg 16));
     let taken mmode address :=
       on_mach (r15 ← gets (rreg 15); wreg 15 (sub32 r15 4));;
       dyn_exception mmode address 0;;
       on_mach advance in
     if nz (ev .& 0x40) then
       taken ABORT 0x14;; on_mach (modify (upd_arm (λ a, set_event (event a .&~ 0x40) a)))
     else if nz (ev .& 2) && negb (nz (r16 .& 0x40)) then taken FIQ 0x20
     else if nz (ev .& 1) && negb (nz (r16 .& 0x80)) then taken IRQ 0x1c
     else mret tt).

(** One turn of the outer loop, with [arm_interpret_only] set and [n] turns
    for the block: what the block answered, [Some false] after a prefetch abort. *)
Definition interpret_block (n : nat) : DYN (option bool) :=
  on_mach (pc ← gets PC;
    pcc ← gets pccache;
    when (negb (pc .>> 12 =? pcc))
      (modify (set_pccache (pc .>> 12));;
       page ← mem_zoom (ms_getpccache pc);
       modify (set_pccache2 page)));;
  page ← on_mach (gets pccache2);
  match (page : option P) with
  | None =>
      on_mach (modify (set_pccache 0xffffffff));;
      dyn_exception ABORT 0x10 4;;
      on_mach advance;; mret (Some false)
  | Some p =>
      upd_block (set_blockend 0);;
      r ← block_loop n p;
      match (r : option bool) with
      | Some false => block_events;; mret (Some false)
      | _ => mret r
      end
  end.

(** [for (linecyc = 256; linecyc >= 0; linecyc--)]; the hint returned is 1000. *)
Fixpoint dyn_exec_from (turns : nat) (n : nat) : DYN (option Z) :=
  match turns with
  | O => mret (Some 1000)
  | Datatypes.S turns' =>
      r ← interpret_block n;
      match (r : option bool) with
      | None => mret None
      | Some true => mret (Some 1000)
      | Some false => dyn_exec_from turns' n
      end
  end.
Definition dyn_arm_exec (n : nat) : DYN (option Z) := dyn_exec_from 257 n.
End loop.

(** * A block is a run of steps

    A block of the recompiler build, interpreted, is a run of steps of the interpreter
    build, as long as no event becomes pending in it. *)

Section block.
Context {S P : Type} `{!MemSys S P} `{!HostSys S P}.
Implicit Types s : Mach S P.
Local Abbreviation active s := (debugger_hook_active (P:=P) (sys s)).

(** [k] steps of the interpreter's loop. *)
Fixpoint steps (k : nat) : M (Mach S P) bool :=
  match k with
  | O => mret false
  | Datatypes.S k' => stop ← step; if (stop : bool) then mret true else steps k'
  end.

(** No event is pending and the debugger is not active; while the block goes on,
    the next instruction is in the page that was fetched. *)
Definition calm s : Prop := event (arm s) = 0 ∧ active s = false.
Definition in_page (page : P) s : Prop := pccache s = PC s .>> 12 ∧ pccache2 s = Some page.
Definition ended (sb : Mach S P * Block) : bool := nz (blockend (snd sb)) || aborted (fst sb).
Fixpoint undisturbed (n : nat) (page : P) (sb : Mach S P * Block) : Prop :=
  match n with
  | O => True
  | Datatypes.S n' =>
      match block_turn page sb with
      | Some (_, sb1) => calm (fst sb1) ∧ (ended sb1 = false → in_page page (fst sb1) ∧ undisturbed n' page sb1)
      | None => True
      end
  end.

Definition advanced s : Mach S P := upd_arm (put_reg 15 (add32 (rreg 15 s) 4)) s.

(** An instruction, with its condition. *)
Definition conditional (opcode : Z) : M (Mach S P) unit :=
  go ← gets (condition opcode); when (go : bool) (execute opcode).

Lemma same_conditional opcode :
  same_run (go ← on_mach (gets (condition (S:=S) (P:=P) opcode)); when (go : bool) (run_opcode opcode;; mret tt))
    (conditional opcode).
Proof.
  apply same_bind. intros []; [|apply same_ret]. apply same_then; [apply same_execute | intros; apply off_ret].
Qed.

(** What a turn does, the debugger aside. *)
Lemma block_turn_run page s b :
  active s = false →
  match conditional (ms_fetch page (PC s .>> 2) (sys s)) s with
  | Some (_, s2) => ∃ b', block_turn page (s, b) = Some (false, (advanced s2, b'))
  | None => block_turn page (s, b) = None
  end.
Proof.
  intros Ha. set (op := ms_fetch _ _ _).
  set (b1 := if ends_block op then set_blockend 1 b else b).
  pose proof (same_conditional op s b1) as H.
  assert (block_turn page (s, b) =
    ((go ← on_mach (gets (condition (S:=S) (P:=P) op)); when (go : bool) (run_opcode op;; mret tt));;
     on_mach advance;; pc ← on_mach (gets PC); when (pc .& 0xffc =? 0) (upd_block (set_blockend 1));;
     upd_block (λ b, set_block_inscount (u32 (block_inscount b + 1)) b);; mret false) (s, b1)) as ->.
  { unfold block_turn. rewrite (bind_eq _ _ (s, b) op (s, b)) by done.
    rewrite (bind_eq _ _ (s, b) false (s, b)) by (cbn; by rewrite <- Ha). cbn iota.
    rewrite (bind_eq _ _ (s, b) false (s, b)) by done. cbn iota.
    rewrite (bind_eq _ _ (s, b) tt (s, b1)) by (unfold b1; by destruct (ends_block op)).
    rewrite bind_assoc. done. }
  destruct (conditional op s) as [[[] s2]|].
  - destruct H as (r & b' & H). rewrite (bind_eq _ _ _ _ _ H).
    rewrite (bind_eq _ _ _ tt (advanced s2, b')) by done.
    rewrite (bind_eq _ _ _ (PC (advanced s2)) (advanced s2, b')) by done.
    destruct (_ =? 0); by eexists.
  - by rewrite bind_run, H.
Qed.

(** What a step does from the page fetched, the debugger aside. *)
Lemma step_run page s s2 :
  pccache s = PC s .>> 12 → pccache2 s = Some page → active s = false →
  conditional (ms_fetch page (PC s .>> 2) (sys s)) s = Some (tt, s2) →
  active (advanced s2) = false → event (arm (advanced s2)) = 0 →
  step s = Some (false, advanced s2).
Proof.
  intros Hc Hp Ha Hrun Ha2 He. set (op := ms_fetch _ _ _) in Hrun.
  assert (active s2 = false) as Ha2' by exact Ha2.
  assert (event (arm s2) = 0) as He' by exact He.
  unfold step. rewrite (bind_eq _ _ s (Some op) s).
  2: { unfold fetch. rewrite (bind_eq _ _ s (PC s) s), (bind_eq _ _ s (pccache s) s) by done.
       rewrite Hc, Z.eqb_refl. cbn [negb]. rewrite (bind_eq _ _ s tt s) by done.
       rewrite (bind_eq _ _ s (Some page) s) by (cbn; by rewrite <- Hp). done. }
  cbn iota. rewrite (bind_eq _ _ s false s) by (cbn; by rewrite <- Ha). cbn iota.
  rewrite (bind_eq _ _ s false s) by done. cbn iota.
  transitivity ((conditional op;; active ← gets (λ s, debugger_hook_active (P:=P) (sys s));
    when (active : bool) (hook (λ s, debugger_after_instruction (PC s) op (sys s)));;
    check_events;; advance;; mret false) s); [by unfold conditional; rewrite bind_assoc|].
  rewrite (bind_eq _ _ _ _ _ Hrun), (bind_eq _ _ _ false s2) by (cbn; by rewrite <- Ha2'). cbn [when].
  rewrite (bind_eq _ _ _ tt s2) by done.
  rewrite (bind_eq _ _ _ tt s2); [done|].
  unfold check_events. rewrite (bind_eq _ _ _ 0 s2) by (cbn; by rewrite <- He'). done.
Qed.

Lemma block_loop_steps n page s b r sb' :
  calm s → in_page page s → undisturbed n page (s, b) → block_loop n page (s, b) = Some (Some r, sb') →
  r = false ∧ ∃ k, (1 ≤ k ≤ n)%nat ∧ steps k s = Some (false, fst sb') ∧ calm (fst sb').
Proof.
  revert s b. induction n as [|n IH]; intros s b [He Ha] [Hc Hp] Hu Hl; [done|]. cbn [undisturbed block_loop] in *.
  pose proof (block_turn_run page s b Ha) as Ht.
  destruct (conditional _ s) as [[[] s2]|] eqn:Hrun; [|by rewrite bind_run, Ht in Hl].
  destruct Ht as (b' & Ht). rewrite Ht in Hu. destruct Hu as [[He' Ha'] Hu]. cbn [fst] in He', Ha'.
  rewrite (bind_eq _ _ _ _ _ Ht) in Hl. cbn iota in Hl.
  rewrite (bind_eq _ _ _ (nz (blockend b')) (advanced s2, b')) in Hl by done.
  rewrite (bind_eq _ _ _ (aborted (advanced s2)) (advanced s2, b')) in Hl by done.
  pose proof (step_run _ _ _ Hc Hp Ha Hrun Ha' He') as Hs.
  destruct (nz (blockend b') || aborted (advanced s2)) eqn:E.
  - injection Hl as <- <-. split; [done|]. exists 1%nat. split; [lia|]. split; [|done].
    cbn [steps]. by rewrite (bind_eq _ _ _ _ _ Hs).
  - destruct (Hu E) as [Hin Hu']. destruct (IH _ _ (conj He' Ha') Hin Hu' Hl) as (-> & k & Hk & Hst & Hcalm).
    split; [done|]. exists (Datatypes.S k). split; [lia|]. split; [|done].
    cbn [steps]. by rewrite (bind_eq _ _ _ _ _ Hs).
Qed.

(** A turn of the outer loop: the fetch, the block, and no event to take. *)
Lemma calm_events s b : calm s → block_events (s, b) = Some (tt, (s, b)).
Proof.
  intros [He _]. unfold block_events. rewrite (bind_eq _ _ _ 0 (s, b)) by (cbn; by rewrite <- He). done.
Qed.

Lemma interpret_block_steps n page s b sb' :
  calm s → in_page page s → undisturbed n page (s, set_blockend 0 b) →
  interpret_block n (s, b) = Some (Some false, sb') →
  ∃ k, (1 ≤ k ≤ n)%nat ∧ steps k s = Some (false, fst sb').
Proof.
  intros Hcalm Hin Hu Hi. pose proof Hin as [Hc Hp]. unfold interpret_block in Hi.
  rewrite (bind_eq _ _ _ tt (s, b)) in Hi.
  2: { unfold on_mach, zoom. cbn [fst snd]. rewrite (bind_eq _ _ s (PC s) s), (bind_eq _ _ s (pccache s) s) by done.
       by rewrite Hc, Z.eqb_refl. }
  rewrite (bind_eq _ _ _ (Some page) (s, b)) in Hi by (cbn; by rewrite <- Hp). cbn iota in Hi.
  rewrite (bind_eq _ _ _ tt (s, set_blockend 0 b)) in Hi by done.
  destruct (block_loop n page (s, set_blockend 0 b)) as [[[r|] sb1]|] eqn:El.
  - destruct (block_loop_steps _ _ _ _ _ _ Hcalm Hin Hu El) as (-> & k & Hk & Hst & Hc1).
    rewrite (bind_eq _ _ _ _ _ El) in Hi. destruct sb1 as [s1 b1].
    rewrite (bind_eq _ _ _ _ _ (calm_events s1 b1 Hc1)) in Hi. injection Hi as <-. by exists k.
  - by rewrite (bind_eq _ _ _ _ _ El) in Hi.
  - by rewrite bind_run, El in Hi.
Qed.
End block.

(** * A block without an end

    A block of one instruction that branches to itself: the tests that end a block read
    the destination register in bits 12 to 15, where a multiplication has another
    operand. *)

Section endless.
Context {S P : Type} `{!MemSys S P} `{!HostSys S P}.
Implicit Types s : Mach S P.

(** MUL R15, R1, R2 *)
Definition mul_r15 : Z := 0xe00f0291.

(** [mul_r15] is the next instruction, and its product is its own address. *)
Record loops (page : P) s : Prop := {
  loops_fetch : ms_fetch page (PC s .>> 2) (sys s) = mul_r15;
  loops_target : mul32 (rreg 1 s) (rreg 2 s) = sub32 (rreg 15 s) 4;
  loops_word : w32 (rreg 15 s);
  loops_page : PC s .& 0xffc ≠ 0;
  loops_no_abort : aborted s = false;
  loops_no_debugger : debugger_hook_active (P:=P) (sys s) = false
}.

Definition there_and_back s : Mach S P :=
  upd_arm (put_reg 15 (rreg 15 s)) (upd_arm (put_reg 15 (sub32 (rreg 15 s) 4)) s).

Lemma add_sub32 x : w32 x → add32 (sub32 x 4) 4 = x.
Proof. unfold add32, sub32, u32, w32. intros H. rewrite Zplus_mod_idemp_l. rewrite <- (Z.mod_small x 0x100000000) at 2 by done. f_equal. lia. Qed.

Lemma run_mul_r15 s (b : Block) :
  run_opcode mul_r15 (s, b) = Some (0, (upd_arm (put_reg 15 (mul32 (rreg 1 s) (rreg 2 s))) s, b)).
Proof.
  unfold run_opcode, arm_opcode_fn. rewrite (bind_eq _ _ (s, b) (arch_v4 (arm s)) (s, b)) by reflexivity.
  destruct (nz (arch_v4 (arm s))); reflexivity.
Qed.

(** A turn leaves everything as it was, but for the count of instructions. *)
Lemma loops_turn page s b : loops page s →
  ∃ b', blockend b' = blockend b ∧ block_turn page (s, b) = Some (false, (there_and_back s, b')).
Proof.
  intros [Hf Ht Hw Hp Hab Ha]. exists (set_block_inscount (u32 (block_inscount b + 1)) b). split; [done|].
  unfold block_turn. rewrite (bind_eq _ _ (s, b) mul_r15 (s, b)) by (cbn; by rewrite <- Hf).
  rewrite (bind_eq _ _ (s, b) false (s, b)) by (cbn; by rewrite <- Ha). cbn iota.
  rewrite (bind_eq _ _ (s, b) false (s, b)) by done. cbn iota.
  rewrite (bind_eq _ _ (s, b) tt (s, b)) by done.
  rewrite (bind_eq _ _ (s, b) true (s, b)) by done. cbn [when].
  rewrite bind_assoc, (bind_eq _ _ _ _ _ (run_mul_r15 s b)), Ht. unfold there_and_back.
  set (s1 := upd_arm _ s). assert (advance s1 = Some (tt, upd_arm (put_reg 15 (rreg 15 s)) s1)) as Hadv.
  { unfold advance. rewrite (bind_eq _ _ s1 (sub32 (rreg 15 s) 4) s1).
    - unfold wreg, modify. by rewrite add_sub32.
    - unfold s1. unfold gets. unfold rreg, upd_arm. cbn. by rewrite lookup_total_insert_eq. }
  set (s2 := upd_arm _ s1) in *.
  rewrite (bind_eq _ _ (s1, b) tt (s1, b)) by done.
  rewrite (bind_eq _ _ (s1, b) tt (s1, b)) by done.
  rewrite (bind_eq _ _ (s1, b) tt (s2, b)).
  2: { unfold on_mach, zoom. cbn [fst snd]. by rewrite Hadv. }
  assert (PC s2 = PC s) as HPC.
  { unfold PC. cbn -[rreg]. do 2 f_equal. unfold rreg. cbn. by rewrite lookup_total_insert_eq. }
  rewrite (bind_eq _ _ (s2, b) (PC s) (s2, b)) by (unfold on_mach, zoom, gets; cbn [fst snd]; by rewrite HPC).
  rewrite (proj2 (Z.eqb_neq _ _) Hp). done.
Qed.

Lemma rreg_there_and_back r s : rreg r (there_and_back s) = rreg r s.
Proof.
  unfold rreg, there_and_back. cbn. destruct (Z.eq_dec r 15) as [->|H].
  - by rewrite lookup_total_insert_eq.
  - by rewrite !lookup_total_insert_ne by done.
Qed.
Lemma loops_kept page s : loops page s → loops page (there_and_back s).
Proof.
  intros [Hf Ht Hw Hp Hab Ha]. assert (PC (there_and_back s) = PC s) as HPC.
  { unfold PC. by rewrite rreg_there_and_back. }
  split; rewrite ?HPC, ?rreg_there_and_back; done.
Qed.

Lemma loops_forever n page s b : loops page s → blockend b = 0 →
  ∃ s' b', block_loop n page (s, b) = Some (None, (s', b')) ∧ event (arm s') = event (arm s).
Proof.
  revert s b. induction n as [|n IH]; intros s b Hl Hb; [by exists s, b|].
  destruct (loops_turn page s b Hl) as (b1 & Hb1 & Ht). cbn [block_loop].
  destruct (IH (there_and_back s) b1) as (s' & b' & H & He); [by apply loops_kept | by rewrite Hb1|].
  exists s', b'. split; [|done]. rewrite (bind_eq _ _ _ _ _ Ht). cbn iota.
  rewrite (bind_eq _ _ _ false (there_and_back s, b1)) by (unfold gets; cbn [snd]; by rewrite Hb1, Hb).
  rewrite (bind_eq _ _ _ false (there_and_back s, b1)).
  2: { unfold on_mach, zoom, gets. cbn [fst snd]. rewrite (loops_no_abort _ _ (loops_kept _ _ Hl)). done. }
  cbn [orb]. exact H.
Qed.
End endless.
