(* ===== verification/DynPc.v ===== *)
(** Which operations of the recompiler build may run with R15 left behind: a
    compiled block brings R15 up to date only before the opcodes for which
    [arm_opcode_needs_pc] holds (arm_dynarec.c). *)

From S2P Require Export DynAbort.

Section pc.
Context {S P : Type} `{!MemSys S P} `{!HostSys S P}.
Local Abbreviation ARM := (M (Mach S P)).
Local Abbreviation DYN := (M (Mach S P * Block)).
Implicit Types s : Mach S P.

(** The same machine with another R15. *)
Definition at_pc (v : Z) s : Mach S P := upd_arm (put_reg 15 v) s.

(** In a 32-bit mode [m] neither uses nor changes R15. *)
Definition pc_free {A} (m : ARM A) : Prop := ∀ v s, cpsr s = 16 →
  match m s with
  | Some (a, s') => m (at_pc v s) = Some (a, at_pc v s') ∧ cpsr s' = 16
  | None => m (at_pc v s) = None
  end.
Definition pc_free_fn {A} (f : Mach S P → A) : Prop := ∀ v s, cpsr s = 16 → f (at_pc v s) = f s.

Lemma free_ret {A} (a : A) : pc_free (mret a).
Proof. by intros v s H. Qed.
Lemma free_gets {A} (f : Mach S P → A) : pc_free_fn f → pc_free (gets f).
Proof. intros Hf v s H. unfold gets. by rewrite Hf. Qed.
Lemma free_bind {A B} (m : ARM A) (k : A → ARM B) :
  pc_free m → (∀ a, pc_free (k a)) → pc_free (m ≫= k).
Proof.
  intros Hm Hk v s H. rewrite bind_run. specialize (Hm v s H). destruct (m s) as [[a s']|].
  - destruct Hm as [E H']. rewrite (bind_eq _ _ _ _ _ E). by apply Hk.
  - by rewrite bind_run, Hm.
Qed.
Lemma free_gets_bind {A B} (f : Mach S P → A) (k : A → ARM B) :
  pc_free_fn f → (∀ a, pc_free (k a)) → pc_free (gets f ≫= k).
Proof. intros Hf. by apply free_bind, free_gets. Qed.
Lemma free_if {A} (c : bool) (m m' : ARM A) : pc_free m → pc_free m' → pc_free (if c then m else m').
Proof. by destruct c. Qed.
Lemma free_when (c : bool) (m : ARM unit) : pc_free m → pc_free (when c m).
Proof. intros H. by apply free_if; [|apply free_ret]. Qed.

Lemma rreg_at_pc r v s : r ≠ 15 → rreg r (at_pc v s) = rreg r s.
Proof. intros H. unfold rreg, at_pc. cbn. by rewrite lookup_total_insert_ne. Qed.
Lemma free_rreg r : r ≠ 15 → pc_free_fn (rreg r).
Proof. intros H v s _. by apply rreg_at_pc. Qed.
Lemma free_GETADDR r : r ≠ 15 → pc_free_fn (GETADDR r).
Proof. intros H v s _. unfold GETADDR. rewrite (proj2 (Z.eqb_neq _ _) H). by apply rreg_at_pc. Qed.

Lemma at_pc_put r x v s : r ≠ 15 → upd_arm (put_reg r x) (at_pc v s) = at_pc v (upd_arm (put_reg r x) s).
Proof. intros H. unfold at_pc, upd_arm, put_reg. destruct s as [[] ???????]; cbn. by rewrite insert_insert_ne. Qed.

Lemma free_wreg r x : r ≠ 15 → pc_free (wreg r x).
Proof. intros H v s Hc. unfold wreg, modify. rewrite at_pc_put by done. by split. Qed.
Lemma free_wpsr x : pc_free (wpsr x).
Proof. intros v s Hc. unfold wpsr, modify. change (cpsr (at_pc v s)) with (cpsr s). rewrite Hc, at_pc_put by done. by split. Qed.
Lemma free_psr : pc_free_fn psr.
Proof. intros v s Hc. unfold psr. change (cpsr (at_pc v s)) with (cpsr s). rewrite Hc. by apply rreg_at_pc. Qed.
Lemma free_CFSET : pc_free_fn CFSET.
Proof. intros v s Hc. unfold CFSET. by rewrite free_psr. Qed.

Lemma free_merge keep flags : pc_free (merge_flags keep flags).
Proof. apply free_gets_bind; [apply free_psr | intros; apply free_wpsr]. Qed.
Lemma free_cflag c : pc_free (set_cflag c).
Proof. apply free_gets_bind; [apply free_psr | intros; apply free_wpsr]. Qed.
Lemma free_imm_cflag o : pc_free (arm_imm_cflag o).
Proof. apply free_bind; [apply free_when, free_cflag | intros; apply free_ret]. Qed.
Lemma free_write_dest o x : RD o ≠ 15 → pc_free (arm_write_dest o x).
Proof. intros H. unfold arm_write_dest. rewrite (proj2 (Z.eqb_neq _ _) H). by apply free_wreg. Qed.

(** The register forms: R15 may be the shift amount of none of them. *)
Section shifter.
Context (o : Z) (Hm : RM o ≠ 15) (Hs : nz (o .& 0x10) = true → MULRS o ≠ 15).

Lemma free_amount : pc_free_fn (shiftamount o).
Proof. intros v s _. unfold shiftamount. destruct (nz _) eqn:E; [|done].
  by rewrite rreg_at_pc by exact (Hs eq_refl). Qed.
Lemma free_shift2 : pc_free_fn (shift2 o).
Proof.
  intros v s Hc. unfold shift2, shift4.
  rewrite (free_amount v s Hc), (free_CFSET v s Hc), (rreg_at_pc _ v s Hm). reflexivity.
Qed.
Lemma free_shift : pc_free (shift o).
Proof.
  apply free_if; [|by apply free_gets, free_rreg].
  apply free_gets_bind; [apply free_CFSET | intros c]. apply free_gets_bind; [apply free_amount | intros n].
  apply free_gets_bind; [by apply free_rreg | intros x]. set (r := if _ =? 0 then _ else _). destruct r as [y [b|]];
    (apply free_bind; [|intros; apply free_ret]); [apply free_cflag | apply free_ret].
Qed.
End shifter.
End pc.

Create HintDb pcfree discriminated.
#[export] Hint Resolve free_ret free_wpsr free_merge free_imm_cflag free_write_dest free_wreg
  free_rreg free_GETADDR free_CFSET free_shift free_shift2 : pcfree.

Section table.
Context {S P : Type} `{!MemSys S P} `{!HostSys S P}.
Implicit Types s : Mach S P.

(** The same for the operations. *)
Definition op_pc_free (d : M (Mach S P * Block) Z) : Prop := ∀ v s b, cpsr s = 16 →
  match d (s, b) with
  | Some (r, (s', b')) => d (at_pc v s, b) = Some (r, (at_pc v s', b'))
  | None => d (at_pc v s, b) = None
  end.

Lemma free_done (m : M (Mach S P) unit) : pc_free m → op_pc_free (done m).
Proof.
  intros H v s b Hc. specialize (H v s Hc). unfold done. rewrite !bind_run. unfold on_mach, zoom. cbn [fst snd].
  destruct (m s) as [[[] s']|]; [destruct H as [-> _] | rewrite H]; done.
Qed.

(** Neither the operands nor the destination are R15. *)
Section operands.
Context (o : Z) (Hn : RN o ≠ 15) (Hd : RD o ≠ 15).

Local Ltac operand := first [exact Hn | exact Hd | assumption].
Local Ltac free_walk :=
  repeat (cbv beta zeta;
  match goal with
  | |- ∀ _, _ => intro
  | |- pc_free (gets _ ≫= _) => apply free_gets_bind
  | |- pc_free (_ ≫= _) => apply free_bind
  | |- pc_free (if RD o =? 15 then _ else _) => rewrite (proj2 (Z.eqb_neq _ _) Hd)
  | |- pc_free_fn (λ s, _) =>
      let v := fresh in let s := fresh in let Hc := fresh in
      intros v s Hc; rewrite ?(free_CFSET v s Hc), ?(free_GETADDR _ Hn v s Hc);
      try rewrite free_shift2 by first [assumption | operand];
      rewrite ?rreg_at_pc by operand; reflexivity
  | |- pc_free (wreg _ _) => apply free_wreg; operand
  | |- _ => solve [eauto with pcfree nocore]
  end).

Local Ltac entry :=
  match goal with |- context [opcodes !! ?n] =>
    let f := eval hnf in (opcodes (S:=S) (P:=P) !! n) in change (opcodes !! n) with f end;
  cbv beta iota delta [from_option id];
  match goal with |- op_pc_free ?d => let h := head_of d in unfold h end;
  apply free_done.

Lemma free_imm j : 0x20 ≤ j < 0x40 → (j .& 0x19 =? 0x10) = false →
  op_pc_free (default opUNALLOC (opcodes !! Z.to_nat j) o).
Proof.
  intros Hj Hx. each_value j 0x20 0x40 ltac:(clear Hj; first [discriminate Hx | clear Hx; entry; free_walk]).
Qed.

Context (Hm : RM o ≠ 15) (Hs : nz (o .& 0x10) = true → MULRS o ≠ 15).

Lemma mul_operand : (o .& 0xf0 =? 0x90) = true → MULRS o ≠ 15.
Proof.
  intros E%Z.eqb_eq. apply Hs. change 0x10 with (0xf0 .& 0x10). by rewrite Z.land_assoc, E.
Qed.

Local Ltac reg_walk :=
  repeat (cbv beta zeta;
  match goal with
  | |- pc_free (if o .& 0xf0 =? 0x90 then _ else _) =>
      let E := fresh in destruct (o .& 0xf0 =? 0x90) eqn:E; [pose proof (mul_operand E)|]; clear E
  | |- pc_free (if ?v && (o .& 0xf0 =? 0x90) then _ else _) =>
      let E := fresh in destruct (v && (o .& 0xf0 =? 0x90)) eqn:E;
      [apply andb_true_iff in E as [_ ?%mul_operand] | clear E]
  | |- pc_free_fn (λ s, _) =>
      let v := fresh in let s := fresh in let Hc := fresh in
      intros v s Hc; rewrite ?(free_CFSET v s Hc), ?(free_GETADDR _ Hn v s Hc), ?(free_shift2 o Hm Hs v s Hc),
        ?rreg_at_pc by operand; reflexivity
  | |- pc_free_fn (shift2 _) => exact (free_shift2 o Hm Hs)
  | |- pc_free (shift _) => exact (free_shift o Hm Hs)
  | |- pc_free_fn (rreg _) => apply free_rreg; operand
  | |- _ => progress free_walk
  end).

Lemma free_reg j : 0 ≤ j < 0x20 → (j .& 0x19 =? 0x10) = false →
  op_pc_free (default opUNALLOC (opcodes !! Z.to_nat j) o).
Proof.
  intros Hj Hx. each_value j 0 0x20 ltac:(clear Hj; first [discriminate Hx | clear Hx; entry; reg_walk]).
Qed.
End operands.

(** The masks of [arm_opcode_needs_pc] on the label. *)
Lemma label_mask o m : 0 ≤ m < 256 → o .& Z.shiftl m 20 = Z.shiftl (((o .>> 20) .& 0xff) .& m) 20.
Proof.
  intros Hm. rewrite land_shiftl_mask by done. f_equal. rewrite <- Z.land_assoc. f_equal. rewrite Z.land_comm.
  change 0xff with (Z.ones 8). rewrite Z.land_ones by done. symmetry. by apply Z.mod_small.
Qed.

Definition label_test (j : Z) : bool :=
  implb ((Z.shiftl (j .& 0xc0) 20 =? 0) && negb (Z.shiftl (j .& 0xd9) 20 =? 0x1000000))
    ((j <? 0x40) && negb (j .& 0x19 =? 0x10) && eqb (Z.shiftl (j .& 0x20) 20 =? 0) (j <? 0x20)).
Lemma label_tests j : 0 ≤ j < 256 → label_test j = true.
Proof.
  intros Hj. assert (forallb label_test (seqZ 0 256) = true) as H by (vm_compute; reflexivity).
  rewrite forallb_forall in H. apply H, list_elem_of_In, elem_of_seqZ. lia.
Qed.

Lemma needs_pc_sound v4 o : arm_opcode_needs_pc v4 o = false →
  (o .& 0x2000000 = 0 → nz (o .& 0x10) = true → MULRS o ≠ 15) → op_pc_free (arm_opcode_fn v4 o o).
Proof.
  unfold arm_opcode_needs_pc, arm_opcode_fn. pose proof (label_range o) as Hj. intros H Hs.
  destruct (nz (o .& 0xc000000)) eqn:E1; [done|]. apply negb_false_iff, Z.eqb_eq in E1.
  destruct (Z.eqb_spec (o .& 0xd900000) 0x1000000) as [|E2]; [done|].
  destruct (Z.eqb_spec (RN o) 15) as [|Hn]; [done|]. destruct (Z.eqb_spec (RD o) 15) as [|Hd]; [done|].
  cbn [orb] in H. destruct (_ && (RM o =? 15)) eqn:E3; [done|].
  change 0xc000000 with (Z.shiftl 0xc0 20) in E1. change 0xd900000 with (Z.shiftl 0xd9 20) in E2.
  change 0x2000000 with (Z.shiftl 0x20 20) in Hs, E3. rewrite label_mask in E1, E2, E3, Hs by done.
  pose proof (label_tests _ Hj) as Ht. unfold label_test in Ht. apply Z.eqb_eq in E1. apply Z.eqb_neq in E2.
  rewrite E1, E2 in Ht. cbn [implb negb andb] in Ht. apply andb_true_iff in Ht as [[Hl Hx]%andb_true_iff Hr%eqb_prop].
  apply Z.ltb_lt in Hl. apply negb_true_iff in Hx.
  assert (op_pc_free (default opUNALLOC (opcodes !! Z.to_nat ((o .>> 20) .& 0xff)) o)) as Ht.
  { destruct (Z.shiftl _ 20 =? 0) eqn:E in Hr.
    - rewrite E in E3. apply free_reg; [done..| by apply Z.eqb_neq | by apply Hs, Z.eqb_eq | | done].
      symmetry in Hr. apply Z.ltb_lt in Hr. lia.
    - apply free_imm; [done.. | | done]. symmetry in Hr. apply Z.ltb_ge in Hr. lia. }
  destruct (nz v4); [|done]. cbn [andb] in H.
  destruct (_ =? 0xb0); [discriminate H|]. destruct (_ =? 0x1000d0); [discriminate H | exact Ht].
Qed.
End table.
