(* ===== verification/DynTheorems.v ===== *)
(** What is proved of the recompiler build of the core: its operations against
    the interpreter build's, and its interpreted blocks. *)

From S2P Require Import ArmFlat DynLoop DynPc.

Section statements.
Context {S P : Type} `{!MemSys S P, !HostSys S P}.
Implicit Types (s : Mach S P) (b : Block).

(** C18: on any opcode in any state, the operation the recompiler build selects
    does to the core and to everything behind it exactly what the interpreter
    build's switch does. *)
Theorem builds_agree opcode s b :
  match execute opcode s with
  | Some (_, s') => ∃ r b', run_opcode opcode (s, b) = Some (r, (s', b'))
  | None => run_opcode opcode (s, b) = None
  end.
Proof. exact (same_execute opcode s b). Qed.

(** The result an operation returns to a compiled block is non-zero exactly
    when a data abort is pending, and no operation for which
    [arm_opcode_may_abort] is false leaves one pending, so the test that
    compiled code omits after it would not have been taken (coprocessor
    operations and SWIs, which end a block, aside). *)
Theorem aborts_are_reported opcode s b r s' b' :
  (opcode .>> 20) .& 0xff < 0xc0 → aborted s = false →
  run_opcode opcode (s, b) = Some (r, (s', b')) →
  nz r = aborted s' ∧ (arm_opcode_may_abort (arch_v4 (arm s)) opcode = false → aborted s' = false).
Proof.
  intros Hl Ha Hr. rewrite run_opcode_at in Hr.
  destruct (opcode_fn_reports (S:=S) (P:=P) (arch_v4 (arm s)) opcode Hl) as [H1 H2].
  split; [exact (hoare_run _ _ _ (s, b) _ _ H1 Ha Hr)|].
  intros Hq. by destruct (hoare_run _ _ _ (s, b) _ _ (H2 Hq) Ha Hr) as [_ ?].
Qed.

(** In a 32-bit mode, an opcode for which [arm_opcode_needs_pc] is false
    neither uses nor changes R15, so compiled code may run it with R15 left at
    any earlier value - unless it takes a shift amount or a multiplier from R15,
    which the predicate does not look at. *)
Theorem stale_pc_is_unseen opcode v s b :
  arm_opcode_needs_pc (arch_v4 (arm s)) opcode = false →
  (opcode .& 0x2000000 = 0 → nz (opcode .& 0x10) = true → MULRS opcode ≠ 15) →
  cpsr s = 16 →
  match run_opcode opcode (s, b) with
  | Some (r, (s', b')) => run_opcode opcode (at_pc v s, b) = Some (r, (at_pc v s', b'))
  | None => run_opcode opcode (at_pc v s, b) = None
  end.
Proof. intros Hn Hs Hc. rewrite !run_opcode_at. by apply needs_pc_sound. Qed.

(** C19: a block that the recompiler build interprets, with no event pending
    before or after any of its instructions and each next instruction in the
    page that was fetched, is one to [n] steps of the interpreter build. *)
Theorem block_is_steps n page s b sb' :
  calm s → in_page page s → undisturbed n page (s, set_blockend 0 b) →
  interpret_block n (s, b) = Some (Some false, sb') →
  ∃ k, (1 ≤ k ≤ n)%nat ∧ steps k s = Some (false, fst sb').
Proof. apply interpret_block_steps. Qed.

(** A MUL into R15 whose product is its own address does not end a block:
    however many turns the block is given it goes on, with every interrupt that
    is pending left pending. *)
Theorem block_without_end n page s b :
  loops page s → blockend b = 0 →
  ∃ s' b', block_loop n page (s, b) = Some (None, (s', b')) ∧ event (arm s') = event (arm s).
Proof. apply loops_forever. Qed.
End statements.

Definition block0 : Block := mkBlock 0 0.
Definition dyn_machine (r1 r2 opcode : Z) : Mach flat unit :=
  flat_machine 0x10 1 (regs_of [0; r1; r2; 0; 0; 0; 0; 0; 0; 0; 0; 0; 0; 0; 0; 0x7018; 0x60000010])
    (program 0x7010 [opcode]).

(** LDR R0, [R1] of an address that aborts *)
Theorem aborts_are_reported_witness :
  ∃ r s' b', run_opcode 0xe5910000 (dyn_machine 0x9000 0 0, block0) = Some (r, (s', b')) ∧
    nz r = true ∧ aborted s' = true.
Proof.
  destruct (run_opcode 0xe5910000 (dyn_machine 0x9000 0 0, block0)) as [[r [s' b']]|] eqn:E; [|by vm_compute in E].
  exists r, s', b'. split; [done|].
  pose proof (aborts_are_reported 0xe5910000 (dyn_machine 0x9000 0 0) block0 r s' b' ltac:(by vm_compute) ltac:(by vm_compute) E) as [H _].
  assert (nz r = true) as Hr.
  { assert (match run_opcode 0xe5910000 (dyn_machine 0x9000 0 0, block0) with Some (x, _) => nz x = true | None => False end)
      as Hx by by vm_compute. by rewrite E in Hx. }
  by rewrite <- H.
Defined.

(** ADDS R0, R1, R2, LSL #3 *)
Theorem stale_pc_is_unseen_witness :
  ∃ r s' b', run_opcode 0xe0910182 (dyn_machine 5 7 0, block0) = Some (r, (s', b')) ∧ rreg 0 s' = 61 ∧
    run_opcode 0xe0910182 (at_pc 0x1234 (dyn_machine 5 7 0), block0) = Some (r, (at_pc 0x1234 s', b')).
Proof.
  pose proof (stale_pc_is_unseen 0xe0910182 0x1234 (dyn_machine 5 7 0) block0
    ltac:(by vm_compute) ltac:(by vm_compute) ltac:(by vm_compute)) as H.
  destruct (run_opcode 0xe0910182 (dyn_machine 5 7 0, block0)) as [[r [s' b']]|] eqn:E; [|by vm_compute in E].
  exists r, s', b'. split; [done|]. split; [|exact H].
  assert (match run_opcode 0xe0910182 (dyn_machine 5 7 0, block0) with Some (_, (x, _)) => rreg 0 x = 61 | None => False end)
    as Hx by by vm_compute. by rewrite E in Hx.
Defined.

(** ADD R0, R1, R2; B . - 8 *)
Definition block_machine : Mach flat unit :=
  set_pccache2 (Some tt) (set_pccache 7
    (flat_machine 0x10 1 (regs_of [0; 5; 7; 0; 0; 0; 0; 0; 0; 0; 0; 0; 0; 0; 0; 0x7008; 0x60000010])
      (program 0x7000 [0xe0810002; 0xeafffffb]))).

Theorem block_is_steps_witness :
  ∃ sb' k, interpret_block 5 (block_machine, block0) = Some (Some false, sb') ∧
    rreg 0 (fst sb') = 12 ∧ (1 ≤ k ≤ 5)%nat ∧ steps k block_machine = Some (false, fst sb').
Proof.
  assert (undisturbed 5 tt (block_machine, set_blockend 0 block0)) as Hu by (vm_compute; intuition discriminate).
  assert (calm block_machine) as Hc by (by vm_compute).
  assert (in_page tt block_machine) as Hp by (by vm_compute).
  destruct (interpret_block 5 (block_machine, block0)) as [[r sb']|] eqn:E; [|by vm_compute in E].
  assert (match interpret_block 5 (block_machine, block0) with
          | Some (Some false, x) => rreg 0 (fst x) = 12 | _ => False end) as Hx by by vm_compute.
  rewrite E in Hx. destruct r as [[]|]; [destruct Hx | | destruct Hx].
  destruct (block_is_steps 5 tt block_machine block0 sb') as (k & Hk & Hs);
    [exact Hc | exact Hp | exact Hu | exact E |].
  exists sb', k. exact (conj eq_refl (conj Hx (conj Hk Hs))).
Defined.

Theorem block_without_end_witness :
  ∃ s' b', block_loop 1000 tt (dyn_machine 0x7014 1 mul_r15, block0) = Some (None, (s', b')) ∧
    event (arm s') = event (arm (dyn_machine 0x7014 1 mul_r15)).
Proof.
  apply (block_without_end 1000 tt (dyn_machine 0x7014 1 mul_r15) block0); [|done].
  split; by vm_compute.
Defined.
