(* ===== verification/Rv32.v ===== *)
(** The RV32IM processor of the co-processor card (copro/cpu_rv32i.c): its state,
    its accesses to memory through an array or a hook (copro/cpu_mem.h), and the
    execution of its instructions. [None] is an access outside the array. *)

From S2P Require Export Word.
From stdpp Require Import strings.
#[local] Open Scope Z_scope.

(** * The memory behind the processor *)

Inductive cpu_mem_result := CPU_MEM_OK | CPU_MEM_STALL | CPU_MEM_BUSERROR.

(** Which of the hook's pointers are set, and [can_stall]. *)
Record cpu_mem_hook := mkHook { hook_read : bool; hook_write : bool; hook_can_stall : Z }.
Definition no_hook : cpu_mem_hook := mkHook false false 0.

Record rv32i_state := mkRv {
  rv_x : gmap Z Z;
  rv_pc : Z;
  rv_has_ram : bool;
  rv_ram_size : Z;
  rv_halted : Z;
  rv_halt_reason : Z;
  rv_exit_code : Z;
  rv_faulted : Z;
  rv_fault_cause : Z;
  rv_fault_addr : Z;
  rv_cycles : Z;
  rv_mem : cpu_mem_hook;
  rv_stalled : Z;
  rv_stall_addr : Z;
  rv_stall_is_write : Z;
  rv_saved : gmap Z Z * Z
}.
Definition rv_set_x v (s : rv32i_state) : rv32i_state :=
  mkRv v (rv_pc s) (rv_has_ram s) (rv_ram_size s) (rv_halted s) (rv_halt_reason s)
    (rv_exit_code s) (rv_faulted s) (rv_fault_cause s) (rv_fault_addr s) (rv_cycles s)
    (rv_mem s) (rv_stalled s) (rv_stall_addr s) (rv_stall_is_write s) (rv_saved s).
Definition rv_set_pc v (s : rv32i_state) : rv32i_state :=
  mkRv (rv_x s) v (rv_has_ram s) (rv_ram_size s) (rv_halted s) (rv_halt_reason s)
    (rv_exit_code s) (rv_faulted s) (rv_fault_cause s) (rv_fault_addr s) (rv_cycles s)
    (rv_mem s) (rv_stalled s) (rv_stall_addr s) (rv_stall_is_write s) (rv_saved s).
Definition rv_set_ram p size (s : rv32i_state) : rv32i_state :=
  mkRv (rv_x s) (rv_pc s) p size (rv_halted s) (rv_halt_reason s) (rv_exit_code s)
    (rv_faulted s) (rv_fault_cause s) (rv_fault_addr s) (rv_cycles s) (rv_mem s) (rv_stalled s)
    (rv_stall_addr s) (rv_stall_is_write s) (rv_saved s).
Definition rv_set_halt h reason code (s : rv32i_state) : rv32i_state :=
  mkRv (rv_x s) (rv_pc s) (rv_has_ram s) (rv_ram_size s) h reason code (rv_faulted s)
    (rv_fault_cause s) (rv_fault_addr s) (rv_cycles s) (rv_mem s) (rv_stalled s)
    (rv_stall_addr s) (rv_stall_is_write s) (rv_saved s).
Definition rv_set_fault f cause addr (s : rv32i_state) : rv32i_state :=
  mkRv (rv_x s) (rv_pc s) (rv_has_ram s) (rv_ram_size s) (rv_halted s) (rv_halt_reason s)
    (rv_exit_code s) f cause addr (rv_cycles s) (rv_mem s) (rv_stalled s) (rv_stall_addr s)
    (rv_stall_is_write s) (rv_saved s).
Definition rv_set_cycles v (s : rv32i_state) : rv32i_state :=
  mkRv (rv_x s) (rv_pc s) (rv_has_ram s) (rv_ram_size s) (rv_halted s) (rv_halt_reason s)
    (rv_exit_code s) (rv_faulted s) (rv_fault_cause s) (rv_fault_addr s) v (rv_mem s)
    (rv_stalled s) (rv_stall_addr s) (rv_stall_is_write s) (rv_saved s).
Definition rv_set_mem v (s : rv32i_state) : rv32i_state :=
  mkRv (rv_x s) (rv_pc s) (rv_has_ram s) (rv_ram_size s) (rv_halted s) (rv_halt_reason s)
    (rv_exit_code s) (rv_faulted s) (rv_fault_cause s) (rv_fault_addr s) (rv_cycles s) v
    (rv_stalled s) (rv_stall_addr s) (rv_stall_is_write s) (rv_saved s).
Definition rv_set_stall st addr w (s : rv32i_state) : rv32i_state :=
  mkRv (rv_x s) (rv_pc s) (rv_has_ram s) (rv_ram_size s) (rv_halted s) (rv_halt_reason s)
    (rv_exit_code s) (rv_faulted s) (rv_fault_cause s) (rv_fault_addr s) (rv_cycles s)
    (rv_mem s) st addr w (rv_saved s).
Definition rv_set_stalled v (s : rv32i_state) : rv32i_state :=
  mkRv (rv_x s) (rv_pc s) (rv_has_ram s) (rv_ram_size s) (rv_halted s) (rv_halt_reason s)
    (rv_exit_code s) (rv_faulted s) (rv_fault_cause s) (rv_fault_addr s) (rv_cycles s)
    (rv_mem s) v (rv_stall_addr s) (rv_stall_is_write s) (rv_saved s).
Definition rv_set_saved v (s : rv32i_state) : rv32i_state :=
  mkRv (rv_x s) (rv_pc s) (rv_has_ram s) (rv_ram_size s) (rv_halted s) (rv_halt_reason s)
    (rv_exit_code s) (rv_faulted s) (rv_fault_cause s) (rv_fault_addr s) (rv_cycles s)
    (rv_mem s) (rv_stalled s) (rv_stall_addr s) (rv_stall_is_write s) v.

(** What the pointers lead to: the array, and the functions of a hook, which are
    given the processor too, since the card keeps the two side by side. *)
Class CpuMem (W : Type) := {
  cm_ram : W → list Z;
  cm_set_ram : list Z → W → W;
  cm_read : Z → M (rv32i_state * W) (cpu_mem_result * Z);
  cm_write : Z → Z → M (rv32i_state * W) cpu_mem_result
}.

(** * Causes and opcodes *)

Definition RV32I_REGS : Z := 32.
Definition RV32I_FAULT_INSN_MISALIGNED : Z := 0.
Definition RV32I_FAULT_INSN_ACCESS : Z := 1.
Definition RV32I_FAULT_ILLEGAL : Z := 2.
Definition RV32I_FAULT_LOAD_MISALIGNED : Z := 4.
Definition RV32I_FAULT_LOAD_ACCESS : Z := 5.
Definition RV32I_FAULT_STORE_MISALIGNED : Z := 6.
Definition RV32I_FAULT_STORE_ACCESS : Z := 7.
Definition RV32I_HALT_ECALL : Z := 1.
Definition RV32I_HALT_EBREAK : Z := 2.

Definition OP_LUI : Z := 0x37.
Definition OP_AUIPC : Z := 0x17.
Definition OP_JAL : Z := 0x6f.
Definition OP_JALR : Z := 0x67.
Definition OP_BRANCH : Z := 0x63.
Definition OP_LOAD : Z := 0x03.
Definition OP_STORE : Z := 0x23.
Definition OP_OP_IMM : Z := 0x13.
Definition OP_OP : Z := 0x33.
Definition OP_MISC_MEM : Z := 0x0f.
Definition OP_SYSTEM : Z := 0x73.

(** * Arithmetic *)

Definition sign_extend (val bits : Z) : Z :=
  let mask := if 32 <=? bits then 0xffffffff else shl32 1 bits - 1 in
  let sign := if 32 <=? bits then 0x80000000 else shl32 1 (bits - 1) in
  let val := val .& mask in
  if nz (val .& sign) then val .| not32 mask else val.

Definition sra32 (val sh : Z) : Z :=
  let sh := sh .& 31 in
  if nz (val .& 0x80000000) then (val .>> sh) .| not32 (0xffffffff .>> sh) else val .>> sh.

Definition alu (funct3 a b : Z) (is_imm alt : bool) : Z :=
  match funct3 with
  | 0 => if negb is_imm && alt then sub32 a b else add32 a b
  | 1 => shl32 a (b .& 31)
  | 2 => if s32 a <? s32 b then 1 else 0
  | 3 => if a <? b then 1 else 0
  | 4 => a .^ b
  | 5 => if alt then sra32 a (b .& 31) else a .>> (b .& 31)
  | 6 => a .| b
  | _ => a .& b
  end.

(** [/] and [%] of C round towards zero. *)
Definition muldiv (funct3 a b : Z) : Z :=
  let sa := s32 a in
  let sb := s32 b in
  match funct3 with
  | 0 => mul32 a b
  | 1 => u32 (u64 (sa * sb) .>> 32)
  | 2 => u32 (u64 (sa * b) .>> 32)
  | 3 => u32 (u64 (a * b) .>> 32)
  | 4 => if sb =? 0 then 0xffffffff
         else if (sa =? -0x80000000) && (sb =? -1) then 0x80000000 else u32 (Z.quot sa sb)
  | 5 => if b =? 0 then 0xffffffff else a / b
  | 6 => if sb =? 0 then a
         else if (sa =? -0x80000000) && (sb =? -1) then 0 else u32 (Z.rem sa sb)
  | _ => if b =? 0 then a else a mod b
  end.

Definition branch_taken (funct3 a b : Z) : Z :=
  let truth (c : bool) : Z := if c then 1 else 0 in
  match funct3 with
  | 0 => truth (a =? b)
  | 1 => truth (negb (a =? b))
  | 4 => truth (s32 a <? s32 b)
  | 5 => truth (s32 b <=? s32 a)
  | 6 => truth (a <? b)
  | 7 => truth (b <=? a)
  | _ => -1
  end.

Definition in_range (s : rv32i_state) (addr len : Z) : bool :=
  if hook_read (rv_mem s) || hook_write (rv_mem s) then true
  else if negb (rv_has_ram s) || (rv_ram_size s <? len) then false
  else addr <=? rv_ram_size s - len.

(** * Resetting *)

Definition rv32i_reset (entry : Z) (s : rv32i_state) : rv32i_state :=
  rv_set_stall 0 0 0 (rv_set_cycles 0 (rv_set_fault 0 0 0 (rv_set_halt 0 0 0
    (rv_set_pc entry (rv_set_x (arr_fill 0 (Z.to_nat RV32I_REGS) (λ _, 0) (rv_x s)) s))))).

Definition rv32i_init (has_ram : bool) (ram_size : Z) (s : rv32i_state) : rv32i_state :=
  rv_set_ram has_ram ram_size (rv32i_reset 0 (rv_set_mem no_hook s)).

Definition rv32i_set_mem_hook (hook : option cpu_mem_hook) (s : rv32i_state) : rv32i_state :=
  rv_set_stalled 0 (rv_set_mem (match hook with None => no_hook | Some h => h end) s).

Definition set_reg (rd val : Z) (s : rv32i_state) : rv32i_state :=
  if rd =? 0 then s else rv_set_x (<[rd := val]> (rv_x s)) s.

Section step.
Context {W : Type} `{!CpuMem W}.
Local Abbreviation RV := (M (rv32i_state * W)).

Definition rv_cpu (f : rv32i_state → rv32i_state) : RV unit := modify (λ sw, (f (fst sw), snd sw)).
Definition rv_get {A} (f : rv32i_state → A) : RV A := gets (λ sw, f (fst sw)).

(** * Loads and stores *)

Definition fault (cause addr : Z) : RV unit := rv_cpu (rv_set_fault 1 cause addr).

(** [s->ram[i]] *)
Definition ram_get (i : Z) : RV Z := λ sw,
  match cm_ram (snd sw) !! Z.to_nat i with Some b => Some (b, sw) | None => None end.
Definition ram_put (i v : Z) : RV unit := λ '(s, w),
  if Z.of_nat (length (cm_ram w)) <=? i then None
  else Some (tt, (s, cm_set_ram (<[Z.to_nat i := u8 v]> (cm_ram w)) w)).

Definition load8 (addr : Z) : RV Z :=
  hooked ← rv_get (λ s, hook_read (rv_mem s));
  if (hooked : bool) then
    r ← cm_read addr;
    match r with
    | (CPU_MEM_OK, val) => mret val
    | (CPU_MEM_STALL, _) => rv_cpu (rv_set_stall 1 addr 0);; mret 0
    | (CPU_MEM_BUSERROR, _) => fault RV32I_FAULT_LOAD_ACCESS addr;; mret 0
    end
  else ram_get addr.

Definition store8 (addr val : Z) : RV unit :=
  hooked ← rv_get (λ s, hook_write (rv_mem s));
  if (hooked : bool) then
    r ← cm_write addr (u8 val);
    match r with
    | CPU_MEM_OK => mret tt
    | CPU_MEM_STALL => rv_cpu (rv_set_stall 1 addr 1)
    | CPU_MEM_BUSERROR => fault RV32I_FAULT_STORE_ACCESS addr
    end
  else ram_put addr val.

Definition load32 (addr : Z) : RV Z :=
  hooked ← rv_get (λ s, hook_read (rv_mem s));
  let byte := if (hooked : bool) then λ i, load8 (add32 addr i) else λ i, ram_get (addr + i) in
  b0 ← byte 0; b1 ← byte 1; b2 ← byte 2; b3 ← byte 3;
  mret (b0 .| shl32 b1 8 .| shl32 b2 16 .| shl32 b3 24).

Definition load16 (addr : Z) : RV Z :=
  hooked ← rv_get (λ s, hook_read (rv_mem s));
  let byte := if (hooked : bool) then λ i, load8 (add32 addr i) else λ i, ram_get (addr + i) in
  b0 ← byte 0; b1 ← byte 1;
  mret (b0 .| shl32 b1 8).

Definition store32 (addr val : Z) : RV unit :=
  hooked ← rv_get (λ s, hook_write (rv_mem s));
  let byte := if (hooked : bool) then λ i, store8 (add32 addr i) else λ i, ram_put (addr + i) in
  byte 0 (u8 val);; byte 1 (u8 (val .>> 8));; byte 2 (u8 (val .>> 16));; byte 3 (u8 (val .>> 24)).

Definition store16 (addr val : Z) : RV unit :=
  hooked ← rv_get (λ s, hook_write (rv_mem s));
  let byte := if (hooked : bool) then λ i, store8 (add32 addr i) else λ i, ram_put (addr + i) in
  byte 0 (u8 val);; byte 1 (u8 (val .>> 8)).

(** * Instructions *)

(** How a case of the [switch] ends: [break] with the next PC, or [return]. *)
Inductive flow := Break (next_pc : Z) | Return (n : Z).

Definition faulting (cause addr : Z) : RV flow := fault cause addr;; mret (Return 0).
Definition rv_reg (r : Z) : RV Z := rv_get (λ s, rv_x s !!! r).
Definition rv_set_reg (rd val : Z) : RV unit := rv_cpu (set_reg rd val).

(** A load or store of [len] bytes at [addr], if it is aligned and in range. *)
Definition rv_access (misaligned access len addr : Z) (k : RV flow) : RV flow :=
  if nz (addr .& (len - 1)) then faulting misaligned addr
  else ok ← rv_get (λ s, in_range s addr len);
       if (ok : bool) then k else faulting access addr.

Section fields.
Context (pc insn : Z).
Definition f_opcode : Z := insn .& 0x7f.
Definition f_rd : Z := (insn .>> 7) .& 0x1f.
Definition f_funct3 : Z := (insn .>> 12) .& 0x7.
Definition f_rs1 : Z := (insn .>> 15) .& 0x1f.
Definition f_rs2 : Z := (insn .>> 20) .& 0x1f.
Definition f_funct7 : Z := (insn .>> 25) .& 0x7f.
Definition next_pc : Z := add32 pc 4.

Definition op_jal : RV flow :=
  let imm := Z.shiftl ((insn .>> 31) .& 1) 20 .| Z.shiftl ((insn .>> 21) .& 0x3ff) 1 .|
             Z.shiftl ((insn .>> 20) .& 1) 11 .| Z.shiftl ((insn .>> 12) .& 0xff) 12 in
  let imm := sign_extend imm 21 in
  rv_set_reg f_rd next_pc;; mret (Break (add32 pc imm)).

Definition op_jalr : RV flow :=
  if negb (f_funct3 =? 0) then faulting RV32I_FAULT_ILLEGAL insn else
  let imm := sign_extend (insn .>> 20) 12 in
  a ← rv_reg f_rs1;
  let addr := add32 a imm .&~ 1 in
  rv_set_reg f_rd next_pc;; mret (Break addr).

Definition op_branch : RV flow :=
  a ← rv_reg f_rs1;
  b ← rv_reg f_rs2;
  let taken := branch_taken f_funct3 a b in
  if taken <? 0 then faulting RV32I_FAULT_ILLEGAL insn
  else if nz taken then
    let imm := Z.shiftl ((insn .>> 31) .& 1) 12 .| Z.shiftl ((insn .>> 25) .& 0x3f) 5 .|
               Z.shiftl ((insn .>> 8) .& 0xf) 1 .| Z.shiftl ((insn .>> 7) .& 1) 11 in
    mret (Break (add32 pc (sign_extend imm 13)))
  else mret (Break next_pc).

Definition op_load : RV flow :=
  let imm := sign_extend (insn .>> 20) 12 in
  base ← rv_reg f_rs1;
  let addr := add32 base imm in
  let access := rv_access RV32I_FAULT_LOAD_MISALIGNED RV32I_FAULT_LOAD_ACCESS in
  match f_funct3 with
  | 0 | 4 =>
      access 1 addr (a ← load8 addr;
        rv_set_reg f_rd (if f_funct3 =? 0 then sign_extend a 8 else a);; mret (Break next_pc))
  | 1 | 5 =>
      access 2 addr (a ← load16 addr;
        rv_set_reg f_rd (if f_funct3 =? 1 then sign_extend a 16 else a);; mret (Break next_pc))
  | 2 =>
      access 4 addr (a ← load32 addr; rv_set_reg f_rd a;; mret (Break next_pc))
  | _ => faulting RV32I_FAULT_ILLEGAL insn
  end.

Definition op_store : RV flow :=
  let imm := sign_extend (Z.shiftl (insn .>> 25) 5 .| ((insn .>> 7) .& 0x1f)) 12 in
  base ← rv_reg f_rs1;
  let addr := add32 base imm in
  b ← rv_reg f_rs2;
  let access := rv_access RV32I_FAULT_STORE_MISALIGNED RV32I_FAULT_STORE_ACCESS in
  match f_funct3 with
  | 0 => access 1 addr (store8 addr (u8 b);; mret (Break next_pc))
  | 1 => access 2 addr (store16 addr b;; mret (Break next_pc))
  | 2 => access 4 addr (store32 addr b;; mret (Break next_pc))
  | _ => faulting RV32I_FAULT_ILLEGAL insn
  end.

Definition op_op_imm : RV flow :=
  let imm := sign_extend (insn .>> 20) 12 in
  a ← rv_reg f_rs1;
  if (f_funct3 =? 1) || (f_funct3 =? 5) then
    if nz (f_funct7 .&~ 0x20) then faulting RV32I_FAULT_ILLEGAL insn else
    rv_set_reg f_rd (alu f_funct3 a f_rs2 false (nz (f_funct7 .& 0x20)));; mret (Break next_pc)
  else rv_set_reg f_rd (alu f_funct3 a imm true false);; mret (Break next_pc).

Definition op_op : RV flow :=
  a ← rv_reg f_rs1;
  b ← rv_reg f_rs2;
  if f_funct7 =? 1 then rv_set_reg f_rd (muldiv f_funct3 a b);; mret (Break next_pc)
  else if (f_funct7 =? 0) || (f_funct7 =? 0x20) then
    if (f_funct7 =? 0x20) && negb (f_funct3 =? 0) && negb (f_funct3 =? 5)
    then faulting RV32I_FAULT_ILLEGAL insn
    else rv_set_reg f_rd (alu f_funct3 a b false (f_funct7 =? 0x20));; mret (Break next_pc)
  else faulting RV32I_FAULT_ILLEGAL insn.

Definition op_misc_mem : RV flow :=
  if negb (f_funct3 =? 0) && negb (f_funct3 =? 1) then faulting RV32I_FAULT_ILLEGAL insn
  else mret (Break next_pc).

Definition op_system : RV flow :=
  if negb (f_funct3 =? 0) || negb (f_rd =? 0) || negb (f_rs1 =? 0)
  then faulting RV32I_FAULT_ILLEGAL insn else
  let imm := insn .>> 20 in
  if (imm =? 0) || (imm =? 1) then
    rv_cpu (λ s, rv_set_halt 1 (if imm =? 0 then RV32I_HALT_ECALL else RV32I_HALT_EBREAK) (rv_x s !!! 10) s);;
    rv_cpu (λ s, rv_set_cycles (u64 (rv_cycles s + 1)) (rv_set_pc next_pc s));;
    mret (Return 1)
  else faulting RV32I_FAULT_ILLEGAL insn.

Definition rv_execute : RV flow :=
  let opcode := f_opcode in
  if opcode =? OP_LUI then rv_set_reg f_rd (insn .& 0xfffff000);; mret (Break next_pc)
  else if opcode =? OP_AUIPC then rv_set_reg f_rd (add32 pc (insn .& 0xfffff000));; mret (Break next_pc)
  else if opcode =? OP_JAL then op_jal
  else if opcode =? OP_JALR then op_jalr
  else if opcode =? OP_BRANCH then op_branch
  else if opcode =? OP_LOAD then op_load
  else if opcode =? OP_STORE then op_store
  else if opcode =? OP_OP_IMM then op_op_imm
  else if opcode =? OP_OP then op_op
  else if opcode =? OP_MISC_MEM then op_misc_mem
  else if opcode =? OP_SYSTEM then op_system
  else faulting RV32I_FAULT_ILLEGAL insn.
End fields.

Definition rv32i_abandon : RV Z :=
  rv_cpu (λ s, rv_set_pc (snd (rv_saved s)) (rv_set_x (fst (rv_saved s)) s));; mret 0.

Definition rv32i_step : RV Z :=
  s ← rv_get id;
  let pc := rv_pc s in
  if nz (rv_halted s) || nz (rv_faulted s) then mret 0 else
  if nz (rv_stalled s) then mret 0 else
  when (nz (hook_can_stall (rv_mem s))) (rv_cpu (λ s, rv_set_saved (rv_x s, rv_pc s) s));;
  if nz (pc .& 3) then fault RV32I_FAULT_INSN_MISALIGNED pc;; mret 0 else
  if negb (in_range s pc 4) then fault RV32I_FAULT_INSN_ACCESS pc;; mret 0 else
  insn ← load32 pc;
  r ← rv_execute pc insn;
  match r with
  | Return n => mret n
  | Break next_pc =>
      stalled ← rv_get rv_stalled;
      if nz stalled then rv32i_abandon else
      rv_cpu (λ s, rv_set_cycles (u64 (rv_cycles s + 1)) (rv_set_pc next_pc s));; mret 1
  end.

(** The loop of [rv32i_run]; [None] is a loop that has not ended. *)
Fixpoint run_loop (fuel : nat) (used cycles : Z) : RV (option Z) :=
  if used <? cycles then
    match fuel with
    | O => mret None
    | Datatypes.S fuel' =>
        n ← rv32i_step;
        if n =? 0 then mret (Some used) else run_loop fuel' (used + n) cycles
    end
  else mret (Some used).

(** A turn of the loop that goes on uses a cycle. *)
Definition rv32i_run (cycles : Z) : RV (option Z) := run_loop (Z.to_nat cycles) 0 cycles.
End step.

Definition rv32i_fault_name (cause : Z) : string :=
  if cause =? RV32I_FAULT_INSN_MISALIGNED then "misaligned instruction"
  else if cause =? RV32I_FAULT_INSN_ACCESS then "instruction access"
  else if cause =? RV32I_FAULT_ILLEGAL then "illegal instruction"
  else if cause =? RV32I_FAULT_LOAD_MISALIGNED then "misaligned load"
  else if cause =? RV32I_FAULT_LOAD_ACCESS then "load access"
  else if cause =? RV32I_FAULT_STORE_MISALIGNED then "misaligned store"
  else if cause =? RV32I_FAULT_STORE_ACCESS then "store access"
  else "unknown".
