(* ===== verification/Rv32Isa.v ===== *)
(** RV32IM as the RISC-V manual describes it: instructions, their encoding, and
    what each does to a hart with a flat memory, in the arithmetic of the
    integers. The reference the processor of the card is compared with. *)

From S2P Require Export Word.

(** * Instructions *)

Inductive branch_op := BEQ | BNE | BLT | BGE | BLTU | BGEU.
Inductive load_op := LB | LH | LW | LBU | LHU.
Inductive store_op := SB | SH | SW.
Inductive imm_op := ADDI | SLTI | SLTIU | XORI | ORI | ANDI.
Inductive shift_op := SLLI | SRLI | SRAI.
Inductive reg_op := ADD | SUB | SLL | SLT | SLTU | XOR | SRL | SRA | OR | AND
  | MUL | MULH | MULHSU | MULHU | DIV | DIVU | REM | REMU.

(** Immediates are integers, as an assembler has them: that of [Lui] and [Auipc]
    is the 20-bit field, offsets are in bytes. *)
Inductive instr :=
  | Lui (rd imm : Z)
  | Auipc (rd imm : Z)
  | Jal (rd offset : Z)
  | Jalr (rd rs1 imm : Z)
  | Branch (op : branch_op) (rs1 rs2 offset : Z)
  | Load (op : load_op) (rd rs1 imm : Z)
  | Store (op : store_op) (rs1 rs2 imm : Z)
  | OpImm (op : imm_op) (rd rs1 imm : Z)
  | ShiftImm (op : shift_op) (rd rs1 shamt : Z)
  | OpReg (op : reg_op) (rd rs1 rs2 : Z)
  | Fence (i : bool) (rd rs1 imm : Z)
  | Ecall
  | Ebreak.

(** * Encoding

    Every format cuts the word at the same places; the immediates are spread
    over the parts. *)
Record parts := mkParts { p_op : Z; p_rd : Z; p_f3 : Z; p_rs1 : Z; p_rs2 : Z; p_f7 : Z }.

Definition parts_ok (p : parts) : Prop :=
  0 ≤ p_op p < 128 ∧ 0 ≤ p_rd p < 32 ∧ 0 ≤ p_f3 p < 8 ∧ 0 ≤ p_rs1 p < 32 ∧ 0 ≤ p_rs2 p < 32 ∧ 0 ≤ p_f7 p < 128.

Definition join (p : parts) : Z :=
  p_op p + p_rd p * 2 ^ 7 + p_f3 p * 2 ^ 12 + p_rs1 p * 2 ^ 15 + p_rs2 p * 2 ^ 20 + p_f7 p * 2 ^ 25.
Definition split (w : Z) : parts :=
  mkParts (w mod 2 ^ 7) (w / 2 ^ 7 mod 2 ^ 5) (w / 2 ^ 12 mod 2 ^ 3) (w / 2 ^ 15 mod 2 ^ 5)
    (w / 2 ^ 20 mod 2 ^ 5) (w / 2 ^ 25 mod 2 ^ 7).

(** The value of an [n]-bit field as a two's complement number, and back. *)
Definition signed (n x : Z) : Z := if x <? 2 ^ (n - 1) then x else x - 2 ^ n.

Definition imm_I (p : parts) : Z := p_f7 p * 32 + p_rs2 p.
Definition imm_S (p : parts) : Z := p_f7 p * 32 + p_rd p.
Definition imm_B (p : parts) : Z :=
  p_f7 p / 64 * 4096 + p_rd p mod 2 * 2048 + p_f7 p mod 64 * 32 + p_rd p / 2 * 2.
Definition imm_U (p : parts) : Z := p_f7 p * 8192 + p_rs2 p * 256 + p_rs1 p * 8 + p_f3 p.
Definition imm_J (p : parts) : Z :=
  p_f7 p / 64 * 1048576 + p_rs1 p * 32768 + p_f3 p * 4096 + p_rs2 p mod 2 * 2048 +
  p_f7 p mod 64 * 32 + p_rs2 p / 2 * 2.

Definition format_R op f3 f7 rd rs1 rs2 : parts := mkParts op rd f3 rs1 rs2 f7.
Definition format_I op f3 rd rs1 imm : parts :=
  let i := imm mod 4096 in mkParts op rd f3 rs1 (i mod 32) (i / 32).
Definition format_S op f3 rs1 rs2 imm : parts :=
  let i := imm mod 4096 in mkParts op (i mod 32) f3 rs1 rs2 (i / 32).
Definition format_B op f3 rs1 rs2 imm : parts :=
  let i := imm mod 8192 in
  mkParts op (i / 2 mod 16 * 2 + i / 2048 mod 2) f3 rs1 rs2 (i / 4096 * 64 + i / 32 mod 64).
Definition format_U op rd imm : parts :=
  mkParts op rd (imm mod 8) (imm / 8 mod 32) (imm / 256 mod 32) (imm / 8192).
Definition format_J op rd imm : parts :=
  let i := imm mod 2097152 in
  mkParts op rd (i / 4096 mod 8) (i / 32768 mod 32) (i / 2 mod 16 * 2 + i / 2048 mod 2)
    (i / 1048576 * 64 + i / 32 mod 64).

Definition branch_f3 op : Z :=
  match op with BEQ => 0 | BNE => 1 | BLT => 4 | BGE => 5 | BLTU => 6 | BGEU => 7 end.
Definition load_f3 op : Z := match op with LB => 0 | LH => 1 | LW => 2 | LBU => 4 | LHU => 5 end.
Definition store_f3 op : Z := match op with SB => 0 | SH => 1 | SW => 2 end.
Definition imm_f3 op : Z :=
  match op with ADDI => 0 | SLTI => 2 | SLTIU => 3 | XORI => 4 | ORI => 6 | ANDI => 7 end.
Definition reg_f3 op : Z :=
  match op with
  | ADD | SUB | MUL => 0 | SLL | MULH => 1 | SLT | MULHSU => 2 | SLTU | MULHU => 3
  | XOR | DIV => 4 | SRL | SRA | DIVU => 5 | OR | REM => 6 | AND | REMU => 7
  end.
Definition reg_f7 op : Z :=
  match op with
  | SUB | SRA => 0x20
  | ADD | SLL | SLT | SLTU | XOR | SRL | OR | AND => 0
  | _ => 1
  end.

Definition parts_of (i : instr) : parts :=
  match i with
  | Lui rd imm => format_U 0x37 rd imm
  | Auipc rd imm => format_U 0x17 rd imm
  | Jal rd off => format_J 0x6f rd off
  | Jalr rd rs1 imm => format_I 0x67 0 rd rs1 imm
  | Branch op rs1 rs2 off => format_B 0x63 (branch_f3 op) rs1 rs2 off
  | Load op rd rs1 imm => format_I 0x03 (load_f3 op) rd rs1 imm
  | Store op rs1 rs2 imm => format_S 0x23 (store_f3 op) rs1 rs2 imm
  | OpImm op rd rs1 imm => format_I 0x13 (imm_f3 op) rd rs1 imm
  | ShiftImm SLLI rd rs1 sh => format_R 0x13 1 0 rd rs1 sh
  | ShiftImm SRLI rd rs1 sh => format_R 0x13 5 0 rd rs1 sh
  | ShiftImm SRAI rd rs1 sh => format_R 0x13 5 0x20 rd rs1 sh
  | OpReg op rd rs1 rs2 => format_R 0x33 (reg_f3 op) (reg_f7 op) rd rs1 rs2
  | Fence i rd rs1 imm => format_I 0x0f (if i then 1 else 0) rd rs1 imm
  | Ecall => format_I 0x73 0 0 0 0
  | Ebreak => format_I 0x73 0 0 0 1
  end.
Definition encode (i : instr) : Z := join (parts_of i).

(** * Decoding *)

Definition decode_branch f3 : option branch_op :=
  match f3 with
  | 0 => Some BEQ | 1 => Some BNE | 4 => Some BLT | 5 => Some BGE | 6 => Some BLTU | 7 => Some BGEU
  | _ => None
  end.
Definition decode_load f3 : option load_op :=
  match f3 with 0 => Some LB | 1 => Some LH | 2 => Some LW | 4 => Some LBU | 5 => Some LHU | _ => None end.
Definition decode_store f3 : option store_op :=
  match f3 with 0 => Some SB | 1 => Some SH | 2 => Some SW | _ => None end.
Definition decode_imm f3 : option imm_op :=
  match f3 with
  | 0 => Some ADDI | 2 => Some SLTI | 3 => Some SLTIU | 4 => Some XORI | 6 => Some ORI | 7 => Some ANDI
  | _ => None
  end.
Definition decode_shift f3 f7 : option shift_op :=
  match f3, f7 with 1, 0 => Some SLLI | 5, 0 => Some SRLI | 5, 0x20 => Some SRAI | _, _ => None end.
Definition decode_reg f3 f7 : option reg_op :=
  match f7, f3 with
  | 0, 0 => Some ADD | 0, 1 => Some SLL | 0, 2 => Some SLT | 0, 3 => Some SLTU
  | 0, 4 => Some XOR | 0, 5 => Some SRL | 0, 6 => Some OR | 0, 7 => Some AND
  | 0x20, 0 => Some SUB | 0x20, 5 => Some SRA
  | 1, 0 => Some MUL | 1, 1 => Some MULH | 1, 2 => Some MULHSU | 1, 3 => Some MULHU
  | 1, 4 => Some DIV | 1, 5 => Some DIVU | 1, 6 => Some REM | 1, 7 => Some REMU
  | _, _ => None
  end.

Definition decode_parts (p : parts) : option instr :=
  let rd := p_rd p in let rs1 := p_rs1 p in let rs2 := p_rs2 p in let f3 := p_f3 p in let f7 := p_f7 p in
  match p_op p with
  | 0x37 => Some (Lui rd (imm_U p))
  | 0x17 => Some (Auipc rd (imm_U p))
  | 0x6f => Some (Jal rd (signed 21 (imm_J p)))
  | 0x67 => if f3 =? 0 then Some (Jalr rd rs1 (signed 12 (imm_I p))) else None
  | 0x63 => op ← decode_branch f3; Some (Branch op rs1 rs2 (signed 13 (imm_B p)))
  | 0x03 => op ← decode_load f3; Some (Load op rd rs1 (signed 12 (imm_I p)))
  | 0x23 => op ← decode_store f3; Some (Store op rs1 rs2 (signed 12 (imm_S p)))
  | 0x13 =>
      if (f3 =? 1) || (f3 =? 5) then op ← decode_shift f3 f7; Some (ShiftImm op rd rs1 rs2)
      else op ← decode_imm f3; Some (OpImm op rd rs1 (signed 12 (imm_I p)))
  | 0x33 => op ← decode_reg f3 f7; Some (OpReg op rd rs1 rs2)
  | 0x0f => if (f3 =? 0) || (f3 =? 1) then Some (Fence (f3 =? 1) rd rs1 (signed 12 (imm_I p))) else None
  | 0x73 =>
      if (f3 =? 0) && (rd =? 0) && (rs1 =? 0) then
        if imm_I p =? 0 then Some Ecall else if imm_I p =? 1 then Some Ebreak else None
      else None
  | _ => None
  end.
Definition decode (w : Z) : option instr := decode_parts (split w).

(** What an assembler accepts. *)
Definition reg_ok (r : Z) : Prop := 0 ≤ r < 32.
Definition imm12_ok (i : Z) : Prop := -2048 ≤ i < 2048.
Definition instr_ok (i : instr) : Prop :=
  match i with
  | Lui rd imm | Auipc rd imm => reg_ok rd ∧ 0 ≤ imm < 1048576
  | Jal rd off => reg_ok rd ∧ -1048576 ≤ off < 1048576 ∧ off mod 2 = 0
  | Branch _ rs1 rs2 off => reg_ok rs1 ∧ reg_ok rs2 ∧ -4096 ≤ off < 4096 ∧ off mod 2 = 0
  | Jalr rd rs1 imm | Load _ rd rs1 imm | OpImm _ rd rs1 imm | Fence _ rd rs1 imm =>
      reg_ok rd ∧ reg_ok rs1 ∧ imm12_ok imm
  | Store _ rs1 rs2 imm => reg_ok rs1 ∧ reg_ok rs2 ∧ imm12_ok imm
  | ShiftImm _ rd rs1 x | OpReg _ rd rs1 x => reg_ok rd ∧ reg_ok rs1 ∧ reg_ok x
  | Ecall | Ebreak => True
  end.

(** * Round trips *)

Lemma split_join p : parts_ok p → split (join p) = p.
Proof.
  destruct p as [op rd f3 rs1 rs2 f7]. unfold parts_ok, split, join. cbn [p_op p_rd p_f3 p_rs1 p_rs2 p_f7].
  intros (Ho & Hd & H3 & H1 & H2 & H7).
  f_equal; Z.to_euclidean_division_equations; lia.
Qed.

Ltac field_math := Z.to_euclidean_division_equations; lia.

Lemma imm_I_format op f3 rd rs1 imm : imm12_ok imm → signed 12 (imm_I (format_I op f3 rd rs1 imm)) = imm.
Proof.
  unfold imm12_ok, signed, imm_I, format_I. cbn [p_f7 p_rs2]. intros H.
  assert (imm mod 4096 / 32 * 32 + (imm mod 4096) mod 32 = imm mod 4096) as -> by field_math.
  destruct (Z.ltb_spec (imm mod 4096) (2 ^ (12 - 1))); field_math.
Qed.
Lemma imm_S_format op f3 rs1 rs2 imm : imm12_ok imm → signed 12 (imm_S (format_S op f3 rs1 rs2 imm)) = imm.
Proof.
  unfold imm12_ok, signed, imm_S, format_S. cbn [p_f7 p_rd]. intros H.
  assert (imm mod 4096 / 32 * 32 + (imm mod 4096) mod 32 = imm mod 4096) as -> by field_math.
  destruct (Z.ltb_spec (imm mod 4096) (2 ^ (12 - 1))); field_math.
Qed.
Lemma imm_B_format op f3 rs1 rs2 imm :
  -4096 ≤ imm < 4096 → imm mod 2 = 0 → signed 13 (imm_B (format_B op f3 rs1 rs2 imm)) = imm.
Proof.
  unfold signed, imm_B, format_B. cbn [p_f7 p_rd]. intros H H2.
  set (i := imm mod 8192). assert (0 ≤ i < 8192 ∧ i mod 2 = 0) as [Hi Hi2] by (unfold i; field_math).
  assert ((i / 4096 * 64 + i / 32 mod 64) / 64 * 4096 + (i / 2 mod 16 * 2 + i / 2048 mod 2) mod 2 * 2048 +
          (i / 4096 * 64 + i / 32 mod 64) mod 64 * 32 + (i / 2 mod 16 * 2 + i / 2048 mod 2) / 2 * 2 = i)
    as -> by field_math.
  unfold i in *. destruct (Z.ltb_spec (imm mod 8192) (2 ^ (13 - 1))); field_math.
Qed.
Lemma imm_U_format op rd imm : 0 ≤ imm < 1048576 → imm_U (format_U op rd imm) = imm.
Proof. unfold imm_U, format_U. cbn [p_f7 p_rs2 p_rs1 p_f3]. intros H. field_math. Qed.
Lemma imm_J_format op rd imm :
  -1048576 ≤ imm < 1048576 → imm mod 2 = 0 → signed 21 (imm_J (format_J op rd imm)) = imm.
Proof.
  unfold signed, imm_J, format_J. cbn [p_f7 p_rs2 p_rs1 p_f3]. intros H H2.
  set (i := imm mod 2097152). assert (0 ≤ i < 2097152 ∧ i mod 2 = 0) as [Hi Hi2] by (unfold i; field_math).
  assert ((i / 1048576 * 64 + i / 32 mod 64) / 64 * 1048576 + i / 32768 mod 32 * 32768 + i / 4096 mod 8 * 4096 +
          (i / 2 mod 16 * 2 + i / 2048 mod 2) mod 2 * 2048 + (i / 1048576 * 64 + i / 32 mod 64) mod 64 * 32 +
          (i / 2 mod 16 * 2 + i / 2048 mod 2) / 2 * 2 = i) as -> by field_math.
  unfold i in *. destruct (Z.ltb_spec (imm mod 2097152) (2 ^ (21 - 1))); field_math.
Qed.

Lemma parts_of_ok i : instr_ok i → parts_ok (parts_of i).
Proof.
  assert (∀ op, 0 ≤ branch_f3 op < 8) as HB by (intros []; cbn; lia).
  assert (∀ op, 0 ≤ load_f3 op < 8) as HL by (intros []; cbn; lia).
  assert (∀ op, 0 ≤ store_f3 op < 8) as HS by (intros []; cbn; lia).
  assert (∀ op, 0 ≤ imm_f3 op < 8) as HI by (intros []; cbn; lia).
  assert (∀ op, 0 ≤ reg_f3 op < 8 ∧ 0 ≤ reg_f7 op < 128) as HR by (intros []; cbn; lia).
  destruct i as [rd imm|rd imm|rd off|rd rs1 imm|op rs1 rs2 off|op rd rs1 imm|op rs1 rs2 imm|op rd rs1 imm
    |[] rd rs1 sh|op rd rs1 rs2|[] rd rs1 imm| |];
    cbn [instr_ok parts_of]; unfold reg_ok, imm12_ok; intros Hok;
    unfold parts_ok, format_R, format_I, format_S, format_B, format_U, format_J;
    cbn [p_op p_rd p_f3 p_rs1 p_rs2 p_f7];
    try specialize (HB op); try specialize (HL op); try specialize (HS op); try specialize (HI op);
    try specialize (HR op); split_and!; field_math.
Qed.

Lemma decode_encode i : instr_ok i → decode (encode i) = Some i.
Proof.
  intros H. unfold decode, encode. rewrite split_join by by apply parts_of_ok.
  destruct i as [rd imm|rd imm|rd off|rd rs1 imm|op rs1 rs2 off|op rd rs1 imm|op rs1 rs2 imm|op rd rs1 imm
    |[] rd rs1 sh|op rd rs1 rs2|[] rd rs1 imm| |]; cbn [instr_ok] in H; try destruct op;
    cbn -[imm_I imm_S imm_B imm_U imm_J]; try reflexivity;
    repeat f_equal; first [ apply imm_I_format | apply imm_S_format | apply imm_B_format
                          | apply imm_U_format | apply imm_J_format ]; apply H.
Qed.

Lemma encode_range i : instr_ok i → 0 ≤ encode i < 2 ^ 32.
Proof.
  intros H. unfold encode. pose proof (parts_of_ok i H) as (Ho & Hd & H3 & H1 & H2 & H7). unfold join. lia.
Qed.

(** * What instructions do *)

(** A hart: its registers, its program counter and its memory. *)
Record hart := mkHart { h_x : gmap Z Z; h_pc : Z; h_mem : list Z }.

(** An instruction retires, traps with a cause and a value, or stops the hart. *)
Inductive outcome := Retire (h : hart) | Trap (cause value : Z) | Stop (by_ebreak : bool) (h : hart).

Definition write_x (rd v : Z) (x : gmap Z Z) : gmap Z Z := if rd =? 0 then x else <[rd := v]> x.

(** Little-endian bytes. *)
Fixpoint le_bytes (n : nat) (v : Z) : list Z :=
  match n with O => [] | S n' => v mod 256 :: le_bytes n' (v / 256) end.
Fixpoint le_value (bs : list Z) : Z :=
  match bs with [] => 0 | b :: bs' => b + 256 * le_value bs' end.

Definition branch_holds (op : branch_op) (a b : Z) : bool :=
  match op with
  | BEQ => a =? b | BNE => negb (a =? b)
  | BLT => s32 a <? s32 b | BGE => s32 b <=? s32 a
  | BLTU => a <? b | BGEU => b <=? a
  end.

Definition imm_value (op : imm_op) (a imm : Z) : Z :=
  match op with
  | ADDI => u32 (a + imm)
  | SLTI => if s32 a <? imm then 1 else 0
  | SLTIU => if a <? u32 imm then 1 else 0
  | XORI => Z.lxor a (u32 imm)
  | ORI => Z.lor a (u32 imm)
  | ANDI => Z.land a (u32 imm)
  end.

Definition shift_value (op : shift_op) (a n : Z) : Z :=
  match op with
  | SLLI => u32 (a * 2 ^ n)
  | SRLI => a / 2 ^ n
  | SRAI => u32 (s32 a / 2 ^ n)
  end.

Definition reg_value (op : reg_op) (a b : Z) : Z :=
  match op with
  | ADD => u32 (a + b)
  | SUB => u32 (a - b)
  | SLL => shift_value SLLI a (b mod 32)
  | SLT => if s32 a <? s32 b then 1 else 0
  | SLTU => if a <? b then 1 else 0
  | XOR => Z.lxor a b
  | SRL => shift_value SRLI a (b mod 32)
  | SRA => shift_value SRAI a (b mod 32)
  | OR => Z.lor a b
  | AND => Z.land a b
  | MUL => u32 (a * b)
  | MULH => u32 (s32 a * s32 b / 2 ^ 32)
  | MULHSU => u32 (s32 a * b / 2 ^ 32)
  | MULHU => u32 (a * b / 2 ^ 32)
  | DIV => if b =? 0 then 0xffffffff else u32 (Z.quot (s32 a) (s32 b))
  | DIVU => if b =? 0 then 0xffffffff else a / b
  | REM => if b =? 0 then a else u32 (Z.rem (s32 a) (s32 b))
  | REMU => if b =? 0 then a else a mod b
  end.

Definition load_size (op : load_op) : nat := match op with LB | LBU => 1 | LH | LHU => 2 | LW => 4 end.
Definition load_value (op : load_op) (v : Z) : Z :=
  match op with LB => u32 (signed 8 v) | LH => u32 (signed 16 v) | _ => v end.
Definition store_size (op : store_op) : nat := match op with SB => 1 | SH => 2 | SW => 4 end.

(** An access of [n] bytes at [addr]: the trap it takes, if it does. *)
Definition access_trap (n : nat) (addr misaligned access : Z) (mem : list Z) : option outcome :=
  if negb (addr mod Z.of_nat n =? 0) then Some (Trap misaligned addr)
  else if Z.of_nat (length mem) <? addr + Z.of_nat n then Some (Trap access addr)
  else None.

(** Without the compressed instructions, a jump or a taken branch to a target that
    is not four-byte aligned traps itself: it writes no register, and the PC is
    still at it. *)
Definition exec (i : instr) (h : hart) : outcome :=
  let x := h_x h in let pc := h_pc h in let mem := h_mem h in
  let next := u32 (pc + 4) in
  let retire x' pc' := Retire (mkHart x' pc' mem) in
  let jump x' target := if target mod 4 =? 0 then retire x' target else Trap 0 target in
  match i with
  | Lui rd imm => retire (write_x rd (imm * 4096) x) next
  | Auipc rd imm => retire (write_x rd (u32 (pc + imm * 4096)) x) next
  | Jal rd off => jump (write_x rd next x) (u32 (pc + off))
  | Jalr rd rs1 imm => jump (write_x rd next x) (u32 (x !!! rs1 + imm) / 2 * 2)
  | Branch op rs1 rs2 off =>
      if branch_holds op (x !!! rs1) (x !!! rs2) then jump x (u32 (pc + off)) else retire x next
  | Load op rd rs1 imm =>
      let addr := u32 (x !!! rs1 + imm) in
      match access_trap (load_size op) addr 4 5 mem with
      | Some t => t
      | None =>
          retire (write_x rd (load_value op (le_value (take (load_size op) (drop (Z.to_nat addr) mem)))) x) next
      end
  | Store op rs1 rs2 imm =>
      let addr := u32 (x !!! rs1 + imm) in
      match access_trap (store_size op) addr 6 7 mem with
      | Some t => t
      | None => Retire (mkHart x next (list_inserts (Z.to_nat addr) (le_bytes (store_size op) (x !!! rs2)) mem))
      end
  | OpImm op rd rs1 imm => retire (write_x rd (imm_value op (x !!! rs1) imm) x) next
  | ShiftImm op rd rs1 n => retire (write_x rd (shift_value op (x !!! rs1) n) x) next
  | OpReg op rd rs1 rs2 => retire (write_x rd (reg_value op (x !!! rs1) (x !!! rs2)) x) next
  | Fence _ _ _ _ => retire x next
  | Ecall => Stop false (mkHart x next mem)
  | Ebreak => Stop true (mkHart x next mem)
  end.

(** The instruction at the program counter. *)
Definition fetched (h : hart) : Z := le_value (take 4 (drop (Z.to_nat (h_pc h)) (h_mem h))).
Definition isa_step (h : hart) : outcome :=
  match access_trap 4 (h_pc h) 0 1 (h_mem h) with
  | Some t => t
  | None => match decode (fetched h) with Some i => exec i h | None => Trap 2 (fetched h) end
  end.
