(* ===== verification/Rv32Alu.v ===== *)
(** The bit operations of the RV32IM processor (copro/cpu_rv32i.c) as arithmetic:
    the fields and immediates it cuts out of an instruction, its sign extension
    and shifts, and the results of its arithmetic unit. And that arithmetic ([alu], [muldiv],
    [branch_taken]) is that of the manual. *)

From S2P Require Export Rv32 Rv32Isa.

(** * Fields *)

Lemma field_spec w lo n : 0 ≤ lo → 0 ≤ n → (w .>> lo) .& (2 ^ n - 1) = w / 2 ^ lo mod 2 ^ n.
Proof.
  intros Hl Hn. rewrite Z.shiftr_div_pow2 by done. rewrite Z.sub_1_r, <- Z.ones_equiv. by apply Z.land_ones.
Qed.

Lemma field_mask w lo n m : m = 2 ^ n - 1 → 0 ≤ lo → 0 ≤ n → (w .>> lo) .& m = w / 2 ^ lo mod 2 ^ n.
Proof. intros ->. apply field_spec. Qed.

Section fields.
Context (w : Z) (Hw : w32 w).

Lemma f_opcode_spec : f_opcode w = p_op (split w).
Proof. unfold f_opcode. change 0x7f with (Z.ones 7). by apply Z.land_ones. Qed.
Lemma f_rd_spec : f_rd w = p_rd (split w).
Proof. by apply (field_spec w 7 5). Qed.
Lemma f_funct3_spec : f_funct3 w = p_f3 (split w).
Proof. by apply (field_spec w 12 3). Qed.
Lemma f_rs1_spec : f_rs1 w = p_rs1 (split w).
Proof. by apply (field_spec w 15 5). Qed.
Lemma f_rs2_spec : f_rs2 w = p_rs2 (split w).
Proof. by apply (field_spec w 20 5). Qed.
Lemma f_funct7_spec : f_funct7 w = p_f7 (split w).
Proof. by apply (field_spec w 25 7). Qed.

Lemma split_ok : parts_ok (split w).
Proof. unfold parts_ok, split. cbn. repeat split; by apply Z.mod_pos_bound. Qed.

Lemma join_split : join (split w) = w.
Proof. unfold join, split. cbn [p_op p_rd p_f3 p_rs1 p_rs2 p_f7]. unfold w32 in Hw. field_math. Qed.

Lemma top12_spec : w .>> 20 = imm_I (split w).
Proof.
  unfold imm_I, split. cbn [p_f7 p_rs2]. rewrite Z.shiftr_div_pow2 by done. unfold w32 in Hw. field_math.
Qed.
End fields.

(** * Immediates *)

Lemma sign_extend_spec v n : 1 < n < 32 → 0 ≤ v < 2 ^ n → sign_extend v n = u32 (signed n v).
Proof.
  intros Hn Hv. unfold sign_extend, signed.
  replace (32 <=? n) with false by (symmetry; apply Z.leb_gt; lia).
  assert (2 ^ n < 2 ^ 32) as H32 by (apply Z.pow_lt_mono_r; lia). change (2 ^ 32) with 0x100000000 in H32.
  assert (2 ^ n = 2 * 2 ^ (n - 1)) as Hdouble by (rewrite <- Z.pow_succ_r by lia; f_equal; lia).
  assert (shl32 1 n = 2 ^ n) as ->.
  { unfold shl32. rewrite Z.shiftl_1_l, u32_id; [done | unfold w32; lia]. }
  assert (shl32 1 (n - 1) = 2 ^ (n - 1)) as ->.
  { unfold shl32. rewrite Z.shiftl_1_l, u32_id; [done | unfold w32; lia]. }
  assert (v .& (2 ^ n - 1) = v) as ->.
  { rewrite Z.sub_1_r, <- Z.ones_equiv, Z.land_ones, Z.mod_small by lia. done. }
  rewrite nz_mask_bit by lia.
  assert (Z.testbit v (n - 1) = negb (v <? 2 ^ (n - 1))) as ->.
  { rewrite Z.testbit_eqb by lia. destruct (Z.ltb_spec v (2 ^ (n - 1))).
    - by rewrite Z.div_small by lia.
    - replace (v / 2 ^ (n - 1)) with 1; [done|]. apply (Z.div_unique _ _ _ (v - 2 ^ (n - 1))); lia. }
  destruct (Z.ltb_spec v (2 ^ (n - 1))); cbn [negb].
  - rewrite u32_id; [done | unfold w32; lia].
  - assert (not32 (2 ^ n - 1) = 0x100000000 - 2 ^ n) as ->.
    { unfold not32, u32, Z.lnot. symmetry. apply (Z.mod_unique _ _ (-1)); [left|]; lia. }
    rewrite Z.lor_comm, (lor_add_high _ _ n); [|lia | |lia].
    + unfold u32. apply (Z.mod_unique _ _ (-1)); [left|]; lia.
    + change 0x100000000 with (2 ^ 32). replace (2 ^ 32) with (2 ^ (32 - n) * 2 ^ n).
      * rewrite <- Z.mul_pred_l. apply Z.mod_mul. lia.
      * rewrite <- Z.pow_add_r by lia. f_equal. lia.
Qed.

Lemma add32_u32 a b : add32 a (u32 b) = u32 (a + b).
Proof. apply u32_add_r. Qed.

Section immediates.
Context (w : Z) (Hw : w32 w).
Let p := split w.
Let Hp : parts_ok p := split_ok w.

Lemma imm_I_range : 0 ≤ imm_I p < 2 ^ 12.
Proof. unfold imm_I. destruct Hp as (? & ? & ? & ? & ? & ?). lia. Qed.
Lemma load_imm : sign_extend (w .>> 20) 12 = u32 (signed 12 (imm_I p)).
Proof. rewrite top12_spec by done. by apply sign_extend_spec, imm_I_range. Qed.

Lemma upper_imm : w .& 0xfffff000 = imm_U p * 4096.
Proof.
  change 0xfffff000 with (Z.shiftl (Z.ones 20) 12).
  rewrite land_shiftl_mask, Z.land_ones, Z.shiftr_div_pow2, Z.shiftl_mul_pow2 by done.
  unfold p, imm_U, split. cbn [p_f7 p_rs2 p_rs1 p_f3]. unfold w32 in Hw. field_math.
Qed.

Lemma store_imm : sign_extend (Z.shiftl (w .>> 25) 5 .| ((w .>> 7) .& 0x1f)) 12 = u32 (signed 12 (imm_S p)).
Proof.
  assert (Z.shiftl (w .>> 25) 5 .| ((w .>> 7) .& 0x1f) = imm_S p) as ->.
  { change ((w .>> 7) .& 0x1f) with (f_rd w). rewrite f_rd_spec. fold p. destruct Hp as (? & Hd & ? & ? & ? & ?).
    rewrite (lor_add_high _ _ 5), Z.shiftl_mul_pow2, Z.shiftr_div_pow2; [|done | done | done | | lia].
    - unfold imm_S, p, split. cbn [p_f7 p_rd]. unfold w32 in Hw. field_math.
    - rewrite Z.shiftl_mul_pow2 by done. by apply Z.mod_mul. }
  apply sign_extend_spec; [lia|]. unfold imm_S. destruct Hp as (? & ? & ? & ? & ? & ?). lia.
Qed.

(** Disjoint pieces add up, from the highest one down. *)
Lemma pieces_add a b n : 0 ≤ n → 0 ≤ b < 2 ^ n → Z.shiftl a n .| b = a * 2 ^ n + b.
Proof.
  intros Hn Hb. rewrite (lor_add_high _ _ n), Z.shiftl_mul_pow2; [done | done | done | | done].
  rewrite Z.shiftl_mul_pow2 by done. apply Z.mod_mul. lia.
Qed.

Lemma branch_pieces a b c d : 0 ≤ b < 64 → 0 ≤ c < 16 → 0 ≤ d < 2 →
  Z.shiftl a 12 .| Z.shiftl b 5 .| Z.shiftl c 1 .| Z.shiftl d 11 = a * 4096 + d * 2048 + b * 32 + c * 2.
Proof.
  intros Hb Hc Hd.
  assert (Z.shiftl a 12 .| Z.shiftl b 5 .| Z.shiftl c 1 .| Z.shiftl d 11 =
    Z.shiftl a 12 .| (Z.shiftl d 11 .| (Z.shiftl b 5 .| Z.shiftl c 1))) as ->.
  { apply Z.bits_inj'. intros i Hi. rewrite !Z.lor_spec. btauto. }
  rewrite (Z.shiftl_mul_pow2 c) by done. rewrite (pieces_add b) by lia.
  rewrite (pieces_add d) by lia. rewrite (pieces_add a) by lia. lia.
Qed.

Lemma branch_imm :
  sign_extend (Z.shiftl ((w .>> 31) .& 1) 12 .| Z.shiftl ((w .>> 25) .& 0x3f) 5 .|
    Z.shiftl ((w .>> 8) .& 0xf) 1 .| Z.shiftl ((w .>> 7) .& 1) 11) 13 = u32 (signed 13 (imm_B p)).
Proof.
  rewrite (field_mask w 31 1 1), (field_mask w 25 6 0x3f), (field_mask w 8 4 0xf), (field_mask w 7 1 1) by done.
  rewrite branch_pieces by (by apply Z.mod_pos_bound).
  assert (w / 2 ^ 31 mod 2 ^ 1 * 4096 + w / 2 ^ 7 mod 2 ^ 1 * 2048 + w / 2 ^ 25 mod 2 ^ 6 * 32 +
    w / 2 ^ 8 mod 2 ^ 4 * 2 = imm_B p) as ->.
  { unfold imm_B, p, split. cbn [p_f7 p_rd]. unfold w32 in Hw. field_math. }
  apply sign_extend_spec; [lia|]. unfold imm_B. destruct Hp as (? & ? & ? & ? & ? & ?). field_math.
Qed.

Lemma jump_pieces a b c d : 0 ≤ b < 1024 → 0 ≤ c < 2 → 0 ≤ d < 256 →
  Z.shiftl a 20 .| Z.shiftl b 1 .| Z.shiftl c 11 .| Z.shiftl d 12 = a * 1048576 + d * 4096 + c * 2048 + b * 2.
Proof.
  intros Hb Hc Hd.
  assert (Z.shiftl a 20 .| Z.shiftl b 1 .| Z.shiftl c 11 .| Z.shiftl d 12 =
    Z.shiftl a 20 .| (Z.shiftl d 12 .| (Z.shiftl c 11 .| Z.shiftl b 1))) as ->.
  { apply Z.bits_inj'. intros i Hi. rewrite !Z.lor_spec. btauto. }
  rewrite (Z.shiftl_mul_pow2 b) by done. rewrite (pieces_add c) by lia.
  rewrite (pieces_add d) by lia. rewrite (pieces_add a) by lia. lia.
Qed.

Lemma jump_imm :
  sign_extend (Z.shiftl ((w .>> 31) .& 1) 20 .| Z.shiftl ((w .>> 21) .& 0x3ff) 1 .|
    Z.shiftl ((w .>> 20) .& 1) 11 .| Z.shiftl ((w .>> 12) .& 0xff) 12) 21 = u32 (signed 21 (imm_J p)).
Proof.
  rewrite (field_mask w 31 1 1), (field_mask w 21 10 0x3ff), (field_mask w 20 1 1), (field_mask w 12 8 0xff) by done.
  rewrite jump_pieces by (by apply Z.mod_pos_bound).
  assert (w / 2 ^ 31 mod 2 ^ 1 * 1048576 + w / 2 ^ 12 mod 2 ^ 8 * 4096 + w / 2 ^ 20 mod 2 ^ 1 * 2048 +
    w / 2 ^ 21 mod 2 ^ 10 * 2 = imm_J p) as ->.
  { unfold imm_J, p, split. cbn [p_f7 p_rs2 p_rs1 p_f3]. unfold w32 in Hw. field_math. }
  apply sign_extend_spec; [lia|]. unfold imm_J. destruct Hp as (? & ? & ? & ? & ? & ?). field_math.
Qed.
End immediates.

(** * The arithmetic of the manual *)

Lemma signed_range n x : 1 < n → 0 ≤ x < 2 ^ n → - 2 ^ (n - 1) ≤ signed n x < 2 ^ (n - 1).
Proof.
  intros Hn Hx. unfold signed. assert (2 ^ n = 2 * 2 ^ (n - 1)) by (rewrite <- Z.pow_succ_r by lia; f_equal; lia).
  destruct (Z.ltb_spec x (2 ^ (n - 1))); lia.
Qed.

Lemma s32_u32 x : -0x80000000 ≤ x < 0x80000000 → s32 (u32 x) = x.
Proof.
  intros Hx. unfold s32. rewrite u32_u32. destruct (u32_cases x) as (q & -> & Hw). unfold w32 in Hw.
  destruct (Z.ltb_spec (x - q * 0x100000000) 0x80000000); lia.
Qed.

Lemma s32_range x : w32 x → -0x80000000 ≤ s32 x < 0x80000000.
Proof. intros Hx. rewrite s32_w32 by done. unfold w32 in Hx. destruct (_ <=? _) eqn:E; lia. Qed.
Lemma s32_zero x : w32 x → (s32 x =? 0) = (x =? 0).
Proof.
  intros Hx. rewrite s32_w32 by done. unfold w32 in Hx.
  apply Z.b2z_inj. destruct (Z.leb_spec 0x80000000 x), (Z.eqb_spec x 0), (Z.eqb_spec (x - 0x100000000) 0); cbn; lia.
Qed.

Lemma mask31 b : 0 ≤ b → b .& 31 = b mod 32.
Proof. intros Hb. change 31 with (Z.ones 5). by apply Z.land_ones. Qed.

Lemma shl_value a n : 0 ≤ n → shl32 a n = u32 (a * 2 ^ n).
Proof. intros Hn. unfold shl32. by rewrite Z.shiftl_mul_pow2. Qed.

Lemma sra_value a n : w32 a → 0 ≤ n < 32 → sra32 a n = u32 (s32 a / 2 ^ n).
Proof.
  intros Ha Hn. unfold sra32. rewrite mask31, (Z.mod_small n 32) by lia. rewrite nz_bit31, w32_bit31, s32_w32 by done.
  rewrite !Z.shiftr_div_pow2 by lia. assert (0 < 2 ^ n) as Hp by (apply Z.pow_pos_nonneg; lia).
  assert (0x100000000 = 2 ^ (32 - n) * 2 ^ n) as H32.
  { rewrite <- Z.pow_add_r by lia. by replace (32 - n + n) with 32 by lia. }
  assert (0 < 2 ^ (32 - n)) as Hq by (apply Z.pow_pos_nonneg; lia).
  unfold w32 in Ha. destruct (Z.leb_spec 0x80000000 a).
  - assert (0xffffffff / 2 ^ n = 2 ^ (32 - n) - 1) as ->.
    { symmetry. apply (Z.div_unique _ _ _ (2 ^ n - 1)); [left|]; lia. }
    assert (not32 (2 ^ (32 - n) - 1) = 0x100000000 - 2 ^ (32 - n)) as ->.
    { unfold not32, u32, Z.lnot. symmetry. apply (Z.mod_unique _ _ (-1)); [left|]; nia. }
    rewrite Z.lor_comm, (lor_add_high _ _ (32 - n)); [|lia | |].
    + replace (a - 0x100000000) with (a + - 2 ^ (32 - n) * 2 ^ n) by lia.
      rewrite Z.div_add by lia. unfold u32. assert (2 ^ (32 - n) ≤ 0x100000000) by nia.
      assert (0 ≤ a / 2 ^ n < 2 ^ (32 - n)) by (split; [apply Z.div_pos; lia | apply Z.div_lt_upper_bound; lia]).
      apply (Z.mod_unique _ _ (-1)); [left|]; lia.
    + rewrite H32 at 1. rewrite (Z.mul_comm (2 ^ (32 - n))), <- Z.mul_pred_l. apply Z.mod_mul. lia.
    + split; [apply Z.div_pos; lia|]. apply Z.div_lt_upper_bound; lia.
  - symmetry. apply u32_id. split; [apply Z.div_pos; lia|]. apply Z.div_lt_upper_bound; nia.
Qed.

Lemma alu_reg op a b : w32 a → w32 b → reg_f7 op ≠ 1 →
  alu (reg_f3 op) a b false (reg_f7 op =? 0x20) = reg_value op a b.
Proof.
  intros Ha Hb Hf. pose proof (w32_nonneg _ Hb). destruct op; try done; cbn [reg_f3 reg_f7 reg_value shift_value alu Z.eqb Pos.eqb negb andb];
    rewrite ?mask31 by done.
  - by apply shl_value, Z.mod_pos_bound.
  - by apply Z.shiftr_div_pow2, Z.mod_pos_bound.
  - apply sra_value; [done | by apply Z.mod_pos_bound].
Qed.

Lemma alu_imm op a imm : w32 a → imm12_ok imm → alu (imm_f3 op) a (u32 imm) true false = imm_value op a imm.
Proof.
  intros Ha Hi. unfold imm12_ok in Hi. destruct op; cbn [imm_f3 imm_value alu negb andb]; try done.
  - apply add32_u32.
  - rewrite s32_u32 by lia. done.
Qed.

Lemma alu_shift op a n : w32 a → 0 ≤ n < 32 →
  alu (match op with SLLI => 1 | _ => 5 end) a n false (match op with SRAI => true | _ => false end) =
  shift_value op a n.
Proof.
  intros Ha Hn. destruct op; cbn [alu shift_value negb andb]; rewrite mask31, Z.mod_small by lia.
  - apply shl_value; lia.
  - apply Z.shiftr_div_pow2; lia.
  - by apply sra_value.
Qed.

(** The high half of a product, taken from its 64 bits. *)
Lemma high_half x : u32 (u64 x .>> 32) = u32 (x / 2 ^ 32).
Proof.
  rewrite Z.shiftr_div_pow2 by done. unfold u32, u64.
  change 0x10000000000000000 with (2 ^ 32 * 2 ^ 32). change 0x100000000 with (2 ^ 32).
  rewrite Z.rem_mul_r by done. rewrite (Z.mul_comm (2 ^ 32) ((x / 2 ^ 32) mod 2 ^ 32)), Z.div_add by done.
  rewrite (Z.div_small (x mod 2 ^ 32)) by (by apply Z.mod_pos_bound). rewrite Z.add_0_l. by apply Z.mod_mod.
Qed.

Lemma muldiv_reg op a b : w32 a → w32 b → reg_f7 op = 1 → muldiv (reg_f3 op) a b = reg_value op a b.
Proof.
  intros Ha Hb Hf. destruct op; try done; cbn [reg_f3 reg_value muldiv]; rewrite ?high_half; try done.
  - rewrite s32_zero by done. destruct (Z.eqb_spec b 0); [done|].
    destruct (Z.eqb_spec (s32 a) (-0x80000000)) as [->|]; [|done].
    destruct (Z.eqb_spec (s32 b) (-1)) as [->|]; done.
  - rewrite s32_zero by done. destruct (Z.eqb_spec b 0); [done|].
    destruct (Z.eqb_spec (s32 a) (-0x80000000)) as [->|]; [|done].
    destruct (Z.eqb_spec (s32 b) (-1)) as [->|]; done.
Qed.

Lemma branch_taken_spec op a b : branch_taken (branch_f3 op) a b = if branch_holds op a b then 1 else 0.
Proof. by destruct op. Qed.
