(* ===== verification/Rv32Step.v ===== *)
(** The RV32IM processor on its array of memory (copro/cpu_rv32i.c) steps as the
    manual has a hart step. *)

From S2P Require Export Rv32Alu.

(** The array alone. *)
#[export] Instance flat_ram : CpuMem (list Z) := {
  cm_ram := id;
  cm_set_ram m _ := m;
  cm_read _ := fatal;
  cm_write _ _ := fatal
}.

Definition byte (b : Z) : Prop := 0 ≤ b < 256.

(** A processor that runs, over the whole of the array [m]. *)
Record rv_flat (s : rv32i_state) (m : list Z) : Prop := {
  fl_hook : rv_mem s = no_hook;
  fl_ram : rv_has_ram s = true;
  fl_size : rv_ram_size s = Z.of_nat (length m);
  fl_fits : Z.of_nat (length m) < 0x100000000;
  fl_bytes : Forall byte m;
  fl_x0 : rv_x s !!! 0 = 0;
  fl_x r : w32 (rv_x s !!! r);
  fl_pc : w32 (rv_pc s);
  fl_halted : rv_halted s = 0;
  fl_faulted : rv_faulted s = 0;
  fl_stalled : rv_stalled s = 0
}.

Definition hart_of (s : rv32i_state) (m : list Z) : hart := mkHart (rv_x s) (rv_pc s) m.

(** * Memory *)

Implicit Types m : list Z.

Lemma drop_byte m a : 0 ≤ a < Z.of_nat (length m) →
  ∃ b, m !! Z.to_nat a = Some b ∧ drop (Z.to_nat a) m = b :: drop (Z.to_nat (a + 1)) m.
Proof.
  intros Ha. destruct (lookup_lt_is_Some_2 m (Z.to_nat a)) as [b Hb]; [lia|]. exists b. split; [done|].
  rewrite (drop_S _ _ _ Hb). do 2 f_equal. lia.
Qed.

Lemma ram_get_run (s : rv32i_state) m a b : m !! Z.to_nat a = Some b → ram_get a (s, m) = Some (b, (s, m)).
Proof. intros Hb. unfold ram_get. cbn. by rewrite Hb. Qed.

Lemma byte_at m a b : Forall byte m → m !! a = Some b → byte b.
Proof. rewrite Forall_lookup. eauto. Qed.

Lemma shl32_byte b n : byte b → 0 ≤ n ≤ 24 → shl32 b n = b * 2 ^ n.
Proof.
  intros Hb Hn. unfold byte in Hb. rewrite shl_value by lia. apply u32_id. split; [nia|].
  assert (2 ^ n ≤ 2 ^ 24) by (apply Z.pow_le_mono_r; lia). nia.
Qed.

Lemma low_or x b n : 0 ≤ n → 0 ≤ x < 2 ^ n → x .| b * 2 ^ n = x + b * 2 ^ n.
Proof.
  intros Hn Hx. rewrite Z.lor_comm, (lor_add_high _ _ n); [lia | done | | done]. apply Z.mod_mul. lia.
Qed.

Section loads.
Context (s : rv32i_state) (m : list Z) (Hf : rv_flat s m).

Lemma no_read_hook : hook_read (rv_mem s) = false.
Proof. by rewrite (fl_hook _ _ Hf). Qed.
Lemma no_write_hook : hook_write (rv_mem s) = false.
Proof. by rewrite (fl_hook _ _ Hf). Qed.

Definition loaded (n : nat) (a : Z) : Z := le_value (take n (drop (Z.to_nat a) m)).

Lemma load8_run a : 0 ≤ a → a + 1 ≤ Z.of_nat (length m) → load8 a (s, m) = Some (loaded 1 a, (s, m)).
Proof.
  intros Ha Hl. destruct (drop_byte m a ltac:(lia)) as (b & Hb & Hd).
  unfold load8. rewrite (bind_eq _ _ _ false (s, m)) by (unfold rv_get, gets; cbn [fst]; by rewrite no_read_hook).
  cbn iota. rewrite (ram_get_run _ _ _ _ Hb). unfold loaded. rewrite Hd. cbn [take]. rewrite take_0. cbn [le_value].
  do 2 f_equal. lia.
Qed.

Lemma load16_run a : 0 ≤ a → a + 2 ≤ Z.of_nat (length m) → load16 a (s, m) = Some (loaded 2 a, (s, m)).
Proof.
  intros Ha Hl. destruct (drop_byte m a ltac:(lia)) as (b0 & Hb0 & Hd0).
  destruct (drop_byte m (a + 1) ltac:(lia)) as (b1 & Hb1 & Hd1).
  unfold load16. rewrite (bind_eq _ _ _ false (s, m)) by (unfold rv_get, gets; cbn [fst]; by rewrite no_read_hook).
  cbn iota zeta. rewrite Z.add_0_r.
  rewrite (bind_eq _ _ _ _ _ (ram_get_run _ _ _ _ Hb0)), (bind_eq _ _ _ _ _ (ram_get_run _ _ _ _ Hb1)).
  pose proof (byte_at _ _ _ (fl_bytes _ _ Hf) Hb0) as H0. pose proof (byte_at _ _ _ (fl_bytes _ _ Hf) Hb1) as H1.
  unfold loaded. rewrite Hd0. cbn [take]. rewrite Hd1. cbn [take]. rewrite take_0. cbn [le_value].
  rewrite shl32_byte, low_or by (done || lia). unfold mret, M_ret. do 2 f_equal. lia.
Qed.

Lemma load32_run a : 0 ≤ a → a + 4 ≤ Z.of_nat (length m) → load32 a (s, m) = Some (loaded 4 a, (s, m)).
Proof.
  intros Ha Hl. destruct (drop_byte m a ltac:(lia)) as (b0 & Hb0 & Hd0).
  destruct (drop_byte m (a + 1) ltac:(lia)) as (b1 & Hb1 & Hd1).
  destruct (drop_byte m (a + 2) ltac:(lia)) as (b2 & Hb2 & Hd2).
  destruct (drop_byte m (a + 3) ltac:(lia)) as (b3 & Hb3 & Hd3).
  unfold load32. rewrite (bind_eq _ _ _ false (s, m)) by (unfold rv_get, gets; cbn [fst]; by rewrite no_read_hook).
  cbn iota zeta. rewrite Z.add_0_r.
  rewrite (bind_eq _ _ _ _ _ (ram_get_run _ _ _ _ Hb0)), (bind_eq _ _ _ _ _ (ram_get_run _ _ _ _ Hb1)),
    (bind_eq _ _ _ _ _ (ram_get_run _ _ _ _ Hb2)), (bind_eq _ _ _ _ _ (ram_get_run _ _ _ _ Hb3)).
  pose proof (byte_at _ _ _ (fl_bytes _ _ Hf) Hb0) as H0. pose proof (byte_at _ _ _ (fl_bytes _ _ Hf) Hb1) as H1.
  pose proof (byte_at _ _ _ (fl_bytes _ _ Hf) Hb2) as H2. pose proof (byte_at _ _ _ (fl_bytes _ _ Hf) Hb3) as H3.
  unfold loaded. rewrite Hd0. cbn [take]. rewrite Hd1. cbn [take].
  replace (a + 1 + 1) with (a + 2) by lia. rewrite Hd2. cbn [take]. replace (a + 2 + 1) with (a + 3) by lia.
  rewrite Hd3. cbn [take]. rewrite take_0. cbn [le_value]. unfold byte in *.
  rewrite !shl32_byte, (low_or b0 b1 8) by (done || lia). rewrite (low_or (b0 + b1 * 2 ^ 8) b2 16) by lia.
  rewrite (low_or _ b3 24) by lia. unfold mret, M_ret. do 2 f_equal. lia.
Qed.

Lemma loaded_range n a : 0 ≤ loaded n a < 2 ^ (8 * Z.of_nat n).
Proof.
  unfold loaded. assert (Forall byte (take n (drop (Z.to_nat a) m))) as Hb by apply Forall_take, Forall_drop, (fl_bytes _ _ Hf).
  assert (length (take n (drop (Z.to_nat a) m)) ≤ n)%nat as Hn by (rewrite length_take; lia).
  revert n Hn Hb. generalize (drop (Z.to_nat a) m). intros l n. generalize (take n l). clear.
  intros bs. revert n. induction bs as [|b bs IH]; intros n Hn Hb; cbn [le_value].
  - split; [lia|]. apply Z.pow_pos_nonneg; lia.
  - inversion Hb; subst. unfold byte in *. destruct n as [|n]; [cbn in Hn; lia|].
    specialize (IH n ltac:(cbn in Hn; lia) ltac:(done)).
    replace (8 * Z.of_nat (Datatypes.S n)) with (8 + 8 * Z.of_nat n) by lia.
    rewrite Z.pow_add_r by lia. change (2 ^ 8) with 256. lia.
Qed.
End loads.

Section stores.
Context (s : rv32i_state) (m : list Z) (Hf : rv_flat s m).

Definition stored (n : nat) (a v : Z) : list Z := list_inserts (Z.to_nat a) (le_bytes n v) m.

Lemma ram_put_run l a v : 0 ≤ a < Z.of_nat (length l) → ram_put a v (s, l) = Some (tt, (s, <[Z.to_nat a := u8 v]> l)).
Proof. intros Ha. unfold ram_put. cbn [cm_ram flat_ram id cm_set_ram]. by rewrite (proj2 (Z.leb_gt _ _)) by lia. Qed.

Lemma u8_u8 v : u8 (u8 v) = u8 v.
Proof. unfold u8. by apply Z.mod_mod. Qed.
Lemma u8_shift v n : 0 ≤ n → u8 (v .>> n) = v / 2 ^ n mod 256.
Proof. intros Hn. unfold u8. by rewrite Z.shiftr_div_pow2. Qed.

Lemma store8_run a v : 0 ≤ a → a + 1 ≤ Z.of_nat (length m) → store8 a (u8 v) (s, m) = Some (tt, (s, stored 1 a v)).
Proof.
  intros Ha Hl. unfold store8.
  rewrite (bind_eq _ _ _ false (s, m)) by (unfold rv_get, gets; cbn [fst]; by rewrite (no_write_hook _ _ Hf)).
  cbn iota. rewrite ram_put_run by lia. by rewrite u8_u8.
Qed.

(** The bytes from the last one, as the code has them from the first. *)
Lemma inserts_snoc i (l m' : list Z) b : list_inserts i (l ++ [b]) m' = <[(length l + i)%nat := b]> (list_inserts i l m').
Proof. by rewrite list_inserts_app_l. Qed.

Lemma store16_run a v : 0 ≤ a → a + 2 ≤ Z.of_nat (length m) → store16 a v (s, m) = Some (tt, (s, stored 2 a v)).
Proof.
  intros Ha Hl. unfold store16.
  rewrite (bind_eq _ _ _ false (s, m)) by (unfold rv_get, gets; cbn [fst]; by rewrite (no_write_hook _ _ Hf)).
  cbn iota zeta. rewrite Z.add_0_r. rewrite (bind_eq _ _ _ _ _ (ram_put_run m a _ ltac:(lia))).
  rewrite ram_put_run by (rewrite length_insert; lia). unfold stored.
  change (le_bytes 2 v) with ([v mod 256] ++ [v / 256 mod 256]). rewrite inserts_snoc.
  rewrite !u8_u8, u8_shift by done. cbn [list_inserts length]. do 3 f_equal. f_equal. lia.
Qed.

Lemma store32_run a v : 0 ≤ a → a + 4 ≤ Z.of_nat (length m) → store32 a v (s, m) = Some (tt, (s, stored 4 a v)).
Proof.
  intros Ha Hl. unfold store32.
  rewrite (bind_eq _ _ _ false (s, m)) by (unfold rv_get, gets; cbn [fst]; by rewrite (no_write_hook _ _ Hf)).
  cbn iota zeta. rewrite Z.add_0_r. rewrite (bind_eq _ _ _ _ _ (ram_put_run m a _ ltac:(lia))).
  erewrite bind_eq; [|apply ram_put_run; rewrite ?length_insert; lia].
  erewrite bind_eq; [|apply ram_put_run; rewrite ?length_insert; lia].
  rewrite ram_put_run by (rewrite !length_insert; lia). unfold stored.
  change (le_bytes 4 v) with (([v mod 256] ++ [v / 256 mod 256] ++ [v / 256 / 256 mod 256]) ++ [v / 256 / 256 / 256 mod 256]).
  rewrite inserts_snoc, (app_assoc [v mod 256]), inserts_snoc, inserts_snoc.
  rewrite !u8_u8, !u8_shift by done. cbn [list_inserts length app].
  rewrite !Z.div_div by done. change (2 ^ 8) with 256. change (2 ^ 16) with (256 * 256). change (2 ^ 24) with (256 * 256 * 256).
  assert (∀ k, 0 ≤ k → Z.to_nat (a + k) = (Z.to_nat k + Z.to_nat a)%nat) as Hk by lia.
  rewrite !Hk by done. reflexivity.
Qed.
End stores.

(** * Jumps

    The processor does not look at the target of a jump until it fetches from it:
    where the manual has the jump trap, it retires it, with the link written and
    the PC at the target. *)

Definition jump_done (i : instr) (target : Z) (h : hart) : hart :=
  mkHart (match i with Jal rd _ | Jalr rd _ _ => write_x rd (u32 (h_pc h + 4)) (h_x h) | _ => h_x h end)
    target (h_mem h).
Definition late_exec (i : instr) (h : hart) : outcome :=
  match exec i h with
  | Trap c v => if c =? 0 then Retire (jump_done i v h) else Trap c v
  | o => o
  end.

(** Everything else is what the manual says. *)
Definition is_jump (i : instr) : bool :=
  match i with Jal _ _ | Jalr _ _ _ | Branch _ _ _ _ => true | _ => false end.

Lemma late_exec_plain i h : is_jump i = false → late_exec i h = exec i h.
Proof.
  unfold late_exec. destruct i; intros Hj; try discriminate Hj; try reflexivity; cbn [exec]; cbv zeta;
    unfold access_trap; destruct (negb _); [reflexivity | destruct (_ <? _); reflexivity | reflexivity | destruct (_ <? _); reflexivity].
Qed.
Lemma late_jal rd off h :
  late_exec (Jal rd off) h = Retire (mkHart (write_x rd (u32 (h_pc h + 4)) (h_x h)) (u32 (h_pc h + off)) (h_mem h)).
Proof. unfold late_exec. cbn [exec]. by destruct (_ =? 0). Qed.
Lemma late_jalr rd rs1 imm h :
  late_exec (Jalr rd rs1 imm) h =
    Retire (mkHart (write_x rd (u32 (h_pc h + 4)) (h_x h)) (u32 (h_x h !!! rs1 + imm) / 2 * 2) (h_mem h)).
Proof. unfold late_exec. cbn [exec]. by destruct (_ =? 0). Qed.
Lemma late_branch op rs1 rs2 off h :
  late_exec (Branch op rs1 rs2 off) h = Retire (mkHart (h_x h)
    (if branch_holds op (h_x h !!! rs1) (h_x h !!! rs2) then u32 (h_pc h + off) else u32 (h_pc h + 4)) (h_mem h)).
Proof. unfold late_exec. cbn [exec]. destruct (branch_holds _ _ _); [by destruct (_ =? 0) | done]. Qed.

(** * Each instruction

    [rv32i_step] does what the manual says of the instruction it decodes to, jumps
    to misaligned targets apart. *)

Section execute.
Context (s : rv32i_state) (m : list Z) (Hf : rv_flat s m) (w : Z) (Hw : w32 w).
Let p := split w.
Let pc := rv_pc s.
Let h := hart_of s m.

(** How the [switch] ends for each outcome. *)
Definition ends (o : outcome) : option (flow * (rv32i_state * list Z)) :=
  match o with
  | Retire h => Some (Break (h_pc h), (rv_set_x (h_x h) s, h_mem h))
  | Trap c v => Some (Return 0, (rv_set_fault 1 c v s, m))
  | Stop e h =>
      Some (Return 1, (rv_set_cycles (u64 (rv_cycles s + 1)) (rv_set_pc (h_pc h)
        (rv_set_halt 1 (if e then 2 else 1) (rv_x s !!! 10) s)), m))
  end.
Definition ends_decoded (o : option instr) : option (flow * (rv32i_state * list Z)) :=
  ends (match o with Some i => late_exec i h | None => Trap 2 w end).

Lemma rv_reg_run r : rv_reg r (s, m) = Some (rv_x s !!! r, (s, m)).
Proof. reflexivity. Qed.
Lemma rv_set_reg_run rd v : rv_set_reg rd v (s, m) = Some (tt, (rv_set_x (write_x rd v (rv_x s)) s, m)).
Proof. unfold rv_set_reg, rv_cpu, modify, set_reg, write_x. cbn [fst snd]. destruct (rd =? 0); by destruct s. Qed.
Lemma same_x : rv_set_x (rv_x s) s = s.
Proof. by destruct s. Qed.
Lemma faulting_run c v : faulting c v (s, m) = ends (Trap c v).
Proof. reflexivity. Qed.

(** A register written, and on to the next instruction. *)
Lemma write_break rd v next :
  (rv_set_reg rd v;; mret (Break next)) (s, m) = ends (Retire (mkHart (write_x rd v (rv_x s)) next m)).
Proof. by rewrite (bind_eq _ _ _ _ _ (rv_set_reg_run rd v)). Qed.
Lemma next_pc_spec : next_pc pc = u32 (rv_pc s + 4).
Proof. reflexivity. Qed.

Lemma word_of r : w32 (rv_x s !!! r).
Proof. apply (fl_x _ _ Hf). Qed.
Lemma p_ok : parts_ok p.
Proof. apply split_ok. Qed.

(** * Accesses *)

Lemma aligned_spec n a : n = 1%nat ∨ n = 2%nat ∨ n = 4%nat → 0 ≤ a →
  nz (a .& (Z.of_nat n - 1)) = negb (a mod Z.of_nat n =? 0).
Proof.
  intros Hn Ha. unfold nz. do 2 f_equal. destruct Hn as [-> | [-> | ->]].
  - change (Z.of_nat 1 - 1) with (Z.ones 0). by apply Z.land_ones.
  - change (Z.of_nat 2 - 1) with (Z.ones 1). by apply Z.land_ones.
  - change (Z.of_nat 4 - 1) with (Z.ones 2). by apply Z.land_ones.
Qed.

Lemma in_range_spec a n : 0 ≤ a → in_range s a n = negb (Z.of_nat (length m) <? a + n).
Proof.
  intros Ha. unfold in_range. rewrite (fl_hook _ _ Hf), (fl_ram _ _ Hf), (fl_size _ _ Hf). cbn [no_hook hook_read hook_write orb negb].
  destruct (Z.ltb_spec (Z.of_nat (length m)) n), (Z.ltb_spec (Z.of_nat (length m)) (a + n)); lia.
Qed.

Lemma access_run n a mis acc k : n = 1%nat ∨ n = 2%nat ∨ n = 4%nat → 0 ≤ a →
  rv_access mis acc (Z.of_nat n) a k (s, m) =
    match access_trap n a mis acc m with Some t => ends t | None => k (s, m) end.
Proof.
  intros Hn Ha. unfold rv_access, access_trap. rewrite aligned_spec by done.
  destruct (a mod Z.of_nat n =? 0); [cbn [negb] | apply faulting_run].
  rewrite (bind_eq _ _ _ (in_range s a (Z.of_nat n)) (s, m)) by done. rewrite in_range_spec by done.
  destruct (_ <? _); [apply faulting_run | done].
Qed.

Lemma access_room n a mis acc : access_trap n a mis acc m = None → a + Z.of_nat n ≤ Z.of_nat (length m).
Proof. unfold access_trap. destruct (negb _); [done|]. destruct (Z.ltb_spec (Z.of_nat (length m)) (a + Z.of_nat n)); [done | lia]. Qed.

(** A load of each size. *)
Lemma load_run n (read : Z → M (rv32i_state * list Z) Z) value a rd next :
  n = 1%nat ∨ n = 2%nat ∨ n = 4%nat → 0 ≤ a →
  (∀ a, 0 ≤ a → a + Z.of_nat n ≤ Z.of_nat (length m) → read a (s, m) = Some (loaded m n a, (s, m))) →
  rv_access 4 5 (Z.of_nat n) a (v ← read a; rv_set_reg rd (value v);; mret (Break next)) (s, m) =
  ends (match access_trap n a 4 5 m with
        | Some t => t
        | None => Retire (mkHart (write_x rd (value (loaded m n a)) (rv_x s)) next m)
        end).
Proof.
  intros Hn Ha Hread. rewrite access_run by done. destruct (access_trap n a 4 5 m) eqn:E; [done|].
  rewrite (bind_eq _ _ _ _ _ (Hread a Ha (access_room _ _ _ _ E))). apply write_break.
Qed.

Lemma store_run n (write : Z → Z → M (rv32i_state * list Z) unit) a v next :
  n = 1%nat ∨ n = 2%nat ∨ n = 4%nat → 0 ≤ a →
  (∀ a, 0 ≤ a → a + Z.of_nat n ≤ Z.of_nat (length m) → write a v (s, m) = Some (tt, (s, stored m n a v))) →
  rv_access 6 7 (Z.of_nat n) a (write a v;; mret (Break next)) (s, m) =
  ends (match access_trap n a 6 7 m with
        | Some t => t
        | None => Retire (mkHart (rv_x s) next (stored m n a v))
        end).
Proof.
  intros Hn Ha Hwrite. rewrite access_run by done. destruct (access_trap n a 6 7 m) eqn:E; [done|].
  rewrite (bind_eq _ _ _ _ _ (Hwrite a Ha (access_room _ _ _ _ E))). unfold ends. cbn [h_pc h_x h_mem]. by rewrite same_x.
Qed.

(** * The cases of the switch *)

Lemma add_imm r imm : add32 (rv_x s !!! r) (u32 imm) = u32 (rv_x s !!! r + imm).
Proof. apply add32_u32. Qed.

Lemma op_jal_run : op_jal pc w (s, m) = ends_decoded (Some (Jal (p_rd p) (signed 21 (imm_J p)))).
Proof. unfold op_jal. rewrite jump_imm, f_rd_spec, add32_u32 by done. unfold ends_decoded. rewrite late_jal. apply write_break. Qed.

Lemma op_jalr_run : op_jalr pc w (s, m) =
  ends_decoded (if p_f3 p =? 0 then Some (Jalr (p_rd p) (p_rs1 p) (signed 12 (imm_I p))) else None).
Proof.
  unfold op_jalr. rewrite f_funct3_spec, f_rs1_spec, f_rd_spec, load_imm by done. fold p.
  destruct (p_f3 p =? 0); cbn [negb]; [|apply faulting_run].
  rewrite (bind_eq _ _ _ _ _ (rv_reg_run _)), add_imm. cbv zeta. rewrite write_break. unfold ends_decoded. rewrite late_jalr. cbn [h hart_of h_x h_pc h_mem]. do 3 f_equal.
  set (x := u32 _). change 1 with (Z.ones 1) at 1. rewrite Z.ldiff_ones_r, Z.shiftl_mul_pow2, Z.shiftr_div_pow2 by done. done.
Qed.

Lemma op_branch_run : op_branch pc w (s, m) =
  ends_decoded (op ← decode_branch (p_f3 p); Some (Branch op (p_rs1 p) (p_rs2 p) (signed 13 (imm_B p)))).
Proof.
  unfold op_branch. rewrite f_funct3_spec, f_rs1_spec, f_rs2_spec, branch_imm by done. fold p.
  rewrite (bind_eq _ _ _ _ _ (rv_reg_run _)), (bind_eq _ _ _ _ _ (rv_reg_run _)). cbv zeta. rewrite add32_u32.
  assert (∀ op, branch_f3 op = p_f3 p → decode_branch (p_f3 p) = Some op) as Hop by (intros [] <-; reflexivity).
  assert ((∃ op, branch_f3 op = p_f3 p) ∨ p_f3 p = 2 ∨ p_f3 p = 3) as [[op Ho] | Hn].
  { pose proof p_ok as (_ & _ & H3 & _). clear Hop. revert H3. generalize (p_f3 p). intros j Hj.
    each_value j 0 8 ltac:(first [left; first [by exists BEQ | by exists BNE | by exists BLT | by exists BGE | by exists BLTU | by exists BGEU] | auto]). }
  - rewrite (Hop op Ho), <- Ho, branch_taken_spec. unfold ends_decoded. cbn [mbind option_bind]. rewrite late_branch. cbn [h hart_of h_x h_pc h_mem].
    destruct (branch_holds _ _ _); cbn; by rewrite same_x.
  - destruct Hn as [-> | ->]; apply faulting_run.
Qed.

Lemma u32_nonneg x : 0 ≤ u32 x.
Proof. apply u32_w32. Qed.
Lemma signed_byte a : sign_extend (loaded m 1 a) 8 = u32 (signed 8 (loaded m 1 a)).
Proof. apply sign_extend_spec; [lia | exact (loaded_range s m Hf 1 a)]. Qed.
Lemma signed_half a : sign_extend (loaded m 2 a) 16 = u32 (signed 16 (loaded m 2 a)).
Proof. apply sign_extend_spec; [lia | exact (loaded_range s m Hf 2 a)]. Qed.

Lemma op_load_run : op_load pc w (s, m) =
  ends_decoded (op ← decode_load (p_f3 p); Some (Load op (p_rd p) (p_rs1 p) (signed 12 (imm_I p)))).
Proof.
  unfold op_load. rewrite f_funct3_spec, f_rs1_spec, f_rd_spec, load_imm by done. fold p.
  rewrite (bind_eq _ _ _ _ _ (rv_reg_run _)), add_imm. cbv zeta.
  pose proof (u32_nonneg (rv_x s !!! p_rs1 p + signed 12 (imm_I p))) as Ha.
  pose proof p_ok as (_ & _ & H3 & _). revert H3. generalize (p_f3 p). intros j Hj.
  unfold ends_decoded.
  set (a := u32 (rv_x s !!! p_rs1 p + signed 12 (imm_I p))) in *.
  each_value j 0 8 ltac:(clear Hj; cbn [decode_load mbind option_bind Z.eqb Pos.eqb]; rewrite ?late_exec_plain by done; cbn [exec h hart_of h_x h_pc h_mem load_size];
    lazymatch goal with
    | |- rv_access _ _ 1 _ _ _ = _ =>
        rewrite (load_run 1 load8 _ a) by (auto using load8_run); rewrite ?signed_byte; reflexivity
    | |- rv_access _ _ 2 _ _ _ = _ =>
        rewrite (load_run 2 load16 _ a) by (auto using load16_run); rewrite ?signed_half; reflexivity
    | |- rv_access _ _ 4 _ _ _ = _ =>
        rewrite (load_run 4 load32 (λ v, v) a) by (auto using load32_run); reflexivity
    | |- _ => apply faulting_run
    end).
Qed.

Lemma op_store_run : op_store pc w (s, m) =
  ends_decoded (op ← decode_store (p_f3 p); Some (Store op (p_rs1 p) (p_rs2 p) (signed 12 (imm_S p)))).
Proof.
  unfold op_store. rewrite f_funct3_spec, f_rs1_spec, f_rs2_spec, store_imm by done. fold p.
  rewrite (bind_eq _ _ _ _ _ (rv_reg_run _)), add_imm. cbv zeta. rewrite (bind_eq _ _ _ _ _ (rv_reg_run _)).
  pose proof (u32_nonneg (rv_x s !!! p_rs1 p + signed 12 (imm_S p))) as Ha.
  pose proof p_ok as (_ & _ & H3 & _). revert H3. generalize (p_f3 p). intros j Hj.
  unfold ends_decoded.
  set (a := u32 (rv_x s !!! p_rs1 p + signed 12 (imm_S p))) in *.
  each_value j 0 8 ltac:(clear Hj; cbn [decode_store mbind option_bind]; rewrite ?late_exec_plain by done; cbn [exec h hart_of h_x h_pc h_mem store_size];
    lazymatch goal with
    | |- rv_access _ _ 1 _ _ _ = _ => exact (store_run 1 (λ a v, store8 a (u8 v)) a _ _ ltac:(auto) Ha (λ a, store8_run s m Hf a _))
    | |- rv_access _ _ 2 _ _ _ = _ => exact (store_run 2 store16 a _ _ ltac:(auto) Ha (λ a, store16_run s m Hf a _))
    | |- rv_access _ _ 4 _ _ _ = _ => exact (store_run 4 store32 a _ _ ltac:(auto) Ha (λ a, store32_run s m Hf a _))
    | |- _ => apply faulting_run
    end).
Qed.

(** SLLI with bit 30 set is not an encoding of the manual's; the code takes it for
    SLLI. *)
Definition reserved_slli : Prop := p_op p = 0x13 ∧ p_f3 p = 1 ∧ p_f7 p = 0x20.

Lemma op_op_imm_run : ¬ (p_f3 p = 1 ∧ p_f7 p = 0x20) → op_op_imm pc w (s, m) =
  ends_decoded (if (p_f3 p =? 1) || (p_f3 p =? 5)
    then op ← decode_shift (p_f3 p) (p_f7 p); Some (ShiftImm op (p_rd p) (p_rs1 p) (p_rs2 p))
    else op ← decode_imm (p_f3 p); Some (OpImm op (p_rd p) (p_rs1 p) (signed 12 (imm_I p)))).
Proof.
  intros Hr. unfold op_op_imm. rewrite f_funct3_spec, f_funct7_spec, f_rs1_spec, f_rs2_spec, f_rd_spec, load_imm by done. fold p.
  cbv zeta. rewrite (bind_eq _ _ _ _ _ (rv_reg_run _)).
  pose proof p_ok as (_ & _ & H3 & _ & H2 & H7).
  destruct ((p_f3 p =? 1) || (p_f3 p =? 5)) eqn:E3.
  - assert (nz (p_f7 p .&~ 0x20) = negb ((p_f7 p =? 0) || (p_f7 p =? 0x20))) as ->.
    { clear - H7. revert H7. generalize (p_f7 p). intros j Hj. each_value j 0 128 ltac:(reflexivity). }
    destruct (Z.eqb_spec (p_f7 p) 0) as [E|E0]; [|destruct (Z.eqb_spec (p_f7 p) 0x20) as [E|E]]; cbn [negb orb].
    + rewrite E. apply orb_true_iff in E3 as [E3%Z.eqb_eq|E3%Z.eqb_eq]; rewrite E3, write_break;
        unfold ends_decoded; cbn [decode_shift mbind option_bind]; rewrite late_exec_plain by done; cbn [exec h hart_of h_x h_pc h_mem].
      * by rewrite (alu_shift SLLI) by (apply word_of || lia).
      * by rewrite (alu_shift SRLI) by (apply word_of || lia).
    + rewrite E. apply orb_true_iff in E3 as [E3%Z.eqb_eq|E3%Z.eqb_eq]; [tauto|]. rewrite E3, write_break.
      unfold ends_decoded; cbn [decode_shift mbind option_bind]; rewrite late_exec_plain by done; cbn [exec h hart_of h_x h_pc h_mem].
      by rewrite (alu_shift SRAI) by (apply word_of || lia).
    + assert (decode_shift (p_f3 p) (p_f7 p) = None) as ->; [|apply faulting_run].
      apply orb_true_iff in E3 as [-> %Z.eqb_eq| -> %Z.eqb_eq]; revert H7 E0 E; clear; generalize (p_f7 p); intros j Hj;
        each_value j 0 128 ltac:(first [done | reflexivity]).
  - assert (∃ op, decode_imm (p_f3 p) = Some op ∧ imm_f3 op = p_f3 p) as (op & -> & Ho).
    { revert H3 E3. clear. generalize (p_f3 p). intros j Hj.
      each_value j 0 8 ltac:(try done; by eexists). }
    rewrite <- Ho, write_break. unfold ends_decoded; cbn [mbind option_bind]; rewrite late_exec_plain by done; cbn [exec h hart_of h_x h_pc h_mem].
    rewrite alu_imm; [done | apply word_of|]. pose proof (imm_I_range w) as Hi.
    exact (signed_range 12 _ ltac:(lia) Hi).
Qed.

Lemma decode_reg_muldiv f3 : 0 ≤ f3 < 8 → ∃ op, decode_reg f3 1 = Some op ∧ reg_f3 op = f3 ∧ reg_f7 op = 1.
Proof. intros Hj. each_value f3 0 8 ltac:(by eexists). Qed.
Lemma decode_reg_plain f3 : 0 ≤ f3 < 8 → ∃ op, decode_reg f3 0 = Some op ∧ reg_f3 op = f3 ∧ reg_f7 op = 0.
Proof. intros Hj. each_value f3 0 8 ltac:(by eexists). Qed.
Lemma decode_reg_alt f3 : 0 ≤ f3 < 8 →
  match decode_reg f3 0x20 with
  | Some op => (f3 = 0 ∨ f3 = 5) ∧ reg_f3 op = f3 ∧ reg_f7 op = 0x20
  | None => f3 ≠ 0 ∧ f3 ≠ 5
  end.
Proof. intros Hj. each_value f3 0 8 ltac:(cbn; auto with lia). Qed.
Lemma decode_reg_none f3 f7 : 0 ≤ f7 < 128 → f7 ≠ 0 → f7 ≠ 0x20 → f7 ≠ 1 → decode_reg f3 f7 = None.
Proof. intros Hj. each_value f7 0 128 ltac:(first [done | reflexivity]). Qed.

Lemma op_op_run : op_op pc w (s, m) =
  ends_decoded (op ← decode_reg (p_f3 p) (p_f7 p); Some (OpReg op (p_rd p) (p_rs1 p) (p_rs2 p))).
Proof.
  unfold op_op. rewrite f_funct3_spec, f_funct7_spec, f_rs1_spec, f_rs2_spec, f_rd_spec by done. fold p.
  rewrite (bind_eq _ _ _ _ _ (rv_reg_run _)), (bind_eq _ _ _ _ _ (rv_reg_run _)).
  pose proof p_ok as (_ & _ & H3 & _ & H2 & H7).
  destruct (Z.eqb_spec (p_f7 p) 1) as [->|E1].
  { destruct (decode_reg_muldiv _ H3) as (op & -> & <- & Ho). rewrite write_break.
    unfold ends_decoded; cbn [mbind option_bind]; rewrite late_exec_plain by done; cbn [exec h hart_of h_x h_pc h_mem].
    rewrite muldiv_reg; [done | apply word_of..| done]. }
  destruct (Z.eqb_spec (p_f7 p) 0) as [->|E0].
  { destruct (decode_reg_plain _ H3) as (op & -> & <- & Ho). cbn [orb andb Z.eqb]. rewrite write_break.
    unfold ends_decoded; cbn [mbind option_bind]; rewrite late_exec_plain by done; cbn [exec h hart_of h_x h_pc h_mem].
    rewrite <- (alu_reg op) by (apply word_of || congruence). by rewrite Ho. }
  destruct (Z.eqb_spec (p_f7 p) 0x20) as [->|E2]; cbn [orb andb].
  - pose proof (decode_reg_alt _ H3) as Hd. destruct (decode_reg _ _) as [op|].
    + destruct Hd as (H05 & Ho & H20). replace (negb _ && negb _) with false by (by destruct H05 as [-> | ->]).
      rewrite write_break. unfold ends_decoded; cbn [mbind option_bind]; rewrite late_exec_plain by done; cbn [exec h hart_of h_x h_pc h_mem].
      rewrite <- (alu_reg op) by (apply word_of || congruence). by rewrite Ho, H20.
    + destruct Hd as [H0%Z.eqb_neq H5%Z.eqb_neq]. rewrite H0, H5. apply faulting_run.
  - rewrite decode_reg_none by done. apply faulting_run.
Qed.

Lemma op_misc_mem_run : op_misc_mem pc w (s, m) =
  ends_decoded (if (p_f3 p =? 0) || (p_f3 p =? 1)
    then Some (Fence (p_f3 p =? 1) (p_rd p) (p_rs1 p) (signed 12 (imm_I p))) else None).
Proof.
  unfold op_misc_mem. rewrite f_funct3_spec by done. fold p. rewrite <- negb_orb.
  destruct (_ || _); cbn [negb]; [|apply faulting_run]. unfold ends_decoded, exec, ends. cbn. by rewrite same_x.
Qed.

Lemma op_system_run : op_system pc w (s, m) =
  ends_decoded (if (p_f3 p =? 0) && (p_rd p =? 0) && (p_rs1 p =? 0) then
    if imm_I p =? 0 then Some Ecall else if imm_I p =? 1 then Some Ebreak else None else None).
Proof.
  unfold op_system. rewrite f_funct3_spec, f_rd_spec, f_rs1_spec, top12_spec by done. fold p. rewrite <- !negb_andb.
  destruct (_ && _); cbn [negb]; [|apply faulting_run].
  destruct (imm_I p =? 0); [reflexivity|]. destruct (imm_I p =? 1); [reflexivity | apply faulting_run].
Qed.

(** * The switch *)

Lemma decode_opcodes q : decode_parts q =
  let op := p_op q in
  if op =? OP_LUI then Some (Lui (p_rd q) (imm_U q))
  else if op =? OP_AUIPC then Some (Auipc (p_rd q) (imm_U q))
  else if op =? OP_JAL then Some (Jal (p_rd q) (signed 21 (imm_J q)))
  else if op =? OP_JALR then
    if p_f3 q =? 0 then Some (Jalr (p_rd q) (p_rs1 q) (signed 12 (imm_I q))) else None
  else if op =? OP_BRANCH then
    op ← decode_branch (p_f3 q); Some (Branch op (p_rs1 q) (p_rs2 q) (signed 13 (imm_B q)))
  else if op =? OP_LOAD then
    op ← decode_load (p_f3 q); Some (Load op (p_rd q) (p_rs1 q) (signed 12 (imm_I q)))
  else if op =? OP_STORE then
    op ← decode_store (p_f3 q); Some (Store op (p_rs1 q) (p_rs2 q) (signed 12 (imm_S q)))
  else if op =? OP_OP_IMM then
    if (p_f3 q =? 1) || (p_f3 q =? 5)
    then op ← decode_shift (p_f3 q) (p_f7 q); Some (ShiftImm op (p_rd q) (p_rs1 q) (p_rs2 q))
    else op ← decode_imm (p_f3 q); Some (OpImm op (p_rd q) (p_rs1 q) (signed 12 (imm_I q)))
  else if op =? OP_OP then
    op ← decode_reg (p_f3 q) (p_f7 q); Some (OpReg op (p_rd q) (p_rs1 q) (p_rs2 q))
  else if op =? OP_MISC_MEM then
    if (p_f3 q =? 0) || (p_f3 q =? 1)
    then Some (Fence (p_f3 q =? 1) (p_rd q) (p_rs1 q) (signed 12 (imm_I q))) else None
  else if op =? OP_SYSTEM then
    if (p_f3 q =? 0) && (p_rd q =? 0) && (p_rs1 q =? 0) then
      if imm_I q =? 0 then Some Ecall else if imm_I q =? 1 then Some Ebreak else None
    else None
  else None.
Proof.
  unfold decode_parts. cbv zeta. generalize (p_op q). intros op.
  destruct op as [|op|op]; [reflexivity | | reflexivity].
  do 7 (try (destruct op as [op|op|]; [| |reflexivity])); try reflexivity.
Qed.

Lemma rv_execute_run : ¬ reserved_slli → rv_execute pc w (s, m) = ends_decoded (decode w).
Proof.
  intros Hr. unfold rv_execute, decode. fold p. rewrite decode_opcodes, f_opcode_spec by done. fold p. cbv zeta.
  destruct (p_op p =? OP_LUI); [rewrite upper_imm, f_rd_spec by done; apply write_break|].
  destruct (p_op p =? OP_AUIPC); [rewrite upper_imm, f_rd_spec by done; apply write_break|].
  destruct (p_op p =? OP_JAL); [apply op_jal_run|].
  destruct (p_op p =? OP_JALR); [apply op_jalr_run|].
  destruct (p_op p =? OP_BRANCH); [apply op_branch_run|].
  destruct (p_op p =? OP_LOAD); [apply op_load_run|].
  destruct (p_op p =? OP_STORE); [apply op_store_run|].
  destruct (Z.eqb_spec (p_op p) OP_OP_IMM); [apply op_op_imm_run; unfold reserved_slli in Hr; tauto|].
  destruct (p_op p =? OP_OP); [apply op_op_run|].
  destruct (p_op p =? OP_MISC_MEM); [apply op_misc_mem_run|].
  destruct (p_op p =? OP_SYSTEM); [apply op_system_run | apply faulting_run].
Qed.
End execute.
