(* ===== verification/Rv32Run.v ===== *)
(** Steps and runs of the RV32IM processor on its array (copro/cpu_rv32i.c
    [rv32i_step], [rv32i_run]) against those of a hart of the manual. *)

From S2P Require Export Rv32Step.

(** * One step *)

Definition retired (h : hart) (s : rv32i_state) : rv32i_state :=
  rv_set_cycles (u64 (rv_cycles s + 1)) (rv_set_pc (h_pc h) (rv_set_x (h_x h) s)).
Definition stopped (by_ebreak : bool) (h : hart) (s : rv32i_state) : rv32i_state :=
  rv_set_cycles (u64 (rv_cycles s + 1)) (rv_set_pc (h_pc h)
    (rv_set_halt 1 (if by_ebreak then 2 else 1) (rv_x s !!! 10) s)).

Definition well_coded (h : hart) : Prop := ¬ reserved_slli (fetched h).

(** No instruction has the reserved encoding. *)
Lemma encode_well_coded i : instr_ok i → ¬ reserved_slli (encode i).
Proof.
  intros Hi (E1 & E2 & E3). pose proof (decode_encode i Hi) as Hd. unfold decode in Hd. rewrite decode_opcodes in Hd. cbv zeta in Hd.
  rewrite E1, E2, E3 in Hd. discriminate.
Qed.

(** A misaligned target is the jump's trap in the manual; here the jump retires. *)
Definition jump_trap (cause value : Z) (h : hart) : bool := (cause =? 0) && negb (value =? h_pc h).
Definition jumped (target : Z) (h : hart) : hart :=
  match decode (fetched h) with Some i => jump_done i target h | None => h end.
Definition late_step (h : hart) : outcome :=
  match isa_step h with
  | Trap c v => if jump_trap c v h then Retire (jumped v h) else Trap c v
  | o => o
  end.

Lemma exec_trap i h c v : exec i h = Trap c v → c = 0 → v mod 4 ≠ 0.
Proof.
  assert (∀ x t, (if t mod 4 =? 0 then Retire (mkHart x t (h_mem h)) else Trap 0 t) = Trap c v → v mod 4 ≠ 0) as Hj.
  { intros x t. destruct (Z.eqb_spec (t mod 4) 0); [done|]. by intros [= _ <-]. }
  intros H Hc. assert (c ≠ 4 ∧ c ≠ 5 ∧ c ≠ 6 ∧ c ≠ 7) as Hne by lia. revert H.
  destruct i; cbn [exec]; cbv zeta; try discriminate; try apply Hj.
  - destruct (branch_holds _ _ _); [apply Hj | done].
  - unfold access_trap. destruct (negb _); [intros [= <- _]; lia|]. destruct (_ <? _); [intros [= <- _]; lia | done].
  - unfold access_trap. destruct (negb _); [intros [= <- _]; lia|]. destruct (_ <? _); [intros [= <- _]; lia | done].
Qed.

(** Those that trap with cause 0 are the jumps. *)
Lemma exec_trap_jump i h c v : exec i h = Trap c v → (c =? 0) = is_jump i.
Proof.
  assert (∀ x t, (if t mod 4 =? 0 then Retire (mkHart x t (h_mem h)) else Trap 0 t) = Trap c v → (c =? 0) = true) as Hj.
  { intros x t. destruct (t mod 4 =? 0); [done|]. by intros [= <- _]. }
  destruct i; cbn [exec is_jump]; cbv zeta; try discriminate; try apply Hj.
  - destruct (branch_holds _ _ _); [apply Hj | done].
  - unfold access_trap. destruct (negb _); [by intros [= <- _]|]. destruct (_ <? _); [by intros [= <- _] | done].
  - unfold access_trap. destruct (negb _); [by intros [= <- _]|]. destruct (_ <? _); [by intros [= <- _] | done].
Qed.

(** Aligned, in memory: the step is the instruction's. *)
Lemma late_step_exec h : h_pc h mod 4 = 0 → h_pc h + 4 ≤ Z.of_nat (length (h_mem h)) →
  late_step h = match decode (fetched h) with Some i => late_exec i h | None => Trap 2 (fetched h) end.
Proof.
  intros Hal Hfit. unfold late_step, isa_step, access_trap. change (Z.of_nat 4) with 4.
  rewrite Hal, (proj2 (Z.ltb_ge _ _)) by lia. cbn [Z.eqb negb]. unfold jumped, jump_trap.
  destruct (decode _) as [i|]; [|done]. unfold late_exec. destruct (exec i h) as [h'|c v|e h'] eqn:E; try done.
  destruct (Z.eqb_spec c 0) as [Hc|]; [|done]. pose proof (exec_trap i h c v E Hc) as Hv.
  destruct (Z.eqb_spec v (h_pc h)) as [->|]; [by rewrite Hal in Hv | done].
Qed.

Lemma misaligned_step s m : rv_flat s m → rv_pc s mod 4 ≠ 0 →
  rv32i_step (s, m) = Some (0, (rv_set_fault 1 0 (rv_pc s) s, m)).
Proof.
  intros Hf Hal. unfold rv32i_step. rewrite (bind_eq _ _ _ s (s, m)) by done. cbv zeta.
  rewrite (fl_halted _ _ Hf), (fl_faulted _ _ Hf), (fl_stalled _ _ Hf), (fl_hook _ _ Hf).
  change (nz 0 || nz 0) with false. change (nz 0) with false. cbn iota. rewrite (bind_eq _ _ _ tt (s, m)) by done.
  pose proof (fl_pc _ _ Hf) as [Hpc _]. change 3 with (Z.of_nat 4 - 1) at 1. rewrite aligned_spec by auto.
  change (Z.of_nat 4) with 4. by rewrite (proj2 (Z.eqb_neq _ _) Hal).
Qed.

Lemma rv32i_step_run s m : rv_flat s m → well_coded (hart_of s m) →
  rv32i_step (s, m) = Some (match late_step (hart_of s m) with
    | Retire h => (1, (retired h s, h_mem h))
    | Trap c v => (0, (rv_set_fault 1 c v s, m))
    | Stop e h => (1, (stopped e h s, m))
    end).
Proof.
  intros Hf Hr. pose proof (fl_pc _ _ Hf) as [Hpc _].
  destruct (Z.eq_dec (rv_pc s mod 4) 0) as [Hal|Hal].
  2: { rewrite misaligned_step by done. unfold late_step, isa_step, access_trap, jump_trap. cbn [hart_of h_pc h_mem].
       change (Z.of_nat 4) with 4. rewrite (proj2 (Z.eqb_neq _ _) Hal). cbn [negb].
       rewrite (proj2 (Z.eqb_eq (rv_pc s) _) eq_refl). reflexivity. }
  unfold rv32i_step. rewrite (bind_eq _ _ _ s (s, m)) by done. cbv zeta.
  rewrite (fl_halted _ _ Hf), (fl_faulted _ _ Hf), (fl_stalled _ _ Hf), (fl_hook _ _ Hf).
  change (nz 0 || nz 0) with false. change (nz 0) with false. cbn iota. rewrite (bind_eq _ _ _ tt (s, m)) by done.
  change 3 with (Z.of_nat 4 - 1) at 1. rewrite aligned_spec by auto. change (Z.of_nat 4) with 4. rewrite Hal. cbn [Z.eqb negb].
  rewrite (in_range_spec s m Hf (rv_pc s) 4 Hpc), negb_involutive.
  destruct (Z.ltb_spec (Z.of_nat (length m)) (rv_pc s + 4)) as [Hl|Hl].
  { unfold late_step, isa_step, access_trap. cbn [hart_of h_pc h_mem]. change (Z.of_nat 4) with 4.
    by rewrite Hal, (proj2 (Z.ltb_lt _ _) Hl). }
  rewrite late_step_exec by done.
  rewrite (bind_eq _ _ _ _ _ (load32_run s m Hf (rv_pc s) Hpc Hl)).
  change (loaded m 4 (rv_pc s)) with (fetched (hart_of s m)). set (w := fetched (hart_of s m)).
  assert (w32 w) as Hw by exact (loaded_range s m Hf 4 (rv_pc s)).
  rewrite bind_run, (rv_execute_run s m Hf w Hw Hr). unfold ends_decoded, ends.
  destruct (match decode w with Some i => late_exec i (hart_of s m) | None => Trap 2 w end) as [h|c v|e h]; try reflexivity.
  cbn [rv_get gets mbind M_bind]. rewrite (bind_eq _ _ _ 0 (rv_set_x (h_x h) s, h_mem h)).
  - reflexivity.
  - unfold rv_get, gets. cbn [fst rv_set_x rv_stalled]. by rewrite (fl_stalled _ _ Hf).
Qed.

(** * Well-formed harts *)

Record hart_ok (size : Z) (h : hart) : Prop := {
  ho_x0 : h_x h !!! 0 = 0;
  ho_x r : w32 (h_x h !!! r);
  ho_pc : w32 (h_pc h);
  ho_bytes : Forall byte (h_mem h);
  ho_size : Z.of_nat (length (h_mem h)) = size
}.

Lemma write_x_ok rd v x : w32 v → x !!! 0 = 0 → (∀ r, w32 (x !!! r)) →
  write_x rd v x !!! 0 = 0 ∧ ∀ r, w32 (write_x rd v x !!! r).
Proof.
  intros Hv H0 Hx. unfold write_x. destruct (Z.eqb_spec rd 0) as [->|Hd]; [done|]. split.
  - by rewrite arr_other.
  - intros r. rewrite arr_get_set. by case_decide.
Qed.

Lemma w32_bool (b : bool) : w32 (if b then 1 else 0).
Proof. destruct b; unfold w32; lia. Qed.
Lemma w32_div a b : w32 a → 0 < b → w32 (a / b).
Proof. unfold w32. intros Ha Hb. split; [apply Z.div_pos; lia|]. apply Z.div_lt_upper_bound; nia. Qed.
Lemma w32_mod a b : w32 a → 0 < b → w32 (a mod b).
Proof. unfold w32. intros Ha Hb. pose proof (Z.mod_pos_bound a b Hb). pose proof (Z.mod_le a b). lia. Qed.

Lemma imm_value_ok op a imm : w32 a → w32 (imm_value op a imm).
Proof. intros Ha. destruct op; cbn [imm_value]; try apply w32_bool; auto with w32. Qed.
Lemma shift_value_ok op a n : w32 a → 0 ≤ n → w32 (shift_value op a n).
Proof. intros Ha Hn. destruct op; cbn [shift_value]; auto with w32. apply w32_div; [done | lia]. Qed.
Lemma reg_value_ok op a b : w32 a → w32 b → w32 (reg_value op a b).
Proof.
  intros Ha Hb. assert (0 ≤ b mod 32) by (by apply Z.mod_pos_bound).
  destruct op; cbn [reg_value]; try apply w32_bool; try (by apply shift_value_ok); auto with w32;
    destruct (Z.eqb_spec b 0); auto with w32; [apply w32_div | apply w32_mod]; unfold w32 in *; lia.
Qed.

Lemma length_stored n a v m : length (stored m n a v) = length m.
Proof. unfold stored. apply length_inserts. Qed.
Lemma le_bytes_ok n v : Forall byte (le_bytes n v).
Proof. revert v. induction n as [|n IH]; intros v; cbn [le_bytes]; constructor; [by apply Z.mod_pos_bound | apply IH]. Qed.
Lemma inserts_bytes i bs m : Forall byte bs → Forall byte m → Forall byte (list_inserts i bs m).
Proof.
  intros Hbs Hm. revert i. induction Hbs as [|b bs Hb _ IH]; intros i; [done|]. cbn [list_inserts]. by apply Forall_insert.
Qed.
Lemma stored_ok n a v m : Forall byte m → Forall byte (stored m n a v).
Proof. apply inserts_bytes, le_bytes_ok. Qed.

Lemma access_outcome n a mis acc m t : access_trap n a mis acc m = Some t → ∃ c v, t = Trap c v.
Proof. unfold access_trap. destruct (negb _); [|destruct (_ <? _)]; intros [= <-]; eauto. Qed.

Lemma load_value_ok s m op a : rv_flat s m → w32 (load_value op (loaded m (load_size op) a)).
Proof.
  intros Hf. pose proof (loaded_range s m Hf (load_size op) a) as H. unfold w32.
  destruct op; cbn [load_value load_size] in *; try apply u32_w32; change (2 ^ (8 * Z.of_nat 2)) with 65536 in *;
    change (2 ^ (8 * Z.of_nat 1)) with 256 in *; change (2 ^ (8 * Z.of_nat 4)) with 0x100000000 in *; lia.
Qed.

(** What retires leaves the hart well formed. *)
Lemma exec_ok s m i h' : rv_flat s m → (∀ rd rs1 n op, i = ShiftImm op rd rs1 n → 0 ≤ n) →
  (∀ rd imm, i = Lui rd imm → 0 ≤ imm < 1048576) →
  late_exec i (hart_of s m) = Retire h' → hart_ok (Z.of_nat (length m)) h'.
Proof.
  intros Hf Hs Hi. pose proof (fl_x0 _ _ Hf) as H0. pose proof (fl_x _ _ Hf) as Hx. pose proof (fl_pc _ _ Hf) as Hp.
  pose proof (fl_bytes _ _ Hf) as Hb.
  assert (∀ rd v next, w32 v → w32 next → Retire (mkHart (write_x rd v (rv_x s)) next m) = Retire h' →
    hart_ok (Z.of_nat (length m)) h') as Hw.
  { intros rd v next Hv Hn [= <-]. destruct (write_x_ok rd v _ Hv H0 Hx). by split. }
  destruct i as [rd imm|rd imm|rd off|rd rs1 imm|op rs1 rs2 off|op rd rs1 imm|op rs1 rs2 imm|op rd rs1 imm
    |op rd rs1 n|op rd rs1 rs2|i rd rs1 imm| |];
    rewrite ?late_jal, ?late_jalr, ?late_branch, ?late_exec_plain by done; cbn [exec hart_of h_x h_pc h_mem]; cbv zeta;
    try apply Hw; auto with w32.
  - specialize (Hi rd imm eq_refl). unfold w32. lia.
  - assert (∀ x, w32 x → w32 (x / 2 * 2)) as Hev by (unfold w32; intros x Hx'; field_math). apply Hev, u32_w32.
  - intros [= <-]. split; cbn; auto. by destruct (branch_holds _ _ _); auto with w32.
  - destruct (access_trap _ _ _ _ _) eqn:E; [destruct (access_outcome _ _ _ _ _ _ E) as (c & v & ->); done|].
    apply Hw; [by apply (load_value_ok s) | apply u32_w32].
  - destruct (access_trap _ _ _ _ _) eqn:E; [destruct (access_outcome _ _ _ _ _ _ E) as (c & v & ->); done|].
    intros [= <-]. split; cbn [h_x h_pc h_mem]; auto with w32; [by apply stored_ok|].
    by rewrite <- (length_stored (store_size op) (u32 (rv_x s !!! rs1 + imm)) (rv_x s !!! rs2) m).
  - by apply imm_value_ok.
  - apply shift_value_ok; [done|]. by eapply Hs.
  - by apply reg_value_ok.
  - intros [= <-]. split; cbn; auto with w32.
  - done.
  - done.
Qed.

Lemma decode_ranges w i : decode w = Some i →
  match i with ShiftImm _ _ _ n => 0 ≤ n | Lui _ imm => 0 ≤ imm < 1048576 | _ => True end.
Proof.
  unfold decode. rewrite decode_opcodes. cbv zeta. pose proof (split_ok w) as (_ & _ & H3 & H1 & H2 & H7).
  assert (0 ≤ imm_U (split w) < 1048576) as HU by (unfold imm_U; lia). destruct H2 as [H2 _].
  unfold mbind, option_bind. intros Hd. repeat (case_match; try discriminate); try exact I;
    injection Hd; intros; subst; try discriminate; first [exact H2 | exact HU].
Qed.

Lemma isa_retires h h' : isa_step h = Retire h' → late_step h = Retire h'.
Proof. unfold late_step. by intros ->. Qed.

Lemma late_step_ok s m h' : rv_flat s m → late_step (hart_of s m) = Retire h' →
  hart_ok (Z.of_nat (length m)) h' ∧ rv_flat (retired h' s) (h_mem h').
Proof.
  intros Hf Hr. assert (hart_ok (Z.of_nat (length m)) h') as Hok.
  { revert Hr. destruct (access_trap 4 (rv_pc s) 0 1 m) as [t|] eqn:E.
    - unfold late_step, isa_step. cbn [hart_of h_pc h_mem]. rewrite E. unfold access_trap in E.
      destruct (negb _); [|destruct (_ <? _); [|discriminate E]]; injection E as <-; unfold jump_trap; cbn [hart_of h_pc];
        [by rewrite (proj2 (Z.eqb_eq (rv_pc s) _) eq_refl) | done].
    - pose proof (access_room s m 4 _ _ _ E) as Hfit. unfold access_trap in E. change (Z.of_nat 4) with 4 in *.
      destruct (Z.eqb_spec (rv_pc s mod 4) 0) as [Hal|]; [|discriminate E]. rewrite late_step_exec by done.
      destruct (decode _) as [i|] eqn:Ed; [|done]. intros Hr.
      apply (exec_ok s m i); [done| | |done]; intros; subst; exact (decode_ranges _ _ Ed). }
  split; [done|]. destruct Hok. destruct Hf. split; cbn; try done; congruence.
Qed.

Lemma exec_stop i h e h' : exec i h = Stop e h' → h_x h' = h_x h ∧ h_mem h' = h_mem h.
Proof.
  destruct i; cbn [exec]; cbv zeta; try discriminate;
    repeat first [ destruct (branch_holds _ _ _); try discriminate
                 | destruct (_ mod 4 =? 0); try discriminate
                 | destruct (access_trap _ _ _ _ _) eqn:E; [destruct (access_outcome _ _ _ _ _ _ E) as (? & ? & ->)|]; try discriminate ];
    by intros [= <- <-].
Qed.
Lemma isa_step_stop h e h' : isa_step h = Stop e h' → h_x h' = h_x h ∧ h_mem h' = h_mem h.
Proof.
  unfold isa_step. destruct (access_trap _ _ _ _ _) eqn:E.
  { destruct (access_outcome _ _ _ _ _ _ E) as (c & v & ->). done. }
  destruct (decode _) as [i|]; [|done]. apply exec_stop.
Qed.

(** * Runs *)

Inductive ending := Running | Trapped (cause value : Z) | Stopped (by_ebreak : bool).

(** At most [n] steps of a hart: how many instructions it executed. *)
Fixpoint isa_run (n : nat) (h : hart) : Z * hart * ending :=
  match n with
  | O => (0, h, Running)
  | Datatypes.S n' =>
      match isa_step h with
      | Retire h' => let '(k, h'', e) := isa_run n' h' in (k + 1, h'', e)
      | Trap c v => (0, h, Trapped c v)
      | Stop e h' => (1, h', Stopped e)
      end
  end.

(** What the processor makes of it: a run of the manual that ends with the trap of a
    jump goes on with the jump, which counts; its target traps in its turn when
    there is time left to fetch from it. *)
Definition late_run (n : nat) (h : hart) : Z * hart * ending :=
  let '(k, h', e) := isa_run n h in
  match e with
  | Trapped c v =>
      if jump_trap c v h' then (k + 1, jumped v h', if k + 1 <? Z.of_nat n then e else Running) else (k, h', e)
  | _ => (k, h', e)
  end.
Lemma late_run_same n h k h' e : (∀ c v, e = Trapped c v → jump_trap c v h' = false) →
  isa_run n h = (k, h', e) → late_run n h = (k, h', e).
Proof. intros He Hr. unfold late_run. rewrite Hr. destruct e as [|c v|]; try done. by rewrite (He c v). Qed.

(** None of the instructions of the run is the reserved encoding. *)
Fixpoint all_coded (n : nat) (h : hart) : Prop :=
  match n with
  | O => True
  | Datatypes.S n' => well_coded h ∧ match isa_step h with Retire h' => all_coded n' h' | _ => True end
  end.

(** The same, decided. *)
Fixpoint coded (n : nat) (h : hart) : bool :=
  match n with
  | O => true
  | Datatypes.S n' =>
      let p := split (fetched h) in
      negb ((p_op p =? 0x13) && (p_f3 p =? 1) && (p_f7 p =? 0x20)) &&
      match isa_step h with Retire h' => coded n' h' | _ => true end
  end.
Lemma coded_all n h : coded n h = true → all_coded n h.
Proof.
  revert h. induction n as [|n IH]; intros h; cbn [coded all_coded]; [done|]. cbv zeta. intros [Hc Hn]%andb_prop. split.
  - intros (E1 & E2 & E3). rewrite E1, E2, E3 in Hc. discriminate.
  - destruct (isa_step h); auto.
Qed.

(** The processor after a run of [k] instructions that ended in [h] as [e]. *)
Definition after_run (k : Z) (h : hart) (e : ending) (s : rv32i_state) : rv32i_state :=
  let s := rv_set_cycles (u64 (rv_cycles s + k)) (rv_set_pc (h_pc h) (rv_set_x (h_x h) s)) in
  match e with
  | Running => s
  | Trapped c v => rv_set_fault 1 c v s
  | Stopped b => rv_set_halt 1 (if b then 2 else 1) (rv_x s !!! 10) s
  end.

Lemma u64_add x y z : u64 (u64 (x + y) + z) = u64 (x + y + z).
Proof. unfold u64. apply Zplus_mod_idemp_l. Qed.

(** A processor that has stopped takes no step. *)
Lemma step_stopped s m : nz (rv_halted s) || nz (rv_faulted s) = true → rv32i_step (s, m) = Some (0, (s, m)).
Proof. intros H. unfold rv32i_step. rewrite (bind_eq _ _ _ s (s, m)) by done. cbv zeta. by rewrite H. Qed.

Lemma run_stopped fuel used cycles s m : (Z.to_nat (cycles - used) ≤ fuel)%nat →
  nz (rv_halted s) || nz (rv_faulted s) = true → run_loop fuel used cycles (s, m) = Some (Some used, (s, m)).
Proof.
  intros Hfuel H. destruct fuel as [|fuel]; cbn [run_loop]; destruct (Z.ltb_spec used cycles); try done; [lia|].
  by rewrite (bind_eq _ _ _ _ _ (step_stopped s m H)).
Qed.

Lemma after_zero h s m : h = hart_of s m → u64 (rv_cycles s) = rv_cycles s → after_run 0 h Running s = s.
Proof. intros -> Hc. unfold after_run. cbn [hart_of h_pc h_x]. rewrite Z.add_0_r, Hc. by destruct s. Qed.

Lemma jumped_mem v h : h_mem (jumped v h) = h_mem h.
Proof. unfold jumped. by destruct (decode _). Qed.

(** A jump whose target traps. *)
Lemma jumped_pc v h i : decode (fetched h) = Some i → h_pc (jumped v h) = v ∧ h_mem (jumped v h) = h_mem h.
Proof. unfold jumped. by intros ->. Qed.

Lemma jump_trap_inv h c v : isa_step h = Trap c v → jump_trap c v h = true →
  c = 0 ∧ v mod 4 ≠ 0 ∧ h_pc (jumped v h) = v ∧ h_mem (jumped v h) = h_mem h.
Proof.
  unfold isa_step. destruct (access_trap _ _ _ _ _) as [t|] eqn:E; unfold jump_trap.
  { intros ->. unfold access_trap in E. destruct (negb _); [|destruct (_ <? _); [|discriminate E]]; injection E as <- <-;
      [by rewrite (proj2 (Z.eqb_eq (h_pc h) _) eq_refl) | done]. }
  destruct (decode _) as [i|] eqn:Ed; [|by intros [= <- <-]]. intros Ex [Hc%Z.eqb_eq _]%andb_true_iff.
  destruct (jumped_pc v h i Ed). split_and!; [done | by apply (exec_trap i h c v) | done..].
Qed.

Lemma run_loop_run n fuel used s m : rv_flat s m → u64 (rv_cycles s) = rv_cycles s →
  all_coded n (hart_of s m) → (n ≤ fuel)%nat →
  let '(k, h, e) := late_run n (hart_of s m) in
  run_loop fuel used (used + Z.of_nat n) (s, m) = Some (Some (used + k), (after_run k h e s, h_mem h)).
Proof.
  revert fuel used s m. induction n as [|n IH]; intros fuel used s m Hf Hcy Hc Hn; unfold late_run; cbn [isa_run].
  - rewrite (after_zero _ s m eq_refl Hcy). rewrite !Z.add_0_r. destruct fuel; cbn [run_loop]; by rewrite Z.ltb_irrefl.
  - destruct fuel as [|fuel]; [lia|]. destruct Hc as [Hw Hc]. pose proof (rv32i_step_run s m Hf Hw) as Hs.
    cbn [run_loop]. rewrite (proj2 (Z.ltb_lt _ _)) by lia.
    assert (∀ h k h2 e, late_step (hart_of s m) = Retire h →
      run_loop fuel (used + 1) (used + 1 + Z.of_nat n) (retired h s, h_mem h) =
        Some (Some (used + 1 + k), (after_run k h2 e (retired h s), h_mem h2)) →
      (r ← rv32i_step; if r =? 0 then mret (Some used) else run_loop fuel (used + r) (used + Z.of_nat (Datatypes.S n))) (s, m) =
        Some (Some (used + (k + 1)), (after_run (k + 1) h2 e s, h_mem h2))) as Hretire.
    { intros h k h2 e Eh Hrun. rewrite Eh in Hs. rewrite (bind_eq _ _ _ _ _ Hs). cbn [Z.eqb].
      replace (used + Z.of_nat (Datatypes.S n)) with (used + 1 + Z.of_nat n) by lia. rewrite Hrun. do 3 f_equal; [lia|].
      unfold after_run. cbn [retired rv_cycles rv_set_cycles rv_set_pc rv_set_x].
      rewrite u64_add. replace (rv_cycles s + 1 + k) with (rv_cycles s + (k + 1)) by lia. reflexivity. }
    assert (∀ h, late_step (hart_of s m) = Retire h → rv_flat (retired h s) (h_mem h) ∧ hart_of (retired h s) (h_mem h) = h ∧
      u64 (rv_cycles (retired h s)) = rv_cycles (retired h s)) as Hkeep.
    { intros h Eh. destruct (late_step_ok s m h Hf Eh) as [_ Hf']. split; [done|]. split; [by destruct h|].
      cbn. unfold u64. by apply Z.mod_mod. }
    destruct (isa_step (hart_of s m)) as [h|c v|e h] eqn:E.
    + pose proof (isa_retires _ _ E) as El. destruct (Hkeep h El) as (Hf' & Eh & Hcy').
      specialize (IH fuel (used + 1) (retired h s) (h_mem h) Hf' Hcy'). rewrite Eh in IH. specialize (IH Hc ltac:(lia)).
      unfold late_run in IH. destruct (isa_run n h) as [[k h2] e].
      destruct e as [|c v|]; [by apply (Hretire h) | | by apply (Hretire h)].
      destruct (jump_trap c v h2); [|by apply (Hretire h)]. apply (Hretire h _ _ _ El).
      assert ((k + 1 + 1 <? Z.of_nat (Datatypes.S n)) = (k + 1 <? Z.of_nat n)) as ->
        by (apply eq_true_iff_eq; rewrite !Z.ltb_lt; lia). exact IH.
    + assert (late_step (hart_of s m) = if jump_trap c v (hart_of s m) then Retire (jumped v (hart_of s m)) else Trap c v)
        as El by (unfold late_step; by rewrite E).
      destruct (jump_trap c v (hart_of s m)) eqn:Ej.
      * destruct (jump_trap_inv _ _ _ E Ej) as (-> & Hv & Epc & Emem). destruct (Hkeep _ El) as (Hf' & Eh & Hcy').
        apply (Hretire _ 0 _ _ El). destruct n as [|n].
        { change (0 + 1 <? Z.of_nat 1) with false. cbv iota. rewrite (after_zero _ _ _ (eq_sym Eh) Hcy'), !Z.add_0_r.
          destruct fuel; cbn [run_loop]; by rewrite Z.ltb_irrefl. }
        rewrite (proj2 (Z.ltb_lt _ _)) by lia. destruct fuel as [|fuel]; [lia|]. cbn [run_loop].
        rewrite (proj2 (Z.ltb_lt _ _)) by lia.
        erewrite bind_eq; [|apply misaligned_step; [done | by cbn; rewrite Epc]]. cbn [Z.eqb]. rewrite Z.add_0_r.
        unfold mret, M_ret. do 3 f_equal. set (h1 := jumped v (hart_of s m)) in *.
        change (after_run 0 h1 (Trapped 0 v) (retired h1 s)) with (rv_set_fault 1 0 v (after_run 0 h1 Running (retired h1 s))).
        rewrite (after_zero _ _ _ (eq_sym Eh) Hcy'). cbn [retired rv_pc rv_set_cycles rv_set_pc]. by rewrite Epc.
      * rewrite El in Hs. rewrite (bind_eq _ _ _ _ _ Hs). cbn [Z.eqb]. rewrite Z.add_0_r. unfold mret, M_ret. do 3 f_equal.
        unfold after_run. cbn [hart_of h_pc h_x]. rewrite Z.add_0_r, Hcy. by destruct s.
    + assert (late_step (hart_of s m) = Stop e h) as El by (unfold late_step; by rewrite E). rewrite El in Hs.
      rewrite (bind_eq _ _ _ _ _ Hs). cbn [Z.eqb]. rewrite run_stopped; [|lia | done]. do 3 f_equal.
      * unfold after_run, stopped. destruct (isa_step_stop _ _ _ E) as [Hx Hm]. cbn [hart_of h_x] in Hx. rewrite Hx. by destruct s.
      * by destruct (isa_step_stop _ _ _ E) as [_ ->].
Qed.
