(* ===== verification/Rv32Hook.v ===== *)
(** The RV32IM processor behind any hook (copro/cpu_rv32i.c, copro/cpu_mem.h): its
    invariant, the end of its runs, and what a stalled access leaves. *)

From S2P Require Export Rv32Run.

(** * The end of a run *)

Definition idle (s : rv32i_state) : bool := nz (rv_halted s) || nz (rv_faulted s) || nz (rv_stalled s).

Section count.
Context {W : Type} `{!CpuMem W}.
Implicit Types sw : rv32i_state * W.

Definition flow_counts (r : flow) sw : Prop :=
  match r with Break _ => True | Return n => n = 1 ∨ n = 0 ∧ idle (fst sw) = true end.

Lemma faulting_counts P cause addr : hoare P (faulting cause addr) flow_counts.
Proof.
  intros [s w] _. cbn. right. split; [done|]. unfold idle. cbn [rv_set_fault rv_halted rv_faulted].
  change (nz 1) with true. by rewrite orb_true_r.
Qed.
Lemma break_counts P next : hoare P (mret (Break next)) flow_counts.
Proof. by intros sw _. Qed.
Lemma hoare_any {A} P (m : M (rv32i_state * W) A) : hoare P m (λ _ _, True).
Proof. intros sw _. by destruct (m sw) as [[a sw']|]. Qed.
Lemma bind_counts {A} P (m : M (rv32i_state * W) A) k :
  (∀ a, hoare (λ _, True) (k a) flow_counts) → hoare P (m ≫= k) flow_counts.
Proof. intros H. eapply hoare_bind; [apply hoare_any | exact H]. Qed.
Lemma access_counts P mis acc len addr k :
  hoare (λ _, True) k flow_counts → hoare P (rv_access mis acc len addr k) flow_counts.
Proof.
  intros H. unfold rv_access. destruct (nz _); [apply faulting_counts|]. apply bind_counts. intros [].
  - exact H.
  - apply faulting_counts.
Qed.
End count.

Ltac counts_walk :=
  repeat (cbv beta zeta;
  match goal with
  | |- ∀ _, _ => intro
  | |- hoare _ (faulting _ _) _ => apply faulting_counts
  | |- hoare _ (mret (Break _)) _ => apply break_counts
  | |- hoare _ (rv_access _ _ _ _ _) _ => apply access_counts
  | |- hoare _ (_ ≫= _) _ => apply bind_counts
  | |- hoare _ (if ?b then _ else _) _ => destruct b
  | |- hoare _ (match ?x with _ => _ end) _ => destruct x
  | |- hoare _ (mret (Return 1)) _ => intros ? _; left; reflexivity
  end).

Section runs.
Context {W : Type} `{!CpuMem W}.
Implicit Types sw : rv32i_state * W.

Lemma execute_counts pc w : hoare (λ _, True) (rv_execute pc w) flow_counts.
Proof.
  unfold rv_execute, op_jal, op_jalr, op_branch, op_load, op_store, op_op_imm, op_op, op_misc_mem, op_system.
  counts_walk.
Qed.

Definition step_counts (n : Z) sw : Prop := n = 1 ∨ n = 0 ∧ idle (fst sw) = true.

Lemma rv32i_step_counts : hoare (λ _, True) rv32i_step step_counts.
Proof.
  intros [s w] _. unfold rv32i_step. rewrite (bind_eq _ _ _ s (s, w)) by done. cbv zeta.
  destruct (nz (rv_halted s) || nz (rv_faulted s)) eqn:E1; [unfold mret, M_ret; right; unfold idle; cbn [fst]; by rewrite E1|].
  destruct (nz (rv_stalled s)) eqn:E2; [unfold mret, M_ret; right; unfold idle; cbn [fst]; by rewrite E2, orb_true_r|].
  assert (∀ P cause addr, hoare P (fault (W:=W) cause addr;; mret 0) step_counts) as Hfault.
  { intros P cause addr [s1 w1] _. cbn. right. split; [done|]. unfold idle. cbn [rv_set_fault rv_halted rv_faulted].
    change (nz 1) with true. by rewrite orb_true_r. }
  match goal with |- match ?m (s, w) with _ => _ end => apply (λ H : hoare (λ _, True) m step_counts, H (s, w) I) end.
  eapply hoare_bind; [apply hoare_any|]. intros ?.
  destruct (nz (rv_pc s .& 3)); [apply Hfault|]. destruct (negb _); [apply Hfault|].
  eapply hoare_bind; [apply hoare_any|]. intros insn.
  eapply hoare_bind; [apply execute_counts|].
  intros [next|n]; [|by intros sw Hn].
  intros [s1 w1] _. rewrite (bind_eq _ _ _ (rv_stalled s1) (s1, w1)) by done.
  destruct (nz (rv_stalled s1)) eqn:E3; [|by left].
  right. split; [done|]. unfold idle. cbn [fst rv_set_pc rv_set_x rv_stalled]. by rewrite E3, orb_true_r.
Qed.

(** [rv32i_run] uses at most its budget and leaves some of it only when the
    processor has halted, faulted or stalled. *)
Lemma run_loop_returns fuel used cycles sw r sw' : used ≤ cycles → (Z.to_nat (cycles - used) ≤ fuel)%nat →
  run_loop fuel used cycles sw = Some (r, sw') →
  ∃ k, r = Some k ∧ used ≤ k ≤ cycles ∧ (k < cycles → idle (fst sw') = true).
Proof.
  revert used sw. induction fuel as [|fuel IH]; intros used sw Hu Hf; cbn [run_loop];
    destruct (Z.ltb_spec used cycles) as [Hl|Hl]; [lia | | | ].
  - intros [= <- <-]. exists used. split; [done|]. split; [lia|]. intros ?. lia.
  - rewrite bind_run. pose proof (rv32i_step_counts sw I) as Hc.
    destruct (rv32i_step sw) as [[n sw1]|]; [|done]. destruct Hc as [-> | [-> Hi]]; cbn [Z.eqb].
    + intros Hr. destruct (IH (used + 1) sw1 ltac:(lia) ltac:(lia) Hr) as (k & -> & Hk & He). exists k. split; [done|]. split; [lia | done].
    + intros [= <- <-]. exists used. split; [done|]. split; [lia | done].
  - intros [= <- <-]. exists used. split; [done|]. split; [lia|]. intros ?. lia.
Qed.

(** A processor that has stopped stays as it is. *)
Lemma idle_step sw : idle (fst sw) = true → rv32i_step sw = Some (0, sw).
Proof.
  destruct sw as [s w]. unfold idle. cbn [fst]. intros Hi. unfold rv32i_step. rewrite (bind_eq _ _ _ s (s, w)) by done. cbv zeta.
  destruct (nz (rv_halted s) || nz (rv_faulted s)); [done|]. cbn [orb] in Hi. by rewrite Hi.
Qed.
Lemma idle_run_loop fuel used cycles sw r sw' : idle (fst sw) = true → run_loop fuel used cycles sw = Some (r, sw') → sw' = sw.
Proof.
  intros Hi. destruct fuel as [|fuel]; cbn [run_loop]; (destruct (used <? cycles); [|by intros [= _ <-]]); [by intros [= _ <-]|].
  rewrite (bind_eq _ _ _ _ _ (idle_step sw Hi)). cbn [Z.eqb]. by intros [= _ <-].
Qed.
Lemma idle_run_some fuel used cycles sw : idle (fst sw) = true → (Z.to_nat (cycles - used) ≤ fuel)%nat →
  run_loop fuel used cycles sw = Some (Some used, sw).
Proof.
  intros Hi Hf. destruct fuel as [|fuel]; cbn [run_loop]; destruct (Z.ltb_spec used cycles); try done; [lia|].
  by rewrite (bind_eq _ _ _ _ _ (idle_step sw Hi)).
Qed.
End runs.

(** * Hooks that mind their own business *)

(** [I] holds of what is behind the processor and the hooks keep it; they leave
    the processor alone, and so does a write to the array. *)
Class CpuMemOk (W : Type) `{!CpuMem W} (I : W → Prop) := {
  cm_read_ok a s w r s' w' : I w → cm_read a (s, w) = Some (r, (s', w')) → s' = s ∧ I w' ∧ w32 (snd r);
  cm_write_ok a v s w r s' w' : I w → cm_write a v (s, w) = Some (r, (s', w')) → s' = s ∧ I w';
  cm_ram_ok w i b : I w → cm_ram w !! i = Some b → w32 b;
  cm_put_ok w i v : I w → I (cm_set_ram (<[i := u8 v]> (cm_ram w)) w)
}.

#[export] Instance flat_ram_ok : CpuMemOk (list Z) (Forall byte).
Proof.
  split; try done.
  - cbn. intros m i b Hm Hb. pose proof (byte_at _ _ _ Hm Hb) as H. unfold byte in H. unfold w32. lia.
  - cbn. intros m i v Hm. apply Forall_insert; [done|]. by apply Z.mod_pos_bound.
Qed.

Section invariant.
Context {W : Type} `{!CpuMem W} (I : W → Prop) `{!CpuMemOk W I}.

(** R0 is zero, registers and PC are words. *)
Definition rv_inv (sw : rv32i_state * W) : Prop :=
  rv_x (fst sw) !!! 0 = 0 ∧ (∀ r, w32 (rv_x (fst sw) !!! r)) ∧ w32 (rv_pc (fst sw)) ∧
  fst (rv_saved (fst sw)) !!! 0 = 0 ∧ (∀ r, w32 (fst (rv_saved (fst sw)) !!! r)) ∧ w32 (snd (rv_saved (fst sw))) ∧
  I (snd sw).

#[local] Instance val_flow : Val flow := λ r, match r with Break next => w32 next | Return n => w32 n end.

Lemma inv_cpu (f : rv32i_state → rv32i_state) :
  (∀ s, rv_x (f s) = rv_x s ∧ rv_pc (f s) = rv_pc s ∧ rv_saved (f s) = rv_saved s) → ok rv_inv (rv_cpu f).
Proof.
  intros Hf. apply ok_modify. intros [s w] H. unfold rv_inv in *. cbn [fst snd] in *. destruct (Hf s) as (-> & -> & ->). exact H.
Qed.
Lemma inv_set_reg rd v : w32 v → ok rv_inv (rv_set_reg rd v).
Proof.
  intros Hv. apply ok_modify. intros [s w] (H0 & Hx & H). unfold rv_inv, set_reg. cbn [fst snd] in *.
  destruct (Z.eqb_spec rd 0); [done|]. cbn. split; [by rewrite arr_other|]. split; [|done].
  intros r. rewrite arr_get_set. by case_decide.
Qed.
Lemma inv_reg r : ok rv_inv (rv_reg r).
Proof. apply ok_gets. intros [s w] (_ & Hx & _). apply Hx. Qed.
Lemma inv_fault c a : ok rv_inv (fault c a).
Proof. by apply inv_cpu. Qed.
Lemma inv_faulting c a : ok rv_inv (faulting c a).
Proof. eapply ok_bind; [apply inv_fault | intros; apply ok_ret; by vm_compute]. Qed.
Lemma inv_ram_get i : ok rv_inv (ram_get i).
Proof.
  intros [s w] H. unfold ram_get. cbn [snd]. destruct (_ !! _) eqn:E; [|done]. split; [|done].
  eapply cm_ram_ok; [|exact E]. apply H.
Qed.
Lemma inv_ram_put i v : ok rv_inv (ram_put i v).
Proof.
  intros [s w] H. unfold ram_put. destruct (_ <=? _); [done|]. split; [done|].
  destruct H as (? & ? & ? & ? & ? & ? & HI). repeat split; try done; try apply H0; try apply H1; try apply H3; try apply H4.
  by apply (cm_put_ok (I:=I)).
Qed.

Lemma inv_load8 a : ok rv_inv (load8 a).
Proof.
  unfold load8. apply ok_bind_any. intros []; [|apply inv_ram_get].
  intros [s w] H. rewrite bind_run. destruct (cm_read a (s, w)) as [[[c v] [s1 w1]]|] eqn:E; [|done].
  assert (I w) as HI by apply H. destruct (cm_read_ok _ _ _ _ _ _ HI E) as (-> & HI1 & Hv). cbn [snd] in Hv.
  assert (rv_inv (s, w1)) as H1 by (unfold rv_inv in *; cbn [fst snd] in *; tauto).
  assert (val 0) as H0 by (unfold val, val_Z, w32; lia).
  assert (∀ f, (∀ s, rv_x (f s) = rv_x s ∧ rv_pc (f s) = rv_pc s ∧ rv_saved (f s) = rv_saved s) →
    ok rv_inv (rv_cpu f;; mret 0)) as Hk.
  { intros f Hf. eapply ok_bind; [by apply inv_cpu | intros; by apply ok_ret]. }
  destruct c; [by split | |]; by (refine (Hk _ _ (s, w1) H1)).
Qed.
Lemma inv_store8 a v : ok rv_inv (store8 a v).
Proof.
  unfold store8. apply ok_bind_any. intros []; [|apply inv_ram_put].
  intros [s w] H. rewrite bind_run. destruct (cm_write a (u8 v) (s, w)) as [[c [s1 w1]]|] eqn:E; [|done].
  assert (I w) as HI by apply H. destruct (cm_write_ok _ _ _ _ _ _ _ HI E) as (-> & HI1).
  assert (rv_inv (s, w1)) as H1 by (unfold rv_inv in *; cbn [fst snd] in *; tauto).
  destruct c; [by split | |]; by apply inv_cpu.
Qed.
#[local] Hint Resolve inv_set_reg inv_reg inv_fault inv_faulting inv_ram_get inv_ram_put inv_load8 inv_store8 : ok.

Lemma inv_load32 a : ok rv_inv (load32 a).
Proof. apply ok_bind_any. intros []; ok_walk ltac:(unfold val, val_Z in *; auto 12 with w32). Qed.
Lemma inv_load16 a : ok rv_inv (load16 a).
Proof. apply ok_bind_any. intros []; ok_walk ltac:(unfold val, val_Z in *; auto 12 with w32). Qed.
Lemma inv_store32 a v : ok rv_inv (store32 a v).
Proof. apply ok_bind_any. intros []; ok_walk ltac:(unfold val, val_Z in *; auto 12 with w32). Qed.
Lemma inv_store16 a v : ok rv_inv (store16 a v).
Proof. apply ok_bind_any. intros []; ok_walk ltac:(unfold val, val_Z in *; auto 12 with w32). Qed.
#[local] Hint Resolve inv_load32 inv_load16 inv_store32 inv_store16 : ok.

Lemma sign_extend_w32 v n : n ∈ [8; 12; 13; 16; 21] → w32 (sign_extend v n).
Proof.
  intros Hn. assert (w32 (if 32 <=? n then 0xffffffff else shl32 1 n - 1)) as Hm.
  { rewrite !elem_of_cons, elem_of_nil in Hn. destruct Hn as [-> | [-> | [-> | [-> | [-> | []]]]]]; by vm_compute. }
  unfold sign_extend. set (mask := if 32 <=? n then _ else _) in *. cbv zeta. clearbody mask.
  destruct (nz _); [apply w32_lor|]; auto with w32.
Qed.
Lemma sra32_w32 v n : w32 v → w32 (sra32 v n).
Proof.
  intros Hv. assert (0 ≤ n .& 31) by (apply Z.land_nonneg; lia). unfold sra32. destruct (nz _); [apply w32_lor|]; auto with w32.
Qed.
Lemma alu_w32 f a b i alt : w32 a → w32 b → w32 (alu f a b i alt).
Proof.
  intros Ha Hb. assert (0 ≤ b .& 31) by (apply Z.land_nonneg; lia).
  unfold alu. repeat case_match; try apply sra32_w32; auto with w32.
Qed.
Lemma muldiv_w32 f a b : w32 a → w32 b → w32 (muldiv f a b).
Proof.
  intros Ha Hb. assert (b ≠ 0 → 0 < b) as Hb0 by (unfold w32 in Hb; lia).
  unfold muldiv. repeat case_match; auto with w32;
    match goal with H : (b =? 0) = false |- _ => apply Z.eqb_neq, Hb0 in H end;
    first [by apply w32_div | by apply w32_mod].
Qed.
#[local] Hint Resolve sra32_w32 alu_w32 muldiv_w32 : w32.
#[local] Hint Extern 1 (w32 (sign_extend _ _)) => apply sign_extend_w32; set_solver : w32.
#[local] Hint Extern 1 (w32 (if _ then _ else _)) => apply w32_if : w32.

Lemma inv_access mis acc len addr k : ok rv_inv k → ok rv_inv (rv_access mis acc len addr k).
Proof.
  intros Hk. unfold rv_access. destruct (nz _); [apply inv_faulting|]. apply ok_bind_any. intros []; [done | apply inv_faulting].
Qed.
Lemma inv_set_pc f v : w32 v → ok rv_inv (rv_cpu (λ s, rv_set_cycles (f s) (rv_set_pc v s))).
Proof. intros Hv. apply ok_modify. intros [s w] H. unfold rv_inv in *. cbn in *. tauto. Qed.
Lemma inv_halt r : ok rv_inv (rv_cpu (λ s, rv_set_halt 1 r (rv_x s !!! 10) s)).
Proof. by apply inv_cpu. Qed.
#[local] Hint Resolve inv_set_pc inv_halt : ok.

Local Ltac words := unfold val, val_Z, val_flow, next_pc in *; auto 12 with w32.
Local Ltac rv_walk :=
  repeat match goal with
  | |- ok _ (rv_access _ _ _ _ _) => apply inv_access
  | |- ok _ (rv_set_reg _ _) => apply inv_set_reg; solve [words]
  | |- ok _ (rv_cpu (λ s, rv_set_cycles _ _)) => apply inv_set_pc; solve [words]
  | |- _ => progress (ok_walk ltac:(words))
  end.

Lemma f_rs2_w32 w : w32 (f_rs2 w).
Proof. unfold f_rs2. apply w32_land_r. unfold w32; lia. Qed.
#[local] Hint Resolve f_rs2_w32 : w32.

Lemma inv_execute pc w : w32 w → ok rv_inv (rv_execute pc w).
Proof.
  intros Hw. unfold rv_execute, op_jal, op_jalr, op_branch, op_load, op_store, op_op_imm, op_op, op_misc_mem, op_system.
  rv_walk.
Qed.

Lemma inv_step : ok rv_inv rv32i_step.
Proof.
  unfold rv32i_step. apply ok_bind_state. intros s [s' w] [H <-]. unfold id in *. cbv zeta.
  destruct (_ || _); [by split; [unfold val, val_Z, w32; lia|]|].
  destruct (nz _); [by split; [unfold val, val_Z, w32; lia|]|].
  match goal with |- match ?m (s', w) with _ => _ end => apply (λ E : ok rv_inv m, E (s', w) H) end.
  assert (w32 (rv_pc s')) as Hpc by apply H.
  eapply ok_bind; [apply ok_when; intros _|intros _ _].
  { apply ok_modify. intros [s w1] H1. unfold rv_inv in *. cbn in *. tauto. }
  destruct (nz _); [rv_walk|]. destruct (negb _); [rv_walk|].
  eapply ok_bind; [apply inv_load32 | intros insn Hi]. eapply ok_bind; [by apply inv_execute | intros [next|n] Hr].
  - apply ok_bind_any. intros st. destruct (nz st).
    + eapply ok_bind; [|intros; by apply ok_ret; unfold val, val_Z, w32; lia].
      apply ok_modify. intros [s w1] H1. unfold rv_inv in *. cbn in *. tauto.
    + eapply ok_bind; [by apply inv_set_pc | intros; by apply ok_ret; unfold val, val_Z, w32; lia].
  - by apply ok_ret.
Qed.

Lemma inv_run fuel used cycles : hoare rv_inv (run_loop fuel used cycles) (λ _, rv_inv).
Proof.
  assert (∀ r : option Z, hoare rv_inv (mret r) (λ _, rv_inv)) as Hret by (by intros r sw H).
  revert used. induction fuel as [|fuel IH]; intros used; cbn [run_loop]; destruct (used <? cycles); try apply Hret.
  eapply hoare_bind; [apply ok_hoare, inv_step|]. intros n. destruct (n =? 0); [apply Hret | apply IH].
Qed.

(** * Stalled accesses *)

(** Loads and stores change neither what is seen by [view], if that is not whether
    the processor has stalled or faulted, nor [I]. *)
Section kept.
Context {T : Type} (view : rv32i_state → T) (v : T).
Context (Hstall : ∀ st a w s, view (rv_set_stall st a w s) = view s) (Hfault : ∀ f c a s, view (rv_set_fault f c a s) = view s).
Definition kept (sw : rv32i_state * W) : Prop := view (fst sw) = v ∧ I (snd sw).

Lemma kept_cpu (f : rv32i_state → rv32i_state) : (∀ s, view (f s) = view s) → ok kept (rv_cpu f).
Proof. intros Hf. apply ok_modify. intros [s w] [Hv HI]. unfold kept. cbn [fst snd] in *. by rewrite Hf. Qed.
Lemma kept_ram_get i : ok kept (ram_get i).
Proof.
  intros [s w] H. unfold ram_get. cbn [snd]. destruct (_ !! _) eqn:E; [|done]. split; [|done].
  eapply cm_ram_ok; [|exact E]. apply H.
Qed.
Lemma kept_ram_put i x : ok kept (ram_put i x).
Proof.
  intros [s w] [Hv HI]. unfold ram_put. destruct (_ <=? _); [done|]. split; [done|]. split; [done|].
  by apply (cm_put_ok (I:=I)).
Qed.
Lemma kept_load8 a : ok kept (load8 a).
Proof.
  unfold load8. apply ok_bind_any. intros []; [|apply kept_ram_get].
  intros [s w] [Hv HI]. rewrite bind_run. destruct (cm_read a (s, w)) as [[[c x] [s1 w1]]|] eqn:E; [|done].
  destruct (cm_read_ok _ _ _ _ _ _ HI E) as (-> & HI1 & Hx). assert (val 0) as H0 by (unfold val, val_Z, w32; lia).
  destruct c; [by split | |]; (split; [done|]; split; [|done]; cbn [fst]; by rewrite ?Hstall, ?Hfault).
Qed.
Lemma kept_store8 a x : ok kept (store8 a x).
Proof.
  unfold store8. apply ok_bind_any. intros []; [|apply kept_ram_put].
  intros [s w] [Hv HI]. rewrite bind_run. destruct (cm_write a (u8 x) (s, w)) as [[c [s1 w1]]|] eqn:E; [|done].
  destruct (cm_write_ok _ _ _ _ _ _ _ HI E) as (-> & HI1).
  destruct c; [by split | |]; (split; [done|]; split; [|done]; cbn [fst]; by rewrite ?Hstall, ?Hfault).
Qed.
Local Hint Resolve kept_ram_get kept_ram_put kept_load8 kept_store8 : ok.
Lemma kept_load32 a : ok kept (load32 a).
Proof. apply ok_bind_any. intros []; ok_walk ltac:(unfold val, val_Z in *; auto 12 with w32). Qed.
Lemma kept_load16 a : ok kept (load16 a).
Proof. apply ok_bind_any. intros []; ok_walk ltac:(unfold val, val_Z in *; auto 12 with w32). Qed.
Lemma kept_store32 a x : ok kept (store32 a x).
Proof. apply ok_bind_any. intros []; ok_walk ltac:(unfold val, val_Z in *; auto 12 with w32). Qed.
Lemma kept_store16 a x : ok kept (store16 a x).
Proof. apply ok_bind_any. intros []; ok_walk ltac:(unfold val, val_Z in *; auto 12 with w32). Qed.
End kept.

(** The word of an ECALL or an EBREAK. *)
Definition calls (insn : Z) : bool := (insn =? 0x73) || (insn =? 0x100073).

(** What an instruction in progress does not change. *)
Definition progress_of (s : rv32i_state) : Z * Z * (gmap Z Z * Z) := (rv_pc s, rv_cycles s, rv_saved s).

Section execution.
Context (pc insn : Z) (Hw : w32 insn) (s1 : rv32i_state) (w1 : W) (HI1 : I w1).
Let P (sw : rv32i_state * W) : Prop := sw = (s1, w1).
Let K := kept progress_of (progress_of s1).

(** How a case of the [switch] ends: it returns before it has done anything, or
    halts the processor, or falls out of the [switch]. *)
Definition ended (r : flow) (sw : rv32i_state * W) : Prop :=
  match r with
  | Break _ => K sw
  | Return n => n = 0 ∧ (∃ c a, sw = (rv_set_fault 1 c a s1, w1)) ∨ calls insn = true
  end.

Lemma begin_kept sw : P sw → K sw.
Proof. by intros ->. Qed.
Lemma faulting_ends c a : hoare P (faulting c a) ended.
Proof. intros ? ->. left. split; [done|]. by exists c, a. Qed.
Lemma break_ends next : hoare K (mret (Break next)) ended.
Proof. by intros sw H. Qed.
Lemma get_ends {A} (f : rv32i_state → A) k : (∀ a, hoare P (k a) ended) → hoare P (rv_get f ≫= k) ended.
Proof. intros Hk sw HP. by apply (Hk (f (fst sw))). Qed.
Lemma step_ends {A} `{!Val A} (m : M (rv32i_state * W) A) k : ok K m → (∀ a, hoare K (k a) ended) → hoare K (m ≫= k) ended.
Proof. intros Hm Hk. eapply hoare_bind; [apply ok_hoare, Hm | exact Hk]. Qed.
Lemma set_reg_kept rd x : ok K (rv_set_reg rd x).
Proof. apply kept_cpu. intros s. unfold set_reg. by destruct (rd =? 0). Qed.
Lemma access_ends mis acc len addr k : hoare P k ended → hoare P (rv_access mis acc len addr k) ended.
Proof.
  intros Hk. unfold rv_access. destruct (nz _); [apply faulting_ends|]. apply get_ends. intros []; [exact Hk | apply faulting_ends].
Qed.

Local Ltac ends_walk :=
  repeat (cbv beta zeta;
  match goal with
  | |- ∀ _, _ => intro
  | |- hoare P (faulting _ _) _ => apply faulting_ends
  | |- hoare P (rv_reg _ ≫= _) _ => apply get_ends
  | |- hoare P (rv_access _ _ _ _ _) _ => apply access_ends
  | |- hoare P (if ?b then _ else _) _ => destruct b
  | |- hoare P (match ?x with _ => _ end) _ => destruct x
  | |- hoare P _ _ => eapply hoare_conseq; [|exact begin_kept | intros ? ? H; exact H]
  | |- hoare K (_ ≫= _) _ => apply step_ends
  | |- hoare K (mret (Break _)) _ => apply break_ends
  | |- hoare K (if ?b then _ else _) _ => destruct b
  | |- ok K (rv_set_reg _ _) => apply set_reg_kept
  | |- ok K (load8 _) => by apply kept_load8
  | |- ok K (load16 _) => by apply kept_load16
  | |- ok K (load32 _) => by apply kept_load32
  | |- ok K (store8 _ _) => by apply kept_store8
  | |- ok K (store16 _ _) => by apply kept_store16
  | |- ok K (store32 _ _) => by apply kept_store32
  end).

Lemma system_ends : f_opcode insn = OP_SYSTEM → hoare P (op_system pc insn) ended.
Proof.
  intros Hop. unfold op_system. destruct (Z.eqb_spec (f_funct3 insn) 0) as [E3|]; [|apply faulting_ends].
  destruct (Z.eqb_spec (f_rd insn) 0) as [Ed|]; [|apply faulting_ends]. destruct (Z.eqb_spec (f_rs1 insn) 0) as [E1|]; [|apply faulting_ends].
  cbn [negb orb]. destruct ((insn .>> 20 =? 0) || (insn .>> 20 =? 1)) eqn:E; [|apply faulting_ends].
  intros sw _. cbn. right. unfold calls. rewrite orb_true_iff, !Z.eqb_eq in *. rewrite f_opcode_spec in Hop.
  rewrite f_funct3_spec in E3. rewrite f_rd_spec in Ed. rewrite f_rs1_spec in E1. unfold split in *.
  cbn [p_op p_rd p_f3 p_rs1] in *. rewrite Z.shiftr_div_pow2 in E by done. unfold OP_SYSTEM, w32 in *.
  clear -Hop E3 Ed E1 E Hw. field_math.
Qed.

Lemma execute_ends : hoare P (rv_execute pc insn) ended.
Proof.
  unfold rv_execute. cbv zeta.
  destruct (_ =? OP_LUI); [ends_walk|]. destruct (_ =? OP_AUIPC); [ends_walk|].
  destruct (_ =? OP_JAL); [unfold op_jal; ends_walk|]. destruct (_ =? OP_JALR); [unfold op_jalr; ends_walk|].
  destruct (_ =? OP_BRANCH); [unfold op_branch; ends_walk|].
  destruct (_ =? OP_LOAD); [unfold op_load; ends_walk|]. destruct (_ =? OP_STORE); [unfold op_store; ends_walk|].
  destruct (_ =? OP_OP_IMM); [unfold op_op_imm; ends_walk|]. destruct (_ =? OP_OP); [unfold op_op; ends_walk|].
  destruct (_ =? OP_MISC_MEM); [unfold op_misc_mem; ends_walk|].
  destruct (Z.eqb_spec (f_opcode insn) OP_SYSTEM) as [E|]; [by apply system_ends | ends_walk].
Qed.
End execution.

(** ECALL and EBREAK halt the processor past them. *)
Definition called (pc : Z) (s s' : rv32i_state) : Prop :=
  rv_halted s' = 1 ∧ rv_x s' = rv_x s ∧ rv_pc s' = add32 pc 4 ∧ rv_cycles s' = u64 (rv_cycles s + 1) ∧
  rv_stalled s' = rv_stalled s.
Lemma execute_calls pc insn (s : rv32i_state) (w : W) : calls insn = true →
  ∃ s', rv_execute pc insn (s, w) = Some (Return 1, (s', w)) ∧ called pc s s'.
Proof.
  intros Hcall. assert (f_opcode insn = OP_SYSTEM ∧ f_funct3 insn = 0 ∧ f_rd insn = 0 ∧ f_rs1 insn = 0 ∧
    (insn .>> 20 =? 0) || (insn .>> 20 =? 1) = true) as (E1 & E2 & E3 & E4 & E5).
  { revert Hcall. unfold calls. rewrite orb_true_iff, !Z.eqb_eq. by intros [-> | ->]. }
  unfold rv_execute. rewrite E1. cbn [Z.eqb Pos.eqb OP_SYSTEM OP_LUI OP_AUIPC OP_JAL OP_JALR OP_BRANCH OP_LOAD OP_STORE OP_OP_IMM OP_OP OP_MISC_MEM].
  unfold op_system. rewrite E2, E3, E4, E5. cbn [Z.eqb negb orb]. eexists. split; [reflexivity|]. by split_and!.
Qed.
Lemma execute_zero pc insn (s : rv32i_state) (w : W) : f_opcode insn = 0 →
  rv_execute pc insn (s, w) = Some (Return 0, (rv_set_fault 1 RV32I_FAULT_ILLEGAL insn s, w)).
Proof. intros H. unfold rv_execute. by rewrite H. Qed.

(** A step that stalls. *)
Lemma stalled_step s w n s' w' : I w → idle s = false → nz (hook_can_stall (rv_mem s)) = true →
  rv32i_step (s, w) = Some (n, (s', w')) → nz (rv_stalled s') = true →
  ∃ insn s1 w1, load32 (rv_pc s) (rv_set_saved (rv_x s, rv_pc s) s, w) = Some (insn, (s1, w1)) ∧
    rv_x s' = rv_x s ∧
    (if nz (rv_stalled s1) && calls insn
     then n = 1 ∧ rv_halted s' = 1 ∧ rv_pc s' = add32 (rv_pc s) 4 ∧ rv_cycles s' = u64 (rv_cycles s + 1)
     else n = 0 ∧ rv_pc s' = rv_pc s ∧ rv_cycles s' = rv_cycles s) ∧
    (f_opcode insn = 0 → rv_faulted s' = 1 ∧ rv_fault_cause s' = RV32I_FAULT_ILLEGAL).
Proof.
  intros HI [Hrun Hst]%orb_false_elim Hcan. unfold rv32i_step. rewrite (bind_eq _ _ _ s (s, w)) by done. cbv zeta.
  rewrite Hrun, Hst, Hcan. cbn iota. set (s0 := rv_set_saved (rv_x s, rv_pc s) s).
  rewrite (bind_eq _ _ _ tt (s0, w)) by done.
  assert (∀ c a, (fault c a;; mret 0) (s0, w) = Some (0, (rv_set_fault 1 c a s0, w))) as Hfault by done.
  assert (nz (rv_stalled s0) = false) as Hst0 by exact Hst.
  destruct (nz (rv_pc s .& 3)); [rewrite Hfault; intros [= <- <- <-] Hn; cbn in Hn; congruence|].
  destruct (negb _); [rewrite Hfault; intros [= <- <- <-] Hn; cbn in Hn; congruence|].
  rewrite bind_run. set (view := λ s, (rv_x s, progress_of s)).
  pose proof (kept_load32 view (view s0) ltac:(done) ltac:(done) (rv_pc s) (s0, w) (conj eq_refl HI)) as HL.
  destruct (load32 (rv_pc s) (s0, w)) as [[insn [s1 w1]]|]; [|done]. destruct HL as [Hw [Hv HI1]].
  injection Hv as Hx Hp Hc Hs. intros E Hn. exists insn, s1, w1. split; [done|]. rewrite bind_run in E.
  destruct (calls insn) eqn:Ecall.
  - destruct (execute_calls (rv_pc s) insn s1 w1 Ecall) as (s2 & Ex & H1 & H2 & H3 & H4 & H5). rewrite Ex in E. injection E as <- <- <-.
    rewrite <- H5, Hn. cbn [andb]. rewrite H2, H4, Hx, Hc. split_and!; try done. unfold calls in Ecall.
    rewrite orb_true_iff, !Z.eqb_eq in Ecall. by destruct Ecall as [-> | ->].
  - rewrite andb_false_r. pose proof (execute_ends (rv_pc s) insn Hw s1 w1 HI1 _ eq_refl) as HX.
    assert (f_opcode insn = 0 → rv_faulted s' = 1 ∧ rv_fault_cause s' = RV32I_FAULT_ILLEGAL) as Hzero.
    { intros Hz. rewrite (execute_zero _ _ s1 w1 Hz) in E. by injection E as <- <- <-. }
    cut (rv_x s' = rv_x s ∧ n = 0 ∧ rv_pc s' = rv_pc s ∧ rv_cycles s' = rv_cycles s); [tauto|]. clear Hzero.
    destruct (rv_execute (rv_pc s) insn (s1, w1)) as [[[next|r] [s2 w2]]|]; [| |done]; cbn [ended] in HX.
    + destruct HX as [H2 _]. cbn [fst] in H2. injection H2 as Hp2 Hc2 Hs2. rewrite Hp in Hp2. rewrite Hc in Hc2. rewrite Hs in Hs2.
      rewrite (bind_eq _ _ _ (rv_stalled s2) (s2, w2)) in E by done. destruct (nz (rv_stalled s2)) eqn:E2.
      * injection E as <- <- <-. cbn. rewrite Hs2, Hc2. by split_and!.
      * injection E as <- <- <-. cbn in Hn. congruence.
    + destruct HX as [[-> (c & a & [= -> ->])] | ?]; [|congruence]. injection E as <- <- <-. cbn. rewrite Hx, Hp, Hc. by split_and!.
Qed.
End invariant.
