(* ===== verification/CoproBus.v ===== *)
(** The address decode of the co-processor card (copro/copro_bus.c,
    copro/copro_bus.h): regions, the log of writes, stalled accesses and their
    answers. The arrays the bus points at are fields of it; [None] is an access
    outside one. *)

From S2P Require Export Rv32.

Record copro_bus := mkBus {
  bus_ram : list Z;
  bus_has_ram : bool;
  bus_ram_size : Z;
  bus_ctl : list Z;
  bus_has_ctl : bool;
  bus_ctl_size : Z;
  bus_map_off : Z;
  bus_map_count : Z;
  bus_log_off : Z;
  bus_log_entries : Z;
  bus_log_head : Z;
  bus_log_tail : Z;
  bus_log_dropped : Z;
  bus_stalled : Z;
  bus_wait_addr : Z;
  bus_wait_value : Z;
  bus_wait_is_write : Z;
  bus_wait_is_port : Z;
  bus_answer_valid : Z;
  bus_answer_addr : Z;
  bus_answer_value : Z;
  bus_answer_is_write : Z;
  bus_cycle_source : bool
}.
Definition bus_set_ram v (b : copro_bus) : copro_bus :=
  mkBus v (bus_has_ram b) (bus_ram_size b) (bus_ctl b) (bus_has_ctl b) (bus_ctl_size b)
    (bus_map_off b) (bus_map_count b) (bus_log_off b) (bus_log_entries b) (bus_log_head b)
    (bus_log_tail b) (bus_log_dropped b) (bus_stalled b) (bus_wait_addr b) (bus_wait_value b)
    (bus_wait_is_write b) (bus_wait_is_port b) (bus_answer_valid b) (bus_answer_addr b)
    (bus_answer_value b) (bus_answer_is_write b) (bus_cycle_source b).
Definition bus_set_ctl v (b : copro_bus) : copro_bus :=
  mkBus (bus_ram b) (bus_has_ram b) (bus_ram_size b) v (bus_has_ctl b) (bus_ctl_size b)
    (bus_map_off b) (bus_map_count b) (bus_log_off b) (bus_log_entries b) (bus_log_head b)
    (bus_log_tail b) (bus_log_dropped b) (bus_stalled b) (bus_wait_addr b) (bus_wait_value b)
    (bus_wait_is_write b) (bus_wait_is_port b) (bus_answer_valid b) (bus_answer_addr b)
    (bus_answer_value b) (bus_answer_is_write b) (bus_cycle_source b).
Definition bus_set_map off count (b : copro_bus) : copro_bus :=
  mkBus (bus_ram b) (bus_has_ram b) (bus_ram_size b) (bus_ctl b) (bus_has_ctl b)
    (bus_ctl_size b) off count (bus_log_off b) (bus_log_entries b) (bus_log_head b)
    (bus_log_tail b) (bus_log_dropped b) (bus_stalled b) (bus_wait_addr b) (bus_wait_value b)
    (bus_wait_is_write b) (bus_wait_is_port b) (bus_answer_valid b) (bus_answer_addr b)
    (bus_answer_value b) (bus_answer_is_write b) (bus_cycle_source b).
Definition bus_set_log off entries (b : copro_bus) : copro_bus :=
  mkBus (bus_ram b) (bus_has_ram b) (bus_ram_size b) (bus_ctl b) (bus_has_ctl b)
    (bus_ctl_size b) (bus_map_off b) (bus_map_count b) off entries (bus_log_head b)
    (bus_log_tail b) (bus_log_dropped b) (bus_stalled b) (bus_wait_addr b) (bus_wait_value b)
    (bus_wait_is_write b) (bus_wait_is_port b) (bus_answer_valid b) (bus_answer_addr b)
    (bus_answer_value b) (bus_answer_is_write b) (bus_cycle_source b).
Definition bus_set_ring head tail dropped (b : copro_bus) : copro_bus :=
  mkBus (bus_ram b) (bus_has_ram b) (bus_ram_size b) (bus_ctl b) (bus_has_ctl b)
    (bus_ctl_size b) (bus_map_off b) (bus_map_count b) (bus_log_off b) (bus_log_entries b) head
    tail dropped (bus_stalled b) (bus_wait_addr b) (bus_wait_value b) (bus_wait_is_write b)
    (bus_wait_is_port b) (bus_answer_valid b) (bus_answer_addr b) (bus_answer_value b)
    (bus_answer_is_write b) (bus_cycle_source b).
Definition bus_set_stalled v (b : copro_bus) : copro_bus :=
  mkBus (bus_ram b) (bus_has_ram b) (bus_ram_size b) (bus_ctl b) (bus_has_ctl b)
    (bus_ctl_size b) (bus_map_off b) (bus_map_count b) (bus_log_off b) (bus_log_entries b)
    (bus_log_head b) (bus_log_tail b) (bus_log_dropped b) v (bus_wait_addr b) (bus_wait_value b)
    (bus_wait_is_write b) (bus_wait_is_port b) (bus_answer_valid b) (bus_answer_addr b)
    (bus_answer_value b) (bus_answer_is_write b) (bus_cycle_source b).
Definition bus_set_wait addr value w p (b : copro_bus) : copro_bus :=
  mkBus (bus_ram b) (bus_has_ram b) (bus_ram_size b) (bus_ctl b) (bus_has_ctl b)
    (bus_ctl_size b) (bus_map_off b) (bus_map_count b) (bus_log_off b) (bus_log_entries b)
    (bus_log_head b) (bus_log_tail b) (bus_log_dropped b) (bus_stalled b) addr value w p
    (bus_answer_valid b) (bus_answer_addr b) (bus_answer_value b) (bus_answer_is_write b)
    (bus_cycle_source b).
Definition bus_set_wait_value v (b : copro_bus) : copro_bus :=
  mkBus (bus_ram b) (bus_has_ram b) (bus_ram_size b) (bus_ctl b) (bus_has_ctl b)
    (bus_ctl_size b) (bus_map_off b) (bus_map_count b) (bus_log_off b) (bus_log_entries b)
    (bus_log_head b) (bus_log_tail b) (bus_log_dropped b) (bus_stalled b) (bus_wait_addr b) v
    (bus_wait_is_write b) (bus_wait_is_port b) (bus_answer_valid b) (bus_answer_addr b)
    (bus_answer_value b) (bus_answer_is_write b) (bus_cycle_source b).
Definition bus_set_answer valid addr value w (b : copro_bus) : copro_bus :=
  mkBus (bus_ram b) (bus_has_ram b) (bus_ram_size b) (bus_ctl b) (bus_has_ctl b)
    (bus_ctl_size b) (bus_map_off b) (bus_map_count b) (bus_log_off b) (bus_log_entries b)
    (bus_log_head b) (bus_log_tail b) (bus_log_dropped b) (bus_stalled b) (bus_wait_addr b)
    (bus_wait_value b) (bus_wait_is_write b) (bus_wait_is_port b) valid addr value w
    (bus_cycle_source b).
Definition bus_set_answer_valid v (b : copro_bus) : copro_bus :=
  mkBus (bus_ram b) (bus_has_ram b) (bus_ram_size b) (bus_ctl b) (bus_has_ctl b)
    (bus_ctl_size b) (bus_map_off b) (bus_map_count b) (bus_log_off b) (bus_log_entries b)
    (bus_log_head b) (bus_log_tail b) (bus_log_dropped b) (bus_stalled b) (bus_wait_addr b)
    (bus_wait_value b) (bus_wait_is_write b) (bus_wait_is_port b) v (bus_answer_addr b)
    (bus_answer_value b) (bus_answer_is_write b) (bus_cycle_source b).
Definition bus_set_cycle_source v (b : copro_bus) : copro_bus :=
  mkBus (bus_ram b) (bus_has_ram b) (bus_ram_size b) (bus_ctl b) (bus_has_ctl b)
    (bus_ctl_size b) (bus_map_off b) (bus_map_count b) (bus_log_off b) (bus_log_entries b)
    (bus_log_head b) (bus_log_tail b) (bus_log_dropped b) (bus_stalled b) (bus_wait_addr b)
    (bus_wait_value b) (bus_wait_is_write b) (bus_wait_is_port b) (bus_answer_valid b)
    (bus_answer_addr b) (bus_answer_value b) (bus_answer_is_write b) v.

(** [copro_bus_init], after its [memset]. *)
Definition copro_bus_init (has_ram : bool) (ram : list Z) (ram_size : Z) (has_ctl : bool) (ctl : list Z) (ctl_size : Z)
  : copro_bus :=
  mkBus ram has_ram ram_size ctl has_ctl ctl_size 0 0 0 0 0 0 0 0 0 0 0 0 0 0 0 0 false.

Inductive copro_bus_result := COPRO_BUS_OK | COPRO_BUS_STALL | COPRO_BUS_BUSERROR.

Definition COPRO_REGION_RAM : Z := 0.
Definition COPRO_REGION_ROM : Z := 1.
Definition COPRO_REGION_LOG : Z := 2.
Definition COPRO_REGION_LATCH : Z := 3.
Definition COPRO_REGION_STALL : Z := 4.
Definition COPRO_REGION_UNMAPPED : Z := 5.
Definition COPRO_REGION_PORT : Z := 0x100.
Definition COPRO_REGION_OFFSET : Z := 0x200.
Definition COPRO_REGION_KIND (k : Z) : Z := k .& 0xff.
Definition COPRO_LOG_INFO_PORT : Z := 1.
Definition COPRO_LOG_INFO_DROPPED : Z := 2.
Definition CPU_MEM_PORT : Z := 0x10000.

(** [sizeof(copro_region)], [sizeof(copro_log_entry)] *)
Definition ENTRY_SIZE : Z := 16.

Record copro_log_entry := mkEntry { ent_cycle : Z; ent_addr : Z; ent_value : Z; ent_info : Z }.

Local Abbreviation BUS := (M copro_bus).

(** * The control area *)

(** [bus->ctl[i]], [bus->ram[i]] *)
Definition ctl_get (i : Z) : BUS Z := λ b,
  match bus_ctl b !! Z.to_nat i with Some v => Some (v, b) | None => None end.
Definition ctl_put (i v : Z) : BUS unit := λ b,
  if Z.of_nat (length (bus_ctl b)) <=? i then None
  else Some (tt, bus_set_ctl (<[Z.to_nat i := u8 v]> (bus_ctl b)) b).

Definition ctl_word (offset : Z) : BUS Z :=
  b ← gets id;
  if negb (bus_has_ctl b) || (bus_ctl_size b <? add32 offset 4) then mret 0 else
  b0 ← ctl_get offset; b1 ← ctl_get (add32 offset 1);
  b2 ← ctl_get (add32 offset 2); b3 ← ctl_get (add32 offset 3);
  mret (b0 .| shl32 b1 8 .| shl32 b2 16 .| shl32 b3 24).

Definition ctl_set_word (offset value : Z) : BUS unit :=
  b ← gets id;
  if negb (bus_has_ctl b) || (bus_ctl_size b <? add32 offset 4) then mret tt else
  ctl_put offset (u8 value);; ctl_put (add32 offset 1) (u8 (value .>> 8));;
  ctl_put (add32 offset 2) (u8 (value .>> 16));; ctl_put (add32 offset 3) (u8 (value .>> 24)).

(** * The map and the log *)

(** Whether a table of [count] entries at [offset] fits. *)
Definition table_fits (b : copro_bus) (offset count : Z) : bool :=
  bus_has_ctl b && (count <=? bus_ctl_size b / ENTRY_SIZE) &&
  (offset <=? bus_ctl_size b - count * ENTRY_SIZE).

Definition copro_bus_set_map (offset count : Z) : BUS Z :=
  b ← gets id;
  if count =? 0 then modify (bus_set_map (bus_map_off b) 0);; mret 1
  else if table_fits b offset count then modify (bus_set_map offset count);; mret 1
  else mret 0.

Definition copro_bus_set_log (offset entries : Z) : BUS Z :=
  b ← gets id;
  if entries =? 0 then
    modify (λ b, bus_set_ring 0 0 (bus_log_dropped b) (bus_set_log (bus_log_off b) 0 b));; mret 1
  else if table_fits b offset entries then
    modify (λ b, bus_set_ring 0 0 0 (bus_set_log offset entries b));; mret 1
  else mret 0.

(** The loop of [copro_bus_region]: the offset of the entry that covers [addr]. *)
Fixpoint region_loop (map_off addr : Z) (is_port : bool) (l : list Z) : BUS (option Z) :=
  match l with
  | [] => mret None
  | i :: l' =>
      let at_ := add32 map_off (mul32 i ENTRY_SIZE) in
      size ← ctl_word (add32 at_ 4);
      kind ← ctl_word (add32 at_ 8);
      if negb (eqb (nz (kind .& COPRO_REGION_PORT)) is_port) then region_loop map_off addr is_port l' else
      base ← ctl_word at_;
      if (base <=? addr) && (sub32 addr base <? size) then mret (Some at_)
      else region_loop map_off addr is_port l'
  end.
Definition copro_bus_region (addr : Z) (is_port : bool) : BUS (option Z) :=
  b ← gets id;
  if (bus_map_count b =? 0) || negb (bus_has_ctl b) then mret None
  else region_loop (bus_map_off b) addr is_port (seqZ 0 (bus_map_count b)).

(** kind, latch, base *)
Definition region_fields (at_ : Z) : BUS (Z * Z * Z) :=
  base ← ctl_word at_; kind ← ctl_word (add32 at_ 8); latch ← ctl_word (add32 at_ 12);
  mret (kind, latch, base).

Definition copro_bus_log_pending (b : copro_bus) : Z :=
  if bus_log_entries b =? 0 then 0
  else if bus_log_tail b <=? bus_log_head b then sub32 (bus_log_head b) (bus_log_tail b)
  else sub32 (bus_log_entries b) (sub32 (bus_log_tail b) (bus_log_head b)).

Definition log_push (cycle addr value info : Z) : BUS unit :=
  b ← gets id;
  if bus_log_entries b =? 0 then mret tt else
  let next := add32 (bus_log_head b) 1 in
  let next := if bus_log_entries b <=? next then 0 else next in
  if next =? bus_log_tail b then
    modify (λ b, bus_set_ring (bus_log_head b) (bus_log_tail b) (add32 (bus_log_dropped b) 1) b)
  else
    let info := if nz (bus_log_dropped b) then info .| COPRO_LOG_INFO_DROPPED else info in
    let at_ := add32 (bus_log_off b) (mul32 (bus_log_head b) ENTRY_SIZE) in
    ctl_set_word at_ cycle;; ctl_set_word (add32 at_ 4) addr;;
    ctl_set_word (add32 at_ 8) value;; ctl_set_word (add32 at_ 12) info;;
    modify (λ b, bus_set_ring next (bus_log_tail b) 0 b).

Definition copro_bus_log_pop : BUS (option copro_log_entry) :=
  b ← gets id;
  if (bus_log_entries b =? 0) || (bus_log_tail b =? bus_log_head b) then mret None else
  let at_ := add32 (bus_log_off b) (mul32 (bus_log_tail b) ENTRY_SIZE) in
  cycle ← ctl_word at_; addr ← ctl_word (add32 at_ 4);
  value ← ctl_word (add32 at_ 8); info ← ctl_word (add32 at_ 12);
  let tail := add32 (bus_log_tail b) 1 in
  modify (λ b, bus_set_ring (bus_log_head b) (if bus_log_entries b <=? tail then 0 else tail) (bus_log_dropped b) b);;
  mret (Some (mkEntry cycle addr value info)).

(** * Accesses *)

Definition bus_ram_read (addr : Z) : BUS Z := λ b,
  if negb (bus_has_ram b) || (bus_ram_size b =? 0) then Some (0xff, b)
  else match bus_ram b !! Z.to_nat (addr mod bus_ram_size b) with Some v => Some (v, b) | None => None end.

Definition bus_ram_write (addr value : Z) : BUS unit := λ b,
  if negb (bus_has_ram b) || (bus_ram_size b =? 0) then Some (tt, b)
  else
    let i := addr mod bus_ram_size b in
    if Z.of_nat (length (bus_ram b)) <=? i then None
    else Some (tt, bus_set_ram (<[Z.to_nat i := u8 value]> (bus_ram b)) b).

Definition take_answer (addr : Z) (is_write : bool) : BUS (option Z) :=
  b ← gets id;
  if negb (nz (bus_answer_valid b)) || negb (bus_answer_addr b =? addr) ||
     negb (bus_answer_is_write b =? (if is_write then 1 else 0))
  then mret None
  else modify (bus_set_answer_valid 0);; mret (Some (u8 (bus_answer_value b))).

Definition ram_address (kind base offset addr : Z) : Z :=
  if nz (kind .& COPRO_REGION_OFFSET) then add32 offset (sub32 addr base) else addr.

Definition bus_stall (addr value : Z) (is_write is_port : bool) : BUS unit :=
  modify (λ b, bus_set_wait addr value (if is_write then 1 else 0) (if is_port then 1 else 0) (bus_set_stalled 1 b)).

Definition copro_bus_read (addr : Z) (is_port : bool) : BUS (copro_bus_result * Z) :=
  answer ← take_answer addr false;
  match answer with
  | Some v => mret (COPRO_BUS_OK, v)
  | None =>
      region ← copro_bus_region addr is_port;
      match region with
      | None =>
          if is_port then mret (COPRO_BUS_OK, 0xff)
          else v ← bus_ram_read addr; mret (COPRO_BUS_OK, v)
      | Some at_ =>
          f ← region_fields at_;
          let '(kind, latch, base) := f in
          match COPRO_REGION_KIND kind with
          | 0 (* RAM *) | 1 (* ROM *) | 2 (* LOG *) =>
              v ← bus_ram_read (ram_address kind base latch addr); mret (COPRO_BUS_OK, v)
          | 3 (* LATCH *) =>
              let off := add32 latch (sub32 addr base) in
              b ← gets id;
              if bus_has_ctl b && (off <? bus_ctl_size b)
              then v ← ctl_get off; mret (COPRO_BUS_OK, v)
              else mret (COPRO_BUS_OK, 0xff)
          | 4 (* STALL *) => bus_stall addr 0 false is_port;; mret (COPRO_BUS_STALL, 0xff)
          | _ => mret (COPRO_BUS_BUSERROR, 0xff)
          end
      end
  end.

Definition copro_bus_write (addr : Z) (is_port : bool) (cycle value : Z) : BUS copro_bus_result :=
  let info := if is_port then COPRO_LOG_INFO_PORT else 0 in
  answer ← take_answer addr true;
  match answer with
  | Some _ => mret COPRO_BUS_OK
  | None =>
      region ← copro_bus_region addr is_port;
      match region with
      | None => (if is_port then mret tt else bus_ram_write addr value);; mret COPRO_BUS_OK
      | Some at_ =>
          f ← region_fields at_;
          let '(kind, latch, base) := f in
          match COPRO_REGION_KIND kind with
          | 0 (* RAM *) => bus_ram_write (ram_address kind base latch addr) value;; mret COPRO_BUS_OK
          | 1 (* ROM *) => log_push cycle addr value info;; mret COPRO_BUS_OK
          | 2 (* LOG *) =>
              bus_ram_write (ram_address kind base latch addr) value;;
              log_push cycle addr value info;; mret COPRO_BUS_OK
          | 3 (* LATCH *) => log_push cycle addr value info;; mret COPRO_BUS_OK
          | 4 (* STALL *) => bus_stall addr value true is_port;; mret COPRO_BUS_STALL
          | _ => mret COPRO_BUS_BUSERROR
          end
      end
  end.

Definition copro_bus_resume (value : Z) : BUS Z :=
  b ← gets id;
  if negb (nz (bus_stalled b)) then mret value else
  let wait_value := if nz (bus_wait_is_write b) then bus_wait_value b else value in
  modify (λ b, bus_set_answer 1 (bus_wait_addr b) wait_value (bus_wait_is_write b)
    (bus_set_wait_value wait_value (bus_set_stalled 0 b)));;
  mret (u8 wait_value).

Fixpoint can_stall_loop (map_off : Z) (l : list Z) : BUS Z :=
  match l with
  | [] => mret 0
  | i :: l' =>
      let at_ := add32 map_off (mul32 i ENTRY_SIZE) in
      size ← ctl_word (add32 at_ 4);
      if size =? 0 then can_stall_loop map_off l' else
      kind ← ctl_word (add32 at_ 8);
      if COPRO_REGION_KIND kind =? COPRO_REGION_STALL then mret 1 else can_stall_loop map_off l'
  end.
Definition copro_bus_can_stall : BUS Z :=
  b ← gets id; can_stall_loop (bus_map_off b) (seqZ 0 (bus_map_count b)).

(** * The hook *)

Definition mem_result (r : copro_bus_result) : cpu_mem_result :=
  match r with
  | COPRO_BUS_OK => CPU_MEM_OK
  | COPRO_BUS_STALL => CPU_MEM_STALL
  | COPRO_BUS_BUSERROR => CPU_MEM_BUSERROR
  end.

Definition is_port_addr (addr : Z) : bool := nz (addr .& CPU_MEM_PORT).

Definition bus_hook_read (addr : Z) : BUS (cpu_mem_result * Z) :=
  r ← copro_bus_read (addr .&~ CPU_MEM_PORT) (is_port_addr addr);
  mret (mem_result (fst r), snd r).

(** [source] is what the cycle source would answer. *)
Definition bus_hook_write (source addr value : Z) : BUS cpu_mem_result :=
  b ← gets id;
  let cycle := if bus_cycle_source b then source else 0 in
  r ← copro_bus_write (addr .&~ CPU_MEM_PORT) (is_port_addr addr) cycle value;
  mret (mem_result r).

Definition copro_bus_set_cycle_source (set : bool) : copro_bus → copro_bus := bus_set_cycle_source set.

Definition copro_bus_hook : BUS cpu_mem_hook :=
  can_stall ← copro_bus_can_stall; mret (mkHook true true can_stall).
