(* ===== verification/Rv32Lift.v ===== *)
(** A run of the RV32IM processor does not care what else there is: what it does
    over one memory it does over any memory that holds it, and it leaves alone
    what the hooks leave alone. *)

From S2P Require Export Rv32Hook.

(** * Over a larger memory *)

(** [W1] is the part [get w] of [W2], and where [Q] holds the hooks and the array
    are its. *)
Class MemPart (W1 W2 : Type) `{!CpuMem W1, !CpuMem W2} (Q : W2 → Prop) (get : W2 → W1) (put : W1 → W2 → W2) := {
  mp_keeps w1 w2 : Q w2 → Q (put w1 w2);
  mp_get_put w1 w2 : get (put w1 w2) = w1;
  mp_put_put w1 w1' w2 : put w1 (put w1' w2) = put w1 w2;
  mp_put_get w2 : put (get w2) w2 = w2;
  mp_ram w2 : cm_ram w2 = cm_ram (get w2);
  mp_set_ram l w2 : cm_set_ram l w2 = put (cm_set_ram l (get w2)) w2;
  mp_read a s w r s' w' : Q w → cm_read a (s, get w) = Some (r, (s', w')) → cm_read a (s, w) = Some (r, (s', put w' w));
  mp_write a v s w r s' w' : Q w → cm_write a v (s, get w) = Some (r, (s', w')) → cm_write a v (s, w) = Some (r, (s', put w' w))
}.

Section lift.
Context {W1 W2 : Type} `{!CpuMem W1, !CpuMem W2} (Q : W2 → Prop) (get : W2 → W1) (put : W1 → W2 → W2) `{!MemPart W1 W2 Q get put}.

Definition lifts {A} (m1 : M (rv32i_state * W1) A) (m2 : M (rv32i_state * W2) A) : Prop :=
  ∀ s w a s' w', Q w → m1 (s, get w) = Some (a, (s', w')) → m2 (s, w) = Some (a, (s', put w' w)).

Lemma lifts_bind {A B} (m1 : M _ A) (m2 : M _ A) (k1 : A → M _ B) (k2 : A → M _ B) :
  lifts m1 m2 → (∀ a, lifts (k1 a) (k2 a)) → lifts (m1 ≫= k1) (m2 ≫= k2).
Proof.
  intros Hm Hk s w b s' w' HQ (a & [s1 w1] & E1 & E2)%bind_Some. rewrite (bind_eq _ _ _ _ _ (Hm _ _ _ _ _ HQ E1)).
  specialize (Hk a s1 (put w1 w) b s' w'). rewrite (mp_get_put (Q:=Q) (get:=get) (put:=put)), (mp_put_put (Q:=Q) (get:=get) (put:=put)) in Hk. by apply Hk; [apply mp_keeps|].
Qed.
Lemma lifts_ret {A} (a : A) : lifts (mret a) (mret a).
Proof. intros s w b s' w' HQ [= <- <- <-]. by rewrite (mp_put_get (Q:=Q) (get:=get) (put:=put)). Qed.
Lemma lifts_cpu f : lifts (rv_cpu f) (rv_cpu f).
Proof. intros s w b s' w' HQ [= <- <- <-]. unfold rv_cpu, modify. cbn [fst snd]. by rewrite (mp_put_get (Q:=Q) (get:=get) (put:=put)). Qed.
Lemma lifts_get {A} (f : rv32i_state → A) : lifts (rv_get f) (rv_get f).
Proof. intros s w b s' w' HQ [= <- <- <-]. unfold rv_get, gets. cbn [fst]. by rewrite (mp_put_get (Q:=Q) (get:=get) (put:=put)). Qed.
Lemma lifts_if {A} (c : bool) (m1 n1 : M _ A) (m2 n2 : M _ A) :
  lifts m1 m2 → lifts n1 n2 → lifts (if c then m1 else n1) (if c then m2 else n2).
Proof. by destruct c. Qed.
Lemma lifts_when c m1 m2 : lifts m1 m2 → lifts (when c m1) (when c m2).
Proof. intros H. destruct c; [exact H | apply lifts_ret]. Qed.
Lemma lifts_ram_get i : lifts (ram_get i) (ram_get i).
Proof.
  intros s w b s' w' HQ. unfold ram_get. cbn [snd]. rewrite (mp_ram (Q:=Q) (get:=get) (put:=put) w). destruct (_ !! _); [|done].
  intros [= <- <- <-]. by rewrite (mp_put_get (Q:=Q) (get:=get) (put:=put)).
Qed.
Lemma lifts_ram_put i v : lifts (ram_put i v) (ram_put i v).
Proof.
  intros s w b s' w' HQ. unfold ram_put. rewrite (mp_ram (Q:=Q) (get:=get) (put:=put) w). destruct (_ <=? _); [done|].
  intros [= <- <- <-]. by rewrite (mp_set_ram (Q:=Q) (get:=get) (put:=put)).
Qed.
Lemma lifts_read a : lifts (cm_read a) (cm_read a).
Proof. intros s w r s' w'. apply (mp_read (Q:=Q) (get:=get) (put:=put)). Qed.
Lemma lifts_write a v : lifts (cm_write a v) (cm_write a v).
Proof. intros s w r s' w'. apply (mp_write (Q:=Q) (get:=get) (put:=put)). Qed.
End lift.

Create HintDb lift discriminated.
#[export] Hint Resolve lifts_ret lifts_cpu lifts_get lifts_ram_get lifts_ram_put lifts_read lifts_write : lift.

(** [lift_walk] follows the structure of a computation of the processor. *)
Ltac lift_walk :=
  repeat (cbv beta zeta;
  match goal with
  | |- ∀ _, _ => intro
  | |- lifts _ _ _ (((if ?c then _ else _) _) ≫= _) _ => destruct c
  | |- lifts _ _ _ (((if ?c then _ else _) _ _) ≫= _) _ => destruct c
  | |- lifts _ _ _ (_ ≫= _) _ => apply lifts_bind
  | |- lifts _ _ _ (if ?c then _ else _) _ => apply (lifts_if _ _ _ c)
  | |- lifts _ _ _ (when _ _) _ => apply lifts_when
  | |- lifts _ _ _ (match ?x with _ => _ end) _ => destruct x
  | |- lifts _ _ _ (fault _ _) _ => unfold fault
  | |- lifts _ _ _ (faulting _ _) _ => unfold faulting
  | |- lifts _ _ _ (rv_reg _) _ => unfold rv_reg
  | |- lifts _ _ _ (rv_set_reg _ _) _ => unfold rv_set_reg
  | |- lifts _ _ _ (rv_access _ _ _ _ _) _ => unfold rv_access
  | |- lifts _ _ _ rv32i_abandon _ => unfold rv32i_abandon
  | |- MemPart _ _ _ _ _ => assumption
  | |- lifts _ _ _ _ _ => solve [eauto 2 with lift nocore typeclass_instances]
  end).

Section lift_step.
Context {W1 W2 : Type} `{!CpuMem W1, !CpuMem W2} (Q : W2 → Prop) (get : W2 → W1) (put : W1 → W2 → W2) `{!MemPart W1 W2 Q get put}.
Local Abbreviation L := (lifts Q get put).

Lemma lifts_load8 a : L (load8 a) (load8 a).
Proof. unfold load8. lift_walk. Qed.
Lemma lifts_store8 a v : L (store8 a v) (store8 a v).
Proof. unfold store8. lift_walk. Qed.
Hint Resolve lifts_load8 lifts_store8 : lift.
Lemma lifts_load32 a : L (load32 a) (load32 a).
Proof. unfold load32. lift_walk. Qed.
Lemma lifts_load16 a : L (load16 a) (load16 a).
Proof. unfold load16. lift_walk. Qed.
Lemma lifts_store32 a v : L (store32 a v) (store32 a v).
Proof. unfold store32. lift_walk. Qed.
Lemma lifts_store16 a v : L (store16 a v) (store16 a v).
Proof. unfold store16. lift_walk. Qed.
Hint Resolve lifts_load32 lifts_load16 lifts_store32 lifts_store16 : lift.

Lemma lifts_execute pc w : L (rv_execute pc w) (rv_execute pc w).
Proof.
  unfold rv_execute, op_jal, op_jalr, op_branch, op_load, op_store, op_op_imm, op_op, op_misc_mem, op_system. lift_walk.
Qed.
Hint Resolve lifts_execute : lift.

(** A step, and a run, over the part is one over the whole. *)
Lemma lifts_step : L rv32i_step rv32i_step.
Proof. unfold rv32i_step. lift_walk. Qed.
Hint Resolve lifts_step : lift.
Lemma lifts_run fuel used cycles : L (run_loop fuel used cycles) (run_loop fuel used cycles).
Proof.
  revert used. induction fuel as [|fuel IH]; intros used; cbn [run_loop]; [lift_walk|].
  apply lifts_if; [|lift_walk]. apply lifts_bind; [done | lift_walk |]. intros n. apply lifts_if; [lift_walk | apply IH].
Qed.
End lift_step.

(** * What a run leaves alone *)

(** [P] holds of what is behind the processor, and no access ends it. *)
Class Undisturbed (W : Type) `{!CpuMem W} (P : W → Prop) := {
  un_read a s w r s' w' : P w → cm_read a (s, w) = Some (r, (s', w')) → P w';
  un_write a v s w r s' w' : P w → cm_write a v (s, w) = Some (r, (s', w')) → P w';
  un_put w l : P w → P (cm_set_ram l w)
}.

Section frame.
Context {W : Type} `{!CpuMem W} (P : W → Prop) `{!Undisturbed W P}.
Definition leaves {A} (m : M (rv32i_state * W) A) : Prop := hoare (λ sw, P (snd sw)) m (λ _ sw, P (snd sw)).

Lemma leaves_bind {A B} (m : M _ A) (k : A → M _ B) : leaves m → (∀ a, leaves (k a)) → leaves (m ≫= k).
Proof. intros Hm Hk. by eapply hoare_bind. Qed.
Lemma leaves_ret {A} (a : A) : leaves (mret a).
Proof. by intros sw H. Qed.
Lemma leaves_cpu f : leaves (rv_cpu f).
Proof. by intros sw H. Qed.
Lemma leaves_get {A} (f : rv32i_state → A) : leaves (rv_get f).
Proof. by intros sw H. Qed.
Lemma leaves_ram_get i : leaves (ram_get i).
Proof. intros [s w] H. unfold ram_get. by destruct (_ !! _). Qed.
Lemma leaves_ram_put i v : leaves (ram_put i v).
Proof. intros [s w] H. unfold ram_put. destruct (_ <=? _); [done|]. by apply un_put. Qed.
Lemma leaves_read a : leaves (cm_read a).
Proof. intros [s w] H. destruct (cm_read a (s, w)) as [[r [s' w']]|] eqn:E; [|done]. by eapply un_read. Qed.
Lemma leaves_write a v : leaves (cm_write a v).
Proof. intros [s w] H. destruct (cm_write a v (s, w)) as [[r [s' w']]|] eqn:E; [|done]. by eapply un_write. Qed.

Local Ltac leaves_walk :=
  repeat (cbv beta zeta;
  match goal with
  | |- ∀ _, _ => intro
  | |- leaves (((if ?c then _ else _) _) ≫= _) => destruct c
  | |- leaves (((if ?c then _ else _) _ _) ≫= _) => destruct c
  | |- leaves (_ ≫= _) => apply leaves_bind
  | |- leaves (if ?c then _ else _) => destruct c
  | |- leaves (when ?c _) => destruct c; cbn [when]
  | |- leaves (match ?x with _ => _ end) => destruct x
  | |- leaves (mret _) => apply leaves_ret
  | |- leaves (rv_get _) => apply leaves_get
  | |- leaves (rv_reg _) => apply leaves_get
  | |- leaves (rv_cpu _) => apply leaves_cpu
  | |- leaves (fault _ _) => apply leaves_cpu
  | |- leaves (rv_set_reg _ _) => apply leaves_cpu
  | |- leaves (ram_get _) => apply leaves_ram_get
  | |- leaves (ram_put _ _) => apply leaves_ram_put
  | |- leaves (cm_read _) => apply leaves_read
  | |- leaves (cm_write _ _) => apply leaves_write
  | |- leaves (faulting _ _) => unfold faulting
  | |- leaves (rv_access _ _ _ _ _) => unfold rv_access
  | |- leaves rv32i_abandon => unfold rv32i_abandon
  | |- leaves (load8 _) => unfold load8
  | |- leaves (load16 _) => unfold load16
  | |- leaves (load32 _) => unfold load32
  | |- leaves (store8 _ _) => unfold store8
  | |- leaves (store16 _ _) => unfold store16
  | |- leaves (store32 _ _) => unfold store32
  end).

Lemma leaves_execute pc w : leaves (rv_execute pc w).
Proof.
  unfold rv_execute, op_jal, op_jalr, op_branch, op_load, op_store, op_op_imm, op_op, op_misc_mem, op_system. leaves_walk.
Qed.
Lemma leaves_step : leaves rv32i_step.
Proof. unfold rv32i_step. leaves_walk; apply leaves_execute. Qed.
Lemma leaves_run fuel used cycles : leaves (run_loop fuel used cycles).
Proof.
  revert used. induction fuel as [|fuel IH]; intros used; cbn [run_loop]; [leaves_walk|].
  destruct (_ <? _); [|leaves_walk]. apply leaves_bind; [apply leaves_step|]. intros n. destruct (n =? 0); [leaves_walk | apply IH].
Qed.
End frame.
