(* ===== verification/CoproBusSpec.v ===== *)
(** The address decode of the co-processor card is memory safe: on a bus whose
    arrays have the sizes it was told, no access leaves them, and the decode
    answers what the region table says. *)

From S2P Require Export CoproBus Rv32Hook.

(** * A bus whose arrays are what it was told *)

Record bus_ok (b : copro_bus) : Prop := {
  bo_ram_length : bus_has_ram b = true → Z.of_nat (length (bus_ram b)) = bus_ram_size b;
  bo_ram_size : w32 (bus_ram_size b);
  bo_ram_bytes : Forall byte (bus_ram b);
  bo_ctl_length : bus_has_ctl b = true → Z.of_nat (length (bus_ctl b)) = bus_ctl_size b;
  bo_ctl_size : w32 (bus_ctl_size b);
  bo_ctl_bytes : Forall byte (bus_ctl b);
  (* the words of the tables have offsets that do not wrap round *)
  bo_map_off : 0 ≤ bus_map_off b;
  bo_map_count : 0 ≤ bus_map_count b;
  bo_map : bus_map_count b = 0 ∨ bus_map_off b + ENTRY_SIZE * bus_map_count b < 0x100000000;
  bo_log_off : 0 ≤ bus_log_off b;
  bo_log : bus_log_entries b = 0 ∨
    bus_log_off b + ENTRY_SIZE * bus_log_entries b < 0x100000000 ∧
    0 ≤ bus_log_head b < bus_log_entries b ∧ 0 ≤ bus_log_tail b < bus_log_entries b
}.

Lemma bytes_or (b0 b1 b2 b3 : Z) : byte b0 → byte b1 → byte b2 → byte b3 →
  b0 .| shl32 b1 8 .| shl32 b2 16 .| shl32 b3 24 = le_value [b0; b1; b2; b3].
Proof.
  intros H0 H1 H2 H3. rewrite !shl32_byte by (done || lia). unfold byte in *.
  rewrite (low_or b0 b1 8), (low_or (b0 + b1 * 2 ^ 8) b2 16), (low_or _ b3 24) by lia. cbn [le_value]. lia.
Qed.

Lemma loaded_word (l : list Z) o : Forall byte l → 0 ≤ o → o + 4 ≤ Z.of_nat (length l) → ∃ b0 b1 b2 b3 : Z,
  l !! Z.to_nat o = Some b0 ∧ l !! Z.to_nat (o + 1) = Some b1 ∧
  l !! Z.to_nat (o + 2) = Some b2 ∧ l !! Z.to_nat (o + 3) = Some b3 ∧
  byte b0 ∧ byte b1 ∧ byte b2 ∧ byte b3 ∧ loaded l 4 o = le_value [b0; b1; b2; b3].
Proof.
  intros Hb Ho Hl.
  destruct (drop_byte l o ltac:(lia)) as (b0 & H0 & D0). destruct (drop_byte l (o + 1) ltac:(lia)) as (b1 & H1 & D1).
  destruct (drop_byte l (o + 2) ltac:(lia)) as (b2 & H2 & D2). destruct (drop_byte l (o + 3) ltac:(lia)) as (b3 & H3 & D3).
  exists b0, b1, b2, b3. pose proof (λ a c, byte_at l a c Hb) as B. split_and!; eauto. unfold loaded. rewrite D0. cbn [take].
  rewrite D1. cbn [take]. replace (o + 1 + 1) with (o + 2) by lia. rewrite D2. cbn [take].
  replace (o + 2 + 1) with (o + 3) by lia. rewrite D3. cbn [take]. by rewrite take_0.
Qed.

Lemma le_word_range (b0 b1 b2 b3 : Z) : byte b0 → byte b1 → byte b2 → byte b3 → w32 (le_value [b0; b1; b2; b3]).
Proof. unfold byte, w32. cbn [le_value]. lia. Qed.

Lemma add32_id a n : w32 (a + n) → add32 a n = a + n.
Proof. apply u32_id. Qed.

(** * The control area *)

(** The word the code finds at [o]: zero outside the area. *)
Definition cword (b : copro_bus) (o : Z) : Z :=
  if bus_has_ctl b && (o + 4 <=? bus_ctl_size b) then loaded (bus_ctl b) 4 o else 0.

Section control.
Context (b : copro_bus) (Hb : bus_ok b).

Lemma ctl_get_run (i v : Z) : bus_ctl b !! Z.to_nat i = Some v → ctl_get i b = Some (v, b).
Proof. intros E. unfold ctl_get. by rewrite E. Qed.

Lemma ctl_word_run o : 0 ≤ o → o + 4 < 0x100000000 → ctl_word o b = Some (cword b o, b).
Proof.
  intros Ho Hw. unfold ctl_word, cword. rewrite (bind_eq _ _ _ b b) by done.
  rewrite (add32_id o 4) by (unfold w32; lia). destruct (bus_has_ctl b) eqn:E; [|done]. cbn [negb orb andb].
  destruct (Z.ltb_spec (bus_ctl_size b) (o + 4)) as [H|H].
  { by rewrite (proj2 (Z.leb_gt _ _)) by lia. }
  rewrite (proj2 (Z.leb_le _ _)) by lia. pose proof (bo_ctl_length _ Hb E) as Hl.
  destruct (loaded_word (bus_ctl b) o (bo_ctl_bytes _ Hb) Ho ltac:(lia)) as (b0 & b1 & b2 & b3 & E0 & E1 & E2 & E3 & B0 & B1 & B2 & B3 & ->).
  rewrite (bind_eq _ _ _ _ _ (ctl_get_run _ _ E0)).
  rewrite !add32_id by (unfold w32; lia).
  rewrite (bind_eq _ _ _ _ _ (ctl_get_run _ _ E1)), (bind_eq _ _ _ _ _ (ctl_get_run _ _ E2)), (bind_eq _ _ _ _ _ (ctl_get_run _ _ E3)).
  by rewrite bytes_or.
Qed.

Lemma cword_w32 o : 0 ≤ o → w32 (cword b o).
Proof.
  intros Ho. unfold cword. destruct (bus_has_ctl b && _) eqn:E; [|by vm_compute]. apply andb_prop in E as [E1 E2].
  pose proof (bo_ctl_length _ Hb E1) as Hl. apply Z.leb_le in E2.
  destruct (loaded_word (bus_ctl b) o (bo_ctl_bytes _ Hb) Ho ltac:(lia)) as (b0 & b1 & b2 & b3 & _ & _ & _ & _ & B0 & B1 & B2 & B3 & ->).
  by apply le_word_range.
Qed.
End control.

Lemma bus_ok_set_ctl b l : bus_ok b → length l = length (bus_ctl b) → Forall byte l → bus_ok (bus_set_ctl l b).
Proof. intros [] Hl Hf. split; cbn; rewrite ?Hl; auto. Qed.
Lemma bus_ok_set_ram b l : bus_ok b → length l = length (bus_ram b) → Forall byte l → bus_ok (bus_set_ram l b).
Proof. intros [] Hl Hf. split; cbn; rewrite ?Hl; auto. Qed.

(** What the code stores as the word at [o]. *)
Definition cstore (o v : Z) (b : copro_bus) : copro_bus :=
  if bus_has_ctl b && (o + 4 <=? bus_ctl_size b) then bus_set_ctl (stored (bus_ctl b) 4 o v) b else b.

Lemma cstore_ok o v b : bus_ok b → bus_ok (cstore o v b).
Proof.
  intros Hb. unfold cstore. destruct (_ && _); [|done]. apply bus_ok_set_ctl; [done | apply length_stored|].
  apply stored_ok, Hb.
Qed.

Lemma byte_u8 v : byte (u8 v).
Proof. apply u8_range. Qed.
#[export] Hint Resolve byte_u8 : core.

Lemma ctl_put_run (i v : Z) b : 0 ≤ i < Z.of_nat (length (bus_ctl b)) →
  ctl_put i v b = Some (tt, bus_set_ctl (<[Z.to_nat i := u8 v]> (bus_ctl b)) b).
Proof. intros Hi. unfold ctl_put. by rewrite (proj2 (Z.leb_gt _ _)) by lia. Qed.

(** A word is stored by its bytes from the lowest one. *)
Lemma stored_bytes (l : list Z) o v : 0 ≤ o →
  <[Z.to_nat (o + 3) := u8 (u8 (v .>> 24))]> (<[Z.to_nat (o + 2) := u8 (u8 (v .>> 16))]>
    (<[Z.to_nat (o + 1) := u8 (u8 (v .>> 8))]> (<[Z.to_nat o := u8 (u8 v)]> l))) = stored l 4 o v.
Proof.
  intros Ho. unfold stored.
  change (le_bytes 4 v) with (([v mod 256] ++ [v / 256 mod 256] ++ [v / 256 / 256 mod 256]) ++ [v / 256 / 256 / 256 mod 256]).
  rewrite inserts_snoc, (app_assoc [v mod 256]), inserts_snoc, inserts_snoc.
  rewrite !u8_u8, !u8_shift by done. cbn [list_inserts length app].
  rewrite !Z.div_div by done. change (2 ^ 8) with 256. change (2 ^ 16) with (256 * 256). change (2 ^ 24) with (256 * 256 * 256).
  assert (∀ k, 0 ≤ k → Z.to_nat (o + k) = (Z.to_nat k + Z.to_nat o)%nat) as Hk by lia.
  rewrite !Hk by done. reflexivity.
Qed.

Lemma ctl_set_word_run o v b : bus_ok b → 0 ≤ o → o + 4 < 0x100000000 →
  ctl_set_word o v b = Some (tt, cstore o v b).
Proof.
  intros Hb Ho Hw. unfold ctl_set_word, cstore. rewrite (bind_eq _ _ _ b b) by done.
  rewrite !add32_id by (unfold w32; lia). destruct (bus_has_ctl b) eqn:E; [|done]. cbn [negb orb andb].
  destruct (Z.ltb_spec (bus_ctl_size b) (o + 4)) as [H|H].
  { by rewrite (proj2 (Z.leb_gt _ _)) by lia. }
  rewrite (proj2 (Z.leb_le _ _)) by lia. pose proof (bo_ctl_length _ Hb E) as Hl.
  erewrite bind_eq; [|apply ctl_put_run; lia].
  erewrite bind_eq; [|apply ctl_put_run; cbn; rewrite ?length_insert; lia].
  erewrite bind_eq; [|apply ctl_put_run; cbn; rewrite ?length_insert; lia].
  rewrite ctl_put_run by (cbn; rewrite ?length_insert; lia). cbn [bus_ctl bus_set_ctl].
  by rewrite stored_bytes.
Qed.

(** * The region table *)

(** Where entry [i] of the table is, and whether it covers an address. *)
Definition entry_at (b : copro_bus) (i : Z) : Z := bus_map_off b + ENTRY_SIZE * i.
Definition covers (b : copro_bus) (addr : Z) (is_port : bool) (i : Z) : bool :=
  eqb (nz (cword b (entry_at b i + 8) .& COPRO_REGION_PORT)) is_port &&
  (cword b (entry_at b i) <=? addr) && (addr - cword b (entry_at b i) <? cword b (entry_at b i + 4)).
(** The first entry that covers an address decides. *)
Definition region_of (b : copro_bus) (addr : Z) (is_port : bool) : option Z :=
  if bus_has_ctl b then entry_at b <$> List.find (covers b addr is_port) (seqZ 0 (bus_map_count b)) else None.

Section decode.
Context (b : copro_bus) (Hb : bus_ok b).

Lemma entry_bounds i : 0 ≤ i < bus_map_count b → 0 ≤ entry_at b i ∧ entry_at b i + 16 < 0x100000000.
Proof.
  intros Hi. pose proof (bo_map_off _ Hb) as Ho. destruct (bo_map _ Hb) as [H|H]; unfold entry_at; unfold ENTRY_SIZE in *; lia.
Qed.

Lemma entry_offset i : 0 ≤ i < bus_map_count b →
  add32 (bus_map_off b) (mul32 i ENTRY_SIZE) = entry_at b i.
Proof.
  intros Hi. pose proof (entry_bounds i Hi) as [H1 H2]. unfold entry_at in *.
  pose proof (bo_map_off _ Hb). unfold mul32. rewrite (u32_id (i * ENTRY_SIZE)) by (unfold w32, ENTRY_SIZE in *; lia).
  rewrite add32_id by (unfold w32, ENTRY_SIZE in *; lia). lia.
Qed.

Lemma region_loop_run addr p l : w32 addr → Forall (λ i, 0 ≤ i < bus_map_count b) l →
  region_loop (bus_map_off b) addr p l b = Some (entry_at b <$> List.find (covers b addr p) l, b).
Proof.
  intros Ha Hl. induction Hl as [|i l Hi Hl IH]; [done|]. cbn [region_loop List.find]. cbv zeta.
  pose proof (entry_bounds i Hi) as [H1 H2]. rewrite entry_offset by done.
  rewrite !add32_id by (unfold w32; lia).
  rewrite (bind_eq _ _ _ _ _ (ctl_word_run b Hb (entry_at b i + 4) ltac:(lia) ltac:(lia))).
  rewrite (bind_eq _ _ _ _ _ (ctl_word_run b Hb (entry_at b i + 8) ltac:(lia) ltac:(lia))).
  unfold covers at 1. destruct (eqb _ p); cbn [negb andb]; [|exact IH].
  rewrite (bind_eq _ _ _ _ _ (ctl_word_run b Hb (entry_at b i) ltac:(lia) ltac:(lia))).
  destruct (Z.leb_spec (cword b (entry_at b i)) addr) as [H|H]; cbn [andb]; [|exact IH].
  pose proof (cword_w32 b Hb (entry_at b i) ltac:(lia)) as Hw. unfold sub32.
  rewrite u32_id by (unfold w32 in *; lia). by destruct (_ <? _).
Qed.

Lemma copro_bus_region_run addr p : w32 addr → copro_bus_region addr p b = Some (region_of b addr p, b).
Proof.
  intros Ha. unfold copro_bus_region, region_of. rewrite (bind_eq _ _ _ b b) by done.
  destruct (bus_has_ctl b); [|by rewrite orb_true_r]. rewrite orb_false_r.
  destruct (Z.eqb_spec (bus_map_count b) 0) as [->|Hn]; [done|].
  apply region_loop_run; [done|]. apply Forall_seqZ. lia.
Qed.

Lemma region_of_entry addr p at_ : region_of b addr p = Some at_ →
  ∃ i, 0 ≤ i < bus_map_count b ∧ at_ = entry_at b i ∧ covers b addr p i = true.
Proof.
  unfold region_of. destruct (bus_has_ctl b); [|done]. intros (i & Hf & ->)%fmap_Some.
  apply List.find_some in Hf as [Hi Hc]. apply list_elem_of_In, elem_of_seqZ in Hi. exists i. split_and!; [lia.. | done | done].
Qed.
Lemma region_bounds addr p at_ : region_of b addr p = Some at_ → 0 ≤ at_ ∧ at_ + 16 < 0x100000000.
Proof. intros (i & Hi & -> & _)%region_of_entry. by apply entry_bounds. Qed.

Lemma region_fields_run at_ : 0 ≤ at_ → at_ + 16 < 0x100000000 →
  region_fields at_ b = Some ((cword b (at_ + 8), cword b (at_ + 12), cword b at_), b).
Proof.
  intros H1 H2. unfold region_fields. rewrite !add32_id by (unfold w32; lia).
  rewrite (bind_eq _ _ _ _ _ (ctl_word_run b Hb at_ ltac:(lia) ltac:(lia))).
  rewrite (bind_eq _ _ _ _ _ (ctl_word_run b Hb (at_ + 8) ltac:(lia) ltac:(lia))).
  by rewrite (bind_eq _ _ _ _ _ (ctl_word_run b Hb (at_ + 12) ltac:(lia) ltac:(lia))).
Qed.
End decode.

(** * Nothing leaves the arrays *)

Lemma bus_ok_stall b addr v w p : bus_ok b → bus_ok (bus_set_wait addr v w p (bus_set_stalled 1 b)).
Proof. intros []. by split. Qed.
Lemma bus_ok_answer_valid b v : bus_ok b → bus_ok (bus_set_answer_valid v b).
Proof. intros []. by split. Qed.
Lemma bus_ok_ring b head tail dropped : bus_ok b →
  (bus_log_entries b ≠ 0 → 0 ≤ head < bus_log_entries b ∧ 0 ≤ tail < bus_log_entries b) →
  bus_ok (bus_set_ring head tail dropped b).
Proof.
  intros [] Hr. split; cbn; try done. destruct (Z.eq_dec (bus_log_entries b) 0) as [->|Hn]; [by left|]. right.
  destruct bo_log0 as [?|(? & _)]; [done|]. by split; [|apply Hr].
Qed.
Create HintDb bus discriminated.
#[export] Hint Resolve bus_ok_stall bus_ok_answer_valid : bus.

Lemma bus_ram_read_runs addr : 0 ≤ addr → runs bus_ok (bus_ram_read addr) (λ v b', byte v ∧ bus_ok b').
Proof.
  intros Ha b Hb. unfold bus_ram_read. destruct (bus_has_ram b) eqn:E; cbn [negb orb]; [|exists 0xff, b; by split_and!; [..|exact Hb]].
  destruct (Z.eqb_spec (bus_ram_size b) 0) as [H|H]; [exists 0xff, b; by split_and!; [..|exact Hb]|].
  pose proof (bo_ram_length _ Hb E) as Hl. pose proof (bo_ram_size _ Hb) as Hw. unfold w32 in Hw.
  pose proof (Z.mod_pos_bound addr (bus_ram_size b) ltac:(lia)) as Hm.
  destruct (lookup_lt_is_Some_2 (bus_ram b) (Z.to_nat (addr mod bus_ram_size b))) as [v Hv]; [lia|].
  rewrite Hv. exists v, b. split_and!; [done | exact (byte_at _ _ _ (bo_ram_bytes _ Hb) Hv) | exact Hb].
Qed.

Lemma bus_ram_write_runs addr v : 0 ≤ addr → runs bus_ok (bus_ram_write addr v) (λ _ b', bus_ok b').
Proof.
  intros Ha b Hb. unfold bus_ram_write. destruct (bus_has_ram b) eqn:E; cbn [negb orb]; [|exists tt, b; by split].
  destruct (Z.eqb_spec (bus_ram_size b) 0) as [H|H]; [exists tt, b; by split|].
  pose proof (bo_ram_length _ Hb E) as Hl. pose proof (bo_ram_size _ Hb) as Hw. unfold w32 in Hw.
  pose proof (Z.mod_pos_bound addr (bus_ram_size b) ltac:(lia)) as Hm.
  rewrite (proj2 (Z.leb_gt _ _)) by lia. eexists _, _. split; [done|].
  apply bus_ok_set_ram; [done | by rewrite length_insert |]. apply Forall_insert; [apply Hb | done].
Qed.

Lemma take_answer_runs addr w : runs bus_ok (take_answer addr w) (λ a b', (∀ v, a = Some v → byte v) ∧ bus_ok b').
Proof.
  intros b Hb. unfold take_answer. rewrite (bind_eq _ _ _ b b) by done. destruct (_ || _).
  - exists None, b. by split_and!; [..|exact Hb].
  - eexists _, _. split; [done|]. split; [by intros v [= <-] | by apply bus_ok_answer_valid].
Qed.

(** The ring after an entry has gone into slot [bus_log_head b]. *)
Definition next_slot (b : copro_bus) (i : Z) : Z := if bus_log_entries b <=? i + 1 then 0 else i + 1.
Definition slot_at (b : copro_bus) (i : Z) : Z := bus_log_off b + ENTRY_SIZE * i.
Definition put_entry (at_ : Z) (e : copro_log_entry) (b : copro_bus) : copro_bus :=
  cstore (at_ + 12) (ent_info e) (cstore (at_ + 8) (ent_value e) (cstore (at_ + 4) (ent_addr e) (cstore at_ (ent_cycle e) b))).
Definition get_entry (b : copro_bus) (at_ : Z) : copro_log_entry :=
  mkEntry (cword b at_) (cword b (at_ + 4)) (cword b (at_ + 8)) (cword b (at_ + 12)).

Lemma cstore_ring o v b :
  bus_log_off (cstore o v b) = bus_log_off b ∧ bus_log_entries (cstore o v b) = bus_log_entries b ∧
  bus_log_head (cstore o v b) = bus_log_head b ∧ bus_log_tail (cstore o v b) = bus_log_tail b.
Proof. unfold cstore. by destruct (_ && _). Qed.
Lemma put_entry_ok at_ e b : bus_ok b → bus_ok (put_entry at_ e b).
Proof. intros Hb. by repeat apply cstore_ok. Qed.
Lemma put_entry_ring at_ e b :
  bus_log_off (put_entry at_ e b) = bus_log_off b ∧ bus_log_entries (put_entry at_ e b) = bus_log_entries b ∧
  bus_log_head (put_entry at_ e b) = bus_log_head b ∧ bus_log_tail (put_entry at_ e b) = bus_log_tail b.
Proof.
  unfold put_entry. do 4 match goal with |- context [cstore ?o ?v ?b'] => lazymatch b' with
    | cstore _ _ _ => fail
    | _ => let H := fresh in pose proof (cstore_ring o v b') as H; generalize dependent (cstore o v b'); intros end end.
  split_and!; intuition congruence.
Qed.

Definition marked (e : copro_log_entry) : copro_log_entry :=
  mkEntry (ent_cycle e) (ent_addr e) (ent_value e) (ent_info e .| COPRO_LOG_INFO_DROPPED).

Definition push_log (e : copro_log_entry) (b : copro_bus) : copro_bus :=
  if bus_log_entries b =? 0 then b
  else if next_slot b (bus_log_head b) =? bus_log_tail b then
    bus_set_ring (bus_log_head b) (bus_log_tail b) (add32 (bus_log_dropped b) 1) b
  else
    let e := if nz (bus_log_dropped b) then marked e else e in
    bus_set_ring (next_slot b (bus_log_head b)) (bus_log_tail b) 0 (put_entry (slot_at b (bus_log_head b)) e b).

Definition pop_log (b : copro_bus) : option copro_log_entry * copro_bus :=
  if (bus_log_entries b =? 0) || (bus_log_tail b =? bus_log_head b) then (None, b)
  else (Some (get_entry b (slot_at b (bus_log_tail b))),
        bus_set_ring (bus_log_head b) (next_slot b (bus_log_tail b)) (bus_log_dropped b) b).

Section ring.
Context (b : copro_bus) (Hb : bus_ok b).

Lemma ring_bounds : bus_log_entries b ≠ 0 →
  0 < bus_log_entries b ∧ bus_log_off b + ENTRY_SIZE * bus_log_entries b < 0x100000000 ∧
  0 ≤ bus_log_head b < bus_log_entries b ∧ 0 ≤ bus_log_tail b < bus_log_entries b.
Proof. intros Hn. destruct (bo_log _ Hb) as [?|(? & ? & ?)]; [done|]. lia. Qed.

Lemma slot_bounds i : bus_log_entries b ≠ 0 → 0 ≤ i < bus_log_entries b →
  0 ≤ slot_at b i ∧ slot_at b i + 16 < 0x100000000 ∧ add32 (bus_log_off b) (mul32 i ENTRY_SIZE) = slot_at b i.
Proof.
  intros Hn Hi. destruct (ring_bounds Hn) as (H0 & H1 & _). pose proof (bo_log_off _ Hb) as Ho. unfold slot_at, ENTRY_SIZE in *.
  split_and!; [lia | lia |]. unfold mul32. rewrite (u32_id (i * 16)) by (unfold w32; lia).
  rewrite add32_id by (unfold w32; lia). lia.
Qed.

Lemma next_slot_eq i : bus_log_entries b ≠ 0 → 0 ≤ i < bus_log_entries b →
  (if bus_log_entries b <=? add32 i 1 then 0 else add32 i 1) = next_slot b i.
Proof.
  intros Hn Hi. destruct (ring_bounds Hn) as (H0 & H1 & _). pose proof (bo_log_off _ Hb) as Ho. unfold ENTRY_SIZE in *.
  rewrite !add32_id by (unfold w32; lia). done.
Qed.
Lemma next_slot_bounds i : bus_log_entries b ≠ 0 → 0 ≤ i < bus_log_entries b → 0 ≤ next_slot b i < bus_log_entries b.
Proof. intros Hn Hi. unfold next_slot. destruct (Z.leb_spec (bus_log_entries b) (i + 1)); lia. Qed.

Lemma log_push_run cycle addr value info :
  log_push cycle addr value info b = Some (tt, push_log (mkEntry cycle addr value info) b).
Proof.
  unfold log_push, push_log. rewrite (bind_eq _ _ _ b b) by done.
  destruct (Z.eqb_spec (bus_log_entries b) 0) as [H|Hn]; [done|]. cbv zeta.
  destruct (ring_bounds Hn) as (_ & _ & Hh & _). destruct (slot_bounds _ Hn Hh) as (S1 & S2 & S3).
  rewrite (next_slot_eq _ Hn Hh), S3. destruct (_ =? bus_log_tail b); [done|]. rewrite !add32_id by (unfold w32; lia).
  rewrite (bind_eq _ _ _ _ _ (ctl_set_word_run (slot_at b (bus_log_head b)) cycle b Hb ltac:(lia) ltac:(lia))).
  erewrite bind_eq; [|apply ctl_set_word_run; [repeat apply cstore_ok; exact Hb | lia..]].
  erewrite bind_eq; [|apply ctl_set_word_run; [repeat apply cstore_ok; exact Hb | lia..]].
  erewrite bind_eq; [|apply ctl_set_word_run; [repeat apply cstore_ok; exact Hb | lia..]].
  unfold modify. do 2 f_equal. unfold put_entry, marked. destruct (nz (bus_log_dropped b)); cbn [ent_cycle ent_addr ent_value ent_info];
    match goal with |- context [bus_set_ring _ (bus_log_tail ?x)] => replace (bus_log_tail x) with (bus_log_tail b); [done|] end;
    symmetry; apply (put_entry_ring (slot_at b (bus_log_head b)) (mkEntry cycle addr value _) b).
Qed.

Lemma copro_bus_log_pop_run : copro_bus_log_pop b = Some (pop_log b).
Proof.
  unfold copro_bus_log_pop, pop_log. rewrite (bind_eq _ _ _ b b) by done.
  destruct (Z.eqb_spec (bus_log_entries b) 0) as [H|Hn]; cbn [orb]; [done|].
  destruct (bus_log_tail b =? bus_log_head b); [done|]. cbv zeta.
  destruct (ring_bounds Hn) as (_ & _ & _ & Ht). destruct (slot_bounds _ Hn Ht) as (S1 & S2 & S3). rewrite S3.
  rewrite !(add32_id (slot_at _ _)) by (unfold w32; lia).
  rewrite (bind_eq _ _ _ _ _ (ctl_word_run b Hb (slot_at b (bus_log_tail b)) ltac:(lia) ltac:(lia))).
  rewrite (bind_eq _ _ _ _ _ (ctl_word_run b Hb (slot_at b (bus_log_tail b) + 4) ltac:(lia) ltac:(lia))).
  rewrite (bind_eq _ _ _ _ _ (ctl_word_run b Hb (slot_at b (bus_log_tail b) + 8) ltac:(lia) ltac:(lia))).
  rewrite (bind_eq _ _ _ _ _ (ctl_word_run b Hb (slot_at b (bus_log_tail b) + 12) ltac:(lia) ltac:(lia))).
  rewrite bind_run. unfold modify. by rewrite (next_slot_eq _ Hn Ht).
Qed.

Lemma push_log_ok e : bus_ok (push_log e b).
Proof.
  unfold push_log. destruct (Z.eqb_spec (bus_log_entries b) 0) as [H|Hn]; [done|].
  destruct (ring_bounds Hn) as (_ & _ & Hh & Ht). destruct (_ =? bus_log_tail b); [by apply bus_ok_ring|]. cbv zeta.
  set (e' := if nz _ then _ else _). destruct (put_entry_ring (slot_at b (bus_log_head b)) e' b) as (_ & E & _ & _).
  apply bus_ok_ring; [by apply put_entry_ok|]. rewrite E. intros _. split; [by apply next_slot_bounds | done].
Qed.
Lemma pop_log_ok : bus_ok (snd (pop_log b)).
Proof.
  unfold pop_log. destruct (Z.eqb_spec (bus_log_entries b) 0) as [H|Hn]; cbn [orb]; [done|].
  destruct (ring_bounds Hn) as (_ & _ & Hh & Ht). destruct (_ =? bus_log_head b); [done|]. cbn [snd].
  apply bus_ok_ring; [done|]. intros _. split; [done | by apply next_slot_bounds].
Qed.
End ring.

(** * Accesses, as functions of the bus *)

Definition answered (b : copro_bus) (addr : Z) (is_write : bool) : bool :=
  nz (bus_answer_valid b) && (bus_answer_addr b =? addr) && (bus_answer_is_write b =? (if is_write then 1 else 0)).
Definition ram_byte (b : copro_bus) (addr : Z) : Z :=
  if bus_has_ram b && nz (bus_ram_size b) then bus_ram b !!! Z.to_nat (addr mod bus_ram_size b) else 0xff.
Definition ram_store (addr v : Z) (b : copro_bus) : copro_bus :=
  if bus_has_ram b && nz (bus_ram_size b)
  then bus_set_ram (<[Z.to_nat (addr mod bus_ram_size b) := u8 v]> (bus_ram b)) b else b.
Definition latch_byte (b : copro_bus) (off : Z) : Z :=
  if bus_has_ctl b && (off <? bus_ctl_size b) then bus_ctl b !!! Z.to_nat off else 0xff.

Definition wait_for (addr v : Z) (is_write is_port : bool) (b : copro_bus) : copro_bus :=
  bus_set_wait addr v (if is_write then 1 else 0) (if is_port then 1 else 0) (bus_set_stalled 1 b).

(** An access that no answer is waiting for. *)
Definition decoded_read (b : copro_bus) (addr : Z) (is_port : bool) : (copro_bus_result * Z) * copro_bus :=
  match region_of b addr is_port with
  | None => ((COPRO_BUS_OK, if is_port then 0xff else ram_byte b addr), b)
  | Some at_ =>
      let base := cword b at_ in let kind := cword b (at_ + 8) in let latch := cword b (at_ + 12) in
      match COPRO_REGION_KIND kind with
      | 0 | 1 | 2 => ((COPRO_BUS_OK, ram_byte b (ram_address kind base latch addr)), b)
      | 3 => ((COPRO_BUS_OK, latch_byte b (add32 latch (sub32 addr base))), b)
      | 4 => ((COPRO_BUS_STALL, 0xff), wait_for addr 0 false is_port b)
      | _ => ((COPRO_BUS_BUSERROR, 0xff), b)
      end
  end.
Definition decoded_write (b : copro_bus) (addr : Z) (is_port : bool) (cycle v : Z) : copro_bus_result * copro_bus :=
  let e := mkEntry cycle addr v (if is_port then COPRO_LOG_INFO_PORT else 0) in
  match region_of b addr is_port with
  | None => (COPRO_BUS_OK, if is_port then b else ram_store addr v b)
  | Some at_ =>
      let base := cword b at_ in let kind := cword b (at_ + 8) in let latch := cword b (at_ + 12) in
      match COPRO_REGION_KIND kind with
      | 0 => (COPRO_BUS_OK, ram_store (ram_address kind base latch addr) v b)
      | 1 | 3 => (COPRO_BUS_OK, push_log e b)
      | 2 => (COPRO_BUS_OK, push_log e (ram_store (ram_address kind base latch addr) v b))
      | 4 => (COPRO_BUS_STALL, wait_for addr v true is_port b)
      | _ => (COPRO_BUS_BUSERROR, b)
      end
  end.

Lemma ram_store_ok addr v b : bus_ok b → bus_ok (ram_store addr v b).
Proof.
  intros Hb. unfold ram_store. destruct (_ && _); [|done]. apply bus_ok_set_ram; [done | by rewrite length_insert |].
  apply Forall_insert; [apply Hb | done].
Qed.

Section access.
Context (b : copro_bus) (Hb : bus_ok b).

Lemma bus_ram_read_run addr : 0 ≤ addr → bus_ram_read addr b = Some (ram_byte b addr, b) ∧ byte (ram_byte b addr).
Proof.
  intros Ha. destruct (bus_ram_read_runs addr Ha b Hb) as (v & b' & E & Hv & _). revert E. unfold bus_ram_read, ram_byte, nz.
  destruct (bus_has_ram b); cbn [negb orb andb]; [|by intros _].
  destruct (Z.eqb_spec (bus_ram_size b) 0); cbn [negb]; [by intros _|].
  destruct (bus_ram b !! _) eqn:E1; [|done]. intros [= -> ->]. by rewrite (list_lookup_total_correct _ _ _ E1).
Qed.

Lemma bus_ram_write_run addr v : 0 ≤ addr → bus_ram_write addr v b = Some (tt, ram_store addr v b).
Proof.
  intros Ha. destruct (bus_ram_write_runs addr v Ha b Hb) as (x & b' & E & _). revert E. unfold bus_ram_write, ram_store, nz.
  destruct (bus_has_ram b); cbn [negb orb andb]; [|done].
  destruct (Z.eqb_spec (bus_ram_size b) 0); cbn [negb]; [done|]. by destruct (_ <=? _).
Qed.

Lemma latch_byte_range off : byte (latch_byte b off).
Proof.
  unfold latch_byte. destruct (_ && _); [|done].
  destruct (bus_ctl b !! Z.to_nat off) eqn:E; [|by rewrite list_lookup_total_alt, E].
  rewrite (list_lookup_total_correct _ _ _ E). exact (byte_at _ _ _ (bo_ctl_bytes _ Hb) E).
Qed.

Lemma take_answer_run addr w :
  take_answer addr w b = Some (if answered b addr w then (Some (u8 (bus_answer_value b)), bus_set_answer_valid 0 b) else (None, b)).
Proof.
  unfold take_answer, answered. rewrite (bind_eq _ _ _ b b) by done.
  by destruct (nz (bus_answer_valid b)), (bus_answer_addr b =? addr), (bus_answer_is_write b =? _).
Qed.

Lemma ram_address_nonneg kind base latch addr : 0 ≤ addr → 0 ≤ ram_address kind base latch addr.
Proof. intros Ha. unfold ram_address. destruct (nz _); [apply u32_w32 | done]. Qed.

Lemma copro_bus_read_run addr p : w32 addr → copro_bus_read addr p b =
  Some (if answered b addr false then ((COPRO_BUS_OK, u8 (bus_answer_value b)), bus_set_answer_valid 0 b) else decoded_read b addr p).
Proof.
  intros Ha. unfold copro_bus_read. rewrite bind_run, take_answer_run. destruct (answered b addr false); [done|].
  rewrite (bind_eq _ _ _ _ _ (copro_bus_region_run b Hb addr p Ha)). unfold decoded_read.
  destruct (region_of b addr p) as [at_|] eqn:ER.
  2:{ destruct p; [done|]. destruct (bus_ram_read_run addr (w32_nonneg _ Ha)) as [E _]. by rewrite (bind_eq _ _ _ _ _ E). }
  destruct (region_bounds b Hb _ _ _ ER) as [H1 H2].
  rewrite (bind_eq _ _ _ _ _ (region_fields_run b Hb at_ H1 H2)). cbv zeta.
  destruct (bus_ram_read_run (ram_address (cword b (at_ + 8)) (cword b at_) (cword b (at_ + 12)) addr)
    (ram_address_nonneg _ _ _ _ (w32_nonneg _ Ha))) as [E _].
  destruct (COPRO_REGION_KIND _) as [|[[[]|[]|]|[[]|[]|]|]|]; try done; try by rewrite (bind_eq _ _ _ _ _ E).
  rewrite (bind_eq _ _ _ b b) by done. unfold latch_byte. set (off := add32 _ _).
  destruct (bus_has_ctl b) eqn:EC; [|done]. cbn [andb]. destruct (Z.ltb_spec off (bus_ctl_size b)) as [H|H]; [|done].
  pose proof (bo_ctl_length _ Hb EC) as Hl. pose proof (u32_w32 (cword b (at_ + 12) + sub32 addr (cword b at_))) as Hw.
  change (w32 off) in Hw. destruct (lookup_lt_is_Some_2 (bus_ctl b) (Z.to_nat off)) as [v Hv]; [unfold w32 in Hw; lia|].
  rewrite (bind_eq _ _ _ _ _ (ctl_get_run b _ _ Hv)). by rewrite (list_lookup_total_correct _ _ _ Hv).
Qed.

Lemma copro_bus_write_run addr p cycle v : w32 addr → copro_bus_write addr p cycle v b =
  Some (if answered b addr true then (COPRO_BUS_OK, bus_set_answer_valid 0 b) else decoded_write b addr p cycle v).
Proof.
  intros Ha. unfold copro_bus_write. cbv zeta. rewrite bind_run, take_answer_run. destruct (answered b addr true); [done|].
  rewrite (bind_eq _ _ _ _ _ (copro_bus_region_run b Hb addr p Ha)). unfold decoded_write.
  destruct (region_of b addr p) as [at_|] eqn:ER.
  2:{ destruct p; [done|]. by rewrite (bind_eq _ _ _ _ _ (bus_ram_write_run addr v (w32_nonneg _ Ha))). }
  destruct (region_bounds b Hb _ _ _ ER) as [H1 H2].
  rewrite (bind_eq _ _ _ _ _ (region_fields_run b Hb at_ H1 H2)). cbv zeta.
  pose proof (bus_ram_write_run (ram_address (cword b (at_ + 8)) (cword b at_) (cword b (at_ + 12)) addr) v
    (ram_address_nonneg _ _ _ _ (w32_nonneg _ Ha))) as E.
  pose proof (ram_store_ok (ram_address (cword b (at_ + 8)) (cword b at_) (cword b (at_ + 12)) addr) v b Hb) as Hs.
  destruct (COPRO_REGION_KIND _) as [|[[[]|[]|]|[[]|[]|]|]|]; try done;
    rewrite ?(bind_eq _ _ _ _ _ E), ?(bind_eq _ _ _ _ _ (log_push_run b Hb cycle addr v _)); try done.
  by rewrite (bind_eq _ _ _ _ _ (log_push_run _ Hs cycle addr v _)).
Qed.
End access.

Lemma wait_for_ok addr v w p b : bus_ok b → bus_ok (wait_for addr v w p b).
Proof. apply bus_ok_stall. Qed.

Lemma decoded_read_ok b addr p : bus_ok b → 0 ≤ addr →
  byte (snd (fst (decoded_read b addr p))) ∧ bus_ok (snd (decoded_read b addr p)).
Proof.
  intros Hb Ha. unfold decoded_read. destruct (region_of b addr p) as [at_|]; cbn [fst snd].
  2:{ split; [|done]. destruct p; [done|]. by apply bus_ram_read_run. }
  cbv zeta. repeat case_match; cbn [fst snd]; (split; [|by (done || apply wait_for_ok)]); try done;
    try (by apply latch_byte_range); by apply bus_ram_read_run, ram_address_nonneg.
Qed.
Lemma decoded_write_ok b addr p cycle v : bus_ok b → bus_ok (snd (decoded_write b addr p cycle v)).
Proof.
  intros Hb. unfold decoded_write. cbv zeta. repeat case_match; cbn [snd];
    repeat first [done | apply push_log_ok | apply ram_store_ok | apply wait_for_ok].
Qed.

(** * The other operations *)

Section operations.
Context (b : copro_bus) (Hb : bus_ok b).

Lemma copro_bus_resume_run v : copro_bus_resume v b =
  Some (if nz (bus_stalled b)
        then let value := if nz (bus_wait_is_write b) then bus_wait_value b else v in
             (u8 value, bus_set_answer 1 (bus_wait_addr b) value (bus_wait_is_write b)
                          (bus_set_wait_value value (bus_set_stalled 0 b)))
        else (v, b)).
Proof. unfold copro_bus_resume. rewrite (bind_eq _ _ _ b b) by done. by destruct (nz (bus_stalled b)). Qed.

Lemma table_fits_bounds offset count : w32 offset → 0 ≤ count → table_fits b offset count = true →
  bus_has_ctl b = true ∧ offset + ENTRY_SIZE * count ≤ bus_ctl_size b.
Proof.
  intros Ho Hc H. apply andb_prop in H as [[H1 H2]%andb_prop H3]. apply Z.leb_le in H2, H3. split; [done|].
  unfold ENTRY_SIZE in *. lia.
Qed.

Lemma copro_bus_set_map_run offset count : copro_bus_set_map offset count b =
  Some (if count =? 0 then (1, bus_set_map (bus_map_off b) 0 b)
        else if table_fits b offset count then (1, bus_set_map offset count b) else (0, b)).
Proof.
  unfold copro_bus_set_map. rewrite (bind_eq _ _ _ b b) by done. destruct (count =? 0); [done|]. by destruct (table_fits _ _ _).
Qed.
Lemma copro_bus_set_log_run offset entries : copro_bus_set_log offset entries b =
  Some (if entries =? 0 then (1, bus_set_ring 0 0 (bus_log_dropped b) (bus_set_log (bus_log_off b) 0 b))
        else if table_fits b offset entries then (1, bus_set_ring 0 0 0 (bus_set_log offset entries b)) else (0, b)).
Proof.
  unfold copro_bus_set_log. rewrite (bind_eq _ _ _ b b) by done. destruct (entries =? 0); [done|]. by destruct (table_fits _ _ _).
Qed.

Lemma copro_bus_set_map_ok offset count : w32 offset → w32 count →
  runs (λ b', b' = b) (copro_bus_set_map offset count) (λ _ b', bus_ok b').
Proof.
  intros Ho Hc ? ->. rewrite copro_bus_set_map_run. destruct (Z.eqb_spec count 0) as [->|Hn].
  { eexists _, _. split; [done|]. destruct Hb. by split; [.. | left | |]. }
  destruct (table_fits b offset count) eqn:E; [|by eexists _, _].
  destruct (table_fits_bounds offset count Ho (w32_nonneg _ Hc) E) as [_ Hf]. eexists _, _. split; [done|].
  pose proof (bo_ctl_size _ Hb) as Hw. unfold w32 in *. destruct Hb. split; cbn; try done; lia.
Qed.
Lemma copro_bus_set_log_ok offset entries : w32 offset → w32 entries →
  runs (λ b', b' = b) (copro_bus_set_log offset entries) (λ _ b', bus_ok b').
Proof.
  intros Ho Hc ? ->. rewrite copro_bus_set_log_run. destruct (Z.eqb_spec entries 0) as [->|Hn].
  { eexists _, _. split; [done|]. destruct Hb. by split; [.. | left]. }
  destruct (table_fits b offset entries) eqn:E; [|by eexists _, _].
  destruct (table_fits_bounds offset entries Ho (w32_nonneg _ Hc) E) as [_ Hf]. eexists _, _. split; [done|].
  pose proof (bo_ctl_size _ Hb) as Hw. unfold w32 in *. destruct Hb. split; cbn; try done; lia.
Qed.

Definition can_stall_entry (i : Z) : bool :=
  nz (cword b (entry_at b i + 4)) && (COPRO_REGION_KIND (cword b (entry_at b i + 8)) =? COPRO_REGION_STALL).
Lemma copro_bus_can_stall_run : copro_bus_can_stall b =
  Some (if existsb can_stall_entry (seqZ 0 (bus_map_count b)) then 1 else 0, b).
Proof.
  unfold copro_bus_can_stall. rewrite (bind_eq _ _ _ b b) by done.
  assert (Forall (λ i, 0 ≤ i < bus_map_count b) (seqZ 0 (bus_map_count b))) as Hl by (apply Forall_seqZ; lia).
  induction Hl as [|i l Hi Hl IH]; [done|]. cbn [can_stall_loop existsb]. cbv zeta.
  pose proof (entry_bounds b Hb i Hi) as [H1 H2]. rewrite entry_offset by done. rewrite !add32_id by (unfold w32; lia).
  rewrite (bind_eq _ _ _ _ _ (ctl_word_run b Hb (entry_at b i + 4) ltac:(lia) ltac:(lia))).
  unfold can_stall_entry at 1, nz. destruct (_ =? 0); cbn [negb andb orb]; [exact IH|].
  rewrite (bind_eq _ _ _ _ _ (ctl_word_run b Hb (entry_at b i + 8) ltac:(lia) ltac:(lia))).
  by destruct (_ =? COPRO_REGION_STALL).
Qed.
End operations.
