(* ===== verification/CoproLog.v ===== *)
(** The log of writes (copro/copro_bus.c, [log_push], [copro_bus_log_pop],
    [copro_bus_log_pending]) is a queue that drops what does not fit and says so. *)

From S2P Require Export CoproBusSpec.

(** * A word stored is the word read *)

Lemma le_value_bytes n v : 0 ≤ v → le_value (le_bytes n v) = v mod 2 ^ (8 * Z.of_nat n).
Proof.
  revert v. induction n as [|n IH]; intros v Hv; [by rewrite Z.mod_1_r|]. cbn [le_bytes le_value].
  rewrite IH by (apply Z.div_pos; lia). replace (8 * Z.of_nat (Datatypes.S n)) with (8 + 8 * Z.of_nat n) by lia.
  rewrite Z.pow_add_r by lia. change (2 ^ 8) with 256. rewrite Z.rem_mul_r; [done | done | apply Z.pow_pos_nonneg; lia].
Qed.

Lemma take_drop_inserts (l bs : list Z) k : (k + length bs ≤ length l)%nat →
  take (length bs) (drop k (list_inserts k bs l)) = bs.
Proof.
  intros Hl. apply list_eq. intros i. destruct (decide (i < length bs)%nat) as [Hi|Hi].
  - rewrite lookup_take_lt, lookup_drop by done. rewrite list_lookup_inserts by lia. f_equal. lia.
  - rewrite lookup_take_ge by lia. symmetry. apply lookup_ge_None_2. lia.
Qed.
Lemma take_drop_inserts_ne (l bs : list Z) n j k : (j + n ≤ k ∨ k + length bs ≤ j)%nat →
  take n (drop j (list_inserts k bs l)) = take n (drop j l).
Proof.
  intros Hj. apply list_eq. intros i. destruct (decide (i < n)%nat) as [Hi|Hi].
  - rewrite !lookup_take_lt, !lookup_drop by done. destruct Hj as [Hj|Hj].
    + rewrite list_lookup_inserts_lt by lia. done.
    + rewrite list_lookup_inserts_ge by lia. done.
  - by rewrite !lookup_take_ge by lia.
Qed.
Lemma length_le_bytes n v : length (le_bytes n v) = n.
Proof. revert v. induction n as [|n IH]; intros v; cbn; by rewrite ?IH. Qed.

Lemma cword_cstore_same b o v : bus_ok b → bus_has_ctl b = true → 0 ≤ o → o + 4 ≤ bus_ctl_size b → w32 v →
  cword (cstore o v b) o = v.
Proof.
  intros Hb Hc Ho Hl Hv. unfold cword, cstore. rewrite Hc, (proj2 (Z.leb_le _ _)) by lia. cbn [andb bus_set_ctl bus_has_ctl bus_ctl_size bus_ctl].
  rewrite Hc, (proj2 (Z.leb_le _ _)) by lia. cbn [andb]. unfold loaded, stored.
  pose proof (bo_ctl_length _ Hb Hc) as HL.
  pose proof (take_drop_inserts (bus_ctl b) (le_bytes 4 v) (Z.to_nat o)) as H. rewrite length_le_bytes in H.
  rewrite H by lia. rewrite le_value_bytes by apply Hv. apply Z.mod_small, Hv.
Qed.
Lemma cword_cstore_other b o o' v : 0 ≤ o → 0 ≤ o' → (o' + 4 ≤ o ∨ o + 4 ≤ o') →
  cword (cstore o v b) o' = cword b o'.
Proof.
  intros Ho Ho' Hd. unfold cword, cstore. destruct (bus_has_ctl b && (o + 4 <=? bus_ctl_size b)); [|done].
  cbn [bus_set_ctl bus_has_ctl bus_ctl_size bus_ctl]. destruct (_ && _); [|done].
  unfold loaded, stored. rewrite take_drop_inserts_ne; [done|]. rewrite length_le_bytes. lia.
Qed.

(** * The queue *)

Record queue := mkQueue { q_items : list copro_log_entry; q_dropped : Z }.
Definition q_push (room : Z) (e : copro_log_entry) (q : queue) : queue :=
  if Z.of_nat (length (q_items q)) <? room
  then mkQueue (q_items q ++ [if nz (q_dropped q) then marked e else e]) 0
  else mkQueue (q_items q) (add32 (q_dropped q) 1).
Definition q_pop (q : queue) : option copro_log_entry * queue :=
  match q_items q with
  | [] => (None, q)
  | e :: l => (Some e, mkQueue l (q_dropped q))
  end.

Definition entry_ok (e : copro_log_entry) : Prop :=
  w32 (ent_cycle e) ∧ w32 (ent_addr e) ∧ w32 (ent_value e) ∧ w32 (ent_info e).

(** A log that lies in the control area. *)
Definition log_ok (b : copro_bus) : Prop :=
  bus_ok b ∧ bus_has_ctl b = true ∧ bus_log_entries b ≠ 0 ∧ slot_at b (bus_log_entries b) ≤ bus_ctl_size b.

Definition slot (b : copro_bus) (k : Z) : Z := slot_at b ((bus_log_tail b + k) mod bus_log_entries b).
Definition log_of (b : copro_bus) : queue :=
  mkQueue ((λ k, get_entry b (slot b k)) <$> seqZ 0 (copro_bus_log_pending b)) (bus_log_dropped b).

Section log.
Context (b : copro_bus) (Hlog : log_ok b).
Let Hb : bus_ok b := proj1 Hlog.
Local Abbreviation n := (bus_log_entries b).
Local Abbreviation head := (bus_log_head b).
Local Abbreviation tail := (bus_log_tail b).

Lemma log_bounds : 0 < n < 0x10000000 ∧ 0 ≤ head < n ∧ 0 ≤ tail < n ∧ bus_has_ctl b = true ∧ 0 ≤ bus_log_off b.
Proof.
  pose proof Hlog as (_ & Hc & Hn & _). destruct (ring_bounds b Hb Hn) as (H1 & H2 & H3 & H4).
  pose proof (bo_log_off _ Hb). unfold ENTRY_SIZE in *. split_and!; lia || done.
Qed.

(** The slots in use are [tail], [tail + 1], … round to [head]. *)
Lemma pending_range : 0 ≤ copro_bus_log_pending b < n ∧ (tail + copro_bus_log_pending b) mod n = head.
Proof.
  destruct log_bounds as (Hn & Hh & Ht & _). unfold copro_bus_log_pending.
  rewrite (proj2 (Z.eqb_neq _ _)) by lia. unfold sub32. destruct (Z.leb_spec tail head) as [H|H].
  - rewrite u32_id by (unfold w32; lia). split; [lia|]. rewrite Z.mod_small by lia. lia.
  - rewrite (u32_id (tail - head)), u32_id by (unfold w32; lia). split; [lia|].
    replace (tail + (n - (tail - head))) with (head + 1 * n) by lia. rewrite Z.mod_add by lia. apply Z.mod_small. lia.
Qed.

Lemma next_slot_mod i : 0 ≤ i < n → next_slot b i = (i + 1) mod n.
Proof.
  intros Hi. unfold next_slot. destruct (Z.leb_spec n (i + 1)) as [H|H].
  - replace (i + 1) with n by lia. by rewrite Z.mod_same by lia.
  - rewrite Z.mod_small by lia. done.
Qed.

Lemma mod_apart k : 0 ≤ k < copro_bus_log_pending b → (tail + k) mod n ≠ head.
Proof.
  intros Hk. destruct pending_range as [Hp <-]. destruct log_bounds as (Hn & _ & _ & _). intros E.
  assert ((tail + copro_bus_log_pending b - (tail + k)) mod n = 0) as H by (rewrite Zminus_mod, E, Z.sub_diag; by apply Z.mod_0_l; lia).
  replace (_ - _) with (copro_bus_log_pending b - k) in H by lia. rewrite Z.mod_small in H by lia. lia.
Qed.

Lemma slot_range i : 0 ≤ i < n → 0 ≤ slot_at b i ∧ slot_at b i + 16 ≤ bus_ctl_size b.
Proof.
  intros Hi. destruct log_bounds as (Hn & _ & _ & _ & Ho). pose proof Hlog as (_ & _ & _ & Hs).
  unfold slot_at, ENTRY_SIZE in *. lia.
Qed.

(** The log is full when the head would catch up with the tail. *)
Lemma full_spec : (next_slot b head =? tail) = negb (copro_bus_log_pending b <? n - 1).
Proof.
  destruct pending_range as [Hp E]. destruct log_bounds as (Hn & Hh & Ht & _). rewrite next_slot_mod by done.
  rewrite <- E, Zplus_mod_idemp_l. destruct (Z.ltb_spec (copro_bus_log_pending b) (n - 1)) as [H|H]; cbn [negb].
  - apply Z.eqb_neq. intros E2.
    assert ((tail + copro_bus_log_pending b + 1 - tail) mod n = 0) as H0.
    { rewrite Zminus_mod, E2, (Z.mod_small tail) by lia. rewrite Z.sub_diag. apply Z.mod_0_l. lia. }
    replace (_ - _) with (copro_bus_log_pending b + 1) in H0 by lia. rewrite Z.mod_small in H0; lia.
  - replace (tail + copro_bus_log_pending b + 1) with (tail + 1 * n) by lia. rewrite Z.mod_add by lia.
    rewrite Z.mod_small by lia. apply Z.eqb_refl.
Qed.
Lemma empty_spec : (tail =? head) = (copro_bus_log_pending b =? 0).
Proof.
  destruct pending_range as [Hp E]. destruct log_bounds as (Hn & Hh & Ht & _).
  destruct (Z.eqb_spec (copro_bus_log_pending b) 0) as [H|H].
  - rewrite H, Z.add_0_r, Z.mod_small in E by lia. by apply Z.eqb_eq.
  - apply Z.eqb_neq. intros E2. apply (mod_apart 0); [lia|]. rewrite Z.add_0_r, Z.mod_small by lia. done.
Qed.
End log.

(** * Entries stored and read *)

Lemma cstore_frame o v b : bus_has_ctl (cstore o v b) = bus_has_ctl b ∧ bus_ctl_size (cstore o v b) = bus_ctl_size b.
Proof. unfold cstore. by destruct (_ && _). Qed.
Lemma put_entry_frame at_ e b :
  bus_has_ctl (put_entry at_ e b) = bus_has_ctl b ∧ bus_ctl_size (put_entry at_ e b) = bus_ctl_size b.
Proof. unfold put_entry. rewrite !(proj1 (cstore_frame _ _ _)), !(proj2 (cstore_frame _ _ _)). done. Qed.

Lemma get_put_same b at_ e : bus_ok b → bus_has_ctl b = true → 0 ≤ at_ → at_ + 16 ≤ bus_ctl_size b → entry_ok e →
  get_entry (put_entry at_ e b) at_ = e.
Proof.
  intros Hb Hc Ho Hl (H1 & H2 & H3 & H4). unfold get_entry, put_entry. destruct e as [c a v i]. cbn [ent_cycle ent_addr ent_value ent_info] in *.
  f_equal; rewrite ?cword_cstore_other by lia; (apply cword_cstore_same; [by repeat apply cstore_ok | | lia | | done]);
    rewrite ?(proj1 (cstore_frame _ _ _)), ?(proj2 (cstore_frame _ _ _)); done || lia.
Qed.
Lemma get_put_other b at_ at' e : 0 ≤ at_ → 0 ≤ at' → (at' + 16 ≤ at_ ∨ at_ + 16 ≤ at') →
  get_entry (put_entry at_ e b) at' = get_entry b at'.
Proof. intros Ho Ho' Hd. unfold get_entry, put_entry. by rewrite !cword_cstore_other by lia. Qed.

Lemma marked_ok e : entry_ok e → entry_ok (marked e).
Proof. intros (H1 & H2 & H3 & H4). split_and!; try done. apply w32_lor; [done | by vm_compute]. Qed.

Lemma get_set_ring b h t d at_ : get_entry (bus_set_ring h t d b) at_ = get_entry b at_.
Proof. done. Qed.

Section simulation.
Context (b : copro_bus) (Hlog : log_ok b).
Local Abbreviation n := (bus_log_entries b).
Local Abbreviation head := (bus_log_head b).
Local Abbreviation tail := (bus_log_tail b).

Lemma length_log : Z.of_nat (length (q_items (log_of b))) = copro_bus_log_pending b.
Proof. unfold log_of. cbn [q_items]. rewrite length_fmap, length_seqZ. destruct (pending_range b Hlog). lia. Qed.

(** The ring's pointers after a push and after a pop. *)
Lemma pending_moves h t k : 0 < n → 0 ≤ h < n → 0 ≤ t < n → 0 ≤ k < n → (t + k) mod n = h →
  n < 0x10000000 → copro_bus_log_pending (bus_set_ring h t (bus_log_dropped b) b) = k.
Proof.
  intros Hn Hh Ht Hk E Hw. unfold copro_bus_log_pending. cbn [bus_set_ring bus_log_entries bus_log_head bus_log_tail].
  rewrite (proj2 (Z.eqb_neq _ _)) by lia. unfold sub32.
  assert (h = t + k ∨ h = t + k - n) as Hc.
  { destruct (Z.lt_ge_cases (t + k) n); [rewrite Z.mod_small in E by lia; lia|]. right. rewrite <- E.
    replace (t + k) with (t + k - n + 1 * n) at 1 by lia. rewrite Z.mod_add, Z.mod_small by lia. lia. }
  destruct (Z.leb_spec t h) as [H|H]; [rewrite u32_id by (unfold w32; lia); lia|].
  rewrite (u32_id (t - h)), u32_id by (unfold w32; lia). lia.
Qed.
End simulation.

Lemma push_simulates b e : log_ok b → entry_ok e →
  log_ok (push_log e b) ∧ log_of (push_log e b) = q_push (bus_log_entries b - 1) e (log_of b).
Proof.
  intros Hlog He. pose proof Hlog as (Hb & Hc & Hn & Hs). destruct (log_bounds b Hlog) as (Hnb & Hh & Ht & _ & Ho).
  destruct (pending_range b Hlog) as [Hp E].
  unfold push_log, q_push. rewrite length_log, full_spec by done. rewrite (proj2 (Z.eqb_neq _ _)) by done.
  destruct (Z.ltb_spec (copro_bus_log_pending b) (bus_log_entries b - 1)) as [H|H]; cbn [negb].
  2:{ split; [|done]. split_and!; [by apply bus_ok_ring | done..]. }
  cbv zeta. cbn [log_of q_dropped]. set (e' := if nz _ then _ else _).
  assert (entry_ok e') as He' by (subst e'; destruct (nz _); [by apply marked_ok | done]).
  destruct (put_entry_ring (slot_at b (bus_log_head b)) e' b) as (R1 & R2 & R3 & R4).
  destruct (put_entry_frame (slot_at b (bus_log_head b)) e' b) as (F1 & F2).
  destruct (slot_range b Hlog _ Hh) as [S1 S2].
  set (b1 := put_entry _ e' b) in *. assert (bus_ok b1) as Hb1 by (by apply put_entry_ok).
  pose proof (next_slot_bounds b _ Hn Hh) as Hnext.
  split.
  { split_and!; [apply bus_ok_ring; [done | by rewrite R2] | cbn; by rewrite F1 | cbn; by rewrite R2 |].
    unfold slot_at. cbn [bus_set_ring bus_log_off bus_log_entries bus_ctl_size]. by rewrite R1, R2, F2. }
  unfold log_of. cbn [q_items bus_set_ring bus_log_dropped]. f_equal.
  assert (copro_bus_log_pending (bus_set_ring (next_slot b (bus_log_head b)) (bus_log_tail b) 0 b1) = copro_bus_log_pending b + 1) as ->.
  { change (copro_bus_log_pending (bus_set_ring (next_slot b (bus_log_head b)) (bus_log_tail b) (bus_log_dropped b1) b1) = copro_bus_log_pending b + 1).
    apply pending_moves; rewrite ?R2; try lia. rewrite next_slot_mod by done.
    rewrite <- E, Zplus_mod_idemp_l. f_equal. lia. }
  rewrite seqZ_app by lia. rewrite fmap_app. f_equal.
  - apply list_fmap_ext. intros i k Hk. apply lookup_seqZ in Hk as [-> Hk]. rewrite Z.add_0_l in *.
    unfold slot, slot_at. cbn [bus_set_ring bus_log_off bus_log_entries bus_log_tail]. rewrite R1, R2, get_set_ring.
    assert ((bus_log_tail b + Z.of_nat i) mod bus_log_entries b ≠ bus_log_head b) as Hne by (apply mod_apart; [done | lia]).
    pose proof (Z.mod_pos_bound (bus_log_tail b + Z.of_nat i) (bus_log_entries b) ltac:(lia)) as Hm.
    apply get_put_other; unfold slot_at, ENTRY_SIZE in *; lia.
  - cbn [seqZ]. change (seqZ (0 + copro_bus_log_pending b) 1) with ([0 + copro_bus_log_pending b] ++ []).
    cbn [app fmap list_fmap]. f_equal. unfold slot. cbn [bus_set_ring bus_log_off bus_log_entries bus_log_tail].
    rewrite R2, Z.add_0_l, E, get_set_ring. unfold slot_at. cbn [bus_set_ring bus_log_off]. rewrite R1.
    by apply get_put_same.
Qed.

Lemma pop_simulates b : log_ok b →
  log_ok (snd (pop_log b)) ∧ bus_log_entries (snd (pop_log b)) = bus_log_entries b ∧
  (fst (pop_log b), log_of (snd (pop_log b))) = q_pop (log_of b).
Proof.
  intros Hlog. pose proof Hlog as (Hb & Hc & Hn & Hs). destruct (log_bounds b Hlog) as (Hnb & Hh & Ht & _ & Ho).
  destruct (pending_range b Hlog) as [Hp E]. unfold pop_log. rewrite (proj2 (Z.eqb_neq _ _)), empty_spec by done. cbn [orb].
  destruct (Z.eqb_spec (copro_bus_log_pending b) 0) as [H|H]; cbn [fst snd].
  { split_and!; try done. unfold q_pop, log_of. by rewrite H. }
  pose proof (next_slot_bounds b _ Hn Ht) as Hnext. unfold log_ok. split_and!; [by apply bus_ok_ring | done.. |].
  unfold q_pop, log_of at 2. cbn [q_items]. rewrite seqZ_cons by lia. cbn [fmap list_fmap]. f_equal.
  - f_equal. unfold slot. rewrite Z.add_0_r, Z.mod_small by lia. done.
  - unfold log_of. cbn [bus_set_ring bus_log_dropped]. f_equal. rewrite (pending_moves b _ _ (copro_bus_log_pending b - 1)); try lia.
    2:{ rewrite next_slot_mod by done. rewrite Zplus_mod_idemp_l, <- E. f_equal. lia. }
    change (Z.succ 0) with (1 + 0). rewrite <- Z.sub_1_r. rewrite <- (fmap_add_seqZ 1 0 (copro_bus_log_pending b - 1)), <- list_fmap_compose.
    apply list_fmap_ext. intros i k Hk. apply lookup_seqZ in Hk as [-> Hk]. unfold compose, slot. rewrite get_set_ring.
    cbn [bus_set_ring bus_log_off bus_log_entries bus_log_tail]. rewrite next_slot_mod by done. rewrite Zplus_mod_idemp_l.
    f_equal. unfold slot_at. cbn [bus_set_ring bus_log_off]. do 3 f_equal. lia.
Qed.

(** * Sequences of operations *)

Inductive log_op := LogPush (e : copro_log_entry) | LogPop | LogPending.
Inductive log_answer := Pushed | Popped (e : option copro_log_entry) | Pending (n : Z).

Definition log_op_run (op : log_op) : M copro_bus log_answer :=
  match op with
  | LogPush e => log_push (ent_cycle e) (ent_addr e) (ent_value e) (ent_info e);; mret Pushed
  | LogPop => e ← copro_bus_log_pop; mret (Popped e)
  | LogPending => n ← gets copro_bus_log_pending; mret (Pending n)
  end.
Definition q_op (room : Z) (op : log_op) : M queue log_answer :=
  match op with
  | LogPush e => modify (q_push room e);; mret Pushed
  | LogPop => λ q, Some (Popped (fst (q_pop q)), snd (q_pop q))
  | LogPending => n ← gets (λ q, Z.of_nat (length (q_items q))); mret (Pending n)
  end.
Definition op_ok (op : log_op) : Prop := match op with LogPush e => entry_ok e | _ => True end.

Lemma push_log_entries e b : bus_log_entries (push_log e b) = bus_log_entries b.
Proof.
  unfold push_log. destruct (_ =? 0); [done|]. destruct (_ =? _); [done|]. cbv zeta. cbn [bus_set_ring bus_log_entries].
  apply put_entry_ring.
Qed.

(** An operation on the ring is the operation on the queue it holds. *)
Lemma log_op_simulates op b : log_ok b → op_ok op →
  ∃ a b', log_op_run op b = Some (a, b') ∧ log_ok b' ∧ bus_log_entries b' = bus_log_entries b ∧
    q_op (bus_log_entries b - 1) op (log_of b) = Some (a, log_of b').
Proof.
  intros Hlog Hop. pose proof (proj1 Hlog) as Hb. destruct op as [e| |]; cbn [log_op_run q_op].
  - destruct (push_simulates b e Hlog Hop) as [H1 H2]. eexists _, _. split_and!.
    + rewrite (bind_eq _ _ _ _ _ (log_push_run b Hb _ _ _ _)). by destruct e.
    + exact H1.
    + apply push_log_entries.
    + unfold modify. rewrite bind_run, <- H2. done.
  - pose proof (pop_simulates b Hlog) as H. pose proof (copro_bus_log_pop_run b Hb) as E. destruct (pop_log b) as [a b'].
    destruct H as (H1 & H2 & H3). exists (Popped a), b'. rewrite (bind_eq _ _ _ _ _ E), <- H3. by split_and!.
  - eexists _, _. split_and!; [done | done | done |]. rewrite (bind_eq _ _ _ _ _ eq_refl). by rewrite length_log.
Qed.
