(* ===== verification/CoproHook.v ===== *)
(** The RV32IM processor on the card's address decode (copro/cpu_rv32i.c behind the
    hook of copro/copro_bus.c): a byte load that stalls completes with the guest's
    answer, a wider one never does. *)

From S2P Require Export CoproLog Rv32Lift.

(** The decode behind the processor, at the addresses that are not taken for ports.
    The cycle stamp is the processor's count, as the card arranges it. *)
#[export] Instance bus_mem : CpuMem copro_bus := {
  cm_ram := bus_ram;
  cm_set_ram := bus_set_ram;
  cm_read addr := λ '(s, b),
    if is_port_addr (u32 addr) then None
    else match bus_hook_read (u32 addr) b with Some (r, b') => Some (r, (s, b')) | None => None end;
  cm_write addr v := λ '(s, b),
    if is_port_addr (u32 addr) then None
    else match bus_hook_write (u32 (rv_cycles s)) (u32 addr) v b with Some (r, b') => Some (r, (s, b')) | None => None end
}.

Lemma bare_w32 addr : w32 (u32 addr .&~ CPU_MEM_PORT).
Proof. apply w32_ldiff, u32_w32. Qed.

Lemma le_byte_w32 v : byte v → w32 v.
Proof. unfold byte, w32. lia. Qed.

#[export] Instance bus_mem_ok : CpuMemOk copro_bus bus_ok.
Proof.
  split.
  - intros a s b [r v] s' b' Hb. cbn. destruct (is_port_addr (u32 a)) eqn:Hp; [done|]. unfold bus_hook_read. rewrite Hp, bind_run, (copro_bus_read_run b Hb _ _ (bare_w32 a)).
    destruct (answered b _ false).
    + intros [= <- <- <- <-]. split_and!; [done | by apply bus_ok_answer_valid | apply le_byte_w32, byte_u8].
    + pose proof (decoded_read_ok b (u32 a .&~ CPU_MEM_PORT) false Hb (w32_nonneg _ (bare_w32 a))) as [H1 H2].
      destruct (decoded_read b _ _) as [rv b1]. intros [= <- <- <- <-]. split_and!; [done | exact H2 | by apply le_byte_w32].
  - intros a v s b r s' b' Hb. cbn. destruct (is_port_addr (u32 a)) eqn:Hp; [done|]. unfold bus_hook_write. rewrite Hp, (bind_eq _ _ _ b b) by done. cbv zeta.
    rewrite bind_run, (copro_bus_write_run b Hb _ _ _ _ (bare_w32 a)). destruct (answered b _ true).
    + intros [= <- <- <-]. split; [done | by apply bus_ok_answer_valid].
    + pose proof (decoded_write_ok b (u32 a .&~ CPU_MEM_PORT) false (if bus_cycle_source b then u32 (rv_cycles s) else 0) v Hb) as H.
      destruct (decoded_write b _ _ _ _) as [rv b1]. intros [= <- <- <-]. by split.
  - intros b i v Hb Hv. apply le_byte_w32. exact (byte_at _ _ _ (bo_ram_bytes _ Hb) Hv).
  - intros b i v Hb. cbn. apply bus_ok_set_ram; [done | by rewrite length_insert |]. apply Forall_insert; [apply Hb | done].
Qed.

(** * The waiting access and its answer do not move the map *)

Definition quiet (b : copro_bus) : copro_bus :=
  bus_set_stalled 0 (bus_set_wait 0 0 0 0 (bus_set_answer 0 0 0 0 b)).
Definition same_map (b b' : copro_bus) : Prop := quiet b = quiet b'.
#[export] Instance same_map_equiv : Equivalence same_map.
Proof. unfold same_map. split; [done | by intros ?? -> | by intros ??? -> ->]. Qed.

Lemma cword_quiet b o : cword (quiet b) o = cword b o.
Proof. done. Qed.
Lemma region_of_quiet b a p : region_of (quiet b) a p = region_of b a p.
Proof. done. Qed.
Lemma ram_byte_quiet b a : ram_byte (quiet b) a = ram_byte b a.
Proof. done. Qed.
#[export] Instance cword_proper : Proper (same_map ==> (=) ==> (=)) cword.
Proof. intros b b' H o ? <-. by rewrite <- (cword_quiet b), H. Qed.
#[export] Instance region_of_proper : Proper (same_map ==> (=) ==> (=) ==> (=)) region_of.
Proof. intros b b' H a ? <- p ? <-. by rewrite <- (region_of_quiet b), H. Qed.
#[export] Instance ram_byte_proper : Proper (same_map ==> (=) ==> (=)) ram_byte.
Proof. intros b b' H a ? <-. by rewrite <- (ram_byte_quiet b), H. Qed.
Lemma latch_byte_quiet b a : latch_byte (quiet b) a = latch_byte b a.
Proof. done. Qed.
#[export] Instance latch_byte_proper : Proper (same_map ==> (=) ==> (=)) latch_byte.
Proof. intros b b' H a ? <-. by rewrite <- (latch_byte_quiet b), H. Qed.

Lemma same_map_wait a v w p b : same_map (wait_for a v w p b) b.
Proof. by destruct b. Qed.
Lemma same_map_answer_valid v b : same_map (bus_set_answer_valid v b) b.
Proof. by destruct b. Qed.
Lemma same_map_resume v b : same_map (bus_set_answer 1 (bus_wait_addr b) v (bus_wait_is_write b)
  (bus_set_wait_value v (bus_set_stalled 0 b))) b.
Proof. by destruct b. Qed.

(** * Addresses *)

(** Reads give [v] at once. *)
Definition reads (b : copro_bus) (a v : Z) : Prop :=
  is_port_addr a = false ∧ fst (decoded_read b a false) = (COPRO_BUS_OK, v).
(** Reads stop the processor for the guest. *)
Definition stall_at (b : copro_bus) (a : Z) : Prop :=
  is_port_addr a = false ∧
  ∃ at_, region_of b a false = Some at_ ∧ COPRO_REGION_KIND (cword b (at_ + 8)) = COPRO_REGION_STALL.

#[export] Instance stall_at_proper : Proper (same_map ==> (=) ==> iff) stall_at.
Proof.
  intros b b' H a ? <-. unfold stall_at. rewrite (region_of_proper _ _ H _ _ eq_refl _ _ eq_refl).
  split; intros (Hp & at_ & HR & HK); (split; [done|]; exists at_; split; [done|]).
  - by rewrite <- (cword_proper _ _ H _ _ eq_refl).
  - by rewrite (cword_proper _ _ H _ _ eq_refl).
Qed.

Lemma decoded_read_fst b b' a p : same_map b b' → fst (decoded_read b a p) = fst (decoded_read b' a p).
Proof.
  intros H. unfold decoded_read. rewrite (region_of_proper _ _ H _ _ eq_refl _ _ eq_refl).
  destruct (region_of b' a p) as [at_|]; cbn [fst]; [|by rewrite (ram_byte_proper _ _ H _ _ eq_refl)].
  cbv zeta. rewrite !(cword_proper _ _ H _ _ eq_refl). rewrite (ram_byte_proper _ _ H _ _ eq_refl), (latch_byte_proper _ _ H _ _ eq_refl).
  by repeat case_match.
Qed.
#[export] Instance reads_proper : Proper (same_map ==> (=) ==> (=) ==> iff) reads.
Proof. intros b b' H a ? <- v ? <-. unfold reads. by rewrite (decoded_read_fst _ _ _ _ H). Qed.

Lemma bare_id a : is_port_addr a = false → a .&~ CPU_MEM_PORT = a.
Proof.
  unfold is_port_addr. change CPU_MEM_PORT with (2 ^ 16). rewrite nz_mask_bit by done. intros H.
  apply Z.bits_inj'. intros i Hi. rewrite Z.ldiff_spec. destruct (Z.eq_dec i 16) as [->|Hn]; [by rewrite H|].
  rewrite Z.pow2_bits_false by lia. by rewrite andb_true_r.
Qed.

Lemma decoded_read_keeps b a v : fst (decoded_read b a false) = (COPRO_BUS_OK, v) → decoded_read b a false = ((COPRO_BUS_OK, v), b).
Proof. unfold decoded_read. cbv zeta. destruct (region_of _ _ _); repeat case_match; cbn [fst]; congruence. Qed.

(** * A byte through the hook *)

Section byte_access.
Context (s : rv32i_state) (b : copro_bus) (Hb : bus_ok b) (Hhook : hook_read (rv_mem s) = true).

Lemma load8_unfold a : load8 a (s, b) =
  (r ← cm_read a;
   match r with
   | (CPU_MEM_OK, val) => mret val
   | (CPU_MEM_STALL, _) => rv_cpu (rv_set_stall 1 a 0);; mret 0
   | (CPU_MEM_BUSERROR, _) => fault RV32I_FAULT_LOAD_ACCESS a;; mret 0
   end) (s, b).
Proof. unfold load8. rewrite (bind_eq _ _ _ true (s, b)); [done|]. unfold rv_get, gets. cbn [fst]. by rewrite Hhook. Qed.

Lemma cm_read_run a : w32 a → is_port_addr a = false → cm_read a (s, b) =
  Some (if answered b a false then ((CPU_MEM_OK, u8 (bus_answer_value b)), (s, bus_set_answer_valid 0 b))
        else ((mem_result (fst (fst (decoded_read b a false))), snd (fst (decoded_read b a false))),
              (s, snd (decoded_read b a false)))).
Proof.
  intros Ha Hp. cbn [cm_read bus_mem]. unfold bus_hook_read. rewrite (u32_id a) by done.
  rewrite Hp. rewrite bare_id by done. rewrite bind_run, (copro_bus_read_run b Hb a false Ha).
  destruct (answered b a false); [done|]. by destruct (decoded_read b a false).
Qed.

Lemma load8_answered a : w32 a → is_port_addr a = false → answered b a false = true →
  load8 a (s, b) = Some (u8 (bus_answer_value b), (s, bus_set_answer_valid 0 b)).
Proof.
  intros Ha Hp Hans. rewrite load8_unfold. pose proof (cm_read_run a Ha Hp) as E. rewrite Hans in E.
  by rewrite (bind_eq _ _ _ _ _ E).
Qed.

Lemma load8_reads a v : w32 a → answered b a false = false → reads b a v → load8 a (s, b) = Some (v, (s, b)).
Proof.
  intros Ha Hans [Hp Hr]. rewrite load8_unfold. pose proof (cm_read_run a Ha Hp) as E.
  rewrite Hans, (decoded_read_keeps b a v Hr) in E. by rewrite (bind_eq _ _ _ _ _ E).
Qed.

Lemma stall_at_decoded a : stall_at b a → decoded_read b a false = ((COPRO_BUS_STALL, 0xff), wait_for a 0 false false b).
Proof. intros (_ & at_ & HR & HK). unfold decoded_read. rewrite HR. cbv zeta. by rewrite HK. Qed.

Lemma load8_stalls a : w32 a → answered b a false = false → stall_at b a →
  load8 a (s, b) = Some (0, (rv_set_stall 1 a 0 s, wait_for a 0 false false b)).
Proof.
  intros Ha Hans Hst. rewrite load8_unfold. pose proof (cm_read_run a Ha (proj1 Hst)) as E.
  rewrite Hans, (stall_at_decoded a Hst) in E. by rewrite (bind_eq _ _ _ _ _ E).
Qed.

(** No address both answers at once and stalls. *)
Lemma reads_not_stall a v : reads b a v → stall_at b a → False.
Proof. intros [_ Hr] Hst. rewrite (stall_at_decoded a Hst) in Hr. by cbn in Hr. Qed.

Lemma reads_byte a v : 0 ≤ a → reads b a v → byte v.
Proof. intros Ha [_ Hr]. pose proof (decoded_read_ok b a false Hb Ha) as [H _]. by rewrite Hr in H. Qed.
End byte_access.

Lemma load32_hook s b a : hook_read (rv_mem s) = true → load32 a (s, b) =
  (b0 ← load8 (add32 a 0); b1 ← load8 (add32 a 1); b2 ← load8 (add32 a 2); b3 ← load8 (add32 a 3);
   mret (b0 .| shl32 b1 8 .| shl32 b2 16 .| shl32 b3 24)) (s, b).
Proof. intros Hh. unfold load32. rewrite (bind_eq _ _ _ true (s, b)); [done|]. unfold rv_get, gets. cbn [fst]. by rewrite Hh. Qed.
Lemma load16_hook s b a : hook_read (rv_mem s) = true → load16 a (s, b) =
  (b0 ← load8 (add32 a 0); b1 ← load8 (add32 a 1); mret (b0 .| shl32 b1 8)) (s, b).
Proof. intros Hh. unfold load16. rewrite (bind_eq _ _ _ true (s, b)); [done|]. unfold rv_get, gets. cbn [fst]. by rewrite Hh. Qed.

(** * The instruction at the program counter *)

(** The four bytes at [pc] are the instruction [w], and no answer is meant for one
    of them. *)
Definition fetches (b : copro_bus) (pc w : Z) : Prop :=
  ∃ v0 v1 v2 v3, reads b pc v0 ∧ reads b (pc + 1) v1 ∧ reads b (pc + 2) v2 ∧ reads b (pc + 3) v3 ∧
    w = le_value [v0; v1; v2; v3].
#[export] Instance fetches_proper : Proper (same_map ==> (=) ==> (=) ==> iff) fetches.
Proof.
  intros b b' H pc ? <- w ? <-. unfold fetches.
  split; intros (v0 & v1 & v2 & v3 & H0 & H1 & H2 & H3 & E); exists v0, v1, v2, v3; split_and!; try done;
    by (rewrite <- H || rewrite H).
Qed.

Definition unanswered (b : copro_bus) (a : Z) : Prop := answered b a false = false.

Lemma fetch_run s b pc w : bus_ok b → hook_read (rv_mem s) = true → w32 pc → pc mod 4 = 0 →
  fetches b pc w → (∀ i, 0 ≤ i < 4 → unanswered b (pc + i)) → load32 pc (s, b) = Some (w, (s, b)) ∧ w32 w.
Proof.
  intros Hb Hh Hpc Hal (v0 & v1 & v2 & v3 & H0 & H1 & H2 & H3 & ->) Hu.
  assert (pc + 3 < 0x100000000) as Hroom by (unfold w32 in Hpc; Z.to_euclidean_division_equations; lia).
  pose proof (Hu 0 ltac:(lia)) as U0. pose proof (Hu 1 ltac:(lia)) as U1. pose proof (Hu 2 ltac:(lia)) as U2. pose proof (Hu 3 ltac:(lia)) as U3.
  rewrite Z.add_0_r in U0. unfold w32 in Hpc.
  pose proof (reads_byte b Hb pc v0 ltac:(lia) H0) as B0. pose proof (reads_byte b Hb (pc + 1) v1 ltac:(lia) H1) as B1.
  pose proof (reads_byte b Hb (pc + 2) v2 ltac:(lia) H2) as B2. pose proof (reads_byte b Hb (pc + 3) v3 ltac:(lia) H3) as B3.
  split; [|by apply le_word_range]. rewrite load32_hook by done. rewrite !add32_id, Z.add_0_r by (unfold w32; lia).
  rewrite (bind_eq _ _ _ _ _ (load8_reads s b Hb Hh pc v0 Hpc U0 H0)).
  rewrite (bind_eq _ _ _ _ _ (load8_reads s b Hb Hh (pc + 1) v1 ltac:(unfold w32; lia) U1 H1)).
  rewrite (bind_eq _ _ _ _ _ (load8_reads s b Hb Hh (pc + 2) v2 ltac:(unfold w32; lia) U2 H2)).
  rewrite (bind_eq _ _ _ _ _ (load8_reads s b Hb Hh (pc + 3) v3 ltac:(unfold w32; lia) U3 H3)).
  by rewrite bytes_or.
Qed.

Lemma decode_load_inv w op rd rs1 imm : decode w = Some (Load op rd rs1 imm) →
  p_op (split w) = OP_LOAD ∧ p_f3 (split w) = load_f3 op ∧ rd = p_rd (split w) ∧ rs1 = p_rs1 (split w) ∧
  imm = signed 12 (imm_I (split w)).
Proof.
  unfold decode. rewrite decode_opcodes. pose proof (split_ok w) as (_ & _ & H3 & _). revert H3. generalize (split w). intros q H3.
  cbv zeta. assert (∀ A : Prop, None = Some (Load op rd rs1 imm) → A) as Hno by done.
  destruct (Z.eqb_spec (p_op q) OP_LOAD) as [E|_].
  - rewrite E. cbn [Z.eqb Pos.eqb OP_LUI OP_AUIPC OP_JAL OP_JALR OP_BRANCH OP_LOAD].
    intros (op' & Hd & [= -> <- <- <-])%option.bind_Some. split_and!; try done. revert Hd H3. generalize (p_f3 q). intros j Hd Hj.
    revert Hd. each_value j 0 8 ltac:(clear; cbn [decode_load]; by intros [= <-]).
  - intros H. exfalso. repeat case_match; simplify_option_eq.
Qed.

(** * A load from a stalling address *)

Definition load_op_read (op : load_op) (a : Z) : M (rv32i_state * copro_bus) Z :=
  match op with LB | LBU => load8 a | LH | LHU => load16 a | LW => load32 a end.
Definition load_op_value (op : load_op) (v : Z) : Z :=
  match op with LB => sign_extend v 8 | LH => sign_extend v 16 | _ => v end.

(** The answer that is waiting, if one is, is for a byte at [base], …, [base + n - 1]. *)
Definition answer_within (b : copro_bus) (base n : Z) : Prop :=
  nz (bus_answer_valid b) = true → base ≤ bus_answer_addr b < base + n.

(** The processor is at a load whose bytes all stall. *)
Record at_load (s : rv32i_state) (b : copro_bus) (op : load_op) (rd rs1 imm : Z) : Prop := {
  al_bus : bus_ok b;
  al_hook : hook_read (rv_mem s) = true;
  al_can : nz (hook_can_stall (rv_mem s)) = true;
  al_halted : rv_halted s = 0;
  al_faulted : rv_faulted s = 0;
  al_stalled : rv_stalled s = 0;
  al_pc : w32 (rv_pc s);
  al_pc_aligned : rv_pc s mod 4 = 0;
  al_fetch : ∃ w, fetches b (rv_pc s) w ∧ decode w = Some (Load op rd rs1 imm);
  al_aligned : u32 (rv_x s !!! rs1 + imm) mod Z.of_nat (load_size op) = 0;
  al_stall i : 0 ≤ i < Z.of_nat (load_size op) → stall_at b (u32 (rv_x s !!! rs1 + imm) + i);
  al_answer : answer_within b (u32 (rv_x s !!! rs1 + imm)) (Z.of_nat (load_size op))
}.

Section load.
Context (s : rv32i_state) (b : copro_bus) (op : load_op) (rd rs1 imm : Z) (Hl : at_load s b op rd rs1 imm).
Let addr := u32 (rv_x s !!! rs1 + imm).
Let s1 := rv_set_saved (rv_x s, rv_pc s) s.

Lemma fetch_unanswered w i : fetches b (rv_pc s) w → 0 ≤ i < 4 → unanswered b (rv_pc s + i).
Proof.
  intros (v0 & v1 & v2 & v3 & H0 & H1 & H2 & H3 & _) Hi. unfold unanswered.
  destruct (answered b (rv_pc s + i) false) eqn:E; [|done]. exfalso.
  apply andb_prop in E as [[E1 E2]%andb_prop _]. apply Z.eqb_eq in E2.
  pose proof (al_answer _ _ _ _ _ _ Hl E1) as Ha. rewrite E2 in Ha.
  pose proof (al_stall _ _ _ _ _ _ Hl (rv_pc s + i - addr) ltac:(lia)) as Hst. fold addr in Hst.
  replace (addr + (rv_pc s + i - addr)) with (rv_pc s + i) in Hst by lia.
  assert (i = 0 ∨ i = 1 ∨ i = 2 ∨ i = 3) as [-> | [-> | [-> | ->]]] by lia; rewrite ?Z.add_0_r in Hst;
    (eapply reads_not_stall; [|exact Hst]; eassumption).
Qed.

Lemma aligned_access n a (k : M (rv32i_state * copro_bus) flow) mis acc : n = 1%nat ∨ n = 2%nat ∨ n = 4%nat → 0 ≤ a → a mod Z.of_nat n = 0 →
  rv_access mis acc (Z.of_nat n) a k (s1, b) = k (s1, b).
Proof.
  intros Hn Ha Hal. unfold rv_access. rewrite aligned_spec by done. rewrite Hal. cbn [Z.eqb negb].
  rewrite (bind_eq _ _ _ true (s1, b)); [done|]. unfold rv_get, gets, in_range. cbn [fst]. unfold s1. cbn [rv_set_saved rv_mem].
  by rewrite (al_hook _ _ _ _ _ _ Hl).
Qed.

Lemma step_load : rv32i_step (s, b) =
  (a ← load_op_read op addr; rv_set_reg rd (load_op_value op a);;
   stalled ← rv_get rv_stalled;
   if nz stalled then rv32i_abandon else
   rv_cpu (λ s', rv_set_cycles (u64 (rv_cycles s' + 1)) (rv_set_pc (u32 (rv_pc s + 4)) s'));; mret 1) (s1, b).
Proof.
  destruct (al_fetch _ _ _ _ _ _ Hl) as (w & Hf & Hd).
  destruct (fetch_run s1 b (rv_pc s) w (al_bus _ _ _ _ _ _ Hl) (al_hook _ _ _ _ _ _ Hl) (al_pc _ _ _ _ _ _ Hl)
    (al_pc_aligned _ _ _ _ _ _ Hl) Hf (λ i, fetch_unanswered w i Hf)) as [Hload Hw].
  unfold rv32i_step. rewrite (bind_eq _ _ _ s (s, b)) by done. cbv zeta.
  rewrite (al_halted _ _ _ _ _ _ Hl), (al_faulted _ _ _ _ _ _ Hl), (al_stalled _ _ _ _ _ _ Hl), (al_can _ _ _ _ _ _ Hl).
  change (nz 0) with false. cbn [orb]. cbn iota. rewrite (bind_eq _ _ _ tt (s1, b)) by done.
  pose proof (aligned_spec 4 (rv_pc s) ltac:(auto) ltac:(apply (al_pc _ _ _ _ _ _ Hl))) as Hal.
  change (Z.of_nat 4) with 4 in Hal. change (4 - 1) with 3 in Hal. rewrite Hal, (al_pc_aligned _ _ _ _ _ _ Hl). cbn [Z.eqb negb].
  unfold in_range. rewrite (al_hook _ _ _ _ _ _ Hl). cbn [orb negb]. rewrite (bind_eq _ _ _ _ _ Hload).
  assert (∀ m : M (rv32i_state * copro_bus) flow, m = (a ← load_op_read op addr; rv_set_reg rd (load_op_value op a);; mret (Break (u32 (rv_pc s + 4)))) →
    (m ≫= λ r, match r with Break next => stalled ← rv_get rv_stalled; (if nz stalled then rv32i_abandon else
      rv_cpu (λ s0, rv_set_cycles (u64 (rv_cycles s0 + 1)) (rv_set_pc next s0));; mret 1) | Return n => mret n end) (s1, b) =
    (a ← load_op_read op addr; rv_set_reg rd (load_op_value op a);; stalled ← rv_get rv_stalled; if nz stalled then rv32i_abandon else
      rv_cpu (λ s', rv_set_cycles (u64 (rv_cycles s' + 1)) (rv_set_pc (u32 (rv_pc s + 4)) s'));; mret 1) (s1, b)) as Hfin.
  { intros m ->. rewrite bind_assoc, !bind_run. by destruct (load_op_read op addr (s1, b)) as [[v [s2 b2]]|]. }
  rewrite <- (Hfin _ eq_refl). rewrite !bind_run. cut (rv_execute (rv_pc s) w (s1, b) =
    (a ← load_op_read op addr; rv_set_reg rd (load_op_value op a);; mret (Break (u32 (rv_pc s + 4)))) (s1, b)); [by intros ->|].
  destruct (decode_load_inv _ _ _ _ _ Hd) as (Eop & Ef3 & Erd & Ers & Eimm).
  unfold rv_execute. rewrite f_opcode_spec, Eop by done. cbn [Z.eqb Pos.eqb OP_LUI OP_AUIPC OP_JAL OP_JALR OP_BRANCH OP_LOAD].
  unfold op_load. rewrite f_funct3_spec, f_rs1_spec, f_rd_spec, load_imm, Ef3, <- Erd, <- Ers, <- Eimm by done.
  rewrite (bind_eq _ _ _ (rv_x s !!! rs1) (s1, b)) by done. rewrite add32_u32. fold addr. cbv zeta.
  pose proof (al_aligned _ _ _ _ _ _ Hl) as Haddr. fold addr in Haddr. pose proof (u32_w32 (rv_x s !!! rs1 + imm)) as [H0 _]. fold addr in H0.
  assert (∀ n k mis acc, n = 1%nat ∨ n = 2%nat ∨ n = 4%nat → addr mod Z.of_nat n = 0 →
    rv_access mis acc (Z.of_nat n) addr k (s1, b) = k (s1, b)) as Hacc by (intros; by apply aligned_access).
  revert Haddr. clear -Hacc. destruct op; cbn [load_f3 load_op_read load_op_value load_size Z.eqb Pos.eqb]; intros Haddr.
  - exact (Hacc 1%nat _ _ _ ltac:(auto) Haddr).
  - exact (Hacc 2%nat _ _ _ ltac:(auto) Haddr).
  - exact (Hacc 4%nat _ _ _ ltac:(auto) Haddr).
  - exact (Hacc 1%nat _ _ _ ltac:(auto) Haddr).
  - exact (Hacc 2%nat _ _ _ ltac:(auto) Haddr).
Qed.
End load.

(** [wait_ack]: the guest answers [v], and the processor may go on. *)
Definition wait_ack (v : Z) : M (rv32i_state * copro_bus) unit := λ '(s, b),
  match copro_bus_resume v b with Some (_, b') => Some (tt, (rv_set_stalled 0 s, b')) | None => None end.
(** A step, and the guest's answer to the access that stopped it. *)
Definition step_and_answer (v : Z) : M (rv32i_state * copro_bus) Z := n ← rv32i_step; wait_ack v;; mret n.

Lemma at_load_same s b s' b' op rd rs1 imm : at_load s b op rd rs1 imm →
  bus_ok b' → same_map b' b → answer_within b' (u32 (rv_x s !!! rs1 + imm)) (Z.of_nat (load_size op)) →
  rv_mem s' = rv_mem s → rv_halted s' = 0 → rv_faulted s' = 0 → rv_stalled s' = 0 → rv_pc s' = rv_pc s → rv_x s' = rv_x s →
  at_load s' b' op rd rs1 imm.
Proof.
  intros [] Hb' Hm Ha E1 E2 E3 E4 E5 E6. split; rewrite ?E1, ?E5, ?E6; try done.
  - destruct al_fetch0 as (w & Hf & Hd). exists w. by rewrite Hm.
  - intros i Hi. rewrite Hm. auto.
Qed.

(** The bytes of a load some of which have stalled. *)
Definition held (s0 : rv32i_state) (b0 : copro_bus) (base n : Z) (sb : rv32i_state * copro_bus) : Prop :=
  bus_ok (snd sb) ∧ same_map (snd sb) b0 ∧ (∃ a, fst sb = rv_set_stall 1 a 0 s0) ∧
  bus_stalled (snd sb) = 1 ∧ base ≤ bus_wait_addr (snd sb) < base + n ∧ bus_wait_is_write (snd sb) = 0.

Section bytes.
Context (s0 : rv32i_state) (b0 : copro_bus) (Hh : hook_read (rv_mem s0) = true) (base n : Z).
Context (Hbase : 0 ≤ base) (Hn : base + n < 0x100000001) (Hst : ∀ i, 0 ≤ i < n → stall_at b0 (base + i)).

Lemma held_load8 a : base ≤ a < base + n → runs (held s0 b0 base n) (load8 a) (λ _, held s0 b0 base n).
Proof.
  intros Ha [s b] (Hb & Hm & (a' & E) & H1 & H2 & H3). cbn [fst snd] in *. assert (w32 a) as Hw by (unfold w32; lia).
  assert (stall_at b a) as Hs by (rewrite Hm; replace a with (base + (a - base)) by lia; apply Hst; lia).
  assert (hook_read (rv_mem s) = true) as Hhs by (by rewrite E).
  destruct (answered b a false) eqn:Hans.
  - eexists _, _. split; [by apply load8_answered; [.. | apply Hs|]|].
    unfold held. cbn [fst snd]. split_and!; [by apply bus_ok_answer_valid | rewrite <- Hm; apply same_map_answer_valid | by exists a' | cbn; lia || done..].
  - eexists _, _. split; [by apply load8_stalls|].
    unfold held. cbn [fst snd]. split_and!; [by apply wait_for_ok | rewrite <- Hm; apply same_map_wait | | done | cbn; lia.. | done].
    exists a. by rewrite E.
Qed.

(** Of two bytes at least one stalls: an answer is for one access. *)
Lemma held_two a a' : bus_ok b0 → base ≤ a < base + n → base ≤ a' < base + n → a ≠ a' →
  runs (λ sb, sb = (s0, b0)) (load8 a) (λ _ sb, ∃ v sb', load8 a' sb = Some (v, sb') ∧ held s0 b0 base n sb').
Proof.
  intros Hb Ha Ha' Hne ? ->. assert (w32 a) as Hw by (unfold w32; lia). assert (w32 a') as Hw' by (unfold w32; lia).
  assert (stall_at b0 a) as Hs by (replace a with (base + (a - base)) by lia; apply Hst; lia).
  assert (stall_at b0 a') as Hs' by (replace a' with (base + (a' - base)) by lia; apply Hst; lia).
  destruct (answered b0 a false) eqn:Hans.
  - eexists _, _. split; [by apply load8_answered; [.. | apply Hs|]|].
    eexists _, _. split; [apply load8_stalls; [by apply bus_ok_answer_valid | done | done | done |]|].
    { by rewrite (same_map_answer_valid 0 b0). }
    unfold held. cbn [fst snd]. split_and!; [by apply wait_for_ok, bus_ok_answer_valid | apply (transitivity (same_map_wait _ _ _ _ _)), same_map_answer_valid | by exists a' | done | cbn; lia.. | done].
  - eexists _, _. split; [by apply load8_stalls|]. apply held_load8; [done|].
    unfold held. cbn [fst snd]. split_and!; [by apply wait_for_ok | apply same_map_wait | by exists a | done | cbn; lia.. | done].
Qed.
End bytes.

Section wide.
Context (s : rv32i_state) (b : copro_bus) (op : load_op) (rd rs1 imm : Z) (Hl : at_load s b op rd rs1 imm).
Context (Hwide : load_size op ≠ 1%nat).
Let addr := u32 (rv_x s !!! rs1 + imm).
Let n := Z.of_nat (load_size op).
Let s1 := rv_set_saved (rv_x s, rv_pc s) s.

Lemma addr_room : 0 ≤ addr ∧ addr + n < 0x100000001.
Proof.
  pose proof (u32_w32 (rv_x s !!! rs1 + imm)) as Hw. fold addr in Hw. pose proof (al_aligned _ _ _ _ _ _ Hl) as Ha. fold addr in Ha.
  unfold w32, n in *. destruct op; cbn [load_size] in *; Z.to_euclidean_division_equations; lia.
Qed.

Lemma wide_read : ∃ v sb, load_op_read op addr (s1, b) = Some (v, sb) ∧ held s1 b addr n sb.
Proof.
  destruct addr_room as [H0 H1]. assert (hook_read (rv_mem s1) = true) as Hh by exact (al_hook _ _ _ _ _ _ Hl).
  assert (2 ≤ n) as Hn by (unfold n; destruct op; cbn [load_size] in *; lia).
  pose proof (al_stall _ _ _ _ _ _ Hl) as Hst. fold addr n in Hst.
  destruct (held_two s1 b Hh addr n H0 H1 Hst addr (addr + 1) (al_bus _ _ _ _ _ _ Hl) ltac:(lia) ltac:(lia) ltac:(lia) _ eq_refl)
    as (v0 & sb1 & E0 & v1 & sb2 & E1 & Hheld).
  assert (addr + 1 < 0x100000000) as Hroom by lia.
  assert (op = LW ∨ load_op_read op = load16) as [E | E].
  { revert Hwide. destruct op; cbn [load_size load_op_read]; auto; lia. }
  - rewrite E. cbn [load_op_read]. rewrite load32_hook by done. assert (n = 4) as En by (unfold n; by rewrite E).
    rewrite !add32_id, Z.add_0_r by (unfold w32; lia).
    destruct (held_load8 s1 b Hh addr n H0 H1 Hst (addr + 2) ltac:(lia) _ Hheld) as (v2 & sb3 & E2 & Hheld2).
    destruct (held_load8 s1 b Hh addr n H0 H1 Hst (addr + 3) ltac:(lia) _ Hheld2) as (v3 & sb4 & E3 & Hheld3).
    rewrite (bind_eq _ _ _ _ _ E0), (bind_eq _ _ _ _ _ E1), (bind_eq _ _ _ _ _ E2), (bind_eq _ _ _ _ _ E3). by eexists _, _.
  - rewrite E, load16_hook by done. rewrite !add32_id, Z.add_0_r by (unfold w32; lia).
    rewrite (bind_eq _ _ _ _ _ E0), (bind_eq _ _ _ _ _ E1). by eexists _, _.
Qed.

(** A step stalls, leaves the processor where it was, and so does the next one
    after any answer. *)
Lemma wide_round v : ∃ s' b', step_and_answer v (s, b) = Some (0, (s', b')) ∧ at_load s' b' op rd rs1 imm ∧
  rv_x s' = rv_x s ∧ rv_pc s' = rv_pc s ∧ rv_cycles s' = rv_cycles s.
Proof.
  destruct wide_read as (x & [s2 b2] & E & Hb2 & Hm & (a & Es) & H1 & H2 & H3). cbn [fst snd] in *.
  unfold step_and_answer. rewrite bind_run, (step_load s b op rd rs1 imm Hl). fold addr s1. rewrite (bind_eq _ _ _ _ _ E), Es.
  set (s3 := set_reg rd (load_op_value op x) (rv_set_stall 1 a 0 s1)).
  assert (rv_stalled s3 = 1 ∧ rv_saved s3 = (rv_x s, rv_pc s) ∧ rv_mem s3 = rv_mem s ∧ rv_halted s3 = rv_halted s ∧
    rv_faulted s3 = rv_faulted s ∧ rv_cycles s3 = rv_cycles s) as (R1 & R2 & R3 & R4 & R5 & R6).
  { unfold s3, set_reg. by destruct (rd =? 0). }
  rewrite (bind_eq _ _ _ tt (s3, b2)) by done. rewrite (bind_eq _ _ _ 1 (s3, b2)) by (unfold rv_get, gets; cbn [fst]; by rewrite R1).
  change (nz 1) with true. cbn iota. unfold rv32i_abandon. rewrite (bind_eq _ _ _ tt (rv_set_pc (rv_pc s) (rv_set_x (rv_x s) s3), b2))
    by (unfold rv_cpu, modify; cbn [fst snd]; by rewrite R2).
  unfold mret at 1, M_ret. rewrite bind_run. unfold wait_ack. rewrite copro_bus_resume_run. rewrite H1, H3. change (nz 1) with true. change (nz 0) with false. cbv zeta. cbn iota.
  eexists _, _. split; [done|]. split; [|cbn; by rewrite R6].
  apply (at_load_same s b); try done; cbn.
  - destruct Hb2. by split.
  - intros _. cbn. fold addr n. exact H2.
  - rewrite R4. apply (al_halted _ _ _ _ _ _ Hl).
  - rewrite R5. apply (al_faulted _ _ _ _ _ _ Hl).
Qed.
End wide.

Section narrow.
Context (s : rv32i_state) (b : copro_bus) (op : load_op) (rd rs1 imm : Z) (Hl : at_load s b op rd rs1 imm).
Context (Hnarrow : load_size op = 1%nat).
Let addr := u32 (rv_x s !!! rs1 + imm).
Let s1 := rv_set_saved (rv_x s, rv_pc s) s.

Lemma narrow_read : load_op_read op = load8.
Proof. revert Hnarrow. by destruct op. Qed.
Lemma narrow_stall : stall_at b addr.
Proof.
  pose proof (al_stall _ _ _ _ _ _ Hl 0) as H. rewrite Hnarrow, Z.add_0_r in H. by apply H.
Qed.
Lemma addr_w32 : w32 addr.
Proof. apply u32_w32. Qed.
Lemma hook_s1 : hook_read (rv_mem s1) = true.
Proof. exact (al_hook _ _ _ _ _ _ Hl). Qed.

Lemma load_op_value_byte v : byte v → load_op_value op v = load_value op v.
Proof.
  intros Hv. revert Hnarrow. destruct op; cbn [load_size load_op_value load_value]; try done; [|lia..].
  intros _. apply sign_extend_spec; [lia | exact Hv].
Qed.

(** The access stalls; after the guest's answer the processor is at it again. *)
Lemma narrow_round v : byte v → answered b addr false = false →
  ∃ s' b', step_and_answer v (s, b) = Some (0, (s', b')) ∧ at_load s' b' op rd rs1 imm ∧ same_map b' b ∧
  rv_x s' = rv_x s ∧ rv_pc s' = rv_pc s ∧ rv_cycles s' = rv_cycles s ∧ answered b' addr false = true ∧ bus_answer_value b' = v.
Proof.
  intros Hv Hans. pose proof (al_bus _ _ _ _ _ _ Hl) as Hb.
  unfold step_and_answer. rewrite bind_run, (step_load s b op rd rs1 imm Hl). fold addr s1. rewrite narrow_read.
  rewrite (bind_eq _ _ _ _ _ (load8_stalls s1 b Hb hook_s1 addr addr_w32 Hans narrow_stall)).
  set (s3 := set_reg rd (load_op_value op 0) (rv_set_stall 1 addr 0 s1)).
  assert (rv_stalled s3 = 1 ∧ rv_saved s3 = (rv_x s, rv_pc s) ∧ rv_mem s3 = rv_mem s ∧ rv_halted s3 = rv_halted s ∧
    rv_faulted s3 = rv_faulted s ∧ rv_cycles s3 = rv_cycles s) as (R1 & R2 & R3 & R4 & R5 & R6).
  { unfold s3, set_reg. by destruct (rd =? 0). }
  set (b2 := wait_for addr 0 false false b).
  rewrite (bind_eq _ _ _ tt (s3, b2)) by done. rewrite (bind_eq _ _ _ 1 (s3, b2)) by (unfold rv_get, gets; cbn [fst]; by rewrite R1).
  change (nz 1) with true. cbn iota. unfold rv32i_abandon. rewrite (bind_eq _ _ _ tt (rv_set_pc (rv_pc s) (rv_set_x (rv_x s) s3), b2))
    by (unfold rv_cpu, modify; cbn [fst snd]; by rewrite R2).
  unfold mret at 1, M_ret. rewrite bind_run. unfold wait_ack. rewrite copro_bus_resume_run. change (nz (bus_stalled b2)) with true.
  cbv zeta. cbn iota. change (nz (bus_wait_is_write b2)) with false. cbn iota.
  set (b3 := bus_set_answer 1 _ v _ _). assert (same_map b3 b) as Hm by (transitivity b2; [by destruct b2 | apply same_map_wait]).
  eexists _, _. split; [done|]. split.
  { apply (at_load_same s b); try done; cbn.
    - apply (wait_for_ok addr 0 false false) in Hb. change (bus_ok b2) in Hb. destruct Hb. by split.
    - intros _. cbn. rewrite Hnarrow. fold addr. lia.
    - rewrite R4. apply (al_halted _ _ _ _ _ _ Hl).
    - rewrite R5. apply (al_faulted _ _ _ _ _ _ Hl). }
  split_and!; try done. unfold answered. cbn. by rewrite Z.eqb_refl.
Qed.

(** With the answer there the load retires. *)
Lemma narrow_retires : answered b addr false = true →
  ∃ s' b', rv32i_step (s, b) = Some (1, (s', b')) ∧ same_map b' b ∧ bus_answer_valid b' = 0 ∧
  rv_x s' = write_x rd (load_value op (u8 (bus_answer_value b))) (rv_x s) ∧ rv_pc s' = u32 (rv_pc s + 4) ∧
  rv_cycles s' = u64 (rv_cycles s + 1) ∧ rv_stalled s' = 0 ∧ rv_faulted s' = 0 ∧ rv_halted s' = 0.
Proof.
  intros Hans. pose proof (al_bus _ _ _ _ _ _ Hl) as Hb. rewrite (step_load s b op rd rs1 imm Hl). fold addr s1. rewrite narrow_read.
  rewrite (bind_eq _ _ _ _ _ (load8_answered s1 b Hb hook_s1 addr addr_w32 (proj1 narrow_stall) Hans)).
  rewrite load_op_value_byte by done. set (v := load_value op _).
  rewrite (bind_eq _ _ _ tt (set_reg rd v s1, bus_set_answer_valid 0 b)) by done.
  assert (rv_stalled (set_reg rd v s1) = 0 ∧ rv_faulted (set_reg rd v s1) = 0 ∧ rv_halted (set_reg rd v s1) = 0 ∧
    rv_cycles (set_reg rd v s1) = rv_cycles s ∧ rv_x (set_reg rd v s1) = write_x rd v (rv_x s)) as (R1 & R2 & R3 & R4 & R5).
  { unfold set_reg, write_x. pose proof (al_stalled _ _ _ _ _ _ Hl). pose proof (al_faulted _ _ _ _ _ _ Hl). pose proof (al_halted _ _ _ _ _ _ Hl).
    by destruct (rd =? 0). }
  rewrite (bind_eq _ _ _ 0 (set_reg rd v s1, bus_set_answer_valid 0 b)) by (unfold rv_get, gets; cbn [fst]; by rewrite R1).
  change (nz 0) with false. cbn iota. eexists _, _. split; [done|]. cbn [fst snd]. split_and!; try done. cbn. by rewrite R4.
Qed.
End narrow.
