(* ===== verification/CoproFlat.v ===== *)
(** A card with no region table is the processor on an array: hooked into the decode
    (copro/copro_bus.c), the RV32IM processor takes every step that does not fault
    as it takes it, without the hook, on the RAM below the first address with
    [CPU_MEM_PORT] set. *)

From S2P Require Export CoproHook.

(** The RAM the processor reaches without meeting the bit of the ports, and the rest. *)
Definition low_size : nat := Z.to_nat CPU_MEM_PORT.
Definition low (l : list Z) : list Z := take low_size l.
Definition low_ram (b : copro_bus) : list Z := low (bus_ram b).
Definition with_low (m : list Z) (b : copro_bus) : copro_bus := bus_set_ram (m ++ drop low_size (bus_ram b)) b.

(** The processor behind the hook, over RAM of [size] bytes, and on an array of
    [size] bytes without it. *)
Definition hooked (size : Z) (s : rv32i_state) : rv32i_state := rv_set_ram true size (rv_set_mem (mkHook true true 0) s).
Definition bare (size : Z) (s : rv32i_state) : rv32i_state := rv_set_ram true size (rv_set_mem no_hook s).

Record plain_bus (b : copro_bus) : Prop := {
  pb_ok : bus_ok b;
  pb_ram : bus_has_ram b = true;
  pb_size : 0 < bus_ram_size b;
  pb_map : bus_map_count b = 0;
  pb_answer : bus_answer_valid b = 0
}.
Definition flat_over (s : rv32i_state) (b : copro_bus) : Prop :=
  rv_mem s = no_hook ∧ rv_has_ram s = true ∧ rv_ram_size s = Z.of_nat (length (low_ram b)).

Lemma low_size_port : Z.of_nat low_size = 0x10000.
Proof. reflexivity. Qed.
#[global] Opaque low_size.

Lemma length_low l : Z.of_nat (length (low l)) = Z.min 0x10000 (Z.of_nat (length l)).
Proof. unfold low. rewrite length_take. pose proof low_size_port. lia. Qed.
Lemma low_id l : low l ++ drop low_size l = l.
Proof. apply take_drop. Qed.
Lemma low_app m l : length m = length (low l) → low (m ++ drop low_size l) = m ∧ drop low_size (m ++ drop low_size l) = drop low_size l.
Proof.
  unfold low. rewrite length_take. intros Hl. destruct (decide (low_size ≤ length l)%nat).
  - split; [rewrite take_app_length'; [done | lia] | rewrite drop_app_length'; [done | lia]].
  - rewrite (drop_ge l) by lia. rewrite app_nil_r. split; [apply take_ge; lia | apply drop_ge; lia].
Qed.
Lemma low_insert i v l : (i < length (low l))%nat → <[i := v]> (low l) ++ drop low_size l = <[i := v]> l.
Proof. intros Hi. rewrite <- (low_id l) at 3. by rewrite insert_app_l. Qed.

(** ** One computation of the processor does what the other does, faults aside *)

Definition faulted (s : rv32i_state) : bool := nz (rv_faulted s).
Definition follows {A} (m1 : M (rv32i_state * list Z) A) (m2 : M (rv32i_state * copro_bus) A) : Prop :=
  (∀ s m a s' m', rv_mem s = no_hook → m1 (s, m) = Some (a, (s', m')) →
    rv_mem s' = no_hook ∧ (faulted s = true → faulted s' = true) ∧ length m' = length m) ∧
  (∀ s b a s' m', plain_bus b → flat_over s b → m1 (s, low_ram b) = Some (a, (s', m')) → faulted s' = false →
    m2 (hooked (bus_ram_size b) s, b) = Some (a, (hooked (bus_ram_size b) s', with_low m' b)) ∧
    flat_over s' b ∧ plain_bus (with_low m' b)).

Lemma set_ram_id b : bus_set_ram (bus_ram b) b = b.
Proof. by destruct b. Qed.
Lemma with_low_id b : with_low (low_ram b) b = b.
Proof. unfold with_low, low_ram. rewrite low_id. apply set_ram_id. Qed.
Lemma low_with_low m b : length m = length (low_ram b) → low_ram (with_low m b) = m.
Proof. intros Hl. apply low_app, Hl. Qed.
Lemma with_low_twice m m' b : length m = length (low_ram b) → with_low m' (with_low m b) = with_low m' b.
Proof. intros Hl. unfold with_low. cbn [bus_set_ram bus_ram]. by destruct (low_app _ _ Hl) as [_ ->]. Qed.
Lemma flat_over_low s b m : length m = length (low_ram b) → flat_over s b ↔ flat_over s (with_low m b).
Proof. intros Hl. unfold flat_over. by rewrite low_with_low, Hl. Qed.

Lemma follows_bind {A B} (m1 : M _ A) (m2 : M _ A) (k1 : A → M _ B) (k2 : A → M _ B) :
  follows m1 m2 → (∀ a, follows (k1 a) (k2 a)) → follows (m1 ≫= k1) (m2 ≫= k2).
Proof.
  intros [Sm Hm] Hk. split.
  - intros s m a s' m' Hs (x & [s1 m1'] & E1 & E2)%bind_Some. destruct (Sm _ _ _ _ _ Hs E1) as (Hs1 & F1 & L1).
    destruct (proj1 (Hk x) _ _ _ _ _ Hs1 E2) as (Hs2 & F2 & L2). split_and!; [done | auto | congruence].
  - intros s b a s' m' Hb Hs (x & [s1 m1'] & E1 & E2)%bind_Some Hf.
    destruct (Sm _ _ _ _ _ (proj1 Hs) E1) as (Hn1 & _ & L1). destruct (proj1 (Hk x) _ _ _ _ _ Hn1 E2) as (_ & F2 & L2).
    assert (faulted s1 = false) as Hf1 by (destruct (faulted s1); [rewrite F2 in Hf by done; discriminate | done]).
    destruct (Hm s b x s1 m1' Hb Hs E1 Hf1) as (R1 & Hs1 & Hb1). rewrite (bind_eq _ _ _ _ _ R1).
    pose proof (proj2 (Hk x) s1 (with_low m1' b) a s' m' Hb1) as H. rewrite low_with_low, with_low_twice in H by done.
    rewrite <- !flat_over_low in H by done. exact (H Hs1 E2 Hf).
Qed.
Lemma follows_ret {A} (a : A) : follows (mret a) (mret a).
Proof. split; [by intros s m ? s' m' Hs [= <- <- <-]|]. intros s b ? s' m' Hb Hs [= <- <- <-] Hf. by rewrite with_low_id. Qed.
Lemma follows_cpu f : (∀ n s, f (hooked n s) = hooked n (f s)) →
  (∀ s, rv_mem (f s) = rv_mem s ∧ rv_has_ram (f s) = rv_has_ram s ∧ rv_ram_size (f s) = rv_ram_size s) →
  (∀ s, faulted s = true → faulted (f s) = true) → follows (rv_cpu f) (rv_cpu f).
Proof.
  intros Hh Hk Hf. split; [intros s m ? s' m' Hs [= <- <- <-]; cbn [fst]; destruct (Hk s) as (-> & _); auto|].
  intros s b ? s' m' Hb Hs [= <- <- <-] _. unfold rv_cpu, modify. cbn [fst snd]. rewrite with_low_id, Hh.
  split_and!; [done | | done]. destruct (Hk s) as (K1 & K2 & K3). unfold flat_over. by rewrite K1, K2, K3.
Qed.
Lemma follows_get {A} (f : rv32i_state → A) : (∀ n s, f (hooked n s) = f s) → follows (rv_get f) (rv_get f).
Proof.
  intros Hf. split; [by intros s m ? s' m' Hs [= <- <- <-]|]. intros s b ? s' m' Hb Hs [= <- <- <-] _.
  unfold rv_get, gets. cbn [fst]. by rewrite Hf, with_low_id.
Qed.
Lemma follows_fault c a : follows (fault c a) (fault c a).
Proof. split; [by intros s m ? s' m' Hs [= <- <- <-]|]. by intros s b ? s' m' Hb Hs [= <- <- <-]. Qed.
Lemma follows_faulting c a : follows (faulting c a) (faulting c a).
Proof. apply follows_bind; [apply follows_fault | intros; apply follows_ret]. Qed.
Lemma follows_set_reg rd v : follows (rv_set_reg rd v) (rv_set_reg rd v).
Proof. apply follows_cpu; intros; unfold set_reg; by destruct (rd =? 0). Qed.
Lemma follows_reg r : follows (rv_reg r) (rv_reg r).
Proof. by apply follows_get. Qed.
Lemma follows_if {A} (c : bool) (m1 n1 : M _ A) (m2 n2 : M _ A) :
  follows m1 m2 → follows n1 n2 → follows (if c then m1 else n1) (if c then m2 else n2).
Proof. by destruct c. Qed.

(** ** Accesses *)

Section plain.
Context (b : copro_bus) (Hb : plain_bus b).

Lemma plain_length : Z.of_nat (length (bus_ram b)) = bus_ram_size b.
Proof. apply (bo_ram_length _ (pb_ok _ Hb)), Hb. Qed.
Lemma low_length : 0 < Z.of_nat (length (low_ram b)) ≤ 0x10000 ∧ Z.of_nat (length (low_ram b)) ≤ bus_ram_size b.
Proof. unfold low_ram. rewrite length_low, plain_length. pose proof (pb_size _ Hb). lia. Qed.
Lemma low_port a : 0 ≤ a < 0x10000 → is_port_addr a = false.
Proof.
  intros Ha. unfold is_port_addr. change CPU_MEM_PORT with (2 ^ 16). rewrite nz_mask_bit by done. apply (testbit_high a 16); [exact Ha | done].
Qed.
Lemma plain_region a p : region_of b a p = None.
Proof. unfold region_of. rewrite (pb_map _ Hb). by destruct (bus_has_ctl b). Qed.
Lemma plain_unanswered a w : answered b a w = false.
Proof. unfold answered. by rewrite (pb_answer _ Hb). Qed.
Lemma low_lookup i v : low_ram b !! i = Some v → bus_ram b !! i = Some v.
Proof. unfold low_ram, low. rewrite lookup_take_Some. by intros [? ?]. Qed.
Lemma plain_reads a v : 0 ≤ a → low_ram b !! Z.to_nat a = Some v → reads b a v.
Proof.
  intros Ha Hv. pose proof (lookup_lt_Some _ _ _ Hv) as Hl. pose proof low_length as HL. apply low_lookup in Hv.
  split; [apply low_port; lia|]. unfold decoded_read. rewrite plain_region. cbn [fst]. do 2 f_equal.
  unfold ram_byte. rewrite (pb_ram _ Hb). assert (nz (bus_ram_size b) = true) as -> by (unfold nz; rewrite (proj2 (Z.eqb_neq _ _)); [done | lia]).
  cbn [andb]. rewrite Z.mod_small by lia. by apply list_lookup_total_correct.
Qed.

Lemma hooked_load8 n s a v : 0 ≤ a → low_ram b !! Z.to_nat a = Some v → load8 a (hooked n s, b) = Some (v, (hooked n s, b)).
Proof.
  intros Ha Hv. pose proof (lookup_lt_Some _ _ _ Hv) as Hl. pose proof low_length.
  apply load8_reads; [apply Hb | done | unfold w32; lia | apply plain_unanswered | by apply plain_reads].
Qed.
Lemma hooked_store8 n s a v : 0 ≤ a < Z.of_nat (length (low_ram b)) →
  store8 a v (hooked n s, b) = Some (tt, (hooked n s, with_low (<[Z.to_nat a := u8 v]> (low_ram b)) b)).
Proof.
  intros Ha. pose proof low_length. assert (w32 a) as Hw by (unfold w32; lia).
  unfold with_low, low_ram. rewrite low_insert by (unfold low_ram in Ha; lia).
  unfold store8. rewrite (bind_eq _ _ _ true (hooked n s, b)) by done.
  rewrite (bind_eq _ _ _ CPU_MEM_OK (hooked n s, bus_set_ram (<[Z.to_nat a := u8 v]> (bus_ram b)) b)); [done|].
  cbn [cm_write bus_mem]. rewrite (u32_id a), low_port by (done || lia). unfold bus_hook_write. rewrite low_port by lia. rewrite bare_id by (apply low_port; lia).
  rewrite (bind_eq _ _ _ b b) by done. cbv zeta. rewrite bind_run, (copro_bus_write_run b (pb_ok _ Hb) a false _ _ Hw), plain_unanswered.
  unfold decoded_write. rewrite plain_region. cbv zeta. unfold ram_store. rewrite (pb_ram _ Hb).
  assert (nz (bus_ram_size b) = true) as -> by (unfold nz; rewrite (proj2 (Z.eqb_neq _ _)); [done | lia]). cbn [andb].
  rewrite Z.mod_small by lia. rewrite u8_u8. done.
Qed.
Lemma plain_put i v : (i < length (low_ram b))%nat → plain_bus (with_low (<[i := u8 v]> (low_ram b)) b).
Proof.
  intros Hi. unfold with_low, low_ram. rewrite low_insert by done.
  split; try apply Hb. apply bus_ok_set_ram; [apply Hb | by rewrite length_insert|]. apply Forall_insert; [apply Hb | done].
Qed.
End plain.

(** ** The bytes of an access *)

Lemma follows_byte a i : w32 a → 0 ≤ i < 4 → follows (ram_get (a + i)) (load8 (add32 a i)).
Proof.
  intros Ha Hi. split.
  - intros s m v s' m' Hs. unfold ram_get. cbn [cm_ram flat_ram id snd]. destruct (m !! _); [|done]. by intros [= <- <- <-].
  - intros s b v s' m' Hb Hs. unfold ram_get. cbn [cm_ram flat_ram id snd]. destruct (low_ram b !! _) as [x|] eqn:E; [|done].
    intros [= <- <- <-] _. pose proof (lookup_lt_Some _ _ _ E) as Hl. pose proof (low_length b Hb).
    unfold w32 in Ha. rewrite add32_id by (unfold w32; lia). rewrite with_low_id. split_and!; [|done..]. apply hooked_load8; [done | lia | done].
Qed.
Lemma follows_put_byte a i v : w32 a → 0 ≤ i < 4 → follows (ram_put (a + i) v) (store8 (add32 a i) v).
Proof.
  intros Ha Hi. split.
  - intros s m x s' m' Hs. unfold ram_put. destruct (_ <=? _); [done|]. intros [= <- <- <-]. cbn. by rewrite length_insert.
  - intros s b x s' m' Hb Hs. unfold ram_put. cbn [cm_ram flat_ram id snd cm_set_ram]. destruct (Z.leb_spec (Z.of_nat (length (low_ram b))) (a + i)) as [|Hl]; [done|].
    intros [= <- <- <-] _. pose proof (low_length b Hb).
    unfold w32 in Ha. rewrite add32_id by (unfold w32; lia). split_and!; [by apply hooked_store8; [|lia] | done.. | apply plain_put; [done | lia]].
Qed.

(** The processor asks whether it is hooked. *)
Lemma follows_hooked {A} (f : cpu_mem_hook → bool) (k1 : bool → M _ A) (k2 : bool → M _ A) :
  f no_hook = false → f (mkHook true true 0) = true → follows (k1 false) (k2 true) →
  follows (rv_get (λ s, f (rv_mem s)) ≫= k1) (rv_get (λ s, f (rv_mem s)) ≫= k2).
Proof.
  intros F1 F2 [Sk Hk]. split.
  - intros s m a s' m' Hs. rewrite (bind_eq _ _ _ false (s, m)); [by apply Sk|]. unfold rv_get, gets. cbn [fst]. by rewrite Hs, F1.
  - intros s b a s' m' Hb Hs. rewrite (bind_eq _ _ _ false (s, low_ram b)).
    2:{ unfold rv_get, gets. cbn [fst]. by rewrite (proj1 Hs), F1. }
    rewrite (bind_eq _ _ _ true (hooked (bus_ram_size b) s, b)); [by apply Hk|]. unfold rv_get, gets. cbn [fst hooked rv_set_ram rv_set_mem rv_mem]. by rewrite F2.
Qed.

Create HintDb follows discriminated.
#[export] Hint Resolve follows_ret follows_fault follows_faulting follows_set_reg follows_reg : follows.

Section accesses.
Context (a : Z) (Ha : w32 a).
Lemma follows_load32 : follows (load32 a) (load32 a).
Proof.
  unfold load32. apply follows_hooked; [done..|]. cbv zeta. cbn iota.
  repeat (apply follows_bind; [apply follows_byte; [done | lia] | intros ?]). apply follows_ret.
Qed.
Lemma follows_load16 : follows (load16 a) (load16 a).
Proof.
  unfold load16. apply follows_hooked; [done..|]. cbv zeta. cbn iota.
  repeat (apply follows_bind; [apply follows_byte; [done | lia] | intros ?]). apply follows_ret.
Qed.
Lemma follows_store32 v : follows (store32 a v) (store32 a v).
Proof.
  unfold store32. apply follows_hooked; [done..|]. cbv zeta. cbn iota.
  repeat (apply follows_bind; [apply follows_put_byte; [done | lia] | intros ?]). apply follows_put_byte; [done | lia].
Qed.
Lemma follows_store16 v : follows (store16 a v) (store16 a v).
Proof.
  unfold store16. apply follows_hooked; [done..|]. cbv zeta. cbn iota.
  repeat (apply follows_bind; [apply follows_put_byte; [done | lia] | intros ?]). apply follows_put_byte; [done | lia].
Qed.
End accesses.
Lemma follows_load8 a : w32 a → follows (load8 a) (load8 a).
Proof.
  intros Ha. pose proof (follows_byte a 0 Ha ltac:(lia)) as Hf. rewrite add32_id, Z.add_0_r in Hf by (by rewrite Z.add_0_r).
  destruct Hf as [Sf Hf]. assert (∀ s (m : list Z), rv_mem s = no_hook → load8 a (s, m) = ram_get a (s, m)) as E.
  { intros s m Hs. unfold load8. rewrite (bind_eq _ _ _ false (s, m)); [done|]. unfold rv_get, gets. cbn [fst]. by rewrite Hs. }
  split; [intros s m v s' m' Hs; rewrite E by done; by apply Sf|]. intros s b v s' m' Hb Hs. rewrite E by apply Hs. by apply Hf.
Qed.
Lemma follows_store8 a v : w32 a → follows (store8 a v) (store8 a v).
Proof.
  intros Ha. pose proof (follows_put_byte a 0 v Ha ltac:(lia)) as Hf. rewrite add32_id, Z.add_0_r in Hf by (by rewrite Z.add_0_r).
  destruct Hf as [Sf Hf]. assert (∀ s (m : list Z), rv_mem s = no_hook → store8 a v (s, m) = ram_put a v (s, m)) as E.
  { intros s m Hs. unfold store8. rewrite (bind_eq _ _ _ false (s, m)); [|unfold rv_get, gets; cbn [fst]; by rewrite Hs].
    cbn iota. unfold ram_put. by destruct (_ <=? _). }
  split; [intros s m x s' m' Hs; rewrite E by done; by apply Sf|]. intros s b x s' m' Hb Hs. rewrite E by apply Hs. by apply Hf.
Qed.

(** An address that is out of range faults the one and not the other. *)
Lemma follows_access mis acc len a k1 k2 : follows k1 k2 → follows (rv_access mis acc len a k1) (rv_access mis acc len a k2).
Proof.
  intros [Sk Hk]. unfold rv_access. destruct (nz _); [apply follows_faulting|].
  assert (∀ s (m : list Z), rv_mem s = no_hook → ((ok ← rv_get (λ s, in_range s a len); if (ok : bool) then k1 else faulting acc a) : M (rv32i_state * list Z) flow) (s, m) =
    (if in_range s a len then k1 else faulting acc a) (s, m)) as E by done.
  split.
  - intros s m x s' m' Hs. rewrite E by done. destruct (in_range s a len); [by apply Sk | by apply (proj1 (follows_faulting acc a))].
  - intros s b x s' m' Hb Hs. rewrite E by apply Hs. rewrite (bind_eq _ _ _ true (hooked (bus_ram_size b) s, b)) by done.
    destruct (in_range s a len); [by apply Hk|]. intros [= <- <- <-]. discriminate.
Qed.

Ltac follows_walk :=
  repeat (cbv beta zeta;
  match goal with
  | |- ∀ _, _ => intro
  | |- follows (_ ≫= _) _ => apply follows_bind
  | |- follows (rv_access _ _ _ _ _) _ => apply follows_access
  | |- follows (if ?c then _ else _) _ => apply (follows_if c)
  | |- follows (match ?x with _ => _ end) _ => destruct x
  | |- follows (load8 _) _ => apply follows_load8, u32_w32
  | |- follows (load16 _) _ => apply follows_load16, u32_w32
  | |- follows (load32 _) _ => apply follows_load32, u32_w32
  | |- follows (store8 _ _) _ => apply follows_store8, u32_w32
  | |- follows (store16 _ _) _ => apply follows_store16, u32_w32
  | |- follows (store32 _ _) _ => apply follows_store32, u32_w32
  | |- follows (rv_cpu _) _ => apply follows_cpu; done
  | |- follows _ _ => solve [eauto 1 with follows nocore]
  end).

Lemma follows_execute pc w : follows (rv_execute pc w) (rv_execute pc w).
Proof.
  unfold rv_execute, op_jal, op_jalr, op_branch, op_load, op_store, op_op_imm, op_op, op_misc_mem, op_system. follows_walk.
Qed.

(** A step that does not fault is the step of the hooked processor. *)
Lemma hooked_step s b n s' m' : plain_bus b → flat_over s b → w32 (rv_pc s) → rv_stalled s = 0 →
  rv32i_step (s, low_ram b) = Some (n, (s', m')) → faulted s' = false →
  rv32i_step (hooked (bus_ram_size b) s, b) = Some (n, (hooked (bus_ram_size b) s', with_low m' b)) ∧
  flat_over s' b ∧ plain_bus (with_low m' b).
Proof.
  set (sz := bus_ram_size b).
  intros Hb Hs Hpc Hst. unfold rv32i_step. rewrite !(bind_eq (rv_get id) _ _ _ _ eq_refl). cbv zeta. unfold id. cbn [fst].
  change (rv_halted (hooked sz s)) with (rv_halted s). change (rv_faulted (hooked sz s)) with (rv_faulted s).
  change (rv_stalled (hooked sz s)) with (rv_stalled s). change (rv_pc (hooked sz s)) with (rv_pc s).
  change (nz (hook_can_stall (rv_mem (hooked sz s)))) with false. rewrite (proj1 Hs), Hst. change (nz (hook_can_stall no_hook)) with false. change (nz 0) with false.
  destruct (nz (rv_halted s) || nz (rv_faulted s)).
  { intros [= <- <- <-] _. by rewrite with_low_id. }
  cbn iota. unfold when. rewrite (bind_eq _ _ _ tt (s, low_ram b)), (bind_eq _ _ _ tt (hooked sz s, b)) by done.
  destruct (nz (rv_pc s .& 3)); [by intros [= <- <- <-]|]. change (in_range (hooked sz s) (rv_pc s) 4) with true. cbn [negb].
  destruct (in_range s (rv_pc s) 4); cbn [negb]; [|by intros [= <- <- <-]].
  intros E Hf.
  assert (follows (insn ← load32 (rv_pc s); r ← rv_execute (rv_pc s) insn;
    match r with
    | Break next => stalled ← rv_get rv_stalled;
        if nz stalled then rv32i_abandon else rv_cpu (λ s0, rv_set_cycles (u64 (rv_cycles s0 + 1)) (rv_set_pc next s0));; mret 1
    | Return n => mret n
    end)
    (insn ← load32 (rv_pc s); r ← rv_execute (rv_pc s) insn;
    match r with
    | Break next => stalled ← rv_get rv_stalled;
        if nz stalled then rv32i_abandon else rv_cpu (λ s0, rv_set_cycles (u64 (rv_cycles s0 + 1)) (rv_set_pc next s0));; mret 1
    | Return n => mret n
    end)) as [_ H].
  { apply follows_bind; [by apply follows_load32|]. intros insn. apply follows_bind; [apply follows_execute|].
    intros [next|k]; [|apply follows_ret]. apply follows_bind; [by apply follows_get|]. intros st. apply follows_if; [|follows_walk].
    unfold rv32i_abandon. follows_walk. }
  exact (H s b n s' m' Hb Hs E Hf).
Qed.

(** A run that does not trap is a run of the hart. *)
Lemma hooked_run n fuel used s b : rv_flat s (low_ram b) → plain_bus b → u64 (rv_cycles s) = rv_cycles s →
  all_coded n (hart_of s (low_ram b)) → (n ≤ fuel)%nat →
  let '(k, h, e) := isa_run n (hart_of s (low_ram b)) in
  (∀ c v, e ≠ Trapped c v) →
  run_loop fuel used (used + Z.of_nat n) (hooked (bus_ram_size b) s, b) =
  Some (Some (used + k), (hooked (bus_ram_size b) (after_run k h e s), with_low (h_mem h) b)).
Proof.
  revert fuel used s b. induction n as [|n IH]; intros fuel used s b Hf Hb Hcy Hc Hn; cbn [isa_run].
  - intros _. rewrite (after_zero _ s (low_ram b) eq_refl Hcy). cbn [hart_of h_mem]. rewrite with_low_id, !Z.add_0_r.
    destruct fuel; cbn [run_loop]; by rewrite Z.ltb_irrefl.
  - destruct fuel as [|fuel]; [lia|]. destruct Hc as [Hw Hc]. pose proof (rv32i_step_run s (low_ram b) Hf Hw) as Hs.
    assert (flat_over s b) as Hov by (split_and!; [apply (fl_hook _ _ Hf) | apply (fl_ram _ _ Hf) | apply (fl_size _ _ Hf)]).
    pose proof (λ k s' m', hooked_step s b k s' m' Hb Hov (fl_pc _ _ Hf) (fl_stalled _ _ Hf)) as Hstep.
    assert (faulted s = false) as Hnf by (unfold faulted; by rewrite (fl_faulted _ _ Hf)).
    cbn [run_loop]. rewrite (proj2 (Z.ltb_lt _ _)) by lia.
    destruct (isa_step (hart_of s (low_ram b))) as [h|c v|e h] eqn:E.
    + pose proof (isa_retires _ _ E) as El. rewrite El in Hs.
      destruct (late_step_ok s (low_ram b) h Hf El) as [[_ _ _ _ Hlen] Hf']. destruct (Hstep _ _ _ Hs Hnf) as (R & _ & Hb').
      apply Nat2Z.inj in Hlen.
      replace (used + Z.of_nat (Datatypes.S n)) with (used + 1 + Z.of_nat n) by lia.
      specialize (IH fuel (used + 1) (retired h s) (with_low (h_mem h) b)). rewrite low_with_low in IH by done. specialize (IH Hf' Hb').
      assert (hart_of (retired h s) (h_mem h) = h) as Eh by (by destruct h). rewrite Eh in IH.
      assert (u64 (rv_cycles (retired h s)) = rv_cycles (retired h s)) as Hcy' by (cbn; unfold u64; by apply Z.mod_mod).
      specialize (IH Hcy' Hc ltac:(lia)). destruct (isa_run n h) as [[k h2] e]. intros Ht.
      rewrite (bind_eq _ _ _ _ _ R). cbn [Z.eqb]. change (bus_ram_size (with_low (h_mem h) b)) with (bus_ram_size b) in IH.
      rewrite (IH Ht), with_low_twice by done.
      do 3 f_equal; [lia|]. unfold after_run. cbn [retired rv_cycles rv_set_cycles rv_set_pc rv_set_x].
      rewrite u64_add. replace (rv_cycles s + 1 + k) with (rv_cycles s + (k + 1)) by lia. reflexivity.
    + intros Ht. by destruct (Ht c v).
    + intros _. assert (late_step (hart_of s (low_ram b)) = Stop e h) as El by (unfold late_step; by rewrite E). rewrite El in Hs.
      destruct (Hstep _ _ _ Hs Hnf) as (R & _ & Hb'). rewrite (bind_eq _ _ _ _ _ R). cbn [Z.eqb].
      rewrite idle_run_some; [|done | lia]. destruct (isa_step_stop _ _ _ E) as [Hx Hm]. cbn [hart_of h_x h_mem] in Hx, Hm. do 3 f_equal.
      * unfold after_run, stopped. rewrite Hx. by destruct s.
      * by rewrite Hm.
Qed.
