(* ===== verification/OpenBus.v ===== *)
(** The second processor slot (openbus.c, openbus.h): the card in it, the services
    it has of the host, and what the host does with it; and the test card
    (openbus_stub.c, openbus_stub.h). *)

From S2P Require Export Word.

Inductive openbus_size := OPENBUS_SIZE_8 | OPENBUS_SIZE_16 | OPENBUS_SIZE_32.
Definition size_bytes (size : openbus_size) : Z :=
  match size with OPENBUS_SIZE_8 => 1 | OPENBUS_SIZE_16 => 2 | OPENBUS_SIZE_32 => 4 end.
Definition OPENBUS_REG_BASE : Z := 0x03600000.
Definition OPENBUS_REG_SIZE : Z := 0x00200000.
Definition OPENBUS_REG_END : Z := OPENBUS_REG_BASE + OPENBUS_REG_SIZE.

(** [openbus_host_ops]: what the host provides; any of the pointers may be NULL. *)
Class OpenBusHost (H : Type) := {
  oh_read32 : option (Z → M H Z);
  oh_write32 : option (Z → Z → M H unit);
  oh_set_irq : option (Z → M H unit);
  oh_set_fiq : option (Z → M H unit)
}.

(** [openbus_master]: the functions of a card, on whatever state they reach. The
    run answers [None] when its loops have not ended. *)
Record openbus_master (S : Type) := mkMaster {
  om_has_name : bool;
  om_reg_read : option (Z → openbus_size → M S Z);
  om_reg_write : option (Z → openbus_size → Z → M S unit);
  om_run : option (Z → M S (option Z));
  om_reset : option (M S unit);
  om_close : option (M S unit)
}.
Arguments mkMaster {S}.
Arguments om_has_name {S}.
Arguments om_reg_read {S}.
Arguments om_reg_write {S}.
Arguments om_run {S}.
Arguments om_reset {S}.
Arguments om_close {S}.

(** The slot. [ob_master] is which of the cards there are is in it; [bus.fitted]
    is whether one is. *)
Record openbus (K : Type) := mkOpenBus {
  ob_started : bool;
  ob_master : option K;
  ob_irq_asserted : Z;
  ob_fiq_asserted : Z
}.
Arguments mkOpenBus {K}.
Arguments ob_started {K}.
Arguments ob_master {K}.
Arguments ob_irq_asserted {K}.
Arguments ob_fiq_asserted {K}.
Definition ob_set_master {K} (v : option K) (b : openbus K) : openbus K := mkOpenBus (ob_started b) v (ob_irq_asserted b) (ob_fiq_asserted b).
Definition ob_set_irq {K} v (b : openbus K) : openbus K := mkOpenBus (ob_started b) (ob_master b) v (ob_fiq_asserted b).
Definition ob_set_fiq {K} v (b : openbus K) : openbus K := mkOpenBus (ob_started b) (ob_master b) (ob_irq_asserted b) v.
Definition ob_fitted {K} (b : openbus K) : bool := match ob_master b with Some _ => true | None => false end.

(** * Services to the card *)

Section services.
Context {K H : Type} `{!OpenBusHost H}.
Local Abbreviation SLOT := (M (openbus K * H)).

Definition on_host {A} (m : M H A) : SLOT A := zoom snd (λ h s, (fst s, h)) m.
Definition slot_get {A} (f : openbus K → A) : SLOT A := gets (λ s, f (fst s)).
Definition slot_set (f : openbus K → openbus K) : SLOT unit := modify (λ s, (f (fst s), snd s)).

Definition openbus_master_read32 (phys_addr : Z) : SLOT Z :=
  started ← slot_get ob_started;
  match oh_read32 with
  | Some read32 => if (started : bool) then on_host (read32 phys_addr) else mret 0xffffffff
  | None => mret 0xffffffff
  end.
Definition openbus_master_write32 (phys_addr val : Z) : SLOT unit :=
  started ← slot_get ob_started;
  match oh_write32 with
  | Some write32 => when started (on_host (write32 phys_addr val))
  | None => mret tt
  end.

Definition openbus_master_set_irq (state : Z) : SLOT unit :=
  let state := if nz state then 1 else 0 in
  asserted ← slot_get ob_irq_asserted;
  if state =? asserted then mret tt else
  slot_set (ob_set_irq state);;
  started ← slot_get ob_started;
  match oh_set_irq with Some set_irq => when started (on_host (set_irq state)) | None => mret tt end.
Definition openbus_master_set_fiq (state : Z) : SLOT unit :=
  let state := if nz state then 1 else 0 in
  asserted ← slot_get ob_fiq_asserted;
  if state =? asserted then mret tt else
  slot_set (ob_set_fiq state);;
  started ← slot_get ob_started;
  match oh_set_fiq with Some set_fiq => when started (on_host (set_fiq state)) | None => mret tt end.
End services.

(** * What the host does with the slot *)

(** Where a state keeps the slot and its host. *)
Class HasSlot (K H S : Type) := { slot_of : S → openbus K * H; with_slot : openbus K * H → S → S }.

Section slot.
Context {K H S : Type} `{!OpenBusHost H, !HasSlot K H S}.
Context (master_of : K → openbus_master S).

Definition in_slot {A} (m : M (openbus K * H) A) : M S A := zoom slot_of with_slot m.
Definition fitted_master : M S (option (openbus_master S)) := gets (λ s, master_of <$> ob_master (fst (slot_of s))).

(** [has_ops]: whether [ops] is NULL *)
Definition openbus_init (has_ops : bool) : M S unit := in_slot (slot_set (λ _, mkOpenBus has_ops None 0 0)).

Definition openbus_remove : M S unit :=
  m ← fitted_master;
  match m with
  | None => mret tt
  | Some m =>
      in_slot (openbus_master_set_irq 0);; in_slot (openbus_master_set_fiq 0);;
      match om_close m with Some close => close | None => mret tt end;;
      in_slot (slot_set (ob_set_master None))
  end.
Definition openbus_close : M S unit :=
  openbus_remove;; in_slot (slot_set (λ _, mkOpenBus false None 0 0)).

Definition openbus_fit (master : option K) : M S Z :=
  started ← in_slot (slot_get ob_started);
  fitted ← in_slot (slot_get ob_fitted);
  match master with
  | Some k =>
      if negb started || negb (om_has_name (master_of k)) then mret (-1) else
      if (fitted : bool) then mret (-1) else
      in_slot (slot_set (ob_set_master (Some k)));; mret 0
  | None => mret (-1)
  end.

Definition openbus_present : M S bool := in_slot (slot_get ob_fitted).

Definition openbus_reset : M S unit :=
  in_slot (openbus_master_set_irq 0);; in_slot (openbus_master_set_fiq 0);;
  m ← fitted_master;
  match m with
  | Some m => match om_reset m with Some reset => reset | None => mret tt end
  | None => mret tt
  end.

Definition addr_in_window (addr : Z) : bool := (OPENBUS_REG_BASE <=? addr) && (addr <? OPENBUS_REG_END).

Definition openbus_reg_read (addr : Z) (size : openbus_size) : M S Z :=
  m ← fitted_master;
  match (m ≫= om_reg_read : option _) with
  | Some reg_read => if addr_in_window addr then reg_read (sub32 addr OPENBUS_REG_BASE) size else mret 0xffffffff
  | None => mret 0xffffffff
  end.
Definition openbus_reg_write (addr : Z) (size : openbus_size) (val : Z) : M S unit :=
  m ← fitted_master;
  match (m ≫= om_reg_write : option _) with
  | Some reg_write => when (addr_in_window addr) (reg_write (sub32 addr OPENBUS_REG_BASE) size val)
  | None => mret tt
  end.

Definition openbus_run (cycles : Z) : M S (option Z) :=
  m ← fitted_master;
  match (m ≫= om_run : option _) with
  | Some run =>
      if cycles <=? 0 then mret (Some 0) else
      used ← run cycles;
      mret ((λ used, if used <? 0 then 0 else if cycles <? used then cycles else used) <$> used)
  | None => mret (Some 0)
  end.
End slot.

(** * The test card *)

Definition OPENBUS_STUB_ID : Z := 0x4f425354.
Definition OPENBUS_STUB_CTRL_IRQ : Z := 1.
Definition OPENBUS_STUB_CTRL_FIQ : Z := 2.
Definition OPENBUS_STUB_CTRL_COPY : Z := 4.
Definition OPENBUS_STUB_CTRL_RESET : Z := 8.
Definition OPENBUS_STUB_STATUS_BUSY : Z := 1.
Definition OPENBUS_STUB_STATUS_IRQ : Z := 2.
Definition OPENBUS_STUB_STATUS_FIQ : Z := 4.
Definition OPENBUS_STUB_STATUS_DONE : Z := 8.
Definition OPENBUS_STUB_WORDS_PER_CYCLE : Z := 1.

Record stub_state := mkStub {
  st_ctrl : Z;
  st_src : Z;
  st_dst : Z;
  st_len : Z;
  st_scratch : Z;
  st_runs : Z;
  st_copied : Z;
  st_busy : Z;
  st_done : Z
}.
Definition st_set_ctrl v (s : stub_state) : stub_state := mkStub v (st_src s) (st_dst s) (st_len s)
    (st_scratch s) (st_runs s) (st_copied s) (st_busy s) (st_done s).
Definition st_set_src v (s : stub_state) : stub_state := mkStub (st_ctrl s) v (st_dst s) (st_len s)
    (st_scratch s) (st_runs s) (st_copied s) (st_busy s) (st_done s).
Definition st_set_dst v (s : stub_state) : stub_state := mkStub (st_ctrl s) (st_src s) v (st_len s)
    (st_scratch s) (st_runs s) (st_copied s) (st_busy s) (st_done s).
Definition st_set_len v (s : stub_state) : stub_state := mkStub (st_ctrl s) (st_src s) (st_dst s) v
    (st_scratch s) (st_runs s) (st_copied s) (st_busy s) (st_done s).
Definition st_set_scratch v (s : stub_state) : stub_state := mkStub (st_ctrl s) (st_src s) (st_dst s) (st_len
    s) v (st_runs s) (st_copied s) (st_busy s) (st_done s).
Definition st_set_runs v (s : stub_state) : stub_state := mkStub (st_ctrl s) (st_src s) (st_dst s) (st_len s)
    (st_scratch s) v (st_copied s) (st_busy s) (st_done s).
Definition st_set_copied v (s : stub_state) : stub_state := mkStub (st_ctrl s) (st_src s) (st_dst s) (st_len
    s) (st_scratch s) (st_runs s) v (st_busy s) (st_done s).
Definition st_set_busy v (s : stub_state) : stub_state := mkStub (st_ctrl s) (st_src s) (st_dst s) (st_len s)
    (st_scratch s) (st_runs s) (st_copied s) v (st_done s).
Definition st_set_done v (s : stub_state) : stub_state := mkStub (st_ctrl s) (st_src s) (st_dst s) (st_len s)
    (st_scratch s) (st_runs s) (st_copied s) (st_busy s) v.
Definition stub_zero : stub_state := mkStub 0 0 0 0 0 0 0 0 0.

Section stub.
Context {K H : Type} `{!OpenBusHost H}.
Local Abbreviation STUB := (M (stub_state * (openbus K * H))).
Definition st_get {A} (f : stub_state → A) : STUB A := gets (λ s, f (fst s)).
Definition st_mod (f : stub_state → stub_state) : STUB unit := modify (λ s, (f (fst s), snd s)).
Definition st_slot {A} (m : M (openbus K * H) A) : STUB A := zoom snd (λ b s, (fst s, b)) m.

Definition stub_reset : STUB unit := st_mod (λ _, stub_zero).

Definition stub_reg_read (offset : Z) (size : openbus_size) : STUB Z :=
  s ← st_get id;
  mret (switch (offset .&~ 3)
    [([0x00], OPENBUS_STUB_ID);
     ([0x04], st_ctrl s);
     ([0x08],
       (if nz (st_busy s) then OPENBUS_STUB_STATUS_BUSY else 0) .|
       (if nz (st_ctrl s .& OPENBUS_STUB_CTRL_IRQ) then OPENBUS_STUB_STATUS_IRQ else 0) .|
       (if nz (st_ctrl s .& OPENBUS_STUB_CTRL_FIQ) then OPENBUS_STUB_STATUS_FIQ else 0) .|
       (if nz (st_done s) then OPENBUS_STUB_STATUS_DONE else 0));
     ([0x0c], st_src s); ([0x10], st_dst s); ([0x14], st_len s); ([0x18], st_scratch s);
     ([0x1c], st_runs s); ([0x20], st_copied s)] 0xffffffff).

Definition stub_reg_write (offset : Z) (size : openbus_size) (val : Z) : STUB unit :=
  switch (offset .&~ 3)
    [([0x04],
       if nz (val .& OPENBUS_STUB_CTRL_RESET) then
         st_slot (openbus_master_set_irq 0);; st_slot (openbus_master_set_fiq 0);; stub_reset
       else
         st_mod (st_set_ctrl (val .& (OPENBUS_STUB_CTRL_IRQ .| OPENBUS_STUB_CTRL_FIQ .| OPENBUS_STUB_CTRL_COPY)));;
         st_slot (openbus_master_set_irq (if nz (val .& OPENBUS_STUB_CTRL_IRQ) then 1 else 0));;
         st_slot (openbus_master_set_fiq (if nz (val .& OPENBUS_STUB_CTRL_FIQ) then 1 else 0));;
         s ← st_get id;
         when (nz (val .& OPENBUS_STUB_CTRL_COPY) && (0 <? st_len s))
           (st_mod (λ s, st_set_copied 0 (st_set_done 0 (st_set_busy 1 s)))));
     ([0x0c], st_mod (st_set_src val));
     ([0x10], st_mod (st_set_dst val));
     ([0x14], st_mod (st_set_len val));
     ([0x18], st_mod (st_set_scratch val))] (mret tt).

(** One word of the copy. *)
Definition stub_move : STUB unit :=
  s ← st_get id;
  word ← st_slot (openbus_master_read32 (st_src s));
  st_slot (openbus_master_write32 (st_dst s) word);;
  st_mod (λ s, st_set_copied (add32 (st_copied s) 1) (st_set_len (sub32 (st_len s) 1)
    (st_set_dst (add32 (st_dst s) 4) (st_set_src (add32 (st_src s) 4) s)))).
(** [while (words-- > 0 && stub.len > 0)] *)
Fixpoint stub_words (words : nat) : STUB unit :=
  match words with
  | O => mret tt
  | S words' => len ← st_get st_len; when (0 <? len) (stub_move;; stub_words words')
  end.
(** [while (budget > 0 && stub.len > 0)], with the budget left. *)
Fixpoint stub_loop (budget : nat) (used : Z) : STUB Z :=
  match budget with
  | O => mret used
  | S budget' =>
      len ← st_get st_len;
      if 0 <? len then stub_words (Z.to_nat OPENBUS_STUB_WORDS_PER_CYCLE);; stub_loop budget' (used + 1) else mret used
  end.

Definition stub_run (cycles : Z) : STUB (option Z) :=
  st_mod (λ s, st_set_runs (add32 (st_runs s) 1) s);;
  busy ← st_get st_busy;
  if negb (nz busy) || (cycles <=? 0) then mret (Some 0) else
  used ← stub_loop (Z.to_nat cycles) 0;
  len ← st_get st_len;
  when (len =? 0) (st_mod (λ s, st_set_ctrl (st_ctrl s .&~ OPENBUS_STUB_CTRL_COPY) (st_set_done 1 (st_set_busy 0 s))));;
  mret (Some used).

Definition stub_master : openbus_master (stub_state * (openbus K * H)) :=
  mkMaster true (Some stub_reg_read) (Some stub_reg_write) (Some stub_run) (Some stub_reset) None.
End stub.

(** [openbus_stub_fit], in a state that holds the card. *)
Section stub_fit.
Context {K H S : Type} `{!OpenBusHost H, !HasSlot K H S}.
Definition openbus_stub_fit (master_of : K → openbus_master S) (stub : K) (set_stub : stub_state → S → S) : M S Z :=
  modify (set_stub stub_zero);; openbus_fit master_of (Some stub).
End stub_fit.
