(* ===== verification/CoproCard.v ===== *)
(** The co-processor card (copro/openbus_coproc.c, copro/openbus_coproc.h): its
    registers, its apertures, its DMA and its slices of time, over any processor
    that fills in a row of the table of cores; and the row of the RV32IM. *)

From stdpp Require Import strings.
From S2P Require Export OpenBus CoproHook.
#[local] Open Scope Z_scope.

(** * Constants *)

Definition COPROC_RAM_RV32I : Z := 1024 * 1024.
Definition COPROC_RAM_6502 : Z := 64 * 1024.
Definition COPROC_RAM_Z80 : Z := 64 * 1024.
Definition COPROC_RAM_6809 : Z := 64 * 1024.
Definition COPROC_RAM_6800 : Z := 64 * 1024.
Definition COPROC_RAM_68000 : Z := 1024 * 1024.
Definition OPENBUS_COPROC_RAM_MIN : Z := 4 * 1024.
Definition OPENBUS_COPROC_RAM_MAX_8BIT : Z := 16 * 1024 * 1024.
Definition OPENBUS_COPROC_RAM_MAX_RV32I : Z := 64 * 1024 * 1024.
Definition OPENBUS_COPROC_RAM_MAX_68000 : Z := 16 * 1024 * 1024.
Definition OPENBUS_COPROC_CTL_SIZE : Z := 256 * 1024.

Definition OPENBUS_COPROC_ID : Z := 0x4f424350.
Definition OPENBUS_COPROC_CORE_RV32I_ID : Z := 0x52563332.
Definition OPENBUS_COPROC_CORE_6502_ID : Z := 0x36353032.
Definition OPENBUS_COPROC_CORE_Z80_ID : Z := 0x5a383020.
Definition OPENBUS_COPROC_CORE_65C02_ID : Z := 0x43303220.
Definition OPENBUS_COPROC_CORE_8080_ID : Z := 0x38303830.
Definition OPENBUS_COPROC_CORE_6809_ID : Z := 0x36383039.
Definition OPENBUS_COPROC_CORE_6800_ID : Z := 0x36383030.
Definition OPENBUS_COPROC_CORE_68000_ID : Z := 0x36386b30.

Definition CTRL_RUN : Z := 1.
Definition CTRL_STEP : Z := 2.
Definition CTRL_RESET : Z := 4.
Definition CTRL_IRQ_ON_HALT : Z := 8.
Definition STATUS_RUNNING : Z := 1.
Definition STATUS_HALTED : Z := 2.
Definition STATUS_FAULT : Z := 4.
Definition STATUS_IRQ : Z := 8.
Definition STATUS_DMA : Z := 0x10.
Definition STATUS_WAITING : Z := 0x20.
Definition DMA_START : Z := 1.
Definition DMA_TO_HOST : Z := 2.
Definition DMA_CONTROL : Z := 4.
Definition DMA_WORDS_PER_CYCLE : Z := 1.
Definition STOP_NONE : Z := 0.
Definition STOP_BUDGET : Z := 1.
Definition STOP_HALTED : Z := 2.
Definition STOP_FAULT : Z := 3.
Definition STOP_WAITING : Z := 4.
Definition STOP_STOPPED : Z := 5.
Definition IRQ_NMI : Z := 2.

(** * The card *)

Record coproc_state := mkCoproc {
  cp_has_ram : bool;
  cp_ram_size : Z;
  cp_ctrl : Z;
  cp_entry : Z;
  cp_addr : Z;
  cp_mbox_tx : Z;
  cp_mbox_rx : Z;
  cp_irq : Z;
  cp_stop_reported : Z;
  cp_dma_host : Z;
  cp_dma_local : Z;
  cp_dma_len : Z;
  cp_dma_to_host : Z;
  cp_dma_control : Z;
  cp_dma_busy : Z;
  cp_has_ctl : bool;
  cp_ctl_size : Z;
  cp_ctl_addr : Z;
  cp_bus : copro_bus;
  cp_bus_hook : cpu_mem_hook;
  cp_regsel : Z;
  cp_runfor : Z;
  cp_stop_reason : Z;
  cp_irqctrl : Z
}.
Definition cp_set_has_ram v (c : coproc_state) : coproc_state := mkCoproc v (cp_ram_size c) (cp_ctrl c)
    (cp_entry c) (cp_addr c) (cp_mbox_tx c) (cp_mbox_rx c) (cp_irq c) (cp_stop_reported c) (cp_dma_host c)
    (cp_dma_local c) (cp_dma_len c) (cp_dma_to_host c) (cp_dma_control c) (cp_dma_busy c) (cp_has_ctl c)
    (cp_ctl_size c) (cp_ctl_addr c) (cp_bus c) (cp_bus_hook c) (cp_regsel c) (cp_runfor c) (cp_stop_reason c)
    (cp_irqctrl c).
Definition cp_set_ram_size v (c : coproc_state) : coproc_state := mkCoproc (cp_has_ram c) v (cp_ctrl c)
    (cp_entry c) (cp_addr c) (cp_mbox_tx c) (cp_mbox_rx c) (cp_irq c) (cp_stop_reported c) (cp_dma_host c)
    (cp_dma_local c) (cp_dma_len c) (cp_dma_to_host c) (cp_dma_control c) (cp_dma_busy c) (cp_has_ctl c)
    (cp_ctl_size c) (cp_ctl_addr c) (cp_bus c) (cp_bus_hook c) (cp_regsel c) (cp_runfor c) (cp_stop_reason c)
    (cp_irqctrl c).
Definition cp_set_ctrl v (c : coproc_state) : coproc_state := mkCoproc (cp_has_ram c) (cp_ram_size c) v
    (cp_entry c) (cp_addr c) (cp_mbox_tx c) (cp_mbox_rx c) (cp_irq c) (cp_stop_reported c) (cp_dma_host c)
    (cp_dma_local c) (cp_dma_len c) (cp_dma_to_host c) (cp_dma_control c) (cp_dma_busy c) (cp_has_ctl c)
    (cp_ctl_size c) (cp_ctl_addr c) (cp_bus c) (cp_bus_hook c) (cp_regsel c) (cp_runfor c) (cp_stop_reason c)
    (cp_irqctrl c).
Definition cp_set_entry v (c : coproc_state) : coproc_state := mkCoproc (cp_has_ram c) (cp_ram_size c)
    (cp_ctrl c) v (cp_addr c) (cp_mbox_tx c) (cp_mbox_rx c) (cp_irq c) (cp_stop_reported c) (cp_dma_host c)
    (cp_dma_local c) (cp_dma_len c) (cp_dma_to_host c) (cp_dma_control c) (cp_dma_busy c) (cp_has_ctl c)
    (cp_ctl_size c) (cp_ctl_addr c) (cp_bus c) (cp_bus_hook c) (cp_regsel c) (cp_runfor c) (cp_stop_reason c)
    (cp_irqctrl c).
Definition cp_set_addr v (c : coproc_state) : coproc_state := mkCoproc (cp_has_ram c) (cp_ram_size c)
    (cp_ctrl c) (cp_entry c) v (cp_mbox_tx c) (cp_mbox_rx c) (cp_irq c) (cp_stop_reported c) (cp_dma_host c)
    (cp_dma_local c) (cp_dma_len c) (cp_dma_to_host c) (cp_dma_control c) (cp_dma_busy c) (cp_has_ctl c)
    (cp_ctl_size c) (cp_ctl_addr c) (cp_bus c) (cp_bus_hook c) (cp_regsel c) (cp_runfor c) (cp_stop_reason c)
    (cp_irqctrl c).
Definition cp_set_mbox_tx v (c : coproc_state) : coproc_state := mkCoproc (cp_has_ram c) (cp_ram_size c)
    (cp_ctrl c) (cp_entry c) (cp_addr c) v (cp_mbox_rx c) (cp_irq c) (cp_stop_reported c) (cp_dma_host c)
    (cp_dma_local c) (cp_dma_len c) (cp_dma_to_host c) (cp_dma_control c) (cp_dma_busy c) (cp_has_ctl c)
    (cp_ctl_size c) (cp_ctl_addr c) (cp_bus c) (cp_bus_hook c) (cp_regsel c) (cp_runfor c) (cp_stop_reason c)
    (cp_irqctrl c).
Definition cp_set_mbox_rx v (c : coproc_state) : coproc_state := mkCoproc (cp_has_ram c) (cp_ram_size c)
    (cp_ctrl c) (cp_entry c) (cp_addr c) (cp_mbox_tx c) v (cp_irq c) (cp_stop_reported c) (cp_dma_host c)
    (cp_dma_local c) (cp_dma_len c) (cp_dma_to_host c) (cp_dma_control c) (cp_dma_busy c) (cp_has_ctl c)
    (cp_ctl_size c) (cp_ctl_addr c) (cp_bus c) (cp_bus_hook c) (cp_regsel c) (cp_runfor c) (cp_stop_reason c)
    (cp_irqctrl c).
Definition cp_set_irq v (c : coproc_state) : coproc_state := mkCoproc (cp_has_ram c) (cp_ram_size c) (cp_ctrl
    c) (cp_entry c) (cp_addr c) (cp_mbox_tx c) (cp_mbox_rx c) v (cp_stop_reported c) (cp_dma_host c)
    (cp_dma_local c) (cp_dma_len c) (cp_dma_to_host c) (cp_dma_control c) (cp_dma_busy c) (cp_has_ctl c)
    (cp_ctl_size c) (cp_ctl_addr c) (cp_bus c) (cp_bus_hook c) (cp_regsel c) (cp_runfor c) (cp_stop_reason c)
    (cp_irqctrl c).
Definition cp_set_stop_reported v (c : coproc_state) : coproc_state := mkCoproc (cp_has_ram c) (cp_ram_size
    c) (cp_ctrl c) (cp_entry c) (cp_addr c) (cp_mbox_tx c) (cp_mbox_rx c) (cp_irq c) v (cp_dma_host c)
    (cp_dma_local c) (cp_dma_len c) (cp_dma_to_host c) (cp_dma_control c) (cp_dma_busy c) (cp_has_ctl c)
    (cp_ctl_size c) (cp_ctl_addr c) (cp_bus c) (cp_bus_hook c) (cp_regsel c) (cp_runfor c) (cp_stop_reason c)
    (cp_irqctrl c).
Definition cp_set_dma_host v (c : coproc_state) : coproc_state := mkCoproc (cp_has_ram c) (cp_ram_size c)
    (cp_ctrl c) (cp_entry c) (cp_addr c) (cp_mbox_tx c) (cp_mbox_rx c) (cp_irq c) (cp_stop_reported c) v
    (cp_dma_local c) (cp_dma_len c) (cp_dma_to_host c) (cp_dma_control c) (cp_dma_busy c) (cp_has_ctl c)
    (cp_ctl_size c) (cp_ctl_addr c) (cp_bus c) (cp_bus_hook c) (cp_regsel c) (cp_runfor c) (cp_stop_reason c)
    (cp_irqctrl c).
Definition cp_set_dma_local v (c : coproc_state) : coproc_state := mkCoproc (cp_has_ram c) (cp_ram_size c)
    (cp_ctrl c) (cp_entry c) (cp_addr c) (cp_mbox_tx c) (cp_mbox_rx c) (cp_irq c) (cp_stop_reported c)
    (cp_dma_host c) v (cp_dma_len c) (cp_dma_to_host c) (cp_dma_control c) (cp_dma_busy c) (cp_has_ctl c)
    (cp_ctl_size c) (cp_ctl_addr c) (cp_bus c) (cp_bus_hook c) (cp_regsel c) (cp_runfor c) (cp_stop_reason c)
    (cp_irqctrl c).
Definition cp_set_dma_len v (c : coproc_state) : coproc_state := mkCoproc (cp_has_ram c) (cp_ram_size c)
    (cp_ctrl c) (cp_entry c) (cp_addr c) (cp_mbox_tx c) (cp_mbox_rx c) (cp_irq c) (cp_stop_reported c)
    (cp_dma_host c) (cp_dma_local c) v (cp_dma_to_host c) (cp_dma_control c) (cp_dma_busy c) (cp_has_ctl c)
    (cp_ctl_size c) (cp_ctl_addr c) (cp_bus c) (cp_bus_hook c) (cp_regsel c) (cp_runfor c) (cp_stop_reason c)
    (cp_irqctrl c).
Definition cp_set_dma_to_host v (c : coproc_state) : coproc_state := mkCoproc (cp_has_ram c) (cp_ram_size c)
    (cp_ctrl c) (cp_entry c) (cp_addr c) (cp_mbox_tx c) (cp_mbox_rx c) (cp_irq c) (cp_stop_reported c)
    (cp_dma_host c) (cp_dma_local c) (cp_dma_len c) v (cp_dma_control c) (cp_dma_busy c) (cp_has_ctl c)
    (cp_ctl_size c) (cp_ctl_addr c) (cp_bus c) (cp_bus_hook c) (cp_regsel c) (cp_runfor c) (cp_stop_reason c)
    (cp_irqctrl c).
Definition cp_set_dma_control v (c : coproc_state) : coproc_state := mkCoproc (cp_has_ram c) (cp_ram_size c)
    (cp_ctrl c) (cp_entry c) (cp_addr c) (cp_mbox_tx c) (cp_mbox_rx c) (cp_irq c) (cp_stop_reported c)
    (cp_dma_host c) (cp_dma_local c) (cp_dma_len c) (cp_dma_to_host c) v (cp_dma_busy c) (cp_has_ctl c)
    (cp_ctl_size c) (cp_ctl_addr c) (cp_bus c) (cp_bus_hook c) (cp_regsel c) (cp_runfor c) (cp_stop_reason c)
    (cp_irqctrl c).
Definition cp_set_dma_busy v (c : coproc_state) : coproc_state := mkCoproc (cp_has_ram c) (cp_ram_size c)
    (cp_ctrl c) (cp_entry c) (cp_addr c) (cp_mbox_tx c) (cp_mbox_rx c) (cp_irq c) (cp_stop_reported c)
    (cp_dma_host c) (cp_dma_local c) (cp_dma_len c) (cp_dma_to_host c) (cp_dma_control c) v (cp_has_ctl c)
    (cp_ctl_size c) (cp_ctl_addr c) (cp_bus c) (cp_bus_hook c) (cp_regsel c) (cp_runfor c) (cp_stop_reason c)
    (cp_irqctrl c).
Definition cp_set_has_ctl v (c : coproc_state) : coproc_state := mkCoproc (cp_has_ram c) (cp_ram_size c)
    (cp_ctrl c) (cp_entry c) (cp_addr c) (cp_mbox_tx c) (cp_mbox_rx c) (cp_irq c) (cp_stop_reported c)
    (cp_dma_host c) (cp_dma_local c) (cp_dma_len c) (cp_dma_to_host c) (cp_dma_control c) (cp_dma_busy c) v
    (cp_ctl_size c) (cp_ctl_addr c) (cp_bus c) (cp_bus_hook c) (cp_regsel c) (cp_runfor c) (cp_stop_reason c)
    (cp_irqctrl c).
Definition cp_set_ctl_size v (c : coproc_state) : coproc_state := mkCoproc (cp_has_ram c) (cp_ram_size c)
    (cp_ctrl c) (cp_entry c) (cp_addr c) (cp_mbox_tx c) (cp_mbox_rx c) (cp_irq c) (cp_stop_reported c)
    (cp_dma_host c) (cp_dma_local c) (cp_dma_len c) (cp_dma_to_host c) (cp_dma_control c) (cp_dma_busy c)
    (cp_has_ctl c) v (cp_ctl_addr c) (cp_bus c) (cp_bus_hook c) (cp_regsel c) (cp_runfor c) (cp_stop_reason c)
    (cp_irqctrl c).
Definition cp_set_ctl_addr v (c : coproc_state) : coproc_state := mkCoproc (cp_has_ram c) (cp_ram_size c)
    (cp_ctrl c) (cp_entry c) (cp_addr c) (cp_mbox_tx c) (cp_mbox_rx c) (cp_irq c) (cp_stop_reported c)
    (cp_dma_host c) (cp_dma_local c) (cp_dma_len c) (cp_dma_to_host c) (cp_dma_control c) (cp_dma_busy c)
    (cp_has_ctl c) (cp_ctl_size c) v (cp_bus c) (cp_bus_hook c) (cp_regsel c) (cp_runfor c) (cp_stop_reason c)
    (cp_irqctrl c).
Definition cp_set_bus v (c : coproc_state) : coproc_state := mkCoproc (cp_has_ram c) (cp_ram_size c) (cp_ctrl
    c) (cp_entry c) (cp_addr c) (cp_mbox_tx c) (cp_mbox_rx c) (cp_irq c) (cp_stop_reported c) (cp_dma_host c)
    (cp_dma_local c) (cp_dma_len c) (cp_dma_to_host c) (cp_dma_control c) (cp_dma_busy c) (cp_has_ctl c)
    (cp_ctl_size c) (cp_ctl_addr c) v (cp_bus_hook c) (cp_regsel c) (cp_runfor c) (cp_stop_reason c) (cp_irqctrl
    c).
Definition cp_set_bus_hook v (c : coproc_state) : coproc_state := mkCoproc (cp_has_ram c) (cp_ram_size c)
    (cp_ctrl c) (cp_entry c) (cp_addr c) (cp_mbox_tx c) (cp_mbox_rx c) (cp_irq c) (cp_stop_reported c)
    (cp_dma_host c) (cp_dma_local c) (cp_dma_len c) (cp_dma_to_host c) (cp_dma_control c) (cp_dma_busy c)
    (cp_has_ctl c) (cp_ctl_size c) (cp_ctl_addr c) (cp_bus c) v (cp_regsel c) (cp_runfor c) (cp_stop_reason c)
    (cp_irqctrl c).
Definition cp_set_regsel v (c : coproc_state) : coproc_state := mkCoproc (cp_has_ram c) (cp_ram_size c)
    (cp_ctrl c) (cp_entry c) (cp_addr c) (cp_mbox_tx c) (cp_mbox_rx c) (cp_irq c) (cp_stop_reported c)
    (cp_dma_host c) (cp_dma_local c) (cp_dma_len c) (cp_dma_to_host c) (cp_dma_control c) (cp_dma_busy c)
    (cp_has_ctl c) (cp_ctl_size c) (cp_ctl_addr c) (cp_bus c) (cp_bus_hook c) v (cp_runfor c) (cp_stop_reason c)
    (cp_irqctrl c).
Definition cp_set_runfor v (c : coproc_state) : coproc_state := mkCoproc (cp_has_ram c) (cp_ram_size c)
    (cp_ctrl c) (cp_entry c) (cp_addr c) (cp_mbox_tx c) (cp_mbox_rx c) (cp_irq c) (cp_stop_reported c)
    (cp_dma_host c) (cp_dma_local c) (cp_dma_len c) (cp_dma_to_host c) (cp_dma_control c) (cp_dma_busy c)
    (cp_has_ctl c) (cp_ctl_size c) (cp_ctl_addr c) (cp_bus c) (cp_bus_hook c) (cp_regsel c) v (cp_stop_reason c)
    (cp_irqctrl c).
Definition cp_set_stop_reason v (c : coproc_state) : coproc_state := mkCoproc (cp_has_ram c) (cp_ram_size c)
    (cp_ctrl c) (cp_entry c) (cp_addr c) (cp_mbox_tx c) (cp_mbox_rx c) (cp_irq c) (cp_stop_reported c)
    (cp_dma_host c) (cp_dma_local c) (cp_dma_len c) (cp_dma_to_host c) (cp_dma_control c) (cp_dma_busy c)
    (cp_has_ctl c) (cp_ctl_size c) (cp_ctl_addr c) (cp_bus c) (cp_bus_hook c) (cp_regsel c) (cp_runfor c) v
    (cp_irqctrl c).
Definition cp_set_irqctrl v (c : coproc_state) : coproc_state := mkCoproc (cp_has_ram c) (cp_ram_size c)
    (cp_ctrl c) (cp_entry c) (cp_addr c) (cp_mbox_tx c) (cp_mbox_rx c) (cp_irq c) (cp_stop_reported c)
    (cp_dma_host c) (cp_dma_local c) (cp_dma_len c) (cp_dma_to_host c) (cp_dma_control c) (cp_dma_busy c)
    (cp_has_ctl c) (cp_ctl_size c) (cp_ctl_addr c) (cp_bus c) (cp_bus_hook c) (cp_regsel c) (cp_runfor c)
    (cp_stop_reason c) v.

(** * The table of cores *)

Inductive openbus_coproc_core :=
  | OPENBUS_COPROC_RV32I | OPENBUS_COPROC_6502 | OPENBUS_COPROC_Z80 | OPENBUS_COPROC_65C02
  | OPENBUS_COPROC_8080 | OPENBUS_COPROC_6809 | OPENBUS_COPROC_6800 | OPENBUS_COPROC_68000.
#[export] Instance coproc_core_eq : EqDecision openbus_coproc_core.
Proof. solve_decision. Defined.

(** The columns of a row that are not functions. *)
Record coproc_row := mkRow {
  row_option : string;
  row_id : Z;
  row_ram_default : Z;
  row_ram_max : Z;
  row_ram_flat : Z
}.
Definition coproc_cores (core : openbus_coproc_core) : coproc_row :=
  match core with
  | OPENBUS_COPROC_RV32I => mkRow "rv32i" OPENBUS_COPROC_CORE_RV32I_ID
      COPROC_RAM_RV32I OPENBUS_COPROC_RAM_MAX_RV32I OPENBUS_COPROC_RAM_MAX_RV32I
  | OPENBUS_COPROC_6502 => mkRow "6502" OPENBUS_COPROC_CORE_6502_ID
      COPROC_RAM_6502 OPENBUS_COPROC_RAM_MAX_8BIT (64 * 1024)
  | OPENBUS_COPROC_Z80 => mkRow "z80" OPENBUS_COPROC_CORE_Z80_ID
      COPROC_RAM_Z80 OPENBUS_COPROC_RAM_MAX_8BIT (64 * 1024)
  | OPENBUS_COPROC_65C02 => mkRow "65c02" OPENBUS_COPROC_CORE_65C02_ID
      COPROC_RAM_6502 OPENBUS_COPROC_RAM_MAX_8BIT (64 * 1024)
  | OPENBUS_COPROC_8080 => mkRow "8080" OPENBUS_COPROC_CORE_8080_ID
      COPROC_RAM_Z80 OPENBUS_COPROC_RAM_MAX_8BIT (64 * 1024)
  | OPENBUS_COPROC_6809 => mkRow "6809" OPENBUS_COPROC_CORE_6809_ID
      COPROC_RAM_6809 OPENBUS_COPROC_RAM_MAX_8BIT (64 * 1024)
  | OPENBUS_COPROC_6800 => mkRow "6800" OPENBUS_COPROC_CORE_6800_ID
      COPROC_RAM_6800 OPENBUS_COPROC_RAM_MAX_8BIT (64 * 1024)
  | OPENBUS_COPROC_68000 => mkRow "68000" OPENBUS_COPROC_CORE_68000_ID
      COPROC_RAM_68000 OPENBUS_COPROC_RAM_MAX_68000 OPENBUS_COPROC_RAM_MAX_68000
  end.
(** In the order of the table. *)
Definition all_cores : list openbus_coproc_core :=
  [OPENBUS_COPROC_RV32I; OPENBUS_COPROC_6502; OPENBUS_COPROC_Z80; OPENBUS_COPROC_65C02;
   OPENBUS_COPROC_8080; OPENBUS_COPROC_6809; OPENBUS_COPROC_6800; OPENBUS_COPROC_68000].

(** What was asked for before the card is fitted. *)
Record coproc_request := mkRequest {
  coproc_requested : bool;
  coproc_requested_core : openbus_coproc_core;
  coproc_requested_ram_bytes : Z
}.

(** The comparison of [openbus_coproc_request]; the ends of the strings are their
    zero bytes. *)
Fixpoint name_matches (name candidate : string) : bool :=
  match name, candidate with
  | EmptyString, EmptyString => true
  | String a name', String b candidate' =>
      let a := Ascii.nat_of_ascii a in
      let b := Ascii.nat_of_ascii b in
      if (65 <=? a)%nat && (a <=? 90)%nat
      then (a + 32 =? b)%nat && name_matches name' candidate'
      else (a =? b)%nat && name_matches name' candidate'
  | _, _ => false
  end.

Definition openbus_coproc_request (name : option string) (r : coproc_request) : Z * coproc_request :=
  match name with
  | None => (-1, r)
  | Some name =>
      match List.find (λ core, name_matches name (row_option (coproc_cores core))) all_cores with
      | Some core => (0, mkRequest true core (coproc_requested_ram_bytes r))
      | None => (-1, r)
      end
  end.

Definition openbus_coproc_requested_ram (r : coproc_request) : Z :=
  let max := row_ram_max (coproc_cores (coproc_requested_core r)) in
  let def := row_ram_default (coproc_cores (coproc_requested_core r)) in
  if coproc_requested_ram_bytes r =? 0 then def
  else if coproc_requested_ram_bytes r <? OPENBUS_COPROC_RAM_MIN then OPENBUS_COPROC_RAM_MIN
  else if nz max && (max <? coproc_requested_ram_bytes r) then max
  else coproc_requested_ram_bytes r.
Definition openbus_coproc_request_ram (bytes : Z) (r : coproc_request) : Z * coproc_request :=
  let r := mkRequest (coproc_requested r) (coproc_requested_core r) bytes in
  (openbus_coproc_requested_ram r, r).

(** The functions of a row, on the processor [C] and what is behind it. *)
Class CoreOps (C W : Type) := {
  co_core : openbus_coproc_core;
  co_zero : C;
  co_init : bool → Z → C → C;
  co_reset : Z → M (C * W) unit;
  co_run : Z → M (C * W) (option Z);
  co_step : M (C * W) Z;
  co_halted : C → Z;
  co_faulted : C → Z;
  co_stalled : C → Z;
  co_clear_stall : C → C;
  co_pc : C → Z;
  co_cycles : C → Z;
  co_fault_cause : C → Z;
  co_fault_addr : C → Z;
  co_exit_code : C → Z;
  co_set_hook : cpu_mem_hook → C → C;
  co_reg_read : Z → C → Z;
  co_reg_write : Z → Z → C → C;
  co_interrupt : Z → M (C * W) unit
}.

(** The processors share a union: where the ports of the Z80 lie over the one that
    is fitted is up to the compiler. *)
Class PortArea (C : Type) := { port_get : C → Z → Z; port_put : C → Z → Z → C }.

(** * The hook of the card *)

Section hook.
Context {C K H : Type} `{!PortArea C}.
Local Abbreviation CARD := (M (C * (coproc_state * (openbus K * H)))).

Definition cpu_get {A} (f : C → A) : CARD A := gets (λ s, f (fst s)).
Definition cpu_mod (f : C → C) : CARD unit := modify (λ s, (f (fst s), snd s)).
Definition cp_get {A} (f : coproc_state → A) : CARD A := gets (λ s, f (fst (snd s))).
Definition cp_mod (f : coproc_state → coproc_state) : CARD unit := modify (λ s, (fst s, (f (fst (snd s)), snd (snd s)))).
Definition cp_slot {A} (m : M (openbus K * H) A) : CARD A :=
  zoom (λ s, snd (snd s)) (λ b s, (fst s, (fst (snd s), b))) m.
(** The decode, which the card owns. *)
Definition on_bus {A} (m : M copro_bus A) : CARD A :=
  zoom (λ s, cp_bus (fst (snd s))) (λ b s, (fst s, (cp_set_bus b (fst (snd s)), snd (snd s)))) m.

Definition coproc_io_in (port : Z) : CARD Z :=
  if port =? 0 then tx ← cp_get cp_mbox_tx; mret (u8 tx) else cpu_get (λ c, port_get c port).
Definition coproc_io_out (port val : Z) : CARD unit :=
  cpu_mod (λ c, port_put c port val);;
  when (port =? 0) (cp_mod (cp_set_mbox_rx val)).

Definition coproc_hook_read (addr : Z) : CARD (cpu_mem_result * Z) :=
  let is_port := is_port_addr addr in
  let bare := addr .&~ CPU_MEM_PORT in
  let through := hook ← cp_get cp_bus_hook; if hook_read hook then on_bus (bus_hook_read addr) else fatal in
  if is_port then
    region ← on_bus (copro_bus_region bare true);
    match region with
    | None => v ← coproc_io_in (u8 bare); mret (CPU_MEM_OK, v)
    | Some _ => through
    end
  else through.

(** [source] is the count the decode asks the processor for. *)
Definition coproc_hook_write (source : C → Z) (addr value : Z) : CARD cpu_mem_result :=
  let is_port := is_port_addr addr in
  let bare := addr .&~ CPU_MEM_PORT in
  let through :=
    hook ← cp_get cp_bus_hook;
    cycle ← cpu_get source;
    if hook_write hook then on_bus (bus_hook_write cycle addr value) else fatal in
  if is_port then
    region ← on_bus (copro_bus_region bare true);
    match region with
    | None => coproc_io_out (u8 bare) value;; mret CPU_MEM_OK
    | Some _ => through
    end
  else through.
End hook.

(** * The row of the RV32IM *)

Section rv32i.
Context {K H : Type} `{!PortArea rv32i_state}.
Local Abbreviation W := (coproc_state * (openbus K * H))%type.

#[export] Instance card_mem : CpuMem W := {
  cm_ram w := bus_ram (cp_bus (fst w));
  cm_set_ram l w := (cp_set_bus (bus_set_ram l (cp_bus (fst w))) (fst w), snd w);
  cm_read addr := coproc_hook_read (u32 addr);
  cm_write addr v := coproc_hook_write (λ s, u32 (rv_cycles s)) (u32 addr) v
}.

Definition ops_rv32i_reg_read (sel : Z) (s : rv32i_state) : Z :=
  if sel <? 32 then rv_x s !!! sel
  else if sel =? 32 then rv_pc s else 0xffffffff.
Definition ops_rv32i_reg_write (sel val : Z) (s : rv32i_state) : rv32i_state :=
  if (0 <? sel) && (sel <? 32) then rv_set_x (<[sel := val]> (rv_x s)) s
  else if sel =? 32 then rv_set_pc val s else s.
(** This core has no way to accept an interrupt. *)
Definition ops_rv32i_interrupt (ctrl : Z) : M (rv32i_state * W) unit := mret tt.

#[export] Instance ops_rv32i : CoreOps rv32i_state W := {
  co_core := OPENBUS_COPROC_RV32I;
  co_zero := mkRv ∅ 0 false 0 0 0 0 0 0 0 0 no_hook 0 0 0 (∅, 0);
  co_init := rv32i_init;
  co_reset entry := rv_cpu (rv32i_reset entry);
  co_run := rv32i_run;
  co_step := rv32i_step;
  co_halted := rv_halted;
  co_faulted := rv_faulted;
  co_stalled := rv_stalled;
  co_clear_stall := rv_set_stalled 0;
  co_pc := rv_pc;
  co_cycles s := u32 (rv_cycles s);
  co_fault_cause := rv_fault_cause;
  co_fault_addr := rv_fault_addr;
  co_exit_code := rv_exit_code;
  co_set_hook hook := rv32i_set_mem_hook (Some hook);
  co_reg_read := ops_rv32i_reg_read;
  co_reg_write := ops_rv32i_reg_write;
  co_interrupt := ops_rv32i_interrupt
}.
End rv32i.

(** * Registers *)

Section card.
Context {C K H : Type} `{!OpenBusHost H, !CoreOps C (coproc_state * (openbus K * H))}.
Local Abbreviation CARD := (M (C * (coproc_state * (openbus K * H)))).

(** [cp.ram[i]], [cp.ctl[i]] *)
Definition card_ram_get (i : Z) : CARD Z := on_bus (λ b,
  match bus_ram b !! Z.to_nat i with Some v => Some (v, b) | None => None end).
Definition card_ram_put (i v : Z) : CARD unit := on_bus (λ b,
  if Z.of_nat (length (bus_ram b)) <=? i then None
  else Some (tt, bus_set_ram (<[Z.to_nat i := u8 v]> (bus_ram b)) b)).
Definition card_ctl_get (i : Z) : CARD Z := on_bus (ctl_get i).
Definition card_ctl_put (i v : Z) : CARD unit := on_bus (ctl_put i v).

(** The loops of the apertures, over the bytes of an access. *)
Definition aperture_get (get : Z → CARD Z) (addr area : Z) (size : openbus_size) : CARD Z :=
  (fix go (l : list Z) (val : Z) : CARD Z :=
     match l with
     | [] => mret val
     | i :: l' => b ← get (add32 addr i mod area); go l' (val .| shl32 b (i * 8))
     end) (seqZ 0 (size_bytes size)) 0.
Definition aperture_put (put : Z → Z → CARD unit) (addr area : Z) (size : openbus_size) (val : Z) : CARD unit :=
  mfor (seqZ 0 (size_bytes size)) (λ i, put (add32 addr i mod area) (u8 (val .>> (i * 8)))).

Definition aperture_read (size : openbus_size) : CARD Z :=
  c ← cp_get id;
  if negb (cp_has_ram c) || (cp_ram_size c =? 0) then mret 0xffffffff else
  val ← aperture_get card_ram_get (cp_addr c) (cp_ram_size c) size;
  cp_mod (cp_set_addr (add32 (cp_addr c) (size_bytes size) mod cp_ram_size c));; mret val.
Definition aperture_write (size : openbus_size) (val : Z) : CARD unit :=
  c ← cp_get id;
  if negb (cp_has_ram c) || (cp_ram_size c =? 0) then mret tt else
  aperture_put card_ram_put (cp_addr c) (cp_ram_size c) size val;;
  cp_mod (cp_set_addr (add32 (cp_addr c) (size_bytes size) mod cp_ram_size c)).
Definition ctl_aperture_read (size : openbus_size) : CARD Z :=
  c ← cp_get id;
  if negb (cp_has_ctl c) || (cp_ctl_size c =? 0) then mret 0xffffffff else
  val ← aperture_get card_ctl_get (cp_ctl_addr c) (cp_ctl_size c) size;
  cp_mod (cp_set_ctl_addr (add32 (cp_ctl_addr c) (size_bytes size) mod cp_ctl_size c));; mret val.
Definition ctl_aperture_write (size : openbus_size) (val : Z) : CARD unit :=
  c ← cp_get id;
  if negb (cp_has_ctl c) || (cp_ctl_size c =? 0) then mret tt else
  aperture_put card_ctl_put (cp_ctl_addr c) (cp_ctl_size c) size val;;
  cp_mod (cp_set_ctl_addr (add32 (cp_ctl_addr c) (size_bytes size) mod cp_ctl_size c)).

Definition coproc_rehook : CARD unit :=
  hook ← on_bus copro_bus_hook;
  cp_mod (cp_set_bus_hook hook);;
  cpu_mod (co_set_hook (mkHook true true (hook_can_stall hook))).

Definition coproc_apply_interrupts : CARD unit :=
  ctrl ← cp_get cp_irqctrl;
  co_interrupt ctrl;;
  when (nz (ctrl .& IRQ_NMI)) (cp_mod (λ c, cp_set_irqctrl (cp_irqctrl c .&~ IRQ_NMI) c)).

Definition coproc_drop_irq : CARD unit :=
  irq ← cp_get cp_irq;
  when (nz irq) (cp_mod (cp_set_irq 0);; cp_slot (openbus_master_set_irq 0)).

Definition coproc_reset : CARD unit :=
  coproc_drop_irq;;
  cp_mod (λ c, cp_set_dma_busy 0 (cp_set_dma_to_host 0 (cp_set_dma_len 0 (cp_set_dma_local 0 (cp_set_dma_host 0
    (cp_set_stop_reported 0 (cp_set_mbox_rx 0 (cp_set_mbox_tx 0 (cp_set_addr 0 (cp_set_ctrl 0 c))))))))));;
  entry ← cp_get cp_entry;
  co_reset entry.

Definition coproc_status : CARD Z :=
  c ← cp_get id;
  cpu ← cpu_get id;
  mret ((if nz (cp_ctrl c .& CTRL_RUN) && negb (nz (co_halted cpu)) && negb (nz (co_faulted cpu)) then STATUS_RUNNING else 0) .|
        (if nz (co_halted cpu) then STATUS_HALTED else 0) .|
        (if nz (co_faulted cpu) then STATUS_FAULT else 0) .|
        (if nz (cp_irq c) then STATUS_IRQ else 0) .|
        (if nz (cp_dma_busy c) then STATUS_DMA else 0) .|
        (if nz (co_stalled cpu) then STATUS_WAITING else 0)).

Definition coproc_read_word (reg : Z) : CARD Z :=
  c ← cp_get id;
  cpu ← cpu_get id;
  let b := cp_bus c in
  switch reg
    [([0x00], mret OPENBUS_COPROC_ID);
     ([0x04], mret (row_id (coproc_cores co_core)));
     ([0x08], mret (cp_ram_size c));
     ([0x0c], mret (cp_ctrl c));
     ([0x10], coproc_status);
     ([0x14], mret (cp_entry c));
     ([0x18], mret (cp_addr c));
     ([0x20], mret (cp_mbox_tx c));
     ([0x24], mret (cp_mbox_rx c));
     ([0x28], mret (co_cycles cpu));
     ([0x2c], mret (co_pc cpu));
     ([0x30], mret (if nz (co_faulted cpu) then co_fault_cause cpu else 0));
     ([0x34], mret (if nz (co_faulted cpu) then co_fault_addr cpu else 0));
     ([0x3c], mret (cp_dma_host c));
     ([0x40], mret (cp_dma_local c));
     ([0x44], mret (cp_dma_len c));
     ([0x48], mret ((if nz (cp_dma_busy c) then DMA_START else 0) .| (if nz (cp_dma_to_host c) then DMA_TO_HOST else 0) .|
                    (if nz (cp_dma_control c) then DMA_CONTROL else 0)));
     ([0x4c], mret (cp_runfor c));
     ([0x50], mret (cp_stop_reason c));
     ([0x54], mret (cp_irqctrl c));
     ([0x58], mret (bus_map_off b));
     ([0x5c], mret (bus_map_count b));
     ([0x60], mret (bus_log_off b));
     ([0x64], mret (bus_log_entries b));
     ([0x68], mret (bus_log_head b));
     ([0x6c], mret (bus_log_tail b));
     ([0x70], mret (bus_wait_addr b));
     ([0x74], mret (bus_wait_value b));
     ([0x78], mret ((if nz (bus_wait_is_write b) then 1 else 0) .| (if nz (bus_wait_is_port b) then 2 else 0)));
     ([0x80], mret (cp_ctl_addr c));
     ([0x88], mret (cp_ctl_size c));
     ([0x8c], mret (cp_regsel c));
     ([0x90], mret (co_reg_read (cp_regsel c) cpu))]
    (mret 0xffffffff).

Definition coproc_note_stop : CARD unit :=
  reported ← cp_get cp_stop_reported;
  cpu ← cpu_get id;
  if nz reported then mret tt else
  if negb (nz (co_halted cpu)) && negb (nz (co_faulted cpu)) then mret tt else
  cp_mod (cp_set_stop_reported 1);;
  when (nz (co_halted cpu)) (cp_mod (cp_set_mbox_rx (co_exit_code cpu)));;
  cp_mod (λ c, cp_set_ctrl (cp_ctrl c .&~ CTRL_RUN) c);;
  ctrl ← cp_get cp_ctrl;
  when (nz (ctrl .& CTRL_IRQ_ON_HALT)) (cp_mod (cp_set_irq 1);; cp_slot (openbus_master_set_irq 1)).

(** * DMA *)

Definition coproc_start_dma : CARD unit :=
  c ← cp_get id;
  if negb (cp_has_ram c) || (cp_dma_len c =? 0) then mret tt else
  if nz (cp_dma_local c .& 3) then mret tt else
  if cp_ram_size c <=? cp_dma_local c then mret tt else
  if sub32 (cp_ram_size c) (cp_dma_local c) / 4 <? cp_dma_len c then mret tt else
  cp_mod (cp_set_dma_busy 1).

(** One word of a transfer. *)
Definition dma_word : CARD unit :=
  c ← cp_get id;
  let local := cp_dma_local c in
  if nz (cp_dma_to_host c) then
    b0 ← card_ram_get local; b1 ← card_ram_get (add32 local 1);
    b2 ← card_ram_get (add32 local 2); b3 ← card_ram_get (add32 local 3);
    cp_slot (openbus_master_write32 (cp_dma_host c) (b0 .| shl32 b1 8 .| shl32 b2 16 .| shl32 b3 24))
  else
    word ← cp_slot (openbus_master_read32 (cp_dma_host c));
    card_ram_put local (u8 word);; card_ram_put (add32 local 1) (u8 (word .>> 8));;
    card_ram_put (add32 local 2) (u8 (word .>> 16));; card_ram_put (add32 local 3) (u8 (word .>> 24)).
Definition dma_step : CARD unit :=
  dma_word;;
  cp_mod (λ c, cp_set_dma_len (sub32 (cp_dma_len c) 1) (cp_set_dma_local (add32 (cp_dma_local c) 4)
    (cp_set_dma_host (add32 (cp_dma_host c) 4) c))).
(** [while (words-- > 0 && cp.dma_len > 0)] *)
Fixpoint dma_words (words : nat) : CARD unit :=
  match words with
  | O => mret tt
  | S words' => len ← cp_get cp_dma_len; when (0 <? len) (dma_step;; dma_words words')
  end.
(** [while (used < budget && cp.dma_len > 0)], by the budget left. *)
Fixpoint dma_loop (left : nat) (used : Z) : CARD Z :=
  match left with
  | O => mret used
  | S left' =>
      len ← cp_get cp_dma_len;
      if 0 <? len then dma_words (Z.to_nat DMA_WORDS_PER_CYCLE);; dma_loop left' (used + 1) else mret used
  end.
Definition coproc_run_dma (budget : Z) : CARD Z :=
  used ← dma_loop (Z.to_nat budget) 0;
  len ← cp_get cp_dma_len;
  when (len =? 0) (cp_mod (cp_set_dma_busy 0));;
  mret used.

(** * Accesses of the guest *)

Definition REG_DATA : Z := 0x1c.
Definition REG_CTLDATA : Z := 0x84.

Definition coproc_reg_read (offset : Z) (size : openbus_size) : CARD Z :=
  let reg := offset .&~ 3 in
  let shift := (offset .& 3) * 8 in
  if reg =? REG_DATA then aperture_read size
  else if reg =? REG_CTLDATA then ctl_aperture_read size
  else
    word ← coproc_read_word reg;
    mret (match size with
          | OPENBUS_SIZE_32 => word
          | OPENBUS_SIZE_8 => (word .>> shift) .& 0xff
          | OPENBUS_SIZE_16 => (word .>> shift) .& 0xffff
          end).

(** The cases of the [switch] of [coproc_reg_write]. *)
Definition write_ctrl (val : Z) : CARD unit :=
  if nz (val .& CTRL_RESET) then coproc_reset else
  cp_mod (cp_set_ctrl (val .& (CTRL_RUN .| CTRL_IRQ_ON_HALT)));;
  ctrl ← cp_get cp_ctrl;
  cpu ← cpu_get id;
  when (nz (ctrl .& CTRL_RUN) && negb (nz (co_halted cpu)) && negb (nz (co_faulted cpu))) (cp_mod (cp_set_stop_reported 0));;
  when (nz (val .& CTRL_STEP)) (_ ← co_step; coproc_note_stop).
Definition write_mapcount (val : Z) : CARD unit :=
  b ← cp_get cp_bus;
  set ← on_bus (copro_bus_set_map (bus_map_off b) val);
  if set =? 0 then mret tt else coproc_rehook.
Definition write_logtail (val : Z) : CARD unit :=
  b ← cp_get cp_bus;
  when (nz (bus_log_entries b) && (val <? bus_log_entries b))
    (on_bus (modify (bus_set_ring (bus_log_head b) val (bus_log_dropped b)))).
Definition write_waitack : CARD unit :=
  b ← cp_get cp_bus;
  when (nz (bus_stalled b)) (_ ← on_bus (copro_bus_resume (u8 (bus_wait_value b))); cpu_mod co_clear_stall).

Definition coproc_reg_write (offset : Z) (size : openbus_size) (val : Z) : CARD unit :=
  let reg := offset .&~ 3 in
  if reg =? REG_DATA then aperture_write size val
  else if reg =? REG_CTLDATA then ctl_aperture_write size val
  else switch reg
    [([0x0c], write_ctrl val);
     ([0x14], cp_mod (cp_set_entry val));
     ([0x4c], cp_mod (cp_set_runfor val));
     ([0x54], cp_mod (cp_set_irqctrl val);; coproc_apply_interrupts);
     ([0x58], on_bus (modify (λ b, bus_set_map val (bus_map_count b) b)));
     ([0x5c], write_mapcount val);
     ([0x60], on_bus (modify (λ b, bus_set_log val (bus_log_entries b) b)));
     ([0x64], b ← cp_get cp_bus; _ ← on_bus (copro_bus_set_log (bus_log_off b) val); mret tt);
     ([0x6c], write_logtail val);
     ([0x74], on_bus (modify (bus_set_wait_value val)));
     ([0x7c], write_waitack);
     ([0x80], cp_mod (λ c, cp_set_ctl_addr (if nz (cp_ctl_size c) then val mod cp_ctl_size c else 0) c));
     ([0x8c], cp_mod (cp_set_regsel val));
     ([0x90], sel ← cp_get cp_regsel; cpu_mod (co_reg_write sel val));
     ([0x18], cp_mod (λ c, cp_set_addr (if nz (cp_ram_size c) then val mod cp_ram_size c else 0) c));
     ([0x20], cp_mod (cp_set_mbox_tx val));
     ([0x38], coproc_drop_irq);
     ([0x3c], cp_mod (cp_set_dma_host val));
     ([0x40], cp_mod (cp_set_dma_local val));
     ([0x44], cp_mod (cp_set_dma_len val));
     ([0x48],
       cp_mod (cp_set_dma_to_host (if nz (val .& DMA_TO_HOST) then 1 else 0));;
       when (nz (val .& DMA_START)) coproc_start_dma)]
    (mret tt).

(** * A slice of time *)

(** The budget the processor is given: RUNFOR, if it is less. *)
Definition run_budget (left runfor : Z) : Z := if nz runfor && (runfor <? left) then runfor else left.

(** What follows a run of the processor that took [ran] cycles. *)
Definition after_core_run (ran : Z) : CARD unit :=
  runfor ← cp_get cp_runfor;
  when (nz runfor)
    (cp_mod (cp_set_runfor (if runfor <=? ran then 0 else sub32 runfor ran));;
     runfor ← cp_get cp_runfor;
     when (runfor =? 0) (cp_mod (λ c, cp_set_stop_reason STOP_BUDGET (cp_set_ctrl (cp_ctrl c .&~ CTRL_RUN) c))));;
  cpu ← cpu_get id;
  (if nz (co_faulted cpu) then cp_mod (cp_set_stop_reason STOP_FAULT)
   else if nz (co_halted cpu) then cp_mod (cp_set_stop_reason STOP_HALTED)
   else when (nz (co_stalled cpu)) (cp_mod (cp_set_stop_reason STOP_WAITING)));;
  coproc_note_stop.

Definition coproc_run (cycles : Z) : CARD (option Z) :=
  if cycles <=? 0 then mret (Some 0) else
  busy ← cp_get cp_dma_busy;
  used ← (if nz busy then coproc_run_dma cycles else mret 0);
  c ← cp_get id;
  if nz (cp_ctrl c .& CTRL_RUN) && (used <? cycles) then
    ran ← co_run (run_budget (cycles - used) (cp_runfor c));
    match ran with
    | None => mret None
    | Some ran => after_core_run ran;; mret (Some (used + ran))
    end
  else
    when (negb (nz (cp_ctrl c .& CTRL_RUN)) && (cp_stop_reason c =? STOP_NONE)) (cp_mod (cp_set_stop_reason STOP_STOPPED));;
    mret (Some used).

(** * Fitting the card *)

(** Frees the two memories: what still points at them points nowhere. *)
Definition coproc_close : CARD unit :=
  cp_mod (λ c, cp_set_ctl_size 0 (cp_set_has_ctl false (cp_set_ram_size 0 (cp_set_has_ram false c))));;
  on_bus (modify (λ b, bus_set_ctl [] (bus_set_ram [] b))).

Definition coproc_master : openbus_master (C * (coproc_state * (openbus K * H))) :=
  mkMaster true (Some coproc_reg_read) (Some coproc_reg_write) (Some coproc_run) (Some coproc_reset) (Some coproc_close).

#[export] Instance card_slot : HasSlot K H (C * (coproc_state * (openbus K * H))) := {
  slot_of s := snd (snd s);
  with_slot b s := (fst s, (fst (snd s), b))
}.

Definition bus_zero : copro_bus := copro_bus_init false [] 0 false [] 0.
Definition coproc_zero : coproc_state := mkCoproc false 0 0 0 0 0 0 0 0 0 0 0 0 0 0 false 0 0 bus_zero no_hook 0 0 0 0.

(** [ram_there] and [ctl_there]: whether [calloc] found the room. [card] is this
    card among those that can be in the slot. *)
Definition openbus_coproc_fit (master_of : K → openbus_master (C * (coproc_state * (openbus K * H)))) (card : K)
  (r : coproc_request) (ram_there ctl_there : bool) : CARD Z :=
  let size := openbus_coproc_requested_ram r in
  present ← openbus_present;
  if (present : bool) then mret (-1) else
  cp_mod (λ _, coproc_zero);; cpu_mod (λ _, co_zero);;
  if negb ram_there then mret (-1) else
  cp_mod (λ c, cp_set_ram_size size (cp_set_has_ram true c));;
  if negb ctl_there then cp_mod (λ c, cp_set_ram_size 0 (cp_set_has_ram false c));; mret (-1) else
  cp_mod (λ c, cp_set_stop_reason STOP_NONE (cp_set_ctl_size OPENBUS_COPROC_CTL_SIZE (cp_set_has_ctl true c)));;
  cpu_mod (co_init true size);;
  on_bus (modify (λ _, copro_bus_set_cycle_source true (copro_bus_init true (replicate (Z.to_nat size) 0) size
    true (replicate (Z.to_nat OPENBUS_COPROC_CTL_SIZE) 0) OPENBUS_COPROC_CTL_SIZE)));;
  coproc_rehook;;
  fitted ← openbus_fit master_of (Some card);
  if fitted =? 0 then mret 0 else coproc_close;; mret (-1).
End card.
