(* ===== verification/CoproCardSpec.v ===== *)
(** The processor on the co-processor card (copro/openbus_coproc.c): over card RAM
    it is the processor on the decode alone, and a run of it leaves the registers
    of the card and the slot alone. RUNFOR bounds the slices of its time
    ([coproc_run]) all together. *)

From S2P Require Export CoproCard.

Section card.
Context {K H : Type} `{!PortArea rv32i_state}.
Local Abbreviation W := (coproc_state * (openbus K * H))%type.

(** [coproc_rehook] has put the hook of the decode in. *)
Definition hook_set (w : W) : Prop := hook_read (cp_bus_hook (fst w)) = true ∧ hook_write (cp_bus_hook (fst w)) = true.
Definition get_bus (w : W) : copro_bus := cp_bus (fst w).
Definition put_bus (b : copro_bus) (w : W) : W := (cp_set_bus b (fst w), snd w).

#[export] Instance card_part : MemPart copro_bus W hook_set get_bus put_bus.
Proof.
  split.
  - done.
  - done.
  - done.
  - by intros [[] ?].
  - done.
  - by intros l [[] ?].
  - intros a s w r s' w' [HQ _]. cbn. destruct (is_port_addr (u32 a)) eqn:Hp; [done|].
    unfold coproc_hook_read. rewrite Hp. cbv zeta. rewrite (bind_eq _ _ _ (cp_bus_hook (fst w)) (s, w)) by done. rewrite HQ.
    unfold on_bus, zoom. cbn [fst snd]. fold (get_bus w). destruct (bus_hook_read (u32 a) (get_bus w)) as [[x b]|]; [|done].
    by intros [= <- <- <-].
  - intros a v s w r s' w' [_ HQ]. cbn. destruct (is_port_addr (u32 a)) eqn:Hp; [done|].
    unfold coproc_hook_write. rewrite Hp. cbv zeta. rewrite (bind_eq _ _ _ (cp_bus_hook (fst w)) (s, w)) by done.
    rewrite (bind_eq _ _ _ (u32 (rv_cycles s)) (s, w)) by done. rewrite HQ.
    unfold on_bus, zoom. cbn [fst snd]. fold (get_bus w). destruct (bus_hook_write _ (u32 a) v (get_bus w)) as [[x b]|]; [|done].
    by intros [= <- <- <-].
Qed.

(** The registers of the card that the guest sees and the slot, which only the
    guest and the card itself change. *)
Definition same_card (w w' : W) : Prop :=
  cp_set_mbox_rx 0 (cp_set_bus bus_zero (fst w)) = cp_set_mbox_rx 0 (cp_set_bus bus_zero (fst w')) ∧ snd w = snd w'.
#[export] Instance same_card_equiv : Equivalence same_card.
Proof.
  split.
  - by intros w.
  - by intros w w' [H1 H2].
  - intros w w' w'' [H1 H2] [H3 H4]. split; congruence.
Qed.
Lemma same_card_bus b w : same_card w (put_bus b w).
Proof. by destruct w as [[] ?]. Qed.
Lemma same_card_mbox v w : same_card w (cp_set_mbox_rx v (fst w), snd w).
Proof. by destruct w as [[] ?]. Qed.


Definition stays {S A} (P : S → Prop) (m : M S A) : Prop := hoare P m (λ _, P).
Lemma stays_bind {S A B} (P : S → Prop) (m : M S A) (k : A → M S B) : stays P m → (∀ a, stays P (k a)) → stays P (m ≫= k).
Proof. intros Hm Hk. by eapply hoare_bind. Qed.
Lemma stays_ret {S A} (P : S → Prop) (a : A) : stays P (mret a).
Proof. by intros s Hs. Qed.
Lemma stays_gets {S A} (P : S → Prop) (f : S → A) : stays P (gets f).
Proof. by intros s Hs. Qed.
Lemma stays_fatal {S A} (P : S → Prop) : stays (A:=A) P fatal.
Proof. by intros s Hs. Qed.
Lemma stays_mfor {S A} (P : S → Prop) (l : list A) (body : A → M S unit) : (∀ x, stays P (body x)) → stays P (mfor l body).
Proof. intros Hb. induction l as [|x l IH]; cbn [mfor]; [apply stays_ret | by apply stays_bind]. Qed.

Local Abbreviation beside w0 := (λ s : rv32i_state * W, same_card w0 (snd s)).

Lemma on_bus_stays {A} w0 (m : M copro_bus A) : stays (beside w0) (on_bus m).
Proof.
  intros [s w] Hs. unfold on_bus, zoom. cbn [fst snd]. destruct (m _) as [[a b]|]; [|done]. cbn [snd] in *.
  transitivity w; [done|]. apply same_card_bus.
Qed.
Lemma hook_read_stays w0 a : stays (beside w0) (coproc_hook_read a).
Proof.
  unfold coproc_hook_read. cbv zeta.
  assert (stays (beside w0) (hook ← cp_get cp_bus_hook; if hook_read hook then on_bus (bus_hook_read a) else fatal)) as Hthrough.
  { apply stays_bind; [apply stays_gets|]. intros hook. destruct (hook_read hook); [apply on_bus_stays | apply stays_fatal]. }
  destruct (is_port_addr a); [|exact Hthrough]. apply stays_bind; [apply on_bus_stays|]. intros [at_|]; [exact Hthrough|].
  apply stays_bind; [|intros v; apply stays_ret]. unfold coproc_io_in. destruct (_ =? 0); [|apply stays_gets].
  apply stays_bind; [apply stays_gets | intros tx; apply stays_ret].
Qed.
Lemma hook_write_stays w0 source a v : stays (beside w0) (coproc_hook_write source a v).
Proof.
  unfold coproc_hook_write. cbv zeta.
  assert (stays (beside w0) (hook ← cp_get cp_bus_hook; cycle ← cpu_get source;
    if hook_write hook then on_bus (bus_hook_write cycle a v) else fatal)) as Hthrough.
  { apply stays_bind; [apply stays_gets|]. intros hook. apply stays_bind; [apply stays_gets|]. intros cycle.
    destruct (hook_write hook); [apply on_bus_stays | apply stays_fatal]. }
  destruct (is_port_addr a); [|exact Hthrough]. apply stays_bind; [apply on_bus_stays|]. intros [at_|]; [exact Hthrough|].
  apply stays_bind; [|intros ?; apply stays_ret]. unfold coproc_io_out. apply stays_bind; [by intros [s w] Hs|]. intros _.
  destruct (_ =? 0); [|apply stays_ret]. intros [s w] Hs. cbn in *. transitivity w; [done|]. apply same_card_mbox.
Qed.

#[export] Instance card_undisturbed w0 : Undisturbed W (same_card w0).
Proof.
  split.
  - intros a s w r s' w' Hw E. exact (hoare_run _ _ _ (s, w) _ _ (hook_read_stays w0 (u32 a)) Hw E).
  - intros a v s w r s' w' Hw E. exact (hoare_run _ _ _ (s, w) _ _ (hook_write_stays w0 _ (u32 a) v) Hw E).
  - intros w l Hw. transitivity w; [done|]. apply same_card_bus.
Qed.
End card.

(** * What the card relies on of a processor *)

Class CoreOk (C K H : Type) `{!CoreOps C (coproc_state * (openbus K * H))} := {
  ok_run n : hoare (λ s, True) (co_run n) (λ r _, ∃ k, r = Some k ∧ (0 ≤ n → 0 ≤ k));
  ok_run_card n w0 : stays (λ s : C * _, same_card w0 (snd s)) (co_run n);
  ok_step_card w0 : stays (λ s : C * _, same_card w0 (snd s)) co_step;
  ok_reset_card n w0 : stays (λ s : C * _, same_card w0 (snd s)) (co_reset n);
  ok_interrupt_card n w0 : stays (λ s : C * _, same_card w0 (snd s)) (co_interrupt n)
}.

#[export] Instance rv32i_ok {K H} `{!PortArea rv32i_state} : CoreOk rv32i_state K H.
Proof.
  split.
  - intros n sw _. cbn. unfold rv32i_run. destruct (run_loop _ 0 n sw) as [[r sw']|] eqn:E; [|done].
    destruct (Z.le_gt_cases 0 n) as [Hn|Hn].
    + assert (Z.to_nat (n - 0) ≤ Z.to_nat n)%nat as Hf by lia. destruct (run_loop_returns (W:=coproc_state * (openbus K * H)) _ 0 n sw r sw' Hn Hf E) as (k & -> & Hk & _). exists k. split; [done | lia].
    + revert E. replace (Z.to_nat n) with O by lia. cbn [run_loop]. rewrite (proj2 (Z.ltb_ge 0 n)) by lia.
      intros [= <- <-]. by exists 0.
  - intros n w0. exact (leaves_run (W:=coproc_state * (openbus K * H)) (same_card w0) (Z.to_nat n) 0 n).
  - intros w0. exact (leaves_step (W:=coproc_state * (openbus K * H)) (same_card w0)).
  - by intros n w0 [s w] Hs.
  - by intros n w0 [s w] Hs.
Qed.

(** * The interrupt line *)

Create HintDb irq discriminated.

(** The host's interrupt line is what it was last set to. *)
Class OpenBusHostLine (H : Type) `{!OpenBusHost H} (line : H → Z) := {
  ol_read32 f a : oh_read32 = Some f → ∀ v, stays (λ h : H, line h = v) (f a);
  ol_write32 f a x : oh_write32 = Some f → ∀ v, stays (λ h : H, line h = v) (f a x);
  ol_set_irq : ∃ f, oh_set_irq = Some f ∧ ∀ x, hoare (λ _ : H, True) (f x) (λ _ h, line h = x);
  ol_set_fiq f x : oh_set_fiq = Some f → ∀ v, stays (λ h : H, line h = v) (f x)
}.

Section line.
Context {C K H : Type} `{!OpenBusHost H, !CoreOps C (coproc_state * (openbus K * H)), !CoreOk C K H}.
Context (line : H → Z) `{!OpenBusHostLine H line} (who : option K).

(** The line the host sees is the one the slot has latched; [who] is in the slot. *)
Definition line_latched (v : Z) (sl : openbus K * H) : Prop :=
  ob_started (fst sl) = true ∧ ob_irq_asserted (fst sl) = v ∧ line (snd sl) = v ∧ ob_master (fst sl) = who.
(** It is up while the card holds it. *)
Definition irq_inv (s : C * (coproc_state * (openbus K * H))) : Prop :=
  line_latched (if nz (cp_irq (fst (snd s))) then 1 else 0) (snd (snd s)).

Lemma set_irq_latches v x : hoare (line_latched v) (openbus_master_set_irq x) (λ _, line_latched (if nz x then 1 else 0)).
Proof.
  intros [b h] (H1 & H2 & H3 & H4). cbn [fst snd] in *. unfold openbus_master_set_irq. set (y := if nz x then 1 else 0). cbv zeta.
  rewrite (bind_eq _ _ _ (ob_irq_asserted b) (b, h)) by done. destruct (Z.eqb_spec y (ob_irq_asserted b)) as [->|Hn].
  { unfold mret, M_ret, line_latched. cbn. by rewrite H3, H4. }
  rewrite (bind_eq _ _ _ tt (ob_set_irq y b, h)) by done. rewrite (bind_eq _ _ _ true (ob_set_irq y b, h)) by (unfold slot_get, gets; cbn; by rewrite H1).
  destruct ol_set_irq as (f & -> & Hf). cbn [when]. unfold on_host, zoom. cbn [fst snd]. specialize (Hf y h I).
  destruct (f y h) as [[? h']|]; [|done]. by split_and!.
Qed.
Lemma set_fiq_latched v x : stays (line_latched v) (openbus_master_set_fiq x).
Proof.
  intros [b h] (H1 & H2 & H3 & H4). cbn [fst snd] in *. unfold openbus_master_set_fiq. set (y := if nz x then 1 else 0). cbv zeta.
  rewrite (bind_eq _ _ _ (ob_fiq_asserted b) (b, h)) by done. destruct (_ =? _); [done|].
  rewrite (bind_eq _ _ _ tt (ob_set_fiq y b, h)) by done. rewrite (bind_eq _ _ _ true (ob_set_fiq y b, h)) by (unfold slot_get, gets; cbn; by rewrite H1).
  destruct oh_set_fiq as [f|] eqn:E; [|done]. cbn [when]. unfold on_host, zoom. cbn [fst snd].
  pose proof (ol_set_fiq f y E v h H3) as Hf. destruct (f y h) as [[? h']|]; [|done]. by split_and!.
Qed.
Lemma read32_latched v a : stays (line_latched v) (openbus_master_read32 a).
Proof.
  intros [b h] (H1 & H2 & H3 & H4). cbn [fst snd] in *. unfold openbus_master_read32.
  rewrite (bind_eq _ _ _ true (b, h)) by (unfold slot_get, gets; cbn; by rewrite H1).
  destruct oh_read32 as [f|] eqn:E; [|done]. unfold on_host, zoom. cbn [fst snd].
  pose proof (ol_read32 f a E v h H3) as Hf. destruct (f a h) as [[? h']|]; [|done]. by split_and!.
Qed.
Lemma write32_latched v a x : stays (line_latched v) (openbus_master_write32 a x).
Proof.
  intros [b h] (H1 & H2 & H3 & H4). cbn [fst snd] in *. unfold openbus_master_write32.
  rewrite (bind_eq _ _ _ true (b, h)) by (unfold slot_get, gets; cbn; by rewrite H1).
  destruct oh_write32 as [f|] eqn:E; [|done]. cbn [when]. unfold on_host, zoom. cbn [fst snd].
  pose proof (ol_write32 f a x E v h H3) as Hf. destruct (f a x h) as [[? h']|]; [|done]. by split_and!.
Qed.

(** ** Every operation of the card keeps it *)

Local Abbreviation CARD := (M (C * (coproc_state * (openbus K * H)))).
Local Abbreviation keeps_irq := (stays irq_inv).

Lemma core_irq {A} (m : CARD A) : (∀ w0, stays (λ s, same_card w0 (snd s)) m) → keeps_irq m.
Proof.
  intros Hm [c w] Hs. specialize (Hm w (c, w)). cbn [snd] in Hm. specialize (Hm (reflexivity w)).
  destruct (m (c, w)) as [[a [c' w']]|]; [|done]. destruct Hm as [Hc Hsl]. cbn [snd] in *.
  unfold irq_inv in *. cbn [fst snd] in *. rewrite <- Hsl. replace (cp_irq (fst w')) with (cp_irq (fst w)); [done|].
  exact (f_equal cp_irq Hc).
Qed.
Lemma on_bus_irq {A} (m : M copro_bus A) : keeps_irq (on_bus m : CARD A).
Proof. intros s Hs. unfold on_bus, zoom. by destruct (m _) as [[a b]|]. Qed.
Lemma cpu_mod_irq f : keeps_irq (cpu_mod f : CARD unit).
Proof. by intros s Hs. Qed.
Lemma cp_mod_irq f : (∀ c, cp_irq (f c) = cp_irq c) → keeps_irq (cp_mod f : CARD unit).
Proof. intros Hf s Hs. unfold irq_inv, cp_mod, modify in *. cbn [fst snd]. by rewrite Hf. Qed.
Lemma cp_slot_irq {A} (m : M (openbus K * H) A) : (∀ v, stays (line_latched v) m) → keeps_irq (cp_slot m : CARD A).
Proof.
  intros Hm [c [cp sl]] Hs. unfold cp_slot, zoom. cbn [fst snd]. specialize (Hm _ sl Hs). by destruct (m sl) as [[a sl']|].
Qed.
Lemma get_irq {A} (f : C * (coproc_state * (openbus K * H)) → A) : keeps_irq (gets f).
Proof. apply stays_gets. Qed.
(** The register and the line change together. *)
Lemma move_irq (v : Z) : keeps_irq (cp_mod (cp_set_irq v);; cp_slot (openbus_master_set_irq v) : CARD unit).
Proof.
  intros [c [cp sl]] Hs. unfold cp_mod, modify. rewrite (bind_eq _ _ _ tt (c, (cp_set_irq v cp, sl))) by done.
  unfold cp_slot, zoom. cbn [fst snd]. pose proof (set_irq_latches _ v sl Hs) as Hsl. by destruct (openbus_master_set_irq v sl) as [[[] sl']|].
Qed.
Lemma read32_irq a : keeps_irq (cp_slot (openbus_master_read32 a) : CARD Z).
Proof. apply cp_slot_irq. intros v. apply read32_latched. Qed.
Lemma write32_irq a x : keeps_irq (cp_slot (openbus_master_write32 a x) : CARD unit).
Proof. apply cp_slot_irq. intros v. apply write32_latched. Qed.

Ltac irq_walk :=
  repeat (cbv beta zeta;
  match goal with
  | |- ∀ _, _ => intro
  | |- stays _ (cp_mod (cp_set_irq _);; cp_slot (openbus_master_set_irq _)) => apply move_irq
  | |- stays _ (_ ≫= _) => apply stays_bind
  | |- stays _ (when ?c _) => destruct c; cbn [when]
  | |- stays _ (if ?c then _ else _) => destruct c
  | |- stays _ (match ?x with _ => _ end) => destruct x
  | |- stays _ (mret _) => apply stays_ret
  | |- stays _ fatal => apply stays_fatal
  | |- stays _ (cp_get _) => apply get_irq
  | |- stays _ (cpu_get _) => apply get_irq
  | |- stays _ (cp_mod _) => apply cp_mod_irq; by intros []
  | |- stays _ (cpu_mod _) => apply cpu_mod_irq
  | |- stays _ (on_bus _) => apply on_bus_irq
  | |- stays _ (card_ram_get _) => apply on_bus_irq
  | |- stays _ (card_ram_put _ _) => apply on_bus_irq
  | |- stays _ (card_ctl_get _) => apply on_bus_irq
  | |- stays _ (card_ctl_put _ _) => apply on_bus_irq
  | |- stays _ (cp_slot (openbus_master_read32 _)) => apply read32_irq
  | |- stays _ (cp_slot (openbus_master_write32 _ _)) => apply write32_irq
  | |- stays _ (co_reset _) => apply core_irq, ok_reset_card
  | |- stays _ (co_run _) => apply core_irq; intro; apply ok_run_card
  | |- stays _ co_step => apply core_irq, ok_step_card
  | |- stays _ (co_interrupt _) => apply core_irq; intro; apply ok_interrupt_card
  | |- stays _ _ => solve [eauto 2 with irq nocore]
  end).

Lemma aperture_get_irq get addr area size : (∀ i, keeps_irq (get i : CARD Z)) → keeps_irq (aperture_get get addr area size).
Proof.
  intros Hg. unfold aperture_get. generalize 0 at 2. induction (seqZ 0 (size_bytes size)) as [|i l IH]; intros val; [apply stays_ret|].
  apply stays_bind; [apply Hg|]. intros b. apply IH.
Qed.
Lemma aperture_put_irq put addr area size val : (∀ i v, keeps_irq (put i v : CARD unit)) → keeps_irq (aperture_put put addr area size val).
Proof.
  intros Hp. apply stays_mfor. intros i. apply Hp.
Qed.
Lemma apertures_irq size val :
  keeps_irq (aperture_read size : CARD Z) ∧ keeps_irq (aperture_write size val : CARD unit) ∧
  keeps_irq (ctl_aperture_read size : CARD Z) ∧ keeps_irq (ctl_aperture_write size val : CARD unit).
Proof.
  unfold aperture_read, aperture_write, ctl_aperture_read, ctl_aperture_write.
  split_and!; irq_walk; first [apply aperture_get_irq | apply aperture_put_irq]; irq_walk.
Qed.
Lemma drop_irq_irq : keeps_irq (coproc_drop_irq : CARD unit).
Proof. unfold coproc_drop_irq. irq_walk. Qed.
Lemma reset_irq : keeps_irq (coproc_reset : CARD unit).
Proof. unfold coproc_reset. irq_walk; try apply drop_irq_irq. Qed.
Lemma note_stop_irq : keeps_irq (coproc_note_stop : CARD unit).
Proof. unfold coproc_note_stop. irq_walk. Qed.
Lemma rehook_irq : keeps_irq (coproc_rehook : CARD unit).
Proof. unfold coproc_rehook. irq_walk. Qed.

Hint Resolve drop_irq_irq reset_irq note_stop_irq rehook_irq : irq.

Lemma read_word_irq reg : keeps_irq (coproc_read_word reg : CARD Z).
Proof.
  unfold coproc_read_word. irq_walk. apply switch_ind; [|irq_walk].
  repeat (apply List.Forall_cons; [cbn [snd]; unfold coproc_status; irq_walk|]). apply List.Forall_nil.
Qed.
Lemma reg_read_irq offset size : keeps_irq (coproc_reg_read offset size : CARD Z).
Proof.
  unfold coproc_reg_read. destruct (apertures_irq size 0) as (H1 & H2 & H3 & H4). cbv zeta.
  destruct (_ =? REG_DATA); [done|]. destruct (_ =? REG_CTLDATA); [done|].
  apply stays_bind; [apply read_word_irq|]. irq_walk.
Qed.
Lemma start_dma_irq : keeps_irq (coproc_start_dma : CARD unit).
Proof. unfold coproc_start_dma. irq_walk. Qed.
Hint Resolve start_dma_irq : irq.
Lemma reg_write_irq offset size val : keeps_irq (coproc_reg_write offset size val : CARD unit).
Proof.
  unfold coproc_reg_write. destruct (apertures_irq size val) as (H1 & H2 & H3 & H4). cbv zeta.
  destruct (_ =? REG_DATA); [done|]. destruct (_ =? REG_CTLDATA); [done|].
  apply switch_ind; [|irq_walk].
  repeat (apply List.Forall_cons; [cbn [snd]; unfold write_ctrl, write_mapcount, write_logtail, write_waitack, coproc_apply_interrupts; irq_walk|]).
  apply List.Forall_nil.
Qed.

Lemma dma_word_irq : keeps_irq (dma_word : CARD unit).
Proof. unfold dma_word. irq_walk. Qed.
Lemma dma_words_irq n : keeps_irq (dma_words n : CARD unit).
Proof.
  induction n as [|n IH]; cbn [dma_words]; [apply stays_ret|]. unfold dma_step. irq_walk. apply dma_word_irq.
Qed.
Lemma dma_loop_irq n used : keeps_irq (dma_loop n used : CARD Z).
Proof.
  revert used. induction n as [|n IH]; intros used; cbn [dma_loop]; [apply stays_ret|]. apply stays_bind; [apply get_irq|].
  intros len. destruct (_ <? _); [|apply stays_ret]. apply stays_bind; [apply dma_words_irq|]. intros _. apply IH.
Qed.
Lemma run_irq n : keeps_irq (coproc_run n : CARD (option Z)).
Proof.
  unfold coproc_run, coproc_run_dma, after_core_run.
  repeat (irq_walk; try apply dma_loop_irq).
Qed.

(** ** From the host's side *)

Context (master_of : K → openbus_master (C * (coproc_state * (openbus K * H)))) (card : K).
Context (Hwho : who = Some card) (Hcard : master_of card = coproc_master).

Lemma fitted_run s : irq_inv s → fitted_master master_of s = Some (Some coproc_master, s).
Proof.
  intros (_ & _ & _ & Hm). unfold fitted_master, gets. change (slot_of s) with (snd (snd s)). rewrite Hm, Hwho. cbn. by rewrite Hcard.
Qed.
Lemma openbus_reg_read_irq addr size : keeps_irq (openbus_reg_read master_of addr size).
Proof.
  intros s Hs. unfold openbus_reg_read. rewrite (bind_eq _ _ _ _ _ (fitted_run s Hs)). cbn [mbind option_bind om_reg_read coproc_master].
  destruct (addr_in_window addr); [by apply reg_read_irq | by apply stays_ret].
Qed.
Lemma openbus_reg_write_irq addr size val : keeps_irq (openbus_reg_write master_of addr size val).
Proof.
  intros s Hs. unfold openbus_reg_write. rewrite (bind_eq _ _ _ _ _ (fitted_run s Hs)). cbn [mbind option_bind om_reg_write coproc_master].
  destruct (addr_in_window addr); cbn [when]; [by apply reg_write_irq | by apply stays_ret].
Qed.
Lemma openbus_run_irq n : keeps_irq (openbus_run master_of n).
Proof.
  intros s Hs. unfold openbus_run. rewrite (bind_eq _ _ _ _ _ (fitted_run s Hs)). cbn [mbind option_bind om_run coproc_master].
  destruct (n <=? 0); [by apply stays_ret|]. revert s Hs. apply stays_bind; [apply run_irq | intros ?; apply stays_ret].
Qed.

(** nRESET drops the line before the card lets go of it. *)
Lemma reset_from_low : hoare (λ s, line_latched 0 (snd (snd s))) (coproc_reset : CARD unit) (λ _, irq_inv).
Proof.
  unfold coproc_reset. eapply (hoare_bind _ _ _ (λ _, irq_inv)); [|intros _; match goal with |- hoare _ ?m _ => change (keeps_irq m) end; irq_walk].
  intros [c [cp sl]] Hs. cbn [fst snd] in Hs. unfold coproc_drop_irq. rewrite (bind_eq _ _ _ (cp_irq cp) (c, (cp, sl))) by done.
  destruct (nz (cp_irq cp)) eqn:E; cbn [when].
  - rewrite (bind_eq _ _ _ tt (c, (cp_set_irq 0 cp, sl))) by done. unfold cp_slot, zoom. cbn [fst snd].
    pose proof (set_irq_latches 0 0 sl Hs) as Hsl. by destruct (openbus_master_set_irq 0 sl) as [[[] sl']|].
  - unfold mret, M_ret, irq_inv. cbn [fst snd]. by rewrite E.
Qed.
Lemma openbus_reset_irq : keeps_irq (openbus_reset master_of).
Proof.
  unfold openbus_reset. eapply (hoare_bind _ _ _ (λ _ s, line_latched 0 (snd (snd s)))).
  { intros [c [cp sl]] Hs. unfold in_slot, zoom. change (slot_of _) with sl. pose proof (set_irq_latches _ 0 sl Hs) as Hsl.
    by destruct (openbus_master_set_irq 0 sl) as [[[] sl']|]. }
  intros _. eapply (hoare_bind _ _ _ (λ _ s, line_latched 0 (snd (snd s)))).
  { intros [c [cp sl]] Hs. unfold in_slot, zoom. change (slot_of _) with sl. pose proof (set_fiq_latched 0 0 sl Hs) as Hsl.
    by destruct (openbus_master_set_fiq 0 sl) as [[[] sl']|]. }
  intros _ s Hs. rewrite (bind_eq _ _ _ (Some coproc_master) s).
  - cbn [om_reset coproc_master]. by apply reset_from_low.
  - destruct Hs as (_ & _ & _ & Hm). unfold fitted_master, gets. change (slot_of s) with (snd (snd s)). rewrite Hm, Hwho. cbn. by rewrite Hcard.
Qed.
End line.

(** * Slices of time *)

Section run.
Context {K H : Type} `{!OpenBusHost H, !PortArea rv32i_state}.
Local Abbreviation W := (coproc_state * (openbus K * H))%type.
Local Abbreviation CARD := (M (rv32i_state * W)).
Implicit Types s : rv32i_state * W.

Definition card_of s : coproc_state := fst (snd s).
Definition run_set s : bool := nz (cp_ctrl (card_of s) .& CTRL_RUN).

(** The budget is spent, or the processor has stopped; or [r] cycles are left. *)
Definition spent s : Prop := cp_dma_busy (card_of s) = 0 ∧ run_set s = false.
Definition live (r : Z) s : Prop :=
  cp_dma_busy (card_of s) = 0 ∧ run_set s = true ∧ cp_runfor (card_of s) = r ∧ 0 < r < 0x100000000.

Lemma clear_run ctrl : nz (ctrl .&~ CTRL_RUN .& CTRL_RUN) = false.
Proof.
  unfold CTRL_RUN. change 1 with (2 ^ 0). rewrite nz_mask_bit by done. rewrite Z.ldiff_spec, Z.pow2_bits_true by done. apply andb_false_r.
Qed.

Lemma slice_spent n s x s' : spent s → coproc_run n s = Some (x, s') → x = Some 0 ∧ fst s' = fst s ∧ spent s'.
Proof.
  intros [Hb Hr] E. unfold coproc_run in E. destruct (n <=? 0); [by injection E as <- <-|].
  rewrite (bind_eq _ _ _ _ s eq_refl) in E. unfold card_of in *. rewrite Hb in E. change (nz 0) with false in E. cbn iota in E.
  rewrite (bind_eq _ _ _ 0 s) in E by done. rewrite (bind_eq _ _ _ (fst (snd s)) s) in E by done. unfold id in E.
  unfold run_set, card_of in Hr. rewrite Hr in E. cbn [andb negb] in E.
  destruct (_ =? STOP_NONE); cbn [when] in E.
  - rewrite (bind_eq _ _ _ tt (fst s, (cp_set_stop_reason STOP_STOPPED (fst (snd s)), snd (snd s)))) in E by done.
    injection E as <- <-. by split_and!.
  - rewrite (bind_eq _ _ _ tt s) in E by done. by injection E as <- <-.
Qed.

(** What [after_core_run] leaves: RUNFOR counted down, and RUN cleared at its end
    or with the processor stopped. *)
Lemma note_stop_run s : hoare (λ s', s' = s) (coproc_note_stop : CARD unit) (λ _ s',
  fst s' = fst s ∧ cp_dma_busy (card_of s') = cp_dma_busy (card_of s) ∧ cp_runfor (card_of s') = cp_runfor (card_of s) ∧
  (run_set s = false → run_set s' = false) ∧ (idle (fst s) = false → run_set s' = run_set s)).
Proof.
  intros ? ->. destruct s as [cpu [c sl]]. unfold coproc_note_stop. rewrite (bind_eq _ _ _ _ _ eq_refl), (bind_eq _ _ _ _ _ eq_refl). cbn [fst snd id].
  cbn [co_halted co_faulted co_exit_code ops_rv32i].
  destruct (nz (cp_stop_reported c)); [unfold mret, M_ret; by split_and!|].
  destruct (negb (nz (rv_halted cpu)) && negb (nz (rv_faulted cpu))) eqn:Eh; [unfold mret, M_ret; by split_and!|].
  assert (idle cpu = true) as Hi.
  { unfold idle. revert Eh. by destruct (nz (rv_halted cpu)), (nz (rv_faulted cpu)). }
  rewrite (bind_eq _ _ _ tt (cpu, (cp_set_stop_reported 1 c, sl))) by done.
  set (c1 := if nz (rv_halted cpu) then cp_set_mbox_rx (rv_exit_code cpu) (cp_set_stop_reported 1 c) else cp_set_stop_reported 1 c).
  rewrite (bind_eq _ _ _ tt (cpu, (c1, sl))) by (unfold c1; by destruct (nz (rv_halted cpu))).
  set (c2 := cp_set_ctrl (cp_ctrl c1 .&~ CTRL_RUN) c1). rewrite (bind_eq _ _ _ tt (cpu, (c2, sl))) by done.
  rewrite (bind_eq _ _ _ (cp_ctrl c2) (cpu, (c2, sl))) by done.
  assert (cp_dma_busy c2 = cp_dma_busy c ∧ cp_runfor c2 = cp_runfor c) as [R1 R2] by (unfold c2, c1; by destruct (nz (rv_halted cpu))).
  assert (nz (cp_ctrl c2 .& CTRL_RUN) = false) as R3 by apply clear_run.
  destruct (nz (cp_ctrl c2 .& CTRL_IRQ_ON_HALT)); cbn [when].
  - rewrite (bind_eq _ _ _ tt (cpu, (cp_set_irq 1 c2, sl))) by done. unfold cp_slot, zoom. cbn [fst snd].
    destruct (openbus_master_set_irq 1 sl) as [[? sl']|]; [|done]. unfold run_set, card_of. cbn [fst snd cp_set_irq cp_dma_busy cp_runfor cp_ctrl].
    rewrite R1, R2, R3. split_and!; try done. by rewrite Hi.
  - unfold mret, M_ret, run_set, card_of. cbn [fst snd]. rewrite R1, R2, R3. split_and!; try done. by rewrite Hi.
Qed.

Lemma after_core_run_live ran r s : run_set s = true → cp_runfor (card_of s) = r → 0 < r < 0x100000000 → 0 ≤ ran →
  hoare (λ s', s' = s) (after_core_run ran : CARD unit) (λ _ s',
    fst s' = fst s ∧ cp_dma_busy (card_of s') = cp_dma_busy (card_of s) ∧ (r ≤ ran → run_set s' = false) ∧
    (ran < r → cp_runfor (card_of s') = r - ran ∧ (idle (fst s) = false → run_set s' = true))).
Proof.
  intros Hset Hr Hb Hran ? ->. destruct s as [cpu [c sl]]. unfold run_set, card_of in Hset, Hr. cbn [fst snd] in Hset, Hr.
  unfold after_core_run. rewrite (bind_eq _ _ _ _ _ eq_refl). cbn [fst snd]. rewrite Hr.
  assert (nz r = true) as -> by (unfold nz; by rewrite (proj2 (Z.eqb_neq _ _)) by lia). cbn [when].
  set (left := if r <=? ran then 0 else sub32 r ran).
  assert (left = Z.max 0 (r - ran)) as Hleft.
  { unfold left, sub32. destruct (Z.leb_spec r ran); [lia|]. rewrite u32_id by (unfold w32; lia). lia. }
  set (c1 := cp_set_runfor left c).
  set (c2 := if left =? 0 then cp_set_stop_reason STOP_BUDGET (cp_set_ctrl (cp_ctrl c1 .&~ CTRL_RUN) c1) else c1).
  rewrite (bind_eq _ _ _ tt (cpu, (c2, sl))).
  2:{ rewrite (bind_eq _ _ _ tt (cpu, (c1, sl))) by done. rewrite (bind_eq _ _ _ left (cpu, (c1, sl))) by done.
      unfold c2. by destruct (left =? 0). }
  rewrite (bind_eq _ _ _ cpu (cpu, (c2, sl))) by done. cbn [co_halted co_faulted co_stalled ops_rv32i].
  match goal with |- context [(?m;; coproc_note_stop) _] => assert (∃ v, m (cpu, (c2, sl)) = Some (tt, (cpu, (cp_set_stop_reason v c2, sl)))) as [v Ev] end.
  { destruct (nz (rv_faulted cpu)); [by eexists|]. destruct (nz (rv_halted cpu)); [by eexists|].
    destruct (nz (rv_stalled cpu)); [by eexists|]. exists (cp_stop_reason c2). by destruct c2. }
  rewrite (bind_eq _ _ _ _ _ Ev). pose proof (note_stop_run (cpu, (cp_set_stop_reason v c2, sl)) _ eq_refl) as Hn.
  destruct (coproc_note_stop (cpu, (cp_set_stop_reason v c2, sl))) as [[[] s']|]; [|done].
  destruct Hn as (N1 & N2 & N3 & N4 & N5). unfold run_set at 1, card_of in N4. unfold run_set at 2, card_of in N5. unfold card_of at 2 in N2. unfold card_of at 2 in N3.
  cbn [fst snd cp_set_stop_reason cp_dma_busy cp_runfor cp_ctrl] in *. unfold card_of at 2. cbn [fst snd].
  rewrite N1, N2, N3. unfold c2 in *. destruct (Z.leb_spec r ran) as [Hle|Hlt].
  - assert (left = 0) as E by lia. rewrite E in *. cbn [Z.eqb] in *. split_and!; try done; [|lia].
    intros _. apply N4. apply clear_run.
  - assert ((left =? 0) = false) as E by (apply Z.eqb_neq; lia). rewrite E in *. split_and!; try done; [lia|].
    intros _. split; [cbn; lia|]. intros Hi. by rewrite N5.
Qed.

Lemma run_budget_min left r : 0 < r → run_budget left r = Z.min left r.
Proof. intros Hr. unfold run_budget, nz. rewrite (proj2 (Z.eqb_neq _ _)) by lia. cbn [negb andb]. destruct (Z.ltb_spec r left); lia. Qed.

Lemma slice_live n r s x s' : live r s → 0 < n → coproc_run n s = Some (x, s') →
  ∃ k, x = Some k ∧ 0 ≤ k ≤ Z.min n r ∧ cp_dma_busy (card_of s') = 0 ∧ (k < Z.min n r → idle (fst s') = true) ∧
    (k = r → run_set s' = false) ∧ (k < r → cp_runfor (card_of s') = r - k ∧ (idle (fst s') = false → run_set s' = true)) ∧
    (idle (fst s) = true → fst s' = fst s).
Proof.
  intros (Hd & Hset & Hr & Hb) Hn. unfold coproc_run. rewrite (proj2 (Z.leb_gt n 0)) by lia.
  rewrite (bind_eq _ _ _ _ s eq_refl). unfold card_of in *. rewrite Hd. change (nz 0) with false. cbn iota.
  rewrite (bind_eq _ _ _ 0 s) by done. rewrite (bind_eq _ _ _ (fst (snd s)) s) by done. unfold id.
  unfold run_set, card_of in Hset. rewrite Hset, Hr, (proj2 (Z.ltb_lt 0 n)), Z.sub_0_r, run_budget_min by lia. cbn [andb].
  intros (ran & s1 & E & Hrest)%bind_Some. cbn [co_run ops_rv32i] in E. unfold rv32i_run in E.
  assert (Z.to_nat (Z.min n r - 0) ≤ Z.to_nat (Z.min n r))%nat as Hfuel by lia.
  assert (0 ≤ Z.min n r) as Hmin by lia.
  destruct (run_loop_returns (W:=coproc_state * (openbus K * H)) _ 0 (Z.min n r) s ran s1 Hmin Hfuel E) as (k & -> & Hk & Hidle).
  pose proof (leaves_run (W:=coproc_state * (openbus K * H)) (same_card (snd s)) (Z.to_nat (Z.min n r)) 0 (Z.min n r) s (reflexivity (snd s))) as Hsame.
  rewrite E in Hsame. destruct Hsame as [Hsame _].
  pose proof (f_equal cp_ctrl Hsame) as Hc. pose proof (f_equal cp_runfor Hsame) as Hrf. pose proof (f_equal cp_dma_busy Hsame) as Hdb.
  cbn [cp_set_mbox_rx cp_set_bus cp_ctrl cp_runfor cp_dma_busy] in Hc, Hrf, Hdb.
  assert (run_set s1 = true) as Hset1 by (unfold run_set, card_of; by rewrite <- Hc).
  assert (cp_runfor (card_of s1) = r) as Hr1 by (unfold card_of; by rewrite <- Hrf).
  apply bind_Some in Hrest as ([] & s2 & E2 & [= <- <-]).
  pose proof (after_core_run_live k r s1 Hset1 Hr1 Hb (proj1 Hk) s1 eq_refl) as Ha. rewrite E2 in Ha.
  destruct Ha as (A1 & A2 & A3 & A4). exists k. rewrite A1. unfold card_of in *. split_and!; try done; try lia.
  - intros Ek. apply A3. lia.
  - intros Hi. by rewrite (idle_run_loop _ _ _ _ _ _ Hi E).
Qed.

(** ** Slices in a row *)

Definition total (l : list Z) : Z := foldr Z.add 0 l.

Lemma slices_spent ns s us s' : spent s → mapM coproc_run ns s = Some (us, s') →
  us = Some <$> replicate (length ns) 0 ∧ fst s' = fst s ∧ spent s'.
Proof.
  revert s us. induction ns as [|n ns IH]; intros s us Hs; cbn [mapM]; [by intros [= <- <-]|].
  intros (x & s1 & E1 & Hr)%bind_Some. apply bind_Some in Hr as (l & s2 & E2 & [= <- <-]).
  destruct (slice_spent n s x s1 Hs E1) as (-> & Hf & Hs1). destruct (IH _ _ Hs1 E2) as (-> & Hf2 & Hs2).
  split_and!; [done | congruence | done].
Qed.

(** However a card is given its time, RUNFOR is the sum: the processor gets no
    more, and all of it if it does not stop by itself. *)
Lemma slices_live ns s us s' r : live r s → Forall (λ n, 0 < n) ns → mapM coproc_run ns s = Some (us, s') →
  ∃ vs, us = Some <$> vs ∧ total vs ≤ Z.min (total ns) r ∧
    (idle (fst s') = false → total vs = Z.min (total ns) r) ∧ (total vs = r → run_set s' = false) ∧
    (idle (fst s) = true → fst s' = fst s).
Proof.
  revert s us r. induction ns as [|n ns IH]; intros s us r Hs Hns; cbn [mapM].
  { intros [= <- <-]. exists []. destruct Hs as (_ & _ & _ & Hr). cbn. split_and!; [done | lia | lia | lia | done]. }
  intros (x & s1 & E1 & Hr)%bind_Some. apply bind_Some in Hr as (l & s2 & E2 & [= <- <-]).
  inversion Hns as [|? ? Hn Hns']; subst. assert (0 ≤ total ns) as Htot.
  { clear -Hns'. induction Hns' as [|m ms Hm _ IHm]; cbn; [done|]. unfold total in IHm. lia. }
  destruct (slice_live n r s x s1 Hs Hn E1) as (k & -> & Hk & Hd & Hidle & Hk1 & Hk2 & Hfix).
  pose proof Hs as (_ & _ & _ & Hb).
  assert (∀ vs, total (k :: vs) = k + total vs) as Ht by done. assert (total (n :: ns) = n + total ns) as Hn' by done.
  destruct (run_set s1) eqn:Eset.
  - assert (k ≠ r) as Hne by (intros Ek; discriminate (Hk1 Ek)). destruct (Hk2 ltac:(lia)) as [Hrf _].
    assert (live (r - k) s1) as Hs1 by (split_and!; [done | done | done | lia | lia]).
    destruct (IH s1 l (r - k) Hs1 Hns' E2) as (vs & -> & V1 & V2 & V3 & V4). exists (k :: vs). rewrite Ht, Hn'.
    split_and!; [done | lia | | intros; apply V3; lia |].
    + intros Hi. rewrite V2 by done. destruct (idle (fst s1)) eqn:Ei; [rewrite (V4 eq_refl), Ei in Hi; discriminate|].
      destruct (Z.lt_ge_cases k (Z.min n r)) as [Hl|Hl]; [discriminate (Hidle Hl)|]. lia.
    + intros Hi. rewrite <- (Hfix Hi). apply V4. by rewrite (Hfix Hi).
  - destruct (slices_spent ns s1 l s2 (conj Hd Eset) E2) as (-> & Hf & _ & Hspent).
    exists (k :: replicate (length ns) 0). assert (total (replicate (length ns) 0) = 0) as H0.
    { clear. induction ns as [|? ns IHn]; [done|]. unfold total in *. cbn. by rewrite IHn. }
    rewrite Ht, H0, Hn', Hf. split_and!; [done | lia | | done | exact Hfix].
    intros Hi. destruct (Z.lt_ge_cases k (Z.min n r)) as [Hl|Hl]; [rewrite (Hidle Hl) in Hi; discriminate|].
    destruct (Z.lt_ge_cases k r) as [Hr|Hr]; [destruct (Hk2 Hr) as [_ HH]; discriminate (HH Hi)|]. lia.
Qed.
End run.
