(* ===== verification/CoproProgram.v ===== *)
(** A program on the co-processor card (copro/openbus_coproc.c): the guest loads it
    through the aperture, resets the processor, starts it, and reads its result. *)

From S2P Require Export CoproFlat CoproCardSpec.

Section program.
Context {K H : Type} `{!OpenBusHost H, !PortArea rv32i_state}.
Local Abbreviation W := (coproc_state * (openbus K * H))%type.
Local Abbreviation CARD := (M (rv32i_state * W)).

(** The card as it is with its RAM and its hook in place. *)
Record card_ready (c : coproc_state) : Prop := {
  cr_ram : cp_has_ram c = true;
  cr_size : cp_ram_size c = bus_ram_size (cp_bus c);
  cr_bus : plain_bus (cp_bus c);
  cr_read : hook_read (cp_bus_hook c) = true;
  cr_write : hook_write (cp_bus_hook c) = true
}.

Definition with_ram (m : list Z) (c : coproc_state) : coproc_state := cp_set_bus (bus_set_ram m (cp_bus c)) c.

Lemma ready_length c : card_ready c → Z.of_nat (length (bus_ram (cp_bus c))) = cp_ram_size c ∧ 0 < cp_ram_size c < 0x100000000.
Proof.
  intros []. rewrite cr_size0. split; [by apply plain_length|]. pose proof (pb_size _ cr_bus0). destruct (bo_ram_size _ (pb_ok _ cr_bus0)). lia.
Qed.

Lemma ready_with_ram c m : card_ready c → length m = length (bus_ram (cp_bus c)) → Forall byte m → card_ready (with_ram m c).
Proof.
  intros [] Hl Hm. split; try done. destruct cr_bus0. split; try done. cbn. by apply bus_ok_set_ram.
Qed.

(** ** The aperture *)

Lemma card_ram_put_run (cpu : rv32i_state) c sl i v : card_ready c → 0 ≤ i < cp_ram_size c →
  (card_ram_put i v : CARD unit) (cpu, (c, sl)) = Some (tt, (cpu, (with_ram (<[Z.to_nat i := u8 v]> (bus_ram (cp_bus c))) c, sl))).
Proof.
  intros Hc Hi. destruct (ready_length c Hc) as [Hl _]. unfold card_ram_put, on_bus, zoom. cbn [fst snd].
  by rewrite (proj2 (Z.leb_gt _ _)) by lia.
Qed.
Lemma card_ram_get_run (cpu : rv32i_state) c sl i v : bus_ram (cp_bus c) !! Z.to_nat i = Some v →
  (card_ram_get i : CARD Z) (cpu, (c, sl)) = Some (v, (cpu, (c, sl))).
Proof. intros Hv. unfold card_ram_get, on_bus, zoom. cbn [fst snd]. rewrite Hv. by destruct c. Qed.

Definition area_ok (c : coproc_state) (n : Z) : Prop := 0 ≤ cp_addr c ∧ cp_addr c + n ≤ cp_ram_size c.

(** A word written where the aperture stands. *)
Lemma write_word cpu c sl val : card_ready c → area_ok c 4 →
  (coproc_reg_write REG_DATA OPENBUS_SIZE_32 val : CARD unit) (cpu, (c, sl)) =
  Some (tt, (cpu, (cp_set_addr ((cp_addr c + 4) mod cp_ram_size c) (with_ram (stored (bus_ram (cp_bus c)) 4 (cp_addr c) val) c), sl))).
Proof.
  intros Hc [H0 H1]. destruct (ready_length c Hc) as [Hl Hs]. unfold coproc_reg_write. cbv zeta. change (REG_DATA .&~ 3 =? REG_DATA) with true. cbn iota.
  unfold aperture_write. rewrite (bind_eq _ _ _ c (cpu, (c, sl))) by done. rewrite (cr_ram _ Hc). cbn [negb orb].
  rewrite (proj2 (Z.eqb_neq _ _)) by lia. cbn [size_bytes].
  set (m := bus_ram (cp_bus c)) in *. set (a := cp_addr c) in *.
  rewrite (bind_eq _ _ _ tt (cpu, (with_ram (stored m 4 a val) c, sl))).
  { unfold cp_mod, modify. cbn [fst snd]. rewrite add32_id by (unfold w32; lia). done. }
  unfold aperture_put. change (seqZ 0 (size_bytes OPENBUS_SIZE_32)) with [0; 1; 2; 3]. cbn [mfor]. cbv beta.
  rewrite !add32_id by (unfold w32; lia). rewrite !(Z.mod_small (a + _)) by lia. change (0 * 8) with 0. change (1 * 8) with 8. change (2 * 8) with 16. change (3 * 8) with 24.
  rewrite Z.add_0_r, Z.shiftr_0_r.
  assert (∀ l, length l = length m → Forall byte l → card_ready (with_ram l c)) as Hw by (intros; by apply ready_with_ram).
  pose proof (bo_ram_bytes _ (pb_ok _ (cr_bus _ Hc))) as Hbytes. fold m in Hbytes.
  rewrite (bind_eq _ _ _ _ _ (card_ram_put_run cpu c sl a _ Hc ltac:(lia))).
  erewrite bind_eq; [|apply card_ram_put_run; [apply Hw; [by rewrite !length_insert | by repeat apply Forall_insert] | cbn; lia]].
  erewrite bind_eq; [|apply card_ram_put_run; [apply Hw; [cbn; by rewrite !length_insert | cbn; by repeat apply Forall_insert] | cbn; lia]].
  erewrite bind_eq; [|apply card_ram_put_run; [apply Hw; [cbn; by rewrite !length_insert | cbn; by repeat apply Forall_insert] | cbn; lia]].
  unfold mret, M_ret. cbn [with_ram cp_set_bus cp_bus bus_set_ram bus_ram]. fold m. by rewrite stored_bytes.
Qed.

Definition program_bytes (ws : list Z) : list Z := ws ≫= le_bytes 4.
Lemma length_program ws : length (program_bytes ws) = (4 * length ws)%nat.
Proof.
  induction ws as [|w ws IH]; [done|]. change (program_bytes (w :: ws)) with (le_bytes 4 w ++ program_bytes ws).
  rewrite length_app, length_le_bytes, IH. cbn [length]. lia.
Qed.

Definition write_words (ws : list Z) : CARD unit := mfor ws (coproc_reg_write REG_DATA OPENBUS_SIZE_32).

Lemma ready_word c v w : card_ready c → card_ready (cp_set_addr v (with_ram (stored (bus_ram (cp_bus c)) 4 (cp_addr c) w) c)).
Proof.
  intros Hc. assert (card_ready (with_ram (stored (bus_ram (cp_bus c)) 4 (cp_addr c) w) c)) as [].
  { apply ready_with_ram; [done | apply length_stored | apply stored_ok, (pb_ok _ (cr_bus _ Hc))]. }
  by split.
Qed.

(** The words of a program, one after the other. *)
Lemma write_words_run ws cpu c sl : card_ready c → 0 ≤ cp_addr c < cp_ram_size c → area_ok c (4 * Z.of_nat (length ws)) →
  write_words ws (cpu, (c, sl)) = Some (tt, (cpu, (cp_set_addr ((cp_addr c + 4 * Z.of_nat (length ws)) mod cp_ram_size c)
    (with_ram (list_inserts (Z.to_nat (cp_addr c)) (program_bytes ws) (bus_ram (cp_bus c))) c), sl))).
Proof.
  revert c. induction ws as [|w ws IH]; intros c Hc Ha Hr.
  { cbn [write_words mfor program_bytes mbind list_bind length list_inserts]. change (4 * Z.of_nat 0) with 0.
    rewrite Z.add_0_r, Z.mod_small by lia. unfold with_ram. rewrite set_ram_id. by destruct c. }
  destruct Hr as [Hr0 Hr]. cbn [length] in Hr. unfold write_words. cbn [mfor].
  assert (area_ok c 4) as Ha4 by (split; lia). rewrite (bind_eq _ _ _ _ _ (write_word cpu c sl w Hc Ha4)).
  set (c1 := cp_set_addr _ _). assert (card_ready c1) as Hc1 by (by apply ready_word).
  assert (∀ v x m m', cp_set_addr v (with_ram m (cp_set_addr x (with_ram m' c))) = cp_set_addr v (with_ram m c)) as Hset by (by destruct c).
  change (program_bytes (w :: ws)) with (le_bytes 4 w ++ program_bytes ws). rewrite list_inserts_app_l, length_le_bytes.
  destruct ws as [|w' ws'].
  { cbn [mfor program_bytes mbind list_bind list_inserts]. unfold mret, M_ret, c1, stored. do 5 f_equal. }
  cbn [length] in Hr. change (mfor (w' :: ws') _) with (write_words (w' :: ws')).
  assert (cp_addr c1 = cp_addr c + 4) as E1 by (unfold c1; cbn [cp_set_addr cp_addr]; apply Z.mod_small; lia).
  assert (cp_ram_size c1 = cp_ram_size c) as E2 by done.
  assert (bus_ram (cp_bus c1) = stored (bus_ram (cp_bus c)) 4 (cp_addr c) w) as E3 by done.
  assert (∀ v m, cp_set_addr v (with_ram m c1) = cp_set_addr v (with_ram m c)) as E4 by (intros; unfold c1; apply Hset).
  clearbody c1. rewrite IH; [|done | lia | unfold area_ok; cbn [length]; lia]. rewrite E4, E1, E2, E3.
  replace (cp_addr c + 4 + 4 * Z.of_nat (length (w' :: ws'))) with (cp_addr c + 4 * Z.of_nat (length (w :: w' :: ws'))) by (cbn [length]; lia).
  replace (Z.to_nat (cp_addr c + 4)) with (4 + Z.to_nat (cp_addr c))%nat by lia. reflexivity.
Qed.

(** ** Starting it *)

(** What the guest does: ADDR, DATA for each word, ENTRY, RESET, RUN. *)
Definition load_and_start (base entry : Z) (ws : list Z) : CARD unit :=
  coproc_reg_write 0x18 OPENBUS_SIZE_32 base;;
  write_words ws;;
  coproc_reg_write 0x14 OPENBUS_SIZE_32 entry;;
  coproc_reg_write 0x0c OPENBUS_SIZE_32 CTRL_RESET;;
  coproc_reg_write 0x0c OPENBUS_SIZE_32 CTRL_RUN.

#[local] Ltac at_register r := unfold coproc_reg_write; cbv zeta; replace (r .&~ 3) with r by (by vm_compute);
  cbn [switch existsb orb Z.eqb Pos.eqb REG_DATA REG_CTLDATA]; reflexivity.
Lemma write_addr_at sz v : (coproc_reg_write 0x18 sz v : CARD unit) =
  cp_mod (λ c, cp_set_addr (if nz (cp_ram_size c) then v mod cp_ram_size c else 0) c).
Proof. at_register 0x18. Qed.
Lemma write_entry_at sz v : (coproc_reg_write 0x14 sz v : CARD unit) = cp_mod (cp_set_entry v).
Proof. at_register 0x14. Qed.
Lemma write_ctrl_at sz v : (coproc_reg_write 0x0c sz v : CARD unit) = write_ctrl v.
Proof. at_register 0x0c. Qed.
Lemma write_mapoff_at sz v : (coproc_reg_write 0x58 sz v : CARD unit) = on_bus (modify (λ b, bus_set_map v (bus_map_count b) b)).
Proof. at_register 0x58. Qed.
Lemma write_dmalocal_at sz v : (coproc_reg_write 0x40 sz v : CARD unit) = cp_mod (cp_set_dma_local v).
Proof. at_register 0x40. Qed.

Definition reset_card (c : coproc_state) : coproc_state :=
  cp_set_dma_busy 0 (cp_set_dma_to_host 0 (cp_set_dma_len 0 (cp_set_dma_local 0 (cp_set_dma_host 0
    (cp_set_stop_reported 0 (cp_set_mbox_rx 0 (cp_set_mbox_tx 0 (cp_set_addr 0 (cp_set_ctrl 0 c))))))))).
Definition started (base entry : Z) (ws : list Z) (c : coproc_state) : coproc_state :=
  cp_set_ctrl CTRL_RUN (reset_card (cp_set_entry entry
    (with_ram (list_inserts (Z.to_nat base) (program_bytes ws) (bus_ram (cp_bus c))) c))).

(** The registers of the card that the reset clears do not depend on what they held. *)
#[local] Ltac by_fields c := destruct c; cbv [reset_card with_ram
  cp_set_has_ram cp_set_ram_size cp_set_ctrl cp_set_entry cp_set_addr cp_set_mbox_tx cp_set_mbox_rx cp_set_irq
  cp_set_stop_reported cp_set_dma_host cp_set_dma_local cp_set_dma_len cp_set_dma_to_host cp_set_dma_control
  cp_set_dma_busy cp_set_has_ctl cp_set_ctl_size cp_set_ctl_addr cp_set_bus cp_set_bus_hook cp_set_regsel
  cp_set_runfor cp_set_stop_reason cp_set_irqctrl cp_has_ram cp_ram_size cp_ctrl cp_entry cp_addr cp_mbox_tx
  cp_mbox_rx cp_irq cp_stop_reported cp_dma_host cp_dma_local cp_dma_len cp_dma_to_host cp_dma_control
  cp_dma_busy cp_has_ctl cp_ctl_size cp_ctl_addr cp_bus cp_bus_hook cp_regsel cp_runfor cp_stop_reason
  cp_irqctrl]; reflexivity.
Lemma reset_addr e x y m c :
  reset_card (cp_set_entry e (cp_set_addr x (with_ram m (cp_set_addr y c)))) = reset_card (cp_set_entry e (with_ram m c)).
Proof. by_fields c. Qed.
Lemma reset_reported v c : cp_set_stop_reported 0 (cp_set_ctrl v (reset_card c)) = cp_set_ctrl v (reset_card c).
Proof. by_fields c. Qed.

Lemma write_reset_run (s : rv32i_state) c sl : cp_irq c = 0 →
  (write_ctrl CTRL_RESET : CARD unit) (s, (c, sl)) = Some (tt, (rv32i_reset (cp_entry c) s, (reset_card c, sl))).
Proof.
  intros Hirq. unfold write_ctrl. replace (nz (CTRL_RESET .& CTRL_RESET)) with true by (by vm_compute). cbn iota.
  unfold coproc_reset. erewrite bind_eq.
  2:{ unfold coproc_drop_irq. erewrite bind_eq; [|unfold cp_get, gets; cbn [fst snd]; rewrite Hirq; reflexivity].
      replace (nz 0) with false by (by vm_compute). unfold when. reflexivity. }
  erewrite bind_eq; [|unfold cp_mod, modify; cbn [fst snd]; reflexivity].
  erewrite bind_eq; [|unfold cp_get, gets; cbn [fst snd]; reflexivity]. reflexivity.
Qed.
Lemma write_start_run (s : rv32i_state) c sl : rv_halted s = 0 → rv_faulted s = 0 →
  (write_ctrl CTRL_RUN : CARD unit) (s, (c, sl)) = Some (tt, (s, (cp_set_stop_reported 0 (cp_set_ctrl CTRL_RUN c), sl))).
Proof.
  intros Hh Hf. unfold write_ctrl. replace (nz (CTRL_RUN .& CTRL_RESET)) with false by (by vm_compute).
  replace (CTRL_RUN .& (CTRL_RUN .| CTRL_IRQ_ON_HALT)) with CTRL_RUN by (by vm_compute).
  replace (nz (CTRL_RUN .& CTRL_STEP)) with false by (by vm_compute). cbn iota.
  erewrite bind_eq; [|unfold cp_mod, modify; cbn [fst snd]; reflexivity].
  erewrite bind_eq; [|unfold cp_get, gets; cbn [fst snd]; reflexivity]. cbn [cp_set_ctrl cp_ctrl].
  erewrite bind_eq; [|unfold cpu_get, gets; cbn [fst snd]; reflexivity]. cbn [co_halted co_faulted ops_rv32i fst snd id].
  rewrite Hh, Hf. replace (nz (CTRL_RUN .& CTRL_RUN)) with true by (by vm_compute). replace (nz 0) with false by (by vm_compute).
  unfold when. cbn [negb andb]. erewrite bind_eq; [|unfold cp_mod, modify; cbn [fst snd]; reflexivity]. reflexivity.
Qed.

Lemma load_and_start_run base entry ws (s : rv32i_state) c sl : card_ready c → cp_irq c = 0 →
  0 ≤ base → base + 4 * Z.of_nat (length ws) ≤ cp_ram_size c → base < cp_ram_size c →
  load_and_start base entry ws (s, (c, sl)) = Some (tt, (rv32i_reset entry s, (started base entry ws c, sl))).
Proof.
  intros Hc Hirq Hb Hr Hl. unfold load_and_start. rewrite write_addr_at, write_entry_at, !write_ctrl_at.
  destruct (ready_length c Hc) as [_ Hsize].
  rewrite (bind_eq _ _ _ tt (s, (cp_set_addr base c, sl))).
  2:{ unfold cp_mod, modify, nz. cbn [fst snd]. rewrite (proj2 (Z.eqb_neq _ _)) by lia. cbn [negb]. by rewrite Z.mod_small by lia. }
  assert (card_ready (cp_set_addr base c)) as Hc1 by (by destruct Hc).
  assert (0 ≤ cp_addr (cp_set_addr base c) < cp_ram_size (cp_set_addr base c)) as Ha by (cbn; lia).
  assert (area_ok (cp_set_addr base c) (4 * Z.of_nat (length ws))) as Hroom by (unfold area_ok; cbn; lia).
  rewrite (bind_eq _ _ _ _ _ (write_words_run ws s _ sl Hc1 Ha Hroom)). cbn [cp_set_addr cp_addr cp_bus].
  set (m := list_inserts _ _ _). set (c2 := cp_set_addr _ _).
  erewrite bind_eq; [|unfold cp_mod, modify; cbn [fst snd]; reflexivity].
  rewrite (bind_eq _ _ _ _ _ (write_reset_run s (cp_set_entry entry c2) sl Hirq)).
  rewrite write_start_run by done. unfold c2. rewrite reset_addr, reset_reported. reflexivity.
Qed.
(** ** Running it *)

Lemma program_bytes_ok ws : Forall byte (program_bytes ws).
Proof.
  induction ws as [|w ws IH]; [constructor|]. change (program_bytes (w :: ws)) with (le_bytes 4 w ++ program_bytes ws).
  apply Forall_app. split; [apply le_bytes_ok | exact IH].
Qed.

(** The processor as the card has fitted it. *)
Definition fitted (s : rv32i_state) (c : coproc_state) : Prop :=
  rv_mem s = mkHook true true 0 ∧ rv_has_ram s = true ∧ rv_ram_size s = cp_ram_size c.
Definition flat_of (s : rv32i_state) (b : copro_bus) : rv32i_state := bare (Z.of_nat (length (low_ram b))) s.

Lemma reset_flat entry (s : rv32i_state) b : plain_bus b → w32 entry → (∀ r, w32 (rv_x s !!! r)) →
  rv_flat (rv32i_reset entry (flat_of s b)) (low_ram b).
Proof.
  intros Hb He Hx. pose proof (low_length b Hb).
  split; try done.
  - lia.
  - apply Forall_take, (bo_ram_bytes _ (pb_ok _ Hb)).
  - cbn [flat_of bare rv32i_reset rv_x rv_set_ram rv_set_mem rv_set_stall rv_set_cycles rv_set_fault rv_set_halt rv_set_pc rv_set_x]. rewrite arr_fill_lookup. by rewrite decide_True by (unfold RV32I_REGS; lia).
  - intros r. cbn. rewrite arr_fill_lookup. by case_decide.
Qed.
Lemma hooked_reset entry (s : rv32i_state) c b : fitted s c →
  hooked (cp_ram_size c) (rv32i_reset entry (flat_of s b)) = rv32i_reset entry s.
Proof. destruct s. intros (E1 & E2 & E3). cbn in E1, E2, E3. by subst. Qed.
Lemma hooked_after entry (s : rv32i_state) c b k h e : fitted s c →
  hooked (cp_ram_size c) (after_run k h e (rv32i_reset entry (flat_of s b))) = after_run k h e (rv32i_reset entry s).
Proof.
  intros Hs. rewrite <- (hooked_reset entry s c b Hs). generalize (rv32i_reset entry (flat_of s b)). intros z.
  destruct e; unfold after_run, hooked; reflexivity.
Qed.

Definition finished (x10 : Z) (c : coproc_state) : coproc_state :=
  cp_set_ctrl 0 (cp_set_mbox_rx x10 (cp_set_stop_reported 1 (cp_set_stop_reason STOP_HALTED c))).

(** The card after its processor has stopped, of itself, within its budget. *)
Lemma after_halt_run ran (s : rv32i_state) c sl : cp_runfor c = 0 → cp_stop_reported c = 0 → cp_ctrl c = CTRL_RUN →
  rv_halted s = 1 → rv_faulted s = 0 →
  (after_core_run ran : CARD unit) (s, (c, sl)) = Some (tt, (s, (finished (rv_exit_code s) c, sl))).
Proof.
  intros Hrun Hrep Hctrl Hh Hfa. unfold after_core_run.
  erewrite bind_eq; [|unfold cp_get, gets; cbn [fst snd]; rewrite Hrun; reflexivity].
  replace (nz 0) with false by (by vm_compute). cbn [when]. rewrite (bind_eq _ _ _ tt (s, (c, sl))) by done.
  erewrite bind_eq; [|unfold cpu_get, gets; cbn [fst snd]; reflexivity]. cbn [co_halted co_faulted co_stalled ops_rv32i id].
  rewrite Hh, Hfa. replace (nz 0) with false by (by vm_compute). replace (nz 1) with true by (by vm_compute). cbn iota.
  erewrite bind_eq; [|unfold cp_mod, modify; cbn [fst snd]; reflexivity]. unfold coproc_note_stop.
  erewrite bind_eq; [|unfold cp_get, gets; cbn [fst snd cp_set_stop_reason cp_stop_reported]; rewrite Hrep; reflexivity].
  erewrite bind_eq; [|unfold cpu_get, gets; cbn [fst snd]; reflexivity]. cbn [co_halted co_faulted co_exit_code ops_rv32i id].
  rewrite Hh, Hfa. replace (nz 0) with false by (by vm_compute). replace (nz 1) with true by (by vm_compute). cbn [negb andb when].
  erewrite bind_eq; [|unfold cp_mod, modify; cbn [fst snd]; reflexivity].
  erewrite bind_eq; [|unfold cp_mod, modify; cbn [fst snd]; reflexivity].
  erewrite bind_eq; [|unfold cp_mod, modify; cbn [fst snd]; reflexivity].
  erewrite bind_eq; [|unfold cp_get, gets; cbn [fst snd cp_set_ctrl cp_ctrl cp_set_mbox_rx cp_set_stop_reported cp_set_stop_reason]; rewrite Hctrl; reflexivity].
  replace (nz (CTRL_RUN .&~ CTRL_RUN .& CTRL_IRQ_ON_HALT)) with false by (by vm_compute).
  replace (CTRL_RUN .&~ CTRL_RUN) with 0 by (by vm_compute). unfold when, mret, M_ret. reflexivity.
Qed.

(** Loaded, started and given [n] cycles, the card has done what the program does
    on a hart of the manual, if it ends by itself within [n] instructions. *)
Lemma program_run n base entry ws (s : rv32i_state) c sl k h e :
  card_ready c → cp_irq c = 0 → cp_runfor c = 0 → fitted s c → (∀ r, w32 (rv_x s !!! r)) →
  0 ≤ base → base + 4 * Z.of_nat (length ws) ≤ cp_ram_size c → base < cp_ram_size c → w32 entry →
  let m := list_inserts (Z.to_nat base) (program_bytes ws) (bus_ram (cp_bus c)) in
  let h0 := mkHart (rv_x (rv32i_reset entry s)) entry (low m) in
  all_coded n h0 → isa_run n h0 = (k, h, Stopped e) →
  (load_and_start base entry ws;; coproc_run (Z.of_nat n)) (s, (c, sl)) =
  Some (Some k, (after_run k h (Stopped e) (rv32i_reset entry s),
    (finished (h_x h !!! 10) (cp_set_bus (bus_set_ram (h_mem h ++ drop low_size m) (cp_bus c)) (started base entry ws c)), sl))).
Proof.
  intros Hc Hirq Hrf Hs Hx Hb Hr Hl He m h0 Hcoded Hrun. destruct n as [|n]; [discriminate|].
  rewrite (bind_eq _ _ _ _ _ (load_and_start_run base entry ws s c sl Hc Hirq Hb Hr Hl)).
  set (c1 := started base entry ws c). assert (cp_bus c1 = bus_set_ram m (cp_bus c)) as Ebus by done.
  assert (length m = length (bus_ram (cp_bus c))) as Hlen by apply length_inserts.
  assert (Forall byte m) as Hbytes.
  { unfold m. apply inserts_bytes; [apply program_bytes_ok | apply (bo_ram_bytes _ (pb_ok _ (cr_bus _ Hc)))]. }
  assert (plain_bus (cp_bus c1)) as Hp1 by (rewrite Ebus; apply (cr_bus _ (ready_with_ram c m Hc Hlen Hbytes))).
  pose proof (reset_flat entry s _ Hp1 He Hx) as Hf. set (s0 := rv32i_reset entry (flat_of s (cp_bus c1))) in *.
  assert (hart_of s0 (low_ram (cp_bus c1)) = h0) as Eh by (by rewrite Ebus).
  pose proof (hooked_run (Datatypes.S n) (Datatypes.S n) 0 s0 (cp_bus c1) Hf Hp1 eq_refl) as Hrun'. rewrite Eh, Hrun in Hrun'.
  specialize (Hrun' Hcoded (le_n _) ltac:(done)). rewrite !Z.add_0_l in Hrun'.
  assert (bus_ram_size (cp_bus c1) = cp_ram_size c) as Esz by (rewrite Ebus; symmetry; apply (cr_size _ Hc)).
  rewrite Esz in Hrun'. unfold s0 in Hrun'. rewrite hooked_reset, hooked_after in Hrun' by done.
  pose proof (lifts_run hook_set get_bus put_bus (Datatypes.S n) 0 (Z.of_nat (Datatypes.S n)) (rv32i_reset entry s) (c1, sl)) as Hlift.
  specialize (Hlift _ _ _ (conj (cr_read _ Hc) (cr_write _ Hc)) Hrun').
  unfold coproc_run. rewrite (proj2 (Z.leb_gt _ _)) by lia.
  erewrite bind_eq; [|unfold cp_get, gets; cbn [fst snd]; reflexivity]. change (cp_dma_busy c1) with 0. replace (nz 0) with false by (by vm_compute). cbn iota.
  rewrite (bind_eq _ _ _ 0 (rv32i_reset entry s, (c1, sl))) by done.
  erewrite bind_eq; [|unfold cp_get, gets; cbn [fst snd]; reflexivity]. unfold id. change (cp_ctrl c1) with CTRL_RUN. change (cp_runfor c1) with (cp_runfor c). rewrite Hrf.
  replace (nz (CTRL_RUN .& CTRL_RUN)) with true by (by vm_compute). rewrite (proj2 (Z.ltb_lt _ _)) by lia. cbn [andb].
  unfold run_budget. replace (nz 0) with false by (by vm_compute). cbn [andb]. rewrite Z.sub_0_r. cbn [co_run ops_rv32i]. unfold rv32i_run. rewrite Nat2Z.id.
  rewrite (bind_eq _ _ _ _ _ Hlift). unfold put_bus. cbn [fst snd].
  erewrite bind_eq; [|apply after_halt_run; [exact Hrf | reflexivity..]].
  reflexivity.
Qed.
(** The result, as the guest reads it. *)
Lemma read_result_run (cpu : rv32i_state) c sl :
  (coproc_reg_read 0x24 OPENBUS_SIZE_32 : CARD Z) (cpu, (c, sl)) = Some (cp_mbox_rx c, (cpu, (c, sl))).
Proof.
  unfold coproc_reg_read. cbv zeta. replace (0x24 .&~ 3) with 0x24 by (by vm_compute).
  cbn [Z.eqb Pos.eqb REG_DATA REG_CTLDATA]. unfold coproc_read_word. rewrite bind_run.
  erewrite bind_eq; [|unfold cp_get, gets; cbn [fst snd]; reflexivity].
  erewrite bind_eq; [|unfold cpu_get, gets; cbn [fst snd]; reflexivity]. cbv zeta.
  cbn [switch existsb orb Z.eqb Pos.eqb]. unfold mret, M_ret, id. reflexivity.
Qed.
End program.
