(* ===== verification/CoproTheorems.v ===== *)
(** What is proved of the co-processor card with the RV32IM processor: the
    processor against the manual, the decode against its contract, and the card,
    its slices of time and its interrupt line. *)

From S2P Require Import CoproProgram.

(** * The processor on its own *)

(** C20: [rv32i_run] over the processor's own RAM is a run of a hart of the RV32IM
    manual: it executes as many instructions, ends in the same registers, PC and
    memory, and as running, trapped or stopped just when the hart is; but for a
    jump or a taken branch to a target that is not four-byte aligned. The manual
    has that instruction trap, with nothing written and the PC on it; the processor
    lets it retire, link register and count included, and traps on the target when
    it next fetches. *)
Theorem processor_refines_isa (s : rv32i_state) (m : list Z) (n : nat) :
  rv_flat s m → u64 (rv_cycles s) = rv_cycles s → all_coded n (hart_of s m) →
  let '(k, h, e) := isa_run n (hart_of s m) in
  ((∀ c v, e = Trapped c v → jump_trap c v h = false) →
    rv32i_run (Z.of_nat n) (s, m) = Some (Some k, (after_run k h e s, h_mem h))) ∧
  (∀ c v, e = Trapped c v → jump_trap c v h = true →
    rv32i_run (Z.of_nat n) (s, m) = Some (Some (k + 1),
      (after_run (k + 1) (jumped v h) (if k + 1 <? Z.of_nat n then e else Running) s, h_mem h))).
Proof.
  intros Hf Hc Ha. pose proof (run_loop_run n n 0 s m Hf Hc Ha (le_n n)) as H. unfold rv32i_run. rewrite Nat2Z.id.
  unfold late_run in H. destruct (isa_run n (hart_of s m)) as [[k h] e]. rewrite !Z.add_0_l in H. split.
  - intros He. destruct e as [|c v|]; [exact H | | exact H]. by rewrite (He c v) in H.
  - intros c v -> Hj. rewrite Hj in H. by rewrite jumped_mem in H.
Qed.

(** C22: an assembled instruction in RAM at the PC is decoded and executed as that
    instruction, whatever its operands and immediate: where the manual has it
    retire, trap or stop, so it does, and with the same effect; except that a jump
    or a taken branch which the manual traps for its misaligned target retires. *)
Theorem instruction_round_trip (s : rv32i_state) (m : list Z) (i : instr) :
  rv_flat s m → instr_ok i → rv_pc s mod 4 = 0 → rv_pc s + 4 ≤ Z.of_nat (length m) →
  take 4 (drop (Z.to_nat (rv_pc s)) m) = le_bytes 4 (encode i) →
  rv32i_step (s, m) = Some (match exec i (hart_of s m) with
    | Retire h => (1, (retired h s, h_mem h))
    | Trap c v =>
        if is_jump i then (1, (retired (jump_done i v (hart_of s m)) s, m)) else (0, (rv_set_fault 1 c v s, m))
    | Stop e h => (1, (stopped e h s, m))
    end).
Proof.
  intros Hf Hi Hal Hfit Hcode.
  assert (w32 (encode i)) as Hw by (exact (encode_range i Hi)).
  assert (fetched (hart_of s m) = encode i) as Hfetch.
  { unfold fetched. cbn [hart_of h_pc h_mem]. rewrite Hcode, le_value_bytes by (apply Hw). apply Z.mod_small. exact Hw. }
  assert (well_coded (hart_of s m)) as Hwell by (unfold well_coded; rewrite Hfetch; by apply encode_well_coded).
  rewrite (rv32i_step_run s m Hf Hwell), late_step_exec by done. rewrite Hfetch, decode_encode by done.
  unfold late_exec. destruct (exec i (hart_of s m)) as [h|c v|e h] eqn:E; try done.
  rewrite <- (exec_trap_jump _ _ _ _ E). by destruct (c =? 0).
Qed.

(** * A program on the card *)

(** The guest loads a program through the aperture, starts it, gives the card [n]
    cycles and reads the mailbox. *)
Definition run_program {K H : Type} `{!OpenBusHost H, !PortArea rv32i_state} (base entry : Z) (ws : list Z) (n : nat) :
  M (rv32i_state * (coproc_state * (openbus K * H))) (option Z * Z) :=
  load_and_start base entry ws;;
  ran ← coproc_run (Z.of_nat n);
  result ← coproc_reg_read 0x24 OPENBUS_SIZE_32;
  mret (ran, result).

(** C21: a program that ends by ECALL or EBREAK within its budget, loaded and
    started through the card's registers with the processor behind the decode, does
    what it does on a hart of the manual: the guest reads the hart's a0, and the
    card's RAM is the hart's memory. The card has no region map set and no access
    waiting ([card_ready]), and RAM of any size; the hart's memory is the first
    64K of it, all that the processor reaches before the bit of the ports, and
    the rest is as it was loaded. *)
Theorem program_result_is_the_harts {K H : Type} `{!OpenBusHost H, !PortArea rv32i_state}
  (base entry : Z) (ws : list Z) (n : nat) (s : rv32i_state) (c : coproc_state) (sl : openbus K * H) (k : Z) (h : hart) (e : bool) :
  card_ready c → cp_irq c = 0 → cp_runfor c = 0 → fitted s c → (∀ r, w32 (rv_x s !!! r)) →
  0 ≤ base → base + 4 * Z.of_nat (length ws) ≤ cp_ram_size c → base < cp_ram_size c → w32 entry →
  let m := list_inserts (Z.to_nat base) (program_bytes ws) (bus_ram (cp_bus c)) in
  let h0 := mkHart (arr_fill 0 32 (λ _, 0) (rv_x s)) entry (low m) in
  all_coded n h0 → isa_run n h0 = (k, h, Stopped e) →
  ∃ s' c', run_program base entry ws n (s, (c, sl)) = Some ((Some k, h_x h !!! 10), (s', (c', sl))) ∧
    bus_ram (cp_bus c') = h_mem h ++ drop low_size m ∧ rv_x s' = h_x h ∧ rv_pc s' = h_pc h ∧ rv_cycles s' = k mod 2 ^ 64 ∧
    cp_stop_reason c' = STOP_HALTED ∧ run_set (s', (c', sl)) = false.
Proof.
  intros Hc Hirq Hrf Hs Hx Hb Hr Hl He m h0 Hcoded Hrun.
  pose proof (program_run n base entry ws s c sl k h e Hc Hirq Hrf Hs Hx Hb Hr Hl He Hcoded Hrun) as E.
  apply bind_Some in E as ([] & st & E1 & E2). unfold run_program. rewrite (bind_eq _ _ _ _ _ E1), (bind_eq _ _ _ _ _ E2), (bind_eq _ _ _ _ _ (read_result_run _ _ sl)). eexists _, _. split; [reflexivity|]. by split_and!.
Qed.

(** ** An example *)

(** x10 is 20, then 40, then 42, which is stored. *)
Definition demo_code : list instr :=
  [OpImm ADDI 10 0 20; OpReg ADD 10 10 10; OpImm ADDI 10 10 2; Store SW 0 10 40; Ecall].
Definition demo_words : list Z := encode <$> demo_code.
Definition demo_ram : list Z := program_bytes demo_words ++ replicate 44 0.
Definition blank_cpu : rv32i_state := mkRv ∅ 0 false 0 0 0 0 0 0 0 0 no_hook 0 0 0 (∅, 0).
Definition demo_cpu : rv32i_state := rv32i_init true 64 blank_cpu.

Lemma demo_flat : rv_flat demo_cpu demo_ram.
Proof.
  assert (Forall byte demo_ram) as Hb.
  { apply Forall_app. split; [apply program_bytes_ok|]. by apply Forall_replicate. }
  split; try done.
  intros r. unfold demo_cpu, rv32i_init, rv32i_reset. cbn [rv_x rv_set_ram rv_set_stall rv_set_cycles rv_set_fault rv_set_halt rv_set_pc rv_set_x rv_set_mem].
  rewrite arr_fill_lookup. by case_decide.
Qed.

(** A jump to an address that is not four-byte aligned. *)
Definition bad_ram : list Z := program_bytes [encode (Jal 1 6)] ++ replicate 12 0.
Definition bad_cpu : rv32i_state := rv32i_init true 16 blank_cpu.
Lemma bad_flat : rv_flat bad_cpu bad_ram.
Proof.
  assert (Forall byte bad_ram) as Hb by (apply Forall_app; split; [apply program_bytes_ok | by apply Forall_replicate]).
  split; try done.
  intros r. unfold bad_cpu, rv32i_init, rv32i_reset. cbn [rv_x rv_set_ram rv_set_stall rv_set_cycles rv_set_fault rv_set_halt rv_set_pc rv_set_x rv_set_mem].
  rewrite arr_fill_lookup. by case_decide.
Qed.

Lemma processor_refines_isa_witness : rv_flat demo_cpu demo_ram ∧
  (∃ k h, isa_run 5 (hart_of demo_cpu demo_ram) = (k, h, Stopped false) ∧ k = 5 ∧ h_x h !!! 10 = 42 ∧
    rv32i_run 5 (demo_cpu, demo_ram) = Some (Some k, (after_run k h (Stopped false) demo_cpu, h_mem h))) ∧
  (isa_run 5 (hart_of bad_cpu bad_ram) = (0, hart_of bad_cpu bad_ram, Trapped 0 6) ∧
    ∃ s', rv32i_run 5 (bad_cpu, bad_ram) = Some (Some 1, (s', bad_ram)) ∧ rv_x s' !!! 1 = 4 ∧ rv_pc s' = 6 ∧ rv_cycles s' = 1).
Proof.
  split; [exact demo_flat|]. split.
  - assert (coded 5 (hart_of demo_cpu demo_ram) = true) as Hc by (by vm_compute).
    pose proof (processor_refines_isa demo_cpu demo_ram 5 demo_flat eq_refl (coded_all _ _ Hc)) as H.
    assert (∃ h, isa_run 5 (hart_of demo_cpu demo_ram) = (5, h, Stopped false) ∧ h_x h !!! 10 = 42) as (h & E & Ex).
    { eexists. split; [vm_compute; reflexivity|]. by vm_compute. }
    rewrite E in H. destruct H as [H _]. exists 5, h. split_and!; [exact E | reflexivity | exact Ex | apply H; discriminate].
  - assert (coded 5 (hart_of bad_cpu bad_ram) = true) as Hc by (by vm_compute).
    pose proof (processor_refines_isa bad_cpu bad_ram 5 bad_flat eq_refl (coded_all _ _ Hc)) as H.
    assert (isa_run 5 (hart_of bad_cpu bad_ram) = (0, hart_of bad_cpu bad_ram, Trapped 0 6)) as E by (vm_compute; reflexivity).
    rewrite E in H. destruct H as [_ H]. specialize (H 0 6 eq_refl ltac:(by vm_compute)). split; [exact E|].
    eexists. split; [exact H|]. vm_compute. by split_and!.
Defined.

Lemma instruction_round_trip_witness : instr_ok (OpImm ADDI 10 0 20) ∧ instr_ok (Jal 1 6) ∧
  rv32i_step (demo_cpu, demo_ram) =
    Some (1, (retired (mkHart (<[10 := 20]> (rv_x demo_cpu)) 4 demo_ram) demo_cpu, demo_ram)) ∧
  rv32i_step (bad_cpu, bad_ram) =
    Some (1, (retired (mkHart (<[1 := 4]> (rv_x bad_cpu)) 6 bad_ram) bad_cpu, bad_ram)).
Proof.
  assert (instr_ok (OpImm ADDI 10 0 20)) as Hi by (unfold instr_ok, reg_ok, imm12_ok; lia). split; [exact Hi|].
  assert (instr_ok (Jal 1 6)) as Hj by (unfold instr_ok, reg_ok; split_and!; reflexivity || lia). split; [exact Hj|].
  assert (take 4 (drop (Z.to_nat (rv_pc demo_cpu)) demo_ram) = le_bytes 4 (encode (OpImm ADDI 10 0 20))) as Hcode by (by vm_compute).
  assert (rv_pc demo_cpu + 4 ≤ Z.of_nat (length demo_ram)) as Hfit by (by vm_compute).
  assert (take 4 (drop (Z.to_nat (rv_pc bad_cpu)) bad_ram) = le_bytes 4 (encode (Jal 1 6))) as Hcode' by (by vm_compute).
  assert (rv_pc bad_cpu + 4 ≤ Z.of_nat (length bad_ram)) as Hfit' by (by vm_compute). split.
  - exact (instruction_round_trip demo_cpu demo_ram (OpImm ADDI 10 0 20) demo_flat Hi eq_refl Hfit Hcode).
  - exact (instruction_round_trip bad_cpu bad_ram (Jal 1 6) bad_flat Hj eq_refl Hfit' Hcode').
Defined.

(** * The program's witness *)

Definition demo_host : OpenBusHost Z :=
  {| oh_read32 := Some (λ _, mret 0); oh_write32 := Some (λ _ _, mret tt);
     oh_set_irq := Some (λ v _, Some (tt, v)); oh_set_fiq := Some (λ _, mret tt) |}.
Definition demo_ports : PortArea rv32i_state := {| port_get _ _ := 0; port_put s _ _ := s |}.
Definition demo_bus : copro_bus := copro_bus_init true (replicate 64 0) 64 true (replicate 64 0) 64.
Definition demo_card : coproc_state :=
  cp_set_bus_hook (mkHook true true 0) (cp_set_bus demo_bus (cp_set_ram_size 64 (cp_set_has_ram true
    (cp_set_ctl_size 64 (cp_set_has_ctl true coproc_zero))))).
Definition demo_slot : openbus unit * Z := (mkOpenBus true (Some tt) 0 0, 0).

Lemma demo_bus_ok : bus_ok demo_bus.
Proof. split; try done; first [by apply Forall_replicate | by left]. Qed.
Lemma demo_card_ready : card_ready demo_card.
Proof. split; try done. split; try done. exact demo_bus_ok. Qed.

Lemma program_result_is_the_harts_witness : card_ready demo_card ∧
  ∃ s' c' h, h_x h !!! 10 = 42 ∧
    @run_program unit Z demo_host demo_ports 8 8 demo_words 9 (hooked 64 demo_cpu, (demo_card, demo_slot)) =
      Some ((Some 5, 42), (s', (c', demo_slot))) ∧ bus_ram (cp_bus c') = h_mem h ++ [].
Proof.
  split; [exact demo_card_ready|].
  assert (fitted (hooked 64 demo_cpu) demo_card) as Hf by (split_and!; by vm_compute).
  assert (cp_irq demo_card = 0 ∧ cp_runfor demo_card = 0 ∧ 0 ≤ 8 < cp_ram_size demo_card ∧ w32 8) as (H1 & H2 & [H3 H4] & H5) by (vm_compute; repeat split; discriminate).
  assert (∀ r, w32 (rv_x (hooked 64 demo_cpu) !!! r)) as Hx by exact (fl_x _ _ demo_flat).
  assert (8 + 4 * Z.of_nat (length demo_words) ≤ cp_ram_size demo_card) as Hfit by (by vm_compute).
  set (m := list_inserts (Z.to_nat 8) (program_bytes demo_words) (bus_ram (cp_bus demo_card))).
  set (h0 := mkHart (arr_fill 0 32 (λ _, 0) (rv_x (hooked 64 demo_cpu))) 8 (low m)).
  assert (all_coded 9 h0) as Hc by (apply coded_all; by vm_compute).
  assert (∃ h, isa_run 9 h0 = (5, h, Stopped false) ∧ h_x h !!! 10 = 42) as (h & Er & Ex).
  { eexists. split; [vm_compute; reflexivity|]. by vm_compute. }
  destruct (@program_result_is_the_harts unit Z demo_host demo_ports 8 8 demo_words 9 (hooked 64 demo_cpu) demo_card demo_slot 5 h false
    demo_card_ready H1 H2 Hf Hx H3 Hfit H4 H5 Hc Er) as (s' & c' & E & Em & _).
  assert (drop low_size m = []) as Hrest by (by vm_compute). unfold m in Hrest. rewrite Hrest in Em. rewrite Ex in E. exists s', c', h. split_and!; [exact Ex | exact E | exact Em].
Defined.

(** * The processor behind any hook *)

(** C23: behind any hook that leaves the processor itself alone ([CpuMemOk]: its
    accesses change what is behind it and not the processor), a run of the processor
    ends within its budget, leaves some of the budget only if it halted, faulted or
    stalled, and keeps x0 zero and the other registers, the PC and the saved state
    words. The array and the decode are such hooks; the card's own is one but for a
    byte stored with bit 16 of its address set and no port region there, which it
    writes over the processors' union. *)
Theorem processor_keeps_its_state {W : Type} `{!CpuMem W} (I : W → Prop) `{!CpuMemOk W I}
  (n : Z) (s : rv32i_state) (w : W) r s' w' :
  0 ≤ n → rv_inv I (s, w) → rv32i_run n (s, w) = Some (r, (s', w')) →
  rv_inv I (s', w') ∧ ∃ k, r = Some k ∧ 0 ≤ k ≤ n ∧ (k < n → idle s' = true).
Proof.
  intros Hn HI E. split; [exact (hoare_run _ _ _ (s, w) _ _ (inv_run I _ 0 n) HI E)|].
  assert (Z.to_nat (n - 0) ≤ Z.to_nat n)%nat as Hf by lia. exact (run_loop_returns _ 0 n _ _ _ Hn Hf E).
Qed.


(** * The address decode *)

(** What the processor and the guest do to it. *)
Inductive bus_op :=
  | OpRead (addr : Z) (is_port : bool) | OpWrite (addr : Z) (is_port : bool) (cycle value : Z)
  | OpSetMap (offset count : Z) | OpSetLog (offset entries : Z) | OpLogPop | OpResume (value : Z) | OpCanStall.
Definition bus_op_run (op : bus_op) : M copro_bus unit :=
  match op with
  | OpRead a p => _ ← copro_bus_read a p; mret tt
  | OpWrite a p c v => _ ← copro_bus_write a p c v; mret tt
  | OpSetMap o n => _ ← copro_bus_set_map o n; mret tt
  | OpSetLog o n => _ ← copro_bus_set_log o n; mret tt
  | OpLogPop => _ ← copro_bus_log_pop; mret tt
  | OpResume v => _ ← copro_bus_resume v; mret tt
  | OpCanStall => _ ← copro_bus_can_stall; mret tt
  end.
Definition bus_op_ok (op : bus_op) : Prop :=
  match op with
  | OpRead a _ => w32 a
  | OpWrite a _ _ _ => w32 a
  | OpSetMap o n | OpSetLog o n => w32 o ∧ w32 n
  | _ => True
  end.

Lemma bus_op_keeps op : bus_op_ok op → runs bus_ok (bus_op_run op) (λ _ b', bus_ok b').
Proof.
  intros Hop b Hb. destruct op as [a p|a p c v|o n|o n| |v|]; cbn [bus_op_run bus_op_ok] in *.
  - rewrite bind_run, (copro_bus_read_run b Hb a p Hop). pose proof (decoded_read_ok b a p Hb (w32_nonneg _ Hop)) as [_ H].
    destruct (answered b a false); [eexists _, _; split; [done | by apply bus_ok_answer_valid]|].
    destruct (decoded_read b a p). by eexists _, _.
  - rewrite bind_run, (copro_bus_write_run b Hb a p c v Hop). pose proof (decoded_write_ok b a p c v Hb) as H.
    destruct (answered b a true); [eexists _, _; split; [done | by apply bus_ok_answer_valid]|].
    destruct (decoded_write b a p c v). by eexists _, _.
  - destruct Hop as [Ho Hn]. destruct (copro_bus_set_map_ok b Hb o n Ho Hn b eq_refl) as (r & b' & E & H). rewrite (bind_eq _ _ _ _ _ E). by eexists _, _.
  - destruct Hop as [Ho Hn]. destruct (copro_bus_set_log_ok b Hb o n Ho Hn b eq_refl) as (r & b' & E & H). rewrite (bind_eq _ _ _ _ _ E). by eexists _, _.
  - rewrite bind_run, (copro_bus_log_pop_run b Hb). pose proof (pop_log_ok b Hb) as H. destruct (pop_log b) as [e b']. by eexists _, _.
  - rewrite bind_run, copro_bus_resume_run. cbv zeta. destruct (nz (bus_stalled b)); [|by eexists _, _].
    eexists _, _. split; [reflexivity|]. destruct Hb. by split.
  - rewrite (bind_eq _ _ _ _ _ (copro_bus_can_stall_run b Hb)). by eexists _, _.
Qed.

(** C25: no sequence of reads, writes, changes of the map and the log, pops and
    answers makes the decode touch memory outside the card's RAM and control area,
    whatever the guest has put in its tables. *)
Theorem decode_stays_in_its_arrays (ops : list bus_op) (b : copro_bus) :
  bus_ok b → Forall bus_op_ok ops → ∃ b', mfor ops bus_op_run b = Some (tt, b') ∧ bus_ok b'.
Proof.
  intros Hb Hops. revert b Hb. induction Hops as [|op ops Hop _ IH]; intros b Hb; [by exists b|]. cbn [mfor].
  destruct (bus_op_keeps op Hop b Hb) as ([] & b1 & E & Hb1). rewrite (bind_eq _ _ _ _ _ E). by apply IH.
Qed.

(** C26: the log of writes is a bounded queue: any sequence of pushes, pops and
    questions answers as the queue does, an entry after one or more that did not
    fit saying so. *)
Theorem write_log_is_a_queue (ops : list log_op) (b : copro_bus) :
  log_ok b → Forall op_ok ops → ∃ answers b', mapM log_op_run ops b = Some (answers, b') ∧ log_ok b' ∧
    mapM (q_op (bus_log_entries b - 1)) ops (log_of b) = Some (answers, log_of b').
Proof.
  intros Hb Hops. revert b Hb. induction Hops as [|op ops Hop _ IH]; intros b Hb; cbn [mapM]; [by exists [], b|].
  destruct (log_op_simulates op b Hb Hop) as (a & b1 & E & Hb1 & En & Eq).
  destruct (IH b1 Hb1) as (l & b2 & E2 & Hb2 & Eq2). rewrite En in Eq2.
  rewrite (bind_eq _ _ _ _ _ E), (bind_eq _ _ _ _ _ Eq), (bind_eq _ _ _ _ _ E2), (bind_eq _ _ _ _ _ Eq2). by exists (a :: l), b2.
Qed.

(** * Accesses that wait for the guest *)

(** A byte load from an address that stalls completes once the guest has
    answered: the retry retires with the guest's byte, extended as the instruction
    says, and counts as one instruction. *)
Theorem stalled_byte_load_completes (s : rv32i_state) (b : copro_bus) (op : load_op) (rd rs1 imm v : Z) :
  at_load s b op rd rs1 imm → load_size op = 1%nat → bus_answer_valid b = 0 → byte v →
  ∃ s' b', (step_and_answer v;; rv32i_step) (s, b) = Some (1, (s', b')) ∧
    rv_x s' = write_x rd (load_value op v) (rv_x s) ∧ rv_pc s' = u32 (rv_pc s + 4) ∧
    rv_cycles s' = u64 (rv_cycles s + 1) ∧ idle s' = false ∧ same_map b' b.
Proof.
  intros Hl Hn Hans Hv. assert (answered b (u32 (rv_x s !!! rs1 + imm)) false = false) as Hna by (unfold answered; by rewrite Hans).
  destruct (narrow_round s b op rd rs1 imm Hl Hn v Hv Hna) as (s1 & b1 & E1 & Hl1 & Hm1 & Ex & Ep & Ec & Ha & Eval).
  rewrite <- Ex in Ha. destruct (narrow_retires s1 b1 op rd rs1 imm Hl1 Hn Ha) as (s2 & b2 & E2 & Hm2 & _ & X & P & C & H1 & H2 & H3).
  rewrite (bind_eq _ _ _ _ _ E1). exists s2, b2. rewrite Eval, Ex in X. replace (u8 v) with v in X by (symmetry; by apply Z.mod_small). rewrite Ep in P. rewrite Ec in C.
  split_and!; [exact E2 | exact X | exact P | exact C | unfold idle; by rewrite H1, H2, H3 | by transitivity b1].
Qed.

(** C27: a wider load from addresses that stall never completes, however often and
    whatever the guest answers: the retry uses the answer up for one byte and
    stalls on another. *)
Theorem stalled_wide_load_never_completes (vs : list Z) (s : rv32i_state) (b : copro_bus) (op : load_op) (rd rs1 imm : Z) :
  at_load s b op rd rs1 imm → load_size op ≠ 1%nat →
  ∃ s' b', mapM step_and_answer vs (s, b) = Some (replicate (length vs) 0, (s', b')) ∧ at_load s' b' op rd rs1 imm ∧
    rv_x s' = rv_x s ∧ rv_pc s' = rv_pc s ∧ rv_cycles s' = rv_cycles s.
Proof.
  intros Hl Hn. revert s b Hl. induction vs as [|v vs IH]; intros s b Hl; cbn [mapM]; [by exists s, b|].
  destruct (wide_round s b op rd rs1 imm Hl Hn v) as (s1 & b1 & E & Hl1 & X & P & C).
  destruct (IH s1 b1 Hl1) as (s2 & b2 & E2 & Hl2 & X2 & P2 & C2).
  rewrite (bind_eq _ _ _ _ _ E), (bind_eq _ _ _ _ _ E2). exists s2, b2.
  split_and!; [reflexivity | exact Hl2 | congruence..].
Qed.

(** ** An example: one region, which stalls *)

Definition stall_ctl : list Z := program_bytes [48; 4; 4; 0] ++ replicate 48 0.
Definition stall_bus (op : load_op) : copro_bus :=
  bus_set_map 0 1 (copro_bus_init true (program_bytes [encode (Load op 5 0 48)] ++ replicate 60 0) 64 true stall_ctl 64).
Definition stall_cpu : rv32i_state := rv_set_mem (mkHook true true 1) demo_cpu.

Lemma stall_bus_ok op : bus_ok (stall_bus op).
Proof.
  split; try done.
  - apply Forall_app. split; [apply program_bytes_ok | by apply Forall_replicate].
  - apply Forall_app. split; [apply program_bytes_ok | by apply Forall_replicate].
  - by right.
  - by left.
Qed.
Lemma stall_at_load op : at_load stall_cpu (stall_bus op) op 5 0 48.
Proof.
  assert (u32 (rv_x stall_cpu !!! 0 + 48) = 48) as Ea by (by vm_compute).
  split; rewrite ?Ea; try done.
  - apply stall_bus_ok.
  - exists (encode (Load op 5 0 48)). split.
    + exists (encode (Load op 5 0 48) mod 256), (encode (Load op 5 0 48) / 256 mod 256),
        (encode (Load op 5 0 48) / 256 / 256 mod 256), (encode (Load op 5 0 48) / 256 / 256 / 256 mod 256).
      unfold reads. by destruct op; vm_compute; split_and!.
    + apply decode_encode. unfold instr_ok, reg_ok, imm12_ok. lia.
  - by destruct op.
  - intros i Hi. assert (0 ≤ i < 4) as Hi4 by (destruct op; cbn in Hi; lia). unfold stall_at.
    assert (i = 0 ∨ i = 1 ∨ i = 2 ∨ i = 3) as [-> | [-> | [-> | ->]]] by lia;
      (split; [by vm_compute|]; exists 0; by destruct op; vm_compute).
Qed.

Lemma processor_keeps_its_state_witness : ∃ r s' w',
  rv32i_run 9 (demo_cpu, demo_ram) = Some (r, (s', w')) ∧ rv_inv (Forall byte) (s', w') ∧ ∃ k, r = Some k ∧ 0 ≤ k ≤ 9.
Proof.
  assert (rv_inv (Forall byte) (demo_cpu, demo_ram)) as HI.
  { pose proof demo_flat as []. unfold rv_inv. cbn [fst snd]. by split_and!. }
  assert (∃ r s' w', rv32i_run 9 (demo_cpu, demo_ram) = Some (r, (s', w'))) as (r & s' & w' & E).
  { eexists _, _, _. vm_compute. reflexivity. }
  exists r, s', w'. destruct (processor_keeps_its_state (Forall byte) 9 demo_cpu demo_ram r s' w' ltac:(lia) HI E) as (H1 & k & H2 & H3 & _).
  split; [exact E|]. split; [exact H1|]. exists k. split; [exact H2 | exact H3].
Defined.



Lemma decode_stays_in_its_arrays_witness :
  bus_ok (stall_bus LB) ∧ ∃ b', mfor [OpSetMap 16 3; OpRead 70 false; OpWrite 48 false 0 7; OpSetLog 0 4; OpLogPop] bus_op_run (stall_bus LB) = Some (tt, b') ∧ bus_ok b'.
Proof.
  split; [apply stall_bus_ok|]. apply decode_stays_in_its_arrays; [apply stall_bus_ok|].
  repeat constructor; unfold w32; lia.
Defined.

Definition demo_entry (v : Z) : copro_log_entry := mkEntry 0 0 v 0.
Lemma write_log_is_a_queue_witness : ∃ b b', log_ok b ∧
  mapM log_op_run [LogPush (demo_entry 1); LogPush (demo_entry 2); LogPush (demo_entry 3); LogPop; LogPending; LogPush (demo_entry 4); LogPop; LogPop] b =
  Some ([Pushed; Pushed; Pushed; Popped (Some (demo_entry 1)); Pending 1; Pushed; Popped (Some (demo_entry 2));
         Popped (Some (mkEntry 0 0 4 COPRO_LOG_INFO_DROPPED))], b') ∧ log_ok b'.
Proof.
  set (b := bus_set_log 0 3 demo_bus).
  assert (bus_log_entries b - 1 = 2) as E1 by reflexivity.
  assert (log_of b = mkQueue [] 0) as E2 by (vm_compute; reflexivity).
  assert (log_ok b) as Hb.
  { split; [|by split_and!]. destruct demo_bus_ok. split; try done. by right. }
  set (ops := [LogPush (demo_entry 1); LogPush (demo_entry 2); LogPush (demo_entry 3); LogPop; LogPending; LogPush (demo_entry 4); LogPop; LogPop]).
  assert (Forall op_ok ops) as Hops by (unfold ops; repeat constructor; unfold w32; cbn; lia).
  destruct (write_log_is_a_queue ops b Hb Hops) as (answers & b' & E & Hb' & Eq).
  exists b, b'. split; [exact Hb|]. split; [|exact Hb']. rewrite E. do 2 f_equal.
  rewrite E1, E2 in Eq.
  apply (f_equal (fmap fst)) in Eq. cbn [fmap option_fmap option_map fst] in Eq. vm_compute in Eq. by injection Eq as <-.
Defined.

Lemma stalled_byte_load_completes_witness : at_load stall_cpu (stall_bus LB) LB 5 0 48 ∧
  ∃ s' b', (step_and_answer 0xff;; rv32i_step) (stall_cpu, stall_bus LB) = Some (1, (s', b')) ∧ rv_x s' !!! 5 = 0xffffffff.
Proof.
  split; [apply stall_at_load|].
  destruct (stalled_byte_load_completes stall_cpu (stall_bus LB) LB 5 0 48 0xff (stall_at_load LB) eq_refl eq_refl ltac:(unfold byte; lia))
    as (s' & b' & E & Ex & _). exists s', b'. split; [exact E|]. rewrite Ex. by vm_compute.
Defined.
Lemma stalled_wide_load_never_completes_witness : at_load stall_cpu (stall_bus LW) LW 5 0 48 ∧
  ∃ s' b', mapM step_and_answer [1; 2; 3; 4; 5] (stall_cpu, stall_bus LW) = Some ([0; 0; 0; 0; 0], (s', b')) ∧ rv_pc s' = 0.
Proof.
  split; [apply stall_at_load|].
  destruct (stalled_wide_load_never_completes [1; 2; 3; 4; 5] stall_cpu (stall_bus LW) LW 5 0 48 (stall_at_load LW) ltac:(done))
    as (s' & b' & E & _ & _ & Ep & _). exists s', b'. split; [exact E | exact Ep].
Defined.

(** * The card *)

(** C28: RUNFOR bounds the instructions of all the slices of time together: however
    the card's time is cut up, the processor executes the lesser of the time and
    RUNFOR if it does not stop by itself, never more, and RUN is clear when RUNFOR
    is used up. *)
Theorem runfor_bounds_the_slices {K H : Type} `{!OpenBusHost H, !PortArea rv32i_state}
  (ns : list Z) (s : rv32i_state * (coproc_state * (openbus K * H))) us s' r :
  live r s → Forall (λ n, 0 < n) ns → mapM coproc_run ns s = Some (us, s') →
  ∃ vs, us = Some <$> vs ∧ total vs ≤ Z.min (total ns) r ∧
    (idle (fst s') = false → total vs = Z.min (total ns) r) ∧ (total vs = r → run_set s' = false).
Proof.
  intros Hs Hns E. destruct (slices_live ns s us s' r Hs Hns E) as (vs & H1 & H2 & H3 & H4 & _). by exists vs.
Qed.

(** What the machine does to a card in the slot. *)
Inductive guest_op := GuestRead (addr : Z) (size : openbus_size) | GuestWrite (addr : Z) (size : openbus_size) (val : Z)
  | HostRun (cycles : Z) | HostReset.
Definition guest_op_run {C K H : Type} `{!OpenBusHost H, !CoreOps C (coproc_state * (openbus K * H))}
  (master_of : K → openbus_master (C * (coproc_state * (openbus K * H)))) (op : guest_op) :
  M (C * (coproc_state * (openbus K * H))) unit :=
  match op with
  | GuestRead a sz => _ ← openbus_reg_read master_of a sz; mret tt
  | GuestWrite a sz v => openbus_reg_write master_of a sz v
  | HostRun n => _ ← openbus_run master_of n; mret tt
  | HostReset => openbus_reset master_of
  end.

(** C29: the interrupt line the host sees, the slot's latch of it and the card's
    interrupt register are the same through any sequence of accesses, slices of
    time and resets, whatever the processor on the card and its program do. *)
Theorem interrupt_line_follows_card {C K H : Type} `{!OpenBusHost H, !CoreOps C (coproc_state * (openbus K * H)), !CoreOk C K H}
  (line : H → Z) `{!OpenBusHostLine H line} (master_of : K → openbus_master (C * (coproc_state * (openbus K * H)))) (card : K)
  (ops : list guest_op) s u s' :
  master_of card = coproc_master → irq_inv line (Some card) s → mfor ops (guest_op_run master_of) s = Some (u, s') →
  irq_inv line (Some card) s'.
Proof.
  intros Hcard Hs E. refine (hoare_run _ _ (λ _, irq_inv line (Some card)) s u s' _ Hs E). clear E Hs. apply stays_mfor.
  intros [a sz|a sz v|n|]; cbn [guest_op_run].
  - apply stays_bind; [by eapply openbus_reg_read_irq | intros ?; apply stays_ret].
  - by eapply openbus_reg_write_irq.
  - apply stays_bind; [by eapply openbus_run_irq | intros ?; apply stays_ret].
  - by eapply openbus_reset_irq.
Qed.

(** A byte the RV32IM processor stores to an address with bit 16 set never
    reaches the card's RAM: it is taken for an output to a port of the Z80, and is
    written over the union the processors share. *)
Theorem high_store_is_a_port {K H : Type} `{!OpenBusHost H, !PortArea rv32i_state}
  (s : rv32i_state) (c : coproc_state) (sl : openbus K * H) (a v : Z) :
  w32 a → Z.testbit a 16 = true → hook_write (rv_mem s) = true → bus_map_count (cp_bus c) = 0 →
  store8 a v (s, (c, sl)) =
  Some (tt, (port_put s (u8 (a .&~ 0x10000)) (u8 v), (if u8 (a .&~ 0x10000) =? 0 then cp_set_mbox_rx (u8 v) c else c, sl))).
Proof.
  intros Ha Hbit Hhook Hmap. unfold store8. rewrite (bind_eq _ _ _ true (s, (c, sl))) by (unfold rv_get, gets; cbn [fst]; by rewrite Hhook).
  assert (is_port_addr a = true) as Hp by (unfold is_port_addr; change CPU_MEM_PORT with (2 ^ 16); by rewrite nz_mask_bit).
  assert (on_bus (copro_bus_region (a .&~ CPU_MEM_PORT) true) (s, (c, sl)) = Some (None, (s, (c, sl)))) as Hreg.
  { unfold on_bus, zoom. cbn [fst snd]. unfold copro_bus_region. rewrite (bind_eq _ _ _ (cp_bus c) (cp_bus c)) by done. rewrite Hmap.
    cbn [Z.eqb orb]. unfold mret, M_ret. by destruct c. }
  rewrite bind_run. cbn [cm_write card_mem]. rewrite u32_id by exact Ha. unfold coproc_hook_write. cbv zeta. rewrite Hp.
  rewrite (bind_eq _ _ _ _ _ Hreg). unfold coproc_io_out. change CPU_MEM_PORT with 0x10000.
  set (port := u8 (a .&~ 0x10000)).
  rewrite (bind_eq _ _ _ tt (port_put s port (u8 v), (if port =? 0 then cp_set_mbox_rx (u8 v) c else c, sl))); [done|].
  rewrite (bind_eq _ _ _ tt (port_put s port (u8 v), (c, sl))) by done. by destruct (port =? 0).
Qed.

(** C30: MAPOFF takes effect when it is written, not when the count is: moved to the
    top of the address space after the check, the table's words are looked for
    outside the control area by the next access. *)
Theorem map_moved_after_the_check_reads_outside {K H : Type} `{!OpenBusHost H, !PortArea rv32i_state}
  (s : rv32i_state) (c : coproc_state) (sl : openbus K * H) (addr : Z) (is_port : bool) :
  bus_ok (cp_bus c) → bus_has_ctl (cp_bus c) = true → 0 < bus_map_count (cp_bus c) → bus_answer_valid (cp_bus c) = 0 →
  bus_ctl_size (cp_bus c) < 0xfffffff0 →
  (coproc_reg_write 0x58 OPENBUS_SIZE_32 0xfffffff8;; on_bus (copro_bus_read addr is_port)) (s, (c, sl)) = None.
Proof.
  intros Hb Hc Hn Ha Hs. rewrite write_mapoff_at.
  set (b := bus_set_map 0xfffffff8 (bus_map_count (cp_bus c)) (cp_bus c)).
  rewrite (bind_eq _ _ _ tt (s, (cp_set_bus b c, sl))) by done. unfold on_bus, zoom. cbn [fst snd]. change (cp_bus (cp_set_bus b c)) with b.
  cut (copro_bus_read addr is_port b = None); [by intros ->|].
  unfold copro_bus_read. rewrite (bind_eq _ _ _ None b).
  2:{ unfold take_answer. rewrite (bind_eq _ _ _ b b) by done. change (bus_answer_valid b) with (bus_answer_valid (cp_bus c)). by rewrite Ha. }
  assert (ctl_word 0xfffffffc b = None) as Hword.
  { unfold ctl_word. rewrite (bind_eq _ _ _ b b) by done. change (bus_has_ctl b) with (bus_has_ctl (cp_bus c)). change (bus_ctl_size b) with (bus_ctl_size (cp_bus c)).
    rewrite Hc. replace (add32 0xfffffffc 4) with 0 by (by vm_compute). pose proof (bo_ctl_size _ Hb) as [H0 _].
    rewrite (proj2 (Z.ltb_ge _ _)) by exact H0. cbn [negb orb]. rewrite bind_run. unfold ctl_get at 1. change (bus_ctl b) with (bus_ctl (cp_bus c)).
    rewrite lookup_ge_None_2; [done|]. pose proof (bo_ctl_length _ Hb Hc). lia. }
  rewrite bind_run. unfold copro_bus_region. rewrite (bind_eq _ _ _ b b) by done. change (bus_has_ctl b) with (bus_has_ctl (cp_bus c)).
  change (bus_map_count b) with (bus_map_count (cp_bus c)). change (bus_map_off b) with 0xfffffff8.
  rewrite Hc, (proj2 (Z.eqb_neq _ _)) by lia. cbn [negb orb]. rewrite seqZ_cons by lia. cbn [region_loop]. cbv zeta.
  replace (add32 0xfffffff8 (mul32 0 ENTRY_SIZE)) with 0xfffffff8 by (by vm_compute).
  replace (add32 0xfffffff8 4) with 0xfffffffc by (by vm_compute). by rewrite bind_run, Hword.
Qed.

(** DMALOCAL can be written while a transfer runs, and is not checked again:
    the transfer goes on outside the card's RAM. *)
Theorem dma_moved_while_it_runs_leaves_the_ram {K H : Type} `{!OpenBusHost H, !PortArea rv32i_state}
  (s : rv32i_state) (c : coproc_state) (sl : openbus K * H) (n : Z) :
  Z.of_nat (length (bus_ram (cp_bus c))) = cp_ram_size c → cp_dma_busy c = 1 → 0 < cp_dma_len c → 0 < n →
  (coproc_reg_write 0x40 OPENBUS_SIZE_32 (cp_ram_size c);; coproc_run n) (s, (c, sl)) = None.
Proof.
  intros Hl Hbusy Hlen Hn. rewrite write_dmalocal_at. set (c1 := cp_set_dma_local (cp_ram_size c) c).
  rewrite (bind_eq _ _ _ tt (s, (c1, sl))) by done.
  unfold coproc_run. rewrite (proj2 (Z.leb_gt _ _)) by lia. rewrite (bind_eq _ _ _ 1 (s, (c1, sl))).
  2:{ unfold cp_get, gets. cbn [fst snd]. change (cp_dma_busy c1) with (cp_dma_busy c). by rewrite Hbusy. }
  replace (nz 1) with true by (by vm_compute). cbn iota.
  cut (dma_word (s, (c1, sl)) = None).
  { intros Hw. unfold coproc_run_dma. destruct (Z.to_nat n) as [|k] eqn:Ek; [lia|]. cbn [dma_loop]. rewrite !bind_run.
    unfold cp_get at 1, gets. cbn [fst snd]. change (cp_dma_len c1) with (cp_dma_len c). rewrite (proj2 (Z.ltb_lt _ _)) by lia.
    rewrite bind_run. change (Z.to_nat DMA_WORDS_PER_CYCLE) with 1%nat. cbn [dma_words]. rewrite bind_run.
    unfold cp_get at 1, gets. cbn [fst snd]. change (cp_dma_len c1) with (cp_dma_len c). rewrite (proj2 (Z.ltb_lt _ _)) by lia. cbn [when].
    rewrite bind_run. unfold dma_step. by rewrite bind_run, Hw. }
  assert (∀ sl' : openbus K * H, card_ram_get (cp_ram_size c) (s, (c1, sl')) = None) as Hget.
  { intros sl'. unfold card_ram_get, on_bus, zoom. cbn [fst snd]. change (cp_bus c1) with (cp_bus c). by rewrite lookup_ge_None_2 by lia. }
  assert (∀ (sl' : openbus K * H) v, card_ram_put (cp_ram_size c) v (s, (c1, sl')) = None) as Hput.
  { intros sl' v. unfold card_ram_put, on_bus, zoom. cbn [fst snd]. change (cp_bus c1) with (cp_bus c). by rewrite (proj2 (Z.leb_le _ _)) by lia. }
  unfold dma_word. rewrite (bind_eq _ _ _ c1 (s, (c1, sl))) by done. cbv zeta. change (cp_dma_local c1) with (cp_ram_size c).
  destruct (nz (cp_dma_to_host c1)); [by rewrite bind_run, Hget|].
  rewrite bind_run. unfold cp_slot, zoom. cbn [fst snd]. destruct (openbus_master_read32 _ sl) as [[w sl']|]; [|done].
  by rewrite bind_run, Hput.
Qed.

(** ** Examples *)

#[local] Existing Instance demo_host.
#[local] Existing Instance demo_ports.

#[local] Instance demo_host_line : OpenBusHostLine Z id.
Proof.
  split.
  - intros f a [= <-] v h Hh. exact Hh.
  - intros f a x [= <-] v h Hh. exact Hh.
  - exists (λ v _, Some (tt, v)). split; [reflexivity|]. intros x h _. reflexivity.
  - intros f x [= <-] v h Hh. exact Hh.
Qed.

(** The demo card with [code] in its RAM. *)
Definition card_with (code : list instr) : coproc_state :=
  cp_set_bus (bus_set_ram (program_bytes (encode <$> code) ++ replicate (64 - 4 * length code) 0) demo_bus) demo_card.
Definition machine (c : coproc_state) : rv32i_state * (coproc_state * (openbus unit * Z)) := (hooked 64 demo_cpu, (c, demo_slot)).

Lemma runfor_bounds_the_slices_witness :
  ∃ vs s', mapM coproc_run [3; 3; 3] (machine (cp_set_ctrl CTRL_RUN (cp_set_runfor 7 (card_with [Jal 0 0])))) =
    Some (Some <$> vs, s') ∧ total vs = 7 ∧ run_set s' = false.
Proof.
  set (s := machine _). assert (live 7 s) as Hlive by (split_and!; reflexivity || lia).
  assert (∃ us s', mapM coproc_run [3; 3; 3] s = Some (us, s') ∧ idle (fst s') = false) as (us & s' & E & Hi).
  { eexists _, _. split; [vm_compute; reflexivity|]. vm_compute. reflexivity. }
  assert (Forall (λ n, 0 < n) [3; 3; 3]) as Hn by (repeat constructor).
  destruct (runfor_bounds_the_slices [3; 3; 3] s us s' 7 Hlive Hn E) as (vs & -> & _ & Hv & Hrun).
  exists vs, s'. specialize (Hv Hi). change (Z.min (total [3; 3; 3]) 7) with 7 in Hv.
  split; [exact E|]. split; [exact Hv | exact (Hrun Hv)].
Defined.

Definition demo_ops : list guest_op :=
  [GuestWrite (OPENBUS_REG_BASE + 0x0c) OPENBUS_SIZE_32 (CTRL_RUN .| CTRL_IRQ_ON_HALT); HostRun 5; GuestRead (OPENBUS_REG_BASE + 0x10) OPENBUS_SIZE_8].
Lemma interrupt_line_follows_card_witness : ∃ s',
  mfor demo_ops (guest_op_run (λ _, coproc_master)) (machine (card_with [Ecall])) = Some (tt, s') ∧
  cp_irq (card_of s') = 1 ∧ irq_inv id (Some tt) s' ∧ snd (snd (snd s')) = 1.
Proof.
  assert (irq_inv id (Some tt) (machine (card_with [Ecall]))) as H0 by (split_and!; reflexivity).
  assert (∃ s', mfor demo_ops (guest_op_run (λ _, coproc_master)) (machine (card_with [Ecall])) = Some (tt, s') ∧
    cp_irq (card_of s') = 1 ∧ snd (snd (snd s')) = 1) as (s' & E & H1 & H2).
  { eexists. split; [vm_compute; reflexivity|]. vm_compute. split; reflexivity. }
  exists s'. split; [exact E|]. split; [exact H1|]. split; [|exact H2].
  exact (interrupt_line_follows_card id (λ _, coproc_master) tt demo_ops _ tt s' eq_refl H0 E).
Defined.

Lemma high_store_is_a_port_witness :
  store8 0x10000 7 (machine demo_card) = Some (tt, (hooked 64 demo_cpu, (cp_set_mbox_rx 7 demo_card, demo_slot))).
Proof.
  refine (high_store_is_a_port (hooked 64 demo_cpu) demo_card demo_slot 0x10000 7 _ eq_refl eq_refl eq_refl). unfold w32. lia.
Defined.

Lemma map_moved_after_the_check_reads_outside_witness :
  (coproc_reg_write 0x58 OPENBUS_SIZE_32 0xfffffff8;; on_bus (copro_bus_read 0 false))
    (machine (cp_set_bus (bus_set_map 0 1 demo_bus) demo_card)) = None.
Proof.
  assert (bus_ok (bus_set_map 0 1 demo_bus)) as Hb by (destruct demo_bus_ok; split; first [assumption | done | by right]).
  exact (map_moved_after_the_check_reads_outside (hooked 64 demo_cpu) (cp_set_bus (bus_set_map 0 1 demo_bus) demo_card) demo_slot 0 false
    Hb eq_refl eq_refl eq_refl eq_refl).
Defined.

Lemma dma_moved_while_it_runs_leaves_the_ram_witness :
  (coproc_reg_write 0x40 OPENBUS_SIZE_32 64;; coproc_run 1) (machine (cp_set_dma_busy 1 (cp_set_dma_len 1 demo_card))) = None.
Proof.
  exact (dma_moved_while_it_runs_leaves_the_ram (hooked 64 demo_cpu) (cp_set_dma_busy 1 (cp_set_dma_len 1 demo_card)) demo_slot 1
    eq_refl eq_refl eq_refl eq_refl).
Defined.
