(* ===== verification/Cmos.v ===== *)
(** The clock chip and the configuration memory of the machine (cmos.c): a PCF8583
    with its 256 bytes, and the identification of a memory module, behind an I2C bus
    that the guest moves pin by pin. [None] is [fatal()], an access outside an array,
    or a call through a null pointer. *)

From S2P Require Export Savestate MemState.

(** * What the host is asked *)

(** [struct tm] *)
Record tm := mkTm { tm_sec : Z; tm_min : Z; tm_hour : Z; tm_mday : Z; tm_mon : Z; tm_year : Z; tm_wday : Z; tm_isdst : Z }.

(** The time of the host, the file that keeps the memory, and how many drives ide.c
    has. A file that cannot be opened is [None]. A C library may have one buffer
    for the answers of [gmtime] and of [localtime]: [host_tm_shared]. *)
Class CmosHost (H : Type) := {
  host_gmtime : M H tm;
  host_localtime : M H tm;
  host_tm_shared : bool;
  host_ide_drives : M H Z;
  host_read_cmos : bool → M H (option (list Z));
  host_write_cmos : list Z → M H unit
}.

(** * State *)

Inductive I2C_Slave := SLAVE_PCF8583 | SLAVE_SPD.

Definition I2C_ACK : Z := 0.
Definition I2C_NACK : Z := 1.
Definition I2C_DONE : Z := 3.
Definition I2C_READ : Z := 5.
Definition I2C_WRITE : Z := 6.
Definition PCF_STATE_ADDR : Z := 0.
Definition PCF_STATE_DATA : Z := 2.
Definition I2C_SDA : Z := 1.
Definition I2C_SCL : Z := 2.
Definition I2C_STATE_IDLE : Z := 0.
Definition I2C_STATE_ADDR : Z := 1.
Definition I2C_STATE_ACK_READ : Z := 2.
Definition I2C_STATE_ACK_READ_ADDR : Z := 3.
Definition I2C_STATE_ACK_WRITE : Z := 4.
Definition I2C_STATE_NACK_WRITE : Z := 5.
Definition I2C_STATE_READ : Z := 6.
Definition I2C_STATE_WRITE : Z := 7.
Definition I2C_STATE_WAIT : Z := 8.
Definition I2C_PCF8583 : Z := 1.
Definition I2C_SPD_DIMM0 : Z := 2.
Definition VDU_CMOS_LOCATION : Z := 0x85.
Definition MONITOR_TYPE_BITS : Z := 0x7c.
Definition MONITOR_TYPE_EDID : Z := 0x40.

Record I2C_SerDes := mkSerDes {
  active_slave : option I2C_Slave;
  slave_was_accessed : Z;
  sd_address : Z;
  inbuf : Z;
  outbuf : Z;
  bitcount : Z;
  sd_state : Z;
  oldpinstate : Z
}.
Definition set_active v (d : I2C_SerDes) : I2C_SerDes :=
  mkSerDes v (slave_was_accessed d) (sd_address d) (inbuf d) (outbuf d) (bitcount d) (sd_state d) (oldpinstate d).
Definition set_accessed v (d : I2C_SerDes) : I2C_SerDes :=
  mkSerDes (active_slave d) v (sd_address d) (inbuf d) (outbuf d) (bitcount d) (sd_state d) (oldpinstate d).
Definition set_address v (d : I2C_SerDes) : I2C_SerDes :=
  mkSerDes (active_slave d) (slave_was_accessed d) v (inbuf d) (outbuf d) (bitcount d) (sd_state d) (oldpinstate d).
Definition set_inbuf v (d : I2C_SerDes) : I2C_SerDes :=
  mkSerDes (active_slave d) (slave_was_accessed d) (sd_address d) v (outbuf d) (bitcount d) (sd_state d) (oldpinstate d).
Definition set_outbuf v (d : I2C_SerDes) : I2C_SerDes :=
  mkSerDes (active_slave d) (slave_was_accessed d) (sd_address d) (inbuf d) v (bitcount d) (sd_state d) (oldpinstate d).
Definition set_bitcount v (d : I2C_SerDes) : I2C_SerDes :=
  mkSerDes (active_slave d) (slave_was_accessed d) (sd_address d) (inbuf d) (outbuf d) v (sd_state d) (oldpinstate d).
Definition set_state v (d : I2C_SerDes) : I2C_SerDes :=
  mkSerDes (active_slave d) (slave_was_accessed d) (sd_address d) (inbuf d) (outbuf d) (bitcount d) v (oldpinstate d).
Definition set_oldpin v (d : I2C_SerDes) : I2C_SerDes :=
  mkSerDes (active_slave d) (slave_was_accessed d) (sd_address d) (inbuf d) (outbuf d) (bitcount d) (sd_state d) v.

(** [i2cclock], [i2cdata]: the pins as the guest reads them. *)
Record Cmos := mkCmos {
  cm_ram : list Z;
  cm_clock : Z;
  cm_data : Z;
  cm_devices : Z;
  pcf_reg_address : Z;
  pcf_state : Z;
  spd_reg_address : Z;
  cm_serdes : I2C_SerDes
}.
Definition cm_set_ram v (c : Cmos) : Cmos :=
  mkCmos v (cm_clock c) (cm_data c) (cm_devices c) (pcf_reg_address c) (pcf_state c) (spd_reg_address c) (cm_serdes c).
Definition cm_set_clock v (c : Cmos) : Cmos :=
  mkCmos (cm_ram c) v (cm_data c) (cm_devices c) (pcf_reg_address c) (pcf_state c) (spd_reg_address c) (cm_serdes c).
Definition cm_set_data v (c : Cmos) : Cmos :=
  mkCmos (cm_ram c) (cm_clock c) v (cm_devices c) (pcf_reg_address c) (pcf_state c) (spd_reg_address c) (cm_serdes c).
Definition cm_set_devices v (c : Cmos) : Cmos :=
  mkCmos (cm_ram c) (cm_clock c) (cm_data c) v (pcf_reg_address c) (pcf_state c) (spd_reg_address c) (cm_serdes c).
Definition pcf_set_reg v (c : Cmos) : Cmos :=
  mkCmos (cm_ram c) (cm_clock c) (cm_data c) (cm_devices c) v (pcf_state c) (spd_reg_address c) (cm_serdes c).
Definition pcf_set_state v (c : Cmos) : Cmos :=
  mkCmos (cm_ram c) (cm_clock c) (cm_data c) (cm_devices c) (pcf_reg_address c) v (spd_reg_address c) (cm_serdes c).
Definition spd_set_reg v (c : Cmos) : Cmos :=
  mkCmos (cm_ram c) (cm_clock c) (cm_data c) (cm_devices c) (pcf_reg_address c) (pcf_state c) v (cm_serdes c).
Definition cm_set_serdes v (c : Cmos) : Cmos :=
  mkCmos (cm_ram c) (cm_clock c) (cm_data c) (cm_devices c) (pcf_reg_address c) (pcf_state c) (spd_reg_address c) v.

Definition BIN2BCD (v : Z) : Z := Z.lor (Z.shiftl (Z.quot v 10) 4) (Z.rem v 10).

(** The descriptors [reseti2c] builds. *)
Definition slave_address (s : I2C_Slave) : Z := match s with SLAVE_PCF8583 => 0x50 | SLAVE_SPD => 0x54 end.

Definition spd_data : list Z :=
  [128; 8; 4; 12; 10; 1; 64; 0; 0; 1; 1; 0; 0; 8; 0; 0; 0xf; 2; 0x7f; 0x7f; 0x7f; 0x00; 0x3f; 0x10;
   0x10; 0x10; 0x10; 1; 1; 1; 1; 0x20] ++ replicate 96 0.

Section cmos.
Context {H : Type} `{!CmosHost H}.
Local Abbreviation CMOS := (M (Cmos * H)).

Definition cm_get {A} (f : Cmos → A) : CMOS A := gets (λ s, f (fst s)).
Definition cm_mod (f : Cmos → Cmos) : CMOS unit := modify (λ s, (f (fst s), snd s)).
Definition sd_get {A} (f : I2C_SerDes → A) : CMOS A := cm_get (λ c, f (cm_serdes c)).
Definition sd_mod (f : I2C_SerDes → I2C_SerDes) : CMOS unit := cm_mod (λ c, cm_set_serdes (f (cm_serdes c)) c).
Definition on_host {A} (m : M H A) : CMOS A := zoom snd (λ h s, (fst s, h)) m.
Definition pins (clock data : Z) : CMOS unit := cm_mod (λ c, cm_set_data data (cm_set_clock clock c)).

(** [cmosram[i]] *)
Definition ram_at (i : Z) : CMOS Z := λ s,
  match cm_ram (fst s) !! Z.to_nat i with Some v => Some (v, s) | None => None end.
Definition ram_set (i v : Z) : CMOS unit := λ s,
  if Z.of_nat (length (cm_ram (fst s))) <=? i then None
  else Some (tt, (cm_set_ram (<[Z.to_nat i := u8 v]> (cm_ram (fst s))) (fst s), snd s)).

(** * The contents *)

Definition cmos_logical_offset (location : Z) : Z :=
  let offset := location + 0x40 in
  if 255 <? offset then offset - 240 else offset.

(** The loop over the locations. *)
Fixpoint checksum_loop (l : list Z) (checksum : Z) : CMOS Z :=
  match l with
  | [] => mret checksum
  | i :: l' => v ← ram_at (cmos_logical_offset i); checksum_loop l' (add32 checksum v)
  end.
Definition cmos_update_checksum : CMOS unit :=
  checksum ← checksum_loop (seqZ 0 239) 0;
  ram_set 0x3f (add32 checksum 1 .& 0xff).

Definition cmos_sync_ide_drive_count : CMOS unit :=
  drives ← on_host host_ide_drives;
  let offset := cmos_logical_offset 135 in
  old ← ram_at offset;
  let new_val := u8 (old .& 0x3f .| Z.shiftl (drives .& 3) 6) in
  when (negb (new_val =? old)) (ram_set offset new_val;; cmos_update_checksum).

Definition cmos_update_settings (model : Model) : CMOS unit :=
  t ← on_host host_gmtime;
  tloc ← on_host host_localtime;
  let t := if host_tm_shared then tloc else t in
  ram_set 0xc0 (Z.rem (tm_year t + 1900) 100);;
  ram_set 0xc1 (Z.quot (tm_year t + 1900) 100);;
  when (0 <=? tm_isdst tloc)
    (flags ← ram_at 0x2c;
     ram_set 0x2c (if 0 <? tm_isdst tloc then flags .| 0x80 else flags .&~ 0x80));;
  ram_set 0x5d (match model with Model_A7000 | Model_A7000plus | Model_Phoebe => 3 | _ => 0 end);;
  cmos_sync_ide_drive_count.

(** [machine_file]: the file of the machine, or the template. *)
Definition cmos_load_file (machine_file : bool) : CMOS bool :=
  data ← on_host (host_read_cmos machine_file);
  match data with
  | None => mret false
  | Some bytes =>
      if (256 <=? length bytes)%nat then cm_mod (cm_set_ram (take 256 bytes));; mret true else fatal
  end.
Definition cmos_seed_monitor_type : CMOS unit :=
  let offset := cmos_logical_offset VDU_CMOS_LOCATION in
  old ← ram_at offset;
  ram_set offset (old .&~ MONITOR_TYPE_BITS .| MONITOR_TYPE_EDID);;
  cmos_update_checksum.
Definition cmos_init : CMOS unit :=
  mine ← cmos_load_file true;
  if (mine : bool) then mret tt else
  template ← cmos_load_file false;
  if (template : bool) then cmos_seed_monitor_type else fatal.

Definition cmos_reset (model : Model) : CMOS unit :=
  cmos_update_settings model;;
  cmos_update_checksum;;
  cm_mod (λ c, cm_set_ram (replicate 16 0 ++ drop 16 (cm_ram c)) c).

Definition savecmos : CMOS unit := ram ← cm_get cm_ram; on_host (host_write_cmos ram).

Definition cmosgettime : CMOS unit :=
  t ← on_host host_gmtime;
  ram_set 1 0;;
  ram_set 2 (BIN2BCD (tm_sec t));;
  ram_set 3 (BIN2BCD (tm_min t));;
  ram_set 4 (BIN2BCD (tm_hour t));;
  ram_set 5 (Z.lor (Z.shiftl ((tm_year t + 1900) .& 3) 6) (BIN2BCD (tm_mday t)));;
  ram_set 6 (Z.lor (Z.shiftl (tm_wday t) 5) (BIN2BCD (tm_mon t + 1))).

(** * The devices *)

Definition pcf8583_write (data : Z) : CMOS Z :=
  state ← cm_get pcf_state;
  (if state =? PCF_STATE_ADDR then cm_mod (pcf_set_state PCF_STATE_DATA ∘ pcf_set_reg data)
   else when (state =? PCF_STATE_DATA)
     (reg ← cm_get pcf_reg_address;
      ram_set reg data;;
      when (reg =? 0x3f) savecmos;;
      cm_mod (λ c, pcf_set_reg ((pcf_reg_address c + 1) .& 0xff) c)));;
  mret I2C_ACK.

Definition pcf8583_read : CMOS Z :=
  reg ← cm_get pcf_reg_address;
  when (reg <? 0x10) cmosgettime;;
  data ← ram_at reg;
  cm_mod (λ c, pcf_set_reg ((pcf_reg_address c + 1) .& 0xff) c);;
  mret data.

Definition pcf8583_start : CMOS Z := cm_mod (pcf_set_state PCF_STATE_ADDR);; mret I2C_ACK.
Definition pcf8583_stop : CMOS unit := cm_mod (pcf_set_state PCF_STATE_ADDR).

Definition spd_write (data : Z) : CMOS Z := cm_mod (spd_set_reg (data .& 0x7f));; mret I2C_ACK.
Definition spd_read : CMOS Z :=
  reg ← cm_get spd_reg_address;
  match spd_data !! Z.to_nat reg with
  | Some data => cm_mod (λ c, spd_set_reg ((spd_reg_address c + 1) .& 0x7f) c);; mret data
  | None => fatal
  end.
Definition spd_start : CMOS Z := mret I2C_ACK.
Definition spd_stop : CMOS unit := mret tt.

(** [slave->devops->...] *)
Definition slave_start (s : I2C_Slave) : CMOS Z := match s with SLAVE_PCF8583 => pcf8583_start | SLAVE_SPD => spd_start end.
Definition slave_stop (s : I2C_Slave) : CMOS unit := match s with SLAVE_PCF8583 => pcf8583_stop | SLAVE_SPD => spd_stop end.
Definition slave_write (s : I2C_Slave) (data : Z) : CMOS Z :=
  match s with SLAVE_PCF8583 => pcf8583_write data | SLAVE_SPD => spd_write data end.
Definition slave_read (s : I2C_Slave) : CMOS Z := match s with SLAVE_PCF8583 => pcf8583_read | SLAVE_SPD => spd_read end.

(** * The bus *)

(** The pins are globals, which [reset_serdes] also sets. *)
Definition reset_serdes : CMOS unit :=
  sd_mod (λ d, mkSerDes None 0 0 0 0 0 I2C_STATE_IDLE (oldpinstate d));; pins 1 1.

Definition leave (scl sda : Z) : CMOS unit := sd_mod (set_oldpin (Z.lor (Z.shiftl scl 1) sda)).

(** A bit shifted in on a rising edge. *)
Definition shift_in (sda : Z) : CMOS unit :=
  sd_mod (λ d, set_bitcount (bitcount d + 1) d);;
  sd_mod (λ d, set_inbuf (u8 (Z.shiftl (inbuf d) 1)) d);;
  when (nz sda) (sd_mod (λ d, set_inbuf (inbuf d .| 1) d)).

(** The whole of an address has come in. *)
Definition address_byte : CMOS unit :=
  sd_mod (λ d, set_address (inbuf d .>> 1) d);;
  address ← sd_get sd_address;
  devices ← cm_get cm_devices;
  let slave :=
    if (address =? slave_address SLAVE_PCF8583) && nz (devices .& I2C_PCF8583) then Some SLAVE_PCF8583
    else if (address =? slave_address SLAVE_SPD) && nz (devices .& I2C_SPD_DIMM0) then Some SLAVE_SPD
    else None in
  match slave with
  | Some s =>
      in_ ← sd_get inbuf;
      sd_mod (set_state (if nz (in_ .& 1) then I2C_STATE_ACK_READ_ADDR else I2C_STATE_ACK_WRITE));;
      result ← slave_start s;
      if result =? I2C_ACK then sd_mod (set_active (Some s));; pins 1 1
      else when (result =? I2C_NACK) (pins 1 1;; sd_mod (set_state I2C_STATE_WAIT))
  | None => reset_serdes
  end.

Definition state_addr (falling rising : bool) (sda : Z) : CMOS unit :=
  if falling then pins 1 1
  else when rising (shift_in sda;; n ← sd_get bitcount; when (n =? 8) address_byte).

Definition start_read : CMOS unit :=
  sd_mod (λ d, set_accessed 1 (set_bitcount 8 (set_state I2C_STATE_READ d))).
Definition state_ack_read_addr (falling rising : bool) : CMOS unit :=
  if falling then pins 1 0 else when rising start_read.
Definition state_ack_read (falling rising : bool) (sda : Z) : CMOS unit :=
  if falling then pins 1 1
  else when rising
    (slave ← sd_get active_slave;
     match slave with
     | None => fatal
     | Some _ => if nz sda then sd_mod (set_state I2C_STATE_WAIT) else start_read
     end).

Definition state_ack_write (nack falling rising : bool) : CMOS unit :=
  if falling then pins 1 0;; when nack (pins 1 1)
  else when rising (sd_mod (λ d, set_inbuf 0 (set_bitcount 0 (set_state I2C_STATE_WRITE d)))).

Definition state_read (falling rising : bool) : CMOS unit :=
  if falling then
    n ← sd_get bitcount;
    when (n =? 8)
      (slave ← sd_get active_slave;
       match slave with
       | None => fatal
       | Some s => data ← slave_read s; sd_mod (set_outbuf data)
       end);;
    n ← sd_get bitcount;
    when (0 <? n)
      (sd_mod (λ d, set_bitcount (bitcount d - 1) d);;
       pins 1 0;;
       d ← sd_get id;
       when (nz (outbuf d .& Z.shiftl 1 (bitcount d))) (pins 1 1))
  else when rising (n ← sd_get bitcount; when (n =? 0) (sd_mod (set_state I2C_STATE_ACK_READ))).

Definition set_clock_pin : CMOS unit := cm_mod (cm_set_clock 1).
Definition state_write (falling rising : bool) (sda : Z) : CMOS unit :=
  if falling then pins 1 1
  else when rising
    (shift_in sda;;
     n ← sd_get bitcount;
     when (n =? 8)
       (slave ← sd_get active_slave;
        match slave with
        | None => fatal
        | Some s =>
            data ← sd_get inbuf;
            result ← slave_write s data;
            sd_mod (set_accessed 1);;
            if result =? I2C_ACK then sd_mod (set_state I2C_STATE_ACK_WRITE);; set_clock_pin
            else when (result =? I2C_NACK) (sd_mod (set_state I2C_STATE_NACK_WRITE);; set_clock_pin)
        end)).

Definition cmosi2cchange (scl sda : Z) : CMOS unit :=
  d ← sd_get id;
  let oldscl := oldpinstate d .& I2C_SCL in
  let oldsda := oldpinstate d .& I2C_SDA in
  if nz scl && nz oldsda && negb (nz sda) then
    reset_serdes;; sd_mod (set_state I2C_STATE_ADDR);; leave scl sda
  else if nz scl && negb (nz oldsda) && nz sda then
    match active_slave d with Some s => slave_stop s | None => mret tt end;;
    reset_serdes;; leave scl sda
  else
    let falling := nz oldscl && negb (nz scl) in
    let rising := negb (nz oldscl) && nz scl in
    switch (sd_state d)
      [([I2C_STATE_IDLE], pins 1 1);
       ([I2C_STATE_ADDR], state_addr falling rising sda);
       ([I2C_STATE_ACK_READ_ADDR], state_ack_read_addr falling rising);
       ([I2C_STATE_ACK_READ], state_ack_read falling rising sda);
       ([I2C_STATE_ACK_WRITE; I2C_STATE_NACK_WRITE], state_ack_write (sd_state d =? I2C_STATE_NACK_WRITE) falling rising);
       ([I2C_STATE_READ], state_read falling rising);
       ([I2C_STATE_WRITE], state_write falling rising sda);
       ([I2C_STATE_WAIT], mret tt)]
      (pins 1 1);;
    leave scl sda.

Definition reseti2c (chosen_i2c_devices : Z) : CMOS unit :=
  pins 1 1;; cm_mod (cm_set_devices chosen_i2c_devices);; cm_mod (spd_set_reg 0);; reset_serdes.
End cmos.

(** * The chunk of a snapshot *)

Definition cmos_savestate (c : Cmos) : list Z :=
  let d := cm_serdes c in
  (u8 <$> take 256 (cm_ram c)) ++ savestate_write_i32 (cm_clock c) ++ savestate_write_i32 (cm_data c) ++
  savestate_write_u16 (pcf_reg_address c) ++ savestate_write_i32 (pcf_state c) ++ savestate_write_u8 (spd_reg_address c) ++
  savestate_write_u8 (match active_slave d with Some SLAVE_PCF8583 => 1 | Some SLAVE_SPD => 2 | None => 0 end) ++
  savestate_write_i32 (slave_was_accessed d) ++ savestate_write_i32 (sd_address d) ++
  savestate_write_u8 (inbuf d) ++ savestate_write_u8 (outbuf d) ++ savestate_write_i32 (bitcount d) ++
  savestate_write_i32 (sd_state d) ++ savestate_write_i32 (oldpinstate d).

(** What is not in the file is kept: the devices that are fitted. *)
Definition cmos_loadstate (c : Cmos) : M File Cmos :=
  ram ← savestate_read 256;
  clock ← savestate_read_i32; data ← savestate_read_i32;
  reg ← savestate_read_u16; state ← savestate_read_i32; spd ← savestate_read_u8;
  active ← savestate_read_u8;
  accessed ← savestate_read_i32; address ← savestate_read_i32;
  in_ ← savestate_read_u8; out ← savestate_read_u8; count ← savestate_read_i32;
  sd ← savestate_read_i32; old ← savestate_read_i32;
  mret (mkCmos ram clock data (cm_devices c) reg state spd
    (mkSerDes (if active =? 1 then Some SLAVE_PCF8583 else if active =? 2 then Some SLAVE_SPD else None)
      accessed address in_ out count sd old)).
