(* ===== verification/IomdState.v ===== *)
(** The state of the I/O controller (iomd.c, iomd.h) and of the keyboard and mouse
    behind it (keyboard.c), and what they ask of the rest of the machine. *)

From S2P Require Export Cmos.

Definition IOMD_IRQA_FLYBACK : Z := 0x08.
Definition IOMD_IRQA_POWER_ON_RESET : Z := 0x10.
Definition IOMD_IRQA_TIMER_0 : Z := 0x20.
Definition IOMD_IRQA_TIMER_1 : Z := 0x40.
Definition IOMD_IRQA_FORCE_BIT : Z := 0x80.
Definition IOMD_IRQB_IDE : Z := 0x02.
Definition IOMD2_IRQB_SUPERIO_SMI : Z := 0x04.
Definition IOMD_IRQB_KEYBOARD_TX : Z := 0x40.
Definition IOMD_IRQB_KEYBOARD_RX : Z := 0x80.
Definition IOMD_IRQD_MOUSE_RX : Z := 0x01.
Definition IOMD_IRQD_MOUSE_TX : Z := 0x02.
Definition IOMD_IRQD_EVENT_1 : Z := 0x08.
Definition IOMD_IRQD_EVENT_2 : Z := 0x10.
Definition IOMD_FIQ_FORCE_BIT : Z := 0x80.
Definition IOMD_IRQDMA_SOUND_0 : Z := 0x10.
Definition IOMD_DMA_STATUS_BUFFER : Z := 0x01.
Definition IOMD_DMA_STATUS_INTERRUPT : Z := 0x02.
Definition IOMD_DMA_STATUS_OVERRUN : Z := 0x04.
Definition IDE_BIT : Z := 0x08.

Record iomd_irq := mkIrq { irq_status : Z; irq_mask : Z
}.
Definition irq_set_status v (i : iomd_irq) : iomd_irq := mkIrq v (irq_mask i).
Definition irq_set_mask v (i : iomd_irq) : iomd_irq := mkIrq (irq_status i) v.

Record iomd_timer := mkTimer { in_latch : Z; counter : Z; out_latch : Z
}.
Definition set_in_latch v (t : iomd_timer) : iomd_timer := mkTimer v (counter t) (out_latch t).
Definition set_counter v (t : iomd_timer) : iomd_timer := mkTimer (in_latch t) v (out_latch t).
Definition set_out_latch v (t : iomd_timer) : iomd_timer := mkTimer (in_latch t) (counter t) v.

(** [struct iomd] *)
Record Iomd := mkIomd { irqa : iomd_irq; irqb : iomd_irq; irqc : iomd_irq; irqd : iomd_irq; fiq : iomd_irq;
  irqdma : iomd_irq; romcr0 : Z; romcr1 : Z; vidstart : Z; vidend : Z; vidcur : Z; vidinit : Z; t0 : iomd_timer;
  t1 : iomd_timer; io_ctrl : Z; vidcr : Z; sndstat : Z; refcr : Z; iotcr : Z; ectcr : Z; mousex : Z; mousey : Z;
  dmaext : Z; susmode : Z; clkctrl : Z; vidimux : Z; dramcr : Z; selfref : Z
}.
Definition set_irqa v (c : Iomd) : Iomd := mkIomd v (irqb c) (irqc c) (irqd c) (fiq c) (irqdma c) (romcr0 c)
  (romcr1 c) (vidstart c) (vidend c) (vidcur c) (vidinit c) (t0 c) (t1 c) (io_ctrl c) (vidcr c) (sndstat c) (refcr c)
  (iotcr c) (ectcr c) (mousex c) (mousey c) (dmaext c) (susmode c) (clkctrl c) (vidimux c) (dramcr c) (selfref c).
Definition set_irqb v (c : Iomd) : Iomd := mkIomd (irqa c) v (irqc c) (irqd c) (fiq c) (irqdma c) (romcr0 c)
  (romcr1 c) (vidstart c) (vidend c) (vidcur c) (vidinit c) (t0 c) (t1 c) (io_ctrl c) (vidcr c) (sndstat c) (refcr c)
  (iotcr c) (ectcr c) (mousex c) (mousey c) (dmaext c) (susmode c) (clkctrl c) (vidimux c) (dramcr c) (selfref c).
Definition set_irqc v (c : Iomd) : Iomd := mkIomd (irqa c) (irqb c) v (irqd c) (fiq c) (irqdma c) (romcr0 c)
  (romcr1 c) (vidstart c) (vidend c) (vidcur c) (vidinit c) (t0 c) (t1 c) (io_ctrl c) (vidcr c) (sndstat c) (refcr c)
  (iotcr c) (ectcr c) (mousex c) (mousey c) (dmaext c) (susmode c) (clkctrl c) (vidimux c) (dramcr c) (selfref c).
Definition set_irqd v (c : Iomd) : Iomd := mkIomd (irqa c) (irqb c) (irqc c) v (fiq c) (irqdma c) (romcr0 c)
  (romcr1 c) (vidstart c) (vidend c) (vidcur c) (vidinit c) (t0 c) (t1 c) (io_ctrl c) (vidcr c) (sndstat c) (refcr c)
  (iotcr c) (ectcr c) (mousex c) (mousey c) (dmaext c) (susmode c) (clkctrl c) (vidimux c) (dramcr c) (selfref c).
Definition set_fiq v (c : Iomd) : Iomd := mkIomd (irqa c) (irqb c) (irqc c) (irqd c) v (irqdma c) (romcr0 c)
  (romcr1 c) (vidstart c) (vidend c) (vidcur c) (vidinit c) (t0 c) (t1 c) (io_ctrl c) (vidcr c) (sndstat c) (refcr c)
  (iotcr c) (ectcr c) (mousex c) (mousey c) (dmaext c) (susmode c) (clkctrl c) (vidimux c) (dramcr c) (selfref c).
Definition set_irqdma v (c : Iomd) : Iomd := mkIomd (irqa c) (irqb c) (irqc c) (irqd c) (fiq c) v (romcr0 c)
  (romcr1 c) (vidstart c) (vidend c) (vidcur c) (vidinit c) (t0 c) (t1 c) (io_ctrl c) (vidcr c) (sndstat c) (refcr c)
  (iotcr c) (ectcr c) (mousex c) (mousey c) (dmaext c) (susmode c) (clkctrl c) (vidimux c) (dramcr c) (selfref c).
Definition set_romcr0 v (c : Iomd) : Iomd := mkIomd (irqa c) (irqb c) (irqc c) (irqd c) (fiq c) (irqdma c) v
  (romcr1 c) (vidstart c) (vidend c) (vidcur c) (vidinit c) (t0 c) (t1 c) (io_ctrl c) (vidcr c) (sndstat c) (refcr c)
  (iotcr c) (ectcr c) (mousex c) (mousey c) (dmaext c) (susmode c) (clkctrl c) (vidimux c) (dramcr c) (selfref c).
Definition set_romcr1 v (c : Iomd) : Iomd := mkIomd (irqa c) (irqb c) (irqc c) (irqd c) (fiq c) (irqdma c) (romcr0 c)
  v (vidstart c) (vidend c) (vidcur c) (vidinit c) (t0 c) (t1 c) (io_ctrl c) (vidcr c) (sndstat c) (refcr c) (iotcr c)
  (ectcr c) (mousex c) (mousey c) (dmaext c) (susmode c) (clkctrl c) (vidimux c) (dramcr c) (selfref c).
Definition set_vidstart v (c : Iomd) : Iomd := mkIomd (irqa c) (irqb c) (irqc c) (irqd c) (fiq c) (irqdma c)
  (romcr0 c) (romcr1 c) v (vidend c) (vidcur c) (vidinit c) (t0 c) (t1 c) (io_ctrl c) (vidcr c) (sndstat c) (refcr c)
  (iotcr c) (ectcr c) (mousex c) (mousey c) (dmaext c) (susmode c) (clkctrl c) (vidimux c) (dramcr c) (selfref c).
Definition set_vidend v (c : Iomd) : Iomd := mkIomd (irqa c) (irqb c) (irqc c) (irqd c) (fiq c) (irqdma c) (romcr0 c)
  (romcr1 c) (vidstart c) v (vidcur c) (vidinit c) (t0 c) (t1 c) (io_ctrl c) (vidcr c) (sndstat c) (refcr c) (iotcr c)
  (ectcr c) (mousex c) (mousey c) (dmaext c) (susmode c) (clkctrl c) (vidimux c) (dramcr c) (selfref c).
Definition set_vidcur v (c : Iomd) : Iomd := mkIomd (irqa c) (irqb c) (irqc c) (irqd c) (fiq c) (irqdma c) (romcr0 c)
  (romcr1 c) (vidstart c) (vidend c) v (vidinit c) (t0 c) (t1 c) (io_ctrl c) (vidcr c) (sndstat c) (refcr c) (iotcr c)
  (ectcr c) (mousex c) (mousey c) (dmaext c) (susmode c) (clkctrl c) (vidimux c) (dramcr c) (selfref c).
Definition set_vidinit v (c : Iomd) : Iomd := mkIomd (irqa c) (irqb c) (irqc c) (irqd c) (fiq c) (irqdma c) (romcr0 c)
  (romcr1 c) (vidstart c) (vidend c) (vidcur c) v (t0 c) (t1 c) (io_ctrl c) (vidcr c) (sndstat c) (refcr c) (iotcr c)
  (ectcr c) (mousex c) (mousey c) (dmaext c) (susmode c) (clkctrl c) (vidimux c) (dramcr c) (selfref c).
Definition set_t0 v (c : Iomd) : Iomd := mkIomd (irqa c) (irqb c) (irqc c) (irqd c) (fiq c) (irqdma c) (romcr0 c)
  (romcr1 c) (vidstart c) (vidend c) (vidcur c) (vidinit c) v (t1 c) (io_ctrl c) (vidcr c) (sndstat c) (refcr c)
  (iotcr c) (ectcr c) (mousex c) (mousey c) (dmaext c) (susmode c) (clkctrl c) (vidimux c) (dramcr c) (selfref c).
Definition set_t1 v (c : Iomd) : Iomd := mkIomd (irqa c) (irqb c) (irqc c) (irqd c) (fiq c) (irqdma c) (romcr0 c)
  (romcr1 c) (vidstart c) (vidend c) (vidcur c) (vidinit c) (t0 c) v (io_ctrl c) (vidcr c) (sndstat c) (refcr c)
  (iotcr c) (ectcr c) (mousex c) (mousey c) (dmaext c) (susmode c) (clkctrl c) (vidimux c) (dramcr c) (selfref c).
Definition set_io_ctrl v (c : Iomd) : Iomd := mkIomd (irqa c) (irqb c) (irqc c) (irqd c) (fiq c) (irqdma c) (romcr0 c)
  (romcr1 c) (vidstart c) (vidend c) (vidcur c) (vidinit c) (t0 c) (t1 c) v (vidcr c) (sndstat c) (refcr c) (iotcr c)
  (ectcr c) (mousex c) (mousey c) (dmaext c) (susmode c) (clkctrl c) (vidimux c) (dramcr c) (selfref c).
Definition set_vidcr v (c : Iomd) : Iomd := mkIomd (irqa c) (irqb c) (irqc c) (irqd c) (fiq c) (irqdma c) (romcr0 c)
  (romcr1 c) (vidstart c) (vidend c) (vidcur c) (vidinit c) (t0 c) (t1 c) (io_ctrl c) v (sndstat c) (refcr c)
  (iotcr c) (ectcr c) (mousex c) (mousey c) (dmaext c) (susmode c) (clkctrl c) (vidimux c) (dramcr c) (selfref c).
Definition set_sndstat v (c : Iomd) : Iomd := mkIomd (irqa c) (irqb c) (irqc c) (irqd c) (fiq c) (irqdma c) (romcr0 c)
  (romcr1 c) (vidstart c) (vidend c) (vidcur c) (vidinit c) (t0 c) (t1 c) (io_ctrl c) (vidcr c) v (refcr c) (iotcr c)
  (ectcr c) (mousex c) (mousey c) (dmaext c) (susmode c) (clkctrl c) (vidimux c) (dramcr c) (selfref c).
Definition set_refcr v (c : Iomd) : Iomd := mkIomd (irqa c) (irqb c) (irqc c) (irqd c) (fiq c) (irqdma c) (romcr0 c)
  (romcr1 c) (vidstart c) (vidend c) (vidcur c) (vidinit c) (t0 c) (t1 c) (io_ctrl c) (vidcr c) (sndstat c) v
  (iotcr c) (ectcr c) (mousex c) (mousey c) (dmaext c) (susmode c) (clkctrl c) (vidimux c) (dramcr c) (selfref c).
Definition set_iotcr v (c : Iomd) : Iomd := mkIomd (irqa c) (irqb c) (irqc c) (irqd c) (fiq c) (irqdma c) (romcr0 c)
  (romcr1 c) (vidstart c) (vidend c) (vidcur c) (vidinit c) (t0 c) (t1 c) (io_ctrl c) (vidcr c) (sndstat c) (refcr c)
  v (ectcr c) (mousex c) (mousey c) (dmaext c) (susmode c) (clkctrl c) (vidimux c) (dramcr c) (selfref c).
Definition set_ectcr v (c : Iomd) : Iomd := mkIomd (irqa c) (irqb c) (irqc c) (irqd c) (fiq c) (irqdma c) (romcr0 c)
  (romcr1 c) (vidstart c) (vidend c) (vidcur c) (vidinit c) (t0 c) (t1 c) (io_ctrl c) (vidcr c) (sndstat c) (refcr c)
  (iotcr c) v (mousex c) (mousey c) (dmaext c) (susmode c) (clkctrl c) (vidimux c) (dramcr c) (selfref c).
Definition set_mousex v (c : Iomd) : Iomd := mkIomd (irqa c) (irqb c) (irqc c) (irqd c) (fiq c) (irqdma c) (romcr0 c)
  (romcr1 c) (vidstart c) (vidend c) (vidcur c) (vidinit c) (t0 c) (t1 c) (io_ctrl c) (vidcr c) (sndstat c) (refcr c)
  (iotcr c) (ectcr c) v (mousey c) (dmaext c) (susmode c) (clkctrl c) (vidimux c) (dramcr c) (selfref c).
Definition set_mousey v (c : Iomd) : Iomd := mkIomd (irqa c) (irqb c) (irqc c) (irqd c) (fiq c) (irqdma c) (romcr0 c)
  (romcr1 c) (vidstart c) (vidend c) (vidcur c) (vidinit c) (t0 c) (t1 c) (io_ctrl c) (vidcr c) (sndstat c) (refcr c)
  (iotcr c) (ectcr c) (mousex c) v (dmaext c) (susmode c) (clkctrl c) (vidimux c) (dramcr c) (selfref c).
Definition set_dmaext v (c : Iomd) : Iomd := mkIomd (irqa c) (irqb c) (irqc c) (irqd c) (fiq c) (irqdma c) (romcr0 c)
  (romcr1 c) (vidstart c) (vidend c) (vidcur c) (vidinit c) (t0 c) (t1 c) (io_ctrl c) (vidcr c) (sndstat c) (refcr c)
  (iotcr c) (ectcr c) (mousex c) (mousey c) v (susmode c) (clkctrl c) (vidimux c) (dramcr c) (selfref c).
Definition set_susmode v (c : Iomd) : Iomd := mkIomd (irqa c) (irqb c) (irqc c) (irqd c) (fiq c) (irqdma c) (romcr0 c)
  (romcr1 c) (vidstart c) (vidend c) (vidcur c) (vidinit c) (t0 c) (t1 c) (io_ctrl c) (vidcr c) (sndstat c) (refcr c)
  (iotcr c) (ectcr c) (mousex c) (mousey c) (dmaext c) v (clkctrl c) (vidimux c) (dramcr c) (selfref c).
Definition set_clkctrl v (c : Iomd) : Iomd := mkIomd (irqa c) (irqb c) (irqc c) (irqd c) (fiq c) (irqdma c) (romcr0 c)
  (romcr1 c) (vidstart c) (vidend c) (vidcur c) (vidinit c) (t0 c) (t1 c) (io_ctrl c) (vidcr c) (sndstat c) (refcr c)
  (iotcr c) (ectcr c) (mousex c) (mousey c) (dmaext c) (susmode c) v (vidimux c) (dramcr c) (selfref c).
Definition set_vidimux v (c : Iomd) : Iomd := mkIomd (irqa c) (irqb c) (irqc c) (irqd c) (fiq c) (irqdma c) (romcr0 c)
  (romcr1 c) (vidstart c) (vidend c) (vidcur c) (vidinit c) (t0 c) (t1 c) (io_ctrl c) (vidcr c) (sndstat c) (refcr c)
  (iotcr c) (ectcr c) (mousex c) (mousey c) (dmaext c) (susmode c) (clkctrl c) v (dramcr c) (selfref c).
Definition set_dramcr v (c : Iomd) : Iomd := mkIomd (irqa c) (irqb c) (irqc c) (irqd c) (fiq c) (irqdma c) (romcr0 c)
  (romcr1 c) (vidstart c) (vidend c) (vidcur c) (vidinit c) (t0 c) (t1 c) (io_ctrl c) (vidcr c) (sndstat c) (refcr c)
  (iotcr c) (ectcr c) (mousex c) (mousey c) (dmaext c) (susmode c) (clkctrl c) (vidimux c) v (selfref c).
Definition set_selfref v (c : Iomd) : Iomd := mkIomd (irqa c) (irqb c) (irqc c) (irqd c) (fiq c) (irqdma c) (romcr0 c)
  (romcr1 c) (vidstart c) (vidend c) (vidcur c) (vidinit c) (t0 c) (t1 c) (io_ctrl c) (vidcr c) (sndstat c) (refcr c)
  (iotcr c) (ectcr c) (mousex c) (mousey c) (dmaext c) (susmode c) (clkctrl c) (vidimux c) (dramcr c) v.

Record PS2Queue := mkQueue { q_data : list Z; q_rptr : Z; q_wptr : Z; q_count : Z
}.
Definition set_q_data v (q : PS2Queue) : PS2Queue := mkQueue v (q_rptr q) (q_wptr q) (q_count q).
Definition set_q_rptr v (q : PS2Queue) : PS2Queue := mkQueue (q_data q) v (q_wptr q) (q_count q).
Definition set_q_wptr v (q : PS2Queue) : PS2Queue := mkQueue (q_data q) (q_rptr q) v (q_count q).
Definition set_q_count v (q : PS2Queue) : PS2Queue := mkQueue (q_data q) (q_rptr q) (q_wptr q) v.

(** The keyboard; [keys2], which is only ever cleared, is left out. *)
Record Kbd := mkKbd { k_enable : Z; k_reset : Z; k_stat : Z; k_data : Z; k_command : Z; k_queue : PS2Queue
}.
Definition set_k_enable v (k : Kbd) : Kbd := mkKbd v (k_reset k) (k_stat k) (k_data k) (k_command k) (k_queue k).
Definition set_k_reset v (k : Kbd) : Kbd := mkKbd (k_enable k) v (k_stat k) (k_data k) (k_command k) (k_queue k).
Definition set_k_stat v (k : Kbd) : Kbd := mkKbd (k_enable k) (k_reset k) v (k_data k) (k_command k) (k_queue k).
Definition set_k_data v (k : Kbd) : Kbd := mkKbd (k_enable k) (k_reset k) (k_stat k) v (k_command k) (k_queue k).
Definition set_k_command v (k : Kbd) : Kbd := mkKbd (k_enable k) (k_reset k) (k_stat k) (k_data k) v (k_queue k).
Definition set_k_queue v (k : Kbd) : Kbd := mkKbd (k_enable k) (k_reset k) (k_stat k) (k_data k) (k_command k) v.

(** The mouse of the host. *)
Record Mouse := mkMouse { m_x : Z; m_y : Z; m_buttons : Z; m_dx : Z; m_dy : Z
}.
Definition set_m_x v (m : Mouse) : Mouse := mkMouse v (m_y m) (m_buttons m) (m_dx m) (m_dy m).
Definition set_m_y v (m : Mouse) : Mouse := mkMouse (m_x m) v (m_buttons m) (m_dx m) (m_dy m).
Definition set_m_buttons v (m : Mouse) : Mouse := mkMouse (m_x m) (m_y m) v (m_dx m) (m_dy m).
Definition set_m_dx v (m : Mouse) : Mouse := mkMouse (m_x m) (m_y m) (m_buttons m) v (m_dy m).
Definition set_m_dy v (m : Mouse) : Mouse := mkMouse (m_x m) (m_y m) (m_buttons m) (m_dx m) v.

(** The PS/2 mouse, with the two statics of [mouse_process]. *)
Record Ps2Mouse := mkPs2Mouse { msenable : Z; msreset : Z; msstat : Z; msdata : Z; mousepoll : Z; msincommand : Z;
  justsent : Z; msqueue : PS2Queue; mouse_type : Z; mouse_detect_state : Z; oldmouseb : Z; oldz : Z
}.
Definition set_msenable v (m : Ps2Mouse) : Ps2Mouse := mkPs2Mouse v (msreset m) (msstat m) (msdata m) (mousepoll m)
  (msincommand m) (justsent m) (msqueue m) (mouse_type m) (mouse_detect_state m) (oldmouseb m) (oldz m).
Definition set_msreset v (m : Ps2Mouse) : Ps2Mouse := mkPs2Mouse (msenable m) v (msstat m) (msdata m) (mousepoll m)
  (msincommand m) (justsent m) (msqueue m) (mouse_type m) (mouse_detect_state m) (oldmouseb m) (oldz m).
Definition set_msstat v (m : Ps2Mouse) : Ps2Mouse := mkPs2Mouse (msenable m) (msreset m) v (msdata m) (mousepoll m)
  (msincommand m) (justsent m) (msqueue m) (mouse_type m) (mouse_detect_state m) (oldmouseb m) (oldz m).
Definition set_msdata v (m : Ps2Mouse) : Ps2Mouse := mkPs2Mouse (msenable m) (msreset m) (msstat m) v (mousepoll m)
  (msincommand m) (justsent m) (msqueue m) (mouse_type m) (mouse_detect_state m) (oldmouseb m) (oldz m).
Definition set_mousepoll v (m : Ps2Mouse) : Ps2Mouse := mkPs2Mouse (msenable m) (msreset m) (msstat m) (msdata m) v
  (msincommand m) (justsent m) (msqueue m) (mouse_type m) (mouse_detect_state m) (oldmouseb m) (oldz m).
Definition set_msincommand v (m : Ps2Mouse) : Ps2Mouse := mkPs2Mouse (msenable m) (msreset m) (msstat m) (msdata m)
  (mousepoll m) v (justsent m) (msqueue m) (mouse_type m) (mouse_detect_state m) (oldmouseb m) (oldz m).
Definition set_justsent v (m : Ps2Mouse) : Ps2Mouse := mkPs2Mouse (msenable m) (msreset m) (msstat m) (msdata m)
  (mousepoll m) (msincommand m) v (msqueue m) (mouse_type m) (mouse_detect_state m) (oldmouseb m) (oldz m).
Definition set_msqueue v (m : Ps2Mouse) : Ps2Mouse := mkPs2Mouse (msenable m) (msreset m) (msstat m) (msdata m)
  (mousepoll m) (msincommand m) (justsent m) v (mouse_type m) (mouse_detect_state m) (oldmouseb m) (oldz m).
Definition set_mouse_type v (m : Ps2Mouse) : Ps2Mouse := mkPs2Mouse (msenable m) (msreset m) (msstat m) (msdata m)
  (mousepoll m) (msincommand m) (justsent m) (msqueue m) v (mouse_detect_state m) (oldmouseb m) (oldz m).
Definition set_mouse_detect_state v (m : Ps2Mouse) : Ps2Mouse := mkPs2Mouse (msenable m) (msreset m) (msstat m)
  (msdata m) (mousepoll m) (msincommand m) (justsent m) (msqueue m) (mouse_type m) v (oldmouseb m) (oldz m).
Definition set_oldmouseb v (m : Ps2Mouse) : Ps2Mouse := mkPs2Mouse (msenable m) (msreset m) (msstat m) (msdata m)
  (mousepoll m) (msincommand m) (justsent m) (msqueue m) (mouse_type m) (mouse_detect_state m) v (oldz m).
Definition set_oldz v (m : Ps2Mouse) : Ps2Mouse := mkPs2Mouse (msenable m) (msreset m) (msstat m) (msdata m)
  (mousepoll m) (msincommand m) (justsent m) (msqueue m) (mouse_type m) (mouse_detect_state m) (oldmouseb m) v.

Record MouseHack := mkHack { mh_pointer : Z; mh_activex : list Z; mh_activey : list Z; cursor_linked : Z;
  cursor_unlinked_x : Z; cursor_unlinked_y : Z; bb_left : Z; bb_right : Z; bb_bottom : Z; bb_top : Z
}.
Definition set_mh_pointer v (m : MouseHack) : MouseHack := mkHack v (mh_activex m) (mh_activey m) (cursor_linked m)
  (cursor_unlinked_x m) (cursor_unlinked_y m) (bb_left m) (bb_right m) (bb_bottom m) (bb_top m).
Definition set_mh_activex v (m : MouseHack) : MouseHack := mkHack (mh_pointer m) v (mh_activey m) (cursor_linked m)
  (cursor_unlinked_x m) (cursor_unlinked_y m) (bb_left m) (bb_right m) (bb_bottom m) (bb_top m).
Definition set_mh_activey v (m : MouseHack) : MouseHack := mkHack (mh_pointer m) (mh_activex m) v (cursor_linked m)
  (cursor_unlinked_x m) (cursor_unlinked_y m) (bb_left m) (bb_right m) (bb_bottom m) (bb_top m).
Definition set_cursor_linked v (m : MouseHack) : MouseHack := mkHack (mh_pointer m) (mh_activex m) (mh_activey m) v
  (cursor_unlinked_x m) (cursor_unlinked_y m) (bb_left m) (bb_right m) (bb_bottom m) (bb_top m).
Definition set_cursor_unlinked_x v (m : MouseHack) : MouseHack := mkHack (mh_pointer m) (mh_activex m) (mh_activey m)
  (cursor_linked m) v (cursor_unlinked_y m) (bb_left m) (bb_right m) (bb_bottom m) (bb_top m).
Definition set_cursor_unlinked_y v (m : MouseHack) : MouseHack := mkHack (mh_pointer m) (mh_activex m) (mh_activey m)
  (cursor_linked m) (cursor_unlinked_x m) v (bb_left m) (bb_right m) (bb_bottom m) (bb_top m).
Definition set_bb_left v (m : MouseHack) : MouseHack := mkHack (mh_pointer m) (mh_activex m) (mh_activey m)
  (cursor_linked m) (cursor_unlinked_x m) (cursor_unlinked_y m) v (bb_right m) (bb_bottom m) (bb_top m).
Definition set_bb_right v (m : MouseHack) : MouseHack := mkHack (mh_pointer m) (mh_activex m) (mh_activey m)
  (cursor_linked m) (cursor_unlinked_x m) (cursor_unlinked_y m) (bb_left m) v (bb_bottom m) (bb_top m).
Definition set_bb_bottom v (m : MouseHack) : MouseHack := mkHack (mh_pointer m) (mh_activex m) (mh_activey m)
  (cursor_linked m) (cursor_unlinked_x m) (cursor_unlinked_y m) (bb_left m) (bb_right m) v (bb_top m).
Definition set_bb_top v (m : MouseHack) : MouseHack := mkHack (mh_pointer m) (mh_activex m) (mh_activey m)
  (cursor_linked m) (cursor_unlinked_x m) (cursor_unlinked_y m) (bb_left m) (bb_right m) (bb_bottom m) v.

(** The chip, the globals of iomd.c, of keyboard.c and of sound.c it works on, the
    machine, [arm.event], the clock chip behind the I/O control register, and the rest. *)
Record Sys (D : Type) := mkSys { chip : Iomd; cinit : Z; sndon : Z; flyback : Z; old_timer_ticks : Z; soundinited : Z;
  soundcount : Z; soundlatch : Z; soundaddr : gmap Z Z; iomd_kind : IOMDType; model : Model; arm_event : Z;
  i2c : Cmos; kcallback : Z; mcallback : Z; kbd : Kbd; mouse : Mouse; ps2mouse : Ps2Mouse; mouse_hack : MouseHack;
  sysdev : D
}.
Arguments mkSys {D}. Arguments chip {D}. Arguments cinit {D}. Arguments sndon {D}. Arguments flyback {D}. Arguments old_timer_ticks {D}.
Arguments soundinited {D}. Arguments soundcount {D}. Arguments soundlatch {D}. Arguments soundaddr {D}.
Arguments iomd_kind {D}. Arguments model {D}. Arguments arm_event {D}. Arguments i2c {D}. Arguments kcallback {D}.
Arguments mcallback {D}. Arguments kbd {D}. Arguments mouse {D}. Arguments ps2mouse {D}. Arguments mouse_hack {D}.
Arguments sysdev {D}.
Section setters.
Context {D : Type}.
Definition set_chip v (s : Sys D) : Sys D := mkSys v (cinit s) (sndon s) (flyback s) (old_timer_ticks s)
  (soundinited s) (soundcount s) (soundlatch s) (soundaddr s) (iomd_kind s) (model s) (arm_event s) (i2c s)
  (kcallback s) (mcallback s) (kbd s) (mouse s) (ps2mouse s) (mouse_hack s) (sysdev s).
Definition set_cinit v (s : Sys D) : Sys D := mkSys (chip s) v (sndon s) (flyback s) (old_timer_ticks s)
  (soundinited s) (soundcount s) (soundlatch s) (soundaddr s) (iomd_kind s) (model s) (arm_event s) (i2c s)
  (kcallback s) (mcallback s) (kbd s) (mouse s) (ps2mouse s) (mouse_hack s) (sysdev s).
Definition set_sndon v (s : Sys D) : Sys D := mkSys (chip s) (cinit s) v (flyback s) (old_timer_ticks s)
  (soundinited s) (soundcount s) (soundlatch s) (soundaddr s) (iomd_kind s) (model s) (arm_event s) (i2c s)
  (kcallback s) (mcallback s) (kbd s) (mouse s) (ps2mouse s) (mouse_hack s) (sysdev s).
Definition set_flyback v (s : Sys D) : Sys D := mkSys (chip s) (cinit s) (sndon s) v (old_timer_ticks s)
  (soundinited s) (soundcount s) (soundlatch s) (soundaddr s) (iomd_kind s) (model s) (arm_event s) (i2c s)
  (kcallback s) (mcallback s) (kbd s) (mouse s) (ps2mouse s) (mouse_hack s) (sysdev s).
Definition set_old_timer_ticks v (s : Sys D) : Sys D := mkSys (chip s) (cinit s) (sndon s) (flyback s) v
  (soundinited s) (soundcount s) (soundlatch s) (soundaddr s) (iomd_kind s) (model s) (arm_event s) (i2c s)
  (kcallback s) (mcallback s) (kbd s) (mouse s) (ps2mouse s) (mouse_hack s) (sysdev s).
Definition set_soundinited v (s : Sys D) : Sys D := mkSys (chip s) (cinit s) (sndon s) (flyback s) (old_timer_ticks s)
  v (soundcount s) (soundlatch s) (soundaddr s) (iomd_kind s) (model s) (arm_event s) (i2c s) (kcallback s)
  (mcallback s) (kbd s) (mouse s) (ps2mouse s) (mouse_hack s) (sysdev s).
Definition set_soundcount v (s : Sys D) : Sys D := mkSys (chip s) (cinit s) (sndon s) (flyback s) (old_timer_ticks s)
  (soundinited s) v (soundlatch s) (soundaddr s) (iomd_kind s) (model s) (arm_event s) (i2c s) (kcallback s)
  (mcallback s) (kbd s) (mouse s) (ps2mouse s) (mouse_hack s) (sysdev s).
Definition set_soundlatch v (s : Sys D) : Sys D := mkSys (chip s) (cinit s) (sndon s) (flyback s) (old_timer_ticks s)
  (soundinited s) (soundcount s) v (soundaddr s) (iomd_kind s) (model s) (arm_event s) (i2c s) (kcallback s)
  (mcallback s) (kbd s) (mouse s) (ps2mouse s) (mouse_hack s) (sysdev s).
Definition set_soundaddr v (s : Sys D) : Sys D := mkSys (chip s) (cinit s) (sndon s) (flyback s) (old_timer_ticks s)
  (soundinited s) (soundcount s) (soundlatch s) v (iomd_kind s) (model s) (arm_event s) (i2c s) (kcallback s)
  (mcallback s) (kbd s) (mouse s) (ps2mouse s) (mouse_hack s) (sysdev s).
Definition set_iomd_kind v (s : Sys D) : Sys D := mkSys (chip s) (cinit s) (sndon s) (flyback s) (old_timer_ticks s)
  (soundinited s) (soundcount s) (soundlatch s) (soundaddr s) v (model s) (arm_event s) (i2c s) (kcallback s)
  (mcallback s) (kbd s) (mouse s) (ps2mouse s) (mouse_hack s) (sysdev s).
Definition set_model v (s : Sys D) : Sys D := mkSys (chip s) (cinit s) (sndon s) (flyback s) (old_timer_ticks s)
  (soundinited s) (soundcount s) (soundlatch s) (soundaddr s) (iomd_kind s) v (arm_event s) (i2c s) (kcallback s)
  (mcallback s) (kbd s) (mouse s) (ps2mouse s) (mouse_hack s) (sysdev s).
Definition set_arm_event v (s : Sys D) : Sys D := mkSys (chip s) (cinit s) (sndon s) (flyback s) (old_timer_ticks s)
  (soundinited s) (soundcount s) (soundlatch s) (soundaddr s) (iomd_kind s) (model s) v (i2c s) (kcallback s)
  (mcallback s) (kbd s) (mouse s) (ps2mouse s) (mouse_hack s) (sysdev s).
Definition set_i2c v (s : Sys D) : Sys D := mkSys (chip s) (cinit s) (sndon s) (flyback s) (old_timer_ticks s)
  (soundinited s) (soundcount s) (soundlatch s) (soundaddr s) (iomd_kind s) (model s) (arm_event s) v (kcallback s)
  (mcallback s) (kbd s) (mouse s) (ps2mouse s) (mouse_hack s) (sysdev s).
Definition set_kcallback v (s : Sys D) : Sys D := mkSys (chip s) (cinit s) (sndon s) (flyback s) (old_timer_ticks s)
  (soundinited s) (soundcount s) (soundlatch s) (soundaddr s) (iomd_kind s) (model s) (arm_event s) (i2c s) v
  (mcallback s) (kbd s) (mouse s) (ps2mouse s) (mouse_hack s) (sysdev s).
Definition set_mcallback v (s : Sys D) : Sys D := mkSys (chip s) (cinit s) (sndon s) (flyback s) (old_timer_ticks s)
  (soundinited s) (soundcount s) (soundlatch s) (soundaddr s) (iomd_kind s) (model s) (arm_event s) (i2c s)
  (kcallback s) v (kbd s) (mouse s) (ps2mouse s) (mouse_hack s) (sysdev s).
Definition set_kbd v (s : Sys D) : Sys D := mkSys (chip s) (cinit s) (sndon s) (flyback s) (old_timer_ticks s)
  (soundinited s) (soundcount s) (soundlatch s) (soundaddr s) (iomd_kind s) (model s) (arm_event s) (i2c s)
  (kcallback s) (mcallback s) v (mouse s) (ps2mouse s) (mouse_hack s) (sysdev s).
Definition set_mouse v (s : Sys D) : Sys D := mkSys (chip s) (cinit s) (sndon s) (flyback s) (old_timer_ticks s)
  (soundinited s) (soundcount s) (soundlatch s) (soundaddr s) (iomd_kind s) (model s) (arm_event s) (i2c s)
  (kcallback s) (mcallback s) (kbd s) v (ps2mouse s) (mouse_hack s) (sysdev s).
Definition set_ps2mouse v (s : Sys D) : Sys D := mkSys (chip s) (cinit s) (sndon s) (flyback s) (old_timer_ticks s)
  (soundinited s) (soundcount s) (soundlatch s) (soundaddr s) (iomd_kind s) (model s) (arm_event s) (i2c s)
  (kcallback s) (mcallback s) (kbd s) (mouse s) v (mouse_hack s) (sysdev s).
Definition set_mouse_hack v (s : Sys D) : Sys D := mkSys (chip s) (cinit s) (sndon s) (flyback s) (old_timer_ticks s)
  (soundinited s) (soundcount s) (soundlatch s) (soundaddr s) (iomd_kind s) (model s) (arm_event s) (i2c s)
  (kcallback s) (mcallback s) (kbd s) (mouse s) (ps2mouse s) v (sysdev s).
Definition set_sysdev v (s : Sys D) : Sys D := mkSys (chip s) (cinit s) (sndon s) (flyback s) (old_timer_ticks s)
  (soundinited s) (soundcount s) (soundlatch s) (soundaddr s) (iomd_kind s) (model s) (arm_event s) (i2c s)
  (kcallback s) (mcallback s) (kbd s) (mouse s) (ps2mouse s) (mouse_hack s) v.
End setters.

(** The rest of the machine: the clock of the host, the sound, video, podules and
    USB, the i8042 of a Phoebe, the configuration, guest memory and registers for
    the mouse SWIs; and whether the build defines NDEBUG, which takes the assertions
    out. Those that may raise an interrupt work on the whole state. *)
Class IomdDev (D : Type) := {
  ndebug : bool;
  rpcemu_nsec_timer_ticks : M D Z;
  resetbuffer : M D unit;
  sound_irq_update : M (Sys D) unit;
  runpoduletimers : Z → M (Sys D) unit;
  usb_ohci_frame : M (Sys D) unit;
  i8042_keyboard_irq_raise : M (Sys D) unit;
  i8042_keyboard_irq_lower : M (Sys D) unit;
  i8042_mouse_irq_raise : M (Sys D) unit;
  i8042_mouse_irq_lower : M (Sys D) unit;
  mousetwobutton : D → bool;
  mousehack : D → bool;
  vidc_get_doublesize : D → bool * bool;
  vidc_get_xsize : D → Z;
  vidc_get_ysize : D → Z;
  rpcemu_move_host_mouse : Z → Z → M D unit;
  guest_read8 : Z → M D Z;
  guest_write8 : Z → Z → M D unit;
  arm_set_reg : Z → Z → M D unit
}.

Section iomd_state.
Context {D : Type}.
Local Abbreviation IO := (M (Sys D)).

Definition chip_mod (f : Iomd → Iomd) : IO unit := modify (λ s, set_chip (f (chip s)) s).
Definition irqa_mod (f : iomd_irq → iomd_irq) : IO unit := chip_mod (λ c, set_irqa (f (irqa c)) c).
Definition irqb_mod (f : iomd_irq → iomd_irq) : IO unit := chip_mod (λ c, set_irqb (f (irqb c)) c).
Definition irqd_mod (f : iomd_irq → iomd_irq) : IO unit := chip_mod (λ c, set_irqd (f (irqd c)) c).
Definition fiq_mod (f : iomd_irq → iomd_irq) : IO unit := chip_mod (λ c, set_fiq (f (fiq c)) c).
Definition irqdma_mod (f : iomd_irq → iomd_irq) : IO unit := chip_mod (λ c, set_irqdma (f (irqdma c)) c).
Definition on_dev {A} (m : M D A) : IO A := zoom sysdev set_sysdev m.

(** [status |= bit], [status &= ~bit] of a byte. *)
Definition irq_raise (bit : Z) (i : iomd_irq) : iomd_irq := irq_set_status (irq_status i .| bit) i.
Definition irq_lower (bit : Z) (i : iomd_irq) : iomd_irq := irq_set_status (irq_status i .&~ bit) i.
Definition pending (i : iomd_irq) : bool := nz (irq_status i .& irq_mask i).

Definition updateirqs : IO unit := modify (λ s,
  let c := chip s in
  let e := arm_event s in
  let e := if pending (irqa c) || pending (irqb c) || pending (irqd c) || pending (irqdma c) then e .| 1 else e .&~ 1 in
  let e := if pending (fiq c) then e .| 2 else e .&~ 2 in
  set_arm_event e s).
End iomd_state.
