(* ===== verification/Keyboard.v ===== *)
(** The PS/2 keyboard and mouse, the mouse SWIs, which follow the pointer of the
    host, and the chunk of a snapshot (keyboard.c). [None] is [fatal()], an assertion
    that fails in a build that has assertions, or an access outside an array. *)

From S2P Require Export IomdState.

Definition KBD_CMD_ENABLE : Z := 0xf4.
Definition KBD_CMD_RESET : Z := 0xff.
Definition KBD_REPLY_POR : Z := 0xaa.
Definition KBD_REPLY_ACK : Z := 0xfa.
Definition AUX_SET_SCALE11 : Z := 0xe6.
Definition AUX_SET_SCALE21 : Z := 0xe7.
Definition AUX_SET_RES : Z := 0xe8.
Definition AUX_GET_TYPE : Z := 0xf2.
Definition AUX_SET_SAMPLE : Z := 0xf3.
Definition AUX_ENABLE_DEV : Z := 0xf4.
Definition AUX_RESEND : Z := 0xfe.
Definition AUX_RESET : Z := 0xff.
Definition AUX_TEST_OK : Z := 0xaa.
Definition AUX_ACK : Z := 0xfa.
Definition PS2_CONTROL_RXPARITY : Z := 0x04.
Definition PS2_CONTROL_ENABLE : Z := 0x08.
Definition PS2_CONTROL_RX_FULL : Z := 0x20.
Definition PS2_CONTROL_TX_BUSY : Z := 0x40.
Definition PS2_CONTROL_TX_EMPTY : Z := 0x80.
Definition PS2_QUEUE_SIZE : Z := 256.

(** * The queue of a device *)

(** [if (++i == PS2_QUEUE_SIZE) i = 0;] *)
Definition ps2_next (i : Z) : Z := if i + 1 =? PS2_QUEUE_SIZE then 0 else i + 1.

(** [None]: the index is outside [data]. *)
Definition ps2_queue (q : PS2Queue) (b : Z) : option PS2Queue :=
  if PS2_QUEUE_SIZE <=? q_count q then Some q else
  if (0 <=? q_wptr q) && (q_wptr q <? Z.of_nat (length (q_data q))) then
    Some (mkQueue (<[Z.to_nat (q_wptr q) := u8 b]> (q_data q)) (q_rptr q) (ps2_next (q_wptr q)) (q_count q + 1))
  else None.

Definition ps2_at (q : PS2Queue) (i : Z) : option Z :=
  if (0 <=? i) && (i <? Z.of_nat (length (q_data q))) then q_data q !! Z.to_nat i else None.
Definition ps2_read_data (q : PS2Queue) : option (Z * PS2Queue) :=
  if q_count q =? 0 then
    let index := q_rptr q - 1 in
    let index := if index <? 0 then PS2_QUEUE_SIZE - 1 else index in
    match ps2_at q index with Some v => Some (v, q) | None => None end
  else
    match ps2_at q (q_rptr q) with
    | Some v => Some (v, mkQueue (q_data q) (ps2_next (q_rptr q)) (q_wptr q) (q_count q - 1))
    | None => None
    end.

(** 1 for an even number of bits. *)
Definition calculateparity (v : Z) : Z :=
  let d := foldl (λ d c, if nz (v .& Z.shiftl 1 c) then d + 1 else d) 0 (seqZ 0 8) in
  if nz (d .& 1) then 0 else 1.

Section keyboard.
Context {D : Type} `{!IomdDev D}.
Local Abbreviation IO := (M (Sys D)).

(** [assert()]: nothing in a build with NDEBUG. *)
Definition assert (b : bool) : IO unit := if ndebug (D:=D) || b then mret tt else fatal.
Definition kbd_mod (f : Kbd → Kbd) : IO unit := modify (λ s, set_kbd (f (kbd s)) s).
Definition ms_mod (f : Ps2Mouse → Ps2Mouse) : IO unit := modify (λ s, set_ps2mouse (f (ps2mouse s)) s).
Definition mouse_mod (f : Mouse → Mouse) : IO unit := modify (λ s, set_mouse (f (mouse s)) s).
Definition hack_mod (f : MouseHack → MouseHack) : IO unit := modify (λ s, set_mouse_hack (f (mouse_hack s)) s).

(** [ps2_queue(&kbd.queue, b)], [ps2_queue(&msqueue, b)], and reading the two. *)
Definition kbd_queue (b : Z) : IO unit := λ s,
  match ps2_queue (k_queue (kbd s)) b with Some q => kbd_mod (set_k_queue q) s | None => None end.
Definition ms_queue (b : Z) : IO unit := λ s,
  match ps2_queue (msqueue (ps2mouse s)) b with Some q => ms_mod (set_msqueue q) s | None => None end.
Definition kbd_dequeue : IO Z := λ s,
  match ps2_read_data (k_queue (kbd s)) with
  | Some (v, q) => Some (v, set_kbd (set_k_queue q (kbd s)) s) | None => None end.
Definition ms_dequeue : IO Z := λ s,
  match ps2_read_data (msqueue (ps2mouse s)) with
  | Some (v, q) => Some (v, set_ps2mouse (set_msqueue q (ps2mouse s)) s) | None => None end.

(** * Interrupts *)

Definition is_phoebe (s : Sys D) : bool := bool_decide (model s = Model_Phoebe).
Definition keyboard_irq_rx_raise : IO unit :=
  phoebe ← gets is_phoebe;
  if (phoebe : bool) then i8042_keyboard_irq_raise else irqb_mod (irq_raise IOMD_IRQB_KEYBOARD_RX);; updateirqs.
Definition keyboard_irq_rx_lower : IO unit :=
  phoebe ← gets is_phoebe;
  if (phoebe : bool) then i8042_keyboard_irq_lower else irqb_mod (irq_lower IOMD_IRQB_KEYBOARD_RX);; updateirqs.
Definition keyboard_irq_tx_raise : IO unit := irqb_mod (irq_raise IOMD_IRQB_KEYBOARD_TX);; updateirqs.
Definition mouse_irq_tx_raise : IO unit := irqd_mod (irq_raise IOMD_IRQD_MOUSE_TX);; updateirqs.
Definition mouse_irq_tx_lower : IO unit := irqd_mod (irq_lower IOMD_IRQD_MOUSE_TX);; updateirqs.
Definition mouse_irq_rx_raise : IO unit :=
  phoebe ← gets is_phoebe;
  if (phoebe : bool) then i8042_mouse_irq_raise else irqd_mod (irq_raise IOMD_IRQD_MOUSE_RX);; updateirqs.
Definition mouse_irq_rx_lower : IO unit :=
  phoebe ← gets is_phoebe;
  if (phoebe : bool) then i8042_mouse_irq_lower else irqd_mod (irq_lower IOMD_IRQD_MOUSE_RX);; updateirqs.

(** * The keyboard *)

Definition empty_queue (q : PS2Queue) : PS2Queue := mkQueue (q_data q) 0 0 0.
Definition zero_kbd : Kbd := mkKbd 0 0 0 0 0 (mkQueue (replicate 256 0) 0 0 0).

Definition keyboard_reset : IO unit :=
  modify (set_kcallback 0);;
  kbd_mod (λ _, zero_kbd);;
  ms_mod (λ m, mkPs2Mouse 0 0 0 (msdata m) 0 0 0 (empty_queue (msqueue m)) 0 0 (oldmouseb m) (oldz m));;
  modify (set_mcallback 0);;
  hack_mod (λ m, set_cursor_linked 1 (set_mh_pointer 0 m)).

Definition keyboard_data_write (v : Z) : IO unit :=
  switch v
    [([KBD_CMD_RESET], kbd_mod (set_k_reset 2);; modify (set_kcallback (4 * 4)));
     ([KBD_CMD_ENABLE], kbd_mod (set_k_reset 0);; kbd_mod (set_k_command KBD_CMD_ENABLE);; modify (set_kcallback (1 * 4)))]
    (kbd_mod (set_k_command 1);; kbd_mod (set_k_reset 0);; modify (set_kcallback (1 * 4))).

Definition keyboard_control_write (v : Z) : IO unit :=
  enable ← gets (λ s, k_enable (kbd s));
  when (nz v && negb (nz enable)) (kbd_mod (set_k_reset 1);; modify (set_kcallback (5 * 4)));;
  kbd_mod (λ k, set_k_stat (if nz v then k_stat k .| PS2_CONTROL_ENABLE else k_stat k .&~ PS2_CONTROL_ENABLE) k).

(** The parity bit of a status register. *)
Definition with_parity (v stat : Z) : Z :=
  if nz (calculateparity v) then stat .| PS2_CONTROL_RXPARITY else stat .&~ PS2_CONTROL_RXPARITY.

Definition keyboardsend (v : Z) : IO unit :=
  kbd_mod (set_k_data v);;
  kbd_mod (λ k, set_k_stat (k_stat k .| PS2_CONTROL_RX_FULL) k);;
  kbd_mod (λ k, set_k_stat (with_parity v (k_stat k)) k);;
  keyboard_irq_rx_raise.

Definition keyboard_callback_rpcemu : IO unit :=
  k ← gets kbd;
  if k_reset k =? 1 then
    kbd_mod (set_k_reset 0);;
    kbd_mod (λ k, set_k_stat (k_stat k .| PS2_CONTROL_TX_EMPTY) k);;
    keyboard_irq_tx_raise
  else if k_reset k =? 2 then kbd_mod (set_k_reset 3);; modify (set_kcallback (500 * 4))
  else if k_reset k =? 3 then
    modify (set_kcallback 0);; kbd_mod (set_k_reset 0);; keyboardsend KBD_REPLY_POR
  else switch (k_command k)
    [([1; KBD_CMD_ENABLE],
      keyboardsend KBD_REPLY_ACK;; modify (set_kcallback 0);; kbd_mod (set_k_command 0));
     ([0xfe],
      v ← kbd_dequeue;
      keyboardsend v;; modify (set_kcallback 0);;
      n ← gets (λ s, q_count (k_queue (kbd s)));
      when (n =? 0) (kbd_mod (set_k_command 0)))]
    (mret tt).

Definition keyboard_status_read : IO Z := gets (λ s, k_stat (kbd s)).
Definition keyboard_data_read : IO Z :=
  keyboard_irq_rx_lower;;
  kbd_mod (λ k, set_k_stat (k_stat k .&~ PS2_CONTROL_RX_FULL) k);;
  command ← gets (λ s, k_command (kbd s));
  when (command =? 0xfe) (modify (set_kcallback (5 * 4)));;
  gets (λ s, k_data (kbd s)).

(** [scan_codes]: [None] is [NULL]. *)
Definition scan_code (codes : list Z) (i : nat) : IO Z :=
  match codes !! i with Some b => mret b | None => fatal end.
Definition keyboard_key_press (scan_codes : option (list Z)) : IO unit :=
  match scan_codes with
  | None => mret tt
  | Some codes =>
      c0 ← scan_code codes 0;
      kbd_queue c0;;
      (if c0 =? 0xe0 then c1 ← scan_code codes 1; kbd_queue c1
       else when (c0 =? 0xe1) (mfor [1; 2; 3; 4; 5; 6; 7]%nat (λ i, b ← scan_code codes i; kbd_queue b)));;
      modify (set_kcallback 20);;
      kbd_mod (set_k_command 0xfe)
  end.
Definition keyboard_key_release (scan_codes : option (list Z)) : IO unit :=
  match scan_codes with
  | None => mret tt
  | Some codes =>
      c0 ← scan_code codes 0;
      assert (negb (c0 =? 0xe1));;
      c1 ← scan_code codes 1;
      (if c1 =? 0 then kbd_queue 0xf0;; kbd_queue c0 else kbd_queue c0;; kbd_queue 0xf0;; kbd_queue c1);;
      modify (set_kcallback 20);;
      kbd_mod (set_k_command 0xfe)
  end.

(** The run down of the callback timer in the loop of rpcemu.c. *)
Definition kcallback_tick : IO unit :=
  k ← gets kcallback;
  when (nz k)
    (modify (set_kcallback (k - 1));;
     when (k - 1 <=? 0) (modify (set_kcallback 0);; keyboard_callback_rpcemu)).
End keyboard.

(** * The PS/2 mouse *)

Section ps2_mouse.
Context {D : Type} `{!IomdDev D}.
Local Abbreviation IO := (M (Sys D)).

Definition mouse_control_write (v : Z) : IO unit :=
  let v := v .& PS2_CONTROL_ENABLE in
  when (nz v) (ms_mod (set_msreset 1);; modify (set_mcallback 20));;
  ms_mod (λ m, set_msstat (if nz v then msstat m .| PS2_CONTROL_ENABLE else msstat m .&~ PS2_CONTROL_ENABLE) m).

(** The sequence of sample rates that changes the type of the mouse. *)
Definition detect_mouse (val : Z) (m : Ps2Mouse) : Ps2Mouse :=
  switch (mouse_detect_state m)
    [([1], set_mouse_detect_state (if val =? 100 then 2 else if val =? 200 then 3 else 0) m);
     ([2], set_mouse_detect_state 0 (if val =? 80 then set_mouse_type 3 m else m));
     ([3], set_mouse_detect_state 0 (if val =? 80 then set_mouse_type 4 m else m))]
    (if val =? 200 then set_mouse_detect_state 1 m else m).

(** A command acknowledged. *)
Definition mouse_ack : IO unit := ms_queue AUX_ACK.
Definition callback_in (n : Z) : IO unit := modify (set_mcallback n).
Definition mouse_data_write (val : Z) : IO unit :=
  ms_mod (λ m, set_msstat (msstat m .& 0x3f .| PS2_CONTROL_TX_BUSY) m);;
  mouse_irq_tx_lower;;
  ms_mod (set_justsent 1);;
  m ← gets ps2mouse;
  if nz (msincommand m) then
    switch (msincommand m)
      [([AUX_SET_RES], mouse_ack;; ms_mod (set_msincommand 0);; callback_in 20);
       ([AUX_SET_SAMPLE], ms_mod (detect_mouse val);; mouse_ack;; ms_mod (set_msincommand 0);; callback_in 20)]
      (mret tt)
  else
    switch val
      [([AUX_RESET], ms_mod (set_msreset 2);; ms_mod (set_mousepoll 0);; callback_in 20);
       ([AUX_RESEND], callback_in 150);
       ([AUX_ENABLE_DEV], mouse_ack;; ms_mod (set_mousepoll 1);; callback_in 20);
       ([AUX_SET_SAMPLE], ms_mod (set_msincommand AUX_SET_SAMPLE);; mouse_ack;; callback_in 20);
       ([AUX_GET_TYPE], mouse_ack;; ms_queue (mouse_type m);; callback_in 20);
       ([AUX_SET_RES], ms_mod (set_msincommand AUX_SET_RES);; mouse_ack;; callback_in 20);
       ([AUX_SET_SCALE21], mouse_ack;; callback_in 20);
       ([AUX_SET_SCALE11], mouse_ack;; callback_in 20)]
      fatal.

Definition mouse_status_read : IO Z := gets (λ s, msstat (ps2mouse s)).
Definition mouse_data_read : IO Z :=
  temp ← gets (λ s, msdata (ps2mouse s));
  ms_mod (λ m, set_msstat (msstat m .&~ PS2_CONTROL_RX_FULL) m);;
  mouse_irq_rx_lower;;
  n ← gets (λ s, q_count (msqueue (ps2mouse s)));
  when (negb (n =? 0)) (callback_in 20);;
  ms_mod (set_msdata 0);;
  mret temp.

Definition mouse_send (v : Z) : IO unit :=
  ms_mod (set_msdata v);;
  mouse_irq_rx_raise;;
  ms_mod (λ m, set_msstat (msstat m .| PS2_CONTROL_RX_FULL) m);;
  ms_mod (λ m, set_msstat (with_parity v (msstat m)) m).

Definition mouse_ps2_callback : IO unit :=
  n ← gets mcallback;
  assert (n =? 0);;
  ms_mod (λ m, set_msstat (msstat m .& 0x3f .| PS2_CONTROL_TX_EMPTY) m);;
  sent ← gets (λ s, justsent (ps2mouse s));
  when (nz sent) (mouse_irq_tx_raise;; ms_mod (set_justsent 0));;
  reset ← gets (λ s, msreset (ps2mouse s));
  if reset =? 1 then
    mouse_irq_tx_raise;;
    ms_mod (set_msreset 3);;
    ms_mod (λ m, set_msstat (msstat m .| PS2_CONTROL_TX_EMPTY) m);;
    callback_in 20
  else if reset =? 2 then ms_mod (set_msreset 3);; mouse_send AUX_ACK;; callback_in 40
  else if reset =? 3 then callback_in 20;; mouse_send AUX_TEST_OK;; ms_mod (set_msreset 4)
  else if reset =? 4 then ms_mod (set_msreset 0);; mouse_send 0;; callback_in 0
  else
    n ← gets (λ s, q_count (msqueue (ps2mouse s)));
    assert (0 <? n);;
    v ← ms_dequeue;
    mouse_send v.

Definition mcallback_tick : IO unit :=
  k ← gets mcallback;
  when (nz k)
    (modify (set_mcallback (k - 10));;
     when (k - 10 <=? 0) (modify (set_mcallback 0);; mouse_ps2_callback)).

(** The first byte of a packet. *)
Definition packet_head (twobutton : bool) (mouseb x y : Z) : Z :=
  let mouseb :=
    if twobutton then
      let mousel := mouseb .& 1 in
      let mouser := (mouseb .& 2) .>> 1 in
      let mousem := (mouseb .& 4) .>> 2 in
      mousel .| Z.shiftl mousem 1 .| Z.shiftl mouser 2
    else mouseb in
  let tmp := mouseb .& 7 .| 8 in
  let tmp := if nz (x .& 0x100) then tmp .| 0x10 else tmp in
  if nz (y .& 0x100) then tmp .| 0x20 else tmp.
Definition clamp (lo hi v : Z) : Z := let v := if v <? lo then lo else v in if hi <? v then hi else v.

(** The byte of the wheel, for the mice that have one. *)
Definition queue_wheel (type z : Z) : IO unit :=
  switch type
    [([3], ms_queue (clamp (-127) 127 z .& 0xff)); ([4], ms_queue (clamp (-7) 7 z .& 0x0f))]
    (mret tt).
Definition has_ps2_mouse (m : Model) : bool :=
  match m with Model_A7000 | Model_A7000plus | Model_Phoebe => true | _ => false end.

Definition mouse_process : IO unit :=
  hack ← gets (λ s, mousehack (sysdev s));
  assert (negb hack);;
  m ← gets mouse;
  let mouseb := m_buttons m .& 7 in
  let x := m_dx m in
  let y := m_dy m in
  let z := 0 in
  chip_mod (λ c, set_mousex ((mousex c + x) mod 0x10000) c);;
  chip_mod (λ c, set_mousey ((mousey c - y) mod 0x10000) c);;
  kind ← gets model;
  if negb (has_ps2_mouse kind) then mret tt else
  p ← gets ps2mouse;
  if negb (nz (mousepoll p)) then mret tt else
  if (x =? 0) && (y =? 0) && (mouseb =? oldmouseb p) && ((mouse_type p =? 0) || (z =? oldz p)) then mret tt else
  ms_mod (set_oldmouseb mouseb);;
  let x := clamp (-256) 255 x in
  let y := clamp (-256) 255 y in
  let y := s32 (u32 y .^ 0xffffffff) + 1 in
  let tmpz := oldz p - z in
  ms_mod (set_oldz z);;
  let z := tmpz in
  twobutton ← gets (λ s, mousetwobutton (sysdev s));
  ms_queue (packet_head twobutton mouseb x y);;
  ms_queue (x .& 255);;
  ms_queue (y .& 255);;
  queue_wheel (mouse_type p) z;;
  callback_in 20.

Definition mouse_mouse_move (x y : Z) : IO unit :=
  hack ← gets (λ s, mousehack (sysdev s));
  assert hack;;
  mouse_mod (λ m, set_m_y y (set_m_x x m)).
Definition mouse_mouse_move_relative (dx dy : Z) : IO unit :=
  hack ← gets (λ s, mousehack (sysdev s));
  assert (negb hack);;
  mouse_mod (λ m, set_m_dy dy (set_m_dx dx m));;
  mouse_mod (λ m, set_m_y (s32 (m_y m + m_dy m)) (set_m_x (s32 (m_x m + m_dx m)) m));;
  mouse_process.
Definition mouse_mouse_press (buttons : Z) : IO unit :=
  mouse_mod (λ m, set_m_buttons (m_buttons m .| buttons) m);;
  hack ← gets (λ s, mousehack (sysdev s));
  when (negb hack) mouse_process.
Definition mouse_mouse_release (buttons : Z) : IO unit :=
  mouse_mod (λ m, set_m_buttons (m_buttons m .&~ buttons) m);;
  hack ← gets (λ s, mousehack (sysdev s));
  when (negb hack) mouse_process.
Definition mouse_buttons_get : IO Z := gets (λ s, m_buttons (mouse s)).
End ps2_mouse.

(** * The mouse SWIs *)

Section mouse_hack.
Context {D : Type} `{!IomdDev D}.
Local Abbreviation IO := (M (Sys D)).

Definition need_mousehack : IO unit := hack ← gets (λ s, mousehack (sysdev s)); assert hack.

(** [xeig], [yeig] *)
Definition eig (double : bool) : Z := if double then 2 else 1.

Definition mouse_osunits_to_host (osx osy : Z) : IO (Z * Z) :=
  d ← gets sysdev;
  let xeig := eig (fst (vidc_get_doublesize d)) in
  let yeig := eig (snd (vidc_get_doublesize d)) in
  mret (osx .>> xeig, (Z.shiftl (vidc_get_ysize d - 1) yeig - osy) .>> yeig).

(** A coordinate of the pointer in OS units, inside the bounding box. *)
Definition box_x (b : MouseHack) (v : Z) : Z :=
  let v := if bb_right b <? v then bb_right b else v in
  if v <? bb_left b then bb_left b else v.
Definition box_y (b : MouseHack) (v : Z) : Z :=
  let v := if v <? bb_bottom b then bb_bottom b else v in
  if bb_top b <? v then bb_top b else v.
Definition osx_of (s : Sys D) : Z := box_x (mouse_hack s) (s32 (Z.shiftl (m_x (mouse s)) 1)).
Definition osy_of (yeig : Z) (s : Sys D) : Z :=
  box_y (mouse_hack s) (s32 (Z.shiftl (vidc_get_ysize (sysdev s) - 1) yeig - Z.shiftl (m_y (mouse s)) 1)).

(** The four results are [*x], [*y], [*osx], [*osy]. *)
Definition mouse_get_osxy : IO (Z * Z * (Z * Z)) :=
  need_mousehack;;
  s ← gets id;
  let d := sysdev s in
  let '(double_x, double_y) := vidc_get_doublesize d in
  let xeig := eig double_x in
  let yeig := eig double_y in
  let osx := osx_of s in
  let x := osx .>> xeig in
  let osy := osy_of yeig s in
  let y := (Z.shiftl (vidc_get_ysize d - 1) yeig - osy) .>> yeig in
  let vidc_x := if double_x then m_x (mouse s) .>> 1 else m_x (mouse s) in
  let vidc_y := if double_y then m_y (mouse s) .>> 1 else m_y (mouse s) in
  let b := mouse_hack s in
  when (negb (vidc_x =? x) || negb (vidc_y =? y))
    (let screen_osx := Z.shiftl (vidc_get_xsize d) xeig in
     let screen_osy := Z.shiftl (vidc_get_ysize d) yeig in
     when ((0 <=? bb_left b) || (bb_right b <? screen_osx) || (0 <=? bb_bottom b) || (bb_top b <? screen_osy))
       (on_dev (rpcemu_move_host_mouse x y)));;
  mret (x, y, (osx, osy)).

Definition mouse_hack_osword_21_4 (a : Z) : IO unit :=
  need_mousehack;;
  p ← mouse_get_osxy;
  let '(osx, osy) := snd p in
  on_dev (guest_write8 (add32 a 1) (u8 osy));;
  on_dev (guest_write8 (add32 a 2) (u8 (osy .>> 8)));;
  on_dev (guest_write8 (add32 a 3) (u8 osx));;
  on_dev (guest_write8 (add32 a 4) (u8 (osx .>> 8))).

(** [activex[pointer]], [activey[pointer]] *)
Definition active (l : MouseHack → list Z) : IO Z := λ s,
  match l (mouse_hack s) !! Z.to_nat (mh_pointer (mouse_hack s)) with Some v => Some (v, s) | None => None end.
Definition mouse_hack_get_pos : IO (Z * Z) :=
  need_mousehack;;
  linked ← gets (λ s, cursor_linked (mouse_hack s));
  if nz linked then
    p ← mouse_get_osxy;
    ax ← active mh_activex;
    ay ← active mh_activey;
    mret (fst (fst p) - ax, snd (fst p) - ay)
  else gets (λ s, (cursor_unlinked_x (mouse_hack s), cursor_unlinked_y (mouse_hack s))).
Definition mouse_hack_cursor_linked : IO Z := gets (λ s, cursor_linked (mouse_hack s)).
Definition mouse_hack_active_point : IO (Z * Z) :=
  ax ← active mh_activex; ay ← active mh_activey; mret (ax, ay).

Definition mouse_hack_osword_21_0 (a : Z) : IO unit :=
  pointer ← on_dev (guest_read8 (add32 a 1));
  need_mousehack;;
  if 4 <? pointer then mret tt else
  x ← on_dev (guest_read8 (add32 a 4));
  hack_mod (λ m, set_mh_activex (<[Z.to_nat pointer := x]> (mh_activex m)) m);;
  y ← on_dev (guest_read8 (add32 a 5));
  hack_mod (λ m, set_mh_activey (<[Z.to_nat pointer := y]> (mh_activey m)) m).

Definition mouse_hack_osbyte_106 (a : Z) : IO unit :=
  need_mousehack;;
  if 4 <? a .& 0x7f then mret tt else
  hack_mod (set_mh_pointer (a .& 0x7f));;
  if nz (a .& 0x80) then
    p ← mouse_hack_get_pos;
    hack_mod (set_cursor_unlinked_x (fst p));;
    hack_mod (set_cursor_unlinked_y (snd p));;
    hack_mod (set_cursor_linked 0)
  else hack_mod (set_cursor_linked 1).

Definition swi_buttons (twobutton : bool) (b : Z) : Z :=
  let r := if nz (b .& 1) then 4 else 0 in
  let r := if nz (b .& 2) then r .| (if twobutton then 2 else 1) else r in
  if nz (b .& 4) then r .| (if twobutton then 1 else 2) else r.
Definition mouse_hack_osmouse : IO unit :=
  need_mousehack;;
  s ← gets id;
  let d := sysdev s in
  on_dev (arm_set_reg 0 (u32 (osx_of s)));;
  let yeig := eig (snd (vidc_get_doublesize d)) in
  let temp_y := box_y (mouse_hack s) (s32 (Z.shiftl (vidc_get_ysize d) yeig - Z.shiftl (m_y (mouse s)) 1)) in
  on_dev (arm_set_reg 1 (u32 temp_y));;
  on_dev (arm_set_reg 2 (swi_buttons (mousetwobutton d) (m_buttons (mouse s))));;
  on_dev (arm_set_reg 3 0).

Definition read_int16 (a : Z) : IO Z :=
  lo ← on_dev (guest_read8 a); hi ← on_dev (guest_read8 (add32 a 1)); mret (s16 (lo .| Z.shiftl hi 8)).
Definition mouse_hack_osword_21_1 (a : Z) : IO unit :=
  v ← read_int16 (add32 a 1); hack_mod (set_bb_left v);;
  v ← read_int16 (add32 a 3); hack_mod (set_bb_bottom v);;
  v ← read_int16 (add32 a 5); hack_mod (set_bb_right v);;
  v ← read_int16 (add32 a 7); hack_mod (set_bb_top v).
Definition mouse_hack_osword_21_3 (a : Z) : IO unit :=
  need_mousehack;;
  osx ← read_int16 (add32 a 1);
  osy ← read_int16 (add32 a 3);
  p ← mouse_osunits_to_host osx osy;
  on_dev (rpcemu_move_host_mouse (fst p) (snd p)).
End mouse_hack.

(** * The chunk of a snapshot *)

Definition ps2_queue_savestate (q : PS2Queue) : list Z :=
  (u8 <$> take 256 (q_data q)) ++ savestate_write_i32 (q_rptr q) ++ savestate_write_i32 (q_wptr q) ++ savestate_write_i32 (q_count q).
Definition ps2_queue_loadstate : M File PS2Queue :=
  data ← savestate_read 256;
  r ← savestate_read_i32; w ← savestate_read_i32; n ← savestate_read_i32;
  mret (mkQueue data (r .& (PS2_QUEUE_SIZE - 1)) (w .& (PS2_QUEUE_SIZE - 1)) n).

Fixpoint read_i32s (n : nat) : M File (list Z) :=
  match n with O => mret [] | Datatypes.S n' => v ← savestate_read_i32; l ← read_i32s n'; mret (v :: l) end.

Section chunk.
Context {D : Type}.

Definition keyboard_savestate (s : Sys D) : list Z :=
  let k := kbd s in let m := ps2mouse s in let h := mouse_hack s in
  savestate_write_i32 (k_enable k) ++ savestate_write_i32 (k_reset k) ++ savestate_write_u8 (k_stat k) ++
  savestate_write_u8 (k_data k) ++ savestate_write_u8 (k_command k) ++ ps2_queue_savestate (k_queue k) ++
  savestate_write_i32 (msenable m) ++ savestate_write_i32 (msreset m) ++ savestate_write_u8 (msstat m) ++
  savestate_write_u8 (msdata m) ++ savestate_write_i32 (mousepoll m) ++ savestate_write_i32 (msincommand m) ++
  savestate_write_i32 (justsent m) ++ ps2_queue_savestate (msqueue m) ++
  savestate_write_u8 (mouse_type m) ++ savestate_write_u8 (mouse_detect_state m) ++
  savestate_write_u8 (mh_pointer h) ++ mjoin (savestate_write_i32 <$> take 5 (mh_activex h)) ++
  mjoin (savestate_write_i32 <$> take 5 (mh_activey h)) ++
  savestate_write_i32 (cursor_linked h) ++ savestate_write_i32 (cursor_unlinked_x h) ++
  savestate_write_i32 (cursor_unlinked_y h) ++ savestate_write_u16 (bb_left h mod 0x10000) ++
  savestate_write_u16 (bb_right h mod 0x10000) ++ savestate_write_u16 (bb_bottom h mod 0x10000) ++
  savestate_write_u16 (bb_top h mod 0x10000) ++
  savestate_write_i32 (kcallback s) ++ savestate_write_i32 (mcallback s).

Definition load_kbd : M File Kbd :=
  enable ← savestate_read_i32; reset ← savestate_read_i32; stat ← savestate_read_u8;
  data ← savestate_read_u8; command ← savestate_read_u8; q ← ps2_queue_loadstate;
  mret (mkKbd enable reset stat data command q).
Definition load_ps2mouse (old : Ps2Mouse) : M File Ps2Mouse :=
  enable ← savestate_read_i32; reset ← savestate_read_i32; stat ← savestate_read_u8; data ← savestate_read_u8;
  poll ← savestate_read_i32; incommand ← savestate_read_i32; sent ← savestate_read_i32; q ← ps2_queue_loadstate;
  type ← savestate_read_u8; detect ← savestate_read_u8;
  mret (mkPs2Mouse enable reset stat data poll incommand sent q type detect (oldmouseb old) (oldz old)).
Definition load_mouse_hack : M File MouseHack :=
  pointer ← savestate_read_u8; ax ← read_i32s 5; ay ← read_i32s 5;
  linked ← savestate_read_i32; x ← savestate_read_i32; y ← savestate_read_i32;
  left ← savestate_read_u16; right ← savestate_read_u16; bottom ← savestate_read_u16; top ← savestate_read_u16;
  mret (mkHack pointer ax ay linked x y (s16 left) (s16 right) (s16 bottom) (s16 top)).
Definition keyboard_loadstate (s : Sys D) : M File (Sys D) :=
  k ← load_kbd;
  m ← load_ps2mouse (ps2mouse s);
  h ← load_mouse_hack;
  kc ← savestate_read_i32; mc ← savestate_read_i32;
  mret (set_mouse (set_m_dy 0 (set_m_dx 0 (mouse s)))
    (set_mcallback mc (set_kcallback kc (set_mouse_hack h (set_ps2mouse m (set_kbd k s)))))).
End chunk.
