(* ===== verification/Iomd.v ===== *)
(** The I/O controller (iomd.c): interrupts, timers, its registers, the regular
    tick, reset, and its chunk of a snapshot. *)

From S2P Require Export Keyboard.

Definition is_arm7500 (t : IOMDType) : bool :=
  match t with IOMDType_ARM7500 | IOMDType_ARM7500FE => true | _ => false end.

(** [iomds]: low and high byte of the identity, and the version. *)
Definition iomds (t : IOMDType) : Z * Z * Z :=
  match t with
  | IOMDType_IOMD => (0xe7, 0xd4, 0)
  | IOMDType_ARM7500 => (0x98, 0x5b, 0)
  | IOMDType_ARM7500FE => (0x7c, 0xaa, 0)
  | IOMDType_IOMD2 => (0xe8, 0xd5, 1)
  end.

Section iomd.
Context {D : Type} `{!IomdDev D, !CmosHost D}.
Local Abbreviation IO := (M (Sys D)).

(** A function of cmos.c *)
Definition on_cmos {A} (m : M (Cmos * D) A) : IO A :=
  zoom (λ s, (i2c s, sysdev s)) (λ p s, set_sysdev (snd p) (set_i2c (fst p) s)) m.

(** * Timers *)

Definition timer_of (n : bool) (c : Iomd) : iomd_timer := if n then t1 c else t0 c.
Definition set_timer (n : bool) (t : iomd_timer) (c : Iomd) : Iomd := if n then set_t1 t c else set_t0 t c.
Definition timer_mod (n : bool) (f : iomd_timer → iomd_timer) : IO unit :=
  chip_mod (λ c, set_timer n (f (timer_of n c)) c).
Definition timer_irq (n : bool) : Z := if n then IOMD_IRQA_TIMER_1 else IOMD_IRQA_TIMER_0.

(** [while (counter < 0 && in_latch)]; [None] would be the loop not ending in
    [fuel] turns. The sum is of unsigned integers. *)
Fixpoint timer_loop (fuel : nat) (n : bool) : IO unit :=
  t ← gets (λ s, timer_of n (chip s));
  if negb ((counter t <? 0) && nz (in_latch t)) then mret tt else
  match fuel with
  | O => fatal
  | Datatypes.S fuel' =>
      timer_mod n (λ t, set_counter (s32 (add32 (u32 (counter t)) (in_latch t))) t);;
      irqa_mod (irq_raise (timer_irq n));;
      updateirqs;;
      timer_loop fuel' n
  end.

(** Enough turns for a latch of 16 bits. *)
Definition timer_fuel (t : iomd_timer) : nat := Z.to_nat ((- counter t) / in_latch t + 1).
Definition run_timer (n : bool) (ticks : Z) : IO unit :=
  timer_mod n (λ t, set_counter (s32 (counter t - ticks)) t);;
  t ← gets (λ s, timer_of n (chip s));
  timer_loop (timer_fuel t) n.

Definition updatetimers (nsec_timer : Z) : IO unit :=
  let new_timer_ticks := u32 (nsec_timer / 500) in
  old ← gets old_timer_ticks;
  let ticks := s32 (sub32 new_timer_ticks old) in
  if ticks <=? 0 then mret tt else
  modify (set_old_timer_ticks new_timer_ticks);;
  run_timer false ticks;;
  run_timer true ticks.

Definition gentimerirq (nsec_timer : Z) : IO unit :=
  updatetimers nsec_timer;;
  s ← gets id;
  when (nz (soundinited s) && nz (sndon s))
    (modify (λ s, set_soundcount (s32 (soundcount s - 4000)) s);;
     n ← gets soundcount;
     when (n <? 0)
       (sound_irq_update;; modify (λ s, set_soundcount (s32 (soundcount s + soundlatch s)) s)));;
  runpoduletimers 2;;
  usb_ohci_frame;;
  usb_ohci_frame.

Definition iomd_timer_resync (nsec_timer : Z) : IO unit := modify (set_old_timer_ticks (u32 (nsec_timer / 500))).

(** * Registers *)

Definition iomd_reg (kind : IOMDType) (addr : Z) : Z :=
  if bool_decide (kind = IOMDType_IOMD2) then addr .& 0x3fc else addr .& 0x1fc.

Definition write_low (n : bool) (val : Z) : IO unit :=
  timer_mod n (λ t, set_in_latch (in_latch t .& 0xff00 .| val .& 0xff) t).
Definition write_high (n : bool) (val : Z) : IO unit :=
  timer_mod n (λ t, set_in_latch (in_latch t .& 0xff .| Z.shiftl (val .& 0xff) 8) t).
Definition timer_go (n : bool) : IO unit :=
  now ← on_dev rpcemu_nsec_timer_ticks;
  updatetimers now;;
  timer_mod n (λ t, set_counter (s32 (sub32 (in_latch t) 1)) t).
Definition timer_latch (n : bool) : IO unit :=
  now ← on_dev rpcemu_nsec_timer_ticks;
  updatetimers now;;
  timer_mod n (λ t, set_out_latch (u32 (counter t)) t).

Definition write_iocr (val : Z) : IO unit :=
  on_cmos (cmosi2cchange (val .>> 1 .& 1) (val .& 1));; chip_mod (set_io_ctrl (u8 val)).
Definition write_irqrqa (val : Z) : IO unit :=
  irqa_mod (irq_lower val);; irqa_mod (irq_raise IOMD_IRQA_FORCE_BIT);; updateirqs.
Definition write_sound (addr val : Z) : IO unit :=
  chip_mod (λ c, set_sndstat (sndstat c .& IOMD_DMA_STATUS_BUFFER) c);;
  irqdma_mod (irq_lower IOMD_IRQDMA_SOUND_0);;
  updateirqs;;
  modify (λ s, set_soundaddr (<[addr .>> 2 .& 3 := val]> (soundaddr s)) s).
Definition write_sndcr (val : Z) : IO unit :=
  when (nz (val .& 0x80))
    (chip_mod (set_sndstat (IOMD_DMA_STATUS_INTERRUPT .| IOMD_DMA_STATUS_OVERRUN));;
     modify (set_soundinited 1);;
     irqdma_mod (irq_raise IOMD_IRQDMA_SOUND_0);;
     updateirqs);;
  modify (set_sndon (val .& 0x20)).

(** The two registers of IOMD2 that gather interrupts. *)
Definition write_314 (val : Z) : IO unit :=
  when (nz (val .& 0x40)) (irqa_mod (irq_lower IOMD_IRQA_FLYBACK));;
  when (nz (val .& 0x10000)) (irqa_mod (irq_lower IOMD_IRQA_TIMER_0));;
  when (nz (val .& 0x400)) (irqb_mod (irq_lower IOMD2_IRQB_SUPERIO_SMI));;
  when (nz (val .& IDE_BIT)) (irqb_mod (irq_lower IOMD_IRQB_IDE));;
  irqa_mod (irq_raise IOMD_IRQA_FORCE_BIT);;
  updateirqs.
Definition mask_bit (on : bool) (bit : Z) (i : iomd_irq) : iomd_irq :=
  irq_set_mask (if on then irq_mask i .| bit else irq_mask i .&~ bit) i.
Definition write_318 (val : Z) : IO unit :=
  irqa_mod (mask_bit (nz (val .& 0x40)) IOMD_IRQA_FLYBACK);;
  irqa_mod (mask_bit (nz (val .& 0x10000)) IOMD_IRQA_TIMER_0);;
  irqb_mod (mask_bit (nz (val .& 0x400)) IOMD2_IRQB_SUPERIO_SMI);;
  irqb_mod (mask_bit (nz (val .& IDE_BIT)) IOMD_IRQB_IDE);;
  updateirqs.

Definition iomd_write (addr val : Z) : IO unit :=
  kind ← gets iomd_kind;
  let arm7500 := is_arm7500 kind in
  let iomd2 := bool_decide (kind = IOMDType_IOMD2) in
  let iomd1 := bool_decide (kind = IOMDType_IOMD) in
  switch (iomd_reg kind addr)
    [([0x000], write_iocr val);
     ([0x004], when (negb iomd2) (keyboard_data_write (u8 val)));
     ([0x008], when (negb iomd2) (keyboard_control_write (val .& 8)));
     ([0x00c], mret tt);
     ([0x014], write_irqrqa val);
     ([0x018], irqa_mod (irq_set_mask (u8 val));; updateirqs);
     ([0x01c], when arm7500 (chip_mod (set_susmode (u8 val))));
     ([0x028], irqb_mod (irq_set_mask (u8 val));; updateirqs);
     ([0x038], fiq_mod (irq_set_mask (u8 val));; updateirqs);
     ([0x03c], when arm7500 (chip_mod (set_clkctrl (u8 val))));
     ([0x040], write_low false val);
     ([0x044], write_high false val);
     ([0x048], timer_go false);
     ([0x04c], timer_latch false);
     ([0x050], write_low true val);
     ([0x054], write_high true val);
     ([0x058], timer_go true);
     ([0x05c], timer_latch true);
     ([0x068], chip_mod (λ c, set_irqc (irq_set_mask (u8 val) (irqc c)) c));
     ([0x06c], when arm7500 (chip_mod (set_vidimux (u8 val))));
     ([0x074], mret tt);
     ([0x078], irqd_mod (irq_set_mask (u8 val)));
     ([0x080], chip_mod (set_romcr0 (u8 val)));
     ([0x084], chip_mod (set_romcr1 (u8 val)));
     ([0x088], mret tt);
     ([0x08c], chip_mod (set_refcr (u8 val)));
     ([0x090], mret tt);
     ([0x0a0], when iomd1 (chip_mod (set_mousex (val mod 0x10000))));
     ([0x0a4], when iomd1 (chip_mod (set_mousey (val mod 0x10000))));
     ([0x0a8], when arm7500 (mouse_data_write (u8 val)));
     ([0x0ac], when arm7500 (mouse_control_write (u8 val)));
     ([0x0c4], chip_mod (set_iotcr (u8 val)));
     ([0x0c8], chip_mod (set_ectcr (u8 val)));
     ([0x0cc], when (iomd1 || iomd2) (chip_mod (set_dmaext (u8 val))));
     ([0x0d0], when arm7500 (chip_mod (set_dramcr (u8 val))));
     ([0x0d4], when arm7500 (chip_mod (set_selfref (u8 val))));
     ([0x0e0], mret tt);
     ([0x180; 0x184; 0x188; 0x18c], write_sound addr val);
     ([0x190], write_sndcr val);
     ([0x1c0], mret tt);
     ([0x1c4], modify (set_cinit val));
     ([0x1d0], chip_mod (set_vidcur (val .& 0x1ffffff0)));
     ([0x1d4], chip_mod (set_vidend (val .& 0x1ffffff0));; on_dev resetbuffer);
     ([0x1d8], chip_mod (set_vidstart (val .& 0x1ffffff0));; on_dev resetbuffer);
     ([0x1dc], chip_mod (set_vidinit (val .& 0xfffffff0));; on_dev resetbuffer);
     ([0x1e0], chip_mod (set_vidcr (u8 val));; on_dev resetbuffer);
     ([0x1f0; 0x1f4], mret tt);
     ([0x1f8], irqdma_mod (irq_set_mask (u8 val)));
     ([0x314], write_314 val);
     ([0x318], write_318 val)]
    (mret tt).

Definition requests (i : iomd_irq) : Z := irq_status i .& irq_mask i.
Definition read_iocr (s : Sys D) : Z :=
  (if nz (cm_clock (i2c s)) then 2 else 0) .| (if nz (cm_data (i2c s)) then 1 else 0) .|
  io_ctrl (chip s) .& 0x7c .| 4 .| (if nz (flyback s) then 0x80 else 0).
(** The bits the gathering registers show of some status or mask. *)
Definition gather (a b : Z) : Z :=
  (if nz (a .& IOMD_IRQA_FLYBACK) then 0x40 else 0) .| (if nz (a .& IOMD_IRQA_TIMER_0) then 0x10000 else 0) .|
  (if nz (b .& IOMD2_IRQB_SUPERIO_SMI) then 0x400 else 0) .| (if nz (b .& IOMD_IRQB_IDE) then IDE_BIT else 0).

(** A register that only some kinds of chip have. *)
Definition only (has : bool) (v : Z) : Z := if has then v else 0.
Definition iomd_read (addr : Z) : IO Z :=
  s ← gets id;
  let c := chip s in
  let kind := iomd_kind s in
  let arm7500 := is_arm7500 kind in
  let iomd2 := bool_decide (kind = IOMDType_IOMD2) in
  let iomd1 := bool_decide (kind = IOMDType_IOMD) in
  switch (iomd_reg kind addr)
    [([0x000], mret (read_iocr s));
     ([0x004], if iomd2 then mret 0 else keyboard_data_read);
     ([0x008], if iomd2 then mret 0 else keyboard_status_read);
     ([0x00c], mret 0);
     ([0x010], mret (irq_status (irqa c)));
     ([0x014], mret (requests (irqa c)));
     ([0x018], mret (irq_mask (irqa c)));
     ([0x01c], mret (only arm7500 (susmode c)));
     ([0x020], mret (irq_status (irqb c)));
     ([0x024], mret (requests (irqb c)));
     ([0x028], mret (irq_mask (irqb c)));
     ([0x030], mret (irq_status (fiq c)));
     ([0x034], mret (requests (fiq c)));
     ([0x038], mret (irq_mask (fiq c)));
     ([0x03c], mret (only arm7500 (clkctrl c)));
     ([0x040], mret (out_latch (t0 c) .& 0xff));
     ([0x044], mret (out_latch (t0 c) .>> 8));
     ([0x050], mret (out_latch (t1 c) .& 0xff));
     ([0x054], mret (out_latch (t1 c) .>> 8));
     ([0x060], mret (irq_status (irqc c)));
     ([0x064], mret (requests (irqc c)));
     ([0x068], mret (irq_mask (irqc c)));
     ([0x06c], mret (only arm7500 (vidimux c)));
     ([0x070], mret (irq_status (irqd c)));
     ([0x074], mret (requests (irqd c)));
     ([0x078], mret (irq_mask (irqd c)));
     ([0x080], mret (romcr0 c));
     ([0x084], mret (romcr1 c));
     ([0x08c], mret (refcr c));
     ([0x094], mret (fst (fst (iomds kind))));
     ([0x098], mret (snd (fst (iomds kind))));
     ([0x09c], mret (snd (iomds kind)));
     ([0x0a0], mret (only iomd1 (mousex c)));
     ([0x0a4], mret (only iomd1 (mousey c)));
     ([0x0a8], if arm7500 then mouse_data_read else mret 0);
     ([0x0ac], if arm7500 then mouse_status_read else mret 0);
     ([0x0c4], mret (iotcr c));
     ([0x0c8], mret (ectcr c));
     ([0x0cc], mret (only (negb arm7500) (dmaext c)));
     ([0x0d0], mret (only arm7500 (dramcr c)));
     ([0x0d4], mret (only arm7500 (selfref c)));
     ([0x180; 0x188; 0x18c], mret 0);
     ([0x184], mret (if bool_decide (model s = Model_Kinetic) then soundaddr s !!! 1 else 0));
     ([0x194], mret (sndstat c));
     ([0x1d0], mret (vidcur c));
     ([0x1d4], mret (vidend c));
     ([0x1d8], mret (vidstart c));
     ([0x1dc], mret (vidinit c));
     ([0x1e0], mret (vidcr c .| 0x50));
     ([0x1f0], mret (irq_status (irqdma c)));
     ([0x1f4], mret (requests (irqdma c)));
     ([0x1f8], mret (irq_mask (irqdma c)));
     ([0x314], mret (gather (requests (irqa c)) (requests (irqb c))));
     ([0x318], mret (gather (irq_mask (irqa c)) (irq_mask (irqb c))))]
    (mret 0).

Definition iomd_mouse_buttons_read : IO Z :=
  b ← mouse_buttons_get;
  two ← gets (λ s, mousetwobutton (sysdev s));
  let temp := if nz (b .& 1) then 0x40 else 0 in
  let temp := if nz (b .& 4) then temp .| (if two : bool then 0x10 else 0x20) else temp in
  let temp := if nz (b .& 2) then temp .| (if two : bool then 0x20 else 0x10) else temp in
  mret (temp .^ 0x70).

Definition iomd_flyback (flyback_new : Z) : IO unit :=
  modify (set_flyback flyback_new);;
  when (nz flyback_new) (irqa_mod (irq_raise IOMD_IRQA_FLYBACK);; updateirqs).

(** * Reset *)

Definition reset_chip (kind : IOMDType) (c : Iomd) : Iomd :=
  let t (o : iomd_timer) := mkTimer 0xffff 0xffff (out_latch o) in
  let c := mkIomd
    (mkIrq (IOMD_IRQA_FORCE_BIT .| IOMD_IRQA_POWER_ON_RESET) 0) (mkIrq 0 0) (mkIrq 0 0)
    (mkIrq (IOMD_IRQD_EVENT_1 .| IOMD_IRQD_EVENT_2) 0) (mkIrq IOMD_FIQ_FORCE_BIT 0) (mkIrq 0 0)
    0x40 0x40 0 0 0 0 (t (t0 c)) (t (t1 c)) 0x10 (vidcr c)
    (IOMD_DMA_STATUS_INTERRUPT .| IOMD_DMA_STATUS_OVERRUN)
    (refcr c) (iotcr c) (ectcr c) (mousex c) (mousey c) (dmaext c)
    (susmode c) (clkctrl c) (vidimux c) (dramcr c) (selfref c) in
  if is_arm7500 kind
  then set_clkctrl 0 (set_selfref 0 (set_dramcr 0 (set_refcr 1 (set_vidimux 0 (set_susmode 0 c)))))
  else set_refcr 0 c.
Definition iomd_reset (type : IOMDType) : IO unit :=
  modify (set_iomd_kind type);;
  chip_mod (reset_chip type);;
  modify (set_soundcount 100000);;
  modify (set_cinit 0);; modify (set_sndon 0);; modify (set_flyback 0).
End iomd.

(** * The chunk of a snapshot *)

Definition iomd_irq_savestate (i : iomd_irq) : list Z := savestate_write_u8 (irq_status i) ++ savestate_write_u8 (irq_mask i).
Definition iomd_irq_loadstate : M File iomd_irq := s ← savestate_read_u8; m ← savestate_read_u8; mret (mkIrq s m).
Definition iomd_timer_savestate (t : iomd_timer) : list Z :=
  savestate_write_u32 (in_latch t) ++ savestate_write_i32 (counter t) ++ savestate_write_u32 (out_latch t).
Definition iomd_timer_loadstate : M File iomd_timer :=
  i ← savestate_read_u32; c ← savestate_read_i32; o ← savestate_read_u32; mret (mkTimer i c o).

Section chunk.
Context {D : Type}.

Definition iomd_savestate (s : Sys D) : list Z :=
  let c := chip s in
  iomd_irq_savestate (irqa c) ++ iomd_irq_savestate (irqb c) ++ iomd_irq_savestate (irqc c) ++
  iomd_irq_savestate (irqd c) ++ iomd_irq_savestate (fiq c) ++ iomd_irq_savestate (irqdma c) ++
  savestate_write_u8 (romcr0 c) ++ savestate_write_u8 (romcr1 c) ++
  savestate_write_u32 (vidstart c) ++ savestate_write_u32 (vidend c) ++
  savestate_write_u32 (vidcur c) ++ savestate_write_u32 (vidinit c) ++
  iomd_timer_savestate (t0 c) ++ iomd_timer_savestate (t1 c) ++
  savestate_write_u8 (io_ctrl c) ++ savestate_write_u8 (vidcr c) ++ savestate_write_u8 (sndstat c) ++
  savestate_write_u8 (refcr c) ++ savestate_write_u8 (iotcr c) ++ savestate_write_u8 (ectcr c) ++
  savestate_write_u16 (mousex c) ++ savestate_write_u16 (mousey c) ++ savestate_write_u8 (dmaext c) ++
  savestate_write_u8 (susmode c) ++ savestate_write_u8 (clkctrl c) ++ savestate_write_u8 (vidimux c) ++
  savestate_write_u8 (dramcr c) ++ savestate_write_u8 (selfref c) ++
  savestate_write_u32 (cinit s) ++ savestate_write_i32 (sndon s) ++ savestate_write_i32 (flyback s).

Definition load_chip : M File Iomd :=
  a ← iomd_irq_loadstate; b ← iomd_irq_loadstate; c ← iomd_irq_loadstate;
  d ← iomd_irq_loadstate; f ← iomd_irq_loadstate; dma ← iomd_irq_loadstate;
  r0 ← savestate_read_u8; r1 ← savestate_read_u8;
  vs ← savestate_read_u32; ve ← savestate_read_u32; vc ← savestate_read_u32; vi ← savestate_read_u32;
  t0 ← iomd_timer_loadstate; t1 ← iomd_timer_loadstate;
  ctrl ← savestate_read_u8; vcr ← savestate_read_u8; snd ← savestate_read_u8;
  ref ← savestate_read_u8; iot ← savestate_read_u8; ect ← savestate_read_u8;
  mx ← savestate_read_u16; my ← savestate_read_u16; ext ← savestate_read_u8;
  sus ← savestate_read_u8; clk ← savestate_read_u8; mux ← savestate_read_u8;
  dram ← savestate_read_u8; self ← savestate_read_u8;
  mret (mkIomd a b c d f dma r0 r1 vs ve vc vi t0 t1 ctrl vcr snd ref iot ect mx my ext sus clk mux dram self).
Definition iomd_loadstate (s : Sys D) : M File (Sys D) :=
  c ← load_chip;
  ci ← savestate_read_u32; son ← savestate_read_i32; fly ← savestate_read_i32;
  mret (set_flyback fly (set_sndon son (set_cinit ci (set_chip c s)))).
End chunk.
