(* ===== verification/CmosSpec.v ===== *)
(** The two-wire bus of cmos.c seen from its master. A transaction, clocked pin by
    pin through [cmosi2cchange], is the sequence of calls of the chip's functions
    that it stands for. *)

From S2P Require Export Cmos SavestateSpec.

(** * The wires and the rest *)

(** The pins, what is fitted, and the state machine. *)
Record Bus := mkBus { bus_clock : Z; bus_data : Z; bus_devices : Z; bus_serdes : I2C_SerDes }.

(** The state with its bus replaced. *)
Definition on_bus (b : Bus) (c : Cmos) : Cmos :=
  mkCmos (cm_ram c) (bus_clock b) (bus_data b) (bus_devices b) (pcf_reg_address c) (pcf_state c)
    (spd_reg_address c) (bus_serdes b).
Definition bus_of (c : Cmos) : Bus := mkBus (cm_clock c) (cm_data c) (cm_devices c) (cm_serdes c).

Lemma on_bus_on_bus b b' c : on_bus b (on_bus b' c) = on_bus b c.
Proof. reflexivity. Qed.
Lemma on_bus_same c : on_bus (bus_of c) c = c.
Proof. by destruct c. Qed.

Section frame.
Context {H : Type} `{!CmosHost H}.
Local Abbreviation CMOS := (M (Cmos * H)).

Definition put_bus (b : Bus) : CMOS unit := cm_mod (on_bus b).

(** The functions of a chip neither look at the wires nor move them. *)
Definition framed {A} (m : CMOS A) : Prop := ∀ c h b,
  m (on_bus b c, h) = (a ← m; put_bus b;; mret a) (c, h).

Lemma framed_ret {A} (a : A) : framed (mret a : CMOS A).
Proof. by intros c h b. Qed.
Lemma framed_fatal {A} : framed (fatal : CMOS A).
Proof. by intros c h b. Qed.
Lemma framed_bind {A B} (m : CMOS A) (f : A → CMOS B) :
  framed m → (∀ a, framed (f a)) → framed (m ≫= f).
Proof.
  intros Fm Ff c h b. rewrite bind_run, Fm, bind_assoc, !bind_run.
  destruct (m (c, h)) as [[a [c' h']]|]; [|done].
  cbv [put_bus cm_mod modify mbind M_bind mret M_ret fst snd]. apply Ff.
Qed.
Lemma framed_cm_get {A} (f : Cmos → A) : (∀ c b, f (on_bus b c) = f c) → framed (cm_get f).
Proof. intros Hf c h b. unfold cm_get, gets. cbn. by rewrite Hf. Qed.
Lemma framed_cm_mod f : (∀ c b, f (on_bus b c) = on_bus b (f c)) → framed (cm_mod f).
Proof. intros Hf c h b. unfold cm_mod, modify. cbn. by rewrite Hf. Qed.
Lemma framed_on_host {A} (m : M H A) : framed (on_host m).
Proof. intros c h b. unfold on_host, zoom, mbind, M_bind. cbn. by destruct (m h) as [[a t]|]. Qed.
Lemma framed_ram_at i : framed (ram_at i : CMOS Z).
Proof.
  intros c h b. unfold ram_at, mbind, M_bind, put_bus, cm_mod, modify, on_bus. cbn.
  by destruct (_ !! _).
Qed.
Lemma framed_ram_set i v : framed (ram_set i v : CMOS unit).
Proof.
  intros c h b. unfold ram_set, mbind, M_bind, put_bus, cm_mod, modify, on_bus. cbn.
  by destruct (_ <=? _).
Qed.
Lemma framed_when b (m : CMOS unit) : framed m → framed (when b m).
Proof. intros F. destruct b; [exact F | apply framed_ret]. Qed.
Lemma framed_if {A} (b : bool) (m1 m2 : CMOS A) : framed m1 → framed m2 → framed (if b then m1 else m2).
Proof. by destruct b. Qed.
Lemma framed_mfor {A} (l : list A) (f : A → CMOS unit) : (∀ a, framed (f a)) → framed (mfor l f).
Proof. intros Hf. induction l; cbn; [apply framed_ret | by apply framed_bind]. Qed.
End frame.

Ltac frame :=
  repeat (cbv zeta; match goal with
  | |- ∀ _, _ => intro
  | |- framed (_ ≫= _) => apply framed_bind
  | |- framed (mret _) => apply framed_ret
  | |- framed fatal => apply framed_fatal
  | |- framed (when _ _) => apply framed_when
  | |- framed (if _ then _ else _) => apply framed_if
  | |- framed (ram_at _) => apply framed_ram_at
  | |- framed (ram_set _ _) => apply framed_ram_set
  | |- framed (on_host _) => apply framed_on_host
  | |- framed (cm_get _) => apply framed_cm_get; reflexivity
  | |- framed (cm_mod _) => apply framed_cm_mod; reflexivity
  | |- framed (match ?x with _ => _ end) => destruct x
  end).

Section chips.
Context {H : Type} `{!CmosHost H}.

Lemma framed_slave_start s : framed (slave_start (H:=H) s).
Proof. destruct s; cbn; unfold pcf8583_start, spd_start; frame. Qed.
Lemma framed_slave_stop s : framed (slave_stop (H:=H) s).
Proof. destruct s; cbn; unfold pcf8583_stop, spd_stop; frame. Qed.
Lemma framed_slave_write s v : framed (slave_write (H:=H) s v).
Proof. destruct s; cbn; unfold pcf8583_write, spd_write, savecmos; frame. Qed.
Lemma framed_slave_read s : framed (slave_read (H:=H) s).
Proof. destruct s; cbn; unfold pcf8583_read, cmosgettime, spd_read; frame. Qed.

(** Every function of the two chips acknowledges. *)
Lemma slave_start_acks s (st : Cmos * H) r st' : slave_start s st = Some (r, st') → r = I2C_ACK.
Proof. destruct s; cbn; intros E; by inversion E. Qed.
Lemma slave_write_acks s v (st : Cmos * H) r st' : slave_write s v st = Some (r, st') → r = I2C_ACK.
Proof.
  destruct s; cbn [slave_write]; unfold pcf8583_write, spd_write; intros E.
  - apply bind_Some in E as (a & s1 & _ & E). apply bind_Some in E as (u & s2 & _ & E). by inversion E.
  - apply bind_Some in E as (u & s2 & _ & E). by inversion E.
Qed.
End chips.

(** * The master *)

Definition bits_of (v : Z) : list Z := (λ i, Z.b2z (Z.testbit v i)) <$> [7; 6; 5; 4; 3; 2; 1; 0].

(** The pins it moves, and the data pin it samples, are parameters. *)
Module Master.
Section master.
Context {S : Type} (pin : Z → Z → M S unit) (sample : M S Z).

Definition send_bit (b : Z) : M S unit := pin 0 b;; pin 1 b;; pin 0 b.

(** Eight bits, the highest first, then the clock in which the slave answers. *)
Definition send_byte (v : Z) : M S Z :=
  mfor (bits_of v) send_bit;;
  pin 0 1;; pin 1 1;; ack ← sample; pin 0 1;; mret ack.

(** Whether all of them were acknowledged. *)
Fixpoint send_bytes (vs : list Z) : M S bool :=
  match vs with
  | [] => mret true
  | v :: vs' => ack ← send_byte v; if nz ack then mret false else send_bytes vs'
  end.

Definition recv_bit : M S Z := pin 1 1;; d ← sample; pin 0 1;; mret d.
Fixpoint recv_bits (n : nat) (acc : Z) : M S Z :=
  match n with O => mret acc | Datatypes.S n' => d ← recv_bit; recv_bits n' (2 * acc + d) end.
Definition give_ack (ack : Z) : M S unit := send_bit ack;; pin 0 1.
Definition recv_byte (ack : Z) : M S Z := v ← recv_bits 8 0; give_ack ack;; mret v.

(** The last byte is not acknowledged. *)
Fixpoint recv_bytes (n : nat) : M S (list Z) :=
  match n with
  | O => mret []
  | Datatypes.S n' => v ← recv_byte (if (n' =? 0)%nat then 1 else 0); l ← recv_bytes n'; mret (v :: l)
  end.

Definition i2c_start : M S unit := pin 0 1;; pin 1 1;; pin 1 0;; pin 0 0.
Definition i2c_stop : M S unit := pin 0 0;; pin 1 0;; pin 1 1.

(** The two transactions of a driver: bytes to the slave at [a], and, after [vs]
    and a second start, [n] bytes from it. *)
Definition i2c_write (a : Z) (vs : list Z) : M S bool :=
  i2c_start;; ok ← send_bytes (2 * a :: vs); i2c_stop;; mret ok.
Definition i2c_read (a : Z) (vs : list Z) (n : nat) : M S (option (list Z)) :=
  i2c_start;; ok ← send_bytes (2 * a :: vs);
  if (ok : bool) then
    i2c_start;; ok ← send_bytes [2 * a + 1];
    if (ok : bool) then l ← recv_bytes n; i2c_stop;; mret (Some l) else i2c_stop;; mret None
  else i2c_stop;; mret None.
End master.
End Master.

Section does.
Context {H : Type} `{!CmosHost H}.
Local Abbreviation CMOS := (M (Cmos * H)).

(** * What it does *)

(** From the bus [b], [m] does what [spec] does. *)
Definition does {A} (b : Bus) (m spec : CMOS A) : Prop := ∀ c h, m (on_bus b c, h) = spec (c, h).

Lemma does_bind {A B C} b (m : CMOS A) (call : CMOS B) (b' : B → Bus) (g : B → A) (f : A → CMOS C) rest :
  does b m (x ← call; put_bus (b' x);; mret (g x)) →
  (∀ x, does (b' x) (f (g x)) (rest x)) →
  does b (m ≫= f) (x ← call; rest x).
Proof.
  intros Hm Hf c h. rewrite bind_run, Hm, !bind_run. destruct (call (c, h)) as [[x [c' h']]|]; [|done].
  rewrite bind_run. cbv [put_bus cm_mod modify mret M_ret fst snd]. apply Hf.
Qed.
Lemma does_step {A C} b b' a (m : CMOS A) (f : A → CMOS C) spec :
  (∀ c h, m (on_bus b c, h) = Some (a, (on_bus b' c, h))) → does b' (f a) spec → does b (m ≫= f) spec.
Proof. intros Hm Hf c h. rewrite (bind_eq _ _ _ _ _ (Hm c h)). apply Hf. Qed.
Lemma does_framed {A} b (m : CMOS A) : framed m → does b m (a ← m; put_bus b;; mret a).
Proof. intros F c h. apply F. Qed.
Lemma does_conseq {A} b (m m' : CMOS A) spec : does b m spec → (∀ s, m' s = m s) → does b m' spec.
Proof. intros Hm E c h. rewrite E. apply Hm. Qed.
Lemma does_spec {A} b (m spec spec' : CMOS A) : does b m spec → (∀ s, spec s = spec' s) → does b m spec'.
Proof. intros Hm E c h. rewrite <- E. apply Hm. Qed.
End does.

(** On the pins of cmos.c; the data pin as a bit. *)
Definition sda_level {H} : M (Cmos * H) Z := cm_get (λ c, Z.b2z (nz (cm_data c))).
Abbreviation send_bit := (Master.send_bit cmosi2cchange).
Abbreviation send_byte := (Master.send_byte cmosi2cchange sda_level).
Abbreviation send_bytes := (Master.send_bytes cmosi2cchange sda_level).
Abbreviation recv_bit := (Master.recv_bit cmosi2cchange sda_level).
Abbreviation recv_bits := (Master.recv_bits cmosi2cchange sda_level).
Abbreviation give_ack := (Master.give_ack cmosi2cchange).
Abbreviation recv_byte := (Master.recv_byte cmosi2cchange sda_level).
Abbreviation recv_bytes := (Master.recv_bytes cmosi2cchange sda_level).
Abbreviation i2c_start := (Master.i2c_start cmosi2cchange).
Abbreviation i2c_stop := (Master.i2c_stop cmosi2cchange).
Abbreviation i2c_write := (Master.i2c_write cmosi2cchange sda_level).
Abbreviation i2c_read := (Master.i2c_read cmosi2cchange sda_level).

Definition is_bit (b : Z) : Prop := b = 0 ∨ b = 1.
Ltac bits := repeat match goal with Hb : is_bit _ |- _ => destruct Hb as [-> | ->] end.

(** What a bit shifts into the register of the state machine. *)
Definition shifted (v b : Z) : Z := let v := u8 (Z.shiftl v 1) in if nz b then v .| 1 else v.

(** A fact of all bytes, by looking at them. *)
Lemma byte_cases (f : Z → bool) : forallb f (seqZ 0 256) = true → ∀ x, 0 ≤ x < 256 → Is_true (f x).
Proof. intros F x Hx. rewrite forallb_forall in F. apply Is_true_eq_left, F, list_elem_of_In, elem_of_seqZ. lia. Qed.
Lemma shifted_bits v : foldl shifted 0 (bits_of v) = u8 v.
Proof.
  assert (E : bits_of v = bits_of (u8 v)).
  { unfold bits_of, u8. change 0x100 with (2 ^ 8). cbn [fmap list_fmap].
    by rewrite !Z.mod_pow2_bits_low by lia. }
  rewrite E. assert (Hv : 0 ≤ u8 v < 256) by apply u8_range.
  apply Z.eqb_eq, Is_true_eq_true, (byte_cases (λ v, foldl shifted 0 (bits_of v) =? v)); [by vm_compute | exact Hv].
Qed.

(** * The bus in a transaction *)

Section steps.
Context {H : Type} `{!CmosHost H}.
Local Abbreviation CMOS := (M (Cmos * H)).
Context (dv : Z).

Definition chip_bit (s : I2C_Slave) : Z := match s with SLAVE_PCF8583 => I2C_PCF8583 | SLAVE_SPD => I2C_SPD_DIMM0 end.
Definition fitted (dv : Z) (s : I2C_Slave) : Prop := nz (dv .& chip_bit s) = true.

Definition idle : I2C_SerDes := mkSerDes None 0 0 0 0 0 I2C_STATE_IDLE 3.
Definition addressing (n v old : Z) : I2C_SerDes := mkSerDes None 0 0 v 0 n I2C_STATE_ADDR old.
Definition writing (s : I2C_Slave) (acc n v old : Z) : I2C_SerDes :=
  mkSerDes (Some s) acc (slave_address s) v 0 n I2C_STATE_WRITE old.
Definition reading (s : I2C_Slave) (n v : Z) : I2C_SerDes :=
  mkSerDes (Some s) 1 (slave_address s) (2 * slave_address s + 1) v n I2C_STATE_READ 1.
Definition waiting (s : I2C_Slave) (v : Z) : I2C_SerDes :=
  mkSerDes (Some s) 1 (slave_address s) (2 * slave_address s + 1) v 0 I2C_STATE_WAIT 1.
Definition bit_out (v n : Z) : Z := Z.b2z (nz (v .& Z.shiftl 1 n)).

Abbreviation bus k d sd := (mkBus k d dv sd).

Lemma start_from_idle k d acc ad v out n old (c : Cmos) (h : H) : 0 ≤ old < 4 →
  i2c_start (on_bus (bus k d (mkSerDes None acc ad v out n I2C_STATE_IDLE old)) c, h) =
  Some (tt, (on_bus (bus 1 1 (addressing 0 0 0)) c, h)).
Proof. intros Ho. each_value old 0 4 ltac:(cbv; reflexivity). Qed.
Lemma start_again s acc (c : Cmos) (h : H) :
  i2c_start (on_bus (bus 1 1 (writing s acc 0 0 1)) c, h) = Some (tt, (on_bus (bus 1 1 (addressing 0 0 0)) c, h)).
Proof. cbv. reflexivity. Qed.

Lemma address_bit k d v n old b (c : Cmos) (h : H) : is_bit old → is_bit b → 0 ≤ n < 7 →
  send_bit b (on_bus (bus k d (addressing n v old)) c, h) =
  Some (tt, (on_bus (bus 1 1 (addressing (n + 1) (shifted v b) b)) c, h)).
Proof. intros. bits; each_value n 0 7 ltac:(cbv -[u8]; reflexivity). Qed.
Lemma write_bit s k d acc v n old b (c : Cmos) (h : H) : is_bit old → is_bit b → 0 ≤ n < 7 →
  send_bit b (on_bus (bus k d (writing s acc n v old)) c, h) =
  Some (tt, (on_bus (bus 1 1 (writing s acc (n + 1) (shifted v b) b)) c, h)).
Proof. intros. bits; each_value n 0 7 ltac:(cbv -[u8 slave_address]; reflexivity). Qed.

Lemma last_address_bit k d v old b (c : Cmos) (h : H) : is_bit old → is_bit b →
  send_bit b (on_bus (bus k d (addressing 7 v old)) c, h) =
  (address_byte;; leave 1 b;; cmosi2cchange 0 b) (on_bus (bus k d (addressing 8 (shifted v b) b)) c, h).
Proof.
  intros Ho Hb. unfold Master.send_bit.
  assert (E1 : cmosi2cchange 0 b (on_bus (bus k d (addressing 7 v old)) c, h) =
    Some (tt, (on_bus (bus k d (addressing 7 v b)) c, h))) by (bits; cbv; reflexivity).
  assert (E2 : cmosi2cchange 1 b (on_bus (bus k d (addressing 7 v b)) c, h) =
    (address_byte;; leave 1 b) (on_bus (bus k d (addressing 8 (shifted v b) b)) c, h)).
  { bits; cbv -[u8 address_byte leave]; reflexivity. }
  rewrite (bind_eq _ _ _ _ _ E1), bind_run, E2, !bind_run.
  destruct (address_byte _) as [[[] st]|]; [|done]. by rewrite bind_run.
Qed.
Lemma address_byte_of s rw n old c (h : H) : is_bit rw → fitted dv s →
  address_byte (on_bus (bus 1 1 (addressing n (2 * slave_address s + rw) old)) c, h) =
  (slave_start s;;
   put_bus (bus 1 1 (mkSerDes (Some s) 0 (slave_address s) (2 * slave_address s + rw) 0 n
     (if nz rw then I2C_STATE_ACK_READ_ADDR else I2C_STATE_ACK_WRITE) old))) (c, h).
Proof.
  unfold fitted. intros Hb Hf. unfold address_byte.
  do 3 (erewrite bind_eq; [|reflexivity]).
  cbn [cm_devices on_bus cm_set_serdes fst snd bus_devices].
  bits; destruct s; cbn [chip_bit] in Hf; rewrite Hf; cbv; reflexivity.
Qed.

(** No chip at the address. *)
Lemma address_byte_absent x n old c (h : H) : 0 ≤ x →
  (∀ s, Z.shiftr x 1 = slave_address s → nz (dv .& chip_bit s) = false) →
  address_byte (on_bus (bus 1 1 (addressing n x old)) c, h) =
  Some (tt, (on_bus (bus 1 1 (mkSerDes None 0 0 0 0 0 I2C_STATE_IDLE old)) c, h)).
Proof.
  intros Hx Hn. unfold address_byte. do 3 (erewrite bind_eq; [|reflexivity]).
  cbn [cm_devices on_bus cm_set_serdes fst snd bus_devices sd_address set_address cm_serdes bus_serdes addressing inbuf].
  pose proof (Hn SLAVE_PCF8583) as H1. pose proof (Hn SLAVE_SPD) as H2. cbn [chip_bit] in H1, H2.
  destruct (Z.eqb_spec (x .>> 1) (slave_address SLAVE_PCF8583)) as [E|E];
    [rewrite H1 by exact E | rewrite andb_false_l];
  (destruct (Z.eqb_spec (x .>> 1) (slave_address SLAVE_SPD)) as [E'|E'];
    [rewrite H2 by exact E' | rewrite andb_false_l]); cbv; reflexivity.
Qed.

Lemma last_write_bit s k d acc v old b : is_bit old → is_bit b →
  does (bus k d (writing s acc 7 v old)) (send_bit b)
    (slave_write s (shifted v b);;
     put_bus (bus 1 0 (mkSerDes (Some s) 1 (slave_address s) (shifted v b) 0 8 I2C_STATE_ACK_WRITE b));; mret tt).
Proof.
  intros Ho Hb c h.
  pose proof (framed_slave_write s (shifted v b) c h (bus k d (mkSerDes (Some s) acc (slave_address s) (shifted v b) 0 8 I2C_STATE_WRITE b))) as F.
  cbv [mbind M_bind] in F |- *.
  destruct (slave_write s (shifted v b) (c, h)) as [[r [c' h']]|] eqn:E.
  - apply slave_write_acks in E as ->. bits; cbv -[u8 slave_write slave_address] in F |- *; rewrite F; reflexivity.
  - bits; cbv -[u8 slave_write slave_address] in F |- *; rewrite F; reflexivity.
Qed.

(** * Bytes *)

Lemma is_bit_b2z b : is_bit (Z.b2z b).
Proof. destruct b; [by right | by left]. Qed.

(** The last bit of a byte makes the call. *)
Lemma does_byte (st : Z → Z → Z → I2C_SerDes) (spec : Z → Z → CMOS unit) :
  (∀ k d v n old b c (h : H), is_bit old → is_bit b → 0 ≤ n < 7 →
     send_bit b (on_bus (bus k d (st n v old)) c, h) = Some (tt, (on_bus (bus 1 1 (st (n + 1) (shifted v b) b)) c, h))) →
  (∀ v old b, is_bit old → is_bit b → does (bus 1 1 (st 7 v old)) (send_bit b) (spec (shifted v b) b)) →
  ∀ k d v old, is_bit old →
  does (bus k d (st 0 0 old)) (mfor (bits_of v) send_bit) (spec (u8 v) (Z.b2z (Z.testbit v 0))).
Proof.
  intros Hs Hl k d v old Ho. pose proof (shifted_bits v) as E. unfold bits_of in *. cbn [fmap list_fmap mfor foldl] in *.
  do 7 (eapply does_step; [intros c h; apply Hs; [exact Ho || apply is_bit_b2z | apply is_bit_b2z | lia] | cbn [Z.add Pos.add Pos.succ]]).
  intros c h. rewrite bind_run, (Hl _ _ _ (is_bit_b2z _) (is_bit_b2z _) c h), E.
  by destruct (spec _ _ (c, h)) as [[[] [c' h']]|].
Qed.

Lemma write_byte s k d acc v old : is_bit old →
  does (bus k d (writing s acc 0 0 old)) (send_byte v)
    (slave_write s (u8 v);; put_bus (bus 1 1 (writing s 1 0 0 1));; mret 0).
Proof.
  intros Ho. unfold Master.send_byte.
  eapply does_spec.
  - eapply (does_bind _ _ (slave_write s (u8 v)) (λ _, bus 1 0 (mkSerDes (Some s) 1 (slave_address s) (u8 v) 0 8 I2C_STATE_ACK_WRITE (Z.b2z (Z.testbit v 0)))) (λ _, tt)).
    + apply (does_byte (λ n v old, writing s acc n v old) (λ x b, slave_write s x;; put_bus (bus 1 0 (mkSerDes (Some s) 1 (slave_address s) x 0 8 I2C_STATE_ACK_WRITE b));; mret tt)).
      * intros. by apply write_bit.
      * intros. by apply last_write_bit.
      * exact Ho.
    + intros r c h. instantiate (1 := λ _, put_bus (bus 1 1 (writing s 1 0 0 1));; mret 0).
      pose proof (is_bit_b2z (Z.testbit v 0)) as Hb. revert Hb. generalize (Z.b2z (Z.testbit v 0)). intros b Hb.
      bits; cbv -[u8 slave_address]; reflexivity.
  - reflexivity.
Qed.

(** The address of a chip that is fitted, to write and to read. *)
Lemma address_to_write s : fitted dv s →
  does (bus 1 1 (addressing 0 0 0)) (send_byte (2 * slave_address s))
    (slave_start s;; put_bus (bus 1 1 (writing s 0 0 0 1));; mret 0).
Proof.
  intros Hf c h. unfold Master.send_byte. rewrite bind_run.
  rewrite (does_byte addressing (λ x b, put_bus (bus 1 1 (addressing 8 x b));; address_byte;; leave 1 b;; cmosi2cchange 0 b)).
  - replace (u8 (2 * slave_address s)) with (2 * slave_address s + 0) by (by destruct s).
    rewrite (bind_eq (put_bus _) _ _ tt (on_bus (bus 1 1 (addressing 8 (2 * slave_address s + 0) (Z.b2z (Z.testbit (2 * slave_address s) 0)))) c, h)) by reflexivity.
    rewrite (bind_run address_byte), (address_byte_of s 0) by (done || by left).
    destruct s; cbv; reflexivity.
  - intros. by apply address_bit.
  - intros v old b Ho Hb c0 h0. rewrite last_address_bit by done. reflexivity.
  - by left.
Qed.

(** The falling edge that fetches the next byte. *)
Definition reading_at (s : I2C_Slave) (n v old : Z) : I2C_SerDes :=
  mkSerDes (Some s) 1 (slave_address s) (2 * slave_address s + 1) v n I2C_STATE_READ old.
Lemma put_bit_out k d sd c (h : H) :
  (pins 1 0;; d ← sd_get id; when (nz (outbuf d .& Z.shiftl 1 (bitcount d))) (pins 1 1)) (on_bus (bus k d sd) c, h) =
  Some (tt, (on_bus (bus 1 (bit_out (outbuf sd) (bitcount sd)) sd) c, h)).
Proof.
  unfold bit_out, sd_get, cm_get, gets, pins, cm_mod, modify, when, mbind, M_bind, mret, M_ret.
  cbn [fst snd cm_set_data cm_set_clock on_bus cm_serdes bus_serdes id].
  by destruct (nz (_ .& _)).
Qed.
Lemma state_read_next s k d n v old c (h : H) : 1 ≤ n < 8 →
  state_read true false (on_bus (bus k d (reading_at s n v old)) c, h) =
  Some (tt, (on_bus (bus 1 (bit_out v (n - 1)) (reading_at s (n - 1) v old)) c, h)).
Proof.
  intros Hn. unfold state_read.
  erewrite bind_eq; [|reflexivity]. cbn [bitcount cm_serdes on_bus bus_serdes reading_at fst].
  destruct (Z.eqb_spec n 8) as [?|_]; [lia|]. erewrite bind_eq; [|reflexivity].
  erewrite bind_eq; [|reflexivity]. cbn [bitcount cm_serdes on_bus bus_serdes reading_at fst].
  destruct (Z.ltb_spec 0 n) as [_|?]; [|lia]. cbn [when].
  erewrite bind_eq; [|reflexivity].
  exact (put_bit_out k d (reading_at s (n - 1) v old) c h).
Qed.
Lemma state_read_fetch s k d out old :
  does (bus k d (reading_at s 8 out old)) (state_read true false)
    (v ← slave_read s; put_bus (bus 1 (bit_out v 7) (reading_at s 7 v old));; mret tt).
Proof.
  intros c h. unfold state_read.
  erewrite bind_eq; [|reflexivity]. cbn [bitcount cm_serdes on_bus bus_serdes reading_at fst].
  cbn [Z.eqb Pos.eqb when]. rewrite bind_assoc. erewrite bind_eq; [|reflexivity]. 
  cbn [active_slave cm_serdes on_bus bus_serdes reading_at fst].
  rewrite bind_assoc, bind_run, (framed_slave_read s c h), !bind_run.
  destruct (slave_read s (c, h)) as [[v [c' h']]|]; [|done].
  rewrite bind_run. cbn [put_bus cm_mod modify mret M_ret fst snd].
  erewrite bind_eq; [|reflexivity]. erewrite bind_eq; [|reflexivity].
  cbn [bitcount cm_serdes on_bus bus_serdes cm_set_serdes set_outbuf reading_at fst snd].
  cbn [Z.ltb Z.compare when].
  erewrite bind_eq; [|reflexivity]. rewrite bind_run.
  exact (put_bit_out k d (reading_at s 7 v old) c' h').
Qed.

Lemma fetch_byte s k d out b : is_bit b →
  does (bus k d (reading_at s 8 out (2 + b))) (cmosi2cchange 0 b)
    (v ← slave_read s; put_bus (bus 1 (bit_out v 7) (reading_at s 7 v b));; mret tt).
Proof.
  intros Hb c h.
  assert (E : cmosi2cchange 0 b (on_bus (bus k d (reading_at s 8 out (2 + b))) c, h) =
    (state_read true false;; leave 0 b) (on_bus (bus k d (reading_at s 8 out (2 + b))) c, h))
    by (bits; cbv -[state_read]; reflexivity).
  rewrite E, bind_run, (state_read_fetch s k d out (2 + b) c h), !bind_run.
  destruct (slave_read s (c, h)) as [[v [c' h']]|]; [|done].
  bits; reflexivity.
Qed.

(** A bit of the byte being read, and the next on the wire. *)
Lemma recv_bit_next s k d n v c (h : H) : 1 ≤ n < 8 →
  recv_bit (on_bus (bus k d (reading_at s n v 1)) c, h) =
  Some (Z.b2z (nz d), (on_bus (bus 1 (bit_out v (n - 1)) (reading_at s (n - 1) v 1)) c, h)).
Proof.
  intros Hn. unfold Master.recv_bit.
  assert (E1 : cmosi2cchange 1 1 (on_bus (bus k d (reading_at s n v 1)) c, h) =
    Some (tt, (on_bus (bus k d (reading_at s n v 3)) c, h))).
  { each_value n 1 8 ltac:(cbv; reflexivity). }
  assert (E2 : cmosi2cchange 0 1 (on_bus (bus k d (reading_at s n v 3)) c, h) =
    (state_read true false;; leave 0 1) (on_bus (bus k d (reading_at s n v 3)) c, h))
    by (cbv -[state_read]; reflexivity).
  rewrite (bind_eq _ _ _ _ _ E1). erewrite bind_eq; [|reflexivity].
  rewrite bind_run, E2, (bind_eq _ _ _ _ _ (state_read_next s k d n v 3 c h Hn)). reflexivity.
Qed.
Lemma recv_bit_last s k d v c (h : H) :
  recv_bit (on_bus (bus k d (reading_at s 0 v 1)) c, h) =
  Some (Z.b2z (nz d), (on_bus (bus 1 1 (set_state I2C_STATE_ACK_READ (reading_at s 0 v 1))) c, h)).
Proof. cbv. reflexivity. Qed.

Lemma bit_out_level v n : Z.b2z (nz (bit_out v n)) = bit_out v n.
Proof. unfold bit_out. by destruct (nz (_ .& _)). Qed.

Lemma bits_in v :
  2 * (2 * (2 * (2 * (2 * (2 * (2 * (2 * 0 + bit_out v 7) + bit_out v 6) + bit_out v 5) + bit_out v 4) + bit_out v 3) + bit_out v 2) + bit_out v 1) + bit_out v 0
  = u8 v.
Proof.
  assert (B : ∀ n, 0 ≤ n < 8 → bit_out v n = Z.b2z (Z.testbit (u8 v) n)).
  { intros n Hn. unfold bit_out. rewrite Z.shiftl_1_l, nz_mask_bit by lia. f_equal.
    unfold u8. change 0x100 with (2 ^ 8). by rewrite Z.mod_pow2_bits_low by lia. }
  rewrite !B by lia. generalize (u8_range v). generalize (u8 v). intros x Hx.
  set (f x := 2 * (2 * (2 * (2 * (2 * (2 * (2 * (2 * 0 + Z.b2z (Z.testbit x 7)) + Z.b2z (Z.testbit x 6)) + Z.b2z (Z.testbit x 5)) + Z.b2z (Z.testbit x 4)) + Z.b2z (Z.testbit x 3)) + Z.b2z (Z.testbit x 2)) + Z.b2z (Z.testbit x 1)) + Z.b2z (Z.testbit x 0)).
  apply Z.eqb_eq, Is_true_eq_true, (byte_cases (λ x, f x =? x)); [by vm_compute | exact Hx].
Qed.
Lemma recv_bits_8 s v c (h : H) :
  recv_bits 8 0 (on_bus (bus 1 (bit_out v 7) (reading_at s 7 v 1)) c, h) =
  Some (u8 v, (on_bus (bus 1 1 (set_state I2C_STATE_ACK_READ (reading_at s 0 v 1))) c, h)).
Proof.
  rewrite <- bits_in. cbn [Master.recv_bits].
  do 7 (erewrite bind_eq; [|apply recv_bit_next; lia]; rewrite bit_out_level; cbn [Z.sub Z.pos_sub Z.opp Z.add Pos.pred_double Z.pred_double]).
  erewrite bind_eq; [|apply recv_bit_last]. rewrite bit_out_level. reflexivity.
Qed.

Lemma read_acked s :
  does (bus 1 0 (mkSerDes (Some s) 0 (slave_address s) (2 * slave_address s + 1) 0 8 I2C_STATE_ACK_READ_ADDR 1))
    (cmosi2cchange 0 1;; cmosi2cchange 1 1;; ack ← sda_level; cmosi2cchange 0 1;; mret ack)
    (v ← slave_read s; put_bus (bus 1 (bit_out v 7) (reading_at s 7 v 1));; mret 0).
Proof.
  eapply does_step; [intros c h; instantiate (1 := mkBus 1 0 dv (mkSerDes (Some s) 0 (slave_address s) (2 * slave_address s + 1) 0 8 I2C_STATE_ACK_READ_ADDR 1)); cbv; reflexivity|].
  eapply does_step; [intros c h; instantiate (1 := mkBus 1 0 dv (reading_at s 8 0 3)); cbv; reflexivity|].
  eapply (does_step _ (mkBus 1 0 dv (reading_at s 8 0 3)) 0); [intros c h; reflexivity|].
  intros c h. pose proof (fetch_byte s 1 0 0 1 (or_intror eq_refl) c h) as F. change (2 + 1) with 3 in F.
  rewrite bind_run, F, !bind_run. by destruct (slave_read s (c, h)) as [[v [c2 h2]]|].
Qed.
Lemma address_to_read s : fitted dv s →
  does (bus 1 1 (addressing 0 0 0)) (send_byte (2 * slave_address s + 1))
    (slave_start s;; v ← slave_read s; put_bus (bus 1 (bit_out v 7) (reading_at s 7 v 1));; mret 0).
Proof.
  intros Hf c h. unfold Master.send_byte. rewrite bind_run.
  rewrite (does_byte addressing (λ x b, put_bus (bus 1 1 (addressing 8 x b));; address_byte;; leave 1 b;; cmosi2cchange 0 b)).
  2: { intros. by apply address_bit. }
  2: { intros v old b Ho Hb c0 h0. rewrite last_address_bit by done. reflexivity. }
  2: { by left. }
  replace (u8 (2 * slave_address s + 1)) with (2 * slave_address s + 1) by (by destruct s).
  replace (Z.testbit (2 * slave_address s + 1) 0) with true by (by destruct s).
  rewrite (bind_eq (put_bus _) _ _ tt (on_bus (bus 1 1 (addressing 8 (2 * slave_address s + 1) 1)) c, h)) by reflexivity.
  rewrite (bind_run address_byte), (address_byte_of s 1) by (done || by right).
  rewrite !bind_run.
  destruct (slave_start s (c, h)) as [[r [c' h']]|]; [|done].
  rewrite bind_run. cbn [put_bus cm_mod modify fst snd].
  assert (E : (leave 1 1;; cmosi2cchange 0 1) (on_bus (bus 1 1 (mkSerDes (Some s) 0 (slave_address s) (2 * slave_address s + 1) 0 8 I2C_STATE_ACK_READ_ADDR 1)) c', h') =
    Some (tt, (on_bus (bus 1 0 (mkSerDes (Some s) 0 (slave_address s) (2 * slave_address s + 1) 0 8 I2C_STATE_ACK_READ_ADDR 1)) c', h'))) by (cbv; reflexivity).
  cbn [nz Z.eqb negb] in *. cbn [nz Z.eqb negb Z.b2z] in *. rewrite E.
  rewrite (read_acked s c' h'), bind_run. by destruct (slave_read s (c', h')) as [[v [c2 h2]]|].
Qed.

(** * Transactions *)

(** The calls of a chip that a transaction stands for. *)
Fixpoint slave_reads (s : I2C_Slave) (n : nat) : CMOS (list Z) :=
  match n with
  | O => mret []
  | Datatypes.S n' => v ← slave_read s; l ← slave_reads s n'; mret (v :: l)
  end.
Definition slave_writes (s : I2C_Slave) (vs : list Z) : CMOS unit :=
  mfor vs (λ v, slave_write s (u8 v);; mret tt).

Lemma write_bytes s acc vs :
  does (bus 1 1 (writing s acc 0 0 1)) (send_bytes vs)
    (slave_writes s vs;; put_bus (bus 1 1 (writing s (match vs with [] => acc | _ => 1 end) 0 0 1));; mret true).
Proof.
  revert acc. induction vs as [|v vs IH]; intros acc; [intros c h; reflexivity|].
  intros c h. cbn [Master.send_bytes slave_writes mfor].
  rewrite bind_run, (write_byte s 1 1 acc v 1 (or_intror eq_refl) c h).
  rewrite !bind_assoc, !bind_run. destruct (slave_write s (u8 v) (c, h)) as [[r [c' h']]|]; [|done].
  rewrite bind_run. cbn [put_bus cm_mod modify fst snd nz Z.eqb negb mret M_ret].
  rewrite (IH 1 c' h'). destruct vs; reflexivity.
Qed.

(** The clock of the acknowledgement: the next byte follows, or nothing. *)
Lemma acked s k d v :
  does (bus k d (set_state I2C_STATE_ACK_READ (reading_at s 0 v 1))) (give_ack 0)
    (v ← slave_read s; put_bus (bus 1 (bit_out v 7) (reading_at s 7 v 1));; mret tt).
Proof.
  intros c h. unfold Master.give_ack, Master.send_bit. rewrite !bind_assoc.
  eapply (does_step _ (bus k d (set_oldpin 0 (set_state I2C_STATE_ACK_READ (reading_at s 0 v 1)))) tt (cmosi2cchange 0 0));
    [intros c0 h0; cbv; reflexivity|].
  intros c0 h0. rewrite bind_assoc.
  eapply (does_step _ (bus k d (reading_at s 8 v (2 + 0))) tt (cmosi2cchange 1 0)); [intros c1 h1; cbv; reflexivity|].
  intros c1 h1. rewrite bind_run, (fetch_byte s k d v 0 (or_introl eq_refl) c1 h1), !bind_run.
  destruct (slave_read s (c1, h1)) as [[x [c2 h2]]|]; [|done]. cbv -[bit_out slave_address]. reflexivity.
Qed.
Lemma not_acked s k d v c (h : H) :
  give_ack 1 (on_bus (bus k d (set_state I2C_STATE_ACK_READ (reading_at s 0 v 1))) c, h) =
  Some (tt, (on_bus (bus k d (waiting s v)) c, h)).
Proof. cbv. reflexivity. Qed.

Lemma read_bytes s n v :
  does (bus 1 (bit_out v 7) (reading_at s 7 v 1)) (recv_bytes (Datatypes.S n))
    (l ← slave_reads s n; put_bus (bus 1 1 (waiting s (List.last (v :: l) 0)));; mret (u8 <$> v :: l)).
Proof.
  revert v. induction n as [|n IH]; intros v c h; cbn [Master.recv_bytes Nat.eqb]; unfold Master.recv_byte;
    rewrite bind_assoc, (bind_eq _ _ _ _ _ (recv_bits_8 s v c h)), bind_assoc, bind_run.
  - rewrite not_acked. reflexivity.
  - rewrite (acked s 1 1 v c h), !bind_run. cbn [slave_reads]. rewrite bind_run.
    destruct (slave_read s (c, h)) as [[x [c2 h2]]|]; [|done].
    rewrite bind_run. cbn [put_bus cm_mod modify fst snd mret M_ret].
    rewrite bind_run. cbn [mret M_ret]. rewrite bind_run.
    specialize (IH x c2 h2). cbn [Master.recv_bytes] in IH. unfold Master.recv_byte in IH. rewrite IH, !bind_run.
    destruct (slave_reads s n (c2, h2)) as [[l [c3 h3]]|]; [|done]. reflexivity.
Qed.

(** The stop, in each of the three states a transaction ends in. *)
Lemma stop_writing s acc :
  does (bus 1 1 (writing s acc 0 0 1)) i2c_stop (slave_stop s;; put_bus (bus 1 1 idle);; mret tt).
Proof. destruct s; intros c h; cbv; reflexivity. Qed.
Lemma stop_waiting s v :
  does (bus 1 1 (waiting s v)) i2c_stop (slave_stop s;; put_bus (bus 1 1 idle);; mret tt).
Proof. destruct s; intros c h; cbv; reflexivity. Qed.
Lemma stop_idle old c (h : H) : is_bit old →
  i2c_stop (on_bus (bus 1 1 (mkSerDes None 0 0 0 0 0 I2C_STATE_IDLE old)) c, h) = Some (tt, (on_bus (bus 1 1 idle) c, h)).
Proof. intros Ho. bits; cbv; reflexivity. Qed.

(** From a free bus. *)
Definition free (sd : I2C_SerDes) : Prop :=
  active_slave sd = None ∧ sd_state sd = I2C_STATE_IDLE ∧ 0 ≤ oldpinstate sd < 4.

Lemma start_from_free k d sd c (h : H) : free sd →
  i2c_start (on_bus (bus k d sd) c, h) = Some (tt, (on_bus (bus 1 1 (addressing 0 0 0)) c, h)).
Proof. destruct sd as [a ac ad v out n st old]. intros (E1 & E2 & Ho). cbn in *. subst. by apply start_from_idle. Qed.

Lemma send_header s vs : fitted dv s →
  does (bus 1 1 (addressing 0 0 0)) (send_bytes (2 * slave_address s :: vs))
    (slave_start s;; slave_writes s vs;;
     put_bus (bus 1 1 (writing s (match vs with [] => 0 | _ => 1 end) 0 0 1));; mret true).
Proof.
  intros Hf c h. cbn [Master.send_bytes]. rewrite bind_run, (address_to_write s Hf c h), !bind_run.
  destruct (slave_start s (c, h)) as [[r [c' h']]|]; [|done].
  rewrite bind_run. cbn [put_bus cm_mod modify fst snd mret M_ret nz Z.eqb negb].
  apply (write_bytes s 0 vs c' h').
Qed.

Lemma does_i2c_write k d sd s vs : free sd → fitted dv s →
  does (bus k d sd) (i2c_write (slave_address s) vs)
    (slave_start s;; slave_writes s vs;; slave_stop s;; put_bus (bus 1 1 idle);; mret true).
Proof.
  intros Hsd Hf c h. unfold Master.i2c_write. rewrite (bind_eq _ _ _ _ _ (start_from_free k d sd c h Hsd)).
  rewrite bind_run, (send_header s vs Hf c h), !bind_run.
  destruct (slave_start s (c, h)) as [[r [c1 h1]]|]; [|done]. rewrite !bind_run.
  destruct (slave_writes s vs (c1, h1)) as [[[] [c2 h2]]|]; [|done]. rewrite bind_run.
  cbn [put_bus cm_mod modify fst snd mret M_ret].
  rewrite bind_run, (stop_writing s _ c2 h2), !bind_run. by destruct (slave_stop s (c2, h2)) as [[[] [c3 h3]]|].
Qed.

Lemma does_i2c_read k d sd s vs n : free sd → fitted dv s → n ≠ O →
  does (bus k d sd) (i2c_read (slave_address s) vs n)
    (slave_start s;; slave_writes s vs;; slave_start s;; l ← slave_reads s n; slave_stop s;;
     put_bus (bus 1 1 idle);; mret (Some (u8 <$> l))).
Proof.
  intros Hsd Hf Hn c h. destruct n as [|n]; [done|]. unfold Master.i2c_read.
  rewrite (bind_eq _ _ _ _ _ (start_from_free k d sd c h Hsd)).
  rewrite bind_run, (send_header s vs Hf c h), !bind_run.
  destruct (slave_start s (c, h)) as [[r [c1 h1]]|]; [|done]. rewrite !bind_run.
  destruct (slave_writes s vs (c1, h1)) as [[[] [c2 h2]]|]; [|done]. rewrite bind_run.
  cbn [put_bus cm_mod modify fst snd mret M_ret].
  rewrite (bind_eq _ _ _ _ _ (start_again s _ c2 h2)).
  cbn [Master.send_bytes]. rewrite !bind_assoc, bind_run, (address_to_read s Hf c2 h2), !bind_run.
  destruct (slave_start s (c2, h2)) as [[r3 [c3 h3]]|]; [|done]. cbn [slave_reads]. rewrite !bind_run.
  destruct (slave_read s (c3, h3)) as [[v [c4 h4]]|]; [|done]. rewrite !bind_run.
  cbn [put_bus cm_mod modify fst snd mret M_ret nz Z.eqb negb].
  rewrite bind_run. cbn [mret M_ret]. rewrite bind_run, (read_bytes s n v c4 h4), !bind_run.
  destruct (slave_reads s n (c4, h4)) as [[l [c5 h5]]|]; [|done].
  rewrite !bind_run. cbn [put_bus cm_mod modify fst snd mret M_ret].
  rewrite bind_run, (stop_waiting s _ c5 h5), !bind_run. by destruct (slave_stop s (c5, h5)) as [[[] [c6 h6]]|].
Qed.

(** Nobody answers. *)
Lemma absent_address x c (h : H) :
  (∀ s, Z.shiftr (u8 x) 1 = slave_address s → nz (dv .& chip_bit s) = false) →
  send_byte x (on_bus (bus 1 1 (addressing 0 0 0)) c, h) =
  Some (1, (on_bus (bus 1 1 (mkSerDes None 0 0 0 0 0 I2C_STATE_IDLE 1)) c, h)).
Proof.
  intros Hn. unfold Master.send_byte. rewrite bind_run.
  rewrite (does_byte addressing (λ x b, put_bus (bus 1 1 (addressing 8 x b));; address_byte;; leave 1 b;; cmosi2cchange 0 b)).
  2: { intros. by apply address_bit. }
  2: { intros v old b Ho Hb c0 h0. rewrite last_address_bit by done. reflexivity. }
  2: { by left. }
  pose proof (is_bit_b2z (Z.testbit x 0)) as Hb. revert Hb. generalize (Z.b2z (Z.testbit x 0)). intros b Hb.
  rewrite (bind_eq (put_bus _) _ _ tt (on_bus (bus 1 1 (addressing 8 (u8 x) b)) c, h)) by reflexivity.
  rewrite (bind_run address_byte), address_byte_absent by (exact Hn || apply u8_range).
  bits; cbv; reflexivity.
Qed.
Lemma i2c_write_absent k d sd a vs c (h : H) : free sd →
  (∀ s, Z.shiftr (u8 (2 * a)) 1 = slave_address s → nz (dv .& chip_bit s) = false) →
  i2c_write a vs (on_bus (bus k d sd) c, h) = Some (false, (on_bus (bus 1 1 idle) c, h)).
Proof.
  intros Hsd Hn. unfold Master.i2c_write. rewrite (bind_eq _ _ _ _ _ (start_from_free k d sd c h Hsd)).
  cbn [Master.send_bytes]. rewrite bind_assoc, (bind_eq _ _ _ _ _ (absent_address (2 * a) c h Hn)).
  cbn [nz Z.eqb negb]. rewrite bind_run. cbn [mret M_ret].
  rewrite (bind_eq _ _ _ _ _ (stop_idle 1 c h (or_intror eq_refl))). reflexivity.
Qed.
End steps.
