(* ===== verification/CmosSafe.v ===== *)
(** Whatever the guest does to the pins, the bus of cmos.c stays in its states and
    its arrays: an invariant of [cmosi2cchange], of the reset and of the contents. *)

From S2P Require Export CmosSpec.

(** * Contents *)

Definition ram_wf (l : list Z) : Prop := length l = 256%nat ∧ Forall byte l.

(** A chip is selected in the states that talk to it (2 to 7), and the count is
    that of the bits shifted in, or of those still to come. *)
Definition state_wf (st : Z) (slave : option I2C_Slave) (n : Z) : Prop :=
  0 ≤ st ≤ I2C_STATE_WAIT ∧ (I2C_STATE_ACK_READ ≤ st ≤ I2C_STATE_WRITE → is_Some slave) ∧
  (st = I2C_STATE_ADDR ∨ st = I2C_STATE_WRITE → 0 ≤ n < 8) ∧ (st = I2C_STATE_READ → 0 ≤ n ≤ 8).
Definition serdes_wf (d : I2C_SerDes) : Prop :=
  byte (inbuf d) ∧ byte (outbuf d) ∧ state_wf (sd_state d) (active_slave d) (bitcount d).

Record chips_wf (c : Cmos) : Prop := {
  cw_ram : ram_wf (cm_ram c);
  cw_reg : byte (pcf_reg_address c);
  cw_state : pcf_state c = PCF_STATE_ADDR ∨ pcf_state c = PCF_STATE_DATA;
  cw_spd : 0 ≤ spd_reg_address c < 128
}.
Definition cmos_wf (c : Cmos) : Prop := chips_wf c ∧ serdes_wf (cm_serdes c).

(** What the host promises: it answers. *)
Class HostAnswers {H : Type} (X : CmosHost H) := {
  gmtime_answers h : ∃ t h', host_gmtime h = Some (t, h');
  localtime_answers h : ∃ t h', host_localtime h = Some (t, h');
  ide_drives_answers h : ∃ n h', host_ide_drives h = Some (n, h');
  write_cmos_answers ram h : ∃ h', host_write_cmos ram h = Some (tt, h')
}.

Section safe.
Context {H : Type} {X : CmosHost H} {XA : HostAnswers X}.
Local Abbreviation CMOS := (M (Cmos * H)).

(** The chips well formed and the state machine in the state [d]. *)
Definition At (d : I2C_SerDes) (s : Cmos * H) : Prop := cm_serdes (fst s) = d ∧ chips_wf (fst s).
Definition done_wf {A} (_ : A) (s : Cmos * H) : Prop := cmos_wf (fst s).

Lemma runs_when P b (m : CMOS unit) Q :
  (b = true → runs P m Q) → (∀ s, P s → Q tt s) → runs P (when b m) Q.
Proof. intros Hm HQ. destruct b; [by apply Hm | by apply runs_ret]. Qed.
Lemma runs_seq {A B} d d' (m : CMOS A) (k : A → CMOS B) (R : A → Prop) Q :
  runs (At d) m (λ a s, R a ∧ At d' s) → (∀ a, R a → runs (At d') (k a) Q) → runs (At d) (m ≫= k) Q.
Proof.
  intros Hm Hk. eapply runs_bind; [exact Hm|]. intros a s [Ha Hs]. by apply (Hk a Ha s).
Qed.
Lemma runs_sd_get {A B} d (f : I2C_SerDes → A) (k : A → CMOS B) Q :
  runs (At d) (k (f d)) Q → runs (At d) (sd_get f ≫= k) Q.
Proof. intros Hk s [E Hs]. unfold sd_get, cm_get. rewrite <- E in Hk. apply (Hk s). by split. Qed.
Lemma runs_sd_mod {B} d f (k : unit → CMOS B) Q :
  runs (At (f d)) (k tt) Q → runs (At d) (sd_mod f ≫= k) Q.
Proof.
  intros Hk s [E Hs]. rewrite (bind_eq _ _ _ tt (cm_set_serdes (f (cm_serdes (fst s))) (fst s), snd s)) by reflexivity.
  apply Hk. split; [cbn; by rewrite E|]. destruct Hs. by split.
Qed.
Lemma runs_pins {B} d x y (k : unit → CMOS B) Q :
  runs (At d) (k tt) Q → runs (At d) (pins x y ≫= k) Q.
Proof. intros Hk s [E Hs]. eapply (Hk (_, _)). split; [exact E|]. destruct Hs. by split. Qed.
Lemma runs_tail {B} d (m : CMOS B) Q : runs (At d) (m ≫= mret) Q → runs (At d) m Q.
Proof.
  intros Hm s Hs. destruct (Hm s Hs) as (a & s' & E & HQ). exists a, s'. split; [|exact HQ].
  rewrite bind_run in E. destruct (m s) as [[b t]|]; [exact E|done].
Qed.
Lemma runs_end {B} d (b : B) : serdes_wf d → runs (At d) (mret b) done_wf.
Proof. intros Hd. apply runs_ret. intros s [E Hs]. split; [exact Hs | by rewrite E]. Qed.

(** * The chips *)

Lemma runs_ram_at d i : 0 ≤ i < 256 → runs (At d) (ram_at i) (λ v s, byte v ∧ At d s).
Proof.
  intros Hi s [E Hs]. pose proof (cw_ram _ Hs) as [L F]. unfold ram_at.
  destruct (lookup_lt_is_Some_2 (cm_ram (fst s)) (Z.to_nat i)) as [v Hv]; [lia|].
  rewrite Hv. exists v, s. split; [reflexivity|]. split; [|by split]. by eapply Forall_lookup_1.
Qed.
Lemma runs_ram_set d i v : 0 ≤ i < 256 → runs (At d) (ram_set i v) (λ _ s, True ∧ At d s).
Proof.
  intros Hi s [E Hs]. pose proof (cw_ram _ Hs) as [L F]. unfold ram_set.
  destruct (Z.leb_spec (Z.of_nat (length (cm_ram (fst s)))) i); [lia|].
  eexists _, _. split; [reflexivity|]. split; [done|]. split; [exact E|]. destruct Hs. split; cbn; try done.
  split; [by rewrite length_insert | apply Forall_insert; [done | apply u8_range]].
Qed.
Lemma runs_host {A} d (m : M H A) : (∀ h, ∃ a h', m h = Some (a, h')) → runs (At d) (on_host m) (λ _ s, True ∧ At d s).
Proof.
  intros Hm s Hs. unfold on_host, zoom. destruct (Hm (snd s)) as (a & h' & E). rewrite E.
  by eexists _, _.
Qed.
Lemma runs_cm_get {A} d (f : Cmos → A) (R : A → Prop) :
  (∀ c, chips_wf c → R (f c)) → runs (At d) (cm_get f) (λ a s, R a ∧ At d s).
Proof. intros Hf s [E Hs]. exists (f (fst s)), s. split; [done|]. split; [by apply Hf | by split]. Qed.
Lemma runs_cm_mod d f : (∀ c, chips_wf c → chips_wf (f c)) → (∀ c, cm_serdes (f c) = cm_serdes c) →
  runs (At d) (cm_mod f) (λ _ s, True ∧ At d s).
Proof. intros Hf Hd s [E Hs]. eexists _, _. split; [reflexivity|]. split; [done|]. split; [cbn; by rewrite Hd | by apply Hf]. Qed.

Lemma byte_next v : byte ((v + 1) .& 0xff).
Proof. change 0xff with (Z.ones 8). rewrite Z.land_ones by lia. apply Z.mod_pos_bound. lia. Qed.

Definition keeps {A} (R : A → Prop) (m : CMOS A) : Prop := ∀ d, runs (At d) m (λ a s, R a ∧ At d s).
Lemma wf_bind {A B} (R : A → Prop) (R' : B → Prop) (m : CMOS A) (k : A → CMOS B) :
  keeps R m → (∀ a, R a → keeps R' (k a)) → keeps R' (m ≫= k).
Proof. intros Hm Hk d. eapply runs_seq; [apply Hm|]. intros a Ha. by apply Hk. Qed.
Lemma wf_ret {A} (R : A → Prop) a : R a → keeps R (mret a).
Proof. intros Ha d. by apply runs_ret. Qed.
Lemma wf_when b (m : CMOS unit) : keeps (λ _, True) m → keeps (λ _, True) (when b m).
Proof. intros Hm. destruct b; [exact Hm | by apply wf_ret]. Qed.

Lemma keeps_gmtime : keeps (λ _, True) (on_host host_gmtime).
Proof. intros d. apply runs_host, gmtime_answers. Qed.
Lemma keeps_savecmos : keeps (λ _, True) savecmos.
Proof.
  eapply (wf_bind (λ _, True)); [intros d; by apply runs_cm_get|].
  intros ram _ d. apply runs_host. intros h. destruct (write_cmos_answers ram h) as [h' E]. by eexists _, _.
Qed.
Lemma keeps_cmosgettime : keeps (λ _, True) cmosgettime.
Proof.
  eapply wf_bind; [apply keeps_gmtime|]. intros t _.
  repeat (eapply wf_bind; [intros d; apply runs_ram_set; lia|intros ? _]). intros d; apply runs_ram_set; lia.
Qed.

Lemma slave_start_keeps s : keeps (λ r, r = I2C_ACK) (slave_start s).
Proof.
  destruct s; cbn [slave_start]; [|by apply wf_ret]. unfold pcf8583_start.
  eapply wf_bind; [|intros ? _; by apply wf_ret].
  intros d. apply runs_cm_mod; [|done]. intros c []. split; cbn; try done. by left.
Qed.
Lemma slave_stop_keeps s : keeps (λ _, True) (slave_stop s).
Proof.
  destruct s; cbn [slave_stop]; [|by apply wf_ret]. intros d.
  apply runs_cm_mod; [|done]. intros c []. split; cbn; try done. by left.
Qed.
Lemma slave_write_keeps s v : byte v → keeps (λ r, r = I2C_ACK) (slave_write s v).
Proof.
  intros Hv. destruct s; cbn [slave_write].
  - unfold pcf8583_write. eapply (wf_bind (λ st, st = PCF_STATE_ADDR ∨ st = PCF_STATE_DATA)).
    { intros d. apply runs_cm_get. by intros c []. }
    intros st Hst. eapply (wf_bind (λ _, True)); [|intros ? _; by apply wf_ret].
    destruct (st =? PCF_STATE_ADDR).
    + intros d. apply runs_cm_mod; [|done]. intros c []. split; cbn; try done. by right.
    + apply wf_when. eapply (wf_bind byte). { intros d. apply runs_cm_get. by intros c []. }
      intros reg Hreg. eapply wf_bind. { intros d. by apply runs_ram_set. }
      intros ? _. eapply wf_bind. { apply wf_when, keeps_savecmos. }
      intros ? _ d. apply runs_cm_mod; [|done]. intros c []. split; cbn; try done. apply byte_next.
  - eapply wf_bind; [|intros ? _; by apply wf_ret].
    intros d. apply runs_cm_mod; [|done]. intros c []. split; cbn; try done.
    change 0x7f with (Z.ones 7). rewrite Z.land_ones by lia. apply Z.mod_pos_bound. lia.
Qed.
Lemma spd_bytes : Forall byte spd_data.
Proof. apply (bool_decide_unpack _). by vm_compute. Qed.
Lemma slave_read_keeps s : keeps byte (slave_read s).
Proof.
  destruct s; cbn [slave_read].
  - unfold pcf8583_read. eapply (wf_bind byte). { intros d. apply runs_cm_get. by intros c []. }
    intros reg Hreg. eapply wf_bind. { apply wf_when, keeps_cmosgettime. }
    intros ? _. eapply wf_bind. { intros d. by apply runs_ram_at. }
    intros v Hv. eapply wf_bind; [|intros ? _; by apply wf_ret].
    intros d. apply runs_cm_mod; [|done]. intros c []. split; cbn; try done. apply byte_next.
  - unfold spd_read. eapply (wf_bind (λ r, 0 ≤ r < 128)). { intros d. apply runs_cm_get. by intros c []. }
    intros reg Hreg. destruct (lookup_lt_is_Some_2 spd_data (Z.to_nat reg)) as [v Hv]; [cbn; lia|].
    rewrite Hv. eapply wf_bind.
    + intros d. apply runs_cm_mod; [|done]. intros c []. split; cbn; try done.
      change 0x7f with (Z.ones 7). rewrite Z.land_ones by lia. apply Z.mod_pos_bound. lia.
    + intros ? _. apply wf_ret. pose proof spd_bytes as F. by eapply Forall_lookup_1.
Qed.

(** * The bus *)

Ltac wf :=
  unfold serdes_wf, state_wf, byte, I2C_STATE_IDLE, I2C_STATE_ADDR, I2C_STATE_ACK_READ, I2C_STATE_ACK_READ_ADDR,
    I2C_STATE_ACK_WRITE, I2C_STATE_NACK_WRITE, I2C_STATE_READ, I2C_STATE_WRITE, I2C_STATE_WAIT in *;
  cbn in *; destruct_and?; repeat split; intros; try (by eexists); (lia || (by auto) || idtac).

Lemma runs_keeps {A B} d (R : A → Prop) (m : CMOS A) (k : A → CMOS B) Q :
  keeps R m → (∀ a, R a → runs (At d) (k a) Q) → runs (At d) (m ≫= k) Q.
Proof. intros Hm. apply runs_seq, Hm. Qed.

Lemma shifted_byte v b : byte (shifted v b).
Proof.
  unfold shifted. pose proof (u8_range (Z.shiftl v 1)) as R. revert R. generalize (u8 (Z.shiftl v 1)). intros x R.
  destruct (nz b); [|exact R]. apply (byte_cases (λ x, (0 <=? x .| 1) && (x .| 1 <? 256))) in R; [|by vm_compute].
  unfold byte. apply Is_true_eq_true in R. lia.
Qed.
Lemma runs_shift_in {B} d sda (k : unit → CMOS B) Q :
  runs (At (set_inbuf (shifted (inbuf d) sda) (set_bitcount (bitcount d + 1) d))) (k tt) Q →
  runs (At d) (shift_in sda ≫= k) Q.
Proof.
  intros Hk s Hs. destruct (Hk (cm_set_serdes (set_inbuf (shifted (inbuf d) sda) (set_bitcount (bitcount d + 1) d)) (fst s), snd s)) as (a & s' & E & HQ).
  { split; [done|]. destruct Hs as [_ []]. by split. }
  exists a, s'. split; [|exact HQ]. rewrite <- E. destruct Hs as [<- _]. apply bind_eq.
  unfold shift_in, shifted. by destruct (nz sda).
Qed.

Lemma address_byte_safe d : byte (inbuf d) → byte (outbuf d) → runs (At d) address_byte done_wf.
Proof.
  intros Hi Ho. unfold address_byte. apply runs_sd_mod, runs_sd_get.
  eapply (runs_keeps _ (λ _, True)); [intros d'; by apply runs_cm_get|]. intros devices _. cbv zeta.
  match goal with |- context [match ?x with Some _ => _ | None => _ end] => destruct x as [s|] end.
  - apply runs_sd_get, runs_sd_mod. eapply runs_keeps; [apply slave_start_keeps|]. intros r ->.
    change (I2C_ACK =? I2C_ACK) with true. cbv iota. apply runs_sd_mod, runs_tail, runs_pins, runs_end.
    destruct (nz _); wf.
  - unfold reset_serdes. apply runs_sd_mod, runs_tail, runs_pins, runs_end. wf.
Qed.
Lemma state_addr_safe d falling rising sda : serdes_wf d → sd_state d = I2C_STATE_ADDR →
  runs (At d) (state_addr falling rising sda) done_wf.
Proof.
  intros Hd Hs. unfold state_addr. destruct falling; [by apply runs_tail, runs_pins, runs_end|].
  destruct rising; [|by apply runs_end]. cbn [when].
  apply runs_shift_in, runs_sd_get. cbn [bitcount set_inbuf set_bitcount].
  assert (Hn : 0 ≤ bitcount d < 8) by (apply Hd; by left).
  destruct (Z.eqb_spec (bitcount d + 1) 8); cbn [when].
  - apply address_byte_safe; [apply shifted_byte | apply Hd].
  - apply runs_end. pose proof (shifted_byte (inbuf d) sda). wf.
Qed.
Lemma start_read_safe d s : serdes_wf d → active_slave d = Some s → runs (At d) start_read done_wf.
Proof.
  intros Hd Hs. unfold start_read. apply runs_tail, runs_sd_mod, runs_end. wf.
Qed.
Lemma state_ack_read_addr_safe d falling rising : serdes_wf d → sd_state d = I2C_STATE_ACK_READ_ADDR →
  runs (At d) (state_ack_read_addr falling rising) done_wf.
Proof.
  intros Hd Hs. unfold state_ack_read_addr. destruct falling; [by apply runs_tail, runs_pins, runs_end|].
  destruct rising; [|by apply runs_end]. cbn [when].
  assert (is_Some (active_slave d)) as [s E] by (apply Hd; rewrite Hs; wf). by eapply start_read_safe.
Qed.
Lemma state_ack_read_safe d falling rising sda : serdes_wf d → sd_state d = I2C_STATE_ACK_READ →
  runs (At d) (state_ack_read falling rising sda) done_wf.
Proof.
  intros Hd Hs. unfold state_ack_read. destruct falling; [by apply runs_tail, runs_pins, runs_end|].
  destruct rising; [|by apply runs_end]. cbn [when]. apply runs_sd_get.
  assert (is_Some (active_slave d)) as [s E] by (apply Hd; rewrite Hs; wf). rewrite E.
  destruct (nz sda); [|by eapply start_read_safe]. apply runs_tail, runs_sd_mod, runs_end. wf.
Qed.
Lemma state_ack_write_safe d nack falling rising :
  serdes_wf d → sd_state d = I2C_STATE_ACK_WRITE ∨ sd_state d = I2C_STATE_NACK_WRITE →
  runs (At d) (state_ack_write nack falling rising) done_wf.
Proof.
  intros Hd Hs. unfold state_ack_write. destruct falling.
  - apply runs_pins. destruct nack; [by apply runs_tail, runs_pins, runs_end | by apply runs_end].
  - destruct rising; [|by apply runs_end]. cbn [when].
    assert (is_Some (active_slave d)) as [s E] by (apply Hd; wf).
    apply runs_tail, runs_sd_mod, runs_end. wf.
Qed.

Lemma runs_if_at {A} d (b : bool) (m1 m2 : CMOS A) Q :
  runs (At d) m1 Q → runs (At d) m2 Q → runs (At d) (if b then m1 else m2) Q.
Proof. by destruct b. Qed.
Lemma state_read_safe d falling rising : serdes_wf d → sd_state d = I2C_STATE_READ →
  runs (At d) (state_read falling rising) done_wf.
Proof.
  intros Hd Hs. unfold state_read.
  assert (is_Some (active_slave d)) as [s E] by (apply Hd; rewrite Hs; wf).
  assert (Hn : 0 ≤ bitcount d ≤ 8) by by apply Hd.
  destruct falling.
  - apply runs_sd_get.
    assert (Hout : ∀ d, serdes_wf d → sd_state d = I2C_STATE_READ → active_slave d = Some s →
      runs (At d) (n ← sd_get bitcount; when (0 <? n)
        (sd_mod (λ d, set_bitcount (bitcount d - 1) d);; pins 1 0;;
         d ← sd_get id; when (nz (outbuf d .& Z.shiftl 1 (bitcount d))) (pins 1 1))) done_wf).
    { clear d Hd Hs E Hn. intros d Hd Hs E. apply runs_sd_get.
      destruct (Z.ltb_spec 0 (bitcount d)); cbn [when]; [|by apply runs_end].
      assert (Hw : serdes_wf (set_bitcount (bitcount d - 1) d)). { wf. }
      apply runs_sd_mod, runs_pins, runs_sd_get. cbn [id].
      destruct (nz _); cbn [when]; [by apply runs_tail, runs_pins, runs_end | by apply runs_end]. }
    destruct (bitcount d =? 8); cbn [when].
    + intros st Hst. rewrite bind_assoc. revert st Hst.
      change (runs (At d) (sd_get active_slave ≫= λ slave, match slave with None => fatal | Some s => data ← slave_read s; sd_mod (set_outbuf data) end ≫= λ _, n ← sd_get bitcount; when (0 <? n)
        (sd_mod (λ d, set_bitcount (bitcount d - 1) d);; pins 1 0;;
         d ← sd_get id; when (nz (outbuf d .& Z.shiftl 1 (bitcount d))) (pins 1 1))) done_wf).
      apply runs_sd_get. rewrite E. intros st Hst. rewrite bind_assoc. revert st Hst.
      eapply runs_keeps; [apply slave_read_keeps|]. intros v Hv. apply runs_sd_mod, Hout; [wf|exact Hs|exact E].
    + intros st Hst. rewrite (bind_eq _ _ _ tt st) by reflexivity. by apply (Hout d).
  - destruct rising; [|by apply runs_end]. cbn [when]. apply runs_sd_get.
    destruct (bitcount d =? 0); cbn [when]; [|by apply runs_end]. apply runs_tail, runs_sd_mod, runs_end. wf.
Qed.
Lemma state_write_safe d falling rising sda : serdes_wf d → sd_state d = I2C_STATE_WRITE →
  runs (At d) (state_write falling rising sda) done_wf.
Proof.
  intros Hd Hs. unfold state_write. destruct falling; [by apply runs_tail, runs_pins, runs_end|].
  destruct rising; [|by apply runs_end]. cbn [when]. apply runs_shift_in, runs_sd_get. cbn [bitcount set_inbuf set_bitcount].
  assert (Hn : 0 ≤ bitcount d < 8) by (apply Hd; by right).
  assert (is_Some (active_slave d)) as [s E] by (apply Hd; rewrite Hs; wf).
  pose proof (shifted_byte (inbuf d) sda) as Hb.
  destruct (Z.eqb_spec (bitcount d + 1) 8); cbn [when].
  - apply runs_sd_get. cbn [active_slave set_inbuf set_bitcount]. rewrite E. apply runs_sd_get. cbn [inbuf set_inbuf].
    eapply runs_keeps; [by apply slave_write_keeps|]. intros r ->. apply runs_sd_mod.
    change (I2C_ACK =? I2C_ACK) with true. cbv iota. apply runs_sd_mod. unfold set_clock_pin.
    intros st [Est Hst]. eexists _, _. split; [reflexivity|]. split; [destruct Hst; by split|]. cbn [fst cm_serdes cm_set_clock].
    rewrite Est. wf.
  - apply runs_end. wf.
Qed.

Lemma runs_leave_after d (m : CMOS unit) scl sda :
  runs (At d) m done_wf → runs (At d) (m;; leave scl sda) done_wf.
Proof.
  intros Hm. eapply runs_bind; [exact Hm|]. intros _ s [Hc Hd]. eexists _, _. split; [reflexivity|].
  split; [destruct Hc; by split | exact Hd].
Qed.
Lemma runs_reset_serdes d st scl sda : st = I2C_STATE_IDLE ∨ st = I2C_STATE_ADDR →
  runs (At d) (reset_serdes;; sd_mod (set_state st);; leave scl sda) done_wf.
Proof.
  intros Hst [c h] [E Hs]. eexists _, _. split; [reflexivity|]. split; [cbn; destruct Hs; by split|]. cbn. clear E Hs. wf.
Qed.

Lemma cmosi2cchange_at d scl sda : serdes_wf d → runs (At d) (cmosi2cchange scl sda) done_wf.
Proof.
  intros Hd. unfold cmosi2cchange. apply runs_sd_get. cbn [id]. cbv zeta.
  apply runs_if_at; [by apply runs_reset_serdes; right|].
  apply runs_if_at.
  { intros st Hst.
    assert (Hk : keeps (λ _, True) (match active_slave d with Some s => slave_stop s | None => mret tt end)).
    { destruct (active_slave d); [apply slave_stop_keeps | by apply wf_ret]. }
    revert st Hst. eapply runs_keeps; [exact Hk|]. intros ? _ st Hst.
    apply (runs_reset_serdes d I2C_STATE_IDLE scl sda (or_introl eq_refl) st) in Hst. exact Hst. }
  apply runs_leave_after.
  cbn [switch existsb]. rewrite !orb_false_r.
  destruct (Z.eqb_spec (sd_state d) I2C_STATE_IDLE); [by apply runs_tail, runs_pins, runs_end|].
  destruct (Z.eqb_spec (sd_state d) I2C_STATE_ADDR); [by apply state_addr_safe|].
  destruct (Z.eqb_spec (sd_state d) I2C_STATE_ACK_READ_ADDR); [by apply state_ack_read_addr_safe|].
  destruct (Z.eqb_spec (sd_state d) I2C_STATE_ACK_READ); [by apply state_ack_read_safe|].
  destruct (_ || _) eqn:Ew.
  { apply state_ack_write_safe; [done|]. apply orb_true_iff in Ew as [?%Z.eqb_eq | ?%Z.eqb_eq]; auto. }
  destruct (Z.eqb_spec (sd_state d) I2C_STATE_READ); [by apply state_read_safe|].
  destruct (Z.eqb_spec (sd_state d) I2C_STATE_WRITE); [by apply state_write_safe|].
  destruct (Z.eqb_spec (sd_state d) I2C_STATE_WAIT); [by apply runs_end | by apply runs_tail, runs_pins, runs_end].
Qed.

(** Any movement of the pins returns, well formed. *)
Lemma cmosi2cchange_safe scl sda c (h : H) : cmos_wf c →
  ∃ c' h', cmosi2cchange scl sda (c, h) = Some (tt, (c', h')) ∧ cmos_wf c'.
Proof.
  intros [Hc Hd]. destruct (cmosi2cchange_at (cm_serdes c) scl sda Hd (c, h) (conj eq_refl Hc)) as ([] & [c' h'] & E & Hw).
  by exists c', h'.
Qed.
Lemma pin_moves_safe moves c (h : H) : cmos_wf c →
  ∃ c' h', mfor moves (λ p, cmosi2cchange (fst p) (snd p)) (c, h) = Some (tt, (c', h')) ∧ cmos_wf c'.
Proof.
  revert c h. induction moves as [|[scl sda] moves IH]; intros c h Hc; [by exists c, h|].
  destruct (cmosi2cchange_safe scl sda c h Hc) as (c1 & h1 & E & Hc1). cbn [mfor fst snd].
  rewrite (bind_eq _ _ _ _ _ E). by apply IH.
Qed.
End safe.

(** The state [reset_serdes] leaves. *)
Lemma idle_wf old : serdes_wf (mkSerDes None 0 0 0 0 0 I2C_STATE_IDLE old).
Proof.
  unfold serdes_wf, state_wf, byte, I2C_STATE_IDLE, I2C_STATE_ADDR, I2C_STATE_ACK_READ, I2C_STATE_READ, I2C_STATE_WRITE, I2C_STATE_WAIT.
  cbn. repeat split; intros; lia.
Qed.
