(* ===== verification/CmosContents.v ===== *)
(** What the clock chip keeps: bytes written through the bus and read back, the
    checksum, and the chunk of a snapshot. *)

From S2P Require Export CmosSafe.

Section contents.
Context {H : Type} {X : CmosHost H} {XA : HostAnswers X}.
Local Abbreviation CMOS := (M (Cmos * H)).

(** ** The register file *)

Lemma ram_at_run i v (c : Cmos) (h : H) : 0 ≤ i → cm_ram c !! Z.to_nat i = Some v → ram_at i (c, h) = Some (v, (c, h)).
Proof. intros Hi E. unfold ram_at. cbn [fst]. by rewrite E. Qed.
Lemma ram_set_run i v (c : Cmos) (h : H) : 0 ≤ i < Z.of_nat (length (cm_ram c)) →
  ram_set i v (c, h) = Some (tt, (cm_set_ram (<[Z.to_nat i := u8 v]> (cm_ram c)) c, h)).
Proof. intros Hi. unfold ram_set. cbn [fst snd]. by destruct (Z.leb_spec (Z.of_nat (length (cm_ram c))) i); [lia|]. Qed.

Definition pcf_at (st reg : Z) (ram : list Z) (c : Cmos) : Cmos :=
  pcf_set_state st (pcf_set_reg reg (cm_set_ram ram c)).
Definition next_reg (reg : Z) (n : nat) : Z := (reg + Z.of_nat n) mod 256.

Lemma next_and reg : (reg + 1) .& 0xff = next_reg reg 1.
Proof. change 0xff with (Z.ones 8). by rewrite Z.land_ones by lia. Qed.
Lemma next_next reg n : next_reg (next_reg reg 1) n = next_reg reg (Datatypes.S n).
Proof. unfold next_reg. rewrite Z.add_mod_idemp_l by lia. f_equal. lia. Qed.

Lemma pcf_write_run reg v ram c (h : H) : 0 ≤ reg < Z.of_nat (length ram) →
  ∃ h', pcf8583_write v (pcf_at PCF_STATE_DATA reg ram c, h) =
    Some (I2C_ACK, (pcf_at PCF_STATE_DATA (next_reg reg 1) (<[Z.to_nat reg := u8 v]> ram) c, h')).
Proof.
  intros Hr. unfold pcf8583_write.
  rewrite (bind_eq _ _ _ PCF_STATE_DATA (pcf_at PCF_STATE_DATA reg ram c, h)) by reflexivity.
  change (PCF_STATE_DATA =? PCF_STATE_ADDR) with false. change (PCF_STATE_DATA =? PCF_STATE_DATA) with true. cbn [when].
  rewrite bind_assoc, (bind_eq _ _ _ reg (pcf_at PCF_STATE_DATA reg ram c, h)) by reflexivity. rewrite bind_assoc.
  set (c1 := cm_set_ram (<[Z.to_nat reg := u8 v]> ram) (pcf_at PCF_STATE_DATA reg ram c)).
  rewrite (bind_eq _ _ _ tt (c1, h)) by by apply (ram_set_run reg v (pcf_at PCF_STATE_DATA reg ram c) h). rewrite bind_assoc.
  assert (∃ h', when (reg =? 0x3f) savecmos (c1, h) = Some (tt, (c1, h'))) as [h' E].
  { destruct (reg =? 0x3f); [|by exists h]. unfold savecmos. cbn [when].
    destruct (write_cmos_answers (cm_ram c1) h) as [h' E]. exists h'.
    rewrite (bind_eq _ _ _ (cm_ram c1) (c1, h)) by reflexivity. unfold on_host, zoom. cbn [snd]. by rewrite E. }
  exists h'. rewrite (bind_eq _ _ _ _ _ E). rewrite <- next_and. reflexivity.
Qed.
Lemma pcf_writes_run vs : ∀ reg ram c (h : H), 0 ≤ reg → reg + Z.of_nat (length vs) ≤ 256 → length ram = 256%nat →
  ∃ h', slave_writes SLAVE_PCF8583 vs (pcf_at PCF_STATE_DATA (reg mod 256) ram c, h) =
    Some (tt, (pcf_at PCF_STATE_DATA (next_reg reg (length vs)) (list_inserts (Z.to_nat reg) (u8 <$> vs) ram) c, h')).
Proof.
  induction vs as [|v vs IH]; intros reg ram c h Hr Hl L.
  { exists h. cbn. unfold next_reg. by rewrite Z.add_0_r. }
  cbn [length] in Hl. unfold slave_writes. cbn [mfor].
  assert (Er : reg mod 256 = reg) by (apply Z.mod_small; lia).
  destruct (pcf_write_run reg (u8 v) ram c h ltac:(lia)) as [h1 E1].
  rewrite Er. cbn [slave_write]. rewrite bind_assoc, (bind_eq _ _ _ _ _ E1).
  destruct (IH (reg + 1) (<[Z.to_nat reg := u8 (u8 v)]> ram) c h1) as [h2 E2]; [lia|lia|by rewrite length_insert|].
  exists h2. rewrite (bind_eq _ _ _ tt (pcf_at PCF_STATE_DATA ((reg + 1) mod 256) (<[Z.to_nat reg := u8 (u8 v)]> ram) c, h1)) by reflexivity.
  etransitivity; [exact E2|]. do 3 f_equal. f_equal; [unfold next_reg; f_equal; cbn [length]; lia|].
  cbn [fmap list_fmap list_inserts]. rewrite (u8_id (u8 v)) by apply u8_byte.
  rewrite list_insert_inserts_lt by lia. by replace (Z.to_nat (reg + 1)) with (S (Z.to_nat reg)) by lia.
Qed.

Lemma pcf_read_run st reg v ram c (h : H) : 0x10 ≤ reg → ram !! Z.to_nat reg = Some v →
  pcf8583_read (pcf_at st reg ram c, h) = Some (v, (pcf_at st (next_reg reg 1) ram c, h)).
Proof.
  intros Hr Hv. unfold pcf8583_read.
  rewrite (bind_eq _ _ _ reg (pcf_at st reg ram c, h)) by reflexivity.
  destruct (Z.ltb_spec reg 0x10); [lia|]. cbn [when].
  rewrite (bind_eq _ _ _ tt (pcf_at st reg ram c, h)) by reflexivity.
  rewrite (bind_eq _ _ _ v (pcf_at st reg ram c, h)) by (apply ram_at_run; [lia|exact Hv]).
  rewrite <- next_and. reflexivity.
Qed.
Lemma pcf_reads_run st l : ∀ reg ram c (h : H), 0x10 ≤ reg → reg + Z.of_nat (length l) ≤ 256 →
  take (length l) (drop (Z.to_nat reg) ram) = l →
  slave_reads SLAVE_PCF8583 (length l) (pcf_at st (reg mod 256) ram c, h) =
  Some (l, (pcf_at st (next_reg reg (length l)) ram c, h)).
Proof.
  induction l as [|v l IH]; intros reg ram c h Hr Hl Ht.
  { cbn. unfold next_reg. by rewrite Z.add_0_r. }
  cbn [length] in Hl. rewrite (Z.mod_small reg) by lia. cbn [length slave_reads slave_read].
  assert (ram !! Z.to_nat reg = Some v ∧ take (length l) (drop (Z.to_nat (reg + 1)) ram) = l) as [Hv Hd].
  { cbn [length] in Ht. destruct (drop (Z.to_nat reg) ram) as [|x d] eqn:E; [done|]. cbn [firstn take] in Ht. injection Ht as -> Ht.
    split; [by rewrite <- (Nat.add_0_r (Z.to_nat reg)), <- lookup_drop, E|].
    replace (Z.to_nat (reg + 1)) with (Z.to_nat reg + 1)%nat by lia. by rewrite <- drop_drop, E. }
  rewrite (bind_eq _ _ _ _ _ (pcf_read_run st reg v ram c h Hr Hv)).
  rewrite (bind_eq _ _ _ _ _ (IH (reg + 1) ram c h ltac:(lia) ltac:(lia) Hd)).
  unfold mret, M_ret. do 3 f_equal. unfold pcf_at, next_reg. do 2 f_equal. cbn [length]. f_equal. lia.
Qed.

(** The first byte of a transaction selects the register. *)
Lemma select_run a vs (c : Cmos) (h : H) {A} (k : CMOS A) : byte a →
  (slave_start SLAVE_PCF8583;; slave_writes SLAVE_PCF8583 (a :: vs);; k) (c, h) =
  (slave_writes SLAVE_PCF8583 vs;; k) (pcf_at PCF_STATE_DATA a (cm_ram c) c, h).
Proof.
  intros Ha. cbn [slave_start]. unfold pcf8583_start. rewrite bind_assoc.
  rewrite (bind_eq _ _ _ tt (pcf_set_state PCF_STATE_ADDR c, h)) by reflexivity.
  rewrite (bind_eq _ _ _ I2C_ACK (pcf_set_state PCF_STATE_ADDR c, h)) by reflexivity.
  unfold slave_writes at 1. cbn [mfor slave_write]. rewrite (u8_id a) by done. by destruct c.
Qed.

(** Bytes written through the bus at [a], and read back through it. *)
Lemma bus_write_then_read a vs k d sd c (h : H) dv :
  free sd → fitted dv SLAVE_PCF8583 → length (cm_ram c) = 256%nat →
  0x10 ≤ a → a + Z.of_nat (length vs) ≤ 256 → vs ≠ [] → Forall byte vs →
  ∃ h1 c1 c2, i2c_write 0x50 (a :: vs) (on_bus (mkBus k d dv sd) c, h) = Some (true, (c1, h1)) ∧
    cm_ram c1 = list_inserts (Z.to_nat a) vs (cm_ram c) ∧
    i2c_read 0x50 [a] (length vs) (c1, h1) = Some (Some vs, (c2, h1)) ∧
    cm_ram c2 = cm_ram c1 ∧ bus_of c1 = mkBus 1 1 dv idle ∧ bus_of c2 = mkBus 1 1 dv idle.
Proof.
  intros Hsd Hf L Ha Hl Hn Hv.
  assert (Hlen : (0 < length vs)%nat) by (destruct vs; cbn; [done|lia]).
  assert (Hb : byte a) by (unfold byte; lia).
  assert (Hu : u8 <$> vs = vs) by (clear -Hv; induction Hv; cbn; [done | by rewrite u8_id, IHHv]).
  destruct (pcf_writes_run vs a (cm_ram c) c h) as [h1 E1]; [lia..|done|].
  rewrite (Z.mod_small a) in E1 by lia. rewrite Hu in E1.
  set (ram := list_inserts (Z.to_nat a) vs (cm_ram c)) in *.
  set (c1 := on_bus (mkBus 1 1 dv idle) (pcf_at PCF_STATE_ADDR (next_reg a (length vs)) ram c)).
  exists h1, c1, (on_bus (mkBus 1 1 dv idle) (pcf_at PCF_STATE_ADDR (next_reg a (length vs)) ram c)).
  split_and!; try done.
  - change 0x50 with (slave_address SLAVE_PCF8583). rewrite (does_i2c_write dv k d sd SLAVE_PCF8583 (a :: vs) Hsd Hf c h).
    rewrite (select_run a vs c h _ Hb), (bind_eq _ _ _ _ _ E1). reflexivity.
  - change 0x50 with (slave_address SLAVE_PCF8583). unfold c1.
    rewrite (does_i2c_read dv 1 1 idle SLAVE_PCF8583 [a] (length vs)); [|split_and!; cbn; lia || done|done|lia].
    rewrite (select_run a [] _ h1 _ Hb). unfold slave_writes. cbn [mfor].
    set (c2 := pcf_at PCF_STATE_ADDR _ ram c).
    rewrite (bind_eq _ _ _ tt (pcf_at PCF_STATE_DATA a (cm_ram c2) c2, h1)) by reflexivity.
    rewrite (bind_eq _ _ _ I2C_ACK (pcf_at PCF_STATE_ADDR (a mod 256) ram c2, h1)) by (rewrite Z.mod_small by lia; reflexivity).
    assert (Et : take (length vs) (drop (Z.to_nat a) ram) = vs).
    { apply list_eq. intros i. destruct (decide (i < length vs)%nat).
      - rewrite lookup_take_lt, lookup_drop by done. unfold ram. rewrite list_lookup_inserts by lia. f_equal. lia.
      - rewrite lookup_take_ge by lia. symmetry. apply lookup_ge_None. lia. }
    rewrite (bind_eq _ _ _ _ _ (pcf_reads_run PCF_STATE_ADDR vs a ram c2 h1 Ha Hl Et)).
    rewrite Hu. reflexivity.
Qed.

(** ** The checksum *)

Definition ram_byte (ram : list Z) (i : Z) : Z := default 0 (ram !! Z.to_nat i).
Definition nvram_sum (ram : list Z) (l : list Z) : Z := foldr (λ i n, ram_byte ram (cmos_logical_offset i) + n) 0 l.
Definition checksum_ok (ram : list Z) : Prop :=
  ram_byte ram 0x3f = (nvram_sum ram (seqZ 0 239) + 1) mod 256.

Lemma logical_range i : 0 ≤ i < 239 → 16 ≤ cmos_logical_offset i < 256 ∧ cmos_logical_offset i ≠ 0x3f.
Proof. unfold cmos_logical_offset. destruct (Z.ltb_spec 255 (i + 0x40)); lia. Qed.
Lemma nvram_sum_ext ram ram' l : Forall (λ i, 0 ≤ i < 239) l →
  (∀ i, 16 ≤ i → i ≠ 0x3f → ram_byte ram' i = ram_byte ram i) → nvram_sum ram' l = nvram_sum ram l.
Proof.
  intros F E. induction F as [|i l Hi _ IH]; [done|]. unfold nvram_sum in *. cbn [foldr]. rewrite IH.
  f_equal. apply E; pose proof (logical_range i Hi); tauto.
Qed.
Lemma seq_239 : Forall (λ i, 0 ≤ i < 239) (seqZ 0 239).
Proof. apply Forall_forall. intros i Hi. apply list_elem_of_In, elem_of_seqZ in Hi. lia. Qed.

Lemma add32_mod a b : add32 a b mod 256 = (a + b) mod 256.
Proof. unfold add32, u32. apply Z.mod_mod_divide. by exists 0x1000000. Qed.
Lemma checksum_loop_run l : ∀ n c (h : H), Forall (λ i, 0 ≤ i < 239) l → length (cm_ram c) = 256%nat →
  ∃ s, checksum_loop l n (c, h) = Some (s, (c, h)) ∧ s mod 256 = (n + nvram_sum (cm_ram c) l) mod 256.
Proof.
  induction l as [|i l IH]; intros n c h F L.
  { exists n. split; [done|]. cbn. by rewrite Z.add_0_r. }
  inversion F as [|? ? Hi F']; subst. pose proof (logical_range i Hi) as [Hr _].
  destruct (lookup_lt_is_Some_2 (cm_ram c) (Z.to_nat (cmos_logical_offset i))) as [v Hv]; [lia|].
  cbn [checksum_loop]. rewrite (bind_eq _ _ _ _ _ (ram_at_run (cmos_logical_offset i) v c h ltac:(lia) Hv)).
  destruct (IH (add32 n v) c h F' L) as (s & E & Hs). exists s. split; [exact E|].
  rewrite Hs, <- Zplus_mod_idemp_l, add32_mod, Zplus_mod_idemp_l. f_equal.
  unfold nvram_sum. cbn [foldr]. replace (ram_byte (cm_ram c) (cmos_logical_offset i)) with v by (unfold ram_byte; by rewrite Hv). lia.
Qed.
Lemma update_checksum_run c (h : H) : length (cm_ram c) = 256%nat →
  ∃ ram, cmos_update_checksum (c, h) = Some (tt, (cm_set_ram ram c, h)) ∧ checksum_ok ram ∧
    (∀ i, 0 ≤ i → i ≠ 0x3f → ram_byte ram i = ram_byte (cm_ram c) i) ∧ length ram = 256%nat ∧
    (Forall byte (cm_ram c) → Forall byte ram).
Proof.
  intros L. destruct (checksum_loop_run (seqZ 0 239) 0 c h seq_239 L) as (s & E & Hs).
  unfold cmos_update_checksum. rewrite (bind_eq _ _ _ _ _ E), ram_set_run by lia.
  set (v := u8 _). set (ram := <[_ := v]> (cm_ram c)). exists ram.
  assert (Eo : ∀ i, 0 ≤ i → i ≠ 0x3f → ram_byte ram i = ram_byte (cm_ram c) i).
  { intros i Hi Hn. unfold ram_byte, ram. by rewrite list_lookup_insert_ne by lia. }
  assert (Hv : v = (nvram_sum (cm_ram c) (seqZ 0 239) + 1) mod 256).
  { subst v. unfold u8. change 0xff with (Z.ones 8). rewrite Z.land_ones by lia.
    change (2 ^ 8) with 256. change 0x100 with 256. rewrite Z.mod_mod by lia.
    by rewrite add32_mod, <- Zplus_mod_idemp_l, Hs, Zplus_mod_idemp_l. }
  split_and!; [done| |exact Eo|by unfold ram; rewrite length_insert|].
  - unfold checksum_ok. rewrite (nvram_sum_ext (cm_ram c) ram _ seq_239) by (intros; apply Eo; lia).
    unfold ram_byte, ram. rewrite list_lookup_insert_eq by lia. exact Hv.
  - intros F. apply Forall_insert; [exact F | apply u8_byte].
Qed.

Lemma keeps_update_checksum : keeps (λ _, True) (cmos_update_checksum (H:=H)).
Proof.
  intros d [c h] [E Hs]. destruct (cw_ram _ Hs) as [L F]. destruct (update_checksum_run c h L) as (ram & Er & _ & _ & Lr & Fr).
  eexists _, _. split; [exact Er|]. split; [done|]. split; [exact E|]. destruct Hs. split; try done. split; [exact Lr|by apply Fr].
Qed.
Lemma keeps_update_settings model : keeps (λ _, True) (cmos_update_settings (H:=H) model).
Proof.
  unfold cmos_update_settings.
  eapply wf_bind; [apply keeps_gmtime|intros t _].
  eapply wf_bind; [intros d; apply runs_host, localtime_answers|intros tloc _]. cbv zeta.
  do 2 (eapply wf_bind; [intros d; apply runs_ram_set; lia|intros ? _]).
  eapply wf_bind.
  { apply wf_when. eapply (wf_bind byte); [intros d; apply runs_ram_at; lia|]. intros v _ d. apply runs_ram_set; lia. }
  intros ? _. eapply wf_bind; [intros d; apply runs_ram_set; lia|intros ? _].
  unfold cmos_sync_ide_drive_count.
  eapply wf_bind; [intros d; apply runs_host, ide_drives_answers|intros n _]. cbv zeta.
  eapply (wf_bind byte); [intros d; by apply runs_ram_at|]. intros v _. apply wf_when.
  eapply wf_bind; [intros d; by apply runs_ram_set|intros ? _]. apply keeps_update_checksum.
Qed.

(** After a reset: a valid checksum, clear registers, and a bus as it was. *)
Lemma cmos_reset_run model c (h : H) : cmos_wf c →
  ∃ c' h', cmos_reset model (c, h) = Some (tt, (c', h')) ∧ cmos_wf c' ∧ cm_serdes c' = cm_serdes c ∧
    checksum_ok (cm_ram c') ∧ (∀ i, 0 ≤ i < 16 → ram_byte (cm_ram c') i = 0).
Proof.
  intros [Hc Hd]. unfold cmos_reset.
  destruct (keeps_update_settings model (cm_serdes c) (c, h) (conj eq_refl Hc)) as ([] & [c1 h1] & E1 & _ & Ed & Hc1).
  rewrite (bind_eq _ _ _ _ _ E1). cbn [fst] in Ed, Hc1. destruct (cw_ram _ Hc1) as [L F].
  destruct (update_checksum_run c1 h1 L) as (ram & E2 & Hok & _ & Lr & Fr). rewrite (bind_eq _ _ _ _ _ E2).
  set (ram' := replicate 16 0 ++ drop 16 ram).
  assert (Hi : ∀ i, 16 ≤ i → ram_byte ram' i = ram_byte ram i).
  { intros i Hi. unfold ram_byte, ram'. rewrite lookup_app_r by (rewrite length_replicate; lia).
    rewrite length_replicate, lookup_drop. do 2 f_equal. lia. }
  exists (cm_set_ram ram' c1), h1. split; [reflexivity|]. split_and!.
  - split; [|by cbn; rewrite Ed]. destruct Hc1. split; cbn [cm_ram cm_set_ram pcf_reg_address pcf_state spd_reg_address]; try done. split.
    + unfold ram'. rewrite length_app, length_replicate, length_drop. lia.
    + apply Forall_app. split; [by apply Forall_replicate | by apply Forall_drop, Fr].
  - cbn. exact Ed.
  - cbn [cm_ram cm_set_ram]. unfold checksum_ok. rewrite (nvram_sum_ext ram ram' _ seq_239) by (intros; by apply Hi).
    rewrite Hi by lia. exact Hok.
  - intros i Hr. cbn [cm_ram cm_set_ram]. unfold ram_byte, ram'. rewrite lookup_app_l by (rewrite length_replicate; lia).
    by rewrite lookup_replicate_2 by lia.
Qed.
End contents.

(** ** The snapshot *)

Definition int32 (v : Z) : Prop := s32 v = v.
Record cmos_ints (c : Cmos) : Prop := {
  ci_clock : int32 (cm_clock c); ci_data : int32 (cm_data c); ci_state : int32 (pcf_state c);
  ci_accessed : int32 (slave_was_accessed (cm_serdes c)); ci_address : int32 (sd_address (cm_serdes c));
  ci_count : int32 (bitcount (cm_serdes c)); ci_sd : int32 (sd_state (cm_serdes c)); ci_old : int32 (oldpinstate (cm_serdes c))
}.

Lemma cmos_round_trip c c0 rest err : ram_wf (cm_ram c) → 0 ≤ pcf_reg_address c < 0x10000 → byte (spd_reg_address c) →
  byte (inbuf (cm_serdes c)) → byte (outbuf (cm_serdes c)) → cmos_ints c →
  cmos_loadstate c0 (file_of (cmos_savestate c) rest err) = Some (cm_set_devices (cm_devices c0) c, mkFile rest err).
Proof.
  intros [L F] Hreg Hspd Hin Hout [].
  destruct c as [ram ck da dv reg st spd [act acc ad inb out n sd old]]. cbn in *.
  assert (Er : u8 <$> take 256 ram = ram).
  { rewrite take_ge by lia. clear -F. induction F; cbn; [done | by rewrite u8_id, IHF]. }
  unfold cmos_savestate, cmos_loadstate. cbn [cm_ram cm_serdes active_slave cm_clock cm_data pcf_reg_address pcf_state spd_reg_address
    slave_was_accessed sd_address inbuf outbuf bitcount sd_state oldpinstate]. rewrite Er.
  rewrite !file_of_app, (bind_eq _ _ _ _ _ (read_ahead 256 ram _ err L)).
  repeat (erewrite bind_eq; [|first [apply read_i32 | apply read_u16 | apply read_u8]]).
  unfold mret, M_ret. do 2 f_equal.
  rewrite (Z.mod_small reg), (u8_id spd), (u8_id inb), (u8_id out) by (unfold byte in *; (lia || done)).
  unfold int32 in *. unfold cm_set_devices. cbn. repeat (f_equal; try congruence).
  destruct act as [[]|]; reflexivity.
Qed.

(** ** A register outside the memory *)

(** The chunk carries 16 bits of the register's address, and nothing compares them
    with the 256 bytes there are. *)
Definition outside (ram : list Z) (reg : Z) : Cmos :=
  mkCmos ram 1 1 0 reg PCF_STATE_DATA 0 (writing SLAVE_PCF8583 0 0 0 1).
Lemma outside_loads ram reg c0 rest err : ram_wf ram → 0x100 ≤ reg < 0x10000 →
  cmos_loadstate c0 (file_of (cmos_savestate (outside ram reg)) rest err) =
  Some (cm_set_devices (cm_devices c0) (outside ram reg), mkFile rest err).
Proof.
  intros Hr Hreg. apply cmos_round_trip; try done. cbn. lia.
Qed.
Lemma outside_write_fails {H} {X : CmosHost H} ram reg dv v (h : H) : length ram = 256%nat → 0x100 ≤ reg →
  send_byte v (cm_set_devices dv (outside ram reg), h) = None.
Proof.
  intros L Hr.
  change (cm_set_devices dv (outside ram reg)) with (on_bus (mkBus 1 1 dv (writing SLAVE_PCF8583 0 0 0 1)) (cm_set_devices dv (outside ram reg))).
  rewrite (write_byte dv SLAVE_PCF8583 1 1 0 v 1 (or_intror eq_refl)), bind_run.
  enough (slave_write SLAVE_PCF8583 (u8 v) (cm_set_devices dv (outside ram reg), h) = None) as -> by done.
  cbn [slave_write]. unfold pcf8583_write. erewrite bind_eq; [|reflexivity]. cbn [pcf_state cm_set_devices outside fst].
  change (PCF_STATE_DATA =? PCF_STATE_ADDR) with false. change (PCF_STATE_DATA =? PCF_STATE_DATA) with true. cbn [when].
  rewrite bind_assoc, bind_run. cbn [cm_get gets fst pcf_reg_address cm_set_devices outside].
  rewrite bind_assoc, bind_run. unfold ram_set. cbn [fst cm_ram cm_set_devices outside].
  destruct (Z.leb_spec (Z.of_nat (length ram)) reg); [done|lia].
Qed.
