(* ===== verification/IomdTimer.v ===== *)
(** The timers of the I/O controller as arithmetic: the loop of [updatetimers] in
    closed form, and time cut into slices. *)

From S2P Require Export Iomd.

(** * The lines to the processor *)

(** [updateirqs] as a function. *)
Definition lines (c : Iomd) (e : Z) : Z :=
  let e := if pending (irqa c) || pending (irqb c) || pending (irqd c) || pending (irqdma c) then e .| 1 else e .&~ 1 in
  if pending (fiq c) then e .| 2 else e .&~ 2.
Lemma lines_lines c c' e : lines c (lines c' e) = lines c e.
Proof.
  unfold lines. set (p := _ || pending (irqdma c)). set (p' := _ || pending (irqdma c')).
  apply Z.bits_inj'. intros i Hi.
  destruct p, p', (pending (fiq c)), (pending (fiq c')); rewrite ?Z.lor_spec, ?Z.ldiff_spec, ?Z.lor_spec, ?Z.ldiff_spec,
    ?Z.lor_spec, ?Z.ldiff_spec, ?Z.lor_spec, ?Z.ldiff_spec by done;
    (destruct i as [|p0|p0]; [|destruct p0|done]); cbn; btauto.
Qed.

Section timers.
Context {D : Type} `{!IomdDev D, !CmosHost D}.
Local Abbreviation IO := (M (Sys D)).

Definition settle (s : Sys D) : Sys D := set_arm_event (lines (chip s) (arm_event s)) s.
Lemma updateirqs_run s : updateirqs s = Some (tt, settle s).
Proof. reflexivity. Qed.

(** ** The loop *)

(** A timer that has run out, with what is left of the next round. *)
Definition fired (n : bool) (v : Z) (s : Sys D) : Sys D :=
  let c := set_timer n (set_counter v (timer_of n (chip s))) (chip s) in
  settle (set_chip (set_irqa (irq_raise (timer_irq n) (irqa c)) c) s).

Lemma timer_of_set n t c : timer_of n (set_timer n t c) = t.
Proof. by destruct n. Qed.
Lemma timer_of_fired n v s : timer_of n (chip (fired n v s)) = set_counter v (timer_of n (chip s)).
Proof. by destruct n. Qed.
Lemma fired_fired n v w s : fired n v (fired n w s) = fired n v s.
Proof.
  destruct s as [[[] ? ? ? ? ? ? ? ? ? ? ? [] [] ? ? ? ? ? ? ? ? ? ? ? ? ? ?] ? ? ? ? ? ? ? ? ? ? ? ? ? ? ? ? ? ? ?].
  unfold fired, settle, set_timer, timer_of. destruct n; cbn; rewrite lines_lines; unfold irq_raise, irq_set_status; cbn;
    rewrite <- Z.lor_assoc, Z.lor_diag; reflexivity.
Qed.

Lemma timer_loop_run fuel n : ∀ s L c, in_latch (timer_of n (chip s)) = L → counter (timer_of n (chip s)) = c →
  0 < L < 0x80000000 → - 0x80000000 ≤ c < 0 → (- c) / L + 1 ≤ Z.of_nat fuel →
  timer_loop fuel n s = Some (tt, fired n (c mod L) s).
Proof.
  induction fuel as [|fuel IH]; intros s L c EL Ec HL Hc Hf.
  { assert (0 ≤ (- c) / L) by (apply Z.div_pos; lia). lia. }
  cbn [timer_loop]. rewrite (bind_eq _ _ _ (timer_of n (chip s)) s) by reflexivity.
  rewrite EL, Ec. destruct (Z.ltb_spec c 0); [|lia]. replace (nz L) with true by (unfold nz; destruct (Z.eqb_spec L 0); [lia|done]).
  cbn [negb andb].
  assert (Ea : s32 (add32 (u32 c) L) = c + L).
  { unfold add32. rewrite <- (u32_id L) at 1 by (unfold w32; lia). unfold s32, u32.
    rewrite Z.mod_mod, <- Z.add_mod by lia.
    destruct (Z.ltb_spec ((c + L) mod 0x100000000) 0x80000000) as [Hm|Hm]; revert Hm;
      (destruct (Z.lt_ge_cases (c + L) 0) as [Hn|Hn];
       [rewrite <- (Z.mod_add (c + L) 1), Z.mod_small by lia; lia | rewrite Z.mod_small by lia; lia]). }
  assert (Es : ∀ k : unit → IO unit,
    (timer_mod n (λ t, set_counter (s32 (add32 (u32 (counter t)) (in_latch t))) t);;
     irqa_mod (irq_raise (timer_irq n));; updateirqs;; k tt) s = k tt (fired n (c + L) s)).
  { intros k. rewrite <- Ea, <- EL, <- Ec. by destruct n. }
  rewrite (Es (λ _, timer_loop fuel n)). clear Es Ea.
  assert (Hdiv : (- c) / L * L ≤ - c < ((- c) / L + 1) * L) by (pose proof (Z.mul_div_le (- c) L); pose proof (Z.mul_succ_div_gt (- c) L); lia).
  destruct (Z.lt_ge_cases (c + L) 0) as [Hn|Hn].
  - rewrite (IH (fired n (c + L) s) L (c + L)).
    + rewrite fired_fired. f_equal. f_equal. f_equal. rewrite <- (Z.mod_add c 1 L) by lia. f_equal. lia.
    + by rewrite timer_of_fired.
    + by rewrite timer_of_fired.
    + lia.
    + lia.
    + replace (- (c + L)) with (- c + (-1) * L) by lia. rewrite Z.div_add by lia. lia.
  - replace (c mod L) with (c + L) by (symmetry; rewrite <- (Z.mod_add c 1 L), Z.mul_1_l by lia; apply Z.mod_small; lia).
    destruct fuel; cbn [timer_loop]; rewrite (bind_eq _ _ _ (timer_of n (chip (fired n (c + L) s))) (fired n (c + L) s)) by reflexivity;
      rewrite timer_of_fired; cbn [counter set_counter]; (destruct (Z.ltb_spec (c + L) 0); [lia|reflexivity]).
Qed.

(** ** Time *)

Definition expires (t : iomd_timer) (ticks : Z) : bool := (counter t - ticks <? 0) && nz (in_latch t).
Definition counted (t : iomd_timer) (ticks : Z) : Z :=
  if expires t ticks then (counter t - ticks) mod in_latch t else counter t - ticks.

(** [ticks] of both timers at once. *)
Definition after_ticks (ticks : Z) (s : Sys D) : Sys D :=
  let c := chip s in
  let f0 := expires (t0 c) ticks in
  let f1 := expires (t1 c) ticks in
  let raised := irq_status (irqa c) .| (if f0 then IOMD_IRQA_TIMER_0 else 0) .| (if f1 then IOMD_IRQA_TIMER_1 else 0) in
  let c := set_t0 (set_counter (counted (t0 c) ticks) (t0 c)) (set_t1 (set_counter (counted (t1 c) ticks) (t1 c))
             (set_irqa (irq_set_status raised (irqa c)) c)) in
  let s := set_chip c s in
  if f0 || f1 then settle s else s.

(** A timer as the guest can have it: a latch of 16 bits. *)
Definition timer_wf (t : iomd_timer) : Prop := 0 ≤ in_latch t < 0x10000 ∧ 0 ≤ counter t < 0x80000000.

Definition tick_one (n : bool) (ticks : Z) (s : Sys D) : Sys D :=
  let t := timer_of n (chip s) in
  if expires t ticks then fired n (counted t ticks) s
  else set_chip (set_timer n (set_counter (counter t - ticks) t) (chip s)) s.
Lemma run_timer_run n ticks s : timer_wf (timer_of n (chip s)) → 0 ≤ ticks < 0x80000000 →
  run_timer n ticks s = Some (tt, tick_one n ticks s).
Proof.
  intros [HL Hc] Ht. unfold run_timer, tick_one. set (t := timer_of n (chip s)) in *.
  assert (Ew : s32 (counter t - ticks) = counter t - ticks).
  { unfold s32, u32. destruct (Z.lt_ge_cases (counter t - ticks) 0).
    - replace ((counter t - ticks) mod 0x100000000) with (counter t - ticks + 0x100000000)
        by (rewrite <- (Z.mod_add _ 1), Z.mul_1_l by lia; symmetry; apply Z.mod_small; lia).
      destruct (Z.ltb_spec (counter t - ticks + 0x100000000) 0x80000000); lia.
    - rewrite Z.mod_small by lia. destruct (Z.ltb_spec (counter t - ticks) 0x80000000); lia. }
  set (s1 := set_chip (set_timer n (set_counter (counter t - ticks) t) (chip s)) s).
  rewrite (bind_eq _ _ _ tt s1) by (unfold timer_mod, chip_mod, modify; fold t; rewrite Ew; reflexivity).
  assert (Et : timer_of n (chip s1) = set_counter (counter t - ticks) t) by (subst s1; by destruct n).
  rewrite (bind_eq _ _ _ (set_counter (counter t - ticks) t) s1) by (unfold gets; by rewrite Et).
  unfold expires, counted. destruct (Z.ltb_spec (counter t - ticks) 0) as [Hn|Hn]; cbn [andb].
  - destruct (nz (in_latch t)) eqn:EL.
    + assert (in_latch t ≠ 0) by (by apply Z.eqb_neq, negb_true_iff). rewrite (timer_loop_run _ n s1 (in_latch t) (counter t - ticks)).
      * unfold expires. rewrite EL. destruct (Z.ltb_spec (counter t - ticks) 0); [|lia]. cbn [andb].
        do 2 f_equal. unfold fired, s1. by destruct n, s as [[]].
      * by rewrite Et.
      * by rewrite Et.
      * lia.
      * lia.
      * unfold timer_fuel. cbn [counter set_counter in_latch].
        assert (0 ≤ (- (counter t - ticks)) / in_latch t) by (apply Z.div_pos; lia). lia.
    + assert (in_latch t = 0) as E0 by (by apply Z.eqb_eq, negb_false_iff).
      unfold timer_fuel. cbn [counter set_counter in_latch]. rewrite E0.
      generalize (Z.to_nat (- (counter t - ticks) / 0 + 1)). intros fuel.
      assert (En : nz (in_latch (timer_of n (chip s1))) = false) by (rewrite Et; cbn; by rewrite EL).
      destruct fuel; cbn [timer_loop]; rewrite (bind_eq _ _ _ (timer_of n (chip s1)) s1) by reflexivity;
        rewrite En, andb_false_r; reflexivity.
  - generalize (timer_fuel (set_counter (counter t - ticks) t)). intros fuel.
    assert (En : (counter (timer_of n (chip s1)) <? 0) = false) by (rewrite Et; apply Z.ltb_ge; exact Hn).
    destruct fuel; cbn [timer_loop]; rewrite (bind_eq _ _ _ (timer_of n (chip s1)) s1) by reflexivity;
      rewrite En; reflexivity.
Qed.

Lemma settle_settle s : settle (settle s) = settle s.
Proof. unfold settle. destruct s. cbn. by rewrite lines_lines. Qed.
Lemma tick_both ticks s :
  tick_one true ticks (tick_one false ticks s) = after_ticks ticks s.
Proof.
  unfold tick_one, after_ticks. cbn [timer_of].
  assert (E1 : t1 (chip (if expires (t0 (chip s)) ticks then fired false (counted (t0 (chip s)) ticks) s
     else set_chip (set_timer false (set_counter (counter (t0 (chip s)) - ticks) (t0 (chip s))) (chip s)) s)) = t1 (chip s))
    by by destruct (expires (t0 (chip s)) ticks).
  rewrite E1. unfold counted. destruct (expires (t0 (chip s)) ticks), (expires (t1 (chip s)) ticks); cbn [orb];
    destruct s as [[[] ? ? ? ? ? ? ? ? ? ? ? [] [] ? ? ? ? ? ? ? ? ? ? ? ? ? ?] ? ? ? ? ? ? ? ? ? ? ? ? ? ? ? ? ? ? ?];
    unfold fired, settle, set_timer, timer_of, irq_raise, timer_irq; cbn; rewrite ?lines_lines, ?Z.lor_0_r; reflexivity.
Qed.

(** The ticks of the host's clock at a time. *)
Definition tick_of (nsec : Z) : Z := nsec / 500.
Definition in_step (n0 : Z) (s : Sys D) : Prop := old_timer_ticks s = u32 (tick_of n0).
Definition timers_wf (s : Sys D) : Prop := timer_wf (t0 (chip s)) ∧ timer_wf (t1 (chip s)).

Lemma ticks_between n0 n1 : tick_of n0 ≤ tick_of n1 < tick_of n0 + 0x80000000 →
  s32 (sub32 (u32 (tick_of n1)) (u32 (tick_of n0))) = tick_of n1 - tick_of n0.
Proof.
  intros Hr. unfold sub32, s32, u32. rewrite Z.mod_mod, <- Zminus_mod by lia.
  rewrite Z.mod_small by lia. destruct (Z.ltb_spec (tick_of n1 - tick_of n0) 0x80000000); lia.
Qed.
Lemma after_ticks_0 s : timers_wf s → after_ticks 0 s = s.
Proof.
  intros [[_ H0] [_ H1]]. unfold after_ticks, counted, expires. rewrite !Z.sub_0_r.
  destruct (Z.ltb_spec (counter (t0 (chip s))) 0); [lia|]. destruct (Z.ltb_spec (counter (t1 (chip s))) 0); [lia|].
  cbn [andb orb]. rewrite !Z.lor_0_r.
  by destruct s as [[[] ? ? ? ? ? ? ? ? ? ? ? [] [] ? ? ? ? ? ? ? ? ? ? ? ? ? ?] ? ? ? ? ? ? ? ? ? ? ? ? ? ? ? ? ? ? ?].
Qed.
Lemma updatetimers_run n0 n1 s : in_step n0 s → timers_wf s → tick_of n0 ≤ tick_of n1 < tick_of n0 + 0x80000000 →
  updatetimers n1 s = Some (tt, set_old_timer_ticks (u32 (tick_of n1)) (after_ticks (tick_of n1 - tick_of n0) s)).
Proof.
  intros Hs [H0 H1] Hr. unfold updatetimers. fold (tick_of n1).
  rewrite (bind_eq _ _ _ (old_timer_ticks s) s) by reflexivity. rewrite Hs, ticks_between by done.
  destruct (Z.leb_spec (tick_of n1 - tick_of n0) 0) as [Hz|Hz].
  - replace (tick_of n1) with (tick_of n0) by lia. rewrite Z.sub_diag, after_ticks_0 by by split.
    rewrite <- Hs. by destruct s.
  - set (s1 := set_old_timer_ticks (u32 (tick_of n1)) s).
    rewrite (bind_eq _ _ _ tt s1) by reflexivity.
    rewrite (bind_eq _ _ _ _ _ (run_timer_run false (tick_of n1 - tick_of n0) s1 H0 ltac:(lia))).
    rewrite (run_timer_run true); [|unfold tick_one; by destruct (expires _ _)|lia].
    rewrite tick_both. unfold after_ticks. by destruct (_ || _).
Qed.

(** ** Slices *)

Definition running (t : iomd_timer) : Prop := timer_wf t ∧ 0 < in_latch t.

Lemma expires_running t k : running t → expires t k = (counter t - k <? 0).
Proof. intros [_ HL]. unfold expires. replace (nz (in_latch t)) with true; [by rewrite andb_true_r|]. unfold nz. destruct (Z.eqb_spec (in_latch t) 0); [lia|done]. Qed.
Lemma counted_running t k : running t → 0 ≤ k → running (set_counter (counted t k) t).
Proof.
  intros Hr Hk. pose proof (expires_running t k Hr) as He. destruct Hr as [[HL Hc] H0]. unfold running, timer_wf. cbn [counter in_latch set_counter].
  unfold counted. rewrite He. destruct (Z.ltb_spec (counter t - k) 0); [|lia].
  pose proof (Z.mod_pos_bound (counter t - k) (in_latch t)). lia.
Qed.
Lemma counted_twice t k1 k2 : running t → 0 ≤ k1 → 0 ≤ k2 →
  counted (set_counter (counted t k1) t) k2 = counted t (k1 + k2) ∧
  expires t (k1 + k2) = expires t k1 || expires (set_counter (counted t k1) t) k2.
Proof.
  intros Hr H1 H2. pose proof (counted_running t k1 Hr H1) as Hr'.
  unfold counted at 1 3. rewrite (expires_running _ k2 Hr'), !(expires_running t) by done. cbn [counter set_counter in_latch].
  unfold counted. rewrite (expires_running t k1) by done. destruct Hr as [[HL Hc] H0].
  destruct (Z.ltb_spec (counter t - k1) 0) as [Hn|Hn].
  - destruct (Z.ltb_spec (counter t - (k1 + k2)) 0); [|lia]. split; [|done].
    replace (counter t - (k1 + k2)) with (counter t - k1 - k2) by lia.
    pose proof (Z.mod_pos_bound (counter t - k1) (in_latch t) H0).
    destruct (Z.ltb_spec ((counter t - k1) mod in_latch t - k2) 0).
    + by rewrite Zminus_mod_idemp_l.
    + rewrite <- (Zminus_mod_idemp_l (counter t - k1) k2). symmetry. apply Z.mod_small. lia.
  - replace (counter t - (k1 + k2)) with (counter t - k1 - k2) by lia. by destruct (Z.ltb_spec (counter t - k1 - k2) 0).
Qed.
Lemma after_ticks_twice k1 k2 s : running (t0 (chip s)) → running (t1 (chip s)) → 0 ≤ k1 → 0 ≤ k2 →
  after_ticks k2 (after_ticks k1 s) = after_ticks (k1 + k2) s.
Proof.
  intros R0 R1 H1 H2.
  destruct (counted_twice (t0 (chip s)) k1 k2 R0 H1 H2) as [C0 E0].
  destruct (counted_twice (t1 (chip s)) k1 k2 R1 H1 H2) as [C1 E1].
  clear R0 R1 H1 H2. set (A := t0 (chip s)) in *. set (B := t1 (chip s)) in *.
  unfold after_ticks at 2 3. fold A B. rewrite E0, E1, <- C0, <- C1.
  destruct (expires A k1), (expires B k1); cbn [orb]; unfold settle, after_ticks;
    cbn [chip set_chip set_arm_event t0 t1 set_t0 set_t1 set_irqa irqa irq_status irq_set_status];
    destruct (expires (set_counter _ A) k2), (expires (set_counter _ B) k2); cbn [orb]; unfold settle;
    cbn [arm_event chip set_chip set_arm_event t0 t1 set_t0 set_t1 set_irqa irqa irq_status irq_set_status];
    rewrite ?lines_lines, <- ?Z.lor_assoc; reflexivity.
Qed.

Lemma after_ticks_running k s : running (t0 (chip s)) → running (t1 (chip s)) → 0 ≤ k →
  running (t0 (chip (after_ticks k s))) ∧ running (t1 (chip (after_ticks k s))).
Proof.
  intros R0 R1 Hk. unfold after_ticks. destruct (_ || _); cbn; split; by apply counted_running.
Qed.
Lemma after_ticks_old v k s : after_ticks k (set_old_timer_ticks v s) = set_old_timer_ticks v (after_ticks k s).
Proof. unfold after_ticks. by destruct (expires _ _), (expires _ _). Qed.
Lemma updatetimers_twice n0 n1 n2 s : in_step n0 s → running (t0 (chip s)) → running (t1 (chip s)) →
  tick_of n0 ≤ tick_of n1 ≤ tick_of n2 → tick_of n2 < tick_of n0 + 0x80000000 →
  (updatetimers n1;; updatetimers n2) s = updatetimers n2 s.
Proof.
  intros Hs R0 R1 Ho Hr.
  rewrite (updatetimers_run n0 n2 s) by (lia || done || by split; [apply R0|apply R1]).
  rewrite (bind_eq _ _ _ _ _ (updatetimers_run n0 n1 s Hs (conj (proj1 R0) (proj1 R1)) ltac:(lia))).
  destruct (after_ticks_running (tick_of n1 - tick_of n0) s R0 R1 ltac:(lia)) as [R0' R1'].
  rewrite (updatetimers_run n1 n2) by (lia || done || by split; [apply R0'|apply R1']).
  rewrite after_ticks_old, after_ticks_twice by (done || lia).
  replace (tick_of n1 - tick_of n0 + (tick_of n2 - tick_of n1)) with (tick_of n2 - tick_of n0) by lia. reflexivity.
Qed.
End timers.
