(* ===== verification/IomdLines.v ===== *)
(** The interrupt lines of the processor follow the I/O controller: what every
    operation of iomd.c and keyboard.c leaves in [arm.event]. *)

From S2P Require Export Keyboard IomdTimer.

Section lines.
Context {D : Type} `{!IomdDev D, !CmosHost D}.
Local Abbreviation IO := (M (Sys D)).

(** [arm.event] is what [updateirqs] would make it. *)
Definition settled (s : Sys D) : Prop := settle s = s.
Definition keeps_lines {A} (m : IO A) : Prop := hoare settled m (λ _, settled).
(** The lines are set on the way out, whatever was before. *)
Definition sets_lines {A} (m : IO A) : Prop := hoare (λ _, True) m (λ _, settled).

Lemma sets_keeps {A} (m : IO A) : sets_lines m → keeps_lines m.
Proof. intros Hm s _. by apply (Hm s). Qed.
Lemma settled_lines s : settled s ↔ lines (chip s) (arm_event s) = arm_event s.
Proof. unfold settled, settle. destruct s; cbn. split; [by injection 1 | by intros ->]. Qed.

Lemma lines_ret {A} (a : A) : keeps_lines (mret a).
Proof. by intros s Hs. Qed.
Lemma keeps_fatal {A} : keeps_lines (fatal : IO A).
Proof. by intros s Hs. Qed.
Lemma lines_bind {A B} (m : IO A) (k : A → IO B) : keeps_lines m → (∀ a, keeps_lines (k a)) → keeps_lines (m ≫= k).
Proof. intros Hm Hk. eapply hoare_bind; [exact Hm|]. intros a. apply Hk. Qed.
Lemma keeps_gets {A} (f : Sys D → A) : keeps_lines (gets f).
Proof. by intros s Hs. Qed.
Lemma lines_when b (m : IO unit) : (b = true → keeps_lines m) → keeps_lines (when b m).
Proof. intros Hm. destruct b; [by apply Hm | apply lines_ret]. Qed.
Lemma keeps_mod (f : Sys D → Sys D) :
  (∀ s, lines (chip (f s)) (arm_event (f s)) = lines (chip s) (arm_event s)) → (∀ s, arm_event (f s) = arm_event s) →
  keeps_lines (modify f).
Proof. intros Hf He s Hs. apply settled_lines. rewrite Hf, He. by apply settled_lines. Qed.
Lemma keeps_on_dev {A} (m : M D A) : keeps_lines (on_dev m).
Proof. intros s Hs. unfold on_dev, zoom. destruct (m _) as [[a d]|]; [|done]. apply settled_lines. apply settled_lines in Hs. exact Hs. Qed.

Lemma sets_bind {A B} (m : IO A) (k : A → IO B) : (∀ a, sets_lines (k a)) → sets_lines (m ≫= k).
Proof. intros Hk s _. rewrite bind_run. destruct (m s) as [[a s']|]; [by apply Hk | done]. Qed.
Lemma sets_updateirqs : sets_lines updateirqs.
Proof. intros s _. apply settle_settle. Qed.
Lemma sets_then {A B} (m : IO A) (k : A → IO B) : sets_lines m → (∀ a, keeps_lines (k a)) → sets_lines (m ≫= k).
Proof. intros Hm Hk. eapply hoare_bind; [exact Hm|]. intros a. apply Hk. Qed.
Lemma sets_if {A} (b : bool) (m1 m2 : IO A) : sets_lines m1 → sets_lines m2 → sets_lines (if b then m1 else m2).
Proof. by destruct b. Qed.

(** The registers that are not status or mask. *)
Lemma keeps_chip f :
  (∀ c, irqa (f c) = irqa c) → (∀ c, irqb (f c) = irqb c) → (∀ c, irqd (f c) = irqd c) →
  (∀ c, irqdma (f c) = irqdma c) → (∀ c, fiq (f c) = fiq c) → keeps_lines (chip_mod (D:=D) f).
Proof. intros Ha Hb Hd Hm Hf. apply keeps_mod; [|done]. intros s. unfold lines. cbn. by rewrite Ha, Hb, Hd, Hm, Hf. Qed.
End lines.

(** What the rest of the machine promises: a device that raises an interrupt sets
    the lines. *)
Class DevSettles (D : Type) `{!IomdDev D} := {
  dev_sound : keeps_lines sound_irq_update;
  dev_podules n : keeps_lines (runpoduletimers n);
  dev_usb : keeps_lines usb_ohci_frame;
  dev_kbd_raise : keeps_lines i8042_keyboard_irq_raise;
  dev_kbd_lower : keeps_lines i8042_keyboard_irq_lower;
  dev_ms_raise : keeps_lines i8042_mouse_irq_raise;
  dev_ms_lower : keeps_lines i8042_mouse_irq_lower
}.

Ltac keep :=
  repeat (cbv zeta; match goal with
  | |- ∀ _, _ => intro
  | |- keeps_lines updateirqs => apply sets_keeps, sets_updateirqs
  | |- keeps_lines (irqa_mod _ ≫= _) => apply sets_keeps, sets_bind; intro
  | |- keeps_lines (irqb_mod _ ≫= _) => apply sets_keeps, sets_bind; intro
  | |- keeps_lines (irqd_mod _ ≫= _) => apply sets_keeps, sets_bind; intro
  | |- keeps_lines (irqdma_mod _ ≫= _) => apply sets_keeps, sets_bind; intro
  | |- keeps_lines (fiq_mod _ ≫= _) => apply sets_keeps, sets_bind; intro
  | |- sets_lines updateirqs => apply sets_updateirqs
  | |- sets_lines (updateirqs ≫= _) => apply sets_then; [apply sets_updateirqs | intro]
  | |- sets_lines (_ ≫= _) => apply sets_bind; intro
  | |- keeps_lines (mret _) => apply lines_ret
  | |- keeps_lines fatal => apply keeps_fatal
  | |- keeps_lines (gets _) => apply keeps_gets
  | |- keeps_lines (when _ _) => apply lines_when; intro
  | |- keeps_lines (assert _) => unfold assert
  | |- keeps_lines (on_dev _) => apply keeps_on_dev
  | |- keeps_lines (chip_mod _) => apply keeps_chip; reflexivity
  | |- keeps_lines (timer_mod _ _) => apply keeps_chip; intros; unfold set_timer; repeat case_match; reflexivity
  | |- keeps_lines (kbd_mod _) => apply keeps_mod; reflexivity
  | |- keeps_lines (ms_mod _) => apply keeps_mod; reflexivity
  | |- keeps_lines (mouse_mod _) => apply keeps_mod; reflexivity
  | |- keeps_lines (hack_mod _) => apply keeps_mod; reflexivity
  | |- keeps_lines (callback_in _) => apply keeps_mod; reflexivity
  | |- keeps_lines (modify _) => apply keeps_mod; reflexivity
  | |- keeps_lines (_ ≫= _) => apply lines_bind
  | |- keeps_lines (if ?b then _ else _) => destruct b
  | |- keeps_lines (match ?x with _ => _ end) => destruct x
  | |- keeps_lines (switch _ _ _) => apply switch_ind; [repeat (apply List.Forall_cons; [cbn [snd]|]); [..|apply List.Forall_nil]|]
  | |- keeps_lines _ => solve [eauto 2 with lines nocore]
  end).
Create HintDb lines discriminated.

Section ops.
Context {D : Type} `{!IomdDev D, !CmosHost D, !DevSettles D}.
Local Abbreviation IO := (M (Sys D)).

Lemma keeps_kbd_raise : keeps_lines (D:=D) keyboard_irq_rx_raise.
Proof. unfold keyboard_irq_rx_raise. keep. apply dev_kbd_raise. Qed.
Lemma keeps_kbd_lower : keeps_lines (D:=D) keyboard_irq_rx_lower.
Proof. unfold keyboard_irq_rx_lower. keep. apply dev_kbd_lower. Qed.
Lemma keeps_ms_raise : keeps_lines (D:=D) mouse_irq_rx_raise.
Proof. unfold mouse_irq_rx_raise. keep. apply dev_ms_raise. Qed.
Lemma keeps_ms_lower : keeps_lines (D:=D) mouse_irq_rx_lower.
Proof. unfold mouse_irq_rx_lower. keep. apply dev_ms_lower. Qed.
Lemma keeps_kbd_queue b : keeps_lines (D:=D) (kbd_queue (D:=D) b).
Proof. intros s Hs. unfold kbd_queue. destruct (ps2_queue _ _); [|done]. apply settled_lines. by apply settled_lines in Hs. Qed.
Lemma keeps_ms_queue b : keeps_lines (D:=D) (ms_queue (D:=D) b).
Proof. intros s Hs. unfold ms_queue. destruct (ps2_queue _ _); [|done]. apply settled_lines. by apply settled_lines in Hs. Qed.
Lemma keeps_kbd_dequeue : keeps_lines (D:=D) (kbd_dequeue (D:=D)).
Proof. intros s Hs. unfold kbd_dequeue. destruct (ps2_read_data _) as [[v q]|]; [|done]. apply settled_lines. by apply settled_lines in Hs. Qed.
Lemma keeps_ms_dequeue : keeps_lines (D:=D) (ms_dequeue (D:=D)).
Proof. intros s Hs. unfold ms_dequeue. destruct (ps2_read_data _) as [[v q]|]; [|done]. apply settled_lines. by apply settled_lines in Hs. Qed.
Lemma keeps_on_cmos {A} (m : M (Cmos * D) A) : keeps_lines (D:=D) (on_cmos m).
Proof. intros s Hs. unfold on_cmos, zoom. destruct (m _) as [[a p]|]; [|done]. apply settled_lines. by apply settled_lines in Hs. Qed.
#[local] Hint Resolve keeps_kbd_raise keeps_kbd_lower keeps_ms_raise keeps_ms_lower keeps_kbd_queue keeps_ms_queue
  keeps_kbd_dequeue keeps_ms_dequeue @keeps_on_cmos : lines.

(** ** The keyboard and the mouse *)

Lemma keeps_keyboardsend v : keeps_lines (D:=D) (keyboardsend v).
Proof. unfold keyboardsend. keep. Qed.
#[local] Hint Resolve keeps_keyboardsend : lines.
Lemma keeps_keyboard_callback : keeps_lines (D:=D) keyboard_callback_rpcemu.
Proof. unfold keyboard_callback_rpcemu, keyboard_irq_tx_raise. keep. Qed.
Lemma keeps_keyboard_data_read : keeps_lines (D:=D) keyboard_data_read.
Proof. unfold keyboard_data_read. keep. Qed.
Lemma keeps_keyboard_data_write v : keeps_lines (D:=D) (keyboard_data_write (D:=D) v).
Proof. unfold keyboard_data_write. keep. Qed.
Lemma keeps_keyboard_control_write v : keeps_lines (D:=D) (keyboard_control_write (D:=D) v).
Proof. unfold keyboard_control_write. keep. Qed.
Lemma keeps_key_press codes : keeps_lines (D:=D) (keyboard_key_press (D:=D) codes).
Proof. unfold keyboard_key_press, scan_code. cbn [mfor]. keep. Qed.
Lemma keeps_key_release codes : keeps_lines (D:=D) (keyboard_key_release (D:=D) codes).
Proof. unfold keyboard_key_release, scan_code. keep. Qed.
Lemma keeps_mouse_send v : keeps_lines (D:=D) (mouse_send v).
Proof. unfold mouse_send. keep. Qed.
#[local] Hint Resolve keeps_mouse_send : lines.
Lemma keeps_mouse_callback : keeps_lines (D:=D) mouse_ps2_callback.
Proof. unfold mouse_ps2_callback, mouse_irq_tx_raise. keep. Qed.
Lemma keeps_mouse_data_read : keeps_lines (D:=D) mouse_data_read.
Proof. unfold mouse_data_read. keep. Qed.
Lemma keeps_mouse_data_write v : keeps_lines (D:=D) (mouse_data_write v).
Proof. unfold mouse_data_write, mouse_irq_tx_lower, mouse_ack. keep. Qed.
Lemma keeps_mouse_control_write v : keeps_lines (D:=D) (mouse_control_write v).
Proof. unfold mouse_control_write. keep. Qed.
Lemma keeps_mouse_process : keeps_lines (D:=D) mouse_process.
Proof. unfold mouse_process, queue_wheel. keep. Qed.
Lemma keeps_mouse_relative dx dy : keeps_lines (D:=D) (mouse_mouse_move_relative dx dy).
Proof. unfold mouse_mouse_move_relative. pose proof keeps_mouse_process. keep. Qed.
Lemma keeps_mouse_press b : keeps_lines (D:=D) (mouse_mouse_press b).
Proof. unfold mouse_mouse_press. pose proof keeps_mouse_process. keep. Qed.
Lemma keeps_mouse_release b : keeps_lines (D:=D) (mouse_mouse_release b).
Proof. unfold mouse_mouse_release. pose proof keeps_mouse_process. keep. Qed.
#[local] Hint Resolve keeps_keyboard_callback keeps_keyboard_data_read keeps_keyboard_data_write keeps_keyboard_control_write
  keeps_mouse_data_read keeps_mouse_data_write keeps_mouse_control_write : lines.

(** ** The chip *)

Lemma keeps_timer_loop fuel n : keeps_lines (D:=D) (timer_loop (D:=D) fuel n).
Proof. induction fuel as [|fuel IH]; cbn [timer_loop]; keep. Qed.
Lemma keeps_updatetimers n : keeps_lines (D:=D) (updatetimers (D:=D) n).
Proof. unfold updatetimers, run_timer. pose proof keeps_timer_loop. keep; auto. Qed.
#[local] Hint Resolve keeps_updatetimers : lines.
Lemma keeps_gentimerirq n : keeps_lines (D:=D) (gentimerirq n).
Proof. unfold gentimerirq. pose proof dev_sound. pose proof dev_podules. pose proof dev_usb. keep; auto. Qed.
Lemma keeps_flyback v : keeps_lines (D:=D) (iomd_flyback (D:=D) v).
Proof. unfold iomd_flyback. keep. Qed.
Lemma keeps_iomd_read addr : keeps_lines (D:=D) (iomd_read addr).
Proof. unfold iomd_read, keyboard_status_read, mouse_status_read. keep. Qed.

(** The registers whose write leaves the lines as they were: the masks of IRQD and
    of the DMA interrupts. *)
Definition IOMD_IRQMSKD : Z := 0x078.
Definition IOMD_DMAMSK : Z := 0x1f8.

(** A case that is taken has [x] among its labels. *)
Lemma switch_cases {A} (Φ : A → Prop) x cases dflt :
  List.Forall (λ c, existsb (Z.eqb x) (fst c) = true → Φ (snd c)) cases → Φ dflt → Φ (switch x cases dflt).
Proof.
  intros Hc Hd. induction Hc as [|[labels body] rest Hb _ IH]; cbn; [done|].
  destruct (existsb _ _) eqn:E; [by apply Hb | exact IH].
Qed.

Lemma keeps_iomd_write addr val kind : iomd_reg kind addr ≠ IOMD_IRQMSKD → iomd_reg kind addr ≠ IOMD_DMAMSK →
  hoare (λ s, settled s ∧ iomd_kind s = kind) (iomd_write addr val) (λ _, settled).
Proof.
  intros Hd Hm s [Hs Hk]. unfold iomd_write. rewrite (bind_eq _ _ _ kind s) by (unfold gets; by rewrite Hk). revert s Hs Hk.
  generalize dependent (iomd_reg kind addr). intros reg Hd Hm s Hs _. revert s Hs. cbv zeta.
  match goal with |- ∀ s, settled s → match ?m s with _ => _ end => change (keeps_lines (D:=D) m) end.
  apply switch_cases; [|keep].
  repeat (apply List.Forall_cons; [cbn [fst snd]; intros Hx|]); [..|apply List.Forall_nil].
  all: try (cbn [existsb] in Hx; rewrite orb_false_r in Hx; apply Z.eqb_eq in Hx; contradiction).
  all: clear Hx; unfold write_iocr, write_irqrqa, write_low, write_high, timer_go, timer_latch, write_sound, write_sndcr, write_318.
  all: try (apply sets_keeps; unfold write_314; solve [keep]).
  all: keep.
Qed.

(** ** Any sequence of them *)

(** What the guest and the user do to the controller, and what the loop of the
    emulator does to it. *)
Inductive IoOp :=
| GuestWrite (addr val : Z)
| GuestRead (addr : Z)
| TimerTick (nsec : Z)
| KeyboardTick
| MouseTick
| Flyback (level : Z)
| KeyPress (codes : option (list Z))
| KeyRelease (codes : option (list Z))
| MouseMove (dx dy : Z)
| MousePress (buttons : Z)
| MouseRelease (buttons : Z).

Definition run_op (op : IoOp) : IO unit :=
  match op with
  | GuestWrite addr val => iomd_write addr val
  | GuestRead addr => iomd_read addr;; mret tt
  | TimerTick nsec => gentimerirq nsec
  | KeyboardTick => kcallback_tick
  | MouseTick => mcallback_tick
  | Flyback level => iomd_flyback level
  | KeyPress codes => keyboard_key_press codes
  | KeyRelease codes => keyboard_key_release codes
  | MouseMove dx dy => mouse_mouse_move_relative dx dy
  | MousePress b => mouse_mouse_press b
  | MouseRelease b => mouse_mouse_release b
  end.

(** All but the writes of the two masks, on any kind of chip. *)
Definition sets_the_lines (op : IoOp) : Prop :=
  match op with
  | GuestWrite addr _ => addr .& 0x1fc ≠ IOMD_IRQMSKD ∧ addr .& 0x1fc ≠ IOMD_DMAMSK
  | _ => True
  end.

Lemma iomd_reg_low kind addr : iomd_reg kind addr .& 0x1fc = addr .& 0x1fc.
Proof. unfold iomd_reg. destruct (bool_decide _); by rewrite <- Z.land_assoc. Qed.
Lemma keeps_op op : sets_the_lines op → keeps_lines (run_op op).
Proof.
  destruct op; cbn [run_op sets_the_lines].
  - intros [Hd Hm] s Hs. rewrite <- (iomd_reg_low (iomd_kind s)) in Hd, Hm.
    apply (keeps_iomd_write addr val (iomd_kind s)); [intros E; by rewrite E in Hd | intros E; by rewrite E in Hm | by split].
  - intros _. apply lines_bind; [apply keeps_iomd_read | intros; apply lines_ret].
  - intros _. apply keeps_gentimerirq.
  - intros _. unfold kcallback_tick. keep.
  - intros _. unfold mcallback_tick. pose proof keeps_mouse_callback. keep.
  - intros _. apply keeps_flyback.
  - intros _. apply keeps_key_press.
  - intros _. apply keeps_key_release.
  - intros _. apply keeps_mouse_relative.
  - intros _. apply keeps_mouse_press.
  - intros _. apply keeps_mouse_release.
Qed.
Lemma keeps_ops ops : Forall sets_the_lines ops → keeps_lines (mfor ops run_op).
Proof. induction 1; cbn [mfor]; [apply lines_ret|]. apply lines_bind; [by apply keeps_op | by intros _]. Qed.
End ops.

(** The two writes that are left: the mask changes, the lines do not. *)
Lemma mask_without_lines {D} {DV : IomdDev D} {X : CmosHost D} v (s : Sys D) :
  iomd_write IOMD_IRQMSKD v s = Some (tt, set_chip (set_irqd (irq_set_mask (u8 v) (irqd (chip s))) (chip s)) s) ∧
  iomd_write IOMD_DMAMSK v s = Some (tt, set_chip (set_irqdma (irq_set_mask (u8 v) (irqdma (chip s))) (chip s)) s).
Proof.
  assert (Er : ∀ r, r = IOMD_IRQMSKD ∨ r = IOMD_DMAMSK → iomd_reg (iomd_kind s) r = r).
  { intros r [-> | ->]; unfold iomd_reg; by destruct (bool_decide _). }
  split; unfold iomd_write; rewrite (bind_eq _ _ _ (iomd_kind s) s) by reflexivity; cbv zeta; rewrite Er by auto; reflexivity.
Qed.
