(* ===== verification/IomdBus.v ===== *)
(** The two-wire bus as the guest has it: the bits of the I/O control register,
    which a driver moves on the controller, and by accesses to its physical address on
    the whole machine, as it would move the pins of cmos.c. *)

From S2P Require Export CmosContents Iomd MemDebug IomdLines.

(** * Drivers of related pins

    When the pins and the sample of two machines are related, so are the
    transactions, for any relation of computations that sequencing respects. *)

Section related.
Context {S T : Type} (R : ∀ A, M S A → M T A → Prop).
Context (R_ret : ∀ A (a : A), R A (mret a) (mret a)).
Context (R_bind : ∀ A B (m : M S A) (m' : M T A) (f : A → M S B) f',
  R A m m' → (∀ a, R B (f a) (f' a)) → R B (m ≫= f) (m' ≫= f')).
Context (pin : Z → Z → M S unit) (sample : M S Z) (pin' : Z → Z → M T unit) (sample' : M T Z).
Context (R_pin : ∀ scl sda, is_bit scl → is_bit sda → R unit (pin scl sda) (pin' scl sda)) (R_sample : R Z sample sample').

Lemma related_mfor {A} (P : A → Prop) (l : list A) (f : A → M S unit) (f' : A → M T unit) :
  Forall P l → (∀ a, P a → R unit (f a) (f' a)) → R unit (mfor l f) (mfor l f').
Proof. intros Hl Hf. induction Hl; cbn; [apply R_ret|]. apply R_bind; [by apply Hf | by intros _]. Qed.
Lemma bits_of_bits v : Forall is_bit (bits_of v).
Proof. unfold bits_of. apply Forall_fmap. apply Forall_true. intros i. apply is_bit_b2z. Qed.
Lemma is_bit_0 : is_bit 0. Proof. by left. Qed.
Lemma is_bit_1 : is_bit 1. Proof. by right. Qed.

Ltac relate :=
  repeat match goal with
  | |- ∀ _, _ => intro
  | |- is_bit _ => first [assumption | apply is_bit_0 | apply is_bit_1 | destruct (_ =? _)%nat; [apply is_bit_1 | apply is_bit_0]]
  | |- R _ (mret _) _ => apply R_ret
  | |- R _ (pin _ _) _ => apply R_pin
  | |- R _ sample _ => apply R_sample
  | |- R _ (_ ≫= _) _ => apply R_bind
  | |- R _ (if ?b then _ else _) _ => destruct b
  end.

Lemma related_send_bit b : is_bit b → R _ (Master.send_bit pin b) (Master.send_bit pin' b).
Proof. intros Hb. unfold Master.send_bit. relate. Qed.
Lemma related_send_byte v : R _ (Master.send_byte pin sample v) (Master.send_byte pin' sample' v).
Proof.
  unfold Master.send_byte. apply R_bind; [|relate].
  eapply related_mfor; [apply bits_of_bits | intros b Hb; by apply related_send_bit].
Qed.
Lemma related_send_bytes vs : R _ (Master.send_bytes pin sample vs) (Master.send_bytes pin' sample' vs).
Proof. induction vs as [|v vs IH]; cbn [Master.send_bytes]; relate; [apply related_send_byte | exact IH]. Qed.
Lemma related_recv_bits n : ∀ acc, R _ (Master.recv_bits pin sample n acc) (Master.recv_bits pin' sample' n acc).
Proof. induction n as [|n IH]; intros acc; cbn [Master.recv_bits]; unfold Master.recv_bit; relate. apply IH. Qed.
Lemma related_recv_bytes n : R _ (Master.recv_bytes pin sample n) (Master.recv_bytes pin' sample' n).
Proof.
  induction n as [|n IH]; cbn [Master.recv_bytes]; unfold Master.recv_byte, Master.give_ack; relate; [apply related_recv_bits| |exact IH].
  apply related_send_bit. relate.
Qed.
Lemma related_i2c_write a vs : R _ (Master.i2c_write pin sample a vs) (Master.i2c_write pin' sample' a vs).
Proof. unfold Master.i2c_write, Master.i2c_start, Master.i2c_stop. relate. apply related_send_bytes. Qed.
Lemma related_i2c_read a vs n : R _ (Master.i2c_read pin sample a vs n) (Master.i2c_read pin' sample' a vs n).
Proof.
  unfold Master.i2c_read, Master.i2c_start, Master.i2c_stop. relate; (apply related_send_bytes || apply related_recv_bytes).
Qed.
End related.

Section lift.
Context {D : Type} `{!IomdDev D, !CmosHost D}.
Local Abbreviation IO := (M (Sys D)).
Local Abbreviation CMOS := (M (Cmos * D)).

(** The state after the bus and the host have moved; [x] is the control register. *)
Definition moved (c : Cmos) (d : D) (x : Z) (s : Sys D) : Sys D :=
  set_chip (set_io_ctrl x (chip s)) (set_sysdev d (set_i2c c s)).

Lemma moved_moved c d x c' d' x' s : moved c' d' x' (moved c d x s) = moved c' d' x' s.
Proof. by destruct s as [[] ? ? ? ? ? ? ? ? ? ? ? ? ? ? ? ? ? ? ?]. Qed.
Lemma moved_same s : moved (i2c s) (sysdev s) (io_ctrl (chip s)) s = s.
Proof. by destruct s as [[] ? ? ? ? ? ? ? ? ? ? ? ? ? ? ? ? ? ? ?]. Qed.
Lemma i2c_moved c d x s : i2c (moved c d x s) = c.
Proof. reflexivity. Qed.
Lemma sysdev_moved c d x s : sysdev (moved c d x s) = d.
Proof. reflexivity. Qed.

Definition lifts {A} (mI : IO A) (mC : CMOS A) : Prop := ∀ s,
  match mC (i2c s, sysdev s) with
  | Some (a, (c, d)) => ∃ x, mI s = Some (a, moved c d x s)
  | None => mI s = None
  end.

Lemma lift_ret {A} (a : A) : lifts (mret a) (mret a).
Proof. intros s. exists (io_ctrl (chip s)). cbn. by rewrite moved_same. Qed.
Lemma lift_bind {A B} (mI : IO A) (mC : CMOS A) (fI : A → IO B) (fC : A → CMOS B) :
  lifts mI mC → (∀ a, lifts (fI a) (fC a)) → lifts (mI ≫= fI) (mC ≫= fC).
Proof.
  intros Hm Hf s. rewrite !bind_run. specialize (Hm s). destruct (mC _) as [[a [c d]]|].
  - destruct Hm as [x ->]. specialize (Hf a (moved c d x s)). rewrite i2c_moved, sysdev_moved in Hf.
    destruct (fC a (c, d)) as [[b [c' d']]|]; [|exact Hf].
    destruct Hf as [x' ->]. exists x'. by rewrite moved_moved.
  - by rewrite Hm.
Qed.

(** * The control register *)

(** Any word whose low two bits are the levels. *)
Definition iocr_pin (base : Z) (scl sda : Z) : IO unit := iomd_write 0 (Z.shiftl base 2 .| Z.shiftl scl 1 .| sda).
Definition iocr_level : IO Z := v ← iomd_read 0; mret (v .& 1).

Lemma iocr_bits base scl sda : is_bit scl → is_bit sda →
  let v := Z.shiftl base 2 .| Z.shiftl scl 1 .| sda in v .>> 1 .& 1 = scl ∧ v .& 1 = sda.
Proof.
  intros Hc Hd v. subst v. split; apply Z.bits_inj'; intros i Hi; rewrite Z.land_spec, ?Z.shiftr_spec by done;
    rewrite !Z.lor_spec, ?Z.shiftl_spec by lia.
  - destruct (Z.eq_dec i 0) as [->|?].
    + rewrite (Z.testbit_neg_r base) by lia. bits; reflexivity.
    + destruct i; [done| |done]. bits; by rewrite andb_false_r.
  - destruct (Z.eq_dec i 0) as [->|?].
    + rewrite (Z.testbit_neg_r base), (Z.testbit_neg_r scl) by lia. bits; reflexivity.
    + destruct i; [done| |done]. bits; by rewrite andb_false_r.
Qed.
Lemma lifts_iocr v : lifts (iomd_write 0 v) (cmosi2cchange (v .>> 1 .& 1) (v .& 1)).
Proof.
  intros s. assert (Er : iomd_reg (iomd_kind s) 0 = 0) by by (unfold iomd_reg; destruct (bool_decide _)).
  unfold iomd_write. rewrite (bind_eq _ _ _ (iomd_kind s) s) by reflexivity. rewrite Er.
  cbn [switch existsb Z.eqb orb]. unfold write_iocr. rewrite bind_run. unfold on_cmos, zoom.
  destruct (cmosi2cchange _ _ (i2c s, sysdev s)) as [[[] [c d]]|]; [|done].
  eexists. unfold chip_mod, modify, moved. reflexivity.
Qed.
Lemma lifts_pin base scl sda : is_bit scl → is_bit sda → lifts (iocr_pin base scl sda) (cmosi2cchange scl sda).
Proof.
  intros Hc Hd. destruct (iocr_bits base scl sda Hc Hd) as [E1 E2].
  pose proof (lifts_iocr (Z.shiftl base 2 .| Z.shiftl scl 1 .| sda)) as L. by rewrite E1, E2 in L.
Qed.
Lemma lifts_level : lifts iocr_level sda_level.
Proof.
  intros s. unfold sda_level, cm_get, gets. cbn [fst].
  assert (Er : iomd_reg (iomd_kind s) 0 = 0) by by (unfold iomd_reg; destruct (bool_decide _)).
  exists (io_ctrl (chip s)). rewrite moved_same. unfold iocr_level, iomd_read.
  rewrite bind_assoc, (bind_eq _ _ _ s s) by reflexivity. rewrite Er. cbn [switch existsb Z.eqb orb].
  rewrite bind_run. unfold mret, M_ret. do 2 f_equal. unfold read_iocr.
  apply Z.bits_inj'. intros i Hi. rewrite Z.land_spec, !Z.lor_spec, Z.land_spec.
  destruct i as [|p|p]; [|change (Z.testbit 1 (Z.pos p)) with false; rewrite andb_false_r; by destruct (nz (cm_data _))|done].
  replace (Z.testbit 0x7c 0) with false by reflexivity. rewrite andb_false_r, orb_false_r.
  by destruct (nz (cm_clock _)), (nz (cm_data _)), (nz (flyback _)).
Qed.

(** * A driver *)

Lemma lifts_send_byte base v : lifts (Master.send_byte (iocr_pin base) iocr_level v) (send_byte v).
Proof. apply (related_send_byte (@lifts)); auto using @lift_ret, @lift_bind, lifts_pin, lifts_level. Qed.
Lemma lifts_i2c_write base a vs : lifts (Master.i2c_write (iocr_pin base) iocr_level a vs) (i2c_write a vs).
Proof. apply (related_i2c_write (@lifts)); auto using @lift_ret, @lift_bind, lifts_pin, lifts_level. Qed.
Lemma lifts_i2c_read base a vs n : lifts (Master.i2c_read (iocr_pin base) iocr_level a vs n) (i2c_read a vs n).
Proof. apply (related_i2c_read (@lifts)); auto using @lift_ret, @lift_bind, lifts_pin, lifts_level. Qed.
End lift.

(** * The controller behind the memory system *)

(** The registers are at the start of bank 0 of the I/O space. *)
Definition IOMD_BASE : Z := 0x03200000.

Section joined.
Context {E : Type} `{!IomdDev E, !CmosHost E}.
Local Abbreviation MEM := (M (Z * Mem (Sys E))).

(** The controller works on [arm.event], which the memory system carries, and on
    itself; the field of [Sys] is only a place for it in between. *)
Definition system_of (t : Z * Mem (Sys E)) : Sys E := set_arm_event (fst t) (dev (snd t)).
Definition put_system (s : Sys E) (t : Z * Mem (Sys E)) : Z * Mem (Sys E) := 
  (arm_event s, set_dev (set_arm_event (arm_event (dev (snd t))) s) (snd t)).
Definition on_iomd {A} (m : M (Sys E) A) : MEM A := zoom system_of put_system m.

(** The devices of the machine, with this controller among them. *)
Definition with_iomd (other : IoDev (Sys E)) : IoDev (Sys E) := {|
  openbus_present := openbus_present;
  openbus_reg_read := openbus_reg_read;
  openbus_reg_write := openbus_reg_write;
  MemState.iomd_read addr := on_iomd (Iomd.iomd_read addr);
  MemState.iomd_write addr val := on_iomd (Iomd.iomd_write addr val);
  MemState.iomd_mouse_buttons_read := on_iomd Iomd.iomd_mouse_buttons_read;
  iomd_vidstart s := vidstart (chip s);
  readidew := readidew;
  writeidew := writeidew;
  readide := readide;
  writeide := writeide;
  superio_read := superio_read;
  superio_write := superio_write;
  superio_write_byte := superio_write_byte;
  fdc_dma_read := fdc_dma_read;
  fdc_dma_write := fdc_dma_write;
  podules_read8 := podules_read8;
  podules_read16 := podules_read16;
  podules_read32 := podules_read32;
  podules_write8 := podules_write8;
  podules_write16 := podules_write16;
  podules_write32 := podules_write32;
  writevidc20 := writevidc20;
  gfxcard_mark_dirty := gfxcard_mark_dirty;
  debugger_memory_access := debugger_memory_access
|}.

Context (other : IoDev (Sys E)).
Local Abbreviation phys_read32 := (mem_phys_read32 (D:=Sys E) (IoDev0:=with_iomd other)).
Local Abbreviation phys_write32 := (mem_phys_write32 (D:=Sys E) (IoDev0:=with_iomd other)).
Local Abbreviation phys_read8 := (mem_phys_read8 (D:=Sys E) (IoDev0:=with_iomd other)).
Local Abbreviation phys_write8 := (mem_phys_write8 (D:=Sys E) (IoDev0:=with_iomd other)).

(** ** Addresses *)

Lemma land_high a m k : 0 ≤ k → a .& Z.shiftl m k = Z.shiftl ((a .>> k) .& m) k.
Proof.
  intros Hk. apply Z.bits_inj'. intros i Hi. rewrite Z.land_spec, !Z.shiftl_spec by done.
  destruct (Z.lt_ge_cases i k).
  - rewrite !(Z.testbit_neg_r _ (i - k)) by lia. apply andb_false_r.
  - rewrite Z.land_spec, Z.shiftr_spec by lia. do 2 f_equal. lia.
Qed.

Record iomd_at (b : Board) (a : Z) : Prop := {
  ia_space : a .& phys_space_mask b = a;
  ia_chunk : chunk a b = 0x03000000;
  ia_bank : a .& 0xc00000 = 0 ∧ (a .>> 16) .& 7 = 0;
  ia_window : openbus_addr_in_window a = false
}.
Lemma iomd_addresses b a : board_ok b → IOMD_BASE ≤ a < IOMD_BASE + 0x10000 → iomd_at b a.
Proof.
  unfold IOMD_BASE. intros Hb Ha. destruct (space_mask_ones b Hb) as (n & Hn & En).
  assert (Es : a .& Z.ones n = a).
  { rewrite Z.land_ones by lia. apply Z.mod_small.
    pose proof (Z.pow_le_mono_r 2 29 n ltac:(lia) Hn) as Hp. change (2 ^ 29) with 0x20000000 in Hp. lia. }
  assert (Eh : a .>> 16 = 0x320) by (rewrite Z.shiftr_div_pow2 by lia; symmetry; apply (Z.div_unique a _ 0x320 (a - 0x03200000)); lia).
  split.
  - by rewrite En.
  - unfold chunk. rewrite En, Z.land_assoc, Es. change 0xff000000 with (Z.shiftl 0xff00 16). by rewrite land_high, Eh by lia.
  - rewrite Eh. split; [|done]. change 0xc00000 with (Z.shiftl 0xc0 16). by rewrite land_high, Eh by lia.
  - unfold openbus_addr_in_window, OPENBUS_REG_BASE. destruct (Z.leb_spec 0x03600000 a); [lia|done].
Qed.

(** ** Accesses *)

Ltac reach Ha m e :=
  destruct Ha as [E1 E2 [E3 E4] E5]; rewrite (bind_eq _ _ _ (board m) (e, m)) by reflexivity; cbv zeta; rewrite E1, E2;
  cbn [switch];
  change (existsb (Z.eqb 50331648) ROM_chunk) with false; change (existsb (Z.eqb 50331648) VRAM_chunk) with false;
  change (existsb (Z.eqb 50331648) IO_chunk) with true; cbv iota.
Ltac reach_bank a m e :=
  rewrite ?bind_assoc, (bind_eq _ _ _ (board m) (e, m)) by reflexivity; cbv zeta;
  rewrite ?bind_assoc; erewrite bind_eq; [|reflexivity];
  match goal with H : openbus_addr_in_window a = false, H3 : a .& 0xc00000 = 0, H4 : (a .>> 16) .& 7 = 0 |- _ =>
    rewrite H, andb_false_r, H3, H4 end; cbn [Z.eqb].

Lemma write32_is_iomd a v e m : iomd_at (board m) a → phys_write32 a v (e, m) = on_iomd (Iomd.iomd_write a v) (e, m).
Proof. intros Ha. unfold mem_phys_write32. reach Ha m e. unfold io_write32. reach_bank a m e. reflexivity. Qed.
Lemma write8_is_iomd a v e m : iomd_at (board m) a → phys_write8 a v (e, m) = on_iomd (Iomd.iomd_write a v) (e, m).
Proof. intros Ha. unfold mem_phys_write8. reach Ha m e. unfold io_write8. reach_bank a m e. reflexivity. Qed.
Lemma read32_is_iomd a e m : iomd_at (board m) a → phys_read32 a (e, m) = on_iomd (Iomd.iomd_read a) (e, m).
Proof.
  intros Ha. unfold mem_phys_read32. reach Ha m e. unfold io_read32. reach_bank a m e.
  rewrite bind_assoc, bind_run. change (MemState.iomd_read a (e, m)) with (on_iomd (Iomd.iomd_read a) (e, m)).
  by destruct (on_iomd _ _) as [[x t]|].
Qed.
Lemma read8_is_iomd a e m : iomd_at (board m) a → phys_read8 a (e, m) = on_iomd (Iomd.iomd_read a) (e, m).
Proof.
  intros Ha. unfold mem_phys_read8. reach Ha m e. unfold io_read8. reach_bank a m e.
  rewrite bind_assoc, bind_run. change (MemState.iomd_read a (e, m)) with (on_iomd (Iomd.iomd_read a) (e, m)).
  by destruct (on_iomd _ _) as [[x t]|].
Qed.

(** ** The pins *)

Lemma on_iomd_ret {A} (a : A) t : on_iomd (mret a) t = Some (a, t).
Proof. destruct t as [e []]. unfold on_iomd, zoom, mret, M_ret, put_system, system_of. cbn. by destruct dev. Qed.
Lemma on_iomd_bind {A B} (m : M (Sys E) A) (f : A → M (Sys E) B) t : on_iomd (m ≫= f) t = (a ← on_iomd m; on_iomd (f a)) t.
Proof.
  unfold on_iomd, zoom. rewrite !bind_run. destruct (m (system_of t)) as [[a s]|]; [|done].
  assert (system_of (put_system s t) = s) as -> by by destruct s.
  destruct (f a s) as [[b s']|]; [|done]. reflexivity.
Qed.

(** On a board of the machine, [mM] is [mI] on the controller. *)
Definition reaches (A : Type) (mM : MEM A) (mI : M (Sys E) A) : Prop := ∀ t, board_ok (board (snd t)) → mM t = on_iomd mI t.
Lemma reaches_ret A (a : A) : reaches A (mret a) (mret a).
Proof. intros t _. by rewrite on_iomd_ret. Qed.
Lemma reaches_bind A B (mM : MEM A) mI (fM : A → MEM B) fI :
  reaches A mM mI → (∀ a, reaches B (fM a) (fI a)) → reaches B (mM ≫= fM) (mI ≫= fI).
Proof.
  intros Hm Hf t Ht. rewrite on_iomd_bind, !bind_run, (Hm t Ht). unfold on_iomd, zoom.
  destruct (mI (system_of t)) as [[a s]|]; [|done]. by rewrite (Hf a).
Qed.

(** The driver of a guest: word stores to the I/O control register, and loads. *)
Definition mem_pin (base scl sda : Z) : MEM unit := phys_write32 IOMD_BASE (Z.shiftl base 2 .| Z.shiftl scl 1 .| sda).
Definition mem_level : MEM Z := v ← phys_read32 IOMD_BASE; mret (v .& 1).

Lemma iocr_address (t : Z * Mem (Sys E)) : board_ok (board (snd t)) → iomd_at (board (snd t)) IOMD_BASE.
Proof. intros Ht. apply iomd_addresses; [exact Ht | unfold IOMD_BASE; lia]. Qed.
Lemma iomd_write_base v (s : Sys E) : Iomd.iomd_write IOMD_BASE v s = Iomd.iomd_write 0 v s.
Proof.
  unfold Iomd.iomd_write. rewrite !(bind_eq _ _ _ (iomd_kind s) s) by reflexivity. cbv zeta.
  assert (∀ k, iomd_reg k IOMD_BASE = 0 ∧ iomd_reg k 0 = 0) as Er by (intros k; unfold iomd_reg; by destruct (bool_decide _)).
  destruct (Er (iomd_kind s)) as [-> ->]. reflexivity.
Qed.
Lemma iomd_read_base (s : Sys E) : Iomd.iomd_read IOMD_BASE s = Iomd.iomd_read 0 s.
Proof.
  unfold Iomd.iomd_read. rewrite !(bind_eq _ _ _ s s) by reflexivity. cbv zeta.
  assert (∀ k, iomd_reg k IOMD_BASE = 0 ∧ iomd_reg k 0 = 0) as Er by (intros k; unfold iomd_reg; by destruct (bool_decide _)).
  destruct (Er (iomd_kind s)) as [-> ->]. reflexivity.
Qed.
Lemma reaches_pin base scl sda : reaches unit (mem_pin base scl sda) (iocr_pin base scl sda).
Proof.
  intros [e m] Ht. unfold mem_pin. rewrite write32_is_iomd by by apply (iocr_address (e, m)).
  unfold on_iomd, zoom. by rewrite iomd_write_base.
Qed.
Lemma reaches_level : reaches Z mem_level iocr_level.
Proof.
  intros [e m] Ht. unfold mem_level, iocr_level. rewrite on_iomd_bind, !bind_run, read32_is_iomd by by apply (iocr_address (e, m)).
  unfold on_iomd at 1 2, zoom. rewrite iomd_read_base.
  destruct (Iomd.iomd_read 0 _) as [[x s]|]; [|done]. by rewrite on_iomd_ret.
Qed.
Definition mem_i2c_write (base a : Z) (vs : list Z) : MEM bool := Master.i2c_write (mem_pin base) mem_level a vs.
Definition mem_i2c_read (base a : Z) (vs : list Z) (n : nat) : MEM (option (list Z)) :=
  Master.i2c_read (mem_pin base) mem_level a vs n.
Lemma reaches_i2c_write base a vs :
  reaches bool (mem_i2c_write base a vs) (Master.i2c_write (iocr_pin base) iocr_level a vs).
Proof. apply (related_i2c_write reaches); auto using reaches_ret, reaches_bind, reaches_pin, reaches_level. Qed.
Lemma reaches_i2c_read base a vs n :
  reaches _ (mem_i2c_read base a vs n) (Master.i2c_read (iocr_pin base) iocr_level a vs n).
Proof. apply (related_i2c_read reaches); auto using reaches_ret, reaches_bind, reaches_pin, reaches_level. Qed.

(** ** The lines *)

Lemma store_keeps_lines {DS : DevSettles E} a v e m e' m' :
  board_ok (board m) → IOMD_BASE ≤ a < IOMD_BASE + 0x10000 → sets_the_lines (GuestWrite a v) →
  lines (chip (dev m)) e = e → phys_write32 a v (e, m) = Some (tt, (e', m')) → lines (chip (dev m')) e' = e'.
Proof.
  intros Hb Ha Hs Hl E1. rewrite write32_is_iomd in E1 by by apply iomd_addresses. unfold on_iomd, zoom in E1.
  destruct (Iomd.iomd_write a v (system_of (e, m))) as [[[] s]|] eqn:E2; [|done]. injection E1 as <- <-.
  cbn [dev set_dev snd]. change (chip (set_arm_event _ s)) with (chip s). apply settled_lines.
  refine (hoare_run _ _ _ _ _ _ (keeps_op (GuestWrite a v) Hs) _ E2). by apply settled_lines.
Qed.
End joined.
