(* ===== verification/KeyboardSpec.v ===== *)
(** The queue of a PS/2 device as a list, and the keys that are typed as the bytes
    the guest reads; and the chunks of the I/O controller and of the keyboard, which are
    read back as they were written. *)

From S2P Require Export SavestateSpec CmosContents IomdLines.

(** * The queue *)

Record queue_wf (q : PS2Queue) : Prop := {
  qw_len : length (q_data q) = 256%nat;
  qw_rptr : 0 ≤ q_rptr q < 256;
  qw_count : 0 ≤ q_count q ≤ 256;
  qw_wptr : q_wptr q = (q_rptr q + q_count q) mod 256
}.

(** The byte [i] places behind the head. *)
Definition q_byte (q : PS2Queue) (i : Z) : Z := default 0 (q_data q !! Z.to_nat ((q_rptr q + i) mod 256)).
Definition contents (q : PS2Queue) : list Z := q_byte q <$> seqZ 0 (q_count q).

Lemma contents_length q : queue_wf q → Z.of_nat (length (contents q)) = q_count q.
Proof. intros []. unfold contents. rewrite length_fmap, length_seqZ. lia. Qed.

Lemma ps2_next_mod i : 0 ≤ i < 256 → ps2_next i = (i + 1) mod 256.
Proof.
  intros Hi. unfold ps2_next, PS2_QUEUE_SIZE. destruct (Z.eqb_spec (i + 1) 256) as [->|?]; [done|].
  symmetry. apply Z.mod_small. lia.
Qed.
Lemma mod_range i : 0 ≤ i mod 256 < 256.
Proof. by apply Z.mod_pos_bound. Qed.

(** A byte is appended, or dropped when the queue is full. *)
Lemma ps2_queue_spec q b : queue_wf q →
  ∃ q', ps2_queue q b = Some q' ∧ queue_wf q' ∧
    contents q' = if q_count q <? 256 then contents q ++ [u8 b] else contents q.
Proof.
  intros [L Hr Hc Hw]. unfold ps2_queue, PS2_QUEUE_SIZE. pose proof (mod_range (q_rptr q + q_count q)) as Hm.
  destruct (Z.leb_spec 256 (q_count q)), (Z.ltb_spec (q_count q) 256); try lia; [by exists q|].
  rewrite Hw, L. destruct (Z.leb_spec 0 ((q_rptr q + q_count q) mod 256)), (Z.ltb_spec ((q_rptr q + q_count q) mod 256) (Z.of_nat 256)); try lia.
  cbn [andb]. eexists. split; [reflexivity|]. split.
  - split; cbn [q_data q_rptr q_wptr q_count]; [by rewrite length_insert|done|lia|].
    rewrite ps2_next_mod, Zplus_mod_idemp_l by done. f_equal. lia.
  - unfold contents. cbn [q_count]. rewrite seqZ_app, fmap_app by lia. f_equal.
    + apply list_fmap_ext. intros i x Hx. apply lookup_seqZ in Hx as [-> Hx]. unfold q_byte. cbn [q_data q_rptr].
      rewrite list_lookup_insert_ne; [done|]. intros E. apply Z2Nat.inj in E; [|apply mod_range..].
      pose proof (Z.div_mod (q_rptr q + q_count q) 256). pose proof (Z.div_mod (q_rptr q + (0 + Z.of_nat i)) 256). lia.
    + change (seqZ (0 + q_count q) 1) with [0 + q_count q]. cbn [fmap list_fmap]. unfold q_byte. cbn [q_data q_rptr].
      rewrite Z.add_0_l. by rewrite list_lookup_insert_eq by lia.
Qed.

(** The oldest byte is taken. *)
Lemma ps2_read_spec q v l : queue_wf q → contents q = v :: l →
  ∃ q', ps2_read_data q = Some (v, q') ∧ queue_wf q' ∧ contents q' = l ∧ q_count q' = Z.of_nat (length l).
Proof.
  intros Hq E. pose proof (contents_length q Hq) as Hn. rewrite E in Hn. cbn [length] in Hn.
  destruct Hq as [L Hr Hc Hw]. unfold contents in E. rewrite seqZ_cons in E by lia. cbn [fmap list_fmap] in E.
  injection E as Ev El. unfold ps2_read_data, ps2_at. destruct (Z.eqb_spec (q_count q) 0); [lia|].
  rewrite L. destruct (Z.leb_spec 0 (q_rptr q)), (Z.ltb_spec (q_rptr q) (Z.of_nat 256)); try lia. cbn [andb].
  destruct (lookup_lt_is_Some_2 (q_data q) (Z.to_nat (q_rptr q))) as [w Hv]; [lia|]. rewrite Hv.
  unfold q_byte in Ev. rewrite Z.add_0_r, Z.mod_small, Hv in Ev by lia. cbn in Ev. subst w.
  eexists. split; [reflexivity|]. split; [|split; [|cbn; lia]].
  - split; cbn [q_data q_rptr q_wptr q_count]; [done|rewrite ps2_next_mod by lia; apply mod_range|lia|].
    rewrite Hw, ps2_next_mod, Zplus_mod_idemp_l by lia. f_equal. lia.
  - rewrite <- El. unfold contents. cbn [q_count]. rewrite <- Z.add_1_l, <- fmap_add_seqZ, <- list_fmap_compose.
    apply list_fmap_ext. intros i x _. cbn. unfold q_byte. cbn [q_data q_rptr].
    by rewrite ps2_next_mod, Zplus_mod_idemp_l, <- Z.add_assoc by lia.
Qed.

(** * Typing *)

(** One step of a run, by computation. *)
Ltac step_run := rewrite ?bind_assoc; erewrite bind_eq; [|reflexivity].

Section typing.
Context {D : Type} `{!IomdDev D, !CmosHost D}.
Local Abbreviation IO := (M (Sys D)).

Lemma assert_true : assert true = (mret tt : IO unit).
Proof. unfold assert. by rewrite orb_true_r. Qed.

(** A guest that looks at the status register at every tick, and reads what is there. *)
Definition poll : IO (list Z) :=
  kcallback_tick;;
  stat ← iomd_read 0x008;
  if nz (stat .& PS2_CONTROL_RX_FULL) then v ← iomd_read 0x004; mret [v] else mret [].
Fixpoint polls (n : nat) : IO (list Z) :=
  match n with O => mret [] | Datatypes.S n' => a ← poll; l ← polls n'; mret (a ++ l) end.

(** The machine has the keyboard of the IOMD, out of reset, and a byte
    waiting if [full]. *)
Record quiet (full : bool) (s : Sys D) : Prop := {
  qt_kind : iomd_kind s ≠ IOMDType_IOMD2;
  qt_model : model s ≠ Model_Phoebe;
  qt_reset : k_reset (kbd s) = 0;
  qt_stat : nz (k_stat (kbd s) .& PS2_CONTROL_RX_FULL) = full;
  qt_queue : queue_wf (k_queue (kbd s))
}.
Definition sending (full : bool) (l : list Z) (k : Z) (s : Sys D) : Prop :=
  quiet full s ∧ contents (k_queue (kbd s)) = l ∧ kcallback s = k ∧ (l ≠ [] → k_command (kbd s) = 0xfe).

Lemma rx_full_set v stat : nz (with_parity v (stat .| PS2_CONTROL_RX_FULL) .& PS2_CONTROL_RX_FULL) = true.
Proof.
  unfold with_parity. change PS2_CONTROL_RX_FULL with (2 ^ 5). rewrite nz_mask_bit by done.
  destruct (nz _); rewrite ?Z.lor_spec, ?Z.ldiff_spec, ?Z.lor_spec; by destruct (Z.testbit stat 5).
Qed.
Lemma rx_full_cleared stat : nz (stat .&~ PS2_CONTROL_RX_FULL .& PS2_CONTROL_RX_FULL) = false.
Proof.
  change PS2_CONTROL_RX_FULL with (2 ^ 5). rewrite nz_mask_bit, Z.ldiff_spec by done.
  change (Z.testbit (2 ^ 5) 5) with true. by rewrite andb_false_r.
Qed.
Lemma read_status s : iomd_kind s ≠ IOMDType_IOMD2 → iomd_read 0x008 s = Some (k_stat (kbd s), s).
Proof.
  intros Hk. unfold iomd_read. rewrite (bind_eq _ _ _ s s) by reflexivity.
  assert (Er : iomd_reg (iomd_kind s) 8 = 8) by (unfold iomd_reg; by destruct (bool_decide _)).
  cbv zeta. rewrite Er, bool_decide_false by done. reflexivity.
Qed.
Lemma read_data s : iomd_kind s ≠ IOMDType_IOMD2 → iomd_read 0x004 s = keyboard_data_read s.
Proof.
  intros Hk. unfold iomd_read. rewrite (bind_eq _ _ _ s s) by reflexivity.
  assert (Er : iomd_reg (iomd_kind s) 4 = 4) by (unfold iomd_reg; by destruct (bool_decide _)).
  cbv zeta. rewrite Er, bool_decide_false by done. reflexivity.
Qed.
Lemma callback_run s v q : model s ≠ Model_Phoebe → k_reset (kbd s) = 0 → k_command (kbd s) = 0xfe →
  ps2_read_data (k_queue (kbd s)) = Some (v, q) →
  ∃ s', keyboard_callback_rpcemu s = Some (tt, s') ∧ iomd_kind s' = iomd_kind s ∧ model s' = model s ∧ kcallback s' = 0 ∧
    kbd s' = mkKbd (k_enable (kbd s)) 0 (with_parity v (k_stat (kbd s) .| PS2_CONTROL_RX_FULL)) v
      (if q_count q =? 0 then 0 else 0xfe) q.
Proof.
  intros Hm Hr Hc Hq. destruct s as [c ? ? ? ? ? ? ? ? ki mo e i2 kc mc [en re st da co qu] mu ps mh d]. cbn in *. subst re co.
  unfold keyboard_callback_rpcemu. erewrite bind_eq; [|reflexivity]. cbn [kbd k_reset k_command Z.eqb Pos.eqb switch existsb orb].
  unfold KBD_CMD_ENABLE. cbn [Z.eqb Pos.eqb orb].
  rewrite (bind_eq kbd_dequeue _ _ v (mkSys c cinit sndon flyback old_timer_ticks soundinited soundcount soundlatch soundaddr ki mo e i2 kc mc (mkKbd en 0 st da 0xfe q) mu ps mh d))
    by (unfold kbd_dequeue; cbn; by rewrite Hq).
  unfold keyboardsend, keyboard_irq_rx_raise, is_phoebe.
  do 4 step_run. cbn [model set_kbd]. rewrite bool_decide_false by done. do 4 step_run. cbn. destruct (q_count q =? 0); eexists; split_and!; reflexivity.
Qed.
Lemma data_read_run s : model s ≠ Model_Phoebe →
  ∃ s', keyboard_data_read s = Some (k_data (kbd s), s') ∧ iomd_kind s' = iomd_kind s ∧ model s' = model s ∧
    kbd s' = set_k_stat (k_stat (kbd s) .&~ PS2_CONTROL_RX_FULL) (kbd s) ∧
    kcallback s' = if k_command (kbd s) =? 0xfe then 5 * 4 else kcallback s.
Proof.
  intros Hm. destruct s as [c ? ? ? ? ? ? ? ? ki mo e i2 kc mc [en re st da co qu] mu ps mh d]. cbn in *.
  unfold keyboard_data_read, keyboard_irq_rx_lower, is_phoebe. step_run.
  cbn [model]. rewrite bool_decide_false by done. do 4 step_run. cbn. destruct (co =? 0xfe); eexists; split_and!; reflexivity.
Qed.

Lemma tick_wait s : 1 < kcallback s → kcallback_tick s = Some (tt, set_kcallback (kcallback s - 1) s).
Proof.
  intros Hk. unfold kcallback_tick. step_run.
  replace (nz (kcallback s)) with true by (unfold nz; destruct (Z.eqb_spec (kcallback s) 0); [lia|done]). cbn [when].
  step_run. destruct (Z.leb_spec (kcallback s - 1) 0); [lia|reflexivity].
Qed.
Lemma tick_call s : kcallback s = 1 → kcallback_tick s = keyboard_callback_rpcemu (set_kcallback 0 s).
Proof. intros Hk. unfold kcallback_tick. step_run. rewrite Hk. change (nz 1) with true. cbn [when]. step_run. change (1 - 1 <=? 0) with true. cbn [when]. step_run. destruct s; reflexivity. Qed.

Lemma poll_wait l k s : sending false l k s → 1 < k → ∃ s', poll s = Some ([], s') ∧ sending false l (k - 1) s'.
Proof.
  intros (Hq & Hl & Hk & Hc) H1. unfold poll. rewrite (bind_eq _ _ _ _ _ (tick_wait s ltac:(lia))).
  rewrite (bind_eq _ _ _ (k_stat (kbd s)) (set_kcallback (kcallback s - 1) s)) by exact (read_status (set_kcallback (kcallback s - 1) s) (qt_kind _ _ Hq)).
  rewrite (qt_stat _ _ Hq). eexists. split; [reflexivity|]. split_and!; [destruct Hq; by split|done|cbn; lia|done].
Qed.
Lemma poll_byte v l s : sending false (v :: l) 1 s →
  ∃ s', poll s = Some ([v], s') ∧ sending false l (match l with [] => 0 | _ => 20 end) s'.
Proof.
  intros (Hq & Hl & Hk & Hc). destruct Hq as [Q1 Q2 Q3 Q4 Q5].
  destruct (ps2_read_spec _ v l Q5 Hl) as (q & Er & Hw & Hcq & Hn).
  destruct (callback_run (set_kcallback 0 s) v q Q2 Q3 (Hc ltac:(done)) Er) as (s1 & E1 & K1 & M1 & C1 & B1).
  unfold poll. rewrite (bind_eq _ _ _ tt s1) by (by rewrite tick_call).
  rewrite (bind_eq _ _ _ _ _ (read_status s1 ltac:(by rewrite K1))). rewrite B1. cbn [k_stat]. rewrite rx_full_set.
  destruct (data_read_run s1 ltac:(by rewrite M1)) as (s2 & E2 & K2 & M2 & B2 & C2).
  rewrite (bind_eq _ _ _ v s2) by (rewrite read_data by (by rewrite K1); rewrite E2, B1; reflexivity).
  exists s2. split; [reflexivity|]. rewrite B1 in B2, C2. cbn [k_command k_stat set_k_stat k_enable k_reset k_data k_queue] in B2, C2.
  rewrite Hn in B2, C2. split_and!.
  - split; rewrite ?K2, ?M2, ?K1, ?M1, ?B2; try done. apply rx_full_cleared.
  - by rewrite B2.
  - rewrite C2, C1. by destruct l.
  - intros Hne. rewrite B2. by destruct l.
Qed.
Lemma poll_idle s : sending false [] 0 s → poll s = Some ([], s).
Proof.
  intros (Hq & Hl & Hk & Hc). unfold poll.
  rewrite (bind_eq _ _ _ tt s) by (unfold kcallback_tick; step_run; by rewrite Hk).
  rewrite (bind_eq _ _ _ _ _ (read_status s (qt_kind _ _ Hq))), (qt_stat _ _ Hq). reflexivity.
Qed.

Lemma polls_run n : ∀ l k s, sending false l k s → l ≠ [] → 1 ≤ k →
  Z.of_nat n = k + 20 * (Z.of_nat (length l) - 1) → ∃ s', polls n s = Some (l, s') ∧ sending false [] 0 s'.
Proof.
  induction n as [|n IH]; intros l k s Hs Hl Hk Hn; [destruct l; [done|cbn [length] in Hn; lia]|].
  cbn [polls]. destruct (Z.eq_dec k 1) as [->|Hk1].
  - destruct l as [|v l]; [done|]. destruct (poll_byte v l s Hs) as (s1 & E1 & H1). rewrite (bind_eq _ _ _ _ _ E1).
    destruct l as [|w l].
    + cbn [length] in Hn. replace n with 0%nat by lia. exists s1. by split.
    + destruct (IH (w :: l) 20 s1 H1) as (s2 & E2 & H2); [done|lia|cbn [length] in *; lia|].
      rewrite (bind_eq _ _ _ _ _ E2). exists s2. by split.
  - destruct (poll_wait l k s Hs ltac:(lia)) as (s1 & E1 & H1). rewrite (bind_eq _ _ _ _ _ E1).
    destruct (IH l (k - 1) s1 H1 Hl ltac:(lia) ltac:(lia)) as (s2 & E2 & H2).
    rewrite (bind_eq _ _ _ _ _ E2). exists s2. by split.
Qed.

(** ** Keys *)

Inductive Key := Press (codes : list Z) | Release (codes : list Z).
Definition key_wf (k : Key) : Prop :=
  match k with
  | Press codes => length codes = 8%nat ∧ Forall byte codes
  | Release codes => length codes = 8%nat ∧ Forall byte codes ∧ codes !! 0%nat ≠ Some 0xe1
  end.
Definition type_key (k : Key) : IO unit :=
  match k with Press codes => keyboard_key_press (Some codes) | Release codes => keyboard_key_release (Some codes) end.

(** The scan codes of the second set. *)
Definition key_bytes (k : Key) : list Z :=
  match k with
  | Press ((c0 :: c1 :: _) as codes) => if c0 =? 0xe0 then [c0; c1] else if c0 =? 0xe1 then codes else [c0]
  | Release (c0 :: c1 :: _) => if c1 =? 0 then [0xf0; c0] else [c0; 0xf0; c1]
  | _ => []
  end.

Lemma kbd_queue_run full s b l : quiet full s → contents (k_queue (kbd s)) = l → (length l < 256)%nat → byte b →
  ∃ s', kbd_queue b s = Some (tt, s') ∧ quiet full s' ∧ contents (k_queue (kbd s')) = l ++ [b].
Proof.
  intros Hq Hl Hn Hb. destruct Hq as [Q1 Q2 Q3 Q4 Q5]. destruct (ps2_queue_spec _ b Q5) as (q & E & Hw & Hc).
  pose proof (contents_length _ Q5) as Hlen. rewrite Hl in Hlen.
  unfold kbd_queue. rewrite E. eexists. split; [reflexivity|]. split; [by split|].
  cbn [kbd set_kbd k_queue set_k_queue]. rewrite Hc, Hl, u8_id by done. destruct (Z.ltb_spec (q_count (k_queue (kbd s))) 256); [done|lia].
Qed.
Lemma kbd_queues_run full bs : ∀ s l, quiet full s → contents (k_queue (kbd s)) = l → (length l + length bs ≤ 256)%nat → Forall byte bs →
  ∃ s', mfor bs kbd_queue s = Some (tt, s') ∧ quiet full s' ∧ contents (k_queue (kbd s')) = l ++ bs.
Proof.
  induction bs as [|b bs IH]; intros s l Hq Hl Hn Hb; [exists s; by rewrite app_nil_r|].
  inversion Hb; subst. cbn [length] in Hn.
  destruct (kbd_queue_run full s b _ Hq eq_refl ltac:(lia)) as (s1 & E1 & Q1 & C1); [done|].
  destruct (IH s1 _ Q1 C1) as (s2 & E2 & Q2 & C2); [rewrite length_app; cbn; lia|done|].
  exists s2. cbn [mfor]. rewrite (bind_eq _ _ _ _ _ E1). by rewrite C2, <- app_assoc.
Qed.

Lemma after_key_run full s l : quiet full s → contents (k_queue (kbd s)) = l →
  ∃ s', (modify (set_kcallback 20);; kbd_mod (set_k_command 0xfe)) s = Some (tt, s') ∧ sending full l 20 s'.
Proof. intros [] Hl. eexists. split; [reflexivity|]. split_and!; [by split|done|done|done]. Qed.

Lemma press_run full codes s l : length codes = 8%nat → Forall byte codes → quiet full s → contents (k_queue (kbd s)) = l →
  (length l + length (key_bytes (Press codes)) ≤ 256)%nat →
  ∃ s', type_key (Press codes) s = Some (tt, s') ∧ sending full (l ++ key_bytes (Press codes)) 20 s'.
Proof.
  intros L F Hq Hl Hn.
  destruct codes as [|c0 [|c1 [|c2 [|c3 [|c4 [|c5 [|c6 [|c7 [|]]]]]]]]]; try done. inversion F as [|? ? B0 F']; subst.
  cbn [type_key keyboard_key_press key_bytes] in *. 
  assert (length (contents (k_queue (kbd s))) < 256)%nat as Hl by (destruct (c0 =? 0xe0), (c0 =? 0xe1); cbn in Hn; lia).
  destruct (kbd_queue_run full s c0 _ Hq eq_refl Hl B0) as (s1 & E1 & Q1 & C1).
  step_run. rewrite (bind_eq _ _ _ _ _ E1).
  destruct (c0 =? 0xe0); [|destruct (c0 =? 0xe1)].
  - destruct (kbd_queues_run full [c1] s1 _ Q1 C1) as (s2 & E2 & Q2 & C2);
      [rewrite length_app; cbn in *; lia|by inversion F'; constructor|].
    cbn [mfor] in E2. unfold scan_code. cbn [lookup list_lookup]. rewrite bind_assoc. step_run.
    apply bind_Some in E2 as ([] & s3 & E2 & E3). injection E3 as ->. rewrite (bind_eq _ _ _ _ _ E2).
    rewrite <- app_assoc in C2. by apply after_key_run.
  - destruct (kbd_queues_run full [c1; c2; c3; c4; c5; c6; c7] s1 _ Q1 C1 ltac:(rewrite length_app; cbn in *; lia) F') as (s2 & E2 & Q2 & C2).
    rewrite <- app_assoc in C2. cbn [when]. rewrite (bind_eq _ _ _ tt s2) by exact E2. by apply after_key_run.
  - cbn [when]. step_run. by apply after_key_run.
Qed.
Lemma release_run full codes s l : key_wf (Release codes) → quiet full s → contents (k_queue (kbd s)) = l →
  (length l + length (key_bytes (Release codes)) ≤ 256)%nat →
  ∃ s', type_key (Release codes) s = Some (tt, s') ∧ sending full (l ++ key_bytes (Release codes)) 20 s'.
Proof.
  intros (L & F & Hne) Hq Hl Hn.
  destruct codes as [|c0 [|c1 codes]]; try done. inversion F as [|? ? B0 F']; subst. inversion F' as [|? ? B1 _]; subst.
  cbn [type_key keyboard_key_release key_bytes] in *. unfold scan_code. cbn [lookup list_lookup]. step_run.
  replace (negb (c0 =? 0xe1)) with true by (destruct (Z.eqb_spec c0 0xe1); [by subst|done]). rewrite assert_true. do 2 step_run.
  destruct (c1 =? 0).
  - destruct (kbd_queues_run full [0xf0; c0] s _ Hq eq_refl Hn) as (s2 & E2 & Q2 & C2); [repeat (apply List.Forall_cons; [first [exact B0 | by split]|]); apply List.Forall_nil|].
    rewrite (bind_eq _ _ _ tt s2); [by apply after_key_run|]. cbn [mfor] in E2. rewrite bind_run in E2 |- *.
    destruct (kbd_queue 0xf0 s) as [[[] s1]|]; [|done]. apply bind_Some in E2 as ([] & s3 & E2 & E3). injection E3 as ->. exact E2.
  - destruct (kbd_queues_run full [c0; 0xf0; c1] s _ Hq eq_refl Hn) as (s2 & E2 & Q2 & C2);
      [repeat (apply List.Forall_cons; [first [exact B0 | exact B1 | by split]|]); apply List.Forall_nil|].
    rewrite (bind_eq _ _ _ tt s2); [by apply after_key_run|]. cbn [mfor] in E2. rewrite bind_run in E2 |- *.
    destruct (kbd_queue c0 s) as [[[] s1]|]; [|done]. rewrite bind_run in E2 |- *.
    destruct (kbd_queue 0xf0 s1) as [[[] s4]|]; [|done]. apply bind_Some in E2 as ([] & s3 & E2 & E3). injection E3 as ->. exact E2.
Qed.
Lemma type_keys_run full ks : ∀ s l k, Forall key_wf ks → sending full l k s → ks ≠ [] → (length l + length (ks ≫= key_bytes) ≤ 256)%nat →
  ∃ s', mfor ks type_key s = Some (tt, s') ∧ sending full (l ++ (ks ≫= key_bytes)) 20 s'.
Proof.
  induction ks as [|key ks IH]; intros s l k F Hs Hne Hn; [done|]. inversion F as [|? ? Hk F']; subst.
  assert (Eb : (key :: ks) ≫= key_bytes = key_bytes key ++ (ks ≫= key_bytes)) by done.
  rewrite Eb, length_app in Hn. destruct Hs as (Hq & Hl & _).
  assert (∃ s1, type_key key s = Some (tt, s1) ∧ sending full (l ++ key_bytes key) 20 s1) as (s1 & E1 & H1).
  { destruct key as [codes|codes]; [destruct Hk; apply press_run | apply release_run]; try done; lia. }
  cbn [mfor]. rewrite (bind_eq _ _ _ _ _ E1), Eb, app_assoc. destruct ks as [|key' ks].
  - exists s1. cbn. rewrite app_nil_r. by split.
  - apply (IH s1 _ 20 F' H1); [done|]. rewrite length_app. lia.
Qed.

Lemma keys_have_bytes ks : Forall key_wf ks → ks ≠ [] → ks ≫= key_bytes ≠ [].
Proof.
  intros F Hn. destruct F as [|key ks Hk _]; [done|].
  assert (key_bytes key ≠ []).
  { destruct key as [codes|codes]; [destruct Hk as [L _] | destruct Hk as [L _]];
      destruct codes as [|c0 [|c1 codes]]; try done; cbn [key_bytes]; repeat case_match; done. }
  change ((key :: ks) ≫= key_bytes) with (key_bytes key ++ (ks ≫= key_bytes)). by destruct (key_bytes key).
Qed.

(** ** Where a byte is lost *)

Lemma ticks_wait n : ∀ s, Z.of_nat n < kcallback s →
  mfor (replicate n ()) (λ _, kcallback_tick) s = Some (tt, set_kcallback (kcallback s - Z.of_nat n) s).
Proof.
  induction n as [|n IH]; intros s Hn.
  { cbn. rewrite Z.sub_0_r. by destruct s. }
  cbn [replicate mfor]. rewrite (bind_eq _ _ _ _ _ (tick_wait s ltac:(lia))).
  rewrite IH by (cbn; lia). cbn [kcallback set_kcallback].
  replace (kcallback s - 1 - Z.of_nat n) with (kcallback s - Z.of_nat (Datatypes.S n)) by lia. reflexivity.
Qed.
Lemma mfor_app {S A} (l1 l2 : list A) (f : A → M S unit) s : mfor (l1 ++ l2) f s = (mfor l1 f;; mfor l2 f) s.
Proof.
  revert s. induction l1 as [|x l1 IH]; intros s; cbn; [done|].
  rewrite bind_run, bind_assoc, bind_run. destruct (f x s) as [[[] s']|]; [apply IH | done].
Qed.

(** A key typed while a byte waits, and twenty ticks: the byte that waited is gone. *)
Lemma waiting_byte_overwritten codes c0 s : key_wf (Press codes) → key_bytes (Press codes) = [c0] →
  quiet true s → contents (k_queue (kbd s)) = [] →
  ∃ s', (type_key (Press codes);; mfor (replicate 20 ()) (λ _, kcallback_tick)) s = Some (tt, s') ∧
    k_data (kbd s') = c0 ∧ contents (k_queue (kbd s')) = [] ∧ kcallback s' = 0.
Proof.
  intros [L F] Hb Hq Hc. destruct (press_run true codes s [] L F Hq Hc) as (s1 & E1 & H1); [rewrite Hb; cbn; lia|].
  rewrite Hb in H1. destruct H1 as (Hq1 & Hc1 & Hk1 & Hcmd). destruct Hq1 as [Q1 Q2 Q3 Q4 Q5].
  rewrite (bind_eq _ _ _ _ _ E1). change (replicate 20 ()) with (replicate 19 () ++ [()]). rewrite mfor_app.
  rewrite (bind_eq _ _ _ _ _ (ticks_wait 19 s1 ltac:(lia))), Hk1. change (20 - Z.of_nat 19) with 1.
  destruct (ps2_read_spec _ c0 [] Q5 Hc1) as (q & Er & Hw & Hcq & Hn).
  destruct (callback_run (set_kcallback 0 (set_kcallback 1 s1)) c0 q Q2 Q3 (Hcmd ltac:(done)) Er) as (s2 & E2 & _ & _ & C2 & B2).
  exists s2. split; [|by rewrite B2]. cbn [mfor]. rewrite (bind_eq _ _ _ tt s2); [done|]. by rewrite tick_call.
Qed.

(** ** A command to the mouse that ends the process *)

Lemma mtick_wait s : 10 < mcallback s → mcallback_tick s = Some (tt, set_mcallback (mcallback s - 10) s).
Proof.
  intros Hk. unfold mcallback_tick. step_run.
  replace (nz (mcallback s)) with true by (unfold nz; destruct (Z.eqb_spec (mcallback s) 0); [lia|done]). cbn [when].
  step_run. destruct (Z.leb_spec (mcallback s - 10) 0); [lia|reflexivity].
Qed.
Lemma mtick_call s : mcallback s = 10 → mcallback_tick s = mouse_ps2_callback (set_mcallback 0 s).
Proof. intros Hk. unfold mcallback_tick. step_run. rewrite Hk. change (nz 10) with true. cbn [when]. step_run. change (10 - 10 <=? 0) with true. cbn [when]. step_run. destruct s; reflexivity. Qed.
Lemma mticks_wait n : ∀ s, 10 * Z.of_nat n < mcallback s →
  mfor (replicate n ()) (λ _, mcallback_tick) s = Some (tt, set_mcallback (mcallback s - 10 * Z.of_nat n) s).
Proof.
  induction n as [|n IH]; intros s Hn.
  { cbn. rewrite Z.sub_0_r. by destruct s. }
  cbn [replicate mfor]. rewrite (bind_eq _ _ _ _ _ (mtick_wait s ltac:(lia))).
  rewrite IH by (cbn; lia). cbn [mcallback set_mcallback].
  replace (mcallback s - 10 - 10 * Z.of_nat n) with (mcallback s - 10 * Z.of_nat (Datatypes.S n)) by lia. reflexivity.
Qed.
(** The queue is empty: what is read is the byte before its head. *)
Lemma ps2_read_again q : queue_wf q → q_count q = 0 → ps2_read_data q = Some (q_byte q (-1), q).
Proof.
  intros [Hl Hr _ _] Hc. unfold ps2_read_data. rewrite Hc. cbn [Z.eqb]. cbv zeta. unfold q_byte, ps2_at. rewrite Hl.
  assert ((if q_rptr q - 1 <? 0 then PS2_QUEUE_SIZE - 1 else q_rptr q - 1) = (q_rptr q + -1) mod 256) as ->.
  { unfold PS2_QUEUE_SIZE. destruct (Z.ltb_spec (q_rptr q - 1) 0).
    - assert (q_rptr q = 0) as -> by lia. reflexivity.
    - rewrite Z.mod_small by lia. lia. }
  pose proof (mod_range (q_rptr q + -1)) as Hm. rewrite (proj2 (Z.leb_le _ _)), (proj2 (Z.ltb_lt _ _)) by lia. cbn [andb].
  destruct (lookup_lt_is_Some_2 (q_data q) (Z.to_nat ((q_rptr q + -1) mod 256))) as [v Hv]; [lia|]. by rewrite Hv.
Qed.

(** Fourteen turns after RESEND nothing has happened but that the callback is due. *)
Lemma resend_waits s : is_arm7500 (iomd_kind s) = true → msincommand (ps2mouse s) = 0 →
  ∃ s1, (iomd_write 0x0a8 AUX_RESEND;; mfor (replicate 14 ()) (λ _, mcallback_tick)) s = Some (tt, s1) ∧ mcallback s1 = 10 ∧
    msqueue (ps2mouse s1) = msqueue (ps2mouse s) ∧ msreset (ps2mouse s1) = msreset (ps2mouse s) ∧ model s1 = model s.
Proof.
  intros Hk Hi.
  assert (Ew : ∃ s1, iomd_write 0x0a8 AUX_RESEND s = Some (tt, s1) ∧ mcallback s1 = 150 ∧
    msqueue (ps2mouse s1) = msqueue (ps2mouse s) ∧ msreset (ps2mouse s1) = msreset (ps2mouse s) ∧ model s1 = model s).
  { unfold iomd_write. step_run. cbv zeta.
    assert (Er : iomd_reg (iomd_kind s) 0xa8 = 0xa8) by (unfold iomd_reg; by destruct (bool_decide _)). rewrite Er, Hk.
    change (switch 0xa8 _ _) with (mouse_data_write (D:=D) (u8 AUX_RESEND)). change (u8 AUX_RESEND) with 0xfe.
    unfold mouse_data_write, mouse_irq_tx_lower. do 5 step_run. cbn [msincommand ps2mouse].
    destruct s as [c ? ? ? ? ? ? ? ? ki mo e i2 kc mc kb mu [] mh d]. cbn in *. subst.
    eexists. split_and!; reflexivity. }
  destruct Ew as (s1 & E1 & M1 & Q1 & R1 & Mo). rewrite (bind_eq _ _ _ _ _ E1), (mticks_wait 14 s1), M1 by lia. by eexists.
Qed.

(** The callback with nothing to send. *)
Lemma resend_fails s : ndebug (D:=D) = false → msreset (ps2mouse s) = 0 → q_count (msqueue (ps2mouse s)) = 0 → mcallback s = 10 →
  mcallback_tick s = None.
Proof.
  intros Hn Hr Hq Hm. rewrite mtick_call by done. unfold mouse_ps2_callback, assert. rewrite Hn. cbn [orb]. step_run.
  cbn [mcallback set_mcallback Z.eqb]. do 3 step_run.
  destruct s as [c ? ? ? ? ? ? ? ? ki mo e i2 kc mc kb mu [? ? ? ? ? ? ? [? ? ? ?] ? ? ? ?] mh d]. cbn in *. subst. destruct (nz _); reflexivity.
Qed.
Lemma mouse_send_run v s : model s ≠ Model_Phoebe →
  ∃ s1, mouse_send v s = Some (tt, s1) ∧ msdata (ps2mouse s1) = v ∧
    nz (msstat (ps2mouse s1) .& PS2_CONTROL_RX_FULL) = true ∧ mcallback s1 = mcallback s.
Proof.
  intros Hm. destruct s as [c ? ? ? ? ? ? ? ? ki mo e i2 kc mc kb mu ms mh d]. cbn in Hm.
  unfold mouse_send, mouse_irq_rx_raise, is_phoebe. do 2 step_run. cbn [model set_ps2mouse]. rewrite bool_decide_false by done.
  do 3 step_run. eexists. split; [reflexivity|]. split; [reflexivity|]. split; [|reflexivity]. apply rx_full_set.
Qed.
Lemma resend_repeats s : ndebug (D:=D) = true → model s ≠ Model_Phoebe → msreset (ps2mouse s) = 0 → queue_wf (msqueue (ps2mouse s)) →
  q_count (msqueue (ps2mouse s)) = 0 → mcallback s = 10 →
  ∃ s1, mcallback_tick s = Some (tt, s1) ∧ msdata (ps2mouse s1) = q_byte (msqueue (ps2mouse s)) (-1) ∧
    nz (msstat (ps2mouse s1) .& PS2_CONTROL_RX_FULL) = true ∧ mcallback s1 = 0.
Proof.
  intros Hn Hp Hr Hw Hq Hm. pose proof (ps2_read_again _ Hw Hq) as E. rewrite mtick_call by done.
  unfold mouse_ps2_callback, assert. rewrite Hn. cbn [orb]. do 3 step_run.
  assert (∀ s2, model s2 = model s → msqueue (ps2mouse s2) = msqueue (ps2mouse s) → msreset (ps2mouse s2) = 0 → mcallback s2 = 0 →
    ∃ s1, (v ← ms_dequeue; mouse_send v) s2 = Some (tt, s1) ∧ msdata (ps2mouse s1) = q_byte (msqueue (ps2mouse s)) (-1) ∧
      nz (msstat (ps2mouse s1) .& PS2_CONTROL_RX_FULL) = true ∧ mcallback s1 = 0) as Hsend.
  { intros s2 E1 E2 E3 E4. rewrite <- E2 in *.
    rewrite (bind_eq _ _ _ (q_byte (msqueue (ps2mouse s2)) (-1)) (set_ps2mouse (set_msqueue (msqueue (ps2mouse s2)) (ps2mouse s2)) s2))
      by (unfold ms_dequeue; by rewrite E).
    destruct (mouse_send_run (q_byte (msqueue (ps2mouse s2)) (-1)) (set_ps2mouse (set_msqueue (msqueue (ps2mouse s2)) (ps2mouse s2)) s2))
      as (s1 & Es & H1 & H2 & H3); [cbn; congruence|]. exists s1. split_and!; [done..|]. by rewrite H3. }
  step_run. destruct s as [c ? ? ? ? ? ? ? ? ki mo e i2 kc mc kb mu [en re st da ic mp js q ty ds ob oz] mh d]. cbn in Hr. subst re.
  destruct (nz _); cbn [when]; [do 3 step_run | do 2 step_run];
    (match goal with |- context [if ?x =? 1 then _ else _] => change x with 0 end; cbn [Z.eqb]; do 2 step_run; by apply Hsend).
Qed.
End typing.

(** * The chunks of a snapshot *)

(** ** Fields *)

Definition irq_wf (i : iomd_irq) : Prop := byte (irq_status i) ∧ byte (irq_mask i).
Definition saved_timer (t : iomd_timer) : Prop := w32 (in_latch t) ∧ int32 (counter t) ∧ w32 (out_latch t).
Definition u16_wf (v : Z) : Prop := 0 ≤ v < 0x10000.

Lemma load_irq i rest err : irq_wf i →
  iomd_irq_loadstate (file_of (iomd_irq_savestate i) rest err) = Some (i, mkFile rest err).
Proof.
  intros [H1 H2]. unfold iomd_irq_loadstate, iomd_irq_savestate. rewrite file_of_app.
  repeat (erewrite bind_eq; [|apply read_u8]). rewrite !u8_id by done. by destruct i.
Qed.
Lemma load_timer t rest err : saved_timer t →
  iomd_timer_loadstate (file_of (iomd_timer_savestate t) rest err) = Some (t, mkFile rest err).
Proof.
  intros (H1 & H2 & H3). unfold iomd_timer_loadstate, iomd_timer_savestate. rewrite !file_of_app.
  erewrite bind_eq; [|apply read_u32]. erewrite bind_eq; [|apply read_i32]. erewrite bind_eq; [|apply read_u32].
  rewrite !u32_id, H2 by done. by destruct t.
Qed.

Ltac read_fields :=
  repeat (rewrite ?bind_assoc; erewrite bind_eq;
    [|first [apply read_u8 | apply read_u16 | apply read_u32 | apply read_i32 | by apply load_irq | by apply load_timer]]).

(** What holds of all, of each. *)
Ltac split_list :=
  repeat match goal with H : List.Forall _ (_ :: _) |- _ => apply List.Forall_cons_iff in H as [? H] end.

(** ** The chip *)

Record chip_wf (c : Iomd) : Prop := {
  xw_irqs : Forall irq_wf [irqa c; irqb c; irqc c; irqd c; fiq c; irqdma c];
  xw_timers : saved_timer (t0 c) ∧ saved_timer (t1 c);
  xw_words : Forall w32 [vidstart c; vidend c; vidcur c; vidinit c];
  xw_bytes : Forall byte [romcr0 c; romcr1 c; io_ctrl c; vidcr c; sndstat c; refcr c; iotcr c; ectcr c; dmaext c;
                          susmode c; clkctrl c; vidimux c; dramcr c; selfref c];
  xw_mouse : u16_wf (mousex c) ∧ u16_wf (mousey c)
}.

Section save.
Context {D : Type}.

Lemma iomd_round_trip (s s0 : Sys D) rest err :
  chip_wf (chip s) → w32 (cinit s) → int32 (sndon s) → int32 (flyback s) →
  iomd_loadstate s0 (file_of (iomd_savestate s) rest err) =
  Some (set_flyback (flyback s) (set_sndon (sndon s) (set_cinit (cinit s) (set_chip (chip s) s0))), mkFile rest err).
Proof.
  intros [Hi [Ht0 Ht1] Hw Hb [Hx Hy]] Hc Hs Hf. split_list.
  unfold iomd_loadstate, load_chip, iomd_savestate. rewrite !file_of_app. read_fields.
  erewrite bind_eq; [|reflexivity]. read_fields. unfold mret, M_ret. do 2 f_equal. rewrite Hs, Hf, !u32_id by done. rewrite !u8_id by done.
  rewrite !Z.mod_small by done. by destruct s as [[]].
Qed.
End save.

(** ** The keyboard and the mouse *)

Definition saved_queue (q : PS2Queue) : Prop := queue_wf q ∧ Forall byte (q_data q).
Definition int16 (v : Z) : Prop := s16 (v mod 0x10000) = v.

Lemma low_byte v : 0 ≤ v < 256 → s32 v .& (PS2_QUEUE_SIZE - 1) = v.
Proof.
  intros Hv. unfold s32, PS2_QUEUE_SIZE. rewrite u32_id by (unfold w32; lia). destruct (Z.ltb_spec v 0x80000000); [|lia].
  change (256 - 1) with (Z.ones 8). rewrite Z.land_ones by lia. apply Z.mod_small. lia.
Qed.
Lemma load_queue q rest err : saved_queue q →
  ps2_queue_loadstate (file_of (ps2_queue_savestate q) rest err) = Some (q, mkFile rest err).
Proof.
  intros [[L Hr Hc Hw] F]. unfold ps2_queue_loadstate, ps2_queue_savestate.
  assert (Eb : u8 <$> take 256 (q_data q) = q_data q).
  { rewrite take_ge by lia. clear -F. induction F; cbn; [done | by rewrite u8_id, IHF]. }
  rewrite Eb, !file_of_app, (bind_eq _ _ _ _ _ (read_ahead 256 _ _ err L)).
  read_fields. pose proof (mod_range (q_rptr q + q_count q)). rewrite !low_byte by lia.
  assert (s32 (q_count q) = q_count q) as ->.
  { unfold s32. rewrite u32_id by (unfold w32; lia). destruct (Z.ltb_spec (q_count q) 0x80000000); lia. }
  by destruct q.
Qed.
Lemma load_i32s l : ∀ n rest err, length l = n → Forall int32 l →
  read_i32s n (file_of (mjoin (savestate_write_i32 <$> l)) rest err) = Some (l, mkFile rest err).
Proof.
  induction l as [|v l IH]; intros n rest err <- F; [done|]. inversion F as [|? ? Hv F']; subst.
  cbn [length read_i32s fmap list_fmap mjoin list_join]. rewrite file_of_app. erewrite bind_eq; [|apply read_i32].
  erewrite bind_eq; [|by apply IH]. by rewrite Hv.
Qed.

Record keyboard_wf {D} (s : Sys D) : Prop := {
  kw_kbd : int32 (k_enable (kbd s)) ∧ int32 (k_reset (kbd s)) ∧ Forall byte [k_stat (kbd s); k_data (kbd s); k_command (kbd s)] ∧
    saved_queue (k_queue (kbd s));
  kw_mouse : Forall int32 [msenable (ps2mouse s); msreset (ps2mouse s); mousepoll (ps2mouse s); msincommand (ps2mouse s);
      justsent (ps2mouse s)] ∧
    Forall byte [msstat (ps2mouse s); msdata (ps2mouse s); mouse_type (ps2mouse s); mouse_detect_state (ps2mouse s)] ∧
    saved_queue (msqueue (ps2mouse s));
  kw_points : length (mh_activex (mouse_hack s)) = 5%nat ∧ length (mh_activey (mouse_hack s)) = 5%nat ∧
    Forall int32 (mh_activex (mouse_hack s)) ∧ Forall int32 (mh_activey (mouse_hack s)) ∧ byte (mh_pointer (mouse_hack s));
  kw_cursor : Forall int32 [cursor_linked (mouse_hack s); cursor_unlinked_x (mouse_hack s); cursor_unlinked_y (mouse_hack s)];
  kw_box : Forall int16 [bb_left (mouse_hack s); bb_right (mouse_hack s); bb_bottom (mouse_hack s); bb_top (mouse_hack s)];
  kw_ticks : int32 (kcallback s) ∧ int32 (mcallback s)
}.

Ltac read_more := repeat (rewrite ?bind_assoc; erewrite bind_eq; [|first [apply read_u8 | apply read_u16 | apply read_i32 | by apply load_queue]]).

Lemma keyboard_round_trip {D} (s s0 : Sys D) rest err : keyboard_wf s →
  ∃ s', keyboard_loadstate s0 (file_of (keyboard_savestate s) rest err) = Some (s', mkFile rest err) ∧
    kbd s' = kbd s ∧ mouse_hack s' = mouse_hack s ∧ kcallback s' = kcallback s ∧ mcallback s' = mcallback s ∧
    ps2mouse s' = set_oldz (oldz (ps2mouse s0)) (set_oldmouseb (oldmouseb (ps2mouse s0)) (ps2mouse s)) ∧
    mouse s' = set_m_dy 0 (set_m_dx 0 (mouse s0)) ∧ chip s' = chip s0.
Proof.
  intros [(K1 & K2 & K3 & K4) (M1 & M2 & M3) (P1 & P2 & P3 & P4 & P5) C B [T1 T2]].
  split_list. unfold int32, int16 in *.
  unfold keyboard_loadstate, load_kbd, load_ps2mouse, load_mouse_hack, keyboard_savestate.
  rewrite !(take_ge _ 5) by lia. unfold file_of at 1. rewrite <- !app_assoc. read_more.
  erewrite bind_eq; [|reflexivity]. read_more. erewrite bind_eq; [|reflexivity]. read_more.
  rewrite ?bind_assoc. erewrite bind_eq; [|by apply load_i32s]. rewrite ?bind_assoc. erewrite bind_eq; [|by apply load_i32s]. read_more.
  erewrite bind_eq; [|reflexivity]. read_more. eexists. split; [reflexivity|]. cbn [kbd mouse_hack kcallback mcallback ps2mouse mouse chip
    set_mouse set_mcallback set_kcallback set_mouse_hack set_ps2mouse set_kbd].
  split_and!; try congruence; try reflexivity; rewrite ?u8_id by done; rewrite ?Z.mod_mod by done.
  - rewrite K1, K2. by destruct (kbd s).
  - rewrite H, H0, H1, H2, H3, H4, H5. by destruct (mouse_hack s).
  - rewrite H10, H11, H12, H13, H14. by destruct (ps2mouse s).
Qed.
