(* ===== verification/IoMachine.v ===== *)
(** A concrete machine around the I/O controller, in which the theorems about it are
    applied: a host with a fixed date that keeps the memory of the clock chip, and
    devices that do nothing. *)

From S2P Require Export IomdBus KeyboardSpec MemMachine.

(** The last memory written, and the clock in nanoseconds. *)
Record demo := mkDemo { demo_file : list Z; demo_clock : Z }.

#[export] Instance demo_host : CmosHost demo := {
  host_gmtime := mret (mkTm 30 59 23 31 11 125 3 0);
  host_localtime := mret (mkTm 30 59 0 1 0 126 4 0);
  host_tm_shared := true;
  host_ide_drives := mret 2;
  host_read_cmos _ := mret None;
  host_write_cmos ram := λ d, Some (tt, mkDemo ram (demo_clock d))
}.
#[export] Instance demo_answers : HostAnswers demo_host.
Proof. split; intros; repeat eexists. Defined.

Definition demo_devices (release : bool) : IomdDev demo := {|
  IomdState.ndebug := release;
  IomdState.rpcemu_nsec_timer_ticks := gets demo_clock;
  IomdState.resetbuffer := mret tt;
  IomdState.sound_irq_update := irqdma_mod (irq_raise IOMD_IRQDMA_SOUND_0);; updateirqs;
  IomdState.runpoduletimers _ := mret tt;
  IomdState.usb_ohci_frame := mret tt;
  IomdState.i8042_keyboard_irq_raise := mret tt;
  IomdState.i8042_keyboard_irq_lower := mret tt;
  IomdState.i8042_mouse_irq_raise := mret tt;
  IomdState.i8042_mouse_irq_lower := mret tt;
  IomdState.mousetwobutton _ := false;
  IomdState.mousehack _ := false;
  IomdState.vidc_get_doublesize _ := (false, false);
  IomdState.vidc_get_xsize _ := 640;
  IomdState.vidc_get_ysize _ := 480;
  IomdState.rpcemu_move_host_mouse _ _ := mret tt;
  IomdState.guest_read8 _ := mret 0;
  IomdState.guest_write8 _ _ := mret tt;
  IomdState.arm_set_reg _ _ := mret tt
|}.
#[export] Instance demo_dev : IomdDev demo := demo_devices false.
#[export] Instance demo_settles : DevSettles demo.
Proof. split; intros; cbn; keep. Defined.

Definition blank_chip : Iomd :=
  let i := mkIrq 0 0 in let t := mkTimer 0 0 0 in
  mkIomd i i i i i i 0 0 0 0 0 0 t t 0 0 0 0 0 0 0 0 0 0 0 0 0 0.
Definition blank_queue : PS2Queue := mkQueue (replicate 256 0) 0 0 0.
Definition blank_cmos : Cmos := mkCmos (replicate 256 0) 1 1 1 0 0 0 idle.

(** After a reset, with the PCF8583 fitted. *)
Definition fresh (kind : IOMDType) (m : Model) : Sys demo :=
  mkSys (reset_chip kind blank_chip) 0 0 0 0 0 100000 0 ∅ kind m 0 blank_cmos 0 0 zero_kbd (mkMouse 0 0 0 0 0)
    (mkPs2Mouse 0 0 0 0 0 0 0 blank_queue 0 0 0 0) (mkHack 0 (replicate 5 0) (replicate 5 0) 1 0 0 0 1278 0 958)
    (mkDemo [] 0).
Definition pc : Sys demo := fresh IOMDType_IOMD Model_RPCARM710.
Definition a7000 : Sys demo := fresh IOMDType_ARM7500 Model_A7000.

Lemma zeros_wf n : Forall byte (replicate n 0).
Proof. by apply Forall_replicate. Qed.
Lemma blank_cmos_wf : cmos_wf blank_cmos.
Proof.
  do 2 split; try done.
  - split; [done | apply zeros_wf].
  - by left.
  - apply idle_wf.
Qed.
Lemma blank_queue_wf : saved_queue blank_queue.
Proof. split; [by split | apply zeros_wf]. Qed.
Lemma pc_keyboard_wf : keyboard_wf pc.
Proof.
  pose proof blank_queue_wf as Hq. split; cbn; repeat (split || apply List.Forall_cons || apply List.Forall_nil); done || apply Hq.
Qed.
Lemma pc_chip_wf : chip_wf (chip pc).
Proof. split; cbn; repeat (split || apply List.Forall_cons || apply List.Forall_nil); done. Qed.

(** The same, behind a memory system with no other devices. *)
Definition no_other : IoDev (Sys demo) := silent (Sys demo).
Definition pc_memory : Mem (Sys demo) :=
  mkMem test_board (test_cp15 false) (mkTLB (memset 0xffffffff) (memset 0) (memset 0xffffffff) 0)
    empty_map empty_map (clearmemcache (mkPageCache 0 0 0 0 0 0 0)) 1 ∅ ∅ pc.
