(* ===== verification/IoTheorems.v ===== *)
(** What the clock chip, the I/O controller, the keyboard and the mouse promise. *)

From S2P Require Export IoMachine.
From S2P Require Import KeyboardSpec CmosSpec Iomd.

Section theorems.
Context {D : Type} {DV : IomdDev D} {X : CmosHost D}.
Local Abbreviation IO := (M (Sys D)).

(** The driver of a guest: it moves the pins with writes to the I/O control register
    and looks at them with reads; [base] is in the other bits of what it writes. *)
Definition guest_i2c_write (base a : Z) (vs : list Z) : IO bool := Master.i2c_write (iocr_pin base) iocr_level a vs.
Definition guest_i2c_read (base a : Z) (vs : list Z) (n : nat) : IO (option (list Z)) :=
  Master.i2c_read (iocr_pin base) iocr_level a vs n.
Definition guest_send_byte (base v : Z) : IO Z := Master.send_byte (iocr_pin base) iocr_level v.

(** [mI] on the machine is [mC] on the clock chip and the host; beside them only the
    control register may change. *)
Definition is_on_cmos {A} (mI : IO A) (mC : M (Cmos * D) A) (s : Sys D) : Prop :=
  match mC (i2c s, sysdev s) with
  | Some (a, (c, d)) => ∃ x, mI s = Some (a, moved c d x s)
  | None => mI s = None
  end.

Lemma lifted {A} (mI : IO A) (mC spec : M (Cmos * D) A) s :
  lifts mI mC → mC (i2c s, sysdev s) = spec (i2c s, sysdev s) → is_on_cmos mI spec s.
Proof. intros L E. unfold is_on_cmos. rewrite <- E. apply L. Qed.
Lemma at_bus {A} (m : M (Cmos * D) A) c d r : m (on_bus (mkBus (cm_clock c) (cm_data c) (cm_devices c) (cm_serdes c)) c, d) = r → m (c, d) = r.
Proof. pose proof (on_bus_same c) as E. unfold bus_of in E. by rewrite E. Qed.

(** C31: from a free bus, the transactions of a guest's driver, bit by bit through the
    I/O control register, are the calls of the functions of the chip they address,
    with the bytes they carry, and leave the bus free; and an address nobody has is
    not acknowledged and changes nothing. *)
Theorem transactions_are_chip_calls base s sl vs n : free (cm_serdes (i2c s)) → fitted (cm_devices (i2c s)) sl → n ≠ O →
  let bus := mkBus 1 1 (cm_devices (i2c s)) idle in
  is_on_cmos (guest_i2c_write base (slave_address sl) vs)
    (slave_start sl;; slave_writes sl vs;; slave_stop sl;; put_bus bus;; mret true) s ∧
  is_on_cmos (guest_i2c_read base (slave_address sl) vs n)
    (slave_start sl;; slave_writes sl vs;; slave_start sl;; l ← slave_reads sl n; slave_stop sl;;
     put_bus bus;; mret (Some (u8 <$> l))) s ∧
  (∀ a, (∀ sl, Z.shiftr (u8 (2 * a)) 1 = slave_address sl → nz (cm_devices (i2c s) .& chip_bit sl) = false) →
    is_on_cmos (guest_i2c_write base a vs) (put_bus bus;; mret false) s).
Proof.
  intros Hf Hd Hn bus. split_and!.
  - pose proof (does_i2c_write _ (cm_clock (i2c s)) (cm_data (i2c s)) _ sl vs Hf Hd (i2c s) (sysdev s)) as E.
    apply at_bus in E. exact (lifted _ _ _ s (lifts_i2c_write base (slave_address sl) vs) E).
  - pose proof (does_i2c_read _ (cm_clock (i2c s)) (cm_data (i2c s)) _ sl vs n Hf Hd Hn (i2c s) (sysdev s)) as E.
    apply at_bus in E. exact (lifted _ _ _ s (lifts_i2c_read base (slave_address sl) vs n) E).
  - intros a Ha.
    pose proof (i2c_write_absent _ (cm_clock (i2c s)) (cm_data (i2c s)) _ a vs (i2c s) (sysdev s) Hf Ha) as E.
    apply at_bus in E. exact (lifted _ _ (put_bus bus;; mret false) s (lifts_i2c_write base a vs) E).
Qed.

Lemma register_read_back {XA : HostAnswers X} base a vs (s : Sys D) :
  free (cm_serdes (i2c s)) → fitted (cm_devices (i2c s)) SLAVE_PCF8583 → length (cm_ram (i2c s)) = 256%nat →
  0x10 ≤ a → a + Z.of_nat (length vs) ≤ 256 → vs ≠ [] → Forall byte vs →
  ∃ s1 s2, guest_i2c_write base 0x50 (a :: vs) s = Some (true, s1) ∧
    guest_i2c_read base 0x50 [a] (length vs) s1 = Some (Some vs, s2) ∧
    cm_ram (i2c s2) = list_inserts (Z.to_nat a) vs (cm_ram (i2c s)) ∧ free (cm_serdes (i2c s2)).
Proof.
  intros Hf Hd L Ha Hl Hn Hv.
  destruct (bus_write_then_read a vs (cm_clock (i2c s)) (cm_data (i2c s)) _ (i2c s) (sysdev s) _ Hf Hd L Ha Hl Hn Hv)
    as (h1 & c1 & c2 & E1 & R1 & E2 & R2 & _ & B2).
  apply at_bus in E1. pose proof (lifts_i2c_write base 0x50 (a :: vs) s) as L1. rewrite E1 in L1. destruct L1 as [x1 L1].
  pose proof (lifts_i2c_read base 0x50 [a] (length vs) (moved c1 h1 x1 s)) as L2.
  rewrite i2c_moved, sysdev_moved, E2 in L2. destruct L2 as [x2 L2].
  eexists _, _. split; [exact L1|]. split; [exact L2|]. rewrite !i2c_moved, R2. split; [exact R1|].
  injection B2 as _ _ _ ->. split_and!; [done|done|cbn; lia|cbn; lia].
Qed.

(** C32: bytes that a guest writes to the battery-backed memory are read back by a
    second transaction: with word stores and loads at the physical address of the I/O
    control register, pin by pin, through the address decoding of the memory system,
    the I/O controller, the bus and the chip; the rest of that memory is as it was, the
    bus is free again, and the memory of the machine is untouched. *)
Theorem memory_is_read_back {XA : HostAnswers X} (other : IoDev (Sys D)) base a vs e (m : Mem (Sys D)) :
  board_ok (board m) → let c := i2c (dev m) in
  free (cm_serdes c) → fitted (cm_devices c) SLAVE_PCF8583 → length (cm_ram c) = 256%nat →
  0x10 ≤ a → a + Z.of_nat (length vs) ≤ 256 → vs ≠ [] → Forall byte vs →
  ∃ t1 e2 m2, mem_i2c_write other base 0x50 (a :: vs) (e, m) = Some (true, t1) ∧
    mem_i2c_read other base 0x50 [a] (length vs) t1 = Some (Some vs, (e2, m2)) ∧
    cm_ram (i2c (dev m2)) = list_inserts (Z.to_nat a) vs (cm_ram c) ∧ free (cm_serdes (i2c (dev m2))) ∧
    host m2 = host m.
Proof.
  intros Hb c Hf Hd L Ha Hl Hn Hv.
  destruct (register_read_back base a vs (system_of (e, m)) Hf Hd L Ha Hl Hn Hv) as (s1 & s2 & E1 & E2 & R & F).
  set (t1 := put_system s1 (e, m)). exists t1, (fst (put_system s2 t1)), (snd (put_system s2 t1)). split_and!.
  - rewrite (reaches_i2c_write other base 0x50 (a :: vs)) by exact Hb. unfold on_iomd, zoom. unfold guest_i2c_write in E1. by rewrite E1.
  - rewrite (reaches_i2c_read other base 0x50 [a] (length vs)) by exact Hb. unfold on_iomd, zoom.
    assert (system_of t1 = s1) as -> by by destruct s1. unfold guest_i2c_read in E2. by rewrite E2.
  - exact R.
  - exact F.
  - done.
Qed.

(** C33: after a reset of the bus, whatever words a guest writes to the I/O control
    register, each write returns, and the state machine of the bus stays in its states,
    its counters and indices in their ranges. *)
Theorem bus_stays_well_formed {XA : HostAnswers X} devices vs s : chips_wf (i2c s) →
  ∃ s', (on_cmos (reseti2c devices);; mfor vs (λ v, iomd_write 0 v)) s = Some (tt, s') ∧ cmos_wf (i2c s').
Proof.
  intros Hc.
  assert (∃ s1, on_cmos (reseti2c devices) s = Some (tt, s1) ∧ cmos_wf (i2c s1)) as (s1 & E1 & H1).
  { eexists. split; [reflexivity|]. cbn. destruct Hc. split; [by split|]. by apply idle_wf. }
  rewrite (bind_eq _ _ _ _ _ E1). clear E1. revert s1 H1. induction vs as [|v vs IH]; intros s1 H1; [by exists s1|].
  cbn [mfor].
  destruct (cmosi2cchange_safe (v .>> 1 .& 1) (v .& 1) (i2c s1) (sysdev s1) H1) as (c & h & E & Hw).
  pose proof (lifts_iocr v s1) as L. rewrite E in L. destruct L as [x L]. rewrite (bind_eq _ _ _ _ _ L). by apply IH.
Qed.

(** C34: a reset of the memory leaves a checksum that RISC OS accepts, the registers of
    the clock cleared and the bus as it was. *)
Theorem cmos_reset_is_valid {XA : HostAnswers X} model c (h : D) : cmos_wf c →
  ∃ c' h', cmos_reset model (c, h) = Some (tt, (c', h')) ∧ checksum_ok (cm_ram c') ∧
    (∀ i, 0 ≤ i < 16 → ram_byte (cm_ram c') i = 0) ∧ cm_serdes c' = cm_serdes c ∧ cmos_wf c'.
Proof.
  intros Hc. destruct (cmos_reset_run model c h Hc) as (c' & h' & E & Hw & Hs & Hk & Hz).
  exists c', h'. by split_and!.
Qed.

(** C35: the timers do not depend on how often the host looks at them: with both of them
    running, two updates are the second alone, and an update is the arithmetic of
    [after_ticks]: the counters modulo their latches, and the interrupts of those that ran
    out. *)
Theorem timers_do_not_depend_on_slices n0 n1 n2 (s : Sys D) : in_step n0 s → running (t0 (chip s)) → running (t1 (chip s)) →
  tick_of n0 ≤ tick_of n1 ≤ tick_of n2 → tick_of n2 < tick_of n0 + 0x80000000 →
  (updatetimers n1;; updatetimers n2) s = updatetimers n2 s ∧
  updatetimers n2 s = Some (tt, set_old_timer_ticks (u32 (tick_of n2)) (after_ticks (tick_of n2 - tick_of n0) s)).
Proof.
  intros Hs R0 R1 Ho Hr. split; [by apply (updatetimers_twice n0)|].
  apply updatetimers_run; [done|split; [apply R0|apply R1]|lia].
Qed.

(** C36: over any sequence of register accesses, ticks, keys and movements of the mouse,
    the interrupt lines of the processor are those the status and mask registers ask
    for; but a write to the mask of IRQD or of the DMA interrupts changes the mask and
    leaves the lines as they were. The same of a store of the processor at a physical
    address of the controller, and the events the core looks at. *)
Theorem lines_follow_the_chip {DS : DevSettles D} :
  (∀ ops s s', Forall sets_the_lines ops → settled s → mfor ops run_op s = Some (tt, s') → settled s') ∧
  (∀ v s, iomd_write IOMD_IRQMSKD v s = Some (tt, set_chip (set_irqd (irq_set_mask (u8 v) (irqd (chip s))) (chip s)) s) ∧
    iomd_write IOMD_DMAMSK v s = Some (tt, set_chip (set_irqdma (irq_set_mask (u8 v) (irqdma (chip s))) (chip s)) s)) ∧
  (∀ other a v e (m : Mem (Sys D)) e' m', board_ok (board m) → IOMD_BASE ≤ a < IOMD_BASE + 0x10000 →
    sets_the_lines (GuestWrite a v) → lines (chip (dev m)) e = e →
    mem_phys_write32 (IoDev0:=with_iomd other) a v (e, m) = Some (tt, (e', m')) → lines (chip (dev m')) e' = e').
Proof.
  split; [|split; [apply mask_without_lines | intros other a v e m e1 m1; exact (store_keeps_lines other a v e m e1 m1)]].
  intros ops s s' Ho Hs E. exact (hoare_run _ _ _ _ _ _ (keeps_ops ops Ho) Hs E).
Qed.

(** C37: what is typed is what the guest reads: the scan codes of the keys, all of
    them and in order, reach a guest that looks at the keyboard at every tick, within
    twenty ticks a byte. *)
Theorem typed_keys_are_read_in_order ks (s : Sys D) : Forall key_wf ks → ks ≠ [] → quiet false s →
  contents (k_queue (kbd s)) = [] → (length (ks ≫= key_bytes) ≤ 256)%nat →
  ∃ s1 s2, mfor ks type_key s = Some (tt, s1) ∧
    polls (20 * length (ks ≫= key_bytes)) s1 = Some (ks ≫= key_bytes, s2) ∧ contents (k_queue (kbd s2)) = [].
Proof.
  intros Hk Hn Hq Hc Hl.
  destruct (type_keys_run false ks s [] (kcallback s) Hk) as (s1 & E1 & H1); [by split_and!|done|done|].
  assert (Hb : ks ≫= key_bytes ≠ []) by by apply keys_have_bytes.
  destruct (polls_run (20 * length (ks ≫= key_bytes)) _ 20 s1 H1 Hb) as (s2 & E2 & _ & H2 & _); [lia| |].
  { cbn [app]. destruct (ks ≫= key_bytes); [done|cbn [length]; lia]. }
  by exists s1, s2.
Qed.

(** C38: the command RESEND sets the callback of the mouse going and gives it nothing
    to send: on an ARM7500, with the queue empty, fourteen turns of the loop later it
    is due and the queue is as it was. In a build with assertions the next turn ends
    the process; with NDEBUG the guest is sent the byte before the head of the queue,
    whatever it is, in place of the mouse's last. *)
Theorem mouse_resend_has_nothing_to_send (s : Sys D) : is_arm7500 (iomd_kind s) = true → model s ≠ Model_Phoebe →
  msincommand (ps2mouse s) = 0 → msreset (ps2mouse s) = 0 → queue_wf (msqueue (ps2mouse s)) → q_count (msqueue (ps2mouse s)) = 0 →
  ∃ s1, (iomd_write 0x0a8 AUX_RESEND;; mfor (replicate 14 ()) (λ _, mcallback_tick)) s = Some (tt, s1) ∧
    mcallback s1 = 10 ∧ msqueue (ps2mouse s1) = msqueue (ps2mouse s) ∧
    if ndebug (D:=D) then
      ∃ s2, mcallback_tick s1 = Some (tt, s2) ∧ msdata (ps2mouse s2) = q_byte (msqueue (ps2mouse s)) (-1) ∧
        nz (msstat (ps2mouse s2) .& PS2_CONTROL_RX_FULL) = true ∧ mcallback s2 = 0
    else mcallback_tick s1 = None.
Proof.
  intros Hk Hp Hi Hr Hw Hq. destruct (resend_waits s Hk Hi) as (s1 & E & Hm & Eq & Er & Ep). exists s1. split_and!; try done.
  rewrite <- Eq in *. rewrite <- Er in Hr. rewrite <- Ep in Hp. destruct (ndebug (D:=D)) eqn:Hn; [by apply resend_repeats | by apply resend_fails].
Qed.

(** C39: the chunks of a snapshot that hold the clock chip, the I/O controller and the
    keyboard and mouse are read back as they were written, whatever follows them in the
    file and whatever the machine that reads them held; kept from that machine are the
    chips that are fitted and what the mouse of the host last did. *)
Theorem io_snapshot_round_trip (s s0 : Sys D) rest err :
  cmos_wf (i2c s) → cmos_ints (i2c s) → chip_wf (chip s) → w32 (cinit s) → int32 (sndon s) → int32 (flyback s) → keyboard_wf s →
  cmos_loadstate (i2c s0) (file_of (cmos_savestate (i2c s)) rest err) =
    Some (cm_set_devices (cm_devices (i2c s0)) (i2c s), mkFile rest err) ∧
  iomd_loadstate s0 (file_of (iomd_savestate s) rest err) =
    Some (set_flyback (flyback s) (set_sndon (sndon s) (set_cinit (cinit s) (set_chip (chip s) s0))), mkFile rest err) ∧
  ∃ s', keyboard_loadstate s0 (file_of (keyboard_savestate s) rest err) = Some (s', mkFile rest err) ∧
    kbd s' = kbd s ∧ mouse_hack s' = mouse_hack s ∧ kcallback s' = kcallback s ∧ mcallback s' = mcallback s ∧
    ps2mouse s' = set_oldz (oldz (ps2mouse s0)) (set_oldmouseb (oldmouseb (ps2mouse s0)) (ps2mouse s)) ∧
    mouse s' = set_m_dy 0 (set_m_dx 0 (mouse s0)) ∧ chip s' = chip s0.
Proof.
  intros [[Hr Hg _ Hp] (Hi & Ho & _)] Hc Hx H1 H2 H3 Hk. split_and!.
  - apply cmos_round_trip; try done; unfold byte in *; lia.
  - by apply iomd_round_trip.
  - by apply keyboard_round_trip.
Qed.

(** C40: a snapshot may say that the next byte goes to a register the clock chip does
    not have: it is read without an error, and the byte the guest writes next is stored
    outside the 256 bytes of the memory. *)
Theorem register_of_a_snapshot_is_not_checked ram reg c0 rest err base v (s : Sys D) :
  ram_wf ram → 0x100 ≤ reg < 0x10000 →
  let c := cm_set_devices (cm_devices c0) (outside ram reg) in
  cmos_loadstate c0 (file_of (cmos_savestate (outside ram reg)) rest err) = Some (c, mkFile rest err) ∧
  guest_send_byte base v (set_i2c c s) = None.
Proof.
  intros Hr Hg c. split; [by apply outside_loads|].
  pose proof (lifts_send_byte base v (set_i2c c s)) as L.
  change (i2c (set_i2c c s)) with c in L. subst c.
  rewrite (outside_write_fails ram reg (cm_devices c0) v) in L; [exact L|apply Hr|lia].
Qed.
End theorems.

Lemma transactions_are_chip_calls_witness :
  is_on_cmos (guest_i2c_write 4 (slave_address SLAVE_PCF8583) [0x20; 7])
    (slave_start SLAVE_PCF8583;; slave_writes SLAVE_PCF8583 [0x20; 7];; slave_stop SLAVE_PCF8583;;
     put_bus (mkBus 1 1 (cm_devices (i2c pc)) idle);; mret true) pc.
Proof.
  assert (H1 : free (cm_serdes (i2c pc))) by done.
  assert (H2 : fitted (cm_devices (i2c pc)) SLAVE_PCF8583) by done.
  assert (H3 : 2%nat ≠ O) by done.
  exact (proj1 (transactions_are_chip_calls 4 pc SLAVE_PCF8583 [0x20; 7] 2 H1 H2 H3)).
Defined.

Lemma memory_is_read_back_witness :
  ∃ t1 e2 m2, mem_i2c_write no_other 4 0x50 [0x20; 7; 9] (0, pc_memory) = Some (true, t1) ∧
    mem_i2c_read no_other 4 0x50 [0x20] 2 t1 = Some (Some [7; 9], (e2, m2)) ∧
    cm_ram (i2c (dev m2)) = list_inserts 0x20 [7; 9] (replicate 256 0) ∧ free (cm_serdes (i2c (dev m2))) ∧ host m2 = ∅.
Proof.
  apply (memory_is_read_back no_other 4 0x20 [7; 9] 0 pc_memory); try done; [apply test_board_ok|].
  repeat (apply List.Forall_cons; [done|]). apply List.Forall_nil.
Defined.

Lemma bus_stays_well_formed_witness :
  ∃ s', (on_cmos (reseti2c 3);; mfor [3; 2; 0; 2; 1; 0x5555; 3] (λ v, iomd_write 0 v)) pc = Some (tt, s') ∧ cmos_wf (i2c s').
Proof. apply (bus_stays_well_formed 3 [3; 2; 0; 2; 1; 0x5555; 3] pc). apply blank_cmos_wf. Defined.

Lemma cmos_reset_is_valid_witness :
  ∃ c' h', cmos_reset Model_A7000 (blank_cmos, mkDemo [] 0) = Some (tt, (c', h')) ∧ checksum_ok (cm_ram c') ∧
    (∀ i, 0 ≤ i < 16 → ram_byte (cm_ram c') i = 0) ∧ cm_serdes c' = cm_serdes blank_cmos ∧ cmos_wf c'.
Proof. apply (cmos_reset_is_valid Model_A7000 blank_cmos (mkDemo [] 0)). apply blank_cmos_wf. Defined.

Lemma timers_do_not_depend_on_slices_witness :
  (updatetimers 1000000;; updatetimers 100000000) pc = updatetimers 100000000 pc ∧
  updatetimers 100000000 pc = Some (tt, set_old_timer_ticks 200000 (after_ticks 200000 pc)).
Proof.
  apply (timers_do_not_depend_on_slices 0 1000000 100000000 pc); [done|by split; [split|]..|by vm_compute|by vm_compute].
Defined.

(** A key, its release, and the ticks in which the first byte arrives and is read. *)
Definition some_ops : list IoOp :=
  [GuestWrite 0x028 0x80; KeyPress (Some [0x1c; 0; 0; 0; 0; 0; 0; 0]); KeyRelease (Some [0x1c; 0; 0; 0; 0; 0; 0; 0])] ++
  replicate 20 KeyboardTick ++ [TimerTick 40000000; Flyback 1; GuestRead 0x004; GuestWrite 0x014 0x28].
Lemma lines_follow_the_chip_witness :
  match mfor some_ops run_op pc with Some (_, s') => settled s' | None => False end.
Proof.
  destruct (mfor some_ops run_op pc) as [[[] s']|] eqn:E; [|by vm_compute in E].
  refine (proj1 (lines_follow_the_chip (D:=demo)) some_ops pc s' _ eq_refl E).
  unfold some_ops. cbn [app replicate]. repeat (apply List.Forall_cons; [first [exact I | split; by vm_compute]|]). apply List.Forall_nil.
Defined.

Definition some_keys : list Key :=
  [Press [0xe0; 0x75; 0; 0; 0; 0; 0; 0]; Press [0x1c; 0; 0; 0; 0; 0; 0; 0]; Release [0x1c; 0; 0; 0; 0; 0; 0; 0]].
Lemma typed_keys_are_read_in_order_witness :
  ∃ s1 s2, mfor some_keys type_key pc = Some (tt, s1) ∧
    polls 100 s1 = Some ([0xe0; 0x75; 0x1c; 0xf0; 0x1c], s2) ∧ contents (k_queue (kbd s2)) = [].
Proof.
  apply (typed_keys_are_read_in_order some_keys pc).
  - repeat (apply List.Forall_cons || apply List.Forall_nil || split); done.
  - done.
  - by split.
  - done.
  - cbn. lia.
Defined.

(** A mouse that has sent 7 and 9. *)
Definition used_queue : PS2Queue := mkQueue (7 :: 9 :: replicate 254 0) 2 2 0.
Definition a7000_used : Sys demo := set_ps2mouse (set_msqueue used_queue (ps2mouse a7000)) a7000.
Lemma mouse_resend_has_nothing_to_send_witness :
  (∃ s1, @mcallback_tick demo (demo_devices false) s1 = None ∧ msqueue (ps2mouse s1) = used_queue ∧ mcallback s1 = 10) ∧
  (∃ s1 s2, @mcallback_tick demo (demo_devices true) s1 = Some (tt, s2) ∧ msqueue (ps2mouse s1) = used_queue ∧
    msdata (ps2mouse s2) = 9).
Proof.
  assert (queue_wf (msqueue (ps2mouse a7000_used))) as Hw by (split; cbn; done || lia).
  split.
  - destruct (mouse_resend_has_nothing_to_send (DV := demo_devices false) a7000_used eq_refl ltac:(done) eq_refl eq_refl Hw eq_refl)
      as (s1 & _ & H1 & H2 & H3). exists s1. by split_and!.
  - destruct (mouse_resend_has_nothing_to_send (DV := demo_devices true) a7000_used eq_refl ltac:(done) eq_refl eq_refl Hw eq_refl)
      as (s1 & _ & H1 & H2 & s2 & H3 & H4 & _). exists s1, s2. by split_and!.
Defined.

Lemma io_snapshot_round_trip_witness :
  iomd_loadstate a7000 (file_of (iomd_savestate pc) [] false) =
    Some (set_flyback (flyback pc) (set_sndon (sndon pc) (set_cinit (cinit pc) (set_chip (chip pc) a7000))), mkFile [] false).
Proof.
  apply (io_snapshot_round_trip pc a7000 [] false); try done.
  - apply blank_cmos_wf.
  - apply pc_chip_wf.
  - apply pc_keyboard_wf.
Defined.

Lemma register_of_a_snapshot_is_not_checked_witness :
  let c := cm_set_devices 1 (outside (replicate 256 0) 0x100) in
  cmos_loadstate blank_cmos (file_of (cmos_savestate (outside (replicate 256 0) 0x100)) [] false) = Some (c, mkFile [] false) ∧
  guest_send_byte 4 7 (set_i2c c pc) = None.
Proof.
  apply (register_of_a_snapshot_is_not_checked (replicate 256 0) 0x100 blank_cmos [] false 4 7 pc); [|done].
  split; [done | apply zeros_wf].
Defined.
